(* ===== verification/_CoqProject ===== *)
-Q . S2P
Prelude.v
Canonical.v
Persist.v
Toy.v
Config.v
ConfigFacts.v
ConfigLayers.v
Operations.v
OperationFacts.v
OperationRuns.v
Ids.v
Contracts.v
Kahn.v
Goal.v
Evidence.v
Validation.v
ValidationPlan.v
ValidationPlanning.v
ReverseConsumers.v
ValidationFacts.v
ValidationReuse.v
EvidenceSummary.v
GateFacts.v
PermissionPlan.v
PermissionFacts.v
Stage.v
StageFacts.v
Profile.v
ProfileFacts.v
Orchestration.v
GoalStore.v
GoalStoreFacts.v
GoalProgress.v
Routing.v
RoutingFacts.v
Development.v
Coordination.v
CoordinationFacts.v
CodexLifecycle.v
CodexLifecycleFacts.v
Gate.v
Restart.v
Effects.v
ProcessCensus.v
CensusFacts.v
UpdaterPort.v
UpdaterSteps.v
UpdaterWaits.v
Updater.v
UpdaterFacts.v
UpdaterToy.v
UpdaterSafety.v
UpdaterProgress.v
RelaunchFacts.v
InstallSafety.v
SelectorFacts.v
CommandLine.v
Permit.v
ReleaseLifecycle.v
ExternalAnalysis.v
ExternalObservations.v
ReleaseManifest.v
Candidate.v
CandidateFacts.v
ReleaseMachine.v
Publisher.v
ApprovalStore.v
CoordinationStore.v
Evaluation.v
EvaluationDocuments.v
EvaluationFacts.v
BudgetFacts.v
MigrationContracts.v
Migration.v
MigrationFacts.v
