(* ===== verification/Prelude.v ===== *)
(** * Star-Control: a verification library

    Star-Control plans, routes, executes and releases changes made by coding
    agents.  A controller process admits operations and watches the agents; pure
    crates under [crates/] hold the contracts (documents that are sealed with a
    canonical hash and verified wherever they are read) and the decisions made
    on them.  The library models the parts that decide, in the order in which
    they call each other.

    ** The parts

    - Ground: [Canonical.v] (canonical text, hash, fingerprint:
      [star-contracts/src/canonical.rs]), [Ids.v] ([ids.rs]), [Contracts.v],
      [Evidence.v] and [Validation.v] (references, artifacts, validation runs,
      diagnostics, gates and bundles: [evidence.rs]).  A document is sealed by
      hashing its payload; every part below uses this.
    - Validation: [ValidationPlan.v] (the plan as a document:
      [evidence/validation_plan.rs]), [ValidationPlanning.v] (what a change needs:
      [star-validation/src/planning.rs]) with [ReverseConsumers.v] (the search for
      dependents), [ValidationFacts.v] and [ValidationReuse.v] (what a built plan
      covers and what it reuses); [EvidenceSummary.v] and [GateFacts.v] (the gate
      against its runs and the summary of complete evidence);
      [PermissionPlan.v], [PermissionFacts.v] (the actions a change may take:
      [permission_plan.rs]).
    - Planning: [Stage.v], [StageFacts.v] (specifications, results and graphs of
      stages: [stage.rs]); [Profile.v], [ProfileFacts.v] (the catalog of
      development profiles, their resolution, and the stage bound to one:
      [profile.rs] and [stage.rs]); [Orchestration.v] (building and replanning graphs:
      [star-planning/src/orchestration.rs]); [Routing.v], [RoutingFacts.v] (which
      model runs a stage: [star-contracts/src/routing.rs] and
      [star-planning/src/routing.rs]).
    - Goals: [Goal.v] (the record of a goal: [star-contracts/src/orchestration.rs])
      and [GoalStore.v] ([star-controller/src/goal_store.rs]), which keeps the
      goals with every revision of their stage graphs and the results of the
      stages.  [GoalStoreFacts.v] says which files load and that every call keeps
      it so, [GoalProgress.v] what the store promises: completion by evidence,
      final states, one change per revision, repeatable starts, immutable history.
    - Changes over several projects: [Development.v], [Coordination.v],
      [CoordinationFacts.v] ([star-development/src/coordination.rs]).  The merge
      order of a bundle and the cycle test of a stage graph run one worklist,
      [Kahn.v].  The bundles and handoffs are kept by [CoordinationStore.v]
      ([star-controller/src/coordination_store.rs]).
    - Migrations: [MigrationContracts.v] (the documents:
      [star-contracts/src/migration_v2.rs]), [Migration.v] (plans, attempts,
      checkpoints and resumption: [star-development/src/migration_v2.rs]) and
      [MigrationFacts.v].
    - The controller: [CodexLifecycle.v], [CodexLifecycleFacts.v] (what it has
      seen of the agents and when it may stop: [lifecycle.rs]); [Gate.v]
      (admission of concurrent operations: [concurrency_gate.rs]);
      [ApprovalStore.v] (approval requests: [approval_store.rs]);
      [Operations.v], [OperationFacts.v], [OperationRuns.v] (the operations, their
      recovery and their idempotency keys: [operation_store.rs], with the error
      envelope of [ipc.rs]).  All four stores write through [Persist.v].
    - Configuration: [Config.v], [ConfigFacts.v] (the effective configuration, its
      lookup and its merge strategies: [star-contracts/src/config_v1.rs]) and
      [ConfigLayers.v] (the layers of a project, a goal and a command one after
      the other, as [policy_profile.rs] applies them).
    - Applying: [Permit.v] (the single-use permit to write a patch:
      [star-validation/src/permit.rs]).
    - Updating ([star-updater-core/src]): [Restart.v] (the states of a restart of
      the agent: [restart.rs]); [ProcessCensus.v] and [CensusFacts.v] (which
      processes belong to an executable: [process_census.rs]); and the flows of
      [integration_restart.rs] and [lib.rs] as programs of calls to the machine:
      [Effects.v] (such programs, their runs and a weakest-precondition calculus
      over the trace of calls), [UpdaterPort.v] (the calls), [UpdaterSteps.v],
      [UpdaterWaits.v] and [Updater.v] (the code).  [UpdaterFacts.v] has the calls
      each step can make, [UpdaterToy.v] a machine the witnesses run on, and the
      theorems are in [UpdaterSafety.v], [UpdaterProgress.v], [RelaunchFacts.v],
      [InstallSafety.v], [SelectorFacts.v] and [CommandLine.v].
    - Evidence of other tools: [ExternalAnalysis.v] and
      [ExternalObservations.v] ([star-contracts/src/external_analysis.rs]).
    - Releases: [ReleaseManifest.v] ([release_v2.rs]), [Candidate.v],
      [CandidateFacts.v] ([star-release/src/candidate.rs]), [Publisher.v]
      ([publisher.rs]), [ReleaseLifecycle.v] (the install and update rehearsal:
      [lifecycle.rs] of the same crate) and [ReleaseMachine.v], which runs the
      operations of [Candidate.v] as one step relation.  [Evaluation.v],
      [EvaluationDocuments.v], [EvaluationFacts.v] and [BudgetFacts.v] are the
      evaluation of a release: its benchmark, the recommendation drawn from
      the measurements, and the budget of what may be spent
      ([star-release/src/evaluation.rs]).

    ** How the code is rendered

    A struct is a record whose fields carry a short prefix, an enum an inductive
    type, [Result<T, E>] the type [result] below.  Unsigned integers are [N] with the
    bounds, the saturation and the wrapping written where the code has them;
    instants are nanoseconds in [Z].  [String] is [string], a character of the
    source a byte of its UTF-8 text.  [BTreeMap] is [gmap], serialized in key
    order; [BTreeSet] a sorted list without repetition or a [gset].  [sort] is
    the stable insertion sort [sort_by] over the derived order, which is an
    instance of [Cmp].  Every mutable receiver is passed and returned.  A port
    or adapter the code takes as a trait object is a record of functions over a
    state of its own, and the theorems hold whatever it answers.

    Code outside the repository is a parameter: class [Platform] of
    [Canonical.v] (the RFC 8785 text, SHA-256, hexadecimal, RFC 3339, semantic
    versions, ULID text) and class [Instants] of [Persist.v].  No theorem
    assumes that the hash is injective: where a proof needs it, the conclusion
    offers a [collision], two different payloads with one hash.  Laws used as
    hypotheses are in [PlatformLaws], [UlidPartsLaws] and [InstantLaws], which
    hold of the concrete platform of [Toy.v] on which the witnesses evaluate.

    ** What the theorems show

    - Documents: what is sealed verifies, what verifies has the promised shape
      (acyclic graphs, safe parallel groups, exact coverage of a stage by its
      result), and a fingerprint binds the content.
    - Validation: the search finds exactly the dependents; the profile, the units
      and the reuse of results of a plan are stated as equivalences; a summary
      rests on documents that hash to their references.
    - Decisions: routes fit their snapshot; replanning keeps what was completed;
      the merge order exists exactly when the dependencies are acyclic;
      readiness of a release, of a handoff and of an observation is stated as an
      equivalence.
    - Plans: the actions a permission plan allows, the profiles a selection
      resolves to and the stage bound to them, the recommendation drawn from
      measurements and the spending a budget admits are stated as equivalences
      with the condition the code checks; a migration plan is accepted exactly
      when one declared chain connects the versions, its attempts climb in order,
      and a checkpoint it accepted can be continued.
    - State machines, under every history or interleaving: the gate excludes
      and drains, shutdown needs quiet agents, a permit is used once, a restart
      waits for its countdown, approvals are final, revisions do not go back, a
      published release was approved, verified and observed; a finished operation
      is final, an accepted invocation runs once, and a restart settles every
      operation without guessing that a started process did not run.
    - The updater, whatever the machine answers: each change is made under the
      lease, and the lease is given back; only processes of the executable are
      terminated; files change only while Codex is seen to be closed, after the
      countdown; a restart starts the Desktop again; the runtime selector ends at
      the approved generation or at the prior one; and every flow returns.  The
      command line it passes on is split into the arguments it was made of.
    - Configuration: layers only restrict what the sources may not widen, a
      lower layer is obeyed or refused, and the order of layers matters only
      where they meet on an entry one of them may widen.
    - Stores: what is written loads again, whatever becomes of each write; the
      file of a store that does not load is not overwritten.
    - Composition: a bundle the merge queue returns is accepted and served by
      the store that keeps it; a manifest derived from a candidate verifies.
    - Text and numbers: identifiers parse back, base 32 is positional,
      monotonic identifiers increase, rates are compared without rounding.
    - Some theorems record behaviour that is not what the code or its documents
      intend; they are named in the findings of the manifest of this library.

    ** Fuel and bounds

    The worklist of [Kahn.v] runs with the number of its nodes as fuel;
    [worklist_correct] shows that it always suffices.  The inner loop of the
    base 32 text runs with the number of bits it holds, of which each turn
    takes five.  The waiting loop of [Gate.v] takes the polls it sees as a
    list, and [acquire_outcome] says when it goes on.  The binary search of [Config.v] runs with the length of the list, and
    every turn shortens the range.  The breadth-first search of
    [ValidationPlanning.v] takes one unit from its queue per turn, and every unit
    enters the queue once, so one more than the number of dependencies suffices
    ([breadth_first_exact]).  The walks over the parents of a profile
    run with one more than the number of profiles; a path without repetition is no
    longer, and [parent_graph_exact] and [resolution_closure_exact] show that
    it suffices.  The waiting loops of [UpdaterWaits.v] run with two more than
    the number of sleeps that fit in their window; [every_flow_returns] shows that
    this suffices when the clock does not go back and a sleep lasts as long as it
    was told.  The growth of a process tree in [ProcessCensus.v] runs with one
    more than the number of processes, of which each turn adds one
    ([grow_exact]), and the walks up the parents, which stop at a process they
    have visited, with two more.  Everything else is structural recursion.

    ** Not modelled

    Process, pipe, HTTP, SQLite and Win32 adapters (the updater calls them, and
    they answer what they like), the command line, server and updater binaries, generated schemas and constant tables are input and
    output or data; so are the tables and built-in entries of
    [policy_profile.rs].  Project indexing parses sources through third-party
    crates, and the state store and the application services are SQL text and
    the calls around it.  The budgets of [star-development/src/performance.rs]
    and the performance part of [migration_v2.rs] compute with floating-point
    numbers.  The maintenance, planning and audit documents and those of
    [evidence_v2.rs] have the shape of the contracts above (a sealed payload
    and a list of checks) and are left out, and with them the projection of a stored
    gate decision to the gate that [Permit.v] starts from. *)
From stdpp Require Export base tactics list gmap strings sorting.
From Stdlib Require Export ZArith Lia.
From Stdlib Require Ascii.
Export Stdlib.Strings.Ascii (ascii(..), N_of_ascii, ascii_of_N).
Export (notations) Stdlib.Strings.Ascii.

(** ** Results

    [Result<T, E>] of the source: [Ok] or [Err]; the [?] operator is the bind
    notation of [rust_scope]. *)

Inductive result (A E : Type) : Type :=
| Ok (a : A)
| Err (e : E).
Arguments Ok {A E} a.
Arguments Err {A E} e.

Declare Scope rust_scope.
Delimit Scope rust_scope with rust.

Notation "'let?' x ':=' c 'in' k" :=
  (match c with Ok x => k | Err e => Err e end)
  (at level 10, x pattern, c at level 200, k at level 200) : rust_scope.
Notation "'check' b 'else' e 'in' k" :=
  (if b then Err e else k)
  (at level 10, b at level 100, e at level 100, k at level 200,
   only parsing) : rust_scope.
Open Scope rust_scope.

#[global] Instance result_eq_dec {A E} `{EqDecision A, EqDecision E} :
  EqDecision (result A E).
Proof. solve_decision. Defined.

Definition is_ok {A E} (r : result A E) : bool :=
  match r with Ok _ => true | Err _ => false end.

Definition is_err {A E} (r : result A E) : bool :=
  match r with Ok _ => false | Err _ => true end.

Definition map_err {A E F} (f : E → F) (r : result A E) : result A F :=
  match r with Ok a => Ok a | Err e => Err (f e) end.

(** [Option::ok_or]. *)
Definition ok_or {A E} (o : option A) (e : E) : result A E :=
  match o with Some a => Ok a | None => Err e end.

Definition is_some {A} (o : option A) : bool :=
  match o with Some _ => true | None => false end.

Definition is_none {A} (o : option A) : bool :=
  match o with Some _ => false | None => true end.

(** [Option::is_some_and] and [Option::is_none_or]. *)
Definition is_some_and {A} (o : option A) (p : A → bool) : bool :=
  match o with Some a => p a | None => false end.

Definition is_none_or {A} (o : option A) (p : A → bool) : bool :=
  match o with Some a => p a | None => true end.

(** [Iterator::map(f).collect::<Result<Vec<_>, _>>()]: the first error wins. *)
Fixpoint map_result {A B E} (f : A → result B E) (l : list A) : result (list B) E :=
  match l with
  | [] => Ok []
  | x :: l' => let? y := f x in let? ys := map_result f l' in Ok (y :: ys)
  end.

(** A [for] loop whose body returns early on an error. *)
Fixpoint fold_result {S A E} (f : S → A → result S E) (s : S) (l : list A) : result S E :=
  match l with
  | [] => Ok s
  | x :: l' => let? s' := f s x in fold_result f s' l'
  end.

(** ** Machine integers

    Unsigned integers are [N]; additions that can leave the width are written
    with the source's overflow behaviour. *)

Definition u16_max : N := 2 ^ 16 - 1.
Definition u32_max : N := 2 ^ 32 - 1.
Definition u64_max : N := 2 ^ 64 - 1.

(** [saturating_add] at a maximum, and the wrapping [+] of a release build. *)
Definition saturating_add (max a b : N) : N := N.min max (a + b).
Definition wrapping_add (max a b : N) : N := (a + b) mod (max + 1).

(** [u64::checked_add]. *)
Definition checked_add64 (a b : N) : option N := if (a + b <=? u64_max)%N then Some (a + b)%N else None.

(** A cast to [u32] keeps the low bits. *)
Definition as_u32 (n : N) : N := n mod 2 ^ 32.

(** Lengths are [usize]. *)
Definition len {A} (l : list A) : N := N.of_nat (length l).
Definition slen (s : string) : N := N.of_nat (String.length s).

(** ** Orders

    [Ord] of the source: a comparison function, with its laws apart, so that
    executable definitions need only the function. *)

Class Cmp (A : Type) := cmp : A → A → comparison.

Class CmpLaws (A : Type) `{Cmp A} : Prop := {
  cmp_eq_iff : ∀ x y : A, cmp x y = Eq ↔ x = y;
  cmp_antisym : ∀ x y : A, cmp y x = CompOpp (cmp x y);
  cmp_lt_trans : ∀ x y z : A, cmp x y = Lt → cmp y z = Lt → cmp x z = Lt
}.

Definition cmp_leb {A} `{Cmp A} (x y : A) : bool :=
  match cmp x y with Gt => false | _ => true end.

Definition cmp_ltb {A} `{Cmp A} (x y : A) : bool :=
  match cmp x y with Lt => true | _ => false end.

(** Comparison through a key ([sort_by_key], and derived orders by tuples). *)
Definition cmp_on {A K} `{Cmp K} (f : A → K) : Cmp A := λ x y, cmp (f x) (f y).

#[global] Instance N_cmp : Cmp N := N.compare.
#[global] Instance Z_cmp : Cmp Z := Z.compare.
#[global] Instance string_cmp : Cmp string := String.compare.
#[global] Instance bool_cmp : Cmp bool := λ x y,
  match x, y with
  | false, true => Lt
  | true, false => Gt
  | _, _ => Eq
  end.

#[global] Instance prod_cmp {A B} `{Cmp A, Cmp B} : Cmp (A * B) := λ x y,
  match cmp x.1 y.1 with Eq => cmp x.2 y.2 | c => c end.

#[global] Instance option_cmp {A} `{Cmp A} : Cmp (option A) := λ x y,
  match x, y with
  | None, None => Eq
  | None, Some _ => Lt
  | Some _, None => Gt
  | Some a, Some b => cmp a b
  end.

#[global] Instance list_cmp {A} `{Cmp A} : Cmp (list A) :=
  fix go (x y : list A) : comparison :=
    match x, y with
    | [], [] => Eq
    | [], _ :: _ => Lt
    | _ :: _, [] => Gt
    | a :: x', b :: y' => match cmp a b with Eq => go x' y' | c => c end
    end.

(** ** Sorting

    [sort]/[sort_by] of the source is stable; so is insertion from the right
    that puts an element before the first one not smaller than it. *)

Fixpoint insert_by {A} (le : A → A → bool) (x : A) (l : list A) : list A :=
  match l with
  | [] => [x]
  | y :: l' => if le x y then x :: y :: l' else y :: insert_by le x l'
  end.

Definition sort_by {A} (le : A → A → bool) (l : list A) : list A :=
  foldr (insert_by le) [] l.

Definition sort_by_key {A K} `{Cmp K} (f : A → K) : list A → list A :=
  sort_by (λ x y, cmp_leb (f x) (f y)).

(** [dedup]: removes consecutive repetitions. *)
Fixpoint dedup_after {A} `{EqDecision A} (x : A) (l : list A) : list A :=
  match l with
  | [] => []
  | y :: l' => if bool_decide (y = x) then dedup_after x l' else y :: dedup_after y l'
  end.

Definition dedup {A} `{EqDecision A} (l : list A) : list A :=
  match l with [] => [] | x :: l' => x :: dedup_after x l' end.

(** The source's [values.sort(); values.dedup();]. *)
Definition sort_dedup {A} `{Cmp A} `{EqDecision A} (l : list A) : list A :=
  dedup (sort_by cmp_leb l).

(** [values.windows(2).any(p)]. *)
Fixpoint windows2_any {A} (p : A → A → bool) (l : list A) : bool :=
  match l with
  | x :: ((y :: _) as l') => p x y || windows2_any p l'
  | _ => false
  end.

(** [collect::<BTreeSet<_>>().len()]. *)
Definition distinct_count {A} `{EqDecision A} (l : list A) : N :=
  len (remove_dups l).

Definition mem {A} `{EqDecision A} (x : A) (l : list A) : bool :=
  existsb (λ y, bool_decide (x = y)) l.

(** [is_empty()] of a vector; [collect::<BTreeSet<_>>().len() != len()]; and
    [!is_disjoint()]. *)
Definition no_items {A} (l : list A) : bool :=
  match l with [] => true | _ => false end.

Definition has_repetition {A} `{EqDecision A} (l : list A) : bool :=
  negb (distinct_count l =? len l)%N.

Definition meets {A} `{EqDecision A} (a b : list A) : bool := existsb (λ x, mem x b) a.

(** [iter().any(|x| bad(x) || !seen.insert(key(x)))] with a [BTreeSet]. *)
Fixpoint any_or_repeated {A K} `{EqDecision K} (bad : A → bool) (key : A → K) (seen : list K)
    (l : list A) : bool :=
  match l with
  | [] => false
  | x :: l' => bad x || mem (key x) seen || any_or_repeated bad key (key x :: seen) l'
  end.

(** ** Strings

    A [str] is its UTF-8 byte sequence; [slen] is [str::len], and the order of
    [string_cmp] is the bytewise order of the source. *)

Definition byte (c : ascii) : N := N_of_ascii c.

Definition NUL : ascii := ascii_of_N 0.

Fixpoint bytes_all (p : N → bool) (s : string) : bool :=
  match s with
  | EmptyString => true
  | String c s' => p (byte c) && bytes_all p s'
  end.

Definition bytes_any (p : N → bool) (s : string) : bool :=
  negb (bytes_all (λ b, negb (p b)) s).

(** [str::contains] of one byte, [starts_with], [ends_with], [strip_prefix]. *)
Definition contains_char (c : ascii) (s : string) : bool :=
  bytes_any (N.eqb (byte c)) s.

Definition is_empty (s : string) : bool :=
  match s with EmptyString => true | _ => false end.

Fixpoint strip_prefix (p s : string) : option string :=
  match p, s with
  | EmptyString, _ => Some s
  | String a p', String b s' => if Ascii.eqb a b then strip_prefix p' s' else None
  | String _ _, EmptyString => None
  end.

Definition starts_with (p s : string) : bool := is_some (strip_prefix p s).

Definition starts_with_char (p : N → bool) (s : string) : bool :=
  match s with String c _ => p (byte c) | EmptyString => false end.

Fixpoint ends_with_char (p : N → bool) (s : string) : bool :=
  match s with
  | EmptyString => false
  | String c EmptyString => p (byte c)
  | String _ s' => ends_with_char p s'
  end.

(** [str::split(c)]: always at least one piece. *)
Fixpoint split_char (c : ascii) (s : string) : list string :=
  match s with
  | EmptyString => [EmptyString]
  | String a s' =>
      if Ascii.eqb a c then EmptyString :: split_char c s'
      else match split_char c s' with
           | w :: ws => String a w :: ws
           | [] => [String a EmptyString]
           end
  end.

Definition in_range (lo hi b : N) : bool := (lo <=? b)%N && (b <=? hi)%N.

Definition is_ascii_digit (b : N) : bool := in_range 48 57 b.
Definition is_ascii_lower (b : N) : bool := in_range 97 122 b.
Definition is_ascii_upper (b : N) : bool := in_range 65 90 b.
Definition is_ascii_alphanumeric (b : N) : bool :=
  is_ascii_digit b || is_ascii_lower b || is_ascii_upper b.
Definition is_ascii_hexdigit (b : N) : bool :=
  is_ascii_digit b || in_range 97 102 b || in_range 65 70 b.
Definition is_ascii_graphic (b : N) : bool := in_range 33 126 b.

Definition byte_in (l : list ascii) (b : N) : bool :=
  existsb (λ c, (byte c =? b)%N) l.

(** [str::trim] removes Unicode [White_Space] on both sides.  The characters
    are U+0009-000D, U+0020, U+0085, U+00A0, U+1680, U+2000-200A, U+2028,
    U+2029, U+202F, U+205F and U+3000, here by their UTF-8 encodings. *)
Definition white1 (a : N) : bool := in_range 9 13 a || (a =? 32)%N.
Definition white2 (a b : N) : bool :=
  (a =? 194)%N && ((b =? 133)%N || (b =? 160)%N).
Definition white3 (a b c : N) : bool :=
  ((a =? 225)%N && (b =? 154)%N && (c =? 128)%N)
  || ((a =? 226)%N && (b =? 128)%N
      && (in_range 128 138 c || (c =? 168)%N || (c =? 169)%N || (c =? 175)%N))
  || ((a =? 226)%N && (b =? 129)%N && (c =? 159)%N)
  || ((a =? 227)%N && (b =? 128)%N && (c =? 128)%N).

(** [str::chars().any(char::is_whitespace)]: the encodings above start with
    bytes that no other encoding contains. *)
Fixpoint has_whitespace (s : string) : bool :=
  match s with
  | EmptyString => false
  | String a s1 =>
      white1 (byte a)
      || match s1 with
         | EmptyString => false
         | String b s2 =>
             white2 (byte a) (byte b)
             || match s2 with
                | EmptyString => false
                | String c _ => white3 (byte a) (byte b) (byte c)
                end
         end
      || has_whitespace s1
  end.

Fixpoint trim_start (s : string) : string :=
  match s with
  | EmptyString => EmptyString
  | String a s1 =>
      if white1 (byte a) then trim_start s1
      else match s1 with
           | EmptyString => s
           | String b s2 =>
               if white2 (byte a) (byte b) then trim_start s2
               else match s2 with
                    | EmptyString => s
                    | String c s3 =>
                        if white3 (byte a) (byte b) (byte c) then trim_start s3 else s
                    end
           end
  end.

(** The same from the end, on the reversed bytes. *)
Fixpoint trim_rev (s : string) : string :=
  match s with
  | EmptyString => EmptyString
  | String a s1 =>
      if white1 (byte a) then trim_rev s1
      else match s1 with
           | EmptyString => s
           | String b s2 =>
               if white2 (byte b) (byte a) then trim_rev s2
               else match s2 with
                    | EmptyString => s
                    | String c s3 =>
                        if white3 (byte c) (byte b) (byte a) then trim_rev s3 else s
                    end
           end
  end.

Definition trim_end (s : string) : string := String.rev (trim_rev (String.rev s)).
Definition trim (s : string) : string := trim_end (trim_start s).

(** [trim().is_empty()], the source's test for blank text. *)
Definition blank (s : string) : bool := is_empty (trim s).

(** [trim_end_matches] of a set of one-byte characters. *)
Fixpoint drop_chars (p : N → bool) (s : string) : string :=
  match s with
  | EmptyString => EmptyString
  | String c s' => if p (byte c) then drop_chars p s' else s
  end.

Definition trim_end_matches (p : N → bool) (s : string) : string :=
  String.rev (drop_chars p (String.rev s)).

Definition ascii_lower (c : ascii) : ascii :=
  if is_ascii_upper (byte c) then ascii_of_N (byte c + 32) else c.

Fixpoint to_ascii_lowercase (s : string) : string :=
  match s with
  | EmptyString => EmptyString
  | String c s' => String (ascii_lower c) (to_ascii_lowercase s')
  end.

(** The number a byte string spells, most significant byte first, after [acc]. *)
Fixpoint bytes_number (s : string) (acc : N) : N :=
  match s with
  | EmptyString => acc
  | String c s' => bytes_number s' (acc * 256 + byte c)
  end.

Lemma byte_lt (c : ascii) : (byte c < 256)%N.
Proof. unfold byte. apply Ascii.N_ascii_bounded. Qed.

(** ** Tactics

    [bool_to_prop] turns the boolean connectives and comparisons of the
    hypotheses into propositions; [solve_ifs] splits the goal's conditions;
    [err_cases] runs through the early returns of a [result] computation. *)

Create HintDb star.
Create Rewrite HintDb star_rw.

Ltac bool_to_prop :=
  repeat match goal with
  | H : _ && _ = true |- _ => apply andb_true_iff in H; destruct H
  | H : _ || _ = false |- _ => apply orb_false_iff in H; destruct H
  | H : negb _ = true |- _ => apply negb_true_iff in H
  | H : negb _ = false |- _ => apply negb_false_iff in H
  | H : (_ =? _)%N = true |- _ => apply N.eqb_eq in H
  | H : (_ =? _)%N = false |- _ => apply N.eqb_neq in H
  | H : (_ <? _)%N = true |- _ => apply N.ltb_lt in H
  | H : (_ <? _)%N = false |- _ => apply N.ltb_ge in H
  | H : (_ <=? _)%N = true |- _ => apply N.leb_le in H
  | H : (_ <=? _)%N = false |- _ => apply N.leb_gt in H
  | H : (_ <? _)%Z = true |- _ => apply Z.ltb_lt in H
  | H : (_ <? _)%Z = false |- _ => apply Z.ltb_ge in H
  | H : (_ <=? _)%Z = true |- _ => apply Z.leb_le in H
  | H : (_ <=? _)%Z = false |- _ => apply Z.leb_gt in H
  | H : bool_decide _ = true |- _ => apply bool_decide_eq_true in H
  | H : bool_decide _ = false |- _ => apply bool_decide_eq_false in H
  | H : String.eqb _ _ = true |- _ => apply String.eqb_eq in H
  | H : String.eqb _ _ = false |- _ => apply String.eqb_neq in H
  | H : is_true _ |- _ => unfold is_true in H
  end.

Ltac solve_ifs :=
  repeat match goal with
  | |- context [if ?b then _ else _] => destruct b eqn:?
  end; simplify_eq/=; try done.

Ltac err_cases H :=
  repeat match type of H with
  | (if ?b then Err _ else _) = Ok _ => destruct b eqn:?; [discriminate H|]
  | (match ?r with Ok _ => _ | Err _ => _ end) = Ok _ =>
      destruct r eqn:?; [|discriminate H]
  | _ => match goal with u : unit |- _ => destruct u end
  end.

(** One check that did not return the error of [H]. *)
Ltac next_check H :=
  match type of H with
  | (if ?b then Err _ else _) = _ => destruct b eqn:?; [discriminate H|]
  end.

(** ** Lists against boolean tests *)

Lemma existsb_false {A} (p : A → bool) l :
  existsb p l = false ↔ ∀ x, x ∈ l → p x = false.
Proof.
  induction l as [|x l IH]; simpl; [set_solver|].
  rewrite orb_false_iff, IH. set_solver.
Qed.

Lemma existsb_true {A} (p : A → bool) l :
  existsb p l = true ↔ ∃ x, x ∈ l ∧ p x = true.
Proof.
  rewrite existsb_exists. by setoid_rewrite list_elem_of_In.
Qed.

Lemma forallb_true {A} (p : A → bool) l :
  forallb p l = true ↔ ∀ x, x ∈ l → p x = true.
Proof. rewrite forallb_forall. by setoid_rewrite list_elem_of_In. Qed.

(** A test of finitely many numbers, evaluated. *)
Lemma below_all (k : nat) (p : N → bool) :
  forallb (λ i, p (N.of_nat i)) (seq 0 k) = true → ∀ n, (n < N.of_nat k)%N → p n = true.
Proof.
  intros Hp n Hn. rewrite forallb_true in Hp. rewrite <-(N2Nat.id n). apply Hp, elem_of_seq. lia.
Qed.

Lemma mem_true {A} `{EqDecision A} (x : A) l : mem x l = true ↔ x ∈ l.
Proof.
  unfold mem. rewrite existsb_true. split.
  - intros (y & Hy & He%bool_decide_eq_true). by subst.
  - intros Hx. exists x. by rewrite bool_decide_eq_true.
Qed.

Lemma mem_false {A} `{EqDecision A} (x : A) l : mem x l = false ↔ x ∉ l.
Proof. rewrite <-mem_true. by destruct (mem x l). Qed.

Lemma map_result_Forall2 {A B E} (f : A → result B E) l l' :
  map_result f l = Ok l' ↔ Forall2 (λ x y, f x = Ok y) l l'.
Proof.
  split.
  - revert l'. induction l as [|x l IH]; intros l' Hl; simpl in Hl.
    { simplify_eq. constructor. }
    destruct (f x) eqn:E1; [|done]. destruct (map_result f l) eqn:E2; [|done].
    simplify_eq. constructor; auto.
  - induction 1 as [|x y l l' Hxy _ IH]; simpl; [done|]. by rewrite Hxy, IH.
Qed.

Lemma distinct_count_NoDup {A} `{EqDecision A} (l : list A) :
  distinct_count l = len l → NoDup l.
Proof.
  unfold distinct_count, len. intros Hl.
  assert (l ≡ₚ remove_dups l) as ->; [|apply NoDup_remove_dups].
  symmetry. apply submseteq_length_Permutation; [|lia].
  apply NoDup_submseteq; [apply NoDup_remove_dups|]. intros x. by rewrite elem_of_remove_dups.
Qed.

Lemma distinct_count_spec {A} `{EqDecision A} (l : list A) :
  (distinct_count l =? len l)%N = true ↔ NoDup l.
Proof.
  rewrite N.eqb_eq. split; [apply distinct_count_NoDup|]. intros Hnd. unfold distinct_count, len.
  f_equal. apply Permutation_length, NoDup_Permutation; [apply NoDup_remove_dups|done|].
  intros x. apply elem_of_remove_dups.
Qed.

Lemma distinct_keys_spec {A K} `{EqDecision K} (f : A → K) (l : list A) :
  (distinct_count (map f l) =? len l)%N = true ↔ NoDup (map f l).
Proof. rewrite <-distinct_count_spec. unfold len. by rewrite length_map. Qed.

Lemma no_items_spec {A} (l : list A) : no_items l = true ↔ l = [].
Proof. by destruct l. Qed.

Lemma has_repetition_false {A} `{EqDecision A} (l : list A) : has_repetition l = false ↔ NoDup l.
Proof. unfold has_repetition. rewrite negb_false_iff. apply distinct_count_spec. Qed.

Lemma nil_spec {A} (l : list A) : l = [] ↔ ∀ x, x ∉ l.
Proof.
  split; [intros -> x; apply not_elem_of_nil|]. intros Hx. destruct l as [|x l]; [done|].
  destruct (Hx x). left.
Qed.

Lemma is_some_spec {A} (o : option A) : is_some o = true ↔ ∃ a, o = Some a.
Proof. destruct o; naive_solver. Qed.

Lemma ok_or_Ok {A E} (o : option A) (e : E) a : ok_or o e = Ok a ↔ o = Some a.
Proof. destruct o; naive_solver. Qed.

Lemma windows2_any_false {A} (p : A → A → bool) l :
  windows2_any p l = false ↔ ∀ l1 x y l2, l = l1 ++ x :: y :: l2 → p x y = false.
Proof.
  split.
  - intros Hw l1. revert l Hw. induction l1 as [|z l1 IH]; intros l Hw x y l2 ->.
    + cbn in Hw. by apply orb_false_iff in Hw as [? _].
    + eapply IH; [|done]. destruct l1; apply orb_false_iff in Hw as [_ Hw]; exact Hw.
  - induction l as [|x [|y l] IH]; [done..|]. intros Hall.
    change (p x y || windows2_any p (y :: l) = false). apply orb_false_iff. split.
    + by apply (Hall [] x y l).
    + apply IH. intros l1 a b l2 Heq. apply (Hall (x :: l1) a b l2). by rewrite Heq.
Qed.

(** ** Laws of the orders *)

Section cmp_facts.
Context {A : Type} `{CmpLaws A}.
Implicit Types x y z : A.

Lemma cmp_refl x : cmp x x = Eq.
Proof. by apply cmp_eq_iff. Qed.

Lemma cmp_gt_lt x y : cmp x y = Gt ↔ cmp y x = Lt.
Proof. rewrite (cmp_antisym x y). by destruct (cmp x y). Qed.

Lemma cmp_leb_refl x : cmp_leb x x = true.
Proof. unfold cmp_leb. by rewrite cmp_refl. Qed.

Lemma cmp_leb_total x y : cmp_leb x y = false → cmp_leb y x = true.
Proof.
  unfold cmp_leb. rewrite (cmp_antisym x y). by destruct (cmp x y).
Qed.

Lemma cmp_leb_trans x y z :
  cmp_leb x y = true → cmp_leb y z = true → cmp_leb x z = true.
Proof.
  unfold cmp_leb. intros Hxy Hyz.
  destruct (cmp x y) eqn:E1; [| |done]; (destruct (cmp y z) eqn:E2; [| |done]).
  - apply cmp_eq_iff in E1 as ->. by rewrite E2.
  - apply cmp_eq_iff in E1 as ->. by rewrite E2.
  - apply cmp_eq_iff in E2 as <-. by rewrite E1.
  - by rewrite (cmp_lt_trans x y z E1 E2).
Qed.

Lemma cmp_leb_antisym x y : cmp_leb x y = true → cmp_leb y x = true → x = y.
Proof.
  unfold cmp_leb. rewrite (cmp_antisym x y).
  destruct (cmp x y) eqn:E; try done. intros _ _. by apply cmp_eq_iff.
Qed.

Lemma cmp_ltb_leb x y : cmp_ltb x y = true ↔ cmp_leb x y = true ∧ x ≠ y.
Proof.
  unfold cmp_ltb, cmp_leb. destruct (cmp x y) eqn:E; split; try done.
  - apply cmp_eq_iff in E. naive_solver.
  - split; [done|]. intros ->. by rewrite cmp_refl in E.
  - naive_solver.
Qed.

Lemma cmp_ltb_irrefl x : cmp_ltb x x = false.
Proof. unfold cmp_ltb. by rewrite cmp_refl. Qed.

Lemma cmp_ltb_trans x y z :
  cmp_ltb x y = true → cmp_ltb y z = true → cmp_ltb x z = true.
Proof.
  unfold cmp_ltb. destruct (cmp x y) eqn:E1, (cmp y z) eqn:E2; try done.
  by rewrite (cmp_lt_trans x y z E1 E2).
Qed.

Lemma cmp_ltb_not_leb x y : cmp_ltb x y = negb (cmp_leb y x).
Proof.
  unfold cmp_ltb, cmp_leb. rewrite (cmp_antisym x y). by destruct (cmp x y).
Qed.
End cmp_facts.

#[export] Hint Resolve cmp_leb_refl cmp_leb_total cmp_leb_trans cmp_ltb_trans : star.

Section cmp_on_laws.
Context {A K : Type} `{CmpLaws K} (f : A → K) `{!Inj (=) (=) f}.

Lemma cmp_on_laws : @CmpLaws A (cmp_on f).
Proof.
  split; unfold cmp, cmp_on; intros.
  - rewrite cmp_eq_iff. split; [apply (inj f)|by intros ->].
  - apply cmp_antisym.
  - by eapply cmp_lt_trans.
Qed.
End cmp_on_laws.

#[global] Instance N_cmp_laws : CmpLaws N.
Proof.
  split; unfold cmp, N_cmp; intros.
  - apply N.compare_eq_iff.
  - apply N.compare_antisym.
  - by eapply N.lt_trans.
Qed.

#[global] Instance Z_cmp_laws : CmpLaws Z.
Proof.
  split; unfold cmp, Z_cmp; intros.
  - apply Z.compare_eq_iff.
  - apply Z.compare_antisym.
  - by eapply Z.lt_trans.
Qed.

#[global] Instance bool_cmp_laws : CmpLaws bool.
Proof. split; intros; by destruct x, y; try destruct z. Qed.

#[global] Instance string_cmp_laws : CmpLaws string.
Proof.
  assert (∀ x, String.compare x x = Eq) as Hrefl.
  { intros x. induction x as [|a x IH]; [done|]. simpl.
    unfold Ascii.compare. by rewrite N.compare_refl. }
  split; unfold cmp, string_cmp; intros.
  - split; [apply String.compare_eq_iff|by intros ->].
  - rewrite String.compare_antisym. done.
  - pose proof (transitivity (R := String.le) (x := x) (y := y) (z := z)) as Htr.
    unfold String.le, String.leb in Htr. rewrite H, H0 in Htr.
    destruct (String.compare x z) eqn:E; [|done|by destruct Htr].
    apply String.compare_eq_iff in E as ->.
    rewrite String.compare_antisym, H0 in H. done.
Qed.

#[global] Instance prod_cmp_laws {A B} `{CmpLaws A, CmpLaws B} : CmpLaws (A * B).
Proof.
  split; unfold cmp, prod_cmp.
  - intros [a b] [a' b']; simpl. destruct (cmp a a') eqn:E.
    + apply cmp_eq_iff in E as ->. rewrite cmp_eq_iff. naive_solver.
    + split; [done|]. intros [= -> ->]. by rewrite cmp_refl in E.
    + split; [done|]. intros [= -> ->]. by rewrite cmp_refl in E.
  - intros [a b] [a' b']; simpl. rewrite (cmp_antisym a a').
    destruct (cmp a a'); try done. apply cmp_antisym.
  - intros [a b] [a' b'] [a'' b'']; simpl.
    destruct (cmp a a') eqn:E1; try done.
    + apply cmp_eq_iff in E1 as ->. destruct (cmp a' a''); try done.
      apply cmp_lt_trans.
    + intros _. destruct (cmp a' a'') eqn:E2; try done; intros _.
      * apply cmp_eq_iff in E2 as <-. by rewrite E1.
      * by rewrite (cmp_lt_trans _ _ _ E1 E2).
Qed.

#[global] Instance list_cmp_laws {A} `{CmpLaws A} : CmpLaws (list A).
Proof.
  split; unfold cmp.
  - intros x. induction x as [|a x IH]; intros [|b y]; try done. simpl.
    destruct (cmp a b) eqn:E.
    + apply cmp_eq_iff in E as ->. rewrite IH. naive_solver.
    + split; [done|]. intros [= -> ->]. by rewrite cmp_refl in E.
    + split; [done|]. intros [= -> ->]. by rewrite cmp_refl in E.
  - intros x. induction x as [|a x IH]; intros [|b y]; try done. simpl.
    rewrite (cmp_antisym a b). destruct (cmp a b); try done. apply IH.
  - intros x. induction x as [|a x IH]; intros [|b y] [|c z]; try done. simpl.
    destruct (cmp a b) eqn:E1; try done.
    + apply cmp_eq_iff in E1 as ->. destruct (cmp b c); try done. apply IH.
    + intros _. destruct (cmp b c) eqn:E2; try done; intros _.
      * apply cmp_eq_iff in E2 as <-. by rewrite E1.
      * by rewrite (cmp_lt_trans _ _ _ E1 E2).
Qed.

(** Lexicographic comparison, one component at a time. *)
Lemma cmp_pair {A B} `{Cmp A, Cmp B} (a a' : A) (b b' : B) :
  cmp (a, b) (a', b') = match cmp a a' with Eq => cmp b b' | c => c end.
Proof. reflexivity. Qed.

Ltac cmp_pair_in H :=
  match type of H with
  | context [cmp (?a, ?b) (?c, ?d)] => rewrite (cmp_pair a c b d) in H
  end.
Ltac cmp_pair_goal :=
  match goal with
  | |- context [cmp (?a, ?b) (?c, ?d)] => rewrite (cmp_pair a c b d)
  end.

#[global] Instance option_cmp_laws {A} `{CmpLaws A} : CmpLaws (option A).
Proof.
  split; unfold cmp, option_cmp.
  - intros [a|] [b|]; try done. rewrite cmp_eq_iff. naive_solver.
  - intros [a|] [b|]; try done. apply cmp_antisym.
  - intros [a|] [b|] [c|]; try done. apply cmp_lt_trans.
Qed.

(** ** Sorting facts *)

Section sort_facts.
Context {A : Type} (le : A → A → bool).

Lemma insert_by_perm x l : insert_by le x l ≡ₚ x :: l.
Proof.
  induction l as [|y l IH]; simpl; [done|]. destruct (le x y); [done|].
  rewrite IH. constructor.
Qed.

Lemma sort_by_perm l : sort_by le l ≡ₚ l.
Proof.
  induction l as [|x l IH]; simpl; [done|]. by rewrite insert_by_perm, IH.
Qed.

Lemma elem_of_sort_by x l : x ∈ sort_by le l ↔ x ∈ l.
Proof. by rewrite sort_by_perm. Qed.

Lemma sort_by_length l : length (sort_by le l) = length l.
Proof. by rewrite sort_by_perm. Qed.

Hypothesis le_total : ∀ x y, le x y = false → le y x = true.
Hypothesis le_trans : ∀ x y z, le x y = true → le y z = true → le x z = true.

Lemma insert_by_sorted x l :
  StronglySorted (λ a b, le a b = true) l →
  StronglySorted (λ a b, le a b = true) (insert_by le x l).
Proof.
  induction 1 as [|y l Hs IH Hall]; simpl; [repeat constructor|].
  destruct (le x y) eqn:E.
  - constructor; [by constructor|]. constructor; [done|].
    eapply Forall_impl; [exact Hall|]. simpl; eauto.
  - constructor; [done|]. rewrite insert_by_perm. constructor; auto.
Qed.

Lemma sort_by_sorted l : StronglySorted (λ a b, le a b = true) (sort_by le l).
Proof. induction l; simpl; [constructor|by apply insert_by_sorted]. Qed.

Lemma sort_by_id l :
  StronglySorted (λ a b, le a b = true) l → sort_by le l = l.
Proof.
  induction 1 as [|x l Hs IH Hall]; simpl; [done|]. rewrite IH.
  destruct l as [|y l]; [done|]. simpl. inversion_clear Hall. by rewrite H.
Qed.

Lemma sort_by_idemp l : sort_by le (sort_by le l) = sort_by le l.
Proof. apply sort_by_id, sort_by_sorted. Qed.
End sort_facts.

(** Sorted without repetition: what [sort(); dedup();] leaves, and what the
    validators test with [windows(2)]. *)
Definition strictly_sorted {A} `{Cmp A} : list A → Prop :=
  StronglySorted (λ a b, cmp_ltb a b = true).

Section dedup_facts.
Context {A : Type} `{EqDecision A} `{CmpLaws A}.
Implicit Types l : list A.

Lemma elem_of_dedup_after x l y : y ∈ x :: dedup_after x l ↔ y ∈ x :: l.
Proof.
  revert x. induction l as [|z l IH]; intros x; simpl; [done|].
  case_bool_decide; subst.
  - rewrite IH. set_solver.
  - specialize (IH z). set_solver.
Qed.

Lemma elem_of_sort_dedup l y : y ∈ sort_dedup l ↔ y ∈ l.
Proof.
  unfold sort_dedup. rewrite <-(elem_of_sort_by cmp_leb y l).
  destruct (sort_by cmp_leb l); simpl; [done|]. apply elem_of_dedup_after.
Qed.

Lemma dedup_after_strict x l :
  StronglySorted (λ a b, cmp_leb a b = true) (x :: l) →
  strictly_sorted (x :: dedup_after x l).
Proof.
  unfold strictly_sorted.
  revert x. induction l as [|y l IH]; intros x Hs; simpl.
  { repeat constructor. }
  inversion Hs as [|? ? Hs' Hall]; subst. case_bool_decide; subst; [by apply IH|].
  specialize (IH y Hs'). constructor; [done|].
  assert (cmp_ltb x y = true).
  { apply cmp_ltb_leb. inversion Hall; subst. auto. }
  constructor; [done|]. inversion IH; subst.
  eapply Forall_impl; [eassumption|]. simpl. intros z Hz. by eapply cmp_ltb_trans.
Qed.

Lemma sort_dedup_strict l : strictly_sorted (sort_dedup l).
Proof.
  unfold sort_dedup.
  pose proof (sort_by_sorted cmp_leb cmp_leb_total cmp_leb_trans l) as Hs.
  destruct (sort_by cmp_leb l); simpl; [constructor|]. by apply dedup_after_strict.
Qed.

Lemma strict_weaken l :
  strictly_sorted l → StronglySorted (λ a b, cmp_leb a b = true) l.
Proof.
  induction 1 as [|x l Hs IH Hall]; constructor; [done|].
  eapply Forall_impl; [exact Hall|]. simpl. intros y Hy.
  by apply cmp_ltb_leb in Hy as [? _].
Qed.

Lemma dedup_after_id x l : strictly_sorted (x :: l) → dedup_after x l = l.
Proof.
  revert x. induction l as [|y l IH]; intros x Hs; simpl; [done|].
  inversion Hs as [|? ? Hs' Hall]; subst. inversion Hall as [|? ? Hxy]; subst.
  rewrite bool_decide_eq_false_2; [by rewrite IH|].
  intros ->. by rewrite cmp_ltb_irrefl in Hxy.
Qed.

Lemma sort_dedup_id l : strictly_sorted l → sort_dedup l = l.
Proof.
  intros Hs. unfold sort_dedup. rewrite (sort_by_id cmp_leb) by by apply strict_weaken.
  destruct l; simpl; [done|]. f_equal. by apply dedup_after_id.
Qed.

Lemma sort_dedup_idemp l : sort_dedup (sort_dedup l) = sort_dedup l.
Proof. apply sort_dedup_id, sort_dedup_strict. Qed.

Lemma strict_NoDup l : strictly_sorted l → NoDup l.
Proof.
  induction 1 as [|x l Hs IH Hall]; constructor; [|done].
  intros Hin. rewrite Forall_forall in Hall. specialize (Hall x Hin).
  simpl in Hall. by rewrite cmp_ltb_irrefl in Hall.
Qed.

Lemma windows2_strict l :
  windows2_any (λ a b, cmp_leb b a) l = false ↔ strictly_sorted l.
Proof.
  unfold strictly_sorted. split.
  - intros Hw. apply Sorted_StronglySorted.
    { intros x y z. apply cmp_ltb_trans. }
    induction l as [|x [|y l] IH]; [repeat constructor..|].
    cbn [windows2_any] in Hw. apply orb_false_iff in Hw as [Hxy Hw].
    constructor; [auto|]. constructor. by rewrite cmp_ltb_not_leb, Hxy.
  - induction 1 as [|x l Hs IH Hall]; simpl; [done|].
    destruct l as [|y l]; [done|]. inversion Hall as [|? ? Hxy]; subst.
    rewrite cmp_ltb_not_leb in Hxy. apply negb_true_iff in Hxy. by rewrite Hxy.
Qed.
End dedup_facts.

#[export] Hint Rewrite @sort_dedup_idemp @elem_of_sort_dedup using typeclasses eauto : star_rw.

(** ** Prefixes *)

Lemma strip_prefix_spec p s r : strip_prefix p s = Some r ↔ s = p +:+ r.
Proof.
  revert s. induction p as [|a p IH]; intros s.
  { simpl. naive_solver. }
  destruct s as [|b s]; simpl. 1: done.
  destruct (Ascii.eqb a b) eqn:E.
  - apply Ascii.eqb_eq in E as ->. rewrite IH. split; [by intros ->|by intros [= ->]].
  - apply Ascii.eqb_neq in E. split; [done|by intros [= -> _]].
Qed.

Lemma sort_dedup_NoDup_perm {A} `{EqDecision A} `{CmpLaws A} (l : list A) :
  NoDup l → sort_dedup l ≡ₚ l.
Proof.
  intros Hnd. apply NoDup_Permutation; [apply strict_NoDup, sort_dedup_strict|done|].
  intros x. apply elem_of_sort_dedup.
Qed.

Lemma sorted_map {A B} (f : A → B) (R : B → B → Prop) l :
  StronglySorted (λ a b, R (f a) (f b)) l → StronglySorted R (map f l).
Proof. induction 1; simpl; constructor; [done|]. by apply Forall_map. Qed.

Lemma sorted_NoDup_strict {A} `{CmpLaws A} (l : list A) :
  StronglySorted (λ a b, cmp_leb a b = true) l → NoDup l → strictly_sorted l.
Proof.
  induction 1 as [|x l Hs IH Hall]; intros Hnd; [constructor|].
  apply NoDup_cons in Hnd as [Hx Hnd]. constructor; [by apply IH|].
  rewrite Forall_forall in Hall. apply Forall_forall. intros y Hy.
  apply cmp_ltb_leb. split; [auto|]. by intros ->.
Qed.

(** [sort_by_key] on distinct keys sorts the keys strictly. *)
Lemma sorted_keys_strict {A K} `{CmpLaws K} (f : A → K) l :
  NoDup (map f (sort_by_key f l)) → strictly_sorted (map f (sort_by_key f l)).
Proof.
  intros Hnd. apply sorted_NoDup_strict; [|done]. apply sorted_map. unfold sort_by_key.
  apply sort_by_sorted; intros; [by apply cmp_leb_total|by eapply cmp_leb_trans].
Qed.

Lemma sort_by_key_sorted {A K} `{CmpLaws K} (f : A → K) l :
  StronglySorted (λ a b, cmp_leb (f a) (f b) = true) (sort_by_key f l).
Proof.
  apply sort_by_sorted; intros; [by apply cmp_leb_total|by eapply cmp_leb_trans].
Qed.

Lemma sort_by_key_perm {A K} `{Cmp K} (f : A → K) l : sort_by_key f l ≡ₚ l.
Proof. apply sort_by_perm. Qed.

Lemma sort_by_key_id {A K} `{CmpLaws K} (f : A → K) l :
  StronglySorted (λ a b, cmp_leb (f a) (f b) = true) l → sort_by_key f l = l.
Proof. apply sort_by_id. Qed.

Lemma sort_by_key_idem {A K} `{CmpLaws K} (f : A → K) l :
  sort_by_key f (sort_by_key f l) = sort_by_key f l.
Proof.
  apply sort_by_idemp; intros; [by apply cmp_leb_total|by eapply cmp_leb_trans].
Qed.

(** Neighbours of a sorted list with distinct keys. *)
Lemma sorted_distinct_strict {A K} `{CmpLaws K} (same : A → A → bool) (f : A → K) l :
  (∀ a b, same a b = true ↔ f a = f b) →
  windows2_any same (sort_by_key f l) = false ↔ strictly_sorted (map f (sort_by_key f l)).
Proof.
  intros Hsame. pose proof (sort_by_key_sorted f l) as Hs. revert Hs.
  generalize (sort_by_key f l). clear l. intros l Hs. rewrite <-windows2_strict.
  induction Hs as [|x l Hs IH Hall]; [done|]. destruct l as [|y l]; [done|].
  change (same x y || windows2_any same (y :: l) = false ↔
    cmp_leb (f y) (f x) || windows2_any (λ a b, cmp_leb b a) (map f (y :: l)) = false).
  rewrite !orb_false_iff, IH. apply and_iff_compat_r. apply Forall_inv in Hall.
  split; intros Hn.
  - destruct (cmp_leb (f y) (f x)) eqn:E; [|done]. rewrite <-Hn. symmetry. apply Hsame.
    by apply cmp_leb_antisym.
  - destruct (same x y) eqn:E; [|done]. apply Hsame in E. by rewrite E, cmp_leb_refl in Hn.
Qed.

(** Sorting by a key, refusing different entries of one key, and removing the
    repeated ones. *)
Definition keyed_conflict {A K} `{EqDecision A, EqDecision K} (key : A → K) (l : list A) : bool :=
  windows2_any (λ a b, bool_decide (key a = key b) && negb (bool_decide (a = b))) l.

Section keyed.
Context {A K : Type} `{EqDecision A, EqDecision K, CmpLaws K} (key : A → K).

Lemma dedup_after_keyed x l :
  StronglySorted (λ a b, cmp_leb (key a) (key b) = true) (x :: l) →
  keyed_conflict key (x :: l) = false →
  strictly_sorted (map key (x :: dedup_after x l)).
Proof.
  unfold strictly_sorted, keyed_conflict. revert x.
  induction l as [|y l IH]; intros x Hs Hc; [repeat constructor|].
  apply StronglySorted_inv in Hs as [Hs Hall].
  cbn [windows2_any] in Hc. apply orb_false_iff in Hc as [Hxy Hc]. cbn [dedup_after].
  destruct (decide (y = x)) as [->|Hne].
  { rewrite bool_decide_eq_true_2 by done. by apply IH. }
  rewrite bool_decide_eq_false_2 by done. cbn [map] in *.
  specialize (IH y Hs Hc). constructor; [done|].
  apply Forall_inv in Hall. apply andb_false_iff in Hxy as [Hk|Hk].
  - apply bool_decide_eq_false in Hk.
    assert (cmp_ltb (key x) (key y) = true) as Hlt by (by apply cmp_ltb_leb).
    constructor; [done|]. apply StronglySorted_inv in IH as [_ IH].
    eapply Forall_impl; [exact IH|]. simpl. intros k Hyk. by eapply cmp_ltb_trans.
  - apply negb_false_iff, bool_decide_eq_true in Hk. by subst.
Qed.

Lemma sorted_keyed_strict l :
  keyed_conflict key (sort_by_key key l) = false →
  strictly_sorted (map key (dedup (sort_by_key key l))).
Proof.
  pose proof (sort_by_key_sorted key l) as Hs. destruct (sort_by_key key l) as [|x l'].
  - constructor.
  - by apply dedup_after_keyed.
Qed.

Lemma keyed_strict_sort l : strictly_sorted (map key l) → sort_by_key key l = l.
Proof.
  intros Hs. apply sort_by_key_id. induction l as [|x l IH]; [constructor|].
  apply StronglySorted_inv in Hs as [Hs Hall]. constructor; [by apply IH|].
  apply Forall_map in Hall. eapply Forall_impl; [exact Hall|]. simpl. intros y Hy.
  by apply cmp_ltb_leb in Hy as [? _].
Qed.

Lemma keyed_strict_conflict l : strictly_sorted (map key l) → keyed_conflict key l = false.
Proof.
  unfold strictly_sorted, keyed_conflict.
  induction l as [|x [|y l] IH]; intros Hs; [done..|].
  apply StronglySorted_inv in Hs as [Hs Hall]. apply orb_false_iff. split; [|by apply IH].
  apply Forall_inv in Hall. apply andb_false_iff. left. apply bool_decide_eq_false.
  intros Heq. simpl in Hall. by rewrite Heq, cmp_ltb_irrefl in Hall.
Qed.

Lemma keyed_strict_dedup l : strictly_sorted (map key l) → dedup l = l.
Proof.
  intros Hs. destruct l as [|x l]; [done|]. cbn [dedup]. f_equal. revert x Hs.
  induction l as [|y l IH]; intros x Hs; [done|]. cbn [dedup_after].
  apply StronglySorted_inv in Hs as [Hs Hall]. apply Forall_inv in Hall. simpl in Hall.
  rewrite bool_decide_eq_false_2; [by rewrite IH|]. intros ->. by rewrite cmp_ltb_irrefl in Hall.
Qed.
End keyed.

Lemma elem_of_dedup {A} `{EqDecision A} (l : list A) x : x ∈ dedup l ↔ x ∈ l.
Proof.
  destruct l as [|y l]; [done|]. cbn [dedup]. revert y. induction l as [|z l IH]; intros y; [done|].
  cbn [dedup_after]. destruct (decide (z = y)) as [->|Hne].
  - rewrite bool_decide_eq_true_2 by done. rewrite IH, !elem_of_cons. tauto.
  - rewrite bool_decide_eq_false_2 by done. rewrite (elem_of_cons _ _ y), IH, !elem_of_cons. tauto.
Qed.

Lemma windows2_any_snoc {A} (p : A → A → bool) l x :
  windows2_any p (l ++ [x]) = windows2_any p l || is_some_and (last l) (λ y, p y x).
Proof.
  induction l as [|a l IH]; [done|]. destruct l as [|b l]; [simpl; by rewrite orb_false_r|].
  change (p a b || windows2_any p ((b :: l) ++ [x])
    = (p a b || windows2_any p (b :: l)) || is_some_and (last (a :: b :: l)) (λ y, p y x)).
  by rewrite IH, orb_assoc.
Qed.

(** ** Maps in key order

    A [BTreeMap] is a finite map that lists its entries in key order. *)
Definition btree_entries {K V} `{Countable K} `{Cmp K} (m : gmap K V) : list (K * V) :=
  sort_by_key fst (map_to_list m).

Section btree.
Context {K V : Type} `{Countable K} `{CmpLaws K}.
Implicit Types m : gmap K V.

Lemma btree_entries_perm m : btree_entries m ≡ₚ map_to_list m.
Proof. apply sort_by_perm. Qed.

Lemma btree_entries_inj m1 m2 : btree_entries m1 = btree_entries m2 → m1 = m2.
Proof. intros Heq. apply map_to_list_inj. by rewrite <-!btree_entries_perm, Heq. Qed.

Lemma elem_of_btree_entries m k v : (k, v) ∈ btree_entries m ↔ m !! k = Some v.
Proof. by rewrite btree_entries_perm, elem_of_map_to_list. Qed.

(** A test of every entry of a map, as a property of the map. *)
Lemma entries_false (p : K * V → bool) m :
  existsb p (btree_entries m) = false ↔ map_Forall (λ k v, p (k, v) = false) m.
Proof.
  rewrite existsb_false, map_Forall_lookup. split.
  - intros Hall k v Hk. apply Hall. by apply elem_of_btree_entries.
  - intros Hall [k v] Hin. apply Hall. by apply elem_of_btree_entries.
Qed.

Lemma entries_true (p : K * V → bool) m :
  existsb p (btree_entries m) = true ↔ ∃ k v, m !! k = Some v ∧ p (k, v) = true.
Proof.
  rewrite existsb_true. split.
  - intros ([k v] & Hin & Hp). apply elem_of_btree_entries in Hin. eauto.
  - intros (k & v & Hk & Hp). exists (k, v). by rewrite elem_of_btree_entries.
Qed.

Definition key_order (a b : K * V) : Prop := cmp_ltb a.1 b.1 = true.

Lemma btree_entries_strict m : StronglySorted key_order (btree_entries m).
Proof.
  assert (StronglySorted (λ a b, cmp_leb a.1 b.1 = true) (btree_entries m)) as Hs.
  { apply sort_by_sorted; intros; [by apply cmp_leb_total|by eapply cmp_leb_trans]. }
  assert (NoDup (map fst (btree_entries m))) as Hnd.
  { rewrite btree_entries_perm. apply NoDup_fst_map_to_list. }
  revert Hs Hnd. generalize (btree_entries m) as l.
  induction 1 as [|[k v] l Hs IH Hall]; simpl; intros Hnd; [constructor|].
  apply NoDup_cons in Hnd as [Hk Hnd]. constructor; [by apply IH|].
  rewrite Forall_forall in Hall. apply Forall_forall. intros [k' v'] Hin.
  apply cmp_ltb_leb. split; [exact (Hall _ Hin)|]. simpl. intros ->. apply Hk.
  apply list_elem_of_fmap. by exists (k', v').
Qed.

Lemma btree_keys_strict m : strictly_sorted (map fst (btree_entries m)).
Proof. apply sorted_map, btree_entries_strict. Qed.

(** Entries in strict key order are the entries of the map that has them. *)
Lemma btree_entries_unique m (l : list (K * V)) :
  StronglySorted key_order l → (∀ k v, (k, v) ∈ l ↔ m !! k = Some v) → btree_entries m = l.
Proof.
  assert (∀ a b, key_order a b → ¬ key_order b a) as Hasym.
  { unfold key_order. intros a b Hab Hba. pose proof (cmp_ltb_trans _ _ _ Hab Hba) as Hc.
    by rewrite cmp_ltb_irrefl in Hc. }
  assert (AntiSymm (=) key_order) by (intros a b Hab Hba; by destruct (Hasym a b)).
  assert (∀ l', StronglySorted key_order l' → NoDup l') as Hnd.
  { induction 1 as [|a l' Hs IH Hall]; constructor; [|done]. intros Hin.
    rewrite Forall_forall in Hall. specialize (Hall a Hin). by apply (Hasym a a). }
  intros Hs Hin. apply (StronglySorted_unique key_order); [apply btree_entries_strict|done|].
  apply NoDup_Permutation; [apply Hnd, btree_entries_strict|by apply Hnd|].
  intros [k v]. by rewrite elem_of_btree_entries, Hin.
Qed.

(** A key beyond all others comes last. *)
Lemma btree_entries_insert_last m k v :
  (∀ k', is_Some (m !! k') → cmp_ltb k' k = true) →
  btree_entries (<[k := v]> m) = btree_entries m ++ [(k, v)].
Proof.
  intros Hlast. assert (m !! k = None) as Hk.
  { destruct (m !! k) as [v'|] eqn:Hk; [|done]. specialize (Hlast k (mk_is_Some _ _ Hk)).
    by rewrite cmp_ltb_irrefl in Hlast. }
  apply btree_entries_unique.
  - assert (Forall (λ a, key_order a (k, v)) (btree_entries m)) as Hall.
    { apply Forall_forall. intros [k' v'] Hin%elem_of_btree_entries. apply Hlast. by exists v'. }
    revert Hall. induction (btree_entries_strict m) as [|a l Hs IH Ha]; simpl; intros Hall.
    + repeat constructor.
    + apply Forall_cons in Hall as [Hak Hall]. constructor; [by apply IH|].
      apply Forall_app. split; [done|]. by constructor.
  - intros k' v'. rewrite elem_of_app, list_elem_of_singleton, elem_of_btree_entries,
      lookup_insert_Some. split.
    + intros [Hk'|[= -> ->]]; [right|by left]. split; [congruence|done].
    + intros [[-> ->]|[_ Hk']]; auto.
Qed.

End btree.

Lemma sort_dedup_length_NoDup {A} `{EqDecision A} `{CmpLaws A} (l : list A) :
  length (sort_dedup l) = length l → NoDup l.
Proof.
  intros Hlen. assert (NoDup (sort_dedup l)) as Hnd by by apply strict_NoDup, sort_dedup_strict.
  assert (sort_dedup l ≡ₚ l) as <-; [|done].
  apply submseteq_length_Permutation; [|lia].
  apply NoDup_submseteq; [done|]. intros x. apply elem_of_sort_dedup.
Qed.

Lemma existsb_map {A B} (f : A → B) (p : B → bool) l :
  existsb p (map f l) = existsb (λ x, p (f x)) l.
Proof. induction l as [|x l IH]; simpl; [done|]. by rewrite IH. Qed.

Lemma prefix_snoc_inv {A} (k l : list A) (x : A) :
  k `prefix_of` l ++ [x] → k = l ++ [x] ∨ k `prefix_of` l.
Proof.
  intros [k' Hk]. destruct k' as [|y k' _] using rev_ind.
  - left. by rewrite app_nil_r in Hk.
  - right. rewrite (assoc_L (++)) in Hk. apply app_inj_2 in Hk as [-> _]; [|done]. by exists k'.
Qed.

(** Sorting forgets the order it is given. *)
Lemma sort_by_perm_eq {A} `{CmpLaws A} (l1 l2 : list A) :
  l1 ≡ₚ l2 → sort_by cmp_leb l1 = sort_by cmp_leb l2.
Proof.
  intros Hp. pose (R := λ a b : A, cmp_leb a b = true).
  assert (AntiSymm (=) R) by (intros x y; apply cmp_leb_antisym).
  apply (StronglySorted_unique R).
  - apply sort_by_sorted; [apply cmp_leb_total|apply cmp_leb_trans].
  - apply sort_by_sorted; [apply cmp_leb_total|apply cmp_leb_trans].
  - by rewrite !sort_by_perm.
Qed.

Lemma sort_by_cmp_idemp {A} `{CmpLaws A} (l : list A) :
  sort_by cmp_leb (sort_by cmp_leb l) = sort_by cmp_leb l.
Proof. apply sort_by_perm_eq, sort_by_perm. Qed.

Lemma sort_dedup_eq {A} `{EqDecision A} `{CmpLaws A} (l l' : list A) :
  sort_dedup l = sort_dedup l' ↔ ∀ x, x ∈ l ↔ x ∈ l'.
Proof.
  split.
  - intros He x. by rewrite <-(elem_of_sort_dedup l), He, elem_of_sort_dedup.
  - intros Hx. rewrite <-(sort_dedup_id (sort_dedup l)) by apply sort_dedup_strict.
    rewrite <-(sort_dedup_id (sort_dedup l')) by apply sort_dedup_strict.
    unfold sort_dedup at 1 3. f_equal. apply sort_by_perm_eq.
    apply NoDup_Permutation; [apply strict_NoDup, sort_dedup_strict..|].
    intros x. by rewrite !elem_of_sort_dedup.
Qed.

Lemma sort_dedup_nil {A} `{EqDecision A, CmpLaws A} (l : list A) : sort_dedup l = [] ↔ l = [].
Proof.
  split; [|by intros ->]. intros Hl. destruct l as [|x l]; [done|].
  assert (x ∈ sort_dedup (x :: l)) as Hx by (apply elem_of_sort_dedup; left).
  rewrite Hl in Hx. by apply elem_of_nil in Hx.
Qed.

(** ** Trimming twice *)

Lemma trim_start_idem s : trim_start (trim_start s) = trim_start s.
Proof.
  assert (∀ n s, String.length s < n → trim_start (trim_start s) = trim_start s) as Hgen;
    [|by apply (Hgen (S (String.length s))); lia].
  clear s. induction n as [|n IH]; intros s Hlen; [lia|].
  destruct s as [|a s1]; [done|]. simpl in Hlen |- *.
  destruct (white1 (byte a)) eqn:E1; [apply IH; lia|].
  destruct s1 as [|b s2]; [simpl; by rewrite E1|]. simpl in Hlen |- *.
  destruct (white2 (byte a) (byte b)) eqn:E2; [apply IH; lia|].
  destruct s2 as [|c s3]; [simpl; by rewrite E1, E2|]. simpl in Hlen |- *.
  destruct (white3 (byte a) (byte b) (byte c)) eqn:E3; [apply IH; lia|].
  simpl. by rewrite E1, E2, E3.
Qed.

Lemma trim_rev_idem s : trim_rev (trim_rev s) = trim_rev s.
Proof.
  assert (∀ n s, String.length s < n → trim_rev (trim_rev s) = trim_rev s) as Hgen;
    [|by apply (Hgen (S (String.length s))); lia].
  clear s. induction n as [|n IH]; intros s Hlen; [lia|].
  destruct s as [|a s1]; [done|]. simpl in Hlen |- *.
  destruct (white1 (byte a)) eqn:E1; [apply IH; lia|].
  destruct s1 as [|b s2]; [simpl; by rewrite E1|]. simpl in Hlen |- *.
  destruct (white2 (byte b) (byte a)) eqn:E2; [apply IH; lia|].
  destruct s2 as [|c s3]; [simpl; by rewrite E1, E2|]. simpl in Hlen |- *.
  destruct (white3 (byte c) (byte b) (byte a)) eqn:E3; [apply IH; lia|].
  simpl. by rewrite E1, E2, E3.
Qed.

Lemma str_app_cons x (a b : string) : String x a +:+ b = String x (a +:+ b).
Proof. reflexivity. Qed.

Lemma str_app_assoc (a b c : string) : (a +:+ b) +:+ c = a +:+ (b +:+ c).
Proof. induction a as [|x a IH]; [done|]. by rewrite !str_app_cons, IH. Qed.

Lemma str_app_nil_r (a : string) : a +:+ EmptyString = a.
Proof. induction a as [|x a IH]; [done|]. by rewrite !str_app_cons, IH. Qed.

Lemma rev_app_spec s t : String.rev_app s t = String.rev s +:+ t.
Proof.
  unfold String.rev. revert t. induction s as [|a s IH]; intros t; simpl; [done|].
  rewrite (IH (String a t)), (IH (String a EmptyString)). by rewrite str_app_assoc.
Qed.

Lemma str_rev_cons a s : String.rev (String a s) = String.rev s +:+ String a EmptyString.
Proof. unfold String.rev at 1. simpl. apply rev_app_spec. Qed.

Lemma str_rev_app s t : String.rev (s +:+ t) = String.rev t +:+ String.rev s.
Proof.
  induction s as [|a s IH]; [by rewrite str_app_nil_r|].
  by rewrite str_app_cons, !str_rev_cons, IH, str_app_assoc.
Qed.

Lemma str_rev_rev s : String.rev (String.rev s) = s.
Proof. induction s as [|a s IH]; [done|]. by rewrite str_rev_cons, str_rev_app, IH. Qed.

(** [trim_rev] drops a prefix, [trim_end] therefore a suffix. *)
Lemma trim_rev_suffix s : ∃ p, s = p +:+ trim_rev s.
Proof.
  assert (∀ n s, String.length s < n → ∃ p, s = p +:+ trim_rev s) as Hgen;
    [|by apply (Hgen (S (String.length s))); lia].
  clear s. induction n as [|n IH]; intros s Hlen; [lia|].
  destruct s as [|a s1]; [by exists EmptyString|]. simpl in Hlen |- *.
  destruct (white1 (byte a)).
  { destruct (IH s1) as [p Hp]; [lia|]. exists (String a p). by rewrite !str_app_cons, <-Hp. }
  destruct s1 as [|b s2]; [by exists EmptyString|]. simpl in Hlen |- *.
  destruct (white2 (byte b) (byte a)).
  { destruct (IH s2) as [p Hp]; [lia|]. exists (String a (String b p)). by rewrite !str_app_cons, <-Hp. }
  destruct s2 as [|c s3]; [by exists EmptyString|]. simpl in Hlen |- *.
  destruct (white3 (byte c) (byte b) (byte a)); [|by exists EmptyString].
  destruct (IH s3) as [p Hp]; [lia|]. exists (String a (String b (String c p))).
  by rewrite !str_app_cons, <-Hp.
Qed.

Lemma trim_end_prefix s : ∃ p, s = trim_end s +:+ p.
Proof.
  unfold trim_end. destruct (trim_rev_suffix (String.rev s)) as [p Hp].
  exists (String.rev p). by rewrite <-str_rev_app, <-Hp, str_rev_rev.
Qed.

Lemma trim_end_idem s : trim_end (trim_end s) = trim_end s.
Proof. unfold trim_end. by rewrite str_rev_rev, trim_rev_idem. Qed.

(** A prefix of a text that starts with no white space starts with none. *)
Lemma trim_start_prefix s p : trim_start (s +:+ p) = s +:+ p → trim_start s = s.
Proof.
  assert (∀ t, String.length (trim_start t) ≤ String.length t) as Hshort.
  { intros t. assert (∀ n t, String.length t < n → String.length (trim_start t) ≤ String.length t)
      as Hgen; [|by apply (Hgen (S (String.length t))); lia].
    clear t. induction n as [|n IH]; intros t Hlen; [lia|].
    destruct t as [|a t1]; [done|]. simpl in Hlen |- *.
    destruct (white1 (byte a)); [specialize (IH t1); lia|].
    destruct t1 as [|b t2]; [done|]. simpl in Hlen |- *.
    destruct (white2 _ _); [specialize (IH t2); lia|].
    destruct t2 as [|c t3]; [done|]. simpl in Hlen |- *.
    destruct (white3 _ _ _); [specialize (IH t3); lia|simpl; lia]. }
  assert (∀ t u, String.length t < String.length u → trim_start t ≠ u) as Hne.
  { intros t u Hlt <-. specialize (Hshort t). lia. }
  destruct s as [|a s]; [done|]. rewrite str_app_cons. cbn [trim_start].
  destruct (white1 (byte a)); [intros Heq; exfalso; revert Heq; apply Hne; simpl; lia|].
  destruct s as [|b s]; [done|]. rewrite str_app_cons. cbn [trim_start].
  destruct (white2 _ _); [intros Heq; exfalso; revert Heq; apply Hne; simpl; lia|].
  destruct s as [|c s]; [done|]. rewrite str_app_cons.
  destruct (white3 _ _ _); [intros Heq; exfalso; revert Heq; apply Hne; simpl; lia|done].
Qed.

Lemma trim_idem s : trim (trim s) = trim s.
Proof.
  unfold trim. destruct (trim_end_prefix (trim_start s)) as [p Hp].
  rewrite (trim_start_prefix (trim_end (trim_start s)) p); [apply trim_end_idem|].
  rewrite <-Hp. apply trim_start_idem.
Qed.

#[export] Hint Rewrite trim_idem : star_rw.

Lemma any_or_repeated_false {A K} `{EqDecision K} (bad : A → bool) (key : A → K) seen l :
  any_or_repeated bad key seen l = false ↔
  Forall (λ x, bad x = false) l ∧ NoDup (map key l) ∧ (∀ x, x ∈ l → key x ∉ seen).
Proof.
  revert seen. induction l as [|x l IH]; intros seen; simpl.
  { split; [|done]. intros _. split_and!; [constructor|constructor|set_solver]. }
  rewrite !orb_false_iff, IH, Forall_cons, NoDup_cons.
  assert (mem (key x) seen = false ↔ key x ∉ seen) as ->.
  { by rewrite mem_false. }
  split.
  - intros [[Hb Hs] (Hl & Hn & Hnew)]. split_and!; try done.
    + intros (y & Heq & Hy)%list_elem_of_fmap. apply (Hnew y Hy). rewrite <-Heq. left.
    + intros y [->|Hy]%elem_of_cons; [done|]. specialize (Hnew y Hy). set_solver.
  - intros ([Hb Hl] & [Hx Hn] & Hnew). split_and!; try done.
    + apply Hnew. left.
    + intros y Hy [Heq|Hin]%elem_of_cons; [|by apply (Hnew y); [right|]].
      apply Hx. apply list_elem_of_fmap. by exists y.
Qed.
