(* ===== verification/Canonical.v ===== *)
(** * Canonical hashing

    Models [crates/foundation/star-contracts/src/canonical.rs] and
    [versioned_fingerprint] of [crates/foundation/star-domain/src/lib.rs].

    What is outside the repository is the [Platform] class: the RFC 8785
    canonicalizer, SHA-256, the hexadecimal codec, the RFC 3339 text of an
    instant, the semantic-version parser and the ULID text.  The theorems on
    documents assume no law of them; those on identifiers use the documented
    behaviour collected in [PlatformLaws]. *)
From S2P Require Import Prelude.

(** [serde_json::Value]; numbers are the integers the source serializes. *)
Inductive Json : Type :=
| JNull
| JBool (b : bool)
| JNum (n : Z)
| JStr (s : string)
| JArr (l : list Json)
| JObj (fields : list (string * Json)).

Class Platform := {
  jcs_to_string : Json → option string;
  sha256 : string → string;
  hex_encode : string → string;
  hex_decode : string → option string;
  rfc3339 : Z → string;
  semver_parse_ok : string → bool;
  ulid_from_string_ok : string → bool;
  ulid_from_bytes : string → string
}.

Definition lower_hex (b : N) : bool := is_ascii_digit b || in_range 97 102 b.

(** Documented behaviour of the [sha2], [hex] and [ulid] crates. *)
Class PlatformLaws `{Platform} : Prop := {
  sha256_length : ∀ s, slen (sha256 s) = 32%N;
  hex_encode_length : ∀ s, slen (hex_encode s) = (2 * slen s)%N;
  hex_encode_lower : ∀ s, bytes_all lower_hex (hex_encode s) = true;
  hex_decode_encode : ∀ s, hex_decode (hex_encode s) = Some s;
  hex_decode_lower : ∀ s, bytes_all lower_hex s = true → (slen s mod 2 = 0)%N →
    ∃ bytes, hex_decode s = Some bytes ∧ hex_encode bytes = s;
  ulid_text : ∀ bytes, slen bytes = 16%N →
    slen (ulid_from_bytes bytes) = 26%N ∧
    bytes_any is_ascii_lower (ulid_from_bytes bytes) = false ∧
    ulid_from_string_ok (ulid_from_bytes bytes) = true
}.

(** Hashes and identifiers are transparent wrappers of [String]. *)
Abbreviation Sha256Hash := string.

Inductive CanonicalError := Jcs | InvalidHash.

#[global] Instance CanonicalError_eq_dec : EqDecision CanonicalError.
Proof. solve_decision. Defined.

Section canonical.
Context `{Platform}.

Definition digest (bytes : string) : Sha256Hash := "sha256:" +:+ hex_encode (sha256 bytes).

Definition Sha256Hash_from_str (value : string) : result Sha256Hash CanonicalError :=
  let valid :=
    (slen value =? 71)%N
    && match strip_prefix "sha256:" value with
       | Some raw => bytes_all lower_hex raw
       | None => false
       end in
  if valid then Ok value else Err InvalidHash.

Definition jcs_bytes (value : Json) : result string CanonicalError :=
  ok_or (jcs_to_string value) Jcs.

Definition canonical_sha256 (value : Json) : result Sha256Hash CanonicalError :=
  let? bytes := jcs_bytes value in Ok (digest bytes).

(** The object [versioned_fingerprint] hashes. *)
Definition versioned_payload (namespace : string) (contract_version : N)
    (payload : Json) : Json :=
  JObj [("algorithm", JStr namespace);
        ("contract_version", JNum (Z.of_N contract_version));
        ("payload", payload)].

Inductive DomainError := DomainFingerprint.

Definition versioned_fingerprint (namespace : string) (contract_version : N)
    (payload : Json) : result Sha256Hash DomainError :=
  map_err (λ _, DomainFingerprint)
    (canonical_sha256 (versioned_payload namespace contract_version payload)).

End canonical.

(** ** Serialization

    [ToJson] is the [Serialize] implementation [serde] derives; an instance per
    structure lists the fields in declaration order with their names. *)

Class ToJson (A : Type) := to_json : A → Json.

#[global] Instance string_to_json : ToJson string := JStr.
#[global] Instance N_to_json : ToJson N := λ n, JNum (Z.of_N n).
#[global] Instance Z_to_json : ToJson Z := JNum.
#[global] Instance bool_to_json : ToJson bool := JBool.
#[global] Instance list_to_json {A} `{ToJson A} : ToJson (list A) :=
  λ l, JArr (map to_json l).
#[global] Instance option_to_json {A} `{ToJson A} : ToJson (option A) :=
  λ o, match o with Some a => to_json a | None => JNull end.

(** A [BTreeMap] with string keys, and a [serde_json::Value]. *)
#[global] Instance btree_to_json {V} `{ToJson V} : ToJson (gmap string V) := λ m,
  JObj (map (λ e : string * V, (e.1, to_json e.2)) (btree_entries m)).
#[global] Instance Json_to_json : ToJson Json := λ j, j.

(** An object whose optional fields are skipped when absent
    ([skip_serializing_if = "Option::is_none"]): one slot per field. *)
Definition field {A} `{ToJson A} (name : string) (a : A) : string * option Json :=
  (name, Some (to_json a)).
Definition opt_field {A} `{ToJson A} (name : string) (o : option A) : string * option Json :=
  (name, to_json <$> o).

Definition present (slots : list (string * option Json)) : list (string * Json) :=
  omap (λ s : string * option Json, (λ v, (s.1, v)) <$> s.2) slots.

(** A structure whose serialization determines it. *)
Class InjJson (A : Type) `{ToJson A} : Prop :=
  to_json_inj : ∀ x y : A, to_json x = to_json y → x = y.

#[global] Instance string_inj_json : InjJson string.
Proof. intros x y. by intros [= ->]. Qed.

#[global] Instance Z_inj_json : InjJson Z.
Proof. intros x y. by intros [= ->]. Qed.

#[global] Instance N_inj_json : InjJson N.
Proof. intros x y [= Heq]. by apply N2Z.inj in Heq. Qed.

#[global] Instance bool_inj_json : InjJson bool.
Proof. intros x y. by intros [= ->]. Qed.

#[global] Instance list_inj_json {A} `{InjJson A} : InjJson (list A).
Proof.
  intros x y [= Heq]. revert y Heq.
  induction x as [|a x IH]; intros [|b y] Heq; simplify_eq/=; [done|].
  f_equal; eauto using to_json_inj.
Qed.

(** Options serialize injectively when no value serializes to [null]. *)
Lemma option_json_inj {A} `{InjJson A} (x y : option A) :
  (∀ a : A, to_json a ≠ JNull) → to_json x = to_json y → x = y.
Proof.
  intros Hn. destruct x as [a|], y as [b|]; unfold to_json; simpl; intros Heq.
  - f_equal. by apply to_json_inj.
  - by destruct (Hn a).
  - by destruct (Hn b).
  - done.
Qed.

#[global] Instance option_string_inj_json : InjJson (option string).
Proof. intros x y. by apply option_json_inj. Qed.

(** *** Reading an object back

    Two objects with the same slots agree on every slot: the serialization of
    each field can be read off the object. *)

Lemma elem_of_present slots k v : (k, v) ∈ present slots ↔ (k, Some v) ∈ slots.
Proof.
  unfold present. rewrite list_elem_of_omap. split.
  - intros ([k' o] & Hin & Heq). simpl in Heq. destruct o; naive_solver.
  - intros Hin. by exists (k, Some v).
Qed.

Lemma present_inj (s1 s2 : list (string * option Json)) :
  NoDup (map fst s1) → map fst s1 = map fst s2 → present s1 = present s2 →
  map snd s1 = map snd s2.
Proof.
  revert s2. induction s1 as [|[k o] s1 IH]; intros [|[k' o'] s2] Hnd Hk Hp; try done.
  simpl in Hk. injection Hk as <- Hk. simpl in Hnd. apply NoDup_cons in Hnd as [Hnew Hnd].
  assert (∀ s (v : Json), k ∉ map fst s → (k, v) ∉ present s) as Hout.
  { intros s v Hout Hin%elem_of_present. apply Hout. apply list_elem_of_fmap. by exists (k, Some v). }
  destruct o as [v|], o' as [v'|]; simpl in *.
  - injection Hp as <- Hp. f_equal. by apply IH.
  - exfalso. apply (Hout s2 v); [congruence|]. unfold present in *. rewrite <-Hp. left.
  - exfalso. apply (Hout s1 v'); [done|]. unfold present in *. rewrite Hp. left.
  - f_equal. by apply IH.
Qed.

Lemma JObj_inj l l' : JObj l = JObj l' → l = l'.
Proof. by intros [= ->]. Qed.

Lemma slot_inj {A} `{InjJson A} (x y : A) (l l' : list (option Json)) :
  Some (to_json x) :: l = Some (to_json y) :: l' → x = y ∧ l = l'.
Proof. intros Heq. injection Heq as Hx ->. split; [by apply to_json_inj|done]. Qed.

Lemma opt_slot_inj {A} `{InjJson A} (x y : option A) (l l' : list (option Json)) :
  (to_json <$> x) :: l = (to_json <$> y) :: l' → x = y ∧ l = l'.
Proof.
  intros Heq. injection Heq as Hx ->. split; [|done].
  destruct x, y; simplify_eq/=; [|done]. f_equal. by apply to_json_inj.
Qed.

Lemma field_inj {A} `{InjJson A} k (x y : A) (l l' : list (string * Json)) :
  (k, to_json x) :: l = (k, to_json y) :: l' → x = y ∧ l = l'.
Proof. intros Heq. injection Heq as Hx ->. split; [by apply to_json_inj|done]. Qed.

Lemma field_obj_inj k o o' (l l' : list (string * Json)) :
  (k, JObj o) :: l = (k, JObj o') :: l' → JObj o = JObj o' ∧ l = l'.
Proof. by intros [= -> ->]. Qed.

(** [peel H] reads the fields of two equal objects off one by one. *)
Ltac peel H :=
  repeat match type of H with
  | JObj (present _) = JObj _ =>
      apply JObj_inj, present_inj in H;
      [cbn [map snd field opt_field] in H | apply (bool_decide_unpack _); vm_compute; exact I | done]
  | JObj _ = JObj _ => apply JObj_inj in H
  | (_, JObj _) :: _ = _ :: _ => let E := fresh "E" in apply field_obj_inj in H as [E H]
  | _ :: _ = _ :: _ =>
      let E := fresh "E" in
      first [ apply slot_inj in H as [E H]
            | apply opt_slot_inj in H as [E H]
            | apply field_inj in H as [E H] ]
  end.

(** ** Collisions

    Equal fingerprints mean equal payloads, unless the hash collides; a
    collision is exhibited rather than assumed away. *)

Definition collision `{Platform} (j1 j2 : Json) : Prop :=
  j1 ≠ j2 ∧ ∃ h, canonical_sha256 j1 = Ok h ∧ canonical_sha256 j2 = Ok h.

#[global] Instance Json_eq_dec : EqDecision Json.
Proof.
  refine (fix go (x y : Json) : Decision (x = y) :=
    let _ : EqDecision Json := go in
    match x, y with
    | JNull, JNull => left eq_refl
    | JBool a, JBool b => cast_if (decide (a = b))
    | JNum a, JNum b => cast_if (decide (a = b))
    | JStr a, JStr b => cast_if (decide (a = b))
    | JArr a, JArr b => cast_if (decide (a = b))
    | JObj a, JObj b => cast_if (decide (a = b))
    | _, _ => right _
    end); congruence.
Defined.

Lemma hash_binds `{Platform} j1 j2 h :
  canonical_sha256 j1 = Ok h → canonical_sha256 j2 = Ok h →
  j1 = j2 ∨ collision j1 j2.
Proof.
  intros H1 H2. destruct (decide (j1 = j2)) as [->|Hne]; [by left|].
  right. split; [done|]. by exists h.
Qed.

Lemma versioned_fingerprint_binds `{Platform} ns v p1 p2 h :
  versioned_fingerprint ns v p1 = Ok h → versioned_fingerprint ns v p2 = Ok h →
  p1 = p2 ∨ collision (versioned_payload ns v p1) (versioned_payload ns v p2).
Proof.
  unfold versioned_fingerprint, map_err. intros H1 H2.
  destruct (canonical_sha256 (versioned_payload ns v p1)) eqn:E1; simplify_eq.
  destruct (canonical_sha256 (versioned_payload ns v p2)) eqn:E2; simplify_eq.
  destruct (hash_binds _ _ _ E1 E2) as [Heq|?]; [|by right].
  left. by injection Heq.
Qed.

(** ** Sealed documents

    A contract document is sealed (normalized, validated, fingerprinted) and
    verified by sealing it again and comparing.  The interface is what clients
    of a sealed document may rely on: sealing a sealed document changes
    nothing. *)

Class Sealing (A E : Type) := {
  seal : A → result A E;
  seal_idem : ∀ a b : A, seal a = Ok b → seal b = Ok b
}.

(** A document that verifies. *)
Definition sealed {A E} `{Sealing A E} (a : A) : Prop := seal a = Ok a.

Lemma seal_sealed {A E} `{Sealing A E} (a b : A) : seal a = Ok b → sealed b.
Proof. apply seal_idem. Qed.

#[export] Hint Resolve seal_sealed : star.

Lemma map_seal_sealed {A E} `{Sealing A E} (l l' : list A) :
  map_result seal l = Ok l' → Forall sealed l'.
Proof.
  revert l'. induction l as [|a l IH]; intros l' Hl; simpl in Hl.
  { simplify_eq. constructor. }
  err_cases Hl. simplify_eq. constructor; eauto with star.
Qed.

Lemma map_sealed {A E} `{Sealing A E} (l : list A) :
  Forall sealed l → map_result seal l = Ok l.
Proof. induction 1 as [|a l Ha _ IH]; simpl; [done|]. by rewrite Ha, IH. Qed.
