(* ===== verification/Persist.v ===== *)
(** * The environment of the controller's stores

    Files written by replacement, and instants.  The environment of the stores that keep a value in memory and write the
    whole of it through a temporary file that an atomic rename puts in place
    ([persist] of [approval_store.rs], [write_private_atomic] of
    [coordination_store.rs], both under [apps/star-controller/src]).  The
    environment chooses how far a write gets; a file's text is its parsed
    value.  Instants are nanoseconds; their RFC 3339 text and the checked
    addition are those of [chrono]. *)
From S2P Require Import Prelude.

(** The write is complete; or it failed before the rename, with an error; or
    the access control update after the rename failed. *)
Inductive persist_outcome (E : Type) := Persisted | PersistLost (e : E) | PersistUnprotected.
Arguments Persisted {E}.
Arguments PersistLost {E} e.
Arguments PersistUnprotected {E}.

(** The file on disk after the write, and what the writer returns. *)
Definition persist {E F : Type} (unprotected : E) (outcome : persist_outcome E) (file : F)
    (disk : option F) : option F * result unit E :=
  match outcome with
  | Persisted => (Some file, Ok tt)
  | PersistLost e => (disk, Err e)
  | PersistUnprotected => (Some file, Err unprotected)
  end.

(** [fs::read] and the strict parser: [ReadParsed None] when the text is not
    accepted. *)
Inductive read_outcome (F : Type) := ReadParsed (parsed : option F) | ReadMissing | ReadFailed.
Arguments ReadParsed {F} parsed.
Arguments ReadMissing {F}.
Arguments ReadFailed {F}.

(** The file a store was read from. *)
Definition read_disk {F : Type} (r : read_outcome F) : option F :=
  match r with ReadParsed parsed => parsed | _ => None end.

(** A property of every file written holds of the file on disk. *)
Lemma persist_good {E F : Type} (P : F → Prop) (unprotected : E) outcome file disk :
  P file → from_option P True disk →
  from_option P True (persist unprotected outcome file disk).1.
Proof. by destruct outcome. Qed.

(** A write that returns [Ok] is on disk. *)
Lemma persist_ok {E F : Type} (unprotected : E) outcome (file : F) disk :
  (persist unprotected outcome file disk).2 = Ok tt ↔ outcome = Persisted.
Proof. by destruct outcome. Qed.

(** ** Instants *)

Class Instants := {
  instant_text : Z → string;
  instant_parse : string → option Z;
  instant_add_ms : Z → N → option Z
}.

(** Documented: years 0 to 9999 have a text with milliseconds that reads back,
    and can be added to. *)
Definition calendar (t : Z) : Prop := (0 <= t < 253402300800 * 10 ^ 9)%Z.

Class InstantLaws `{Instants} : Prop := {
  instant_text_parse : ∀ t, calendar t →
    instant_parse (instant_text t) = Some (t - t mod 10 ^ 6)%Z;
  instant_add_calendar : ∀ t ms, calendar t → calendar (t + Z.of_N ms * 10 ^ 6)%Z →
    instant_add_ms t ms = Some (t + Z.of_N ms * 10 ^ 6)%Z
}.
