(* ===== verification/Toy.v ===== *)
(** * A concrete platform

    An instance of [Platform] on which the model evaluates, for the witnesses
    and the examples: a printer for the canonical text, a polynomial hash of 32
    bytes, the hexadecimal codec, the 26-digit text of a ULID and permissive
    parsers.  The laws of [PlatformLaws] hold of it. *)
From stdpp Require Import pretty.
From S2P Require Import Prelude Canonical Persist.

Definition quote (s : string) : string :=
  String (ascii_of_N 34) s +:+ String (ascii_of_N 34) EmptyString.

Fixpoint print_json (j : Json) : string :=
  match j with
  | JNull => "null"
  | JBool true => "true"
  | JBool false => "false"
  | JNum n => pretty n
  | JStr s => quote s
  | JArr l => "[" +:+ String.concat "," (map print_json l) +:+ "]"
  | JObj l =>
      "{" +:+ String.concat "," (map (λ '(k, v), quote k +:+ ":" +:+ print_json v) l)
          +:+ "}"
  end.

Fixpoint poly_hash (h : N) (s : string) : N :=
  match s with
  | EmptyString => h
  | String c s' => poly_hash (N.land (4 * h + h + byte c + 1) 1099511627775) s'
  end.

(** The lowest [digits] digits of a number in a base that is a power of two,
    most significant first. *)
Fixpoint number_text (digit : N → ascii) (width : N) (digits : nat) (n : N) (acc : string) :
    string :=
  match digits with
  | O => acc
  | S d => number_text digit width d (N.shiftr n width)
             (String (digit (N.land n (N.ones width))) acc)
  end.

Definition hex_digit (n : N) : ascii :=
  if (n <? 10)%N then ascii_of_N (48 + n) else ascii_of_N (87 + n).

Definition hex_value (c : ascii) : option N :=
  if is_ascii_digit (byte c) then Some (byte c - 48)%N
  else if in_range 97 102 (byte c) then Some (byte c - 87)%N
  else None.

Fixpoint toy_hex_encode (s : string) : string :=
  match s with
  | EmptyString => EmptyString
  | String c s' => String (hex_digit (byte c / 16))
                     (String (hex_digit (byte c mod 16)) (toy_hex_encode s'))
  end.

Fixpoint toy_hex_decode (s : string) : option string :=
  match s with
  | EmptyString => Some EmptyString
  | String a (String b s') =>
      match hex_value a, hex_value b, toy_hex_decode s' with
      | Some x, Some y, Some rest => Some (String (ascii_of_N (16 * x + y)) rest)
      | _, _, _ => None
      end
  | String _ EmptyString => None
  end.

Definition ulid_digit (n : N) : ascii :=
  nth (N.to_nat n) (String.list_ascii_of_string "0123456789ABCDEFGHJKMNPQRSTVWXYZ") "0"%char.

Definition ulid_char (b : N) : bool :=
  existsb (λ c, byte c =? b)%N (String.list_ascii_of_string "0123456789ABCDEFGHJKMNPQRSTVWXYZ").

#[global] Instance toy_platform : Platform := {|
  jcs_to_string := λ j, Some (print_json j);
  sha256 := λ s, number_text ascii_of_N 8 32 (poly_hash 7 s) EmptyString;
  hex_encode := toy_hex_encode;
  hex_decode := toy_hex_decode;
  rfc3339 := λ t, pretty t;
  semver_parse_ok := λ s, negb (is_empty s);
  ulid_from_string_ok := λ s, (slen s =? 26)%N && bytes_all ulid_char s;
  ulid_from_bytes := λ s, number_text ulid_digit 5 26 (bytes_number s 0) EmptyString
|}.

Lemma number_text_length digit width digits n acc :
  String.length (number_text digit width digits n acc) = digits + String.length acc.
Proof.
  revert n acc. induction digits as [|d IH]; intros n acc; simpl; [done|]. rewrite IH. simpl. lia.
Qed.

Lemma number_text_all p digit width digits n acc :
  (∀ d, (d < 2 ^ width)%N → p (byte (digit d)) = true) → bytes_all p acc = true →
  bytes_all p (number_text digit width digits n acc) = true.
Proof.
  intros Hp. revert n acc. induction digits as [|d IH]; intros n acc Hacc; simpl; [done|].
  apply IH. simpl. rewrite Hacc, andb_true_r. apply Hp. rewrite N.land_ones.
  apply N.mod_lt. apply N.pow_nonzero. lia.
Qed.

Lemma hex_digit_facts n :
  (n < 16)%N → lower_hex (byte (hex_digit n)) = true ∧ hex_value (hex_digit n) = Some n.
Proof.
  intros Hn.
  pose (p n := lower_hex (byte (hex_digit n)) && bool_decide (hex_value (hex_digit n) = Some n)).
  assert (p n = true) as Hp by (apply (below_all 16 p); [vm_compute; reflexivity|done]).
  unfold p in Hp. by bool_to_prop.
Qed.

Lemma hex_value_digit c :
  lower_hex (byte c) = true →
  ∃ n, hex_value c = Some n ∧ (n < 16)%N ∧ hex_digit n = c.
Proof.
  intros Hc. unfold lower_hex in Hc. unfold hex_value, hex_digit.
  apply orb_true_iff in Hc as [Hc|Hc]; rewrite Hc.
  - exists (byte c - 48)%N. apply andb_true_iff in Hc as [Hl Hh]. bool_to_prop.
    split; [done|]. split; [lia|].
    replace (byte c - 48 <? 10)%N with true by (symmetry; apply N.ltb_lt; lia).
    rewrite (N.add_comm 48), N.sub_add by lia. apply Ascii.ascii_N_embedding.
  - apply andb_true_iff in Hc as [Hl Hh]. bool_to_prop.
    replace (is_ascii_digit (byte c)) with false
      by (symmetry; apply andb_false_iff; right; apply N.leb_gt; lia).
    exists (byte c - 87)%N. split; [done|]. split; [lia|].
    replace (byte c - 87 <? 10)%N with false by (symmetry; apply N.ltb_ge; lia).
    rewrite (N.add_comm 87), N.sub_add by lia. apply Ascii.ascii_N_embedding.
Qed.

#[global] Instance toy_platform_laws : PlatformLaws.
Proof.
  split.
  - intros s. unfold slen, sha256, toy_platform. by rewrite number_text_length.
  - intros s. unfold slen. simpl hex_encode.
    induction s as [|c s IH]; [done|]. cbn [toy_hex_encode String.length]. lia.
  - intros s. simpl. induction s as [|c s IH]; [done|]. pose proof (byte_lt c).
    cbn [toy_hex_encode bytes_all]. rewrite IH.
    rewrite (proj1 (hex_digit_facts (byte c / 16) ltac:(apply N.Div0.div_lt_upper_bound; lia))).
    by rewrite (proj1 (hex_digit_facts (byte c mod 16) ltac:(by apply N.mod_lt))).
  - intros s. simpl. induction s as [|c s IH]; [done|]. pose proof (byte_lt c).
    cbn [toy_hex_encode toy_hex_decode]. rewrite IH.
    rewrite (proj2 (hex_digit_facts (byte c / 16) ltac:(apply N.Div0.div_lt_upper_bound; lia))).
    rewrite (proj2 (hex_digit_facts (byte c mod 16) ltac:(by apply N.mod_lt))).
    rewrite <-N.Div0.div_mod. unfold byte. by rewrite Ascii.ascii_N_embedding.
  - intros s. simpl. assert (∀ n s, String.length s < n → bytes_all lower_hex s = true →
      (slen s mod 2 = 0)%N → ∃ bytes, toy_hex_decode s = Some bytes ∧ toy_hex_encode bytes = s)
      as Hgen; [|by apply (Hgen (S (String.length s))); lia].
    clear s. induction n as [|n IH]; intros s Hlen Hs Hev; [lia|].
    destruct s as [|a [|b s]]; [by exists EmptyString|done|].
    cbn [bytes_all] in Hs. apply andb_true_iff in Hs as [Ha [Hb Hs]%andb_true_iff].
    simpl in Hlen. destruct (IH s) as (bytes & Hd & He); [lia|done|..].
    { unfold slen in *. simpl String.length in Hev.
      replace (N.of_nat (S (S (String.length s)))) with (N.of_nat (String.length s) + 1 * 2)%N
        in Hev by lia. by rewrite N.Div0.mod_add in Hev. }
    destruct (hex_value_digit a Ha) as (x & Hx & Hxl & Hxa).
    destruct (hex_value_digit b Hb) as (y & Hy & Hyl & Hyb).
    exists (String (ascii_of_N (16 * x + y)) bytes). cbn [toy_hex_decode toy_hex_encode].
    rewrite Hx, Hy, Hd. split; [done|]. unfold byte.
    rewrite Ascii.N_ascii_embedding by lia.
    rewrite (N.mul_comm 16 x), N.div_add_l, N.div_small, N.add_0_r by lia.
    rewrite N.add_comm, N.Div0.mod_add, N.mod_small by lia. by rewrite Hxa, Hyb, He.
  - intros bytes _. unfold slen, ulid_from_bytes, ulid_from_string_ok, toy_platform, bytes_any.
    unfold slen. rewrite number_text_length. split; [done|]. split.
    + rewrite number_text_all; [done| |done].
      apply (below_all 32 (λ d, negb (is_ascii_lower (byte (ulid_digit d))))). by vm_compute.
    + rewrite number_text_all; [done| |done].
      apply (below_all 32 (λ d, ulid_char (byte (ulid_digit d)))). by vm_compute.
Qed.

Example toy_digest_valid :
  Sha256Hash_from_str (digest "unsealed") = Ok (digest "unsealed").
Proof. vm_compute. reflexivity. Qed.

(** ** Instants *)

Lemma bytes_number_text k n acc a :
  bytes_number (number_text ascii_of_N 8 k n acc) a
  = bytes_number acc (a * 256 ^ N.of_nat k + n mod 256 ^ N.of_nat k).
Proof.
  revert n acc. induction k as [|k IH]; intros n acc; cbn [number_text].
  { simpl. by rewrite N.mul_1_r, N.mod_1_r, N.add_0_r. }
  rewrite IH. cbn [bytes_number]. f_equal.
  rewrite N.land_ones, N.shiftr_div_pow2. change (2 ^ 8)%N with 256%N.
  unfold byte. rewrite Ascii.N_ascii_embedding by (apply N.mod_lt; lia).
  rewrite Nat2N.inj_succ, N.pow_succ_r', N.Div0.mod_mul_r. lia.
Qed.

(** Six bytes of milliseconds. *)
#[global] Instance toy_instants : Instants := {|
  instant_text := λ t, number_text ascii_of_N 8 6 (Z.to_N (t / 10 ^ 6)) EmptyString;
  instant_parse := λ s,
    if (slen s =? 6)%N then Some (Z.of_N (bytes_number s 0) * 10 ^ 6)%Z else None;
  instant_add_ms := λ t ms, Some (t + Z.of_N ms * 10 ^ 6)%Z
|}.

#[global] Instance toy_instant_laws : InstantLaws.
Proof.
  split; [|done]. intros t [H0 H1]. unfold instant_parse, instant_text, toy_instants, slen.
  rewrite number_text_length, bytes_number_text. cbn [bytes_number].
  assert (0 <= t / 10 ^ 6 < 253402300800 * 10 ^ 3)%Z as Hd.
  { split; [apply Z.div_pos; lia|]. apply Z.div_lt_upper_bound; lia. }
  replace (N.of_nat (6 + String.length EmptyString) =? 6)%N with true by reflexivity. f_equal.
  rewrite N.mul_0_l, N.add_0_l, N.mod_small.
  - rewrite Z2N.id by lia. pose proof (Z.div_mod t (10 ^ 6)). lia.
  - change (256 ^ N.of_nat 6)%N with (Z.to_N (2 ^ 48)). apply Z2N.inj_lt; lia.
Qed.
