(* ===== verification/Config.v ===== *)
(** * Effective configuration

    Models [crates/foundation/star-contracts/src/config_v1.rs]: typed entries
    with a merge strategy each, sealed with a fingerprint, and the layers that
    change them: which keys and values a layer may name, and what the merge of
    each strategy gives.  A [serde_json] object lists its fields in key order. *)
From S2P Require Import Prelude Canonical.

Definition EFFECTIVE_CONFIG_V1_SCHEMA_ID : string := "star.effective-config".

Inductive ConfigSourceKindV1 :=
| BuiltIn | PolicyProfile | User | Project | SourceGoal | Command | PlatformConstraint.

Inductive ConfigMergeStrategyV1 :=
| Replace | DeepMerge | MostRestrictive | MinimumLimit | Intersection | Union | Immutable
| PolicyAllowThenFalseWins | TrueWins | FalseWins | MaximumFloor | ExplicitWidening.

Inductive ConfigValueV1 :=
| ConfigBoolean (b : bool) | ConfigInteger (n : N) | ConfigString (s : string)
| ConfigStringSet (l : list string) | ConfigJson (j : Json).

Inductive EffectiveConfigError :=
| ConfigIdentity | ConfigEntries | ConfigProvenance | ConfigValue | ConfigFingerprint
| ConfigMerge.

#[global] Instance ConfigSourceKindV1_eq_dec : EqDecision ConfigSourceKindV1.
Proof. solve_decision. Defined.
#[global] Instance ConfigMergeStrategyV1_eq_dec : EqDecision ConfigMergeStrategyV1.
Proof. solve_decision. Defined.
#[global] Instance ConfigValueV1_eq_dec : EqDecision ConfigValueV1.
Proof. solve_decision. Defined.
#[global] Instance EffectiveConfigError_eq_dec : EqDecision EffectiveConfigError.
Proof. solve_decision. Defined.

(** The derived order: the declaration order of the variants. *)
Definition ConfigSourceKindV1_index (k : ConfigSourceKindV1) : N :=
  match k with
  | BuiltIn => 0 | PolicyProfile => 1 | User => 2 | Project => 3 | SourceGoal => 4
  | Command => 5 | PlatformConstraint => 6
  end.

#[global] Instance ConfigSourceKindV1_cmp : Cmp ConfigSourceKindV1 :=
  cmp_on ConfigSourceKindV1_index.
#[global] Instance ConfigSourceKindV1_cmp_laws : CmpLaws ConfigSourceKindV1.
Proof.
  assert (Inj (=) (=) ConfigSourceKindV1_index) by (intros [] []; done). by apply cmp_on_laws.
Qed.

#[global] Instance ConfigSourceKindV1_to_json : ToJson ConfigSourceKindV1 := λ k,
  JStr match k with
       | BuiltIn => "built_in" | PolicyProfile => "policy_profile" | User => "user"
       | Project => "project" | SourceGoal => "goal" | Command => "command"
       | PlatformConstraint => "platform_constraint"
       end.

#[global] Instance ConfigMergeStrategyV1_to_json : ToJson ConfigMergeStrategyV1 := λ s,
  JStr match s with
       | Replace => "replace" | DeepMerge => "deep_merge"
       | MostRestrictive => "most_restrictive" | MinimumLimit => "minimum_limit"
       | Intersection => "intersection" | Union => "union" | Immutable => "immutable"
       | PolicyAllowThenFalseWins => "policy_allow_then_false_wins"
       | TrueWins => "true_wins" | FalseWins => "false_wins" | MaximumFloor => "maximum_floor"
       | ExplicitWidening => "explicit_widening"
       end.

#[global] Instance ConfigValueV1_to_json : ToJson ConfigValueV1 := λ v,
  let tagged kind value := JObj [("kind", JStr kind); ("value", value)] in
  match v with
  | ConfigBoolean b => tagged "boolean" (to_json b)
  | ConfigInteger n => tagged "integer" (to_json n)
  | ConfigString s => tagged "string" (to_json s)
  | ConfigStringSet l => tagged "string_set" (to_json l)
  | ConfigJson j => tagged "json" j
  end.

Record ConfigSourceRefV1 := {
  cs_source_kind : ConfigSourceKindV1;
  cs_source_id : string;
  cs_source_fingerprint : Sha256Hash
}.

Record EffectiveConfigEntryV1 := {
  ec_key : string;
  ec_value : ConfigValueV1;
  ec_merge_strategy : ConfigMergeStrategyV1;
  ec_provenance : list ConfigSourceRefV1
}.

Record ConfigOverrideV1 := {
  co_key : string;
  co_value : ConfigValueV1
}.

Record ConfigLayerV1 := {
  cl_source : ConfigSourceRefV1;
  cl_overrides : list ConfigOverrideV1
}.

Record EffectiveConfigV1 := {
  ef_schema_id : string;
  ef_schema_version : N;
  ef_policy_profile_id : string;
  ef_entries : list EffectiveConfigEntryV1;
  ef_config_fingerprint : Sha256Hash
}.

#[global] Instance ConfigSourceRefV1_eq_dec : EqDecision ConfigSourceRefV1.
Proof. solve_decision. Defined.
#[global] Instance EffectiveConfigEntryV1_eq_dec : EqDecision EffectiveConfigEntryV1.
Proof. solve_decision. Defined.
#[global] Instance ConfigOverrideV1_eq_dec : EqDecision ConfigOverrideV1.
Proof. solve_decision. Defined.
#[global] Instance ConfigLayerV1_eq_dec : EqDecision ConfigLayerV1.
Proof. solve_decision. Defined.
#[global] Instance EffectiveConfigV1_eq_dec : EqDecision EffectiveConfigV1.
Proof. solve_decision. Defined.

(** The tuple provenance is sorted by. *)
Definition source_key (s : ConfigSourceRefV1) : ConfigSourceKindV1 * (string * string) :=
  (cs_source_kind s, (cs_source_id s, cs_source_fingerprint s)).

#[global] Instance ConfigSourceRefV1_to_json : ToJson ConfigSourceRefV1 := λ s,
  JObj [("source_kind", to_json (cs_source_kind s)); ("source_id", to_json (cs_source_id s));
        ("source_fingerprint", to_json (cs_source_fingerprint s))].

#[global] Instance EffectiveConfigEntryV1_to_json : ToJson EffectiveConfigEntryV1 := λ e,
  JObj [("key", to_json (ec_key e)); ("value", to_json (ec_value e));
        ("merge_strategy", to_json (ec_merge_strategy e));
        ("provenance", to_json (ec_provenance e))].

#[global] Instance ConfigOverrideV1_to_json : ToJson ConfigOverrideV1 := λ o,
  JObj [("key", to_json (co_key o)); ("value", to_json (co_value o))].

(** ** Keys and values *)

Definition valid_identifier (value : string) : bool :=
  negb (blank value) && (slen value <=? 256)%N && negb (contains_char NUL value).

Definition key_byte (b : N) : bool := is_ascii_lower b || is_ascii_digit b || (b =? 95)%N.

Definition dot : ascii := "."%char.

Definition validate_key (key : string) : result unit EffectiveConfigError :=
  check is_empty key
    || (160 <? slen key)%N
    || starts_with_char (N.eqb (byte dot)) key
    || ends_with_char (N.eqb (byte dot)) key
    || existsb (λ segment, is_empty segment || negb (bytes_all key_byte segment))
         (split_char dot key)
  else ConfigEntries in
  Ok tt.

Fixpoint json_depth (value : Json) : N :=
  match value with
  | JArr values => 1 + foldr (λ v, N.max (json_depth v)) 0 values
  | JObj values => 1 + foldr (λ '(_, v), N.max (json_depth v)) 0 values
  | _ => 1
  end%N.

(** The keys a layer may change at all. *)
Definition runtime_materialized_override_key (key : string) : bool := mem key
  ["policy_profile"; "default_work_profile"; "permissions.approval_ttl_ms";
   "budgets.goal_wall_time_ms"; "budgets.stage_wall_time_ms"; "budgets.max_artifact_bytes";
   "validation.command_timeout_ms"; "validation.max_log_bytes"; "validation.max_parallel_checks";
   "scan.incremental"; "scan.include_untracked"; "scan.include_ignored"; "scan.follow_symlinks";
   "scan.binary_mode"; "scan.max_file_bytes"; "scan.max_files"; "scan.max_total_bytes";
   "scan.max_parallel_files"; "scan.include_paths"; "scan.exclude_paths_add";
   "scan.hardcoding_rules_enabled"; "scan.hardcoding_include_tests";
   "scan.hardcoding_include_fixtures"; "scan.hardcoding_include_docs_examples";
   "scan.hardcoding_include_generated"; "scan.hardcoding_include_vendor"; "index.required_tier";
   "index.max_tier"; "index.fallback_to_lower_tier"; "index.max_symbols"; "index.max_references";
   "index.max_graph_edges"; "index.cross_project_edges"; "index_cache.enabled";
   "index_cache.max_total_bytes"; "index_cache.retention_days"; "change_planning.max_graph_depth";
   "change_planning.max_graph_nodes"; "change_planning.max_graph_edges";
   "change_planning.max_downstream_projects"; "change_planning.max_check_candidates";
   "change_planning.allow_cross_project_read"; "change_planning.allow_previous_success_reuse";
   "failure_reproduction.max_rerun_attempts"; "security_supply_chain.default_max_age_hours";
   "migration.default_strategy"; "migration.live_execute_action"; "migration.rollback_action";
   "migration.max_resume_attempts"; "migration.max_additional_rehearsals";
   "performance_build.default_warmup_runs"; "performance_build.default_measurement_runs";
   "performance_build.minimum_measurement_runs"; "performance_build.max_additional_runs";
   "performance_build.outlier_policy"; "language_platform_migration.cutover_action";
   "release.publish_action"; "evaluation.default_mode"; "evaluation.max_attempts_per_case";
   "management.keep_latest_successful_scans"; "management.incomplete_staging_retention_days";
   "management.scan_detail_retention_days"; "vcs.use_worktree"; "vcs.merge_strategy";
   "vcs.max_parallel_projects"; "vcs.max_active_worktrees";
   "vcs.max_parallel_mutations_per_repository"; "vcs.max_parallel_local_merges";
   "vcs.max_merge_queue_entries"; "vcs.worktree_disk_limit_bytes"; "remote.allowed_hosts";
   "remote.require_clean_target"; "remote.max_parallel_writes"].

Definition source_can_override (key : string) (source_kind : ConfigSourceKindV1) : bool :=
  negb (bool_decide (source_kind = BuiltIn)) && runtime_materialized_override_key key.

(** [value.bytes().enumerate().all(..)] of [default_work_profile]. *)
Definition work_profile_name (value : string) : bool :=
  match value with
  | EmptyString => false
  | String c rest => is_ascii_lower (byte c) && bytes_all key_byte rest
  end && (slen value <=? 128)%N.

Definition one_of (value : ConfigValueV1) (allowed : list string) : bool :=
  match value with ConfigString s => mem s allowed | _ => false end.

Definition integer_in (value : ConfigValueV1) (low high : N) : bool :=
  match value with ConfigInteger n => (low <=? n)%N && (n <=? high)%N | _ => false end.

Definition entry_value_ok (key : string) (value : ConfigValueV1) : bool :=
  if String.eqb key "policy_profile" then
    one_of value ["star.policy-profile.safe-default"; "star.policy-profile.personal-auto"]
  else if String.eqb key "default_work_profile" then
    match value with
    | ConfigStringSet values => (len values <=? 1)%N && forallb work_profile_name values
    | _ => false
    end
  else if String.eqb key "routing.default_model_role" then one_of value ["luna"; "sol"; "terra"]
  else if String.eqb key "routing.unsupported_choice" then
    one_of value ["fail"; "explain_and_fallback"; "ask"]
  else if String.eqb key "migration.default_strategy" then
    one_of value ["side_by_side"; "atomic_replace"; "transactional_in_place"]
  else if String.eqb key "performance_build.default_warmup_runs" then integer_in value 0 100
  else if String.eqb key "performance_build.default_measurement_runs" then integer_in value 3 100
  else if String.eqb key "evaluation.default_mode" then one_of value ["offline"; "replay"; "shadow"]
  else true.

Definition validate_entry_value (key : string) (value : ConfigValueV1) :
    result unit EffectiveConfigError :=
  if entry_value_ok key value then Ok tt else Err ConfigValue.

(** ** Merging *)

(** [mem::discriminant(a) == mem::discriminant(b)]. *)
Definition same_kind (a b : ConfigValueV1) : bool :=
  match a, b with
  | ConfigBoolean _, ConfigBoolean _ | ConfigInteger _, ConfigInteger _
  | ConfigString _, ConfigString _ | ConfigStringSet _, ConfigStringSet _
  | ConfigJson _, ConfigJson _ => true
  | _, _ => false
  end.

Definition lower_constraint_source (source_kind : ConfigSourceKindV1) : bool :=
  match source_kind with
  | Project | SourceGoal | Command | PlatformConstraint => true
  | _ => false
  end.

Definition optional_json_limit (value : Json) : result (option N) EffectiveConfigError :=
  match value with
  | JNull => Ok None
  | JNum n => if (0 <=? n)%Z && (n <=? Z.of_N u64_max)%Z then Ok (Some (Z.to_N n))
              else Err ConfigMerge
  | _ => Err ConfigMerge
  end.

(** [Map::remove] and [Map::insert] on the fields in key order. *)
Fixpoint field_remove (key : string) (fields : list (string * Json)) :
    option Json * list (string * Json) :=
  match fields with
  | [] => (None, [])
  | (k, v) :: rest =>
      if String.eqb k key then (Some v, rest)
      else let r := field_remove key rest in (r.1, (k, v) :: r.2)
  end.

Definition field_insert (key : string) (value : Json) (fields : list (string * Json)) :
    list (string * Json) :=
  insert_by (λ a b, cmp_leb a.1 b.1) (key, value) (field_remove key fields).2.

Fixpoint deep_merge_json (current incoming : Json) {struct incoming} : Json :=
  match current, incoming with
  | JObj current, JObj incoming =>
      JObj (foldl (λ current '(key, value),
              let merged :=
                match (field_remove key current).1 with
                | Some current => deep_merge_json current value
                | None => value
                end in
              field_insert key merged current) current incoming)
  | _, _ => incoming
  end.

Definition rank_in (order : list string) (value : string) : option N :=
  N.of_nat ∘ fst <$> list_find (λ v, v = value) order.

(** The values of a key, least restrictive first. *)
Definition restrictive_order (key : string) : list string :=
  if String.eqb key "policy_profile"
  then ["star.policy-profile.personal-auto"; "star.policy-profile.safe-default"]
  else if String.eqb key "index.required_tier" then ["text"; "syntax"; "semantic"]
  else if String.eqb key "index.max_tier" then ["semantic"; "syntax"; "text"]
  else if String.eqb key "scan.binary_mode" then ["metadata_only"; "skip"]
  else if String.eqb key "vcs.merge_strategy" then ["review_then_merge"; "manual"; "never"]
  else if String.eqb key "state.cleanup_trigger" then ["startup_and_manual"; "manual"]
  else if String.eqb key "management.integrity_check_on_unclean_start" then ["quick"; "full"]
  else if String.eqb key "validation.fail_on" then ["fatal"; "error"; "warning"; "info"]
  else ["auto"; "prompt"; "deny"].

Definition restrictive_rank (key value : string) : option N :=
  rank_in (restrictive_order key) value.

(** [current.into_iter().chain(incoming).min()]. *)
Definition least_limit (a b : option N) : option N :=
  match a, b with
  | Some a, Some b => Some (N.min a b)
  | Some a, None => Some a
  | None, b => b
  end.

Definition limit_json (limit : option N) : Json :=
  match limit with Some n => JNum (Z.of_N n) | None => JNull end.

Definition include_paths : string := "scan.include_paths".

Definition merge_restrictive (key current incoming : string) (lower : bool) :
    result ConfigValueV1 EffectiveConfigError :=
  if String.eqb current incoming then Ok (ConfigString current)
  else
    let? current_rank := ok_or (restrictive_rank key current) ConfigMerge in
    let? incoming_rank := ok_or (restrictive_rank key incoming) ConfigMerge in
    check lower && (incoming_rank <? current_rank)%N else ConfigMerge in
    Ok (ConfigString (if (current_rank <? incoming_rank)%N then incoming else current)).

Definition merge_json_limit (current incoming : Json) (lower : bool) :
    result ConfigValueV1 EffectiveConfigError :=
  let? current := optional_json_limit current in
  let? incoming := optional_json_limit incoming in
  check lower
    && match current, incoming with
       | Some current, Some incoming => (current <? incoming)%N
       | Some _, None => true
       | _, _ => false
       end
  else ConfigMerge in
  Ok (ConfigJson (limit_json (least_limit current incoming))).

Definition merge_intersection (key : string) (current incoming : list string) :
    result ConfigValueV1 EffectiveConfigError :=
  if String.eqb key include_paths && (len current =? 0)%N then Ok (ConfigStringSet incoming)
  else if String.eqb key include_paths && (len incoming =? 0)%N then Ok (ConfigStringSet current)
  else
    let values := filter (λ value, value ∈ incoming) current in
    check (len values =? 0)%N else ConfigMerge in
    Ok (ConfigStringSet values).

Definition merge_value (key : string) (strategy : ConfigMergeStrategyV1)
    (current incoming : ConfigValueV1) (source_kind : ConfigSourceKindV1) :
    result ConfigValueV1 EffectiveConfigError :=
  let lower := lower_constraint_source source_kind in
  check negb (same_kind current incoming) else ConfigMerge in
  match strategy, current, incoming with
  | Replace, _, _ => Ok incoming
  | DeepMerge, ConfigJson current, ConfigJson incoming =>
      Ok (ConfigJson (deep_merge_json current incoming))
  | MostRestrictive, ConfigString current, ConfigString incoming =>
      merge_restrictive key current incoming lower
  | MinimumLimit, ConfigInteger current, ConfigInteger incoming =>
      check lower && (current <? incoming)%N else ConfigMerge in
      Ok (ConfigInteger (N.min current incoming))
  | MinimumLimit, ConfigJson current, ConfigJson incoming => merge_json_limit current incoming lower
  | Intersection, ConfigStringSet current, ConfigStringSet incoming =>
      merge_intersection key current incoming
  | Intersection, ConfigString current, ConfigString incoming =>
      if String.eqb current incoming then Ok (ConfigString current) else Err ConfigMerge
  | Union, ConfigStringSet current, ConfigStringSet incoming =>
      Ok (ConfigStringSet (current ++ incoming))
  | Immutable, _, _ => if bool_decide (current = incoming) then Ok current else Err ConfigMerge
  | (PolicyAllowThenFalseWins | FalseWins), ConfigBoolean current, ConfigBoolean incoming =>
      check lower && negb current && incoming else ConfigMerge in
      Ok (ConfigBoolean (current && incoming))
  | TrueWins, ConfigBoolean current, ConfigBoolean incoming =>
      check lower && current && negb incoming else ConfigMerge in
      Ok (ConfigBoolean (current || incoming))
  | MaximumFloor, ConfigInteger current, ConfigInteger incoming =>
      check lower && (incoming <? current)%N else ConfigMerge in
      Ok (ConfigInteger (N.max current incoming))
  | ExplicitWidening, ConfigBoolean current, ConfigBoolean incoming =>
      if bool_decide (source_kind = PolicyProfile) || bool_decide (source_kind = User)
      then Ok (ConfigBoolean incoming)
      else
        check negb current && incoming else ConfigMerge in
        Ok (ConfigBoolean (current && incoming))
  | _, _, _ => Err ConfigMerge
  end.

(** ** Lookup

    [binary_search_by_key] of a slice: the loop halves the range that can hold
    the key, and one comparison at its base decides. *)
Fixpoint search_loop {A} (order : A → comparison) (l : list A) (fuel size base : nat) : nat :=
  match fuel with
  | O => base
  | S fuel =>
      if decide (1 < size) then
        let half := Nat.div size 2 in
        let mid := base + half in
        let base := match order <$> l !! mid with Some Gt => base | _ => mid end in
        search_loop order l fuel (size - half) base
      else base
  end.

(** The fuel is the length: every turn shortens the range. *)
Definition binary_search {A} (order : A → comparison) (l : list A) : option A :=
  match l !! search_loop order l (length l) (length l) 0 with
  | Some x => match order x with Eq => Some x | _ => None end
  | None => None
  end.

Section config.
Context `{Platform}.

(** [validate_value], which also sorts a set. *)
Definition validate_value (value : ConfigValueV1) : result ConfigValueV1 EffectiveConfigError :=
  match value with
  | ConfigString s => if negb (valid_identifier s) then Err ConfigValue else Ok value
  | ConfigStringSet values =>
      let values := sort_by cmp_leb values in
      check (256 <? len values)%N
        || windows2_any String.eqb values
        || existsb (λ value, negb (valid_identifier value)) values
      else ConfigValue in
      Ok (ConfigStringSet values)
  | ConfigJson j =>
      let? bytes := map_err (λ _, ConfigValue) (jcs_bytes j) in
      check (65536 <? slen bytes)%N || (32 <? json_depth j)%N else ConfigValue in
      Ok value
  | _ => Ok value
  end.

(** ** Sealing *)

Definition effective_payload (policy_profile_id : string)
    (entries : list EffectiveConfigEntryV1) : Json :=
  JObj [("schema_id", JStr EFFECTIVE_CONFIG_V1_SCHEMA_ID); ("schema_version", JNum 1);
        ("policy_profile_id", to_json policy_profile_id); ("entries", to_json entries)].

Definition effective_fingerprint (policy_profile_id : string)
    (entries : list EffectiveConfigEntryV1) : result Sha256Hash EffectiveConfigError :=
  map_err (λ _, ConfigFingerprint)
    (canonical_sha256 (effective_payload policy_profile_id entries)).

Definition bad_source (source : ConfigSourceRefV1) : bool :=
  negb (valid_identifier (cs_source_id source)) || is_empty (cs_source_fingerprint source).

(** One turn of the loop of [seal]. *)
Definition seal_entry (e : EffectiveConfigEntryV1) :
    result EffectiveConfigEntryV1 EffectiveConfigError :=
  let? _ := validate_key (ec_key e) in
  let? value := validate_value (ec_value e) in
  let? _ := validate_entry_value (ec_key e) value in
  check (len (ec_provenance e) =? 0)%N else ConfigProvenance in
  let provenance := sort_by_key source_key (ec_provenance e) in
  check windows2_any (λ a b, bool_decide (a = b)) provenance || existsb bad_source provenance
  else ConfigProvenance in
  Ok {| ec_key := ec_key e; ec_value := value; ec_merge_strategy := ec_merge_strategy e;
        ec_provenance := provenance |}.

Definition ef_seal (policy_profile_id : string) (entries : list EffectiveConfigEntryV1) :
    result EffectiveConfigV1 EffectiveConfigError :=
  check negb (valid_identifier policy_profile_id) || (len entries =? 0)%N else ConfigIdentity in
  let entries := sort_by_key ec_key entries in
  check windows2_any (λ a b, String.eqb (ec_key a) (ec_key b)) entries else ConfigEntries in
  let? entries := map_result seal_entry entries in
  let? fp := effective_fingerprint policy_profile_id entries in
  Ok {| ef_schema_id := EFFECTIVE_CONFIG_V1_SCHEMA_ID;
        ef_schema_version := 1;
        ef_policy_profile_id := policy_profile_id;
        ef_entries := entries;
        ef_config_fingerprint := fp |}.

Definition ef_verify (c : EffectiveConfigV1) : result unit EffectiveConfigError :=
  let? resealed := ef_seal (ef_policy_profile_id c) (ef_entries c) in
  check negb (String.eqb (ef_schema_id c) EFFECTIVE_CONFIG_V1_SCHEMA_ID)
    || negb (ef_schema_version c =? 1)%N
    || negb (bool_decide (ef_entries c = ef_entries resealed))
    || negb (String.eqb (ef_config_fingerprint c) (ef_config_fingerprint resealed))
  else ConfigFingerprint in
  Ok tt.

(** ** Reading *)

Definition ef_get (c : EffectiveConfigV1) (key : string) : option ConfigValueV1 :=
  ec_value <$> binary_search (λ e, cmp (ec_key e) key) (ef_entries c).

Definition ef_boolean (c : EffectiveConfigV1) (key : string) : option bool :=
  match ef_get c key with Some (ConfigBoolean value) => Some value | _ => None end.

Definition ef_integer (c : EffectiveConfigV1) (key : string) : option N :=
  match ef_get c key with Some (ConfigInteger value) => Some value | _ => None end.

Definition ef_string (c : EffectiveConfigV1) (key : string) : option string :=
  match ef_get c key with Some (ConfigString value) => Some value | _ => None end.

Definition ef_string_set (c : EffectiveConfigV1) (key : string) : option (list string) :=
  match ef_get c key with Some (ConfigStringSet value) => Some value | _ => None end.

(** ** Layers *)

Definition find_entry (key : string) (entries : list EffectiveConfigEntryV1) :
    option EffectiveConfigEntryV1 :=
  snd <$> list_find (λ e, ec_key e = key) entries.

Definition check_override (c : EffectiveConfigV1) (source_kind : ConfigSourceKindV1)
    (o : ConfigOverrideV1) : result unit EffectiveConfigError :=
  let? _ := validate_key (co_key o) in
  let? entry := ok_or (find_entry (co_key o) (ef_entries c)) ConfigMerge in
  check negb (source_can_override (ec_key entry) source_kind)
    || negb (same_kind (ec_value entry) (co_value o))
  else ConfigMerge in
  let? incoming := validate_value (co_value o) in
  validate_entry_value (ec_key entry) incoming.

Definition validate_layer_shape (c : EffectiveConfigV1) (layer : ConfigLayerV1) :
    result unit EffectiveConfigError :=
  check bad_source (cl_source layer)
    || bool_decide (cs_source_kind (cl_source layer) = BuiltIn)
    || (len (cl_overrides layer) =? 0)%N
    || (128 <? len (cl_overrides layer))%N
  else ConfigProvenance in
  let? bytes := map_err (λ _, ConfigValue) (jcs_bytes (to_json (cl_overrides layer))) in
  check (65536 <? slen bytes)%N else ConfigValue in
  let overrides := sort_by_key co_key (cl_overrides layer) in
  check windows2_any (λ a b, String.eqb (co_key a) (co_key b)) overrides else ConfigEntries in
  let? _ := map_result (check_override c (cs_source_kind (cl_source layer))) overrides in
  Ok tt.

(** The entry an override changes, and the entry it makes of it. *)
Definition override_entry (source : ConfigSourceRefV1) (o : ConfigOverrideV1)
    (entry : EffectiveConfigEntryV1) : result EffectiveConfigEntryV1 EffectiveConfigError :=
  let? incoming := validate_value (co_value o) in
  let? value := merge_value (ec_key entry) (ec_merge_strategy entry) (ec_value entry) incoming
                  (cs_source_kind source) in
  Ok {| ec_key := ec_key entry; ec_value := value; ec_merge_strategy := ec_merge_strategy entry;
        ec_provenance := ec_provenance entry ++ [source] |}.

Fixpoint apply_override (source : ConfigSourceRefV1) (o : ConfigOverrideV1)
    (entries : list EffectiveConfigEntryV1) :
    result (list EffectiveConfigEntryV1) EffectiveConfigError :=
  match entries with
  | [] => Err ConfigMerge
  | entry :: rest =>
      if String.eqb (ec_key entry) (co_key o)
      then let? entry := override_entry source o entry in Ok (entry :: rest)
      else let? rest := apply_override source o rest in Ok (entry :: rest)
  end.

Fixpoint apply_overrides (source : ConfigSourceRefV1) (overrides : list ConfigOverrideV1)
    (entries : list EffectiveConfigEntryV1) :
    result (list EffectiveConfigEntryV1) EffectiveConfigError :=
  match overrides with
  | [] => Ok entries
  | o :: rest =>
      let? entries := apply_override source o entries in apply_overrides source rest entries
  end.

Definition apply_layer (c : EffectiveConfigV1) (layer : ConfigLayerV1) :
    result EffectiveConfigV1 EffectiveConfigError :=
  let? _ := validate_layer_shape c layer in
  let? entries := apply_overrides (cl_source layer) (sort_by_key co_key (cl_overrides layer))
                    (ef_entries c) in
  match ec_value <$> find_entry "policy_profile" entries with
  | Some (ConfigString policy_profile_id) => ef_seal policy_profile_id entries
  | _ => Err ConfigMerge
  end.

End config.
