(* ===== verification/ConfigFacts.v ===== *)
(** * Properties of the effective configuration

    Sealing and lookup, what a merge of each strategy gives, and what layers can
    and cannot change. *)
From S2P Require Import Prelude Canonical Toy Config.

(** ** Binary search *)

Section search.
Context {A : Type} (order : A → comparison).

(** Elements that compare less come first, and one at most compares equal. *)
Definition ordered_by (l : list A) : Prop :=
  ∀ i j x y, i < j → l !! i = Some x → l !! j = Some y → order y ≠ Gt → order x = Lt.

Lemma search_loop_range l fuel size base k x :
  ordered_by l → size <= fuel → base + size <= length l →
  l !! k = Some x → order x = Eq → base <= k < base + size →
  search_loop order l fuel size base = k.
Proof.
  intros Hord. revert size base. induction fuel as [|fuel IH]; intros size base Hf Hl Hk Hx Hr.
  { lia. }
  cbn [search_loop]. destruct (decide (1 < size)) as [Hs|Hs]; [|lia].
  pose proof (Nat.div_lt size 2). pose proof (Nat.Div0.mul_div_le size 2).
  assert (1 <= size / 2) as Hhalf by (apply Nat.div_le_lower_bound; lia).
  destruct (lookup_lt_is_Some_2 l (base + size / 2)) as [y Hy]; [lia|]. rewrite Hy. cbn [fmap option_fmap option_map].
  destruct (order y) eqn:Ho.
  - apply IH; try done; [lia..|]. split; [|lia].
    destruct (decide (k < base + size / 2)); [|lia].
    assert (order x = Lt) by (eapply Hord; eauto; congruence). congruence.
  - apply IH; try done; [lia..|]. split; [|lia].
    destruct (decide (k < base + size / 2)); [|lia].
    assert (order x = Lt) by (eapply Hord; eauto; congruence). congruence.
  - apply IH; try done; [lia..|]. split; [lia|].
    destruct (decide (k < base + (size - size / 2))) as [|Hge]; [done|].
    destruct (decide (base + size / 2 < k)) as [Hlt|Hnlt].
    + assert (order y = Lt) by (eapply Hord; eauto; congruence). congruence.
    + assert (k = base + size / 2) as -> by lia. congruence.
Qed.

(** The search finds exactly the element that compares equal. *)
Lemma binary_search_spec l x :
  ordered_by l → binary_search order l = Some x ↔ x ∈ l ∧ order x = Eq.
Proof.
  intros Hord. unfold binary_search. split.
  - destruct (l !! _) as [y|] eqn:Hy; [|done]. destruct (order y) eqn:Ho; try done.
    intros [= ->]. split; [by eapply list_elem_of_lookup_2|done].
  - intros [Hin Ho]. apply list_elem_of_lookup in Hin as [k Hk].
    pose proof (lookup_lt_Some _ _ _ Hk).
    rewrite (search_loop_range l (length l) (length l) 0 k x), Hk, Ho by (done || lia). done.
Qed.
End search.

Lemma strict_keys_sorted {A K} `{CmpLaws K} (f : A → K) l :
  strictly_sorted (map f l) → sort_by_key f l = l.
Proof.
  intros Hs. apply sort_by_key_id. remember (map f l) as keys eqn:Heq.
  revert l Heq. induction Hs as [|k keys Hs IH Hall]; intros [|x l] Heq; try done; [constructor|].
  injection Heq as -> ->. constructor; [by apply IH|]. apply Forall_fmap in Hall.
  eapply Forall_impl; [exact Hall|]. simpl. intros y Hy. by apply cmp_ltb_leb in Hy as [? _].
Qed.

Section facts.
Context `{Platform}.

(** ** Sealing *)

Lemma validate_value_idem v v' : validate_value v = Ok v' → validate_value v' = Ok v'.
Proof.
  intros Hv. destruct v; simpl in Hv.
  - by injection Hv as <-.
  - by injection Hv as <-.
  - destruct (negb (valid_identifier s)) eqn:Hs; [done|]. injection Hv as <-. simpl. by rewrite Hs.
  - next_check Hv. injection Hv as <-. simpl. rewrite sort_by_cmp_idemp.
    match goal with E : _ = false |- _ => by rewrite E end.
  - destruct (map_err _ _) as [bytes|] eqn:Hj; [|done]. next_check Hv. injection Hv as <-. simpl.
    rewrite Hj. match goal with E : _ = false |- _ => by rewrite E end.
Qed.

(** Validation keeps a value, up to the order of a set. *)
Definition same_value (v v' : ConfigValueV1) : Prop :=
  match v, v' with
  | ConfigStringSet l, ConfigStringSet l' => l ≡ₚ l'
  | _, _ => v = v'
  end.

Lemma validate_value_same v v' : validate_value v = Ok v' → same_value v v'.
Proof.
  intros Hv. destruct v; simpl in Hv; err_cases Hv; try by injection Hv as <-.
  injection Hv as <-. simpl. symmetry. apply sort_by_perm.
Qed.

Lemma seal_entry_ok e e' :
  seal_entry e = Ok e' ↔
  validate_key (ec_key e) = Ok tt ∧ validate_value (ec_value e) = Ok (ec_value e') ∧
  validate_entry_value (ec_key e) (ec_value e') = Ok tt ∧ ec_provenance e ≠ [] ∧
  NoDup (ec_provenance e) ∧ existsb bad_source (ec_provenance e) = false ∧
  ec_key e' = ec_key e ∧ ec_merge_strategy e' = ec_merge_strategy e ∧
  ec_provenance e' = sort_by_key source_key (ec_provenance e).
Proof.
  assert (∀ l, windows2_any (λ a b, bool_decide (a = b)) (sort_by_key source_key l) = false ↔ NoDup l)
    as Hnd.
  { intros l. rewrite (sorted_distinct_strict _ source_key).
    - split; intros Hs.
      + apply strict_NoDup, NoDup_fmap_1 in Hs. by rewrite sort_by_key_perm in Hs.
      + apply sorted_NoDup_strict; [apply sorted_map, sort_by_key_sorted|].
        apply NoDup_fmap_2; [intros [] [] [=]; by subst|]. by rewrite sort_by_key_perm.
    - intros [] []. rewrite bool_decide_eq_true. unfold source_key. simpl. naive_solver. }
  assert (∀ l, existsb bad_source (sort_by_key source_key l) = existsb bad_source l) as Hbad.
  { intros l. apply eq_true_iff_eq. rewrite !existsb_true. unfold sort_by_key.
    by setoid_rewrite elem_of_sort_by. }
  unfold seal_entry. destruct (validate_key (ec_key e)) as [[]|]; [|naive_solver].
  destruct (validate_value (ec_value e)) as [v|]; [|naive_solver].
  destruct (validate_entry_value (ec_key e) v) as [[]|] eqn:He; [|naive_solver congruence].
  rewrite Hbad. destruct e as [k v0 s p], e' as [k' v' s' p']. simpl in *.
  destruct (len p =? 0)%N eqn:Hp.
  { split; [done|]. intros (_ & _ & _ & Hne & _). destruct p; [done|]. by apply N.eqb_eq in Hp. }
  destruct (windows2_any _ _) eqn:Hw.
  { split; [done|]. intros (_ & _ & _ & _ & Hn & _). apply Hnd in Hn. congruence. }
  apply Hnd in Hw. simpl. destruct (existsb bad_source p) eqn:Hb; [naive_solver|].
  split; [|naive_solver]. intros [= <- <- <- <-]. split_and!; try done. by intros ->.
Qed.

Lemma seal_entry_idem e e' : seal_entry e = Ok e' → seal_entry e' = Ok e'.
Proof.
  rewrite !seal_entry_ok. intros (Hk & Hv & He & Hp & Hnd & Hb & Hk' & Hs & Hp').
  rewrite Hp', Hk'. unfold sort_by_key in *.
  pose proof (sort_by_perm (λ x y, cmp_leb (source_key x) (source_key y)) (ec_provenance e)) as Hperm.
  split_and!; try done.
  - by eapply validate_value_idem.
  - intros Hn. rewrite Hn in Hperm. by apply Permutation_nil_l in Hperm.
  - by rewrite Hperm.
  - apply existsb_false. intros x Hx. rewrite existsb_false in Hb. apply Hb. by rewrite <-Hperm.
  - symmetry. apply sort_by_idemp; intros; [by apply cmp_leb_total|by eapply cmp_leb_trans].
Qed.

Lemma seal_entries_keys entries sealed :
  map_result seal_entry entries = Ok sealed → map ec_key sealed = map ec_key entries.
Proof.
  intros Hm%map_result_Forall2. induction Hm as [|e e' l l' He _ IH]; [done|]. simpl.
  apply seal_entry_ok in He as (_ & _ & _ & _ & _ & _ & -> & _). by rewrite IH.
Qed.

Lemma seal_entries_idem entries sealed :
  map_result seal_entry entries = Ok sealed → map_result seal_entry sealed = Ok sealed.
Proof.
  rewrite !map_result_Forall2. induction 1 as [|e e' l l' He _ IH]; constructor; [|done].
  by eapply seal_entry_idem.
Qed.

Lemma sorted_entries_strict entries :
  windows2_any (λ a b, String.eqb (ec_key a) (ec_key b)) (sort_by_key ec_key entries) = false ↔
  strictly_sorted (map ec_key (sort_by_key ec_key entries)).
Proof. apply sorted_distinct_strict. intros a b. apply String.eqb_eq. Qed.

(** What is sealed is a fixed point of sealing. *)
Lemma ef_seal_ok id entries c :
  ef_seal id entries = Ok c →
  map_result seal_entry (sort_by_key ec_key entries) = Ok (ef_entries c) ∧
  strictly_sorted (map ec_key (ef_entries c)) ∧ ef_policy_profile_id c = id ∧
  ef_schema_id c = EFFECTIVE_CONFIG_V1_SCHEMA_ID ∧ ef_schema_version c = 1%N ∧
  ef_seal id (ef_entries c) = Ok c.
Proof.
  unfold ef_seal. intros Hs. next_check Hs. next_check Hs.
  destruct (map_result _ _) as [sealed|] eqn:Hm; [|done].
  destruct (effective_fingerprint id sealed) as [fp|] eqn:Hfp; [|done]. injection Hs as <-.
  cbn [ef_entries ef_policy_profile_id ef_schema_id ef_schema_version].
  match goal with E : _ || _ = false |- _ => apply orb_false_iff in E as [Hid Hne] end.
  match goal with E : windows2_any _ _ = false |- _ => apply sorted_entries_strict in E as Hst end.
  rewrite <-(seal_entries_keys _ _ Hm) in Hst. pose proof (strict_keys_sorted _ _ Hst) as Hsort.
  split_and!; try done. rewrite Hid.
  assert ((len sealed =? 0)%N = false) as ->.
  { unfold len in *. apply map_result_Forall2, Forall2_length in Hm. rewrite <-Hm.
    unfold sort_by_key. by rewrite sort_by_length. }
  rewrite (proj2 (sorted_entries_strict sealed)) by by rewrite Hsort.
  by rewrite Hsort, (seal_entries_idem _ _ Hm), Hfp.
Qed.

Lemma ef_verify_sealed c :
  ef_verify c = Ok tt ↔ ef_seal (ef_policy_profile_id c) (ef_entries c) = Ok c.
Proof.
  unfold ef_verify. split.
  - destruct (ef_seal _ _) as [c'|] eqn:Hs; [|done]. intros Hv. next_check Hv. bool_to_prop.
    apply ef_seal_ok in Hs as (_ & _ & Hid & Hsc & Hver & _). destruct c, c'. simpl in *. congruence.
  - intros Hs. rewrite Hs. apply ef_seal_ok in Hs as (_ & _ & _ & -> & -> & _).
    by rewrite String.eqb_refl, bool_decide_true, String.eqb_refl.
Qed.

(** ** Lookup *)

Lemma strict_ordered {A} (f : A → string) l key :
  strictly_sorted (map f l) → ordered_by (λ x, cmp (f x) key) l.
Proof.
  intros Hs i j x y Hij Hi Hj Hy.
  assert (cmp (f x) (f y) = Lt) as Hlt.
  { revert i j Hij Hi Hj. remember (map f l) as keys eqn:Heq. revert l Heq.
    induction Hs as [|k keys Hs IH Hall]; intros [|z l] Heq i j Hij Hi Hj; try done.
    injection Heq as -> ->. destruct i as [|i], j as [|j]; simpl in Hi, Hj; [lia| |lia|].
    - injection Hi as ->. apply Forall_fmap, (Forall_lookup_1 _ _ j y) in Hall; [|done].
      unfold compose, cmp_ltb in Hall. by destruct (cmp (f x) (f y)).
    - eapply (IH l); [done| |done..]. lia. }
  destruct (cmp (f y) key) eqn:Hk; [|by eapply cmp_lt_trans|done].
  apply cmp_eq_iff in Hk as <-. done.
Qed.

(** Lookup in a configuration that verifies is exact: the binary search
    finds a value under a key exactly when an entry has it. *)
Theorem effective_get_exact c key v (Hv : ef_verify c = Ok tt) :
  ef_get c key = Some v ↔ ∃ e, e ∈ ef_entries c ∧ ec_key e = key ∧ ec_value e = v.
Proof.
  apply ef_verify_sealed, ef_seal_ok in Hv as (_ & Hs & _).
  apply (strict_ordered ec_key _ key) in Hs. unfold ef_get.
  rewrite fmap_Some. setoid_rewrite (binary_search_spec _ _ _ Hs).
  setoid_rewrite cmp_eq_iff. naive_solver.
Qed.

(** ** Merging *)

(** At most as permissive, [None] being no limit. *)
Definition limit_le (a b : option N) : Prop :=
  match a, b with
  | _, None => True
  | None, Some _ => False
  | Some a, Some b => (a <= b)%N
  end.

(** [new] allows no more than [old], in the sense of the strategy. *)
Definition restricts (key : string) (strategy : ConfigMergeStrategyV1)
    (old new : ConfigValueV1) : Prop :=
  match strategy, old, new with
  | MostRestrictive, ConfigString a, ConfigString b =>
      a = b ∨ ∃ m n, restrictive_rank key a = Some m ∧ restrictive_rank key b = Some n ∧ (m < n)%N
  | MinimumLimit, ConfigInteger a, ConfigInteger b => (b <= a)%N
  | MinimumLimit, ConfigJson a, ConfigJson b =>
      ∃ m n, optional_json_limit a = Ok m ∧ optional_json_limit b = Ok n ∧ limit_le n m
  | Intersection, ConfigStringSet a, ConfigStringSet b =>
      (key = include_paths ∧ a = []) ∨ ((key = include_paths → b ≠ []) ∧ b ⊆ a)
  | Intersection, ConfigString a, ConfigString b => a = b
  | Union, ConfigStringSet a, ConfigStringSet b => a ⊆ b
  | Immutable, a, b => a = b
  | (PolicyAllowThenFalseWins | FalseWins | ExplicitWidening), ConfigBoolean a, ConfigBoolean b =>
      b = true → a = true
  | TrueWins, ConfigBoolean a, ConfigBoolean b => a = true → b = true
  | MaximumFloor, ConfigInteger a, ConfigInteger b => (a <= b)%N
  | _, _, _ => False
  end.

(** The strategies that can only restrict, by source. *)
Definition merges_down (strategy : ConfigMergeStrategyV1) (kind : ConfigSourceKindV1) : bool :=
  match strategy with
  | Replace | DeepMerge => false
  | ExplicitWidening => negb (bool_decide (kind = PolicyProfile) || bool_decide (kind = User))
  | _ => true
  end.

Lemma rank_inj key a b n :
  restrictive_rank key a = Some n → restrictive_rank key b = Some n → a = b.
Proof.
  unfold restrictive_rank, rank_in. generalize (restrictive_order key) as order.
  intros order. rewrite !fmap_Some. intros ([i x] & Ha & Hi) ([j y] & Hb & Hj).
  apply list_find_Some in Ha as (Ha & -> & _). apply list_find_Some in Hb as (Hb & -> & _).
  unfold compose in *. simpl in *. assert (i = j) as -> by lia. congruence.
Qed.

Lemma merge_restrictive_ok key a b lower v :
  merge_restrictive key a b lower = Ok v ↔
  (a = b ∧ v = ConfigString a) ∨
  ∃ m n, restrictive_rank key a = Some m ∧ restrictive_rank key b = Some n ∧
    ((m < n)%N ∧ v = ConfigString b ∨ (n < m)%N ∧ lower = false ∧ v = ConfigString a).
Proof.
  unfold merge_restrictive. destruct (String.eqb a b) eqn:Hab.
  { apply String.eqb_eq in Hab as ->. split; [intros [= <-]; by left|].
    intros [[_ ->]|(m & n & Ha & Hb & [[? _]|[? _]])]; [done|..]; assert (m = n) by congruence; lia. }
  apply String.eqb_neq in Hab. split.
  - destruct (restrictive_rank key a) as [m|] eqn:Ha; [|done].
    destruct (restrictive_rank key b) as [n|] eqn:Hb; [|done]. simpl. intros Hm. next_check Hm.
    injection Hm as <-. right. exists m, n. split; [done|]. split; [done|].
    destruct (m <? n)%N eqn:Hmn; bool_to_prop; [by left|right].
    assert (m ≠ n) by (intros ->; by apply Hab, (rank_inj key _ _ n)).
    split; [lia|]. split; [|done]. destruct lower; [|done]. simpl in *. bool_to_prop. lia.
  - intros [[? _]|(m & n & -> & -> & Hc)]; [done|]. simpl.
    destruct Hc as [[Hmn ->]|(Hnm & -> & ->)].
    + assert ((n <? m)%N = false) as -> by (apply N.ltb_ge; lia). rewrite andb_false_r.
      by assert ((m <? n)%N = true) as -> by by apply N.ltb_lt.
    + simpl. by assert ((m <? n)%N = false) as -> by (apply N.ltb_ge; lia).
Qed.

Lemma json_limit_limit a m : optional_json_limit a = Ok m → a = limit_json m.
Proof.
  destruct a; simpl; try done; intros Hm; [by injection Hm as <-|].
  destruct (_ && _) eqn:Hn; [|done]. injection Hm as <-. simpl. bool_to_prop. by rewrite Z2N.id.
Qed.

(** The limits of 64 bits. *)
Definition limit_fits (m : option N) : Prop := from_option (λ n, (n <= u64_max)%N) True m.

Lemma json_limit_fits a m : optional_json_limit a = Ok m → limit_fits m.
Proof.
  destruct a; cbn [optional_json_limit]; try done; intros Hm; [by injection Hm as <-|].
  destruct (_ && _) eqn:Hn; [|done]. injection Hm as <-. bool_to_prop.
  change (Z.to_N n <= u64_max)%N. lia.
Qed.

Lemma limit_json_limit m : limit_fits m → optional_json_limit (limit_json m) = Ok m.
Proof.
  destruct m as [n|]; [|done]. intros Hn. change (n <= u64_max)%N in Hn.
  cbn [limit_json optional_json_limit].
  assert ((0 <=? Z.of_N n)%Z && (Z.of_N n <=? Z.of_N u64_max)%Z = true) as ->.
  { apply andb_true_iff. split; apply Z.leb_le; lia. }
  by rewrite N2Z.id.
Qed.

Lemma least_limit_le m n x : limit_le x (least_limit m n) ↔ limit_le x m ∧ limit_le x n.
Proof. destruct m, n, x; simpl; lia. Qed.

Lemma merge_json_limit_ok a b lower v :
  merge_json_limit a b lower = Ok v ↔
  ∃ m n, optional_json_limit a = Ok m ∧ optional_json_limit b = Ok n ∧
    (lower = true → limit_le n m) ∧ v = ConfigJson (limit_json (least_limit m n)).
Proof.
  unfold merge_json_limit. destruct (optional_json_limit a) as [m|]; [|naive_solver].
  destruct (optional_json_limit b) as [n|]; [|naive_solver]. split.
  - intros Hm. next_check Hm. injection Hm as <-. exists m, n. split_and!; try done.
    intros ->. destruct m, n; simpl in *; bool_to_prop; try done; lia.
  - intros (m' & n' & [= <-] & [= <-] & Hle & ->). destruct lower; [|done]. specialize (Hle eq_refl).
    destruct m as [m|], n as [n|]; simpl in *; try done.
    by assert ((m <? n)%N = false) as -> by by apply N.ltb_ge.
Qed.

Lemma intersection_meet key a b v x :
  merge_intersection key a b = Ok v →
  restricts key Intersection v x ↔
    restricts key Intersection (ConfigStringSet a) x ∧
    restricts key Intersection (ConfigStringSet b) x.
Proof.
  unfold merge_intersection. intros Hm.
  assert (∀ l : list string, (len l =? 0)%N = true ↔ l = []) as Hlen.
  { intros [|y l]; [done|]. split; [|done]. intros Hl. by apply N.eqb_eq in Hl. }
  destruct (String.eqb key include_paths && (len a =? 0)%N) eqn:Ha.
  { injection Hm as <-. apply andb_true_iff in Ha as [Hk Ha].
    apply String.eqb_eq in Hk. apply Hlen in Ha as ->. destruct x; simpl; naive_solver. }
  destruct (String.eqb key include_paths && (len b =? 0)%N) eqn:Hb.
  { injection Hm as <-. apply andb_true_iff in Hb as [Hk Hb].
    apply String.eqb_eq in Hk. apply Hlen in Hb as ->. destruct x; simpl; naive_solver. }
  next_check Hm. injection Hm as <-. destruct x as [| | |x|]; [simpl; tauto..| |simpl; tauto]. simpl.
  match goal with E : (len ?l =? 0)%N = false |- _ =>
    assert (l ≠ []) as Hne by (intros Hl; apply Hlen in Hl; congruence) end.
  assert (key = include_paths → a ≠ [] ∧ b ≠ []) as Hboth.
  { intros ->. simpl in Ha, Hb. split; intros ->; done. }
  assert (x ⊆ filter (λ value, value ∈ b) a ↔ x ⊆ a ∧ x ⊆ b) as Hsub.
  { unfold subseteq, list_subseteq. setoid_rewrite list_elem_of_filter. naive_solver. }
  rewrite Hsub. naive_solver.
Qed.

Lemma merge_same_kind key strategy cur inc kind v :
  merge_value key strategy cur inc kind = Ok v → same_kind cur inc = true.
Proof. unfold merge_value. intros Hm. next_check Hm. by bool_to_prop. Qed.

Lemma restrictive_meet key a b lower v x :
  merge_restrictive key a b lower = Ok v →
  restricts key MostRestrictive v x ↔
    restricts key MostRestrictive (ConfigString a) x ∧
    restricts key MostRestrictive (ConfigString b) x.
Proof.
  intros [[-> ->]|(m & n & Ha & Hb & [[Hmn ->]|(Hnm & _ & ->)])]%merge_restrictive_ok;
    (destruct x as [| |x| |]; [simpl; tauto..| |simpl; tauto|simpl; tauto]); simpl.
  - naive_solver.
  - split; [|naive_solver]. intros Hx. split; [|done]. right. destruct Hx as [->|(n' & k & Hb' & Hx & ?)].
    + by exists m, n.
    + exists m, k. split_and!; try done. assert (n = n') by congruence. lia.
  - split; [|naive_solver]. intros Hx. split; [done|]. right. destruct Hx as [->|(m' & k & Ha' & Hx & ?)].
    + by exists n, m.
    + exists n, k. split_and!; try done. assert (m = m') by congruence. lia.
Qed.

Lemma json_limit_meet key a b lower v x :
  merge_json_limit a b lower = Ok v →
  restricts key MinimumLimit v x ↔
    restricts key MinimumLimit (ConfigJson a) x ∧ restricts key MinimumLimit (ConfigJson b) x.
Proof.
  intros (m & n & Ha & Hb & _ & ->)%merge_json_limit_ok.
  destruct x as [| | | |x]; [simpl; tauto..|].
  assert (limit_fits (least_limit m n)) as Hfit.
  { apply json_limit_fits in Ha, Hb. destruct m, n; simpl in *; lia. }
  apply limit_json_limit in Hfit. simpl. rewrite Hfit, Ha, Hb. split.
  - intros (? & k & [= <-] & Hx & Hle). apply least_limit_le in Hle as [? ?]. by split; repeat eexists.
  - intros [(? & k & [= <-] & Hx & ?) (? & k' & [= <-] & Hx' & ?)].
    assert (k = k') as -> by congruence. repeat eexists; [done|]. by apply least_limit_le.
Qed.

Lemma immutable_meet key a b v x :
  (if bool_decide (a = b) then Ok a else Err ConfigMerge) = Ok v →
  restricts key Immutable v x ↔ restricts key Immutable a x ∧ restricts key Immutable b x.
Proof. case_bool_decide; [|done]. subst. intros [= ->]. simpl. tauto. Qed.

Lemma merge_meet key strategy cur inc kind v x :
  merges_down strategy kind = true → merge_value key strategy cur inc kind = Ok v →
  restricts key strategy v x ↔ restricts key strategy cur x ∧ restricts key strategy inc x.
Proof.
  intros Hdown Hmerge. pose proof (merge_same_kind _ _ _ _ _ _ Hmerge) as Hk.
  unfold merge_value in Hmerge. rewrite Hk in Hmerge. cbn [negb] in Hmerge.
  destruct strategy, cur, inc; try discriminate.
  - by apply (restrictive_meet key s s0 _ v x Hmerge).
  - next_check Hmerge. injection Hmerge as <-. destruct x; simpl; try tauto. lia.
  - by apply (json_limit_meet key j j0 _ v x Hmerge).
  - destruct (String.eqb s s0) eqn:Hs; [|done]. apply String.eqb_eq in Hs as ->.
    injection Hmerge as <-. tauto.
  - by apply (intersection_meet key l l0 v x Hmerge).
  - injection Hmerge as <-. destruct x; simpl; try tauto. apply list_subseteq_app_iff_l.
  - apply (immutable_meet _ _ _ _ _ Hmerge).
  - apply (immutable_meet _ _ _ _ _ Hmerge).
  - apply (immutable_meet _ _ _ _ _ Hmerge).
  - apply (immutable_meet _ _ _ _ _ Hmerge).
  - apply (immutable_meet _ _ _ _ _ Hmerge).
  - next_check Hmerge. injection Hmerge as <-. destruct x; simpl; try tauto. destruct b, b0; naive_solver.
  - next_check Hmerge. injection Hmerge as <-. destruct x; simpl; try tauto. destruct b, b0; naive_solver.
  - next_check Hmerge. injection Hmerge as <-. destruct x; simpl; try tauto. destruct b, b0; naive_solver.
  - next_check Hmerge. injection Hmerge as <-. destruct x; simpl; try tauto. lia.
  - simpl in Hdown. apply negb_true_iff in Hdown. rewrite Hdown in Hmerge.
    next_check Hmerge. injection Hmerge as <-. destruct x; simpl; try tauto. destruct b, b0; naive_solver.
Qed.

(** A merge is the most permissive value that both sides admit: under every
    strategy that restricts, a value is admitted by the merged one exactly when
    it is admitted by the current and by the incoming one. *)
Theorem merge_is_meet key strategy cur inc kind v
    (Hdown : merges_down strategy kind = true)
    (Hmerge : merge_value key strategy cur inc kind = Ok v) :
  ∀ x, restricts key strategy v x ↔
    restricts key strategy cur x ∧ restricts key strategy inc x.
Proof. intros x. by apply (merge_meet _ _ _ _ kind). Qed.

Lemma limit_le_refl m : limit_le m m.
Proof. destruct m; simpl; lia. Qed.

Lemma intersection_refl key l :
  restricts key Intersection (ConfigStringSet l) (ConfigStringSet l).
Proof.
  simpl. destruct (decide (key = include_paths ∧ l = [])) as [|Hn]; [by left|]. right.
  split; [|done]. intros -> ->. by apply Hn.
Qed.

(** Values that a strategy relates to some value compare with themselves. *)
Lemma restricts_self key strategy a b :
  restricts key strategy a b → restricts key strategy a a ∧ restricts key strategy b b.
Proof.
  destruct strategy, a, b; try done; intros Hr; try (split; apply intersection_refl);
    try (simpl in *; intuition (done || lia)).
  destruct Hr as (m & n & Hm & Hn & _). split; repeat eexists; eauto using limit_le_refl.
Qed.

Lemma restricts_trans key strategy a b c :
  restricts key strategy a b → restricts key strategy b c → restricts key strategy a c.
Proof.
  destruct strategy, a, b; try done; destruct c; try done; simpl;
    try (intuition (congruence || lia || set_solver)).
  - intros [->|(m & n & Ha & Hb & ?)] [->|(n' & k & Hb' & Hc & ?)]; eauto.
    + right. eauto.
    + right. eauto.
    + right. exists m, k. split_and!; try done. assert (n = n') by congruence. lia.
  - intros (m & n & Ha & Hb & ?) (n' & k & Hb' & Hc & ?). assert (n = n') as <- by congruence.
    exists m, k. split_and!; try done. destruct m, n, k; simpl in *; try done; lia.
Qed.

Lemma restrictive_exact key a b v :
  merge_restrictive key a b true = Ok v ↔
  v = ConfigString b ∧ restricts key MostRestrictive (ConfigString a) (ConfigString b).
Proof.
  rewrite merge_restrictive_ok. simpl. split.
  - intros [[-> ->]|(m & n & ? & ? & [[? ->]|(_ & ? & _)])]; [by auto| |done].
    split; [done|]. right. eauto.
  - intros [-> [->|(m & n & ? & ? & ?)]]; [by left|]. right. exists m, n. auto.
Qed.

Lemma json_limit_exact key a b v :
  merge_json_limit a b true = Ok v ↔
  v = ConfigJson b ∧ restricts key MinimumLimit (ConfigJson a) (ConfigJson b).
Proof.
  rewrite merge_json_limit_ok. simpl.
  assert (∀ m n, limit_le n m → least_limit m n = n) as Hle.
  { intros [m|] [n|]; simpl; try done. intros ?. f_equal. lia. }
  split.
  - intros (m & n & Ha & Hb & Hc & ->). specialize (Hc eq_refl). rewrite Hle by done.
    split; [by rewrite <-(json_limit_limit b n Hb)|eauto].
  - intros [-> (m & n & Ha & Hb & Hc)]. exists m, n. split_and!; try done.
    rewrite Hle by done. by rewrite <-(json_limit_limit b n Hb).
Qed.

Lemma immutable_exact key a b v :
  (if bool_decide (a = b) then Ok a else Err ConfigMerge) = Ok v ↔
  v = b ∧ restricts key Immutable a b.
Proof. case_bool_decide as Hab; simpl; [subst|]; naive_solver. Qed.

(** A lower layer is obeyed or refused: under a strategy other than the two
    set operations and the deep merge, a project, a goal, a command or the
    platform gets exactly the value it asked for when that value replaces the
    current one freely or allows no more than it does, and an error otherwise. *)
Theorem lower_layer_is_obeyed_or_refused key strategy cur inc kind v
    (Hlower : lower_constraint_source kind = true)
    (Hstrategy : strategy ≠ Intersection ∧ strategy ≠ Union ∧ strategy ≠ DeepMerge)
    (Hkind : same_kind cur inc = true) :
  merge_value key strategy cur inc kind = Ok v ↔
    v = inc ∧ (strategy = Replace ∨ restricts key strategy cur inc).
Proof.
  destruct Hstrategy as (Hi & Hu & Hd). unfold merge_value. rewrite Hkind, Hlower. cbn [negb].
  assert (bool_decide (kind = PolicyProfile) || bool_decide (kind = User) = false) as Hw
    by by destruct kind.
  rewrite Hw. destruct strategy; try done.
  1: destruct cur, inc; try done; naive_solver.
  all: match goal with |- _ ↔ _ ∧ (?s = Replace ∨ ?r) =>
         assert ((s = Replace ∨ r) ↔ r) as -> by (split; [by intros [?|?]|by right]) end.
  3: by apply immutable_exact.
  all: destruct cur, inc; try done; try (split; [discriminate|by intros []]).
  - apply restrictive_exact.
  - destruct (n <? n0)%N eqn:Hn; simpl; bool_to_prop.
    + split; [done|]. intros [_ ?]. lia.
    + rewrite N.min_r by lia. naive_solver.
  - apply json_limit_exact.
  - destruct b, b0; naive_solver.
  - destruct b, b0; naive_solver.
  - destruct b, b0; naive_solver.
  - destruct (n0 <? n)%N eqn:Hn; simpl; bool_to_prop.
    + split; [done|]. intros [_ ?]. lia.
    + rewrite N.max_r by lia. naive_solver.
  - destruct b, b0; naive_solver.
Qed.

(** A merged value compares with itself. *)
Lemma merge_self key strategy cur inc kind v :
  merges_down strategy kind = true → merge_value key strategy cur inc kind = Ok v →
  restricts key strategy v v.
Proof.
  unfold merge_value. intros Hdown Hm. next_check Hm.
  destruct strategy, cur, inc; try discriminate.
  - apply merge_restrictive_ok in Hm as [[-> ->]|(m & n & _ & _ & [[_ ->]|(_ & _ & ->)])]; by left.
  - next_check Hm. injection Hm as <-. simpl. lia.
  - apply merge_json_limit_ok in Hm as (m & n & Ha & Hb & _ & ->).
    assert (limit_fits (least_limit m n)) as Hfit.
    { apply json_limit_fits in Ha, Hb. destruct m, n; simpl in *; lia. }
    apply limit_json_limit in Hfit. repeat eexists; eauto using limit_le_refl.
  - destruct (String.eqb s s0); [|done]. injection Hm as <-. by simpl.
  - unfold merge_intersection in Hm.
    do 2 (destruct (_ && _); [injection Hm as <-; apply intersection_refl|]).
    next_check Hm. injection Hm as <-. apply intersection_refl.
  - injection Hm as <-. by simpl.
  - done.
  - done.
  - done.
  - done.
  - done.
  - next_check Hm. injection Hm as <-. by simpl.
  - next_check Hm. injection Hm as <-. by simpl.
  - next_check Hm. injection Hm as <-. by simpl.
  - next_check Hm. injection Hm as <-. simpl. lia.
  - destruct (_ || _); [injection Hm as <-; by simpl|]. next_check Hm. injection Hm as <-. by simpl.
Qed.

Lemma merge_is_meet_self key strategy cur inc kind v :
  merges_down strategy kind = true → merge_value key strategy cur inc kind = Ok v →
  restricts key strategy cur v ∧ restricts key strategy inc v.
Proof.
  intros Hd Hm. apply (merge_meet key strategy cur inc kind v v Hd Hm). by eapply merge_self.
Qed.

Lemma restricts_same key strategy a b b' :
  strategy ≠ Immutable → same_value b b' →
  (restricts key strategy a b ↔ restricts key strategy a b') ∧
  (restricts key strategy b a ↔ restricts key strategy b' a).
Proof.
  intros Hi Hs. destruct b; simpl in Hs; try by subst. destruct b' as [| | |l'|]; try done.
  assert (∀ x : list string, (x ⊆ l ↔ x ⊆ l') ∧ (l ⊆ x ↔ l' ⊆ x)) as Hsub.
  { intros x. unfold subseteq, list_subseteq. setoid_rewrite Hs. done. }
  assert (l = [] ↔ l' = []) as Hnil.
  { split; intros ->; [by apply Permutation_nil_l in Hs|by apply Permutation_nil_r in Hs]. }
  destruct strategy, a as [| | |x|]; try done; simpl; specialize (Hsub x);
    try (naive_solver).
Qed.

End facts.

(** ** Instances *)

Definition sample_source (kind : ConfigSourceKindV1) (id : string) : ConfigSourceRefV1 :=
  {| cs_source_kind := kind; cs_source_id := id; cs_source_fingerprint := digest id |}.

Definition sample_entry (key : string) (value : ConfigValueV1) (strategy : ConfigMergeStrategyV1) :
    EffectiveConfigEntryV1 :=
  {| ec_key := key; ec_value := value; ec_merge_strategy := strategy;
     ec_provenance := [sample_source BuiltIn "product"] |}.

Definition sample_config : result EffectiveConfigV1 EffectiveConfigError :=
  ef_seal "star.policy-profile.personal-auto"
    [sample_entry "scan.max_files" (ConfigInteger 10) MinimumLimit;
     sample_entry "policy_profile" (ConfigString "star.policy-profile.personal-auto")
       MostRestrictive;
     sample_entry "scan.exclude_paths_add" (ConfigStringSet ["release"; "main"]) Union;
     sample_entry "state.artifact_root" (ConfigString "root") Immutable].

Definition base_config : EffectiveConfigV1 :=
  match sample_config with
  | Ok c => c
  | Err _ => {| ef_schema_id := EmptyString; ef_schema_version := 0;
                ef_policy_profile_id := EmptyString; ef_entries := [];
                ef_config_fingerprint := EmptyString |}
  end.

Lemma base_config_verifies : ef_verify base_config = Ok tt.
Proof. vm_compute. reflexivity. Qed.

Lemma effective_get_exact_witness :
  ef_get base_config "scan.max_files" = Some (ConfigInteger 10) ∧
  ∃ e, e ∈ ef_entries base_config ∧ ec_key e = "scan.max_files" ∧ ec_value e = ConfigInteger 10.
Proof.
  assert (ef_get base_config "scan.max_files" = Some (ConfigInteger 10)) as Hg
    by (vm_compute; reflexivity).
  split; [exact Hg|].
  exact (proj1 (effective_get_exact base_config "scan.max_files" _ base_config_verifies) Hg).
Defined.

Lemma merge_is_meet_witness :
  restricts "permissions.default" MostRestrictive (ConfigString "deny") (ConfigString "deny") ∧
  ¬ restricts "permissions.default" MostRestrictive (ConfigString "deny") (ConfigString "auto").
Proof.
  pose proof (merge_is_meet "permissions.default" MostRestrictive (ConfigString "prompt")
    (ConfigString "deny") User (ConfigString "deny") eq_refl eq_refl) as Hm.
  split; [by left|]. intros Hr. apply Hm in Hr as [_ [Hr|(m & n & Hd & Ha & Hlt)]]; [done|].
  vm_compute in Hd, Ha. injection Hd as <-. injection Ha as <-. done.
Defined.

Lemma lower_layer_is_obeyed_or_refused_witness :
  merge_value "scan.max_files" MinimumLimit (ConfigInteger 10) (ConfigInteger 4) Project
    = Ok (ConfigInteger 4).
Proof.
  apply (lower_layer_is_obeyed_or_refused "scan.max_files" MinimumLimit (ConfigInteger 10)
    (ConfigInteger 4) Project (ConfigInteger 4)); [reflexivity|done|reflexivity|].
  split; [reflexivity|]. right. simpl. lia.
Defined.
