(* ===== verification/ConfigLayers.v ===== *)
(** * Configuration layers

    What applying layers can do to a configuration that verifies: which entries
    change and how, that layers only restrict, and when their order matters. *)
From S2P Require Import Prelude Canonical Toy Config ConfigFacts.

(** The loop of [UserExecutionConfig::load_for_project_and_layers]
    ([apps/star-controller/src/policy_profile.rs]) over the layers. *)
Fixpoint apply_layers `{Platform} (c : EffectiveConfigV1) (layers : list ConfigLayerV1) :
    result EffectiveConfigV1 EffectiveConfigError :=
  match layers with
  | [] => Ok c
  | layer :: rest => let? c := apply_layer c layer in apply_layers c rest
  end.

(** Distinct keys identify the elements. *)
Lemma NoDup_fmap_eq {A B} (f : A → B) l x y :
  NoDup (map f l) → x ∈ l → y ∈ l → f x = f y → x = y.
Proof.
  induction l as [|z l IH]; simpl; [by intros _ ?%not_elem_of_nil|].
  intros [Hz Hnd]%NoDup_cons [->|Hx]%elem_of_cons [->|Hy]%elem_of_cons Heq; try done.
  - destruct Hz. apply list_elem_of_fmap. by exists y.
  - destruct Hz. apply list_elem_of_fmap. by exists x.
  - by apply IH.
Qed.

Section facts.
Context `{Platform}.

(** ** One layer *)

(** What overrides with distinct keys make of an entry. *)
Definition changed (source : ConfigSourceRefV1) (overrides : list ConfigOverrideV1)
    (e e' : EffectiveConfigEntryV1) : Prop :=
  (∀ o, o ∈ overrides → co_key o = ec_key e → override_entry source o e = Ok e') ∧
  ((∀ o, o ∈ overrides → co_key o ≠ ec_key e) → e' = e).

Lemma override_entry_keeps source o e e' :
  override_entry source o e = Ok e' →
  ec_key e' = ec_key e ∧ ec_merge_strategy e' = ec_merge_strategy e ∧
  ec_provenance e' = ec_provenance e ++ [source].
Proof. unfold override_entry. intros Ho. err_cases Ho. by injection Ho as <-. Qed.

Lemma changed_keeps source overrides e e' :
  changed source overrides e e' →
  ec_key e' = ec_key e ∧ ec_merge_strategy e' = ec_merge_strategy e.
Proof.
  intros [Hc Hn]. destruct (decide (Exists (λ o, co_key o = ec_key e) overrides)) as [Hex|Hex].
  - apply Exists_exists in Hex as (o & Hin & Hk). specialize (Hc o Hin Hk).
    by apply override_entry_keeps in Hc as (? & ? & _).
  - rewrite Hn; [done|]. intros o Hin Hk. apply Hex, Exists_exists. eauto.
Qed.

Lemma changed_nil source e : changed source [] e e.
Proof. split; [|done]. intros o Hin. by apply not_elem_of_nil in Hin. Qed.

Lemma apply_override_spec source o entries entries' :
  NoDup (map ec_key entries) → apply_override source o entries = Ok entries' →
  Forall2 (changed source [o]) entries entries' ∧ co_key o ∈ map ec_key entries.
Proof.
  revert entries'. induction entries as [|e entries IH]; intros entries' Hnd Ha; [done|].
  simpl in Ha, Hnd |- *. apply NoDup_cons in Hnd as [Hne Hnd].
  destruct (String.eqb (ec_key e) (co_key o)) eqn:Hk.
  - apply String.eqb_eq in Hk. destruct (override_entry source o e) as [e'|] eqn:Ho; [|done].
    injection Ha as <-. split; [|rewrite Hk; left]. constructor.
    + split; [by intros o' ->%list_elem_of_singleton|]. intros Hn. destruct (Hn o); [by left|done].
    + apply Forall_Forall2_diag, Forall_forall. intros x Hx. split; [|done].
      intros o' ->%list_elem_of_singleton Hox. destruct Hne. rewrite Hk, Hox.
      apply list_elem_of_fmap. by exists x.
  - apply String.eqb_neq in Hk. destruct (apply_override source o entries) as [rest|] eqn:Hr; [|done].
    injection Ha as <-. destruct (IH rest Hnd eq_refl) as [Hf Hin]. split; [|by right].
    constructor; [|done]. split; [|done]. by intros o' ->%list_elem_of_singleton Hox.
Qed.

Lemma changed_keys source overrides l l' :
  Forall2 (changed source overrides) l l' → map ec_key l' = map ec_key l.
Proof.
  induction 1 as [|e e' l l' He _ IH]; [done|]. simpl. by rewrite IH, (proj1 (changed_keeps _ _ _ _ He)).
Qed.

Lemma apply_overrides_spec source overrides entries entries' :
  NoDup (map ec_key entries) → NoDup (map co_key overrides) →
  apply_overrides source overrides entries = Ok entries' →
  Forall2 (changed source overrides) entries entries' ∧
  ∀ o, o ∈ overrides → co_key o ∈ map ec_key entries.
Proof.
  intros Hnd. revert entries Hnd. induction overrides as [|o overrides IH];
    intros entries Hnd Hndo Ha; simpl in Ha.
  { injection Ha as <-. split; [|by intros ? ?%not_elem_of_nil].
    apply Forall_Forall2_diag, Forall_forall. intros x _. apply changed_nil. }
  simpl in Hndo. apply NoDup_cons in Hndo as [Hno Hndo].
  destruct (apply_override source o entries) as [mid|] eqn:Ho; [|done].
  apply apply_override_spec in Ho as [Hf Hin]; [|done]. pose proof (changed_keys _ _ _ _ Hf) as Hkeys.
  destruct (IH mid) as [Hf' Hin']; [by rewrite Hkeys|done..|]. split.
  - eapply Forall2_trans; [|exact Hf|exact Hf']. intros e e1 e' H1 H2.
    pose proof (changed_keeps _ _ _ _ H1) as [Hk _]. split.
    + intros o' [->|Hin1]%elem_of_cons Hko.
      * rewrite (proj2 H2); [by apply H1; [left|]|]. intros o'' Hin2 Hk2. destruct Hno.
        apply list_elem_of_fmap. exists o''. split; [congruence|done].
      * rewrite (proj2 H1) in H2; [by apply H2|]. intros o'' ->%list_elem_of_singleton Hk2.
        destruct Hno. apply list_elem_of_fmap. exists o'. split; [congruence|done].
    + intros Hn. rewrite (proj2 H2); [apply H1|].
      * intros o'' ->%list_elem_of_singleton. apply Hn. by left.
      * intros o' Hin1. rewrite Hk. apply Hn. by right.
  - intros o' [->|Hin1]%elem_of_cons; [done|]. rewrite <-Hkeys. by apply Hin'.
Qed.

Lemma changed_perm source overrides overrides' e e' :
  overrides ≡ₚ overrides' → changed source overrides e e' → changed source overrides' e e'.
Proof.
  intros Hp [H1 H2]. split.
  - intros o Ho. apply H1. by rewrite Hp.
  - intros Hn. apply H2. intros o Ho. apply Hn. by rewrite <-Hp.
Qed.

(** An entry before and after a layer. *)
Definition layered (layer : ConfigLayerV1) (e e' : EffectiveConfigEntryV1) : Prop :=
  ∃ e1, changed (cl_source layer) (cl_overrides layer) e e1 ∧ seal_entry e1 = Ok e'.

Lemma verified_entries c :
  ef_verify c = Ok tt →
  NoDup (map ec_key (ef_entries c)) ∧ ∀ e, e ∈ ef_entries c → seal_entry e = Ok e.
Proof.
  intros Hv. apply ef_verify_sealed, ef_seal_ok in Hv as (Hm & Hs & _). split; [by apply strict_NoDup|].
  intros e He. apply map_result_Forall2 in Hm.
  apply list_elem_of_lookup in He as [i Hi]. destruct (Forall2_lookup_r _ _ _ _ _ Hm Hi) as (e0 & _ & He0).
  by eapply seal_entry_idem.
Qed.

Lemma layer_shape_keys c layer :
  validate_layer_shape c layer = Ok tt →
  NoDup (map co_key (cl_overrides layer)) ∧
  ∀ o, o ∈ cl_overrides layer → check_override c (cs_source_kind (cl_source layer)) o = Ok tt.
Proof.
  unfold validate_layer_shape. intros Hv. next_check Hv.
  destruct (map_err _ _) as [bytes|]; [|done]. next_check Hv.
  destruct (windows2_any _ _) eqn:Hw; [done|].
  destruct (map_result _ _) as [units|] eqn:Hm; [|done].
  rewrite (sorted_distinct_strict _ co_key) in Hw by (intros; apply String.eqb_eq).
  apply strict_NoDup in Hw. rewrite sort_by_key_perm in Hw. split; [done|].
  intros o Ho. apply map_result_Forall2 in Hm. rewrite <-(sort_by_key_perm co_key) in Ho.
  apply list_elem_of_lookup in Ho as [i Hi].
  by destruct (Forall2_lookup_l _ _ _ _ _ Hm Hi) as ([] & _ & Hc).
Qed.

Lemma apply_layer_spec c layer c' :
  ef_verify c = Ok tt → apply_layer c layer = Ok c' →
  ef_verify c' = Ok tt ∧ validate_layer_shape c layer = Ok tt ∧
  Forall2 (layered layer) (ef_entries c) (ef_entries c').
Proof.
  intros Hv Ha. apply verified_entries in Hv as Hent. destruct Hent as [Hnd _].
  unfold apply_layer in Ha. destruct (validate_layer_shape c layer) as [[]|] eqn:Hshape; [|done].
  apply layer_shape_keys in Hshape as Hkeys. destruct Hkeys as [Hndo _].
  destruct (apply_overrides _ _ _) as [entries|] eqn:Ho; [|done].
  apply apply_overrides_spec in Ho as [Hf _]; [|done|by rewrite sort_by_key_perm].
  assert (∃ id, ef_seal id entries = Ok c') as [id Hseal].
  { destruct (ec_value <$> _) as [[]|]; try done. by eexists. }
  apply ef_seal_ok in Hseal as Hok. destruct Hok as (Hm & _ & Hid & _ & _ & Hfix).
  split; [apply ef_verify_sealed; by rewrite Hid|]. split; [done|].
  rewrite strict_keys_sorted in Hm.
  - apply map_result_Forall2 in Hm. eapply Forall2_trans; [|exact Hf|exact Hm].
    intros e e1 e' Hc Hs. exists e1. split; [|done]. eapply changed_perm; [|exact Hc].
    apply sort_by_key_perm.
  - rewrite (changed_keys _ _ _ _ Hf). by apply ef_verify_sealed, ef_seal_ok in Hv as (_ & ? & _).
Qed.

(** What a layer that is accepted does to one entry of a configuration that
    verifies: nothing, or the merge of its override. *)
Definition merged_by (layer : ConfigLayerV1) (e e' : EffectiveConfigEntryV1) : Prop :=
  ∃ o inc v, o ∈ cl_overrides layer ∧ co_key o = ec_key e ∧
    runtime_materialized_override_key (ec_key e) = true ∧
    validate_value (co_value o) = Ok inc ∧
    merge_value (ec_key e) (ec_merge_strategy e) (ec_value e) inc
      (cs_source_kind (cl_source layer)) = Ok v ∧
    validate_value v = Ok (ec_value e') ∧
    ec_provenance e' ≡ₚ cl_source layer :: ec_provenance e.

Lemma layered_cases c layer e e' :
  ef_verify c = Ok tt → validate_layer_shape c layer = Ok tt → e ∈ ef_entries c →
  layered layer e e' →
  ec_key e' = ec_key e ∧ ec_merge_strategy e' = ec_merge_strategy e ∧
  (((∀ o, o ∈ cl_overrides layer → co_key o ≠ ec_key e) ∧ e' = e) ∨ merged_by layer e e').
Proof.
  intros Hv Hshape Hin (e1 & Hc & Hs). apply verified_entries in Hv as [Hnd Hfix].
  apply changed_keeps in Hc as Hk. destruct Hk as [Hk Hst].
  apply seal_entry_ok in Hs as Hok. destruct Hok as (_ & Hval & _ & _ & _ & _ & Hk' & Hst' & Hp').
  split; [congruence|]. split; [congruence|]. destruct Hc as [Hc Hn].
  destruct (decide (Exists (λ o, co_key o = ec_key e) (cl_overrides layer))) as [Hex|Hex].
  - right. apply Exists_exists in Hex as (o & Ho & Hko). specialize (Hc o Ho Hko).
    apply layer_shape_keys in Hshape as [_ Hcheck]. specialize (Hcheck o Ho).
    unfold check_override in Hcheck. destruct (validate_key (co_key o)); [|done].
    destruct (find_entry (co_key o) (ef_entries c)) as [entry|] eqn:Hf; [|done]. simpl in Hcheck.
    next_check Hcheck. apply override_entry_keeps in Hc as Hkeeps. destruct Hkeeps as (_ & _ & Hp).
    unfold override_entry in Hc. destruct (validate_value (co_value o)) as [inc|] eqn:Hvo; [|done].
    destruct (merge_value _ _ _ _ _) as [v|] eqn:Hm in Hc; [|done]. injection Hc as <-.
    exists o, inc, v. split_and!; try done.
    + unfold find_entry in Hf. apply fmap_Some in Hf as ([i x] & Hf%list_find_Some & ->).
      destruct Hf as (_ & Hx & _). simpl in *. bool_to_prop. unfold source_can_override in *.
      bool_to_prop. congruence.
    + rewrite Hp', sort_by_key_perm. simpl. by rewrite Permutation_app_comm.
  - left. assert (∀ o, o ∈ cl_overrides layer → co_key o ≠ ec_key e) as Hno.
    { intros o Ho Hko. apply Hex, Exists_exists. eauto. }
    split; [done|]. rewrite (Hn Hno), (Hfix e Hin) in Hs. by injection Hs.
Qed.

(** The new value is the old one or, where the source can only restrict, allows
    no more. *)
Lemma merged_tighter c layer e e' :
  ef_verify c = Ok tt → e ∈ ef_entries c → merged_by layer e e' →
  merges_down (ec_merge_strategy e) (cs_source_kind (cl_source layer)) = true →
  ec_value e' = ec_value e ∨ restricts (ec_key e) (ec_merge_strategy e) (ec_value e) (ec_value e').
Proof.
  intros Hv Hin (o & inc & v & _ & _ & _ & _ & Hm & Hval & _) Hdown.
  apply verified_entries in Hv as [_ Hfix]. specialize (Hfix e Hin).
  apply seal_entry_ok in Hfix as (_ & Hcur & _).
  destruct (decide (ec_merge_strategy e = Immutable)) as [Hi|Hi].
  - left. rewrite Hi in Hm. unfold merge_value in Hm. next_check Hm.
    case_bool_decide; [|done]. injection Hm as <-. rewrite Hcur in Hval. by injection Hval.
  - right. apply (proj1 (restricts_same _ _ _ v _ Hi (validate_value_same _ _ Hval))).
    by destruct (merge_is_meet_self _ _ _ _ _ _ Hdown Hm).
Qed.

(** An entry after any number of layers. *)
Definition descends (layers : list ConfigLayerV1) (e e' : EffectiveConfigEntryV1) : Prop :=
  ec_key e' = ec_key e ∧ ec_merge_strategy e' = ec_merge_strategy e ∧
  ec_provenance e ⊆ ec_provenance e' ∧
  (runtime_materialized_override_key (ec_key e) = false → e' = e) ∧
  ((∀ layer, layer ∈ layers →
      merges_down (ec_merge_strategy e) (cs_source_kind (cl_source layer)) = true) →
   ec_value e' = ec_value e ∨
   restricts (ec_key e) (ec_merge_strategy e) (ec_value e) (ec_value e')).

Lemma layered_descends c layer e e' :
  ef_verify c = Ok tt → validate_layer_shape c layer = Ok tt → e ∈ ef_entries c →
  layered layer e e' → descends [layer] e e'.
Proof.
  intros Hv Hshape Hin Hl.
  destruct (layered_cases c layer e e' Hv Hshape Hin Hl) as (Hk & Hs & [[_ ->]|Hm]).
  { split_and!; try done. by left. }
  split_and!; try done.
  - destruct Hm as (o & inc & v & _ & _ & _ & _ & _ & _ & ->). set_solver.
  - destruct Hm as (o & inc & v & _ & _ & Hrun & _). congruence.
  - intros Hdown. eapply merged_tighter; eauto. apply Hdown. by left.
Qed.

Lemma descends_trans layer layers e e1 e' :
  descends [layer] e e1 → descends layers e1 e' → descends (layer :: layers) e e'.
Proof.
  intros (Hk1 & Hs1 & Hp1 & Hr1 & Hd1) (Hk2 & Hs2 & Hp2 & Hr2 & Hd2).
  rewrite Hk1, Hs1 in *. split_and!; [done|done|by etrans|..].
  - intros Hr. rewrite (Hr1 Hr) in *. auto.
  - intros Hdown. destruct Hd1 as [Heq|H1].
    { intros l ->%list_elem_of_singleton. apply Hdown. by left. }
    { rewrite <-Heq. apply Hd2. intros l Hl. apply Hdown. by right. }
    destruct Hd2 as [->|H2]; [|by right|].
    { intros l Hl. apply Hdown. by right. }
    right. by eapply restricts_trans.
Qed.

(** C31: layers only restrict: a configuration that verifies stays one through
    any layers that are accepted, with the same keys and strategies and no
    provenance lost; a key that no layer may name keeps its entry; and an entry
    whose strategy lets none of the sources widen it ends with its value or with
    one that allows no more. *)
Theorem layers_only_restrict c layers c'
    (Hv : ef_verify c = Ok tt) (Hrun : apply_layers c layers = Ok c') :
  ef_verify c' = Ok tt ∧ Forall2 (descends layers) (ef_entries c) (ef_entries c').
Proof.
  revert c Hv Hrun. induction layers as [|layer layers IH]; intros c Hv Hrun; simpl in Hrun.
  { injection Hrun as <-. split; [done|]. apply Forall_Forall2_diag, Forall_forall. intros e _.
    split_and!; try done. by left. }
  destruct (apply_layer c layer) as [c1|] eqn:Ha; [|done].
  apply apply_layer_spec in Ha as (Hv1 & Hshape & Hf); [|done].
  destruct (IH c1 Hv1 Hrun) as [Hv' Hf']. split; [done|].
  eapply Forall2_trans; [intros; by eapply descends_trans| |exact Hf'].
  apply Forall2_same_length_lookup_2; [by eapply Forall2_length|].
  intros i e e1 Hi Hi1. apply (layered_descends c); [done..|by eapply list_elem_of_lookup_2|].
  exact (Forall2_lookup_lr _ _ _ _ _ _ Hf Hi Hi1).
Qed.

(** ** Unions *)

Lemma validated_set l v :
  validate_value (ConfigStringSet l) = Ok v →
  v = ConfigStringSet (sort_by cmp_leb l) ∧ strictly_sorted (sort_by cmp_leb l) ∧ NoDup l.
Proof.
  simpl. intros Hv. next_check Hv. injection Hv as <-. split; [done|].
  match goal with E : _ || _ = false |- _ => apply orb_false_iff in E as [Hw _];
    apply orb_false_iff in Hw as [_ Hw] end.
  assert (strictly_sorted (sort_by cmp_leb l)) as Hs.
  { pose proof (sorted_distinct_strict String.eqb id l String.eqb_eq) as Hiff.
    rewrite map_id in Hiff. by apply Hiff. }
  split; [done|]. apply strict_NoDup in Hs. by rewrite sort_by_perm in Hs.
Qed.

(** A layer cannot repeat what is already required: when an entry merged by
    union holds a value, a layer that lists the value again is refused. *)
Theorem overlapping_union_is_refused c layer e o l l' x
    (Hv : ef_verify c = Ok tt) (He : e ∈ ef_entries c)
    (Hunion : ec_merge_strategy e = Union) (Hset : ec_value e = ConfigStringSet l)
    (Ho : o ∈ cl_overrides layer) (Hkey : co_key o = ec_key e)
    (Hset' : co_value o = ConfigStringSet l') (Hx : x ∈ l) (Hx' : x ∈ l') :
  is_err (apply_layer c layer) = true.
Proof.
  destruct (apply_layer c layer) as [c'|] eqn:Ha; [exfalso|done].
  apply apply_layer_spec in Ha as (_ & Hshape & Hf); [|done].
  apply list_elem_of_lookup in He as Hi. destruct Hi as [i Hi].
  destruct (Forall2_lookup_l _ _ _ _ _ Hf Hi) as (e' & _ & Hl).
  destruct (layered_cases c layer e e' Hv Hshape He Hl) as (_ & _ & [[Hno _]|Hm]).
  { by apply (Hno o). }
  destruct Hm as (o' & inc & v & Ho' & Hk' & _ & Hval & Hm & Hval' & _).
  apply layer_shape_keys in Hshape as [Hnd _].
  assert (o' = o) as -> by (eapply (NoDup_fmap_eq co_key); eauto; congruence).
  rewrite Hset' in Hval. apply validated_set in Hval as (-> & _ & _).
  rewrite Hunion, Hset in Hm. unfold merge_value in Hm. simpl in Hm. injection Hm as <-.
  apply validated_set in Hval' as (_ & _ & Hnd'). apply NoDup_app in Hnd' as (_ & Hdisj & _).
  apply (Hdisj x Hx). by apply elem_of_sort_by.
Qed.

(** ** Order *)

Lemma layered_fun layer e a b :
  NoDup (map co_key (cl_overrides layer)) → layered layer e a → layered layer e b → a = b.
Proof.
  intros Hnd (e1 & [H1 H1'] & Ha) (e2 & [H2 H2'] & Hb). assert (e1 = e2) as ->; [|congruence].
  destruct (decide (Exists (λ o, co_key o = ec_key e) (cl_overrides layer))) as [Hex|Hex].
  - apply Exists_exists in Hex as (o & Ho & Hk).
    specialize (H1 o Ho Hk). specialize (H2 o Ho Hk). congruence.
  - assert (∀ o, o ∈ cl_overrides layer → co_key o ≠ ec_key e) as Hno.
    { intros o Ho Hk. apply Hex, Exists_exists. eauto. }
    by rewrite (H1' Hno), (H2' Hno).
Qed.

(** Values that restrict each other are one value. *)
Lemma restricts_antisym key strategy a b :
  validate_value a = Ok a → validate_value b = Ok b →
  restricts key strategy a b → restricts key strategy b a → a = b.
Proof.
  intros Ha Hb. assert (∀ l l', a = ConfigStringSet l → b = ConfigStringSet l' →
    l ⊆ l' → l' ⊆ l → a = b) as Hsets.
  { intros l l' -> -> Hl Hl'. apply validated_set in Ha as (Ha & _ & Hnd).
    apply validated_set in Hb as (Hb & _ & Hnd'). rewrite Ha, Hb. f_equal. apply sort_by_perm_eq.
    apply NoDup_Permutation; [done..|]. intros y. split; [apply Hl|apply Hl']. }
  destruct strategy, a, b; try done; simpl; intros H1 H2;
    try (f_equal; lia); try (destruct b, b0; intuition congruence); try (by eapply Hsets);
    try intuition congruence.
  - destruct H1 as [->|(m & n & Hm & Hn & ?)]; [done|].
    destruct H2 as [->|(n' & m' & Hn' & Hm' & ?)]; [done|].
    assert (n = n') by congruence. assert (m = m') by congruence. lia.
  - destruct H1 as (m & n & Hm & Hn & Hle), H2 as (n' & m' & Hn' & Hm' & Hle').
    rewrite (json_limit_limit _ _ Hm), (json_limit_limit _ _ Hn).
    assert (n = n') as <- by congruence. assert (m = m') as <- by congruence.
    do 2 f_equal. destruct m, n; simpl in *; try done. f_equal. lia.
  - destruct H1 as [[Hk ->]|[Hl0 Hs]], H2 as [[Hk' ->]|[Hl Hs']]; try done;
      [by destruct (Hl Hk)|by destruct (Hl0 Hk')|by eapply Hsets].
Qed.

#[local] Instance ConfigSourceRefV1_cmp : Cmp ConfigSourceRefV1 := cmp_on source_key.
#[local] Instance ConfigSourceRefV1_cmp_laws : CmpLaws ConfigSourceRefV1.
Proof.
  assert (Inj (=) (=) source_key) by (intros [] [] [=]; by subst). by apply cmp_on_laws.
Qed.

Lemma sealed_provenance_perm e e' :
  seal_entry e = Ok e → seal_entry e' = Ok e' →
  ec_provenance e ≡ₚ ec_provenance e' → ec_provenance e = ec_provenance e'.
Proof.
  intros He He' Hp. apply seal_entry_ok in He as (_ & _ & _ & _ & _ & _ & _ & _ & ->).
  apply seal_entry_ok in He' as (_ & _ & _ & _ & _ & _ & _ & _ & ->).
  apply (sort_by_perm_eq (A:=ConfigSourceRefV1)). done.
Qed.

(** The entry holds the greatest value that its own and the override's admit. *)
Definition admits_both (key : string) (strategy : ConfigMergeStrategyV1)
    (v a b : ConfigValueV1) : Prop :=
  restricts key strategy v v ∧
  ∀ x, restricts key strategy v x ↔ restricts key strategy a x ∧ restricts key strategy b x.

Lemma merged_meet layer e e' o inc :
  NoDup (map co_key (cl_overrides layer)) →
  merged_by layer e e' → o ∈ cl_overrides layer → co_key o = ec_key e →
  validate_value (co_value o) = Ok inc → ec_merge_strategy e ≠ Immutable →
  merges_down (ec_merge_strategy e) (cs_source_kind (cl_source layer)) = true →
  admits_both (ec_key e) (ec_merge_strategy e) (ec_value e') (ec_value e) inc.
Proof.
  intros Hnd (o' & inc' & v & Ho' & Hk' & _ & Hval & Hm & Hval' & _) Ho Hk Hinc Hi Hdown.
  assert (o' = o) as -> by (eapply (NoDup_fmap_eq co_key); eauto; congruence).
  assert (inc' = inc) as -> by congruence. apply validate_value_same in Hval'. split.
  - apply (proj1 (restricts_same _ _ (ec_value e') _ _ Hi Hval')).
    apply (proj2 (restricts_same _ _ v _ _ Hi Hval')). by eapply merge_self.
  - intros x. rewrite <-(merge_meet _ _ _ _ _ _ x Hdown Hm). symmetry.
    apply (proj2 (restricts_same _ _ x _ _ Hi Hval')).
Qed.

Lemma meets_agree key strategy a i1 i2 v w v' w' :
  validate_value v' = Ok v' → validate_value w' = Ok w' →
  admits_both key strategy v a i1 → admits_both key strategy v' v i2 →
  admits_both key strategy w a i2 → admits_both key strategy w' w i1 → v' = w'.
Proof.
  intros Hv Hw [_ H1] [Hs2 H2] [_ H3] [Hs4 H4].
  apply (restricts_antisym key strategy); [done..| |].
  - apply H2. apply H4 in Hs4 as [Hs3 ?]. apply H3 in Hs3 as [? ?]. split; [|done]. by apply H1.
  - apply H4. apply H2 in Hs2 as [Hs1 ?]. apply H1 in Hs1 as [? ?]. split; [|done]. by apply H3.
Qed.

(** The condition under which two layers may meet on an entry. *)
Definition may_meet (c : EffectiveConfigV1) (l1 l2 : ConfigLayerV1) : Prop :=
  ∀ e o1 o2, e ∈ ef_entries c → o1 ∈ cl_overrides l1 → o2 ∈ cl_overrides l2 →
    co_key o1 = ec_key e → co_key o2 = ec_key e →
    merges_down (ec_merge_strategy e) (cs_source_kind (cl_source l1)) = true ∧
    merges_down (ec_merge_strategy e) (cs_source_kind (cl_source l2)) = true.

(** One accepted layer, as far as one entry sees it. *)
Record entry_step (layer : ConfigLayerV1) (e e' : EffectiveConfigEntryV1) : Prop := {
  step_keys : NoDup (map co_key (cl_overrides layer));
  step_layered : layered layer e e';
  step_before : seal_entry e = Ok e;
  step_after : seal_entry e' = Ok e';
  step_key : ec_key e' = ec_key e;
  step_strategy : ec_merge_strategy e' = ec_merge_strategy e;
  step_cases : ((∀ o, o ∈ cl_overrides layer → co_key o ≠ ec_key e) ∧ e' = e) ∨
    (merged_by layer e e' ∧
     (merges_down (ec_merge_strategy e) (cs_source_kind (cl_source layer)) = true →
      ec_merge_strategy e = Immutable → ec_value e' = ec_value e))
}.

Lemma apply_layer_steps c layer c' :
  ef_verify c = Ok tt → apply_layer c layer = Ok c' →
  ef_verify c' = Ok tt ∧ Forall2 (entry_step layer) (ef_entries c) (ef_entries c').
Proof.
  intros Hv Ha. apply apply_layer_spec in Ha as (Hv' & Hshape & Hf); [|done]. split; [done|].
  apply Forall2_same_length_lookup_2; [by eapply Forall2_length|]. intros i e e' Hi Hi'.
  pose proof (Forall2_lookup_lr _ _ _ _ _ _ Hf Hi Hi') as Hl.
  apply list_elem_of_lookup_2 in Hi, Hi'.
  destruct (layered_cases c layer e e' Hv Hshape Hi Hl) as (Hk & Hs & Hc).
  apply verified_entries in Hv as Hfix. destruct Hfix as [_ Hfix].
  apply verified_entries in Hv' as [_ Hfix'].
  split; try done; [by apply (layer_shape_keys c)|by apply Hfix|by apply Hfix'|].
  destruct Hc as [?|Hm]; [by left|right]. split; [done|]. intros Hdown Him.
  destruct (merged_tighter c layer e e' Hv Hi Hm Hdown) as [?|Hr]; [done|].
  rewrite Him in Hr. by destruct (ec_value e).
Qed.

Lemma entry_step_fun layer e a b : entry_step layer e a → entry_step layer e b → a = b.
Proof. intros Ha Hb. eapply layered_fun; [apply (step_keys _ _ _ Ha)|apply Ha|apply Hb]. Qed.

Lemma same_entry e e' :
  seal_entry e = Ok e → seal_entry e' = Ok e' → ec_key e = ec_key e' →
  ec_merge_strategy e = ec_merge_strategy e' → ec_value e = ec_value e' →
  ec_provenance e ≡ₚ ec_provenance e' → e = e'.
Proof.
  intros He He' ? ? ? Hp. pose proof (sealed_provenance_perm e e' He He' Hp).
  destruct e, e'; simpl in *; congruence.
Qed.

(** Both layers on an entry that both name. *)
Lemma met_entries l1 l2 e e1 e12 e2 e21 o1 o2 :
  entry_step l1 e e1 → entry_step l2 e1 e12 → entry_step l2 e e2 → entry_step l1 e2 e21 →
  o1 ∈ cl_overrides l1 → co_key o1 = ec_key e → o2 ∈ cl_overrides l2 → co_key o2 = ec_key e →
  merges_down (ec_merge_strategy e) (cs_source_kind (cl_source l1)) = true →
  merges_down (ec_merge_strategy e) (cs_source_kind (cl_source l2)) = true →
  e12 = e21.
Proof.
  intros [N1 _ B A1 K1 S1 C1] [N2 _ _ A12 K12 S12 C12] [_ _ _ A2 K2 S2 C2] [_ _ _ A21 K21 S21 C21].
  intros Ho1 Hk1 Ho2 Hk2 D1 D2. rewrite K1, S1 in *. rewrite K2, S2 in *.
  destruct C1 as [[Hno _]|[M1 I1]]; [by destruct (Hno o1)|].
  destruct C12 as [[Hno _]|[M12 I12]]; [by destruct (Hno o2)|].
  destruct C2 as [[Hno _]|[M2 I2]]; [by destruct (Hno o2)|].
  destruct C21 as [[Hno _]|[M21 I21]]; [by destruct (Hno o1)|].
  apply same_entry; [done|done|congruence|congruence| |].
  - destruct (decide (ec_merge_strategy e = Immutable)) as [Hi|Hi].
    { rewrite (I12 D2 Hi), (I1 D1 Hi), (I21 D1 Hi), (I2 D2 Hi). done. }
    pose proof M1 as (o & inc1 & v & Ho & Hk & _ & Hv1 & _).
    assert (o = o1) as -> by (eapply (NoDup_fmap_eq co_key _ _ _ N1); eauto; congruence).
    pose proof M2 as (o & inc2 & v' & Ho' & Hk' & _ & Hv2 & _).
    assert (o = o2) as -> by (eapply (NoDup_fmap_eq co_key _ _ _ N2); eauto; congruence).
    apply seal_entry_ok in A12 as (_ & V12 & _). apply seal_entry_ok in A21 as (_ & V21 & _).
    apply (meets_agree (ec_key e) (ec_merge_strategy e) (ec_value e) inc1 inc2 (ec_value e1)
      (ec_value e2) _ _ V12 V21).
    + by apply (merged_meet l1 e e1 o1 inc1).
    + rewrite <-K1, <-S1. apply (merged_meet l2 e1 e12 o2 inc2); rewrite ?K1, ?S1; done.
    + by apply (merged_meet l2 e e2 o2 inc2).
    + rewrite <-K2, <-S2. apply (merged_meet l1 e2 e21 o1 inc1); rewrite ?K2, ?S2; done.
  - destruct M12 as (_ & _ & _ & _ & _ & _ & _ & _ & _ & ->).
    destruct M1 as (_ & _ & _ & _ & _ & _ & _ & _ & _ & ->).
    destruct M21 as (_ & _ & _ & _ & _ & _ & _ & _ & _ & ->).
    destruct M2 as (_ & _ & _ & _ & _ & _ & _ & _ & _ & ->). apply Permutation_swap.
Qed.

Lemma commuting_entry l1 l2 e e1 e12 e2 e21 :
  entry_step l1 e e1 → entry_step l2 e1 e12 → entry_step l2 e e2 → entry_step l1 e2 e21 →
  (∀ o1 o2, o1 ∈ cl_overrides l1 → o2 ∈ cl_overrides l2 →
    co_key o1 = ec_key e → co_key o2 = ec_key e →
    merges_down (ec_merge_strategy e) (cs_source_kind (cl_source l1)) = true ∧
    merges_down (ec_merge_strategy e) (cs_source_kind (cl_source l2)) = true) →
  e12 = e21.
Proof.
  intros S1 S12 S2 S21 Hmeet.
  destruct (step_cases _ _ _ S1) as [[Hno ->]|[M1 _]].
  { assert (e21 = e2) as ->; [|exact (entry_step_fun _ _ _ _ S12 S2)].
    destruct (step_cases _ _ _ S21) as [[_ ?]|[(o & _ & _ & Ho & Hk & _) _]]; [done|].
    rewrite (step_key _ _ _ S2) in Hk. by destruct (Hno o). }
  destruct (step_cases _ _ _ S2) as [[Hno ->]|[M2 _]].
  { assert (e12 = e1) as ->; [|exact (entry_step_fun _ _ _ _ S1 S21)].
    destruct (step_cases _ _ _ S12) as [[_ ?]|[(o & _ & _ & Ho & Hk & _) _]]; [done|].
    rewrite (step_key _ _ _ S1) in Hk. by destruct (Hno o). }
  destruct M1 as (o1 & _ & _ & Ho1 & Hk1 & _), M2 as (o2 & _ & _ & Ho2 & Hk2 & _).
  destruct (Hmeet o1 o2) as [D1 D2]; [done..|].
  by apply (met_entries l1 l2 e e1 e12 e2 e21 o1 o2).
Qed.

Lemma applied_profile c layer c' :
  apply_layer c layer = Ok c' →
  ∃ e, e ∈ ef_entries c' ∧ ec_key e = "policy_profile" ∧
    ec_value e = ConfigString (ef_policy_profile_id c').
Proof.
  unfold apply_layer. intros Ha. destruct (validate_layer_shape c layer) as [[]|]; [|done].
  destruct (apply_overrides _ _ _) as [entries|]; [|done].
  destruct (find_entry "policy_profile" entries) as [e|] eqn:Hf; [|done]. simpl in Ha.
  destruct (ec_value e) as [| |id| |] eqn:He; try done.
  apply ef_seal_ok in Ha as (Hm & _ & Hid & _). unfold find_entry in Hf.
  apply fmap_Some in Hf as ([i x] & (Hi & Hx & _)%list_find_Some & ->). simpl in *.
  apply map_result_Forall2 in Hm. apply list_elem_of_lookup_2 in Hi.
  rewrite <-(sort_by_key_perm ec_key) in Hi. apply list_elem_of_lookup in Hi as [j Hj].
  destruct (Forall2_lookup_l _ _ _ _ _ Hm Hj) as (e' & He' & Hs). exists e'.
  apply seal_entry_ok in Hs as (_ & Hv & _ & _ & _ & _ & Hk & _). rewrite He in Hv.
  apply validate_value_same in Hv. simpl in Hv.
  split; [by eapply list_elem_of_lookup_2|]. split; [congruence|]. by rewrite Hid.
Qed.

(** The order of two layers is irrelevant unless they meet on an entry that
    one of them may widen or replace: when both orders are accepted, both give
    the same configuration, to the fingerprint. *)
Theorem layer_order_is_irrelevant c l1 l2 c12 c21
    (Hv : ef_verify c = Ok tt) (Hmeet : may_meet c l1 l2)
    (H12 : apply_layers c [l1; l2] = Ok c12) (H21 : apply_layers c [l2; l1] = Ok c21) :
  c12 = c21.
Proof.
  simpl in H12, H21. destruct (apply_layer c l1) as [c1|] eqn:A1; [|done].
  destruct (apply_layer c1 l2) as [?|] eqn:A12; [|done]. injection H12 as ->.
  destruct (apply_layer c l2) as [c2|] eqn:A2; [|done].
  destruct (apply_layer c2 l1) as [?|] eqn:A21; [|done]. injection H21 as ->.
  pose proof (applied_profile _ _ _ A12) as (p & Hp & Kp & Vp).
  pose proof (applied_profile _ _ _ A21) as (q & Hq & Kq & Vq).
  apply apply_layer_steps in A1 as [V1 F1]; [|done]. apply apply_layer_steps in A2 as [V2 F2]; [|done].
  apply apply_layer_steps in A12 as [V12 F12]; [|done].
  apply apply_layer_steps in A21 as [V21 F21]; [|done].
  assert (ef_entries c12 = ef_entries c21) as Heq.
  { apply list_eq_Forall2, Forall2_same_length_lookup_2.
    { apply Forall2_length in F1, F12, F2, F21. congruence. }
    intros i e12 e21 H12 H21. destruct (Forall2_lookup_r _ _ _ _ _ F12 H12) as (e1 & L1 & S12).
    destruct (Forall2_lookup_r _ _ _ _ _ F21 H21) as (e2 & L2 & S21).
    destruct (Forall2_lookup_r _ _ _ _ _ F1 L1) as (e & L & S1).
    pose proof (Forall2_lookup_lr _ _ _ _ _ _ F2 L L2) as S2.
    apply (commuting_entry l1 l2 e e1 e12 e2 e21); try done.
    intros o1 o2. apply Hmeet. by eapply list_elem_of_lookup_2. }
  apply verified_entries in V12 as Hnd. destruct Hnd as [Hnd _].
  assert (p = q) as <-.
  { rewrite <-Heq in Hq. eapply (NoDup_fmap_eq ec_key _ _ _ Hnd); eauto. congruence. }
  apply ef_verify_sealed in V12, V21. rewrite Heq in V12.
  assert (ef_policy_profile_id c12 = ef_policy_profile_id c21) as Hid by congruence.
  rewrite Hid in V12. congruence.
Qed.

End facts.

(** ** Instances *)

Definition project_layer : ConfigLayerV1 :=
  {| cl_source := sample_source Project "project-config";
     cl_overrides := [{| co_key := "scan.max_files"; co_value := ConfigInteger 5 |};
                      {| co_key := "policy_profile";
                         co_value := ConfigString "star.policy-profile.safe-default" |}] |}.

Definition user_layer : ConfigLayerV1 :=
  {| cl_source := sample_source User "user-config";
     cl_overrides := [{| co_key := "scan.max_files"; co_value := ConfigInteger 7 |};
                      {| co_key := "scan.exclude_paths_add";
                         co_value := ConfigStringSet ["build"] |}] |}.

Definition excluding_layer : ConfigLayerV1 :=
  {| cl_source := sample_source Project "project-config";
     cl_overrides := [{| co_key := "scan.exclude_paths_add";
                         co_value := ConfigStringSet ["main"] |}] |}.

Definition layered_config : EffectiveConfigV1 :=
  match apply_layers base_config [project_layer; user_layer] with
  | Ok c => c | Err _ => base_config
  end.

Lemma layers_only_restrict_witness :
  ef_policy_profile_id layered_config = "star.policy-profile.safe-default" ∧
  ef_verify layered_config = Ok tt.
Proof.
  split; [vm_compute; reflexivity|].
  apply (layers_only_restrict base_config [project_layer; user_layer] layered_config);
    [exact base_config_verifies|vm_compute; reflexivity].
Defined.

Lemma layer_order_is_irrelevant_witness :
  apply_layers base_config [user_layer; project_layer] = Ok layered_config.
Proof.
  destruct (apply_layers base_config [user_layer; project_layer]) as [c|e] eqn:Hc;
    [|vm_compute in Hc; discriminate].
  f_equal. symmetry.
  apply (layer_order_is_irrelevant base_config project_layer user_layer layered_config c
    base_config_verifies); [|vm_compute; reflexivity|exact Hc].
  assert (forallb (λ e, merges_down (ec_merge_strategy e) Project
                        && merges_down (ec_merge_strategy e) User) (ef_entries base_config) = true)
    as Hall by (vm_compute; reflexivity).
  intros e o1 o2 He _ _ _ _. rewrite forallb_true in Hall.
  exact (andb_prop _ _ (Hall e He)).
Defined.

Lemma overlapping_union_is_refused_witness :
  is_err (apply_layer base_config excluding_layer) = true.
Proof.
  assert (∃ e, find_entry "scan.exclude_paths_add" (ef_entries base_config) = Some e ∧
    ec_key e = "scan.exclude_paths_add" ∧ ec_merge_strategy e = Union ∧
    ec_value e = ConfigStringSet ["main"; "release"]) as (e & Hf & Hk & Hs & Hv).
  { eexists. repeat split; vm_compute; reflexivity. }
  unfold find_entry in Hf. apply fmap_Some in Hf as ([i x] & Hf%list_find_Some & ->).
  apply (overlapping_union_is_refused base_config excluding_layer x
    {| co_key := "scan.exclude_paths_add"; co_value := ConfigStringSet ["main"] |}
    ["main"; "release"] ["main"] "main" base_config_verifies); try done; try by left.
  - apply (list_elem_of_lookup_2 _ i). exact (proj1 Hf).
Defined.
