(* ===== verification/Operations.v ===== *)
(** * The operation store

    Models [apps/star-controller/src/operation_store.rs]: the operations of the
    controller with their events, their statuses, recovery when the store is
    loaded, and the write after every change; and the error envelope of
    [crates/foundation/star-contracts/src/ipc.rs] it records.

    Every reading of the clock in a call is a value of its own: [clock k] is
    what the [k]-th place that reads it sees.  [serde]'s derived parser of the
    envelope and [serde_json::to_string] are the class [JsonText]. *)
From S2P Require Import Prelude Canonical Persist.

Definition FORMAT_VERSION : N := 1.
Definition MCP_CONTRACT_VERSION : N := 1.

Inductive OperationStoreError :=
| LocalAppDataUnavailable | Io | Corrupt | Dacl | Transition | IdempotencyConflict.

#[global] Instance OperationStoreError_eq_dec : EqDecision OperationStoreError.
Proof. solve_decision. Defined.

Record OperationEvent := {
  oe_sequence : N;
  oe_timestamp : string;
  oe_phase : string;
  oe_detail : string
}.

#[global] Instance OperationEvent_eq_dec : EqDecision OperationEvent.
Proof. solve_decision. Defined.

Record OperationSnapshot := {
  os_operation_id : string;
  os_command : string;
  os_correlation_id : string;
  os_tool_id : string;
  os_descriptor_hash : string;
  os_arguments_hash : string;
  os_permission_actions : list string;
  os_goal_id : option string;
  os_run_id : option string;
  os_stage_id : option string;
  os_output_provenance : option Json;
  os_status : string;
  os_accepted_at : string;
  os_updated_at : string;
  os_started_at : option string;
  os_finished_at : option string;
  os_expires_at : option string;
  os_cancellable : bool;
  os_cancel_requested : bool;
  os_cancel_effective : bool;
  os_result : option Json;
  os_error : option Json;
  os_process_id : option N;
  os_process_creation_time_100ns : option N;
  os_job_id : option string;
  os_executable_identity : option Json;
  os_process_exit_code : option N;
  os_process_termination : option string;
  os_process_stdout_bytes : option N;
  os_process_stderr_bytes : option N;
  os_process_output_limit_exceeded : option bool;
  os_latest_event_sequence : N;
  os_events : list OperationEvent
}.

#[global] Instance OperationSnapshot_eq_dec : EqDecision OperationSnapshot.
Proof. solve_decision. Defined.

Record IdempotencyRecord := {
  ir_operation_id : string;
  ir_invocation_hash : string
}.

Record OperationFile := {
  of_format_version : N;
  of_operations : gmap string OperationSnapshot;
  of_idempotency : gmap string IdempotencyRecord
}.

(** The store is its file in memory; the path is fixed. *)
Abbreviation OperationStore := OperationFile.
Abbreviation world := (OperationFile * option OperationFile)%type.

Record OperationCreate := {
  oc_command : string;
  oc_correlation_id : string;
  oc_tool_id : string;
  oc_descriptor_hash : string;
  oc_arguments_hash : string;
  oc_permission_actions : list string;
  oc_goal_id : option string;
  oc_run_id : option string;
  oc_stage_id : option string;
  oc_output_provenance : option Json;
  oc_cancellable : bool;
  oc_idempotency_key : option string;
  oc_invocation_hash : string
}.

Record ProcessStartEvidence := {
  ps_process_id : N;
  ps_creation_time_100ns : N;
  ps_job_id : string
}.

Record ProcessEndEvidence := {
  pe_exit_code : option N;
  pe_termination : string;
  pe_stdout_bytes : N;
  pe_stderr_bytes : N;
  pe_stdout_limit_exceeded : bool;
  pe_stderr_limit_exceeded : bool
}.

#[global] Instance ProcessEndEvidence_to_json : ToJson ProcessEndEvidence := λ e,
  JObj [("exit_code", to_json (pe_exit_code e)); ("termination", to_json (pe_termination e));
        ("stdout_bytes", to_json (pe_stdout_bytes e));
        ("stderr_bytes", to_json (pe_stderr_bytes e));
        ("stdout_limit_exceeded", to_json (pe_stdout_limit_exceeded e));
        ("stderr_limit_exceeded", to_json (pe_stderr_limit_exceeded e))].

Class JsonText := {
  json_to_string : Json → option string;
  envelope_from_value : Json → option Json
}.

(** The fields the operations assign. *)
Definition os_update (op : OperationSnapshot) (status updated_at : string)
    (started_at finished_at expires_at : option string) (cancel_requested cancel_effective : bool)
    (result error : option Json) (latest : N) (events : list OperationEvent) :
    OperationSnapshot :=
  {| os_operation_id := os_operation_id op;
     os_command := os_command op;
     os_correlation_id := os_correlation_id op;
     os_tool_id := os_tool_id op;
     os_descriptor_hash := os_descriptor_hash op;
     os_arguments_hash := os_arguments_hash op;
     os_permission_actions := os_permission_actions op;
     os_goal_id := os_goal_id op;
     os_run_id := os_run_id op;
     os_stage_id := os_stage_id op;
     os_output_provenance := os_output_provenance op;
     os_status := status;
     os_accepted_at := os_accepted_at op;
     os_updated_at := updated_at;
     os_started_at := started_at;
     os_finished_at := finished_at;
     os_expires_at := expires_at;
     os_cancellable := os_cancellable op;
     os_cancel_requested := cancel_requested;
     os_cancel_effective := cancel_effective;
     os_result := result;
     os_error := error;
     os_process_id := os_process_id op;
     os_process_creation_time_100ns := os_process_creation_time_100ns op;
     os_job_id := os_job_id op;
     os_executable_identity := os_executable_identity op;
     os_process_exit_code := os_process_exit_code op;
     os_process_termination := os_process_termination op;
     os_process_stdout_bytes := os_process_stdout_bytes op;
     os_process_stderr_bytes := os_process_stderr_bytes op;
     os_process_output_limit_exceeded := os_process_output_limit_exceeded op;
     os_latest_event_sequence := latest;
     os_events := events |}.

(** The process fields. *)
Definition os_set_process (op : OperationSnapshot) (process_id creation_time : option N)
    (job_id : option string) (executable_identity : option Json) (exit_code : option N)
    (termination : option string) (stdout stderr : option N) (exceeded : option bool) :
    OperationSnapshot :=
  {| os_operation_id := os_operation_id op;
     os_command := os_command op;
     os_correlation_id := os_correlation_id op;
     os_tool_id := os_tool_id op;
     os_descriptor_hash := os_descriptor_hash op;
     os_arguments_hash := os_arguments_hash op;
     os_permission_actions := os_permission_actions op;
     os_goal_id := os_goal_id op;
     os_run_id := os_run_id op;
     os_stage_id := os_stage_id op;
     os_output_provenance := os_output_provenance op;
     os_status := os_status op;
     os_accepted_at := os_accepted_at op;
     os_updated_at := os_updated_at op;
     os_started_at := os_started_at op;
     os_finished_at := os_finished_at op;
     os_expires_at := os_expires_at op;
     os_cancellable := os_cancellable op;
     os_cancel_requested := os_cancel_requested op;
     os_cancel_effective := os_cancel_effective op;
     os_result := os_result op;
     os_error := os_error op;
     os_process_id := process_id;
     os_process_creation_time_100ns := creation_time;
     os_job_id := job_id;
     os_executable_identity := executable_identity;
     os_process_exit_code := exit_code;
     os_process_termination := termination;
     os_process_stdout_bytes := stdout;
     os_process_stderr_bytes := stderr;
     os_process_output_limit_exceeded := exceeded;
     os_latest_event_sequence := os_latest_event_sequence op;
     os_events := os_events op |}.

Definition set_status (op : OperationSnapshot) (status : string) : OperationSnapshot :=
  os_update op status (os_updated_at op) (os_started_at op) (os_finished_at op)
    (os_expires_at op) (os_cancel_requested op) (os_cancel_effective op) (os_result op)
    (os_error op) (os_latest_event_sequence op) (os_events op).

Definition set_started (op : OperationSnapshot) (started_at : option string) : OperationSnapshot :=
  os_update op (os_status op) (os_updated_at op) started_at (os_finished_at op)
    (os_expires_at op) (os_cancel_requested op) (os_cancel_effective op) (os_result op)
    (os_error op) (os_latest_event_sequence op) (os_events op).

Definition set_finished (op : OperationSnapshot) (finished_at expires_at : string) :
    OperationSnapshot :=
  os_update op (os_status op) (os_updated_at op) (os_started_at op) (Some finished_at)
    (Some expires_at) (os_cancel_requested op) (os_cancel_effective op) (os_result op)
    (os_error op) (os_latest_event_sequence op) (os_events op).

Definition set_cancel (op : OperationSnapshot) (requested effective : bool) : OperationSnapshot :=
  os_update op (os_status op) (os_updated_at op) (os_started_at op) (os_finished_at op)
    (os_expires_at op) requested effective (os_result op)
    (os_error op) (os_latest_event_sequence op) (os_events op).

Definition set_outcome (op : OperationSnapshot) (result error : option Json) : OperationSnapshot :=
  os_update op (os_status op) (os_updated_at op) (os_started_at op) (os_finished_at op)
    (os_expires_at op) (os_cancel_requested op) (os_cancel_effective op) result error
    (os_latest_event_sequence op) (os_events op).

(** ** Statuses *)

Definition terminal (status : string) : bool :=
  mem status ["succeeded"; "failed"; "cancelled"; "denied"; "expired"; "outcome_unknown"].

Definition valid_transition (from to : string) : bool :=
  if String.eqb from "received" then mem to ["resolving"; "approval_wait"; "queued"]
  else if String.eqb from "resolving" then mem to ["approval_wait"; "queued"; "failed"]
  else if String.eqb from "approval_wait" then mem to ["queued"; "denied"; "expired"]
  else if String.eqb from "queued" then mem to ["starting"]
  else if String.eqb from "starting" then mem to ["running"; "outcome_unknown"]
  else if String.eqb from "running" then
    mem to ["succeeded"; "failed"; "cancelling"; "outcome_unknown"]
  else if String.eqb from "cancelling" then
    mem to ["cancelled"; "succeeded"; "failed"; "outcome_unknown"]
  else false.

Definition before_process_start (status : string) : bool :=
  mem status ["received"; "resolving"; "approval_wait"; "queued"; "starting"].

(** ** Error envelopes *)

(** The category of a code is that of the text before its first underscore. *)
Definition category_for_code (code : string) : string :=
  let has prefixes := existsb (λ p, starts_with (p +:+ "_") code) prefixes in
  if has ["CONFIG"] then "config"
  else if has ["CONTRACT"] then "contract"
  else if has ["DOCTOR"; "CLEAN"] then "environment"
  else if has ["STATE"] then "state"
  else if has ["POLICY"] then "policy"
  else if has ["ROUTE"] then "route"
  else if has ["PLANNING"; "CHANGE"] then "planning"
  else if has ["IMPACT"] then "impact"
  else if has ["AFFECTED"] then "affected"
  else if has ["REGISTRY"; "CATALOG"] then "registry"
  else if has ["TOOL"] then "tool"
  else if has ["CODEX"] then "codex"
  else if has ["VALIDATION"] then "validation"
  else if has ["REPRODUCTION"; "RECOVERY"] then "reproduction"
  else if has ["SECURITY"] then "security"
  else if has ["DEPENDENCY"] then "dependency"
  else if has ["MAINTENANCE"; "RETENTION"] then "maintenance"
  else if has ["MIGRATION"] then "migration"
  else if has ["PERFORMANCE"] then "performance"
  else if has ["LANGUAGE"; "PLATFORM"] then "equivalence"
  else if has ["PATCH"; "RECIPE"] then "patch"
  else if has ["VCS"] then "vcs"
  else if has ["IPC"] then "ipc"
  else if has ["RELEASE"] then "release"
  else "internal".

(** [ErrorEnvelope::new], with its context, as a value. *)
Definition error_envelope (code message : string) (retryable : bool)
    (context : list (string * Json)) (correlation_id occurred_at component : string) : Json :=
  JObj [("schema_id", JStr "star.error");
        ("schema_version", to_json MCP_CONTRACT_VERSION);
        ("code", JStr code);
        ("category", JStr (category_for_code code));
        ("message", JStr message);
        ("retryable", JBool retryable);
        ("retry_after_ms", JNull);
        ("user_action", JNull);
        ("context", JObj context);
        ("correlation_id", JStr correlation_id);
        ("caused_by", JNull);
        ("artifact_refs", JArr []);
        ("occurred_at", JStr occurred_at);
        ("component", JStr component)].

(** [Value::get] of an object, [as_str] and [as_bool]. *)
Definition json_get (key : string) (value : Json) : option Json :=
  match value with
  | JObj fields => snd <$> find (λ f : string * Json, String.eqb f.1 key) fields
  | _ => None
  end.

Definition as_str (value : Json) : option string :=
  match value with JStr s => Some s | _ => None end.

Definition as_bool (value : Json) : option bool :=
  match value with JBool b => Some b | _ => None end.

Section operation_store.
Context `{Instants, JsonText}.
Implicit Types clock : nat → Z.

Definition now clock (k : nat) : string := instant_text (clock k).

Definition terminal_expiry clock (k : nat) : string :=
  instant_text (clock k + 24 * 3600 * 10 ^ 9)%Z.

Definition operation_error_envelope clock (k : nat) (code message : string) (retryable : bool)
    (correlation_id operation_id : string) : Json :=
  error_envelope code message retryable [("operation_id", JStr operation_id)] correlation_id
    (now clock k) "star-controller".

(** [k] and [k + 1] are the two readings of the clock.  The counter is a [u64]
    of a release build. *)
Definition append_event clock (k : nat) (op : OperationSnapshot) (phase detail : string) :
    OperationSnapshot :=
  let latest := wrapping_add u64_max (os_latest_event_sequence op) 1 in
  os_update op (os_status op) (now clock k) (os_started_at op) (os_finished_at op)
    (os_expires_at op) (os_cancel_requested op) (os_cancel_effective op) (os_result op)
    (os_error op) latest
    (os_events op ++ [{| oe_sequence := latest; oe_timestamp := now clock (S k);
                         oe_phase := phase; oe_detail := detail |}]).

(** ** Loading *)

(** An operation that had not finished when the controller stopped. *)
Definition recover clock (op : OperationSnapshot) : OperationSnapshot :=
  if terminal (os_status op) then op
  else
    let before := before_process_start (os_status op) in
    let error :=
      if before then
        operation_error_envelope clock 0 "STATE_CONTROLLER_RECOVERED_BEFORE_PROCESS_START"
          "Controller recovered an Operation before external process creation." false
          (os_correlation_id op) (os_operation_id op)
      else
        operation_error_envelope clock 0 "TOOL_OUTCOME_UNKNOWN"
          "Controller restarted after process creation and cannot prove the external outcome."
          false (os_correlation_id op) (os_operation_id op) in
    let op := set_outcome op (os_result op) (Some error) in
    let op := set_status op (if before then "failed" else "outcome_unknown") in
    let op := set_finished op (now clock 1) (terminal_expiry clock 2) in
    append_event clock 3 op (if before then "failed" else "outcome_unknown")
      (if before then "controller_recovered_before_process_start"
       else "controller_recovered_after_process_start").

(** The operations in the order of their keys, each with its own readings of
    the clock. *)
Definition recover_file (clocks : string → nat → Z) (f : OperationFile) : OperationFile :=
  {| of_format_version := of_format_version f;
     of_operations := map_imap (λ key op, Some (recover (clocks key) op)) (of_operations f);
     of_idempotency := of_idempotency f |}.

Definition any_open (f : OperationFile) : bool :=
  existsb (λ e : string * OperationSnapshot, negb (terminal (os_status e.2)))
    (btree_entries (of_operations f)).

Definition empty_file : OperationFile :=
  {| of_format_version := FORMAT_VERSION; of_operations := ∅; of_idempotency := ∅ |}.

Definition load (read : read_outcome OperationFile) (clocks : string → nat → Z)
    (outcome : persist_outcome OperationStoreError) (disk : option OperationFile) :
    option OperationFile * result OperationStore OperationStoreError :=
  match read with
  | ReadFailed => (disk, Err Io)
  | ReadParsed None => (disk, Err Corrupt)
  | _ =>
      let file := default empty_file (read_disk read) in
      if negb (of_format_version file =? FORMAT_VERSION)%N then (disk, Err Corrupt)
      else
        let store := recover_file clocks file in
        if any_open file
        then let p := persist Dacl outcome store disk in (p.1, let? _ := p.2 in Ok store)
        else (disk, Ok store)
  end.

(** ** Changes *)

(** What a call does with the operation it looked up: it refuses, it answers
    with it as it is, it changes it and writes the file, or it fails after
    having changed it in memory. *)
Inductive edit :=
| Refuse (e : OperationStoreError)
| Answer
| Change (op : OperationSnapshot)
| Abandon (op : OperationSnapshot) (e : OperationStoreError).

(** The store with an operation under its key. *)
Definition put (key : string) (op : OperationSnapshot) (f : OperationFile) : OperationFile :=
  {| of_format_version := of_format_version f;
     of_operations := <[key := op]> (of_operations f);
     of_idempotency := of_idempotency f |}.

(** [get_mut], the change in place, and the write. *)
Definition edit_operation (key : string) (missing : OperationStoreError)
    (f : OperationSnapshot → edit) (outcome : persist_outcome OperationStoreError) (w : world) :
    world * result OperationSnapshot OperationStoreError :=
  match of_operations w.1 !! key with
  | None => (w, Err missing)
  | Some op =>
      match f op with
      | Refuse e => (w, Err e)
      | Answer => (w, Ok op)
      | Change op =>
          let store := put key op w.1 in
          let p := persist Dacl outcome store w.2 in
          ((store, p.1), let? _ := p.2 in Ok op)
      | Abandon op e => ((put key op w.1, w.2), Err e)
      end
  end.

Definition is_expired (t : Z) (op : OperationSnapshot) : bool :=
  is_some_and (os_expires_at op ≫= instant_parse) (λ expires, (expires <=? t)%Z).

Definition prune_expired (t : Z) (f : OperationFile) : OperationFile :=
  {| of_format_version := of_format_version f;
     of_operations :=
       filter (λ e : string * OperationSnapshot, is_expired t e.2 = false) (of_operations f);
     of_idempotency :=
       filter (λ e : string * IdempotencyRecord,
                 is_some_and (of_operations f !! ir_operation_id e.2) (is_expired t) = false)
              (of_idempotency f) |}.

Definition received clock (operation_id : string) (request : OperationCreate) :
    OperationSnapshot :=
  append_event clock 3
    {| os_operation_id := operation_id;
       os_command := oc_command request;
       os_correlation_id := oc_correlation_id request;
       os_tool_id := oc_tool_id request;
       os_descriptor_hash := oc_descriptor_hash request;
       os_arguments_hash := oc_arguments_hash request;
       os_permission_actions := sort_dedup (oc_permission_actions request);
       os_goal_id := oc_goal_id request;
       os_run_id := oc_run_id request;
       os_stage_id := oc_stage_id request;
       os_output_provenance := oc_output_provenance request;
       os_status := "received";
       os_accepted_at := now clock 1;
       os_updated_at := now clock 2;
       os_started_at := None;
       os_finished_at := None;
       os_expires_at := None;
       os_cancellable := oc_cancellable request;
       os_cancel_requested := false;
       os_cancel_effective := false;
       os_result := None;
       os_error := None;
       os_process_id := None;
       os_process_creation_time_100ns := None;
       os_job_id := None;
       os_executable_identity := None;
       os_process_exit_code := None;
       os_process_termination := None;
       os_process_stdout_bytes := None;
       os_process_stderr_bytes := None;
       os_process_output_limit_exceeded := None;
       os_latest_event_sequence := 0;
       os_events := [] |}
    "received" "invocation_accepted".

(** The store with a new operation and its key. *)
Definition accepted clock (operation_id : string) (request : OperationCreate)
    (f : OperationFile) : OperationFile :=
  {| of_format_version := of_format_version f;
     of_operations := <[operation_id := received clock operation_id request]> (of_operations f);
     of_idempotency :=
       match oc_idempotency_key request with
       | Some key =>
           <[key := {| ir_operation_id := operation_id;
                       ir_invocation_hash := oc_invocation_hash request |}]> (of_idempotency f)
       | None => of_idempotency f
       end |}.

(** [operation_id] is the fresh identifier drawn. *)
Definition create clock (operation_id : string) (request : OperationCreate)
    (outcome : persist_outcome OperationStoreError) (w : world) :
    world * result OperationSnapshot OperationStoreError :=
  let f := prune_expired (clock 0) w.1 in
  match oc_idempotency_key request ≫= λ key, of_idempotency f !! key with
  | Some existing =>
      ((f, w.2),
       if negb (String.eqb (ir_invocation_hash existing) (oc_invocation_hash request))
       then Err IdempotencyConflict
       else ok_or (of_operations f !! ir_operation_id existing) Corrupt)
  | None =>
      let store := accepted clock operation_id request f in
      let p := persist Dacl outcome store w.2 in
      ((store, p.1), let? _ := p.2 in Ok (received clock operation_id request))
  end.

Definition transition_edit clock (next detail : string) (operation : OperationSnapshot) : edit :=
  if terminal (os_status operation) || negb (valid_transition (os_status operation) next)
  then Refuse Transition
  else
    let operation := set_status operation next in
    let operation :=
      if String.eqb next "running" && is_none (os_started_at operation)
      then set_started operation (Some (now clock 0)) else operation in
    let operation :=
      if terminal next
      then set_finished operation (now clock 1) (terminal_expiry clock 2) else operation in
    Change (append_event clock 3 operation next detail).

Definition transition clock (operation_id next detail : string) :=
  edit_operation operation_id Corrupt (transition_edit clock next detail).

(** The error a failed completion records. *)
Definition completion_error clock (operation : OperationSnapshot) (error : Json) : Json :=
  default
    (operation_error_envelope clock 2
       (default "INTERNAL_INVARIANT_BROKEN" (json_get "code" error ≫= as_str))
       (default "The Operation failed without a safe normalized message."
          (json_get "message" error ≫= as_str))
       (default false (json_get "retryable" error ≫= as_bool))
       (os_correlation_id operation) (os_operation_id operation))
    (envelope_from_value error).

Definition complete_edit clock (result : result Json Json) (operation : OperationSnapshot) :
    edit :=
  let cancellation_effective :=
    match result with
    | Err error => bool_decide (json_get "code" error ≫= as_str = Some "TOOL_CANCELLED")
    | Ok _ => false
    end in
  let terminal_state :=
    if cancellation_effective then "cancelled" else if is_ok result then "succeeded" else "failed" in
  if terminal (os_status operation)
  then
    let detail := if is_ok result then "late_backend_success_observed"
                  else "late_backend_failure_observed" in
    if existsb (λ event, String.eqb (oe_phase event) "late_backend_evidence"
                         && String.eqb (oe_detail event) detail) (os_events operation)
    then Answer
    else Change (append_event clock 3 operation "late_backend_evidence" detail)
  else
    let operation := set_status operation terminal_state in
    let operation := set_finished operation (now clock 0) (terminal_expiry clock 1) in
    let operation := set_cancel operation (os_cancel_requested operation)
                       cancellation_effective in
    let operation :=
      match result with
      | Ok value => set_outcome operation (Some value) (os_error operation)
      | Err error =>
          set_outcome operation (os_result operation)
            (Some (completion_error clock operation error))
      end in
    Change (append_event clock 3 operation terminal_state "backend_finished").

Definition complete clock (operation_id : string) (result : result Json Json) :=
  edit_operation operation_id Corrupt (complete_edit clock result).

Definition cancel_edit clock (reason : string) (operation : OperationSnapshot) : edit :=
  if terminal (os_status operation) || os_cancel_requested operation
  then Answer
  else
    let operation := set_cancel operation true (os_cancel_effective operation) in
    let operation :=
      if os_cancellable operation
      then
        if mem (os_status operation) ["received"; "resolving"; "approval_wait"; "queued"]
        then
          let operation := set_status operation "cancelled" in
          let operation := set_cancel operation (os_cancel_requested operation) true in
          let operation := set_finished operation (now clock 0) (terminal_expiry clock 1) in
          set_outcome operation (os_result operation)
            (Some (operation_error_envelope clock 2 "TOOL_CANCELLED"
                     "The Operation was cancelled before process start." false
                     (os_correlation_id operation) (os_operation_id operation)))
        else set_status operation "cancelling"
      else operation in
    Change (append_event clock 3 operation "cancel_requested" reason).

Definition request_cancel clock (operation_id reason : string) :=
  edit_operation operation_id Corrupt (cancel_edit clock reason).

Definition forced_shutdown_edit clock (operation : OperationSnapshot) : edit :=
  if terminal (os_status operation) then Answer
  else
    let operation := set_cancel operation true (os_cancel_effective operation) in
    let operation := set_finished operation (now clock 0) (terminal_expiry clock 1) in
    if is_some (os_process_id operation)
    then
      let operation := set_status operation "outcome_unknown" in
      let operation :=
        set_outcome operation (os_result operation)
          (Some (operation_error_envelope clock 2 "TOOL_OUTCOME_UNKNOWN"
                   "Controller shutdown terminated the process before a final outcome was durable."
                   false (os_correlation_id operation) (os_operation_id operation))) in
      Change (append_event clock 3 operation "outcome_unknown"
                "controller_shutdown_forced_after_drain")
    else
      let operation := set_status operation "cancelled" in
      let operation := set_cancel operation (os_cancel_requested operation) true in
      let operation :=
        set_outcome operation (os_result operation)
          (Some (operation_error_envelope clock 2 "TOOL_CANCELLED"
                   "Controller shutdown cancelled the Operation before process start."
                   false (os_correlation_id operation) (os_operation_id operation))) in
      Change (append_event clock 3 operation "cancelled"
                "controller_shutdown_before_process_start").

Definition record_forced_shutdown clock (operation_id : string) :=
  edit_operation operation_id Corrupt (forced_shutdown_edit clock).

Definition progress_edit clock (detail : Json) (operation : OperationSnapshot) : edit :=
  if terminal (os_status operation) then Refuse Transition
  else
    match json_to_string detail with
    | None => Refuse Corrupt
    | Some detail => Change (append_event clock 3 operation "progress" detail)
    end.

Definition record_progress clock (operation_id : string) (detail : Json) :=
  edit_operation operation_id Transition (progress_edit clock detail).

Definition process_started_edit clock (evidence : ProcessStartEvidence)
    (executable_identity : Json) (operation : OperationSnapshot) : edit :=
  if terminal (os_status operation)
     || negb (mem (os_status operation) ["starting"; "cancelling"])
  then Refuse Transition
  else
    let operation :=
      set_status operation (if os_cancel_requested operation then "cancelling" else "running") in
    let operation := set_started operation (Some (now clock 0)) in
    let operation :=
      os_set_process operation (Some (ps_process_id evidence))
        (Some (ps_creation_time_100ns evidence)) (Some (ps_job_id evidence))
        (Some executable_identity) (os_process_exit_code operation)
        (os_process_termination operation) (os_process_stdout_bytes operation)
        (os_process_stderr_bytes operation) (os_process_output_limit_exceeded operation) in
    Change (append_event clock 3 operation "running" "process_created:suspended_job_assigned").

Definition record_process_started clock (operation_id : string)
    (evidence : ProcessStartEvidence) (executable_identity : Json) :=
  edit_operation operation_id Corrupt (process_started_edit clock evidence executable_identity).

Definition process_finished_edit clock (evidence : ProcessEndEvidence)
    (operation : OperationSnapshot) : edit :=
  if is_some (os_process_termination operation) then Answer
  else
    let operation :=
      os_set_process operation (os_process_id operation)
        (os_process_creation_time_100ns operation) (os_job_id operation)
        (os_executable_identity operation) (pe_exit_code evidence)
        (Some (pe_termination evidence)) (Some (pe_stdout_bytes evidence))
        (Some (pe_stderr_bytes evidence))
        (Some (pe_stdout_limit_exceeded evidence || pe_stderr_limit_exceeded evidence)) in
    match json_to_string (to_json evidence) with
    | None => Abandon operation Corrupt
    | Some detail => Change (append_event clock 3 operation "process_exit_observed" detail)
    end.

Definition record_process_finished clock (operation_id : string) (evidence : ProcessEndEvidence) :=
  edit_operation operation_id Corrupt (process_finished_edit clock evidence).

(** ** Queries *)

Definition get (s : OperationStore) (operation_id : string) : option OperationSnapshot :=
  of_operations s !! operation_id.

Definition find_by_correlation (s : OperationStore) (correlation_id : string) :
    option OperationSnapshot :=
  find (λ operation, String.eqb (os_correlation_id operation) correlation_id)
    (snd <$> btree_entries (of_operations s)).

Definition nonterminal_for_tools (s : OperationStore) (tool_ids : list string) :
    list OperationSnapshot :=
  List.filter (λ operation, mem (os_tool_id operation) tool_ids
                            && negb (terminal (os_status operation)))
    (snd <$> btree_entries (of_operations s)).

Definition events_after (s : OperationStore) (operation_id : string) (after_sequence : N) :
    option (list OperationEvent) :=
  (λ operation,
     take 256 (List.filter (λ event, (after_sequence <? oe_sequence event)%N)
                 (os_events operation)))
  <$> (of_operations s !! operation_id).

(** ** Runs *)

Inductive operation_call :=
| CallCreate (operation_id : string) (request : OperationCreate)
| CallTransition (operation_id next detail : string)
| CallComplete (operation_id : string) (result : result Json Json)
| CallCancel (operation_id reason : string)
| CallForcedShutdown (operation_id : string)
| CallProgress (operation_id : string) (detail : Json)
| CallStarted (operation_id : string) (evidence : ProcessStartEvidence)
    (executable_identity : Json)
| CallFinished (operation_id : string) (evidence : ProcessEndEvidence).

Definition operation_step clock (outcome : persist_outcome OperationStoreError)
    (c : operation_call) (w : world) : world * result OperationSnapshot OperationStoreError :=
  match c with
  | CallCreate id request => create clock id request outcome w
  | CallTransition id next detail => transition clock id next detail outcome w
  | CallComplete id result => complete clock id result outcome w
  | CallCancel id reason => request_cancel clock id reason outcome w
  | CallForcedShutdown id => record_forced_shutdown clock id outcome w
  | CallProgress id detail => record_progress clock id detail outcome w
  | CallStarted id evidence identity =>
      record_process_started clock id evidence identity outcome w
  | CallFinished id evidence => record_process_finished clock id evidence outcome w
  end.

(** A controller that is up with a store and the file on disk, or down with
    the file alone.  A restart, also after a crash, loads the file; the read
    may fail. *)
Definition system : Type := option OperationStore * option OperationFile.

Inductive event :=
| Call clock (outcome : persist_outcome OperationStoreError) (c : operation_call)
| Restart (clocks : string → nat → Z) (outcome : persist_outcome OperationStoreError)
| RestartUnreadable.

Definition restart (clocks : string → nat → Z) (outcome : persist_outcome OperationStoreError)
    (disk : option OperationFile) : system :=
  let r := load (from_option (λ f, ReadParsed (Some f)) ReadMissing disk) clocks outcome disk in
  (match r.2 with Ok store => Some store | Err _ => None end, r.1).

Definition system_step (s : system) (e : event) : system :=
  match e with
  | Call clock outcome c =>
      match s.1 with
      | Some store => let w := (operation_step clock outcome c (store, s.2)).1 in (Some w.1, w.2)
      | None => s
      end
  | Restart clocks outcome => restart clocks outcome s.2
  | RestartUnreadable => (None, s.2)
  end.

Definition system_run (s : system) (events : list event) : system := foldl system_step s events.

End operation_store.
