(* ===== verification/OperationFacts.v ===== *)
(** * The operation store never loses or repeats work

    What holds of the store in memory and of the file on disk along any
    history of calls, lost writes, failed reads and restarts. *)
From S2P Require Import Prelude Canonical Persist Toy Operations.

(** ** One step *)

Section steps.
Context `{Instants, JsonText}.
Implicit Types (clock : nat → Z) (f : OperationFile) (op : OperationSnapshot).

(** The operation a call leaves behind. *)
Definition edited op (e : edit) : OperationSnapshot :=
  match e with Change op' | Abandon op' _ => op' | Refuse _ | Answer => op end.

(** The operation a call is about, and what it does with it. *)
Definition call_edit clock (c : operation_call) : option (string * (OperationSnapshot → edit)) :=
  match c with
  | CallCreate _ _ => None
  | CallTransition id next detail => Some (id, transition_edit clock next detail)
  | CallComplete id result => Some (id, complete_edit clock result)
  | CallCancel id reason => Some (id, cancel_edit clock reason)
  | CallForcedShutdown id => Some (id, forced_shutdown_edit clock)
  | CallProgress id detail => Some (id, progress_edit clock detail)
  | CallStarted id evidence identity => Some (id, process_started_edit clock evidence identity)
  | CallFinished id evidence => Some (id, process_finished_edit clock evidence)
  end.

Lemma operation_step_edit clock outcome c id g w :
  call_edit clock c = Some (id, g) →
  ∃ missing, operation_step clock outcome c w = edit_operation id missing g outcome w.
Proof. destruct c; intros [= <- <-]; by eexists. Qed.

Lemma put_same id op f : of_operations f !! id = Some op → put id op f = f.
Proof. intros Hop. destruct f; unfold put; simpl in *. by rewrite insert_id. Qed.

Lemma edit_operation_file id missing g outcome w :
  let w' := (edit_operation id missing g outcome w).1 in
  (w'.1 = w.1 ∧ of_operations w.1 !! id = None ∨
   ∃ op, of_operations w.1 !! id = Some op ∧ w'.1 = put id (edited op (g op)) w.1) ∧
  (w'.2 = w.2 ∨ w'.2 = Some w'.1).
Proof.
  unfold edit_operation. destruct (of_operations w.1 !! id) as [op|] eqn:Hop; simpl; [|auto].
  split.
  - right. exists op. split; [done|]. pose proof (put_same id op w.1 Hop). by destruct (g op).
  - destruct (g op); simpl; auto. destruct outcome; simpl; auto.
Qed.

(** A file property that every change keeps holds for ever, in memory and on
    disk.  [tick] bounds the clock of the calls that prune. *)
Section invariant.
Variable P : OperationFile → Prop.
Variables (good_call : (nat → Z) → operation_call → Prop) (good_clock : (nat → Z) → Prop).

Hypothesis P_edit : ∀ clock c id g op f, good_call clock c → call_edit clock c = Some (id, g) →
  P f → of_operations f !! id = Some op → P (put id (edited op (g op)) f).
Hypothesis P_prune : ∀ clock id request f, good_call clock (CallCreate id request) →
  P f → P (prune_expired (clock 0) f).
Hypothesis P_accept : ∀ clock id request f, good_call clock (CallCreate id request) → P f →
  (oc_idempotency_key request ≫= λ key, of_idempotency f !! key) = None →
  P (accepted clock id request f).
Hypothesis P_recover : ∀ clocks f, (∀ key, good_clock (clocks key)) → P f →
  P (recover_file clocks f).

Definition holds (s : system) : Prop := from_option P True s.1 ∧ P (default empty_file s.2).

Definition good_event (e : event) : Prop :=
  match e with
  | Call clock _ c => good_call clock c
  | Restart clocks _ => ∀ key, good_clock (clocks key)
  | RestartUnreadable => True
  end.

Lemma operation_step_holds clock outcome c w :
  good_call clock c → P w.1 → P (default empty_file w.2) →
  let w' := (operation_step clock outcome c w).1 in P w'.1 ∧ P (default empty_file w'.2).
Proof.
  intros Hc Hm Hd. destruct (call_edit clock c) as [[id g]|] eqn:Hg; simpl.
  - destruct (operation_step_edit clock outcome c id g w Hg) as [missing ->].
    destruct (edit_operation_file id missing g outcome w) as [Hf Hdisk].
    assert (P (edit_operation id missing g outcome w).1.1) as HP.
    { destruct Hf as [[-> _]|(op & Hop & ->)]; eauto. }
    split; [done|]. by destruct Hdisk as [->| ->].
  - destruct c; try discriminate. simpl. unfold create.
    assert (P (prune_expired (clock 0) w.1)) as Hp by eauto.
    destruct (_ ≫= _) eqn:Hkey; simpl; [done|].
    assert (P (accepted clock operation_id request (prune_expired (clock 0) w.1))) as HP by eauto.
    destruct outcome; simpl; done.
Qed.

Lemma load_holds read clocks outcome disk :
  (∀ key, good_clock (clocks key)) → P (default empty_file disk) →
  P (default empty_file (read_disk read)) →
  let r := load read clocks outcome disk in
  P (default empty_file r.1) ∧ ∀ store, r.2 = Ok store → P store.
Proof.
  intros Hc Hd Hr. simpl. unfold load.
  assert (P (recover_file clocks (default empty_file (read_disk read)))) as HP by eauto.
  destruct read as [[f|]| |]; cbn -[any_open recover_file] in *; repeat case_match;
    destruct outcome; simpl; split; try done; by intros ? [= <-].
Qed.

Lemma system_run_holds s events :
  Forall good_event events → holds s → holds (system_run s events).
Proof.
  intros He. revert s. induction He as [|e events He _ IH]; intros s [Hm Hd]; [done|].
  apply IH. destruct e as [clock outcome c|clocks outcome|]; simpl.
  - destruct s as [[m|] d]; [|done]. simpl in *.
    by destruct (operation_step_holds clock outcome c (m, d) He Hm Hd).
  - unfold restart, holds. simpl.
    destruct (load_holds (from_option (λ f, ReadParsed (Some f)) ReadMissing s.2) clocks outcome
                s.2 He Hd) as [Hd' Hs'].
    { by destruct s.2. }
    split; [|done]. by destruct (load _ _ _ _).2; simpl; [apply Hs'|].
  - done.
Qed.

End invariant.

(** ** Well-formed operations *)

(** The statuses of a live operation before its process starts, and after. *)
Definition waiting : list string := ["received"; "resolving"; "approval_wait"; "queued"; "starting"].
Definition live : list string := ["running"; "cancelling"].
Definition finished : list string :=
  ["succeeded"; "failed"; "cancelled"; "denied"; "expired"; "outcome_unknown"].

(** The events are numbered from 1 on, as far as a [u64] counts. *)
Definition event_number (n : nat) : N := N.of_nat n mod 2 ^ 64.

Definition numbered (latest : N) (events : list OperationEvent) : Prop :=
  latest = event_number (length events) ∧
  map oe_sequence events = map event_number (seq 1 (length events)).

Definition statuses : list string := waiting ++ live ++ finished.

Record op_ok (key : string) (op : OperationSnapshot) : Prop := {
  ok_key : os_operation_id op = key;
  ok_status : os_status op ∈ statuses;
  ok_finished : is_some (os_finished_at op) = terminal (os_status op);
  ok_expires : is_some (os_expires_at op) = terminal (os_status op);
  ok_result : is_some (os_result op) = true → os_status op = "succeeded";
  ok_error : is_some (os_error op) = true →
    os_status op ∈ ["failed"; "cancelled"; "outcome_unknown"];
  ok_cancelled : os_cancel_effective op = true → os_status op = "cancelled";
  ok_process : is_some (os_process_id op) = true →
    (os_status op ∉ waiting) ∧ is_some (os_started_at op) = true;
  ok_events : numbered (os_latest_event_sequence op) (os_events op)
}.

Lemma numbered_append latest events e :
  numbered latest events → oe_sequence e = wrapping_add u64_max latest 1 →
  numbered (wrapping_add u64_max latest 1) (events ++ [e]).
Proof.
  intros [-> Hl] He. unfold numbered, event_number, wrapping_add in *.
  replace (u64_max + 1)%N with (2 ^ 64)%N in * by reflexivity.
  rewrite length_app, seq_app, !map_app, <-Hl. simpl. rewrite He.
  rewrite N.Div0.add_mod_idemp_l. split; [f_equal; lia|].
  do 2 f_equal. f_equal. lia.
Qed.

Lemma terminal_finished status : terminal status = true ↔ status ∈ finished.
Proof. apply mem_true. Qed.

Lemma before_waiting status : before_process_start status = true ↔ status ∈ waiting.
Proof. apply mem_true. Qed.

Lemma live_not_terminal status : status ∈ waiting ++ live → terminal status = false.
Proof. rewrite list_elem_of_In. simpl. intuition subst; done. Qed.

Lemma statuses_split status :
  status ∈ statuses → terminal status = false → status ∈ waiting ++ live.
Proof.
  unfold statuses. intros Hin Ht. rewrite app_assoc in Hin. apply elem_of_app in Hin as [?|Hin]; [done|].
  apply terminal_finished in Hin. congruence.
Qed.

(** What a live operation does not have yet. *)
Lemma op_ok_open key op :
  op_ok key op → terminal (os_status op) = false →
  os_finished_at op = None ∧ os_expires_at op = None ∧ os_result op = None ∧
  os_error op = None ∧ os_cancel_effective op = false.
Proof.
  intros [_ _ Hf He Hr Herr Hc _ _] Ht. rewrite Ht in *.
  split_and!.
  - by destruct (os_finished_at op).
  - by destruct (os_expires_at op).
  - destruct (os_result op); [|done]. rewrite Hr in Ht by done. done.
  - destruct (os_error op); [|done]. specialize (Herr eq_refl).
    rewrite list_elem_of_In in Herr. destruct Herr as [E|[E|[E|[]]]]; by rewrite <-E in Ht.
  - destruct (os_cancel_effective op); [|done]. rewrite Hc in Ht by done. done.
Qed.

Lemma op_ok_event key clock k op phase detail :
  op_ok key op → op_ok key (append_event clock k op phase detail).
Proof. intros [? ? ? ? ? ? ? ? ?]. split; simpl; try done. by apply numbered_append. Qed.

(** What the changes of status leave alone. *)
Definition same_work (op op' : OperationSnapshot) : Prop :=
  os_operation_id op' = os_operation_id op ∧ os_process_id op' = os_process_id op ∧
  os_latest_event_sequence op' = os_latest_event_sequence op ∧ os_events op' = os_events op.

(** An operation finishes. *)
Lemma op_ok_finish key op op' :
  op_ok key op → same_work op op' → terminal (os_status op') = true →
  os_started_at op' = os_started_at op →
  is_some (os_finished_at op') = true → is_some (os_expires_at op') = true →
  (is_some (os_result op') = true → os_status op' = "succeeded") →
  (is_some (os_error op') = true → os_status op' ∈ ["failed"; "cancelled"; "outcome_unknown"]) →
  (os_cancel_effective op' = true → os_status op' = "cancelled") →
  op_ok key op'.
Proof.
  intros [? ? ? ? ? ? ? Hp ?] (Hid & Hpid & Hl & Hev) Ht Hst Hf He Hr Herr Hc.
  assert (os_status op' ∈ finished) as Hn by by apply terminal_finished.
  split; rewrite ?Hid, ?Hl, ?Hev, ?Hst, ?Hpid, ?Ht; try done.
  - unfold statuses. rewrite !elem_of_app. auto.
  - intros Hs. split; [|by apply Hp]. intros Hw.
    rewrite live_not_terminal in Ht by (rewrite elem_of_app; auto). done.
Qed.

(** A live operation goes on. *)
Lemma op_ok_move key op op' :
  op_ok key op → same_work op op' → terminal (os_status op) = false →
  os_status op' ∈ waiting ++ live →
  (is_some (os_process_id op) = true → os_status op' ∉ waiting) →
  (is_some (os_started_at op) = true → is_some (os_started_at op') = true) →
  os_finished_at op' = os_finished_at op → os_expires_at op' = os_expires_at op →
  os_result op' = os_result op → os_error op' = os_error op →
  os_cancel_effective op' = os_cancel_effective op →
  op_ok key op'.
Proof.
  intros Hok (Hid & Hpid & Hl & Hev) Ht Hn Hproc Hst Hf Hex Hres Herror Heff.
  destruct (op_ok_open key op Hok Ht) as (Hf' & He & Hr & Herr & Hc).
  destruct Hok as [? ? ? ? ? ? ? Hp ?].
  split; rewrite ?Hid, ?Hpid, ?Hl, ?Hev, ?Hf, ?Hex, ?Hres, ?Herror, ?Heff, ?Hf', ?He, ?Hr, ?Herr,
    ?Hc, ?live_not_terminal by done; try done.
  - unfold statuses. rewrite app_assoc, elem_of_app. auto.
  - intros Hs. split; [auto|]. apply Hst. by apply Hp.
Qed.

(** The process fields of an operation that is not waiting for its start. *)
Lemma op_ok_set_process key op pid created job identity exit_code termination out err exceeded :
  op_ok key op →
  (is_some pid = true → (os_status op ∉ waiting) ∧ is_some (os_started_at op) = true) →
  op_ok key (os_set_process op pid created job identity exit_code termination out err exceeded).
Proof. by intros [? ? ? ? ? ? ? ? ?] ?; split. Qed.

Lemma valid_transition_spec from to :
  valid_transition from to = true →
  to ∈ finished ∨ to ∈ waiting ++ live ∧ (from ∈ live → to ∉ waiting).
Proof.
  unfold valid_transition. intros Hv.
  repeat match type of Hv with
         | (if String.eqb ?a ?b then _ else _) = _ => destruct (String.eqb_spec a b) as [->|]
         end; try done; apply mem_true, list_elem_of_In in Hv; simpl in Hv;
    repeat destruct Hv as [<-|Hv]; try done;
    first [left; by apply terminal_finished
          |right; split; [by apply mem_true|]; first [intros _; by apply mem_false
             |intros Hl; by apply mem_true in Hl]].
Qed.

Lemma op_ok_transition clock next detail key op :
  op_ok key op → op_ok key (edited op (transition_edit clock next detail op)).
Proof.
  intros Hok. unfold transition_edit. destruct (terminal (os_status op)) eqn:Ht; [done|].
  destruct (valid_transition _ _) eqn:Hv; [|done]. cbn [negb orb edited].
  apply op_ok_event.
  destruct (op_ok_open key op Hok Ht) as (Hf & He & Hr & Herr & Hc).
  destruct (valid_transition_spec _ _ Hv) as [Hn|[Hn Hw]].
  - assert (terminal next = true) as Hnt by by apply terminal_finished. rewrite Hnt.
    destruct (String.eqb_spec next "running") as [->|]; [done|].
    apply (op_ok_finish key op); cbn; rewrite ?Hr, ?Herr, ?Hc; done.
  - rewrite (live_not_terminal _ Hn).
    assert (is_some (os_process_id op) = true → next ∉ waiting) as Hproc.
    { intros Hpid. apply Hw. destruct (ok_process key op Hok Hpid) as [Hnw _].
      pose proof (statuses_split _ (ok_status key op Hok) Ht) as Hin.
      apply elem_of_app in Hin as [?|?]; done. }
    destruct (_ && _) eqn:Hs; by apply (op_ok_move key op).
Qed.

Lemma op_ok_complete clock result key op :
  op_ok key op → op_ok key (edited op (complete_edit clock result op)).
Proof.
  intros Hok. unfold complete_edit. destruct (terminal (os_status op)) eqn:Ht.
  { destruct (existsb _ _); [done|]. by apply op_ok_event. }
  cbn [edited]. apply op_ok_event.
  destruct (op_ok_open key op Hok Ht) as (Hf & He & Hr & Herr & Hc).
  destruct result as [value|error]; cbn [is_ok].
  - apply (op_ok_finish key op); cbn; rewrite ?Hr, ?Herr; done.
  - destruct (bool_decide _);
      apply (op_ok_finish key op); cbn; rewrite ?Hr, ?Herr; try done; intros _; by apply mem_true.
Qed.

Lemma op_ok_cancel clock reason key op :
  op_ok key op → op_ok key (edited op (cancel_edit clock reason op)).
Proof.
  intros Hok. unfold cancel_edit. destruct (terminal (os_status op)) eqn:Ht; [done|].
  destruct (os_cancel_requested op); [done|]. cbn [orb edited]. apply op_ok_event.
  destruct (op_ok_open key op Hok Ht) as (Hf & He & Hr & Herr & Hc).
  pose proof (statuses_split _ (ok_status key op Hok) Ht) as Hin.
  cbn [os_cancellable set_cancel os_update].
  destruct (os_cancellable op); [destruct (mem _ _) eqn:Hm|].
  - apply (op_ok_finish key op); cbn; rewrite ?Hr; try done. intros _. by apply mem_true.
  - apply (op_ok_move key op); try done; first [by apply mem_true|intros _; by apply mem_false].
  - apply (op_ok_move key op); try done. intros Hp. by apply (ok_process key op Hok).
Qed.

Lemma op_ok_forced clock key op :
  op_ok key op → op_ok key (edited op (forced_shutdown_edit clock op)).
Proof.
  intros Hok. unfold forced_shutdown_edit. destruct (terminal (os_status op)) eqn:Ht; [done|].
  destruct (op_ok_open key op Hok Ht) as (Hf & He & Hr & Herr & Hc).
  destruct (is_some _); cbn [edited]; apply op_ok_event;
    apply (op_ok_finish key op); cbn; rewrite ?Hr, ?Hc; try done; intros _; by apply mem_true.
Qed.

Lemma op_ok_started clock evidence identity key op :
  op_ok key op → op_ok key (edited op (process_started_edit clock evidence identity op)).
Proof.
  intros Hok. unfold process_started_edit. destruct (terminal (os_status op)) eqn:Ht; [done|].
  destruct (mem _ _) eqn:Hm; [|done]. cbn [negb orb edited]. apply op_ok_event, op_ok_set_process.
  - apply (op_ok_move key op); try done; destruct (os_cancel_requested op);
      first [by apply mem_true|intros _; by apply mem_false].
  - intros _. cbn. split; [|done]. destruct (os_cancel_requested op); by apply mem_false.
Qed.

Lemma op_ok_process_end clock evidence key op :
  op_ok key op → op_ok key (edited op (process_finished_edit clock evidence op)).
Proof.
  intros Hok. unfold process_finished_edit. destruct (is_some _); [done|].
  destruct (json_to_string _); cbn [edited]; [apply op_ok_event|];
    apply op_ok_set_process; try done; apply (ok_process key op Hok).
Qed.

Lemma op_ok_edit clock c key id g op :
  call_edit clock c = Some (id, g) → op_ok key op → op_ok key (edited op (g op)).
Proof.
  intros Hg Hok. destruct c; simplify_eq/=;
    auto using op_ok_transition, op_ok_complete, op_ok_cancel, op_ok_forced, op_ok_started,
      op_ok_process_end.
  unfold progress_edit. destruct (terminal _); [done|]. destruct (json_to_string _); [|done].
  by apply op_ok_event.
Qed.

Lemma op_ok_received clock id request : op_ok id (received clock id request).
Proof.
  unfold received. apply op_ok_event. split; try done. by apply mem_true.
Qed.

Lemma op_ok_recover clock key op : op_ok key op → op_ok key (recover clock op).
Proof.
  intros Hok. unfold recover. destruct (terminal (os_status op)) eqn:Ht; [done|].
  destruct (op_ok_open key op Hok Ht) as (Hf & He & Hr & Herr & Hc). apply op_ok_event.
  destruct (before_process_start _); apply (op_ok_finish key op); cbn; rewrite ?Hr, ?Hc;
    try done; intros _; by apply mem_true.
Qed.

(** ** Well-formed files *)

Record file_ok (f : OperationFile) : Prop := {
  fo_version : of_format_version f = FORMAT_VERSION;
  fo_operations : map_Forall op_ok (of_operations f);
  fo_keys : map_Forall (λ _ record, is_Some (of_operations f !! ir_operation_id record))
              (of_idempotency f)
}.

Lemma put_ok id op f : op_ok id op → is_Some (of_operations f !! id) → file_ok f → file_ok (put id op f).
Proof.
  intros Hop Hid [Hv Ho Hk]. split; [done|by apply map_Forall_insert_2|].
  intros key record Hr. simpl. specialize (Hk key record Hr).
  destruct (decide (id = ir_operation_id record)) as [<-|];
    by rewrite ?lookup_insert_eq, ?lookup_insert_ne.
Qed.

Lemma prune_lookup t f id op :
  of_operations (prune_expired t f) !! id = Some op ↔
  of_operations f !! id = Some op ∧ is_expired t op = false.
Proof. apply map_lookup_filter_Some. Qed.

Lemma prune_ok t f : file_ok f → file_ok (prune_expired t f).
Proof.
  intros [Hv Ho Hk]. split; [done| |].
  - intros id op [Hop _]%prune_lookup. by apply Ho.
  - intros key record [Hr He]%map_lookup_filter_Some. simpl in He.
    destruct (Hk key record Hr) as [op Hop]. exists op. apply prune_lookup. split; [done|].
    by rewrite Hop in He.
Qed.

Lemma accepted_ok clock id request f : file_ok f → file_ok (accepted clock id request f).
Proof.
  intros [Hv Ho Hk]. split; [done| |].
  - apply map_Forall_insert_2; [apply op_ok_received|done].
  - assert (map_Forall (λ _ record,
      is_Some (<[id := received clock id request]> (of_operations f) !! ir_operation_id record))
      (of_idempotency f)) as Hkept.
    { intros key record Hr. simpl. destruct (decide (id = ir_operation_id record)) as [<-|];
        [by rewrite lookup_insert_eq|rewrite lookup_insert_ne by done; by apply (Hk key)]. }
    simpl. destruct (oc_idempotency_key request); [|done].
    apply map_Forall_insert_2; [|done]. simpl. by rewrite lookup_insert_eq.
Qed.

Lemma recover_lookup clocks f id :
  of_operations (recover_file clocks f) !! id = recover (clocks id) <$> of_operations f !! id.
Proof. simpl. rewrite map_lookup_imap. by destruct (of_operations f !! id). Qed.

Lemma recover_file_ok clocks f : file_ok f → file_ok (recover_file clocks f).
Proof.
  intros [Hv Ho Hk]. split; [done| |].
  - intros id op. rewrite recover_lookup, fmap_Some. intros (op' & Hop & ->).
    by apply op_ok_recover, Ho.
  - intros key record Hr. rewrite recover_lookup. apply fmap_is_Some. by apply (Hk key).
Qed.

Lemma empty_file_ok : file_ok empty_file.
Proof. by split. Qed.

Lemma run_file_ok s events :
  holds file_ok s → holds file_ok (system_run s events).
Proof.
  apply (system_run_holds _ (λ _ _, True) (λ _, True)).
  - intros clock c id g op f _ Hg Hf Hop.
    apply put_ok; [|by exists op|done]. eapply op_ok_edit; [done|]. by apply Hf.
  - intros. by apply prune_ok.
  - intros. by apply accepted_ok.
  - intros. by apply recover_file_ok.
  - apply Forall_true. intros []; done.
Qed.

Definition initial : system := (None, None).

Lemma initial_ok : holds file_ok initial.
Proof. split; [done|apply empty_file_ok]. Qed.

(** C37: whatever is called, whichever writes and reads fail, and however often
    the controller stops and starts, every file in memory and on disk is well
    formed: an operation is under its own identifier, has one of the statuses
    the state machine knows, an end and an expiry exactly when it is finished,
    a result only when it succeeded, an error only when it failed, was
    cancelled or has an unknown outcome, an effective cancellation only when
    it is cancelled, a process only when it is past its start, and events
    numbered in order; and every idempotency key leads to a stored operation. *)
Theorem operation_records_well_formed events :
  holds file_ok (system_run initial events).
Proof. apply run_file_ok, initial_ok. Qed.

(** What a restart makes of a stored operation. *)
Definition settled_by_restart (op op' : OperationSnapshot) : Prop :=
  if terminal (os_status op) then op' = op
  else
    terminal (os_status op') = true ∧ os_result op' = None ∧
    os_process_id op' = os_process_id op ∧
    os_status op' = (if bool_decide (os_status op ∈ waiting) then "failed" else "outcome_unknown") ∧
    (is_some (os_process_id op) = true → os_status op' = "outcome_unknown") ∧
    ∃ e, os_events op' = os_events op ++ [e].

Lemma recover_settles clock key op :
  op_ok key op → settled_by_restart op (recover clock op).
Proof.
  intros Hok. unfold settled_by_restart, recover. destruct (terminal (os_status op)) eqn:Ht; [done|].
  destruct (op_ok_open key op Hok Ht) as (Hf & He & Hr & Herr & Hc).
  rewrite (bool_decide_ext _ (before_process_start (os_status op) = true))
    by (symmetry; apply before_waiting).
  destruct (before_process_start (os_status op)) eqn:Hb; cbn; split_and!; try done;
    try by eexists.
  intros Hp. destruct (ok_process key op Hok Hp) as [Hw _].
  by apply before_waiting in Hb.
Qed.

Lemma any_open_false f :
  any_open f = false ↔ map_Forall (λ _ op, terminal (os_status op) = true) (of_operations f).
Proof.
  unfold any_open. rewrite entries_false.
  split; intros Hall id op Hop; specialize (Hall id op Hop); by apply negb_false_iff.
Qed.

Lemma recover_settled f clocks :
  any_open f = false → of_operations (recover_file clocks f) = of_operations f.
Proof.
  rewrite any_open_false. intros Hall. apply map_eq. intros id. rewrite recover_lookup.
  destruct (of_operations f !! id) as [op|] eqn:Hop; [|done]. simpl. f_equal.
  unfold recover. by rewrite (Hall id op Hop).
Qed.

(** C34: a restart settles every operation and loses none: along any history,
    when the read succeeds and the write, if one is needed, completes, the
    store loads and the disk holds it; it has exactly the operations and the
    keys of the file; a finished operation is unchanged; any other is finished
    without a result, with its events and one more, as failed when its process
    had not been started and otherwise as of unknown outcome; one whose process
    was recorded always has an unknown outcome. *)
Theorem restart_settles_everything events clocks :
  let s := system_run initial events in
  let f := default empty_file s.2 in
  ∃ store,
    system_step s (Restart clocks Persisted) = (Some store, if any_open f then Some store else s.2) ∧
    dom (of_operations store) = dom (of_operations f) ∧
    of_idempotency store = of_idempotency f ∧
    any_open store = false ∧
    ∀ id op, of_operations f !! id = Some op →
      ∃ op', get store id = Some op' ∧ settled_by_restart op op'.
Proof.
  intros s f.
  assert (file_ok f) as Hok by apply (proj2 (run_file_ok _ _ initial_ok)).
  exists (recover_file clocks f). split_and!.
  - simpl. unfold restart, load. pose proof (fo_version f Hok) as Hv. subst f.
    destruct s.2 as [f|] eqn:Hs; simpl in *; [rewrite Hv|]; simpl; [|done].
    by destruct (any_open f).
  - apply set_eq. intros id. rewrite !elem_of_dom, recover_lookup. by rewrite fmap_is_Some.
  - done.
  - apply any_open_false. intros id op. rewrite recover_lookup, fmap_Some.
    intros (op' & Hop & ->). pose proof (recover_settles (clocks id) id op') as Hset.
    unfold settled_by_restart, recover in *. destruct (terminal (os_status op')) eqn:Ht; [done|].
    apply Hset. by apply Hok.
  - intros id op Hop. exists (recover (clocks id) op). unfold get.
    rewrite recover_lookup, Hop. split; [done|]. eapply recover_settles. by apply Hok.
Qed.

End steps.
