(* ===== verification/OperationRuns.v ===== *)
(** * Histories of the operation store

    What stays true of one operation, its idempotency key and its events along
    any history of calls, lost writes and restarts. *)
From S2P Require Import Prelude Canonical Persist Toy Operations OperationFacts.

Section runs.
Context `{Instants, JsonText}.
Implicit Types (clock : nat → Z) (f : OperationFile) (op : OperationSnapshot).

(** No call draws an identifier again. *)
Definition never_drawn (id : string) (events : list event) : Prop :=
  Forall (λ e, match e with Call _ _ (CallCreate id' _) => id' ≠ id | _ => True end) events.

(** ** Finished operations *)

(** What was asked, the outcome and what led to it: every field but the end of
    the process, the time of the last update, the number of the last event and
    the events. *)
Definition verdict op :=
  (os_operation_id op, os_status op, os_result op, os_error op, os_cancel_requested op,
   os_cancel_effective op, os_started_at op, os_finished_at op, os_expires_at op,
   os_process_id op, os_process_creation_time_100ns op, os_job_id op,
   os_executable_identity op, os_command op, os_correlation_id op, os_tool_id op,
   os_descriptor_hash op, os_arguments_hash op, os_permission_actions op, os_goal_id op,
   os_run_id op, os_stage_id op, os_output_provenance op, os_accepted_at op,
   os_cancellable op).

(** How the process ended, which may become known after the operation is finished. *)
Definition process_end op :=
  (os_process_exit_code op, os_process_termination op, os_process_stdout_bytes op,
   os_process_stderr_bytes op, os_process_output_limit_exceeded op).

Definition verdict_kept op op' : Prop :=
  verdict op' = verdict op ∧ os_events op `prefix_of` os_events op' ∧
  (is_some (os_process_termination op) = true → process_end op' = process_end op).

Lemma verdict_kept_trans op op' op'' :
  verdict_kept op op' → verdict_kept op' op'' → verdict_kept op op''.
Proof.
  intros (? & ? & He) (? & ? & He'). split_and!; [congruence|by etrans|].
  intros Hs. rewrite <-(He Hs). apply He'. specialize (He Hs). unfold process_end in He.
  by injection He as _ -> _ _ _.
Qed.

Lemma verdict_kept_event clock op phase detail :
  verdict_kept op (append_event clock 3 op phase detail).
Proof. split_and!; [done|by eexists|done]. Qed.

Lemma finished_edit clock c id g op :
  call_edit clock c = Some (id, g) → terminal (os_status op) = true →
  verdict_kept op (edited op (g op)).
Proof.
  intros Hg Ht. assert (verdict_kept op op) as Hsame by by split.
  destruct c; simplify_eq/=.
  - unfold transition_edit. by rewrite Ht.
  - unfold complete_edit. rewrite Ht.
    destruct (existsb _ _); [done|apply verdict_kept_event].
  - unfold cancel_edit. by rewrite Ht.
  - unfold forced_shutdown_edit. by rewrite Ht.
  - unfold progress_edit. by rewrite Ht.
  - unfold process_started_edit. by rewrite Ht.
  - unfold process_finished_edit. destruct (is_some (os_process_termination op)) eqn:Hs; [done|].
    destruct (json_to_string _); (split_and!; [done|done || by eexists|congruence]).
Qed.

(** Some call that prunes read the clock at or after the expiry. *)
Definition lapsed op (events : list event) : Prop :=
  ∃ clock outcome id request,
    Call clock outcome (CallCreate id request) ∈ events ∧ is_expired (clock 0) op = true.

Definition final (id : string) op (events : list event) f : Prop :=
  match get f id with Some op' => verdict_kept op op' | None => lapsed op events end.

Lemma verdict_expired op op' t :
  verdict_kept op op' → is_expired t op' = is_expired t op.
Proof. intros [Hv _]. unfold is_expired. by injection Hv as _ _ _ _ _ _ _ _ -> _. Qed.

Lemma run_final id op events s :
  terminal (os_status op) = true → never_drawn id events →
  holds (final id op events) s → holds (final id op events) (system_run s events).
Proof.
  intros Ht Hfresh.
  apply (system_run_holds _
    (λ clock c, match c with
                | CallCreate id' _ => id' ≠ id ∧ (is_expired (clock 0) op = true → lapsed op events)
                | _ => True end) (λ _, True)).
  - intros clock c key g op1 f Hc Hg Hf Hop. unfold final, get in *. simpl.
    destruct (decide (key = id)) as [->|Hne]; [|by rewrite lookup_insert_ne].
    rewrite Hop in Hf. rewrite lookup_insert_eq.
    eapply verdict_kept_trans; [done|]. eapply finished_edit; [done|].
    destruct Hf as [Hv _]. by injection Hv as _ -> _.
  - intros clock key request f [_ Hl] Hf. unfold final, get in *.
    destruct (of_operations f !! id) as [op'|] eqn:Hop.
    + destruct (is_expired (clock 0) op') eqn:He.
      * rewrite (proj2 (eq_None_not_Some _)); [apply Hl; by rewrite <-(verdict_expired op op')|].
        intros [x [Hx Hx']%prune_lookup]. congruence.
      * by rewrite (proj2 (prune_lookup _ _ _ op')).
    + rewrite (proj2 (eq_None_not_Some _)); [done|].
      intros [x [Hx _]%prune_lookup]. congruence.
  - intros clock key request f [Hne _] Hf _. unfold final, get in *. simpl.
    by rewrite lookup_insert_ne.
  - intros clocks f _ Hf. unfold final, get in *. rewrite recover_lookup.
    destruct (of_operations f !! id) as [op'|] eqn:Hop; [|done]. simpl.
    unfold recover. destruct Hf as [Hv Hp]. assert (os_status op' = os_status op) as Hs
      by by injection Hv. rewrite Hs, Ht. by split.
  - apply Forall_forall. intros [clock outcome c|clocks outcome|] He; simpl; try done.
    destruct c as [id' request| | | | | | |]; try done. split.
    + by apply (proj1 (Forall_forall _ _) Hfresh _ He).
    + intros Hx. by exists clock, outcome, id', request.
Qed.

(** The calls that would move an operation on. *)
Definition moves (c : operation_call) (id : string) : Prop :=
  match c with
  | CallTransition id' _ _ | CallProgress id' _ | CallStarted id' _ _ => id' = id
  | _ => False
  end.

(** C20: a finished operation is final: once a finished operation is on disk,
    then whatever is called, whichever writes are lost and however often the
    controller restarts, every file in memory or on disk has it with the same
    request, status, result, error, cancellation, times of acceptance, start, end and
    expiry, and process, with its events and perhaps later ones, and with the end
    of its process (exit code, termination, amounts of output) unchanged once that
    was recorded, or not at all because a creation read the clock at or after
    its expiry; and no transition, progress or process start is ever
    accepted for it again. *)
Theorem finished_operations_are_final s id op events
    (Hdisk : get (default empty_file s.2) id = Some op)
    (Hmemory : from_option (λ f, get f id = Some op) True s.1)
    (Hfinished : terminal (os_status op) = true) (Hfresh : never_drawn id events) :
  let s' := system_run s events in
  from_option (final id op events) True s'.1 ∧ final id op events (default empty_file s'.2) ∧
  ∀ f clock outcome c, s'.1 = Some f → moves c id →
    operation_step clock outcome c (f, s'.2)
    = ((f, s'.2), (operation_step clock outcome c (f, s'.2)).2) ∧
    is_err (operation_step clock outcome c (f, s'.2)).2 = true.
Proof.
  intros s'.
  assert (holds (final id op events) s') as [Hm Hd].
  { apply run_final; [done|done|]. split; [|unfold final; by rewrite Hdisk].
    destruct s.1; simpl in *; [|done]. unfold final. by rewrite Hmemory. }
  split_and!; [done|done|]. intros f clock outcome c Hs Hc. rewrite Hs in Hm. simpl in Hm.
  unfold final, get in Hm.
  destruct c; simpl in Hc; try done; subst; simpl;
    unfold transition, record_progress, record_process_started, edit_operation; simpl;
    (destruct (of_operations f !! id) as [op'|]; [|done]);
    (assert (terminal (os_status op') = true) as Ht
       by (destruct Hm as [Hv _]; by injection Hv as _ -> _));
    unfold transition_edit, progress_edit, process_started_edit; by rewrite Ht.
Qed.

(** ** Idempotency keys *)

Definition day : Z := (24 * 3600 * 10 ^ 9)%Z.

(** Every reading is in the day that starts at [t0], its last millisecond
    excepted. *)
Definition reads_in (t0 : Z) clock : Prop := ∀ k, (t0 <= clock k <= t0 + day - 10 ^ 6)%Z.

Definition events_in (t0 : Z) (events : list event) : Prop :=
  Forall (λ e, match e with
               | Call clock _ _ => reads_in t0 clock
               | Restart clocks _ => ∀ key, reads_in t0 (clocks key)
               | RestartUnreadable => True
               end) events.

Definition expires_late (t0 : Z) op : Prop :=
  ∀ x, os_expires_at op = Some x → ∃ t, (t0 <= t <= t0 + day)%Z ∧ x = instant_text (t + day).

(** A key and the operation it names. *)
Definition bound (t0 : Z) (key id hash : string) f : Prop :=
  of_idempotency f !! key = Some {| ir_operation_id := id; ir_invocation_hash := hash |} ∧
  ∃ op, get f id = Some op ∧ expires_late t0 op.

Lemma expires_late_same t0 op op' :
  os_expires_at op' = os_expires_at op → expires_late t0 op → expires_late t0 op'.
Proof. unfold expires_late. by intros ->. Qed.

Lemma expires_late_new t0 clock k op :
  reads_in t0 clock → os_expires_at op = Some (terminal_expiry clock k) → expires_late t0 op.
Proof.
  intros Hc He x. rewrite He. intros [= <-]. exists (clock k). split; [|done].
  specialize (Hc k). lia.
Qed.

Lemma edited_expires t0 clock c id g op :
  call_edit clock c = Some (id, g) → reads_in t0 clock → expires_late t0 op →
  expires_late t0 (edited op (g op)).
Proof.
  intros Hg Hc He. destruct c; simplify_eq/=;
    unfold transition_edit, complete_edit, cancel_edit, forced_shutdown_edit, progress_edit,
      process_started_edit, process_finished_edit;
    repeat (case_match; try done); simpl; try done;
    first [by eapply expires_late_same|by eapply expires_late_new].
Qed.

Section days.
Context `{!InstantLaws}.
Variable t0 : Z.
Hypothesis Hcalendar : calendar t0 ∧ calendar (t0 + 2 * day).

Lemma expires_late_holds clock k op :
  expires_late t0 op → reads_in t0 clock → is_expired (clock k) op = false.
Proof.
  intros He Hc. unfold is_expired. destruct (os_expires_at op) as [x|] eqn:Hx; [|done].
  destruct (He x Hx) as (t & Ht & ->). destruct Hcalendar as [Hc0 Hc1]. specialize (Hc k).
  simpl. rewrite instant_text_parse by (unfold calendar, day in *; lia). simpl.
  apply Z.leb_gt. pose proof (Z.mod_pos_bound (t + day) (10 ^ 6)). lia.
Qed.

Lemma run_bound key id hash events s :
  events_in t0 events → never_drawn id events →
  holds (bound t0 key id hash) s → holds (bound t0 key id hash) (system_run s events).
Proof.
  intros Hin Hfresh. apply (system_run_holds _
    (λ clock c, reads_in t0 clock ∧
       match c with CallCreate id' _ => id' ≠ id | _ => True end) (reads_in t0)).
  - intros clock c id' g op f [Hc _] Hg (Hk & op1 & Hop1 & He) Hop. split; [done|].
    unfold get in *. simpl. destruct (decide (id' = id)) as [->|Hne].
    + eexists. rewrite lookup_insert_eq. split; [done|]. simplify_eq. by eapply edited_expires.
    + exists op1. by rewrite lookup_insert_ne.
  - intros clock id' request f [Hc _] (Hk & op & Hop & He).
    pose proof (expires_late_holds clock 0 op He Hc) as Hlive. split.
    + apply map_lookup_filter_Some. split; [done|]. simpl. unfold get in Hop. by rewrite Hop.
    + exists op. split; [|done]. by apply prune_lookup.
  - intros clock id' request f [Hc Hne] (Hk & op & Hop & He) Hfree. split; simpl.
    + destruct (oc_idempotency_key request) as [key'|] eqn:Hkey; [|done]. simpl in Hfree.
      rewrite lookup_insert_ne; congruence.
    + exists op. unfold get in *. simpl. by rewrite lookup_insert_ne.
  - intros clocks f Hc (Hk & op & Hop & He). split; [done|]. unfold get in *.
    rewrite recover_lookup, Hop. simpl. eexists. split; [done|].
    unfold recover. destruct (terminal _); [done|]. by eapply (expires_late_new t0 (clocks id) 2).
  - apply Forall_forall. intros e He.
    pose proof (proj1 (Forall_forall _ _) Hin _ He) as He1.
    pose proof (proj1 (Forall_forall _ _) Hfresh _ He) as He2.
    by destruct e as [clock outcome []|clocks outcome|].
Qed.

(** C21: an accepted invocation runs once: when a creation under a free key has
    succeeded, then for the rest of the day, whatever is called, whichever
    writes are lost and however often the controller restarts, every creation
    under that key makes no operation, writes nothing and answers with the
    first one, as it then is, if the invocation is the same, and refuses with
    [IdempotencyConflict] if it is not. *)
Theorem accepted_invocation_runs_once w clock id request key w1 op events f
    (Hday : reads_in t0 clock) (Hkey : oc_idempotency_key request = Some key)
    (Hfree : of_idempotency (prune_expired (clock 0) w.1) !! key = None)
    (Hcreate : create clock id request Persisted w = (w1, Ok op))
    (Hevents : events_in t0 events) (Hfresh : never_drawn id events)
    (Hup : (system_run (Some w1.1, w1.2) events).1 = Some f) :
  ∃ op', get f id = Some op' ∧
    ∀ clock' id' request' outcome disk,
      reads_in t0 clock' → oc_idempotency_key request' = Some key →
      create clock' id' request' outcome (f, disk)
      = ((prune_expired (clock' 0) f, disk),
         if String.eqb (oc_invocation_hash request) (oc_invocation_hash request')
         then Ok op' else Err IdempotencyConflict).
Proof.
  set (hash := oc_invocation_hash request).
  assert (bound t0 key id hash f) as (Hk & op' & Hop & He).
  { cut (holds (bound t0 key id hash) (system_run (Some w1.1, w1.2) events)).
    { intros [Hm _]. by rewrite Hup in Hm. }
    apply run_bound; [done|done|]. unfold create in Hcreate. rewrite Hkey in Hcreate.
    cbn [mbind option_bind] in Hcreate. rewrite Hfree in Hcreate. injection Hcreate as <- <-.
    assert (bound t0 key id hash
              (accepted clock id request (prune_expired (clock 0) w.1))) as Hb; [|by split].
    split.
    - simpl. by rewrite Hkey, lookup_insert_eq.
    - eexists. unfold get. simpl. rewrite lookup_insert_eq. by split. }
  exists op'. split; [done|]. intros clock' id' request' outcome disk Hc' Hkey'.
  pose proof (expires_late_holds clock' 0 op' He Hc') as Hlive.
  unfold create. rewrite Hkey'. cbn [mbind option_bind fst snd].
  assert (of_idempotency (prune_expired (clock' 0) f) !! key
          = Some {| ir_operation_id := id; ir_invocation_hash := hash |}) as ->.
  { apply map_lookup_filter_Some. split; [done|]. simpl. unfold get in Hop. by rewrite Hop. }
  cbn [ir_operation_id ir_invocation_hash]. unfold hash.
  destruct (String.eqb _ _); [|done]. cbn [negb].
  by rewrite (proj2 (prune_lookup (clock' 0) f id op') (conj Hop Hlive)).
Qed.

End days.

(** ** Events *)

Lemma numbered_filter (events : list OperationEvent) (k : nat) (after : N) :
  (N.of_nat (k + length events) < 2 ^ 64)%N →
  map oe_sequence events = map event_number (seq (S k) (length events)) →
  List.filter (λ e, (after <? oe_sequence e)%N) events = drop (N.to_nat after - k) events.
Proof.
  revert k. induction events as [|e events IH]; intros k Hl Hn; [by rewrite drop_nil|].
  simpl in *. injection Hn as He Hn. rewrite He. unfold event_number.
  rewrite N.mod_small by lia. rewrite (IH (S k)) by (done || lia).
  destruct (N.ltb_spec after (N.of_nat (S k))).
  - replace (N.to_nat after - k)%nat with 0%nat by lia.
    by replace (N.to_nat after - S k)%nat with 0%nat by lia.
  - by replace (N.to_nat after - k)%nat with (S (N.to_nat after - S k))%nat by lia.
Qed.

(** The pages of the event stream are complete: along any history, the
    events after a sequence number are the next 256 at most in order, none
    skipped and none repeated, as long as the operation has fewer than 2^64
    events. *)
Theorem event_pages_are_exact events f id op after
    (Hup : (system_run initial events).1 = Some f) (Hop : get f id = Some op)
    (Hlen : (len (os_events op) < 2 ^ 64)%N) :
  events_after f id after = Some (take 256 (drop (N.to_nat after) (os_events op))).
Proof.
  destruct (run_file_ok _ events initial_ok) as [Hm _]. rewrite Hup in Hm. simpl in Hm.
  destruct (ok_events id op) as [_ Hn]; [by apply Hm|].
  unfold events_after. unfold get in Hop. rewrite Hop. simpl. do 2 f_equal.
  by rewrite (numbered_filter _ 0), Nat.sub_0_r.
Qed.

End runs.

(** ** Concrete runs *)

#[local] Instance toy_json_text : JsonText := {|
  json_to_string := λ j, Some (print_json j);
  envelope_from_value := λ _, None
|}.

Definition hour (n : Z) : nat → Z := λ k, (n * 3600 * 10 ^ 9 + Z.of_nat k)%Z.

Definition sample_request (key hash : string) : OperationCreate :=
  {| oc_command := "tool.invoke"; oc_correlation_id := "req_1"; oc_tool_id := "tool";
     oc_descriptor_hash := "d"; oc_arguments_hash := "a";
     oc_permission_actions := ["write"; "read"; "read"]; oc_goal_id := None; oc_run_id := None;
     oc_stage_id := None; oc_output_provenance := None; oc_cancellable := true;
     oc_idempotency_key := Some key; oc_invocation_hash := hash |}.

Definition sample_evidence : ProcessStartEvidence :=
  {| ps_process_id := 42; ps_creation_time_100ns := 7; ps_job_id := "job" |}.

Definition call (h : Z) (c : operation_call) : event := Call (hour h) Persisted c.

(** Two operations, one of which has a running process. *)
Definition sample_events : list event :=
  [Restart (λ _, hour 0) Persisted;
   call 1 (CallCreate "op_1" (sample_request "k1" "h1"));
   call 1 (CallTransition "op_1" "queued" "ready");
   call 2 (CallCreate "op_2" (sample_request "k2" "h2"));
   call 2 (CallTransition "op_2" "queued" "ready");
   call 2 (CallTransition "op_2" "starting" "spawn");
   call 3 (CallStarted "op_2" sample_evidence JNull);
   Call (hour 4) (PersistLost Io) (CallProgress "op_2" (JNum 1))].

Definition sample_state : system := system_run initial sample_events.
Definition sample_store : OperationFile := default empty_file sample_state.1.

Lemma restart_settles_everything_witness :
  let f := default empty_file sample_state.2 in
  os_status <$> (get f "op_2") = Some "running" ∧
  ∃ store, (system_step sample_state (Restart (λ _, hour 5) Persisted)).1 = Some store ∧
    ∃ op', get store "op_2" = Some op' ∧ os_status op' = "outcome_unknown".
Proof.
  intros f. split; [by vm_compute|].
  destruct (restart_settles_everything sample_events (λ _, hour 5))
    as (store & Hs & _ & _ & _ & Hall).
  exists store. split; [exact (f_equal fst Hs)|].
  assert ((λ op, (terminal (os_status op), is_some (os_process_id op))) <$> get f "op_2"
          = Some (false, true)) as Hop by by vm_compute.
  apply fmap_Some in Hop as (op & Hop & [= Ht Hp]).
  destruct (Hall "op_2" op Hop) as (op' & Hop' & Hset). exists op'. split; [done|].
  unfold settled_by_restart in Hset. rewrite <-Ht in Hset. by apply Hset.
Defined.

(** The first operation, cancelled. *)
Definition cancelled_state : system := system_run initial (sample_events ++ [call 5 (CallCancel "op_1" "user")]).
Definition cancelled_op : OperationSnapshot :=
  default (received (hour 0) "" (sample_request "" "")) (get (default empty_file cancelled_state.1) "op_1").

Definition later_events : list event :=
  [Call (hour 6) (PersistLost Io) (CallComplete "op_1" (Ok JNull));
   Restart (λ _, hour 7) Persisted;
   call 8 (CallCreate "op_3" (sample_request "k3" "h3"))].

Lemma finished_operations_are_final_witness :
  os_status cancelled_op = "cancelled" ∧
  final "op_1" cancelled_op later_events
    (default empty_file (system_run cancelled_state later_events).2).
Proof.
  split; [by vm_compute|].
  destruct (finished_operations_are_final cancelled_state "op_1" cancelled_op later_events)
    as (_ & Hd & _); [by vm_compute..|repeat constructor; discriminate|exact Hd].
Defined.

(** Readings from the third hour on, within a day. *)
Lemma hour_reads (n : Z) : (2 <= n <= 25)%Z → reads_in (2 * 3600 * 10 ^ 9) (λ _, hour n 0).
Proof. unfold reads_in, hour, day. intros Hn k. lia. Qed.

Definition repeated_events : list event :=
  [Call (λ _, hour 3 0) Persisted (CallTransition "op_1" "queued" "ready");
   Restart (λ _ _, hour 20 0) Persisted;
   Call (λ _, hour 25 0) (PersistLost Io) (CallCreate "op_2" (sample_request "k2" "h2"))].

Definition keyed : world * result OperationSnapshot OperationStoreError :=
  create (λ _, hour 2 0) "op_1" (sample_request "k1" "h1") Persisted (empty_file, None).

Definition repeated_store : OperationFile :=
  default empty_file (system_run (Some keyed.1.1, keyed.1.2) repeated_events).1.

Lemma accepted_invocation_runs_once_witness :
  ∃ op', get repeated_store "op_1" = Some op' ∧ os_status op' = "failed" ∧
    create (λ _, hour 25 0) "op_3" (sample_request "k1" "h1") Persisted (repeated_store, None)
    = ((prune_expired (hour 25 0) repeated_store, None), Ok op').
Proof.
  destruct (accepted_invocation_runs_once (2 * 3600 * 10 ^ 9) ltac:(unfold calendar, day; lia)
              (empty_file, None) (λ _, hour 2 0) "op_1" (sample_request "k1" "h1") "k1" keyed.1
              (received (λ _, hour 2 0) "op_1" (sample_request "k1" "h1")) repeated_events
              repeated_store) as (op' & Hop & Hagain).
  - by apply hour_reads.
  - done.
  - by vm_compute.
  - by vm_compute.
  - unfold events_in, repeated_events. rewrite !Forall_cons.
    split_and!; [|intros key| |apply Forall_nil_2]; by apply hour_reads.
  - repeat constructor; discriminate.
  - by vm_compute.
  - exists op'. split_and!; [done| |].
    + assert (os_status <$> get repeated_store "op_1" = Some "failed") as Hs by by vm_compute.
      rewrite Hop in Hs. by injection Hs.
    + rewrite (Hagain (λ _, hour 25 0) "op_3" (sample_request "k1" "h1") Persisted None
                (hour_reads 25 ltac:(lia)) eq_refl).
      reflexivity.
Defined.

Lemma event_pages_are_exact_witness :
  len <$> events_after sample_store "op_2" 2 = Some 3%N ∧
  events_after sample_store "op_2" 2
  = take 256 ∘ drop 2 ∘ os_events <$> get sample_store "op_2".
Proof.
  split; [by vm_compute|].
  assert (len ∘ os_events <$> get sample_store "op_2" = Some 5%N) as Hlen by by vm_compute.
  apply fmap_Some in Hlen as (op & Hop & Hlen). rewrite Hop.
  apply (event_pages_are_exact sample_events sample_store "op_2" op 2); [by vm_compute|done|].
  simpl in Hlen. by rewrite <-Hlen.
Defined.
