(* ===== verification/Ids.v ===== *)
(** * Identifiers

    Models [crates/foundation/star-contracts/src/ids.rs]: the prefixed ULID
    identifiers, the identifiers derived from a hash, their base 32 text and
    the monotonic ULID source.  An identifier is its text. *)
From S2P Require Import Prelude Canonical Toy.

Inductive IdError := IdInvalid (kind value : string).

#[global] Instance IdError_eq_dec : EqDecision IdError.
Proof. solve_decision. Defined.

(** [prefixed_id!] and [derived_id!]: the type's name and its prefix. *)
Definition prefixed_ids : list (string * string) :=
  [("RequestId", "req_"); ("OperationId", "opn_"); ("ApprovalId", "apr_");
   ("ToolTrustId", "trt_"); ("ToolCacheId", "trc_"); ("ProjectId", "prj_");
   ("CheckoutId", "cko_"); ("GoalId", "gol_"); ("RunId", "run_"); ("StageId", "stg_");
   ("StageGraphId", "sgr_"); ("StageResultId", "srs_"); ("RouteDecisionId", "rte_");
   ("CapabilitySnapshotId", "cap_"); ("CodexExecutionId", "cdx_"); ("ContextPackId", "ctx_");
   ("PermissionPlanId", "ppl_"); ("ArtifactId", "art_"); ("DiagnosticId", "dia_");
   ("ValidationPlanId", "vpl_"); ("ValidationRunId", "val_"); ("GateId", "gat_");
   ("EvidenceBundleId", "evb_"); ("TaskInvocationId", "inv_"); ("WaiverId", "wav_");
   ("TaskSpecId", "tsk_"); ("ScopeRevisionId", "scp_"); ("ImpactAnalysisId", "imp_");
   ("ChangeSetId", "chg_"); ("ScanRunId", "scn_"); ("SuppressionId", "sup_");
   ("BaselineId", "bas_"); ("DispositionId", "dsp_"); ("ChangePlanId", "cpl_");
   ("PatchSetId", "pat_"); ("RecipeExecutionId", "rcx_"); ("PatchApplicationId", "pap_");
   ("WorktreeDecisionId", "wtd_"); ("ValidationResultId", "vrs_"); ("ReviewPackId", "rvp_");
   ("ReworkDirectiveId", "rwd_"); ("ValidatorGuardEvidenceId", "vge_");
   ("ManagementStoreId", "mst_"); ("CoordinatedOperationId", "cop_"); ("RootBindingId", "rtb_");
   ("GenerationId", "gen_"); ("EventId", "evt_"); ("InstallationId", "ins_");
   ("ReleaseManifestId", "rel_"); ("EvaluationRunId", "evr_"); ("BackupSetId", "bks_");
   ("RecoveryPlanId", "rcp_"); ("LocalStateBundleId", "lsb_")].

Definition derived_ids : list (string * string) :=
  [("ProjectRevisionId", "prv_"); ("WorkspaceSnapshotId", "wsp_");
   ("ProjectCatalogSnapshotId", "pcs_"); ("CodeIndexSnapshotId", "cix_");
   ("ManagedRegistrySnapshotId", "mrs_"); ("RegistryConsistencyRecordId", "rcr_");
   ("FindingId", "fnd_"); ("OccurrenceId", "occ_"); ("SymbolId", "sym_");
   ("SymbolReferenceId", "srf_"); ("CanonicalSourceId", "src_")].

(** ** Base 32 *)

Definition ALPHABET : list ascii :=
  String.list_ascii_of_string "abcdefghijklmnopqrstuvwxyz234567".

(** [ALPHABET[n]]; the index is masked to five bits. *)
Definition alphabet_at (n : N) : ascii := nth (N.to_nat n) ALPHABET "a"%char.

(** Shifts of a [u16]. *)
Definition shl16 (a n : N) : N := N.land (N.shiftl a n) u16_max.

(** The inner [while bits >= 5] loop: the characters it pushes, and the buffer
    and the bit count it leaves. *)
Fixpoint drain (fuel : nat) (buffer bits : N) : string * (N * N) :=
  match fuel with
  | O => (EmptyString, (buffer, bits))
  | S fuel =>
      if (5 <=? bits)%N then
        let bits := (bits - 5)%N in
        let c := alphabet_at (N.land (N.shiftr buffer bits) 31) in
        let buffer := N.land buffer (shl16 1 bits - 1) in
        let r := drain fuel buffer bits in
        (String c r.1, r.2)
      else (EmptyString, (buffer, bits))
  end.

(** The loop over the bytes; the inner loop runs at most [bits] times. *)
Fixpoint base32_loop (bytes : string) (buffer bits : N) : string :=
  match bytes with
  | String b bytes =>
      let buffer := N.lor (shl16 buffer 8) (byte b) in
      let bits := (bits + 8)%N in
      let r := drain (N.to_nat bits) buffer bits in
      r.1 +:+ base32_loop bytes r.2.1 r.2.2
  | EmptyString =>
      if (0 <? bits)%N
      then String (alphabet_at (N.land (shl16 buffer (5 - bits)) 31)) EmptyString
      else EmptyString
  end.

Definition base32_lower_no_pad (bytes : string) : string := base32_loop bytes 0 0.

(** ** Parsing and derivation *)

Section ids.
Context `{Platform}.

Definition prefixed_parse (kind prefix value : string) : result string IdError :=
  let? raw := ok_or (strip_prefix prefix value) (IdInvalid kind value) in
  check negb (slen raw =? 26)%N || bytes_any is_ascii_lower raw else IdInvalid kind value in
  check negb (ulid_from_string_ok raw) else IdInvalid kind value in
  Ok value.

Definition prefixed_from_stable_bytes (prefix bytes : string) : string :=
  prefix +:+ ulid_from_bytes (String.substring 0 16 (sha256 bytes)).

Definition base32_byte (b : N) : bool := is_ascii_lower b || in_range 50 55 b.

Definition derived_parse (kind prefix value : string) : result string IdError :=
  let? raw := ok_or (strip_prefix prefix value) (IdInvalid kind value) in
  check negb (slen raw =? 52)%N || bytes_any (λ b, negb (base32_byte b)) raw
  else IdInvalid kind value in
  Ok value.

Definition derived_from_stable_bytes (prefix bytes : string) : string :=
  prefix +:+ base32_lower_no_pad (sha256 bytes).

(** [None] where the source panics: a hash without its prefix or its
    hexadecimal text. *)
Definition derived_from_fingerprint (prefix : string) (fingerprint : Sha256Hash) :
    option string :=
  raw ← strip_prefix "sha256:" fingerprint;
  bytes ← hex_decode raw;
  Some (prefix +:+ base32_lower_no_pad bytes).

End ids.

(** ** The monotonic source

    [MonotonicUlids::next]: the clock's ULID when it is later than the last
    one given out, the successor instant otherwise.  [timestamp_ms] and
    [from_parts] are the [ulid] crate's. *)

Class UlidParts := {
  ulid_timestamp_ms : N → N;
  ulid_from_parts : N → N → N
}.

(** Documented: the ordering is that of the 128-bit value, whose upper 48 bits
    are the timestamp. *)
Class UlidPartsLaws `{UlidParts} : Prop := {
  ulid_later : ∀ u random,
    (ulid_timestamp_ms u + 1 < 2 ^ 48)%N → (u < ulid_from_parts (ulid_timestamp_ms u + 1) random)%N;
  ulid_parts_ms : ∀ ms random,
    (ms < 2 ^ 48)%N → ulid_timestamp_ms (ulid_from_parts ms random) = ms
}.

Section monotonic.
Context `{UlidParts}.

Definition monotonic_next (previous : option N) (next : N) : N :=
  match previous with
  | Some last => if (next <=? last)%N then ulid_from_parts (ulid_timestamp_ms last + 1) 0 else next
  | None => next
  end.

(** The ULIDs given out while [Ulid::new] reads the given values. *)
Fixpoint monotonic_run (previous : option N) (clock : list N) : list N :=
  match clock with
  | [] => []
  | next :: clock =>
      let chosen := monotonic_next previous next in
      chosen :: monotonic_run (Some chosen) clock
  end.

End monotonic.

(** ** The base 32 text as a number

    The text of [n] bytes is the number they spell, shifted to a whole number
    of five-bit digits, in [base32_digits n] digits. *)

Fixpoint digits (k : nat) (x : N) : string :=
  match k with
  | O => EmptyString
  | S k => digits k (x / 32) +:+ String (alphabet_at (x mod 32)) EmptyString
  end.

Definition base32_digits (n : nat) : nat := (8 * n + 4) / 5.

Definition base32_pad (n : nat) : N := N.of_nat (5 * base32_digits n - 8 * n).

Lemma str_app_length a b : String.length (a +:+ b) = String.length a + String.length b.
Proof. induction a as [|c a IH]; [done|]. rewrite str_app_cons. simpl. by rewrite IH. Qed.

Lemma digits_length k x : String.length (digits k x) = k.
Proof.
  revert x. induction k as [|k IH]; intros x; simpl; [done|]. rewrite str_app_length, IH. simpl. lia.
Qed.

Lemma alphabet_inj x y :
  (x < 32)%N → (y < 32)%N → alphabet_at x = alphabet_at y → x = y.
Proof.
  intros Hx Hy Heq.
  pose (p x := forallb (λ j, implb (Ascii.eqb (alphabet_at x) (alphabet_at (N.of_nat j)))
    (x =? N.of_nat j)%N) (seq 0 32)).
  assert (p x = true) as Hp by (apply (below_all 32 p); [vm_compute; reflexivity|lia]).
  unfold p in Hp. rewrite forallb_true in Hp.
  assert (N.to_nat y ∈ seq 0 32) as Hin by (apply elem_of_seq; lia).
  apply Hp in Hin. rewrite N2Nat.id, Heq, Ascii.eqb_refl in Hin. by apply N.eqb_eq.
Qed.

Lemma str_snoc_inj a b x y :
  a +:+ String x EmptyString = b +:+ String y EmptyString → a = b ∧ x = y.
Proof.
  revert b. induction a as [|c a IH]; intros [|d b]; rewrite ?str_app_cons; intros Heq.
  - by injection Heq.
  - injection Heq as _ Heq. by destruct b.
  - injection Heq as _ Heq. by destruct a.
  - injection Heq as -> Heq. apply IH in Heq as [-> ->]. done.
Qed.

Lemma digits_inj k x y :
  (x < 32 ^ N.of_nat k)%N → (y < 32 ^ N.of_nat k)%N → digits k x = digits k y → x = y.
Proof.
  revert x y. induction k as [|k IH]; intros x y Hx Hy Heq; [simpl in *; lia|].
  rewrite Nat2N.inj_succ, N.pow_succ_r' in Hx, Hy.
  simpl in Heq. apply str_snoc_inj in Heq as [Heq Hd].
  apply alphabet_inj in Hd; [|apply N.mod_lt; lia..].
  apply IH in Heq; [|apply N.Div0.div_lt_upper_bound; lia..].
  rewrite (N.Div0.div_mod x 32), (N.Div0.div_mod y 32). by rewrite Heq, Hd.
Qed.

(** The machine's shifts and masks as arithmetic. *)
Lemma shift_in a b n :
  (a < 2 ^ n)%N → (n < 5)%N → (b < 256)%N → N.lor (shl16 a 8) b = (a * 256 + b)%N.
Proof.
  intros Ha Hn Hb. unfold shl16. change u16_max with (N.ones 16). rewrite N.land_ones.
  assert (2 ^ n <= 2 ^ 4)%N by (apply N.pow_le_mono_r; lia).
  rewrite N.shiftl_mul_pow2, N.mod_small by (change (2 ^ 4)%N with 16%N in *; lia).
  assert (N.land (a * 2 ^ 8) b = 0)%N as Hdisj.
  { apply N.bits_inj_0. intros i. rewrite N.land_spec.
    destruct (N.lt_ge_cases i 8) as [Hi|Hi].
    - by rewrite N.mul_pow2_bits_low.
    - rewrite andb_comm. destruct (N.eq_dec b 0) as [->|Hb0]; [by rewrite N.bits_0|].
      rewrite N.bits_above_log2; [done|]. apply N.lt_le_trans with 8%N; [|done].
      apply N.log2_lt_pow2; lia. }
  rewrite <-N.lxor_lor, <-N.add_nocarry_lxor by done. lia.
Qed.

Lemma mod_digit v b :
  (5 <= b)%N →
  (v mod 2 ^ b)%N = (v mod 2 ^ (b - 5) + 2 ^ (b - 5) * ((v / 2 ^ (b - 5)) mod 32))%N.
Proof.
  intros Hb. rewrite <-N.Div0.mod_mul_r.
  change 32%N with (2 ^ 5)%N. by rewrite <-N.pow_add_r, N.sub_add.
Qed.

Lemma digit_out v b :
  (5 <= b)%N →
  N.land (N.shiftr (v mod 2 ^ b) (b - 5)) 31 = ((v / 2 ^ (b - 5)) mod 32)%N.
Proof.
  intros Hb. change 31%N with (N.ones 5). rewrite N.land_ones, N.shiftr_div_pow2, (mod_digit v b) by done.
  assert (2 ^ (b - 5) ≠ 0)%N by (apply N.pow_nonzero; lia).
  rewrite (N.mul_comm (2 ^ (b - 5))), N.div_add, N.div_small, N.add_0_l by (done || by apply N.mod_lt).
  by rewrite N.Div0.mod_mod.
Qed.

Lemma mask_in v b :
  (5 <= b)%N → (b < 16)%N →
  N.land (v mod 2 ^ b) (shl16 1 (b - 5) - 1) = (v mod 2 ^ (b - 5))%N.
Proof.
  intros Hb Hb'. unfold shl16. change u16_max with (N.ones 16).
  assert (2 ^ (b - 5) < 2 ^ 16)%N by (apply N.pow_lt_mono_r; lia).
  rewrite N.land_ones, N.shiftl_1_l. rewrite (N.mod_small (2 ^ (b - 5))) by assumption.
  rewrite <-N.pred_sub, <-N.ones_equiv, N.land_ones, (mod_digit v b) by done.
  by rewrite (N.mul_comm (2 ^ (b - 5))), N.Div0.mod_add, N.Div0.mod_mod.
Qed.

Lemma digits_push k v b :
  (5 <= b)%N →
  digits k (v / 2 ^ b) +:+ String (alphabet_at ((v / 2 ^ (b - 5)) mod 32)) EmptyString
  = digits (S k) (v / 2 ^ (b - 5)).
Proof.
  intros Hb. simpl. rewrite N.Div0.div_div. do 3 f_equal.
  change 32%N with (2 ^ 5)%N. by rewrite <-N.pow_add_r, N.sub_add.
Qed.

Lemma drain_spec fuel v b :
  N.to_nat b ≤ fuel → (b < 16)%N →
  ∃ k' b', (drain fuel (v mod 2 ^ b) b).2 = ((v mod 2 ^ b')%N, b') ∧
    (b' < 5)%N ∧ b = (b' + 5 * N.of_nat k')%N ∧
    ∀ k, digits k (v / 2 ^ b) +:+ (drain fuel (v mod 2 ^ b) b).1 = digits (k + k') (v / 2 ^ b').
Proof.
  revert b. induction fuel as [|fuel IH]; intros b Hfuel Hb; simpl.
  { exists 0, b. split; [done|]. split; [lia|]. split; [lia|]. intros k.
    by rewrite str_app_nil_r, Nat.add_0_r. }
  destruct (5 <=? b)%N eqn:E; bool_to_prop.
  - rewrite digit_out, mask_in by done.
    destruct (IH (b - 5)%N) as (k' & b' & H2 & Hb' & Hbk & H1); [lia..|].
    exists (S k'), b'. split; [done|]. split; [done|]. split; [lia|]. intros k. cbn [fst].
    change (String ?c ?s) with (String c EmptyString +:+ s).
    rewrite <-str_app_assoc, digits_push, H1 by done. f_equal. lia.
  - exists 0, b. split; [done|]. split; [done|]. split; [lia|]. intros k.
    by rewrite str_app_nil_r, Nat.add_0_r.
Qed.

Lemma last_digit v b :
  (0 < b < 5)%N →
  String (alphabet_at (N.land (shl16 (v mod 2 ^ b) (5 - b)) 31)) EmptyString
  = String (alphabet_at ((v * 2 ^ (5 - b)) mod 32)) EmptyString.
Proof.
  intros Hb. do 2 f_equal. unfold shl16. change u16_max with (N.ones 16).
  change 31%N with (N.ones 5). rewrite !N.land_ones, N.shiftl_mul_pow2.
  change (2 ^ 5)%N with 32%N. change (2 ^ 16)%N with (2048 * 32)%N.
  assert (32 = 2 ^ b * 2 ^ (5 - b))%N as H32.
  { rewrite <-N.pow_add_r. by replace (b + (5 - b))%N with 5%N by lia. }
  assert ((v mod 2 ^ b * 2 ^ (5 - b))%N = ((v * 2 ^ (5 - b)) mod 32)%N) as ->.
  { rewrite H32. symmetry. apply N.Div0.mul_mod_distr_r. }
  rewrite (N.mod_small _ (2048 * 32)); [by rewrite N.Div0.mod_mod|].
  apply N.lt_trans with 32%N; [apply N.mod_lt|]; lia.
Qed.

Lemma byte_out v c : (c < 256)%N → ((v * 256 + c) / 2 ^ 8 = v)%N.
Proof.
  intros Hc. change (2 ^ 8)%N with 256%N. rewrite N.add_comm, N.div_add, N.div_small; lia.
Qed.

Lemma byte_in_mod v c b :
  (c < 256)%N → (v mod 2 ^ b * 256 + c = (v * 256 + c) mod 2 ^ (b + 8))%N.
Proof.
  intros Hc. rewrite (N.add_comm b 8), N.pow_add_r, N.Div0.mod_mul_r, byte_out by done.
  change (2 ^ 8)%N with 256%N. rewrite (N.add_comm (v * 256)), N.Div0.mod_add.
  rewrite (N.mod_small c) by assumption. lia.
Qed.

Lemma base32_loop_spec bytes v b k :
  (b < 5)%N →
  let m := (N.to_nat b + 8 * String.length bytes + 4) / 5 in
  digits k (v / 2 ^ b) +:+ base32_loop bytes (v mod 2 ^ b) b
  = digits (k + m) (bytes_number bytes v
      * 2 ^ N.of_nat (5 * m - (N.to_nat b + 8 * String.length bytes))).
Proof.
  revert v b k. induction bytes as [|c bytes IH]; intros v b k Hb m; subst m.
  - simpl String.length. rewrite Nat.mul_0_r, Nat.add_0_r. cbn [base32_loop bytes_number].
    destruct (0 <? b)%N eqn:E; bool_to_prop.
    + assert ((N.to_nat b + 4) / 5 = 1) as ->.
      { symmetry. apply Nat.div_unique with (N.to_nat b - 1); lia. }
      replace (N.of_nat (5 * 1 - N.to_nat b)) with (5 - b)%N by lia.
      rewrite Nat.add_1_r, last_digit by lia. simpl. f_equal. f_equal.
      replace 32%N with (2 ^ b * 2 ^ (5 - b))%N
        by (rewrite <-N.pow_add_r; by replace (b + (5 - b))%N with 5%N by lia).
      rewrite N.Div0.div_mul_cancel_r; [done|]. apply N.pow_nonzero. lia.
    + assert (b = 0)%N as -> by lia. simpl. rewrite str_app_nil_r, Nat.add_0_r.
      by rewrite N.div_1_r, N.mul_1_r.
  - cbn [base32_loop bytes_number String.length]. pose proof (byte_lt c) as Hc.
    rewrite (shift_in (v mod 2 ^ b) (byte c) b) by (done || apply N.mod_lt, N.pow_nonzero; lia).
    assert (v mod 2 ^ b * 256 + byte c = (v * 256 + byte c) mod 2 ^ (b + 8))%N as ->.
    { by apply byte_in_mod. }
    assert (v / 2 ^ b = (v * 256 + byte c) / 2 ^ (b + 8))%N as ->.
    { rewrite (N.add_comm b 8), N.pow_add_r, <-N.Div0.div_div. by rewrite byte_out. }
    destruct (drain_spec (N.to_nat (b + 8)) (v * 256 + byte c) (b + 8))
      as (k' & b' & H2 & Hb' & Hbk & H1); [lia..|].
    rewrite <-str_app_assoc, H1, H2. cbn [fst snd]. rewrite IH by done.
    assert ((N.to_nat b + 8 * S (String.length bytes) + 4) / 5
      = k' + (N.to_nat b' + 8 * String.length bytes + 4) / 5) as ->.
    { replace (N.to_nat b + 8 * S (String.length bytes) + 4)
        with (N.to_nat b' + 8 * String.length bytes + 4 + k' * 5) by lia.
      rewrite Nat.div_add by lia. lia. }
    rewrite Nat.add_assoc. do 4 f_equal. lia.
Qed.

(** The text of the bytes, as the digits of their number. *)
Lemma base32_spec bytes :
  base32_lower_no_pad bytes
  = digits (base32_digits (String.length bytes))
      (bytes_number bytes 0 * 2 ^ base32_pad (String.length bytes)).
Proof. apply (base32_loop_spec bytes 0 0 0). lia. Qed.

Lemma bytes_number_acc s a :
  bytes_number s a = (a * 256 ^ slen s + bytes_number s 0)%N.
Proof.
  revert a. induction s as [|c s IH]; intros a; cbn [bytes_number].
  { unfold slen. simpl. lia. }
  rewrite IH, (IH (0 * 256 + byte c)%N). unfold slen. simpl String.length.
  rewrite Nat2N.inj_succ, N.pow_succ_r'. lia.
Qed.

Lemma bytes_number_lt s : (bytes_number s 0 < 256 ^ slen s)%N.
Proof.
  induction s as [|c s IH]; [vm_compute; reflexivity|]. cbn [bytes_number].
  rewrite bytes_number_acc. pose proof (byte_lt c). unfold slen in *. simpl String.length.
  rewrite Nat2N.inj_succ, N.pow_succ_r'. nia.
Qed.

Lemma byte_inj a b : byte a = byte b → a = b.
Proof.
  unfold byte. intros Heq. rewrite <-(Ascii.ascii_N_embedding a), Heq. apply Ascii.ascii_N_embedding.
Qed.

Lemma bytes_number_inj s t :
  String.length s = String.length t → bytes_number s 0 = bytes_number t 0 → s = t.
Proof.
  revert t. induction s as [|a s IH]; intros [|b t] Hlen Heq; try done.
  simpl in Hlen. injection Hlen as Hlen. cbn [bytes_number] in Heq.
  rewrite (bytes_number_acc s), (bytes_number_acc t) in Heq.
  assert (slen t = slen s) as Ht by (unfold slen; lia). rewrite Ht in Heq.
  pose proof (bytes_number_lt s) as Hs. pose proof (bytes_number_lt t) as Hbt. rewrite Ht in Hbt.
  assert (256 ^ slen s ≠ 0)%N by (apply N.pow_nonzero; lia).
  rewrite !N.mul_0_l, !N.add_0_l, !(N.mul_comm (byte _)) in Heq.
  apply N.div_mod_unique in Heq as [Hc Hr]; [|lia..].
  apply byte_inj in Hc as ->. f_equal. by apply IH.
Qed.

Lemma base32_inj s t :
  String.length s = String.length t → base32_lower_no_pad s = base32_lower_no_pad t → s = t.
Proof.
  intros Hlen Heq. rewrite !base32_spec, <-Hlen in Heq.
  set (n := String.length s) in *. set (m := base32_digits n) in *.
  assert (8 * n ≤ 5 * m) as Hm.
  { unfold m, base32_digits. pose proof (Nat.div_mod_eq (8 * n + 4) 5).
    pose proof (Nat.mod_upper_bound (8 * n + 4) 5). lia. }
  assert (∀ u, String.length u = n →
    (bytes_number u 0 * 2 ^ base32_pad n < 32 ^ N.of_nat m)%N) as Hbound.
  { intros u Hu. pose proof (bytes_number_lt u) as Hl. unfold slen in Hl. rewrite Hu in Hl.
    change 256%N with (2 ^ 8)%N in Hl. change 32%N with (2 ^ 5)%N.
    rewrite <-N.pow_mul_r in Hl |- *.
    replace (5 * N.of_nat m)%N with (8 * N.of_nat n + base32_pad n)%N
      by (unfold base32_pad; fold m; lia).
    rewrite N.pow_add_r. apply N.mul_lt_mono_pos_r; [|done].
    apply N.neq_0_lt_0, N.pow_nonzero. lia. }
  apply digits_inj in Heq; [|by apply Hbound..].
  apply N.mul_cancel_r in Heq; [|apply N.pow_nonzero; lia].
  by apply bytes_number_inj.
Qed.

Lemma bytes_all_app p s t : bytes_all p (s +:+ t) = bytes_all p s && bytes_all p t.
Proof.
  induction s as [|c s IH]; [done|]. rewrite str_app_cons. simpl. by rewrite IH, andb_assoc.
Qed.

Lemma digits_base32 k x : bytes_all base32_byte (digits k x) = true.
Proof.
  revert x. induction k as [|k IH]; intros x; [done|]. simpl. rewrite bytes_all_app, IH. simpl.
  rewrite andb_true_r.
  apply (below_all 32 (λ d, base32_byte (byte (alphabet_at d)))); [vm_compute; reflexivity|].
  apply N.mod_lt. lia.
Qed.

Lemma base32_text bytes :
  slen bytes = 32%N →
  slen (base32_lower_no_pad bytes) = 52%N ∧
  bytes_any (λ b, negb (base32_byte b)) (base32_lower_no_pad bytes) = false.
Proof.
  unfold slen. intros Hlen. rewrite base32_spec, digits_length.
  replace (String.length bytes) with 32 by lia. split; [done|].
  unfold bytes_any. apply negb_false_iff. rewrite <-(digits_base32 (base32_digits 32)
    (bytes_number bytes 0 * 2 ^ base32_pad 32)).
  generalize (digits (base32_digits 32) (bytes_number bytes 0 * 2 ^ base32_pad 32)).
  intros s. induction s as [|c s IH]; [done|]. simpl. by rewrite negb_involutive, IH.
Qed.

(** The base 32 encoder computes the reference: the loop over a sixteen-bit
    buffer, which wraps and is masked, writes the big-endian number of the bytes,
    shifted left to a whole number of five-bit digits, in base 32; the text has
    the least number of digits that holds all the bits. *)
Theorem base32_is_positional bytes :
  base32_lower_no_pad bytes
  = digits (base32_digits (String.length bytes))
      (bytes_number bytes 0 * 2 ^ base32_pad (String.length bytes)) ∧
  String.length (base32_lower_no_pad bytes) = base32_digits (String.length bytes) ∧
  8 * String.length bytes ≤ 5 * base32_digits (String.length bytes) < 8 * String.length bytes + 5.
Proof.
  split; [apply base32_spec|]. split; [by rewrite base32_spec, digits_length|].
  unfold base32_digits. pose proof (Nat.div_mod_eq (8 * String.length bytes + 4) 5).
  pose proof (Nat.mod_upper_bound (8 * String.length bytes + 4) 5). lia.
Qed.

(** ** Identifiers parse *)

Lemma strip_prefix_app p s : strip_prefix p (p +:+ s) = Some s.
Proof. by apply strip_prefix_spec. Qed.

Section parse.
Context `{PlatformLaws}.

Lemma derived_parse_text kind prefix bytes :
  slen bytes = 32%N →
  derived_parse kind prefix (prefix +:+ base32_lower_no_pad bytes)
  = Ok (prefix +:+ base32_lower_no_pad bytes).
Proof.
  intros Hlen. unfold derived_parse. rewrite strip_prefix_app. simpl.
  destruct (base32_text bytes Hlen) as [-> ->]. done.
Qed.

Lemma substring_length n s : n ≤ String.length s → String.length (String.substring 0 n s) = n.
Proof.
  revert s. induction n as [|n IH]; intros [|c s] Hn; simpl in *; try done; try lia.
  f_equal. apply IH. lia.
Qed.

(** An identifier the program makes from stable bytes parses as an
    identifier of its kind, for the ULID kinds and for the derived kinds; and
    the identifier derived from a digest's text is the one derived from the
    digested bytes. *)
Theorem stable_ids_parse kind prefix bytes :
  prefixed_parse kind prefix (prefixed_from_stable_bytes prefix bytes)
    = Ok (prefixed_from_stable_bytes prefix bytes) ∧
  derived_parse kind prefix (derived_from_stable_bytes prefix bytes)
    = Ok (derived_from_stable_bytes prefix bytes) ∧
  derived_from_fingerprint prefix (digest bytes)
    = Some (derived_from_stable_bytes prefix bytes).
Proof.
  pose proof (sha256_length bytes) as Hlen. split; [|split].
  - unfold prefixed_parse, prefixed_from_stable_bytes. rewrite strip_prefix_app. simpl.
    destruct (ulid_text (String.substring 0 16 (sha256 bytes))) as (-> & -> & ->); [|done].
    unfold slen in *. rewrite substring_length; lia.
  - by apply derived_parse_text.
  - unfold derived_from_fingerprint, digest. rewrite strip_prefix_app. simpl.
    by rewrite hex_decode_encode.
Qed.

Lemma hash_bytes h :
  Sha256Hash_from_str h = Ok h →
  ∃ raw bytes, strip_prefix "sha256:" h = Some raw ∧ hex_decode raw = Some bytes ∧
    hex_encode bytes = raw ∧ slen bytes = 32%N.
Proof.
  unfold Sha256Hash_from_str. intros Hh.
  destruct (_ && _) eqn:E in Hh; [|done]. apply andb_true_iff in E as [Hlen Hraw]. bool_to_prop.
  destruct (strip_prefix "sha256:" h) as [raw|] eqn:Hs; [|done].
  apply strip_prefix_spec in Hs as ->. unfold slen in Hlen. rewrite str_app_length in Hlen.
  simpl in Hlen. assert (slen raw = 64%N) as Hl by (unfold slen; lia).
  destruct (hex_decode_lower raw Hraw) as (bytes & Hd & He); [by rewrite Hl|].
  exists raw, bytes. do 3 (split; [done|]).
  pose proof (hex_encode_length bytes) as Hb. rewrite He, Hl in Hb. lia.
Qed.

(** Deriving an identifier from a valid hash never panics, gives an
    identifier that parses, and is injective: different hashes have different
    identifiers. *)
Theorem fingerprint_ids_injective kind prefix h1 h2
    (H1 : Sha256Hash_from_str h1 = Ok h1) (H2 : Sha256Hash_from_str h2 = Ok h2) :
  ∃ id1 id2,
    derived_from_fingerprint prefix h1 = Some id1 ∧ derived_parse kind prefix id1 = Ok id1 ∧
    derived_from_fingerprint prefix h2 = Some id2 ∧ derived_parse kind prefix id2 = Ok id2 ∧
    (id1 = id2 ↔ h1 = h2).
Proof.
  destruct (hash_bytes h1 H1) as (r1 & b1 & Hs1 & Hd1 & He1 & Hl1).
  destruct (hash_bytes h2 H2) as (r2 & b2 & Hs2 & Hd2 & He2 & Hl2).
  exists (prefix +:+ base32_lower_no_pad b1), (prefix +:+ base32_lower_no_pad b2).
  unfold derived_from_fingerprint. rewrite Hs1, Hs2. simpl. rewrite Hd1, Hd2. simpl.
  split; [done|]. split; [by apply derived_parse_text|]. split; [done|].
  split; [by apply derived_parse_text|].
  split; [|intros ->; congruence]. intros Heq. apply strip_prefix_spec in Hs1, Hs2. pose proof (strip_prefix_app prefix (base32_lower_no_pad b1)) as Hp.
  rewrite Heq, strip_prefix_app in Hp. injection Hp as Hp.
  apply base32_inj in Hp; [congruence|]. unfold slen in *. lia.
Qed.

End parse.

(** ** One kind per identifier *)

Section kinds.
Context `{Platform}.

(** [value] parses as the kind [kind]. *)
Definition parses_as (kind value : string) : Prop :=
  ∃ prefix,
    ((kind, prefix) ∈ prefixed_ids ∧ prefixed_parse kind prefix value = Ok value) ∨
    ((kind, prefix) ∈ derived_ids ∧ derived_parse kind prefix value = Ok value).

Lemma parses_prefix kind value :
  parses_as kind value →
  ∃ prefix raw, (kind, prefix) ∈ prefixed_ids ++ derived_ids ∧ value = prefix +:+ raw.
Proof.
  intros (prefix & [[Hin Hp]|[Hin Hp]]);
    unfold prefixed_parse, derived_parse in Hp;
    destruct (strip_prefix prefix value) as [raw|] eqn:Hs; try discriminate Hp;
    apply strip_prefix_spec in Hs; exists prefix, raw; (split; [|exact Hs]); apply elem_of_app;
    [by left|by right].
Qed.

(** A text is an identifier of at most one kind. *)
Theorem id_kinds_disjoint kind1 value (H1 : parses_as kind1 value) :
  ∀ kind2, kind2 ≠ kind1 → ¬ parses_as kind2 value.
Proof.
  intros kind2 Hne H2. apply Hne. clear Hne.
  destruct (parses_prefix _ _ H1) as (p1 & r1 & Hin1 & Hv1).
  destruct (parses_prefix _ _ H2) as (p2 & r2 & Hin2 & Hv2).
  assert (Forall (λ k, String.length k.2 = 4) (prefixed_ids ++ derived_ids)) as Hlen
    by (apply (bool_decide_unpack _); vm_compute; exact I).
  rewrite Forall_forall in Hlen.
  pose proof (Hlen _ Hin1) as Hl1. pose proof (Hlen _ Hin2) as Hl2. simpl in Hl1, Hl2.
  assert (p1 = p2) as ->.
  { subst value. clear -Hl1 Hl2 Hv2.
    do 4 (destruct p1 as [|? p1]; [done|]); destruct p1; [|done].
    do 4 (destruct p2 as [|? p2]; [done|]); destruct p2; [|done].
    rewrite !str_app_cons in Hv2. by simplify_eq. }
  assert (NoDup (map snd (prefixed_ids ++ derived_ids))) as Hnd
    by (apply (bool_decide_unpack _); vm_compute; exact I).
  clear -Hnd Hin1 Hin2. revert Hnd Hin1 Hin2. generalize (prefixed_ids ++ derived_ids).
  intros l. induction l as [|[k p] l IH]; intros Hnd Hin1 Hin2; [by apply not_elem_of_nil in Hin1|].
  simpl in Hnd. apply NoDup_cons in Hnd as [Hnew Hnd].
  assert (∀ k', (k', p) ∉ l) as Hout.
  { intros k' Hin. apply Hnew, list_elem_of_fmap. by exists (k', p). }
  apply elem_of_cons in Hin1 as [Hin1|Hin1], Hin2 as [Hin2|Hin2]; simplify_eq; eauto;
    exfalso; by eapply Hout.
Qed.

End kinds.

(** ** The monotonic source *)

Section monotonic_facts.
Context `{UlidPartsLaws}.

Lemma monotonic_next_later previous next :
  (ulid_timestamp_ms previous + 1 < 2 ^ 48)%N →
  (previous < monotonic_next (Some previous) next)%N.
Proof.
  intros Hms. simpl. destruct (next <=? previous)%N eqn:E; bool_to_prop; [by apply ulid_later|done].
Qed.

Definition before_end (n : nat) (u : N) : Prop := (ulid_timestamp_ms u + N.of_nat n < 2 ^ 48)%N.

Lemma monotonic_run_after previous clock :
  before_end (length clock) previous → Forall (before_end (length clock)) clock →
  StronglySorted N.lt (previous :: monotonic_run (Some previous) clock).
Proof.
  revert previous. induction clock as [|next clock IH]; intros previous Hp Hc; simpl.
  { repeat constructor. }
  apply Forall_cons in Hc as [Hn Hc]. unfold before_end in *. simpl length in *.
  assert (Forall (before_end (length clock)) clock) as Hc'.
  { eapply Forall_impl; [exact Hc|]. unfold before_end. intros u. lia. }
  pose proof (monotonic_next_later previous next ltac:(lia)) as Hlt.
  assert (before_end (length clock) (monotonic_next (Some previous) next)) as Hnext.
  { unfold before_end. simpl. destruct (next <=? previous)%N; [|lia].
    rewrite ulid_parts_ms; lia. }
  specialize (IH _ Hnext Hc'). constructor; [exact IH|]. constructor; [exact Hlt|].
  inversion IH as [|? ? _ Hall]; subst. eapply Forall_impl; [exact Hall|].
  intros u Hu. eapply N.lt_trans; [exact Hlt|exact Hu].
Qed.

(** Whatever the clock reads, stalls and regressions included, the
    identifiers a process gives out are strictly increasing, as long as the
    clock stays below the last timestamp by the number of identifiers. *)
Theorem monotonic_ulids_increase clock
    (Hclock : Forall (before_end (length clock)) clock) :
  StronglySorted N.lt (monotonic_run None clock).
Proof.
  destruct clock as [|next clock]; simpl; [constructor|].
  apply Forall_cons in Hclock as [Hn Hc]. unfold before_end in *. simpl length in *.
  apply monotonic_run_after; unfold before_end; [lia|].
  eapply Forall_impl; [exact Hc|]. simpl. intros u. lia.
Qed.

End monotonic_facts.

(** ** Witnesses *)

(** The layout of the [ulid] crate. *)
#[global] Instance toy_ulid_parts : UlidParts := {|
  ulid_timestamp_ms := λ u, (u / 2 ^ 80)%N;
  ulid_from_parts := λ ms random, ((ms mod 2 ^ 48) * 2 ^ 80 + random mod 2 ^ 80)%N
|}.

#[global] Instance toy_ulid_laws : UlidPartsLaws.
Proof.
  split; unfold ulid_timestamp_ms, ulid_from_parts, toy_ulid_parts.
  - intros u random Hms. rewrite (N.mod_small (u / 2 ^ 80 + 1)) by done.
    apply N.lt_le_trans with ((u / 2 ^ 80 + 1) * 2 ^ 80)%N; [|apply N.le_add_r].
    rewrite N.mul_comm, N.add_1_r. by apply N.mul_succ_div_gt.
  - intros ms random Hms. rewrite (N.mod_small ms) by done.
    rewrite N.div_add_l, N.div_small, N.add_0_r by (done || by apply N.mod_lt). done.
Qed.

Lemma stable_ids_parse_witness :
  derived_parse "FindingId" "fnd_" (derived_from_stable_bytes "fnd_" "finding")
    = Ok (derived_from_stable_bytes "fnd_" "finding").
Proof. exact (proj1 (proj2 (stable_ids_parse "FindingId" "fnd_" "finding"))). Defined.

Lemma fingerprint_ids_injective_witness :
  ∃ id1 id2,
    derived_from_fingerprint "sym_" (digest "a") = Some id1 ∧
    derived_parse "SymbolId" "sym_" id1 = Ok id1 ∧
    derived_from_fingerprint "sym_" (digest "b") = Some id2 ∧
    derived_parse "SymbolId" "sym_" id2 = Ok id2 ∧
    (id1 = id2 ↔ digest "a" = digest "b").
Proof.
  apply (fingerprint_ids_injective "SymbolId" "sym_"); vm_compute; reflexivity.
Defined.

Definition example_goal : string := prefixed_from_stable_bytes "gol_" "goal".

Lemma id_kinds_disjoint_witness :
  parses_as "GoalId" example_goal ∧ ¬ parses_as "StageId" example_goal.
Proof.
  assert (parses_as "GoalId" example_goal) as Hg.
  { exists "gol_". left. split; [apply (bool_decide_unpack _); vm_compute; exact I|].
    vm_compute. reflexivity. }
  split; [exact Hg|].
  apply (id_kinds_disjoint "GoalId" example_goal Hg "StageId").
  apply (bool_decide_unpack _). vm_compute. exact I.
Defined.

Lemma monotonic_ulids_increase_witness :
  StronglySorted N.lt (monotonic_run None [5 * 2 ^ 80 + 9; 5 * 2 ^ 80 + 9; 4 * 2 ^ 80]%N).
Proof.
  apply monotonic_ulids_increase. repeat constructor; vm_compute; reflexivity.
Defined.
