(* ===== verification/Contracts.v ===== *)
(** * Shared contract data

    [DocumentRef] of [crates/foundation/star-contracts/src/evidence.rs], the
    bounded-text checks the contract files share.  Identifiers of [ids.rs] are
    transparent strings. *)
From S2P Require Import Prelude Canonical.

Abbreviation GoalId := string.
Abbreviation ProjectId := string.
Abbreviation StageId := string.
Abbreviation StageGraphId := string.
Abbreviation StageResultId := string.
Abbreviation RunId := string.
Abbreviation RouteDecisionId := string.
Abbreviation CapabilitySnapshotId := string.
Abbreviation ApprovalId := string.
Abbreviation OperationId := string.

(** [chrono::DateTime<Utc>]: nanoseconds since the epoch. *)
Abbreviation DateTime := Z.

Record DocumentRef := {
  dr_schema_id : string;
  dr_document_id : string;
  dr_revision : N;
  dr_sha256 : Sha256Hash
}.

#[global] Instance DocumentRef_eq_dec : EqDecision DocumentRef.
Proof. solve_decision. Defined.

(** The derived order: fields in declaration order. *)
Definition DocumentRef_key (d : DocumentRef) : string * (string * (N * string)) :=
  (dr_schema_id d, (dr_document_id d, (dr_revision d, dr_sha256 d))).

#[global] Instance DocumentRef_cmp : Cmp DocumentRef := cmp_on DocumentRef_key.

#[global] Instance DocumentRef_cmp_laws : CmpLaws DocumentRef.
Proof.
  apply cmp_on_laws. intros [] []. unfold DocumentRef_key; simpl. by intros [= -> -> -> ->].
Qed.

#[global] Instance DocumentRef_to_json : ToJson DocumentRef := λ d,
  JObj [("schema_id", to_json (dr_schema_id d));
        ("document_id", to_json (dr_document_id d));
        ("revision", to_json (dr_revision d));
        ("sha256", to_json (dr_sha256 d))].

#[global] Instance DocumentRef_inj_json : InjJson DocumentRef.
Proof. intros [] [] Heq. unfold to_json, DocumentRef_to_json in Heq. peel Heq. simpl in *. by subst. Qed.

(** [bounded_text] and [bounded_token] of [stage.rs]; [routing.rs] has the
    same [bounded_text] and a [bounded_token] that also admits ['/']. *)
Definition bounded_text (value : string) (max : N) : bool :=
  negb (blank value) && (slen value <=? max)%N && negb (contains_char NUL value).

Definition bounded_token (value : string) (max : N) : bool :=
  bounded_text value max
  && bytes_all (λ b, is_ascii_alphanumeric b
                     || byte_in ["-"%char; "_"%char; "."%char] b) value.

Definition bounded_token_slash (value : string) (max : N) : bool :=
  bounded_text value max
  && bytes_all (λ b, is_ascii_alphanumeric b
                     || byte_in ["-"%char; "_"%char; "."%char; "/"%char] b) value.

Section document_ref.
Context `{Platform}.

Definition valid_document_ref (reference : DocumentRef) (schema : string) : bool :=
  String.eqb (dr_schema_id reference) schema
  && bounded_token (dr_document_id reference) 192
  && (0 <? dr_revision reference)%N
  && negb (String.eqb (dr_sha256 reference) (digest EmptyString)).

Definition document_ref_is_bounded (reference : DocumentRef) (schema : string) : bool :=
  String.eqb (dr_schema_id reference) schema
  && bounded_token_slash (dr_document_id reference) 192
  && (0 <? dr_revision reference)%N
  && negb (String.eqb (dr_sha256 reference) (digest EmptyString)).

End document_ref.

#[global] Instance option_DocumentRef_inj_json : InjJson (option DocumentRef).
Proof. intros x y. by apply option_json_inj. Qed.
