(* ===== verification/Kahn.v ===== *)
(** * The dependency-order worklist

    The source contains the worklist twice: [topological_order] of
    [crates/control/star-development/src/coordination.rs] and the cycle test in
    [StageGraphV1::validate_graph] of
    [crates/foundation/star-contracts/src/stage.rs].  They share the in-degree
    map, the successor lists and the loop, and differ in the queue discipline,
    which is a parameter here.  The theorems hold for every discipline that
    keeps the queued nodes. *)
From S2P Require Import Prelude.

Inductive kahn_error :=
| MissingNode        (* a successor is not a node: the [ok_or] of the loop *)
| DegreeUnderflow    (* [*degree -= 1] at zero *)
| OutOfFuel.

(** The queue: how a node is taken, and how a released node is put back. *)
Record discipline := {
  dequeue : list string → option (string * list string);
  enqueue : list string → string → list string
}.

Section worklist.
Variable q : discipline.

(** The inner [for child in children] loop. *)
Fixpoint relax (children : list string) (indegree : gmap string N)
    (ready : list string) : result (gmap string N * list string) kahn_error :=
  match children with
  | [] => Ok (indegree, ready)
  | child :: rest =>
      match indegree !! child with
      | None => Err MissingNode
      | Some degree =>
          if (degree =? 0)%N then Err DegreeUnderflow
          else
            let degree := (degree - 1)%N in
            let indegree := <[child := degree]> indegree in
            if (degree =? 0)%N
            then relax rest indegree (enqueue q ready child)
            else relax rest indegree ready
      end
  end.

(** The outer [while let Some(id) = ready.pop()] loop; every iteration visits
    one node, so [fuel] is the number of nodes. *)
Fixpoint worklist (fuel : nat) (children : string → list string)
    (indegree : gmap string N) (ready order : list string) :
    result (list string) kahn_error :=
  match dequeue q ready with
  | None => Ok order
  | Some (id, ready) =>
      match fuel with
      | O => Err OutOfFuel
      | S fuel =>
          let? (indegree, ready) := relax (children id) indegree ready in
          worklist fuel children indegree ready (order ++ [id])
      end
  end.
End worklist.

(** ** What the maps hold when the loop starts *)

Abbreviation edge_list := (list (string * string)).

Definition successors (edges : edge_list) (u : string) : list string :=
  omap (λ e : string * string, if bool_decide (e.1 = u) then Some e.2 else None) edges.

(** Edges into [v] whose source is not yet visited. *)
Definition pending (edges : edge_list) (visited : list string) (v : string) : N :=
  len (filter (λ e, e.2 = v ∧ e.1 ∉ visited) edges).

(** [incoming] and [outgoing] as the source builds them from the edges. *)
Definition zero_degrees (ids : list string) : gmap string N :=
  list_to_map (map (λ id, (id, 0%N)) ids).

Fixpoint count_edges (edges : edge_list) (indegree : gmap string N) :
    option (gmap string N) :=
  match edges with
  | [] => Some indegree
  | (_, v) :: rest =>
      match indegree !! v with
      | None => None
      | Some degree => count_edges rest (<[v := (degree + 1)%N]> indegree)
      end
  end.

Fixpoint push_edges (edges : edge_list) (outgoing : gmap string (list string)) :
    gmap string (list string) :=
  match edges with
  | [] => outgoing
  | (u, v) :: rest =>
      push_edges rest (<[u := default [] (outgoing !! u) ++ [v]]> outgoing)
  end.

Definition outgoing_of (edges : edge_list) (u : string) : list string :=
  default [] (push_edges edges ∅ !! u).

(** The nodes of in-degree zero, in the key order of the map. *)
Definition initial_ready (ids : list string) (indegree : gmap string N) : list string :=
  filter (λ id, indegree !! id = Some 0%N) ids.

(** ** Specification *)

Definition edge_of (edges : edge_list) (u v : string) : Prop := (u, v) ∈ edges.

Definition acyclic (edges : edge_list) : Prop := ∀ v, ¬ tc (edge_of edges) v v.

(** Every node comes after its predecessors. *)
Definition respects (edges : edge_list) (order : list string) : Prop :=
  ∀ u v l1 l2, (u, v) ∈ edges → order = l1 ++ v :: l2 → u ∈ l1.

Record lawful (q : discipline) : Prop := {
  dequeue_none : ∀ r, dequeue q r = None → r = [];
  dequeue_some : ∀ r x r', dequeue q r = Some (x, r') → r ≡ₚ x :: r';
  enqueue_perm : ∀ r x, enqueue q r x ≡ₚ x :: r
}.

(** ** Counting *)

Definition occ (l : list string) (v : string) : N := len (filter (λ w, w = v) l).

Lemma occ_cons w l v : occ (w :: l) v = ((if bool_decide (w = v) then 1 else 0) + occ l v)%N.
Proof.
  unfold occ, len. rewrite (filter_cons (λ w, w = v)). case_bool_decide; case_decide; cbn [length]; first [lia | tauto].
Qed.

Lemma occ_perm l l' v : l ≡ₚ l' → occ l v = occ l' v.
Proof. intros Hp. unfold occ, len. by rewrite Hp. Qed.

Lemma pending_cons u w edges visited v :
  pending ((u, w) :: edges) visited v =
  ((if bool_decide (w = v ∧ u ∉ visited) then 1 else 0) + pending edges visited v)%N.
Proof.
  unfold pending, len.
  rewrite (filter_cons (λ e : string * string, e.2 = v ∧ e.1 ∉ visited)). cbn [fst snd].
  case_bool_decide; case_decide; cbn [length]; first [lia | tauto].
Qed.

Lemma successors_cons u w edges x :
  successors ((u, w) :: edges) x =
  if bool_decide (u = x) then w :: successors edges x else successors edges x.
Proof. unfold successors. simpl. by case_bool_decide. Qed.

Lemma pending_visit edges order x v :
  x ∉ order →
  pending edges order v = (pending edges (order ++ [x]) v + occ (successors edges x) v)%N.
Proof.
  intros Hx. induction edges as [|[u w] edges IH]; [done|].
  rewrite !pending_cons, IH, successors_cons.
  destruct (decide (u = x)) as [->|Hne].
  - rewrite (bool_decide_eq_true_2 (x = x)) by done. rewrite occ_cons.
    rewrite (bool_decide_eq_false_2 (_ ∧ x ∉ order ++ [x])) by set_solver.
    rewrite (bool_decide_ext (w = v ∧ x ∉ order) (w = v)) by naive_solver. lia.
  - rewrite (bool_decide_eq_false_2 (u = x)) by done.
    rewrite (bool_decide_ext (w = v ∧ u ∉ order ++ [x]) (w = v ∧ u ∉ order)) by set_solver.
    lia.
Qed.

Lemma pending_zero edges visited v :
  pending edges visited v = 0%N ↔ ∀ u, (u, v) ∈ edges → u ∈ visited.
Proof.
  induction edges as [|[u w] edges IH]; [split; [set_solver|done]|].
  rewrite pending_cons. case_bool_decide as Hd; split.
  - lia.
  - intros Hall. destruct Hd as [-> Hu]. destruct Hu. apply Hall. set_solver.
  - rewrite N.add_0_l, IH. intros Hz u' [[= -> ->]|]%elem_of_cons; [|auto].
    destruct (decide (u ∈ visited)); naive_solver.
  - intros Hall. rewrite (proj2 IH); [done|]. set_solver.
Qed.

Lemma not_all_ex_pending (edges : edge_list) (visited : list string) v :
  ¬ (∀ u, (u, v) ∈ edges → u ∈ visited) → ∃ u, (u, v) ∈ edges ∧ u ∉ visited.
Proof.
  intros Hn. destruct (decide (Exists (λ e, e.2 = v ∧ e.1 ∉ visited) edges)) as [He|Hne].
  - apply Exists_exists in He as ([u w] & Hin & [Heq Hu]). simpl in *. subst. eauto.
  - destruct Hn. intros u Hin. apply dec_stable. intros Hu. destruct Hne.
    apply Exists_exists. by exists (u, v).
Qed.

Lemma zero_degrees_lookup ids v : v ∈ ids → zero_degrees ids !! v = Some 0%N.
Proof.
  intros Hv. unfold zero_degrees. apply elem_of_list_to_map_1'.
  - intros y Hy. apply list_elem_of_fmap in Hy as (z & [= _ ->] & _). done.
  - apply list_elem_of_fmap. eauto.
Qed.

(** ** The inner loop *)

Section inner.
Context (q : discipline) (Hq : lawful q) (ids visited : list string) (base : string → N).

(** The state between two children: [rest] is still to be released. *)
Definition relaxing (rest : list string) (indegree : gmap string N)
    (ready : list string) : Prop :=
  (∀ v, v ∈ ids → indegree !! v = Some (base v + occ rest v)%N)
  ∧ NoDup (visited ++ ready)
  ∧ (∀ v, v ∈ visited ++ ready → v ∈ ids)
  ∧ (∀ v, v ∈ ids → v ∈ visited ++ ready ↔ (base v + occ rest v = 0)%N).

Lemma relax_step child rest indegree ready :
  child ∈ ids → relaxing (child :: rest) indegree ready →
  ∃ degree, indegree !! child = Some degree ∧ degree ≠ 0%N ∧
    relaxing rest (<[child := (degree - 1)%N]> indegree)
      (if (degree - 1 =? 0)%N then enqueue q ready child else ready).
Proof.
  intros Hc (Hdeg & Hnd & Hsub & Hzero).
  pose proof (occ_cons child rest child) as Hocc.
  rewrite bool_decide_eq_true_2 in Hocc by done.
  exists (base child + occ (child :: rest) child)%N.
  split; [by apply Hdeg|]. split; [lia|].
  assert (child ∉ visited ++ ready) as Hnew by (rewrite Hzero by done; lia).
  assert (∀ v, v ∈ ids → v ≠ child → (base v + occ (child :: rest) v = base v + occ rest v)%N)
    as Hother by (intros v _ ?; rewrite occ_cons, bool_decide_eq_false_2 by done; lia).
  split; [|].
  { intros v Hv. destruct (decide (v = child)) as [->|Hne].
    - rewrite lookup_insert_eq. f_equal. lia.
    - rewrite lookup_insert_ne by done. rewrite <-Hother by done. by apply Hdeg. }
  destruct (_ =? 0)%N eqn:Ez; bool_to_prop.
  - assert (∀ v, v ∈ visited ++ enqueue q ready child ↔ v = child ∨ v ∈ visited ++ ready) as Hin.
    { intros v. rewrite !elem_of_app, (enqueue_perm q Hq). set_solver. }
    split; [|split].
    + rewrite (enqueue_perm q Hq), <-Permutation_middle. by constructor.
    + intros v [->|?]%Hin; auto.
    + intros v Hv. rewrite Hin. destruct (decide (v = child)) as [->|Hne]; [split; [lia|auto]|].
      rewrite <-Hother by done. naive_solver.
  - split; [done|]. split; [done|]. intros v Hv.
    destruct (decide (v = child)) as [->|Hne]; [split; [done|lia]|].
    rewrite <-Hother by done. auto.
Qed.

Lemma relax_ok rest indegree ready :
  (∀ v, v ∈ rest → v ∈ ids) → relaxing rest indegree ready →
  ∃ indegree' ready', relax q rest indegree ready = Ok (indegree', ready') ∧
    relaxing [] indegree' ready'.
Proof.
  revert indegree ready. induction rest as [|c rest IH]; intros indegree ready Hsub Hinv.
  { eauto. }
  destruct (relax_step c rest indegree ready) as (d & Hd & Hnz & Hinv');
    [set_solver|done|]. simpl. rewrite Hd.
  apply N.eqb_neq in Hnz as ->.
  destruct (d - 1 =? 0)%N; apply IH; set_solver.
Qed.
End inner.

Lemma count_edges_ok (ids : list string) (es : edge_list) (indegree : gmap string N)
    (acc : string → N) :
  (∀ u v, (u, v) ∈ es → v ∈ ids) →
  (∀ v, v ∈ ids → indegree !! v = Some (acc v)) →
  ∃ indegree', count_edges es indegree = Some indegree' ∧
    ∀ v, v ∈ ids → indegree' !! v = Some (acc v + pending es [] v)%N.
Proof.
  revert indegree acc. induction es as [|[u w] es IH]; intros indegree acc Hes Hacc; simpl.
  { exists indegree. split; [done|]. intros v Hv. rewrite Hacc by done. f_equal.
    unfold pending, len. simpl. lia. }
  rewrite (Hacc w) by (apply (Hes u); left).
  destruct (IH (<[w := (acc w + 1)%N]> indegree)
    (λ v, acc v + if bool_decide (w = v) then 1 else 0)%N) as (m & Hm & Hval).
  - set_solver.
  - intros v Hv. destruct (decide (w = v)) as [->|Hne].
    + by rewrite lookup_insert_eq, bool_decide_eq_true_2.
    + rewrite lookup_insert_ne, bool_decide_eq_false_2 by done. rewrite Hacc by done.
      f_equal. lia.
  - exists m. split; [done|]. intros v Hv. rewrite Hval, pending_cons by done. f_equal.
    rewrite (bool_decide_ext (w = v ∧ u ∉ []) (w = v)) by set_solver. lia.
Qed.

(** ** The outer loop *)

Section outer.
Context (q : discipline) (Hq : lawful q) (ids : list string) (edges : edge_list).
Context (children : string → list string).
Context (Hchildren : ∀ u, children u ≡ₚ successors edges u).
Context (Hwf : ∀ u v, (u, v) ∈ edges → u ∈ ids ∧ v ∈ ids).

Record worklist_inv (indegree : gmap string N) (ready order : list string) : Prop := {
  wi_state : relaxing ids order (pending edges order) [] indegree ready;
  wi_order : respects edges order
}.

Lemma successors_spec u v : v ∈ successors edges u ↔ (u, v) ∈ edges.
Proof.
  unfold successors. rewrite list_elem_of_omap. split.
  - intros ([a b] & Hin & Hif). simpl in Hif. case_bool_decide; naive_solver.
  - intros Hin. exists (u, v). split; [done|]. simpl.
    by rewrite bool_decide_eq_true_2.
Qed.

Lemma respects_visit order x :
  respects edges order → pending edges order x = 0%N → respects edges (order ++ [x]).
Proof.
  intros Hr Hz u v l1 l2 Hin Heq.
  destruct l2 as [|y l2' _] using rev_ind.
  - apply app_inj_2 in Heq as [<- [= <-]]; [|done]. by apply (pending_zero edges order x).
  - rewrite app_comm_cons, (assoc_L (++)) in Heq. apply app_inj_2 in Heq as [-> _]; [|done].
    by eapply Hr.
Qed.

Lemma worklist_step indegree ready order x ready' :
  dequeue q ready = Some (x, ready') → worklist_inv indegree ready order →
  ∃ indegree' ready'', relax q (children x) indegree ready' = Ok (indegree', ready'') ∧
    worklist_inv indegree' ready'' (order ++ [x]).
Proof.
  intros Hdq [(Hdeg & Hnd & Hsub & Hzero) Hresp].
  apply (dequeue_some q Hq) in Hdq.
  assert (x ∈ order ++ ready) as Hxr by (rewrite Hdq; clear; set_solver).
  assert (x ∈ ids) as Hx by auto.
  assert (x ∉ order) as Hxo.
  { rewrite Hdq in Hnd. apply NoDup_app in Hnd as (_ & Hd & _). intros Hin.
    apply (Hd x Hin). clear; set_solver. }
  assert (∀ v, pending edges (order ++ [x]) v + occ (children x) v = pending edges order v)%N
    as Hsplit.
  { intros v. rewrite (occ_perm _ _ _ (Hchildren x)). symmetry. by apply pending_visit. }
  assert (pending edges order x + occ [] x = 0)%N as Hpx by by apply Hzero.
  destruct (relax_ok q Hq ids (order ++ [x]) (pending edges (order ++ [x])) (children x)
    indegree ready') as (ind & rd & Hrelax & Hinv).
  - intros v Hv. rewrite Hchildren in Hv. apply successors_spec in Hv. by eapply Hwf.
  - split; [|split; [|split]].
    + intros v Hv. rewrite Hsplit, Hdeg by done. f_equal. unfold occ, len. simpl. lia.
    + rewrite <-(assoc_L (++)). simpl. by rewrite <-Hdq.
    + intros v Hv. apply Hsub. rewrite Hdq. revert Hv. clear; set_solver.
    + intros v Hv. rewrite Hsplit. rewrite <-(assoc_L (++)); simpl. rewrite <-Hdq, Hzero by done.
      unfold occ, len. simpl. lia.
  - exists ind, rd. split; [done|]. split; [done|]. apply respects_visit; [done|].
    unfold occ, len in Hpx. simpl in Hpx. lia.
Qed.

Lemma worklist_run fuel indegree ready order :
  NoDup ids → length ids ≤ length order + fuel → worklist_inv indegree ready order →
  ∃ order' indegree', worklist q fuel children indegree ready order = Ok order' ∧
    worklist_inv indegree' [] order'.
Proof.
  intros Hids. revert indegree ready order.
  induction fuel as [|fuel IH]; intros indegree ready order Hfuel Hinv.
  - destruct (dequeue q ready) as [[x ready']|] eqn:Hdq; simpl; rewrite Hdq.
    + exfalso. destruct Hinv as [(_ & Hnd & Hsub & _) _].
      assert (length (order ++ ready) ≤ length ids).
      { apply submseteq_length, NoDup_submseteq; auto. }
      apply (dequeue_some q Hq) in Hdq. rewrite length_app, Hdq in *. simpl in *. lia.
    + pose proof (dequeue_none q Hq _ Hdq) as ->. eauto.
  - destruct (dequeue q ready) as [[x ready']|] eqn:Hdq; simpl; rewrite Hdq.
    + destruct (worklist_step _ _ _ _ _ Hdq Hinv) as (ind & rd & -> & Hinv').
      apply IH; [|done]. rewrite length_app. simpl. lia.
    + pose proof (dequeue_none q Hq _ Hdq) as ->. eauto.
Qed.

Lemma initial_inv indegree ready :
  NoDup ids →
  count_edges edges (zero_degrees ids) = Some indegree →
  ready ≡ₚ initial_ready ids indegree →
  worklist_inv indegree ready [].
Proof.
  intros Hnd Hcount Hready.
  destruct (count_edges_ok ids edges (zero_degrees ids) (λ _, 0%N)) as (m & Hm & Hval).
  - intros u v Hin. by destruct (Hwf u v).
  - intros v Hv. by apply zero_degrees_lookup.
  - rewrite Hcount in Hm. injection Hm as <-. split; [|intros u v l1 l2 _ Heq; by destruct l1].
    split; [|split; [|split]].
    + intros v Hv. rewrite Hval by done. f_equal. unfold occ, len. simpl. lia.
    + simpl. rewrite Hready. by apply NoDup_filter.
    + intros v. simpl. rewrite Hready. unfold initial_ready. rewrite list_elem_of_filter. tauto.
    + intros v Hv. simpl. rewrite Hready. unfold initial_ready.
      rewrite list_elem_of_filter, Hval by done. unfold occ, len. simpl.
      split; [intros [[= Hz] _]; lia|]. intros Hz. split; [f_equal; lia|done].
Qed.

(** *** Complete orders and cycles *)

Lemma respects_tc order u v l1 l2 :
  respects edges order → order = l1 ++ v :: l2 → tc (edge_of edges) u v → u ∈ l1.
Proof.
  intros Hr Heq Htc. revert l1 l2 Heq.
  induction Htc as [u v Huv|u w v Huw _ IH]; intros l1 l2 Heq; [by eapply Hr|].
  specialize (IH l1 l2 Heq). apply list_elem_of_split in IH as (k1 & k2 & ->).
  apply elem_of_app. left. eapply (Hr u w k1 (k2 ++ v :: l2)); [done|].
  by rewrite Heq, <-(assoc_L (++)).
Qed.

Lemma tc_nodes u v : tc (edge_of edges) u v → u ∈ ids ∧ v ∈ ids.
Proof.
  induction 1 as [u v Huv|u w v Huw _ [_ IH]]; [by apply Hwf|].
  by destruct (Hwf _ _ Huw).
Qed.

Lemma complete_acyclic order :
  NoDup order → respects edges order → (∀ v, v ∈ ids → v ∈ order) → acyclic edges.
Proof.
  intros Hnd Hr Hall v Htc.
  assert (v ∈ order) as Hv.
  { apply Hall. by destruct (tc_nodes _ _ Htc). }
  apply list_elem_of_split in Hv as (l1 & l2 & Heq).
  pose proof (respects_tc _ _ _ _ _ Hr Heq Htc) as Hin.
  subst order. apply NoDup_app in Hnd as (_ & Hd & _). eapply Hd; [done|]. left.
Qed.

Lemma tc_flip_edge (R : relation string) u v : tc (flip R) u v → tc R v u.
Proof. induction 1; [by apply tc_once|by eapply tc_r]. Qed.

(** Nodes that all wait for one another carry a cycle. *)
Lemma waiting_cyclic (P : string → Prop) :
  acyclic edges →
  (∀ v, P v → v ∈ ids ∧ ∃ u, P u ∧ (u, v) ∈ edges) →
  ∀ v, ¬ P v.
Proof.
  intros Hac Hstep v Hv.
  assert (sn (flip (edge_of edges)) v) as Hsn.
  { apply tc_finite_sn.
    - intros x Hx. apply (Hac x). by apply tc_flip_edge.
    - exists ids. intros x Hx%tc_flip_edge. by destruct (tc_nodes _ _ Hx). }
  revert Hv. induction Hsn as [v _ IH]. simpl in IH. intros Hv.
  destruct (Hstep v Hv) as (_ & u & Hu & Hedge). by eapply IH.
Qed.

(** The worklist, started on the source's maps with the number of nodes as
    fuel, neither runs out, nor underflows, nor misses a node; it visits every
    node exactly when the edges are acyclic, and always in dependency order. *)
Theorem worklist_correct indegree ready :
  NoDup ids →
  count_edges edges (zero_degrees ids) = Some indegree →
  ready ≡ₚ initial_ready ids indegree →
  ∃ order, worklist q (length ids) children indegree ready [] = Ok order ∧
    NoDup order ∧ (∀ v, v ∈ order → v ∈ ids) ∧ respects edges order ∧
    (length order = length ids ↔ acyclic edges).
Proof.
  intros Hnd Hcount Hready.
  destruct (worklist_run (length ids) indegree ready []) as (order & ind & Hrun & Hinv);
    [done|simpl; lia|by apply initial_inv|].
  destruct Hinv as [(_ & Hndo & Hsub & Hzero) Hresp].
  rewrite app_nil_r in *. exists order. do 4 (split; [done|]). split.
  - intros Hlen. apply (complete_acyclic order Hndo Hresp). intros v Hv.
    assert (order ≡ₚ ids) as ->; [|done].
    apply submseteq_length_Permutation; [by apply NoDup_submseteq|lia].
  - intros Hac. apply Permutation_length, NoDup_Permutation; [done..|].
    intros v. split; [by apply Hsub|]. intros Hv. apply dec_stable. intros Hnot.
    apply (waiting_cyclic (λ v, v ∈ ids ∧ v ∉ order) Hac) with v; [|done].
    intros w [Hw Hwo]. split; [done|].
    rewrite (Hzero w Hw) in Hwo. unfold occ, len in Hwo; simpl in Hwo.
    rewrite N.add_0_r, pending_zero in Hwo.
    apply not_all_ex_pending in Hwo as (u & Hu & Huo).
    exists u. split; [split; [by destruct (Hwf u w)|done]|done].
Qed.

End outer.

Lemma outgoing_of_successors edges u : outgoing_of edges u = successors edges u.
Proof.
  unfold outgoing_of.
  assert (∀ es out, default [] (push_edges es out !! u) =
    default [] (out !! u) ++ successors es u) as Hgen.
  { induction es as [|[a b] es IH]; intros out; cbn [push_edges]; [by rewrite app_nil_r|].
    rewrite IH, successors_cons. case_bool_decide; subst.
    - rewrite lookup_insert_eq. simpl. by rewrite <-(assoc_L (++)).
    - by rewrite lookup_insert_ne. }
  by rewrite Hgen, lookup_empty.
Qed.
