(* ===== verification/Goal.v ===== *)
(** * Goal records

    Models [crates/foundation/star-contracts/src/orchestration.rs]: the record
    of a goal, its plan, question and run, how it is sealed and validated.
    Timestamps are RFC 3339 texts, read by the class [Instants]. *)
From S2P Require Import Prelude Canonical Contracts Persist.

Definition GOAL_RECORD_SCHEMA_ID : string := "star.goal-record".
Definition GOAL_RECORD_SCHEMA_VERSION : N := 1.

Inductive GoalStatus :=
| GoalActive | GoalWaitingQuestion | GoalPaused | GoalCompleted | GoalBlocked | GoalCancelled.

Inductive GoalPlanItemStatus := ItemPending | ItemInProgress | ItemCompleted | ItemBlocked.

Inductive GoalRunStatus := RunRunning | RunCompleted | RunFailed | RunCancelled.

Inductive GoalContractError :=
| GoalSchema | GoalContent | GoalLifecycle | GoalPlan | GoalTimestamp | GoalFingerprint.

#[global] Instance GoalStatus_eq_dec : EqDecision GoalStatus.
Proof. solve_decision. Defined.
#[global] Instance GoalPlanItemStatus_eq_dec : EqDecision GoalPlanItemStatus.
Proof. solve_decision. Defined.
#[global] Instance GoalRunStatus_eq_dec : EqDecision GoalRunStatus.
Proof. solve_decision. Defined.
#[global] Instance GoalContractError_eq_dec : EqDecision GoalContractError.
Proof. solve_decision. Defined.

#[global] Instance GoalStatus_to_json : ToJson GoalStatus := λ s,
  JStr match s with
       | GoalActive => "active" | GoalWaitingQuestion => "waiting_question"
       | GoalPaused => "paused" | GoalCompleted => "completed"
       | GoalBlocked => "blocked" | GoalCancelled => "cancelled"
       end.

#[global] Instance GoalPlanItemStatus_to_json : ToJson GoalPlanItemStatus := λ s,
  JStr match s with
       | ItemPending => "pending" | ItemInProgress => "in_progress"
       | ItemCompleted => "completed" | ItemBlocked => "blocked"
       end.

#[global] Instance GoalRunStatus_to_json : ToJson GoalRunStatus := λ s,
  JStr match s with
       | RunRunning => "running" | RunCompleted => "completed"
       | RunFailed => "failed" | RunCancelled => "cancelled"
       end.

Record GoalPlanItem := {
  gi_item_id : string;
  gi_step : string;
  gi_status : GoalPlanItemStatus
}.

Record GoalQuestion := {
  gq_question_id : string;
  gq_prompt : string;
  gq_answer : option string
}.

Record GoalRunState := {
  gs_run_id : RunId;
  gs_attempt : N;
  gs_status : GoalRunStatus;
  gs_continued_at : string
}.

#[global] Instance GoalPlanItem_eq_dec : EqDecision GoalPlanItem.
Proof. solve_decision. Defined.
#[global] Instance GoalQuestion_eq_dec : EqDecision GoalQuestion.
Proof. solve_decision. Defined.
#[global] Instance GoalRunState_eq_dec : EqDecision GoalRunState.
Proof. solve_decision. Defined.

#[global] Instance GoalPlanItem_to_json : ToJson GoalPlanItem := λ i,
  JObj [("item_id", to_json (gi_item_id i)); ("step", to_json (gi_step i));
        ("status", to_json (gi_status i))].

#[global] Instance GoalQuestion_to_json : ToJson GoalQuestion := λ q,
  JObj (present [field "question_id" (gq_question_id q); field "prompt" (gq_prompt q);
                 opt_field "answer" (gq_answer q)]).

#[global] Instance GoalRunState_to_json : ToJson GoalRunState := λ r,
  JObj [("run_id", to_json (gs_run_id r)); ("attempt", to_json (gs_attempt r));
        ("status", to_json (gs_status r)); ("continued_at", to_json (gs_continued_at r))].

Record GoalRecord := {
  gr_schema_id : string;
  gr_schema_version : N;
  gr_goal_id : GoalId;
  gr_revision : N;
  gr_objective : string;
  gr_project_key : option string;
  gr_status : GoalStatus;
  gr_plan_revision : N;
  gr_plan_items : list GoalPlanItem;
  gr_pending_question : option GoalQuestion;
  gr_run : option GoalRunState;
  gr_completion_evidence_ref : option DocumentRef;
  gr_created_at : string;
  gr_updated_at : string;
  gr_content_fingerprint : Sha256Hash
}.

#[global] Instance GoalRecord_eq_dec : EqDecision GoalRecord.
Proof. solve_decision. Defined.

(** The record with the fields its operations assign. *)
Definition gr_with (g : GoalRecord) (status : GoalStatus) (plan_revision : N)
    (items : list GoalPlanItem) (question : option GoalQuestion) (run : option GoalRunState)
    (evidence : option DocumentRef) : GoalRecord :=
  {| gr_schema_id := gr_schema_id g;
     gr_schema_version := gr_schema_version g;
     gr_goal_id := gr_goal_id g;
     gr_revision := gr_revision g;
     gr_objective := gr_objective g;
     gr_project_key := gr_project_key g;
     gr_status := status;
     gr_plan_revision := plan_revision;
     gr_plan_items := items;
     gr_pending_question := question;
     gr_run := run;
     gr_completion_evidence_ref := evidence;
     gr_created_at := gr_created_at g;
     gr_updated_at := gr_updated_at g;
     gr_content_fingerprint := gr_content_fingerprint g |}.

Definition gr_stamp (g : GoalRecord) (revision : N) (updated_at : string)
    (fp : Sha256Hash) : GoalRecord :=
  {| gr_schema_id := gr_schema_id g;
     gr_schema_version := gr_schema_version g;
     gr_goal_id := gr_goal_id g;
     gr_revision := revision;
     gr_objective := gr_objective g;
     gr_project_key := gr_project_key g;
     gr_status := gr_status g;
     gr_plan_revision := gr_plan_revision g;
     gr_plan_items := gr_plan_items g;
     gr_pending_question := gr_pending_question g;
     gr_run := gr_run g;
     gr_completion_evidence_ref := gr_completion_evidence_ref g;
     gr_created_at := gr_created_at g;
     gr_updated_at := updated_at;
     gr_content_fingerprint := fp |}.

Section goal.
Context `{Platform, Instants}.

(** The fields both fingerprints hash, around the evidence reference. *)
Definition gr_payload_with (g : GoalRecord) (evidence : list (string * Json)) : Json := JObj
  [("domain", to_json GOAL_RECORD_SCHEMA_ID);
   ("version", to_json GOAL_RECORD_SCHEMA_VERSION);
   ("value", JObj
     ([("goal_id", to_json (gr_goal_id g));
       ("revision", to_json (gr_revision g));
       ("objective", to_json (gr_objective g));
       ("project_key", to_json (gr_project_key g));
       ("status", to_json (gr_status g));
       ("plan_revision", to_json (gr_plan_revision g));
       ("plan_items", to_json (gr_plan_items g));
       ("pending_question", to_json (gr_pending_question g));
       ("run", to_json (gr_run g))]
      ++ evidence ++
      [("created_at", to_json (gr_created_at g));
       ("updated_at", to_json (gr_updated_at g))]))].

Definition gr_payload (g : GoalRecord) : Json :=
  gr_payload_with g [("completion_evidence_ref", to_json (gr_completion_evidence_ref g))].

Definition expected_fingerprint (g : GoalRecord) : result Sha256Hash GoalContractError :=
  map_err (λ _, GoalFingerprint) (canonical_sha256 (gr_payload g)).

Definition legacy_fingerprint_without_completion_evidence (g : GoalRecord) :
    result Sha256Hash GoalContractError :=
  map_err (λ _, GoalFingerprint) (canonical_sha256 (gr_payload_with g [])).

Definition item_bad (i : GoalPlanItem) : bool :=
  negb (bounded_token (gi_item_id i) 128) || negb (bounded_text (gi_step i) 4096).

Definition in_progress (items : list GoalPlanItem) : N :=
  len (filter (λ i, gi_status i = ItemInProgress) items).

Definition all_completed (items : list GoalPlanItem) : bool :=
  forallb (λ i, bool_decide (gi_status i = ItemCompleted)) items.

Definition any_blocked (items : list GoalPlanItem) : bool :=
  existsb (λ i, bool_decide (gi_status i = ItemBlocked)) items.

Definition evidence_bad (reference : DocumentRef) : bool :=
  negb (String.eqb (dr_schema_id reference) "star.evidence-bundle")
  || negb (bounded_token (dr_document_id reference) 192)
  || (dr_revision reference =? 0)%N
  || String.eqb (dr_sha256 reference) (digest EmptyString).

Definition unanswered (question : option GoalQuestion) : bool :=
  is_some_and question (λ q, is_none (gq_answer q)).

(** The checks on the question, and those on the run. *)
Definition question_bad (q : GoalQuestion) : bool :=
  negb (bounded_token (gq_question_id q) 128)
  || negb (bounded_text (gq_prompt q) 4096)
  || is_some_and (gq_answer q) (λ answer, negb (bounded_text answer 16384)).

Definition run_bad (status : GoalStatus) (run : option GoalRunState) : bool :=
  match run with
  | Some run =>
      (gs_attempt run =? 0)%N
      || is_none (instant_parse (gs_continued_at run))
      || (bool_decide (status = GoalCancelled) && negb (bool_decide (gs_status run = RunCancelled)))
      || (match status with GoalActive | GoalWaitingQuestion | GoalPaused => true | _ => false end
          && negb (bool_decide (gs_status run = RunRunning)))
  | None => bool_decide (status = GoalCompleted)
  end.

(** The condition on the plan; every failure is [Plan]. *)
Definition plan_bad (g : GoalRecord) : bool :=
  (1 <? in_progress (gr_plan_items g))%N
  || negb (Bool.eqb (len (gr_plan_items g) =? 0)%N (gr_plan_revision g =? 0)%N)
  || (bool_decide (gr_status g = GoalCompleted)
      && (negb (all_completed (gr_plan_items g))
          || is_none_or (gr_run g) (λ run, negb (bool_decide (gs_status run = RunCompleted)))
          || is_none_or (gr_completion_evidence_ref g) evidence_bad))
  || (bool_decide (gr_status g = GoalBlocked) && negb (any_blocked (gr_plan_items g)))
  || (negb (bool_decide (gr_status g = GoalCompleted))
      && is_some (gr_completion_evidence_ref g)).

Definition gr_validate (g : GoalRecord) : result unit GoalContractError :=
  check negb (String.eqb (gr_schema_id g) GOAL_RECORD_SCHEMA_ID)
    || negb (gr_schema_version g =? GOAL_RECORD_SCHEMA_VERSION)%N
    || (gr_revision g =? 0)%N
  else GoalSchema in
  check negb (bounded_text (gr_objective g) 4096)
    || is_some_and (gr_project_key g) (λ value, negb (bounded_token value 128))
  else GoalContent in
  let? created := ok_or (instant_parse (gr_created_at g)) GoalTimestamp in
  let? updated := ok_or (instant_parse (gr_updated_at g)) GoalTimestamp in
  check (updated <? created)%Z else GoalTimestamp in
  check any_or_repeated item_bad gi_item_id [] (gr_plan_items g) else GoalPlan in
  check plan_bad g else GoalPlan in
  check is_some_and (gr_pending_question g) question_bad else GoalContent in
  check negb (Bool.eqb (bool_decide (gr_status g = GoalWaitingQuestion))
                       (unanswered (gr_pending_question g)))
    && negb (bool_decide (gr_status g = GoalPaused))
    && negb (bool_decide (gr_status g = GoalCancelled))
  else GoalLifecycle in
  check run_bad (gr_status g) (gr_run g) else GoalLifecycle in
  let? expected := expected_fingerprint g in
  if String.eqb expected (gr_content_fingerprint g) then Ok tt
  else if is_some (gr_completion_evidence_ref g) then Err GoalFingerprint
  else
    let? legacy := legacy_fingerprint_without_completion_evidence g in
    if String.eqb legacy (gr_content_fingerprint g) then Ok tt else Err GoalFingerprint.

Definition gr_seal (g : GoalRecord) : result GoalRecord GoalContractError :=
  let? fp := expected_fingerprint g in
  let g := gr_stamp g (gr_revision g) (gr_updated_at g) fp in
  let? _ := gr_validate g in
  Ok g.

(** What sealing gives validates, and differs in the fingerprint alone. *)
Lemma gr_seal_ok g g' :
  gr_seal g = Ok g' →
  gr_validate g' = Ok tt ∧
  g' = gr_stamp g (gr_revision g) (gr_updated_at g) (gr_content_fingerprint g').
Proof.
  unfold gr_seal. intros Hs. err_cases Hs. by injection Hs as <-.
Qed.

End goal.
