(* ===== verification/Evidence.v ===== *)
(** * Evidence references

    [ArtifactRef], its parts and [validate_relative_path] of
    [crates/foundation/star-contracts/src/evidence.rs], and
    [ValidationRiskLevel] of [planning.rs]. *)
From S2P Require Import Prelude Canonical Contracts.

Inductive ValidationRiskLevel := RiskLow | RiskMedium | RiskHigh | RiskCritical.

Inductive ArtifactKind :=
| Log | Report | Diff | Screenshot | Trace | Manifest | Input | Output | Checkpoint
| ChangeSet | ReviewPack.

Inductive RedactionStatus := NotNeeded | Redacted | Quarantined | RedactionUnknown.
Inductive RetentionClass := Temporary | RetainRun | RetainEvidence | Hold.

#[global] Instance ValidationRiskLevel_eq_dec : EqDecision ValidationRiskLevel.
Proof. solve_decision. Defined.
#[global] Instance ArtifactKind_eq_dec : EqDecision ArtifactKind.
Proof. solve_decision. Defined.
#[global] Instance RedactionStatus_eq_dec : EqDecision RedactionStatus.
Proof. solve_decision. Defined.
#[global] Instance RetentionClass_eq_dec : EqDecision RetentionClass.
Proof. solve_decision. Defined.

#[global] Instance ValidationRiskLevel_to_json : ToJson ValidationRiskLevel := λ r,
  JStr match r with
       | RiskLow => "low" | RiskMedium => "medium" | RiskHigh => "high"
       | RiskCritical => "critical"
       end.

#[global] Instance ArtifactKind_to_json : ToJson ArtifactKind := λ k,
  JStr match k with
       | Log => "log" | Report => "report" | Diff => "diff" | Screenshot => "screenshot"
       | Trace => "trace" | Manifest => "manifest" | Input => "input" | Output => "output"
       | Checkpoint => "checkpoint" | ChangeSet => "change_set" | ReviewPack => "review_pack"
       end.

#[global] Instance RedactionStatus_to_json : ToJson RedactionStatus := λ r,
  JStr match r with
       | NotNeeded => "not_needed" | Redacted => "redacted" | Quarantined => "quarantined"
       | RedactionUnknown => "unknown"
       end.

#[global] Instance RetentionClass_to_json : ToJson RetentionClass := λ r,
  JStr match r with
       | Temporary => "temporary" | RetainRun => "run" | RetainEvidence => "evidence"
       | Hold => "hold"
       end.

Record ProducerRef := {
  pr_component : string;
  pr_product_version : string;
  pr_build_id : string;
  pr_platform : string
}.

#[global] Instance ProducerRef_eq_dec : EqDecision ProducerRef.
Proof. solve_decision. Defined.

#[global] Instance ProducerRef_to_json : ToJson ProducerRef := λ p,
  JObj [("component", to_json (pr_component p)); ("product_version", to_json (pr_product_version p));
        ("build_id", to_json (pr_build_id p)); ("platform", to_json (pr_platform p))].

(** An artifact and, through [source_artifact_ref], the chain it derives from. *)
Inductive ArtifactRef := mk_ArtifactRef {
  ar_artifact_id : string;
  ar_kind : ArtifactKind;
  ar_project_id : option ProjectId;
  ar_relative_path : string;
  ar_media_type : string;
  ar_size_bytes : N;
  ar_sha256 : Sha256Hash;
  ar_created_at : DateTime;
  ar_producer : ProducerRef;
  ar_redaction_status : RedactionStatus;
  ar_retention_class : RetentionClass;
  ar_source_artifact_ref : option ArtifactRef
}.

#[global] Instance ArtifactRef_eq_dec : EqDecision ArtifactRef.
Proof.
  refine (fix go (x y : ArtifactRef) : Decision (x = y) :=
    let _ : EqDecision ArtifactRef := go in
    match x, y with
    | mk_ArtifactRef a1 a2 a3 a4 a5 a6 a7 a8 a9 a10 a11 a12,
      mk_ArtifactRef b1 b2 b3 b4 b5 b6 b7 b8 b9 b10 b11 b12 =>
        cast_if (decide ((a1, a2, a3, a4, a5, a6, a7, a8, a9, a10, a11, a12)
                         = (b1, b2, b3, b4, b5, b6, b7, b8, b9, b10, b11, b12)))
    end); congruence.
Defined.

(** [validate_relative_path]: [true] when the path is valid. *)
Definition validate_relative_path (path : string) : bool :=
  negb (is_empty path
    || starts_with_char (byte_in ["/"%char]) path
    || ends_with_char (byte_in ["/"%char]) path
    || contains_char "\"%char path
    || contains_char NUL path
    || contains_char ":"%char path
    || existsb (λ segment, is_empty segment || String.eqb segment "..")
         (split_char "/"%char path)).

Fixpoint ArtifactRef_validate (a : ArtifactRef) : bool :=
  validate_relative_path (ar_relative_path a)
  && match ar_source_artifact_ref a with
     | Some source => ArtifactRef_validate source
     | None => true
     end.

Fixpoint ArtifactRef_json `{Platform} (a : ArtifactRef) : Json := JObj (present
  [field "artifact_id" (ar_artifact_id a); field "kind" (ar_kind a);
   opt_field "project_id" (ar_project_id a); field "relative_path" (ar_relative_path a);
   field "media_type" (ar_media_type a); field "size_bytes" (ar_size_bytes a);
   field "sha256" (ar_sha256 a); field "created_at" (rfc3339 (ar_created_at a));
   field "producer" (ar_producer a); field "redaction_status" (ar_redaction_status a);
   field "retention_class" (ar_retention_class a);
   ("source_artifact_ref",
     match ar_source_artifact_ref a with
     | Some source => Some (ArtifactRef_json source)
     | None => None
     end)]).

#[global] Instance ArtifactRef_to_json `{Platform} : ToJson ArtifactRef := ArtifactRef_json.
