(* ===== verification/Validation.v ===== *)
(** * Validation runs, diagnostics, gates and evidence bundles

    Models the rest of [crates/foundation/star-contracts/src/evidence.rs]: the
    documents a validation leaves behind, their validation, and the check of a
    gate decision against the runs it names.  References and artifacts are in
    [Contracts.v] and [Evidence.v]. *)
From S2P Require Import Prelude Canonical Contracts Evidence.

Definition EVIDENCE_CONTRACT_SCHEMA_VERSION : N := 1.

Inductive ContractInvariantError :=
| SchemaVersion | DocumentTimeOrder | ExtensionNamespace | ProjectRelativePath (path : string)
| Location | TaskInvocationInvalid | ValidationAttempt | ValidationTimeOrder
| ValidationExecution | InvalidPass | DuplicateGateReference | SatisfiedRunNotRequired
| MissingValidationRun | UnsatisfiedValidationRun | IncompleteAutoPass | BlockedAutoPass
| MissingSuppression | DiagnosticTimeOrder | EvidenceCompleteness | DuplicateArtifact.

#[global] Instance ContractInvariantError_eq_dec : EqDecision ContractInvariantError.
Proof. solve_decision. Defined.

Abbreviation Extensions := (gmap string Json).

(** ** References *)

Inductive ActorType := ActorUser | ActorCodex | ActorSystem | ActorController | ActorMcp | ActorTool.

#[global] Instance ActorType_to_json : ToJson ActorType := λ a,
  JStr match a with
       | ActorUser => "user" | ActorCodex => "codex" | ActorSystem => "system"
       | ActorController => "controller" | ActorMcp => "mcp" | ActorTool => "tool"
       end.

Record ActorRef := {
  ac_actor_type : ActorType;
  ac_actor_id : string;
  ac_display_name : string;
  ac_auth_source : string
}.

#[global] Instance ActorRef_to_json : ToJson ActorRef := λ a,
  JObj [("actor_type", to_json (ac_actor_type a)); ("actor_id", to_json (ac_actor_id a));
        ("display_name", to_json (ac_display_name a)); ("auth_source", to_json (ac_auth_source a))].

Record CatalogRef := {
  cg_catalog_id : string;
  cg_format_version : N;
  cg_item_version : string;
  cg_sha256 : Sha256Hash
}.

#[global] Instance CatalogRef_to_json : ToJson CatalogRef := λ c,
  JObj [("catalog_id", to_json (cg_catalog_id c)); ("format_version", to_json (cg_format_version c));
        ("item_version", to_json (cg_item_version c)); ("sha256", to_json (cg_sha256 c))].

Inductive Completeness := Complete | Partial | Unverified.

#[global] Instance Completeness_eq_dec : EqDecision Completeness.
Proof. solve_decision. Defined.

#[global] Instance Completeness_to_json : ToJson Completeness := λ c,
  JStr match c with
       | Complete => "complete" | Partial => "partial" | Unverified => "unverified"
       end.

Inductive ProjectPathKind := PathFile | PathDirectory.

#[global] Instance ProjectPathKind_to_json : ToJson ProjectPathKind := λ k,
  JStr match k with PathFile => "file" | PathDirectory => "directory" end.

Record ProjectPathRef := {
  pa_project_id : string;
  pa_path : string;
  pa_path_kind : ProjectPathKind
}.

#[global] Instance ProjectPathRef_to_json : ToJson ProjectPathRef := λ p,
  JObj [("project_id", to_json (pa_project_id p)); ("path", to_json (pa_path p));
        ("path_kind", to_json (pa_path_kind p))].

(** The [Result] of [validate_relative_path]. *)
Definition relative_path_result (path : string) : result unit ContractInvariantError :=
  if validate_relative_path path then Ok tt else Err (ProjectRelativePath path).

Definition ProjectPathRef_validate (p : ProjectPathRef) : result unit ContractInvariantError :=
  relative_path_result (pa_path p).

(** [ArtifactRef::validate] with its error. *)
Fixpoint artifact_result (a : ArtifactRef) : result unit ContractInvariantError :=
  let? _ := relative_path_result (ar_relative_path a) in
  match ar_source_artifact_ref a with
  | Some source => artifact_result source
  | None => Ok tt
  end.

Record TextPosition := { tp_line : N; tp_column : N }.

#[global] Instance TextPosition_cmp : Cmp TextPosition := cmp_on (λ p, (tp_line p, tp_column p)).

#[global] Instance TextPosition_to_json : ToJson TextPosition := λ p,
  JObj [("line", to_json (tp_line p)); ("column", to_json (tp_column p))].

Record LocationRef := {
  lo_path : ProjectPathRef;
  lo_start : TextPosition;
  lo_end : option TextPosition;
  lo_symbol : option string
}.

#[global] Instance LocationRef_to_json : ToJson LocationRef := λ l, JObj (present
  [field "path" (lo_path l); field "start" (lo_start l); opt_field "end" (lo_end l);
   opt_field "symbol" (lo_symbol l)]).

Definition LocationRef_validate (l : LocationRef) : result unit ContractInvariantError :=
  let? _ := ProjectPathRef_validate (lo_path l) in
  check (tp_line (lo_start l) =? 0)%N || (tp_column (lo_start l) =? 0)%N
    || is_some_and (lo_end l) (λ e,
         (tp_line e =? 0)%N || (tp_column e =? 0)%N || cmp_ltb e (lo_start l))
  else Location in
  Ok tt.

Record ValidationRunRef := {
  vr_validation_run_id : string;
  vr_revision : N;
  vr_sha256 : Sha256Hash
}.

Record DiagnosticRef := {
  df_diagnostic_id : string;
  df_sequence : N;
  df_sha256 : Sha256Hash
}.

Record GateDecisionRef := {
  gd_gate_id : string;
  gd_revision : N;
  gd_sha256 : Sha256Hash
}.

Record EvidenceBundleRef := {
  er_evidence_bundle_id : string;
  er_revision : N;
  er_sha256 : Sha256Hash
}.

#[global] Instance ValidationRunRef_eq_dec : EqDecision ValidationRunRef.
Proof. solve_decision. Defined.
#[global] Instance DiagnosticRef_eq_dec : EqDecision DiagnosticRef.
Proof. solve_decision. Defined.
#[global] Instance GateDecisionRef_eq_dec : EqDecision GateDecisionRef.
Proof. solve_decision. Defined.

(** The derived orders: fields in declaration order. *)
#[global] Instance ValidationRunRef_cmp : Cmp ValidationRunRef :=
  cmp_on (λ r, (vr_validation_run_id r, (vr_revision r, vr_sha256 r))).
#[global] Instance DiagnosticRef_cmp : Cmp DiagnosticRef :=
  cmp_on (λ r, (df_diagnostic_id r, (df_sequence r, df_sha256 r))).

#[global] Instance ValidationRunRef_cmp_laws : CmpLaws ValidationRunRef.
Proof. apply cmp_on_laws. intros [] []. simpl. by intros [= -> -> ->]. Qed.
#[global] Instance DiagnosticRef_cmp_laws : CmpLaws DiagnosticRef.
Proof. apply cmp_on_laws. intros [] []. simpl. by intros [= -> -> ->]. Qed.

#[global] Instance ValidationRunRef_to_json : ToJson ValidationRunRef := λ r,
  JObj [("validation_run_id", to_json (vr_validation_run_id r));
        ("revision", to_json (vr_revision r)); ("sha256", to_json (vr_sha256 r))].
#[global] Instance DiagnosticRef_to_json : ToJson DiagnosticRef := λ r,
  JObj [("diagnostic_id", to_json (df_diagnostic_id r));
        ("sequence", to_json (df_sequence r)); ("sha256", to_json (df_sha256 r))].
#[global] Instance GateDecisionRef_to_json : ToJson GateDecisionRef := λ g,
  JObj [("gate_id", to_json (gd_gate_id g)); ("revision", to_json (gd_revision g));
        ("sha256", to_json (gd_sha256 g))].

(** ** Validation runs *)

Inductive EnvironmentValueRef := Literal (value : string) | Secret (secret_ref : DocumentRef).

#[global] Instance EnvironmentValueRef_to_json : ToJson EnvironmentValueRef := λ e,
  match e with
  | Literal value => JObj [("source", JStr "literal"); ("value", to_json value)]
  | Secret secret_ref => JObj [("source", JStr "secret"); ("secret_ref", to_json secret_ref)]
  end.

Record OutputLimits := { ol_stdout_bytes : N; ol_stderr_bytes : N; ol_artifact_bytes : N }.

#[global] Instance OutputLimits_to_json : ToJson OutputLimits := λ o,
  JObj [("stdout_bytes", to_json (ol_stdout_bytes o)); ("stderr_bytes", to_json (ol_stderr_bytes o));
        ("artifact_bytes", to_json (ol_artifact_bytes o))].

(** [expected_exit_codes] is a [BTreeSet<i32>]. *)
Record TaskInvocation := {
  ti_invocation_id : string;
  ti_tool_ref : CatalogRef;
  ti_executable : string;
  ti_args : list string;
  ti_cwd : ProjectPathRef;
  ti_env_refs : gmap string EnvironmentValueRef;
  ti_stdin_ref : option ArtifactRef;
  ti_timeout_ms : N;
  ti_permission_action : string;
  ti_idempotency_key : string;
  ti_expected_exit_codes : list Z;
  ti_output_limits : OutputLimits
}.

Definition TaskInvocation_validate (t : TaskInvocation) : result unit ContractInvariantError :=
  let? _ := ProjectPathRef_validate (ti_cwd t) in
  let? _ := match ti_stdin_ref t with Some a => artifact_result a | None => Ok tt end in
  check is_empty (ti_executable t)
    || (ti_timeout_ms t =? 0)%N
    || is_empty (ti_permission_action t)
    || is_empty (ti_idempotency_key t)
    || (len (ti_expected_exit_codes t) =? 0)%N
    || (ol_stdout_bytes (ti_output_limits t) =? 0)%N
    || (ol_stderr_bytes (ti_output_limits t) =? 0)%N
    || (ol_artifact_bytes (ti_output_limits t) =? 0)%N
    || existsb (λ e : string * EnvironmentValueRef, is_empty e.1) (btree_entries (ti_env_refs t))
  else TaskInvocationInvalid in
  Ok tt.

Record ObservedTool := { ob_executable_path : string; ob_version : string; ob_sha256 : Sha256Hash }.

#[global] Instance ObservedTool_to_json : ToJson ObservedTool := λ o,
  JObj [("executable_path", to_json (ob_executable_path o)); ("version", to_json (ob_version o));
        ("sha256", to_json (ob_sha256 o))].

Record ValidationCache := {
  vc_hit : bool;
  vc_cache_key : string;
  vc_source_validation_run_ref : option ValidationRunRef
}.

#[global] Instance ValidationCache_to_json : ToJson ValidationCache := λ c, JObj (present
  [field "hit" (vc_hit c); field "cache_key" (vc_cache_key c);
   opt_field "source_validation_run_ref" (vc_source_validation_run_ref c)]).

Inductive ValidationOutcome := Pass | Fail | NotRun | OutcomeError | OutcomeCancelled.
Inductive TerminationReason := Exited | Timeout | TerminationCancelled | LaunchError | OutcomeUnknown.

#[global] Instance ValidationOutcome_eq_dec : EqDecision ValidationOutcome.
Proof. solve_decision. Defined.
#[global] Instance TerminationReason_eq_dec : EqDecision TerminationReason.
Proof. solve_decision. Defined.

#[global] Instance ValidationOutcome_to_json : ToJson ValidationOutcome := λ o,
  JStr match o with
       | Pass => "pass" | Fail => "fail" | NotRun => "not_run" | OutcomeError => "error"
       | OutcomeCancelled => "cancelled"
       end.

#[global] Instance TerminationReason_to_json : ToJson TerminationReason := λ t,
  JStr match t with
       | Exited => "exited" | Timeout => "timeout" | TerminationCancelled => "cancelled"
       | LaunchError => "launch_error" | OutcomeUnknown => "outcome_unknown"
       end.

Record ValidationRun := {
  vn_schema_version : N;
  vn_validation_run_id : string;
  vn_revision : N;
  vn_created_at : DateTime;
  vn_updated_at : DateTime;
  vn_producer : ProducerRef;
  vn_extensions : Extensions;
  vn_validation_plan_ref : DocumentRef;
  vn_check_ref : CatalogRef;
  vn_tool_ref : CatalogRef;
  vn_attempt : N;
  vn_invocation : TaskInvocation;
  vn_started_at : option DateTime;
  vn_finished_at : option DateTime;
  vn_outcome : ValidationOutcome;
  vn_completeness : Completeness;
  vn_exit_code : option Z;
  vn_termination_reason : option TerminationReason;
  vn_diagnostic_refs : list DiagnosticRef;
  vn_stdout_ref : option ArtifactRef;
  vn_stderr_ref : option ArtifactRef;
  vn_result_artifact_refs : list ArtifactRef;
  vn_observed_tool : option ObservedTool;
  vn_cache : option ValidationCache
}.

Definition validate_schema_and_extensions (schema_version : N) (extensions : Extensions) :
    result unit ContractInvariantError :=
  check negb (schema_version =? EVIDENCE_CONTRACT_SCHEMA_VERSION)%N else SchemaVersion in
  check existsb (λ e : string * Json, is_empty e.1 || negb (contains_char "."%char e.1))
          (btree_entries extensions)
  else ExtensionNamespace in
  Ok tt.

Definition validate_document (schema_version : N) (created_at updated_at : DateTime)
    (extensions : Extensions) : result unit ContractInvariantError :=
  let? _ := validate_schema_and_extensions schema_version extensions in
  check (updated_at <? created_at)%Z else DocumentTimeOrder in
  Ok tt.

Definition satisfies_required_check (r : ValidationRun) : bool :=
  bool_decide (vn_outcome r = Pass)
  && bool_decide (vn_completeness r = Complete)
  && is_some (vn_started_at r)
  && is_some (vn_finished_at r)
  && bool_decide (vn_termination_reason r = Some Exited)
  && is_some_and (vn_exit_code r) (λ code, mem code (ti_expected_exit_codes (vn_invocation r))).

Definition ValidationRun_validate (r : ValidationRun) : result unit ContractInvariantError :=
  let? _ := validate_document (vn_schema_version r) (vn_created_at r) (vn_updated_at r)
              (vn_extensions r) in
  check (vn_attempt r =? 0)%N else ValidationAttempt in
  let? _ := TaskInvocation_validate (vn_invocation r) in
  let? _ := map_result artifact_result
              (option_list (vn_stdout_ref r) ++ option_list (vn_stderr_ref r)
               ++ vn_result_artifact_refs r) in
  check match vn_started_at r, vn_finished_at r with
        | Some started, Some finished => (finished <? started)%Z
        | _, _ => false
        end
  else ValidationTimeOrder in
  check bool_decide (vn_outcome r = NotRun)
    && (is_some (vn_started_at r) || is_some (vn_finished_at r) || is_some (vn_exit_code r)
        || is_some (vn_termination_reason r) || is_some (vn_observed_tool r))
  else ValidationExecution in
  check bool_decide (vn_outcome r = Pass) && negb (satisfies_required_check r) else InvalidPass in
  Ok tt.

Section run_json.
Context `{Platform}.

#[global] Instance TaskInvocation_to_json : ToJson TaskInvocation := λ t, JObj (present
  [field "invocation_id" (ti_invocation_id t); field "tool_ref" (ti_tool_ref t);
   field "executable" (ti_executable t); field "args" (ti_args t); field "cwd" (ti_cwd t);
   field "env_refs" (ti_env_refs t); opt_field "stdin_ref" (ti_stdin_ref t);
   field "timeout_ms" (ti_timeout_ms t); field "permission_action" (ti_permission_action t);
   field "idempotency_key" (ti_idempotency_key t);
   field "expected_exit_codes" (ti_expected_exit_codes t);
   field "output_limits" (ti_output_limits t)]).

#[global] Instance ValidationRun_to_json : ToJson ValidationRun := λ r, JObj (present
  [field "schema_id" "star.validation-run"; field "schema_version" (vn_schema_version r);
   field "validation_run_id" (vn_validation_run_id r); field "revision" (vn_revision r);
   field "created_at" (rfc3339 (vn_created_at r)); field "updated_at" (rfc3339 (vn_updated_at r));
   field "producer" (vn_producer r); field "extensions" (vn_extensions r);
   field "validation_plan_ref" (vn_validation_plan_ref r); field "check_ref" (vn_check_ref r);
   field "tool_ref" (vn_tool_ref r); field "attempt" (vn_attempt r);
   field "invocation" (vn_invocation r); opt_field "started_at" (rfc3339 <$> vn_started_at r);
   opt_field "finished_at" (rfc3339 <$> vn_finished_at r); field "outcome" (vn_outcome r);
   field "completeness" (vn_completeness r); opt_field "exit_code" (vn_exit_code r);
   opt_field "termination_reason" (vn_termination_reason r);
   field "diagnostic_refs" (vn_diagnostic_refs r); opt_field "stdout_ref" (vn_stdout_ref r);
   opt_field "stderr_ref" (vn_stderr_ref r);
   field "result_artifact_refs" (vn_result_artifact_refs r);
   opt_field "observed_tool" (vn_observed_tool r); opt_field "cache" (vn_cache r)]).

End run_json.

(** ** Diagnostics *)

Inductive DiagnosticSeverity := Info | Warning | SeverityError | Critical.
Inductive DiagnosticConfidence := Low | Medium | High.
Inductive DiagnosticStatus := Confirmed | Suspected | StatusUnverified | Suppressed | Resolved.

#[global] Instance DiagnosticSeverity_eq_dec : EqDecision DiagnosticSeverity.
Proof. solve_decision. Defined.
#[global] Instance DiagnosticStatus_eq_dec : EqDecision DiagnosticStatus.
Proof. solve_decision. Defined.

#[global] Instance DiagnosticSeverity_to_json : ToJson DiagnosticSeverity := λ s,
  JStr match s with
       | Info => "info" | Warning => "warning" | SeverityError => "error" | Critical => "critical"
       end.
#[global] Instance DiagnosticConfidence_to_json : ToJson DiagnosticConfidence := λ c,
  JStr match c with Low => "low" | Medium => "medium" | High => "high" end.
#[global] Instance DiagnosticStatus_to_json : ToJson DiagnosticStatus := λ s,
  JStr match s with
       | Confirmed => "confirmed" | Suspected => "suspected" | StatusUnverified => "unverified"
       | Suppressed => "suppressed" | Resolved => "resolved"
       end.

Inductive DiagnosticScope :=
| ScopeGoal (goal_id : GoalId) (revision : N)
| ScopeRun (goal_id : GoalId) (run_id : RunId) (revision : N)
| ScopeStage (goal_id : GoalId) (run_id : RunId) (stage_id : StageId) (revision : N)
| ScopeValidationRun (validation_run_ref : ValidationRunRef).

#[global] Instance DiagnosticScope_to_json : ToJson DiagnosticScope := λ s,
  match s with
  | ScopeGoal goal revision =>
      JObj [("kind", JStr "goal"); ("goal_id", to_json goal); ("revision", to_json revision)]
  | ScopeRun goal run revision =>
      JObj [("kind", JStr "run"); ("goal_id", to_json goal); ("run_id", to_json run);
            ("revision", to_json revision)]
  | ScopeStage goal run stage revision =>
      JObj [("kind", JStr "stage"); ("goal_id", to_json goal); ("run_id", to_json run);
            ("stage_id", to_json stage); ("revision", to_json revision)]
  | ScopeValidationRun reference =>
      JObj [("kind", JStr "validation_run"); ("validation_run_ref", to_json reference)]
  end.

Record Remediation := {
  re_summary : string;
  re_automatic_fix_available : bool;
  re_action_ref : option CatalogRef
}.

#[global] Instance Remediation_to_json : ToJson Remediation := λ r, JObj (present
  [field "summary" (re_summary r);
   field "automatic_fix_available" (re_automatic_fix_available r);
   opt_field "action_ref" (re_action_ref r)]).

Record SuppressionRef := {
  su_waiver_id : string;
  su_fingerprint : Sha256Hash;
  su_project_id : ProjectId;
  su_scope_revision : N;
  su_reason : string;
  su_approved_by : ActorRef;
  su_created_at : DateTime;
  su_expires_at : option DateTime
}.

Record Diagnostic := {
  dg_schema_version : N;
  dg_diagnostic_id : string;
  dg_sequence : N;
  dg_producer : ProducerRef;
  dg_extensions : Extensions;
  dg_rule_id : CatalogRef;
  dg_title : string;
  dg_message : string;
  dg_severity : DiagnosticSeverity;
  dg_confidence : DiagnosticConfidence;
  dg_status : DiagnosticStatus;
  dg_scope : DiagnosticScope;
  dg_locations : list LocationRef;
  dg_evidence_refs : list ArtifactRef;
  dg_fingerprint : Sha256Hash;
  dg_remediation : option Remediation;
  dg_suppression : option SuppressionRef;
  dg_first_seen_at : DateTime;
  dg_last_seen_at : DateTime
}.

Definition Diagnostic_validate (d : Diagnostic) : result unit ContractInvariantError :=
  let? _ := validate_schema_and_extensions (dg_schema_version d) (dg_extensions d) in
  check (dg_last_seen_at d <? dg_first_seen_at d)%Z else DiagnosticTimeOrder in
  check bool_decide (dg_status d = Suppressed) && is_none (dg_suppression d)
  else MissingSuppression in
  let? _ := map_result LocationRef_validate (dg_locations d) in
  let? _ := map_result artifact_result (dg_evidence_refs d) in
  Ok tt.

(** ** Gate decisions *)

Inductive GateScope :=
| GateGoal (goal_id : GoalId) (run_id : RunId) (revision : N)
| GateStage (goal_id : GoalId) (run_id : RunId) (stage_id : StageId) (revision : N)
| GateMerge (project_id : ProjectId) (revision : N)
| GateRelease (project_id : ProjectId) (revision : N).

Inductive GateDecisionKind := AutoPass | HumanReview | BlockDecision.
Inductive AuthoritativeGateState := Passed | AwaitingHumanReview | Blocked.

#[global] Instance GateDecisionKind_eq_dec : EqDecision GateDecisionKind.
Proof. solve_decision. Defined.

#[global] Instance GateScope_to_json : ToJson GateScope := λ s,
  match s with
  | GateGoal goal run revision =>
      JObj [("kind", JStr "goal"); ("goal_id", to_json goal); ("run_id", to_json run);
            ("revision", to_json revision)]
  | GateStage goal run stage revision =>
      JObj [("kind", JStr "stage"); ("goal_id", to_json goal); ("run_id", to_json run);
            ("stage_id", to_json stage); ("revision", to_json revision)]
  | GateMerge project revision =>
      JObj [("kind", JStr "merge"); ("project_id", to_json project); ("revision", to_json revision)]
  | GateRelease project revision =>
      JObj [("kind", JStr "release"); ("project_id", to_json project);
            ("revision", to_json revision)]
  end.

#[global] Instance GateDecisionKind_to_json : ToJson GateDecisionKind := λ k,
  JStr match k with
       | AutoPass => "auto_pass" | HumanReview => "human_review" | BlockDecision => "block"
       end.

Inductive WaiverTargetRef :=
| WaiveRun (validation_run_ref : ValidationRunRef)
| WaiveDiagnostic (diagnostic_ref : DiagnosticRef)
| WaiveOmitted (check_ref : CatalogRef).

#[global] Instance WaiverTargetRef_to_json : ToJson WaiverTargetRef := λ t,
  match t with
  | WaiveRun r => JObj [("kind", JStr "validation_run"); ("validation_run_ref", to_json r)]
  | WaiveDiagnostic r => JObj [("kind", JStr "diagnostic"); ("diagnostic_ref", to_json r)]
  | WaiveOmitted r => JObj [("kind", JStr "omitted_check"); ("check_ref", to_json r)]
  end.

Record WaiverRef := {
  wa_waiver_id : string;
  wa_target : WaiverTargetRef;
  wa_scope_revision : N;
  wa_reason : string;
  wa_evidence_sha256 : Sha256Hash;
  wa_approved_by : ActorRef;
  wa_approved_at : DateTime;
  wa_expires_at : option DateTime
}.

Inductive OmissionImpact := ImpactNone | ImpactLow | ImpactMedium | ImpactHigh | ImpactUnknown.

#[global] Instance OmissionImpact_to_json : ToJson OmissionImpact := λ i,
  JStr match i with
       | ImpactNone => "none" | ImpactLow => "low" | ImpactMedium => "medium"
       | ImpactHigh => "high" | ImpactUnknown => "unknown"
       end.

Record OmittedCheck := {
  om_check_ref : CatalogRef;
  om_reason : string;
  om_impact : OmissionImpact;
  om_alternative_evidence_refs : list ArtifactRef
}.

Record RiskRef := {
  rk_risk_id : string;
  rk_title : string;
  rk_severity : DiagnosticSeverity;
  rk_evidence_refs : list ArtifactRef
}.

Record GatePolicySnapshot := {
  gp_policy_ref : DocumentRef;
  gp_policy_sha256 : Sha256Hash;
  gp_thresholds : gmap string Json
}.

#[global] Instance GatePolicySnapshot_to_json : ToJson GatePolicySnapshot := λ p,
  JObj [("policy_ref", to_json (gp_policy_ref p)); ("policy_sha256", to_json (gp_policy_sha256 p));
        ("thresholds", to_json (gp_thresholds p))].

Record GateDecision := {
  ga_schema_version : N;
  ga_gate_id : string;
  ga_revision : N;
  ga_created_at : DateTime;
  ga_updated_at : DateTime;
  ga_producer : ProducerRef;
  ga_extensions : Extensions;
  ga_scope : GateScope;
  ga_decision : GateDecisionKind;
  ga_required_run_refs : list ValidationRunRef;
  ga_satisfied_run_refs : list ValidationRunRef;
  ga_blocking_diagnostic_refs : list DiagnosticRef;
  ga_waivers : list WaiverRef;
  ga_omissions : list OmittedCheck;
  ga_remaining_risks : list RiskRef;
  ga_policy_snapshot : GatePolicySnapshot;
  ga_decided_by : ActorRef
}.

Definition authoritative_state (g : GateDecision) : AuthoritativeGateState :=
  match ga_decision g with
  | AutoPass => Passed
  | HumanReview => AwaitingHumanReview
  | BlockDecision => Blocked
  end.

(** The run a satisfied reference finds, and what is asked of it. *)
Definition satisfied_by (validation_runs : list ValidationRun) (reference : ValidationRunRef) :
    result unit ContractInvariantError :=
  let? run :=
    ok_or (find (λ run, String.eqb (vn_validation_run_id run) (vr_validation_run_id reference)
                        && (vn_revision run =? vr_revision reference)%N) validation_runs)
      MissingValidationRun in
  let? _ := ValidationRun_validate run in
  check negb (satisfies_required_check run) else UnsatisfiedValidationRun in
  Ok tt.

(** The [BTreeSet]s of references are the sorted lists without repetition. *)
Definition validate_against (g : GateDecision) (validation_runs : list ValidationRun) :
    result unit ContractInvariantError :=
  let? _ := validate_document (ga_schema_version g) (ga_created_at g) (ga_updated_at g)
              (ga_extensions g) in
  let required := sort_dedup (ga_required_run_refs g) in
  let satisfied := sort_dedup (ga_satisfied_run_refs g) in
  check negb (len required =? len (ga_required_run_refs g))%N
    || negb (len satisfied =? len (ga_satisfied_run_refs g))%N
  else DuplicateGateReference in
  check negb (forallb (λ r, mem r required) satisfied) else SatisfiedRunNotRequired in
  let? _ := map_result (satisfied_by validation_runs) (ga_satisfied_run_refs g) in
  if bool_decide (ga_decision g = AutoPass) then
    check negb (bool_decide (required = satisfied)) else IncompleteAutoPass in
    check negb (len (ga_blocking_diagnostic_refs g) =? 0)%N || negb (len (ga_waivers g) =? 0)%N
    else BlockedAutoPass in
    Ok tt
  else Ok tt.

(** ** Evidence bundles *)

Record StageEvidenceRefs := {
  sv_stage_id : StageId;
  sv_route_decision_ref : DocumentRef;
  sv_permission_plan_ref : DocumentRef;
  sv_stage_result_ref : DocumentRef;
  sv_checkpoint_refs : list DocumentRef
}.

#[global] Instance StageEvidenceRefs_to_json : ToJson StageEvidenceRefs := λ s,
  JObj [("stage_id", to_json (sv_stage_id s));
        ("route_decision_ref", to_json (sv_route_decision_ref s));
        ("permission_plan_ref", to_json (sv_permission_plan_ref s));
        ("stage_result_ref", to_json (sv_stage_result_ref s));
        ("checkpoint_refs", to_json (sv_checkpoint_refs s))].

Record ChangeEvidenceRefs := {
  ce_before_fingerprint : Sha256Hash;
  ce_after_fingerprint : Sha256Hash;
  ce_change_set_ref : DocumentRef;
  ce_changed_files_ref : ArtifactRef
}.

Inductive EventRangeKind := RangeApproval | RangeRetry | RangeEscalation | RangePause | RangeRecovery.

#[global] Instance EventRangeKind_to_json : ToJson EventRangeKind := λ k,
  JStr match k with
       | RangeApproval => "approval" | RangeRetry => "retry" | RangeEscalation => "escalation"
       | RangePause => "pause" | RangeRecovery => "recovery"
       end.

Record EventRangeRef := {
  ev_kind : EventRangeKind;
  ev_run_id : RunId;
  ev_first_sequence : N;
  ev_last_sequence : N;
  ev_sha256 : Sha256Hash
}.

#[global] Instance EventRangeRef_to_json : ToJson EventRangeRef := λ e,
  JObj [("kind", to_json (ev_kind e)); ("run_id", to_json (ev_run_id e));
        ("first_sequence", to_json (ev_first_sequence e));
        ("last_sequence", to_json (ev_last_sequence e)); ("sha256", to_json (ev_sha256 e))].

Record ArtifactManifestEntry := {
  am_artifact_id : string;
  am_sha256 : Sha256Hash;
  am_size_bytes : N;
  am_redaction_status : RedactionStatus
}.

#[global] Instance ArtifactManifestEntry_to_json : ToJson ArtifactManifestEntry := λ e,
  JObj [("artifact_id", to_json (am_artifact_id e)); ("sha256", to_json (am_sha256 e));
        ("size_bytes", to_json (am_size_bytes e));
        ("redaction_status", to_json (am_redaction_status e))].

Record ArtifactManifest := {
  af_manifest_ref : ArtifactRef;
  af_artifacts : list ArtifactManifestEntry
}.

Record EvidenceBundle := {
  eb_schema_version : N;
  eb_evidence_bundle_id : string;
  eb_revision : N;
  eb_created_at : DateTime;
  eb_updated_at : DateTime;
  eb_producer : ProducerRef;
  eb_extensions : Extensions;
  eb_goal_spec_ref : DocumentRef;
  eb_stage_graph_ref : DocumentRef;
  eb_final_revision_ref : DocumentRef;
  eb_stage_evidence : list StageEvidenceRefs;
  eb_change_evidence : ChangeEvidenceRefs;
  eb_validation_plan_refs : list DocumentRef;
  eb_validation_run_refs : list ValidationRunRef;
  eb_diagnostic_refs : list DiagnosticRef;
  eb_gate_decision_ref : GateDecisionRef;
  eb_event_ranges : list EventRangeRef;
  eb_cost_record_refs : list DocumentRef;
  eb_unmeasured_usage : list string;
  eb_merge_result_ref : option DocumentRef;
  eb_remaining_risks : list RiskRef;
  eb_handoff_ref : option DocumentRef;
  eb_artifact_manifest : ArtifactManifest;
  eb_completeness : Completeness;
  eb_missing_reasons : list string
}.

Definition EvidenceBundle_validate (b : EvidenceBundle) : result unit ContractInvariantError :=
  let? _ := validate_document (eb_schema_version b) (eb_created_at b) (eb_updated_at b)
              (eb_extensions b) in
  let silent := (len (eb_missing_reasons b) =? 0)%N in
  check match eb_completeness b with
        | Complete => negb silent
        | Partial | Unverified => silent
        end
  else EvidenceCompleteness in
  let? _ := artifact_result (ce_changed_files_ref (eb_change_evidence b)) in
  let? _ := artifact_result (af_manifest_ref (eb_artifact_manifest b)) in
  let artifacts := af_artifacts (eb_artifact_manifest b) in
  check negb (distinct_count (map am_artifact_id artifacts) =? len artifacts)%N
  else DuplicateArtifact in
  check existsb (λ range, (ev_last_sequence range <? ev_first_sequence range)%N)
          (eb_event_ranges b)
  else EvidenceCompleteness in
  Ok tt.

Section document_json.
Context `{Platform}.

#[global] Instance SuppressionRef_to_json : ToJson SuppressionRef := λ s, JObj (present
  [field "waiver_id" (su_waiver_id s); field "fingerprint" (su_fingerprint s);
   field "project_id" (su_project_id s); field "scope_revision" (su_scope_revision s);
   field "reason" (su_reason s); field "approved_by" (su_approved_by s);
   field "created_at" (rfc3339 (su_created_at s));
   opt_field "expires_at" (rfc3339 <$> su_expires_at s)]).

#[global] Instance Diagnostic_to_json : ToJson Diagnostic := λ d, JObj (present
  [field "schema_id" "star.diagnostic"; field "schema_version" (dg_schema_version d);
   field "diagnostic_id" (dg_diagnostic_id d); field "sequence" (dg_sequence d);
   field "producer" (dg_producer d); field "extensions" (dg_extensions d);
   field "rule_id" (dg_rule_id d); field "title" (dg_title d); field "message" (dg_message d);
   field "severity" (dg_severity d); field "confidence" (dg_confidence d);
   field "status" (dg_status d); field "scope" (dg_scope d); field "locations" (dg_locations d);
   field "evidence_refs" (dg_evidence_refs d); field "fingerprint" (dg_fingerprint d);
   opt_field "remediation" (dg_remediation d); opt_field "suppression" (dg_suppression d);
   field "first_seen_at" (rfc3339 (dg_first_seen_at d));
   field "last_seen_at" (rfc3339 (dg_last_seen_at d))]).

#[global] Instance WaiverRef_to_json : ToJson WaiverRef := λ w, JObj (present
  [field "waiver_id" (wa_waiver_id w); field "target" (wa_target w);
   field "scope_revision" (wa_scope_revision w); field "reason" (wa_reason w);
   field "evidence_sha256" (wa_evidence_sha256 w); field "approved_by" (wa_approved_by w);
   field "approved_at" (rfc3339 (wa_approved_at w));
   opt_field "expires_at" (rfc3339 <$> wa_expires_at w)]).

#[global] Instance OmittedCheck_to_json : ToJson OmittedCheck := λ o,
  JObj [("check_ref", to_json (om_check_ref o)); ("reason", to_json (om_reason o));
        ("impact", to_json (om_impact o));
        ("alternative_evidence_refs", to_json (om_alternative_evidence_refs o))].

#[global] Instance RiskRef_to_json : ToJson RiskRef := λ r,
  JObj [("risk_id", to_json (rk_risk_id r)); ("title", to_json (rk_title r));
        ("severity", to_json (rk_severity r)); ("evidence_refs", to_json (rk_evidence_refs r))].

#[global] Instance GateDecision_to_json : ToJson GateDecision := λ g,
  JObj [("schema_id", JStr "star.gate-decision"); ("schema_version", to_json (ga_schema_version g));
        ("gate_id", to_json (ga_gate_id g)); ("revision", to_json (ga_revision g));
        ("created_at", to_json (rfc3339 (ga_created_at g)));
        ("updated_at", to_json (rfc3339 (ga_updated_at g)));
        ("producer", to_json (ga_producer g)); ("extensions", to_json (ga_extensions g));
        ("scope", to_json (ga_scope g)); ("decision", to_json (ga_decision g));
        ("required_run_refs", to_json (ga_required_run_refs g));
        ("satisfied_run_refs", to_json (ga_satisfied_run_refs g));
        ("blocking_diagnostic_refs", to_json (ga_blocking_diagnostic_refs g));
        ("waivers", to_json (ga_waivers g)); ("omissions", to_json (ga_omissions g));
        ("remaining_risks", to_json (ga_remaining_risks g));
        ("policy_snapshot", to_json (ga_policy_snapshot g));
        ("decided_by", to_json (ga_decided_by g))].

#[global] Instance ChangeEvidenceRefs_to_json : ToJson ChangeEvidenceRefs := λ c,
  JObj [("before_fingerprint", to_json (ce_before_fingerprint c));
        ("after_fingerprint", to_json (ce_after_fingerprint c));
        ("change_set_ref", to_json (ce_change_set_ref c));
        ("changed_files_ref", to_json (ce_changed_files_ref c))].

#[global] Instance ArtifactManifest_to_json : ToJson ArtifactManifest := λ m,
  JObj [("manifest_ref", to_json (af_manifest_ref m)); ("artifacts", to_json (af_artifacts m))].

#[global] Instance EvidenceBundle_to_json : ToJson EvidenceBundle := λ b, JObj (present
  [field "schema_id" "star.evidence-bundle"; field "schema_version" (eb_schema_version b);
   field "evidence_bundle_id" (eb_evidence_bundle_id b); field "revision" (eb_revision b);
   field "created_at" (rfc3339 (eb_created_at b)); field "updated_at" (rfc3339 (eb_updated_at b));
   field "producer" (eb_producer b); field "extensions" (eb_extensions b);
   field "goal_spec_ref" (eb_goal_spec_ref b); field "stage_graph_ref" (eb_stage_graph_ref b);
   field "final_revision_ref" (eb_final_revision_ref b);
   field "stage_evidence" (eb_stage_evidence b); field "change_evidence" (eb_change_evidence b);
   field "validation_plan_refs" (eb_validation_plan_refs b);
   field "validation_run_refs" (eb_validation_run_refs b);
   field "diagnostic_refs" (eb_diagnostic_refs b);
   field "gate_decision_ref" (eb_gate_decision_ref b); field "event_ranges" (eb_event_ranges b);
   field "cost_record_refs" (eb_cost_record_refs b);
   field "unmeasured_usage" (eb_unmeasured_usage b);
   opt_field "merge_result_ref" (eb_merge_result_ref b);
   field "remaining_risks" (eb_remaining_risks b); opt_field "handoff_ref" (eb_handoff_ref b);
   field "artifact_manifest" (eb_artifact_manifest b); field "completeness" (eb_completeness b);
   field "missing_reasons" (eb_missing_reasons b)]).

End document_json.
