(* ===== verification/ValidationPlan.v ===== *)
(** * Validation plans

    Models [crates/foundation/star-contracts/src/evidence/validation_plan.rs]:
    what a plan records of a change (its files, the affected units, the selected
    profile, the checks with their cache keys), its sealing and its validation. *)
From S2P Require Import Prelude Canonical Contracts Ids Evidence Validation.

Definition VALIDATION_PLAN_SCHEMA_VERSION : N := 1.
Definition VALIDATION_POLICY_SCHEMA_VERSION : N := 1.

(** ** Profiles *)

Inductive ValidationProfile := Quick | Target | Full | Release.

#[global] Instance ValidationProfile_eq_dec : EqDecision ValidationProfile.
Proof. solve_decision. Defined.

Definition rank (p : ValidationProfile) : N :=
  match p with Quick => 0 | Target => 1 | Full => 2 | Release => 3 end.

#[global] Instance ValidationProfile_cmp : Cmp ValidationProfile := cmp_on rank.

Definition profile_max (self other : ValidationProfile) : ValidationProfile :=
  if (rank other <=? rank self)%N then self else other.

Definition resolve_validation_profile (required : ValidationProfile)
    (requested : option ValidationProfile) : ValidationProfile :=
  match requested with
  | Some Full => profile_max required Full
  | Some Release => Release
  | Some (Quick | Target) | None => required
  end.

#[global] Instance ValidationProfile_to_json : ToJson ValidationProfile := λ p,
  JStr match p with
       | Quick => "quick" | Target => "target" | Full => "full" | Release => "release"
       end.

(** ** Changes *)

Inductive ValidationChangeSource := Staged | Unstaged | Untracked.

Definition ValidationChangeSource_index (s : ValidationChangeSource) : N :=
  match s with Staged => 0 | Unstaged => 1 | Untracked => 2 end.

#[global] Instance ValidationChangeSource_eq_dec : EqDecision ValidationChangeSource.
Proof. solve_decision. Defined.
#[global] Instance ValidationChangeSource_cmp : Cmp ValidationChangeSource :=
  cmp_on ValidationChangeSource_index.
#[global] Instance ValidationChangeSource_cmp_laws : CmpLaws ValidationChangeSource.
Proof. apply cmp_on_laws. by intros [] []. Qed.
#[global] Instance ValidationChangeSource_to_json : ToJson ValidationChangeSource := λ s,
  JStr match s with Staged => "staged" | Unstaged => "unstaged" | Untracked => "untracked" end.

Inductive ValidationChangeClass :=
| Documentation | InternalCode | PublicContract | Configuration | Toolchain | Lockfile
| ValidatorPolicy | Security | DataMigration | WorkflowRelease | UnknownClass.

#[global] Instance ValidationChangeClass_eq_dec : EqDecision ValidationChangeClass.
Proof. solve_decision. Defined.

Definition required_profile (c : ValidationChangeClass) : ValidationProfile :=
  match c with
  | Documentation | Configuration => Quick
  | InternalCode => Target
  | PublicContract | Toolchain | Lockfile | ValidatorPolicy | Security | DataMigration
  | WorkflowRelease | UnknownClass => Full
  end.

#[global] Instance ValidationChangeClass_to_json : ToJson ValidationChangeClass := λ c,
  JStr match c with
       | Documentation => "documentation" | InternalCode => "internal_code"
       | PublicContract => "public_contract" | Configuration => "configuration"
       | Toolchain => "toolchain" | Lockfile => "lockfile"
       | ValidatorPolicy => "validator_policy" | Security => "security"
       | DataMigration => "data_migration" | WorkflowRelease => "workflow_release"
       | UnknownClass => "unknown"
       end.

Record ValidationChangedFile := {
  cf_path : string;
  cf_sources : list ValidationChangeSource;
  cf_change_class : ValidationChangeClass;
  cf_direct_unit : option string
}.

#[global] Instance ValidationChangedFile_to_json : ToJson ValidationChangedFile := λ f,
  JObj (present
    [field "path" (cf_path f); field "sources" (cf_sources f);
     field "change_class" (cf_change_class f); opt_field "direct_unit" (cf_direct_unit f)]).

Inductive AffectedUnitKind := KindUnit | KindWorkspace | KindProject.

#[global] Instance AffectedUnitKind_to_json : ToJson AffectedUnitKind := λ k,
  JStr match k with
       | KindUnit => "unit" | KindWorkspace => "workspace" | KindProject => "project"
       end.

Record AffectedUnit := {
  au_unit_id : string;
  au_kind : AffectedUnitKind;
  au_reason : string
}.

#[global] Instance AffectedUnit_to_json : ToJson AffectedUnit := λ u,
  JObj [("unit_id", to_json (au_unit_id u)); ("kind", to_json (au_kind u));
        ("reason", to_json (au_reason u))].

Record ReverseConsumer := {
  rc_provider_unit_id : string;
  rc_consumer_unit_id : string;
  rc_dependency_path : list string;
  rc_reason : string
}.

#[global] Instance ReverseConsumer_to_json : ToJson ReverseConsumer := λ r,
  JObj [("provider_unit_id", to_json (rc_provider_unit_id r));
        ("consumer_unit_id", to_json (rc_consumer_unit_id r));
        ("dependency_path", to_json (rc_dependency_path r)); ("reason", to_json (rc_reason r))].

Inductive ProfileReasonCode :=
| ExplicitQuick | ExplicitTarget | ExplicitFull | ExplicitRelease | DocumentationOnly
| InternalUnitChange | PublicContractChange | ValidatorOrPolicyChange
| ToolchainOrLockfileChange | SecurityOrDataChange | WorkflowOrReleaseChange
| MissingUnitMapping | ImpactUncertain.

Definition ProfileReasonCode_index (r : ProfileReasonCode) : N :=
  match r with
  | ExplicitQuick => 0 | ExplicitTarget => 1 | ExplicitFull => 2 | ExplicitRelease => 3
  | DocumentationOnly => 4 | InternalUnitChange => 5 | PublicContractChange => 6
  | ValidatorOrPolicyChange => 7 | ToolchainOrLockfileChange => 8 | SecurityOrDataChange => 9
  | WorkflowOrReleaseChange => 10 | MissingUnitMapping => 11 | ImpactUncertain => 12
  end.

#[global] Instance ProfileReasonCode_eq_dec : EqDecision ProfileReasonCode.
Proof. solve_decision. Defined.
#[global] Instance ProfileReasonCode_cmp : Cmp ProfileReasonCode := cmp_on ProfileReasonCode_index.
#[global] Instance ProfileReasonCode_cmp_laws : CmpLaws ProfileReasonCode.
Proof. apply cmp_on_laws. by intros [] []. Qed.
#[global] Instance ProfileReasonCode_to_json : ToJson ProfileReasonCode := λ r,
  JStr match r with
       | ExplicitQuick => "explicit_quick" | ExplicitTarget => "explicit_target"
       | ExplicitFull => "explicit_full" | ExplicitRelease => "explicit_release"
       | DocumentationOnly => "documentation_only" | InternalUnitChange => "internal_unit_change"
       | PublicContractChange => "public_contract_change"
       | ValidatorOrPolicyChange => "validator_or_policy_change"
       | ToolchainOrLockfileChange => "toolchain_or_lockfile_change"
       | SecurityOrDataChange => "security_or_data_change"
       | WorkflowOrReleaseChange => "workflow_or_release_change"
       | MissingUnitMapping => "missing_unit_mapping" | ImpactUncertain => "impact_uncertain"
       end.

Record ValidationProfileSelection := {
  ps_requested : option ValidationProfile;
  ps_required : ValidationProfile;
  ps_selected : ValidationProfile;
  ps_reasons : list ProfileReasonCode
}.

#[global] Instance ValidationProfileSelection_to_json : ToJson ValidationProfileSelection := λ p,
  JObj (present
    [opt_field "requested" (ps_requested p); field "required" (ps_required p);
     field "selected" (ps_selected p); field "reasons" (ps_reasons p)]).

(** ** Checks *)

Record ValidationCommand := {
  cm_executable : string;
  cm_args : list string;
  cm_working_directory : string;
  cm_expected_exit_codes : list Z
}.

#[global] Instance ValidationCommand_to_json : ToJson ValidationCommand := λ c,
  JObj [("executable", to_json (cm_executable c)); ("args", to_json (cm_args c));
        ("working_directory", to_json (cm_working_directory c));
        ("expected_exit_codes", to_json (cm_expected_exit_codes c))].

Record ValidationInputFingerprintComponents := {
  fp_revision : string;
  fp_staged_diff : Sha256Hash;
  fp_unstaged_diff : Sha256Hash;
  fp_untracked_content : Sha256Hash;
  fp_toolchain : Sha256Hash;
  fp_lockfile : Sha256Hash;
  fp_project_manifest : Sha256Hash;
  fp_validation_scripts : Sha256Hash;
  fp_config : Sha256Hash;
  fp_policy_schema_version : N;
  fp_evidence_schema_version : N
}.

#[global] Instance Components_eq_dec : EqDecision ValidationInputFingerprintComponents.
Proof. solve_decision. Defined.

#[global] Instance Components_to_json : ToJson ValidationInputFingerprintComponents := λ f,
  JObj [("revision", to_json (fp_revision f)); ("staged_diff", to_json (fp_staged_diff f));
        ("unstaged_diff", to_json (fp_unstaged_diff f));
        ("untracked_content", to_json (fp_untracked_content f));
        ("toolchain", to_json (fp_toolchain f)); ("lockfile", to_json (fp_lockfile f));
        ("project_manifest", to_json (fp_project_manifest f));
        ("validation_scripts", to_json (fp_validation_scripts f));
        ("config", to_json (fp_config f));
        ("policy_schema_version", to_json (fp_policy_schema_version f));
        ("evidence_schema_version", to_json (fp_evidence_schema_version f))].

Record ValidationCacheKeyInputs := {
  ck_inputs : ValidationInputFingerprintComponents;
  ck_command : Sha256Hash
}.

#[global] Instance ValidationCacheKeyInputs_to_json : ToJson ValidationCacheKeyInputs := λ c,
  JObj [("inputs", to_json (ck_inputs c)); ("command", to_json (ck_command c))].

#[global] Instance Components_inj_json : InjJson ValidationInputFingerprintComponents.
Proof. intros [] [] Heq. unfold to_json, Components_to_json in Heq. peel Heq. simpl in *. by subst. Qed.

#[global] Instance ValidationCacheKeyInputs_inj_json : InjJson ValidationCacheKeyInputs.
Proof.
  intros [] [] Heq. unfold to_json, ValidationCacheKeyInputs_to_json in Heq. peel Heq.
  simpl in *. by subst.
Qed.

Inductive PlannedCheckDisposition := Execute | Reuse.

#[global] Instance PlannedCheckDisposition_to_json : ToJson PlannedCheckDisposition := λ d,
  JStr match d with Execute => "execute" | Reuse => "reuse" end.

Record PlannedCheck := {
  pc_check_id : string;
  pc_unit_id : string;
  pc_command : ValidationCommand;
  pc_disposition : PlannedCheckDisposition;
  pc_selection_reason : string;
  pc_cache_key_inputs : ValidationCacheKeyInputs;
  pc_cache_key : Sha256Hash;
  pc_source_validation_run_ref : option ValidationRunRef
}.

#[global] Instance PlannedCheck_to_json : ToJson PlannedCheck := λ c, JObj (present
  [field "check_id" (pc_check_id c); field "unit_id" (pc_unit_id c);
   field "command" (pc_command c); field "disposition" (pc_disposition c);
   field "selection_reason" (pc_selection_reason c);
   field "cache_key_inputs" (pc_cache_key_inputs c); field "cache_key" (pc_cache_key c);
   opt_field "source_validation_run_ref" (pc_source_validation_run_ref c)]).

(** ** Uncertainty and review *)

Inductive ValidationUncertaintyCode :=
| ImpactUnavailable | UnitMappingMissing | ReverseConsumerGraphIncomplete
| UntrackedContentUnavailable | FingerprintInputUnavailable | ToolchainUnavailable
| ReleaseEnvironmentUnavailable.

Definition ValidationUncertaintyCode_index (c : ValidationUncertaintyCode) : N :=
  match c with
  | ImpactUnavailable => 0 | UnitMappingMissing => 1 | ReverseConsumerGraphIncomplete => 2
  | UntrackedContentUnavailable => 3 | FingerprintInputUnavailable => 4
  | ToolchainUnavailable => 5 | ReleaseEnvironmentUnavailable => 6
  end.

#[global] Instance ValidationUncertaintyCode_eq_dec : EqDecision ValidationUncertaintyCode.
Proof. solve_decision. Defined.
#[global] Instance ValidationUncertaintyCode_cmp : Cmp ValidationUncertaintyCode :=
  cmp_on ValidationUncertaintyCode_index.
#[global] Instance ValidationUncertaintyCode_cmp_laws : CmpLaws ValidationUncertaintyCode.
Proof. apply cmp_on_laws. by intros [] []. Qed.
#[global] Instance ValidationUncertaintyCode_to_json : ToJson ValidationUncertaintyCode := λ c,
  JStr match c with
       | ImpactUnavailable => "impact_unavailable" | UnitMappingMissing => "unit_mapping_missing"
       | ReverseConsumerGraphIncomplete => "reverse_consumer_graph_incomplete"
       | UntrackedContentUnavailable => "untracked_content_unavailable"
       | FingerprintInputUnavailable => "fingerprint_input_unavailable"
       | ToolchainUnavailable => "toolchain_unavailable"
       | ReleaseEnvironmentUnavailable => "release_environment_unavailable"
       end.

Inductive ValidationEscalation := ExpandToWorkspace | ExpandToProjectFull | EscalateHumanReview.

#[global] Instance ValidationEscalation_eq_dec : EqDecision ValidationEscalation.
Proof. solve_decision. Defined.
#[global] Instance ValidationEscalation_to_json : ToJson ValidationEscalation := λ e,
  JStr match e with
       | ExpandToWorkspace => "expand_to_workspace"
       | ExpandToProjectFull => "expand_to_project_full"
       | EscalateHumanReview => "human_review"
       end.

Record ValidationUncertainty := {
  un_code : ValidationUncertaintyCode;
  un_summary : string;
  un_escalation : ValidationEscalation
}.

#[global] Instance ValidationUncertainty_to_json : ToJson ValidationUncertainty := λ u,
  JObj [("code", to_json (un_code u)); ("summary", to_json (un_summary u));
        ("escalation", to_json (un_escalation u))].

Inductive IndependentReviewTrigger :=
| TriggerSecurity | TriggerDataMigration | TriggerPublicContract | TriggerRelease
| TriggerRepeatedFailure.

Definition IndependentReviewTrigger_index (t : IndependentReviewTrigger) : N :=
  match t with
  | TriggerSecurity => 0 | TriggerDataMigration => 1 | TriggerPublicContract => 2
  | TriggerRelease => 3 | TriggerRepeatedFailure => 4
  end.

#[global] Instance IndependentReviewTrigger_eq_dec : EqDecision IndependentReviewTrigger.
Proof. solve_decision. Defined.
#[global] Instance IndependentReviewTrigger_cmp : Cmp IndependentReviewTrigger :=
  cmp_on IndependentReviewTrigger_index.
#[global] Instance IndependentReviewTrigger_cmp_laws : CmpLaws IndependentReviewTrigger.
Proof. apply cmp_on_laws. by intros [] []. Qed.
#[global] Instance IndependentReviewTrigger_to_json : ToJson IndependentReviewTrigger := λ t,
  JStr match t with
       | TriggerSecurity => "security" | TriggerDataMigration => "data_migration"
       | TriggerPublicContract => "public_contract" | TriggerRelease => "release"
       | TriggerRepeatedFailure => "repeated_failure"
       end.

Record IndependentReviewRequirement := {
  rv_required : bool;
  rv_triggers : list IndependentReviewTrigger
}.

#[global] Instance IndependentReviewRequirement_to_json : ToJson IndependentReviewRequirement := λ r,
  JObj [("required", to_json (rv_required r)); ("triggers", to_json (rv_triggers r))].

Inductive ValidationPlanReadiness := Ready | ReadinessHumanReview | ReadinessBlocked.

#[global] Instance ValidationPlanReadiness_eq_dec : EqDecision ValidationPlanReadiness.
Proof. solve_decision. Defined.
#[global] Instance ValidationPlanReadiness_to_json : ToJson ValidationPlanReadiness := λ r,
  JStr match r with
       | Ready => "ready" | ReadinessHumanReview => "human_review" | ReadinessBlocked => "blocked"
       end.

Inductive EvidenceFlowStage :=
| FlowValidationPlan | FlowValidationRunDiagnosticResult | FlowGateDecision | FlowEvidenceBundle
| FlowAiCompressedSummary.

#[global] Instance EvidenceFlowStage_eq_dec : EqDecision EvidenceFlowStage.
Proof. solve_decision. Defined.
#[global] Instance EvidenceFlowStage_to_json : ToJson EvidenceFlowStage := λ s,
  JStr match s with
       | FlowValidationPlan => "validation_plan"
       | FlowValidationRunDiagnosticResult => "validation_run_diagnostic_result"
       | FlowGateDecision => "gate_decision" | FlowEvidenceBundle => "evidence_bundle"
       | FlowAiCompressedSummary => "ai_compressed_summary"
       end.

Definition EVIDENCE_FLOW : list EvidenceFlowStage :=
  [FlowValidationPlan; FlowValidationRunDiagnosticResult; FlowGateDecision; FlowEvidenceBundle;
   FlowAiCompressedSummary].

(** ** The plan *)

(** [schema_id] and [capability_level] have one value each. *)
Record ValidationPlan := {
  vp_schema_version : N;
  vp_validation_plan_id : string;
  vp_project_key : string;
  vp_revision : string;
  vp_changed_files : list ValidationChangedFile;
  vp_direct_units : list AffectedUnit;
  vp_reverse_consumers : list ReverseConsumer;
  vp_profile : ValidationProfileSelection;
  vp_checks : list PlannedCheck;
  vp_uncertainties : list ValidationUncertainty;
  vp_independent_review : IndependentReviewRequirement;
  vp_readiness : ValidationPlanReadiness;
  vp_evidence_flow : list EvidenceFlowStage;
  vp_input_fingerprint : Sha256Hash;
  vp_plan_fingerprint : Sha256Hash
}.

Inductive ValidationPlanInvariantError :=
| PlanSchemaVersion | PlanEmptyValue | PlanOrdering | PlanProfile | PlanCacheKey | PlanCacheSource
| PlanEvidenceFlow | PlanIndependentReview | PlanReadiness | PlanFingerprint.

#[global] Instance ValidationPlanInvariantError_eq_dec : EqDecision ValidationPlanInvariantError.
Proof. solve_decision. Defined.

(** [sorted_unique_by], [sorted_unique_copy] and [sorted_unique_copy_by]. *)
Definition sorted_unique {A K} `{Cmp K} (value : A → K) (items : list A) : bool :=
  negb (windows2_any (λ a b, negb (cmp_ltb (value a) (value b))) items).

Definition human_review (uncertainties : list ValidationUncertainty) : bool :=
  existsb (λ item, bool_decide (un_escalation item = EscalateHumanReview)) uncertainties.

Section plan.
Context `{Platform}.

Definition components_fingerprint (f : ValidationInputFingerprintComponents) :
    result Sha256Hash CanonicalError := canonical_sha256 (to_json f).

Definition cache_key_fingerprint (c : ValidationCacheKeyInputs) :
    result Sha256Hash CanonicalError := canonical_sha256 (to_json c).

Definition plan_payload (p : ValidationPlan) : Json :=
  JObj [("schema_id", JStr "star.validation-plan");
        ("schema_version", to_json (vp_schema_version p));
        ("capability_level", JStr "tracked_path_precursor");
        ("project_key", to_json (vp_project_key p)); ("revision", to_json (vp_revision p));
        ("changed_files", to_json (vp_changed_files p));
        ("direct_units", to_json (vp_direct_units p));
        ("reverse_consumers", to_json (vp_reverse_consumers p));
        ("profile", to_json (vp_profile p)); ("checks", to_json (vp_checks p));
        ("uncertainties", to_json (vp_uncertainties p));
        ("independent_review", to_json (vp_independent_review p));
        ("readiness", to_json (vp_readiness p)); ("evidence_flow", to_json (vp_evidence_flow p));
        ("input_fingerprint", to_json (vp_input_fingerprint p))].

Definition expected_plan_fingerprint (p : ValidationPlan) : result Sha256Hash CanonicalError :=
  canonical_sha256 (plan_payload p).

(** [ValidationPlanId::from_stable_bytes]. *)
Definition plan_id (fingerprint : Sha256Hash) : string :=
  prefixed_from_stable_bytes "vpl_" fingerprint.

(** A key that does not verify. *)
Definition wrong_fingerprint (r : result Sha256Hash CanonicalError) (expected : Sha256Hash) : bool :=
  match r with Ok h => negb (String.eqb h expected) | Err _ => true end.

Definition bad_file (file : ValidationChangedFile) : bool :=
  blank (cf_path file)
  || contains_char "\"%char (cf_path file)
  || (len (cf_sources file) =? 0)%N
  || is_some_and (cf_direct_unit file) blank
  || negb (sorted_unique id (cf_sources file)).

Definition bad_consumer (c : ReverseConsumer) : bool :=
  blank (rc_provider_unit_id c)
  || blank (rc_consumer_unit_id c)
  || blank (rc_reason c)
  || negb (bool_decide (head (rc_dependency_path c) = Some (rc_provider_unit_id c)))
  || negb (bool_decide (last (rc_dependency_path c) = Some (rc_consumer_unit_id c))).

Definition consumer_key (c : ReverseConsumer) : string * string :=
  (rc_provider_unit_id c, rc_consumer_unit_id c).

Definition validate_check (check_ : PlannedCheck) : result unit ValidationPlanInvariantError :=
  check blank (pc_check_id check_)
    || blank (pc_unit_id check_)
    || blank (cm_executable (pc_command check_))
    || blank (cm_working_directory (pc_command check_))
    || (len (cm_expected_exit_codes (pc_command check_)) =? 0)%N
    || blank (pc_selection_reason check_)
    || wrong_fingerprint (cache_key_fingerprint (pc_cache_key_inputs check_)) (pc_cache_key check_)
  else PlanCacheKey in
  check negb match pc_disposition check_ with
             | Execute => is_none (pc_source_validation_run_ref check_)
             | Reuse => is_some (pc_source_validation_run_ref check_)
             end
  else PlanCacheSource in
  Ok tt.

(** The inputs of the first check are those of the plan and of every check. *)
Definition inputs_agree (p : ValidationPlan) : bool :=
  match vp_checks p with
  | [] => false
  | first :: _ =>
      let inputs := ck_inputs (pc_cache_key_inputs first) in
      String.eqb (fp_revision inputs) (vp_revision p)
      && negb (wrong_fingerprint (components_fingerprint inputs) (vp_input_fingerprint p))
      && forallb (λ c, bool_decide (ck_inputs (pc_cache_key_inputs c) = inputs)) (vp_checks p)
  end.

Definition validate (p : ValidationPlan) : result unit ValidationPlanInvariantError :=
  check negb (vp_schema_version p =? VALIDATION_PLAN_SCHEMA_VERSION)%N else PlanSchemaVersion in
  check blank (vp_project_key p)
    || blank (vp_revision p)
    || (len (vp_direct_units p) =? 0)%N
    || (len (vp_checks p) =? 0)%N
    || (len (ps_reasons (vp_profile p)) =? 0)%N
  else PlanEmptyValue in
  check negb (sorted_unique cf_path (vp_changed_files p))
    || negb (sorted_unique au_unit_id (vp_direct_units p))
    || negb (sorted_unique pc_check_id (vp_checks p))
    || negb (sorted_unique consumer_key (vp_reverse_consumers p))
    || negb (sorted_unique id (ps_reasons (vp_profile p)))
    || negb (sorted_unique id (rv_triggers (vp_independent_review p)))
    || negb (sorted_unique un_code (vp_uncertainties p))
    || existsb bad_file (vp_changed_files p)
    || existsb (λ u, blank (au_unit_id u) || blank (au_reason u)) (vp_direct_units p)
    || existsb bad_consumer (vp_reverse_consumers p)
    || existsb (λ u, blank (un_summary u)) (vp_uncertainties p)
  else PlanOrdering in
  let affected unit_id := mem unit_id (map au_unit_id (vp_direct_units p)) in
  check existsb (λ f, is_some_and (cf_direct_unit f) (λ u, negb (affected u)))
          (vp_changed_files p)
    || existsb (λ c, negb (affected (rc_provider_unit_id c))
                     || negb (affected (rc_consumer_unit_id c))) (vp_reverse_consumers p)
  else PlanOrdering in
  check negb (bool_decide (ps_selected (vp_profile p)
                = resolve_validation_profile (ps_required (vp_profile p))
                    (ps_requested (vp_profile p))))
  else PlanProfile in
  let? _ := map_result validate_check (vp_checks p) in
  check negb (inputs_agree p) else PlanFingerprint in
  check negb (bool_decide (vp_evidence_flow p = EVIDENCE_FLOW)) else PlanEvidenceFlow in
  check Bool.eqb (rv_required (vp_independent_review p))
          (len (rv_triggers (vp_independent_review p)) =? 0)%N
  else PlanIndependentReview in
  check bool_decide (vp_readiness p = Ready) && human_review (vp_uncertainties p)
    || bool_decide (vp_readiness p = ReadinessHumanReview)
       && negb (human_review (vp_uncertainties p))
  else PlanReadiness in
  match expected_plan_fingerprint p with
  | Err _ => Err PlanFingerprint
  | Ok expected =>
      check negb (String.eqb (vp_plan_fingerprint p) expected)
        || negb (String.eqb (vp_validation_plan_id p) (plan_id expected))
      else PlanFingerprint in
      Ok tt
  end.

(** The plan under another identity. *)
Definition identify (p : ValidationPlan) (validation_plan_id : string)
    (plan_fingerprint : Sha256Hash) : ValidationPlan :=
  {| vp_schema_version := vp_schema_version p;
     vp_validation_plan_id := validation_plan_id;
     vp_project_key := vp_project_key p;
     vp_revision := vp_revision p;
     vp_changed_files := vp_changed_files p;
     vp_direct_units := vp_direct_units p;
     vp_reverse_consumers := vp_reverse_consumers p;
     vp_profile := vp_profile p;
     vp_checks := vp_checks p;
     vp_uncertainties := vp_uncertainties p;
     vp_independent_review := vp_independent_review p;
     vp_readiness := vp_readiness p;
     vp_evidence_flow := vp_evidence_flow p;
     vp_input_fingerprint := vp_input_fingerprint p;
     vp_plan_fingerprint := plan_fingerprint |}.

Definition plan_seal (p : ValidationPlan) : result ValidationPlan ValidationPlanInvariantError :=
  let? fingerprint := map_err (λ _, PlanFingerprint) (expected_plan_fingerprint p) in
  let p := identify p (plan_id fingerprint) fingerprint in
  let? _ := validate p in
  Ok p.

End plan.
