(* ===== verification/ValidationPlanning.v ===== *)
(** * Planning a validation

    Models [crates/control/star-validation/src/planning.rs]: which checks a change
    needs, which units it affects, which earlier results may be reused, and the
    summary of complete evidence.

    The mutable locals of [build_validation_plan] are the record [Impact]; a
    [BTreeSet] that is only inserted into is a list, sorted where it is read. *)
From stdpp Require Import countable.
From S2P Require Import Prelude Canonical Contracts Ids Evidence Validation ValidationPlan.

Record UnitDependency := {
  ud_provider_unit_id : string;
  ud_consumer_unit_id : string
}.

Record ValidationCheckDefinition := {
  cd_profile : ValidationProfile;
  cd_check_id : string;
  cd_unit_id : string;
  cd_command : ValidationCommand;
  cd_selection_reason : string
}.

Inductive CacheValidationStability := Stable | Flaky | NotEvaluated.

#[global] Instance CacheValidationStability_eq_dec : EqDecision CacheValidationStability.
Proof. solve_decision. Defined.

Record ValidationCacheCandidate := {
  cc_check_id : string;
  cc_cache_key : Sha256Hash;
  cc_validation_run : ValidationRun;
  cc_validation_run_ref : ValidationRunRef;
  cc_stability : CacheValidationStability;
  cc_suppression_applied : bool;
  cc_artifacts_available : bool;
  cc_policy_schema_version : N;
  cc_evidence_schema_version : N
}.

Record ValidationPlanningInput := {
  in_project_key : string;
  in_revision : string;
  in_requested_profile : option ValidationProfile;
  in_requested_unit : option string;
  in_empty_change_required_profile : option ValidationProfile;
  in_workspace_unit_id : string;
  in_changed_files : list ValidationChangedFile;
  in_dependencies : list UnitDependency;
  in_checks : list ValidationCheckDefinition;
  in_cache_candidates : list ValidationCacheCandidate;
  in_fingerprints : ValidationInputFingerprintComponents;
  in_fingerprints_complete : bool;
  in_impact_complete : bool;
  in_repeated_failures : bool
}.

Inductive CacheMissReason :=
| NoCandidate | KeyMismatch | OutcomeNotPass | Incomplete | Unstable | ExecutionUnverified
| EvidenceReferenceMismatch | SuppressionApplied | ArtifactUnavailable | PolicySchemaChanged
| EvidenceSchemaChanged.

(** The derived [Debug] text. *)
Definition CacheMissReason_debug (r : CacheMissReason) : string :=
  match r with
  | NoCandidate => "NoCandidate" | KeyMismatch => "KeyMismatch"
  | OutcomeNotPass => "OutcomeNotPass" | Incomplete => "Incomplete" | Unstable => "Unstable"
  | ExecutionUnverified => "ExecutionUnverified"
  | EvidenceReferenceMismatch => "EvidenceReferenceMismatch"
  | SuppressionApplied => "Suppressed" | ArtifactUnavailable => "ArtifactUnavailable"
  | PolicySchemaChanged => "PolicySchemaChanged" | EvidenceSchemaChanged => "EvidenceSchemaChanged"
  end.

Inductive CacheReuseDecision :=
| ReuseRun (reference : ValidationRunRef)
| ExecuteFor (reason : CacheMissReason).

Inductive ValidationPlanningError :=
| InvalidInput | PlanningFingerprint | Contract (e : ValidationPlanInvariantError).

(** ** The impact of a change *)

#[global] Instance ValidationUncertaintyCode_countable : Countable ValidationUncertaintyCode.
Proof.
  apply (inj_countable ValidationUncertaintyCode_index
    (λ n, nth_error [ImpactUnavailable; UnitMappingMissing; ReverseConsumerGraphIncomplete;
                     UntrackedContentUnavailable; FingerprintInputUnavailable;
                     ToolchainUnavailable; ReleaseEnvironmentUnavailable] (N.to_nat n))).
  by intros [].
Defined.

Record Impact := {
  im_required : ValidationProfile;
  im_reasons : list ProfileReasonCode;
  im_uncertainties : gmap ValidationUncertaintyCode ValidationUncertainty;
  im_unit_reasons : gmap string (list string);
  im_public_providers : list string;
  im_review_triggers : list IndependentReviewTrigger
}.

Definition require (p : ValidationProfile) (i : Impact) : Impact :=
  {| im_required := profile_max (im_required i) p;
     im_reasons := im_reasons i;
     im_uncertainties := im_uncertainties i;
     im_unit_reasons := im_unit_reasons i;
     im_public_providers := im_public_providers i;
     im_review_triggers := im_review_triggers i |}.

Definition add_reason (r : ProfileReasonCode) (i : Impact) : Impact :=
  {| im_required := im_required i;
     im_reasons := r :: im_reasons i;
     im_uncertainties := im_uncertainties i;
     im_unit_reasons := im_unit_reasons i;
     im_public_providers := im_public_providers i;
     im_review_triggers := im_review_triggers i |}.

Definition add_uncertainty (code : ValidationUncertaintyCode) (summary : string)
    (escalation : ValidationEscalation) (i : Impact) : Impact :=
  {| im_required := im_required i;
     im_reasons := im_reasons i;
     im_uncertainties :=
       <[code := {| un_code := code; un_summary := summary; un_escalation := escalation |}]>
         (im_uncertainties i);
     im_unit_reasons := im_unit_reasons i;
     im_public_providers := im_public_providers i;
     im_review_triggers := im_review_triggers i |}.

(** [entry(unit).or_default().insert(reason)]. *)
Definition add_unit (unit_id reason : string) (i : Impact) : Impact :=
  {| im_required := im_required i;
     im_reasons := im_reasons i;
     im_uncertainties := im_uncertainties i;
     im_unit_reasons :=
       <[unit_id := reason :: default [] (im_unit_reasons i !! unit_id)]> (im_unit_reasons i);
     im_public_providers := im_public_providers i;
     im_review_triggers := im_review_triggers i |}.

Definition add_provider (unit_id : string) (i : Impact) : Impact :=
  {| im_required := im_required i;
     im_reasons := im_reasons i;
     im_uncertainties := im_uncertainties i;
     im_unit_reasons := im_unit_reasons i;
     im_public_providers := unit_id :: im_public_providers i;
     im_review_triggers := im_review_triggers i |}.

Definition add_trigger (t : IndependentReviewTrigger) (i : Impact) : Impact :=
  {| im_required := im_required i;
     im_reasons := im_reasons i;
     im_uncertainties := im_uncertainties i;
     im_unit_reasons := im_unit_reasons i;
     im_public_providers := im_public_providers i;
     im_review_triggers := t :: im_review_triggers i |}.

Definition initial_impact (input : ValidationPlanningInput) : Impact :=
  let empty := (len (in_changed_files input) =? 0)%N in
  let required :=
    if empty then default Target (in_empty_change_required_profile input) else Quick in
  let i := {| im_required := required; im_reasons := []; im_uncertainties := ∅;
              im_unit_reasons := ∅; im_public_providers := []; im_review_triggers := [] |} in
  if empty then
    let i := add_reason (if bool_decide (required = Quick) then DocumentationOnly
                         else InternalUnitChange) i in
    add_unit (default (in_workspace_unit_id input) (in_requested_unit input))
      "No change set was supplied; the selected unit profile is used." i
  else i.

(** The [match] on the class of a file. *)
Definition classify (file : ValidationChangedFile) (i : Impact) : Impact :=
  match cf_change_class file with
  | Documentation | Configuration => add_reason DocumentationOnly i
  | InternalCode => add_reason InternalUnitChange i
  | PublicContract => add_trigger TriggerPublicContract (add_reason PublicContractChange i)
  | ValidatorPolicy => add_reason ValidatorOrPolicyChange i
  | Toolchain | Lockfile => add_reason ToolchainOrLockfileChange i
  | Security => add_trigger TriggerSecurity (add_reason SecurityOrDataChange i)
  | DataMigration => add_trigger TriggerDataMigration (add_reason SecurityOrDataChange i)
  | WorkflowRelease => add_reason WorkflowOrReleaseChange i
  | UnknownClass =>
      add_uncertainty ImpactUnavailable
        ("Impact could not be classified for " +:+ cf_path file +:+ ".") EscalateHumanReview
        (add_reason ImpactUncertain i)
  end.

(** One turn of the loop over the changed files. *)
Definition file_impact (input : ValidationPlanningInput) (i : Impact)
    (file : ValidationChangedFile) : Impact :=
  let i := require (required_profile (cf_change_class file)) i in
  let i := classify file i in
  let direct := match cf_direct_unit file with
                | Some unit_id => Some unit_id
                | None => in_requested_unit input
                end in
  let unit_id := default (in_workspace_unit_id input) direct in
  let i :=
    match direct with
    | Some _ => i
    | None =>
        add_uncertainty UnitMappingMissing "At least one changed path has no unit mapping."
          ExpandToWorkspace (add_reason MissingUnitMapping (require Full i))
    end in
  let i := add_unit unit_id ("Directly affected by " +:+ cf_path file +:+ ".") i in
  if bool_decide (cf_change_class file = PublicContract) then add_provider unit_id i else i.

Definition explicit_reason (p : ValidationProfile) : ProfileReasonCode :=
  match p with
  | Quick => ExplicitQuick | Target => ExplicitTarget | Full => ExplicitFull
  | Release => ExplicitRelease
  end.

(** From the files to the request. *)
Definition change_impact (input : ValidationPlanningInput) : Impact :=
  let i := foldl (file_impact input) (initial_impact input) (in_changed_files input) in
  let i :=
    if negb (in_impact_complete input) then
      add_uncertainty ReverseConsumerGraphIncomplete "The reverse-consumer graph is incomplete."
        EscalateHumanReview (add_reason ImpactUncertain (require Full i))
    else i in
  let i :=
    if negb (in_fingerprints_complete input) then
      add_uncertainty FingerprintInputUnavailable
        "At least one toolchain, lockfile, validator, or configuration fingerprint input is unavailable."
        EscalateHumanReview (add_reason ImpactUncertain (require Full i))
    else i in
  match in_requested_profile input with
  | Some profile => add_reason (explicit_reason profile) i
  | None => i
  end.

Definition selected_profile (input : ValidationPlanningInput) : ValidationProfile :=
  resolve_validation_profile (im_required (change_impact input)) (in_requested_profile input).

Definition reviewed_impact (input : ValidationPlanningInput) : Impact :=
  let i := change_impact input in
  let i :=
    if bool_decide (selected_profile input = Release) then
      add_uncertainty ReleaseEnvironmentUnavailable
        "Release platform, security, recovery, and artifact gates require the release environment."
        EscalateHumanReview (add_trigger TriggerRelease i)
    else i in
  if in_repeated_failures input then add_trigger TriggerRepeatedFailure i else i.

(** ** Reverse consumers *)

(** The consumers of a unit, sorted without repetition. *)
Definition consumers_of (dependencies : list UnitDependency) (unit_id : string) : list string :=
  sort_dedup (map ud_consumer_unit_id
    (List.filter (λ d, String.eqb (ud_provider_unit_id d) unit_id) dependencies)).

Abbreviation consumer_map := (gmap (string * string) ReverseConsumer).
Abbreviation bfs_queue := (list (string * list string)).

(** The inner loop over the consumers of the unit at the front. *)
Fixpoint visit (provider : string) (path : list string) (consumers : list string)
    (queue : bfs_queue) (visited : list string) (found : consumer_map) :
    bfs_queue * list string * consumer_map :=
  match consumers with
  | [] => (queue, visited, found)
  | consumer :: rest =>
      if mem consumer visited then visit provider path rest queue visited found
      else
        let dependency_path := path ++ [consumer] in
        let entry :=
          {| rc_provider_unit_id := provider; rc_consumer_unit_id := consumer;
             rc_dependency_path := dependency_path;
             rc_reason := "Public contract change propagates to a reverse consumer." |} in
        visit provider path rest (queue ++ [(consumer, dependency_path)]) (consumer :: visited)
          (<[(provider, consumer) := entry]> found)
  end.

(** [while let Some((current, path)) = queue.pop_front()].  Every unit enters
    the queue once, so the units there are bound the turns. *)
Fixpoint breadth_first (fuel : nat) (dependencies : list UnitDependency) (provider : string)
    (queue : bfs_queue) (visited : list string) (found : consumer_map) : consumer_map :=
  match fuel, queue with
  | S fuel, (current, path) :: queue =>
      let '(queue, visited, found) :=
        visit provider path (consumers_of dependencies current) queue visited found in
      breadth_first fuel dependencies provider queue visited found
  | _, _ => found
  end.

Definition bfs_fuel (dependencies : list UnitDependency) : nat := S (length dependencies).

Definition consumers_from (dependencies : list UnitDependency) (found : consumer_map)
    (provider : string) : consumer_map :=
  breadth_first (bfs_fuel dependencies) dependencies provider [(provider, [provider])] [provider]
    found.

Definition reverse_consumers (providers : list string) (dependencies : list UnitDependency) :
    list ReverseConsumer :=
  snd <$> btree_entries (foldl (consumers_from dependencies) ∅ (sort_dedup providers)).

(** ** Normalization *)

Fixpoint replace_char (from to : ascii) (s : string) : string :=
  match s with
  | EmptyString => EmptyString
  | String c rest => String (if Ascii.eqb c from then to else c) (replace_char from to rest)
  end.

Definition normalize_file (file : ValidationChangedFile) : ValidationChangedFile :=
  {| cf_path := replace_char "\"%char "/"%char (cf_path file);
     cf_sources := sort_dedup (cf_sources file);
     cf_change_class := cf_change_class file;
     cf_direct_unit := cf_direct_unit file |}.

Definition normalize_changed_files (files : list ValidationChangedFile) :
    result (list ValidationChangedFile) ValidationPlanningError :=
  let files := map normalize_file files in
  check existsb (λ f, blank (cf_path f) || (len (cf_sources f) =? 0)%N) files else InvalidInput in
  let files := sort_by_key cf_path files in
  check windows2_any (λ a b, String.eqb (cf_path a) (cf_path b)) files else InvalidInput in
  Ok files.

Definition with_files (input : ValidationPlanningInput) (files : list ValidationChangedFile) :
    ValidationPlanningInput :=
  {| in_project_key := in_project_key input;
     in_revision := in_revision input;
     in_requested_profile := in_requested_profile input;
     in_requested_unit := in_requested_unit input;
     in_empty_change_required_profile := in_empty_change_required_profile input;
     in_workspace_unit_id := in_workspace_unit_id input;
     in_changed_files := files;
     in_dependencies := in_dependencies input;
     in_checks := in_checks input;
     in_cache_candidates := in_cache_candidates input;
     in_fingerprints := in_fingerprints input;
     in_fingerprints_complete := in_fingerprints_complete input;
     in_impact_complete := in_impact_complete input;
     in_repeated_failures := in_repeated_failures input |}.

(** ** Affected units *)

Definition consumer_reason (c : ReverseConsumer) : string :=
  "Reverse consumer of public contract provider " +:+ rc_provider_unit_id c +:+ ".".

Definition input_consumers (input : ValidationPlanningInput) : list ReverseConsumer :=
  reverse_consumers (im_public_providers (reviewed_impact input)) (in_dependencies input).

Definition full_impact (input : ValidationPlanningInput) : Impact :=
  let i := foldl (λ i c, add_unit (rc_consumer_unit_id c) (consumer_reason c) i)
             (reviewed_impact input) (input_consumers input) in
  if (rank Full <=? rank (selected_profile input))%N
  then add_unit (in_workspace_unit_id input) "FULL validation expands to the owning workspace." i
  else i.

Definition affected_unit (workspace : string) (e : string * list string) : AffectedUnit :=
  {| au_unit_id := e.1;
     au_kind := if String.eqb e.1 workspace then KindWorkspace else KindUnit;
     au_reason := String.concat " " (sort_dedup e.2) |}.

Definition direct_units (input : ValidationPlanningInput) : list AffectedUnit :=
  map (affected_unit (in_workspace_unit_id input))
    (btree_entries (im_unit_reasons (full_impact input))).

Section planning.
Context `{Platform}.

(** ** Reuse *)

Definition validation_run_reference_matches (run : ValidationRun) (reference : ValidationRunRef) :
    bool :=
  String.eqb (vr_validation_run_id reference) (vn_validation_run_id run)
  && (vr_revision reference =? vn_revision run)%N
  && negb (wrong_fingerprint (canonical_sha256 (to_json run)) (vr_sha256 reference)).

Definition diagnostic_reference_matches (diagnostic : Diagnostic) (reference : DiagnosticRef) :
    bool :=
  String.eqb (df_diagnostic_id reference) (dg_diagnostic_id diagnostic)
  && (df_sequence reference =? dg_sequence diagnostic)%N
  && negb (wrong_fingerprint (canonical_sha256 (to_json diagnostic)) (df_sha256 reference)).

Definition cache_disagrees (expected_key : Sha256Hash) (cache : ValidationCache) : bool :=
  negb (String.eqb (vc_cache_key cache) expected_key)
  || negb (Bool.eqb (vc_hit cache) (is_some (vc_source_validation_run_ref cache))).

Definition evaluate_cache_reuse (expected_key : Sha256Hash)
    (candidate : option ValidationCacheCandidate) : CacheReuseDecision :=
  match candidate with
  | None => ExecuteFor NoCandidate
  | Some c =>
      let run := cc_validation_run c in
      if negb (String.eqb (cc_cache_key c) expected_key) then ExecuteFor KeyMismatch
      else if is_none_or (vn_cache run) (cache_disagrees expected_key)
      then ExecuteFor KeyMismatch
      else if negb (bool_decide (vn_outcome run = Pass)) then ExecuteFor OutcomeNotPass
      else if negb (bool_decide (vn_completeness run = Complete)) then ExecuteFor Incomplete
      else if negb (bool_decide (cc_stability c = Stable)) then ExecuteFor Unstable
      else if negb (satisfies_required_check run) then ExecuteFor ExecutionUnverified
      else if is_err (ValidationRun_validate run)
        || negb (String.eqb (cg_catalog_id (vn_check_ref run)) (cc_check_id c))
        || negb (validation_run_reference_matches run (cc_validation_run_ref c))
      then ExecuteFor EvidenceReferenceMismatch
      else if cc_suppression_applied c then ExecuteFor SuppressionApplied
      else if negb (cc_artifacts_available c) then ExecuteFor ArtifactUnavailable
      else if negb (cc_policy_schema_version c =? VALIDATION_POLICY_SCHEMA_VERSION)%N
      then ExecuteFor PolicySchemaChanged
      else if negb (cc_evidence_schema_version c =? EVIDENCE_CONTRACT_SCHEMA_VERSION)%N
      then ExecuteFor EvidenceSchemaChanged
      else ReuseRun (cc_validation_run_ref c)
  end.

(** The candidates by check, a later one replacing an earlier. *)
Definition candidate_map (input : ValidationPlanningInput) :
    gmap string ValidationCacheCandidate :=
  if in_fingerprints_complete input
  then list_to_map (reverse (map (λ c, (cc_check_id c, c)) (in_cache_candidates input)))
  else ∅.

Definition plan_check (input : ValidationPlanningInput) (definition : ValidationCheckDefinition) :
    result PlannedCheck ValidationPlanningError :=
  let? command := map_err (λ _, PlanningFingerprint) (canonical_sha256 (to_json (cd_command definition))) in
  let cache_key_inputs := {| ck_inputs := in_fingerprints input; ck_command := command |} in
  let? cache_key := map_err (λ _, PlanningFingerprint) (cache_key_fingerprint cache_key_inputs) in
  let reuse := evaluate_cache_reuse cache_key (candidate_map input !! cd_check_id definition) in
  let cache_reason :=
    match reuse with
    | ReuseRun _ => "Identical complete stable success is reusable."
    | ExecuteFor reason => "Execution required: " +:+ CacheMissReason_debug reason +:+ "."
    end in
  Ok {| pc_check_id := cd_check_id definition;
        pc_unit_id := cd_unit_id definition;
        pc_command := cd_command definition;
        pc_disposition := match reuse with ReuseRun _ => Reuse | ExecuteFor _ => Execute end;
        pc_selection_reason := cd_selection_reason definition +:+ " " +:+ cache_reason;
        pc_cache_key_inputs := cache_key_inputs;
        pc_cache_key := cache_key;
        pc_source_validation_run_ref :=
          match reuse with ReuseRun reference => Some reference | ExecuteFor _ => None end |}.

(** ** The plan *)

Definition invalid_input (input : ValidationPlanningInput) : bool :=
  blank (in_project_key input)
  || blank (in_revision input)
  || blank (in_workspace_unit_id input)
  || negb (String.eqb (fp_revision (in_fingerprints input)) (in_revision input)).

(** The plan before it is sealed; [in_changed_files] is normalized. *)
Definition unsealed_plan (input : ValidationPlanningInput) (checks : list PlannedCheck)
    (input_fingerprint : Sha256Hash) : ValidationPlan :=
  let i := reviewed_impact input in
  let uncertainties := snd <$> btree_entries (im_uncertainties i) in
  let triggers := sort_dedup (im_review_triggers i) in
  {| vp_schema_version := VALIDATION_PLAN_SCHEMA_VERSION;
     vp_validation_plan_id := EmptyString;
     vp_project_key := in_project_key input;
     vp_revision := in_revision input;
     vp_changed_files := in_changed_files input;
     vp_direct_units := direct_units input;
     vp_reverse_consumers := input_consumers input;
     vp_profile :=
       {| ps_requested := in_requested_profile input;
          ps_required := im_required (change_impact input);
          ps_selected := selected_profile input;
          ps_reasons := sort_dedup (im_reasons i) |};
     vp_checks := checks;
     vp_uncertainties := uncertainties;
     vp_independent_review :=
       {| rv_required := negb (len triggers =? 0)%N; rv_triggers := triggers |};
     vp_readiness := if human_review uncertainties then ReadinessHumanReview else Ready;
     vp_evidence_flow := EVIDENCE_FLOW;
     vp_input_fingerprint := input_fingerprint;
     vp_plan_fingerprint := digest "unsealed-validation-plan" |}.

Definition build_validation_plan (input : ValidationPlanningInput) :
    result ValidationPlan ValidationPlanningError :=
  check invalid_input input else InvalidInput in
  let? files := normalize_changed_files (in_changed_files input) in
  let input := with_files input files in
  let? input_fingerprint :=
    map_err (λ _, PlanningFingerprint) (components_fingerprint (in_fingerprints input)) in
  let? checks :=
    map_result (plan_check input)
      (List.filter (λ d, bool_decide (cd_profile d = selected_profile input)) (in_checks input)) in
  let checks := sort_by_key pc_check_id checks in
  check (len checks =? 0)%N else InvalidInput in
  map_err Contract (plan_seal (unsealed_plan input checks input_fingerprint)).

End planning.
