(* ===== verification/ReverseConsumers.v ===== *)
(** * Reverse consumers are the dependents of a provider

    The search of [ValidationPlanning.v] against the transitive closure of the
    dependencies. *)
From S2P Require Import Prelude Canonical Contracts Evidence Validation ValidationPlan ValidationPlanning.

Section bfs.
Variable deps : list UnitDependency.

(** The unit [v] depends on [u] directly. *)
Definition depends (u v : string) : Prop :=
  ∃ d, d ∈ deps ∧ ud_provider_unit_id d = u ∧ ud_consumer_unit_id d = v.

(** A chain of direct dependencies from [p] to [v]. *)
Definition dependency_chain (p v : string) (path : list string) : Prop :=
  head path = Some p ∧ last path = Some v ∧ Sorted depends path.

Lemma elem_of_consumers u v : v ∈ consumers_of deps u ↔ depends u v.
Proof.
  unfold consumers_of, depends. rewrite elem_of_sort_dedup, list_elem_of_fmap.
  split.
  - intros (d & -> & [Hd Hu]%list_elem_of_In%filter_In). apply String.eqb_eq in Hu.
    exists d. by rewrite list_elem_of_In.
  - intros (d & Hd & Hu & <-). exists d. split; [done|].
    apply list_elem_of_In, filter_In. by rewrite <-list_elem_of_In, String.eqb_eq.
Qed.

Lemma depends_target u v : depends u v → v ∈ map ud_consumer_unit_id deps.
Proof. intros (d & Hd & _ & <-). apply list_elem_of_fmap. by exists d. Qed.

Lemma chain_snoc p u v path :
  dependency_chain p u path → depends u v → dependency_chain p v (path ++ [v]).
Proof.
  intros (Hh & Hl & Hs) Huv. split_and!.
  - by destruct path.
  - apply last_snoc.
  - apply Sorted_snoc; [done|]. apply last_Some in Hl as [path' ->]. by constructor.
Qed.

(** What the search has found from [p]: the units visited so far. *)
Record searching (p : string) (start : consumer_map) (queue : bfs_queue) (visited : list string)
    (found : consumer_map) : Prop := {
  se_nodup : NoDup visited;
  se_start : p ∈ visited;
  se_reach : ∀ v, v ∈ visited → rtc depends p v;
  se_queue : ∀ u path, (u, path) ∈ queue → u ∈ visited ∧ dependency_chain p u path;
  se_other : ∀ q v, q ≠ p → found !! (q, v) = start !! (q, v);
  se_found : ∀ v, is_Some (found !! (p, v)) ↔ v ∈ visited ∧ v ≠ p;
  se_entry : ∀ v e, found !! (p, v) = Some e →
    rc_provider_unit_id e = p ∧ rc_consumer_unit_id e = v ∧
    dependency_chain p v (rc_dependency_path e) ∧
    rc_reason e = "Public contract change propagates to a reverse consumer."
}.

(** The units whose consumers are still to be visited. *)
Definition closed_but (pending : list string) (visited : list string) : Prop :=
  ∀ u v, u ∈ visited → depends u v → v ∈ visited ∨ u ∈ pending.

Lemma visit_searching p start u path consumers queue visited found :
  searching p start queue visited found →
  dependency_chain p u path → rtc depends p u →
  (∀ v, v ∈ consumers → depends u v) →
  let '(queue', visited', found') := visit p path consumers queue visited found in
  searching p start queue' visited' found' ∧
  (∃ fresh, queue' = queue ++ fresh ∧ length visited' = length visited + length fresh) ∧
  (∀ v, v ∈ visited → v ∈ visited') ∧ (∀ v, v ∈ consumers → v ∈ visited') ∧
  (∀ v, v ∈ visited' → v ∈ visited ∨ v ∈ queue'.*1).
Proof.
  intros Hs Hpath Hu. revert queue visited found Hs.
  induction consumers as [|v rest IH]; intros queue visited found Hs Hc; cbn [visit].
  { split_and!; try done; [|by intros v ?%elem_of_nil|by left].
    exists []. rewrite app_nil_r. simpl. split; [done|lia]. }
  destruct (mem v visited) eqn:Hm.
  - apply mem_true in Hm. specialize (IH queue visited found Hs).
    destruct (visit p path rest queue visited found) as [[queue' visited'] found'].
    destruct IH as (Hs' & Hq & Hin & Hrest & Hnew).
    { intros w Hw. apply Hc. by right. }
    split_and!; try done. intros w [->|Hw]%elem_of_cons; auto.
  - apply mem_false in Hm.
    assert (depends u v) as Huv by (apply Hc; by left).
    assert (dependency_chain p v (path ++ [v])) as Hv by by eapply chain_snoc.
    destruct Hs as [Hnd Hst Hr Hq Ho Hf He].
    specialize (IH (queue ++ [(v, path ++ [v])]) (v :: visited)
      (<[(p, v) := {| rc_provider_unit_id := p; rc_consumer_unit_id := v;
                      rc_dependency_path := path ++ [v];
                      rc_reason := "Public contract change propagates to a reverse consumer." |}]>
         found)).
    destruct (visit _ _ _ _ _ _) as [[queue' visited'] found'].
    destruct IH as (Hs' & (fresh & -> & Hlen) & Hin & Hrest & Hnew).
    + split.
      * by constructor.
      * by right.
      * intros w [->|Hw]%elem_of_cons; [|by apply Hr]. by eapply rtc_r.
      * intros w path' [Hw|[= -> ->]%list_elem_of_singleton]%elem_of_app.
        -- destruct (Hq w path' Hw). split; [by right|done].
        -- split; [by left|done].
      * intros q w Hne. rewrite lookup_insert_ne; [by apply Ho|congruence].
      * intros w. destruct (decide (w = v)) as [->|Hne].
        -- rewrite lookup_insert_eq. split; [|by eauto]. intros _. split; [by left|]. intros ->. done.
        -- rewrite lookup_insert_ne by congruence. rewrite Hf, elem_of_cons. naive_solver.
      * intros w e. destruct (decide (w = v)) as [->|Hne].
        -- rewrite lookup_insert_eq. by intros [= <-].
        -- rewrite lookup_insert_ne by congruence. apply He.
    + intros w Hw. apply Hc. by right.
    + split_and!.
      * done.
      * exists ((v, path ++ [v]) :: fresh). rewrite <-app_assoc. split; [done|]. simpl in *. lia.
      * intros w Hw. apply Hin. by right.
      * intros w [->|Hw]%elem_of_cons; [apply Hin; by left|auto].
      * intros w [[->|Hw]%elem_of_cons|Hw]%Hnew; [right|by left|by right].
        rewrite !fmap_app, !elem_of_app. left. right. by left.
Qed.

Lemma breadth_first_exact p start fuel queue visited found :
  searching p start queue visited found → closed_but queue.*1 visited →
  length visited + fuel = length queue + S (length deps) →
  ∃ visited', searching p start [] visited' (breadth_first fuel deps p queue visited found) ∧
              closed_but [] visited'.
Proof.
  revert queue visited found. induction fuel as [|fuel IH]; intros queue visited found Hs Hc Hlen.
  - (* the fuel is enough: the units visited are [p] and consumers *)
    assert (length visited ≤ S (length deps)) as Hle.
    { rewrite <-(length_fmap ud_consumer_unit_id deps).
      change (S (length (ud_consumer_unit_id <$> deps)))
        with (length (p :: map ud_consumer_unit_id deps)).
      apply submseteq_length, NoDup_submseteq; [apply Hs|].
      intros v Hv. apply (se_reach _ _ _ _ _ Hs), rtc_inv_r in Hv as [<-|(u & _ & Huv)];
        [by left|right]. by eapply depends_target. }
    destruct queue as [|e queue]; [by exists visited|]. simpl in Hlen. lia.
  - destruct queue as [|[u path] queue]; [by exists visited|]. cbn [breadth_first].
    destruct (se_queue _ _ _ _ _ Hs u path) as [Hu Hpath]; [by left|].
    pose proof (visit_searching p start u path (consumers_of deps u) queue visited found) as Hv.
    destruct (visit _ _ _ _ _ _) as [[queue' visited'] found'].
    destruct Hv as (Hs' & (fresh & -> & Hfresh) & Hin & Hcons & Hnew).
    + destruct Hs as [? ? ? Hq ? ? ?]. split; try done. intros w path' Hw. apply Hq. by right.
    + done.
    + by apply (se_reach _ _ _ _ _ Hs).
    + intros v. by rewrite elem_of_consumers.
    + apply IH; [done| |].
      * intros w v Hw Hwv. apply Hnew in Hw as [Hw|Hw]; [|by right].
        destruct (Hc w v Hw Hwv) as [?|Hp]; [left; auto|]. simpl in Hp.
        apply elem_of_cons in Hp as [->|Hp].
        -- left. apply Hcons. by apply elem_of_consumers.
        -- right. rewrite fmap_app, elem_of_app. by left.
      * rewrite length_app, Hfresh. simpl in Hlen. lia.
Qed.

Lemma consumers_from_exact p found :
  (∀ v, found !! (p, v) = None) →
  let found' := consumers_from deps found p in
  (∀ q v, q ≠ p → found' !! (q, v) = found !! (q, v)) ∧
  (∀ v, is_Some (found' !! (p, v)) ↔ v ≠ p ∧ rtc depends p v) ∧
  (∀ v e, found' !! (p, v) = Some e →
     rc_provider_unit_id e = p ∧ rc_consumer_unit_id e = v ∧
     dependency_chain p v (rc_dependency_path e) ∧
     rc_reason e = "Public contract change propagates to a reverse consumer.").
Proof.
  intros Hnone. unfold consumers_from, bfs_fuel.
  destruct (breadth_first_exact p found (S (length deps)) [(p, [p])] [p] found)
    as (visited & [Hnd Hst Hr Hq Ho Hf He] & Hc).
  - split.
    + apply NoDup_singleton.
    + by left.
    + by intros v ->%list_elem_of_singleton.
    + intros u path [= -> ->]%list_elem_of_singleton. split; [by left|].
      split_and!; try done. by repeat constructor.
    + done.
    + intros v. rewrite Hnone, list_elem_of_singleton. split; [by intros [? ?]|naive_solver].
    + intros v e. by rewrite Hnone.
  - intros u v Hu _. right. by apply list_elem_of_singleton in Hu as ->; left.
  - simpl. lia.
  - split_and!; [done| |done]. intros v. rewrite Hf. split.
    + intros [Hv Hne]. split; [done|by apply Hr].
    + intros [Hne Hpv]. split; [|done]. clear Hne.
      revert v Hpv. apply rtc_ind_r; [done|]. intros u v _ Huv IH.
      by destruct (Hc u v IH Huv) as [?|?%elem_of_nil].
Qed.

Lemma reverse_fold (providers : list string) (found : consumer_map) :
  NoDup providers → (∀ p v, p ∈ providers → found !! (p, v) = None) →
  let found' := foldl (consumers_from deps) found providers in
  (∀ q v, q ∉ providers → found' !! (q, v) = found !! (q, v)) ∧
  (∀ p v, p ∈ providers → is_Some (found' !! (p, v)) ↔ v ≠ p ∧ rtc depends p v) ∧
  (∀ p v e, p ∈ providers → found' !! (p, v) = Some e →
     rc_provider_unit_id e = p ∧ rc_consumer_unit_id e = v ∧
     dependency_chain p v (rc_dependency_path e) ∧
     rc_reason e = "Public contract change propagates to a reverse consumer.").
Proof.
  revert found. induction providers as [|p providers IH]; intros found Hnd Hnone; simpl.
  { split_and!; [done|by intros ? ? ?%elem_of_nil|by intros ? ? ? ?%elem_of_nil]. }
  apply NoDup_cons in Hnd as [Hp Hnd].
  destruct (consumers_from_exact p found) as (Ho & Hf & He); [intros v; apply Hnone; by left|].
  destruct (IH (consumers_from deps found p) Hnd) as (Ho' & Hf' & He').
  { intros q v Hq. rewrite Ho by (intros ->; done). apply Hnone. by right. }
  split_and!.
  - intros q v Hq. rewrite not_elem_of_cons in Hq. destruct Hq as [Hne Hq].
    by rewrite Ho', Ho.
  - intros q v [->|Hq]%elem_of_cons; [rewrite Ho' by done; apply Hf|by apply Hf'].
  - intros q v e [->|Hq]%elem_of_cons; [rewrite Ho' by done; apply He|by apply He'].
Qed.

Lemma reverse_consumers_lookup providers p v :
  let found := foldl (consumers_from deps) ∅ (sort_dedup providers) in
  is_Some (found !! (p, v)) ↔ p ∈ providers ∧ v ≠ p ∧ rtc depends p v.
Proof.
  destruct (reverse_fold (sort_dedup providers) ∅) as (Ho & Hf & _).
  { apply strict_NoDup, sort_dedup_strict. }
  { intros q w _. apply lookup_empty. }
  simpl. destruct (decide (p ∈ sort_dedup providers)) as [Hp|Hp].
  - rewrite Hf by done. rewrite elem_of_sort_dedup in Hp. tauto.
  - rewrite Ho by done. rewrite elem_of_sort_dedup in Hp. rewrite lookup_empty.
    split; [by intros [? ?]|tauto].
Qed.

(** An entry is stored under its own provider and consumer. *)
Lemma reverse_entry providers p v e :
  foldl (consumers_from deps) ∅ (sort_dedup providers) !! (p, v) = Some e →
  rc_provider_unit_id e = p ∧ rc_consumer_unit_id e = v ∧
  dependency_chain p v (rc_dependency_path e).
Proof.
  intros He. destruct (reverse_fold (sort_dedup providers) ∅) as (_ & _ & Hent).
  { apply strict_NoDup, sort_dedup_strict. }
  { intros q w _. apply lookup_empty. }
  destruct (Hent p v e) as (Hp & Hv & Hc & _); [|done|done].
  apply elem_of_sort_dedup. apply (reverse_consumers_lookup providers p v). by exists e.
Qed.

Lemma reverse_elem providers p v e :
  foldl (consumers_from deps) ∅ (sort_dedup providers) !! (p, v) = Some e →
  e ∈ reverse_consumers providers deps.
Proof.
  intros He. apply list_elem_of_fmap. exists ((p, v), e). split; [done|].
  by apply elem_of_btree_entries.
Qed.

Lemma elem_of_reverse_consumers providers e :
  e ∈ reverse_consumers providers deps →
  rc_provider_unit_id e ∈ providers ∧
  rc_consumer_unit_id e ≠ rc_provider_unit_id e ∧
  rtc depends (rc_provider_unit_id e) (rc_consumer_unit_id e) ∧
  dependency_chain (rc_provider_unit_id e) (rc_consumer_unit_id e) (rc_dependency_path e).
Proof.
  unfold reverse_consumers. intros ([[p v] e'] & -> & He)%list_elem_of_fmap. simpl.
  apply elem_of_btree_entries in He.
  destruct (reverse_entry providers p v e' He) as (Hp & Hv & Hc). rewrite Hp, Hv.
  destruct (proj1 (reverse_consumers_lookup providers p v)) as (? & ? & ?); [by exists e'|done].
Qed.

End bfs.

(** C22: the reverse consumers are the dependents: for every provider and unit
    there is an entry exactly when the unit is another one that depends on the
    provider, directly or through others; the entries are in strict order of
    provider and consumer, and each carries a chain of direct dependencies from
    the one to the other. *)
Theorem reverse_consumers_exact providers deps :
  let result := reverse_consumers providers deps in
  (∀ p v, (∃ e, e ∈ result ∧ consumer_key e = (p, v))
          ↔ p ∈ providers ∧ v ≠ p ∧ rtc (depends deps) p v) ∧
  strictly_sorted (map consumer_key result) ∧
  Forall (λ e, dependency_chain deps (rc_provider_unit_id e) (rc_consumer_unit_id e)
                 (rc_dependency_path e)) result.
Proof.
  simpl. split_and!.
  - intros p v. rewrite <-(reverse_consumers_lookup deps providers p v). split.
    + intros (e & He & [= <- <-]). apply elem_of_reverse_consumers in He as (Hp & Hne & Hr & _).
      by apply reverse_consumers_lookup.
    + intros [e He]. exists e. split; [by eapply reverse_elem|].
      destruct (reverse_entry deps providers p v e He) as (Hp & Hv & _).
      unfold consumer_key. by rewrite Hp, Hv.
  - unfold reverse_consumers. rewrite map_map.
    rewrite (map_ext_in _ fst); [apply btree_keys_strict|].
    intros [[p v] e] Hin%list_elem_of_In%elem_of_btree_entries. simpl.
    destruct (reverse_entry deps providers p v e Hin) as (Hp & Hv & _).
    unfold consumer_key. by rewrite Hp, Hv.
  - apply Forall_forall. intros e He. by apply elem_of_reverse_consumers in He as (_ & _ & _ & ?).
Qed.
