(* ===== verification/ValidationFacts.v ===== *)
(** * What a validation plan covers

    A plan that is built says exactly which profile the change needs, which units
    it reaches and whom it asks for review. *)
From S2P Require Import Prelude Canonical Contracts Ids Evidence Validation ValidationPlan.
From S2P Require Import ValidationPlanning ReverseConsumers.

(** The unit a changed file belongs to. *)
Definition unit_of (input : ValidationPlanningInput) (file : ValidationChangedFile) : string :=
  default (in_workspace_unit_id input)
    match cf_direct_unit file with Some u => Some u | None => in_requested_unit input end.

(** Neither the file nor the request names a unit. *)
Definition unmapped (input : ValidationPlanningInput) (file : ValidationChangedFile) : Prop :=
  cf_direct_unit file = None ∧ in_requested_unit input = None.

(** Someone has to look at the impact. *)
Definition needs_human (input : ValidationPlanningInput) (selected : ValidationProfile) : Prop :=
  in_impact_complete input = false ∨ in_fingerprints_complete input = false ∨
  selected = Release ∨ Exists (λ f, cf_change_class f = UnknownClass) (in_changed_files input).

(** ** The impact, file by file *)

Lemma rank_max p q n : (rank (profile_max p q) <= n ↔ rank p <= n ∧ rank q <= n)%N.
Proof. unfold profile_max. destruct (N.leb_spec (rank q) (rank p)); lia. Qed.

Lemma rank_resolve required requested n :
  (rank (resolve_validation_profile required requested) <= n
   ↔ rank required <= n
     ∧ ∀ r, requested = Some r → r = Full ∨ r = Release → rank r <= n)%N.
Proof.
  destruct requested as [[]|]; simpl.
  1,2,5: naive_solver.
  - rewrite rank_max. split; [intros [? ?]; split; [done|by intros ? [= <-]]|].
    intros [? Hr]. split; [done|]. apply (Hr Full); auto.
  - split; [|intros [? Hr]; apply (Hr Release); auto]. intros Hn.
    split; [destruct required; simpl in *; lia|by intros ? [= <-]].
Qed.

Section impact.
Variable input : ValidationPlanningInput.

Abbreviation fold := (foldl (file_impact input)).

Lemma classify_other f i :
  im_required (classify f i) = im_required i ∧
  im_unit_reasons (classify f i) = im_unit_reasons i ∧
  im_public_providers (classify f i) = im_public_providers i.
Proof. unfold classify. by destruct (cf_change_class f). Qed.

Lemma file_required f i n :
  (rank (im_required (file_impact input i f)) <= n
   ↔ rank (im_required i) <= n ∧ rank (required_profile (cf_change_class f)) <= n
     ∧ (unmapped input f → rank Full <= n))%N.
Proof.
  unfold file_impact, unmapped.
  destruct (classify_other f (require (required_profile (cf_change_class f)) i)) as (Hr & _).
  destruct (cf_direct_unit f) as [u|]; [|destruct (in_requested_unit input) as [u|]];
    case_bool_decide; simpl; rewrite Hr; simpl; rewrite ?rank_max; simpl; naive_solver.
Qed.

Lemma fold_required files i n :
  (rank (im_required (fold i files)) <= n
   ↔ rank (im_required i) <= n
     ∧ Forall (λ f, rank (required_profile (cf_change_class f)) <= n) files
     ∧ (Exists (unmapped input) files → rank Full <= n))%N.
Proof.
  revert i. induction files as [|f files IH]; intros i; simpl.
  { rewrite Exists_nil, Forall_nil. naive_solver. }
  rewrite IH, file_required, Exists_cons, Forall_cons. naive_solver.
Qed.

Lemma file_units f i u :
  is_Some (im_unit_reasons (file_impact input i f) !! u)
  ↔ is_Some (im_unit_reasons i !! u) ∨ u = unit_of input f.
Proof.
  unfold file_impact, unit_of.
  destruct (classify_other f (require (required_profile (cf_change_class f)) i)) as (_ & Hu & _).
  destruct (cf_direct_unit f) as [v|]; [|destruct (in_requested_unit input) as [v|]];
    case_bool_decide; simpl; rewrite Hu; simpl; rewrite lookup_insert_is_Some'; naive_solver.
Qed.

Lemma fold_units files i u :
  is_Some (im_unit_reasons (fold i files) !! u)
  ↔ is_Some (im_unit_reasons i !! u) ∨ Exists (λ f, u = unit_of input f) files.
Proof.
  revert i. induction files as [|f files IH]; intros i; simpl.
  { rewrite Exists_nil. naive_solver. }
  rewrite IH, file_units, Exists_cons. naive_solver.
Qed.

Lemma file_providers f i p :
  p ∈ im_public_providers (file_impact input i f)
  ↔ p ∈ im_public_providers i ∨ cf_change_class f = PublicContract ∧ p = unit_of input f.
Proof.
  unfold file_impact, unit_of.
  destruct (classify_other f (require (required_profile (cf_change_class f)) i)) as (_ & _ & Hp).
  destruct (cf_direct_unit f) as [v|]; [|destruct (in_requested_unit input) as [v|]];
    case_bool_decide; simpl; rewrite Hp; simpl; rewrite ?elem_of_cons; naive_solver.
Qed.

Lemma fold_providers files i p :
  p ∈ im_public_providers (fold i files)
  ↔ p ∈ im_public_providers i
    ∨ Exists (λ f, cf_change_class f = PublicContract ∧ p = unit_of input f) files.
Proof.
  revert i. induction files as [|f files IH]; intros i; simpl.
  { rewrite Exists_nil. naive_solver. }
  rewrite IH, file_providers, Exists_cons. naive_solver.
Qed.

(** The trigger a class of change sets off. *)
Definition class_trigger (c : ValidationChangeClass) : option IndependentReviewTrigger :=
  match c with
  | PublicContract => Some TriggerPublicContract
  | Security => Some TriggerSecurity
  | DataMigration => Some TriggerDataMigration
  | _ => None
  end.

Lemma file_triggers f i t :
  t ∈ im_review_triggers (file_impact input i f)
  ↔ t ∈ im_review_triggers i ∨ class_trigger (cf_change_class f) = Some t.
Proof.
  unfold file_impact, classify.
  destruct (cf_direct_unit f) as [v|]; [|destruct (in_requested_unit input) as [v|]];
    destruct (cf_change_class f); simpl; rewrite ?elem_of_cons; naive_solver.
Qed.

Lemma fold_triggers files i t :
  t ∈ im_review_triggers (fold i files)
  ↔ t ∈ im_review_triggers i ∨ Exists (λ f, class_trigger (cf_change_class f) = Some t) files.
Proof.
  revert i. induction files as [|f files IH]; intros i; simpl.
  { rewrite Exists_nil. naive_solver. }
  rewrite IH, file_triggers, Exists_cons. naive_solver.
Qed.

(** Every uncertainty but a missing mapping asks for a person. *)
Definition escalations (i : Impact) : Prop :=
  ∀ c u, im_uncertainties i !! c = Some u →
    (un_escalation u = EscalateHumanReview ↔ c ≠ UnitMappingMissing).

Lemma add_uncertainty_escalations c s e i :
  escalations i → (e = EscalateHumanReview ↔ c ≠ UnitMappingMissing) →
  escalations (add_uncertainty c s e i).
Proof.
  intros Hi He c' u. simpl. destruct (decide (c' = c)) as [->|Hne].
  - rewrite lookup_insert_eq. by intros [= <-].
  - rewrite lookup_insert_ne by done. apply Hi.
Qed.

Lemma file_uncertain f i :
  escalations i →
  escalations (file_impact input i f) ∧
  ∀ c, is_Some (im_uncertainties (file_impact input i f) !! c)
       ↔ is_Some (im_uncertainties i !! c)
         ∨ c = ImpactUnavailable ∧ cf_change_class f = UnknownClass
         ∨ c = UnitMappingMissing ∧ unmapped input f.
Proof.
  intros Hi. unfold unmapped.
  set (i1 := classify f (require (required_profile (cf_change_class f)) i)).
  assert (escalations i1 ∧ ∀ c, is_Some (im_uncertainties i1 !! c)
            ↔ is_Some (im_uncertainties i !! c)
              ∨ c = ImpactUnavailable ∧ cf_change_class f = UnknownClass) as [He Hc].
  { unfold i1, classify. destruct (cf_change_class f); try (split; [done|naive_solver]).
    split; [by apply add_uncertainty_escalations|]. intros c. simpl.
    rewrite lookup_insert_is_Some'. naive_solver. }
  unfold file_impact. fold i1.
  destruct (cf_direct_unit f) as [v|]; [|destruct (in_requested_unit input) as [v|]];
    case_bool_decide;
    (split; [first [done|apply (add_uncertainty_escalations _ _ _ i1); naive_solver]|]);
    intros c; simpl; rewrite ?lookup_insert_is_Some'; rewrite Hc; naive_solver.
Qed.

Lemma fold_uncertain files i :
  escalations i →
  escalations (fold i files) ∧
  ∀ c, is_Some (im_uncertainties (fold i files) !! c)
       ↔ is_Some (im_uncertainties i !! c)
         ∨ c = ImpactUnavailable ∧ Exists (λ f, cf_change_class f = UnknownClass) files
         ∨ c = UnitMappingMissing ∧ Exists (unmapped input) files.
Proof.
  revert i. induction files as [|f files IH]; intros i Hi; simpl.
  { split; [done|]. intros c. rewrite !Exists_nil. naive_solver. }
  destruct (file_uncertain f i Hi) as [He Hc]. destruct (IH _ He) as [He' Hc'].
  split; [done|]. intros c. rewrite Hc', Hc, !Exists_cons. naive_solver.
Qed.

(** ** The whole input *)

Abbreviation files := (in_changed_files input).

Lemma len_nil {A} (l : list A) : (len l =? 0)%N = bool_decide (l = []).
Proof. by destruct l. Qed.

Lemma change_required n :
  (rank (im_required (change_impact input)) <= n
   ↔ Forall (λ f, rank (required_profile (cf_change_class f)) <= n) files
     ∧ (files = [] → rank (default Target (in_empty_change_required_profile input)) <= n)
     ∧ (in_impact_complete input = false ∨ in_fingerprints_complete input = false
        ∨ Exists (unmapped input) files → rank Full <= n))%N.
Proof.
  assert (rank (im_required (initial_impact input)) <= n
          ↔ (files = [] → rank (default Target (in_empty_change_required_profile input)) <= n))%N
    as Hinit.
  { unfold initial_impact. rewrite len_nil. case_bool_decide; simpl; [naive_solver|].
    split; [done|]. intros _. apply N.le_0_l. }
  pose proof (fold_required files (initial_impact input) n) as Hfold. rewrite Hinit in Hfold.
  unfold change_impact. cbv zeta. set (i := foldl _ _ files) in *.
  destruct (in_requested_profile input), (in_impact_complete input),
    (in_fingerprints_complete input); simpl; rewrite ?rank_max, Hfold; simpl; naive_solver.
Qed.

(** The profile is the least one the change, the input and an explicit wider
    request need. *)
Lemma selected_rank n :
  (rank (selected_profile input) <= n
   ↔ Forall (λ f, rank (required_profile (cf_change_class f)) <= n) files
     ∧ (files = [] → rank (default Target (in_empty_change_required_profile input)) <= n)
     ∧ (∀ r, in_requested_profile input = Some r → r = Full ∨ r = Release → rank r <= n)
     ∧ (in_impact_complete input = false ∨ in_fingerprints_complete input = false
        ∨ Exists (unmapped input) files → rank Full <= n))%N.
Proof. unfold selected_profile. rewrite rank_resolve, change_required. naive_solver. Qed.

Lemma initial_certain c : im_uncertainties (initial_impact input) !! c = None.
Proof. unfold initial_impact. cbv zeta. destruct (_ =? _)%N; apply lookup_empty. Qed.

Lemma initial_escalations : escalations (initial_impact input).
Proof. intros c u. by rewrite initial_certain. Qed.

Lemma change_uncertain :
  escalations (change_impact input) ∧
  ∀ c, is_Some (im_uncertainties (change_impact input) !! c)
       ↔ c = ImpactUnavailable ∧ Exists (λ f, cf_change_class f = UnknownClass) files
         ∨ c = UnitMappingMissing ∧ Exists (unmapped input) files
         ∨ c = ReverseConsumerGraphIncomplete ∧ in_impact_complete input = false
         ∨ c = FingerprintInputUnavailable ∧ in_fingerprints_complete input = false.
Proof.
  unfold change_impact. cbv zeta.
  destruct (fold_uncertain files _ initial_escalations) as [He Hc].
  set (i := foldl _ _ files) in *. setoid_rewrite initial_certain in Hc.
  destruct (in_requested_profile input), (in_impact_complete input),
    (in_fingerprints_complete input); simpl;
    (split; [first [done|repeat (apply add_uncertainty_escalations; [|done]); done]|]);
    intros c; simpl; rewrite ?lookup_insert_is_Some', ?Hc; rewrite is_Some_alt; naive_solver.
Qed.

Lemma repeated_uncertainties i :
  im_uncertainties (if in_repeated_failures input then add_trigger TriggerRepeatedFailure i else i)
  = im_uncertainties i.
Proof. by destruct (in_repeated_failures input). Qed.

Lemma reviewed_lookup :
  escalations (reviewed_impact input) ∧
  ∀ c, is_Some (im_uncertainties (reviewed_impact input) !! c)
       ↔ is_Some (im_uncertainties (change_impact input) !! c)
         ∨ c = ReleaseEnvironmentUnavailable ∧ selected_profile input = Release.
Proof.
  destruct change_uncertain as [He _]. unfold reviewed_impact, escalations. cbv zeta.
  rewrite repeated_uncertainties. case_bool_decide as Hrel; [|split; [done|naive_solver]].
  split.
  - by apply (add_uncertainty_escalations _ _ _ (add_trigger TriggerRelease (change_impact input))).
  - intros c. simpl. rewrite lookup_insert_is_Some'. naive_solver.
Qed.

Lemma reviewed_uncertain :
  escalations (reviewed_impact input) ∧
  ((∃ c, c ≠ UnitMappingMissing ∧ is_Some (im_uncertainties (reviewed_impact input) !! c))
   ↔ needs_human input (selected_profile input)).
Proof.
  destruct reviewed_lookup as [He Hr], change_uncertain as [_ Hc]. split; [done|].
  unfold needs_human. split.
  - intros (c & Hne & Hs). rewrite Hr, Hc in Hs.
    destruct Hs as [[[_ ?]|[[? _]|[[_ ?]|[_ ?]]]]|[_ ?]]; tauto.
  - intros [Hi|[Hi|[Hi|Hi]]].
    + exists ReverseConsumerGraphIncomplete. rewrite Hr, Hc. intuition congruence.
    + exists FingerprintInputUnavailable. rewrite Hr, Hc. intuition congruence.
    + exists ReleaseEnvironmentUnavailable. rewrite Hr. intuition congruence.
    + exists ImpactUnavailable. rewrite Hr, Hc. intuition congruence.
Qed.

Lemma reviewed_human :
  human_review (snd <$> btree_entries (im_uncertainties (reviewed_impact input))) = true
  ↔ needs_human input (selected_profile input).
Proof.
  destruct reviewed_uncertain as [He <-]. unfold human_review. rewrite existsb_true. split.
  - intros (u & ([c u'] & -> & Hc)%list_elem_of_fmap & Hu%bool_decide_eq_true). simpl in Hu.
    apply elem_of_btree_entries in Hc. exists c. split; [by apply (He c u')|by exists u'].
  - intros (c & Hne & [u Hu]). exists u. split; [|by apply bool_decide_eq_true, (He c u)].
    apply list_elem_of_fmap. exists (c, u). split; [done|]. by apply elem_of_btree_entries.
Qed.

Lemma reviewed_triggers t :
  t ∈ im_review_triggers (reviewed_impact input)
  ↔ Exists (λ f, class_trigger (cf_change_class f) = Some t) files
    ∨ t = TriggerRelease ∧ selected_profile input = Release
    ∨ t = TriggerRepeatedFailure ∧ in_repeated_failures input = true.
Proof.
  assert (t ∈ im_review_triggers (change_impact input)
          ↔ Exists (λ f, class_trigger (cf_change_class f) = Some t) files) as Hc.
  { assert (im_review_triggers (initial_impact input) = []) as Hi.
    { unfold initial_impact. cbv zeta. by destruct (_ =? _)%N. }
    pose proof (fold_triggers files (initial_impact input) t) as Hf.
    rewrite Hi, elem_of_nil in Hf. unfold change_impact. cbv zeta. set (i := foldl _ _ files) in *.
    transitivity (t ∈ im_review_triggers i); [|tauto].
    by destruct (in_requested_profile input), (in_impact_complete input),
      (in_fingerprints_complete input). }
  unfold reviewed_impact. cbv zeta.
  case_bool_decide as Hrel; destruct (in_repeated_failures input);
    simpl; rewrite ?elem_of_cons, Hc; intuition congruence.
Qed.

(** ** The units *)

Lemma change_units u :
  is_Some (im_unit_reasons (change_impact input) !! u)
  ↔ Exists (λ f, u = unit_of input f) files
    ∨ files = [] ∧ u = default (in_workspace_unit_id input) (in_requested_unit input).
Proof.
  assert (is_Some (im_unit_reasons (initial_impact input) !! u)
    ↔ files = [] ∧ u = default (in_workspace_unit_id input) (in_requested_unit input)) as Hi.
  { unfold initial_impact. cbv zeta. rewrite len_nil. case_bool_decide; simpl.
    - rewrite lookup_insert_is_Some', lookup_empty, is_Some_alt. naive_solver.
    - rewrite lookup_empty, is_Some_alt. tauto. }
  pose proof (fold_units files (initial_impact input) u) as Hf. rewrite Hi in Hf.
  unfold change_impact. cbv zeta. set (i := foldl _ _ files) in *.
  transitivity (is_Some (im_unit_reasons i !! u)); [|tauto].
  by destruct (in_requested_profile input), (in_impact_complete input),
    (in_fingerprints_complete input).
Qed.

Lemma reviewed_keeps :
  im_unit_reasons (reviewed_impact input) = im_unit_reasons (change_impact input) ∧
  im_public_providers (reviewed_impact input) = im_public_providers (change_impact input).
Proof.
  unfold reviewed_impact. cbv zeta. by case_bool_decide; destruct (in_repeated_failures input).
Qed.

Lemma reviewed_providers p :
  p ∈ im_public_providers (reviewed_impact input)
  ↔ Exists (λ f, cf_change_class f = PublicContract ∧ p = unit_of input f) files.
Proof.
  rewrite (proj2 reviewed_keeps).
  assert (im_public_providers (initial_impact input) = []) as Hi.
  { unfold initial_impact. cbv zeta. by destruct (_ =? _)%N. }
  pose proof (fold_providers files (initial_impact input) p) as Hf.
  rewrite Hi, elem_of_nil in Hf. unfold change_impact. cbv zeta. set (i := foldl _ _ files) in *.
  transitivity (p ∈ im_public_providers i); [|tauto].
  by destruct (in_requested_profile input), (in_impact_complete input),
    (in_fingerprints_complete input).
Qed.

Lemma consumer_units consumers i u :
  is_Some (im_unit_reasons
    (foldl (λ i c, add_unit (rc_consumer_unit_id c) (consumer_reason c) i) i consumers) !! u)
  ↔ is_Some (im_unit_reasons i !! u) ∨ u ∈ map rc_consumer_unit_id consumers.
Proof.
  revert i. induction consumers as [|c consumers IH]; intros i; simpl.
  { rewrite elem_of_nil. tauto. }
  rewrite IH. simpl. rewrite lookup_insert_is_Some', elem_of_cons. naive_solver.
Qed.

Lemma elem_of_consumer_units u :
  u ∈ map rc_consumer_unit_id (input_consumers input)
  ↔ ∃ p, p ∈ im_public_providers (reviewed_impact input) ∧ u ≠ p
         ∧ rtc (depends (in_dependencies input)) p u.
Proof.
  unfold input_consumers. split.
  - intros (e & -> & He)%list_elem_of_fmap.
    apply elem_of_reverse_consumers in He as (Hp & Hne & Hr & _). by eexists.
  - intros (p & H). apply reverse_consumers_lookup in H as [e He].
    apply list_elem_of_fmap. exists e. split; [|by eapply reverse_elem].
    by destruct (reverse_entry _ _ _ _ _ He) as (_ & -> & _).
Qed.

Lemma planned_units u :
  u ∈ map au_unit_id (direct_units input)
  ↔ Exists (λ f, u = unit_of input f) files
    ∨ Exists (λ f, cf_change_class f = PublicContract
                   ∧ rtc (depends (in_dependencies input)) (unit_of input f) u) files
    ∨ (rank Full <= rank (selected_profile input))%N ∧ u = in_workspace_unit_id input
    ∨ files = [] ∧ u = default (in_workspace_unit_id input) (in_requested_unit input).
Proof.
  assert (u ∈ map au_unit_id (direct_units input)
          ↔ is_Some (im_unit_reasons (full_impact input) !! u)) as ->.
  { unfold direct_units. rewrite map_map. rewrite (map_ext _ fst) by done.
    rewrite list_elem_of_fmap. split.
    - intros ([v l] & -> & Hv%elem_of_btree_entries). by exists l.
    - intros [l Hl]. exists (u, l). split; [done|]. by apply elem_of_btree_entries. }
  assert (is_Some (im_unit_reasons (full_impact input) !! u)
          ↔ is_Some (im_unit_reasons (reviewed_impact input) !! u)
            ∨ u ∈ map rc_consumer_unit_id (input_consumers input)
            ∨ (rank Full <= rank (selected_profile input))%N ∧ u = in_workspace_unit_id input) as ->.
  { unfold full_impact. cbv zeta. rewrite <-N.leb_le.
    destruct (rank Full <=? _)%N; simpl; rewrite ?lookup_insert_is_Some', consumer_units;
      naive_solver. }
  rewrite (proj1 reviewed_keeps), change_units, elem_of_consumer_units.
  setoid_rewrite reviewed_providers. setoid_rewrite Exists_exists. split.
  - intros [[?|?]|[(p & (f & Hf & Hc & ->) & _ & Hr)|?]]; eauto 7.
  - intros [?|[(f & Hf & Hc & Hr)|[?|?]]]; [by eauto| |by eauto|by eauto].
    destruct (decide (u = unit_of input f)) as [->|Hne]; [by eauto|].
    right; left. exists (unit_of input f). split_and!; [|done|done]. by exists f.
Qed.

End impact.

(** ** The plan *)

(** What the planner reads of a file is unchanged by the normalization. *)
Lemma normalized_Exists (P : ValidationChangedFile → Prop) files l :
  files ≡ₚ map normalize_file l → (∀ f, P (normalize_file f) ↔ P f) →
  Exists P files ↔ Exists P l.
Proof.
  intros Hp HP. rewrite Hp, !Exists_exists. split.
  - intros (f & (g & -> & Hg)%list_elem_of_fmap & Hf). exists g. by rewrite <-HP.
  - intros (f & Hf & HPf). exists (normalize_file f). rewrite HP. split; [|done].
    apply list_elem_of_fmap. by exists f.
Qed.

Lemma normalized_Forall (P : ValidationChangedFile → Prop) files l :
  files ≡ₚ map normalize_file l → (∀ f, P (normalize_file f) ↔ P f) →
  Forall P files ↔ Forall P l.
Proof.
  intros Hp HP. rewrite Hp, !Forall_forall. split.
  - intros Hf f Hin. apply HP, Hf, list_elem_of_fmap. by exists f.
  - intros Hf ? (g & -> & Hg)%list_elem_of_fmap. by apply HP, Hf.
Qed.

Lemma normalized_nil files l : files ≡ₚ map normalize_file l → files = [] ↔ l = [].
Proof.
  intros Hp%Permutation_length. rewrite length_map in Hp. by destruct files, l.
Qed.

Section plan.
Context `{Platform}.

Lemma normalize_perm l files :
  normalize_changed_files l = Ok files → files ≡ₚ map normalize_file l.
Proof.
  unfold normalize_changed_files. cbv zeta. intros Hn. next_check Hn. next_check Hn.
  injection Hn as <-. apply sort_by_key_perm.
Qed.

Definition selected_checks (input : ValidationPlanningInput) (selected : ValidationProfile) :
    list ValidationCheckDefinition :=
  List.filter (λ d, bool_decide (cd_profile d = selected)) (in_checks input).

(** A built plan is the unsealed one under its identity, and it validates. *)
Lemma build_inv input plan :
  build_validation_plan input = Ok plan →
  ∃ files checks fingerprint vid vfp,
    files ≡ₚ map normalize_file (in_changed_files input) ∧
    map_result (plan_check (with_files input files))
      (selected_checks input (selected_profile (with_files input files))) = Ok checks ∧
    plan = identify (unsealed_plan (with_files input files) (sort_by_key pc_check_id checks)
                       fingerprint) vid vfp ∧
    validate plan = Ok tt.
Proof.
  unfold build_validation_plan. cbv zeta. intros Hb. next_check Hb.
  destruct (normalize_changed_files (in_changed_files input)) as [files|] eqn:Hn; [|done].
  destruct (map_err _ (components_fingerprint _)) as [fp|]; [|done].
  destruct (map_result (plan_check (with_files input files)) _) as [checks|] eqn:Hc; [|done].
  next_check Hb. unfold plan_seal in Hb.
  destruct (map_err _ (expected_plan_fingerprint _)) as [vfp|]; [|done].
  destruct (validate _) as [[]|] eqn:Hv; [|done]. simpl in Hb.
  exists files, checks, fp, (plan_id vfp), vfp. split; [by apply normalize_perm|].
  split; [exact Hc|]. injection Hb as <-. done.
Qed.

(** C23: the profile of a plan is exactly what is needed: it is the least one that
    reaches the profile of every changed file, an explicit request for a full or
    release validation, FULL whenever the impact or the inputs are incomplete or
    a changed file has no unit, and the profile of the input when nothing
    changed; a request for less changes nothing. *)
Theorem plan_profile_exact input plan p :
  build_validation_plan input = Ok plan →
  (rank (ps_selected (vp_profile plan)) <= rank p)%N
  ↔ Forall (λ f, (rank (required_profile (cf_change_class f)) <= rank p)%N) (in_changed_files input)
    ∧ (in_changed_files input = [] →
       (rank (default Target (in_empty_change_required_profile input)) <= rank p)%N)
    ∧ (∀ r, in_requested_profile input = Some r → r = Full ∨ r = Release →
       (rank r <= rank p)%N)
    ∧ (in_impact_complete input = false ∨ in_fingerprints_complete input = false
       ∨ Exists (unmapped input) (in_changed_files input) → (rank Full <= rank p)%N).
Proof.
  intros (files & checks & fp & vid & vfp & Hf & _ & -> & _)%build_inv. simpl.
  rewrite selected_rank. simpl.
  rewrite (normalized_Forall _ _ _ Hf), (normalized_Exists (unmapped _) _ _ Hf) by done.
  by rewrite (normalized_nil _ _ Hf).
Qed.

(** A plan waits for a person exactly when the impact or the inputs are
    incomplete, a file could not be classified or the profile is RELEASE, and is
    ready otherwise; it asks for an independent review exactly when a public
    contract, security or data migration changed, the profile is RELEASE or
    failures were repeated, and names each of these reasons. *)
Theorem plan_review_exact input plan :
  build_validation_plan input = Ok plan →
  let selected := ps_selected (vp_profile plan) in
  let review := vp_independent_review plan in
  (vp_readiness plan = ReadinessHumanReview ↔ needs_human input selected) ∧
  (vp_readiness plan = Ready ↔ ¬ needs_human input selected) ∧
  (∀ t, t ∈ rv_triggers review
     ↔ Exists (λ f, class_trigger (cf_change_class f) = Some t) (in_changed_files input)
       ∨ t = TriggerRelease ∧ selected = Release
       ∨ t = TriggerRepeatedFailure ∧ in_repeated_failures input = true) ∧
  (rv_required review = true ↔ ∃ t, t ∈ rv_triggers review).
Proof.
  intros (files & checks & fp & vid & vfp & Hf & _ & -> & _)%build_inv. simpl.
  set (input' := with_files input files).
  assert (needs_human input' (selected_profile input')
          ↔ needs_human input (selected_profile input')) as Hh.
  { unfold needs_human. simpl. by rewrite (normalized_Exists _ _ _ Hf). }
  pose proof (reviewed_human input') as Hr. rewrite Hh in Hr.
  split_and!.
  - rewrite <-Hr. by destruct (human_review _).
  - rewrite <-Hr. by destruct (human_review _).
  - intros t. rewrite elem_of_sort_dedup, reviewed_triggers. simpl.
    by rewrite (normalized_Exists _ _ _ Hf).
  - rewrite len_nil, negb_true_iff, bool_decide_eq_false.
    destruct (sort_dedup _) as [|t l]; [|split; [intros _; exists t; by left|done]].
    split; [done|]. by intros [t ?%elem_of_nil].
Qed.

(** C24: the units of a plan are exactly the units of the changed files, all units
    that depend, directly or through others, on the unit of a changed public
    contract, the workspace when the profile is FULL or RELEASE, and the requested
    unit or the workspace when nothing changed. *)
Theorem plan_units_exact input plan u :
  build_validation_plan input = Ok plan →
  u ∈ map au_unit_id (vp_direct_units plan)
  ↔ Exists (λ f, u = unit_of input f) (in_changed_files input)
    ∨ Exists (λ f, cf_change_class f = PublicContract
                   ∧ rtc (depends (in_dependencies input)) (unit_of input f) u)
        (in_changed_files input)
    ∨ (rank Full <= rank (ps_selected (vp_profile plan)))%N ∧ u = in_workspace_unit_id input
    ∨ in_changed_files input = []
      ∧ u = default (in_workspace_unit_id input) (in_requested_unit input).
Proof.
  intros (files & checks & fp & vid & vfp & Hf & _ & -> & _)%build_inv. simpl.
  set (input' := with_files input files).
  rewrite <-(normalized_Exists (λ f, u = unit_of input f) _ _ Hf) by done.
  rewrite <-(normalized_Exists (λ f, cf_change_class f = PublicContract ∧ _) _ _ Hf) by done.
  rewrite <-(normalized_nil _ _ Hf). rewrite (planned_units input' u).
  change (in_workspace_unit_id input') with (in_workspace_unit_id input).
  change (in_requested_unit input') with (in_requested_unit input).
  change (in_dependencies input') with (in_dependencies input).
  change (in_changed_files input') with files. done.
Qed.

End plan.
