(* ===== verification/ValidationReuse.v ===== *)
(** * Which checks a plan runs and which results it reuses

    The checks of a built plan are those the input defines for its profile, and a
    check is skipped only for the recorded success of the identical check. *)
From S2P Require Import Prelude Canonical Contracts Ids Evidence Validation ValidationPlan.
From S2P Require Import ValidationPlanning ReverseConsumers ValidationFacts Toy.

Section reuse.
Context `{Platform}.

(** The recorded success of the identical check, unchanged since. *)
Record reusable (key : Sha256Hash) (c : ValidationCacheCandidate) : Prop := {
  ru_key : cc_cache_key c = key;
  ru_cache : ∃ cache, vn_cache (cc_validation_run c) = Some cache ∧ vc_cache_key cache = key
             ∧ vc_hit cache = is_some (vc_source_validation_run_ref cache);
  ru_pass : satisfies_required_check (cc_validation_run c) = true;
  ru_valid : ValidationRun_validate (cc_validation_run c) = Ok tt;
  ru_check : cg_catalog_id (vn_check_ref (cc_validation_run c)) = cc_check_id c;
  ru_run : vr_validation_run_id (cc_validation_run_ref c)
             = vn_validation_run_id (cc_validation_run c)
           ∧ vr_revision (cc_validation_run_ref c) = vn_revision (cc_validation_run c)
           ∧ canonical_sha256 (to_json (cc_validation_run c))
             = Ok (vr_sha256 (cc_validation_run_ref c));
  ru_stable : cc_stability c = Stable;
  ru_open : cc_suppression_applied c = false;
  ru_artifacts : cc_artifacts_available c = true;
  ru_versions : cc_policy_schema_version c = VALIDATION_POLICY_SCHEMA_VERSION
                ∧ cc_evidence_schema_version c = EVIDENCE_CONTRACT_SCHEMA_VERSION
}.

Lemma wrong_fingerprint_false r h : wrong_fingerprint r h = false ↔ r = Ok h.
Proof.
  destruct r as [h'|]; simpl; [|done]. rewrite negb_false_iff, String.eqb_eq. naive_solver.
Qed.

Lemma run_reference_matches run reference :
  validation_run_reference_matches run reference = true
  ↔ vr_validation_run_id reference = vn_validation_run_id run
    ∧ vr_revision reference = vn_revision run
    ∧ canonical_sha256 (to_json run) = Ok (vr_sha256 reference).
Proof.
  unfold validation_run_reference_matches.
  rewrite !andb_true_iff, negb_true_iff, wrong_fingerprint_false, String.eqb_eq, N.eqb_eq. tauto.
Qed.

Lemma satisfies_pass run :
  satisfies_required_check run = true → vn_outcome run = Pass ∧ vn_completeness run = Complete.
Proof.
  unfold satisfies_required_check. intros Hs. rewrite !andb_true_iff, !bool_decide_eq_true in Hs.
  tauto.
Qed.

Lemma cache_agrees key cache :
  cache_disagrees key cache = false
  ↔ vc_cache_key cache = key ∧ vc_hit cache = is_some (vc_source_validation_run_ref cache).
Proof.
  unfold cache_disagrees.
  by rewrite orb_false_iff, !negb_false_iff, String.eqb_eq, eqb_true_iff.
Qed.

(** Reuse is decided exactly. *)
Lemma evaluate_exact key candidate r :
  evaluate_cache_reuse key candidate = ReuseRun r
  ↔ ∃ c, candidate = Some c ∧ reusable key c ∧ r = cc_validation_run_ref c.
Proof.
  destruct candidate as [c|]; [|split; [done|by intros (? & ? & _)]]. simpl. split.
  - intros He. exists c. split; [done|].
    repeat match type of He with
    | (if ?b then _ else _) = _ => destruct b eqn:?; [discriminate He|]
    end.
    injection He as <-. split; [|done].
    repeat match goal with
    | Hb : (_ || _)%bool = false |- _ => apply orb_false_iff in Hb as [? ?]
    | Hb : negb _ = false |- _ => apply negb_false_iff in Hb
    end.
    bool_to_prop. destruct (vn_cache (cc_validation_run c)) as [cache|] eqn:Hc; [|done].
    simpl in *. rewrite cache_agrees in *. rewrite run_reference_matches in *.
    split; try done; [by exists cache|]. by destruct (ValidationRun_validate _) as [[]|].
  - intros (c' & [= <-] & [Hk (cache & Hc & Hck & Hh) Hp Hv Hcat Hr Hs Ho Ha [H1 H2]] & ->).
    destruct (satisfies_pass _ Hp) as [Hpass Hcomp].
    apply run_reference_matches in Hr.
    rewrite Hk, String.eqb_refl, Hc. simpl.
    rewrite (proj2 (cache_agrees key cache) (conj Hck Hh)).
    by rewrite Hpass, Hcomp, Hs, Hp, Hv, Hcat, String.eqb_refl, Hr, Ho, Ha, H1, H2.
Qed.

Lemma sorted_unique_strict {A K} `{CmpLaws K} (f : A → K) l :
  sorted_unique f l = true ↔ strictly_sorted (map f l).
Proof.
  unfold sorted_unique. rewrite negb_true_iff, <-windows2_strict.
  assert (windows2_any (λ a b, negb (cmp_ltb (f a) (f b))) l
          = windows2_any (λ a b, cmp_leb b a) (map f l)) as ->; [|done].
  induction l as [|x [|y l] IH]; [done..|]. cbn [windows2_any map] in *.
  by rewrite IH, cmp_ltb_not_leb, negb_involutive.
Qed.

Lemma validate_checks p :
  validate p = Ok tt → vp_checks p ≠ [] ∧ strictly_sorted (map pc_check_id (vp_checks p)).
Proof.
  unfold validate. intros Hv. next_check Hv. next_check Hv. next_check Hv. clear Hv.
  repeat match goal with
  | Hb : (_ || _)%bool = false |- _ => apply orb_false_iff in Hb as [? ?]
  end.
  split; [by destruct (vp_checks p)|]. apply sorted_unique_strict. by apply negb_false_iff.
Qed.

(** The last candidate recorded for a check. *)
Definition last_candidate (input : ValidationPlanningInput) (check_id : string) :
    option ValidationCacheCandidate :=
  find (λ c, String.eqb (cc_check_id c) check_id) (reverse (in_cache_candidates input)).

Lemma keyed_lookup {A} (f : A → string) (l : list A) k :
  (list_to_map (map (λ a, (f a, a)) l) : gmap string A) !! k
  = find (λ a, String.eqb (f a) k) l.
Proof.
  induction l as [|a l IH]; simpl; [apply lookup_empty|].
  destruct (String.eqb_spec (f a) k) as [->|Hne]; [apply lookup_insert_eq|].
  by rewrite lookup_insert_ne.
Qed.

Lemma candidate_map_lookup input k :
  candidate_map input !! k
  = if in_fingerprints_complete input then last_candidate input k else None.
Proof.
  unfold candidate_map, last_candidate. destruct (in_fingerprints_complete input); [|done].
  change (map ?f ?l) with (f <$> l). rewrite <-fmap_reverse. apply keyed_lookup.
Qed.

(** What a planned check says, by its definition. *)
Lemma plan_check_spec input d c :
  plan_check input d = Ok c →
  pc_check_id c = cd_check_id d ∧ pc_unit_id c = cd_unit_id d ∧ pc_command c = cd_command d ∧
  ck_inputs (pc_cache_key_inputs c) = in_fingerprints input ∧
  canonical_sha256 (to_json (cd_command d)) = Ok (ck_command (pc_cache_key_inputs c)) ∧
  cache_key_fingerprint (pc_cache_key_inputs c) = Ok (pc_cache_key c) ∧
  (pc_disposition c = Reuse ↔ is_Some (pc_source_validation_run_ref c)) ∧
  ∀ r, pc_source_validation_run_ref c = Some r
       ↔ evaluate_cache_reuse (pc_cache_key c) (candidate_map input !! cd_check_id d) = ReuseRun r.
Proof.
  unfold plan_check. intros Hp.
  destruct (canonical_sha256 (to_json (cd_command d))) as [command|]; [simpl in Hp|done].
  destruct (cache_key_fingerprint _) as [key|] eqn:Hk; [simpl in Hp|done].
  injection Hp as <-. simpl. rewrite Hk.
  destruct (evaluate_cache_reuse key _) as [r|reason]; split_and!; try done; try naive_solver.
Qed.

(** A built plan validates; its checks are the ones the input defines for the
    selected profile, each with its unit and its command, in strict order of
    their identifiers, and there is at least one. *)
Theorem planned_checks_exact input plan :
  build_validation_plan input = Ok plan →
  validate plan = Ok tt ∧ vp_checks plan ≠ [] ∧
  strictly_sorted (map pc_check_id (vp_checks plan)) ∧
  map (λ c, (pc_check_id c, pc_unit_id c, pc_command c)) (vp_checks plan)
  ≡ₚ map (λ d, (cd_check_id d, cd_unit_id d, cd_command d))
       (selected_checks input (ps_selected (vp_profile plan))).
Proof.
  intros (files & checks & fp & vid & vfp & Hf & Hc & Hplan & Hv)%build_inv.
  split; [done|]. destruct (validate_checks plan Hv) as [Hne Hs].
  split; [done|]. split; [done|]. subst plan. simpl in *.
  rewrite (sort_by_key_perm pc_check_id checks). apply map_result_Forall2 in Hc.
  change (selected_checks (with_files input files)) with (selected_checks input) in Hc.
  revert Hc. generalize (selected_checks input (selected_profile (with_files input files))).
  intros definitions Hc. match goal with |- ?l ≡ₚ ?r => enough (l = r) as -> by done end.
  clear -Hc. induction Hc as [|d c l l' Hd _ IH]; simpl; [done|].
  destruct (plan_check_spec _ _ _ Hd) as (-> & -> & -> & _). by rewrite IH.
Qed.

(** C25: a check is skipped exactly for the recorded success of the identical
    check: it reuses a run exactly when the inputs are complete and the last
    result recorded for the check is a valid, complete, stable, unsuppressed pass
    of this very document under the check's own key; and only the same inputs
    with the same command have that key, unless the hash collides. *)
Theorem reuse_is_exact input plan c :
  build_validation_plan input = Ok plan → c ∈ vp_checks plan →
  (pc_disposition c = Reuse ↔ is_Some (pc_source_validation_run_ref c)) ∧
  (∀ r, pc_source_validation_run_ref c = Some r
     ↔ in_fingerprints_complete input = true ∧
       ∃ candidate, last_candidate input (pc_check_id c) = Some candidate ∧
                    reusable (pc_cache_key c) candidate ∧
                    r = cc_validation_run_ref candidate) ∧
  (∀ k, cache_key_fingerprint k = Ok (pc_cache_key c) →
     ck_inputs k = in_fingerprints input
       ∧ canonical_sha256 (to_json (pc_command c)) = Ok (ck_command k)
     ∨ collision (to_json k) (to_json (pc_cache_key_inputs c))).
Proof.
  intros (files & checks & fp & vid & vfp & _ & Hc & -> & _)%build_inv Hin. simpl in Hin.
  rewrite (sort_by_key_perm pc_check_id checks) in Hin. apply map_result_Forall2 in Hc.
  apply list_elem_of_lookup in Hin as [i Hi].
  destruct (Forall2_lookup_r _ _ _ _ _ Hc Hi) as (d & _ & Hd).
  destruct (plan_check_spec _ _ _ Hd) as (Hid & _ & Hcmd & Hin & Hch & Hk & Hd1 & Hd2).
  split; [done|]. split.
  - intros r. rewrite Hd2, evaluate_exact, candidate_map_lookup, Hid. simpl.
    change (last_candidate (with_files input files)) with (last_candidate input).
    destruct (in_fingerprints_complete input); naive_solver.
  - intros k Hkk. destruct (hash_binds _ _ _ Hkk Hk) as [Heq|?]; [left|by right].
    apply to_json_inj in Heq as ->. by rewrite Hin, Hcmd.
Qed.

End reuse.

(** ** A planned change *)

Section witnesses.

Definition sample_fingerprints : ValidationInputFingerprintComponents := {|
  fp_revision := "r1"; fp_staged_diff := digest "s"; fp_unstaged_diff := digest "u";
  fp_untracked_content := digest "n"; fp_toolchain := digest "t"; fp_lockfile := digest "l";
  fp_project_manifest := digest "m"; fp_validation_scripts := digest "v";
  fp_config := digest "c"; fp_policy_schema_version := 1; fp_evidence_schema_version := 1 |}.

Definition sample_command : ValidationCommand := {|
  cm_executable := "cargo"; cm_args := ["test"]; cm_working_directory := ".";
  cm_expected_exit_codes := [0%Z] |}.

Definition sample_key : Sha256Hash :=
  match canonical_sha256 (to_json sample_command) with
  | Ok command =>
      match cache_key_fingerprint {| ck_inputs := sample_fingerprints; ck_command := command |} with
      | Ok key => key
      | Err _ => EmptyString
      end
  | Err _ => EmptyString
  end.

Definition sample_catalog (name : string) : CatalogRef :=
  {| cg_catalog_id := name; cg_format_version := 1; cg_item_version := "1.0.0";
     cg_sha256 := digest name |}.

Definition sample_producer : ProducerRef :=
  {| pr_component := "star"; pr_product_version := "1.0.0"; pr_build_id := "b";
     pr_platform := "windows" |}.

Definition sample_run : ValidationRun := {|
  vn_schema_version := 1; vn_validation_run_id := "vrn_1"; vn_revision := 1;
  vn_created_at := 0%Z; vn_updated_at := 9%Z;
  vn_producer := sample_producer;
  vn_extensions := ∅;
  vn_validation_plan_ref := {| dr_schema_id := "star.validation-plan"; dr_document_id := "vpl_1";
                               dr_revision := 1; dr_sha256 := digest "p" |};
  vn_check_ref := sample_catalog "tests"; vn_tool_ref := sample_catalog "cargo"; vn_attempt := 1;
  vn_invocation := {|
    ti_invocation_id := "inv_1"; ti_tool_ref := sample_catalog "cargo"; ti_executable := "cargo";
    ti_args := ["test"];
    ti_cwd := {| pa_project_id := "prj_1"; pa_path := "a"; pa_path_kind := PathDirectory |};
    ti_env_refs := ∅; ti_stdin_ref := None; ti_timeout_ms := 1000;
    ti_permission_action := "execute"; ti_idempotency_key := "k"; ti_expected_exit_codes := [0%Z];
    ti_output_limits := {| ol_stdout_bytes := 1; ol_stderr_bytes := 1; ol_artifact_bytes := 1 |} |};
  vn_started_at := Some 1%Z; vn_finished_at := Some 8%Z; vn_outcome := Pass;
  vn_completeness := Complete; vn_exit_code := Some 0%Z; vn_termination_reason := Some Exited;
  vn_diagnostic_refs := []; vn_stdout_ref := None; vn_stderr_ref := None;
  vn_result_artifact_refs := []; vn_observed_tool := None;
  vn_cache := Some {| vc_hit := false; vc_cache_key := sample_key;
                      vc_source_validation_run_ref := None |} |}.

Definition sample_run_ref : ValidationRunRef := {|
  vr_validation_run_id := "vrn_1"; vr_revision := 1;
  vr_sha256 := match canonical_sha256 (to_json sample_run) with
               | Ok h => h
               | Err _ => EmptyString
               end |}.

(** A public contract changed in unit [a], on which [c] depends through [b]. *)
Definition sample_input : ValidationPlanningInput := {|
  in_project_key := "project"; in_revision := "r1"; in_requested_profile := None;
  in_requested_unit := None; in_empty_change_required_profile := None;
  in_workspace_unit_id := "workspace";
  in_changed_files := [
    {| cf_path := "docs\readme.md"; cf_sources := [Unstaged; Staged];
       cf_change_class := Documentation; cf_direct_unit := Some "docs" |};
    {| cf_path := "api.rs"; cf_sources := [Staged]; cf_change_class := PublicContract;
       cf_direct_unit := Some "a" |}];
  in_dependencies := [
    {| ud_provider_unit_id := "b"; ud_consumer_unit_id := "c" |};
    {| ud_provider_unit_id := "a"; ud_consumer_unit_id := "b" |};
    {| ud_provider_unit_id := "b"; ud_consumer_unit_id := "a" |}];
  in_checks := [
    {| cd_profile := Full; cd_check_id := "tests"; cd_unit_id := "workspace";
       cd_command := sample_command; cd_selection_reason := "All tests." |};
    {| cd_profile := Quick; cd_check_id := "lint"; cd_unit_id := "workspace";
       cd_command := sample_command; cd_selection_reason := "Lints." |};
    {| cd_profile := Full; cd_check_id := "audit"; cd_unit_id := "workspace";
       cd_command := sample_command; cd_selection_reason := "Audit." |}];
  in_cache_candidates := [
    {| cc_check_id := "tests"; cc_cache_key := sample_key; cc_validation_run := sample_run;
       cc_validation_run_ref := sample_run_ref; cc_stability := Stable;
       cc_suppression_applied := false; cc_artifacts_available := true;
       cc_policy_schema_version := 1; cc_evidence_schema_version := 1 |}];
  in_fingerprints := sample_fingerprints; in_fingerprints_complete := true;
  in_impact_complete := true; in_repeated_failures := false |}.

(** The units, the checks and the reused run of the plan. *)
Example sample_plan :
  match build_validation_plan sample_input with
  | Ok plan =>
      (map au_unit_id (vp_direct_units plan),
       map (λ c, (pc_check_id c, pc_source_validation_run_ref c)) (vp_checks plan),
       ps_selected (vp_profile plan), vp_readiness plan, vp_independent_review plan)
      = (["a"; "b"; "c"; "docs"; "workspace"],
         [("audit", None); ("tests", Some sample_run_ref)], Full, Ready,
         {| rv_required := true; rv_triggers := [TriggerPublicContract] |})
  | Err _ => False
  end.
Proof. vm_compute. reflexivity. Qed.

Lemma sample_built : is_ok (build_validation_plan sample_input) = true.
Proof. vm_compute. reflexivity. Qed.

Lemma plan_profile_exact_witness :
  match build_validation_plan sample_input with
  | Ok plan => (rank (ps_selected (vp_profile plan)) <= rank Full)%N
  | Err _ => False
  end.
Proof.
  pose proof sample_built as Hb.
  destruct (build_validation_plan sample_input) as [plan|] eqn:Hp; [|done].
  apply (plan_profile_exact sample_input plan Full Hp). clear Hp. split_and!.
  - repeat constructor; simpl; lia.
  - done.
  - done.
  - simpl. lia.
Defined.

Lemma sample_settled : ¬ needs_human sample_input Full.
Proof.
  intros [?|[?|[?|Hex]]]; [done..|]. simpl in Hex.
  rewrite !Exists_cons, Exists_nil in Hex. by destruct Hex as [?|[?|?]].
Qed.

Lemma plan_review_exact_witness :
  match build_validation_plan sample_input with
  | Ok plan => vp_readiness plan = Ready
  | Err _ => False
  end.
Proof.
  pose proof sample_built as Hb.
  destruct (build_validation_plan sample_input) as [plan|] eqn:Hp; [|done].
  pose proof sample_plan as Hs. rewrite Hp in Hs. injection Hs as _ _ Hsel _ _.
  apply (plan_review_exact sample_input plan Hp). rewrite Hsel.
  exact sample_settled.
Defined.

Lemma sample_reaches :
  Exists (λ f, cf_change_class f = PublicContract
               ∧ rtc (depends (in_dependencies sample_input)) (unit_of sample_input f) "c")
    (in_changed_files sample_input).
Proof.
  simpl. apply Exists_cons_tl, Exists_cons_hd. split; [done|].
  apply (rtc_l _ _ "b"); [|apply rtc_once].
  - exists {| ud_provider_unit_id := "a"; ud_consumer_unit_id := "b" |}.
    split; [by right; left|done].
  - exists {| ud_provider_unit_id := "b"; ud_consumer_unit_id := "c" |}. split; [by left|done].
Qed.

Lemma plan_units_exact_witness :
  match build_validation_plan sample_input with
  | Ok plan => "c" ∈ map au_unit_id (vp_direct_units plan)
  | Err _ => False
  end.
Proof.
  pose proof sample_built as Hb.
  destruct (build_validation_plan sample_input) as [plan|] eqn:Hp; [|done].
  apply (plan_units_exact sample_input plan "c" Hp). right; left. exact sample_reaches.
Defined.

Lemma planned_checks_exact_witness :
  match build_validation_plan sample_input with
  | Ok plan => validate plan = Ok tt
  | Err _ => False
  end.
Proof.
  pose proof sample_built as Hb.
  destruct (build_validation_plan sample_input) as [plan|] eqn:Hp; [|done].
  apply (planned_checks_exact sample_input plan Hp).
Defined.

Lemma reused_in checks :
  map (λ c, (pc_check_id c, pc_source_validation_run_ref c)) checks
    = [("audit", None); ("tests", Some sample_run_ref)] →
  ∃ c, c ∈ checks ∧ pc_source_validation_run_ref c = Some sample_run_ref.
Proof.
  intros Hc.
  assert (("tests", Some sample_run_ref)
          ∈ map (λ c, (pc_check_id c, pc_source_validation_run_ref c)) checks)
    as (c & [= _ Hr] & Hin)%list_elem_of_fmap by (rewrite Hc; right; left).
  by exists c.
Qed.

Lemma reuse_is_exact_witness :
  match build_validation_plan sample_input with
  | Ok plan => ∃ c, c ∈ vp_checks plan ∧ pc_disposition c = Reuse
  | Err _ => False
  end.
Proof.
  pose proof sample_built as Hb.
  destruct (build_validation_plan sample_input) as [plan|] eqn:Hp; [|done].
  pose proof sample_plan as Hs. rewrite Hp in Hs. injection Hs as _ Hc _ _ _.
  destruct (reused_in _ Hc) as (c & Hin & Hr). exists c. split; [exact Hin|].
  apply (reuse_is_exact sample_input plan c Hp Hin). rewrite Hr. eexists. reflexivity.
Defined.

End witnesses.
