(* ===== verification/EvidenceSummary.v ===== *)
(** * The summary of complete evidence

    Models [compress_evidence_for_ai] of
    [crates/control/star-validation/src/planning.rs]: the checks that tie a gate,
    a bundle, its runs and its diagnostics together, and the summary made of
    them. *)
From S2P Require Import Prelude Canonical Contracts Evidence Validation ValidationPlan ValidationPlanning.

Record ValidationEvidenceRun := {
  xr_validation_run : ValidationRun;
  xr_validation_run_ref : ValidationRunRef
}.

Record ValidationEvidenceDiagnostic := {
  xd_diagnostic : Diagnostic;
  xd_diagnostic_ref : DiagnosticRef
}.

Record AiValidationRunSummary := {
  sr_validation_run_ref : ValidationRunRef;
  sr_check_id : string;
  sr_executable : string;
  sr_args : list string;
  sr_working_directory : string;
  sr_exit_code : option Z;
  sr_duration_ms : option N
}.

Record AiEvidenceSummary := {
  se_gate_state : AuthoritativeGateState;
  se_gate_decision_ref : GateDecisionRef;
  se_evidence_bundle_ref : EvidenceBundleRef;
  se_runs : list AiValidationRunSummary;
  se_duration_ms : option N;
  se_failure_summaries : list string;
  se_remaining_risk_count : N
}.

Inductive EvidenceCompressionError :=
| ReferenceMismatch | EvidenceIncomplete | GateInvalid | RunNotInBundle | DiagnosticNotInBundle
| CompressionReferenceMismatch.

#[global] Instance EvidenceCompressionError_eq_dec : EqDecision EvidenceCompressionError.
Proof. solve_decision. Defined.

(** Whole milliseconds as a [u64], toward zero. *)
Definition duration_ms (run : ValidationRun) : option N :=
  match vn_started_at run, vn_finished_at run with
  | Some started, Some finished =>
      let ms := Z.quot (finished - started) (10 ^ 6) in
      if (ms <? 0)%Z || (Z.of_N u64_max <? ms)%Z then None else Some (Z.to_N ms)
  | _, _ => None
  end.

Definition run_summary (item : ValidationEvidenceRun) : AiValidationRunSummary :=
  let run := xr_validation_run item in
  {| sr_validation_run_ref := xr_validation_run_ref item;
     sr_check_id := cg_catalog_id (vn_check_ref run);
     sr_executable := ti_executable (vn_invocation run);
     sr_args := ti_args (vn_invocation run);
     sr_working_directory := pa_path (ti_cwd (vn_invocation run));
     sr_exit_code := vn_exit_code run;
     sr_duration_ms := duration_ms run |}.

(** The sum of the durations when every run has one; a [u64] of a release
    build. *)
Fixpoint total_duration (durations : list (option N)) (acc : N) : option N :=
  match durations with
  | [] => Some acc
  | None :: _ => None
  | Some d :: rest => total_duration rest (wrapping_add u64_max acc d)
  end.

Definition is_failure (gate : GateDecision) (item : ValidationEvidenceDiagnostic) : bool :=
  let d := xd_diagnostic item in
  mem (xd_diagnostic_ref item) (ga_blocking_diagnostic_refs gate)
  || (bool_decide (dg_severity d = SeverityError) || bool_decide (dg_severity d = Critical))
     && negb (bool_decide (dg_status d = Resolved) || bool_decide (dg_status d = Suppressed)).

Definition failure_summary (item : ValidationEvidenceDiagnostic) : string :=
  let d := xd_diagnostic item in
  if blank (dg_title d) then cg_catalog_id (dg_rule_id d) else dg_title d.

Section summary.
Context `{Platform}.

Definition bad_run (item : ValidationEvidenceRun) : bool :=
  is_err (ValidationRun_validate (xr_validation_run item))
  || negb (validation_run_reference_matches (xr_validation_run item) (xr_validation_run_ref item)).

Definition bad_diagnostic (item : ValidationEvidenceDiagnostic) : bool :=
  is_err (Diagnostic_validate (xd_diagnostic item))
  || negb (diagnostic_reference_matches (xd_diagnostic item) (xd_diagnostic_ref item)).

Definition references_disagree (gate : GateDecision) (gate_ref : GateDecisionRef)
    (bundle : EvidenceBundle) (bundle_ref : EvidenceBundleRef) : bool :=
  negb (String.eqb (gd_gate_id gate_ref) (ga_gate_id gate))
  || negb (gd_revision gate_ref =? ga_revision gate)%N
  || wrong_fingerprint (canonical_sha256 (to_json gate)) (gd_sha256 gate_ref)
  || negb (String.eqb (er_evidence_bundle_id bundle_ref) (eb_evidence_bundle_id bundle))
  || negb (er_revision bundle_ref =? eb_revision bundle)%N
  || wrong_fingerprint (canonical_sha256 (to_json bundle)) (er_sha256 bundle_ref)
  || negb (bool_decide (eb_gate_decision_ref bundle = gate_ref)).

(** Two lists hold the same references, and the second holds none twice. *)
Definition same_references {A} `{Cmp A} `{EqDecision A} (bundle summary : list A) : bool :=
  bool_decide (sort_dedup bundle = sort_dedup summary)
  && (len (sort_dedup summary) =? len summary)%N.

Definition compress_evidence_for_ai (gate : GateDecision) (gate_ref : GateDecisionRef)
    (bundle : EvidenceBundle) (bundle_ref : EvidenceBundleRef)
    (runs : list ValidationEvidenceRun) (diagnostics : list ValidationEvidenceDiagnostic) :
    result AiEvidenceSummary EvidenceCompressionError :=
  check references_disagree gate gate_ref bundle bundle_ref else ReferenceMismatch in
  check negb (bool_decide (eb_completeness bundle = Complete))
    || is_err (EvidenceBundle_validate bundle)
  else EvidenceIncomplete in
  check existsb bad_run runs || existsb bad_diagnostic diagnostics
  else CompressionReferenceMismatch in
  check negb (same_references (eb_validation_run_refs bundle) (map xr_validation_run_ref runs))
  else RunNotInBundle in
  check negb (same_references (eb_diagnostic_refs bundle) (map xd_diagnostic_ref diagnostics))
  else DiagnosticNotInBundle in
  check is_err (validate_against gate (map xr_validation_run runs))
    || existsb (λ reference, negb (mem reference (eb_diagnostic_refs bundle)))
         (ga_blocking_diagnostic_refs gate)
  else GateInvalid in
  let summaries := map run_summary runs in
  Ok {| se_gate_state := authoritative_state gate;
        se_gate_decision_ref := gate_ref;
        se_evidence_bundle_ref := bundle_ref;
        se_runs := summaries;
        se_duration_ms := total_duration (map sr_duration_ms summaries) 0;
        se_failure_summaries := map failure_summary (List.filter (is_failure gate) diagnostics);
        se_remaining_risk_count := len (eb_remaining_risks bundle) |}.

End summary.
