(* ===== verification/GateFacts.v ===== *)
(** * What a gate and a summary of evidence rest on

    The check of a gate decision against its runs, and the summary that is made
    of a gate, a bundle and their documents. *)
From S2P Require Import Prelude Canonical Contracts Evidence Validation ValidationPlan.
From S2P Require Import ValidationPlanning ReverseConsumers ValidationFacts ValidationReuse.
From S2P Require Import EvidenceSummary Toy.

(** ** Sets of references *)

Lemma sort_dedup_len {A} `{EqDecision A} `{CmpLaws A} (l : list A) :
  (len (sort_dedup l) =? len l)%N = true ↔ NoDup l.
Proof.
  unfold len. rewrite N.eqb_eq, Nat2N.inj_iff. split; [apply sort_dedup_length_NoDup|].
  by intros ->%sort_dedup_NoDup_perm.
Qed.

Lemma same_references_spec {A} `{EqDecision A} `{CmpLaws A} (bundle summary : list A) :
  same_references bundle summary = true ↔ (∀ x, x ∈ bundle ↔ x ∈ summary) ∧ NoDup summary.
Proof.
  unfold same_references. by rewrite andb_true_iff, bool_decide_eq_true, sort_dedup_eq, sort_dedup_len.
Qed.

(** ** Gates *)

(** A run that carries the pinned identity and succeeded. *)
Definition earned_by (runs : list ValidationRun) (r : ValidationRunRef) : Prop :=
  ∃ run, run ∈ runs ∧ vn_validation_run_id run = vr_validation_run_id r
         ∧ vn_revision run = vr_revision r ∧ ValidationRun_validate run = Ok tt
         ∧ satisfies_required_check run = true.

Lemma satisfied_by_earned runs r : satisfied_by runs r = Ok tt → earned_by runs r.
Proof.
  unfold satisfied_by. destruct (find _ runs) as [run|] eqn:Hf; [|done]. simpl.
  apply find_some in Hf as [Hin [Hid Hrev]%andb_true_iff].
  apply list_elem_of_In in Hin. apply String.eqb_eq in Hid. apply N.eqb_eq in Hrev.
  destruct (ValidationRun_validate run) as [[]|] eqn:Hv; [|done].
  destruct (satisfies_required_check run) eqn:Hs; [|done]. intros _. by exists run.
Qed.

Record truthful (g : GateDecision) (runs : list ValidationRun) : Prop := {
  tr_satisfied : ∀ r, r ∈ ga_satisfied_run_refs g → r ∈ ga_required_run_refs g ∧ earned_by runs r;
  tr_auto : ga_decision g = AutoPass →
    (∀ r, r ∈ ga_required_run_refs g → earned_by runs r) ∧
    ga_blocking_diagnostic_refs g = [] ∧ ga_waivers g = []
}.

Lemma validate_against_truthful g runs : validate_against g runs = Ok tt → truthful g runs.
Proof.
  unfold validate_against. cbv zeta.
  destruct (validate_document _ _ _ _) as [[]|]; [|done]. intros Hg. next_check Hg.
  destruct (forallb _ _) eqn:Hsub; simpl in Hg; [|done].
  destruct (map_result (satisfied_by runs) _) as [us|] eqn:Hm; [|done].
  assert (∀ r, r ∈ ga_satisfied_run_refs g → earned_by runs r) as Hearned.
  { intros r [i Hi]%list_elem_of_lookup. apply map_result_Forall2 in Hm.
    destruct (Forall2_lookup_l _ _ _ _ _ Hm Hi) as ([] & _ & Hr). by apply satisfied_by_earned. }
  split.
  - intros r Hr. split; [|by apply Hearned]. rewrite forallb_true in Hsub.
    apply elem_of_sort_dedup, mem_true, Hsub. by apply elem_of_sort_dedup.
  - intros Ha. rewrite Ha in Hg. simpl in Hg. next_check Hg. next_check Hg.
    apply negb_false_iff, bool_decide_eq_true in Heqb0.
    apply orb_false_iff in Heqb1 as [Hb Hw].
    rewrite negb_false_iff, len_nil, bool_decide_eq_true in Hb.
    rewrite negb_false_iff, len_nil, bool_decide_eq_true in Hw.
    split; [|done]. intros r Hr. apply Hearned. by apply (proj1 (sort_dedup_eq _ _) Heqb0).
Qed.

(** The decision with its run references replaced. *)
Definition repin (pin : ValidationRunRef → ValidationRunRef) (g : GateDecision) : GateDecision :=
  {| ga_schema_version := ga_schema_version g;
     ga_gate_id := ga_gate_id g;
     ga_revision := ga_revision g;
     ga_created_at := ga_created_at g;
     ga_updated_at := ga_updated_at g;
     ga_producer := ga_producer g;
     ga_extensions := ga_extensions g;
     ga_scope := ga_scope g;
     ga_decision := ga_decision g;
     ga_required_run_refs := map pin (ga_required_run_refs g);
     ga_satisfied_run_refs := map pin (ga_satisfied_run_refs g);
     ga_blocking_diagnostic_refs := ga_blocking_diagnostic_refs g;
     ga_waivers := ga_waivers g;
     ga_omissions := ga_omissions g;
     ga_remaining_risks := ga_remaining_risks g;
     ga_policy_snapshot := ga_policy_snapshot g;
     ga_decided_by := ga_decided_by g |}.

Section repin.
Variable pin : ValidationRunRef → ValidationRunRef.
Hypothesis pin_inj : ∀ r r', pin r = pin r' → r = r'.
Hypothesis pin_same : ∀ r, vr_validation_run_id (pin r) = vr_validation_run_id r
                           ∧ vr_revision (pin r) = vr_revision r.

Lemma elem_of_map_pin r l : pin r ∈ map pin l ↔ r ∈ l.
Proof.
  rewrite list_elem_of_fmap. split; [|by exists r]. by intros (r' & ->%pin_inj & ?).
Qed.

Lemma repin_length l :
  (len (sort_dedup (map pin l)) =? len (map pin l))%N = (len (sort_dedup l) =? len l)%N.
Proof.
  apply eq_true_iff_eq. rewrite !sort_dedup_len. split; [apply NoDup_fmap_1|].
  apply NoDup_fmap_2. intros r r'. apply pin_inj.
Qed.

Lemma repin_subset l l' :
  forallb (λ r, mem r (sort_dedup (map pin l'))) (sort_dedup (map pin l))
  = forallb (λ r, mem r (sort_dedup l')) (sort_dedup l).
Proof.
  apply eq_true_iff_eq. rewrite !forallb_true. setoid_rewrite mem_true.
  setoid_rewrite elem_of_sort_dedup. split.
  - intros Hl r Hr. apply elem_of_map_pin, Hl. by apply elem_of_map_pin.
  - intros Hl ? (r & -> & Hr)%list_elem_of_fmap. by apply elem_of_map_pin, Hl.
Qed.

Lemma repin_equal l l' :
  bool_decide (sort_dedup (map pin l) = sort_dedup (map pin l'))
  = bool_decide (sort_dedup l = sort_dedup l').
Proof.
  apply bool_decide_ext. rewrite !sort_dedup_eq. split.
  - intros Hl r. by rewrite <-elem_of_map_pin, Hl, elem_of_map_pin.
  - intros Hl r. rewrite !list_elem_of_fmap. by setoid_rewrite Hl.
Qed.

Lemma repin_satisfied runs l :
  map_result (satisfied_by runs) (map pin l) = map_result (satisfied_by runs) l.
Proof.
  induction l as [|r l IH]; simpl; [done|]. rewrite IH. unfold satisfied_by.
  by destruct (pin_same r) as [-> ->].
Qed.

End repin.

(** The check of a gate decision does not look at the pinned hashes: however
    the hashes of the references are replaced, as long as different references
    stay different, the decision is accepted or refused as before. *)
Theorem pinned_hash_is_ignored pin g runs :
  (∀ r r', pin r = pin r' → r = r') →
  (∀ r, vr_validation_run_id (pin r) = vr_validation_run_id r
        ∧ vr_revision (pin r) = vr_revision r) →
  validate_against (repin pin g) runs = validate_against g runs.
Proof.
  intros Hinj Hsame. unfold validate_against. simpl.
  by rewrite !(repin_length pin), (repin_subset pin), (repin_satisfied pin), (repin_equal pin).
Qed.

(** ** Summaries *)

Section summary.
Context `{Platform}.

(** The bundle pins a run of the identity asked for, and the document behind the
    pin is a success. *)
Definition documented (bundle : EvidenceBundle) (runs : list ValidationEvidenceRun)
    (r : ValidationRunRef) : Prop :=
  ∃ item, item ∈ runs ∧ xr_validation_run_ref item ∈ eb_validation_run_refs bundle ∧
    vr_validation_run_id (xr_validation_run_ref item) = vr_validation_run_id r ∧
    vr_revision (xr_validation_run_ref item) = vr_revision r ∧
    canonical_sha256 (to_json (xr_validation_run item))
      = Ok (vr_sha256 (xr_validation_run_ref item)) ∧
    satisfies_required_check (xr_validation_run item) = true.

(** A document that is valid and is the one its reference pins: by identifier,
    by revision or number, and by hash. *)
Definition pinned_run (item : ValidationEvidenceRun) : Prop :=
  let run := xr_validation_run item in
  let ref := xr_validation_run_ref item in
  ValidationRun_validate run = Ok tt ∧ vr_validation_run_id ref = vn_validation_run_id run ∧
  vr_revision ref = vn_revision run ∧ canonical_sha256 (to_json run) = Ok (vr_sha256 ref).

Definition pinned_diagnostic (item : ValidationEvidenceDiagnostic) : Prop :=
  let diagnostic := xd_diagnostic item in
  let ref := xd_diagnostic_ref item in
  Diagnostic_validate diagnostic = Ok tt ∧ df_diagnostic_id ref = dg_diagnostic_id diagnostic ∧
  df_sequence ref = dg_sequence diagnostic ∧
  canonical_sha256 (to_json diagnostic) = Ok (df_sha256 ref).

Lemma pinned_diagnostic_intro item :
  Diagnostic_validate (xd_diagnostic item) = Ok tt →
  diagnostic_reference_matches (xd_diagnostic item) (xd_diagnostic_ref item) = true →
  pinned_diagnostic item.
Proof.
  unfold diagnostic_reference_matches.
  rewrite !andb_true_iff, negb_true_iff, wrong_fingerprint_false, String.eqb_eq, N.eqb_eq.
  by intros Hv [[? ?] ?].
Qed.

Lemma pinned_run_intro item :
  ValidationRun_validate (xr_validation_run item) = Ok tt →
  validation_run_reference_matches (xr_validation_run item) (xr_validation_run_ref item) = true →
  pinned_run item.
Proof. by intros Hv (? & ? & ?)%run_reference_matches. Qed.

(** What the checks of the summary establish. *)
Record summary_checks (gate : GateDecision) (gate_ref : GateDecisionRef)
    (bundle : EvidenceBundle) (bundle_ref : EvidenceBundleRef)
    (runs : list ValidationEvidenceRun) (diagnostics : list ValidationEvidenceDiagnostic) :
    Prop := {
  sk_gate : canonical_sha256 (to_json gate) = Ok (gd_sha256 gate_ref);
  sk_bundle : canonical_sha256 (to_json bundle) = Ok (er_sha256 bundle_ref);
  sk_bound : eb_gate_decision_ref bundle = gate_ref;
  sk_complete : eb_completeness bundle = Complete;
  sk_identity : gd_gate_id gate_ref = ga_gate_id gate ∧ gd_revision gate_ref = ga_revision gate ∧
    er_evidence_bundle_id bundle_ref = eb_evidence_bundle_id bundle ∧
    er_revision bundle_ref = eb_revision bundle;
  sk_run : ∀ item, item ∈ runs → pinned_run item;
  sk_diagnostic : ∀ item, item ∈ diagnostics → pinned_diagnostic item;
  sk_runs : (∀ r, r ∈ eb_validation_run_refs bundle ↔ r ∈ map xr_validation_run_ref runs) ∧
            NoDup (map xr_validation_run_ref runs);
  sk_diagnostics :
    (∀ d, d ∈ eb_diagnostic_refs bundle ↔ d ∈ map xd_diagnostic_ref diagnostics) ∧
    NoDup (map xd_diagnostic_ref diagnostics);
  sk_truthful : truthful gate (map xr_validation_run runs);
  sk_blocking : ∀ d, d ∈ ga_blocking_diagnostic_refs gate → d ∈ eb_diagnostic_refs bundle
}.

Lemma compress_checks gate gate_ref bundle bundle_ref runs diagnostics s :
  compress_evidence_for_ai gate gate_ref bundle bundle_ref runs diagnostics = Ok s →
  summary_checks gate gate_ref bundle bundle_ref runs diagnostics.
Proof.
  unfold compress_evidence_for_ai. intros Hc.
  destruct (references_disagree _ _ _ _) eqn:Hr; [done|]. next_check Hc.
  destruct (_ || existsb bad_diagnostic _) eqn:Hb; [done|].
  destruct (same_references (eb_validation_run_refs bundle) _) eqn:H1; simpl in Hc; [|done].
  destruct (same_references (eb_diagnostic_refs bundle) _) eqn:H2; simpl in Hc; [|done].
  destruct (_ || existsb _ (ga_blocking_diagnostic_refs gate)) eqn:Hg; [done|]. clear Hc.
  apply orb_false_iff in Hg as [Hg Hblock]. apply orb_false_iff in Hb as [Hb Hbd].
  apply orb_false_iff in Heqb as [Hcomp _]. unfold references_disagree in Hr.
  rewrite !orb_false_iff, !negb_false_iff, !String.eqb_eq, !N.eqb_eq in Hr.
  destruct Hr as [[[[[[Hgi Hgr] Hgate] Hbi] Hbr] Hbundle] Hbound].
  split.
  - by apply wrong_fingerprint_false.
  - by apply wrong_fingerprint_false.
  - by apply bool_decide_eq_true in Hbound.
  - by apply negb_false_iff, bool_decide_eq_true in Hcomp.
  - by split_and!.
  - intros item Hin. rewrite existsb_false in Hb. specialize (Hb item Hin). unfold bad_run in Hb.
    apply orb_false_iff in Hb as [Hv Hm]. apply pinned_run_intro; [|by apply negb_false_iff].
    by destruct (ValidationRun_validate _) as [[]|].
  - intros item Hin. rewrite existsb_false in Hbd. specialize (Hbd item Hin).
    unfold bad_diagnostic in Hbd. apply orb_false_iff in Hbd as [Hv Hm].
    apply pinned_diagnostic_intro; [|by apply negb_false_iff].
    by destruct (Diagnostic_validate _) as [[]|].
  - by apply same_references_spec.
  - by apply same_references_spec.
  - apply validate_against_truthful. by destruct (validate_against _ _) as [[]|].
  - intros d Hd. rewrite existsb_false in Hblock. by apply mem_true, negb_false_iff, Hblock.
Qed.

Lemma compress_summary gate gate_ref bundle bundle_ref runs diagnostics s :
  compress_evidence_for_ai gate gate_ref bundle bundle_ref runs diagnostics = Ok s →
  s = {| se_gate_state := authoritative_state gate;
         se_gate_decision_ref := gate_ref;
         se_evidence_bundle_ref := bundle_ref;
         se_runs := map run_summary runs;
         se_duration_ms := total_duration (map sr_duration_ms (map run_summary runs)) 0;
         se_failure_summaries := map failure_summary (List.filter (is_failure gate) diagnostics);
         se_remaining_risk_count := len (eb_remaining_risks bundle) |}.
Proof. unfold compress_evidence_for_ai. intros Hc. do 6 next_check Hc. by injection Hc as <-. Qed.

Lemma failure_listed gate diagnostics item :
  item ∈ diagnostics → is_failure gate item = true →
  failure_summary item ∈ map failure_summary (List.filter (is_failure gate) diagnostics).
Proof.
  intros Hin Hf. apply list_elem_of_fmap. exists item. split; [done|].
  apply list_elem_of_In, filter_In. by rewrite <-list_elem_of_In.
Qed.

Lemma earned_documented gate gate_ref bundle bundle_ref runs diagnostics r :
  summary_checks gate gate_ref bundle bundle_ref runs diagnostics →
  earned_by (map xr_validation_run runs) r → documented bundle runs r.
Proof.
  intros Hs (run & (item & -> & Hin)%list_elem_of_fmap & Hid & Hrev & _ & Hsat).
  destruct (sk_run _ _ _ _ _ _ Hs item Hin) as (_ & Hid' & Hrev' & Hh).
  exists item. split_and!; [done| |congruence|congruence|done|done].
  apply (sk_runs _ _ _ _ _ _ Hs), list_elem_of_fmap. by exists item.
Qed.

(** C26: a summary rests on the documents it names: it carries the state of the
    gate; the gate, the complete bundle, every run and every diagnostic are the
    ones their references pin, by identifier, revision and hash, the runs and the
    diagnostics are valid, and they are exactly those of the bundle, none twice;
    every satisfied run of the gate
    is documented by a successful run of the bundle, and so is every required
    one when the gate passed, which then blocks and waives nothing; every
    blocking diagnostic, and every unresolved error of the bundle, is in the
    summary of failures. *)
Theorem summary_rests_on_evidence gate gate_ref bundle bundle_ref runs diagnostics s :
  compress_evidence_for_ai gate gate_ref bundle bundle_ref runs diagnostics = Ok s →
  se_gate_state s = authoritative_state gate ∧
  (gd_gate_id gate_ref = ga_gate_id gate ∧ gd_revision gate_ref = ga_revision gate ∧
   er_evidence_bundle_id bundle_ref = eb_evidence_bundle_id bundle ∧
   er_revision bundle_ref = eb_revision bundle) ∧
  canonical_sha256 (to_json gate) = Ok (gd_sha256 gate_ref) ∧
  canonical_sha256 (to_json bundle) = Ok (er_sha256 bundle_ref) ∧
  se_gate_decision_ref s = gate_ref ∧ se_evidence_bundle_ref s = bundle_ref ∧
  eb_gate_decision_ref bundle = gate_ref ∧ eb_completeness bundle = Complete ∧
  (∀ item, item ∈ runs → pinned_run item) ∧
  (∀ item, item ∈ diagnostics → pinned_diagnostic item) ∧
  (∀ d, d ∈ eb_diagnostic_refs bundle ↔ d ∈ map xd_diagnostic_ref diagnostics) ∧
  NoDup (map xd_diagnostic_ref diagnostics) ∧ NoDup (map sr_validation_run_ref (se_runs s)) ∧
  map sr_validation_run_ref (se_runs s) = map xr_validation_run_ref runs ∧
  (∀ r, r ∈ eb_validation_run_refs bundle ↔ r ∈ map sr_validation_run_ref (se_runs s)) ∧
  (∀ r, r ∈ ga_satisfied_run_refs gate → documented bundle runs r) ∧
  (se_gate_state s = Passed →
     (∀ r, r ∈ ga_required_run_refs gate → documented bundle runs r) ∧
     ga_blocking_diagnostic_refs gate = [] ∧ ga_waivers gate = []) ∧
  (∀ d, d ∈ ga_blocking_diagnostic_refs gate →
     ∃ item, item ∈ diagnostics ∧ xd_diagnostic_ref item = d
             ∧ failure_summary item ∈ se_failure_summaries s) ∧
  (∀ item, item ∈ diagnostics → dg_severity (xd_diagnostic item) ∈ [SeverityError; Critical] →
     dg_status (xd_diagnostic item) ∉ [Resolved; Suppressed] →
     failure_summary item ∈ se_failure_summaries s).
Proof.
  intros Hc. pose proof (compress_checks _ _ _ _ _ _ _ Hc) as Hs.
  pose proof (compress_summary _ _ _ _ _ _ _ Hc) as ->. simpl.
  assert (map sr_validation_run_ref (map run_summary runs) = map xr_validation_run_ref runs)
    as Hruns by by rewrite map_map.
  rewrite Hruns. destruct (sk_truthful _ _ _ _ _ _ Hs) as [Hsat Hauto].
  split_and!; try done; try apply Hs.
  - intros r Hr. by eapply earned_documented, Hsat.
  - intros Hp. destruct Hauto as (Hreq & Hb & Hw).
    { unfold authoritative_state in Hp. by destruct (ga_decision gate). }
    split_and!; [|done|done]. intros r Hr. by eapply earned_documented, Hreq.
  - intros d Hd. pose proof (sk_blocking _ _ _ _ _ _ Hs d Hd) as Hin.
    apply (sk_diagnostics _ _ _ _ _ _ Hs) in Hin as (item & -> & Hin)%list_elem_of_fmap.
    exists item. split_and!; [done|done|]. apply failure_listed; [done|].
    unfold is_failure. apply orb_true_iff. left. by apply mem_true.
  - intros item Hin Hsev Hst. apply failure_listed; [done|]. unfold is_failure.
    rewrite !elem_of_cons, elem_of_nil in Hsev. rewrite !elem_of_cons, elem_of_nil in Hst.
    apply orb_true_iff; right. apply andb_true_iff. split.
    + apply orb_true_iff. destruct Hsev as [->|[->|[]]]; auto.
    + apply negb_true_iff, orb_false_iff. split; apply bool_decide_eq_false; tauto.
Qed.

End summary.

(** ** A gate that passes on one run *)

Section witnesses.

Definition sample_document (name : string) : DocumentRef :=
  {| dr_schema_id := name; dr_document_id := "d"; dr_revision := 1; dr_sha256 := digest name |}.

Definition sample_gate : GateDecision := {|
  ga_schema_version := 1; ga_gate_id := "gat_1"; ga_revision := 1; ga_created_at := 0%Z;
  ga_updated_at := 0%Z; ga_producer := sample_producer; ga_extensions := ∅;
  ga_scope := GateMerge "prj_1" 1; ga_decision := AutoPass;
  ga_required_run_refs := [sample_run_ref]; ga_satisfied_run_refs := [sample_run_ref];
  ga_blocking_diagnostic_refs := []; ga_waivers := []; ga_omissions := [];
  ga_remaining_risks := [];
  ga_policy_snapshot := {| gp_policy_ref := sample_document "policy";
                           gp_policy_sha256 := digest "policy"; gp_thresholds := ∅ |};
  ga_decided_by := {| ac_actor_type := ActorSystem; ac_actor_id := "a"; ac_display_name := "A";
                      ac_auth_source := "local" |} |}.

Definition hash_of (j : Json) : Sha256Hash :=
  match canonical_sha256 j with Ok h => h | Err _ => EmptyString end.

Definition sample_gate_ref : GateDecisionRef :=
  {| gd_gate_id := "gat_1"; gd_revision := 1; gd_sha256 := hash_of (to_json sample_gate) |}.

Definition sample_file : ArtifactRef :=
  mk_ArtifactRef "art_1" Report None "changes.json" "application/json" 1 (digest "f") 0
    sample_producer NotNeeded RetainEvidence None.

Definition sample_bundle : EvidenceBundle := {|
  eb_schema_version := 1; eb_evidence_bundle_id := "evb_1"; eb_revision := 1;
  eb_created_at := 0%Z; eb_updated_at := 0%Z; eb_producer := sample_producer;
  eb_extensions := ∅; eb_goal_spec_ref := sample_document "goal";
  eb_stage_graph_ref := sample_document "graph";
  eb_final_revision_ref := sample_document "final"; eb_stage_evidence := [];
  eb_change_evidence := {| ce_before_fingerprint := digest "b"; ce_after_fingerprint := digest "a";
                           ce_change_set_ref := sample_document "changes";
                           ce_changed_files_ref := sample_file |};
  eb_validation_plan_refs := []; eb_validation_run_refs := [sample_run_ref];
  eb_diagnostic_refs := []; eb_gate_decision_ref := sample_gate_ref; eb_event_ranges := [];
  eb_cost_record_refs := []; eb_unmeasured_usage := []; eb_merge_result_ref := None;
  eb_remaining_risks := []; eb_handoff_ref := None;
  eb_artifact_manifest := {| af_manifest_ref := sample_file; af_artifacts := [] |};
  eb_completeness := Complete; eb_missing_reasons := [] |}.

Definition sample_bundle_ref : EvidenceBundleRef :=
  {| er_evidence_bundle_id := "evb_1"; er_revision := 1;
     er_sha256 := hash_of (to_json sample_bundle) |}.

Definition sample_evidence_run : ValidationEvidenceRun :=
  {| xr_validation_run := sample_run; xr_validation_run_ref := sample_run_ref |}.

Lemma sample_summarized :
  match compress_evidence_for_ai sample_gate sample_gate_ref sample_bundle sample_bundle_ref
          [sample_evidence_run] [] with
  | Ok s => se_gate_state s = Passed
  | Err _ => False
  end.
Proof. vm_compute. reflexivity. Qed.

Lemma summary_rests_on_evidence_witness :
  match compress_evidence_for_ai sample_gate sample_gate_ref sample_bundle sample_bundle_ref
          [sample_evidence_run] [] with
  | Ok s => documented sample_bundle [sample_evidence_run] sample_run_ref
  | Err _ => False
  end.
Proof.
  pose proof sample_summarized as Hp.
  destruct (compress_evidence_for_ai _ _ _ _ _ _) as [s|] eqn:Hs; [|exact Hp].
  pose proof (summary_rests_on_evidence _ _ _ _ _ _ _ Hs) as (_&_&_&_&_&_&_&_&_&_&_&_&_&_&_&_&Hpass&_).
  apply (Hpass Hp). left.
Defined.

(** A reference to another document under the same identity. *)
Definition forged (r : ValidationRunRef) : ValidationRunRef :=
  {| vr_validation_run_id := vr_validation_run_id r; vr_revision := vr_revision r;
     vr_sha256 := String "x" (vr_sha256 r) |}.

Lemma pinned_hash_is_ignored_witness :
  forged sample_run_ref ≠ sample_run_ref ∧
  validate_against (repin forged sample_gate) [sample_run]
    = validate_against sample_gate [sample_run].
Proof.
  split.
  - intros Heq%(f_equal vr_sha256). revert Heq. by vm_compute.
  - apply (pinned_hash_is_ignored forged sample_gate [sample_run]).
    + intros [] [] [=]. by subst.
    + by intros [].
Defined.

End witnesses.
