(* ===== verification/PermissionPlan.v ===== *)
(** * Permission plans

    Models [crates/foundation/star-contracts/src/permission_plan.rs]: the policy
    a stage runs under, its normalization and sealing, and the questions it
    answers.  Paths are [ProjectPathRef] of [management.rs], transparent
    strings. *)
From S2P Require Import Prelude Canonical Contracts Validation.

Definition PERMISSION_PLAN_SCHEMA_ID : string := "star.permission-plan".
Definition PERMISSION_PLAN_CONTRACT_VERSION : N := 1.

Inductive PermissionDecisionV1 := Auto | Prompt | Deny.

#[global] Instance PermissionDecisionV1_eq_dec : EqDecision PermissionDecisionV1.
Proof. solve_decision. Defined.
#[global] Instance PermissionDecisionV1_to_json : ToJson PermissionDecisionV1 := λ d,
  JStr match d with Auto => "auto" | Prompt => "prompt" | Deny => "deny" end.

Inductive PathPermissionKindV1 :=
| AllowRead | DenyRead | AllowWrite | DenyWrite | DenyExternalTransfer.

Definition PathPermissionKindV1_index (k : PathPermissionKindV1) : N :=
  match k with
  | AllowRead => 0 | DenyRead => 1 | AllowWrite => 2 | DenyWrite => 3 | DenyExternalTransfer => 4
  end.

#[global] Instance PathPermissionKindV1_eq_dec : EqDecision PathPermissionKindV1.
Proof. solve_decision. Defined.
#[global] Instance PathPermissionKindV1_cmp : Cmp PathPermissionKindV1 :=
  cmp_on PathPermissionKindV1_index.
#[global] Instance PathPermissionKindV1_cmp_laws : CmpLaws PathPermissionKindV1.
Proof. apply cmp_on_laws. by intros [] []. Qed.
#[global] Instance PathPermissionKindV1_to_json : ToJson PathPermissionKindV1 := λ k,
  JStr match k with
       | AllowRead => "allow_read" | DenyRead => "deny_read" | AllowWrite => "allow_write"
       | DenyWrite => "deny_write" | DenyExternalTransfer => "deny_external_transfer"
       end.

Record PermissionPathRuleV1 := {
  pt_project_id : ProjectId;
  pt_path_prefix : option string;
  pt_kind : PathPermissionKindV1;
  pt_reason : string
}.

Record PermissionProcessRuleV1 := {
  px_executable_sha256 : Sha256Hash;
  px_argument_prefix : list string;
  px_cwd_project_id : ProjectId;
  px_cwd_prefix : option string;
  px_allow_child_processes : bool
}.

Record PermissionNetworkRuleV1 := {
  nw_target : string;
  nw_operation : string;
  nw_decision : PermissionDecisionV1
}.

Record PermissionEnvironmentRuleV1 := {
  nv_name : string;
  nv_secret_ref_kind : option string;
  nv_decision : PermissionDecisionV1
}.

Record PaidActionRulesV1 := {
  pd_evidence_basis : list string;
  pd_unknown_cost_decision : PermissionDecisionV1;
  pd_measured_limit : option N
}.

Record PermissionExternalConstraintsV1 := {
  xc_codex_approval_required : bool;
  xc_codex_approval_policy : string;
  xc_codex_sandbox_mode : string;
  xc_administrator_required : bool;
  xc_limitations : list string
}.

#[global] Instance PermissionPathRuleV1_eq_dec : EqDecision PermissionPathRuleV1.
Proof. solve_decision. Defined.
#[global] Instance PermissionProcessRuleV1_eq_dec : EqDecision PermissionProcessRuleV1.
Proof. solve_decision. Defined.
#[global] Instance PermissionNetworkRuleV1_eq_dec : EqDecision PermissionNetworkRuleV1.
Proof. solve_decision. Defined.
#[global] Instance PermissionEnvironmentRuleV1_eq_dec : EqDecision PermissionEnvironmentRuleV1.
Proof. solve_decision. Defined.
#[global] Instance PaidActionRulesV1_eq_dec : EqDecision PaidActionRulesV1.
Proof. solve_decision. Defined.
#[global] Instance PermissionExternalConstraintsV1_eq_dec :
  EqDecision PermissionExternalConstraintsV1.
Proof. solve_decision. Defined.
#[global] Instance CatalogRef_eq_dec : EqDecision CatalogRef.
Proof. solve_decision. Defined.

#[global] Instance PermissionPathRuleV1_to_json : ToJson PermissionPathRuleV1 := λ r, JObj (present
  [field "project_id" (pt_project_id r); opt_field "path_prefix" (pt_path_prefix r);
   field "kind" (pt_kind r); field "reason" (pt_reason r)]).
#[global] Instance PermissionProcessRuleV1_to_json : ToJson PermissionProcessRuleV1 := λ r,
  JObj (present
    [field "executable_sha256" (px_executable_sha256 r);
     field "argument_prefix" (px_argument_prefix r);
     field "cwd_project_id" (px_cwd_project_id r); opt_field "cwd_prefix" (px_cwd_prefix r);
     field "allow_child_processes" (px_allow_child_processes r)]).
#[global] Instance PermissionNetworkRuleV1_to_json : ToJson PermissionNetworkRuleV1 := λ r,
  JObj [("target", to_json (nw_target r)); ("operation", to_json (nw_operation r));
        ("decision", to_json (nw_decision r))].
#[global] Instance PermissionEnvironmentRuleV1_to_json : ToJson PermissionEnvironmentRuleV1 := λ r,
  JObj (present
    [field "name" (nv_name r); opt_field "secret_ref_kind" (nv_secret_ref_kind r);
     field "decision" (nv_decision r)]).
#[global] Instance PaidActionRulesV1_to_json : ToJson PaidActionRulesV1 := λ r,
  JObj [("evidence_basis", to_json (pd_evidence_basis r));
        ("unknown_cost_decision", to_json (pd_unknown_cost_decision r));
        ("measured_limit", to_json (pd_measured_limit r))].
#[global] Instance PermissionExternalConstraintsV1_to_json :
  ToJson PermissionExternalConstraintsV1 := λ c,
  JObj [("codex_approval_required", to_json (xc_codex_approval_required c));
        ("codex_approval_policy", to_json (xc_codex_approval_policy c));
        ("codex_sandbox_mode", to_json (xc_codex_sandbox_mode c));
        ("administrator_required", to_json (xc_administrator_required c));
        ("limitations", to_json (xc_limitations c))].

Record PermissionPlanV1 := {
  pp_schema_id : string;
  pp_schema_version : N;
  pp_permission_plan_id : string;
  pp_revision : N;
  pp_goal_id : GoalId;
  pp_run_id : RunId;
  pp_stage_id : StageId;
  pp_stage_revision : N;
  pp_stage_scope_hash : Sha256Hash;
  pp_policy_profile_ref : CatalogRef;
  pp_default_action : PermissionDecisionV1;
  pp_action_policies : gmap string PermissionDecisionV1;
  pp_path_rules : list PermissionPathRuleV1;
  pp_process_rules : list PermissionProcessRuleV1;
  pp_network_rules : list PermissionNetworkRuleV1;
  pp_environment_rules : list PermissionEnvironmentRuleV1;
  pp_paid_action_rules : PaidActionRulesV1;
  pp_external_constraints : PermissionExternalConstraintsV1;
  pp_effective_config_ref : DocumentRef;
  pp_created_at : DateTime;
  pp_expires_at : DateTime;
  pp_scope_hash : Sha256Hash;
  pp_plan_fingerprint : Sha256Hash
}.

#[global] Instance PermissionPlanV1_eq_dec : EqDecision PermissionPlanV1.
Proof. solve_decision. Defined.

Inductive PermissionPlanError := Identity | Rules | PaidUnknown | PermissionFingerprint.

#[global] Instance PermissionPlanError_eq_dec : EqDecision PermissionPlanError.
Proof. solve_decision. Defined.

(** ** Questions *)

Definition is_current_at (p : PermissionPlanV1) (now : DateTime) : bool :=
  (pp_created_at p <=? now)%Z && (now <? pp_expires_at p)%Z.

Definition permission_decision (p : PermissionPlanV1) (action_id : string) : PermissionDecisionV1 :=
  default (pp_default_action p) (pp_action_policies p !! action_id).

Definition path_contains (allowed observed : option string) : bool :=
  match allowed, observed with
  | None, _ => true
  | Some _, None => false
  | Some allowed, Some observed =>
      String.eqb observed allowed
      || is_some_and (strip_prefix allowed observed)
           (λ suffix, starts_with_char (byte_in ["/"%char]) suffix)
  end.

(** [arguments.starts_with(prefix)]. *)
Definition starts_with_args (prefix arguments : list string) : bool :=
  bool_decide (prefix `prefix_of` arguments).

Definition allows_process (p : PermissionPlanV1) (executable_sha256 : Sha256Hash)
    (project_id : ProjectId) (relative_cwd : option string) (arguments : list string)
    (child_processes_required : bool) : bool :=
  existsb (λ rule,
    String.eqb (px_executable_sha256 rule) executable_sha256
    && String.eqb (px_cwd_project_id rule) project_id
    && path_contains (px_cwd_prefix rule) relative_cwd
    && starts_with_args (px_argument_prefix rule) arguments
    && (negb child_processes_required || px_allow_child_processes rule)) (pp_process_rules p).

Definition allowed_environment_names (p : PermissionPlanV1) : list string :=
  map nv_name (List.filter (λ rule, negb (bool_decide (nv_decision rule = Deny)))
                 (pp_environment_rules p)).

(** ** Normalization *)

Definition path_rule_key (r : PermissionPathRuleV1) :
    string * (option string * PathPermissionKindV1) :=
  (pt_project_id r, (pt_path_prefix r, pt_kind r)).

Definition process_rule_key (r : PermissionProcessRuleV1) :
    string * (option string * (string * list string)) :=
  (px_cwd_project_id r, (px_cwd_prefix r, (px_executable_sha256 r, px_argument_prefix r))).

Definition network_rule_key (r : PermissionNetworkRuleV1) : string * string :=
  (nw_target r, nw_operation r).

(** The kinds grouped under the project and the prefix of a rule. *)
Definition kinds_at (rules : list PermissionPathRuleV1) (r : PermissionPathRuleV1) :
    list PathPermissionKindV1 :=
  map pt_kind (List.filter (λ x, bool_decide (pt_project_id x = pt_project_id r)
                                 && bool_decide (pt_path_prefix x = pt_path_prefix r)) rules).

Definition kinds_conflict (kinds : list PathPermissionKindV1) : bool :=
  mem AllowRead kinds && mem DenyRead kinds || mem AllowWrite kinds && mem DenyWrite kinds.

Definition eq_ignore_ascii_case (a b : string) : bool :=
  String.eqb (to_ascii_lowercase a) (to_ascii_lowercase b).

Definition normalize_strings (values : list string) (max_items : N) :
    result (list string) PermissionPlanError :=
  let values := sort_dedup values in
  check (max_items <? len values)%N || existsb (λ v, negb (bounded_text v 1024)) values else Rules in
  Ok values.

Definition normalize_path_rules (rules : list PermissionPathRuleV1) :
    result (list PermissionPathRuleV1) PermissionPlanError :=
  let rules := sort_by_key path_rule_key rules in
  check keyed_conflict path_rule_key rules else Rules in
  check existsb (λ r, kinds_conflict (kinds_at rules r)) rules else Rules in
  Ok (dedup rules).

Definition normalize_process_rules (rules : list PermissionProcessRuleV1) :
    result (list PermissionProcessRuleV1) PermissionPlanError :=
  let rules := sort_by_key process_rule_key rules in
  check keyed_conflict process_rule_key rules else Rules in
  Ok (dedup rules).

Definition normalize_network_rules (rules : list PermissionNetworkRuleV1) :
    result (list PermissionNetworkRuleV1) PermissionPlanError :=
  let rules := sort_by_key network_rule_key rules in
  check keyed_conflict network_rule_key rules else Rules in
  Ok (dedup rules).

Definition normalize_environment_rules (rules : list PermissionEnvironmentRuleV1) :
    result (list PermissionEnvironmentRuleV1) PermissionPlanError :=
  let rules := sort_by_key nv_name rules in
  check windows2_any (λ a b, eq_ignore_ascii_case (nv_name a) (nv_name b)) rules else Rules in
  Ok rules.

Definition with_evidence_basis (r : PaidActionRulesV1) (basis : list string) : PaidActionRulesV1 :=
  {| pd_evidence_basis := basis;
     pd_unknown_cost_decision := pd_unknown_cost_decision r;
     pd_measured_limit := pd_measured_limit r |}.

Definition with_limitations (c : PermissionExternalConstraintsV1) (limitations : list string) :
    PermissionExternalConstraintsV1 :=
  {| xc_codex_approval_required := xc_codex_approval_required c;
     xc_codex_approval_policy := xc_codex_approval_policy c;
     xc_codex_sandbox_mode := xc_codex_sandbox_mode c;
     xc_administrator_required := xc_administrator_required c;
     xc_limitations := limitations |}.

Definition environment_name (value : string) : bool :=
  negb (is_empty value) && (slen value <=? 128)%N
  && bytes_all (λ b, is_ascii_alphanumeric b || byte_in ["_"%char] b) value.

Definition bad_path_rule (r : PermissionPathRuleV1) : bool :=
  is_some_and (pt_path_prefix r) (λ path, negb (bounded_text path 4096))
  || negb (bounded_text (pt_reason r) 1024).

Definition bad_environment_rule (r : PermissionEnvironmentRuleV1) : bool :=
  negb (environment_name (nv_name r))
  || is_some_and (nv_secret_ref_kind r) (λ kind, negb (bounded_token kind 128)).

(** [num_hours], toward zero. *)
Definition num_hours (from until : DateTime) : Z := Z.quot (until - from) (3600 * 10 ^ 9).

Section permission.
Context `{Platform}.

Definition catalog_ref (reference : CatalogRef) : bool :=
  bounded_token (cg_catalog_id reference) 192
  && (0 <? cg_format_version reference)%N
  && bounded_token (cg_item_version reference) 96
  && negb (String.eqb (cg_sha256 reference) (digest EmptyString)).

Definition bad_process_rule (r : PermissionProcessRuleV1) : bool :=
  String.eqb (px_executable_sha256 r) (digest EmptyString)
  || (len (px_argument_prefix r) =? 0)%N
  || (32 <? len (px_argument_prefix r))%N
  || existsb (λ argument, negb (bounded_text argument 512)) (px_argument_prefix r)
  || is_some_and (px_cwd_prefix r) (λ path, negb (bounded_text path 4096)).

Definition bad_identity (p : PermissionPlanV1) : bool :=
  negb (String.eqb (pp_schema_id p) PERMISSION_PLAN_SCHEMA_ID)
  || negb (pp_schema_version p =? PERMISSION_PLAN_CONTRACT_VERSION)%N
  || (pp_revision p =? 0)%N
  || (pp_stage_revision p =? 0)%N
  || (pp_expires_at p <=? pp_created_at p)%Z
  || (24 <? num_hours (pp_created_at p) (pp_expires_at p))%Z
  || String.eqb (pp_stage_scope_hash p) (digest EmptyString)
  || negb (catalog_ref (pp_policy_profile_ref p))
  || negb (valid_document_ref (pp_effective_config_ref p) "star.effective-config").

Definition bad_rules (p : PermissionPlanV1) : bool :=
  let actions := btree_entries (pp_action_policies p) in
  (len actions =? 0)%N
  || (256 <? len actions)%N
  || existsb (λ e : string * PermissionDecisionV1, negb (bounded_token e.1 128)) actions
  || (1024 <? len (pp_path_rules p))%N
  || (128 <? len (pp_process_rules p))%N
  || (128 <? len (pp_network_rules p))%N
  || (128 <? len (pp_environment_rules p))%N
  || existsb bad_path_rule (pp_path_rules p)
  || existsb bad_process_rule (pp_process_rules p)
  || existsb (λ r, negb (bounded_text (nw_target r) 512) || negb (bounded_token (nw_operation r) 128))
       (pp_network_rules p)
  || existsb bad_environment_rule (pp_environment_rules p)
  || negb (bounded_token (xc_codex_approval_policy (pp_external_constraints p)) 96)
  || negb (bounded_token (xc_codex_sandbox_mode (pp_external_constraints p)) 96).

Definition validate_permission_shape (p : PermissionPlanV1) : result unit PermissionPlanError :=
  check bad_identity p else Identity in
  check bad_rules p else Rules in
  check bool_decide (pd_unknown_cost_decision (pp_paid_action_rules p) = Auto) else PaidUnknown in
  Ok tt.

Definition scope_payload (p : PermissionPlanV1) : Json :=
  JObj [("domain", JStr "star.permission-scope");
        ("version", to_json PERMISSION_PLAN_CONTRACT_VERSION);
        ("value", JObj
          [("goal_id", to_json (pp_goal_id p)); ("run_id", to_json (pp_run_id p));
           ("stage_id", to_json (pp_stage_id p));
           ("stage_revision", to_json (pp_stage_revision p));
           ("stage_scope_hash", to_json (pp_stage_scope_hash p));
           ("policy_profile_ref", to_json (pp_policy_profile_ref p));
           ("default_action", to_json (pp_default_action p));
           ("action_policies", to_json (pp_action_policies p));
           ("path_rules", to_json (pp_path_rules p));
           ("process_rules", to_json (pp_process_rules p));
           ("network_rules", to_json (pp_network_rules p));
           ("environment_rules", to_json (pp_environment_rules p));
           ("paid_action_rules", to_json (pp_paid_action_rules p));
           ("external_constraints", to_json (pp_external_constraints p));
           ("effective_config_ref", to_json (pp_effective_config_ref p))])].

Definition permission_payload (p : PermissionPlanV1) (scope_hash : Sha256Hash) : Json :=
  JObj [("domain", JStr PERMISSION_PLAN_SCHEMA_ID);
        ("version", to_json PERMISSION_PLAN_CONTRACT_VERSION);
        ("value", JObj
          [("permission_plan_id", to_json (pp_permission_plan_id p));
           ("revision", to_json (pp_revision p)); ("scope_hash", to_json scope_hash);
           ("created_at", to_json (rfc3339 (pp_created_at p)));
           ("expires_at", to_json (rfc3339 (pp_expires_at p)))])].

(** The plan with its normalized collections. *)
Definition with_rules (p : PermissionPlanV1) (path : list PermissionPathRuleV1)
    (process : list PermissionProcessRuleV1) (network : list PermissionNetworkRuleV1)
    (environment : list PermissionEnvironmentRuleV1) (basis limitations : list string) :
    PermissionPlanV1 :=
  {| pp_schema_id := pp_schema_id p; pp_schema_version := pp_schema_version p;
     pp_permission_plan_id := pp_permission_plan_id p; pp_revision := pp_revision p;
     pp_goal_id := pp_goal_id p; pp_run_id := pp_run_id p; pp_stage_id := pp_stage_id p;
     pp_stage_revision := pp_stage_revision p; pp_stage_scope_hash := pp_stage_scope_hash p;
     pp_policy_profile_ref := pp_policy_profile_ref p; pp_default_action := pp_default_action p;
     pp_action_policies := pp_action_policies p;
     pp_path_rules := path; pp_process_rules := process; pp_network_rules := network;
     pp_environment_rules := environment;
     pp_paid_action_rules := with_evidence_basis (pp_paid_action_rules p) basis;
     pp_external_constraints := with_limitations (pp_external_constraints p) limitations;
     pp_effective_config_ref := pp_effective_config_ref p; pp_created_at := pp_created_at p;
     pp_expires_at := pp_expires_at p; pp_scope_hash := pp_scope_hash p;
     pp_plan_fingerprint := pp_plan_fingerprint p |}.

Definition with_hashes (p : PermissionPlanV1) (scope_hash plan_fingerprint : Sha256Hash) :
    PermissionPlanV1 :=
  {| pp_schema_id := pp_schema_id p; pp_schema_version := pp_schema_version p;
     pp_permission_plan_id := pp_permission_plan_id p; pp_revision := pp_revision p;
     pp_goal_id := pp_goal_id p; pp_run_id := pp_run_id p; pp_stage_id := pp_stage_id p;
     pp_stage_revision := pp_stage_revision p; pp_stage_scope_hash := pp_stage_scope_hash p;
     pp_policy_profile_ref := pp_policy_profile_ref p; pp_default_action := pp_default_action p;
     pp_action_policies := pp_action_policies p;
     pp_path_rules := pp_path_rules p; pp_process_rules := pp_process_rules p;
     pp_network_rules := pp_network_rules p; pp_environment_rules := pp_environment_rules p;
     pp_paid_action_rules := pp_paid_action_rules p;
     pp_external_constraints := pp_external_constraints p;
     pp_effective_config_ref := pp_effective_config_ref p; pp_created_at := pp_created_at p;
     pp_expires_at := pp_expires_at p; pp_scope_hash := scope_hash;
     pp_plan_fingerprint := plan_fingerprint |}.

Definition normalize_plan (p : PermissionPlanV1) : result PermissionPlanV1 PermissionPlanError :=
  let? path := normalize_path_rules (pp_path_rules p) in
  let? process := normalize_process_rules (pp_process_rules p) in
  let? network := normalize_network_rules (pp_network_rules p) in
  let? environment := normalize_environment_rules (pp_environment_rules p) in
  let? basis := normalize_strings (pd_evidence_basis (pp_paid_action_rules p)) 128 in
  let? limitations := normalize_strings (xc_limitations (pp_external_constraints p)) 128 in
  Ok (with_rules p path process network environment basis limitations).

Definition permission_seal (p : PermissionPlanV1) : result PermissionPlanV1 PermissionPlanError :=
  let? p := normalize_plan p in
  let? _ := validate_permission_shape p in
  let? scope_hash := map_err (λ _, PermissionFingerprint) (canonical_sha256 (scope_payload p)) in
  let? plan_fingerprint :=
    map_err (λ _, PermissionFingerprint) (canonical_sha256 (permission_payload p scope_hash)) in
  Ok (with_hashes p scope_hash plan_fingerprint).

Definition permission_verify (p : PermissionPlanV1) : result unit PermissionPlanError :=
  let? expected := permission_seal p in
  check negb (bool_decide (expected = p)) else PermissionFingerprint in
  Ok tt.

End permission.
