(* ===== verification/PermissionFacts.v ===== *)
(** * What a permission plan grants

    A sealed plan verifies and has one rule per question; directories are granted
    by components; and the plan is bound to its scope. *)
From S2P Require Import Prelude Canonical Contracts Validation PermissionPlan Toy.

(** ** Normalization *)

Lemma normalize_strings_spec values max values' :
  normalize_strings values max = Ok values' →
  (∀ v, v ∈ values' ↔ v ∈ values) ∧ normalize_strings values' max = Ok values'.
Proof.
  unfold normalize_strings. cbv zeta. intros Hn.
  destruct (_ || _) eqn:Hb; [done|]. injection Hn as <-.
  split; [intros v; apply elem_of_sort_dedup|]. by rewrite sort_dedup_idemp, Hb.
Qed.

(** What the sorting of rules by a key leaves. *)
Lemma keyed_rules_spec {A K} `{EqDecision A, EqDecision K, CmpLaws K} (key : A → K) l :
  keyed_conflict key (sort_by_key key l) = false →
  let l' := dedup (sort_by_key key l) in
  (∀ r, r ∈ l' ↔ r ∈ l) ∧ strictly_sorted (map key l') ∧
  sort_by_key key l' = l' ∧ keyed_conflict key l' = false ∧ dedup l' = l'.
Proof.
  intros Hc. cbv zeta. pose proof (sorted_keyed_strict key l Hc) as Hs. split_and!.
  - intros r. by rewrite elem_of_dedup, (sort_by_key_perm key l).
  - done.
  - by apply keyed_strict_sort.
  - by apply keyed_strict_conflict with (key := key).
  - by apply keyed_strict_dedup with (key := key).
Qed.

Lemma elem_of_kinds k rules r :
  k ∈ kinds_at rules r
  ↔ ∃ x, x ∈ rules ∧ pt_project_id x = pt_project_id r ∧ pt_path_prefix x = pt_path_prefix r
         ∧ pt_kind x = k.
Proof.
  unfold kinds_at. rewrite list_elem_of_fmap. setoid_rewrite list_elem_of_In.
  setoid_rewrite filter_In. setoid_rewrite andb_true_iff. setoid_rewrite bool_decide_eq_true.
  naive_solver.
Qed.

(** No rule set both allows and denies reading, or writing, one location. *)
Definition kinds_agree (rules : list PermissionPathRuleV1) : Prop :=
  ∀ a b, a ∈ rules → b ∈ rules → pt_project_id a = pt_project_id b →
    pt_path_prefix a = pt_path_prefix b →
    (pt_kind a, pt_kind b) ∉ [(AllowRead, DenyRead); (AllowWrite, DenyWrite)].

Lemma kinds_agree_spec rules :
  existsb (λ r, kinds_conflict (kinds_at rules r)) rules = false ↔ kinds_agree rules.
Proof.
  rewrite existsb_false. unfold kinds_conflict, kinds_agree.
  setoid_rewrite orb_false_iff. setoid_rewrite andb_false_iff. setoid_rewrite mem_false.
  setoid_rewrite elem_of_kinds. split.
  - intros Hr a b Ha Hb Hp Hx. destruct (Hr a Ha) as [Hread Hwrite].
    rewrite !elem_of_cons, elem_of_nil. intros [[= H1 H2]|[[= H1 H2]|[]]].
    + destruct Hread as [Hn|Hn]; apply Hn; [by exists a|by exists b].
    + destruct Hwrite as [Hn|Hn]; apply Hn; [by exists a|by exists b].
  - intros Hk r Hr.
    assert (∀ k k', (k, k') ∈ [(AllowRead, DenyRead); (AllowWrite, DenyWrite)] →
      (¬ ∃ x, x ∈ rules ∧ pt_project_id x = pt_project_id r ∧ pt_path_prefix x = pt_path_prefix r
              ∧ pt_kind x = k)
      ∨ (¬ ∃ x, x ∈ rules ∧ pt_project_id x = pt_project_id r ∧ pt_path_prefix x = pt_path_prefix r
                ∧ pt_kind x = k')) as Hpair.
    { intros k k' Hkk. rewrite <-!elem_of_kinds.
      destruct (decide (k ∈ kinds_at rules r)) as [Hin|]; [right|by left].
      intros Hin'. apply elem_of_kinds in Hin as (x & Hx & Hp & Hpx & <-).
      apply elem_of_kinds in Hin' as (y & Hy & Hp' & Hpx' & <-).
      apply (Hk x y); [done|done|congruence|congruence|done]. }
    split; apply Hpair; [by left|by right; left].
Qed.

Lemma kinds_agree_subset rules rules' :
  (∀ r, r ∈ rules' → r ∈ rules) → kinds_agree rules → kinds_agree rules'.
Proof. intros Hsub Hk a b Ha Hb. apply Hk; by apply Hsub. Qed.

Lemma normalize_path_rules_spec rules rules' :
  normalize_path_rules rules = Ok rules' →
  (∀ r, r ∈ rules' ↔ r ∈ rules) ∧ strictly_sorted (map path_rule_key rules') ∧
  kinds_agree rules' ∧ normalize_path_rules rules' = Ok rules'.
Proof.
  unfold normalize_path_rules. cbv zeta. intros Hn. next_check Hn.
  destruct (existsb _ _) eqn:Hk; [done|]. injection Hn as <-.
  destruct (keyed_rules_spec path_rule_key rules) as (Hin & Hs & Hi & Hc & Hd); [done|].
  apply kinds_agree_spec in Hk.
  apply (kinds_agree_subset _ (dedup (sort_by_key path_rule_key rules))) in Hk.
  2: { intros r. by rewrite elem_of_dedup. }
  split_and!; try done. rewrite Hi, Hc, Hd. by rewrite (proj2 (kinds_agree_spec _) Hk).
Qed.

Lemma normalize_process_rules_spec rules rules' :
  normalize_process_rules rules = Ok rules' →
  (∀ r, r ∈ rules' ↔ r ∈ rules) ∧ strictly_sorted (map process_rule_key rules') ∧
  normalize_process_rules rules' = Ok rules'.
Proof.
  unfold normalize_process_rules. cbv zeta. intros Hn. next_check Hn. injection Hn as <-.
  destruct (keyed_rules_spec process_rule_key rules) as (Hin & Hs & Hi & Hc & Hd); [done|].
  split_and!; try done. by rewrite Hi, Hc, Hd.
Qed.

Lemma normalize_network_rules_spec rules rules' :
  normalize_network_rules rules = Ok rules' →
  (∀ r, r ∈ rules' ↔ r ∈ rules) ∧ strictly_sorted (map network_rule_key rules') ∧
  normalize_network_rules rules' = Ok rules'.
Proof.
  unfold normalize_network_rules. cbv zeta. intros Hn. next_check Hn. injection Hn as <-.
  destruct (keyed_rules_spec network_rule_key rules) as (Hin & Hs & Hi & Hc & Hd); [done|].
  split_and!; try done. by rewrite Hi, Hc, Hd.
Qed.

Lemma normalize_environment_rules_spec rules rules' :
  normalize_environment_rules rules = Ok rules' →
  (∀ r, r ∈ rules' ↔ r ∈ rules) ∧ normalize_environment_rules rules' = Ok rules'.
Proof.
  unfold normalize_environment_rules. cbv zeta. intros Hn.
  destruct (windows2_any _ _) eqn:Hw; [done|]. injection Hn as <-.
  split; [intros r; by rewrite (sort_by_key_perm nv_name rules)|].
  by rewrite sort_by_key_idem, Hw.
Qed.

(** ** Directories by components *)

Lemma split_char_nonempty c s : split_char c s ≠ [].
Proof.
  induction s as [|a s IH]; simpl; [done|].
  destruct (Ascii.eqb a c); [done|]. by destruct (split_char c s).
Qed.

Lemma split_char_cons c a s :
  Ascii.eqb a c = false →
  ∃ w ws, split_char c s = w :: ws ∧ split_char c (String a s) = String a w :: ws.
Proof.
  intros Ha. pose proof (split_char_nonempty c s) as Hne. simpl. rewrite Ha.
  destruct (split_char c s) as [|w ws]; [done|]. by exists w, ws.
Qed.

Lemma prefix_cons_iff {A} (x y : A) l k : x :: l `prefix_of` y :: k ↔ x = y ∧ l `prefix_of` k.
Proof.
  split; [|by intros [-> ?]; apply prefix_cons].
  intros Hp. split; [by eapply prefix_cons_inv_1|by eapply prefix_cons_inv_2].
Qed.

(** A text and its components: one is the other, or continues it after a
    separator, exactly when the components are a prefix. *)
Lemma split_prefix c p s :
  split_char c p `prefix_of` split_char c s
  ↔ s = p ∨ ∃ rest, strip_prefix p s = Some (String c rest).
Proof.
  revert s. induction p as [|a p IH]; intros s.
  - cbn [split_char strip_prefix]. destruct s as [|b s].
    + split; [by left|]. intros _. reflexivity.
    + destruct (Ascii.eqb b c) eqn:Hb.
      * apply Ascii.eqb_eq in Hb as ->. cbn [split_char]. rewrite Ascii.eqb_refl.
        split; [intros _; right; by eexists|]. intros _. by exists (split_char c s).
      * destruct (split_char_cons c b s Hb) as (w & ws & _ & ->). split.
        -- intros [k Hk]. discriminate Hk.
        -- intros [?|[rest [= -> _]]]; [done|]. by rewrite Ascii.eqb_refl in Hb.
  - destruct (Ascii.eqb a c) eqn:Ha.
    + apply Ascii.eqb_eq in Ha as ->. cbn [split_char]. rewrite Ascii.eqb_refl.
      destruct s as [|b s].
      * split; [|by intros [?|[rest ?]]].
        intros [k Hk]. cbn [split_char] in Hk. injection Hk as Hk.
        by destruct (split_char c p) eqn:Hp; [destruct (split_char_nonempty c p)|].
      * cbn [strip_prefix]. destruct (Ascii.eqb c b) eqn:Hb.
        -- apply Ascii.eqb_eq in Hb as <-. cbn [split_char]. rewrite Ascii.eqb_refl.
           rewrite prefix_cons_iff, IH. naive_solver.
        -- assert (Ascii.eqb b c = false) as Hb' by by rewrite Ascii.eqb_sym.
           destruct (split_char_cons c b s Hb') as (w & ws & _ & ->). split.
           ++ intros [k Hk]. discriminate Hk.
           ++ intros [[= -> ->]|[rest ?]]; [|done]. by rewrite Ascii.eqb_refl in Hb.
    + destruct (split_char_cons c a p Ha) as (w & ws & Hp & ->).
      destruct s as [|b s].
      * split; [|by intros [?|[rest ?]]]. intros [k Hk]. discriminate Hk.
      * cbn [strip_prefix]. destruct (Ascii.eqb b c) eqn:Hb.
        -- apply Ascii.eqb_eq in Hb as ->. cbn [split_char]. rewrite Ascii.eqb_refl, Ha. split.
           ++ intros [k Hk]. discriminate Hk.
           ++ intros [[= -> _]|[rest ?]]; [|done]. by rewrite Ascii.eqb_refl in Ha.
        -- destruct (split_char_cons c b s Hb) as (w' & ws' & Hs & ->).
           specialize (IH s). rewrite Hp, Hs, prefix_cons_iff in IH. rewrite prefix_cons_iff.
           destruct (Ascii.eqb a b) eqn:Hab.
           ++ apply Ascii.eqb_eq in Hab as <-.
              assert (String a w = String a w' ↔ w = w') as -> by naive_solver.
              rewrite IH. naive_solver.
           ++ apply Ascii.eqb_neq in Hab. naive_solver.
Qed.

(** A rule for a directory, by components. *)
Definition under (allowed observed : option string) : Prop :=
  match allowed, observed with
  | None, _ => True
  | Some _, None => False
  | Some a, Some o => split_char "/"%char a `prefix_of` split_char "/"%char o
  end.

Lemma starts_with_slash suffix :
  starts_with_char (byte_in ["/"%char]) suffix = true ↔ ∃ rest, suffix = String "/" rest.
Proof.
  destruct suffix as [|b rest]; [split; [done|by intros [? ?]]|].
  unfold starts_with_char, byte_in. cbn [existsb]. rewrite orb_false_r, N.eqb_eq. split.
  - intros Hb. exists rest. f_equal. unfold byte in Hb.
    by rewrite <-(Ascii.ascii_N_embedding b), <-Hb.
  - by intros [r [= -> _]].
Qed.

Lemma path_contains_under allowed observed :
  path_contains allowed observed = true ↔ under allowed observed.
Proof.
  destruct allowed as [a|], observed as [o|]; simpl; try done.
  rewrite split_prefix, orb_true_iff, String.eqb_eq.
  destruct (strip_prefix a o) as [suffix|]; simpl; [|naive_solver].
  rewrite starts_with_slash. naive_solver.
Qed.

(** ** Sealing *)

Section sealing.
Context `{Platform}.

(** What the normalization of a plan leaves. *)
Record normal (p q : PermissionPlanV1) : Prop := {
  no_path : ∀ r, r ∈ pp_path_rules q ↔ r ∈ pp_path_rules p;
  no_process : ∀ r, r ∈ pp_process_rules q ↔ r ∈ pp_process_rules p;
  no_network : ∀ r, r ∈ pp_network_rules q ↔ r ∈ pp_network_rules p;
  no_environment : ∀ r, r ∈ pp_environment_rules q ↔ r ∈ pp_environment_rules p;
  no_policies : pp_action_policies q = pp_action_policies p;
  no_default : pp_default_action q = pp_default_action p;
  no_stage : (pp_goal_id q, pp_run_id q, pp_stage_id q, pp_stage_revision q)
             = (pp_goal_id p, pp_run_id p, pp_stage_id p, pp_stage_revision p);
  no_times : (pp_created_at q, pp_expires_at q) = (pp_created_at p, pp_expires_at p)
}.

(** One rule per question. *)
Record unambiguous (q : PermissionPlanV1) : Prop := {
  un_path : strictly_sorted (map path_rule_key (pp_path_rules q));
  un_kinds : kinds_agree (pp_path_rules q);
  un_process : strictly_sorted (map process_rule_key (pp_process_rules q));
  un_network : strictly_sorted (map network_rule_key (pp_network_rules q))
}.

Lemma normalize_plan_spec p q :
  normalize_plan p = Ok q → normal p q ∧ unambiguous q ∧ normalize_plan q = Ok q.
Proof.
  unfold normalize_plan. intros Hn.
  destruct (normalize_path_rules (pp_path_rules p)) as [path|] eqn:H1; [|done].
  destruct (normalize_process_rules (pp_process_rules p)) as [process|] eqn:H2; [|done].
  destruct (normalize_network_rules (pp_network_rules p)) as [network|] eqn:H3; [|done].
  destruct (normalize_environment_rules (pp_environment_rules p)) as [env|] eqn:H4; [|done].
  destruct (normalize_strings (pd_evidence_basis _) 128) as [basis|] eqn:H5; [|done].
  destruct (normalize_strings (xc_limitations _) 128) as [limitations|] eqn:H6; [|done].
  injection Hn as <-.
  destruct (normalize_path_rules_spec _ _ H1) as (Hi1 & Hs1 & Hk & Hn1).
  destruct (normalize_process_rules_spec _ _ H2) as (Hi2 & Hs2 & Hn2).
  destruct (normalize_network_rules_spec _ _ H3) as (Hi3 & Hs3 & Hn3).
  destruct (normalize_environment_rules_spec _ _ H4) as (Hi4 & Hn4).
  destruct (normalize_strings_spec _ _ _ H5) as (_ & Hn5).
  destruct (normalize_strings_spec _ _ _ H6) as (_ & Hn6).
  split; [by split|]. split; [by split|].
  unfold with_rules. simpl. by rewrite Hn1, Hn2, Hn3, Hn4, Hn5, Hn6.
Qed.

Lemma normalize_with_hashes q s f :
  normalize_plan q = Ok q → normalize_plan (with_hashes q s f) = Ok (with_hashes q s f).
Proof.
  unfold normalize_plan. simpl. intros Hn.
  destruct (normalize_path_rules (pp_path_rules q)) as [path|]; [|done].
  destruct (normalize_process_rules (pp_process_rules q)) as [process|]; [|done].
  destruct (normalize_network_rules (pp_network_rules q)) as [network|]; [|done].
  destruct (normalize_environment_rules (pp_environment_rules q)) as [env|]; [|done].
  destruct (normalize_strings (pd_evidence_basis _) 128) as [basis|]; [|done].
  destruct (normalize_strings (xc_limitations _) 128) as [limitations|]; [|done].
  apply (f_equal (λ r, match r with Ok x => Ok (with_hashes x s f) | Err e => Err e end)) in Hn.
  exact Hn.
Qed.

(** A sealed plan: the normal form of its source, with the hashes of its scope
    and of itself. *)
Lemma permission_seal_inv p q :
  permission_seal p = Ok q →
  ∃ n s f, normalize_plan p = Ok n ∧ q = with_hashes n s f ∧
    validate_permission_shape q = Ok tt ∧
    canonical_sha256 (scope_payload q) = Ok s ∧ canonical_sha256 (permission_payload q s) = Ok f.
Proof.
  unfold permission_seal. intros Hs. destruct (normalize_plan p) as [n|]; [|done].
  destruct (validate_permission_shape n) as [[]|] eqn:Hv; [|done].
  destruct (canonical_sha256 (scope_payload n)) as [s|] eqn:Hsc; [|done]. simpl in Hs.
  destruct (canonical_sha256 (permission_payload n s)) as [f|] eqn:Hf; [|done]. simpl in Hs.
  injection Hs as <-. by exists n, s, f.
Qed.

Lemma permission_sealed p q : permission_seal p = Ok q → permission_seal q = Ok q.
Proof.
  intros (n & s & f & Hn & -> & Hv & Hs & Hf)%permission_seal_inv.
  destruct (normalize_plan_spec _ _ Hn) as (_ & _ & Hnn).
  unfold permission_seal. rewrite (normalize_with_hashes n s f Hnn), Hv, Hs. simpl.
  by rewrite Hf.
Qed.

Lemma permission_verify_sealed q : permission_verify q = Ok tt ↔ permission_seal q = Ok q.
Proof.
  unfold permission_verify. destruct (permission_seal q) as [e|]; [|done].
  case_bool_decide; simpl; naive_solver.
Qed.

(** A plan that is sealed verifies, is the plan it was made from up to the
    order and the repetition of its rules, and asks each question once: no two
    rules have one path and kind, no location is both allowed and denied, and no
    two process or network rules have one key; sealing it again changes nothing. *)
Theorem sealed_permission_plan_verifies p q :
  permission_seal p = Ok q →
  permission_verify q = Ok tt ∧ permission_seal q = Ok q ∧ normal p q ∧ unambiguous q.
Proof.
  intros Hs. pose proof (permission_sealed p q Hs) as Hq.
  split; [by apply permission_verify_sealed|]. split; [done|].
  destruct (permission_seal_inv _ _ Hs) as (n & s & f & Hn & -> & _).
  destruct (normalize_plan_spec _ _ Hn) as (Hno & Hun & _).
  split; [by destruct Hno|by destruct Hun].
Qed.

Lemma verified_shape q : permission_verify q = Ok tt → validate_permission_shape q = Ok tt.
Proof.
  intros Hv%permission_verify_sealed. by destruct (permission_seal_inv _ _ Hv) as (?&?&?&_&_&?&_).
Qed.

Lemma shaped_process_rule q rule :
  validate_permission_shape q = Ok tt → rule ∈ pp_process_rules q → px_argument_prefix rule ≠ [].
Proof.
  unfold validate_permission_shape. intros Hv Hin Hnil. next_check Hv. next_check Hv.
  assert (bad_rules q = true) as Hbad; [|congruence].
  assert (existsb bad_process_rule (pp_process_rules q) = true) as Hp.
  { apply existsb_true. exists rule. split; [done|]. unfold bad_process_rule.
    rewrite Hnil. simpl. by rewrite orb_true_r. }
  unfold bad_rules. cbv zeta. by rewrite Hp, !orb_true_r.
Qed.

(** C10: a plan that verifies lets a process start exactly when one of its rules
    names the program and the project, grants the directory or one above it,
    component by component, starts the command line with at least one argument
    of its own, and admits child processes if they are asked for. *)
Theorem process_permission_exact q executable project cwd arguments child :
  permission_verify q = Ok tt →
  allows_process q executable project cwd arguments child = true
  ↔ ∃ rule first prefix rest, rule ∈ pp_process_rules q ∧
      px_executable_sha256 rule = executable ∧ px_cwd_project_id rule = project ∧
      under (px_cwd_prefix rule) cwd ∧
      px_argument_prefix rule = first :: prefix ∧ arguments = first :: prefix ++ rest ∧
      (child = true → px_allow_child_processes rule = true).
Proof.
  intros Hv%verified_shape. unfold allows_process. rewrite existsb_true.
  setoid_rewrite andb_true_iff. setoid_rewrite andb_true_iff. setoid_rewrite andb_true_iff.
  setoid_rewrite andb_true_iff. setoid_rewrite String.eqb_eq. setoid_rewrite path_contains_under.
  split.
  - intros (rule & Hin & [[[He Hp] Hu] Hpre%bool_decide_eq_true] & Hc).
    pose proof (shaped_process_rule q rule Hv Hin) as Hne.
    destruct (px_argument_prefix rule) as [|first prefix] eqn:Ha; [done|].
    destruct Hpre as [rest ->]. exists rule, first, prefix, rest.
    split_and!; try done. intros ->. by destruct (px_allow_child_processes rule).
  - intros (rule & first & prefix & rest & Hin & He & Hp & Hu & Ha & -> & Hc).
    exists rule. split_and!; try done.
    + unfold starts_with_args. apply bool_decide_eq_true. rewrite Ha. by exists rest.
    + destruct child; [|done]. simpl. by apply Hc.
Qed.

(** A plan that verifies never lets an action of unknown cost through on its
    own, lasts less than twenty-five hours, is current only within its time, and
    answers an action it does not name with its default. *)
Theorem permission_bounds q now action :
  permission_verify q = Ok tt →
  pd_unknown_cost_decision (pp_paid_action_rules q) ≠ Auto ∧
  (pp_created_at q < pp_expires_at q < pp_created_at q + 25 * 3600 * 10 ^ 9)%Z ∧
  (is_current_at q now = true → now < pp_created_at q + 25 * 3600 * 10 ^ 9)%Z ∧
  (action ∉ dom (pp_action_policies q) → permission_decision q action = pp_default_action q).
Proof.
  intros Hv%verified_shape. unfold validate_permission_shape in Hv.
  next_check Hv. next_check Hv. next_check Hv. unfold bad_identity, num_hours in *.
  rewrite !orb_false_iff in Heqb. destruct Heqb as [[[[[[[[_ _] _] _] Ht] Hh] _] _] _].
  apply Z.leb_gt in Ht. apply Z.ltb_ge in Hh.
  assert (pp_expires_at q < pp_created_at q + 25 * 3600 * 10 ^ 9)%Z as Hlt.
  { pose proof (Z.quot_rem' (pp_expires_at q - pp_created_at q) (3600 * 10 ^ 9)) as Hq.
    pose proof (Z.rem_bound_pos (pp_expires_at q - pp_created_at q) (3600 * 10 ^ 9)). lia. }
  split_and!; try done.
  - by apply bool_decide_eq_false in Heqb1.
  - unfold is_current_at. rewrite andb_true_iff, Z.leb_le, Z.ltb_lt. lia.
  - intros Hd%not_elem_of_dom. unfold permission_decision. by rewrite Hd.
Qed.

End sealing.

(** ** Binding *)

#[export] Instance PermissionDecisionV1_inj_json : InjJson PermissionDecisionV1.
Proof. by intros [] []. Qed.
#[export] Instance PathPermissionKindV1_inj_json : InjJson PathPermissionKindV1.
Proof. by intros [] []. Qed.
#[export] Instance CatalogRef_inj_json : InjJson CatalogRef.
Proof. intros [] [] Heq. unfold to_json, CatalogRef_to_json in Heq. peel Heq. simpl in *. by subst. Qed.
#[export] Instance option_N_inj_json : InjJson (option N).
Proof. intros x y. by apply option_json_inj. Qed.
#[export] Instance PermissionPathRuleV1_inj_json : InjJson PermissionPathRuleV1.
Proof.
  intros [] [] Heq. unfold to_json, PermissionPathRuleV1_to_json in Heq. peel Heq.
  simpl in *. by subst.
Qed.
#[export] Instance PermissionProcessRuleV1_inj_json : InjJson PermissionProcessRuleV1.
Proof.
  intros [] [] Heq. unfold to_json, PermissionProcessRuleV1_to_json in Heq. peel Heq.
  simpl in *. by subst.
Qed.
#[export] Instance PermissionNetworkRuleV1_inj_json : InjJson PermissionNetworkRuleV1.
Proof.
  intros [] [] Heq. unfold to_json, PermissionNetworkRuleV1_to_json in Heq. peel Heq.
  simpl in *. by subst.
Qed.
#[export] Instance PermissionEnvironmentRuleV1_inj_json : InjJson PermissionEnvironmentRuleV1.
Proof.
  intros [] [] Heq. unfold to_json, PermissionEnvironmentRuleV1_to_json in Heq. peel Heq.
  simpl in *. by subst.
Qed.
#[export] Instance PaidActionRulesV1_inj_json : InjJson PaidActionRulesV1.
Proof.
  intros [] [] Heq. unfold to_json, PaidActionRulesV1_to_json in Heq. peel Heq.
  simpl in *. by subst.
Qed.
#[export] Instance PermissionExternalConstraintsV1_inj_json :
  InjJson PermissionExternalConstraintsV1.
Proof.
  intros [] [] Heq. unfold to_json, PermissionExternalConstraintsV1_to_json in Heq. peel Heq.
  simpl in *. by subst.
Qed.
#[export] Instance btree_inj_json {V} `{InjJson V} : InjJson (gmap string V).
Proof.
  intros x y [= Heq]. apply btree_entries_inj.
  revert Heq. generalize (btree_entries x) (btree_entries y).
  induction l as [|[k v] l IH]; intros [|[k' v'] l'] Heq; try done.
  injection Heq as -> Hv%to_json_inj Heq. rewrite Hv. f_equal. by apply IH.
Qed.

Section binding.
Context `{Platform}.

(** What a plan permits, and where. *)
Definition permission_scope (p : PermissionPlanV1) :=
  ((pp_goal_id p, pp_run_id p, pp_stage_id p, pp_stage_revision p, pp_stage_scope_hash p),
   (pp_policy_profile_ref p, pp_default_action p, pp_action_policies p),
   (pp_path_rules p, pp_process_rules p, pp_network_rules p, pp_environment_rules p),
   (pp_paid_action_rules p, pp_external_constraints p, pp_effective_config_ref p)).

Lemma scope_payload_inj p q :
  scope_payload p = scope_payload q → permission_scope p = permission_scope q.
Proof.
  unfold scope_payload, permission_scope. intros Heq. peel Heq. peel E1.
  congruence.
Qed.

Lemma permission_payload_inj p q s t : permission_payload p s = permission_payload q t → s = t.
Proof. unfold permission_payload. intros Heq. peel Heq. by peel E1. Qed.

(** The fingerprint of a plan binds all it permits: two plans that verify
    under one fingerprint have the same scope, policies, rules, constraints and
    configuration, unless two different payloads hash alike. *)
Theorem permission_fingerprint_binds p q :
  permission_verify p = Ok tt → permission_verify q = Ok tt →
  pp_plan_fingerprint p = pp_plan_fingerprint q →
  permission_scope p = permission_scope q
  ∨ collision (permission_payload p (pp_scope_hash p)) (permission_payload q (pp_scope_hash q))
  ∨ collision (scope_payload p) (scope_payload q).
Proof.
  intros Hp%permission_verify_sealed Hq%permission_verify_sealed Hf.
  destruct (permission_seal_inv _ _ Hp) as (n & s & f & _ & Hpe & _ & Hs & Hpf).
  destruct (permission_seal_inv _ _ Hq) as (n' & s' & f' & _ & Hqe & _ & Hs' & Hqf).
  assert (pp_scope_hash p = s ∧ pp_plan_fingerprint p = f) as [<- <-] by (rewrite Hpe; by split).
  assert (pp_scope_hash q = s' ∧ pp_plan_fingerprint q = f') as [<- <-] by (rewrite Hqe; by split).
  rewrite Hf in Hpf.
  destruct (hash_binds _ _ _ Hpf Hqf) as [Heq|?]; [|by right; left].
  apply permission_payload_inj in Heq. rewrite Heq in Hs.
  destruct (hash_binds _ _ _ Hs Hs') as [Heq'|?]; [left; by apply scope_payload_inj|by right; right].
Qed.

End binding.

(** ** A plan *)

Section witnesses.

Definition sample_plan (environment : list PermissionEnvironmentRuleV1) : PermissionPlanV1 := {|
  pp_schema_id := "star.permission-plan"; pp_schema_version := 1;
  pp_permission_plan_id := "prm_1"; pp_revision := 1; pp_goal_id := "gol_1"; pp_run_id := "run_1";
  pp_stage_id := "stg_1"; pp_stage_revision := 1; pp_stage_scope_hash := digest "stage";
  pp_policy_profile_ref := {| cg_catalog_id := "safe-default"; cg_format_version := 1;
                              cg_item_version := "1.0.0"; cg_sha256 := digest "profile" |};
  pp_default_action := Deny; pp_action_policies := {[ "paid_action" := Prompt ]};
  pp_path_rules := [
    {| pt_project_id := "prj_1"; pt_path_prefix := Some "src"; pt_kind := AllowWrite;
       pt_reason := "work" |};
    {| pt_project_id := "prj_1"; pt_path_prefix := None; pt_kind := AllowRead;
       pt_reason := "read" |}];
  pp_process_rules := [
    {| px_executable_sha256 := digest "codex"; px_argument_prefix := ["app-server"];
       px_cwd_project_id := "prj_1"; px_cwd_prefix := Some "src"; px_allow_child_processes := true |}];
  pp_network_rules := [];
  pp_environment_rules := environment;
  pp_paid_action_rules := {| pd_evidence_basis := ["usage"]; pd_unknown_cost_decision := Prompt;
                             pd_measured_limit := None |};
  pp_external_constraints := {| xc_codex_approval_required := true;
                                xc_codex_approval_policy := "never";
                                xc_codex_sandbox_mode := "workspace-write";
                                xc_administrator_required := false; xc_limitations := [] |};
  pp_effective_config_ref := {| dr_schema_id := "star.effective-config"; dr_document_id := "cfg_1";
                                dr_revision := 1; dr_sha256 := digest "config" |};
  pp_created_at := 0%Z; pp_expires_at := (3600 * 10 ^ 9)%Z;
  pp_scope_hash := EmptyString; pp_plan_fingerprint := EmptyString |}.

(** Environment rules whose neighbours differ, while the first and the last name
    one variable of Windows. *)
Definition mixed_case : list PermissionEnvironmentRuleV1 := [
  {| nv_name := "PATH"; nv_secret_ref_kind := None; nv_decision := Deny |};
  {| nv_name := "TEMP"; nv_secret_ref_kind := None; nv_decision := Prompt |};
  {| nv_name := "path"; nv_secret_ref_kind := None; nv_decision := Auto |}].

Lemma sample_sealed :
  match permission_seal (sample_plan mixed_case) with
  | Ok q => permission_verify q = Ok tt ∧ pp_environment_rules q = mixed_case
            ∧ allowed_environment_names q = ["TEMP"; "path"]
            ∧ allows_process q (digest "codex") "prj_1" (Some "src/core")
                ["app-server"; "--listen"] true = true
            ∧ allows_process q (digest "codex") "prj_1" (Some "srcs") ["app-server"] true = false
  | Err _ => False
  end.
Proof. vm_compute. split_and!; reflexivity. Qed.

(** Environment rules that differ only in case escape the test of
    neighbours: there is a plan that seals and verifies and both denies and
    grants one variable, up to case, and hands the variable on. *)
Theorem ambiguous_environment_is_accepted :
  ∃ q a b, permission_verify q = Ok tt ∧ a ∈ pp_environment_rules q ∧ b ∈ pp_environment_rules q ∧
    eq_ignore_ascii_case (nv_name a) (nv_name b) = true ∧
    nv_decision a = Deny ∧ nv_decision b = Auto ∧ nv_name b ∈ allowed_environment_names q.
Proof.
  pose proof sample_sealed as Hs.
  destruct (permission_seal (sample_plan mixed_case)) as [q|]; [|done].
  destruct Hs as (Hv & He & Hn & _).
  exists q, {| nv_name := "PATH"; nv_secret_ref_kind := None; nv_decision := Deny |},
    {| nv_name := "path"; nv_secret_ref_kind := None; nv_decision := Auto |}.
  rewrite He, Hn. split_and!; [done|left|by right; right; left|done|done|done|by right; left].
Qed.

Lemma sealed_permission_plan_verifies_witness :
  match permission_seal (sample_plan mixed_case) with
  | Ok q => permission_verify q = Ok tt
  | Err _ => False
  end.
Proof.
  pose proof sample_sealed as Hs.
  destruct (permission_seal (sample_plan mixed_case)) as [q|] eqn:Hq; [|exact Hs].
  exact (proj1 (sealed_permission_plan_verifies (sample_plan mixed_case) q Hq)).
Defined.

Lemma process_permission_exact_witness :
  match permission_seal (sample_plan mixed_case) with
  | Ok q => ∃ rule, rule ∈ pp_process_rules q ∧ under (px_cwd_prefix rule) (Some "src/core")
  | Err _ => False
  end.
Proof.
  pose proof sample_sealed as Hs.
  destruct (permission_seal (sample_plan mixed_case)) as [q|]; [|exact Hs].
  destruct Hs as (Hv & _ & _ & Ha & _).
  destruct (proj1 (process_permission_exact q _ _ _ _ _ Hv) Ha)
    as (rule & first & prefix & rest & Hin & _ & _ & Hu & _).
  exists rule. split; [exact Hin|exact Hu].
Defined.

Lemma permission_bounds_witness :
  match permission_seal (sample_plan mixed_case) with
  | Ok q => pd_unknown_cost_decision (pp_paid_action_rules q) ≠ Auto
  | Err _ => False
  end.
Proof.
  pose proof sample_sealed as Hs.
  destruct (permission_seal (sample_plan mixed_case)) as [q|]; [|exact Hs].
  exact (proj1 (permission_bounds q 0 "write" (proj1 Hs))).
Defined.

Lemma permission_fingerprint_binds_witness :
  match permission_seal (sample_plan mixed_case) with
  | Ok q => permission_scope q = permission_scope q
            ∨ collision (permission_payload q (pp_scope_hash q))
                (permission_payload q (pp_scope_hash q))
            ∨ collision (scope_payload q) (scope_payload q)
  | Err _ => False
  end.
Proof.
  pose proof sample_sealed as Hs.
  destruct (permission_seal (sample_plan mixed_case)) as [q|]; [|exact Hs].
  exact (permission_fingerprint_binds q q (proj1 Hs) (proj1 Hs) eq_refl).
Defined.

End witnesses.
