(* ===== verification/Stage.v ===== *)
(** * Stage contracts

    Models [crates/foundation/star-contracts/src/stage.rs]: stage
    specifications, stage results and stage graphs, how each is sealed and
    verified, and the graph validation with its cycle test and parallel-group
    checks.  The binding of a development profile is not modelled. *)
From S2P Require Import Prelude Canonical Contracts Kahn.

Definition STAGE_SPEC_SCHEMA_ID : string := "star.stage-spec".
Definition STAGE_GRAPH_SCHEMA_ID : string := "star.stage-graph".
Definition STAGE_RESULT_SCHEMA_ID : string := "star.stage-result".
Definition STAGE_CONTRACT_VERSION : N := 1.

Inductive StageModeV1 := Plan | Execute | Review.
Inductive StageExecutorKindV1 := DeterministicLocal | Codex.
Inductive StageFailurePolicyV1 := Retry | Replan | Block | Rollback.

Inductive StageStateV1 :=
| Draft | Ready | Running | WaitingApproval | Paused | Blocked | Failed
| Cancelled | Completed | Superseded.

Inductive StageResultOutcomeV1 :=
| OutcomeCompleted | OutcomeFailed | OutcomeBlocked | OutcomeCancelled | OutcomeUnknown.

Inductive StageEdgeRelationV1 := Requires | ProvidesContract | Validates | Merges.

Inductive StageContractError :=
| Identity | Content | GraphMember | Cycle | ParallelOverlap | ProfileBinding | Fingerprint.

#[global] Instance StageModeV1_eq_dec : EqDecision StageModeV1.
Proof. solve_decision. Defined.
#[global] Instance StageExecutorKindV1_eq_dec : EqDecision StageExecutorKindV1.
Proof. solve_decision. Defined.
#[global] Instance StageFailurePolicyV1_eq_dec : EqDecision StageFailurePolicyV1.
Proof. solve_decision. Defined.
#[global] Instance StageStateV1_eq_dec : EqDecision StageStateV1.
Proof. solve_decision. Defined.
#[global] Instance StageResultOutcomeV1_eq_dec : EqDecision StageResultOutcomeV1.
Proof. solve_decision. Defined.
#[global] Instance StageEdgeRelationV1_eq_dec : EqDecision StageEdgeRelationV1.
Proof. solve_decision. Defined.
#[global] Instance StageContractError_eq_dec : EqDecision StageContractError.
Proof. solve_decision. Defined.

#[global] Instance StageModeV1_to_json : ToJson StageModeV1 := λ m,
  JStr match m with Plan => "plan" | Execute => "execute" | Review => "review" end.

#[global] Instance StageExecutorKindV1_to_json : ToJson StageExecutorKindV1 := λ k,
  JStr match k with DeterministicLocal => "deterministic_local" | Codex => "codex" end.

#[global] Instance StageFailurePolicyV1_to_json : ToJson StageFailurePolicyV1 := λ p,
  JStr match p with
       | Retry => "retry" | Replan => "replan" | Block => "block" | Rollback => "rollback"
       end.

#[global] Instance StageStateV1_to_json : ToJson StageStateV1 := λ s,
  JStr match s with
       | Draft => "draft" | Ready => "ready" | Running => "running"
       | WaitingApproval => "waiting_approval" | Paused => "paused"
       | Blocked => "blocked" | Failed => "failed" | Cancelled => "cancelled"
       | Completed => "completed" | Superseded => "superseded"
       end.

#[global] Instance StageResultOutcomeV1_to_json : ToJson StageResultOutcomeV1 := λ o,
  JStr match o with
       | OutcomeCompleted => "completed" | OutcomeFailed => "failed"
       | OutcomeBlocked => "blocked" | OutcomeCancelled => "cancelled"
       | OutcomeUnknown => "outcome_unknown"
       end.

#[global] Instance StageEdgeRelationV1_to_json : ToJson StageEdgeRelationV1 := λ r,
  JStr match r with
       | Requires => "requires" | ProvidesContract => "provides_contract"
       | Validates => "validates" | Merges => "merges"
       end.

(** ** Data *)

Record StageSpecV1 := {
  ss_schema_id : string;
  ss_schema_version : N;
  ss_stage_id : StageId;
  ss_revision : N;
  ss_goal_id : GoalId;
  ss_task_spec_ref : option DocumentRef;
  ss_scope_revision_ref : option DocumentRef;
  ss_title : string;
  ss_objective : string;
  ss_stage_mode : StageModeV1;
  ss_executor_kind : StageExecutorKindV1;
  ss_work_profile_id : string;
  ss_work_profile_version : string;
  ss_work_profile_definition_hash : option Sha256Hash;
  ss_profile_catalog_fingerprint : option Sha256Hash;
  ss_profile_resolution_fingerprint : option Sha256Hash;
  ss_project_ids : list ProjectId;
  ss_included_work : list string;
  ss_excluded_work : list string;
  ss_expected_change_scope : list string;
  ss_dependencies : list StageId;
  ss_parallel_group : option string;
  ss_completion_criteria : list string;
  ss_failure_policy : StageFailurePolicyV1;
  ss_route_decision_ref : option DocumentRef;
  ss_permission_plan_ref : option DocumentRef;
  ss_validation_plan_ref : option DocumentRef;
  ss_impact_analysis_ref : option DocumentRef;
  ss_change_plan_refs : list DocumentRef;
  ss_result_ref : option DocumentRef;
  ss_state : StageStateV1;
  ss_stage_fingerprint : Sha256Hash
}.

#[global] Instance StageSpecV1_eq_dec : EqDecision StageSpecV1.
Proof. solve_decision. Defined.

Record StageProjectEvidenceV1 := {
  pe_project_id : ProjectId;
  pe_evidence_bundle_ref : DocumentRef
}.

#[global] Instance StageProjectEvidenceV1_eq_dec : EqDecision StageProjectEvidenceV1.
Proof. solve_decision. Defined.

#[global] Instance StageProjectEvidenceV1_cmp : Cmp StageProjectEvidenceV1 :=
  cmp_on (λ e, (pe_project_id e, pe_evidence_bundle_ref e)).

#[global] Instance StageProjectEvidenceV1_cmp_laws : CmpLaws StageProjectEvidenceV1.
Proof. apply cmp_on_laws. intros [] []; simpl. by intros [= -> ->]. Qed.

#[global] Instance StageProjectEvidenceV1_to_json : ToJson StageProjectEvidenceV1 := λ e,
  JObj [("project_id", to_json (pe_project_id e));
        ("evidence_bundle_ref", to_json (pe_evidence_bundle_ref e))].

Record StageResultV1 := {
  sr_schema_id : string;
  sr_schema_version : N;
  sr_stage_result_id : StageResultId;
  sr_revision : N;
  sr_goal_id : GoalId;
  sr_stage_graph_ref : DocumentRef;
  sr_stage_ref : DocumentRef;
  sr_outcome : StageResultOutcomeV1;
  sr_completed_criteria : list string;
  sr_project_evidence : list StageProjectEvidenceV1;
  sr_execution_record_ref : option DocumentRef;
  sr_failure_code : option string;
  sr_recovery_action : option string;
  sr_source_effect_may_have_started : bool;
  sr_recorded_at : DateTime;
  sr_result_fingerprint : Sha256Hash
}.

#[global] Instance StageResultV1_eq_dec : EqDecision StageResultV1.
Proof. solve_decision. Defined.

Record StageGraphEdgeV1 := {
  se_from : StageId;
  se_to : StageId;
  se_relation : StageEdgeRelationV1
}.

#[global] Instance StageGraphEdgeV1_eq_dec : EqDecision StageGraphEdgeV1.
Proof. solve_decision. Defined.

Definition StageEdgeRelationV1_index (r : StageEdgeRelationV1) : N :=
  match r with Requires => 0 | ProvidesContract => 1 | Validates => 2 | Merges => 3 end.

#[global] Instance StageGraphEdgeV1_cmp : Cmp StageGraphEdgeV1 :=
  cmp_on (λ e, (se_from e, (se_to e, StageEdgeRelationV1_index (se_relation e)))).

#[global] Instance StageGraphEdgeV1_cmp_laws : CmpLaws StageGraphEdgeV1.
Proof.
  apply cmp_on_laws. intros [f t r] [f' t' r']; simpl. intros [= -> -> Hr].
  by destruct r, r'.
Qed.

#[global] Instance StageGraphEdgeV1_to_json : ToJson StageGraphEdgeV1 := λ e,
  JObj [("from", to_json (se_from e)); ("to", to_json (se_to e));
        ("relation", to_json (se_relation e))].

Record StageParallelGroupV1 := {
  pg_group_id : string;
  pg_stage_ids : list StageId;
  pg_max_parallel : N
}.

#[global] Instance StageParallelGroupV1_eq_dec : EqDecision StageParallelGroupV1.
Proof. solve_decision. Defined.

#[global] Instance StageParallelGroupV1_to_json : ToJson StageParallelGroupV1 := λ g,
  JObj [("group_id", to_json (pg_group_id g)); ("stage_ids", to_json (pg_stage_ids g));
        ("max_parallel", to_json (pg_max_parallel g))].

Record StageGraphV1 := {
  sg_schema_id : string;
  sg_schema_version : N;
  sg_stage_graph_id : StageGraphId;
  sg_goal_id : GoalId;
  sg_plan_revision : N;
  sg_stages : list StageSpecV1;
  sg_edges : list StageGraphEdgeV1;
  sg_parallel_groups : list StageParallelGroupV1;
  sg_critical_path : list StageId;
  sg_integration_stage_id : option StageId;
  sg_previous_graph_fingerprint : option Sha256Hash;
  sg_replan_reason : option string;
  sg_graph_fingerprint : Sha256Hash
}.

#[global] Instance StageGraphV1_eq_dec : EqDecision StageGraphV1.
Proof. solve_decision. Defined.

(** ** Normalization

    What [seal] does to the collections of a specification, and the update of
    its fingerprint. *)

Definition sort_dedup_strings (values : list string) : result (list string) StageContractError :=
  let values := sort_dedup values in
  if (256 <? len values)%N || existsb (λ value, negb (bounded_text value 4096)) values
  then Err Content else Ok values.

Definition ss_with_collections (s : StageSpecV1)
    (included_work excluded_work expected_change_scope project_ids dependencies
     completion_criteria : list string) (change_plan_refs : list DocumentRef) :
    StageSpecV1 :=
  {| ss_schema_id := ss_schema_id s;
     ss_schema_version := ss_schema_version s;
     ss_stage_id := ss_stage_id s;
     ss_revision := ss_revision s;
     ss_goal_id := ss_goal_id s;
     ss_task_spec_ref := ss_task_spec_ref s;
     ss_scope_revision_ref := ss_scope_revision_ref s;
     ss_title := ss_title s;
     ss_objective := ss_objective s;
     ss_stage_mode := ss_stage_mode s;
     ss_executor_kind := ss_executor_kind s;
     ss_work_profile_id := ss_work_profile_id s;
     ss_work_profile_version := ss_work_profile_version s;
     ss_work_profile_definition_hash := ss_work_profile_definition_hash s;
     ss_profile_catalog_fingerprint := ss_profile_catalog_fingerprint s;
     ss_profile_resolution_fingerprint := ss_profile_resolution_fingerprint s;
     ss_project_ids := project_ids;
     ss_included_work := included_work;
     ss_excluded_work := excluded_work;
     ss_expected_change_scope := expected_change_scope;
     ss_dependencies := dependencies;
     ss_parallel_group := ss_parallel_group s;
     ss_completion_criteria := completion_criteria;
     ss_failure_policy := ss_failure_policy s;
     ss_route_decision_ref := ss_route_decision_ref s;
     ss_permission_plan_ref := ss_permission_plan_ref s;
     ss_validation_plan_ref := ss_validation_plan_ref s;
     ss_impact_analysis_ref := ss_impact_analysis_ref s;
     ss_change_plan_refs := change_plan_refs;
     ss_result_ref := ss_result_ref s;
     ss_state := ss_state s;
     ss_stage_fingerprint := ss_stage_fingerprint s |}.

Definition ss_with_fingerprint (s : StageSpecV1) (fp : Sha256Hash) : StageSpecV1 :=
  {| ss_schema_id := ss_schema_id s;
     ss_schema_version := ss_schema_version s;
     ss_stage_id := ss_stage_id s;
     ss_revision := ss_revision s;
     ss_goal_id := ss_goal_id s;
     ss_task_spec_ref := ss_task_spec_ref s;
     ss_scope_revision_ref := ss_scope_revision_ref s;
     ss_title := ss_title s;
     ss_objective := ss_objective s;
     ss_stage_mode := ss_stage_mode s;
     ss_executor_kind := ss_executor_kind s;
     ss_work_profile_id := ss_work_profile_id s;
     ss_work_profile_version := ss_work_profile_version s;
     ss_work_profile_definition_hash := ss_work_profile_definition_hash s;
     ss_profile_catalog_fingerprint := ss_profile_catalog_fingerprint s;
     ss_profile_resolution_fingerprint := ss_profile_resolution_fingerprint s;
     ss_project_ids := ss_project_ids s;
     ss_included_work := ss_included_work s;
     ss_excluded_work := ss_excluded_work s;
     ss_expected_change_scope := ss_expected_change_scope s;
     ss_dependencies := ss_dependencies s;
     ss_parallel_group := ss_parallel_group s;
     ss_completion_criteria := ss_completion_criteria s;
     ss_failure_policy := ss_failure_policy s;
     ss_route_decision_ref := ss_route_decision_ref s;
     ss_permission_plan_ref := ss_permission_plan_ref s;
     ss_validation_plan_ref := ss_validation_plan_ref s;
     ss_impact_analysis_ref := ss_impact_analysis_ref s;
     ss_change_plan_refs := ss_change_plan_refs s;
     ss_result_ref := ss_result_ref s;
     ss_state := ss_state s;
     ss_stage_fingerprint := fp |}.

(** [#[derive(Serialize)]] of [StageSpecV1], with the optional fields that are
    skipped when absent; this is how a stage appears inside a graph payload. *)
#[global] Instance StageSpecV1_to_json : ToJson StageSpecV1 := λ s, JObj (present
  [field "schema_id" (ss_schema_id s);
   field "schema_version" (ss_schema_version s);
   field "stage_id" (ss_stage_id s);
   field "revision" (ss_revision s);
   field "goal_id" (ss_goal_id s);
   opt_field "task_spec_ref" (ss_task_spec_ref s);
   opt_field "scope_revision_ref" (ss_scope_revision_ref s);
   field "title" (ss_title s);
   field "objective" (ss_objective s);
   field "stage_mode" (ss_stage_mode s);
   field "executor_kind" (ss_executor_kind s);
   field "work_profile_id" (ss_work_profile_id s);
   field "work_profile_version" (ss_work_profile_version s);
   opt_field "work_profile_definition_hash" (ss_work_profile_definition_hash s);
   opt_field "profile_catalog_fingerprint" (ss_profile_catalog_fingerprint s);
   opt_field "profile_resolution_fingerprint" (ss_profile_resolution_fingerprint s);
   field "project_ids" (ss_project_ids s);
   field "included_work" (ss_included_work s);
   field "excluded_work" (ss_excluded_work s);
   field "expected_change_scope" (ss_expected_change_scope s);
   field "dependencies" (ss_dependencies s);
   opt_field "parallel_group" (ss_parallel_group s);
   field "completion_criteria" (ss_completion_criteria s);
   field "failure_policy" (ss_failure_policy s);
   opt_field "route_decision_ref" (ss_route_decision_ref s);
   opt_field "permission_plan_ref" (ss_permission_plan_ref s);
   opt_field "validation_plan_ref" (ss_validation_plan_ref s);
   opt_field "impact_analysis_ref" (ss_impact_analysis_ref s);
   field "change_plan_refs" (ss_change_plan_refs s);
   opt_field "result_ref" (ss_result_ref s);
   field "state" (ss_state s);
   field "stage_fingerprint" (ss_stage_fingerprint s)]).

Section stage.
Context `{Platform}.

(** ** Stage specifications *)

Definition bad_ref (schema : string) (reference : option DocumentRef) : bool :=
  is_some_and reference (λ r, negb (valid_document_ref r schema)).

Definition ss_validate_shape (s : StageSpecV1) : result unit StageContractError :=
  check negb (String.eqb (ss_schema_id s) STAGE_SPEC_SCHEMA_ID)
    || negb (ss_schema_version s =? STAGE_CONTRACT_VERSION)%N
    || (ss_revision s =? 0)%N
    || negb (bounded_text (ss_title s) 256)
    || negb (bounded_text (ss_objective s) 4096)
    || negb (bounded_token (ss_work_profile_id s) 96)
    || negb (semver_parse_ok (ss_work_profile_version s))
    || is_none (ss_work_profile_definition_hash s)
    || is_none (ss_profile_catalog_fingerprint s)
    || is_none (ss_profile_resolution_fingerprint s)
    || (len (ss_project_ids s) =? 0)%N
    || (64 <? len (ss_project_ids s))%N
    || (len (ss_included_work s) =? 0)%N
    || (len (ss_excluded_work s) =? 0)%N
    || (bool_decide (ss_stage_mode s = Execute)
        && (len (ss_expected_change_scope s) =? 0)%N)
    || (len (ss_completion_criteria s) =? 0)%N
    || (256 <? len (ss_dependencies s))%N
    || mem (ss_stage_id s) (ss_dependencies s)
    || bad_ref "star.task-spec" (ss_task_spec_ref s)
    || bad_ref "star.scope-revision" (ss_scope_revision_ref s)
    || bad_ref "star.route-decision" (ss_route_decision_ref s)
    || bad_ref "star.permission-plan" (ss_permission_plan_ref s)
    || bad_ref "star.validation-plan" (ss_validation_plan_ref s)
    || bad_ref "star.impact-analysis" (ss_impact_analysis_ref s)
    || (256 <? len (ss_change_plan_refs s))%N
    || existsb (λ r, negb (valid_document_ref r "star.change-plan")) (ss_change_plan_refs s)
    || is_some_and (ss_parallel_group s) (λ value, negb (bounded_token value 96))
    || bad_ref STAGE_RESULT_SCHEMA_ID (ss_result_ref s)
  else Content in
  check bool_decide (ss_executor_kind s = DeterministicLocal)
    && is_some (ss_route_decision_ref s)
  else Content in
  check bool_decide (ss_executor_kind s = Codex)
    && negb (bool_decide (ss_state s = Draft))
    && (is_none (ss_permission_plan_ref s) || is_none (ss_validation_plan_ref s))
  else Content in
  check String.eqb (ss_work_profile_id s) "change_planning"
    && (negb (bool_decide (ss_executor_kind s = DeterministicLocal))
        || is_none (ss_task_spec_ref s)
        || is_none (ss_scope_revision_ref s))
  else Content in
  let terminal_result_required :=
    match ss_state s with
    | Blocked | Failed | Cancelled | Completed => true
    | _ => false
    end in
  check negb (Bool.eqb terminal_result_required (is_some (ss_result_ref s)))
  else Content in
  Ok tt.

(** The object [seal] hashes; absent references are [null] here. *)
Definition ss_payload (s : StageSpecV1) : Json := JObj
  [("domain", to_json STAGE_SPEC_SCHEMA_ID);
   ("version", to_json STAGE_CONTRACT_VERSION);
   ("value", JObj
     [("stage_id", to_json (ss_stage_id s));
      ("revision", to_json (ss_revision s));
      ("goal_id", to_json (ss_goal_id s));
      ("task_spec_ref", to_json (ss_task_spec_ref s));
      ("scope_revision_ref", to_json (ss_scope_revision_ref s));
      ("title", to_json (ss_title s));
      ("objective", to_json (ss_objective s));
      ("stage_mode", to_json (ss_stage_mode s));
      ("executor_kind", to_json (ss_executor_kind s));
      ("work_profile_id", to_json (ss_work_profile_id s));
      ("work_profile_version", to_json (ss_work_profile_version s));
      ("work_profile_definition_hash", to_json (ss_work_profile_definition_hash s));
      ("profile_catalog_fingerprint", to_json (ss_profile_catalog_fingerprint s));
      ("profile_resolution_fingerprint", to_json (ss_profile_resolution_fingerprint s));
      ("project_ids", to_json (ss_project_ids s));
      ("included_work", to_json (ss_included_work s));
      ("excluded_work", to_json (ss_excluded_work s));
      ("expected_change_scope", to_json (ss_expected_change_scope s));
      ("dependencies", to_json (ss_dependencies s));
      ("parallel_group", to_json (ss_parallel_group s));
      ("completion_criteria", to_json (ss_completion_criteria s));
      ("failure_policy", to_json (ss_failure_policy s));
      ("route_decision_ref", to_json (ss_route_decision_ref s));
      ("permission_plan_ref", to_json (ss_permission_plan_ref s));
      ("validation_plan_ref", to_json (ss_validation_plan_ref s));
      ("impact_analysis_ref", to_json (ss_impact_analysis_ref s));
      ("change_plan_refs", to_json (ss_change_plan_refs s));
      ("result_ref", to_json (ss_result_ref s));
      ("state", to_json (ss_state s))])].

(** [permission_scope_hash]: what a permission plan is bound to; the lifecycle
    fields are left out. *)
Definition permission_scope_hash (s : StageSpecV1) : result Sha256Hash StageContractError :=
  map_err (λ _, Fingerprint) (canonical_sha256 (JObj
    [("domain", JStr "star.stage-permission-scope");
     ("version", to_json STAGE_CONTRACT_VERSION);
     ("value", JObj
       [("stage_id", to_json (ss_stage_id s));
        ("revision", to_json (ss_revision s));
        ("goal_id", to_json (ss_goal_id s));
        ("task_spec_ref", to_json (ss_task_spec_ref s));
        ("scope_revision_ref", to_json (ss_scope_revision_ref s));
        ("stage_mode", to_json (ss_stage_mode s));
        ("executor_kind", to_json (ss_executor_kind s));
        ("work_profile_id", to_json (ss_work_profile_id s));
        ("work_profile_version", to_json (ss_work_profile_version s));
        ("work_profile_definition_hash", to_json (ss_work_profile_definition_hash s));
        ("profile_catalog_fingerprint", to_json (ss_profile_catalog_fingerprint s));
        ("profile_resolution_fingerprint", to_json (ss_profile_resolution_fingerprint s));
        ("project_ids", to_json (ss_project_ids s));
        ("included_work", to_json (ss_included_work s));
        ("excluded_work", to_json (ss_excluded_work s));
        ("expected_change_scope", to_json (ss_expected_change_scope s));
        ("completion_criteria", to_json (ss_completion_criteria s));
        ("failure_policy", to_json (ss_failure_policy s))])])).

Definition ss_seal (s : StageSpecV1) : result StageSpecV1 StageContractError :=
  let? included_work := sort_dedup_strings (ss_included_work s) in
  let? excluded_work := sort_dedup_strings (ss_excluded_work s) in
  let? expected_change_scope := sort_dedup_strings (ss_expected_change_scope s) in
  let s := ss_with_collections s included_work excluded_work expected_change_scope
    (sort_dedup (ss_project_ids s)) (sort_dedup (ss_dependencies s))
    (sort_dedup (ss_completion_criteria s)) (sort_dedup (ss_change_plan_refs s)) in
  let? _ := ss_validate_shape s in
  let? fp := map_err (λ _, Fingerprint) (canonical_sha256 (ss_payload s)) in
  Ok (ss_with_fingerprint s fp).

Definition ss_verify (s : StageSpecV1) : result unit StageContractError :=
  let? expected := ss_seal s in
  if bool_decide (expected = s) then Ok tt else Err Fingerprint.

(** ** Stage results *)

Definition sr_validate_shape (r : StageResultV1) : result unit StageContractError :=
  check negb (String.eqb (sr_schema_id r) STAGE_RESULT_SCHEMA_ID)
    || negb (sr_schema_version r =? STAGE_CONTRACT_VERSION)%N
    || (sr_revision r =? 0)%N
    || negb (valid_document_ref (sr_stage_graph_ref r) STAGE_GRAPH_SCHEMA_ID)
    || negb (valid_document_ref (sr_stage_ref r) STAGE_SPEC_SCHEMA_ID)
    || (256 <? len (sr_completed_criteria r))%N
    || existsb (λ criterion, negb (bounded_text criterion 4096)) (sr_completed_criteria r)
    || (64 <? len (sr_project_evidence r))%N
    || existsb (λ evidence,
         negb (bounded_token (pe_project_id evidence) 192)
         || negb (valid_document_ref (pe_evidence_bundle_ref evidence) "star.evidence-bundle"))
         (sr_project_evidence r)
    || windows2_any (λ a b, cmp_leb (pe_project_id b) (pe_project_id a)) (sr_project_evidence r)
    || bad_ref "star.codex-execution-record" (sr_execution_record_ref r)
    || is_some_and (sr_failure_code r) (λ code, negb (bounded_token code 128))
    || is_some_and (sr_recovery_action r) (λ action, negb (bounded_text action 4096))
  else Content in
  check (if bool_decide (sr_outcome r = OutcomeCompleted)
         then (len (sr_completed_criteria r) =? 0)%N
              || (len (sr_project_evidence r) =? 0)%N
              || is_some (sr_failure_code r)
              || is_some (sr_recovery_action r)
         else is_none (sr_failure_code r))
  else Content in
  check bool_decide (sr_outcome r = OutcomeUnknown)
    && (negb (sr_source_effect_may_have_started r) || is_none (sr_recovery_action r))
  else Content in
  Ok tt.

Definition sr_with (r : StageResultV1) (criteria : list string)
    (evidence : list StageProjectEvidenceV1) (fp : Sha256Hash) : StageResultV1 :=
  {| sr_schema_id := sr_schema_id r;
     sr_schema_version := sr_schema_version r;
     sr_stage_result_id := sr_stage_result_id r;
     sr_revision := sr_revision r;
     sr_goal_id := sr_goal_id r;
     sr_stage_graph_ref := sr_stage_graph_ref r;
     sr_stage_ref := sr_stage_ref r;
     sr_outcome := sr_outcome r;
     sr_completed_criteria := criteria;
     sr_project_evidence := evidence;
     sr_execution_record_ref := sr_execution_record_ref r;
     sr_failure_code := sr_failure_code r;
     sr_recovery_action := sr_recovery_action r;
     sr_source_effect_may_have_started := sr_source_effect_may_have_started r;
     sr_recorded_at := sr_recorded_at r;
     sr_result_fingerprint := fp |}.

Definition sr_payload (r : StageResultV1) : Json := JObj
  [("domain", to_json STAGE_RESULT_SCHEMA_ID);
   ("version", to_json STAGE_CONTRACT_VERSION);
   ("value", JObj
     [("stage_result_id", to_json (sr_stage_result_id r));
      ("revision", to_json (sr_revision r));
      ("goal_id", to_json (sr_goal_id r));
      ("stage_graph_ref", to_json (sr_stage_graph_ref r));
      ("stage_ref", to_json (sr_stage_ref r));
      ("outcome", to_json (sr_outcome r));
      ("completed_criteria", to_json (sr_completed_criteria r));
      ("project_evidence", to_json (sr_project_evidence r));
      ("execution_record_ref", to_json (sr_execution_record_ref r));
      ("failure_code", to_json (sr_failure_code r));
      ("recovery_action", to_json (sr_recovery_action r));
      ("source_effect_may_have_started", to_json (sr_source_effect_may_have_started r));
      ("recorded_at", JStr (rfc3339 (sr_recorded_at r)))])].

Definition sr_seal (r : StageResultV1) : result StageResultV1 StageContractError :=
  let r := sr_with r (sort_dedup (sr_completed_criteria r))
    (sort_dedup (sr_project_evidence r)) (sr_result_fingerprint r) in
  let? _ := sr_validate_shape r in
  let? fp := map_err (λ _, Fingerprint) (canonical_sha256 (sr_payload r)) in
  Ok (sr_with r (sr_completed_criteria r) (sr_project_evidence r) fp).

Definition sr_verify (r : StageResultV1) : result unit StageContractError :=
  let? expected := sr_seal r in
  if bool_decide (expected = r) then Ok tt else Err Fingerprint.

Definition sr_reference (r : StageResultV1) : DocumentRef :=
  {| dr_schema_id := STAGE_RESULT_SCHEMA_ID;
     dr_document_id := sr_stage_result_id r;
     dr_revision := sr_revision r;
     dr_sha256 := sr_result_fingerprint r |}.

Definition terminal_state (r : StageResultV1) : StageStateV1 :=
  match sr_outcome r with
  | OutcomeCompleted => Completed
  | OutcomeFailed => Failed
  | OutcomeBlocked | OutcomeUnknown => Blocked
  | OutcomeCancelled => Cancelled
  end.

(** ** Stage graphs *)

Definition normalized (value : string) : string :=
  trim_end_matches (byte_in ["/"%char; "\"%char]) (trim value).

Definition scopes_overlap (left right : string) : bool :=
  let left := normalized left in
  let right := normalized right in
  let continues suffix := starts_with_char (byte_in ["/"%char; "\"%char]) suffix in
  String.eqb left right
  || is_some_and (strip_prefix left right) continues
  || is_some_and (strip_prefix right left) continues.

(** [BTreeMap] collected from the stages: a later stage replaces an earlier one
    with the same id. *)
Definition stages_by_id (stages : list StageSpecV1) : gmap string StageSpecV1 :=
  list_to_map (reverse (map (λ s, (ss_stage_id s, s)) stages)).

(** The [Requires] edges as a [BTreeSet] of pairs. *)
Definition requires_edges (edges : list StageGraphEdgeV1) : list (string * string) :=
  sort_dedup (map (λ e, (se_from e, se_to e))
    (filter (λ e, se_relation e = Requires) edges)).

Definition declared_dependencies (stages : list StageSpecV1) : list (string * string) :=
  sort_dedup (stages ≫= λ s, map (λ d, (d, ss_stage_id s)) (ss_dependencies s)).

(** [Vec::push] and [Vec::pop]. *)
Definition stack : discipline := {|
  dequeue := λ ready, match last ready with
    | None => None
    | Some x => Some (x, take (pred (length ready)) ready)
    end;
  enqueue := λ ready x, ready ++ [x]
|}.

(** The cycle test: the in-degree worklist must visit every stage. *)
Definition check_acyclic (ids : list string) (requires : list (string * string)) :
    result unit StageContractError :=
  match count_edges requires (zero_degrees ids) with
  | None => Err GraphMember
  | Some incoming =>
      match worklist stack (length ids) (outgoing_of requires) incoming
              (initial_ready ids incoming) [] with
      | Ok visited => if (len visited =? len ids)%N then Ok tt else Err Cycle
      | Err _ => Err GraphMember
      end
  end.

(** [!set.insert(x)] over a list, stopping at the first repetition. *)
Fixpoint insert_fresh (l : list string) (seen : gset string) : option (gset string) :=
  match l with
  | [] => Some seen
  | x :: rest => if bool_decide (x ∈ seen) then None else insert_fresh rest ({[x]} ∪ seen)
  end.

(** One member of a group against a later one. *)
Definition check_pair (requires : list (string * string)) (left right : StageSpecV1) :
    result unit StageContractError :=
  check mem (ss_stage_id left, ss_stage_id right) requires
    || mem (ss_stage_id right, ss_stage_id left) requires
  else GraphMember in
  let overlap := existsb (λ left_scope,
    existsb (λ right_scope, scopes_overlap left_scope right_scope)
      (ss_expected_change_scope right)) (ss_expected_change_scope left) in
  check overlap && (bool_decide (ss_stage_mode left = Execute)
                    || bool_decide (ss_stage_mode right = Execute))
  else ParallelOverlap in
  Ok tt.

Fixpoint check_against (requires : list (string * string)) (left : StageSpecV1)
    (later : list StageSpecV1) : result unit StageContractError :=
  match later with
  | [] => Ok tt
  | other :: rest =>
      let? _ := check_pair requires left other in check_against requires left rest
  end.

Fixpoint check_pairs (requires : list (string * string)) (members : list StageSpecV1) :
    result unit StageContractError :=
  match members with
  | [] => Ok tt
  | stage :: rest =>
      let? _ := check_against requires stage rest in check_pairs requires rest
  end.

(** The [for group in &self.parallel_groups] loop, with its two sets. *)
Fixpoint check_groups (by_id : gmap string StageSpecV1)
    (requires : list (string * string)) (groups : list StageParallelGroupV1)
    (group_ids grouped_stage_ids : gset string) : result unit StageContractError :=
  match groups with
  | [] => Ok tt
  | group :: rest =>
      check negb (bounded_token (pg_group_id group) 96)
        || (pg_max_parallel group =? 0)%N
        || (len (pg_stage_ids group) <? 2)%N
        || (len (pg_stage_ids group) <? pg_max_parallel group)%N
        || bool_decide (pg_group_id group ∈ group_ids)
      else Content in
      match insert_fresh (pg_stage_ids group) grouped_stage_ids with
      | None => Err Content
      | Some grouped_stage_ids =>
          let? members := map_result (λ id, ok_or (by_id !! id) GraphMember)
            (pg_stage_ids group) in
          check existsb (λ stage,
            negb (bool_decide (ss_parallel_group stage = Some (pg_group_id group)))) members
          else GraphMember in
          let? _ := check_pairs requires members in
          check_groups by_id requires rest ({[pg_group_id group]} ∪ group_ids)
            grouped_stage_ids
      end
  end.

Definition validate_graph (g : StageGraphV1) : result unit StageContractError :=
  check negb (String.eqb (sg_schema_id g) STAGE_GRAPH_SCHEMA_ID)
    || negb (sg_schema_version g =? STAGE_CONTRACT_VERSION)%N
    || (sg_plan_revision g =? 0)%N
    || (len (sg_stages g) =? 0)%N
    || ((sg_plan_revision g =? 1)%N
        && (is_some (sg_previous_graph_fingerprint g) || is_some (sg_replan_reason g)))
    || ((1 <? sg_plan_revision g)%N
        && (is_none (sg_previous_graph_fingerprint g)
            || is_none_or (sg_replan_reason g) (λ reason, negb (bounded_text reason 2048))))
  else Identity in
  let by_id := stages_by_id (sg_stages g) in
  let contains_key id := is_some (by_id !! id) in
  check negb (N.of_nat (size by_id) =? len (sg_stages g))%N
    || existsb (λ stage, negb (String.eqb (ss_goal_id stage) (sg_goal_id g))) (sg_stages g)
    || is_some_and (sg_integration_stage_id g) (λ id, negb (contains_key id))
    || existsb (λ id, negb (contains_key id)) (sg_critical_path g)
  else GraphMember in
  let requires := requires_edges (sg_edges g) in
  check existsb (λ edge, String.eqb (se_from edge) (se_to edge)
                         || negb (contains_key (se_from edge))
                         || negb (contains_key (se_to edge))) (sg_edges g)
    || negb (bool_decide (requires = declared_dependencies (sg_stages g)))
  else GraphMember in
  let? _ := check_acyclic (sort_dedup (map ss_stage_id (sg_stages g))) requires in
  check windows2_any (λ a b, negb (mem (a, b) requires)) (sg_critical_path g)
  else GraphMember in
  let? _ := check_groups by_id requires (sg_parallel_groups g) ∅ ∅ in
  check existsb (λ stage, is_some_and (ss_parallel_group stage) (λ group_id,
          negb (existsb (λ group, String.eqb (pg_group_id group) group_id
                                  && mem (ss_stage_id stage) (pg_stage_ids group))
                        (sg_parallel_groups g)))) (sg_stages g)
  else GraphMember in
  Ok tt.

Definition sg_with (g : StageGraphV1) (stages : list StageSpecV1)
    (edges : list StageGraphEdgeV1) (groups : list StageParallelGroupV1)
    (fp : Sha256Hash) : StageGraphV1 :=
  {| sg_schema_id := sg_schema_id g;
     sg_schema_version := sg_schema_version g;
     sg_stage_graph_id := sg_stage_graph_id g;
     sg_goal_id := sg_goal_id g;
     sg_plan_revision := sg_plan_revision g;
     sg_stages := stages;
     sg_edges := edges;
     sg_parallel_groups := groups;
     sg_critical_path := sg_critical_path g;
     sg_integration_stage_id := sg_integration_stage_id g;
     sg_previous_graph_fingerprint := sg_previous_graph_fingerprint g;
     sg_replan_reason := sg_replan_reason g;
     sg_graph_fingerprint := fp |}.

Definition sg_payload (g : StageGraphV1) : Json := JObj
  [("domain", to_json STAGE_GRAPH_SCHEMA_ID);
   ("version", to_json STAGE_CONTRACT_VERSION);
   ("value", JObj
     [("stage_graph_id", to_json (sg_stage_graph_id g));
      ("goal_id", to_json (sg_goal_id g));
      ("plan_revision", to_json (sg_plan_revision g));
      ("stages", to_json (sg_stages g));
      ("edges", to_json (sg_edges g));
      ("parallel_groups", to_json (sg_parallel_groups g));
      ("critical_path", to_json (sg_critical_path g));
      ("integration_stage_id", to_json (sg_integration_stage_id g));
      ("previous_graph_fingerprint", to_json (sg_previous_graph_fingerprint g));
      ("replan_reason", to_json (sg_replan_reason g))])].

Definition normalize_group (group : StageParallelGroupV1) : StageParallelGroupV1 :=
  {| pg_group_id := pg_group_id group;
     pg_stage_ids := sort_dedup (pg_stage_ids group);
     pg_max_parallel := pg_max_parallel group |}.

Definition sg_seal (g : StageGraphV1) : result StageGraphV1 StageContractError :=
  let? stages := map_result ss_seal (sg_stages g) in
  let g := sg_with g (sort_by_key ss_stage_id stages) (sort_dedup (sg_edges g))
    (sort_by_key pg_group_id (map normalize_group (sg_parallel_groups g)))
    (sg_graph_fingerprint g) in
  check negb (distinct_count (sg_critical_path g) =? len (sg_critical_path g))%N
  else GraphMember in
  let? _ := validate_graph g in
  let? fp := map_err (λ _, Fingerprint) (canonical_sha256 (sg_payload g)) in
  Ok (sg_with g (sg_stages g) (sg_edges g) (sg_parallel_groups g) fp).

Definition sg_verify (g : StageGraphV1) : result unit StageContractError :=
  let? expected := sg_seal g in
  if bool_decide (expected = g) then Ok tt else Err Fingerprint.

(** ** A result against the graph and the stage it reports on *)

Definition sg_reference (g : StageGraphV1) : DocumentRef :=
  {| dr_schema_id := STAGE_GRAPH_SCHEMA_ID;
     dr_document_id := sg_stage_graph_id g;
     dr_revision := sg_plan_revision g;
     dr_sha256 := sg_graph_fingerprint g |}.

Definition ss_reference (s : StageSpecV1) : DocumentRef :=
  {| dr_schema_id := STAGE_SPEC_SCHEMA_ID;
     dr_document_id := ss_stage_id s;
     dr_revision := ss_revision s;
     dr_sha256 := ss_stage_fingerprint s |}.

Definition sr_verify_against (r : StageResultV1) (graph : StageGraphV1)
    (stage : StageSpecV1) : result unit StageContractError :=
  let? _ := sr_verify r in
  let? _ := sg_verify graph in
  let? _ := ss_verify stage in
  check negb (String.eqb (sr_goal_id r) (sg_goal_id graph))
    || negb (String.eqb (ss_goal_id stage) (sg_goal_id graph))
    || negb (bool_decide (sr_stage_graph_ref r = sg_reference graph))
    || negb (bool_decide (sr_stage_ref r = ss_reference stage))
    || negb (mem stage (sg_stages graph))
    || match ss_state stage with
       | Blocked | Failed | Cancelled | Completed | Superseded => true
       | _ => false
       end
  else Identity in
  let project_ids := map pe_project_id (sr_project_evidence r) in
  check (if bool_decide (sr_outcome r = OutcomeCompleted)
         then negb (bool_decide (sr_completed_criteria r = ss_completion_criteria stage))
              || negb (bool_decide (project_ids = ss_project_ids stage))
              || match ss_state stage with Ready | Running => false | _ => true end
         else existsb (λ criterion, negb (mem criterion (ss_completion_criteria stage)))
                (sr_completed_criteria r)
              || existsb (λ project_id, negb (mem project_id (ss_project_ids stage)))
                   project_ids)
  else Identity in
  check bool_decide (ss_executor_kind stage = Codex) && is_none (sr_execution_record_ref r)
  else Content in
  Ok tt.

End stage.
