(* ===== verification/StageFacts.v ===== *)
(** * Properties of the stage contracts

    Sealing is idempotent for specifications, results and graphs; a validated
    graph has unique stages, closed and acyclic dependencies and safe parallel
    groups; equal fingerprints bind equal contents. *)
From S2P Require Import Prelude Canonical Toy Contracts Kahn Stage.

(** ** Sealing *)

Lemma sort_dedup_strings_idem l l' :
  sort_dedup_strings l = Ok l' → sort_dedup_strings l' = Ok l'.
Proof.
  unfold sort_dedup_strings. intros Heq.
  destruct (_ || _) eqn:E in Heq; [done|]. injection Heq as <-.
  by rewrite sort_dedup_idemp, E.
Qed.

Section sealing.
Context `{Platform}.

Lemma ss_with_collections_self s :
  ss_with_collections s (ss_included_work s) (ss_excluded_work s)
    (ss_expected_change_scope s) (ss_project_ids s) (ss_dependencies s)
    (ss_completion_criteria s) (ss_change_plan_refs s) = s.
Proof. by destruct s. Qed.

(** The shape and the payload do not depend on the fingerprint field. *)
Lemma ss_validate_shape_fp s fp :
  ss_validate_shape (ss_with_fingerprint s fp) = ss_validate_shape s.
Proof. reflexivity. Qed.

Lemma ss_payload_fp s fp : ss_payload (ss_with_fingerprint s fp) = ss_payload s.
Proof. reflexivity. Qed.

(** What a successful [seal] establishes, as one characterization. *)
Lemma ss_seal_ok s s' :
  ss_seal s = Ok s' ↔
  ∃ iw ew cs fp,
    sort_dedup_strings (ss_included_work s) = Ok iw ∧
    sort_dedup_strings (ss_excluded_work s) = Ok ew ∧
    sort_dedup_strings (ss_expected_change_scope s) = Ok cs ∧
    let n := ss_with_collections s iw ew cs (sort_dedup (ss_project_ids s))
      (sort_dedup (ss_dependencies s)) (sort_dedup (ss_completion_criteria s))
      (sort_dedup (ss_change_plan_refs s)) in
    ss_validate_shape n = Ok tt ∧ canonical_sha256 (ss_payload n) = Ok fp ∧
    s' = ss_with_fingerprint n fp.
Proof.
  unfold ss_seal, map_err.
  destruct (sort_dedup_strings (ss_included_work s)) as [iw|] eqn:E1; [|naive_solver].
  destruct (sort_dedup_strings (ss_excluded_work s)) as [ew|] eqn:E2; [|naive_solver].
  destruct (sort_dedup_strings (ss_expected_change_scope s)) as [cs|] eqn:E3; [|naive_solver].
  set (n := ss_with_collections _ _ _ _ _ _ _ _). split.
  - intros Hs. destruct (ss_validate_shape n) as [[]|] eqn:E4; [|done].
    destruct (canonical_sha256 (ss_payload n)) as [fp|] eqn:E5; [|done].
    injection Hs as <-. by exists iw, ew, cs, fp.
  - intros (? & ? & ? & fp & [= <-] & [= <-] & [= <-] & Hv & Hc & ->).
    fold n in Hv, Hc |- *. by rewrite Hv, Hc.
Qed.

Lemma ss_seal_idem s s' : ss_seal s = Ok s' → ss_seal s' = Ok s'.
Proof.
  intros (iw & ew & cs & fp & Hi & He & Hc & Hv & Hf & ->)%ss_seal_ok.
  apply ss_seal_ok. exists iw, ew, cs, fp. cbn [ss_included_work ss_excluded_work
    ss_expected_change_scope ss_project_ids ss_dependencies ss_completion_criteria
    ss_change_plan_refs ss_with_fingerprint ss_with_collections].
  rewrite !sort_dedup_idemp.
  split; [by eapply sort_dedup_strings_idem|].
  split; [by eapply sort_dedup_strings_idem|].
  split; [by eapply sort_dedup_strings_idem|]. done.
Qed.

#[export] Instance StageSpecV1_sealing : Sealing StageSpecV1 StageContractError :=
  {| seal := ss_seal; seal_idem := ss_seal_idem |}.

Lemma sr_seal_ok r r' :
  sr_seal r = Ok r' ↔
  ∃ fp, let n := sr_with r (sort_dedup (sr_completed_criteria r))
      (sort_dedup (sr_project_evidence r)) (sr_result_fingerprint r) in
    sr_validate_shape n = Ok tt ∧ canonical_sha256 (sr_payload n) = Ok fp ∧
    r' = sr_with r (sort_dedup (sr_completed_criteria r))
      (sort_dedup (sr_project_evidence r)) fp.
Proof.
  unfold sr_seal, map_err. set (n := sr_with _ _ _ _). cbn zeta. split.
  - intros Hs. destruct (sr_validate_shape n) as [[]|] eqn:E4; [|done].
    destruct (canonical_sha256 (sr_payload n)) as [fp|] eqn:E5; [|done].
    injection Hs as <-. by exists fp.
  - intros (fp & Hv & Hc & ->). by rewrite Hv, Hc.
Qed.

Lemma sr_seal_idem r r' : sr_seal r = Ok r' → sr_seal r' = Ok r'.
Proof.
  intros (fp & Hv & Hf & ->)%sr_seal_ok. apply sr_seal_ok. exists fp.
  cbn [sr_completed_criteria sr_project_evidence sr_with]. rewrite !sort_dedup_idemp. done.
Qed.

#[export] Instance StageResultV1_sealing : Sealing StageResultV1 StageContractError :=
  {| seal := sr_seal; seal_idem := sr_seal_idem |}.

(** *** Graphs *)

Lemma normalize_group_idem group : normalize_group (normalize_group group) = normalize_group group.
Proof. unfold normalize_group; simpl. by rewrite sort_dedup_idemp. Qed.

Lemma map_normalize_group_sorted groups :
  map normalize_group (sort_by_key pg_group_id (map normalize_group groups)) =
  sort_by_key pg_group_id (map normalize_group groups).
Proof.
  rewrite <-(map_id (sort_by_key _ _)) at 2. apply map_ext_in. intros x Hx%list_elem_of_In.
  unfold sort_by_key in Hx. rewrite elem_of_sort_by in Hx.
  apply list_elem_of_fmap in Hx as (y & -> & _). apply normalize_group_idem.
Qed.

Definition sg_normal (g : StageGraphV1) (stages : list StageSpecV1) (fp : Sha256Hash) :=
  sg_with g (sort_by_key ss_stage_id stages) (sort_dedup (sg_edges g))
    (sort_by_key pg_group_id (map normalize_group (sg_parallel_groups g))) fp.

Lemma sg_seal_ok g g' :
  sg_seal g = Ok g' ↔
  ∃ stages fp, map_result ss_seal (sg_stages g) = Ok stages ∧
    distinct_count (sg_critical_path g) = len (sg_critical_path g) ∧
    validate_graph (sg_normal g stages (sg_graph_fingerprint g)) = Ok tt ∧
    canonical_sha256 (sg_payload (sg_normal g stages (sg_graph_fingerprint g))) = Ok fp ∧
    g' = sg_normal g stages fp.
Proof.
  unfold sg_seal, map_err.
  destruct (map_result ss_seal (sg_stages g)) as [stages|] eqn:E1; [|naive_solver].
  cbn [sg_critical_path sg_with]. fold (sg_normal g stages (sg_graph_fingerprint g)). split.
  - destruct (distinct_count _ =? _)%N eqn:E2; [|done]. simpl.
    intros Hs. destruct (validate_graph _) as [[]|] eqn:E4; [|done].
    destruct (canonical_sha256 _) as [fp|] eqn:E5; [|done].
    injection Hs as <-. apply N.eqb_eq in E2. by exists stages, fp.
  - intros (? & fp & [= <-] & Hd & Hv & Hc & ->). apply N.eqb_eq in Hd as ->. simpl.
    by rewrite Hv, Hc.
Qed.

Lemma sg_seal_idem g g' : sg_seal g = Ok g' → sg_seal g' = Ok g'.
Proof.
  intros (stages & fp & Hs & Hd & Hv & Hf & ->)%sg_seal_ok.
  apply sg_seal_ok. exists (sort_by_key ss_stage_id stages), fp.
  assert (sg_normal (sg_normal g stages fp) (sort_by_key ss_stage_id stages) fp
          = sg_normal g stages fp) as Hn.
  { unfold sg_normal at 1. cbn [sg_edges sg_parallel_groups sg_normal sg_with].
    by rewrite sort_by_key_idem, sort_dedup_idemp, map_normalize_group_sorted, sort_by_key_idem. }
  split; [|split; [done|]].
  - cbn [sg_stages sg_normal sg_with]. 
    refine (map_sealed (E := StageContractError) (sort_by_key ss_stage_id stages) _).
    unfold sort_by_key. rewrite sort_by_perm.
    exact (map_seal_sealed (E := StageContractError) (sg_stages g) stages Hs).
  - cbn [sg_graph_fingerprint sg_normal sg_with] in *. rewrite Hn. done.
Qed.

#[export] Instance StageGraphV1_sealing : Sealing StageGraphV1 StageContractError :=
  {| seal := sg_seal; seal_idem := sg_seal_idem |}.

(** A verified document is a fixed point of sealing. *)
Lemma ss_verify_sealed s : ss_verify s = Ok tt ↔ ss_seal s = Ok s.
Proof.
  unfold ss_verify. destruct (ss_seal s) as [s'|e]; [|naive_solver].
  case_bool_decide; naive_solver.
Qed.

(** A verified specification: the header constants, and its own hash. *)
Lemma ss_verified_parts s :
  ss_verify s = Ok tt →
  ss_schema_id s = STAGE_SPEC_SCHEMA_ID ∧ ss_schema_version s = STAGE_CONTRACT_VERSION ∧
  canonical_sha256 (ss_payload s) = Ok (ss_stage_fingerprint s).
Proof.
  intros Hs%ss_verify_sealed.
  apply ss_seal_ok in Hs as (iw & ew & cs & fp & _ & _ & _ & Hv & Hc & Heq).
  set (n := ss_with_collections _ _ _ _ _ _ _ _) in *.
  assert (ss_stage_fingerprint s = fp) as -> by by rewrite Heq.
  rewrite <-(ss_payload_fp n fp), <-Heq in Hc. rewrite <-(ss_validate_shape_fp n fp), <-Heq in Hv.
  unfold ss_validate_shape in Hv. err_cases Hv. by bool_to_prop.
Qed.

Lemma sr_verify_sealed r : sr_verify r = Ok tt ↔ sr_seal r = Ok r.
Proof.
  unfold sr_verify. destruct (sr_seal r) as [r'|e]; [|naive_solver].
  case_bool_decide; naive_solver.
Qed.

Lemma sg_verify_sealed g : sg_verify g = Ok tt ↔ sg_seal g = Ok g.
Proof.
  unfold sg_verify. destruct (sg_seal g) as [g'|e]; [|naive_solver].
  case_bool_decide; naive_solver.
Qed.

End sealing.

(** ** The cycle test *)

Lemma stack_lawful : lawful stack.
Proof.
  split; simpl.
  - intros r. destruct (last r) eqn:E; [done|]. intros _. by apply last_None.
  - intros r x r'. destruct (last r) as [y|] eqn:E; [|done]. intros [= <- <-].
    apply last_Some in E as [l ->].
    rewrite length_app, Nat.add_comm. simpl. rewrite take_app_length.
    by rewrite Permutation_app_comm.
  - intros r x. by rewrite Permutation_app_comm.
Qed.

#[export] Hint Resolve stack_lawful : star.

Section acyclic_check.
Context (ids : list string) (requires : list (string * string)).
Context (Hids : NoDup ids).
Context (Hclosed : ∀ u v, (u, v) ∈ requires → u ∈ ids ∧ v ∈ ids).

Lemma check_acyclic_run :
  ∃ order, NoDup order ∧ (∀ v, v ∈ order → v ∈ ids) ∧ respects requires order ∧
    (length order = length ids ↔ acyclic requires) ∧
    check_acyclic ids requires = if (len order =? len ids)%N then Ok tt else Err Cycle.
Proof.
  destruct (count_edges_ok ids requires (zero_degrees ids) (λ _, 0%N)) as (incoming & Hc & _).
  { intros u v Huv. by destruct (Hclosed u v). }
  { intros v Hv. by apply zero_degrees_lookup. }
  destruct (worklist_correct stack stack_lawful ids requires (outgoing_of requires))
    with (indegree := incoming) (ready := initial_ready ids incoming)
    as (order & Hrun & Hnd & Hsub & Hresp & Hlen); try done.
  { intros u. by rewrite outgoing_of_successors. }
  exists order. do 4 (split; [done|]). unfold check_acyclic. by rewrite Hc, Hrun.
Qed.

Lemma check_acyclic_spec :
  (check_acyclic ids requires = Ok tt ↔ acyclic requires) ∧
  (check_acyclic ids requires = Err Cycle ↔ ¬ acyclic requires).
Proof.
  destruct check_acyclic_run as (order & _ & _ & _ & Hlen & ->).
  rewrite <-Hlen. unfold len. destruct (_ =? _)%N eqn:E; bool_to_prop.
  - assert (length order = length ids) by lia. naive_solver.
  - assert (length order ≠ length ids) by lia. naive_solver.
Qed.

Lemma check_acyclic_order :
  check_acyclic ids requires = Ok tt → ∃ order, order ≡ₚ ids ∧ respects requires order.
Proof.
  destruct check_acyclic_run as (order & Hnd & Hsub & Hresp & _ & ->).
  unfold len. destruct (_ =? _)%N eqn:E; [|done]. bool_to_prop. intros _.
  exists order. split; [|done].
  apply submseteq_length_Permutation; [by apply NoDup_submseteq|lia].
Qed.
End acyclic_check.

(** ** The validated graph *)

Lemma list_to_set_size_NoDup (l : list string) :
  size (list_to_set l : gset string) = length l → NoDup l.
Proof.
  intros Hs. assert (l ≡ₚ remove_dups l) as ->; [|apply NoDup_remove_dups].
  symmetry. apply submseteq_length_Permutation.
  - apply NoDup_submseteq; [apply NoDup_remove_dups|]. intros x. by rewrite elem_of_remove_dups.
  - rewrite <-Hs. rewrite <-(size_list_to_set (C := gset string) (remove_dups l)) by apply NoDup_remove_dups.
    apply subseteq_size. intros x. rewrite !elem_of_list_to_set, elem_of_remove_dups. done.
Qed.

Lemma stages_by_id_lookup stages id s :
  stages_by_id stages !! id = Some s → s ∈ stages ∧ ss_stage_id s = id.
Proof.
  unfold stages_by_id. intros Hs%elem_of_list_to_map_2.
  rewrite elem_of_reverse in Hs. apply list_elem_of_fmap in Hs as (s' & [= -> ->] & ?). done.
Qed.

Lemma stages_by_id_NoDup stages :
  N.of_nat (size (stages_by_id stages)) = len stages → NoDup (map ss_stage_id stages).
Proof.
  unfold stages_by_id, len. rewrite Nat2N.inj_iff, <-size_dom, dom_list_to_map_L.
  intros Hs. apply list_to_set_size_NoDup. rewrite length_map, <-Hs. f_equal.
  apply set_eq. intros id. rewrite !elem_of_list_to_set, !list_elem_of_fmap. split.
  - intros (s & -> & Hin). exists (ss_stage_id s, s). split; [done|].
    rewrite elem_of_reverse. apply list_elem_of_fmap. eauto.
  - intros ([k s] & -> & Hin). rewrite elem_of_reverse in Hin.
    apply list_elem_of_fmap in Hin as (s' & [= -> ->] & ?). eauto.
Qed.

Lemma stages_by_id_in stages s :
  NoDup (map ss_stage_id stages) → s ∈ stages → stages_by_id stages !! ss_stage_id s = Some s.
Proof.
  intros Hnd Hin. unfold stages_by_id. apply elem_of_list_to_map_1.
  - rewrite reverse_Permutation, <-list_fmap_compose. done.
  - rewrite elem_of_reverse. apply list_elem_of_fmap. eauto.
Qed.

(** Every edge joins two different stages of the graph. *)
Definition edges_closed (g : StageGraphV1) : Prop :=
  ∀ e, e ∈ sg_edges g →
    se_from e ≠ se_to e ∧ se_from e ∈ map ss_stage_id (sg_stages g)
    ∧ se_to e ∈ map ss_stage_id (sg_stages g).

(** What the checks of [validate_graph] leave, read back from its success. *)
Record graph_checks (g : StageGraphV1) : Prop := {
  gc_unique : NoDup (map ss_stage_id (sg_stages g));
  gc_goal : ∀ s, s ∈ sg_stages g → ss_goal_id s = sg_goal_id g;
  gc_closed : edges_closed g;
  gc_declared : requires_edges (sg_edges g) = declared_dependencies (sg_stages g);
  gc_acyclic : check_acyclic (sort_dedup (map ss_stage_id (sg_stages g)))
    (requires_edges (sg_edges g)) = Ok tt;
  gc_critical : windows2_any (λ a b, negb (mem (a, b) (requires_edges (sg_edges g))))
    (sg_critical_path g) = false;
  gc_groups : check_groups (stages_by_id (sg_stages g)) (requires_edges (sg_edges g))
    (sg_parallel_groups g) ∅ ∅ = Ok tt
}.

Lemma stages_by_id_key stages id :
  is_some (stages_by_id stages !! id) = true → id ∈ map ss_stage_id stages.
Proof.
  intros (s & Hs)%is_some_spec. apply stages_by_id_lookup in Hs as [Hs <-].
  apply list_elem_of_fmap. eauto.
Qed.

Lemma edges_closed_intro g :
  existsb (λ edge, String.eqb (se_from edge) (se_to edge)
    || negb (is_some (stages_by_id (sg_stages g) !! se_from edge))
    || negb (is_some (stages_by_id (sg_stages g) !! se_to edge))) (sg_edges g) = false →
  edges_closed g.
Proof.
  rewrite existsb_false. intros Hall e He. specialize (Hall e He). bool_to_prop.
  split_and!; [done|by apply stages_by_id_key..].
Qed.

Lemma validate_graph_checks `{Platform} g : validate_graph g = Ok tt → graph_checks g.
Proof.
  unfold validate_graph. intros Hv. err_cases Hv. bool_to_prop. split; try done.
  - by apply stages_by_id_NoDup.
  - intros s Hs. match goal with H : existsb (λ x, negb (String.eqb (ss_goal_id x) _)) _ = false |- _ =>
      rewrite existsb_false in H; specialize (H s Hs) end. by bool_to_prop.
  - by apply edges_closed_intro.
Qed.

(** Only the cycle test reports [Cycle]. *)
Lemma check_groups_not_cycle by_id requires groups ids grouped :
  check_groups by_id requires groups ids grouped ≠ Err Cycle.
Proof.
  assert (∀ x l, check_against requires x l ≠ Err Cycle) as Hagainst.
  { intros x l. induction l as [|y l IH]; simpl; [done|]. unfold check_pair.
    by repeat case_match; simplify_eq. }
  assert (∀ l, check_pairs requires l ≠ Err Cycle) as Hpairs.
  { induction l as [|x l IH]; simpl; [done|]. specialize (Hagainst x l).
    repeat case_match; simplify_eq; congruence. }
  assert (∀ l, map_result (λ id, ok_or (by_id !! id) GraphMember) l ≠ Err Cycle) as Hmap.
  { induction l as [|x l IH]; simpl; [done|]. unfold ok_or in *.
    repeat case_match; simplify_eq; congruence. }
  revert ids grouped. induction groups as [|gr groups IH]; intros ids grouped; simpl; [done|].
  destruct (_ || _); [done|]. destruct (insert_fresh _ _); [|done].
  specialize (Hmap (pg_stage_ids gr)). destruct (map_result _ _) as [ms|]; [|congruence].
  destruct (existsb _ _); [done|]. specialize (Hpairs ms).
  destruct (check_pairs _ _); [apply IH|congruence].
Qed.

Lemma validate_graph_cycle `{Platform} g :
  validate_graph g = Err Cycle →
  edges_closed g ∧ check_acyclic (sort_dedup (map ss_stage_id (sg_stages g)))
    (requires_edges (sg_edges g)) = Err Cycle.
Proof.
  unfold validate_graph. intros Hv. do 3 next_check Hv.
  destruct (check_acyclic _ _) as [[]|e] eqn:?; revert Hv.
  - destruct (windows2_any _ _); [done|].
    pose proof (check_groups_not_cycle (stages_by_id (sg_stages g))
      (requires_edges (sg_edges g)) (sg_parallel_groups g) ∅ ∅) as Hn.
    destruct (check_groups _ _ _ _ _); [|congruence].
    intros Hv. next_check Hv. discriminate Hv.
  - intros [= ->]. bool_to_prop. split; [by apply edges_closed_intro|done].
Qed.

Lemma requires_closed g u v :
  edges_closed g → (u, v) ∈ requires_edges (sg_edges g) →
  u ∈ sort_dedup (map ss_stage_id (sg_stages g))
  ∧ v ∈ sort_dedup (map ss_stage_id (sg_stages g)).
Proof.
  intros Hg Huv. unfold requires_edges in Huv. rewrite elem_of_sort_dedup in Huv.
  apply list_elem_of_fmap in Huv as (e & [= -> ->] & [_ He]%list_elem_of_filter).
  rewrite !elem_of_sort_dedup. by destruct (Hg e He) as (_ & ? & ?).
Qed.

Lemma declared_dependency stages s d :
  s ∈ stages → d ∈ ss_dependencies s → (d, ss_stage_id s) ∈ declared_dependencies stages.
Proof.
  intros Hs Hd. unfold declared_dependencies. rewrite elem_of_sort_dedup.
  apply list_elem_of_bind. exists s. split; [|done]. apply list_elem_of_fmap. eauto.
Qed.

Lemma declared_dependency_iff stages d i :
  (d, i) ∈ declared_dependencies stages ↔
  ∃ s, s ∈ stages ∧ ss_stage_id s = i ∧ d ∈ ss_dependencies s.
Proof.
  unfold declared_dependencies. rewrite elem_of_sort_dedup, list_elem_of_bind.
  split.
  - intros (s & Hin & Hs). apply list_elem_of_fmap in Hin as (d' & [= -> ->] & Hd). by exists s.
  - intros (s & Hs & <- & Hd). exists s. split; [|done]. apply list_elem_of_fmap. eauto.
Qed.

Lemma requires_edge edges d i :
  (d, i) ∈ requires_edges edges ↔
  {| se_from := d; se_to := i; se_relation := Requires |} ∈ edges.
Proof.
  unfold requires_edges. rewrite elem_of_sort_dedup, list_elem_of_fmap. split.
  - intros ([f t r] & [= -> ->] & [Hr Hin]%list_elem_of_filter). simpl in Hr. by subst r.
  - intros Hin. eexists. split; [|apply list_elem_of_filter; split; [|exact Hin]]; done.
Qed.

(** *** Parallel groups *)

Lemma scopes_overlap_sym a b : scopes_overlap a b = scopes_overlap b a.
Proof.
  unfold scopes_overlap. rewrite String.eqb_sym, <-!orb_assoc. f_equal. apply orb_comm.
Qed.

(** What [check_pair] promises, in either order of the two members. *)
Definition pair_ok (requires : list (string * string)) (a b : StageSpecV1) : Prop :=
  ((ss_stage_id a, ss_stage_id b) ∉ requires) ∧
  ((ss_stage_id b, ss_stage_id a) ∉ requires) ∧
  (ss_stage_mode a = Execute ∨ ss_stage_mode b = Execute →
   ∀ x y, x ∈ ss_expected_change_scope a → y ∈ ss_expected_change_scope b →
     scopes_overlap x y = false).

Lemma pair_ok_sym requires a b : pair_ok requires a b → pair_ok requires b a.
Proof.
  intros (H1 & H2 & H3). split_and!; [done..|]. intros Hm x y Hx Hy.
  rewrite scopes_overlap_sym. apply H3; tauto.
Qed.

Lemma check_pair_ok requires a b : check_pair requires a b = Ok tt → pair_ok requires a b.
Proof.
  unfold check_pair. intros Hc. err_cases Hc. bool_to_prop.
  split; [by apply mem_false|]. split; [by apply mem_false|].
  intros Hm x y Hx Hy.
  match goal with H : _ && _ = false |- _ => apply andb_false_iff in H as [Ho|Ho] end.
  - rewrite existsb_false in Ho. specialize (Ho x Hx). rewrite existsb_false in Ho. auto.
  - bool_to_prop. tauto.
Qed.

Lemma check_pairs_ok requires members a b :
  check_pairs requires members = Ok tt → a ∈ members → b ∈ members → a ≠ b →
  pair_ok requires a b.
Proof.
  assert (∀ x l y, check_against requires x l = Ok tt → y ∈ l → pair_ok requires x y) as Hone.
  { intros x l. induction l as [|z l IH]; intros y Hc Hy; [set_solver|]. simpl in Hc.
    err_cases Hc.
    apply elem_of_cons in Hy as [->|Hy]; [by apply check_pair_ok|auto]. }
  induction members as [|x l IH]; simpl; [set_solver|]. intros Hc. err_cases Hc.
  intros Ha Hb Hne.
  apply elem_of_cons in Ha as [->|Ha], Hb as [->|Hb].
  - done.
  - eauto.
  - apply pair_ok_sym. eauto.
  - auto.
Qed.

Lemma insert_fresh_spec l seen seen' :
  insert_fresh l seen = Some seen' →
  NoDup l ∧ (∀ x, x ∈ l → x ∉ seen) ∧ (∀ x, x ∈ seen' ↔ x ∈ l ∨ x ∈ seen).
Proof.
  revert seen. induction l as [|x l IH]; intros seen Hf; simpl in Hf.
  { simplify_eq. split; [constructor|set_solver]. }
  case_bool_decide as Hx; [done|]. apply IH in Hf as (Hnd & Hdis & Hin).
  split; [constructor; set_solver|]. split; [set_solver|]. intros y. rewrite Hin. set_solver.
Qed.

Lemma check_groups_ok by_id requires groups ids grouped :
  check_groups by_id requires groups ids grouped = Ok tt →
  (∀ group, group ∈ groups →
    (∀ id, id ∈ pg_stage_ids group → id ∉ grouped)
    ∧ NoDup (pg_stage_ids group)
    ∧ (2 ≤ len (pg_stage_ids group))%N
    ∧ (1 ≤ pg_max_parallel group ≤ len (pg_stage_ids group))%N
    ∧ ∃ members, map_result (λ id, ok_or (by_id !! id) GraphMember)
          (pg_stage_ids group) = Ok members
        ∧ (∀ s, s ∈ members → ss_parallel_group s = Some (pg_group_id group))
        ∧ check_pairs requires members = Ok tt)
  ∧ NoDup (concat (map pg_stage_ids groups)).
Proof.
  revert ids grouped. induction groups as [|group groups IH]; intros ids grouped Hc; simpl in Hc.
  { split; [set_solver|constructor]. }
  destruct (_ || _) eqn:Hshape in Hc; [done|].
  destruct (insert_fresh _ _) as [grouped'|] eqn:Hfresh; [|done].
  destruct (map_result _ _) as [members|] eqn:Hmem; [|done].
  destruct (existsb _ _) eqn:Hgid; [done|].
  destruct (check_pairs _ _) as [[]|] eqn:Hpairs; [|done].
  apply IH in Hc as [Hrest Hnd]. bool_to_prop.
  apply insert_fresh_spec in Hfresh as (Hnd' & Hdis & Hin). split.
  - intros gr [->|Hgr]%elem_of_cons.
    + split_and!; try done; try lia. exists members. split_and!; try done.
      intros s Hs. rewrite existsb_false in Hgid. specialize (Hgid s Hs). by bool_to_prop.
    + destruct (Hrest gr Hgr) as (Hng & Hother). split; [|done]. intros id Hid.
      specialize (Hng id Hid). rewrite Hin in Hng. tauto.
  - simpl. apply NoDup_app. split; [done|]. split; [|done]. intros x Hx Hx'.
    apply list_elem_of_In, in_concat in Hx' as (l & Hl & Hxl).
    apply in_map_iff in Hl as (gr & <- & Hgr%list_elem_of_In).
    apply list_elem_of_In in Hxl.
    destruct (Hrest gr Hgr) as (Hng & _). apply (Hng x Hxl). rewrite Hin. tauto.
Qed.

(** *** What a verified graph passed *)

Lemma sg_verify_checks `{Platform} g :
  sg_verify g = Ok tt → graph_checks g ∧ Forall (λ s, ss_verify s = Ok tt) (sg_stages g).
Proof.
  intros Hv%sg_verify_sealed. 
  apply sg_seal_ok in Hv as (stages & fp & Hmap & _ & Hval & _ & Heq).
  assert (sg_normal g stages (sg_graph_fingerprint g) = g) as Hn.
  { pose proof (f_equal sg_graph_fingerprint Heq) as E. cbn in E. rewrite E. by symmetry. }
  rewrite Hn in Hval. split; [by apply validate_graph_checks|].
  assert (sg_stages g = sort_by_key ss_stage_id stages) as ->.
  { exact (f_equal sg_stages Heq). }
  unfold sort_by_key. rewrite sort_by_perm.
  pose proof (map_seal_sealed (E := StageContractError) (sg_stages g) stages Hmap) as Hf.
  eapply Forall_impl; [exact Hf|]. intros s Hss. by apply ss_verify_sealed.
Qed.

(** *** Serialization of stages is injective *)

#[export] Instance StageModeV1_inj_json : InjJson StageModeV1.
Proof. by intros [] []. Qed.
#[export] Instance StageExecutorKindV1_inj_json : InjJson StageExecutorKindV1.
Proof. by intros [] []. Qed.
#[export] Instance StageFailurePolicyV1_inj_json : InjJson StageFailurePolicyV1.
Proof. by intros [] []. Qed.
#[export] Instance StageStateV1_inj_json : InjJson StageStateV1.
Proof. by intros [] []. Qed.
#[export] Instance StageEdgeRelationV1_inj_json : InjJson StageEdgeRelationV1.
Proof. by intros [] []. Qed.

#[export] Instance StageGraphEdgeV1_inj_json : InjJson StageGraphEdgeV1.
Proof.
  intros [? ? []] [? ? []] Heq; by injection Heq as -> ->.
Qed.

#[export] Instance StageParallelGroupV1_inj_json : InjJson StageParallelGroupV1.
Proof.
  intros [] [] Heq. unfold to_json, StageParallelGroupV1_to_json in Heq.
  peel Heq. simpl in *. by subst.
Qed.

#[export] Instance StageSpecV1_inj_json : InjJson StageSpecV1.
Proof.
  intros x y Heq. unfold to_json, StageSpecV1_to_json in Heq.
  peel Heq. destruct x, y; simpl in *. by subst.
Qed.

#[export] Instance StageProjectEvidenceV1_inj_json : InjJson StageProjectEvidenceV1.
Proof.
  intros [] [] Heq. unfold to_json, StageProjectEvidenceV1_to_json in Heq.
  peel Heq. simpl in *. by subst.
Qed.

Lemma validate_graph_header `{Platform} g :
  validate_graph g = Ok tt →
  sg_schema_id g = STAGE_GRAPH_SCHEMA_ID ∧ sg_schema_version g = STAGE_CONTRACT_VERSION.
Proof. unfold validate_graph. intros Hv. err_cases Hv. by bool_to_prop. Qed.

(** The payload determines every field but the two header constants and the
    fingerprint. *)
Lemma sg_payload_inj `{Platform} g1 g2 :
  validate_graph g1 = Ok tt → validate_graph g2 = Ok tt → sg_payload g1 = sg_payload g2 →
  sg_graph_fingerprint g1 = sg_graph_fingerprint g2 → g1 = g2.
Proof.
  intros [Hi1 Hv1]%validate_graph_header [Hi2 Hv2]%validate_graph_header Hp Hfp.
  unfold sg_payload in Hp. peel Hp. peel E1. destruct g1, g2; simpl in *. by subst.
Qed.

Lemma sg_sealed_parts `{Platform} g :
  sg_seal g = Ok g →
  validate_graph g = Ok tt ∧ canonical_sha256 (sg_payload g) = Ok (sg_graph_fingerprint g).
Proof.
  intros (stages & fp & _ & _ & Hv & Hc & Heq)%sg_seal_ok.
  pose proof (f_equal sg_graph_fingerprint Heq) as E. cbn in E. rewrite E in *.
  by rewrite <-Heq in *.
Qed.

(** ** The properties *)

Section claims.
Context `{Platform}.

(** C1: a stage graph that verifies can be scheduled: stage ids are unique; every
    edge, of whatever relation, joins two different stages of the graph; the
    [Requires] edges are exactly the dependencies the stages declare; and there
    is an order of all stages in which every stage comes after each of its
    declared dependencies (so the dependencies are all in the graph). *)
Theorem verified_graph_schedulable g :
  sg_verify g = Ok tt →
  NoDup (map ss_stage_id (sg_stages g)) ∧
  (∀ e, e ∈ sg_edges g →
     se_from e ≠ se_to e ∧ se_from e ∈ map ss_stage_id (sg_stages g) ∧
     se_to e ∈ map ss_stage_id (sg_stages g)) ∧
  (∀ d i, {| se_from := d; se_to := i; se_relation := Requires |} ∈ sg_edges g ↔
     ∃ s, s ∈ sg_stages g ∧ ss_stage_id s = i ∧ d ∈ ss_dependencies s) ∧
  ∃ order, order ≡ₚ map ss_stage_id (sg_stages g) ∧
    ∀ s d l1 l2, s ∈ sg_stages g → d ∈ ss_dependencies s →
      order = l1 ++ ss_stage_id s :: l2 → d ∈ l1.
Proof.
  intros [Hg _]%sg_verify_checks. pose proof (gc_unique g Hg) as Hnd. split; [done|].
  split; [exact (gc_closed g Hg)|]. split.
  { intros d i. rewrite <-requires_edge, (gc_declared g Hg). apply declared_dependency_iff. }
  destruct (check_acyclic_order (sort_dedup (map ss_stage_id (sg_stages g)))
    (requires_edges (sg_edges g))) as (order & Hperm & Hresp).
  - apply strict_NoDup, sort_dedup_strict.
  - intros u v. by apply requires_closed, gc_closed.
  - by apply gc_acyclic.
  - exists order. split; [by rewrite Hperm, sort_dedup_NoDup_perm|].
    intros s d l1 l2 Hs Hd. apply (Hresp d (ss_stage_id s)).
    rewrite (gc_declared g Hg). by apply declared_dependency.
Qed.

(** The cycle test of the graph validation decides: a graph that
    validates has acyclic [Requires] edges, and [Cycle] is reported only for a
    graph whose edges do contain a cycle. *)
Theorem validate_graph_decides_cycles g :
  (validate_graph g = Ok tt → acyclic (requires_edges (sg_edges g))) ∧
  (validate_graph g = Err Cycle → ¬ acyclic (requires_edges (sg_edges g))).
Proof.
  assert (edges_closed g →
    (check_acyclic (sort_dedup (map ss_stage_id (sg_stages g))) (requires_edges (sg_edges g))
       = Ok tt ↔ acyclic (requires_edges (sg_edges g))) ∧
    (check_acyclic (sort_dedup (map ss_stage_id (sg_stages g))) (requires_edges (sg_edges g))
       = Err Cycle ↔ ¬ acyclic (requires_edges (sg_edges g)))) as Hspec.
  { intros Hg. apply check_acyclic_spec; [apply strict_NoDup, sort_dedup_strict|].
    intros u v. by apply requires_closed. }
  split.
  - intros Hg%validate_graph_checks. by apply Hspec; [apply gc_closed|apply gc_acyclic].
  - intros (Hg & Hc)%validate_graph_cycle. by apply Hspec.
Qed.

(** Two members of a parallel group of a verified graph never depend on
    one another, and when either may write (mode [Execute]) no scope of one
    overlaps a scope of the other; the groups are disjoint. *)
Theorem parallel_groups_safe g :
  sg_verify g = Ok tt →
  NoDup (concat (map pg_stage_ids (sg_parallel_groups g))) ∧
  ∀ group a b, group ∈ sg_parallel_groups g → a ∈ sg_stages g → b ∈ sg_stages g →
    ss_stage_id a ∈ pg_stage_ids group → ss_stage_id b ∈ pg_stage_ids group → a ≠ b →
    (ss_stage_id a ∉ ss_dependencies b) ∧ (ss_stage_id b ∉ ss_dependencies a) ∧
    (ss_stage_mode a = Execute ∨ ss_stage_mode b = Execute →
     ∀ x y, x ∈ ss_expected_change_scope a → y ∈ ss_expected_change_scope b →
       scopes_overlap x y = false).
Proof.
  intros [Hg _]%sg_verify_checks.
  destruct (check_groups_ok _ _ _ _ _ (gc_groups g Hg)) as [Hgroups Hnd].
  split; [done|]. intros group a b Hgr Ha Hb Hia Hib Hne.
  destruct (Hgroups group Hgr) as (_ & _ & _ & _ & members & Hmem & _ & Hpairs).
  assert (∀ s, s ∈ sg_stages g → ss_stage_id s ∈ pg_stage_ids group → s ∈ members) as Hin.
  { intros s Hs Hid. apply map_result_Forall2 in Hmem.
    apply list_elem_of_lookup in Hid as [i Hi].
    destruct (Forall2_lookup_l _ _ _ _ _ Hmem Hi) as (s' & Hs' & Heq%ok_or_Ok).
    rewrite stages_by_id_in in Heq by (try done; by apply gc_unique).
    injection Heq as <-. by eapply list_elem_of_lookup_2. }
  destruct (check_pairs_ok _ members a b Hpairs) as (H1 & H2 & H3); [eauto..|done|].
  rewrite (gc_declared g Hg) in H1, H2.
  split_and!; [| |done]; intros Hd; [apply H1|apply H2]; by apply declared_dependency.
Qed.

(** The graph fingerprint binds the plan: two graphs sealed to the same
    fingerprint are the same graph, field by field, or their payloads are a
    collision of the hash. *)
Theorem graph_fingerprint_binds g1 g2 r1 r2 :
  sg_seal g1 = Ok r1 → sg_seal g2 = Ok r2 →
  sg_graph_fingerprint r1 = sg_graph_fingerprint r2 →
  r1 = r2 ∨ collision (sg_payload r1) (sg_payload r2).
Proof.
  intros H1%sg_seal_idem H2%sg_seal_idem Hfp.
  destruct (sg_sealed_parts r1 H1) as [Hv1 Hc1]. destruct (sg_sealed_parts r2 H2) as [Hv2 Hc2].
  rewrite Hfp in Hc1. destruct (hash_binds _ _ _ Hc1 Hc2) as [Hp|?]; [|by right].
  left. by apply sg_payload_inj.
Qed.

(** Sealing a graph gives one that verifies, whose stages verify each on
    their own, sorted by id, and whose content is the content it was given:
    the same goal, revision, critical path and replan reason. *)
Theorem sealed_graph_verifies g g' :
  sg_seal g = Ok g' →
  sg_verify g' = Ok tt ∧ Forall (λ s, ss_verify s = Ok tt) (sg_stages g') ∧
  strictly_sorted (map ss_stage_id (sg_stages g')) ∧
  (sg_goal_id g', sg_plan_revision g', sg_critical_path g', sg_replan_reason g')
  = (sg_goal_id g, sg_plan_revision g, sg_critical_path g, sg_replan_reason g).
Proof.
  intros Hs. assert (sg_verify g' = Ok tt) as Hv by by apply sg_verify_sealed, (sg_seal_idem g).
  split; [done|]. apply sg_verify_checks in Hv as [Hg Hf]. split; [done|].
  apply sg_seal_ok in Hs as (stages & fp & _ & _ & _ & _ & ->). split; [|done].
  apply sorted_keys_strict. exact (gc_unique _ Hg).
Qed.

(** A result accepted against a graph and one of its stages is bound to
    both by reference and fingerprint, and when it reports completion it
    covers every completion criterion and every project of a stage that was
    ready or running. *)
Theorem accepted_result_covers_stage r graph stage :
  sr_verify_against r graph stage = Ok tt →
  stage ∈ sg_stages graph ∧
  sr_stage_graph_ref r = sg_reference graph ∧ sr_stage_ref r = ss_reference stage ∧
  (sr_outcome r = OutcomeCompleted →
    sr_completed_criteria r = ss_completion_criteria stage ∧
    map pe_project_id (sr_project_evidence r) = ss_project_ids stage ∧
    (ss_state stage = Ready ∨ ss_state stage = Running)) ∧
  (ss_executor_kind stage = Codex → ∃ record, sr_execution_record_ref r = Some record).
Proof.
  unfold sr_verify_against. intros Hv. err_cases Hv. bool_to_prop.
  split; [by apply mem_true|]. do 2 (split; [done|]). split.
  - intros Ho. rewrite bool_decide_eq_true_2 in * by done. bool_to_prop.
    split_and!; [done..|]. destruct (ss_state stage); try done; auto.
  - intros Hk. rewrite bool_decide_eq_true_2 in * by done. simpl in *.
    destruct (sr_execution_record_ref r); [eauto|done].
Qed.

End claims.

(** ** Instances

    A two-stage plan on the concrete platform: [build] then [review], with a
    third stage that may run beside [build]. *)

Definition example_hash : Sha256Hash := "sha256:aaaaaaaaaaaaaaaaaaaaaaaaaaaaaaaaaaaaaaaaaaaaaaaaaaaaaaaaaaaaaaaa".

Definition example_stage (id : string) (mode : StageModeV1) (scope deps : list string)
    (group : option string) : StageSpecV1 :=
  {| ss_schema_id := STAGE_SPEC_SCHEMA_ID; ss_schema_version := 1; ss_stage_id := id;
     ss_revision := 1; ss_goal_id := "gol_1"; ss_task_spec_ref := None;
     ss_scope_revision_ref := None; ss_title := "title"; ss_objective := "objective";
     ss_stage_mode := mode; ss_executor_kind := DeterministicLocal;
     ss_work_profile_id := "feature"; ss_work_profile_version := "1.0.0";
     ss_work_profile_definition_hash := Some example_hash;
     ss_profile_catalog_fingerprint := Some example_hash;
     ss_profile_resolution_fingerprint := Some example_hash;
     ss_project_ids := ["prj_1"]; ss_included_work := ["work"]; ss_excluded_work := ["rest"];
     ss_expected_change_scope := scope; ss_dependencies := deps; ss_parallel_group := group;
     ss_completion_criteria := ["done"]; ss_failure_policy := Retry;
     ss_route_decision_ref := None; ss_permission_plan_ref := None;
     ss_validation_plan_ref := None; ss_impact_analysis_ref := None;
     ss_change_plan_refs := []; ss_result_ref := None; ss_state := Ready;
     ss_stage_fingerprint := example_hash |}.

Definition unwrap_or {A E} (r : result A E) (d : A) : A :=
  match r with Ok a => a | Err _ => d end.

Definition example_graph : StageGraphV1 :=
  let raw :=
    {| sg_schema_id := STAGE_GRAPH_SCHEMA_ID; sg_schema_version := 1;
       sg_stage_graph_id := "sgr_1"; sg_goal_id := "gol_1"; sg_plan_revision := 1;
       sg_stages := [example_stage "stg_build" Execute ["src/core"] [] (Some "par");
                     example_stage "stg_docs" Execute ["docs"] [] (Some "par");
                     example_stage "stg_review" Review [] ["stg_build"; "stg_docs"] None];
       sg_edges := [{| se_from := "stg_docs"; se_to := "stg_review"; se_relation := Requires |};
                    {| se_from := "stg_build"; se_to := "stg_review"; se_relation := Requires |}];
       sg_parallel_groups :=
         [{| pg_group_id := "par"; pg_stage_ids := ["stg_docs"; "stg_build"];
             pg_max_parallel := 2 |}];
       sg_critical_path := ["stg_build"; "stg_review"];
       sg_integration_stage_id := Some "stg_review"; sg_previous_graph_fingerprint := None;
       sg_replan_reason := None; sg_graph_fingerprint := example_hash |} in
  unwrap_or (sg_seal raw) raw.

Definition example_build : StageSpecV1 :=
  default (example_stage "stg_build" Plan [] [] None) (head (sg_stages example_graph)).

Definition example_result : StageResultV1 :=
  let raw :=
    {| sr_schema_id := STAGE_RESULT_SCHEMA_ID; sr_schema_version := 1;
       sr_stage_result_id := "srs_1"; sr_revision := 1; sr_goal_id := "gol_1";
       sr_stage_graph_ref := sg_reference example_graph;
       sr_stage_ref := ss_reference example_build; sr_outcome := OutcomeCompleted;
       sr_completed_criteria := ["done"];
       sr_project_evidence :=
         [{| pe_project_id := "prj_1";
             pe_evidence_bundle_ref :=
               {| dr_schema_id := "star.evidence-bundle"; dr_document_id := "evb_1";
                  dr_revision := 1; dr_sha256 := example_hash |} |}];
       sr_execution_record_ref := None; sr_failure_code := None; sr_recovery_action := None;
       sr_source_effect_may_have_started := true; sr_recorded_at := 0%Z;
       sr_result_fingerprint := example_hash |} in
  unwrap_or (sr_seal raw) raw.

Lemma verified_graph_schedulable_witness :
  sg_verify example_graph = Ok tt ∧ NoDup (map ss_stage_id (sg_stages example_graph)).
Proof.
  assert (sg_verify example_graph = Ok tt) as Hv by (vm_compute; reflexivity).
  split; [exact Hv|]. exact (proj1 (verified_graph_schedulable example_graph Hv)).
Defined.

(** The same stages with a cycle are refused, with [Cycle]. *)
Definition example_cycle : StageGraphV1 :=
  sg_with example_graph
    [example_stage "stg_build" Execute ["src/core"] ["stg_review"] None;
     example_stage "stg_review" Review [] ["stg_build"] None]
    [{| se_from := "stg_build"; se_to := "stg_review"; se_relation := Requires |};
     {| se_from := "stg_review"; se_to := "stg_build"; se_relation := Requires |}]
    [] example_hash.

Lemma validate_graph_decides_cycles_witness :
  validate_graph example_graph = Ok tt ∧ acyclic (requires_edges (sg_edges example_graph)) ∧
  validate_graph example_cycle = Err Cycle ∧
  ¬ acyclic (requires_edges (sg_edges example_cycle)).
Proof.
  assert (validate_graph example_graph = Ok tt) as Hv by (vm_compute; reflexivity).
  assert (validate_graph example_cycle = Err Cycle) as Hc by (vm_compute; reflexivity).
  split; [exact Hv|]. split; [exact (proj1 (validate_graph_decides_cycles _) Hv)|].
  split; [exact Hc|]. exact (proj2 (validate_graph_decides_cycles _) Hc).
Defined.

Lemma parallel_groups_safe_witness :
  sg_verify example_graph = Ok tt ∧
  NoDup (concat (map pg_stage_ids (sg_parallel_groups example_graph))).
Proof.
  assert (sg_verify example_graph = Ok tt) as Hv by (vm_compute; reflexivity).
  split; [exact Hv|]. exact (proj1 (parallel_groups_safe example_graph Hv)).
Defined.

Lemma graph_fingerprint_binds_witness :
  example_graph = example_graph ∨
  collision (sg_payload example_graph) (sg_payload example_graph).
Proof.
  apply (graph_fingerprint_binds example_graph example_graph); vm_compute; reflexivity.
Defined.

Lemma sealed_graph_verifies_witness :
  sg_seal example_graph = Ok example_graph ∧ sg_verify example_graph = Ok tt.
Proof.
  assert (sg_seal example_graph = Ok example_graph) as Hs by (vm_compute; reflexivity).
  split; [exact Hs|]. exact (proj1 (sealed_graph_verifies _ _ Hs)).
Defined.

Lemma accepted_result_covers_stage_witness :
  sr_verify_against example_result example_graph example_build = Ok tt ∧
  example_build ∈ sg_stages example_graph.
Proof.
  assert (sr_verify_against example_result example_graph example_build = Ok tt) as Hv
    by (vm_compute; reflexivity).
  split; [exact Hv|]. exact (proj1 (accepted_result_covers_stage _ _ _ Hv)).
Defined.
