(* ===== verification/Profile.v ===== *)
(** * Development profiles

    Models [crates/foundation/star-contracts/src/profile.rs]: the descriptors of
    the built-in development profiles, the catalog with its parent graph, and the
    resolution of a selection to everything its profiles and their ancestors
    require; and the binding of a resolution to a stage
    ([bind_profile_resolution] and [verify_profile_binding] of [stage.rs]).

    The two recursions follow parents; they run with one more than the number of
    profiles as fuel.  The TOML text of a descriptor is not modelled. *)
From S2P Require Import Prelude Canonical Contracts Stage.

Definition DEVELOPMENT_PROFILE_SCHEMA_VERSION : N := 2.
Definition DEVELOPMENT_PROFILE_CATALOG_SCHEMA_ID : string :=
  "star.development-profile-catalog-snapshot".
Definition DEVELOPMENT_PROFILE_RESOLUTION_SCHEMA_ID : string :=
  "star.development-profile-resolution".

Definition BUILTIN_DEVELOPMENT_PROFILE_IDS : list string :=
  ["ai_development_validation"; "api_contract_change"; "architecture_quality";
   "change_planning"; "ci_release_deploy"; "data_config_db_migration"; "debug_recovery";
   "dependency_upgrade"; "docs_config_environment"; "language_platform_migration";
   "performance_build"; "project_understanding"; "refactor_codemod"; "rust_style_auto_fix";
   "security_supply_chain"; "test_correctness"].

(** ** Policies

    Each is ordered as it is declared, from the weakest to the strongest. *)

Inductive ProfileGatePhaseV1 :=
| PhaseDuringStage | PhaseStageExit | PhaseGoalExit | PhasePatchPreApply | PhasePatchPostApply
| PhaseMerge | PhaseMigrationPreExecute | PhaseMigrationPostExecute | PhaseMigrationPostRollback
| PhasePerformanceCompare | PhaseLanguageCutover | PhaseRelease | PhaseReleasePreflight
| PhaseReleaseBuild | PhaseReleaseVerify | PhaseReleasePackage | PhaseReleaseInstallLifecycle
| PhaseReleaseReady | PhaseReleasePublishPreflight | PhaseReleasePublishVerify.

Definition ProfileGatePhaseV1_index (x : ProfileGatePhaseV1) : N :=
  match x with
  | PhaseDuringStage => 0 | PhaseStageExit => 1 | PhaseGoalExit => 2 | PhasePatchPreApply => 3
  | PhasePatchPostApply => 4 | PhaseMerge => 5 | PhaseMigrationPreExecute => 6
  | PhaseMigrationPostExecute => 7 | PhaseMigrationPostRollback => 8
  | PhasePerformanceCompare => 9 | PhaseLanguageCutover => 10 | PhaseRelease => 11
  | PhaseReleasePreflight => 12 | PhaseReleaseBuild => 13 | PhaseReleaseVerify => 14
  | PhaseReleasePackage => 15 | PhaseReleaseInstallLifecycle => 16 | PhaseReleaseReady => 17
  | PhaseReleasePublishPreflight => 18 | PhaseReleasePublishVerify => 19
  end.

#[global] Instance ProfileGatePhaseV1_eq_dec : EqDecision ProfileGatePhaseV1.
Proof. solve_decision. Defined.
#[global] Instance ProfileGatePhaseV1_cmp : Cmp ProfileGatePhaseV1 := cmp_on ProfileGatePhaseV1_index.
#[global] Instance ProfileGatePhaseV1_cmp_laws : CmpLaws ProfileGatePhaseV1.
Proof. apply cmp_on_laws. by intros [] []. Qed.
#[global] Instance ProfileGatePhaseV1_to_json : ToJson ProfileGatePhaseV1 := λ x,
  JStr match x with
       | PhaseDuringStage => "during_stage" | PhaseStageExit => "stage_exit"
       | PhaseGoalExit => "goal_exit" | PhasePatchPreApply => "patch_pre_apply"
       | PhasePatchPostApply => "patch_post_apply" | PhaseMerge => "merge"
       | PhaseMigrationPreExecute => "migration_pre_execute"
       | PhaseMigrationPostExecute => "migration_post_execute"
       | PhaseMigrationPostRollback => "migration_post_rollback"
       | PhasePerformanceCompare => "performance_compare"
       | PhaseLanguageCutover => "language_cutover" | PhaseRelease => "release"
       | PhaseReleasePreflight => "release_preflight" | PhaseReleaseBuild => "release_build"
       | PhaseReleaseVerify => "release_verify" | PhaseReleasePackage => "release_package"
       | PhaseReleaseInstallLifecycle => "release_install_lifecycle"
       | PhaseReleaseReady => "release_ready"
       | PhaseReleasePublishPreflight => "release_publish_preflight"
       | PhaseReleasePublishVerify => "release_publish_verify"
       end.

Inductive ProfileBaselinePolicyV1 :=
| BaselineOff | BaselineReportOnly | BaselineRatchetNew | BaselineRatchetNewAndWorsened
| BaselineCleanOnly.

Definition ProfileBaselinePolicyV1_index (x : ProfileBaselinePolicyV1) : N :=
  match x with
  | BaselineOff => 0 | BaselineReportOnly => 1 | BaselineRatchetNew => 2
  | BaselineRatchetNewAndWorsened => 3 | BaselineCleanOnly => 4
  end.

#[global] Instance ProfileBaselinePolicyV1_eq_dec : EqDecision ProfileBaselinePolicyV1.
Proof. solve_decision. Defined.
#[global] Instance ProfileBaselinePolicyV1_cmp : Cmp ProfileBaselinePolicyV1 := cmp_on ProfileBaselinePolicyV1_index.
#[global] Instance ProfileBaselinePolicyV1_cmp_laws : CmpLaws ProfileBaselinePolicyV1.
Proof. apply cmp_on_laws. by intros [] []. Qed.
#[global] Instance ProfileBaselinePolicyV1_to_json : ToJson ProfileBaselinePolicyV1 := λ x,
  JStr match x with
       | BaselineOff => "off" | BaselineReportOnly => "report_only"
       | BaselineRatchetNew => "ratchet_new"
       | BaselineRatchetNewAndWorsened => "ratchet_new_and_worsened"
       | BaselineCleanOnly => "clean_only"
       end.

Inductive ProfileSuppressionPolicyV1 :=
| SuppressExact | SuppressBoundedExpiring | SuppressApprovedExpiring.

Definition ProfileSuppressionPolicyV1_index (x : ProfileSuppressionPolicyV1) : N :=
  match x with
  | SuppressExact => 0 | SuppressBoundedExpiring => 1 | SuppressApprovedExpiring => 2
  end.

#[global] Instance ProfileSuppressionPolicyV1_eq_dec : EqDecision ProfileSuppressionPolicyV1.
Proof. solve_decision. Defined.
#[global] Instance ProfileSuppressionPolicyV1_cmp : Cmp ProfileSuppressionPolicyV1 := cmp_on ProfileSuppressionPolicyV1_index.
#[global] Instance ProfileSuppressionPolicyV1_cmp_laws : CmpLaws ProfileSuppressionPolicyV1.
Proof. apply cmp_on_laws. by intros [] []. Qed.
#[global] Instance ProfileSuppressionPolicyV1_to_json : ToJson ProfileSuppressionPolicyV1 := λ x,
  JStr match x with
       | SuppressExact => "exact" | SuppressBoundedExpiring => "bounded_expiring"
       | SuppressApprovedExpiring => "approved_expiring"
       end.

Inductive ProfileStabilityPolicyV1 :=
| ReportFlaky | HumanReviewFlaky | BlockRequiredFlaky.

Definition ProfileStabilityPolicyV1_index (x : ProfileStabilityPolicyV1) : N :=
  match x with
  | ReportFlaky => 0 | HumanReviewFlaky => 1 | BlockRequiredFlaky => 2
  end.

#[global] Instance ProfileStabilityPolicyV1_eq_dec : EqDecision ProfileStabilityPolicyV1.
Proof. solve_decision. Defined.
#[global] Instance ProfileStabilityPolicyV1_cmp : Cmp ProfileStabilityPolicyV1 := cmp_on ProfileStabilityPolicyV1_index.
#[global] Instance ProfileStabilityPolicyV1_cmp_laws : CmpLaws ProfileStabilityPolicyV1.
Proof. apply cmp_on_laws. by intros [] []. Qed.
#[global] Instance ProfileStabilityPolicyV1_to_json : ToJson ProfileStabilityPolicyV1 := λ x,
  JStr match x with
       | ReportFlaky => "report_flaky" | HumanReviewFlaky => "human_review_flaky"
       | BlockRequiredFlaky => "block_required_flaky"
       end.

Inductive ProfileReviewFloorV1 :=
| ReviewNone | ReviewHumanSemantic | ReviewIndependentHuman | ReviewBlock.

Definition ProfileReviewFloorV1_index (x : ProfileReviewFloorV1) : N :=
  match x with
  | ReviewNone => 0 | ReviewHumanSemantic => 1 | ReviewIndependentHuman => 2 | ReviewBlock => 3
  end.

#[global] Instance ProfileReviewFloorV1_eq_dec : EqDecision ProfileReviewFloorV1.
Proof. solve_decision. Defined.
#[global] Instance ProfileReviewFloorV1_cmp : Cmp ProfileReviewFloorV1 := cmp_on ProfileReviewFloorV1_index.
#[global] Instance ProfileReviewFloorV1_cmp_laws : CmpLaws ProfileReviewFloorV1.
Proof. apply cmp_on_laws. by intros [] []. Qed.
#[global] Instance ProfileReviewFloorV1_to_json : ToJson ProfileReviewFloorV1 := λ x,
  JStr match x with
       | ReviewNone => "none" | ReviewHumanSemantic => "human_semantic"
       | ReviewIndependentHuman => "independent_human" | ReviewBlock => "block"
       end.

Inductive ProfilePermissionFloorV1 :=
| LocalReadOnly | ExactPrompt | ExactDurableApproval | DenyExternal.

Definition ProfilePermissionFloorV1_index (x : ProfilePermissionFloorV1) : N :=
  match x with
  | LocalReadOnly => 0 | ExactPrompt => 1 | ExactDurableApproval => 2 | DenyExternal => 3
  end.

#[global] Instance ProfilePermissionFloorV1_eq_dec : EqDecision ProfilePermissionFloorV1.
Proof. solve_decision. Defined.
#[global] Instance ProfilePermissionFloorV1_cmp : Cmp ProfilePermissionFloorV1 := cmp_on ProfilePermissionFloorV1_index.
#[global] Instance ProfilePermissionFloorV1_cmp_laws : CmpLaws ProfilePermissionFloorV1.
Proof. apply cmp_on_laws. by intros [] []. Qed.
#[global] Instance ProfilePermissionFloorV1_to_json : ToJson ProfilePermissionFloorV1 := λ x,
  JStr match x with
       | LocalReadOnly => "local_read_only" | ExactPrompt => "exact_prompt"
       | ExactDurableApproval => "exact_durable_approval" | DenyExternal => "deny_external"
       end.

Inductive ProfileEffectClassV1 :=
| EffectRead | EffectPlan | EffectValidate | EffectLocalStateWrite | EffectWorkspaceMutation
| EffectNetworkRead | EffectRemoteWrite | EffectPublish.

Definition ProfileEffectClassV1_index (x : ProfileEffectClassV1) : N :=
  match x with
  | EffectRead => 0 | EffectPlan => 1 | EffectValidate => 2 | EffectLocalStateWrite => 3
  | EffectWorkspaceMutation => 4 | EffectNetworkRead => 5 | EffectRemoteWrite => 6
  | EffectPublish => 7
  end.

#[global] Instance ProfileEffectClassV1_eq_dec : EqDecision ProfileEffectClassV1.
Proof. solve_decision. Defined.
#[global] Instance ProfileEffectClassV1_cmp : Cmp ProfileEffectClassV1 := cmp_on ProfileEffectClassV1_index.
#[global] Instance ProfileEffectClassV1_cmp_laws : CmpLaws ProfileEffectClassV1.
Proof. apply cmp_on_laws. by intros [] []. Qed.
#[global] Instance ProfileEffectClassV1_to_json : ToJson ProfileEffectClassV1 := λ x,
  JStr match x with
       | EffectRead => "read" | EffectPlan => "plan" | EffectValidate => "validate"
       | EffectLocalStateWrite => "local_state_write"
       | EffectWorkspaceMutation => "workspace_mutation" | EffectNetworkRead => "network_read"
       | EffectRemoteWrite => "remote_write" | EffectPublish => "publish"
       end.

Inductive ProfileApprovalCheckpointV1 :=
| CheckNetwork | CheckDownload | CheckDebugAttach | CheckDependencyChange | CheckPatchApply
| CheckMigrationExecute | CheckDestructiveMigration | CheckUnknownFieldLoss
| CheckCrossProjectEffect | CheckLanguageCutover | CheckRemoteWrite | CheckReleasePublish.

Definition ProfileApprovalCheckpointV1_index (x : ProfileApprovalCheckpointV1) : N :=
  match x with
  | CheckNetwork => 0 | CheckDownload => 1 | CheckDebugAttach => 2 | CheckDependencyChange => 3
  | CheckPatchApply => 4 | CheckMigrationExecute => 5 | CheckDestructiveMigration => 6
  | CheckUnknownFieldLoss => 7 | CheckCrossProjectEffect => 8 | CheckLanguageCutover => 9
  | CheckRemoteWrite => 10 | CheckReleasePublish => 11
  end.

#[global] Instance ProfileApprovalCheckpointV1_eq_dec : EqDecision ProfileApprovalCheckpointV1.
Proof. solve_decision. Defined.
#[global] Instance ProfileApprovalCheckpointV1_cmp : Cmp ProfileApprovalCheckpointV1 := cmp_on ProfileApprovalCheckpointV1_index.
#[global] Instance ProfileApprovalCheckpointV1_cmp_laws : CmpLaws ProfileApprovalCheckpointV1.
Proof. apply cmp_on_laws. by intros [] []. Qed.
#[global] Instance ProfileApprovalCheckpointV1_to_json : ToJson ProfileApprovalCheckpointV1 := λ x,
  JStr match x with
       | CheckNetwork => "network" | CheckDownload => "download"
       | CheckDebugAttach => "debug_attach" | CheckDependencyChange => "dependency_change"
       | CheckPatchApply => "patch_apply" | CheckMigrationExecute => "migration_execute"
       | CheckDestructiveMigration => "destructive_migration"
       | CheckUnknownFieldLoss => "unknown_field_loss"
       | CheckCrossProjectEffect => "cross_project_effect"
       | CheckLanguageCutover => "language_cutover" | CheckRemoteWrite => "remote_write"
       | CheckReleasePublish => "release_publish"
       end.

Inductive ProfileUnknownOutcomePolicyV1 :=
| PreserveAndStop | PreserveAndReconcile.

Definition ProfileUnknownOutcomePolicyV1_index (x : ProfileUnknownOutcomePolicyV1) : N :=
  match x with
  | PreserveAndStop => 0 | PreserveAndReconcile => 1
  end.

#[global] Instance ProfileUnknownOutcomePolicyV1_eq_dec : EqDecision ProfileUnknownOutcomePolicyV1.
Proof. solve_decision. Defined.
#[global] Instance ProfileUnknownOutcomePolicyV1_cmp : Cmp ProfileUnknownOutcomePolicyV1 := cmp_on ProfileUnknownOutcomePolicyV1_index.
#[global] Instance ProfileUnknownOutcomePolicyV1_cmp_laws : CmpLaws ProfileUnknownOutcomePolicyV1.
Proof. apply cmp_on_laws. by intros [] []. Qed.
#[global] Instance ProfileUnknownOutcomePolicyV1_to_json : ToJson ProfileUnknownOutcomePolicyV1 := λ x,
  JStr match x with
       | PreserveAndStop => "preserve_and_stop"
       | PreserveAndReconcile => "preserve_and_reconcile"
       end.

Inductive ProfileRollbackPolicyV1 :=
| RollbackNotApplicable | RollbackRecoveryPlanRequired | RollbackBackupAndRestoreRequired
| RollbackCompensationPlanRequired.

Definition ProfileRollbackPolicyV1_index (x : ProfileRollbackPolicyV1) : N :=
  match x with
  | RollbackNotApplicable => 0 | RollbackRecoveryPlanRequired => 1
  | RollbackBackupAndRestoreRequired => 2 | RollbackCompensationPlanRequired => 3
  end.

#[global] Instance ProfileRollbackPolicyV1_eq_dec : EqDecision ProfileRollbackPolicyV1.
Proof. solve_decision. Defined.
#[global] Instance ProfileRollbackPolicyV1_cmp : Cmp ProfileRollbackPolicyV1 := cmp_on ProfileRollbackPolicyV1_index.
#[global] Instance ProfileRollbackPolicyV1_cmp_laws : CmpLaws ProfileRollbackPolicyV1.
Proof. apply cmp_on_laws. by intros [] []. Qed.
#[global] Instance ProfileRollbackPolicyV1_to_json : ToJson ProfileRollbackPolicyV1 := λ x,
  JStr match x with
       | RollbackNotApplicable => "not_applicable"
       | RollbackRecoveryPlanRequired => "recovery_plan_required"
       | RollbackBackupAndRestoreRequired => "backup_and_restore_required"
       | RollbackCompensationPlanRequired => "compensation_plan_required"
       end.

(** ** Data *)

Record DevelopmentProfileRefV1 := {
  pf_profile_id : string;
  pf_profile_version : string
}.

Record ProfileReviewPolicyV1 := {
  rvp_cli_only : ProfileReviewFloorV1;
  rvp_codex_managed : ProfileReviewFloorV1
}.

Record MigrationProfileMetadataV1 := {
  mpm_target_kinds : list string;
  mpm_invariant_families : list string;
  mpm_strategy_floor : string;
  mpm_backup_policy : string;
  mpm_restore_policy : string;
  mpm_rehearsal_policy : string;
  mpm_resume_policy : string;
  mpm_destructive_policy : string;
  mpm_default_pending_action : string
}.

Record ReleaseProfileMetadataV1 := {
  rpm_validation_layer_refs : list string;
  rpm_release_policy_ref : string;
  rpm_target_environment_refs : list string;
  rpm_package_lifecycle_refs : list string;
  rpm_supply_chain_applicability_ref : string;
  rpm_approval_state_policy_ref : string;
  rpm_evaluation_policy_refs : list string;
  rpm_evaluation_contexts : list string
}.

Record RustStyleProfileMetadataV1 := {
  rsm_profile_kind : string;
  rsm_pipeline_ref : string;
  rsm_toolchain_release : string;
  rsm_default_policy : string;
  rsm_supported_policies : list string;
  rsm_tool_role_refs : list string;
  rsm_source_effect : string;
  rsm_network : string;
  rsm_steps : list string;
  rsm_required_gates : list string;
  rsm_allowed_live_operations : list string;
  rsm_built_in_clippy_fix_allowlist : list string
}.

Record DevelopmentProfileExtensionsV1 := {
  pfx_migration : option MigrationProfileMetadataV1;
  pfx_release : option ReleaseProfileMetadataV1;
  pfx_rust_style : option RustStyleProfileMetadataV1
}.

Record DevelopmentProfileDescriptorV1 := {
  pfd_schema_version : N;
  pfd_profile_id : string;
  pfd_profile_version : string;
  pfd_display_name : string;
  pfd_summary : string;
  pfd_parent_profile : option DevelopmentProfileRefV1;
  pfd_triggers : list string;
  pfd_stage_template : list string;
  pfd_context_rules : list string;
  pfd_route_hints : list string;
  pfd_permission_actions : list string;
  pfd_gate_phases : list ProfileGatePhaseV1;
  pfd_required_rule_families : list string;
  pfd_required_check_families : list string;
  pfd_optional_check_families : list string;
  pfd_always_run_for : list string;
  pfd_baseline_policy : ProfileBaselinePolicyV1;
  pfd_suppression_policy : ProfileSuppressionPolicyV1;
  pfd_claim_policy : list string;
  pfd_stability_policy : ProfileStabilityPolicyV1;
  pfd_review_policy : ProfileReviewPolicyV1;
  pfd_evidence_requirements : list string;
  pfd_corpus_requirements : list string;
  pfd_approval_checkpoints : list ProfileApprovalCheckpointV1;
  pfd_default_stop_state : string;
  pfd_unknown_outcome_policy : ProfileUnknownOutcomePolicyV1;
  pfd_rollback_policy : ProfileRollbackPolicyV1;
  pfd_allowed_effect_classes : list ProfileEffectClassV1;
  pfd_permission_floor : ProfilePermissionFloorV1;
  pfd_extensions : DevelopmentProfileExtensionsV1
}.

Record DevelopmentProfileCatalogEntryV1 := {
  pfe_profile_ref : DevelopmentProfileRefV1;
  pfe_definition_hash : Sha256Hash;
  pfe_descriptor : DevelopmentProfileDescriptorV1
}.

Record DevelopmentProfileCatalogSnapshotV1 := {
  pfc_schema_id : string;
  pfc_schema_version : N;
  pfc_entries : list DevelopmentProfileCatalogEntryV1;
  pfc_catalog_fingerprint : Sha256Hash
}.

Record DevelopmentProfileDefinitionRefV1 := {
  pdf_profile_ref : DevelopmentProfileRefV1;
  pdf_definition_hash : Sha256Hash
}.

Record DevelopmentProfileResolutionV1 := {
  pfr_schema_id : string;
  pfr_schema_version : N;
  pfr_catalog_fingerprint : Sha256Hash;
  pfr_selected_profiles : list DevelopmentProfileRefV1;
  pfr_parent_closure : list DevelopmentProfileRefV1;
  pfr_definition_refs : list DevelopmentProfileDefinitionRefV1;
  pfr_triggers : list string;
  pfr_stage_refs : list string;
  pfr_context_rules : list string;
  pfr_route_hints : list string;
  pfr_permission_actions : list string;
  pfr_gate_phases : list ProfileGatePhaseV1;
  pfr_required_rule_families : list string;
  pfr_required_check_families : list string;
  pfr_optional_check_families : list string;
  pfr_always_run_for : list string;
  pfr_baseline_policy : ProfileBaselinePolicyV1;
  pfr_suppression_policy : ProfileSuppressionPolicyV1;
  pfr_claim_policy : list string;
  pfr_stability_policy : ProfileStabilityPolicyV1;
  pfr_review_policy : ProfileReviewPolicyV1;
  pfr_evidence_requirements : list string;
  pfr_corpus_requirements : list string;
  pfr_approval_checkpoints : list ProfileApprovalCheckpointV1;
  pfr_allowed_effect_classes : list ProfileEffectClassV1;
  pfr_permission_floor : ProfilePermissionFloorV1;
  pfr_default_stop_states : list string;
  pfr_unknown_outcome_policies : list ProfileUnknownOutcomePolicyV1;
  pfr_rollback_policies : list ProfileRollbackPolicyV1;
  pfr_profile_resolution_fingerprint : Sha256Hash
}.

#[global] Instance DevelopmentProfileRefV1_eq_dec : EqDecision DevelopmentProfileRefV1.
Proof. solve_decision. Defined.
#[global] Instance ProfileReviewPolicyV1_eq_dec : EqDecision ProfileReviewPolicyV1.
Proof. solve_decision. Defined.
#[global] Instance MigrationProfileMetadataV1_eq_dec : EqDecision MigrationProfileMetadataV1.
Proof. solve_decision. Defined.
#[global] Instance ReleaseProfileMetadataV1_eq_dec : EqDecision ReleaseProfileMetadataV1.
Proof. solve_decision. Defined.
#[global] Instance RustStyleProfileMetadataV1_eq_dec : EqDecision RustStyleProfileMetadataV1.
Proof. solve_decision. Defined.
#[global] Instance DevelopmentProfileExtensionsV1_eq_dec : EqDecision DevelopmentProfileExtensionsV1.
Proof. solve_decision. Defined.
#[global] Instance DevelopmentProfileDescriptorV1_eq_dec : EqDecision DevelopmentProfileDescriptorV1.
Proof. solve_decision. Defined.
#[global] Instance DevelopmentProfileCatalogEntryV1_eq_dec : EqDecision DevelopmentProfileCatalogEntryV1.
Proof. solve_decision. Defined.
#[global] Instance DevelopmentProfileCatalogSnapshotV1_eq_dec : EqDecision DevelopmentProfileCatalogSnapshotV1.
Proof. solve_decision. Defined.
#[global] Instance DevelopmentProfileDefinitionRefV1_eq_dec : EqDecision DevelopmentProfileDefinitionRefV1.
Proof. solve_decision. Defined.
#[global] Instance DevelopmentProfileResolutionV1_eq_dec : EqDecision DevelopmentProfileResolutionV1.
Proof. solve_decision. Defined.

#[global] Instance DevelopmentProfileRefV1_to_json : ToJson DevelopmentProfileRefV1 := λ x,
  JObj [("profile_id", to_json (pf_profile_id x));
        ("profile_version", to_json (pf_profile_version x))].
#[global] Instance ProfileReviewPolicyV1_to_json : ToJson ProfileReviewPolicyV1 := λ x,
  JObj [("cli_only", to_json (rvp_cli_only x));
        ("codex_managed", to_json (rvp_codex_managed x))].
#[global] Instance MigrationProfileMetadataV1_to_json : ToJson MigrationProfileMetadataV1 := λ x,
  JObj [("target_kinds", to_json (mpm_target_kinds x));
        ("invariant_families", to_json (mpm_invariant_families x));
        ("strategy_floor", to_json (mpm_strategy_floor x));
        ("backup_policy", to_json (mpm_backup_policy x));
        ("restore_policy", to_json (mpm_restore_policy x));
        ("rehearsal_policy", to_json (mpm_rehearsal_policy x));
        ("resume_policy", to_json (mpm_resume_policy x));
        ("destructive_policy", to_json (mpm_destructive_policy x));
        ("default_pending_action", to_json (mpm_default_pending_action x))].
#[global] Instance ReleaseProfileMetadataV1_to_json : ToJson ReleaseProfileMetadataV1 := λ x,
  JObj [("validation_layer_refs", to_json (rpm_validation_layer_refs x));
        ("release_policy_ref", to_json (rpm_release_policy_ref x));
        ("target_environment_refs", to_json (rpm_target_environment_refs x));
        ("package_lifecycle_refs", to_json (rpm_package_lifecycle_refs x));
        ("supply_chain_applicability_ref", to_json (rpm_supply_chain_applicability_ref x));
        ("approval_state_policy_ref", to_json (rpm_approval_state_policy_ref x));
        ("evaluation_policy_refs", to_json (rpm_evaluation_policy_refs x));
        ("evaluation_contexts", to_json (rpm_evaluation_contexts x))].
#[global] Instance RustStyleProfileMetadataV1_to_json : ToJson RustStyleProfileMetadataV1 := λ x,
  JObj [("profile_kind", to_json (rsm_profile_kind x));
        ("pipeline_ref", to_json (rsm_pipeline_ref x));
        ("toolchain_release", to_json (rsm_toolchain_release x));
        ("default_policy", to_json (rsm_default_policy x));
        ("supported_policies", to_json (rsm_supported_policies x));
        ("tool_role_refs", to_json (rsm_tool_role_refs x));
        ("source_effect", to_json (rsm_source_effect x));
        ("network", to_json (rsm_network x));
        ("steps", to_json (rsm_steps x));
        ("required_gates", to_json (rsm_required_gates x));
        ("allowed_live_operations", to_json (rsm_allowed_live_operations x));
        ("built_in_clippy_fix_allowlist", to_json (rsm_built_in_clippy_fix_allowlist x))].
#[global] Instance DevelopmentProfileExtensionsV1_to_json : ToJson DevelopmentProfileExtensionsV1 := λ x, JObj (present
  [opt_field "migration" (pfx_migration x);
   opt_field "release" (pfx_release x);
   opt_field "rust_style" (pfx_rust_style x)]).
#[global] Instance DevelopmentProfileDescriptorV1_to_json : ToJson DevelopmentProfileDescriptorV1 := λ x, JObj (present
  [field "schema_version" (pfd_schema_version x);
   field "profile_id" (pfd_profile_id x);
   field "profile_version" (pfd_profile_version x);
   field "display_name" (pfd_display_name x);
   field "summary" (pfd_summary x);
   opt_field "parent_profile" (pfd_parent_profile x);
   field "triggers" (pfd_triggers x);
   field "stage_template" (pfd_stage_template x);
   field "context_rules" (pfd_context_rules x);
   field "route_hints" (pfd_route_hints x);
   field "permission_actions" (pfd_permission_actions x);
   field "gate_phases" (pfd_gate_phases x);
   field "required_rule_families" (pfd_required_rule_families x);
   field "required_check_families" (pfd_required_check_families x);
   field "optional_check_families" (pfd_optional_check_families x);
   field "always_run_for" (pfd_always_run_for x);
   field "baseline_policy" (pfd_baseline_policy x);
   field "suppression_policy" (pfd_suppression_policy x);
   field "claim_policy" (pfd_claim_policy x);
   field "stability_policy" (pfd_stability_policy x);
   field "review_policy" (pfd_review_policy x);
   field "evidence_requirements" (pfd_evidence_requirements x);
   field "corpus_requirements" (pfd_corpus_requirements x);
   field "approval_checkpoints" (pfd_approval_checkpoints x);
   field "default_stop_state" (pfd_default_stop_state x);
   field "unknown_outcome_policy" (pfd_unknown_outcome_policy x);
   field "rollback_policy" (pfd_rollback_policy x);
   field "allowed_effect_classes" (pfd_allowed_effect_classes x);
   field "permission_floor" (pfd_permission_floor x);
   field "extensions" (pfd_extensions x)]).
#[global] Instance DevelopmentProfileCatalogEntryV1_to_json : ToJson DevelopmentProfileCatalogEntryV1 := λ x,
  JObj [("profile_ref", to_json (pfe_profile_ref x));
        ("definition_hash", to_json (pfe_definition_hash x));
        ("descriptor", to_json (pfe_descriptor x))].
#[global] Instance DevelopmentProfileDefinitionRefV1_to_json : ToJson DevelopmentProfileDefinitionRefV1 := λ x,
  JObj [("profile_ref", to_json (pdf_profile_ref x));
        ("definition_hash", to_json (pdf_definition_hash x))].


(** The resolution as JSON without its own fingerprint. *)
Definition resolution_payload (r : DevelopmentProfileResolutionV1) : Json :=
  JObj [("schema_id", to_json (pfr_schema_id r));
        ("schema_version", to_json (pfr_schema_version r));
        ("catalog_fingerprint", to_json (pfr_catalog_fingerprint r));
        ("selected_profiles", to_json (pfr_selected_profiles r));
        ("parent_closure", to_json (pfr_parent_closure r));
        ("definition_refs", to_json (pfr_definition_refs r));
        ("triggers", to_json (pfr_triggers r));
        ("stage_refs", to_json (pfr_stage_refs r));
        ("context_rules", to_json (pfr_context_rules r));
        ("route_hints", to_json (pfr_route_hints r));
        ("permission_actions", to_json (pfr_permission_actions r));
        ("gate_phases", to_json (pfr_gate_phases r));
        ("required_rule_families", to_json (pfr_required_rule_families r));
        ("required_check_families", to_json (pfr_required_check_families r));
        ("optional_check_families", to_json (pfr_optional_check_families r));
        ("always_run_for", to_json (pfr_always_run_for r));
        ("baseline_policy", to_json (pfr_baseline_policy r));
        ("suppression_policy", to_json (pfr_suppression_policy r));
        ("claim_policy", to_json (pfr_claim_policy r));
        ("stability_policy", to_json (pfr_stability_policy r));
        ("review_policy", to_json (pfr_review_policy r));
        ("evidence_requirements", to_json (pfr_evidence_requirements r));
        ("corpus_requirements", to_json (pfr_corpus_requirements r));
        ("approval_checkpoints", to_json (pfr_approval_checkpoints r));
        ("allowed_effect_classes", to_json (pfr_allowed_effect_classes r));
        ("permission_floor", to_json (pfr_permission_floor r));
        ("default_stop_states", to_json (pfr_default_stop_states r));
        ("unknown_outcome_policies", to_json (pfr_unknown_outcome_policies r));
        ("rollback_policies", to_json (pfr_rollback_policies r))].

Definition with_resolution_fingerprint (r : DevelopmentProfileResolutionV1) (h : Sha256Hash) :
    DevelopmentProfileResolutionV1 :=
  {| pfr_schema_id := pfr_schema_id r;
     pfr_schema_version := pfr_schema_version r;
     pfr_catalog_fingerprint := pfr_catalog_fingerprint r;
     pfr_selected_profiles := pfr_selected_profiles r;
     pfr_parent_closure := pfr_parent_closure r;
     pfr_definition_refs := pfr_definition_refs r;
     pfr_triggers := pfr_triggers r;
     pfr_stage_refs := pfr_stage_refs r;
     pfr_context_rules := pfr_context_rules r;
     pfr_route_hints := pfr_route_hints r;
     pfr_permission_actions := pfr_permission_actions r;
     pfr_gate_phases := pfr_gate_phases r;
     pfr_required_rule_families := pfr_required_rule_families r;
     pfr_required_check_families := pfr_required_check_families r;
     pfr_optional_check_families := pfr_optional_check_families r;
     pfr_always_run_for := pfr_always_run_for r;
     pfr_baseline_policy := pfr_baseline_policy r;
     pfr_suppression_policy := pfr_suppression_policy r;
     pfr_claim_policy := pfr_claim_policy r;
     pfr_stability_policy := pfr_stability_policy r;
     pfr_review_policy := pfr_review_policy r;
     pfr_evidence_requirements := pfr_evidence_requirements r;
     pfr_corpus_requirements := pfr_corpus_requirements r;
     pfr_approval_checkpoints := pfr_approval_checkpoints r;
     pfr_allowed_effect_classes := pfr_allowed_effect_classes r;
     pfr_permission_floor := pfr_permission_floor r;
     pfr_default_stop_states := pfr_default_stop_states r;
     pfr_unknown_outcome_policies := pfr_unknown_outcome_policies r;
     pfr_rollback_policies := pfr_rollback_policies r;
     pfr_profile_resolution_fingerprint := h |}.


(** ** Descriptors *)

Inductive DevelopmentProfileContractError :=
| ProfileInvalid | ProfileVersion | ProfileDuplicate | ProfileBuiltinSet | ProfileParentReference
| ProfileParentCycle | ProfileNotFound | ProfileFingerprint | ProfileToml.

#[global] Instance DevelopmentProfileContractError_eq_dec :
  EqDecision DevelopmentProfileContractError.
Proof. solve_decision. Defined.

Definition profile_id_text (value : string) : bool :=
  negb (is_empty value) && (slen value <=? 96)%N
  && bytes_all (λ b, is_ascii_lower b || is_ascii_digit b || byte_in ["_"%char] b) value.

Definition profile_ref_text (value : string) : bool :=
  negb (is_empty value) && (slen value <=? 256)%N && negb (contains_char NUL value)
  && negb (has_whitespace value).

Definition profile_text (value : string) (max : N) : bool :=
  negb (blank value) && (slen value <=? max)%N && negb (contains_char NUL value).

Definition unique_non_empty (values : list string) (max_items : N) : bool :=
  (len values <=? max_items)%N && forallb profile_ref_text values
  && negb (has_repetition values).

Definition descriptor_ref (d : DevelopmentProfileDescriptorV1) : DevelopmentProfileRefV1 :=
  {| pf_profile_id := pfd_profile_id d; pf_profile_version := pfd_profile_version d |}.

Definition bad_migration (m : MigrationProfileMetadataV1) : bool :=
  negb (unique_non_empty (mpm_target_kinds m) 32)
  || no_items (mpm_target_kinds m)
  || negb (unique_non_empty (mpm_invariant_families m) 64)
  || no_items (mpm_invariant_families m)
  || existsb (λ value, negb (profile_ref_text value))
       [mpm_strategy_floor m; mpm_backup_policy m; mpm_restore_policy m; mpm_rehearsal_policy m;
        mpm_resume_policy m; mpm_destructive_policy m; mpm_default_pending_action m].

Definition bad_release (m : ReleaseProfileMetadataV1) : bool :=
  negb (unique_non_empty (rpm_validation_layer_refs m) 16)
  || no_items (rpm_validation_layer_refs m)
  || negb (unique_non_empty (rpm_target_environment_refs m) 32)
  || negb (unique_non_empty (rpm_package_lifecycle_refs m) 32)
  || negb (unique_non_empty (rpm_evaluation_policy_refs m) 32)
  || negb (unique_non_empty (rpm_evaluation_contexts m) 8)
  || existsb (λ value, negb (profile_ref_text value))
       [rpm_release_policy_ref m; rpm_supply_chain_applicability_ref m;
        rpm_approval_state_policy_ref m].

Abbreviation descriptors := (gmap string DevelopmentProfileDescriptorV1).
Abbreviation catalog_entries := (gmap string DevelopmentProfileCatalogEntryV1).

(** [1] while the ancestors of a profile are visited, [2] when they are done. *)
Abbreviation visit_states := (gmap string N).

Section profiles.
Context `{Platform}.

Definition definition_hash (d : DevelopmentProfileDescriptorV1) :
    result Sha256Hash DevelopmentProfileContractError :=
  map_err (λ _, ProfileFingerprint) (canonical_sha256 (to_json d)).

Definition bad_rust_style (m : RustStyleProfileMetadataV1) : bool :=
  negb (String.eqb (rsm_profile_kind m) "rust_style_auto_fix")
  || negb (profile_ref_text (rsm_pipeline_ref m))
  || negb (semver_parse_ok (rsm_toolchain_release m))
  || negb (profile_ref_text (rsm_default_policy m))
  || negb (unique_non_empty (rsm_supported_policies m) 16)
  || negb (mem (rsm_default_policy m) (rsm_supported_policies m))
  || negb (unique_non_empty (rsm_tool_role_refs m) 16)
  || negb (profile_ref_text (rsm_source_effect m))
  || negb (String.eqb (rsm_network m) "denied")
  || negb (unique_non_empty (rsm_steps m) 64)
  || no_items (rsm_steps m)
  || negb (unique_non_empty (rsm_required_gates m) 16)
  || negb (unique_non_empty (rsm_allowed_live_operations m) 16)
  || negb (unique_non_empty (rsm_built_in_clippy_fix_allowlist m) 128).

Definition validate_extensions (d : DevelopmentProfileDescriptorV1) :
    result unit DevelopmentProfileContractError :=
  let id := pfd_profile_id d in
  let extensions := pfd_extensions d in
  let migration_profile :=
    mem id ["data_config_db_migration"; "language_platform_migration"; "performance_build"] in
  check xorb migration_profile (is_some (pfx_migration extensions))
        || xorb (String.eqb id "ci_release_deploy") (is_some (pfx_release extensions))
        || xorb (String.eqb id "rust_style_auto_fix") (is_some (pfx_rust_style extensions))
  else ProfileInvalid in
  check is_some_and (pfx_migration extensions) bad_migration else ProfileInvalid in
  check is_some_and (pfx_release extensions) bad_release else ProfileInvalid in
  check is_some_and (pfx_rust_style extensions) bad_rust_style else ProfileInvalid in
  Ok tt.

Definition bad_parent (d : DevelopmentProfileDescriptorV1) : bool :=
  is_some_and (pfd_parent_profile d) (λ parent,
    negb (profile_id_text (pf_profile_id parent))
    || String.eqb (pf_profile_id parent) (pfd_profile_id d)
    || negb (semver_parse_ok (pf_profile_version parent))).

Definition bad_lists (d : DevelopmentProfileDescriptorV1) : bool :=
  negb (unique_non_empty (pfd_triggers d) 64)
  || no_items (pfd_triggers d)
  || negb (unique_non_empty (pfd_stage_template d) 32)
  || no_items (pfd_stage_template d)
  || negb (unique_non_empty (pfd_context_rules d) 64)
  || negb (unique_non_empty (pfd_route_hints d) 64)
  || negb (unique_non_empty (pfd_permission_actions d) 64)
  || no_items (pfd_gate_phases d)
  || has_repetition (pfd_gate_phases d)
  || negb (unique_non_empty (pfd_required_rule_families d) 128)
  || no_items (pfd_required_rule_families d)
  || negb (unique_non_empty (pfd_required_check_families d) 128)
  || no_items (pfd_required_check_families d)
  || negb (unique_non_empty (pfd_optional_check_families d) 128)
  || negb (unique_non_empty (pfd_always_run_for d) 64)
  || negb (unique_non_empty (pfd_claim_policy d) 64)
  || negb (unique_non_empty (pfd_evidence_requirements d) 64)
  || no_items (pfd_evidence_requirements d)
  || negb (unique_non_empty (pfd_corpus_requirements d) 64)
  || has_repetition (pfd_approval_checkpoints d).

Definition validate_descriptor (d : DevelopmentProfileDescriptorV1) :
    result unit DevelopmentProfileContractError :=
  check negb (pfd_schema_version d =? DEVELOPMENT_PROFILE_SCHEMA_VERSION)%N
        || negb (profile_id_text (pfd_profile_id d))
        || negb (profile_text (pfd_display_name d) 160)
        || negb (profile_text (pfd_summary d) 1024)
        || negb (semver_parse_ok (pfd_profile_version d))
        || bad_parent d
        || bad_lists d
        || negb (profile_ref_text (pfd_default_stop_state d))
        || no_items (pfd_allowed_effect_classes d)
        || has_repetition (pfd_allowed_effect_classes d)
        || cmp_ltb ReviewHumanSemantic (rvp_cli_only (pfd_review_policy d))
  else ProfileInvalid in
  validate_extensions d.

(** ** The catalog *)

Definition parent_id (ds : descriptors) (id : string) : option string :=
  d ← ds !! id; pf_profile_id <$> pfd_parent_profile d.

Definition bad_parent_reference (ds : descriptors) (d : DevelopmentProfileDescriptorV1) : bool :=
  is_some_and (pfd_parent_profile d) (λ parent,
    match ds !! pf_profile_id parent with
    | Some p => negb (String.eqb (pfd_profile_version p) (pf_profile_version parent))
    | None => true
    end).

Fixpoint visit_parent (fuel : nat) (ds : descriptors) (id : string) (states : visit_states) :
    result visit_states DevelopmentProfileContractError :=
  match states !! id with
  | Some 1%N => Err ProfileParentCycle
  | Some 2%N => Ok states
  | _ =>
      match fuel with
      | O => Err ProfileParentCycle
      | S fuel =>
          let states := <[id := 1%N]> states in
          let? states := match parent_id ds id with
                         | Some parent => visit_parent fuel ds parent states
                         | None => Ok states
                         end in
          Ok (<[id := 2%N]> states)
      end
  end.

Definition graph_fuel {A} (m : gmap string A) : nat := S (size m).

Definition validate_parent_graph (ds : descriptors) :
    result unit DevelopmentProfileContractError :=
  check existsb (bad_parent_reference ds) (map snd (btree_entries ds)) else ProfileParentReference in
  let? _ := fold_result (λ states id, visit_parent (graph_fuel ds) ds id states) ∅
              (map fst (btree_entries ds)) in
  Ok tt.

Definition add_descriptor (ds : descriptors) (d : DevelopmentProfileDescriptorV1) :
    result descriptors DevelopmentProfileContractError :=
  let? _ := validate_descriptor d in
  check is_some (ds !! pfd_profile_id d) else ProfileDuplicate in
  Ok (<[pfd_profile_id d := d]> ds).

Definition catalog_entry (d : DevelopmentProfileDescriptorV1) :
    result DevelopmentProfileCatalogEntryV1 DevelopmentProfileContractError :=
  let? h := definition_hash d in
  Ok {| pfe_profile_ref := descriptor_ref d; pfe_definition_hash := h; pfe_descriptor := d |}.

Definition build_development_profile_catalog (ds : list DevelopmentProfileDescriptorV1) :
    result DevelopmentProfileCatalogSnapshotV1 DevelopmentProfileContractError :=
  let? by_id := fold_result add_descriptor ∅ ds in
  check negb (bool_decide (map fst (btree_entries by_id) = BUILTIN_DEVELOPMENT_PROFILE_IDS))
  else ProfileBuiltinSet in
  let? _ := validate_parent_graph by_id in
  let? entries := map_result catalog_entry (map snd (btree_entries by_id)) in
  let? h := map_err (λ _, ProfileFingerprint) (canonical_sha256 (to_json entries)) in
  Ok {| pfc_schema_id := DEVELOPMENT_PROFILE_CATALOG_SCHEMA_ID;
        pfc_schema_version := DEVELOPMENT_PROFILE_SCHEMA_VERSION;
        pfc_entries := entries;
        pfc_catalog_fingerprint := h |}.

Definition validate_catalog (c : DevelopmentProfileCatalogSnapshotV1) :
    result unit DevelopmentProfileContractError :=
  let? rebuilt := build_development_profile_catalog (map pfe_descriptor (pfc_entries c)) in
  check negb (bool_decide (rebuilt = c)) else ProfileFingerprint in
  Ok tt.

(** ** Resolution *)

Definition entry_map (c : DevelopmentProfileCatalogSnapshotV1) : catalog_entries :=
  foldl (λ m e, <[pf_profile_id (pfe_profile_ref e) := e]> m) ∅ (pfc_entries c).

(** What is collected: the identifiers seen, and in which order. *)
Definition closure_state : Type := gset string * list string.

Fixpoint collect_profile_closure (fuel : nat) (entries : catalog_entries) (id : string)
    (s : closure_state) : result closure_state DevelopmentProfileContractError :=
  match entries !! id with
  | None => Err ProfileNotFound
  | Some entry =>
      if bool_decide (id ∈ s.1) then Ok s
      else
        let? s := match fuel, pfd_parent_profile (pfe_descriptor entry) with
                  | S fuel, Some parent =>
                      collect_profile_closure fuel entries (pf_profile_id parent) s
                  | O, Some _ => Err ProfileNotFound
                  | _, None => Ok s
                  end in
        Ok (s.1 ∪ {[id]}, s.2 ++ [id])
  end.

(** [a.max(b)] of the derived order. *)
Definition cmp_max {A} `{Cmp A} (a b : A) : A := if cmp_leb a b then b else a.

Definition strongest {A} `{Cmp A} (start : A) (f : DevelopmentProfileDescriptorV1 → A)
    (ds : list DevelopmentProfileDescriptorV1) : A :=
  fold_left (λ a d, cmp_max a (f d)) ds start.

(** A [BTreeSet] extended with a list of every profile. *)
Definition gathered {A} `{Cmp A, EqDecision A} (f : DevelopmentProfileDescriptorV1 → list A)
    (ds : list DevelopmentProfileDescriptorV1) : list A :=
  sort_dedup (flat_map f ds).


Definition resolution_fingerprint (r : DevelopmentProfileResolutionV1) :
    result Sha256Hash DevelopmentProfileContractError :=
  map_err (λ _, ProfileFingerprint) (canonical_sha256 (resolution_payload r)).

(** The resolution of a closure before it is hashed. *)
Definition unsealed_resolution (c : DevelopmentProfileCatalogSnapshotV1)
    (selected parents : list DevelopmentProfileRefV1)
    (closure : list DevelopmentProfileCatalogEntryV1) : DevelopmentProfileResolutionV1 :=
  let ds := map pfe_descriptor closure in
  {| pfr_schema_id := DEVELOPMENT_PROFILE_RESOLUTION_SCHEMA_ID;
     pfr_schema_version := DEVELOPMENT_PROFILE_SCHEMA_VERSION;
     pfr_catalog_fingerprint := pfc_catalog_fingerprint c;
     pfr_selected_profiles := selected;
     pfr_parent_closure := parents;
     pfr_definition_refs := map (λ e, {| pdf_profile_ref := pfe_profile_ref e;
                                         pdf_definition_hash := pfe_definition_hash e |}) closure;
     pfr_triggers := gathered pfd_triggers ds;
     pfr_stage_refs := gathered pfd_stage_template ds;
     pfr_context_rules := gathered pfd_context_rules ds;
     pfr_route_hints := gathered pfd_route_hints ds;
     pfr_permission_actions := gathered pfd_permission_actions ds;
     pfr_gate_phases := gathered pfd_gate_phases ds;
     pfr_required_rule_families := gathered pfd_required_rule_families ds;
     pfr_required_check_families := gathered pfd_required_check_families ds;
     pfr_optional_check_families := gathered pfd_optional_check_families ds;
     pfr_always_run_for := gathered pfd_always_run_for ds;
     pfr_baseline_policy := strongest BaselineOff pfd_baseline_policy ds;
     pfr_suppression_policy := strongest SuppressExact pfd_suppression_policy ds;
     pfr_claim_policy := gathered pfd_claim_policy ds;
     pfr_stability_policy := strongest ReportFlaky pfd_stability_policy ds;
     pfr_review_policy :=
       {| rvp_cli_only := strongest ReviewNone (rvp_cli_only ∘ pfd_review_policy) ds;
          rvp_codex_managed := strongest ReviewNone (rvp_codex_managed ∘ pfd_review_policy) ds |};
     pfr_evidence_requirements := gathered pfd_evidence_requirements ds;
     pfr_corpus_requirements := gathered pfd_corpus_requirements ds;
     pfr_approval_checkpoints := gathered pfd_approval_checkpoints ds;
     pfr_allowed_effect_classes := gathered pfd_allowed_effect_classes ds;
     pfr_permission_floor := strongest LocalReadOnly pfd_permission_floor ds;
     pfr_default_stop_states := gathered (λ d, [pfd_default_stop_state d]) ds;
     pfr_unknown_outcome_policies := gathered (λ d, [pfd_unknown_outcome_policy d]) ds;
     pfr_rollback_policies := gathered (λ d, [pfd_rollback_policy d]) ds;
     pfr_profile_resolution_fingerprint := digest EmptyString |}.

Definition selected_refs (entries : catalog_entries) (ids : list string) :
    result (list DevelopmentProfileRefV1) DevelopmentProfileContractError :=
  map_result (λ id, ok_or (pfe_profile_ref <$> entries !! id) ProfileNotFound) ids.

Definition collect_closures (entries : catalog_entries) (ids : list string) :
    result closure_state DevelopmentProfileContractError :=
  fold_result (λ s id, collect_profile_closure (graph_fuel entries) entries id s) (∅, []) ids.

(** The entries of collected identifiers; each was found when it was collected. *)
Definition entries_of (entries : catalog_entries) (ids : list string) :
    list DevelopmentProfileCatalogEntryV1 :=
  omap (λ id, entries !! id) ids.

Definition resolve_development_profiles (c : DevelopmentProfileCatalogSnapshotV1)
    (selected_profile_ids : list string) :
    result DevelopmentProfileResolutionV1 DevelopmentProfileContractError :=
  let? _ := validate_catalog c in
  check no_items selected_profile_ids
        || (len BUILTIN_DEVELOPMENT_PROFILE_IDS <? len selected_profile_ids)%N
  else ProfileInvalid in
  let entries := entry_map c in
  let selected_ids := sort_dedup selected_profile_ids in
  check negb (len selected_ids =? len selected_profile_ids)%N else ProfileDuplicate in
  let? closure := collect_closures entries selected_ids in
  let? selected := selected_refs entries selected_ids in
  let parents := List.filter (λ id, negb (mem id selected_ids)) closure.2 in
  let r := unsealed_resolution c selected (map pfe_profile_ref (entries_of entries parents))
             (entries_of entries closure.2) in
  let? h := resolution_fingerprint r in
  Ok (with_resolution_fingerprint r h).

Definition validate_resolution (r : DevelopmentProfileResolutionV1) :
    result unit DevelopmentProfileContractError :=
  check negb (String.eqb (pfr_schema_id r) DEVELOPMENT_PROFILE_RESOLUTION_SCHEMA_ID)
        || negb (pfr_schema_version r =? DEVELOPMENT_PROFILE_SCHEMA_VERSION)%N
        || no_items (pfr_selected_profiles r)
        || no_items (pfr_unknown_outcome_policies r)
        || no_items (pfr_rollback_policies r)
  else ProfileFingerprint in
  let? h := resolution_fingerprint r in
  check negb (String.eqb (pfr_profile_resolution_fingerprint r) h) else ProfileFingerprint in
  Ok tt.

End profiles.

(** ** The profile of a stage *)

Section binding.
Context `{Platform}.

(** The definition references of a resolution that name a profile. *)
Definition definition_refs_of (r : DevelopmentProfileResolutionV1)
    (profile : DevelopmentProfileRefV1) : list DevelopmentProfileDefinitionRefV1 :=
  List.filter (λ reference, bool_decide (pdf_profile_ref reference = profile))
    (pfr_definition_refs r).

(** The five assignments of [bind_profile_resolution]. *)
Definition with_profile (s : StageSpecV1) (profile : DevelopmentProfileRefV1)
    (definition : Sha256Hash) (r : DevelopmentProfileResolutionV1) : StageSpecV1 :=
  {| ss_schema_id := ss_schema_id s;
     ss_schema_version := ss_schema_version s;
     ss_stage_id := ss_stage_id s;
     ss_revision := ss_revision s;
     ss_goal_id := ss_goal_id s;
     ss_task_spec_ref := ss_task_spec_ref s;
     ss_scope_revision_ref := ss_scope_revision_ref s;
     ss_title := ss_title s;
     ss_objective := ss_objective s;
     ss_stage_mode := ss_stage_mode s;
     ss_executor_kind := ss_executor_kind s;
     ss_work_profile_id := pf_profile_id profile;
     ss_work_profile_version := pf_profile_version profile;
     ss_work_profile_definition_hash := Some definition;
     ss_profile_catalog_fingerprint := Some (pfr_catalog_fingerprint r);
     ss_profile_resolution_fingerprint := Some (pfr_profile_resolution_fingerprint r);
     ss_project_ids := ss_project_ids s;
     ss_included_work := ss_included_work s;
     ss_excluded_work := ss_excluded_work s;
     ss_expected_change_scope := ss_expected_change_scope s;
     ss_dependencies := ss_dependencies s;
     ss_parallel_group := ss_parallel_group s;
     ss_completion_criteria := ss_completion_criteria s;
     ss_failure_policy := ss_failure_policy s;
     ss_route_decision_ref := ss_route_decision_ref s;
     ss_permission_plan_ref := ss_permission_plan_ref s;
     ss_validation_plan_ref := ss_validation_plan_ref s;
     ss_impact_analysis_ref := ss_impact_analysis_ref s;
     ss_change_plan_refs := ss_change_plan_refs s;
     ss_result_ref := ss_result_ref s;
     ss_state := ss_state s;
     ss_stage_fingerprint := ss_stage_fingerprint s |}.

Definition bind_profile_resolution (s : StageSpecV1) (r : DevelopmentProfileResolutionV1) :
    result StageSpecV1 StageContractError :=
  let? _ := map_err (λ _, ProfileBinding) (validate_resolution r) in
  match pfr_selected_profiles r with
  | [profile] =>
      match definition_refs_of r profile with
      | [definition] => Ok (with_profile s profile (pdf_definition_hash definition) r)
      | _ => Err ProfileBinding
      end
  | _ => Err ProfileBinding
  end.

Definition verify_profile_binding (s : StageSpecV1) (r : DevelopmentProfileResolutionV1) :
    result unit StageContractError :=
  let? _ := map_err (λ _, ProfileBinding) (validate_resolution r) in
  match pfr_selected_profiles r with
  | [profile] =>
      check negb (String.eqb (pf_profile_id profile) (ss_work_profile_id s))
            || negb (String.eqb (pf_profile_version profile) (ss_work_profile_version s))
            || negb (bool_decide (ss_profile_catalog_fingerprint s
                                  = Some (pfr_catalog_fingerprint r)))
            || negb (bool_decide (ss_profile_resolution_fingerprint s
                                  = Some (pfr_profile_resolution_fingerprint r)))
      else ProfileBinding in
      match definition_refs_of r profile with
      | [definition] =>
          check negb (bool_decide (ss_work_profile_definition_hash s
                                   = Some (pdf_definition_hash definition)))
          else ProfileBinding in
          Ok tt
      | _ => Err ProfileBinding
      end
  | _ => Err ProfileBinding
  end.
End binding.
