(* ===== verification/ProfileFacts.v ===== *)
(** * What the profile catalog and its resolutions promise

    The parent graph of a catalog is accepted exactly when every parent is there
    in the version asked for and no profile is its own ancestor.  A catalog does
    not depend on the order of its descriptors and validates.  A resolution
    requires exactly what the selected profiles and their ancestors require,
    parents before children, and a stage bound to one verifies against it. *)
From S2P Require Import Prelude Canonical Persist Toy Contracts Stage StageFacts Profile.

(** ** The parent graph *)

Definition is_parent (ds : descriptors) (child parent : string) : Prop :=
  parent_id ds child = Some parent.

Definition parents_resolve (ds : descriptors) : Prop :=
  ∀ id d p, ds !! id = Some d → pfd_parent_profile d = Some p →
    ∃ q, ds !! pf_profile_id p = Some q ∧ pfd_profile_version q = pf_profile_version p.

(** A path of distinct keys is no longer than the map. *)
Lemma path_le_size {A} (m : gmap string A) (path : list string) :
  NoDup path → (∀ i, i ∈ path → is_Some (m !! i)) → length path ≤ size m.
Proof.
  intros Hnd Hin. rewrite <-(size_dom (D := gset string)), <-(size_list_to_set (C := gset string) path Hnd).
  apply subseteq_size. intros i Hi%elem_of_list_to_set. by apply elem_of_dom, Hin.
Qed.

(** One more identifier on a path of distinct keys leaves fuel for it. *)
Lemma path_fuel {A} (m : gmap string A) (path : list string) id fuel :
  NoDup path → (∀ i, i ∈ path → is_Some (m !! i)) → id ∉ path → is_Some (m !! id) →
  size m ≤ length path + fuel → ∃ fuel', fuel = S fuel' ∧ size m ≤ length (id :: path) + fuel'.
Proof.
  intros Hnd Hin Hid Hm Hle. assert (length (id :: path) ≤ size m) as Hp.
  { apply path_le_size; [by constructor|].
    intros i Hi%elem_of_cons. destruct Hi as [->|Hi]; [exact Hm|exact (Hin i Hi)]. }
  simpl in *. destruct fuel as [|fuel]; [lia|]. exists fuel. split; [done|]. simpl. lia.
Qed.

Section graph.
Variable ds : descriptors.

(** The chain of parents of a profile ends. *)
Abbreviation grounded := (Acc (flip (is_parent ds))).

Definition open_in (states : visit_states) (i : string) : Prop := states !! i = Some 1%N.
Definition done_in (states : visit_states) (i : string) : Prop := states !! i = Some 2%N.

Lemma grounded_no_cycle i : grounded i → ¬ tc (is_parent ds) i i.
Proof.
  induction 1 as [i _ IH]. intros Hc. inversion Hc as [? ? Hp|? p ? Hp Ht]; simplify_eq.
  - by eapply (IH i Hp).
  - eapply (IH p Hp). eapply tc_r; [exact Ht|exact Hp].
Qed.

(** How a visit goes: refused while it is open, nothing when it is done, and
    otherwise the parent first. *)
Definition visit_anew fuel id (states : visit_states) :
    result visit_states DevelopmentProfileContractError :=
  match fuel with
  | O => Err ProfileParentCycle
  | S fuel =>
      let? states := match parent_id ds id with
                     | Some parent => visit_parent fuel ds parent (<[id := 1%N]> states)
                     | None => Ok (<[id := 1%N]> states)
                     end in
      Ok (<[id := 2%N]> states)
  end.

Lemma visit_cases fuel id states :
  (open_in states id ∧ visit_parent fuel ds id states = Err ProfileParentCycle) ∨
  (done_in states id ∧ visit_parent fuel ds id states = Ok states) ∨
  (¬ open_in states id ∧ visit_parent fuel ds id states = visit_anew fuel id states).
Proof.
  unfold open_in, done_in, visit_anew.
  destruct fuel; cbn [visit_parent]; generalize (states !! id);
    (intros [[|[p|[p|p|]|]]|];
     [right; right|right; right|right; right|right; right|right; left|left|right; right]);
    (split; [congruence|reflexivity]).
Qed.

Lemma open_insert states id i : open_in (<[id := 1%N]> states) i ↔ i = id ∨ open_in states i.
Proof. unfold open_in. destruct (decide (i = id)) as [->|Hne]; simplify_map_eq; naive_solver. Qed.

Lemma visit_sound fuel id states states' :
  (∀ i, done_in states i → grounded i) →
  visit_parent fuel ds id states = Ok states' →
  done_in states' id ∧ (∀ i, done_in states' i → grounded i) ∧
  (∀ i, open_in states' i ↔ open_in states i).
Proof.
  revert id states states'. induction fuel as [|fuel IH]; intros id states states' Hd;
    [set (fuel' := O)|set (fuel' := S fuel)];
    destruct (visit_cases fuel' id states) as [(Ho & ->)|[(Hdn & ->)|(Ho & ->)]]; intros Hv;
    try discriminate Hv; try (injection Hv as <-; split_and!; auto; done);
    unfold visit_anew, fuel' in Hv; try discriminate Hv; clear fuel'.
  set (st1 := <[id := 1%N]> states) in *.
  assert (∀ i, done_in st1 i → grounded i) as Hd1.
  { intros i Hi. unfold done_in, st1 in Hi. destruct (decide (i = id)) as [->|?]; simplify_map_eq. auto. }
  assert (∃ st2, states' = <[id := 2%N]> st2 ∧ (∀ p, is_parent ds id p → grounded p) ∧
    (∀ i, done_in st2 i → grounded i) ∧ (∀ i, open_in st2 i ↔ open_in st1 i)) as
    (st2 & -> & Hp & Hd2 & Ho2).
  { unfold is_parent. destruct (parent_id ds id) as [p|].
    - destruct (visit_parent fuel ds p st1) as [st2|] eqn:Hr; [|discriminate Hv].
      destruct (IH p st1 st2 Hd1 Hr) as (Hpd & Hd2 & Ho2).
      exists st2. injection Hv as <-. split_and!; auto. intros ? [= <-]. by apply Hd2.
    - exists st1. injection Hv as <-. split_and!; auto. done. }
  assert (grounded id) as Hg by (constructor; exact Hp).
  unfold done_in, open_in in *. split; [by simplify_map_eq|]. split.
  - intros i Hi. destruct (decide (i = id)) as [->|?]; simplify_map_eq; auto.
  - intros i. destruct (decide (i = id)) as [->|Hne]; simplify_map_eq.
    + split; [done|]. intros Hi. by destruct Ho.
    + rewrite Ho2. unfold st1. by simplify_map_eq.
Qed.

(** With fuel for the profiles that are not open, a visit succeeds unless some
    profile is its own ancestor. *)
Lemma visit_complete fuel id states path :
  (∀ c p, is_parent ds c p → is_Some (ds !! p)) → is_Some (ds !! id) →
  NoDup path → (∀ i, i ∈ path → is_Some (ds !! i) ∧ tc (is_parent ds) i id) →
  (∀ i, open_in states i ↔ i ∈ path) →
  size ds ≤ length path + fuel →
  is_ok (visit_parent fuel ds id states) = true ∨ ∃ i, tc (is_parent ds) i i.
Proof.
  intros Hcl. revert id states path.
  induction fuel as [|fuel IH]; intros id states path Hid Hnd Hpath Hopen Hle;
    [set (fuel' := O)|set (fuel' := S fuel)];
    destruct (visit_cases fuel' id states) as [(Ho & ->)|[(Hdn & ->)|(Ho & ->)]];
    try (by left); try (apply Hopen in Ho; right; exists id; by apply Hpath).
  - destruct (path_fuel ds path id 0) as (? & ? & _); try done.
    + intros i Hi. by apply Hpath.
    + by rewrite <-Hopen.
  - rewrite Hopen in Ho.
    destruct (path_fuel ds path id (S fuel)) as (? & [= <-] & Hle'); try done.
    { intros i Hi. by apply Hpath. }
    unfold visit_anew, fuel'. destruct (parent_id ds id) as [p|] eqn:Hp; [|by left].
    assert (is_ok (visit_parent fuel ds p (<[id := 1%N]> states)) = true ∨
            ∃ i, tc (is_parent ds) i i) as [Hok|Hc].
    + apply (IH p _ (id :: path)); [by eapply Hcl|by constructor| | |exact Hle'].
      * intros i [->|Hi]%elem_of_cons; [split; [done|by apply tc_once]|].
        destruct (Hpath i Hi). split; [done|]. eapply tc_r; [done|exact Hp].
      * intros i. by rewrite open_insert, Hopen, elem_of_cons.
    + left. by destruct (visit_parent fuel ds p _).
    + by right.
Qed.

Lemma visit_error fuel id states e :
  visit_parent fuel ds id states = Err e → e = ProfileParentCycle.
Proof.
  revert id states. induction fuel as [|fuel IH]; intros id states;
    [set (fuel' := O)|set (fuel' := S fuel)];
    destruct (visit_cases fuel' id states) as [(_ & ->)|[(_ & ->)|(_ & ->)]]; simpl; try congruence. destruct (parent_id ds id) as [p|]; [|done].
  destruct (visit_parent fuel ds p _) eqn:Hr; [done|]. intros [= <-]. by eapply IH.
Qed.
(** Every identifier of the list visited in turn. *)
Lemma visits_sound fuel ids states states' :
  (∀ i, done_in states i → grounded i) →
  fold_result (λ states id, visit_parent fuel ds id states) states ids = Ok states' →
  ∀ i, i ∈ ids → grounded i.
Proof.
  revert states. induction ids as [|id ids IH]; intros states Hd Hf i Hi; [by apply elem_of_nil in Hi|].
  cbn [fold_result] in Hf. destruct (visit_parent fuel ds id states) as [st|] eqn:Hv; [|discriminate Hf].
  destruct (visit_sound fuel id states st Hd Hv) as (Hid & Hd' & _).
  apply elem_of_cons in Hi. destruct Hi as [->|Hi]; [by apply Hd'|]. by eapply (IH st).
Qed.

Lemma visits_complete ids states e :
  (∀ c p, is_parent ds c p → is_Some (ds !! p)) → (∀ i, i ∈ ids → is_Some (ds !! i)) →
  (∀ i, done_in states i → grounded i) → (∀ i, ¬ open_in states i) →
  fold_result (λ states id, visit_parent (graph_fuel ds) ds id states) states ids = Err e →
  e = ProfileParentCycle ∧ ∃ i, tc (is_parent ds) i i.
Proof.
  intros Hcl. revert states. induction ids as [|id ids IH]; intros states Hin Hd Ho; [done|]. cbn [fold_result].
  assert (is_ok (visit_parent (graph_fuel ds) ds id states) = true ∨ ∃ i, tc (is_parent ds) i i) as Hc.
  { apply (visit_complete _ id states []); [done|apply Hin; by left|constructor| | |unfold graph_fuel; simpl; lia].
    - by intros i Hi%elem_of_nil.
    - intros i. rewrite elem_of_nil. split; [apply Ho|done]. }
  destruct (visit_parent _ ds id states) as [st|e'] eqn:Hv.
  - destruct (visit_sound _ id states st Hd Hv) as (_ & Hd' & Ho').
    apply IH; [|done|]; intros i Hi; [apply Hin; by right|]. by apply (Ho i), Ho'.
  - intros [= <-]. split; [by eapply visit_error|]. by destruct Hc.
Qed.

Lemma bad_references_spec :
  existsb (bad_parent_reference ds) (map snd (btree_entries ds)) = false ↔ parents_resolve ds.
Proof.
  rewrite existsb_map, entries_false. unfold parents_resolve, bad_parent_reference. split.
  - intros Hall id d p Hd Hp. specialize (Hall id d Hd). simpl in Hall. rewrite Hp in Hall. simpl in Hall.
    destruct (ds !! pf_profile_id p) as [q|]; [|done]. bool_to_prop. eauto.
  - intros Hall id d Hd. simpl. destruct (pfd_parent_profile d) as [p|] eqn:Hp; [|done]. simpl.
    destruct (Hall id d p Hd Hp) as (q & -> & ->). by rewrite String.eqb_refl.
Qed.

Lemma parent_keys id :
  id ∈ map fst (btree_entries ds) ↔ is_Some (ds !! id).
Proof.
  split.
  - intros Hi. apply list_elem_of_fmap in Hi as ([k v] & -> & Hkv).
    apply elem_of_btree_entries in Hkv. by exists v.
  - intros [d Hd]. apply list_elem_of_fmap. exists (id, d). by rewrite elem_of_btree_entries.
Qed.

Lemma resolved_parent c p : parents_resolve ds → is_parent ds c p → is_Some (ds !! p).
Proof.
  unfold is_parent, parent_id. intros Hr Hp. destruct (ds !! c) as [d|] eqn:Hd; [|done]. simpl in Hp.
  destruct (pfd_parent_profile d) as [q|] eqn:Hq; [|done]. injection Hp as <-.
  destruct (Hr c d q Hd Hq) as (r & -> & _). by exists r.
Qed.

Lemma parent_graph_ok :
  validate_parent_graph ds = Ok tt →
  parents_resolve ds ∧ ∀ id, grounded id.
Proof.
  unfold validate_parent_graph. intros Hv. err_cases Hv. apply bad_references_spec in Heqb.
  split; [done|]. assert (∀ id, is_Some (ds !! id) → grounded id) as Hk.
  { intros id Hid%parent_keys. eapply visits_sound; [|exact Heqr|exact Hid].
    intros i Hi. unfold done_in in Hi. by simplify_map_eq. }
  intros id. constructor. intros p Hp. by eapply Hk, resolved_parent.
Qed.

Lemma parent_graph_err e :
  validate_parent_graph ds = Err e →
  (e = ProfileParentReference ∧ ¬ parents_resolve ds) ∨
  (e = ProfileParentCycle ∧ parents_resolve ds ∧ ∃ id, tc (is_parent ds) id id).
Proof.
  unfold validate_parent_graph.
  destruct (existsb _ _) eqn:Hb.
  - intros [= <-]. left. split; [done|]. rewrite <-bad_references_spec. congruence.
  - apply bad_references_spec in Hb. intros Hv. right.
    destruct (fold_result _ ∅ _) as [st|e'] eqn:Hf; [done|]. injection Hv as <-.
    apply visits_complete in Hf as [-> Hc]; [done| | | |].
    + intros c p Hp. by eapply resolved_parent.
    + intros i Hi. by apply parent_keys.
    + intros i Hi. unfold done_in in Hi. by simplify_map_eq.
    + intros i Hi. unfold open_in in Hi. by simplify_map_eq.
Qed.
End graph.

(** C13: the depth-first search over the parents of the descriptors ends with the
    fuel it is given and tells three situations apart: the catalog is accepted exactly
    when every named parent is there in the named version and no profile is its
    own ancestor, a missing or differing parent is reported before any search,
    and a cycle is reported exactly when there is one. *)
Theorem parent_graph_exact ds :
  (validate_parent_graph ds = Ok tt ↔
     parents_resolve ds ∧ ∀ id, ¬ tc (is_parent ds) id id) ∧
  (validate_parent_graph ds = Err ProfileParentReference ↔ ¬ parents_resolve ds) ∧
  (validate_parent_graph ds = Err ProfileParentCycle ↔
     parents_resolve ds ∧ ∃ id, tc (is_parent ds) id id).
Proof.
  assert (∀ id, tc (is_parent ds) id id → validate_parent_graph ds ≠ Ok tt) as Hc.
  { intros id Ht [_ Hg]%parent_graph_ok. by eapply grounded_no_cycle. }
  destruct (validate_parent_graph ds) as [[]|e] eqn:Hv.
  - pose proof (parent_graph_ok ds Hv) as [Hr Hg].
    split_and!; split; try done.
    + intros _. split; [done|]. intros id Ht. by eapply Hc.
    + intros [_ [id Ht]]. by destruct (Hc id Ht).
  - apply parent_graph_err in Hv as [[-> Hr]|(-> & Hr & id & Ht)];
      split_and!; split; try done; try naive_solver.
Qed.

(** ** The catalog *)

Section catalog.
Context `{Platform}.
Implicit Types (m : descriptors) (d : DevelopmentProfileDescriptorV1).

Lemma add_descriptors_ok ds m0 m :
  fold_result add_descriptor m0 ds = Ok m →
  (∀ d, d ∈ ds → validate_descriptor d = Ok tt ∧ m0 !! pfd_profile_id d = None) ∧
  NoDup (map pfd_profile_id ds) ∧
  ∀ k d, m !! k = Some d ↔ (d ∈ ds ∧ pfd_profile_id d = k) ∨ m0 !! k = Some d.
Proof.
  revert m0. induction ds as [|d ds IH]; intros m0 Hf; cbn [fold_result] in Hf.
  - injection Hf as <-. split_and!; [by intros d Hd%elem_of_nil|constructor|].
    intros k d. rewrite elem_of_nil. naive_solver.
  - destruct (add_descriptor m0 d) as [m1|] eqn:Ha; [|discriminate Hf].
    unfold add_descriptor in Ha. err_cases Ha. injection Ha as <-. rename Heqr into Hv.
    assert (m0 !! pfd_profile_id d = None) as Hnew by by destruct (m0 !! pfd_profile_id d).
    destruct (IH _ Hf) as (Hall & Hnd & Hm). split_and!.
    + intros d' [->|Hd]%elem_of_cons; [done|]. destruct (Hall d' Hd) as [? Hn].
      split; [done|]. by apply lookup_insert_None in Hn as [? ?].
    + simpl. constructor; [|done]. intros (d' & Heq & Hd)%list_elem_of_fmap.
      destruct (Hall d' Hd) as [_ Hn]. apply lookup_insert_None in Hn as [_ Hne]. by rewrite Heq in Hne.
    + intros k d'. rewrite Hm, elem_of_cons, lookup_insert_Some. clear IH Hall Hm Hf.
      destruct (decide (pfd_profile_id d = k)) as [<-|Hne]; [|naive_solver].
      rewrite Hnew. naive_solver.
Qed.

Lemma add_descriptors_total ds m0 :
  (∀ d, d ∈ ds → validate_descriptor d = Ok tt ∧ m0 !! pfd_profile_id d = None) →
  NoDup (map pfd_profile_id ds) → ∃ m, fold_result add_descriptor m0 ds = Ok m.
Proof.
  revert m0. induction ds as [|d ds IH]; intros m0 Hall Hnd; [by exists m0|]. cbn [fold_result].
  apply NoDup_cons in Hnd as [Hn Hnd]. destruct (Hall d) as [Hv Hnew]; [by left|].
  unfold add_descriptor at 1. rewrite Hv, Hnew. simpl. apply IH; [|done].
  intros d' Hd. destruct (Hall d') as [? Hd']; [by right|]. split; [done|].
  apply lookup_insert_None. split; [done|]. intros Heq. apply Hn. rewrite Heq.
  by apply list_elem_of_fmap_2.
Qed.

Lemma add_descriptors_perm ds ds' m :
  ds ≡ₚ ds' → fold_result add_descriptor ∅ ds = Ok m → fold_result add_descriptor ∅ ds' = Ok m.
Proof.
  intros Hp Hf. destruct (add_descriptors_ok _ _ _ Hf) as (Hall & Hnd & Hm).
  destruct (add_descriptors_total ds' ∅) as [m' Hf'].
  - intros d Hd. apply Hall. by rewrite Hp.
  - by rewrite <-Hp.
  - rewrite Hf'. f_equal. apply map_eq. intros k. apply option_eq. intros d.
    destruct (add_descriptors_ok _ _ _ Hf') as (_ & _ & Hm'). by rewrite Hm, Hm', Hp.
Qed.

(** What a built catalog holds: the descriptors by their identifiers. *)
Definition holds_catalog m (c : DevelopmentProfileCatalogSnapshotV1) : Prop :=
  (∀ k d, m !! k = Some d → pfd_profile_id d = k ∧ validate_descriptor d = Ok tt) ∧
  map fst (btree_entries m) = BUILTIN_DEVELOPMENT_PROFILE_IDS ∧
  validate_parent_graph m = Ok tt ∧
  map pfe_descriptor (pfc_entries c) = map snd (btree_entries m) ∧
  (∀ e, e ∈ pfc_entries c →
    pfe_profile_ref e = descriptor_ref (pfe_descriptor e) ∧
    definition_hash (pfe_descriptor e) = Ok (pfe_definition_hash e)).

Lemma build_holds ds c :
  build_development_profile_catalog ds = Ok c →
  ∃ m, fold_result add_descriptor ∅ ds = Ok m ∧ holds_catalog m c ∧ ds ≡ₚ map snd (btree_entries m).
Proof.
  unfold build_development_profile_catalog. intros Hb.
  destruct (fold_result add_descriptor ∅ ds) as [m|] eqn:Hf; [|discriminate Hb].
  err_cases Hb. bool_to_prop. injection Hb as <-. exists m. split; [done|].
  destruct (add_descriptors_ok _ _ _ Hf) as (Hall & Hnd & Hm).
  assert (∀ k d, m !! k = Some d ↔ d ∈ ds ∧ pfd_profile_id d = k) as Hm'.
  { intros k d. rewrite Hm, lookup_empty. naive_solver. }
  apply map_result_Forall2 in Heqr0. split; [split_and!|].
  - intros k d [Hd <-]%Hm'. by split; [|apply Hall].
  - done.
  - done.
  - simpl. apply list_eq_Forall2, Forall2_fmap_l. eapply Forall2_flip, Forall2_impl; [exact Heqr0|].
    simpl. unfold catalog_entry. intros d e He. err_cases He. by injection He as <-.
  - simpl. intros e (i & He)%list_elem_of_lookup.
    destruct (Forall2_lookup_r _ _ _ _ _ Heqr0 He) as (d & _ & Hd).
    unfold catalog_entry in Hd. err_cases Hd. by injection Hd as <-.
  - apply NoDup_Permutation.
    + by eapply NoDup_fmap_1.
    + apply (NoDup_fmap_1 pfd_profile_id). replace (pfd_profile_id <$> _) with (map fst (btree_entries m)).
      { apply strict_NoDup, btree_keys_strict. }
      change (map fst (btree_entries m) = map pfd_profile_id (map snd (btree_entries m))).
      rewrite map_map. apply map_ext_in. intros [k d] Hk%list_elem_of_In. simpl.
      apply elem_of_btree_entries, Hm' in Hk. by destruct Hk.
    + intros d. rewrite list_elem_of_fmap. split.
      * intros Hd. exists (pfd_profile_id d, d). rewrite elem_of_btree_entries. by split; [|apply Hm'].
      * intros ([k d'] & -> & Hk). apply elem_of_btree_entries, Hm' in Hk. by destruct Hk.
Qed.

Lemma build_perm ds ds' c :
  ds ≡ₚ ds' → build_development_profile_catalog ds = Ok c →
  build_development_profile_catalog ds' = Ok c.
Proof.
  intros Hp Hb. destruct (build_holds _ _ Hb) as (m & Hf & _).
  unfold build_development_profile_catalog in *. rewrite Hf in Hb.
  by rewrite (add_descriptors_perm _ _ _ Hp Hf).
Qed.

Lemma validate_catalog_holds c :
  validate_catalog c = Ok tt → ∃ m, holds_catalog m c.
Proof.
  unfold validate_catalog. intros Hv. err_cases Hv. bool_to_prop. subst.
  destruct (build_holds _ _ Heqr) as (m & _ & Hm & _). by exists m.
Qed.

Lemma build_validates ds c :
  build_development_profile_catalog ds = Ok c → validate_catalog c = Ok tt.
Proof.
  intros Hb. destruct (build_holds _ _ Hb) as (m & _ & (_ & _ & _ & Hds & _) & Hp).
  unfold validate_catalog. rewrite Hds, (build_perm _ _ _ Hp Hb). by rewrite bool_decide_true.
Qed.

(** The catalog of a set of descriptors does not depend on the order in
    which they are given, and it validates: rebuilding it from its own entries
    gives the same entries, hashes and fingerprint. *)
Theorem catalog_is_canonical ds c :
  build_development_profile_catalog ds = Ok c →
  validate_catalog c = Ok tt ∧
  ∀ ds', ds ≡ₚ ds' → build_development_profile_catalog ds' = Ok c.
Proof.
  intros Hb. split; [by eapply build_validates|intros ds' Hp; by eapply build_perm].
Qed.

End catalog.

(** ** Closures *)

Definition requires (es : catalog_entries) (child parent : string) : Prop :=
  ∃ e p, es !! child = Some e ∧ pfd_parent_profile (pfe_descriptor e) = Some p ∧
         pf_profile_id p = parent.

Definition parents_first (es : catalog_entries) (order : list string) : Prop :=
  ∀ i x p, order !! i = Some x → requires es x p → ∃ j, j < i ∧ order !! j = Some p.

Section closure.
Variable es : catalog_entries.
Hypothesis resolved : ∀ x y, requires es x y → is_Some (es !! y).
Hypothesis acyclic : ∀ x, ¬ tc (requires es) x x.

Definition collected (s : closure_state) : Prop :=
  (∀ i, i ∈ s.1 ↔ i ∈ s.2) ∧ NoDup s.2 ∧ (∀ i, i ∈ s.2 → is_Some (es !! i)) ∧
  parents_first es s.2.

Lemma requires_tc x p y : requires es x p → rtc (requires es) p y → tc (requires es) x y.
Proof. intros Hp Ht. eapply tc_rtc_r; [by apply tc_once|exact Ht]. Qed.

Lemma collected_snoc s id :
  collected s → id ∉ s.2 → is_Some (es !! id) → (∀ p, requires es id p → p ∈ s.2) →
  collected (s.1 ∪ {[id]}, s.2 ++ [id]).
Proof.
  intros (Hs & Hnd & Hin & Hf) Hid Hm Hp. unfold collected. simpl. split_and!.
  - intros i. rewrite elem_of_union, elem_of_singleton, elem_of_app, list_elem_of_singleton. by rewrite Hs.
  - apply NoDup_app. split; [done|]. split; [|apply NoDup_singleton].
    intros x Hx ->%list_elem_of_singleton. done.
  - intros i [Hi| ->%list_elem_of_singleton]%elem_of_app; auto.
  - intros i x p [Hx|[Hle Hx]]%lookup_app_Some Hr.
    + destruct (Hf i x p Hx Hr) as (j & Hj & Hjp). exists j. split; [done|]. by apply lookup_app_l_Some.
    + destruct (i - length s.2) as [|k] eqn:Hk; [|done]. injection Hx as <-.
      destruct (proj1 (list_elem_of_lookup _ _) (Hp p Hr)) as [j Hj]. exists j.
      split; [apply lookup_lt_Some in Hj; lia|]. by apply lookup_app_l_Some.
Qed.

Lemma collect_ok fuel id s path :
  is_Some (es !! id) → collected s → NoDup path →
  (∀ i, i ∈ path → is_Some (es !! i) ∧ tc (requires es) i id) →
  size es ≤ length path + fuel →
  ∃ s', collect_profile_closure fuel es id s = Ok s' ∧ collected s' ∧ id ∈ s'.2 ∧
    (∀ i, i ∈ s.2 → i ∈ s'.2) ∧ (∀ i, i ∈ s'.2 → i ∈ s.2 ∨ rtc (requires es) id i).
Proof.
  revert id s path. induction fuel as [|fuel IH]; intros id s path Hid Hs Hnd Hpath Hle.
  all: assert (id ∉ path) as Hn by (intros Hi; apply (acyclic id), Hpath, Hi).
  all: destruct (path_fuel es path id _ Hnd (λ i Hi, proj1 (Hpath i Hi)) Hn Hid Hle) as (f & Hf & Hle');
    simplify_eq.
  cbn [collect_profile_closure]. destruct Hid as [e He]. rewrite He.
  case_bool_decide as Hseen.
  { exists s. split_and!; auto. by apply Hs. }
  assert (id ∉ s.2) as Hseen' by (by rewrite <-(proj1 Hs)).
  destruct (pfd_parent_profile (pfe_descriptor e)) as [p|] eqn:Hp.
  - assert (requires es id (pf_profile_id p)) as Hr by (by exists e, p).
    destruct (IH (pf_profile_id p) s (id :: path)) as (s2 & -> & Hs2 & Hin & Hkeep & Hnew);
      [by eapply resolved|done|by constructor| |done|].
    { intros i [->|Hi]%elem_of_cons; [by split; [exists e|apply tc_once]|].
      destruct (Hpath i Hi). split; [done|]. by eapply tc_r. }
    eexists. split; [reflexivity|]. cbn [fst snd]. split_and!.
    + apply collected_snoc; [done| |by exists e|].
      * intros [Hi|Ht]%Hnew; [done|]. by eapply acyclic, requires_tc.
      * intros q (e' & p' & He' & Hp' & <-). rewrite He in He'. injection He' as <-.
        rewrite Hp in Hp'. by injection Hp' as <-.
    + apply elem_of_app. right. by apply list_elem_of_singleton.
    + intros i Hi. apply elem_of_app. left. by apply Hkeep.
    + intros i [[Hi|Ht]%Hnew| ->%list_elem_of_singleton]%elem_of_app; [by left| |by right].
      right. by eapply rtc_l.
  - eexists. split; [reflexivity|]. cbn [fst snd]. split_and!.
    + apply collected_snoc; [done|done|by exists e|].
      intros q (e' & p' & He' & Hp' & <-). rewrite He in He'. injection He' as <-.
      by rewrite Hp in Hp'.
    + apply elem_of_app. right. by apply list_elem_of_singleton.
    + intros i Hi. apply elem_of_app. by left.
    + intros i [Hi| ->%list_elem_of_singleton]%elem_of_app; [by left|by right].
Qed.

Lemma collect_unknown fuel id s :
  es !! id = None → collect_profile_closure fuel es id s = Err ProfileNotFound.
Proof. intros Hid. destruct fuel; cbn [collect_profile_closure]; by rewrite Hid. Qed.

Lemma collected_closed s x y :
  collected s → x ∈ s.2 → rtc (requires es) x y → y ∈ s.2.
Proof.
  intros (_ & _ & _ & Hf) Hx Ht. induction Ht as [|x p y Hr _ IH]; [done|]. apply IH.
  apply list_elem_of_lookup in Hx as [i Hi]. destruct (Hf i x p Hi Hr) as (j & _ & Hj).
  by eapply list_elem_of_lookup_2.
Qed.

Lemma closures_ok ids s :
  (∀ id, id ∈ ids → is_Some (es !! id)) → collected s →
  ∃ s', fold_result (λ s id, collect_profile_closure (graph_fuel es) es id s) s ids = Ok s' ∧
    collected s' ∧
    ∀ i, i ∈ s'.2 ↔ i ∈ s.2 ∨ ∃ id, id ∈ ids ∧ rtc (requires es) id i.
Proof.
  revert s. induction ids as [|id ids IH]; intros s Hids Hs; cbn [fold_result].
  - exists s. split_and!; [done|done|]. intros i. split; [by left|].
    intros [?|(? & []%elem_of_nil & _)]. done.
  - destruct (collect_ok (graph_fuel es) id s []) as (s1 & -> & Hs1 & Hid & Hkeep & Hnew).
    + apply Hids. by left.
    + done.
    + constructor.
    + by intros i Hi%elem_of_nil.
    + unfold graph_fuel. simpl. lia.
    + destruct (IH s1) as (s' & -> & Hs' & Hin); [intros; apply Hids; by right|done|].
      exists s'. split_and!; [done|done|]. intros i. rewrite Hin. split.
      * intros [[Hi|Ht]%Hnew|(x & Hx & Ht)]; [by left|right..].
        -- exists id. split; [by left|done].
        -- exists x. split; [by right|done].
      * intros [Hi|(x & [->|Hx]%elem_of_cons & Ht)].
        -- left. by apply Hkeep.
        -- left. by eapply collected_closed.
        -- right. by exists x.
Qed.

(** The closures of a selection: known identifiers are collected with all
    their ancestors, an unknown one is an error. *)
Lemma collect_closures_spec ids :
  match collect_closures es ids with
  | Ok s => collected s ∧ (∀ id, id ∈ ids → is_Some (es !! id)) ∧
            ∀ i, i ∈ s.2 ↔ ∃ id, id ∈ ids ∧ rtc (requires es) id i
  | Err e => e = ProfileNotFound ∧ ∃ id, id ∈ ids ∧ es !! id = None
  end.
Proof.
  assert (collected (∅, [])) as H0.
  { unfold collected, parents_first. simpl. split_and!; [set_solver|constructor| |done].
    by intros i Hi%elem_of_nil. }
  destruct (decide (Forall (λ id, is_Some (es !! id)) ids)) as [Hall|Hno].
  - rewrite Forall_forall in Hall. destruct (closures_ok ids (∅, []) Hall H0) as (s & Hs & Hc & Hin).
    unfold collect_closures. rewrite Hs. split_and!; [done|done|]. intros i. rewrite Hin. simpl.
    rewrite elem_of_nil. naive_solver.
  - apply not_Forall_Exists in Hno; [|apply _].
    unfold collect_closures. revert H0. generalize ((∅, []) : closure_state) as s.
    induction ids as [|id ids IH]; intros s Hs; [by inversion Hno|]. cbn [fold_result].
    destruct (es !! id) as [e|] eqn:He.
    + apply Exists_cons in Hno as [Hno|Hno]; [by destruct Hno; exists e|].
      destruct (collect_ok (graph_fuel es) id s []) as (s1 & -> & Hs1 & _);
        [by exists e|done|constructor|by intros i Hi%elem_of_nil|unfold graph_fuel; simpl; lia|].
      specialize (IH Hno s1 Hs1). destruct (fold_result _ s1 ids).
      * destruct IH as (? & Hk & ?). apply Exists_exists in Hno as (x & Hx & Hnx).
        by destruct Hnx; apply Hk.
      * destruct IH as (-> & x & Hx & Hn). split; [done|]. exists x. split; [by right|done].
    + rewrite (collect_unknown _ _ _ He). split; [done|]. exists id. split; [by left|done].
Qed.
End closure.

(** ** Resolutions *)

Lemma foldl_insert_lookup {A} (key : A → string) (l : list A) (m0 : gmap string A) k a :
  NoDup (map key l) → (∀ x, x ∈ l → m0 !! key x = None) →
  foldl (λ m x, <[key x := x]> m) m0 l !! k = Some a ↔ (a ∈ l ∧ key a = k) ∨ m0 !! k = Some a.
Proof.
  revert m0. induction l as [|x l IH]; intros m0 Hnd Hnew; simpl.
  - rewrite elem_of_nil. naive_solver.
  - apply NoDup_cons in Hnd as [Hn Hnd]. rewrite IH, elem_of_cons, lookup_insert_Some; [|done|].
    + pose proof (Hnew x (list_elem_of_here _ _)) as Hx. clear IH Hnew.
      destruct (decide (key x = k)) as [<-|Hne]; [rewrite Hx; naive_solver|naive_solver].
    + intros y Hy. apply lookup_insert_None. split; [apply Hnew; by right|].
      intros Heq. apply Hn. rewrite Heq. by apply list_elem_of_fmap_2.
Qed.

Lemma strongest_spec {A} `{CmpLaws A} (start : A) f d ds :
  (∀ x, cmp_leb start x = true) →
  (∀ d', d' ∈ d :: ds → cmp_leb (f d') (strongest start f (d :: ds)) = true) ∧
  ∃ d', d' ∈ d :: ds ∧ f d' = strongest start f (d :: ds).
Proof.
  intros Hmin. unfold strongest. simpl. assert (cmp_max start (f d) = f d) as -> by (unfold cmp_max; by rewrite Hmin).
  assert (∀ a, cmp_leb a (fold_left (λ a d, cmp_max a (f d)) ds a) = true ∧
    (∀ d', d' ∈ ds → cmp_leb (f d') (fold_left (λ a d, cmp_max a (f d)) ds a) = true) ∧
    (fold_left (λ a d, cmp_max a (f d)) ds a = a ∨
     ∃ d', d' ∈ ds ∧ f d' = fold_left (λ a d, cmp_max a (f d)) ds a)) as Hmax.
  { clear Hmin. induction ds as [|d1 ds IH]; intros a; simpl.
    - split_and!; [apply cmp_leb_refl|by intros ? ?%elem_of_nil|by left].
    - destruct (IH (cmp_max a (f d1))) as (Hle & Hall & Hatt).
      assert (cmp_leb a (cmp_max a (f d1)) = true ∧ cmp_leb (f d1) (cmp_max a (f d1)) = true) as [Ha Hd1].
      { unfold cmp_max. destruct (cmp_leb a (f d1)) eqn:Hc; split; try done; try apply cmp_leb_refl.
        by apply cmp_leb_total. }
      split_and!; [by eapply cmp_leb_trans| |].
      + intros d' [->|Hd]%elem_of_cons; [by eapply cmp_leb_trans|by apply Hall].
      + destruct Hatt as [->|(d' & Hd & Heq)]; [|right; exists d'; by split; [right|]].
        unfold cmp_max. destruct (cmp_leb a (f d1)); [right; exists d1; split; [by left|done]|by left]. }
  destruct (Hmax (f d)) as (Hle & Hall & Hatt). split.
  - intros d' [->|Hd]%elem_of_cons; [done|by apply Hall].
  - destruct Hatt as [Heq|(d' & Hd & Heq)]; [exists d|exists d']; by split; [constructor|].
Qed.

Section resolution.
Context `{Platform}.
Implicit Types (c : DevelopmentProfileCatalogSnapshotV1) (r : DevelopmentProfileResolutionV1).

Lemma holds_entries m c :
  holds_catalog m c →
  (∀ k e, entry_map c !! k = Some e ↔ e ∈ pfc_entries c ∧ pf_profile_id (pfe_profile_ref e) = k) ∧
  (∀ k d, m !! k = Some d ↔ ∃ e, entry_map c !! k = Some e ∧ pfe_descriptor e = d).
Proof.
  intros (Hm & Hids & _ & Hds & He).
  assert (map (λ e, pf_profile_id (pfe_profile_ref e)) (pfc_entries c)
          = map pfd_profile_id (map pfe_descriptor (pfc_entries c))) as Hkeys.
  { rewrite map_map. apply map_ext_in. intros e Hin%list_elem_of_In. by destruct (He e Hin) as [-> _]. }
  assert (map pfd_profile_id (map snd (btree_entries m)) = map fst (btree_entries m)) as Hfst.
  { rewrite map_map. apply map_ext_in. intros [k d] Hin%list_elem_of_In.
    apply elem_of_btree_entries, Hm in Hin. by destruct Hin. }
  assert (∀ k e, entry_map c !! k = Some e ↔
    e ∈ pfc_entries c ∧ pf_profile_id (pfe_profile_ref e) = k) as Hes.
  { intros k e. unfold entry_map. rewrite (foldl_insert_lookup (λ e, pf_profile_id (pfe_profile_ref e))).
    - rewrite lookup_empty. naive_solver.
    - rewrite Hkeys, Hds, Hfst. apply strict_NoDup, btree_keys_strict.
    - intros x _. apply lookup_empty. }
  split; [done|]. intros k d. split.
  - intros Hk. assert (d ∈ map pfe_descriptor (pfc_entries c)) as Hd.
    { rewrite Hds. apply list_elem_of_fmap. exists (k, d). by rewrite elem_of_btree_entries. }
    apply list_elem_of_fmap in Hd as (e & -> & Hin). exists e. split; [|done].
    apply Hes. split; [done|]. destruct (He e Hin) as [-> _]. simpl. by apply Hm in Hk as [-> _].
  - intros (e & [Hin <-]%Hes & <-). destruct (He e Hin) as [-> _]. simpl.
    assert (pfe_descriptor e ∈ map snd (btree_entries m)) as Hd by (rewrite <-Hds; by apply list_elem_of_fmap_2).
    apply list_elem_of_fmap in Hd as ([k d] & Hd & Hk). simpl in Hd. rewrite Hd.
    apply elem_of_btree_entries in Hk. by destruct (Hm k d Hk) as [-> _].
Qed.

Lemma holds_requires m c x y :
  holds_catalog m c → is_parent m x y ↔ requires (entry_map c) x y.
Proof.
  intros Hc. destruct (holds_entries _ _ Hc) as [_ Hm]. unfold is_parent, parent_id, requires. split.
  - destruct (m !! x) as [d|] eqn:Hd; [|done]. simpl. intros Hp.
    destruct (pfd_parent_profile d) as [p|] eqn:Hp'; [|done]. injection Hp as <-.
    apply Hm in Hd as (e & He & <-). by exists e, p.
  - intros (e & p & He & Hp & <-). assert (m !! x = Some (pfe_descriptor e)) as -> by (apply Hm; by exists e).
    simpl. by rewrite Hp.
Qed.

(** The entries of a catalog that validates: closed and without a cycle. *)
Lemma validated_entries c :
  validate_catalog c = Ok tt →
  (∀ k e, entry_map c !! k = Some e → pfe_profile_ref e = descriptor_ref (pfe_descriptor e) ∧
                                       pfd_profile_id (pfe_descriptor e) = k) ∧
  (∀ k, is_Some (entry_map c !! k) ↔ k ∈ BUILTIN_DEVELOPMENT_PROFILE_IDS) ∧
  (∀ x y, requires (entry_map c) x y → is_Some (entry_map c !! y)) ∧
  (∀ x, ¬ tc (requires (entry_map c)) x x).
Proof.
  intros (m & Hc)%validate_catalog_holds. destruct (holds_entries _ _ Hc) as [Hes Hm].
  pose proof Hc as (_ & Hids & Hg & _ & He). apply parent_graph_ok in Hg as [Hr Hac]. split_and!.
  - intros k e Hk. apply Hes in Hk as [Hin <-]. destruct (He e Hin) as [-> _]. done.
  - intros k. rewrite <-Hids, parent_keys. split.
    + intros [e Hk]. exists (pfe_descriptor e). apply Hm. by exists e.
    + intros [d (e & Hk & _)%Hm]. by exists e.
  - intros x y Hxy%(holds_requires m). 2: done. apply resolved_parent in Hxy as [d (e & Hk & _)%Hm]; [|done].
    by exists e.
  - intros x Ht. apply (grounded_no_cycle m x (Hac x)). clear Hac.
    assert (∀ a b, tc (requires (entry_map c)) a b → tc (is_parent m) a b) as Htc.
    { intros a b. induction 1 as [a b Hab|a p b Hap _ IH]; [by apply tc_once, holds_requires with c|].
      eapply tc_l; [by eapply holds_requires|done]. }
    by apply Htc.
Qed.

(** The descriptors a selection asks for: its own and those of all ancestors. *)
Definition asked_for c (ids : list string) (d : DevelopmentProfileDescriptorV1) : Prop :=
  ∃ id e, id ∈ ids ∧ rtc (requires (entry_map c)) id (pfd_profile_id d) ∧
          entry_map c !! pfd_profile_id d = Some e ∧ pfe_descriptor e = d.

Definition gathers {A} c ids (f : DevelopmentProfileDescriptorV1 → list A) (out : list A) : Prop :=
  ∀ x, x ∈ out ↔ ∃ d, asked_for c ids d ∧ x ∈ f d.

Definition is_strongest {A} `{Cmp A} c ids (f : DevelopmentProfileDescriptorV1 → A) (out : A) : Prop :=
  (∀ d, asked_for c ids d → cmp_leb (f d) out = true) ∧ ∃ d, asked_for c ids d ∧ f d = out.

(** How a resolution comes about. *)
Lemma resolve_parts c ids r :
  resolve_development_profiles c ids = Ok r →
  validate_catalog c = Ok tt ∧ ids ≠ [] ∧ NoDup ids ∧
  ∃ s selected u h,
    collect_closures (entry_map c) (sort_dedup ids) = Ok s ∧
    selected_refs (entry_map c) (sort_dedup ids) = Ok selected ∧
    u = unsealed_resolution c selected
               (map pfe_profile_ref (entries_of (entry_map c)
                  (List.filter (λ id, negb (mem id (sort_dedup ids))) s.2)))
               (entries_of (entry_map c) s.2) ∧
    resolution_fingerprint u = Ok h ∧ r = with_resolution_fingerprint u h.
Proof.
  unfold resolve_development_profiles. intros Hr. err_cases Hr. bool_to_prop.
  split; [done|]. split; [by intros ->|]. split.
  { apply sort_dedup_length_NoDup. unfold len in *. lia. }
  injection Hr as <-. eexists _, _, _, _. split_and!; done.
Qed.

Lemma resolved_catalog c ids r :
  resolve_development_profiles c ids = Ok r →
  ∀ k e, entry_map c !! k = Some e → pfe_profile_ref e = descriptor_ref (pfe_descriptor e) ∧
                                      pfd_profile_id (pfe_descriptor e) = k.
Proof. intros (Hv & _)%resolve_parts. by apply validated_entries. Qed.

Lemma entries_of_spec c order :
  (∀ i, i ∈ order → is_Some (entry_map c !! i)) → validate_catalog c = Ok tt →
  map (λ e, pf_profile_id (pfe_profile_ref e)) (entries_of (entry_map c) order) = order ∧
  ∀ e, e ∈ entries_of (entry_map c) order ↔ ∃ i, i ∈ order ∧ entry_map c !! i = Some e.
Proof.
  intros Hin (Hk & _)%validated_entries. split.
  - unfold entries_of. induction order as [|i order IH]; [done|]. simpl.
    destruct (Hin i (list_elem_of_here _ _)) as [e He]. rewrite He. simpl. f_equal.
    + destruct (Hk i e He) as [-> <-]. done.
    + apply IH. intros j Hj. apply Hin. by right.
  - intros e. unfold entries_of. rewrite list_elem_of_omap. naive_solver.
Qed.

Lemma gathered_spec {A} `{EqDecision A, CmpLaws A} c ids (f : DevelopmentProfileDescriptorV1 → list A) ds :
  (∀ d, d ∈ ds ↔ asked_for c ids d) → gathers c ids f (gathered f ds).
Proof.
  intros Hds x. unfold gathered. rewrite elem_of_sort_dedup, list_elem_of_In, in_flat_map.
  setoid_rewrite <-list_elem_of_In. by setoid_rewrite Hds.
Qed.

Lemma strongest_asked {A} `{CmpLaws A} c ids (start : A) f ds :
  (∀ d, d ∈ ds ↔ asked_for c ids d) → ds ≠ [] → (∀ x, cmp_leb start x = true) →
  is_strongest c ids f (strongest start f ds).
Proof.
  intros Hds Hne Hmin. destruct ds as [|d ds]; [done|].
  destruct (strongest_spec start f d ds Hmin) as [Hall (d' & Hd & Heq)].
  split; [intros; by apply Hall, Hds|]. exists d'. by rewrite <-Hds.
Qed.

(** The descriptors of what was collected are those asked for. *)
Lemma closure_descriptors c ids s :
  validate_catalog c = Ok tt → collect_closures (entry_map c) (sort_dedup ids) = Ok s →
  collected (entry_map c) s ∧ (∀ i, i ∈ s.2 ↔ ∃ id, id ∈ ids ∧ rtc (requires (entry_map c)) id i) ∧
  ∀ d, d ∈ map pfe_descriptor (entries_of (entry_map c) s.2) ↔ asked_for c ids d.
Proof.
  intros Hv Hs. destruct (validated_entries c Hv) as (Hk & _ & Hcl & Hac).
  pose proof (collect_closures_spec _ Hcl Hac (sort_dedup ids)) as Hsp. rewrite Hs in Hsp.
  destruct Hsp as (Hc & _ & Hin). setoid_rewrite elem_of_sort_dedup in Hin.
  split; [done|]. split; [done|]. intros d.
  destruct (entries_of_spec c s.2) as [_ He]; [by apply Hc|done|].
  rewrite list_elem_of_fmap. unfold asked_for. split.
  - intros (e & -> & (i & Hi & Hie)%He). apply Hin in Hi as (id & Hid & Ht).
    destruct (Hk i e Hie) as [_ <-]. by exists id, e.
  - intros (id & e & Hid & Ht & Hie & Hd). exists e. split; [done|]. apply He.
    exists (pfd_profile_id d). split; [|done]. apply Hin. by exists id.
Qed.

(** The names of the profiles a resolution rests on, in their order. *)
Definition resolved_names r : list string :=
  map (λ d, pf_profile_id (pdf_profile_ref d)) (pfr_definition_refs r).

(** C12: a resolution rests on exactly the selected profiles and all their
    ancestors, each once and after its own parent; its parent closure lists
    those that were not selected. *)
Theorem resolution_closure_exact c ids r :
  resolve_development_profiles c ids = Ok r →
  NoDup (resolved_names r) ∧
  (∀ i, i ∈ resolved_names r ↔ ∃ id, id ∈ ids ∧ rtc (requires (entry_map c)) id i) ∧
  parents_first (entry_map c) (resolved_names r) ∧
  map pf_profile_id (pfr_selected_profiles r) = sort_dedup ids ∧
  map pf_profile_id (pfr_parent_closure r)
  = List.filter (λ i, negb (mem i ids)) (resolved_names r).
Proof.
  intros (Hv & Hne & Hnd & s & selected & u & h & Hs & Hsel & -> & Hh & ->)%resolve_parts.
  destruct (closure_descriptors c ids s Hv Hs) as (Hc & Hin & _).
  assert (∀ a b, resolved_names (with_resolution_fingerprint (unsealed_resolution c a b
    (entries_of (entry_map c) s.2)) h) = s.2) as Hnames.
  { intros a b. unfold resolved_names. simpl. rewrite map_map. by apply entries_of_spec; [apply Hc|]. }
  rewrite !Hnames. split_and!; [apply Hc|done|apply Hc| |].
  - simpl. apply map_result_Forall2 in Hsel. destruct (validated_entries c Hv) as [Hk _].
    clear -Hsel Hk. induction Hsel as [|i p l l' Hi _ IH]; [done|]. simpl. rewrite IH. f_equal.
    apply ok_or_Ok in Hi. destruct (entry_map c !! i) as [e|] eqn:He; [|done]. injection Hi as <-.
    destruct (Hk i e He) as [-> <-]. done.
  - simpl. rewrite map_map.
    destruct (entries_of_spec c (List.filter (λ id, negb (mem id (sort_dedup ids))) s.2)) as [Hm _].
    + intros i Hi%list_elem_of_In%filter_In. apply Hc, list_elem_of_In, Hi.
    + done.
    + rewrite Hm. apply filter_ext. intros i. f_equal. apply eq_iff_eq_true.
      by rewrite !mem_true, elem_of_sort_dedup.
Qed.

(** A resolution, by the entries of its closure. *)
Lemma resolved_closure c ids r :
  resolve_development_profiles c ids = Ok r →
  ∃ selected parents closure h,
    (∀ d, d ∈ map pfe_descriptor closure ↔ asked_for c ids d) ∧
    map pfe_descriptor closure ≠ [] ∧
    r = with_resolution_fingerprint (unsealed_resolution c selected parents closure) h ∧
    resolution_fingerprint (unsealed_resolution c selected parents closure) = Ok h ∧
    selected_refs (entry_map c) (sort_dedup ids) = Ok selected ∧
    NoDup (map (λ e, pf_profile_id (pfe_profile_ref e)) closure) ∧
    ∀ id, id ∈ ids → ∃ e, entry_map c !! id = Some e ∧ e ∈ closure.
Proof.
  intros (Hv & Hne & Hnd & s & selected & u & h & Hs & Hsel & -> & Hh & ->)%resolve_parts.
  destruct (closure_descriptors c ids s Hv Hs) as (Hc & Hin & Hds).
  destruct (entries_of_spec c s.2) as [Hnames Hes]; [apply Hc|done|].
  assert (∀ id, id ∈ ids → ∃ e, entry_map c !! id = Some e ∧ e ∈ entries_of (entry_map c) s.2) as Hsel'.
  { intros id Hid. assert (id ∈ s.2) as Hi by (apply Hin; by exists id).
    destruct (proj1 (proj2 (proj2 Hc)) id Hi) as [e He]. exists e. rewrite Hes. eauto. }
  eexists _, _, _, h. split_and!; [exact Hds| |reflexivity|exact Hh|exact Hsel| |exact Hsel'].
  - destruct ids as [|id ids]; [done|]. destruct (Hsel' id) as (e & _ & He); [by left|].
    by destruct (entries_of (entry_map c) s.2); [apply elem_of_nil in He|].
  - rewrite Hnames. apply Hc.
Qed.

(** C11: every list of a resolution is the union over exactly the profiles asked
    for, selected or inherited, and every floor the strongest any of them
    demands: nothing is lost on the way and nothing is added. *)
Theorem resolution_requires_exactly c ids r :
  resolve_development_profiles c ids = Ok r →
  (gathers c ids pfd_triggers (pfr_triggers r) ∧
   gathers c ids pfd_stage_template (pfr_stage_refs r) ∧
   gathers c ids pfd_context_rules (pfr_context_rules r) ∧
   gathers c ids pfd_route_hints (pfr_route_hints r) ∧
   gathers c ids pfd_permission_actions (pfr_permission_actions r) ∧
   gathers c ids pfd_gate_phases (pfr_gate_phases r) ∧
   gathers c ids pfd_required_rule_families (pfr_required_rule_families r) ∧
   gathers c ids pfd_required_check_families (pfr_required_check_families r) ∧
   gathers c ids pfd_optional_check_families (pfr_optional_check_families r) ∧
   gathers c ids pfd_always_run_for (pfr_always_run_for r) ∧
   gathers c ids pfd_claim_policy (pfr_claim_policy r) ∧
   gathers c ids pfd_evidence_requirements (pfr_evidence_requirements r) ∧
   gathers c ids pfd_corpus_requirements (pfr_corpus_requirements r) ∧
   gathers c ids pfd_approval_checkpoints (pfr_approval_checkpoints r) ∧
   gathers c ids pfd_allowed_effect_classes (pfr_allowed_effect_classes r)) ∧
  (gathers c ids (λ d, [pfd_default_stop_state d]) (pfr_default_stop_states r) ∧
   gathers c ids (λ d, [pfd_unknown_outcome_policy d]) (pfr_unknown_outcome_policies r) ∧
   gathers c ids (λ d, [pfd_rollback_policy d]) (pfr_rollback_policies r)) ∧
  (is_strongest c ids pfd_baseline_policy (pfr_baseline_policy r) ∧
   is_strongest c ids pfd_suppression_policy (pfr_suppression_policy r) ∧
   is_strongest c ids pfd_stability_policy (pfr_stability_policy r) ∧
   is_strongest c ids (rvp_cli_only ∘ pfd_review_policy) (rvp_cli_only (pfr_review_policy r)) ∧
   is_strongest c ids (rvp_codex_managed ∘ pfd_review_policy)
     (rvp_codex_managed (pfr_review_policy r)) ∧
   is_strongest c ids pfd_permission_floor (pfr_permission_floor r)).
Proof.
  intros (selected & parents & closure & h & Hds & Hsome & -> & _)%resolved_closure.
  split; [|split]; [split_and!; by apply gathered_spec..|].
  split_and!; (apply strongest_asked; [exact Hds|exact Hsome|]); by intros [].
Qed.

Lemma asked_for_mono c ids ids' d : ids ⊆ ids' → asked_for c ids d → asked_for c ids' d.
Proof. intros Hsub (id & e & Hid & Hrest). exists id, e. split; [by apply Hsub|done]. Qed.
Lemma resolve_perm c ids ids' :
  ids ≡ₚ ids' → resolve_development_profiles c ids = resolve_development_profiles c ids'.
Proof.
  intros Hp. unfold resolve_development_profiles.
  assert (sort_dedup ids = sort_dedup ids') as ->.
  { apply sort_dedup_eq. intros x. by rewrite Hp. }
  assert (len ids = len ids') as -> by (unfold len; by rewrite Hp).
  assert (no_items ids = no_items ids') as ->; [|done].
  destruct ids, ids'; try done; by apply Permutation_length in Hp.
Qed.

Lemma selected_refs_total c ids :
  (∀ i, i ∈ ids → is_Some (entry_map c !! i)) → ∃ refs, selected_refs (entry_map c) ids = Ok refs.
Proof.
  unfold selected_refs. induction ids as [|i ids IH]; intros Hin; [by exists []|]. simpl.
  destruct (Hin i (list_elem_of_here _ _)) as [e ->]. simpl.
  destruct IH as [refs ->]; [intros; apply Hin; by right|]. by eexists.
Qed.

Lemma gathered_mono {A} c ids ids' f (out out' : list A) :
  ids ⊆ ids' → gathers c ids f out → gathers c ids' f out' → out ⊆ out'.
Proof.
  intros Hsub Hg Hg' x (d & Hd & Hx)%Hg. apply Hg'. exists d. split; [by eapply asked_for_mono|done].
Qed.

Lemma strongest_mono {A} `{Cmp A} c ids ids' f (out out' : A) :
  ids ⊆ ids' → is_strongest c ids f out → is_strongest c ids' f out' → cmp_leb out out' = true.
Proof. intros Hsub (_ & d & Hd & <-) [Hall _]. by eapply Hall, asked_for_mono. Qed.

(** Selecting more profiles never loosens what is required: no gate phase,
    rule, check, evidence or approval checkpoint disappears and no floor sinks; and
    the order of the selection does not matter. *)
Theorem larger_selection_is_stricter c ids ids' r r' :
  resolve_development_profiles c ids = Ok r →
  resolve_development_profiles c ids' = Ok r' →
  ids ⊆ ids' →
  (pfr_gate_phases r ⊆ pfr_gate_phases r' ∧
   pfr_required_rule_families r ⊆ pfr_required_rule_families r' ∧
   pfr_required_check_families r ⊆ pfr_required_check_families r' ∧
   pfr_evidence_requirements r ⊆ pfr_evidence_requirements r' ∧
   pfr_approval_checkpoints r ⊆ pfr_approval_checkpoints r') ∧
  (cmp_leb (pfr_baseline_policy r) (pfr_baseline_policy r') = true ∧
   cmp_leb (rvp_cli_only (pfr_review_policy r)) (rvp_cli_only (pfr_review_policy r')) = true ∧
   cmp_leb (rvp_codex_managed (pfr_review_policy r))
     (rvp_codex_managed (pfr_review_policy r')) = true ∧
   cmp_leb (pfr_permission_floor r) (pfr_permission_floor r') = true) ∧
  (ids ≡ₚ ids' → r = r').
Proof.
  intros Hr Hr' Hsub. split; [|split].
  - apply resolved_closure in Hr as (? & ? & cl & ? & Hds & _ & -> & _).
    apply resolved_closure in Hr' as (? & ? & cl' & ? & Hds' & _ & -> & _).
    split_and!; (eapply (gathered_mono c ids ids'); [done|by apply gathered_spec..]).
  - apply resolved_closure in Hr as (? & ? & cl & ? & Hds & Hne & -> & _).
    apply resolved_closure in Hr' as (? & ? & cl' & ? & Hds' & Hne' & -> & _).
    split_and!; (eapply (strongest_mono c ids ids');
      [done|apply (strongest_asked _ _ _ _ _ Hds Hne)|apply (strongest_asked _ _ _ _ _ Hds' Hne')]);
      by intros [].
  - intros Hp. rewrite (resolve_perm c ids ids' Hp) in Hr. rewrite Hr in Hr'. by injection Hr'.
Qed.

(** Over a catalog that validates, a selection is refused for three reasons
    only - its size, a repetition, a profile that is not built in - and every
    other selection is resolved as soon as it can be hashed. *)
Theorem selection_refusals_exact c ids :
  validate_catalog c = Ok tt →
  match resolve_development_profiles c ids with
  | Ok _ => ids ≠ [] ∧ NoDup ids ∧ ids ⊆ BUILTIN_DEVELOPMENT_PROFILE_IDS
  | Err ProfileInvalid => ids = [] ∨ (16 < length ids)%nat
  | Err ProfileDuplicate => ¬ NoDup ids
  | Err ProfileNotFound => ∃ i, i ∈ ids ∧ i ∉ BUILTIN_DEVELOPMENT_PROFILE_IDS
  | Err e => e = ProfileFingerprint ∧ ids ≠ [] ∧ NoDup ids ∧ ids ⊆ BUILTIN_DEVELOPMENT_PROFILE_IDS
  end.
Proof.
  intros Hv. destruct (validated_entries c Hv) as (Hk & Hids & Hcl & Hac).
  unfold resolve_development_profiles. rewrite Hv.
  destruct (no_items ids || _) eqn:Hsize.
  { apply orb_true_iff in Hsize as [Hn%no_items_spec|Hn]; [by left|right].
    apply N.ltb_lt in Hn. unfold len in Hn. change (length BUILTIN_DEVELOPMENT_PROFILE_IDS) with 16 in Hn. lia. }
  apply orb_false_iff in Hsize as [Hne _].
  assert (ids ≠ []) as Hne' by (by intros ->).
  destruct (negb _) eqn:Hd.
  { intros Hnd. unfold len in Hd. rewrite (Permutation_length (sort_dedup_NoDup_perm ids Hnd)), N.eqb_refl in Hd.
    done. }
  assert (NoDup ids) as Hnd.
  { apply sort_dedup_length_NoDup. bool_to_prop. unfold len in Hd. lia. }
  pose proof (collect_closures_spec _ Hcl Hac (sort_dedup ids)) as Hsp.
  destruct (collect_closures _ _) as [s|e].
  - destruct Hsp as (Hc & Hin & Hs). setoid_rewrite elem_of_sort_dedup in Hin.
    assert (ids ⊆ BUILTIN_DEVELOPMENT_PROFILE_IDS) as Hsub by (intros i Hi; exact (proj1 (Hids i) (Hin i Hi))).
    destruct (selected_refs_total c (sort_dedup ids)) as [refs ->].
    { intros i Hi. rewrite elem_of_sort_dedup in Hi. exact (Hin i Hi). }
    destruct (resolution_fingerprint _) as [h|e] eqn:Hh; [done|].
    unfold resolution_fingerprint in Hh. destruct (canonical_sha256 _); [done|]. by injection Hh as <-.
  - destruct Hsp as (-> & i & Hi & Hn). rewrite elem_of_sort_dedup in Hi. exists i. split; [done|].
    rewrite <-Hids, Hn. by intros [].
Qed.
End resolution.

(** ** The profile of a stage *)

Section binding.
Context `{Platform}.

Lemma filter_unique {A K} (key : A → K) (p : A → bool) (x : A) l :
  NoDup (map key l) → x ∈ l → p x = true → (∀ y, p y = true → key y = key x) →
  List.filter p l = [x].
Proof.
  intros Hnd Hin Hpx Hkey. induction l as [|y l IH]; [by apply elem_of_nil in Hin|].
  apply NoDup_cons in Hnd as [Hn Hnd]. simpl. apply elem_of_cons in Hin as [<-|Hin].
  - rewrite Hpx. f_equal. clear -Hn Hkey. induction l as [|z l IH]; [done|]. simpl.
    simpl in Hn. rewrite not_elem_of_cons in Hn. destruct Hn as [Hz Hn].
    destruct (p z) eqn:Hp; [by destruct Hz; rewrite (Hkey z Hp)|by apply IH].
  - destruct (p y) eqn:Hp; [|by apply IH]. destruct Hn.
    change (key y ∈ map key l). rewrite (Hkey y Hp). by apply list_elem_of_fmap_2.
Qed.

(** The five fields a binding sets. *)
Lemma with_profile_self (s : StageSpecV1) profile definition r :
  with_profile s profile definition r = s ↔
  pf_profile_id profile = ss_work_profile_id s ∧
  pf_profile_version profile = ss_work_profile_version s ∧
  ss_profile_catalog_fingerprint s = Some (pfr_catalog_fingerprint r) ∧
  ss_profile_resolution_fingerprint s = Some (pfr_profile_resolution_fingerprint r) ∧
  ss_work_profile_definition_hash s = Some definition.
Proof.
  split.
  - intros Heq. pose proof (f_equal ss_work_profile_id Heq). pose proof (f_equal ss_work_profile_version Heq).
    pose proof (f_equal ss_profile_catalog_fingerprint Heq).
    pose proof (f_equal ss_profile_resolution_fingerprint Heq).
    pose proof (f_equal ss_work_profile_definition_hash Heq). done.
  - destruct s. unfold with_profile. simpl. intros (-> & -> & -> & -> & ->). done.
Qed.

(** A stage verifies against a resolution exactly when binding it again
    would change nothing: the test covers every field that the binding sets, and
    refuses every resolution that cannot be bound. *)
Theorem binding_is_exact s r :
  verify_profile_binding s r = Ok tt ↔ bind_profile_resolution s r = Ok s.
Proof.
  unfold verify_profile_binding, bind_profile_resolution.
  destruct (validate_resolution r) as [[]|]; simpl; [|done].
  destruct (pfr_selected_profiles r) as [|profile [|? ?]]; try done.
  destruct (definition_refs_of r profile) as [|definition [|? ?]].
  - split; [|done]. intros Hv. by err_cases Hv.
  - assert (Ok (with_profile s profile (pdf_definition_hash definition) r)
            = (Ok s : result _ StageContractError) ↔
            with_profile s profile (pdf_definition_hash definition) r = s) as ->.
    { split; [by intros [=]|by intros ->]. }
    rewrite with_profile_self. split.
    + intros Hv. err_cases Hv. bool_to_prop. split_and!; done.
    + intros (-> & -> & -> & -> & ->). rewrite !String.eqb_refl, !bool_decide_true; done.
  - split; [|done]. intros Hv. by err_cases Hv.
Qed.

Lemma gathered_some {A} `{EqDecision A, CmpLaws A} (f : DevelopmentProfileDescriptorV1 → A) ds :
  ds ≠ [] → no_items (gathered (λ d, [f d]) ds) = false.
Proof.
  intros Hne. apply not_true_iff_false. rewrite no_items_spec. unfold gathered. rewrite sort_dedup_nil.
  by destruct ds.
Qed.

Lemma resolution_validates c ids r :
  ids ≠ [] → resolve_development_profiles c ids = Ok r → validate_resolution r = Ok tt.
Proof.
  intros Hids Hr. apply resolved_closure in Hr as
    (selected & parents & cl & h & _ & Hne & -> & Hh & Hsel & _).
  unfold validate_resolution. simpl. rewrite !gathered_some by done.
  assert (no_items selected = false) as ->.
  { destruct selected; [|done]. apply map_result_Forall2, Forall2_length in Hsel.
    destruct (sort_dedup ids) eqn:Hs; [|done]. by rewrite sort_dedup_nil in Hs. }
  change (resolution_fingerprint (with_resolution_fingerprint ?u ?x)) with (resolution_fingerprint u).
  rewrite Hh. simpl. by rewrite String.eqb_refl.
Qed.

(** The resolution of one profile can be bound to any stage, whatever
    ancestors it brings in, and the stage it is bound to names that profile and
    verifies against the resolution. *)
Theorem single_selection_binds c id r s :
  resolve_development_profiles c [id] = Ok r →
  ∃ s', bind_profile_resolution s r = Ok s' ∧ verify_profile_binding s' r = Ok tt ∧
        ss_work_profile_id s' = id.
Proof.
  intros Hr. pose proof (resolution_validates c [id] r ltac:(done) Hr) as Hval.
  pose proof (resolved_catalog c [id] r Hr) as Hk.
  pose proof Hr as (selected & parents & cl & h & _ & _ & -> & _ & Hsel & Hnd & Hin)%resolved_closure.
  destruct (Hin id) as (e & He & Hcl); [by left|].
  destruct (Hk id e He) as [Href <-].
  assert (selected = [pfe_profile_ref e]) as ->.
  { unfold selected_refs in Hsel. simpl in Hsel. rewrite He in Hsel. by injection Hsel. }
  set (r := with_resolution_fingerprint _ h) in *.
  assert (definition_refs_of r (pfe_profile_ref e)
          = [{| pdf_profile_ref := pfe_profile_ref e; pdf_definition_hash := pfe_definition_hash e |}]) as Hd.
  { apply (filter_unique (λ d, pf_profile_id (pdf_profile_ref d))).
    - simpl. rewrite map_map. exact Hnd.
    - simpl. apply list_elem_of_fmap. by exists e.
    - by apply bool_decide_true.
    - simpl. intros y Hy. bool_to_prop. by rewrite Hy. }
  unfold bind_profile_resolution, verify_profile_binding. rewrite Hval. simpl.
  rewrite Hd. eexists. split; [reflexivity|]. simpl. rewrite !String.eqb_refl, !bool_decide_true; [|done..].
  simpl. split; [done|]. by rewrite Href.
Qed.
End binding.

(** ** A catalog *)

Definition demo_migration : MigrationProfileMetadataV1 := {|
  mpm_target_kinds := ["t"]; mpm_invariant_families := ["i"]; mpm_strategy_floor := "s";
  mpm_backup_policy := "b"; mpm_restore_policy := "r"; mpm_rehearsal_policy := "h";
  mpm_resume_policy := "e"; mpm_destructive_policy := "d"; mpm_default_pending_action := "p" |}.

Definition demo_release : ReleaseProfileMetadataV1 := {|
  rpm_validation_layer_refs := ["v"]; rpm_release_policy_ref := "p"; rpm_target_environment_refs := [];
  rpm_package_lifecycle_refs := []; rpm_supply_chain_applicability_ref := "s";
  rpm_approval_state_policy_ref := "a"; rpm_evaluation_policy_refs := []; rpm_evaluation_contexts := [] |}.

Definition demo_rust_style : RustStyleProfileMetadataV1 := {|
  rsm_profile_kind := "rust_style_auto_fix"; rsm_pipeline_ref := "p"; rsm_toolchain_release := "1.0.0";
  rsm_default_policy := "d"; rsm_supported_policies := ["d"]; rsm_tool_role_refs := [];
  rsm_source_effect := "e"; rsm_network := "denied"; rsm_steps := ["s"]; rsm_required_gates := [];
  rsm_allowed_live_operations := []; rsm_built_in_clippy_fix_allowlist := [] |}.

(** [refactor_codemod] inherits from [architecture_quality], which inherits from
    [change_planning]; only the last demands a prompt. *)
Definition demo_parent (id : string) : option DevelopmentProfileRefV1 :=
  if String.eqb id "refactor_codemod"
  then Some {| pf_profile_id := "architecture_quality"; pf_profile_version := "2.0.0" |}
  else if String.eqb id "architecture_quality"
  then Some {| pf_profile_id := "change_planning"; pf_profile_version := "2.0.0" |}
  else None.

Definition demo_descriptor (id : string) : DevelopmentProfileDescriptorV1 := {|
  pfd_schema_version := 2; pfd_profile_id := id; pfd_profile_version := "2.0.0";
  pfd_display_name := "n"; pfd_summary := "s"; pfd_parent_profile := demo_parent id;
  pfd_triggers := ["t"]; pfd_stage_template := ["s"]; pfd_context_rules := []; pfd_route_hints := [];
  pfd_permission_actions := []; pfd_gate_phases := [PhaseStageExit];
  pfd_required_rule_families := ["r"]; pfd_required_check_families := [id];
  pfd_optional_check_families := []; pfd_always_run_for := [];
  pfd_baseline_policy := BaselineOff; pfd_suppression_policy := SuppressExact; pfd_claim_policy := [];
  pfd_stability_policy := ReportFlaky;
  pfd_review_policy := {| rvp_cli_only := ReviewNone; rvp_codex_managed := ReviewNone |};
  pfd_evidence_requirements := ["e"]; pfd_corpus_requirements := []; pfd_approval_checkpoints := [];
  pfd_default_stop_state := "d"; pfd_unknown_outcome_policy := PreserveAndStop;
  pfd_rollback_policy := RollbackNotApplicable; pfd_allowed_effect_classes := [EffectRead];
  pfd_permission_floor := if String.eqb id "change_planning" then ExactPrompt else LocalReadOnly;
  pfd_extensions := {|
    pfx_migration := if mem id ["data_config_db_migration"; "language_platform_migration";
                                "performance_build"] then Some demo_migration else None;
    pfx_release := if String.eqb id "ci_release_deploy" then Some demo_release else None;
    pfx_rust_style := if String.eqb id "rust_style_auto_fix" then Some demo_rust_style else None |} |}.

Definition demo_descriptors : list DevelopmentProfileDescriptorV1 :=
  map demo_descriptor (reverse BUILTIN_DEVELOPMENT_PROFILE_IDS).

Abbreviation demo_selection := ["refactor_codemod"].
Abbreviation demo_larger := ["refactor_codemod"; "debug_recovery"].

Lemma demo_resolves :
  match build_development_profile_catalog demo_descriptors with
  | Ok c =>
      match resolve_development_profiles c demo_selection, resolve_development_profiles c demo_larger with
      | Ok r, Ok r' =>
          resolved_names r = ["change_planning"; "architecture_quality"; "refactor_codemod"] ∧
          pfr_required_check_families r = ["architecture_quality"; "change_planning"; "refactor_codemod"] ∧
          pfr_permission_floor r = ExactPrompt ∧
          resolved_names r' = ["debug_recovery"; "change_planning"; "architecture_quality";
                               "refactor_codemod"]
      | _, _ => False
      end
  | Err _ => False
  end.
Proof. vm_compute. split_and!; reflexivity. Qed.

Lemma catalog_is_canonical_witness :
  ∃ c, build_development_profile_catalog demo_descriptors = Ok c ∧
    validate_catalog c = Ok tt ∧
    build_development_profile_catalog (reverse demo_descriptors) = Ok c.
Proof.
  pose proof demo_resolves as Hd.
  destruct (build_development_profile_catalog demo_descriptors) as [c|] eqn:Hc; [clear Hd|destruct Hd].
  exists c. split; [reflexivity|].
  destruct (catalog_is_canonical _ _ Hc) as [Hv Hp]. split; [exact Hv|].
  apply Hp. symmetry. apply reverse_Permutation.
Defined.

Lemma resolution_closure_exact_witness :
  ∃ c r, resolve_development_profiles c demo_selection = Ok r ∧
    resolved_names r = ["change_planning"; "architecture_quality"; "refactor_codemod"] ∧
    parents_first (entry_map c) (resolved_names r).
Proof.
  pose proof demo_resolves as Hd.
  destruct (build_development_profile_catalog demo_descriptors) as [c|]; [|destruct Hd].
  exists c. destruct (resolve_development_profiles c demo_selection) as [r|] eqn:Hr; [|destruct Hd].
  exists r. split; [reflexivity|].
  destruct (resolution_closure_exact c demo_selection r Hr) as (_ & _ & Hp & _).
  split; [|exact Hp].
  destruct (resolve_development_profiles c demo_larger); [apply Hd|destruct Hd].
Defined.

Lemma resolution_requires_exactly_witness :
  ∃ c r, resolve_development_profiles c demo_selection = Ok r ∧
    pfr_permission_floor r = ExactPrompt ∧
    is_strongest c demo_selection pfd_permission_floor (pfr_permission_floor r).
Proof.
  pose proof demo_resolves as Hd.
  destruct (build_development_profile_catalog demo_descriptors) as [c|]; [|destruct Hd].
  exists c. destruct (resolve_development_profiles c demo_selection) as [r|] eqn:Hr; [|destruct Hd].
  exists r. split; [reflexivity|].
  destruct (resolution_requires_exactly c demo_selection r Hr) as (_ & _ & _ & _ & _ & _ & _ & Hf).
  split; [|exact Hf].
  destruct (resolve_development_profiles c demo_larger); [apply Hd|destruct Hd].
Defined.

Lemma larger_selection_is_stricter_witness :
  ∃ c r r', resolve_development_profiles c demo_selection = Ok r ∧
    resolve_development_profiles c demo_larger = Ok r' ∧
    pfr_required_check_families r ⊆ pfr_required_check_families r'.
Proof.
  pose proof demo_resolves as Hd.
  destruct (build_development_profile_catalog demo_descriptors) as [c|]; [|destruct Hd].
  destruct (resolve_development_profiles c demo_selection) as [r|] eqn:Hr; [|destruct Hd].
  destruct (resolve_development_profiles c demo_larger) as [r'|] eqn:Hr'; [|destruct Hd].
  exists c, r, r'. split; [exact Hr|]. split; [exact Hr'|].
  destruct (larger_selection_is_stricter c demo_selection demo_larger r r' Hr Hr') as [Hs _].
  - intros x Hx. apply elem_of_cons. left. by apply list_elem_of_singleton.
  - apply Hs.
Defined.

Lemma selection_refusals_exact_witness :
  ∃ c, validate_catalog c = Ok tt ∧
    match resolve_development_profiles c ["unknown"] with
    | Err ProfileNotFound => ∃ i, i ∈ ["unknown"] ∧ i ∉ BUILTIN_DEVELOPMENT_PROFILE_IDS
    | _ => True
    end.
Proof.
  pose proof demo_resolves as Hd.
  destruct (build_development_profile_catalog demo_descriptors) as [c|] eqn:Hc; [clear Hd|destruct Hd].
  exists c. assert (validate_catalog c = Ok tt) as Hv.
  { exact (build_validates _ _ Hc). }
  split; [exact Hv|].
  pose proof (selection_refusals_exact c ["unknown"] Hv) as Hr.
  destruct (resolve_development_profiles c ["unknown"]) as [r|[]]; exact I || exact Hr.
Defined.

Lemma single_selection_binds_witness  :
  ∃ c r s', resolve_development_profiles c demo_selection = Ok r ∧
    bind_profile_resolution (example_stage "stg_demo" Execute ["src"] [] None) r = Ok s' ∧ verify_profile_binding s' r = Ok tt.
Proof.
  pose proof demo_resolves as Hd.
  destruct (build_development_profile_catalog demo_descriptors) as [c|]; [|destruct Hd].
  destruct (resolve_development_profiles c demo_selection) as [r|] eqn:Hr; [|destruct Hd].
  destruct (single_selection_binds c "refactor_codemod" r (example_stage "stg_demo" Execute ["src"] [] None) Hr) as (s' & Hb & Hv & _).
  by exists c, r, s'.
Defined.
