(* ===== verification/Orchestration.v ===== *)
(** * Stage planning

    Models [crates/control/star-planning/src/orchestration.rs]: the first stage
    graph of a goal and its immutable revisions. *)
From S2P Require Import Prelude Canonical Toy Ids Contracts Kahn Stage StageFacts.

Record StageGraphPlanInput := {
  gi_goal_id : GoalId;
  gi_plan_revision : N;
  gi_stages : list StageSpecV1;
  gi_edges : list StageGraphEdgeV1;
  gi_parallel_groups : list StageParallelGroupV1;
  gi_critical_path : list StageId;
  gi_integration_stage_id : option StageId
}.

Inductive StagePlanningError :=
| Invalid
| StaleRevision
| CompletedStageChanged
| Contract (e : StageContractError).

#[global] Instance StagePlanningError_eq_dec : EqDecision StagePlanningError.
Proof. solve_decision. Defined.

Section planning.
Context `{Platform}.

(** [StageGraphId::from_stable_bytes] of the text ["<goal>:stage-graph"]. *)
Definition stage_graph_id_for (goal_id : GoalId) : StageGraphId :=
  prefixed_from_stable_bytes "sgr_" (goal_id +:+ ":stage-graph").

Definition assemble_stage_graph (input : StageGraphPlanInput)
    (previous_graph_fingerprint : option Sha256Hash) (replan_reason : option string) :
    result StageGraphV1 StagePlanningError :=
  map_err Contract (sg_seal
    {| sg_schema_id := STAGE_GRAPH_SCHEMA_ID;
       sg_schema_version := STAGE_CONTRACT_VERSION;
       sg_stage_graph_id := stage_graph_id_for (gi_goal_id input);
       sg_goal_id := gi_goal_id input;
       sg_plan_revision := gi_plan_revision input;
       sg_stages := gi_stages input;
       sg_edges := gi_edges input;
       sg_parallel_groups := gi_parallel_groups input;
       sg_critical_path := gi_critical_path input;
       sg_integration_stage_id := gi_integration_stage_id input;
       sg_previous_graph_fingerprint := previous_graph_fingerprint;
       sg_replan_reason := replan_reason;
       sg_graph_fingerprint := digest "unsealed-stage-graph" |}).

Definition build_stage_graph (input : StageGraphPlanInput) :
    result StageGraphV1 StagePlanningError :=
  check negb (gi_plan_revision input =? 1)%N
    || (len (gi_stages input) =? 0)%N
    || existsb (λ stage, match ss_state stage with Draft | Ready => false | _ => true end)
         (gi_stages input)
  else Invalid in
  assemble_stage_graph input None None.

(** The [BTreeSet] of id and fingerprint of the completed stages. *)
Definition completed_stages (stages : list StageSpecV1) : list (string * string) :=
  sort_dedup (map (λ stage, (ss_stage_id stage, ss_stage_fingerprint stage))
    (filter (λ stage, ss_state stage = Completed) stages)).

Definition replan_stage_graph (previous : StageGraphV1) (input : StageGraphPlanInput)
    (reason : string) : result StageGraphV1 StagePlanningError :=
  let? _ := map_err Contract (sg_verify previous) in
  check negb (String.eqb (gi_goal_id input) (sg_goal_id previous))
    || negb (gi_plan_revision input
             =? saturating_add u64_max (sg_plan_revision previous) 1)%N
    || blank reason
    || (2048 <? slen reason)%N
  else StaleRevision in
  let? candidate := assemble_stage_graph input (Some (sg_graph_fingerprint previous))
    (Some (trim reason)) in
  check negb (String.eqb (sg_stage_graph_id candidate) (sg_stage_graph_id previous))
  else Invalid in
  check negb (bool_decide (completed_stages (sg_stages previous)
                           = completed_stages (sg_stages candidate)))
  else CompletedStageChanged in
  Ok candidate.

(** One revision, and the history a goal goes through. *)
Inductive replanned : StageGraphV1 → StageGraphV1 → Prop :=
| replan_step previous input reason candidate :
    replan_stage_graph previous input reason = Ok candidate →
    replanned previous candidate.

(** ** Lemmas *)

Lemma assemble_ok input fp reason g :
  assemble_stage_graph input fp reason = Ok g →
  sg_verify g = Ok tt ∧ sg_goal_id g = gi_goal_id input ∧
  sg_plan_revision g = gi_plan_revision input ∧
  sg_stage_graph_id g = stage_graph_id_for (gi_goal_id input) ∧
  sg_previous_graph_fingerprint g = fp ∧ sg_replan_reason g = reason.
Proof.
  unfold assemble_stage_graph, map_err. intros Ha. destruct (sg_seal _) as [g'|] eqn:Hs; [|done].
  injection Ha as ->. split; [by eapply sg_verify_sealed, sg_seal_idem|].
  by apply sg_seal_ok in Hs as (stages & fp' & _ & _ & _ & _ & ->).
Qed.

Lemma elem_of_completed_stages stages id fp :
  (id, fp) ∈ completed_stages stages ↔
  ∃ s, s ∈ stages ∧ ss_state s = Completed ∧ ss_stage_id s = id ∧ ss_stage_fingerprint s = fp.
Proof.
  unfold completed_stages. rewrite elem_of_sort_dedup, list_elem_of_fmap.
  setoid_rewrite list_elem_of_filter. naive_solver.
Qed.

(** What one successful revision establishes. *)
Lemma replan_ok previous input reason g :
  replan_stage_graph previous input reason = Ok g →
  sg_verify previous = Ok tt ∧ sg_verify g = Ok tt ∧
  sg_goal_id g = sg_goal_id previous ∧
  sg_stage_graph_id g = sg_stage_graph_id previous ∧
  sg_plan_revision g = saturating_add u64_max (sg_plan_revision previous) 1 ∧
  sg_previous_graph_fingerprint g = Some (sg_graph_fingerprint previous) ∧
  completed_stages (sg_stages previous) = completed_stages (sg_stages g).
Proof.
  unfold replan_stage_graph, map_err. intros Hr.
  destruct (sg_verify previous) as [[]|] eqn:Hv; [|done]. err_cases Hr. bool_to_prop.
  injection Hr as ->.
  match goal with H : assemble_stage_graph _ _ _ = _ |- _ =>
    apply assemble_ok in H as (? & ? & ? & ? & ? & ?) end.
  split_and!; congruence.
Qed.

(** The stages of an assembled graph are those of the input, each sealed. *)
Lemma assemble_stages input fp reason g :
  assemble_stage_graph input fp reason = Ok g →
  ∃ stages, sg_stages g ≡ₚ stages ∧
    Forall2 (λ s s', ss_stage_id s' = ss_stage_id s ∧ ss_state s' = ss_state s)
      (gi_stages input) stages.
Proof.
  unfold assemble_stage_graph, map_err. intros Ha. destruct (sg_seal _) as [g'|] eqn:Hs; [|done].
  injection Ha as ->. apply sg_seal_ok in Hs as (stages & fp' & Hm & _ & _ & _ & ->).
  exists stages. split; [apply sort_by_perm|].
  apply map_result_Forall2 in Hm. eapply Forall2_impl; [exact Hm|].
  by intros s s' (? & ? & ? & ? & _ & _ & _ & _ & _ & ->)%ss_seal_ok.
Qed.

Lemma elem_of_assembled input g (P : StageSpecV1 → StageSpecV1 → Prop) :
  (∃ stages, sg_stages g ≡ₚ stages ∧ Forall2 P (gi_stages input) stages) →
  ∀ s, s ∈ sg_stages g → ∃ s0, s0 ∈ gi_stages input ∧ P s0 s.
Proof.
  intros (stages & Hperm & Hf) s Hs. rewrite Hperm in Hs.
  apply list_elem_of_lookup in Hs as [i Hi].
  destruct (Forall2_lookup_r _ _ _ _ _ Hf Hi) as (s0 & Hs0 & HP).
  exists s0. split; [by eapply list_elem_of_lookup_2|done].
Qed.

(** Two verified stages with one fingerprint are one stage, or a collision. *)
Lemma stage_fingerprint_binds s1 s2 :
  ss_verify s1 = Ok tt → ss_verify s2 = Ok tt →
  ss_stage_fingerprint s1 = ss_stage_fingerprint s2 →
  s1 = s2 ∨ collision (ss_payload s1) (ss_payload s2).
Proof.
  intros (Hi1 & Hv1 & Hc1)%ss_verified_parts (Hi2 & Hv2 & Hc2)%ss_verified_parts Hfp.
  rewrite Hfp in Hc1. destruct (hash_binds _ _ _ Hc1 Hc2) as [Hp|?]; [left|by right].
  unfold ss_payload in Hp. peel Hp. peel E1. destruct s1, s2; simpl in *. by subst.
Qed.

(** ** The properties *)

(** C33: a replan yields a graph that verifies, is linked to the previous
    revision (same goal and graph id, the next revision number, the previous
    fingerprint) and keeps the completed work: every stage completed before is
    in the new graph with the same fingerprint, hence unchanged unless the hash
    collides, and no other stage is completed. *)
Theorem replan_preserves_completed previous input reason g :
  replan_stage_graph previous input reason = Ok g →
  sg_verify g = Ok tt ∧
  sg_goal_id g = sg_goal_id previous ∧ sg_stage_graph_id g = sg_stage_graph_id previous ∧
  sg_plan_revision g = saturating_add u64_max (sg_plan_revision previous) 1 ∧
  sg_previous_graph_fingerprint g = Some (sg_graph_fingerprint previous) ∧
  (∀ s, s ∈ sg_stages previous → ss_state s = Completed →
    ∃ s', s' ∈ sg_stages g ∧ ss_state s' = Completed ∧
      ss_stage_fingerprint s' = ss_stage_fingerprint s ∧
      (s = s' ∨ collision (ss_payload s) (ss_payload s'))) ∧
  length (completed_stages (sg_stages g)) = length (completed_stages (sg_stages previous)).
Proof.
  intros (Hp & Hg & ? & ? & ? & ? & Hcs)%replan_ok. do 5 (split; [done|]).
  split; [|by rewrite Hcs].
  apply sg_verify_checks in Hp as [_ Hp]. apply sg_verify_checks in Hg as [_ Hg].
  rewrite Forall_forall in Hp, Hg. intros s Hs Hst.
  assert ((ss_stage_id s, ss_stage_fingerprint s) ∈ completed_stages (sg_stages g)) as Hin.
  { rewrite <-Hcs. apply elem_of_completed_stages. eauto. }
  apply elem_of_completed_stages in Hin as (s' & Hs' & Hst' & _ & Hfp).
  exists s'. split_and!; [done..|]. apply stage_fingerprint_binds; auto.
Qed.

(** Along any history of revisions a completed stage stays: it is found,
    completed and with its fingerprint, in every later graph; goal and graph
    identity never change and revisions never decrease. *)
Theorem plan_history_keeps_completed g g' :
  rtc replanned g g' →
  sg_goal_id g' = sg_goal_id g ∧ sg_stage_graph_id g' = sg_stage_graph_id g ∧
  ((sg_plan_revision g ≤ u64_max)%N → (sg_plan_revision g ≤ sg_plan_revision g')%N) ∧
  ∀ s, s ∈ sg_stages g → ss_state s = Completed →
    ∃ s', s' ∈ sg_stages g' ∧ ss_state s' = Completed ∧
      ss_stage_id s' = ss_stage_id s ∧ ss_stage_fingerprint s' = ss_stage_fingerprint s.
Proof.
  induction 1 as [g|g1 g2 g3 Hstep _ (Hgoal & Hid & Hrev & IH)].
  { split_and!; [done..|lia|]. eauto. }
  destruct Hstep as [previous input reason g2 Hr].
  apply replan_ok in Hr as (_ & _ & Hg2 & Hi2 & Hr2 & _ & Hcs).
  split_and!; [congruence..| |].
  - intros Hle. unfold saturating_add in Hr2. lia.
  - intros s Hs Hst.
    assert ((ss_stage_id s, ss_stage_fingerprint s) ∈ completed_stages (sg_stages g2)) as Hin.
    { rewrite <-Hcs. apply elem_of_completed_stages. eauto. }
    apply elem_of_completed_stages in Hin as (s2 & Hs2 & Hst2 & Hid2 & Hfp2).
    destruct (IH s2 Hs2 Hst2) as (s3 & ? & ? & ? & ?). exists s3. split_and!; congruence.
Qed.

(** The first graph of a goal is revision 1 without a predecessor, and all
    of its stages are drafts or ready: nothing is recorded as done. *)
Theorem first_graph_is_fresh input g :
  build_stage_graph input = Ok g →
  sg_verify g = Ok tt ∧ sg_plan_revision g = 1%N ∧
  sg_previous_graph_fingerprint g = None ∧
  (∀ s, s ∈ sg_stages g → ss_state s = Draft ∨ ss_state s = Ready) ∧
  Permutation (map ss_stage_id (sg_stages g)) (map ss_stage_id (gi_stages input)).
Proof.
  unfold build_stage_graph. intros Hb. next_check Hb. bool_to_prop.
  pose proof Hb as (Hv & _ & Hrev & _ & Hprev & _)%assemble_ok.
  split; [done|]. split; [congruence|]. split; [done|].
  apply assemble_stages in Hb as Hperm. split.
  - intros s Hs. destruct (elem_of_assembled _ _ _ Hperm s Hs) as (s0 & Hs0 & _ & Hst).
    match goal with H : existsb _ _ = false |- _ => rewrite existsb_false in H; specialize (H s0 Hs0) end.
    rewrite Hst. destruct (ss_state s0); try done; auto.
  - destruct Hperm as (stages & Hperm & Hf). rewrite Hperm. clear -Hf.
    induction Hf as [|s s' l l' [Hid _] _ IH]; simpl; [done|]. by rewrite Hid, IH.
Qed.
End planning.

(** ** Instances *)

Definition example_done : StageSpecV1 :=
  let s := example_stage "stg_build" Execute ["src/core"] [] None in
  {| ss_schema_id := ss_schema_id s; ss_schema_version := 1; ss_stage_id := ss_stage_id s;
     ss_revision := 1; ss_goal_id := "gol_1"; ss_task_spec_ref := None;
     ss_scope_revision_ref := None; ss_title := "title"; ss_objective := "objective";
     ss_stage_mode := Execute; ss_executor_kind := DeterministicLocal;
     ss_work_profile_id := "feature"; ss_work_profile_version := "1.0.0";
     ss_work_profile_definition_hash := Some example_hash;
     ss_profile_catalog_fingerprint := Some example_hash;
     ss_profile_resolution_fingerprint := Some example_hash;
     ss_project_ids := ["prj_1"]; ss_included_work := ["work"]; ss_excluded_work := ["rest"];
     ss_expected_change_scope := ["src/core"]; ss_dependencies := []; ss_parallel_group := None;
     ss_completion_criteria := ["done"]; ss_failure_policy := Retry;
     ss_route_decision_ref := None; ss_permission_plan_ref := None;
     ss_validation_plan_ref := None; ss_impact_analysis_ref := None;
     ss_change_plan_refs := []; ss_result_ref := Some (sr_reference example_result);
     ss_state := Completed; ss_stage_fingerprint := example_hash |}.

Definition example_input (revision : N) (build : StageSpecV1) : StageGraphPlanInput :=
  {| gi_goal_id := "gol_1"; gi_plan_revision := revision;
     gi_stages := [build; example_stage "stg_review" Review [] ["stg_build"] None];
     gi_edges := [{| se_from := "stg_build"; se_to := "stg_review"; se_relation := Requires |}];
     gi_parallel_groups := []; gi_critical_path := []; gi_integration_stage_id := None |}.

(** A plan whose first stage is done, and its revision. *)
Definition example_underway : StageGraphV1 :=
  unwrap_or (assemble_stage_graph (example_input 1 example_done) None None) example_graph.

Definition example_second : StageGraphV1 :=
  unwrap_or (replan_stage_graph example_underway (example_input 2 example_done) "wider scope")
    example_graph.

Definition example_first : StageGraphV1 :=
  unwrap_or (build_stage_graph (example_input 1 (example_stage "stg_build" Plan [] [] None)))
    example_graph.

Example replan_refuses_undoing :
  replan_stage_graph example_underway
    (example_input 2 (example_stage "stg_build" Execute ["src/core"] [] None)) "redo"
  = Err CompletedStageChanged.
Proof. vm_compute. reflexivity. Qed.

Lemma replan_preserves_completed_witness :
  replan_stage_graph example_underway (example_input 2 example_done) "wider scope"
    = Ok example_second ∧
  length (completed_stages (sg_stages example_second)) = 1 ∧ sg_verify example_second = Ok tt.
Proof.
  assert (replan_stage_graph example_underway (example_input 2 example_done) "wider scope"
          = Ok example_second) as Hr by (vm_compute; reflexivity).
  split; [exact Hr|]. split; [vm_compute; reflexivity|].
  exact (proj1 (replan_preserves_completed _ _ _ _ Hr)).
Defined.

Lemma plan_history_keeps_completed_witness :
  sg_goal_id example_second = sg_goal_id example_underway.
Proof.
  refine (proj1 (plan_history_keeps_completed example_underway example_second _)).
  apply rtc_once. apply (replan_step _ (example_input 2 example_done) "wider scope").
  vm_compute; reflexivity.
Defined.

Lemma first_graph_is_fresh_witness :
  build_stage_graph (example_input 1 (example_stage "stg_build" Plan [] [] None))
    = Ok example_first ∧
  sg_plan_revision example_first = 1%N.
Proof.
  assert (build_stage_graph (example_input 1 (example_stage "stg_build" Plan [] [] None))
    = Ok example_first) as Hb by (vm_compute; reflexivity).
  split; [exact Hb|]. exact (proj1 (proj2 (first_graph_is_fresh _ _ Hb))).
Defined.
