(* ===== verification/GoalStore.v ===== *)
(** * The goal store

    Models [apps/star-controller/src/goal_store.rs]: the goals of the
    controller, their configuration, the stage graphs of their plans with every
    revision, and the stage results, in memory and in a file; the checks on
    loading the file, and the operations, each of which ends in a write of the
    whole file.  A goal's configuration overrides are those of [Config.v].

    The file system and the clock are the environment of [Persist.v]; a new
    identifier is an argument. *)
From S2P Require Import Prelude Canonical Contracts Persist Config Goal Stage.

Definition STORE_SCHEMA_ID : string := "star.goal-store".
Definition STORE_FORMAT_VERSION : N := 1.

(** ** The file *)

Record GoalStartReplay := {
  rp_goal_id : GoalId;
  rp_input_fingerprint : Sha256Hash
}.

Record GoalConfigRecord := {
  gc_goal_id : GoalId;
  gc_overrides : list ConfigOverrideV1;
  gc_config_fingerprint : Sha256Hash
}.

Record GoalStoreFile := {
  gf_schema_id : string;
  gf_format_version : N;
  gf_generation : N;
  gf_goals : gmap string GoalRecord;
  gf_idempotency : gmap string GoalStartReplay;
  gf_goal_configs : gmap string GoalConfigRecord;
  gf_stage_graphs : gmap string StageGraphV1;
  gf_stage_graph_history : gmap string (gmap N StageGraphV1);
  gf_stage_results : gmap string StageResultV1
}.

Definition GoalStoreFile_default : GoalStoreFile :=
  {| gf_schema_id := STORE_SCHEMA_ID;
     gf_format_version := STORE_FORMAT_VERSION;
     gf_generation := 0;
     gf_goals := ∅;
     gf_idempotency := ∅;
     gf_goal_configs := ∅;
     gf_stage_graphs := ∅;
     gf_stage_graph_history := ∅;
     gf_stage_results := ∅ |}.

Record GoalStartRequest := {
  rq_objective : string;
  rq_project_key : option string;
  rq_question : option (string * string);
  rq_idempotency_key : string;
  rq_config_overrides : list ConfigOverrideV1
}.

Inductive GoalStoreError :=
| LocalAppDataUnavailable | Invalid | NotFound | RevisionConflict | Lifecycle
| IdempotencyConflict | Corrupt | Io | Dacl.

#[global] Instance GoalStoreError_eq_dec : EqDecision GoalStoreError.
Proof. solve_decision. Defined.

(** The store is its file in memory; the path is fixed. *)
Abbreviation GoalStore := GoalStoreFile.

(** A store in memory and the file on disk. *)
Abbreviation world := (GoalStoreFile * option GoalStoreFile)%type.

(** The maps the operations change. *)
Definition set_generation (f : GoalStoreFile) (generation : N) : GoalStoreFile :=
  {| gf_schema_id := gf_schema_id f; gf_format_version := gf_format_version f;
     gf_generation := generation; gf_goals := gf_goals f; gf_idempotency := gf_idempotency f;
     gf_goal_configs := gf_goal_configs f; gf_stage_graphs := gf_stage_graphs f;
     gf_stage_graph_history := gf_stage_graph_history f;
     gf_stage_results := gf_stage_results f |}.

Definition set_goals (f : GoalStoreFile) (goals : gmap string GoalRecord)
    (idempotency : gmap string GoalStartReplay) (configs : gmap string GoalConfigRecord) :
    GoalStoreFile :=
  {| gf_schema_id := gf_schema_id f; gf_format_version := gf_format_version f;
     gf_generation := gf_generation f; gf_goals := goals; gf_idempotency := idempotency;
     gf_goal_configs := configs; gf_stage_graphs := gf_stage_graphs f;
     gf_stage_graph_history := gf_stage_graph_history f;
     gf_stage_results := gf_stage_results f |}.

Definition set_graphs (f : GoalStoreFile) (graphs : gmap string StageGraphV1)
    (history : gmap string (gmap N StageGraphV1)) (results : gmap string StageResultV1) :
    GoalStoreFile :=
  {| gf_schema_id := gf_schema_id f; gf_format_version := gf_format_version f;
     gf_generation := gf_generation f; gf_goals := gf_goals f;
     gf_idempotency := gf_idempotency f; gf_goal_configs := gf_goal_configs f;
     gf_stage_graphs := graphs; gf_stage_graph_history := history;
     gf_stage_results := results |}.

Definition put_goal (f : GoalStoreFile) (key : string) (goal : GoalRecord) : GoalStoreFile :=
  set_goals f (<[key := goal]> (gf_goals f)) (gf_idempotency f) (gf_goal_configs f).

(** [iter().find(|stage| stage.stage_id == id)]. *)
Definition find_stage (id : string) (stages : list StageSpecV1) : option StageSpecV1 :=
  snd <$> list_find (λ stage, ss_stage_id stage = id) stages.

Section store.
Context `{Platform, Instants}.

(** ** Goal configuration *)

Definition config_payload (goal_id : GoalId) (overrides : list ConfigOverrideV1) : Json :=
  JObj [("domain", JStr "star.goal-config"); ("version", JNum 1);
        ("goal_id", to_json goal_id); ("overrides", to_json overrides)].

Definition config_fingerprint (goal_id : GoalId) (overrides : list ConfigOverrideV1) :
    result Sha256Hash GoalStoreError :=
  map_err (λ _, Invalid) (canonical_sha256 (config_payload goal_id overrides)).

(** The canonical text is missing, or longer than 64 KiB. *)
Definition config_too_large (overrides : list ConfigOverrideV1) : bool :=
  match jcs_bytes (to_json overrides) with
  | Ok bytes => (65536 <? slen bytes)%N
  | Err _ => true
  end.

Definition gc_seal (goal_id : GoalId) (overrides : list ConfigOverrideV1) :
    result GoalConfigRecord GoalStoreError :=
  let overrides := sort_by_key co_key overrides in
  check (len overrides =? 0)%N
    || (128 <? len overrides)%N
    || windows2_any (λ a b, String.eqb (co_key a) (co_key b)) overrides
    || config_too_large overrides
  else Invalid in
  let? fp := config_fingerprint goal_id overrides in
  Ok {| gc_goal_id := goal_id; gc_overrides := overrides; gc_config_fingerprint := fp |}.

Definition gc_validate (c : GoalConfigRecord) : result unit GoalStoreError :=
  check (len (gc_overrides c) =? 0)%N
    || (128 <? len (gc_overrides c))%N
    || windows2_any (λ a b, cmp_leb (co_key b) (co_key a)) (gc_overrides c)
    || config_too_large (gc_overrides c)
  else Corrupt in
  let? expected := config_fingerprint (gc_goal_id c) (gc_overrides c) in
  check negb (String.eqb expected (gc_config_fingerprint c)) else Corrupt in
  Ok tt.

(** ** Loading *)

(** Every stage that names a result names a stored one, of the goal and of the
    stage, that put the stage in its state. *)
Definition graph_result_refs_are_valid (f : GoalStoreFile) (graph : StageGraphV1) : bool :=
  forallb (λ stage,
    match ss_result_ref stage with
    | None => true
    | Some reference =>
        is_some_and (gf_stage_results f !! dr_document_id reference) (λ result,
          bool_decide (reference = sr_reference result)
          && String.eqb (sr_goal_id result) (sg_goal_id graph)
          && String.eqb (dr_document_id (sr_stage_ref result)) (ss_stage_id stage)
          && bool_decide (ss_state stage = terminal_state result))
    end) (sg_stages graph).

(** The current graph is entered as the first known revision where the history
    has none. *)
Definition fill_history (f : GoalStoreFile) : GoalStoreFile :=
  set_graphs f (gf_stage_graphs f)
    (merge (λ graph history,
       match graph with
       | None => history
       | Some graph =>
           let history := default ∅ history in
           Some (match history !! sg_plan_revision graph with
                 | Some _ => history
                 | None => <[sg_plan_revision graph := graph]> history
                 end)
       end) (gf_stage_graphs f) (gf_stage_graph_history f))
    (gf_stage_results f).

Definition bad_goal (e : string * GoalRecord) : bool :=
  negb (String.eqb e.1 (gr_goal_id e.2)) || is_err (gr_validate e.2).

Definition has_goal (f : GoalStoreFile) (goal_id : string) : bool :=
  is_some (gf_goals f !! goal_id).

Definition bad_config (f : GoalStoreFile) (e : string * GoalConfigRecord) : bool :=
  negb (String.eqb e.1 (gc_goal_id e.2))
  || negb (has_goal f e.1)
  || is_err (gc_validate e.2).

(** A graph under a key of the current graphs or of the history. *)
Definition bad_graph (f : GoalStoreFile) (key : string) (graph : StageGraphV1) : bool :=
  negb (String.eqb key (sg_stage_graph_id graph))
  || negb (has_goal f (sg_goal_id graph))
  || is_err (sg_verify graph)
  || negb (graph_result_refs_are_valid f graph).

(** A revision does not continue the one before it. *)
Definition chain_broken (previous : option StageGraphV1) (graph : StageGraphV1) : bool :=
  is_some_and previous (λ previous,
    negb (sg_plan_revision graph =? saturating_add u64_max (sg_plan_revision previous) 1)%N
    || negb (bool_decide (sg_previous_graph_fingerprint graph
                          = Some (sg_graph_fingerprint previous)))).

(** The loop over the revisions in order. *)
Fixpoint bad_revisions (f : GoalStoreFile) (key : string) (previous : option StageGraphV1)
    (revisions : list (N * StageGraphV1)) : bool :=
  match revisions with
  | [] => false
  | (revision, graph) :: rest =>
      negb (revision =? sg_plan_revision graph)%N
      || bad_graph f key graph
      || chain_broken previous graph
      || bad_revisions f key (Some graph) rest
  end.

Definition bad_history (f : GoalStoreFile) (e : string * gmap N StageGraphV1) : bool :=
  match gf_stage_graphs f !! e.1 with
  | None => true
  | Some current =>
      negb (bool_decide (snd <$> last (btree_entries e.2) = Some current))
      || bad_revisions f e.1 None (btree_entries e.2)
  end.

(** Some revision of the history records the result on its stage. *)
Definition records_result (result : StageResultV1) (graph : StageGraphV1) : bool :=
  existsb (λ stage,
    String.eqb (ss_stage_id stage) (dr_document_id (sr_stage_ref result))
    && bool_decide (ss_result_ref stage = Some (sr_reference result))
    && bool_decide (ss_state stage = terminal_state result)) (sg_stages graph).

Definition bad_result (f : GoalStoreFile) (e : string * StageResultV1) : bool :=
  let result := e.2 in
  negb (String.eqb e.1 (sr_stage_result_id result))
  || is_err (sr_verify result)
  || match gf_stage_graph_history f !! dr_document_id (sr_stage_graph_ref result) with
     | None => true
     | Some history =>
         match history !! dr_revision (sr_stage_graph_ref result) with
         | None => true
         | Some graph =>
             match find_stage (dr_document_id (sr_stage_ref result)) (sg_stages graph) with
             | None => true
             | Some stage =>
                 is_err (sr_verify_against result graph stage)
                 || negb (existsb (λ e, records_result result e.2) (btree_entries history))
             end
         end
     end.

Definition file_corrupt (f : GoalStoreFile) : bool :=
  existsb bad_goal (btree_entries (gf_goals f))
  || existsb (λ e : string * GoalStartReplay, negb (has_goal f (rp_goal_id e.2)))
       (btree_entries (gf_idempotency f))
  || existsb (bad_config f) (btree_entries (gf_goal_configs f))
  || existsb (λ e : string * StageGraphV1, bad_graph f e.1 e.2)
       (btree_entries (gf_stage_graphs f))
  || negb (bool_decide (size (gf_stage_graph_history f) = size (gf_stage_graphs f)))
  || existsb (bad_history f) (btree_entries (gf_stage_graph_history f))
  || existsb (bad_result f) (btree_entries (gf_stage_results f)).

Definition load (read : read_outcome GoalStoreFile) : result GoalStore GoalStoreError :=
  let? file :=
    match read with
    | ReadParsed parsed => ok_or parsed Corrupt
    | ReadMissing => Ok GoalStoreFile_default
    | ReadFailed => Err Io
    end in
  let file := fill_history file in
  check negb (String.eqb (gf_schema_id file) STORE_SCHEMA_ID)
    || negb (gf_format_version file =? STORE_FORMAT_VERSION)%N
  else Corrupt in
  check file_corrupt file else Corrupt in
  Ok file.

(** The file with the next generation, written as far as the write gets. *)
Definition commit (outcome : persist_outcome GoalStoreError) (f : GoalStore)
    (disk : option GoalStoreFile) : world * result unit GoalStoreError :=
  let f := set_generation f (saturating_add u64_max (gf_generation f) 1) in
  let p := persist Dacl outcome f disk in
  ((f, p.1), p.2).

(** [self.commit()?; Ok(value)] on a changed store. *)
Definition commit_with {A : Type} (outcome : persist_outcome GoalStoreError) (f : GoalStore)
    (disk : option GoalStoreFile) (value : A) : world * result A GoalStoreError :=
  let r := commit outcome f disk in
  (r.1, let? _ := r.2 in Ok value).

(** ** Goals *)

Definition get (f : GoalStore) (goal_id : string) : result GoalRecord GoalStoreError :=
  ok_or (gf_goals f !! goal_id) NotFound.

(** The object whose hash identifies a start. *)
Definition start_payload (objective : string) (project_key : option string)
    (question : option GoalQuestion) (overrides : list ConfigOverrideV1) : Json :=
  match overrides with
  | [] => JObj
      [("objective", to_json objective);
       ("project_key", to_json project_key);
       ("question", to_json question)]
  | _ => JObj
      [("domain", JStr "star.goal-start-input");
       ("version", JNum 2);
       ("objective", to_json objective);
       ("project_key", to_json project_key);
       ("question", to_json question);
       ("config_overrides", to_json overrides)]
  end.

Definition new_goal (goal_id : GoalId) (objective : string) (project_key : option string)
    (question : option GoalQuestion) (timestamp : string) : GoalRecord :=
  {| gr_schema_id := GOAL_RECORD_SCHEMA_ID;
     gr_schema_version := GOAL_RECORD_SCHEMA_VERSION;
     gr_goal_id := goal_id;
     gr_revision := 1;
     gr_objective := objective;
     gr_project_key := project_key;
     gr_status := if is_some question then GoalWaitingQuestion else GoalActive;
     gr_plan_revision := 0;
     gr_plan_items := [];
     gr_pending_question := question;
     gr_run := None;
     gr_completion_evidence_ref := None;
     gr_created_at := timestamp;
     gr_updated_at := timestamp;
     gr_content_fingerprint := digest "unsealed" |}.

(** The trimmed inputs of a start. *)
Definition start_objective (request : GoalStartRequest) : string := trim (rq_objective request).

Definition start_project_key (request : GoalStartRequest) : option string :=
  match rq_project_key request with
  | Some value => let value := trim value in if is_empty value then None else Some value
  | None => None
  end.

Definition start_question (request : GoalStartRequest) : option GoalQuestion :=
  (λ q : string * string,
     {| gq_question_id := trim q.1; gq_prompt := trim q.2; gq_answer := None |})
    <$> rq_question request.

Definition start_fingerprint (request : GoalStartRequest) : result Sha256Hash GoalStoreError :=
  map_err (λ _, Invalid)
    (canonical_sha256 (start_payload (start_objective request) (start_project_key request)
       (start_question request) (rq_config_overrides request))).

(** The rest of a start, when the key is new: the goal is in the store before
    its configuration is sealed. *)
Definition start_new (goal_id : GoalId) (now : Z) (request : GoalStartRequest)
    (input_fingerprint : Sha256Hash) (outcome : persist_outcome GoalStoreError) (w : world) :
    world * result GoalRecord GoalStoreError :=
  let sealed := map_err (λ _, Invalid)
    (gr_seal (new_goal goal_id (start_objective request) (start_project_key request)
       (start_question request) (instant_text now))) in
  match sealed with
  | Err e => (w, Err e)
  | Ok goal =>
      let f := put_goal w.1 goal_id goal in
      let configured :=
        match rq_config_overrides request with
        | [] => Ok (gf_goal_configs f)
        | overrides =>
            let? config := gc_seal goal_id overrides in
            Ok (<[goal_id := config]> (gf_goal_configs f))
        end in
      match configured with
      | Err e => ((f, w.2), Err e)
      | Ok configs =>
          let replay :=
            {| rp_goal_id := goal_id; rp_input_fingerprint := input_fingerprint |} in
          let f := set_goals f (gf_goals f)
            (<[rq_idempotency_key request := replay]> (gf_idempotency f)) configs in
          commit_with outcome f w.2 goal
      end
  end.

Definition start (goal_id : GoalId) (now : Z) (request : GoalStartRequest)
    (outcome : persist_outcome GoalStoreError) (w : world) :
    world * result GoalRecord GoalStoreError :=
  if is_empty (start_objective request)
     || (4096 <? slen (start_objective request))%N
     || blank (rq_idempotency_key request)
     || (256 <? slen (rq_idempotency_key request))%N
  then (w, Err Invalid)
  else
    match start_fingerprint request with
    | Err e => (w, Err e)
    | Ok input_fingerprint =>
        match gf_idempotency w.1 !! rq_idempotency_key request with
        | Some replay =>
            if negb (String.eqb (rp_input_fingerprint replay) input_fingerprint)
            then (w, Err IdempotencyConflict)
            else (w, ok_or (gf_goals w.1 !! rp_goal_id replay) Corrupt)
        | None => start_new goal_id now request input_fingerprint outcome w
        end
    end.

Definition config_layer (f : GoalStore) (goal_id : string) :
    result (option ConfigLayerV1) GoalStoreError :=
  let? goal := ok_or (gf_goals f !! goal_id) NotFound in
  Ok ((λ record,
         {| cl_source :=
              {| cs_source_kind := SourceGoal;
                 cs_source_id := "goal:" +:+ gr_goal_id goal;
                 cs_source_fingerprint := gc_config_fingerprint record |};
            cl_overrides := gc_overrides record |}) <$> gf_goal_configs f !! goal_id).

(** [mutate]: a change of one goal at an expected revision. *)
Definition mutate (goal_id : string) (expected_revision : N)
    (change : GoalRecord → result GoalRecord GoalStoreError) (now : Z)
    (outcome : persist_outcome GoalStoreError) (w : world) :
    world * result GoalRecord GoalStoreError :=
  let changed :=
    let? goal := get w.1 goal_id in
    check negb (gr_revision goal =? expected_revision)%N else RevisionConflict in
    let? goal := change goal in
    let goal := gr_stamp goal (saturating_add u64_max (gr_revision goal) 1) (instant_text now)
      (gr_content_fingerprint goal) in
    map_err (λ _, Invalid) (gr_seal goal) in
  match changed with
  | Err e => (w, Err e)
  | Ok goal => commit_with outcome (put_goal w.1 goal_id goal) w.2 goal
  end.

Definition set_status (goal : GoalRecord) (status : GoalStatus) : GoalRecord :=
  gr_with goal status (gr_plan_revision goal) (gr_plan_items goal) (gr_pending_question goal)
    (gr_run goal) (gr_completion_evidence_ref goal).

Definition set_run (goal : GoalRecord) (run : option GoalRunState) : GoalRecord :=
  gr_with goal (gr_status goal) (gr_plan_revision goal) (gr_plan_items goal)
    (gr_pending_question goal) run (gr_completion_evidence_ref goal).

Definition run_with (run : GoalRunState) (attempt : N) (status : GoalRunStatus)
    (continued_at : string) : GoalRunState :=
  {| gs_run_id := gs_run_id run; gs_attempt := attempt; gs_status := status;
     gs_continued_at := continued_at |}.

Definition answer_goal (question_id answer : string) (goal : GoalRecord) :
    result GoalRecord GoalStoreError :=
  check negb (bool_decide (gr_status goal = GoalWaitingQuestion)) else Lifecycle in
  match gr_pending_question goal with
  | None => Err Lifecycle
  | Some question =>
      check negb (String.eqb (gq_question_id question) question_id
                  && is_none (gq_answer question))
      else Lifecycle in
      let question :=
        {| gq_question_id := gq_question_id question; gq_prompt := gq_prompt question;
           gq_answer := Some (trim answer) |} in
      Ok (gr_with goal GoalActive (gr_plan_revision goal) (gr_plan_items goal) (Some question)
            (gr_run goal) (gr_completion_evidence_ref goal))
  end.

Definition answer (goal_id : string) (expected_revision : N) (question_id answer : string)
    (now : Z) (outcome : persist_outcome GoalStoreError) (w : world) :
    world * result GoalRecord GoalStoreError :=
  if blank answer || (16384 <? slen answer)%N then (w, Err Invalid)
  else mutate goal_id expected_revision (answer_goal question_id answer) now outcome w.

Definition run_is_running (run : option GoalRunState) : bool :=
  is_some_and run (λ run, bool_decide (gs_status run = RunRunning)).

Definition plan_goal (items : list GoalPlanItem) (goal : GoalRecord) :
    result GoalRecord GoalStoreError :=
  check match gr_status goal with
        | GoalWaitingQuestion | GoalCompleted | GoalCancelled => true
        | _ => false
        end || run_is_running (gr_run goal)
  else Lifecycle in
  let status :=
    if bool_decide (gr_status goal = GoalBlocked) && negb (any_blocked items)
    then GoalActive else gr_status goal in
  Ok (gr_with goal status (saturating_add u64_max (gr_plan_revision goal) 1) items
        (gr_pending_question goal) (gr_run goal) (gr_completion_evidence_ref goal)).

Definition trim_item (item : GoalPlanItem) : GoalPlanItem :=
  {| gi_item_id := trim (gi_item_id item); gi_step := trim (gi_step item);
     gi_status := gi_status item |}.

Definition update_plan (goal_id : string) (expected_revision : N) (items : list GoalPlanItem)
    (now : Z) (outcome : persist_outcome GoalStoreError) (w : world) :
    world * result GoalRecord GoalStoreError :=
  let trimmed := map trim_item items in
  if (len items =? 0)%N || (256 <? len items)%N
     || any_or_repeated (λ item, is_empty (gi_item_id item) || is_empty (gi_step item)
                                 || (4096 <? slen (gi_step item))%N) gi_item_id [] trimmed
     || (1 <? in_progress trimmed)%N
  then (w, Err Invalid)
  else mutate goal_id expected_revision (plan_goal trimmed) now outcome w.

(** The run of a goal that is continued: the running one again, or a new one. *)
Definition continued_run (run : option GoalRunState) (run_id : RunId) (timestamp : string) :
    GoalRunState :=
  match run with
  | Some run =>
      if bool_decide (gs_status run = RunRunning)
      then run_with run (saturating_add u32_max (gs_attempt run) 1) RunRunning timestamp
      else {| gs_run_id := run_id; gs_attempt := 1; gs_status := RunRunning;
              gs_continued_at := timestamp |}
  | None => {| gs_run_id := run_id; gs_attempt := 1; gs_status := RunRunning;
               gs_continued_at := timestamp |}
  end.

Definition continue_goal (run_id : RunId) (timestamp : string) (goal : GoalRecord) :
    result GoalRecord GoalStoreError :=
  check negb (bool_decide (gr_status goal = GoalActive))
    || (len (gr_plan_items goal) =? 0)%N
    || any_blocked (gr_plan_items goal)
  else Lifecycle in
  Ok (set_run goal (Some (continued_run (gr_run goal) run_id timestamp))).

(** The clock is read once in the change and once after it. *)
Definition continue_run (goal_id : string) (expected_revision : N) (run_id : RunId)
    (now later : Z) (outcome : persist_outcome GoalStoreError) (w : world) :
    world * result GoalRecord GoalStoreError :=
  mutate goal_id expected_revision (continue_goal run_id (instant_text now)) later outcome w.

Definition pause_goal (goal : GoalRecord) : result GoalRecord GoalStoreError :=
  check match gr_status goal with GoalCompleted | GoalCancelled => true | _ => false end
  else Lifecycle in
  Ok (set_status goal GoalPaused).

Definition pause (goal_id : string) (expected_revision : N) (now : Z)
    (outcome : persist_outcome GoalStoreError) (w : world) :
    world * result GoalRecord GoalStoreError :=
  match get w.1 goal_id with
  | Err e => (w, Err e)
  | Ok goal =>
      if bool_decide (gr_status goal = GoalPaused) then (w, Ok goal)
      else mutate goal_id expected_revision pause_goal now outcome w
  end.

Definition resume_goal (goal : GoalRecord) : result GoalRecord GoalStoreError :=
  Ok (set_status goal
        (if unanswered (gr_pending_question goal) then GoalWaitingQuestion else GoalActive)).

Definition resume (goal_id : string) (expected_revision : N) (now : Z)
    (outcome : persist_outcome GoalStoreError) (w : world) :
    world * result GoalRecord GoalStoreError :=
  match get w.1 goal_id with
  | Err e => (w, Err e)
  | Ok goal =>
      match gr_status goal with
      | GoalPaused => mutate goal_id expected_revision resume_goal now outcome w
      | GoalActive | GoalWaitingQuestion => (w, Ok goal)
      | _ => (w, Err Lifecycle)
      end
  end.

Definition cancel_goal (goal : GoalRecord) : result GoalRecord GoalStoreError :=
  check bool_decide (gr_status goal = GoalCompleted) else Lifecycle in
  Ok (set_run (set_status goal GoalCancelled)
        ((λ run, run_with run (gs_attempt run) RunCancelled (gs_continued_at run))
           <$> gr_run goal)).

Definition cancel (goal_id : string) (expected_revision : N) (now : Z)
    (outcome : persist_outcome GoalStoreError) (w : world) :
    world * result GoalRecord GoalStoreError :=
  match get w.1 goal_id with
  | Err e => (w, Err e)
  | Ok goal =>
      if bool_decide (gr_status goal = GoalCancelled) then (w, Ok goal)
      else mutate goal_id expected_revision cancel_goal now outcome w
  end.

(** ** Stage graphs and results *)

Definition stage_graph (f : GoalStore) (stage_graph_id : string) :
    result StageGraphV1 GoalStoreError :=
  ok_or (gf_stage_graphs f !! stage_graph_id) NotFound.

Definition stage_graph_revision (f : GoalStore) (stage_graph_id : string) (plan_revision : N) :
    result StageGraphV1 GoalStoreError :=
  match gf_stage_graph_history f !! stage_graph_id with
  | Some history => ok_or (history !! plan_revision) NotFound
  | None => Err NotFound
  end.

Definition stage_result (f : GoalStore) (stage_result_id : string) :
    result StageResultV1 GoalStoreError :=
  ok_or (gf_stage_results f !! stage_result_id) NotFound.

(** A graph as the next current revision of its key, with the results. *)
Definition enter_graph (f : GoalStore) (key : string) (graph : StageGraphV1)
    (history : gmap N StageGraphV1) (results : gmap string StageResultV1) : GoalStore :=
  set_graphs f (<[key := graph]> (gf_stage_graphs f))
    (<[key := <[sg_plan_revision graph := graph]> history]> (gf_stage_graph_history f)) results.

(** How a published graph relates to the current one. *)
Inductive publication := AlreadyCurrent (current : StageGraphV1) | Refused (e : GoalStoreError) | Next.

Definition publication_of (current : option StageGraphV1) (graph : StageGraphV1)
    (expected_previous_revision : option N) : publication :=
  match current with
  | Some current =>
      if bool_decide (current = graph) then AlreadyCurrent current
      else if negb (bool_decide (expected_previous_revision = Some (sg_plan_revision current)))
      then Refused RevisionConflict
      else if negb (sg_plan_revision graph
                    =? saturating_add u64_max (sg_plan_revision current) 1)%N
              || negb (bool_decide (sg_previous_graph_fingerprint graph
                                    = Some (sg_graph_fingerprint current)))
      then Refused RevisionConflict
      else Next
  | None => if is_some expected_previous_revision then Refused NotFound else Next
  end.

(** The history entry of a new graph is created before the conflict check, as
    an empty map; that check fails only on an entry that was there. *)
Definition publish_stage_graph (graph : StageGraphV1) (expected_previous_revision : option N)
    (outcome : persist_outcome GoalStoreError) (w : world) :
    world * result StageGraphV1 GoalStoreError :=
  let f := w.1 in
  if is_err (sg_verify graph) then (w, Err Invalid)
  else
    match get f (sg_goal_id graph) with
    | Err e => (w, Err e)
    | Ok _ =>
        let key := sg_stage_graph_id graph in
        match publication_of (gf_stage_graphs f !! key) graph expected_previous_revision with
        | AlreadyCurrent current => (w, Ok current)
        | Refused e => (w, Err e)
        | Next =>
            let history := default ∅ (gf_stage_graph_history f !! key) in
            if is_some_and (history !! sg_plan_revision graph)
                 (λ existing, negb (bool_decide (existing = graph)))
            then (w, Err RevisionConflict)
            else commit_with outcome (enter_graph f key graph history (gf_stage_results f)) w.2
                   graph
        end
    end.

(** The stage after a result. *)
Definition ss_with_result (s : StageSpecV1) (revision : N) (state : StageStateV1)
    (reference : DocumentRef) : StageSpecV1 :=
  {| ss_schema_id := ss_schema_id s;
     ss_schema_version := ss_schema_version s;
     ss_stage_id := ss_stage_id s;
     ss_revision := revision;
     ss_goal_id := ss_goal_id s;
     ss_task_spec_ref := ss_task_spec_ref s;
     ss_scope_revision_ref := ss_scope_revision_ref s;
     ss_title := ss_title s;
     ss_objective := ss_objective s;
     ss_stage_mode := ss_stage_mode s;
     ss_executor_kind := ss_executor_kind s;
     ss_work_profile_id := ss_work_profile_id s;
     ss_work_profile_version := ss_work_profile_version s;
     ss_work_profile_definition_hash := ss_work_profile_definition_hash s;
     ss_profile_catalog_fingerprint := ss_profile_catalog_fingerprint s;
     ss_profile_resolution_fingerprint := ss_profile_resolution_fingerprint s;
     ss_project_ids := ss_project_ids s;
     ss_included_work := ss_included_work s;
     ss_excluded_work := ss_excluded_work s;
     ss_expected_change_scope := ss_expected_change_scope s;
     ss_dependencies := ss_dependencies s;
     ss_parallel_group := ss_parallel_group s;
     ss_completion_criteria := ss_completion_criteria s;
     ss_failure_policy := ss_failure_policy s;
     ss_route_decision_ref := ss_route_decision_ref s;
     ss_permission_plan_ref := ss_permission_plan_ref s;
     ss_validation_plan_ref := ss_validation_plan_ref s;
     ss_impact_analysis_ref := ss_impact_analysis_ref s;
     ss_change_plan_refs := ss_change_plan_refs s;
     ss_result_ref := Some reference;
     ss_state := state;
     ss_stage_fingerprint := ss_stage_fingerprint s |}.

(** [iter_mut().find(..)] and the assignments to the stage found. *)
Fixpoint update_stage (id : string) (change : StageSpecV1 → StageSpecV1)
    (stages : list StageSpecV1) : list StageSpecV1 :=
  match stages with
  | [] => []
  | stage :: rest =>
      if bool_decide (ss_stage_id stage = id) then change stage :: rest
      else stage :: update_stage id change rest
  end.

(** [checked_add(1)] on 64 bits. *)
Definition checked_succ (n : N) : result N GoalStoreError :=
  if (n <? u64_max)%N then Ok (n + 1)%N else Err RevisionConflict.

(** The graph after a result, before it is sealed. *)
Definition graph_after (current : StageGraphV1) (stage : StageSpecV1) (result : StageResultV1)
    (plan_revision stage_revision : N) : StageGraphV1 :=
  {| sg_schema_id := sg_schema_id current;
     sg_schema_version := sg_schema_version current;
     sg_stage_graph_id := sg_stage_graph_id current;
     sg_goal_id := sg_goal_id current;
     sg_plan_revision := plan_revision;
     sg_stages := update_stage (ss_stage_id stage)
       (λ s, ss_with_result s stage_revision (terminal_state result) (sr_reference result))
       (sg_stages current);
     sg_edges := sg_edges current;
     sg_parallel_groups := sg_parallel_groups current;
     sg_critical_path := sg_critical_path current;
     sg_integration_stage_id := sg_integration_stage_id current;
     sg_previous_graph_fingerprint := Some (sg_graph_fingerprint current);
     sg_replan_reason := Some ("stage_result:" +:+ sr_stage_result_id result);
     sg_graph_fingerprint := digest "unsealed-stage-result-transition" |}.

(** A completed result needs a stage that was ready or running, and every
    dependency of it completed. *)
Definition completion_refused (current : StageGraphV1) (stage : StageSpecV1)
    (result : StageResultV1) : bool :=
  bool_decide (sr_outcome result = OutcomeCompleted)
  && (match ss_state stage with Ready | Running => false | _ => true end
      || existsb (λ dependency,
           is_none_or (find_stage dependency (sg_stages current))
             (λ candidate, negb (bool_decide (ss_state candidate = Completed))))
           (ss_dependencies stage)).

(** The part of [record_stage_result] that computes the next graph. *)
Definition next_graph (f : GoalStore) (result : StageResultV1)
    (expected_graph_revision expected_stage_revision : N) :
    Prelude.result StageGraphV1 GoalStoreError :=
  let? current := stage_graph f (dr_document_id (sr_stage_graph_ref result)) in
  check negb (sg_plan_revision current =? expected_graph_revision)%N
    || negb (dr_revision (sr_stage_graph_ref result) =? sg_plan_revision current)%N
    || negb (String.eqb (dr_sha256 (sr_stage_graph_ref result)) (sg_graph_fingerprint current))
  else RevisionConflict in
  let? stage := ok_or (find_stage (dr_document_id (sr_stage_ref result)) (sg_stages current))
    NotFound in
  check negb (ss_revision stage =? expected_stage_revision)%N else RevisionConflict in
  let? _ := map_err (λ _, Invalid) (sr_verify_against result current stage) in
  check completion_refused current stage result else Lifecycle in
  let? plan_revision := checked_succ (sg_plan_revision current) in
  let? stage_revision := checked_succ (ss_revision stage) in
  map_err (λ _, Invalid) (sg_seal (graph_after current stage result plan_revision stage_revision)).

(** The answer to a result that is already stored. *)
Definition replayed_result (f : GoalStore) (existing result : StageResultV1) :
    Prelude.result (StageResultV1 * StageGraphV1) GoalStoreError :=
  check negb (bool_decide (existing = result)) else RevisionConflict in
  let? latest := stage_graph f (dr_document_id (sr_stage_graph_ref result)) in
  check negb (records_result result latest) else Corrupt in
  Ok (existing, latest).

Definition record_stage_result (result : StageResultV1)
    (expected_graph_revision expected_stage_revision : N)
    (outcome : persist_outcome GoalStoreError) (w : world) :
    world * Prelude.result (StageResultV1 * StageGraphV1) GoalStoreError :=
  let f := w.1 in
  if is_err (sr_verify result)
     || negb (String.eqb (dr_schema_id (sr_stage_graph_ref result)) STAGE_GRAPH_SCHEMA_ID)
  then (w, Err Invalid)
  else
    match gf_stage_results f !! sr_stage_result_id result with
    | Some existing => (w, replayed_result f existing result)
    | None =>
        match next_graph f result expected_graph_revision expected_stage_revision with
        | Err e => (w, Err e)
        | Ok next =>
            let key := dr_document_id (sr_stage_graph_ref result) in
            match gf_stage_graph_history f !! key with
            | None => (w, Err Corrupt)
            | Some history =>
                if is_some (history !! sg_plan_revision next) then (w, Err RevisionConflict)
                else
                  commit_with outcome
                    (enter_graph f key next history
                       (<[sr_stage_result_id result := result]> (gf_stage_results f)))
                    w.2 (result, next)
            end
        end
    end.

(** The stages whose evidence completes a goal. *)
Definition completion_stage_ids (graph : StageGraphV1) : list StageId :=
  match sg_integration_stage_id graph with
  | Some stage_id => [stage_id]
  | None =>
      match last (sg_critical_path graph) with
      | Some stage_id => [stage_id]
      | None => map ss_stage_id (sg_stages graph)
      end
  end.

Definition evidence_is_bound (f : GoalStore) (graph : StageGraphV1)
    (evidence_ref : DocumentRef) : bool :=
  existsb (λ stage_id,
    match find_stage stage_id (sg_stages graph) with
    | Some stage =>
        is_some_and (ss_result_ref stage) (λ reference,
          is_some_and (gf_stage_results f !! dr_document_id reference) (λ result,
            bool_decide (reference = sr_reference result)
            && bool_decide (sr_outcome result = OutcomeCompleted)
            && existsb (λ project, bool_decide (pe_evidence_bundle_ref project = evidence_ref))
                 (sr_project_evidence result)))
    | None => false
    end) (completion_stage_ids graph).

Definition finish_goal (evidence_ref : DocumentRef) (goal : GoalRecord) :
    result GoalRecord GoalStoreError :=
  match gr_run goal with
  | None => Err Lifecycle
  | Some run =>
      let run := run_with run (gs_attempt run) RunCompleted (gs_continued_at run) in
      Ok (gr_with goal GoalCompleted (gr_plan_revision goal) (gr_plan_items goal)
            (gr_pending_question goal) (Some run) (Some evidence_ref))
  end.

Definition complete_goal (goal_id : string) (expected_revision : N) (stage_graph_id : string)
    (evidence_ref : DocumentRef) (now : Z) (outcome : persist_outcome GoalStoreError)
    (w : world) : world * result GoalRecord GoalStoreError :=
  let allowed :=
    let? graph := stage_graph w.1 stage_graph_id in
    check negb (String.eqb (sg_goal_id graph) goal_id)
      || (len (sg_stages graph) =? 0)%N
      || existsb (λ stage, negb (bool_decide (ss_state stage = Completed))) (sg_stages graph)
    else Lifecycle in
    check negb (evidence_is_bound w.1 graph evidence_ref) else Invalid in
    let? current := get w.1 goal_id in
    check negb (gr_revision current =? expected_revision)%N
      || (len (gr_plan_items current) =? 0)%N
      || negb (all_completed (gr_plan_items current))
      || negb (run_is_running (gr_run current))
    else Lifecycle in
    Ok tt in
  match allowed with
  | Err e => (w, Err e)
  | Ok _ => mutate goal_id expected_revision (finish_goal evidence_ref) now outcome w
  end.

(** ** Runs *)

Inductive goal_call :=
| CallStart (goal_id : GoalId) (now : Z) (request : GoalStartRequest)
| CallAnswer (goal_id : string) (revision : N) (question_id text : string) (now : Z)
| CallUpdatePlan (goal_id : string) (revision : N) (items : list GoalPlanItem) (now : Z)
| CallContinue (goal_id : string) (revision : N) (run_id : RunId) (now later : Z)
| CallPause (goal_id : string) (revision : N) (now : Z)
| CallResume (goal_id : string) (revision : N) (now : Z)
| CallCancel (goal_id : string) (revision : N) (now : Z)
| CallPublish (graph : StageGraphV1) (expected_previous_revision : option N)
| CallRecord (result : StageResultV1) (expected_graph_revision expected_stage_revision : N)
| CallComplete (goal_id : string) (revision : N) (stage_graph_id : string)
    (evidence_ref : DocumentRef) (now : Z).

Definition goal_step (w : world) (c : goal_call * persist_outcome GoalStoreError) : world :=
  let o := c.2 in
  match c.1 with
  | CallStart goal_id now request => (start goal_id now request o w).1
  | CallAnswer goal_id revision question_id text now =>
      (answer goal_id revision question_id text now o w).1
  | CallUpdatePlan goal_id revision items now => (update_plan goal_id revision items now o w).1
  | CallContinue goal_id revision run_id now later =>
      (continue_run goal_id revision run_id now later o w).1
  | CallPause goal_id revision now => (pause goal_id revision now o w).1
  | CallResume goal_id revision now => (resume goal_id revision now o w).1
  | CallCancel goal_id revision now => (cancel goal_id revision now o w).1
  | CallPublish graph expected => (publish_stage_graph graph expected o w).1
  | CallRecord result g s => (record_stage_result result g s o w).1
  | CallComplete goal_id revision graph_id evidence now =>
      (complete_goal goal_id revision graph_id evidence now o w).1
  end.

Definition goal_run (w : world) (calls : list (goal_call * persist_outcome GoalStoreError)) :
    world := foldl goal_step w calls.

End store.
