(* ===== verification/GoalStoreFacts.v ===== *)
(** * Properties of the goal store

    Which files load, which calls keep it so, and what the store promises on
    goals, results and revisions. *)
From S2P Require Import Prelude Canonical Toy Contracts Evidence Persist Config Goal.
From S2P Require Import Stage StageFacts Orchestration GoalStore.

Section facts.
Context `{Platform, Instants}.

(** ** Files that load *)

Definition replay_ok (f : GoalStoreFile) (replay : GoalStartReplay) : Prop :=
  is_Some (gf_goals f !! rp_goal_id replay).

Record good_file (f : GoalStoreFile) : Prop := {
  good_schema : gf_schema_id f = STORE_SCHEMA_ID;
  good_version : gf_format_version f = STORE_FORMAT_VERSION;
  good_goals : map_Forall (λ k g, bad_goal (k, g) = false) (gf_goals f);
  good_replays : map_Forall (λ _ r, replay_ok f r) (gf_idempotency f);
  good_configs : map_Forall (λ k c, bad_config f (k, c) = false) (gf_goal_configs f);
  good_graphs : map_Forall (λ k g, bad_graph f k g = false) (gf_stage_graphs f);
  good_size : size (gf_stage_graph_history f) = size (gf_stage_graphs f);
  good_histories : map_Forall (λ k h, bad_history f (k, h) = false) (gf_stage_graph_history f);
  good_results : map_Forall (λ k r, bad_result f (k, r) = false) (gf_stage_results f)
}.

Lemma has_goal_spec f k : has_goal f k = true ↔ is_Some (gf_goals f !! k).
Proof. unfold has_goal. by destruct (gf_goals f !! k); split; intros; try done; destruct H1. Qed.

Lemma file_corrupt_spec f :
  gf_schema_id f = STORE_SCHEMA_ID → gf_format_version f = STORE_FORMAT_VERSION →
  file_corrupt f = false ↔ good_file f.
Proof.
  intros Hs Hv. unfold file_corrupt. rewrite !orb_false_iff, negb_false_iff, bool_decide_eq_true.
  rewrite !entries_false. split.
  - intros ((((((? & Hr) & ?) & ?) & ?) & ?) & ?). constructor; try done.
    intros k r Hk. specialize (Hr k r Hk). simpl in Hr.
    by apply negb_false_iff, has_goal_spec in Hr.
  - intros [_ _ ? Hr ? ? ? ? ?]. split_and!; try done.
    intros k r Hk. simpl. apply negb_false_iff, has_goal_spec. by apply (Hr k).
Qed.

(** The revisions of a history, each checked, in order. *)
Lemma bad_revisions_spec f key previous l :
  bad_revisions f key previous l = false ↔
  Forall (λ e : N * StageGraphV1, e.1 = sg_plan_revision e.2 ∧ bad_graph f key e.2 = false) l ∧
  windows2_any (λ a b, chain_broken (Some a.2) b.2) l = false ∧
  (∀ e, head l = Some e → chain_broken previous e.2 = false).
Proof.
  revert previous. induction l as [|[n g] l IH]; intros previous; simpl.
  { split; [|done]. intros _. split_and!; [constructor|done|by intros]. }
  rewrite !orb_false_iff, negb_false_iff, N.eqb_eq, IH, Forall_cons. simpl. split.
  - intros (((-> & ?) & ?) & ? & ? & Hh). split_and!; try done.
    + destruct l as [|e l]; [done|]. apply orb_false_iff. split; [|done]. by apply Hh.
    + by intros ? [= <-].
  - intros ([[-> ?] ?] & Hw & Hp). split_and!; try done.
    + by apply (Hp (sg_plan_revision g, g)).
    + destruct l as [|e l]; [done|]. by apply orb_false_iff in Hw as [_ ?].
    + intros e He. destruct l as [|e' l]; [done|]. injection He as ->.
      by apply orb_false_iff in Hw as [? _].
Qed.

Lemma bad_history_spec f key h :
  bad_history f (key, h) = false ↔
  ∃ current, gf_stage_graphs f !! key = Some current ∧
    last (btree_entries h) = Some (sg_plan_revision current, current) ∧
    bad_revisions f key None (btree_entries h) = false.
Proof.
  unfold bad_history. simpl. destruct (gf_stage_graphs f !! key) as [current|]; [|naive_solver].
  rewrite orb_false_iff, negb_false_iff, bool_decide_eq_true. split.
  - intros [Hl Hr]. exists current. split_and!; try done.
    destruct (last (btree_entries h)) as [[n g]|] eqn:El; [|done]. injection Hl as ->.
    apply bad_revisions_spec in Hr as (Hall & _ & _). apply last_Some_elem_of in El as Hin.
    rewrite Forall_forall in Hall. destruct (Hall _ Hin) as [Hn _]. simpl in Hn. by subst.
  - intros (? & [= <-] & -> & ?). done.
Qed.

(** Every current graph is in its history, at its revision. *)
Lemma good_current f key graph :
  good_file f → gf_stage_graphs f !! key = Some graph →
  ∃ h, gf_stage_graph_history f !! key = Some h ∧ h !! sg_plan_revision graph = Some graph.
Proof.
  intros Hf Hk.
  assert (dom (gf_stage_graph_history f) = dom (gf_stage_graphs f)) as Hdom.
  { apply set_subseteq_size_eq.
    - intros k [h Hh]%elem_of_dom. apply elem_of_dom.
      apply (good_histories f Hf), bad_history_spec in Hh as (current & ? & _). by exists current.
    - rewrite !size_dom. by rewrite (good_size f Hf). }
  assert (is_Some (gf_stage_graph_history f !! key)) as [h Hh].
  { apply elem_of_dom. rewrite Hdom. by apply elem_of_dom_2 in Hk. }
  exists h. split; [done|].
  apply (good_histories f Hf), bad_history_spec in Hh as (current & Hc & Hl & _).
  assert (current = graph) as -> by congruence.
  by apply elem_of_btree_entries, last_Some_elem_of.
Qed.

Lemma fill_history_good f : good_file f → fill_history f = f.
Proof.
  intros Hf. unfold fill_history. replace (merge _ _ _) with (gf_stage_graph_history f);
    [by destruct f|]. apply map_eq. intros k. rewrite lookup_merge.
  destruct (gf_stage_graphs f !! k) as [graph|] eqn:Hk; simpl.
  - destruct (good_current f k graph Hf Hk) as (h & -> & Hh). simpl. by rewrite Hh.
  - by destruct (gf_stage_graph_history f !! k).
Qed.

Lemma goals_load_good f : load (ReadParsed (Some f)) = Ok f ↔ good_file f.
Proof.
  unfold load. simpl. split.
  - intros Hl. next_check Hl. next_check Hl. injection Hl as Hfill. rewrite Hfill in *.
    bool_to_prop. by apply file_corrupt_spec.
  - intros Hf. rewrite fill_history_good by done.
    rewrite (good_schema f Hf), (good_version f Hf). simpl.
    apply file_corrupt_spec in Hf as ->; [done|apply Hf..].
Qed.

Lemma goals_load_result r f : load r = Ok f → good_file f.
Proof.
  unfold load. intros Hl.
  destruct (match r with ReadParsed _ => _ | _ => _ end) as [f0|]; [|done].
  next_check Hl. next_check Hl. injection Hl as <-. bool_to_prop. by apply file_corrupt_spec.
Qed.

(** ** What a file keeps when it grows *)

(** Goals are kept, results too. *)
Definition grows (f f' : GoalStoreFile) : Prop :=
  (∀ k, is_Some (gf_goals f !! k) → is_Some (gf_goals f' !! k)) ∧
  gf_stage_results f ⊆ gf_stage_results f'.

Lemma refs_grow f f' graph :
  grows f f' → graph_result_refs_are_valid f graph = true →
  graph_result_refs_are_valid f' graph = true.
Proof.
  intros [_ Hr]. unfold graph_result_refs_are_valid. rewrite !forallb_true.
  intros Hall s Hs. specialize (Hall s Hs). destruct (ss_result_ref s) as [reference|]; [|done].
  destruct (gf_stage_results f !! dr_document_id reference) as [result|] eqn:Er; [|done].
  by rewrite (lookup_weaken _ _ _ _ Er Hr).
Qed.

Lemma bad_graph_grows f f' key graph :
  grows f f' → bad_graph f key graph = false → bad_graph f' key graph = false.
Proof.
  intros Hg. unfold bad_graph. rewrite !orb_false_iff, !negb_false_iff, !has_goal_spec.
  intros (((? & ?) & ?) & ?). split_and!; try done; [by apply Hg|by apply (refs_grow f)].
Qed.

Lemma bad_revisions_grows f f' key previous l :
  grows f f' → bad_revisions f key previous l = false → bad_revisions f' key previous l = false.
Proof.
  intros Hg. rewrite !bad_revisions_spec. intros (Hall & ? & ?). split_and!; try done.
  eapply Forall_impl; [exact Hall|]. intros e [? ?]. split; [done|by apply (bad_graph_grows f)].
Qed.

(** ** Changing goals *)

Lemma set_goals_good f goals idempotency configs :
  let f' := set_goals f goals idempotency configs in
  good_file f → (∀ k, is_Some (gf_goals f !! k) → is_Some (goals !! k)) →
  map_Forall (λ k g, bad_goal (k, g) = false) goals →
  map_Forall (λ _ r, is_Some (goals !! rp_goal_id r)) idempotency →
  map_Forall (λ k c, bad_config f' (k, c) = false) configs →
  good_file f'.
Proof.
  intros f' Hf Hk Hgoals Hidem Hconf. assert (grows f f') as Hg by done.
  destruct Hf. constructor; try done.
  - intros k g Hl. by apply (bad_graph_grows f), good_graphs0.
  - intros k h Hl. apply bad_history_spec.
    destruct (proj1 (bad_history_spec f k h) (good_histories0 k h Hl)) as (c & ? & ? & ?).
    exists c. split_and!; try done. by apply (bad_revisions_grows f).
Qed.

Lemma bad_config_grows f f' k c :
  grows f f' → bad_config f (k, c) = false → bad_config f' (k, c) = false.
Proof.
  intros [Hg _]. unfold bad_config. rewrite !orb_false_iff, !negb_false_iff, !has_goal_spec.
  intros [[? ?] ?]. auto.
Qed.

Lemma put_goal_grows f key goal : grows f (put_goal f key goal).
Proof.
  split; [|done]. intros k Hk. simpl. destruct (decide (k = key)) as [->|Hne].
  - rewrite lookup_insert_eq. eauto.
  - by rewrite lookup_insert_ne.
Qed.

Lemma put_goal_good f key goal :
  good_file f → bad_goal (key, goal) = false → good_file (put_goal f key goal).
Proof.
  intros Hf Hb. pose proof (put_goal_grows f key goal) as Hg. apply set_goals_good; try done.
  - apply Hg.
  - apply map_Forall_insert_2; [done|apply Hf].
  - intros k r Hl. apply Hg. by apply (good_replays f Hf k).
  - intros k c Hl. by apply (bad_config_grows f), (good_configs f Hf).
Qed.

(** ** Entering a revision *)

(** The key of the history is the revision; the last is the current one. *)
Lemma history_bounded f key h current :
  good_file f → gf_stage_graph_history f !! key = Some h → gf_stage_graphs f !! key = Some current →
  ∀ n g, h !! n = Some g → (n <= sg_plan_revision current)%N.
Proof.
  intros Hf Hh Hc n g Hn.
  apply (good_histories f Hf), bad_history_spec in Hh as (c & Hc' & Hl & _).
  assert (c = current) as -> by congruence.
  apply last_Some in Hl as [l Hl]. apply elem_of_btree_entries in Hn.
  pose proof (btree_entries_strict h) as Hs. rewrite Hl in Hs, Hn.
  apply elem_of_app in Hn as [Hn|Hn%list_elem_of_singleton]; [|by injection Hn as -> ->].
  assert (key_order (n, g) (sg_plan_revision current, current)) as Ho.
  { clear Hl. induction l as [|e l IH]; [by apply not_elem_of_nil in Hn|].
    simpl in Hs. apply StronglySorted_inv in Hs as [Hs Hall].
    apply elem_of_cons in Hn as [<-|Hn]; [|by apply IH].
    rewrite Forall_forall in Hall. apply Hall. set_solver. }
  unfold key_order in Ho. simpl in Ho. unfold cmp_ltb, cmp, N_cmp in Ho.
  destruct (N.compare_spec n (sg_plan_revision current)); simpl in Ho; [lia|lia|done].
Qed.


(** The part of a file the results rest on. *)
Definition histories_grow (f f' : GoalStoreFile) : Prop :=
  ∀ k h, gf_stage_graph_history f !! k = Some h →
    ∃ h', gf_stage_graph_history f' !! k = Some h' ∧ h ⊆ h'.

Lemma bad_result_spec f k r :
  bad_result f (k, r) = false ↔
  k = sr_stage_result_id r ∧ sr_verify r = Ok tt ∧
  ∃ h graph stage,
    gf_stage_graph_history f !! dr_document_id (sr_stage_graph_ref r) = Some h ∧
    h !! dr_revision (sr_stage_graph_ref r) = Some graph ∧
    find_stage (dr_document_id (sr_stage_ref r)) (sg_stages graph) = Some stage ∧
    sr_verify_against r graph stage = Ok tt ∧
    ∃ n g, h !! n = Some g ∧ records_result r g = true.
Proof.
  unfold bad_result. simpl. rewrite !orb_false_iff, negb_false_iff, String.eqb_eq.
  assert (is_err (sr_verify r) = false ↔ sr_verify r = Ok tt) as ->
    by by destruct (sr_verify r) as [[]|].
  assert (∀ A B C D : Prop, (C ↔ D) → ((A ∧ B) ∧ C ↔ A ∧ B ∧ D)) as Hand by tauto.
  apply Hand. clear Hand.
  destruct (gf_stage_graph_history f !! _) as [h|]; [|naive_solver].
  destruct (h !! dr_revision (sr_stage_graph_ref r)) as [graph|] eqn:Eg; [|naive_solver].
  destruct (find_stage _ _) as [stage|] eqn:Es; [|naive_solver].
  rewrite orb_false_iff, negb_false_iff, entries_true.
  assert (is_err (sr_verify_against r graph stage) = false
    ↔ sr_verify_against r graph stage = Ok tt) as ->
    by by destruct (sr_verify_against r graph stage) as [[]|].
  simpl. naive_solver.
Qed.

Lemma bad_result_grows f f' k r :
  histories_grow f f' → bad_result f (k, r) = false → bad_result f' (k, r) = false.
Proof.
  intros Hg. rewrite !bad_result_spec. intros (? & ? & h & graph & stage & Hh & Hn & ? & ? & n & g & Hg' & ?).
  destruct (Hg _ _ Hh) as (h' & Hh' & Hsub). split_and!; try done.
  exists h', graph, stage. split_and!; try done; [by eapply lookup_weaken|].
  exists n, g. split; [by eapply lookup_weaken|done].
Qed.

(** A graph that continues the current one of its key, if there is one. *)
Definition continues (f : GoalStoreFile) (key : string) (graph : StageGraphV1) : Prop :=
  ∀ current, gf_stage_graphs f !! key = Some current →
    (sg_plan_revision current < sg_plan_revision graph)%N ∧
    chain_broken (Some current) graph = false.

Lemma history_none f key :
  good_file f → gf_stage_graphs f !! key = None → gf_stage_graph_history f !! key = None.
Proof.
  intros Hf Hk. destruct (gf_stage_graph_history f !! key) as [h|] eqn:Hh; [|done].
  apply (good_histories f Hf), bad_history_spec in Hh as (c & ? & _). congruence.
Qed.

Lemma enter_fresh f key graph :
  good_file f → continues f key graph →
  default ∅ (gf_stage_graph_history f !! key) !! sg_plan_revision graph = None ∧
  btree_entries (<[sg_plan_revision graph := graph]>
      (default ∅ (gf_stage_graph_history f !! key)))
    = btree_entries (default ∅ (gf_stage_graph_history f !! key))
      ++ [(sg_plan_revision graph, graph)].
Proof.
  intros Hf Hc.
  assert (∀ n, is_Some (default ∅ (gf_stage_graph_history f !! key) !! n) →
    (n < sg_plan_revision graph)%N) as Hlt.
  { intros n [g Hn]. destruct (gf_stage_graphs f !! key) as [current|] eqn:Hk.
    - destruct (Hc current Hk) as [Hlt _].
      destruct (good_current f key current Hf Hk) as (h & Hh & _). rewrite Hh in Hn. simpl in Hn.
      pose proof (history_bounded f key h current Hf Hh Hk n g Hn). lia.
    - rewrite (history_none f key Hf Hk) in Hn. simpl in Hn. by rewrite lookup_empty in Hn. }
  split.
  - apply eq_None_not_Some. intros Hn%Hlt. lia.
  - apply btree_entries_insert_last. intros n Hn%Hlt. unfold cmp_ltb, cmp, N_cmp.
    by rewrite (proj2 (N.compare_lt_iff _ _) Hn).
Qed.

(** The revision that is entered completes its history. *)
Lemma enter_history f key graph results :
  let f' := enter_graph f key graph (default ∅ (gf_stage_graph_history f !! key)) results in
  good_file f → gf_stage_results f ⊆ results → continues f key graph →
  bad_graph f' key graph = false →
  bad_history f' (key, <[sg_plan_revision graph := graph]>
    (default ∅ (gf_stage_graph_history f !! key))) = false.
Proof.
  intros f' Hf Hsub Hc Hb. destruct (enter_fresh f key graph Hf Hc) as [_ He].
  apply bad_history_spec. exists graph. rewrite He.
  split_and!; [simpl; by rewrite lookup_insert_eq|by rewrite last_snoc|].
  assert (grows f f') as Hg by done.
  destruct (gf_stage_graphs f !! key) as [current|] eqn:Hk.
  - destruct (good_current f key current Hf Hk) as (h & Hh & _). rewrite Hh. simpl.
    apply (good_histories f Hf), bad_history_spec in Hh as (c & Hc' & Hl & Hr).
    assert (c = current) as -> by congruence.
    apply (bad_revisions_grows f f' _ _ _ Hg), bad_revisions_spec in Hr as (Hall & Hw & Hd).
    apply bad_revisions_spec. split_and!.
    + apply Forall_app. split; [done|]. by constructor.
    + rewrite windows2_any_snoc, Hw, Hl. simpl. by apply (Hc current).
    + intros e. by destruct (btree_entries h) as [|e' l] eqn:El.
  - rewrite (history_none f key Hf Hk).
    change (btree_entries (default ∅ None) ++ [(sg_plan_revision graph, graph)])
      with [(sg_plan_revision graph, graph)]. simpl. by rewrite N.eqb_refl, Hb.
Qed.

Lemma enter_graph_good f key graph results :
  let f' := enter_graph f key graph (default ∅ (gf_stage_graph_history f !! key)) results in
  good_file f → gf_stage_results f ⊆ results → continues f key graph →
  bad_graph f' key graph = false →
  map_Forall (λ k r, bad_result f' (k, r) = false) results → good_file f'.
Proof.
  intros f' Hf Hsub Hc Hb Hres. assert (grows f f') as Hg by done.
  pose proof (enter_history f key graph results Hf Hsub Hc Hb) as Hh'.
  destruct Hf as [??????? Hhist ?] eqn:Ef. clear Ef.
  constructor; try done.
  - apply map_Forall_insert_2; [done|]. intros k g Hk. by apply (bad_graph_grows f), good_graphs0.
  - simpl. rewrite !map_size_insert, good_size0.
    destruct (gf_stage_graphs f !! key) as [c|] eqn:Hk.
    + by destruct (good_current f key c Hf Hk) as (h & -> & _).
    + by rewrite (history_none f key Hf Hk).
  - apply map_Forall_lookup. intros k h Hk. simpl in Hk.
    apply lookup_insert_Some in Hk as [[<- <-]|[Hne Hk]]; [done|].
    apply Hhist, bad_history_spec in Hk as (c & Hc' & Hl & Hr). apply bad_history_spec.
    exists c. split_and!; [simpl; by rewrite lookup_insert_ne|done|by apply (bad_revisions_grows f)].
Qed.

Lemma enter_histories_grow f key graph results :
  good_file f → continues f key graph →
  histories_grow f
    (enter_graph f key graph (default ∅ (gf_stage_graph_history f !! key)) results).
Proof.
  intros Hf Hc k h Hk. simpl. destruct (decide (k = key)) as [->|Hne].
  - rewrite lookup_insert_eq, Hk. simpl. eexists. split; [done|].
    apply insert_subseteq. pose proof (proj1 (enter_fresh f key graph Hf Hc)) as Hfresh.
    by rewrite Hk in Hfresh.
  - rewrite lookup_insert_ne by done. eauto.
Qed.


(** ** Every call keeps the file loadable *)

Section disk.
Variable found : option GoalStoreFile.

(** The store is sound, and the file is the one found or sound as well. *)
Definition good_world (w : world) : Prop :=
  good_file w.1 ∧ from_option (λ d, Some d = found ∨ good_file d) True w.2.

(** Revisions are 64 bits wide. *)
Definition in_width (f : GoalStoreFile) : Prop :=
  map_Forall (λ _ g, (sg_plan_revision g <= u64_max)%N) (gf_stage_graphs f).

Lemma set_generation_good f n : good_file f → good_file (set_generation f n).
Proof.
  intros Hf. constructor; try apply Hf. intros k h Hl. apply bad_history_spec.
  destruct (proj1 (bad_history_spec f k h) (good_histories f Hf k h Hl)) as (c & ? & ? & ?).
  exists c. split_and!; try done. by apply (bad_revisions_grows f).
Qed.

Lemma commit_good {A} outcome f (w : world) (a : A) :
  good_file f → good_world w → good_world (commit_with outcome f w.2 a).1.
Proof.
  intros Hf [_ Hd]. split; simpl; [by apply set_generation_good|].
  apply (persist_good (λ d, Some d = found ∨ good_file d)); [|done].
  right. by apply set_generation_good.
Qed.

(** A change leaves the identifier and the revision to [mutate]. *)
Definition keeps_id (change : GoalRecord → result GoalRecord GoalStoreError) : Prop :=
  ∀ g g', change g = Ok g' → gr_goal_id g' = gr_goal_id g ∧ gr_revision g' = gr_revision g.

(** What a successful change of a goal does. *)
Lemma mutate_cases goal_id expected change now outcome w :
  (∃ e, mutate goal_id expected change now outcome w = (w, Err e)) ∨
  ∃ goal goal' sealed, gf_goals w.1 !! goal_id = Some goal ∧ gr_revision goal = expected ∧
    change goal = Ok goal' ∧ gr_validate sealed = Ok tt ∧
    sealed = gr_stamp goal' (saturating_add u64_max (gr_revision goal') 1) (instant_text now)
      (gr_content_fingerprint sealed) ∧
    mutate goal_id expected change now outcome w
      = commit_with outcome (put_goal w.1 goal_id sealed) w.2 sealed.
Proof.
  unfold mutate, get. destruct (gf_goals w.1 !! goal_id) as [goal|]; simpl; [|left; by eexists].
  destruct (negb _) eqn:Er; [left; by eexists|]. apply negb_false_iff, N.eqb_eq in Er.
  destruct (change goal) as [goal'|] eqn:Ec; [|left; by eexists].
  destruct (gr_seal _) as [sealed|] eqn:Es; [|left; by eexists].
  right. apply gr_seal_ok in Es as [Hv Heq]. exists goal, goal', sealed. split_and!; try done.
Qed.

Lemma mutate_good goal_id expected change now outcome w :
  good_world w → keeps_id change → good_world (mutate goal_id expected change now outcome w).1.
Proof.
  intros Hw Hkeep.
  destruct (mutate_cases goal_id expected change now outcome w)
    as [[e ->]|(goal & goal' & sealed & Hg & _ & Hc & Hv & Heq & ->)]; [done|].
  apply commit_good; [|done]. apply put_goal_good; [apply Hw|].
  unfold bad_goal. simpl. rewrite Hv. apply orb_false_iff. split; [|done].
  apply negb_false_iff, String.eqb_eq. rewrite Heq. simpl. rewrite (proj1 (Hkeep goal goal' Hc)).
  pose proof (good_goals w.1 (proj1 Hw) goal_id goal Hg) as Hb. unfold bad_goal in Hb. simpl in Hb.
  apply orb_false_iff in Hb as [Hb _]. by apply negb_false_iff, String.eqb_eq in Hb.
Qed.

Lemma gc_seal_ok goal_id overrides c :
  gc_seal goal_id overrides = Ok c → gc_validate c = Ok tt ∧ gc_goal_id c = goal_id.
Proof.
  unfold gc_seal, gc_validate. intros Hs. next_check Hs. bool_to_prop.
  destruct (config_fingerprint _ _) as [fp|] eqn:Hfp; [|done]. injection Hs as <-. simpl.
  match goal with H : len _ ≠ 0%N |- _ => apply N.eqb_neq in H as -> end.
  match goal with H : (len _ <= 128)%N |- _ => apply N.ltb_ge in H as -> end.
  match goal with H : config_too_large _ = _ |- _ => rewrite H end.
  match goal with H : windows2_any _ _ = false |- _ => rename H into Hw end.
  assert (windows2_any (λ a b : ConfigOverrideV1, cmp_leb (co_key b) (co_key a))
    (sort_by_key co_key overrides) = false) as ->.
  { assert (StronglySorted (λ a b, cmp_leb (co_key a) (co_key b) = true)
      (sort_by_key co_key overrides)) as Hs.
    { apply sort_by_sorted; intros; [by apply cmp_leb_total|by eapply cmp_leb_trans]. }
    revert Hs Hw. generalize (sort_by_key co_key overrides) as l. clear.
    induction 1 as [|a l Hs IH Hall]; [done|]. destruct l as [|b l]; [done|]. simpl.
    intros [Hne Hw]%orb_false_iff. apply orb_false_iff. split; [|by apply IH].
    apply String.eqb_neq in Hne. apply Forall_cons in Hall as [Hab _].
    destruct (cmp_leb (co_key b) (co_key a)) eqn:Hba; [|done].
    destruct Hne. by apply cmp_leb_antisym. }
  simpl. by rewrite Hfp, String.eqb_refl.
Qed.

Lemma start_good goal_id now request outcome w :
  good_world w → good_world (start goal_id now request outcome w).1.
Proof.
  intros Hw. unfold start. destruct (_ || _); [done|].
  destruct (start_fingerprint request) as [fp|]; [|done].
  destruct (gf_idempotency w.1 !! _) as [replay|]; [by destruct (negb _)|].
  unfold start_new, map_err. destruct (gr_seal _) as [goal|] eqn:Hs; [|done].
  apply gr_seal_ok in Hs as [Hv Heq].
  assert (bad_goal (goal_id, goal) = false) as Hb.
  { unfold bad_goal. simpl. rewrite Hv. apply orb_false_iff. split; [|done].
    apply negb_false_iff, String.eqb_eq. by rewrite Heq. }
  set (f := put_goal w.1 goal_id goal).
  assert (good_file f) as Hf by by apply put_goal_good; [apply Hw|].
  assert (∀ configs, map_Forall (λ k c, bad_config f (k, c) = false) configs →
    good_world (commit_with outcome (set_goals f (gf_goals f)
      (<[rq_idempotency_key request := {| rp_goal_id := goal_id; rp_input_fingerprint := fp |}]>
        (gf_idempotency f)) configs) w.2 goal).1) as Hcommit.
  { intros configs Hc. apply commit_good; [|done]. apply set_goals_good; try done; [apply Hf|].
    apply map_Forall_insert_2; [|apply Hf]. simpl. rewrite lookup_insert_eq. by eexists. }
  destruct (rq_config_overrides request) as [|o overrides]; simpl.
  - apply Hcommit, Hf.
  - destruct (gc_seal goal_id _) as [config|] eqn:Hc; simpl; [|split; [done|apply Hw]].
    apply Hcommit, map_Forall_insert_2; [|apply Hf]. apply gc_seal_ok in Hc as [Hcv Hid].
    unfold bad_config. simpl. rewrite Hcv, Hid, String.eqb_refl. simpl.
    assert (has_goal f goal_id = true) as ->; [|done].
    apply has_goal_spec. simpl. rewrite lookup_insert_eq. by eexists.
Qed.

Ltac keep_id := intros ? ? Hk;
  unfold answer_goal, plan_goal, continue_goal, pause_goal, resume_goal, cancel_goal, finish_goal in Hk;
  repeat first [ next_check Hk
               | match type of Hk with match ?x with _ => _ end = _ => destruct x; [|discriminate Hk] end
               | match type of Hk with match ?x with _ => _ end = _ => destruct x; [discriminate Hk|] end ];
  by injection Hk as <-.

Lemma answer_keeps id text : keeps_id (answer_goal id text).
Proof. keep_id. Qed.
Lemma plan_keeps items : keeps_id (plan_goal items).
Proof. keep_id. Qed.
Lemma continue_keeps run_id t : keeps_id (continue_goal run_id t).
Proof. keep_id. Qed.
Lemma pause_keeps : keeps_id pause_goal.
Proof. keep_id. Qed.
Lemma resume_keeps : keeps_id resume_goal.
Proof. keep_id. Qed.
Lemma cancel_keeps : keeps_id cancel_goal.
Proof. keep_id. Qed.
Lemma finish_keeps evidence : keeps_id (finish_goal evidence).
Proof. keep_id. Qed.

(** What a publication that is not a repetition or a refusal establishes. *)
Definition published (w w' : world) (graph : StageGraphV1) (expected : option N)
    (outcome : persist_outcome GoalStoreError) : Prop :=
  let key := sg_stage_graph_id graph in
  sg_verify graph = Ok tt ∧ is_Some (gf_goals w.1 !! sg_goal_id graph) ∧
  continues w.1 key graph ∧
  (∀ current, gf_stage_graphs w.1 !! key = Some current →
    expected = Some (sg_plan_revision current)) ∧
  w' = (commit_with outcome
    (enter_graph w.1 key graph (default ∅ (gf_stage_graph_history w.1 !! key))
       (gf_stage_results w.1)) w.2 graph).1.

Lemma next_continues f key current graph :
  good_file f → in_width f → gf_stage_graphs f !! key = Some current → current ≠ graph →
  sg_plan_revision graph = saturating_add u64_max (sg_plan_revision current) 1 →
  sg_previous_graph_fingerprint graph = Some (sg_graph_fingerprint current) →
  is_some_and (default ∅ (gf_stage_graph_history f !! key) !! sg_plan_revision graph)
    (λ existing, negb (bool_decide (existing = graph))) = false →
  continues f key graph.
Proof.
  intros Hf Hw Hk Hne Hrev Hfp Hs ? Hc. rewrite Hk in Hc. injection Hc as <-. split.
  - pose proof (Hw key current Hk) as Hwidth. simpl in Hwidth. unfold saturating_add in Hrev.
    destruct (decide (sg_plan_revision current = u64_max)) as [Hmax|Hmax]; [|lia].
    destruct (good_current f key current Hf Hk) as (h & Hh & Hcur).
    assert (sg_plan_revision graph = sg_plan_revision current) as Heq by lia.
    rewrite Heq, Hh in Hs. simpl in Hs. rewrite Hcur in Hs. simpl in Hs.
    apply negb_false_iff, bool_decide_eq_true in Hs. congruence.
  - unfold chain_broken. simpl. rewrite Hrev, N.eqb_refl. by rewrite bool_decide_true.
Qed.

Lemma publish_cases graph expected outcome w :
  good_file w.1 → in_width w.1 →
  let r := publish_stage_graph graph expected outcome w in
  r.1 = w ∧ (∀ g, r.2 = Ok g →
    g = graph ∧ gf_stage_graphs w.1 !! sg_stage_graph_id graph = Some graph) ∨
  published w r.1 graph expected outcome.
Proof.
  intros Hf Hwidth. unfold publish_stage_graph, published.
  destruct (sg_verify graph) as [[]|] eqn:Hv; [|by left].
  simpl. destruct (get w.1 (sg_goal_id graph)) as [goal|] eqn:Hg; [|by left].
  apply ok_or_Ok in Hg. simpl.
  set (key := sg_stage_graph_id graph).
  destruct (gf_stage_graphs w.1 !! key) as [current|] eqn:Hk; simpl.
  - case_bool_decide as Heq; [left; split; [done|]; intros g [= <-]; by subst|].
    case_bool_decide as He; [|by left]. simpl.
    destruct (_ || _) eqn:Hb; [by left|]. apply orb_false_iff in Hb as [Hrev Hfp].
    destruct (is_some_and _ _) eqn:Hs; [by left|]. right.
    apply negb_false_iff, N.eqb_eq in Hrev. apply negb_false_iff, bool_decide_eq_true in Hfp.
    split_and!; try done; [by eapply next_continues|by intros ? [= <-]].
  - destruct expected; simpl; [by left|].
    rewrite (history_none w.1 key Hf Hk). simpl. rewrite lookup_empty. simpl. right.
    split_and!; try done. intros c Hc. congruence.
Qed.

(** What is entered loads exactly when the results it names are there. *)
Lemma published_good w w' graph expected outcome :
  good_file w.1 → published w w' graph expected outcome →
  good_file w'.1 ↔ graph_result_refs_are_valid w.1 graph = true.
Proof.
  intros Hf (Hv & Hg & Hc & _ & ->). simpl.
  set (f' := enter_graph _ _ _ _ _). set (key := sg_stage_graph_id graph) in *.
  assert (grows w.1 f') as Hgrow by done. split.
  - intros Hf'. assert (bad_graph f' key graph = false) as Hb.
    { apply (good_graphs _ Hf'). simpl. apply lookup_insert_eq. }
    unfold bad_graph in Hb. apply orb_false_iff in Hb as [_ Hb]. by apply negb_false_iff in Hb.
  - intros Hrefs. apply set_generation_good, enter_graph_good; try done.
    + fold f'. unfold bad_graph. fold key. rewrite String.eqb_refl, Hv, (refs_grow w.1) by done.
      assert (has_goal f' (sg_goal_id graph) = true) as ->; [|done].
      by apply has_goal_spec, Hgrow.
    + intros k r Hk. apply (bad_result_grows w.1); [by apply enter_histories_grow|].
      by apply (good_results w.1 Hf).
Qed.


(** ** Recording a result *)

Lemma find_stage_spec id stages s :
  find_stage id stages = Some s → s ∈ stages ∧ ss_stage_id s = id.
Proof.
  unfold find_stage. intros Hf. destruct (list_find _ stages) as [[i s']|] eqn:Hl; [|done].
  injection Hf as ->. apply list_find_Some in Hl as (Hl & Hid & _).
  split; [by eapply list_elem_of_lookup_2|done].
Qed.

Lemma elem_of_update_stage id change stages s :
  NoDup (map ss_stage_id stages) →
  s ∈ update_stage id change stages →
  (s ∈ stages ∧ ss_stage_id s ≠ id) ∨
  ∃ s0, s0 ∈ stages ∧ ss_stage_id s0 = id ∧ s = change s0.
Proof.
  induction stages as [|a stages IH]; simpl; [set_solver|].
  intros [Ha Hnd]%NoDup_cons. case_bool_decide as Hid.
  - intros [->|Hs]%elem_of_cons; [right; exists a; set_solver|]. left. split; [set_solver|].
    intros Heq. apply Ha, list_elem_of_fmap. exists s. split; [congruence|done].
  - intros [->|Hs]%elem_of_cons; [left; set_solver|].
    destruct (IH Hnd Hs) as [[? ?]|(s0 & ? & ? & ?)]; [left; set_solver|right; set_solver].
Qed.

Lemma updated_stage id change stages s :
  find_stage id stages = Some s → change s ∈ update_stage id change stages.
Proof.
  unfold find_stage. induction stages as [|a stages IH]; simpl; [done|].
  case_decide as Hid.
  - intros [= ->]. rewrite bool_decide_true by done. left.
  - rewrite bool_decide_false by done. intros Hf. right. apply IH.
    destruct (list_find _ stages) as [[i s']|]; [|done]. by simpl in *.
Qed.

Lemma kept_stage id change stages s :
  s ∈ stages → ss_stage_id s ≠ id → s ∈ update_stage id change stages.
Proof.
  induction stages as [|a stages IH]; simpl; [set_solver|].
  intros [->|Hs]%elem_of_cons Hne; case_bool_decide; set_solver.
Qed.

(** The sealed stages are the stages, each sealed. *)
Lemma sealed_stages g g' :
  sg_seal g = Ok g' →
  (∀ s', s' ∈ sg_stages g' → ∃ s, s ∈ sg_stages g ∧ ss_seal s = Ok s') ∧
  (∀ s, s ∈ sg_stages g → ∃ s', s' ∈ sg_stages g' ∧ ss_seal s = Ok s').
Proof.
  intros (stages & fp & Hm & _ & _ & _ & ->)%sg_seal_ok. simpl.
  apply map_result_Forall2 in Hm. unfold sort_by_key. split.
  - intros s' Hs'. rewrite elem_of_sort_by in Hs'. apply list_elem_of_lookup in Hs' as [i Hi].
    destruct (Forall2_lookup_r _ _ _ _ _ Hm Hi) as (s & Hs & ?).
    exists s. split; [by eapply list_elem_of_lookup_2|done].
  - intros s Hs. apply list_elem_of_lookup in Hs as [i Hi].
    destruct (Forall2_lookup_l _ _ _ _ _ Hm Hi) as (s' & Hs' & ?).
    exists s'. rewrite elem_of_sort_by. split; [by eapply list_elem_of_lookup_2|done].
Qed.

Lemma ss_seal_keeps s s' :
  ss_seal s = Ok s' →
  ss_stage_id s' = ss_stage_id s ∧ ss_state s' = ss_state s ∧
  ss_result_ref s' = ss_result_ref s ∧ ss_revision s' = ss_revision s.
Proof. by intros (? & ? & ? & ? & _ & _ & _ & _ & _ & ->)%ss_seal_ok. Qed.

(** The stage a result puts in its state. *)
Definition settled (result : StageResultV1) (s : StageSpecV1) : Prop :=
  ss_stage_id s = dr_document_id (sr_stage_ref result) ∧
  ss_result_ref s = Some (sr_reference result) ∧ ss_state s = terminal_state result.

(** The next graph differs from the current one in the stage of the result. *)
Lemma graph_after_stages current stage result n m next :
  sg_verify current = Ok tt →
  find_stage (dr_document_id (sr_stage_ref result)) (sg_stages current) = Some stage →
  sg_seal (graph_after current stage result n m) = Ok next →
  (∃ s, s ∈ sg_stages next ∧ settled result s ∧ ss_revision s = m) ∧
  (∀ s, s ∈ sg_stages next → settled result s ∨
    s ∈ sg_stages current ∧ ss_stage_id s ≠ dr_document_id (sr_stage_ref result)) ∧
  (∀ s, s ∈ sg_stages current → ss_stage_id s ≠ dr_document_id (sr_stage_ref result) →
    s ∈ sg_stages next).
Proof.
  intros [Hg Hss]%sg_verify_checks Hfind Hseal.
  pose proof (find_stage_spec _ _ _ Hfind) as [Hin Hid].
  apply sealed_stages in Hseal as [Hback Hforth]. simpl in Hback, Hforth.
  rewrite Hid in Hback, Hforth. rewrite Forall_forall in Hss. split_and!.
  - destruct (Hforth _ (updated_stage _ _ _ _ Hfind)) as (s' & Hs' & Hseal).
    apply ss_seal_keeps in Hseal as (? & ? & ? & ?). exists s'. unfold settled.
    simpl in *. split_and!; congruence.
  - intros s' (s & Hs & Hseal)%Hback.
    apply elem_of_update_stage in Hs as [[Hs Hne]|(s0 & Hs0 & Hid0 & ->)]; [| |apply Hg].
    + right. specialize (Hss s Hs). apply ss_verify_sealed in Hss.
      assert (s' = s) as -> by congruence. done.
    + left. apply ss_seal_keeps in Hseal as (? & ? & ? & ?). unfold settled.
      simpl in *. split_and!; congruence.
  - intros s Hs Hne. destruct (Hforth s (kept_stage _ _ _ _ Hs Hne)) as (s' & Hs' & Hseal).
    specialize (Hss s Hs). apply ss_verify_sealed in Hss. by assert (s' = s) as -> by congruence.
Qed.

(** What [next_graph] establishes. *)
Lemma next_graph_ok f result g_rev s_rev next :
  next_graph f result g_rev s_rev = Ok next →
  ∃ current stage,
    gf_stage_graphs f !! dr_document_id (sr_stage_graph_ref result) = Some current ∧
    sg_plan_revision current = g_rev ∧
    find_stage (dr_document_id (sr_stage_ref result)) (sg_stages current) = Some stage ∧
    ss_revision stage = s_rev ∧ sr_verify_against result current stage = Ok tt ∧
    completion_refused current stage result = false ∧
    (sg_plan_revision current < u64_max)%N ∧ (ss_revision stage < u64_max)%N ∧
    sg_seal (graph_after current stage result (sg_plan_revision current + 1)
      (ss_revision stage + 1)) = Ok next.
Proof.
  unfold next_graph, stage_graph, checked_succ, map_err. intros Hn.
  destruct (gf_stage_graphs f !! _) as [current|] eqn:Hk; [|done]. simpl in Hn.
  next_check Hn. bool_to_prop.
  destruct (find_stage _ _) as [stage|] eqn:Hs; [|done]. simpl in Hn. next_check Hn. bool_to_prop.
  destruct (sr_verify_against result current stage) as [[]|] eqn:Hv; [|done]. simpl in Hn.
  next_check Hn. destruct (sg_plan_revision current <? u64_max)%N eqn:E1; [|done].
  destruct (ss_revision stage <? u64_max)%N eqn:E2; [|done]. bool_to_prop.
  destruct (sg_seal _) as [g|] eqn:Hseal; [|done]. injection Hn as ->.
  exists current, stage. by split_and!.
Qed.


Lemma verify_against_inv r graph stage :
  sr_verify_against r graph stage = Ok tt →
  sr_verify r = Ok tt ∧ sg_verify graph = Ok tt ∧
  sr_goal_id r = sg_goal_id graph ∧ sr_stage_graph_ref r = sg_reference graph ∧
  sr_stage_ref r = ss_reference stage ∧ stage ∈ sg_stages graph ∧ ss_state stage ≠ Completed ∧
  (sr_outcome r = OutcomeCompleted →
    sr_completed_criteria r = ss_completion_criteria stage ∧
    map pe_project_id (sr_project_evidence r) = ss_project_ids stage).
Proof.
  unfold sr_verify_against. intros Hv. err_cases Hv. bool_to_prop. split_and!; try done.
  - by apply mem_true.
  - by destruct (ss_state stage).
  - intros Ho. rewrite bool_decide_eq_true_2 in * by done. by bool_to_prop.
Qed.

Lemma sg_seal_keeps g g' :
  sg_seal g = Ok g' →
  sg_verify g' = Ok tt ∧ sg_stage_graph_id g' = sg_stage_graph_id g ∧
  sg_goal_id g' = sg_goal_id g ∧ sg_plan_revision g' = sg_plan_revision g ∧
  sg_previous_graph_fingerprint g' = sg_previous_graph_fingerprint g.
Proof.
  intros Hs. split; [by apply sg_verify_sealed, (sg_seal_idem g)|].
  by apply sg_seal_ok in Hs as (stages & fp & _ & _ & _ & _ & ->).
Qed.

Lemma good_graph_key f key graph :
  good_file f → gf_stage_graphs f !! key = Some graph →
  sg_stage_graph_id graph = key ∧ is_Some (gf_goals f !! sg_goal_id graph) ∧
  sg_verify graph = Ok tt ∧ graph_result_refs_are_valid f graph = true.
Proof.
  intros Hf Hk. pose proof (good_graphs f Hf key graph Hk) as Hb. unfold bad_graph in Hb.
  rewrite !orb_false_iff, !negb_false_iff, String.eqb_eq, has_goal_spec in Hb.
  destruct Hb as (((-> & ?) & Hv) & ?). split_and!; try done. by destruct (sg_verify graph) as [[]|].
Qed.

(** A new result as a step of the store. *)
Record recorded (w : world) (result : StageResultV1) (g_rev s_rev : N)
    (current next : StageGraphV1) (stage : StageSpecV1) : Prop := {
  rec_verified : sr_verify_against result current stage = Ok tt;
  rec_new : gf_stage_results w.1 !! sr_stage_result_id result = None;
  rec_current : gf_stage_graphs w.1 !! dr_document_id (sr_stage_graph_ref result) = Some current;
  rec_graph_revision : sg_plan_revision current = g_rev;
  rec_room : (g_rev < u64_max)%N;
  rec_stage : find_stage (dr_document_id (sr_stage_ref result)) (sg_stages current) = Some stage;
  rec_stage_revision : ss_revision stage = s_rev;
  rec_allowed : completion_refused current stage result = false;
  rec_sealed : sg_seal (graph_after current stage result (g_rev + 1) (s_rev + 1)) = Ok next
}.

Lemma record_cases result g_rev s_rev outcome (w : world) :
  good_file w.1 →
  let r := record_stage_result result g_rev s_rev outcome w in
  (r.1 = w ∧ ∀ a, r.2 = Ok a → gf_stage_results w.1 !! sr_stage_result_id result = Some result) ∨
  ∃ current next stage, recorded w result g_rev s_rev current next stage ∧
    let key := dr_document_id (sr_stage_graph_ref result) in
    r = commit_with outcome
      (enter_graph w.1 key next (default ∅ (gf_stage_graph_history w.1 !! key))
         (<[sr_stage_result_id result := result]> (gf_stage_results w.1))) w.2 (result, next).
Proof.
  intros Hf. unfold record_stage_result. simpl. destruct (_ || _); [by left|].
  destruct (gf_stage_results w.1 !! sr_stage_result_id result) as [existing|] eqn:Hnew.
  { left. split; [done|]. intros a. simpl. unfold replayed_result. case_bool_decide; [|done].
    intros _. by subst. }
  destruct (next_graph _ _ _ _) as [next|] eqn:Hn; [|by left].
  apply next_graph_ok in Hn as (current & stage & Hk & Hg & Hs & Hr & Hv & Ha & Hroom & _ & Hseal).
  destruct (good_current w.1 _ current Hf Hk) as (h & Hh & _). rewrite Hh.
  destruct (is_some (h !! sg_plan_revision next)); [by left|].
  right. exists current, next, stage. split; [|done]. rewrite Hg in Hroom. rewrite Hg, Hr in Hseal. by constructor.
Qed.

Lemma recorded_continues w result g_rev s_rev current next stage :
  good_file w.1 → recorded w result g_rev s_rev current next stage →
  continues w.1 (dr_document_id (sr_stage_graph_ref result)) next.
Proof.
  intros Hf [Hv _ Hk Hg Hroom _ _ _ Hseal]. apply sg_seal_keeps in Hseal as (_ & _ & _ & Hrev & Hfp).
  intros c Hc. rewrite Hk in Hc. injection Hc as <-. simpl in Hrev, Hfp.
  unfold chain_broken, saturating_add. simpl. rewrite Hrev, Hfp, Hg. split; [lia|].
  rewrite N.min_r, N.eqb_refl by lia. by rewrite bool_decide_true.
Qed.

(** The references of the next graph, with the new result stored. *)
Lemma recorded_refs w result g_rev s_rev current next stage f' :
  good_file w.1 → recorded w result g_rev s_rev current next stage →
  grows w.1 f' → gf_stage_results f' !! sr_stage_result_id result = Some result →
  graph_result_refs_are_valid f' next = true.
Proof.
  intros Hf Hrec Hgrow Hnew. destruct Hrec as [Hv _ Hk _ _ Hs _ _ Hseal].
  destruct (good_graph_key w.1 _ current Hf Hk) as (_ & _ & Hsg & Hrefs).
  pose proof (sg_seal_keeps _ _ Hseal) as (_ & _ & Hgoal & _). simpl in Hgoal.
  apply verify_against_inv in Hv as (_ & _ & Hrg & _).
  destruct (graph_after_stages _ _ _ _ _ _ Hsg Hs Hseal) as (_ & Hall & _).
  apply (refs_grow w.1 f') in Hrefs; [|done].
  unfold graph_result_refs_are_valid in *. rewrite forallb_true in *. intros s Hs'.
  destruct (Hall s Hs') as [(Hid & Href & Hst)|[Hin _]].
  - rewrite Href. simpl. rewrite Hnew. simpl.
    rewrite Hgoal, <-Hrg, Hid, Hst, !String.eqb_refl, !bool_decide_true by done. done.
  - specialize (Hrefs s Hin). by rewrite Hgoal.
Qed.

Lemma recorded_good w result g_rev s_rev current next stage outcome :
  let key := dr_document_id (sr_stage_graph_ref result) in
  good_world w → recorded w result g_rev s_rev current next stage →
  good_world (commit_with outcome
    (enter_graph w.1 key next (default ∅ (gf_stage_graph_history w.1 !! key))
       (<[sr_stage_result_id result := result]> (gf_stage_results w.1))) w.2 (result, next)).1.
Proof.
  intros key Hw Hrec. pose proof (proj1 Hw) as Hf.
  set (f' := enter_graph _ _ _ _ _). apply commit_good; [|done].
  pose proof (recorded_continues _ _ _ _ _ _ _ Hf Hrec) as Hc.
  assert (gf_stage_results w.1 ⊆ <[sr_stage_result_id result:=result]> (gf_stage_results w.1))
    as Hsub by (apply insert_subseteq, Hrec).
  assert (grows w.1 f') as Hgrow by done.
  assert (gf_stage_results f' !! sr_stage_result_id result = Some result) as Hnew
    by apply lookup_insert_eq.
  pose proof (recorded_refs _ _ _ _ _ _ _ _ Hf Hrec Hgrow Hnew) as Hrefs.
  destruct Hrec as [Hv _ Hk Hg _ Hs _ _ Hseal].
  destruct (good_graph_key w.1 _ current Hf Hk) as (Hid & Hgoal & Hsg & _).
  pose proof (sg_seal_keeps _ _ Hseal) as (Hnv & Hnid & Hng & Hnrev & _). simpl in *.
  pose proof (verify_against_inv _ _ _ Hv) as (Hrv & _ & _ & Hgref & Hsref & _).
  apply enter_graph_good; try done.
  - fold f'. unfold bad_graph. rewrite Hnid, Hid, String.eqb_refl, Hnv, Hrefs.
    assert (has_goal f' (sg_goal_id next) = true) as ->; [|done].
    apply has_goal_spec, Hgrow. by rewrite Hng.
  - apply map_Forall_insert_2; [|intros k r Hr; apply (bad_result_grows w.1);
      [by apply enter_histories_grow|by apply (good_results w.1 Hf)]].
    apply bad_result_spec. split_and!; try done.
    destruct (good_current w.1 _ current Hf Hk) as (h & Hh & Hcur).
    destruct (enter_histories_grow w.1 _ next
      (<[sr_stage_result_id result:=result]> (gf_stage_results w.1)) Hf Hc _ _ Hh)
      as (h' & Hh' & Hsub').
    exists h', current, stage. split_and!; try done.
    { rewrite Hgref. by eapply lookup_weaken. }
    exists (sg_plan_revision next), next. split.
    + simpl in Hh'. rewrite lookup_insert_eq in Hh'. injection Hh' as <-. apply lookup_insert_eq.
    + destruct (graph_after_stages _ _ _ _ _ _ Hsg Hs Hseal) as ((s & Hin & (? & ? & ?) & _) & _).
      unfold records_result. apply existsb_true. exists s. split; [done|].
      by rewrite !andb_true_iff, String.eqb_eq, !bool_decide_eq_true.
Qed.

Lemma record_good result g_rev s_rev outcome w :
  good_world w → good_world (record_stage_result result g_rev s_rev outcome w).1.
Proof.
  intros Hw. destruct (record_cases result g_rev s_rev outcome w (proj1 Hw))
    as [[-> _]|(current & next & stage & Hrec & Heq)]; [done|].
  simpl in Heq. rewrite Heq. by eapply recorded_good.
Qed.


Lemma publish_good graph expected outcome w :
  good_world w → in_width w.1 → graph_result_refs_are_valid w.1 graph = true →
  good_world (publish_stage_graph graph expected outcome w).1.
Proof.
  intros Hw Hwidth Hrefs.
  destruct (publish_cases graph expected outcome w (proj1 Hw) Hwidth) as [[-> _]|Hp]; [done|].
  simpl in Hp. pose proof (proj2 (published_good _ _ _ _ _ (proj1 Hw) Hp) Hrefs) as Hg.
  destruct Hp as (_ & _ & _ & _ & Heq). rewrite Heq in Hg |- *. split; [exact Hg|].
  apply (persist_good (λ d, Some d = found ∨ good_file d)); [by right|apply Hw].
Qed.

Lemma complete_good goal_id revision graph_id evidence now outcome w :
  good_world w → good_world (complete_goal goal_id revision graph_id evidence now outcome w).1.
Proof.
  intros Hw. unfold complete_goal. destruct (stage_graph _ _) as [g|]; [|done].
  destruct (_ || _); [done|]. destruct (negb _); [done|].
  destruct (get w.1 goal_id) as [goal|]; [|done]. destruct (_ || _); [done|].
  by apply mutate_good, finish_keeps.
Qed.

(** What the environment owes a call: a published revision is 64 bits wide, and
    the results it names are stored. *)
Definition call_ok (w : world) (c : goal_call) : Prop :=
  match c with
  | CallPublish graph _ =>
      (sg_plan_revision graph <= u64_max)%N ∧ graph_result_refs_are_valid w.1 graph = true
  | _ => True
  end.

Lemma goal_step_good w c :
  good_world w → in_width w.1 → call_ok w c.1 → good_world (goal_step w c).
Proof.
  intros Hw Hwidth Hc. destruct c as [c o]. unfold goal_step.
  destruct c as [| | | | | | |graph e|result g s|]; cbv zeta beta iota delta [fst snd].
  - by apply start_good.
  - unfold answer. destruct (_ || _); [done|]. by apply mutate_good, answer_keeps.
  - unfold update_plan. destruct (_ || _); [done|]. by apply mutate_good, plan_keeps.
  - by apply mutate_good, continue_keeps.
  - unfold pause. destruct (get _ _) as [goal|]; [|done]. case_bool_decide; [done|].
    by apply mutate_good, pause_keeps.
  - unfold resume. destruct (get _ _) as [goal|]; [|done].
    destruct (gr_status goal); try done. by apply mutate_good, resume_keeps.
  - unfold cancel. destruct (get _ _) as [goal|]; [|done]. case_bool_decide; [done|].
    by apply mutate_good, cancel_keeps.
  - destruct Hc. by apply publish_good.
  - by apply record_good.
  - by apply complete_good.
Qed.

End disk.

(** ** The graphs a call may change *)

Definition same_graphs (w w' : world) : Prop :=
  gf_stage_graphs w'.1 = gf_stage_graphs w.1 ∧
  gf_stage_graph_history w'.1 = gf_stage_graph_history w.1 ∧
  gf_stage_results w'.1 = gf_stage_results w.1.

Lemma mutate_graphs goal_id expected change now outcome (w : world) :
  same_graphs w (mutate goal_id expected change now outcome w).1.
Proof.
  by destruct (mutate_cases goal_id expected change now outcome w)
    as [[e ->]|(? & ? & ? & _ & _ & _ & _ & _ & ->)].
Qed.

Lemma start_graphs goal_id now request outcome (w : world) :
  same_graphs w (start goal_id now request outcome w).1.
Proof.
  unfold start, start_new. repeat case_match; done.
Qed.

Lemma goal_step_graphs (w : world) c :
  match c.1 with CallPublish _ _ | CallRecord _ _ _ => True | _ => same_graphs w (goal_step w c) end.
Proof.
  destruct c as [[] o]; try done; cbv zeta beta iota delta [fst snd goal_step].
  - apply start_graphs.
  - unfold answer. destruct (_ || _); [done|]. apply mutate_graphs.
  - unfold update_plan. destruct (_ || _); [done|]. apply mutate_graphs.
  - apply mutate_graphs.
  - unfold pause. destruct (get _ _) as [goal|]; [|done]. case_bool_decide; [done|]. apply mutate_graphs.
  - unfold resume. destruct (get _ _) as [goal|]; [|done].
    destruct (gr_status goal); try done. apply mutate_graphs.
  - unfold cancel. destruct (get _ _) as [goal|]; [|done]. case_bool_decide; [done|]. apply mutate_graphs.
  - unfold complete_goal. destruct (stage_graph _ _) as [g|]; [|done].
    destruct (_ || _); [done|]. destruct (negb _); [done|].
    destruct (get w.1 _) as [goal|]; [|done]. destruct (_ || _); [done|]. apply mutate_graphs.
Qed.


Lemma goal_step_width (w : world) c :
  good_file w.1 → in_width w.1 → call_ok w c.1 → in_width (goal_step w c).1.
Proof.
  intros Hf Hw Hc. pose proof (goal_step_graphs w c) as Hs. destruct c as [c o]. simpl in Hs, Hc.
  destruct c; try (unfold in_width; by rewrite (proj1 Hs)); clear Hs; unfold goal_step; simpl.
  - destruct (publish_cases graph expected_previous_revision o w Hf Hw)
      as [[-> _]|(_ & _ & _ & _ & Heq)]; [done|]. rewrite Heq.
    apply map_Forall_insert_2; [apply Hc|done].
  - destruct (record_cases result expected_graph_revision expected_stage_revision o w Hf)
      as [[-> _]|(current & next & stage & Hrec & Heq)]; [done|]. simpl in Heq. rewrite Heq.
    apply map_Forall_insert_2; [|done]. destruct Hrec as [_ _ _ _ Hroom _ _ _ Hseal].
    apply sg_seal_keeps in Hseal as (_ & _ & _ & -> & _). simpl. lia.
Qed.

(** Calls whose publications name stored results only. *)
Fixpoint fair (w : world) (calls : list (goal_call * persist_outcome GoalStoreError)) : Prop :=
  match calls with
  | [] => True
  | c :: calls => call_ok w c.1 ∧ fair (goal_step w c) calls
  end.

Lemma goal_run_good found w calls :
  good_world found w → in_width w.1 → fair w calls →
  good_world found (goal_run w calls) ∧ in_width (goal_run w calls).1.
Proof.
  revert w. induction calls as [|c calls IH]; intros w Hw Hwidth Hfair; [done|].
  destruct Hfair as [Hc Hfair]. simpl. apply IH; [by apply goal_step_good| |done].
  by apply goal_step_width; [apply Hw| |].
Qed.

(** C29: what the store writes it can load: after any sequence of calls on a
    loaded store in which published graphs name stored results only, whatever
    becomes of each write, the store in memory loads as it is, and so does the
    file on disk unless it is still the one that was found. *)
Theorem goal_store_reloads r f calls (Hload : load r = Ok f) (Hwidth : in_width f)
    (Hfair : fair (f, read_disk r) calls) :
  let w := goal_run (f, read_disk r) calls in
  load (ReadParsed (Some w.1)) = Ok w.1 ∧
  ∀ d, w.2 = Some d → Some d = read_disk r ∨ load (ReadParsed (Some d)) = Ok d.
Proof.
  assert (good_world (read_disk r) (f, read_disk r)) as Hw.
  { split; [by eapply goals_load_result|]. simpl. destruct (read_disk r); simpl; auto. }
  destruct (goal_run_good _ _ _ Hw Hwidth Hfair) as [[Hm Hd] _].
  split; [by apply goals_load_good|]. intros d Heq. rewrite Heq in Hd. simpl in Hd.
  destruct Hd as [?|?]; [by left|]. right. by apply goals_load_good.
Qed.

(** A parsed file is loaded, or corrupt. *)
Lemma load_fills d f :
  load (ReadParsed (Some d)) = Ok f → good_file f ∧ f = fill_history d.
Proof.
  intros Hl. split; [by eapply goals_load_result|]. unfold load in Hl. simpl in Hl.
  next_check Hl. next_check Hl. by injection Hl.
Qed.

Lemma load_refuses d :
  (∀ f, load (ReadParsed (Some d)) ≠ Ok f) → load (ReadParsed (Some d)) = Err Corrupt.
Proof.
  intros Hn. destruct (load (ReadParsed (Some d))) as [f|e] eqn:Hl; [by destruct (Hn f)|].
  unfold load in Hl. simpl in Hl. by repeat case_match; simplify_eq.
Qed.

(** A published graph can make the store unreadable: a publication that is
    stored leaves a file that loads exactly when every result the graph names
    is stored, of its goal and stage, and agrees with the stage's state; the
    publication itself does not ask. *)
Theorem published_graph_reloads_exactly r f graph expected w' g
    (Hload : load r = Ok f) (Hwidth : in_width f)
    (Hrun : publish_stage_graph graph expected Persisted (f, read_disk r) = (w', Ok g))
    (Hnew : gf_stage_graphs f !! sg_stage_graph_id graph ≠ Some graph) :
  ∃ d, w'.2 = Some d ∧ gf_stage_graphs d !! sg_stage_graph_id graph = Some graph ∧
    (graph_result_refs_are_valid f graph = true → load (ReadParsed (Some d)) = Ok d) ∧
    (graph_result_refs_are_valid f graph = false → load (ReadParsed (Some d)) = Err Corrupt).
Proof.
  pose proof (goals_load_result r f Hload) as Hf.
  destruct (publish_cases graph expected Persisted (f, read_disk r) Hf Hwidth) as [[_ Hd]|Hp];
    rewrite Hrun in *; [by destruct (Hd g eq_refl)|].
  pose proof (published_good (f, read_disk r) _ _ _ _ Hf Hp) as Hiff. simpl in Hp, Hiff.
  destruct Hp as (_ & _ & _ & _ & Heq). rewrite Heq in Hiff |- *. simpl in Hiff |- *.
  eexists. split; [done|]. split; [apply lookup_insert_eq|]. split.
  - intros Hrefs. by apply goals_load_good, Hiff.
  - intros Hrefs. apply load_refuses. intros f' Hg. apply load_fills in Hg as [Hg Hfill].
    pose proof (good_graphs _ Hg (sg_stage_graph_id graph) graph) as Hb. rewrite Hfill in Hb.
    unfold bad_graph in Hb. rewrite !orb_false_iff, !negb_false_iff in Hb.
    destruct Hb as [_ Hb]; [apply lookup_insert_eq|].
    change (graph_result_refs_are_valid f graph = true) in Hb. congruence.
Qed.

End facts.

(** ** Instances

    A goal with a plan of one stage, from its start to a stored result. *)

Definition solo_stage : StageSpecV1 := example_stage "stg_build" Execute ["src/core"] [] None.

Definition solo_input (revision : N) (stage : StageSpecV1) : StageGraphPlanInput :=
  {| gi_goal_id := "gol_1"; gi_plan_revision := revision; gi_stages := [stage]; gi_edges := [];
     gi_parallel_groups := []; gi_critical_path := []; gi_integration_stage_id := None |}.

Definition solo_graph : StageGraphV1 :=
  unwrap_or (build_stage_graph (solo_input 1 solo_stage)) example_graph.

Definition solo_request : GoalStartRequest :=
  {| rq_objective := " objective "; rq_project_key := Some "prj"; rq_question := None;
     rq_idempotency_key := "key";
     rq_config_overrides := [{| co_key := "profile"; co_value := ConfigString "feature" |}] |}.

Definition solo_plan (status : GoalPlanItemStatus) : list GoalPlanItem :=
  [{| gi_item_id := "build"; gi_step := "step"; gi_status := status |}].

Definition solo_result : StageResultV1 :=
  let stage := default solo_stage (head (sg_stages solo_graph)) in
  let raw :=
    {| sr_schema_id := STAGE_RESULT_SCHEMA_ID; sr_schema_version := 1;
       sr_stage_result_id := "srs_1"; sr_revision := 1; sr_goal_id := "gol_1";
       sr_stage_graph_ref := sg_reference solo_graph; sr_stage_ref := ss_reference stage;
       sr_outcome := OutcomeCompleted; sr_completed_criteria := ["done"];
       sr_project_evidence := sr_project_evidence example_result;
       sr_execution_record_ref := None; sr_failure_code := None; sr_recovery_action := None;
       sr_source_effect_may_have_started := true; sr_recorded_at := 0%Z;
       sr_result_fingerprint := example_hash |} in
  unwrap_or (sr_seal raw) raw.

Definition second_ms (n : Z) : Z := (10 ^ 18 + n * 10 ^ 9)%Z.

(** Up to the publication of the plan. *)
Definition solo_calls : list (goal_call * persist_outcome GoalStoreError) :=
  [(CallStart "gol_1" (second_ms 0) solo_request, Persisted);
   (CallUpdatePlan "gol_1" 1 (solo_plan ItemCompleted) (second_ms 1), Persisted);
   (CallContinue "gol_1" 2 "run_1" (second_ms 2) (second_ms 2), Persisted);
   (CallPublish solo_graph None, PersistLost Io)].

Definition solo_world : world := goal_run (GoalStoreFile_default, None) solo_calls.

Definition solo_evidence : DocumentRef :=
  default (sr_reference solo_result)
    (pe_evidence_bundle_ref <$> head (sr_project_evidence solo_result)).

(** The stage of the plan failed, by a result that no call recorded. *)
Definition solo_replanned : StageGraphV1 :=
  unwrap_or
    (replan_stage_graph solo_graph
       (solo_input 2 (ss_with_result solo_stage 1 Failed (sr_reference solo_result))) "failed")
    example_graph.

Lemma solo_loads : load (ReadParsed (Some solo_world.1)) = Ok solo_world.1.
Proof. vm_compute. reflexivity. Qed.

Lemma goal_store_reloads_witness :
  load (ReadParsed (Some solo_world.1)) = Ok solo_world.1.
Proof.
  refine (proj1 (goal_store_reloads ReadMissing GoalStoreFile_default solo_calls _ _ _)).
  - vm_compute. reflexivity.
  - intros k g Hk. by vm_compute in Hk.
  - repeat split; vm_compute; done.
Defined.

Lemma solo_width : in_width solo_world.1.
Proof.
  apply (map_Forall_lookup_2 (λ _ g, (sg_plan_revision g <= u64_max)%N)). intros k g Hk.
  assert (gf_stage_graphs solo_world.1 = {[sg_stage_graph_id solo_graph := solo_graph]}) as Heq
    by (vm_compute; reflexivity).
  rewrite Heq, lookup_singleton_Some in Hk. destruct Hk as [_ <-]. by vm_compute.
Qed.

Lemma published_graph_reloads_exactly_witness :
  ∃ d, load (ReadParsed (Some d)) = Err Corrupt.
Proof.
  destruct (published_graph_reloads_exactly (ReadParsed (Some solo_world.1)) solo_world.1
    solo_replanned (Some 1%N)
    (publish_stage_graph solo_replanned (Some 1%N) Persisted
       (solo_world.1, Some solo_world.1)).1 solo_replanned solo_loads solo_width)
    as (d & _ & _ & _ & Hd).
  - vm_compute. reflexivity.
  - vm_compute. discriminate.
  - exists d. apply Hd. vm_compute. reflexivity.
Defined.
