(* ===== verification/GoalProgress.v ===== *)
(** * What the goal store promises

    On the graphs and results it keeps, on completed goals, on revisions and on
    repeated starts. *)
From S2P Require Import Prelude Canonical Toy Contracts Evidence Persist Config Goal.
From S2P Require Import Stage StageFacts Orchestration GoalStore GoalStoreFacts.

Section facts.
Context `{Platform, Instants}.

(** ** Results *)

Lemma completed_has_result s :
  ss_verify s = Ok tt → ss_state s = Completed → ∃ reference, ss_result_ref s = Some reference.
Proof.
  intros Hv%ss_verify_sealed Hst.
  apply ss_seal_ok in Hv as (iw & ew & cs & fp & _ & _ & _ & Hshape & _ & Heq).
  assert (ss_result_ref s = ss_result_ref s ∧ ss_state s = Completed) as _ by done.
  unfold ss_validate_shape in Hshape. do 4 next_check Hshape.
  cbn [ss_state ss_result_ref ss_with_collections] in Hshape. rewrite Hst in Hshape.
  destruct (ss_result_ref s) as [reference|]; [by eexists|done].
Qed.

Lemma completed_outcome r : terminal_state r = Completed → sr_outcome r = OutcomeCompleted.
Proof. unfold terminal_state. by destruct (sr_outcome r). Qed.

Lemma unique_stage graph s s' :
  sg_verify graph = Ok tt → s ∈ sg_stages graph → s' ∈ sg_stages graph →
  ss_stage_id s = ss_stage_id s' → s = s'.
Proof.
  intros [Hg _]%sg_verify_checks Hs Hs' Hid. pose proof (gc_unique graph Hg) as Hnd.
  apply list_elem_of_lookup in Hs as [i Hi]. apply list_elem_of_lookup in Hs' as [j Hj].
  assert (i = j) as ->.
  { apply (NoDup_lookup _ i j (ss_stage_id s)) in Hnd; [done| |].
    - by rewrite list_lookup_fmap, Hi.
    - by rewrite list_lookup_fmap, Hj, Hid. }
  congruence.
Qed.

(** C14: a new result moves its graph by one revision and one stage: the next
    graph verifies, is linked to the current one and differs from it in the
    stage of the result, which takes the terminal state and names the result;
    completed stages are kept; a completed result follows completed
    dependencies; and the result, the next graph and the old revision are all
    served. *)
Theorem recorded_result_advances (w w' : world) result result' next g_rev s_rev outcome
    (Hload : load (ReadParsed (Some w.1)) = Ok w.1)
    (Hnew : stage_result w.1 (sr_stage_result_id result) = Err NotFound)
    (Hrun : record_stage_result result g_rev s_rev outcome w = (w', Ok (result', next))) :
  let key := dr_document_id (sr_stage_graph_ref result) in
  let id := dr_document_id (sr_stage_ref result) in
  ∃ current stage,
    result' = result ∧
    (stage_graph w.1 key = Ok current ∧ sg_plan_revision current = g_rev ∧
     stage ∈ sg_stages current ∧ ss_stage_id stage = id ∧ ss_revision stage = s_rev) ∧
    (sg_verify next = Ok tt ∧ sg_plan_revision next = (g_rev + 1)%N ∧
     sg_previous_graph_fingerprint next = Some (sg_graph_fingerprint current)) ∧
    (stage_result w'.1 (sr_stage_result_id result) = Ok result ∧
     stage_graph w'.1 key = Ok next ∧ stage_graph_revision w'.1 key g_rev = Ok current) ∧
    (∃ s, s ∈ sg_stages next ∧ settled result s ∧ ss_revision s = (s_rev + 1)%N) ∧
    (∀ s, ss_stage_id s ≠ id → s ∈ sg_stages next ↔ s ∈ sg_stages current) ∧
    (∀ s, s ∈ sg_stages current → ss_state s = Completed → s ∈ sg_stages next) ∧
    (sr_outcome result = OutcomeCompleted → ∀ d, d ∈ ss_dependencies stage →
      ∃ s, s ∈ sg_stages current ∧ ss_stage_id s = d ∧ ss_state s = Completed).
Proof.
  intros key id. apply goals_load_good in Hload as Hf.
  unfold stage_result in Hnew. destruct (record_cases result g_rev s_rev outcome w Hf)
    as [[_ Hold]|(current & next' & stage & Hrec & Heq)].
  { rewrite Hrun in Hold. by rewrite (Hold _ eq_refl) in Hnew. }
  rewrite Hrun in Heq. simpl in Heq. unfold commit_with in Heq. injection Heq as -> Heq.
  destruct (persist _ _ _ _) as [d [[]|]] in Heq; [|done]. injection Heq as -> ->.
  pose proof (recorded_continues _ _ _ _ _ _ _ Hf Hrec) as Hc.
  destruct Hrec as [Hv _ Hk Hg _ Hs Hr Ha Hseal].
  destruct (good_graph_key w.1 _ current Hf Hk) as (_ & _ & Hsg & _).
  pose proof (find_stage_spec _ _ _ Hs) as [Hin Hid].
  pose proof (sg_seal_keeps _ _ Hseal) as (Hnv & _ & _ & Hnrev & Hnfp).
  destruct (graph_after_stages _ _ _ _ _ _ Hsg Hs Hseal) as (Hset & Hback & Hforth).
  exists current, stage. split; [done|]. split; [by unfold stage_graph, key; rewrite Hk|].
  split; [done|]. split; [|split; [done|]].
  - unfold stage_result, stage_graph, stage_graph_revision. simpl. fold key.
    rewrite !lookup_insert_eq. split_and!; try done.
    destruct (good_current w.1 _ current Hf Hk) as (h & Hh & Hcur). fold key in Hh. rewrite Hh.
    simpl. rewrite lookup_insert_ne; [by rewrite <-Hg, Hcur|]. simpl in Hnrev. lia.
  - split_and!.
    + intros s Hne. split; [|by intros; apply Hforth].
      intros Hin'. by destruct (Hback s Hin') as [[? _]|[? _]].
    + intros s Hin' Hst. apply Hforth; [done|]. intros Heq.
      assert (s = stage) as -> by (apply (unique_stage current); [done..|congruence]).
      by apply verify_against_inv in Hv as (_ & _ & _ & _ & _ & _ & ? & _).
    + intros Ho dep Hd. unfold completion_refused in Ha. rewrite Ho, bool_decide_true in Ha by done.
      apply orb_false_iff in Ha as [_ Ha]. rewrite existsb_false in Ha. specialize (Ha dep Hd).
      destruct (find_stage dep (sg_stages current)) as [s|] eqn:Hfd; [|done].
      apply find_stage_spec in Hfd as [? ?]. exists s. split_and!; try done.
      simpl in Ha. by apply negb_false_iff, bool_decide_eq_true in Ha.
Qed.

(** The result a completed stage rests on: stored, completed, and accepted
    against a stored revision of the graph. *)
Definition rests_on (f : GoalStoreFile) (s : StageSpecV1) (result : StageResultV1) : Prop :=
  ss_result_ref s = Some (sr_reference result) ∧
  stage_result f (sr_stage_result_id result) = Ok result ∧
  sr_outcome result = OutcomeCompleted ∧
  ∃ graph stage,
    stage_graph_revision f (dr_document_id (sr_stage_graph_ref result))
      (dr_revision (sr_stage_graph_ref result)) = Ok graph ∧
    stage ∈ sg_stages graph ∧ ss_stage_id stage = ss_stage_id s ∧
    sr_completed_criteria result = ss_completion_criteria stage ∧
    map pe_project_id (sr_project_evidence result) = ss_project_ids stage.

Lemma completed_rests_on f key graph s :
  good_file f → gf_stage_graphs f !! key = Some graph → s ∈ sg_stages graph →
  ss_state s = Completed → ∃ result, rests_on f s result.
Proof.
  intros Hf Hk Hs Hst. destruct (good_graph_key f key graph Hf Hk) as (_ & _ & Hv & Hrefs).
  apply sg_verify_checks in Hv as [_ Hss]. rewrite Forall_forall in Hss.
  destruct (completed_has_result s (Hss s Hs) Hst) as [reference Href].
  unfold graph_result_refs_are_valid in Hrefs. rewrite forallb_true in Hrefs.
  specialize (Hrefs s Hs). rewrite Href in Hrefs.
  destruct (gf_stage_results f !! dr_document_id reference) as [result|] eqn:Hr; [|done].
  simpl in Hrefs. bool_to_prop. exists result. subst reference.
  assert (sr_outcome result = OutcomeCompleted) as Ho by (apply completed_outcome; congruence).
  pose proof (good_results f Hf _ _ Hr) as Hb.
  apply bad_result_spec in Hb as (Hid & _ & h & g & stage & Hh & Hg & Hfs & Hva & _).
  pose proof (find_stage_spec _ _ _ Hfs) as [Hin Hsid].
  apply verify_against_inv in Hva as (_ & _ & _ & _ & _ & _ & _ & Hcov).
  unfold rests_on, stage_result, stage_graph_revision. simpl in Hr. rewrite Hr, Hh, Hg.
  split_and!; try done. exists g, stage. split_and!; try done; [congruence|by apply Hcov..].
Qed.



(** ** Goals over time *)

(** A new goal gets an identifier of its own. *)
Definition other_start (goal_id : string) (c : goal_call * persist_outcome GoalStoreError) : Prop :=
  match c.1 with CallStart new_id _ _ => new_id ≠ goal_id | _ => True end.

(** One call as seen by a goal: nothing, or one change by one of the operations
    that found it at the revision expected. *)
Inductive goal_change : GoalRecord → GoalRecord → Prop :=
| change_step g change g' sealed now :
    keeps_id change → change g = Ok g' →
    (gr_status g = GoalCompleted ∨ gr_status g = GoalCancelled → gr_validate g = Ok tt → False) →
    sealed = gr_stamp g' (saturating_add u64_max (gr_revision g') 1) (instant_text now)
      (gr_content_fingerprint sealed) →
    gr_validate sealed = Ok tt → goal_change g sealed.

(** A change that no finished goal admits. *)
Definition refuses_finished (change : GoalRecord → result GoalRecord GoalStoreError) : Prop :=
  ∀ g g', gr_status g = GoalCompleted ∨ gr_status g = GoalCancelled → change g ≠ Ok g'.

Lemma mutate_goal goal_id expected change now outcome (w : world) id g :
  keeps_id change →
  (∀ g g', gf_goals w.1 !! goal_id = Some g → change g = Ok g' →
    gr_status g = GoalCompleted ∨ gr_status g = GoalCancelled → gr_validate g = Ok tt → False) →
  gf_goals w.1 !! id = Some g →
  ∃ g', gf_goals (mutate goal_id expected change now outcome w).1.1 !! id = Some g' ∧
    (g' = g ∨ goal_change g g').
Proof.
  intros Hkeep Href Hg.
  destruct (mutate_cases goal_id expected change now outcome w)
    as [[e ->]|(g0 & g' & sealed & Hg0 & _ & Hc & Hv & Heq & ->)]; [by exists g; auto|].
  simpl. destruct (decide (goal_id = id)) as [->|Hne].
  - rewrite lookup_insert_eq. exists sealed. split; [done|]. right.
    assert (g0 = g) as -> by congruence. eapply change_step; eauto.
  - rewrite lookup_insert_ne by done. eauto.
Qed.

Lemma finished_not_running g :
  gr_validate g = Ok tt → gr_status g = GoalCompleted ∨ gr_status g = GoalCancelled →
  run_is_running (gr_run g) = false.
Proof.
  unfold gr_validate. intros Hv Hst. do 2 next_check Hv.
  destruct (instant_parse _); [|done]. destruct (instant_parse _); [|done]. simpl in Hv.
  next_check Hv. next_check Hv.
  destruct (plan_bad g) eqn:Hp; [done|]. do 2 next_check Hv.
  destruct (run_bad _ _) eqn:Hr; [done|]. clear Hv.
  destruct (gr_run g) as [run|] eqn:Hrun; [|done]. simpl.
  apply bool_decide_eq_false. intros Hrr. destruct Hst as [Hst|Hst].
  - unfold plan_bad in Hp. rewrite Hst, Hrun in Hp. simpl in Hp. rewrite Hrr in Hp. simpl in Hp.
    by destruct (all_completed _), (1 <? _)%N, (Bool.eqb _ _).
  - unfold run_bad in Hr. rewrite Hst, Hrr in Hr. simpl in Hr. by destruct (gs_attempt run =? 0)%N, (instant_parse _).
Qed.

Lemma publish_goals graph e outcome (w : world) :
  gf_goals (publish_stage_graph graph e outcome w).1.1 = gf_goals w.1.
Proof.
  unfold publish_stage_graph. destruct (is_err _); [done|]. destruct (get _ _); [|done].
  destruct (publication_of _ _ _); [done..|]. by destruct (is_some_and _ _).
Qed.

Lemma record_goals result g s outcome (w : world) :
  gf_goals (record_stage_result result g s outcome w).1.1 = gf_goals w.1.
Proof.
  unfold record_stage_result. destruct (_ || _); [done|].
  destruct (gf_stage_results w.1 !! _); [done|]. destruct (next_graph _ _ _ _); [|done].
  destruct (gf_stage_graph_history w.1 !! _) as [h|]; [|done]. by destruct (is_some _).
Qed.

(** What one call does to a goal. *)
Lemma goal_step_goal (w : world) c id g :
  other_start id c → gf_goals w.1 !! id = Some g →
  ∃ g', gf_goals (goal_step w c).1 !! id = Some g' ∧ (g' = g ∨ goal_change g g').
Proof.
  intros Ho Hg. pose proof (ex_intro (λ g', gf_goals w.1 !! id = Some g' ∧ (g' = g ∨ goal_change g g'))
    g (conj Hg (or_introl eq_refl))) as Hsame.
  assert (∀ goal_id expected change now outcome, keeps_id change → refuses_finished change →
    ∃ g', gf_goals (mutate goal_id expected change now outcome w).1.1 !! id = Some g' ∧
      (g' = g ∨ goal_change g g')) as Hmut.
  { intros goal_id expected change now outcome Hkeep Href. apply mutate_goal; try done.
    intros g0 g' _ Hc Hst _. by destruct (Href g0 g' Hst). }
  destruct c as [c o]. unfold goal_step.
  destruct c as [new_id now rq| | | | | | |graph e|result gr sr|goal_id rev graph_id ev now];
    cbv zeta beta iota delta [fst snd].
  - unfold other_start in Ho. simpl in Ho. unfold start. destruct (_ || _); [done|].
    destruct (start_fingerprint rq) as [fp|]; [|done].
    destruct (gf_idempotency w.1 !! _); [by destruct (negb _)|]. unfold start_new.
    destruct (map_err _ (gr_seal _)) as [goal|]; [|done].
    destruct (match rq_config_overrides rq with [] => _ | _ => _ end); simpl;
      rewrite lookup_insert_ne by done; done.
  - unfold answer. destruct (_ || _); [done|]. apply Hmut; [apply answer_keeps|].
    intros ? ? [Hst|Hst]; unfold answer_goal; by rewrite Hst.
  - unfold update_plan. destruct (_ || _); [done|]. apply Hmut; [apply plan_keeps|].
    intros ? ? [Hst|Hst]; unfold plan_goal; by rewrite Hst.
  - apply Hmut; [apply continue_keeps|].
    intros ? ? [Hst|Hst]; unfold continue_goal; by rewrite Hst.
  - unfold pause. destruct (get _ _) as [goal|]; [|done]. case_bool_decide; [done|].
    apply Hmut; [apply pause_keeps|]. intros ? ? [Hst|Hst]; unfold pause_goal; by rewrite Hst.
  - unfold resume. destruct (get _ _) as [goal|] eqn:Hget; [|done].
    destruct (gr_status goal) eqn:Hst; try done. apply mutate_goal; [apply resume_keeps| |done].
    intros g0 g' Hg0 _ Hf _. unfold get in Hget. apply ok_or_Ok in Hget. naive_solver congruence.
  - unfold cancel. destruct (get _ _) as [goal|] eqn:Hget; [|done].
    case_bool_decide as Hst; [done|]. apply mutate_goal; [apply cancel_keeps| |done].
    intros g0 g' Hg0 Hc Hf _. unfold get in Hget. apply ok_or_Ok in Hget.
    assert (g0 = goal) as -> by congruence. destruct Hf as [Hf|Hf]; [|done].
    unfold cancel_goal in Hc. by rewrite Hf in Hc.
  - rewrite <-(publish_goals graph e o w) in Hsame. exact Hsame.
  - rewrite <-(record_goals result gr sr o w) in Hsame. exact Hsame.
  - unfold complete_goal. destruct (stage_graph _ _) as [gr|]; [|done].
    destruct (_ || _); [done|]. destruct (negb _); [done|].
    destruct (get w.1 _) as [goal|] eqn:Hget; [|done]. destruct (_ || _) eqn:Hb; [done|].
    apply mutate_goal; [apply finish_keeps| |done]. intros g0 g' Hg0 _ Hf Hv.
    unfold get in Hget. apply ok_or_Ok in Hget. assert (g0 = goal) as -> by congruence.
    bool_to_prop. by rewrite finished_not_running in *.
Qed.

(** A finished goal is final: once a goal is completed or cancelled its
    record never changes, whatever is called and whatever becomes of the
    writes. *)
Theorem finished_goals_are_final (w : world) calls id g
    (Hget : get w.1 id = Ok g) (Hvalid : gr_validate g = Ok tt)
    (Hfinal : gr_status g = GoalCompleted ∨ gr_status g = GoalCancelled)
    (Hfresh : Forall (other_start id) calls) :
  get (goal_run w calls).1 id = Ok g.
Proof.
  unfold get in *. apply ok_or_Ok in Hget. apply ok_or_Ok. revert w Hget.
  induction Hfresh as [|c calls Hc Hfresh IH]; intros w Hget; [done|]. simpl. apply IH.
  destruct (goal_step_goal w c id g Hc Hget) as (g' & Hg' & [->|Hch]); [done|].
  by destruct Hch as [? ? ? ? ? ? ? Href ? ?]; destruct (Href Hfinal Hvalid).
Qed.

Lemma goal_run_revision (w : world) calls id g :
  gf_goals w.1 !! id = Some g → Forall (other_start id) calls →
  (gr_revision g <= u64_max)%N →
  ∃ g', gf_goals (goal_run w calls).1 !! id = Some g' ∧
    (gr_revision g <= gr_revision g' <= u64_max)%N.
Proof.
  intros Hg Hfresh Hwidth. revert w g Hg Hwidth.
  induction Hfresh as [|c calls Hc Hfresh IH]; intros w g Hg Hwidth; [exists g; split; [done|lia]|].
  simpl. destruct (goal_step_goal w c id g Hc Hg) as (g' & Hg' & Hch).
  assert (gr_revision g <= gr_revision g' <= u64_max)%N as Hle.
  { destruct Hch as [->|Hch]; [lia|].
    destruct Hch as [g change g1 sealed now Hkeep Hchange _ Heq _]. rewrite Heq. simpl.
    rewrite (proj2 (Hkeep _ _ Hchange)). unfold saturating_add. lia. }
  destruct (IH _ g' Hg') as (g'' & ? & ?); [lia|]. exists g''. split; [done|lia].
Qed.

(** One change per revision: after a change of a goal at a revision
    succeeded, no other change of the goal at that revision does, whatever was
    called in between: every later attempt is a [RevisionConflict]. *)
Theorem one_change_per_revision (w w' : world) id revision change now outcome g calls
    (Hkeep : keeps_id change) (Hroom : (revision < u64_max)%N)
    (Hrun : mutate id revision change now outcome w = (w', Ok g))
    (Hfresh : Forall (other_start id) calls) :
  ∀ change' now' outcome',
    mutate id revision change' now' outcome' (goal_run w' calls)
      = (goal_run w' calls, Err RevisionConflict).
Proof.
  destruct (mutate_cases id revision change now outcome w)
    as [[e He]|(g0 & g' & sealed & Hg & Hrev & Hc & _ & Heq & He)]; [congruence|].
  rewrite Hrun in He. injection He as Hw' _.
  destruct (goal_run_revision w' calls id sealed) as (g'' & Hg'' & Hle); [|done| |].
  { rewrite Hw'. apply lookup_insert_eq. }
  { rewrite Heq. simpl. unfold saturating_add. lia. }
  intros change' now' outcome'. unfold mutate, get. rewrite Hg''. simpl.
  assert (gr_revision sealed = (revision + 1)%N) as Hnext.
  { rewrite Heq. simpl. rewrite (proj2 (Hkeep _ _ Hc)), Hrev. unfold saturating_add. lia. }
  assert ((gr_revision g'' =? revision)%N = false) as ->; [|done]. apply N.eqb_neq. lia.
Qed.


(** ** Starting twice *)

Definition start_refused (request : GoalStartRequest) : bool :=
  is_empty (start_objective request)
  || (4096 <? slen (start_objective request))%N
  || blank (rq_idempotency_key request)
  || (256 <? slen (rq_idempotency_key request))%N.

(** A start that succeeds has its key bound to its goal. *)
Lemma start_binds goal_id now request outcome (w w' : world) g :
  good_file w.1 → start goal_id now request outcome w = (w', Ok g) →
  ∃ fp, start_refused request = false ∧ start_fingerprint request = Ok fp ∧
    gf_idempotency w'.1 !! rq_idempotency_key request
      = Some {| rp_goal_id := gr_goal_id g; rp_input_fingerprint := fp |} ∧
    gf_goals w'.1 !! gr_goal_id g = Some g.
Proof.
  intros Hf. unfold start. fold (start_refused request). intros Hs.
  destruct (start_refused request); [done|].
  destruct (start_fingerprint request) as [fp|]; [|done]. exists fp. split; [done|]. split; [done|].
  destruct (gf_idempotency w.1 !! _) as [[id fp']|] eqn:Hk; simpl in Hs.
  - destruct (String.eqb fp' fp) eqn:Hfp; [|done]. apply String.eqb_eq in Hfp as ->. simpl in Hs.
    destruct (gf_goals w.1 !! id) as [g'|] eqn:Hg; [|done]. injection Hs as <- ->.
    pose proof (good_goals w.1 Hf id g Hg) as Hb. unfold bad_goal in Hb. simpl in Hb.
    apply orb_false_iff in Hb as [Hb%negb_false_iff%String.eqb_eq _]. by subst.
  - unfold start_new, map_err in Hs. destruct (gr_seal _) as [goal|] eqn:Hseal; [|done].
    apply gr_seal_ok in Hseal as [_ Heq].
    destruct (match rq_config_overrides request with [] => _ | _ => _ end); [|done].
    unfold commit_with in Hs. injection Hs as <- Hs.
    destruct (persist _ _ _ _) as [d [[]|]] in Hs; [|done]. injection Hs as ->.
    simpl. rewrite lookup_insert_eq.
    assert (gr_goal_id g = goal_id) as -> by by rewrite Heq. by rewrite lookup_insert_eq.
Qed.

(** No call rebinds a key. *)
Lemma goal_step_key (w : world) c key replay :
  gf_idempotency w.1 !! key = Some replay →
  gf_idempotency (goal_step w c).1 !! key = Some replay.
Proof.
  intros Hk. destruct c as [c o].
  assert (∀ goal_id expected change now,
    gf_idempotency (mutate goal_id expected change now o w).1.1 !! key = Some replay) as Hmut.
  { intros goal_id expected change now. by destruct (mutate_cases goal_id expected change now o w)
      as [[e ->]|(? & ? & ? & _ & _ & _ & _ & _ & ->)]. }
  unfold goal_step. destruct c; cbv beta iota delta [fst snd].
  - unfold start. destruct (_ || _); [done|]. destruct (start_fingerprint request); [|done].
    destruct (gf_idempotency w.1 !! rq_idempotency_key request) eqn:Hnew; [by destruct (negb _)|].
    unfold start_new. destruct (map_err _ (gr_seal _)); [|done].
    destruct (match rq_config_overrides request with [] => _ | _ => _ end); [|done].
    simpl. rewrite lookup_insert_ne; [done|]. congruence.
  - unfold answer. destruct (_ || _); [done|]. apply Hmut.
  - unfold update_plan. destruct (_ || _); [done|]. apply Hmut.
  - apply Hmut.
  - unfold pause. destruct (get _ _); [|done]. case_bool_decide; [done|]. apply Hmut.
  - unfold resume. destruct (get _ _) as [goal|]; [|done].
    destruct (gr_status goal); try done. apply Hmut.
  - unfold cancel. destruct (get _ _); [|done]. case_bool_decide; [done|]. apply Hmut.
  - unfold publish_stage_graph. destruct (is_err _); [done|]. destruct (get _ _); [|done].
    destruct (publication_of _ _ _); [done..|]. by destruct (is_some_and _ _).
  - unfold record_stage_result. destruct (_ || _); [done|].
    destruct (gf_stage_results w.1 !! _); [done|]. destruct (next_graph _ _ _ _); [|done].
    destruct (gf_stage_graph_history w.1 !! _) as [h|]; [|done]. by destruct (is_some _).
  - unfold complete_goal. destruct (stage_graph _ _) as [gr|]; [|done].
    destruct (_ || _); [done|]. destruct (negb _); [done|].
    destruct (get w.1 _); [|done]. destruct (_ || _); [done|]. apply Hmut.
Qed.

Lemma goal_run_key (w : world) calls key replay :
  gf_idempotency w.1 !! key = Some replay →
  gf_idempotency (goal_run w calls).1 !! key = Some replay.
Proof.
  revert w. induction calls as [|c calls IH]; intros w Hk; [done|]. by apply IH, goal_step_key.
Qed.

Lemma goal_run_id (w : world) calls id g :
  gf_goals w.1 !! id = Some g → Forall (other_start id) calls →
  ∃ g', gf_goals (goal_run w calls).1 !! id = Some g' ∧ gr_goal_id g' = gr_goal_id g.
Proof.
  intros Hg Hfresh. revert w g Hg.
  induction Hfresh as [|c calls Hc Hfresh IH]; intros w g Hg; [by exists g|].
  destruct (goal_step_goal w c id g Hc Hg) as (g1 & Hg1 & Hch).
  destruct (IH _ g1 Hg1) as (g2 & Hg2 & Hid). exists g2. split; [done|]. rewrite Hid.
  destruct Hch as [->|Hch]; [done|]. destruct Hch as [g0 change g' sealed now Hkeep Hc' _ Heq _].
  rewrite Heq. simpl. by apply (Hkeep _ _ Hc').
Qed.

Definition request_payload (request : GoalStartRequest) : Json :=
  start_payload (start_objective request) (start_project_key request) (start_question request)
    (rq_config_overrides request).

(** A start is safe to repeat: once it has succeeded, whatever is called
    after it, the same request changes nothing and returns the goal it made, as
    it is then; and a request of other content under the same key changes
    nothing and gets no goal, unless the two contents have one hash. *)
Theorem repeated_start_is_safe (w w' : world) goal_id now request outcome g calls
    (Hload : load (ReadParsed (Some w.1)) = Ok w.1)
    (Hrun : start goal_id now request outcome w = (w', Ok g))
    (Hfresh : Forall (other_start (gr_goal_id g)) calls) :
  let w'' := goal_run w' calls in
  ∀ new_id now' outcome',
    (∃ g', start new_id now' request outcome' w'' = (w'', Ok g') ∧
       get w''.1 (gr_goal_id g) = Ok g' ∧ gr_goal_id g' = gr_goal_id g) ∧
    ∀ other, rq_idempotency_key other = rq_idempotency_key request →
      (start new_id now' other outcome' w'').1 = w'' ∧
      ∀ g'', (start new_id now' other outcome' w'').2 = Ok g'' →
        request_payload other = request_payload request ∨
        collision (request_payload other) (request_payload request).
Proof.
  apply goals_load_good in Hload as Hf.
  destruct (start_binds _ _ _ _ _ _ _ Hf Hrun) as (fp & Hr & Hfp & Hk & Hg). intros w'' *.
  apply (goal_run_key _ calls) in Hk. fold w'' in Hk.
  destruct (goal_run_id _ calls _ _ Hg Hfresh) as (g' & Hg' & Hid). fold w'' in Hg'.
  split.
  - exists g'. unfold start, get. fold (start_refused request). rewrite Hr, Hfp, Hk. simpl.
    by rewrite String.eqb_refl, Hg'.
  - intros other Hkey. unfold start. destruct (_ || _); [done|].
    destruct (start_fingerprint other) as [fp'|] eqn:Hfp'; [|done]. rewrite Hkey, Hk. simpl.
    destruct (String.eqb fp fp') eqn:Heq; [|done]. apply String.eqb_eq in Heq as <-.
    split; [done|]. intros _ _. unfold start_fingerprint, map_err in Hfp, Hfp'.
    fold (request_payload request) in Hfp. fold (request_payload other) in Hfp'.
    destruct (canonical_sha256 (request_payload request)) eqn:E1; [|done].
    destruct (canonical_sha256 (request_payload other)) eqn:E2; [|done].
    simplify_eq. by eapply hash_binds.
Qed.

(** ** Revisions of graphs *)

Definition history_kept (f f' : GoalStoreFile) : Prop :=
  histories_grow f f' ∧ gf_stage_results f ⊆ gf_stage_results f'.

#[local] Instance history_kept_preorder : PreOrder history_kept.
Proof.
  split.
  - intros f. split; [|done]. intros k h Hk. by exists h.
  - intros f1 f2 f3 [H12 ?] [H23 ?]. split; [|by etrans].
    intros k h1 Hk. destruct (H12 k h1 Hk) as (h2 & Hk2 & ?).
    destruct (H23 k h2 Hk2) as (h3 & Hk3 & ?). exists h3. split; [done|by etrans].
Qed.

Lemma goal_step_history (w : world) c :
  good_file w.1 → in_width w.1 → history_kept w.1 (goal_step w c).1.
Proof.
  intros Hf Hw. pose proof (goal_step_graphs w c) as Hs. destruct c as [c o]. simpl in Hs.
  destruct c; try (destruct Hs as (_ & Hh & Hr); split; [|by rewrite Hr];
    intros k h Hk; exists h; by rewrite Hh); clear Hs; unfold goal_step; simpl.
  - destruct (publish_cases graph expected_previous_revision o w Hf Hw)
      as [[-> _]|(_ & _ & Hc & _ & ->)]; [done|].
    split; [|done]. by apply enter_histories_grow.
  - destruct (record_cases result expected_graph_revision expected_stage_revision o w Hf)
      as [[-> _]|(current & next & stage & Hrec & Heq)]; [done|]. simpl in Heq. rewrite Heq.
    pose proof (recorded_continues _ _ _ _ _ _ _ Hf Hrec) as Hc.
    split; [by apply enter_histories_grow|]. apply insert_subseteq, Hrec.
Qed.

Lemma goal_run_history found (w : world) calls :
  good_world found w → in_width w.1 → fair w calls → history_kept w.1 (goal_run w calls).1.
Proof.
  revert w. induction calls as [|c calls IH]; intros w Hw Hwidth Hfair; [done|].
  destruct Hfair as [Hc Hfair]. etrans; [by apply goal_step_history; [apply Hw|]|].
  apply IH; [by apply goal_step_good| |done]. by apply goal_step_width; [apply Hw| |].
Qed.

(** What was recorded stays: along any fair calls on a store that loads, a
    revision of a graph and a result, once stored, are served unchanged for
    ever. *)
Theorem recorded_history_is_immutable (w : world) calls
    (Hload : load (ReadParsed (Some w.1)) = Ok w.1) (Hwidth : in_width w.1)
    (Hfair : fair w calls) :
  (∀ key n graph, stage_graph_revision w.1 key n = Ok graph →
    stage_graph_revision (goal_run w calls).1 key n = Ok graph) ∧
  (∀ id result, stage_result w.1 id = Ok result →
    stage_result (goal_run w calls).1 id = Ok result).
Proof.
  apply goals_load_good in Hload as Hf.
  assert (good_world w.2 w) as Hw by (split; [done|]; destruct (w.2); simpl; auto).
  destruct (goal_run_history _ _ _ Hw Hwidth Hfair) as [Hh Hr]. split.
  - unfold stage_graph_revision. intros key n graph Hg.
    destruct (gf_stage_graph_history w.1 !! key) as [h|] eqn:Hk; [|done].
    destruct (Hh key h Hk) as (h' & -> & Hsub). apply ok_or_Ok in Hg. apply ok_or_Ok.
    by eapply lookup_weaken.
  - unfold stage_result. intros id result Hg%ok_or_Ok. apply ok_or_Ok. by eapply lookup_weaken.
Qed.

End facts.

(** ** Instances *)

Definition solo_recorded : world * result (StageResultV1 * StageGraphV1) GoalStoreError :=
  record_stage_result solo_result 1 1 Persisted solo_world.

Definition solo_next : StageGraphV1 :=
  snd (unwrap_or (snd solo_recorded) (solo_result, solo_graph)).

Definition solo_key : string := sg_stage_graph_id solo_graph.

Definition solo_completed : world * result GoalRecord GoalStoreError :=
  complete_goal "gol_1" 3 solo_key solo_evidence (second_ms 3) Persisted solo_recorded.1.

Definition solo_goal : GoalRecord :=
  unwrap_or solo_completed.2 (new_goal "gol_1" EmptyString None None EmptyString).

Lemma recorded_result_advances_witness :
  stage_graph_revision solo_recorded.1.1 solo_key 1 = Ok solo_graph ∧
  ∃ s, s ∈ sg_stages solo_next ∧ settled solo_result s.
Proof.
  assert (dr_document_id (sr_stage_graph_ref solo_result) = solo_key) as Hk
    by (vm_compute; reflexivity).
  assert (stage_graph solo_world.1 solo_key = Ok solo_graph) as Hg by (vm_compute; reflexivity).
  destruct (recorded_result_advances solo_world solo_recorded.1 solo_result solo_result solo_next
    1 1 Persisted solo_loads) as (current & stage & _ & (Hc & _) & _ & (_ & _ & Hrev) & Hs & _);
    [vm_compute; reflexivity..|].
  rewrite Hk in Hc, Hrev. split; [rewrite Hrev, <-Hc; exact Hg|]. destruct Hs as (s & Hin & Hset & _). exists s. split; [exact Hin|exact Hset].
Defined.


Definition solo_late_calls : list (goal_call * persist_outcome GoalStoreError) :=
  [(CallPause "gol_1" 4 (second_ms 4), Persisted); (CallCancel "gol_1" 4 (second_ms 4), Persisted)].

Lemma finished_goals_are_final_witness :
  get (goal_run solo_completed.1 solo_late_calls).1 "gol_1" = Ok solo_goal.
Proof.
  apply (finished_goals_are_final solo_completed.1 solo_late_calls "gol_1" solo_goal).
  - vm_compute. reflexivity.
  - vm_compute. reflexivity.
  - left. vm_compute. reflexivity.
  - repeat constructor.
Defined.

Definition solo_paused : world * result GoalRecord GoalStoreError :=
  mutate "gol_1" 3 pause_goal (second_ms 3) Persisted solo_world.

Lemma one_change_per_revision_witness :
  (mutate "gol_1" 3 pause_goal (second_ms 5) Persisted (goal_run solo_paused.1 solo_late_calls)).2
  = Err RevisionConflict.
Proof.
  rewrite (one_change_per_revision solo_world solo_paused.1 "gol_1" 3 pause_goal (second_ms 3)
    Persisted (unwrap_or solo_paused.2 solo_goal) solo_late_calls); [reflexivity|..].
  - apply pause_keeps.
  - vm_compute. reflexivity.
  - vm_compute. reflexivity.
  - repeat constructor.
Defined.

Definition solo_started : world * result GoalRecord GoalStoreError :=
  start "gol_1" (second_ms 0) solo_request Persisted (GoalStoreFile_default, None).

Lemma repeated_start_is_safe_witness :
  ∃ g, (start "gol_2" (second_ms 9) solo_request Persisted
          (goal_run solo_started.1 (drop 1 solo_calls))).2 = Ok g ∧ gr_goal_id g = "gol_1".
Proof.
  destruct (repeated_start_is_safe (GoalStoreFile_default, None) solo_started.1 "gol_1"
    (second_ms 0) solo_request Persisted (unwrap_or solo_started.2 solo_goal) (drop 1 solo_calls)
    ltac:(vm_compute; reflexivity) ltac:(vm_compute; reflexivity)
    ltac:(repeat constructor) "gol_2" (second_ms 9) Persisted) as [(g & Hs & _ & Hid) _].
  exists g. rewrite Hs. split; [reflexivity|]. rewrite Hid. vm_compute. reflexivity.
Defined.

Definition solo_record_call : list (goal_call * persist_outcome GoalStoreError) :=
  [(CallRecord solo_result 1 1, Persisted)].

Lemma recorded_history_is_immutable_witness :
  stage_graph_revision (goal_run solo_world solo_record_call).1 solo_key 1 = Ok solo_graph.
Proof.
  apply (proj1 (recorded_history_is_immutable solo_world solo_record_call solo_loads solo_width
    (conj I I))).
  vm_compute. reflexivity.
Defined.
