(* ===== verification/Routing.v ===== *)
(** * Stage routing

    Models [crates/foundation/star-contracts/src/routing.rs] (the Codex
    capability snapshot and the route decision, sealed and validated) and
    [crates/control/star-planning/src/routing.rs] (the route selection). *)
From S2P Require Import Prelude Canonical Contracts Evidence Kahn Stage StageFacts.

Definition CAPABILITY_SNAPSHOT_SCHEMA_ID : string := "star.capability-snapshot".
Definition ROUTE_DECISION_SCHEMA_ID : string := "star.route-decision".
Definition ROUTING_CONTRACT_VERSION : N := 1.

Inductive CapabilitySourceV1 := CodexAppServer.
Inductive ModelRoleV1 := Luna | Terra | Sol.
Inductive ReasoningEffortV1 :=
| EffortNone | EffortMinimal | EffortLow | EffortMedium | EffortHigh | EffortXhigh
| EffortMax | EffortUltra.
Inductive ExecutionModeV1 := Single | ModeMax | ModeUltra.
Inductive ExecutionRealizationV1 := Native | Managed.
Inductive RouteDecisionKindV1 := Initial | RetryRoute | Escalation | UserOverride.
Inductive EstimatedUsageClassV1 := UsageSmall | UsageStandard | UsageLarge | UsageUnknown.
Inductive RouteConfidenceV1 := ConfidenceLow | ConfidenceMedium | ConfidenceHigh.

Inductive RoutingContractError :=
| RouteIdentity | RouteCapability | RouteStage | RouteUnsupported | RouteContent
| RouteFingerprint.

#[global] Instance CapabilitySourceV1_eq_dec : EqDecision CapabilitySourceV1.
Proof. solve_decision. Defined.
#[global] Instance ModelRoleV1_eq_dec : EqDecision ModelRoleV1.
Proof. solve_decision. Defined.
#[global] Instance ReasoningEffortV1_eq_dec : EqDecision ReasoningEffortV1.
Proof. solve_decision. Defined.
#[global] Instance ExecutionModeV1_eq_dec : EqDecision ExecutionModeV1.
Proof. solve_decision. Defined.
#[global] Instance ExecutionRealizationV1_eq_dec : EqDecision ExecutionRealizationV1.
Proof. solve_decision. Defined.
#[global] Instance RouteDecisionKindV1_eq_dec : EqDecision RouteDecisionKindV1.
Proof. solve_decision. Defined.
#[global] Instance EstimatedUsageClassV1_eq_dec : EqDecision EstimatedUsageClassV1.
Proof. solve_decision. Defined.
#[global] Instance RouteConfidenceV1_eq_dec : EqDecision RouteConfidenceV1.
Proof. solve_decision. Defined.
#[global] Instance RoutingContractError_eq_dec : EqDecision RoutingContractError.
Proof. solve_decision. Defined.

(** The derived orders, by declaration position. *)
Definition ModelRoleV1_index (r : ModelRoleV1) : N :=
  match r with Luna => 0 | Terra => 1 | Sol => 2 end.
Definition ReasoningEffortV1_index (e : ReasoningEffortV1) : N :=
  match e with
  | EffortNone => 0 | EffortMinimal => 1 | EffortLow => 2 | EffortMedium => 3
  | EffortHigh => 4 | EffortXhigh => 5 | EffortMax => 6 | EffortUltra => 7
  end.
Definition ExecutionModeV1_index (m : ExecutionModeV1) : N :=
  match m with Single => 0 | ModeMax => 1 | ModeUltra => 2 end.

#[global] Instance ModelRoleV1_cmp : Cmp ModelRoleV1 := cmp_on ModelRoleV1_index.
#[global] Instance ReasoningEffortV1_cmp : Cmp ReasoningEffortV1 := cmp_on ReasoningEffortV1_index.
#[global] Instance ExecutionModeV1_cmp : Cmp ExecutionModeV1 := cmp_on ExecutionModeV1_index.

#[global] Instance ModelRoleV1_cmp_laws : CmpLaws ModelRoleV1.
Proof. apply cmp_on_laws. by intros [] []. Qed.
#[global] Instance ReasoningEffortV1_cmp_laws : CmpLaws ReasoningEffortV1.
Proof. apply cmp_on_laws. by intros [] []. Qed.
#[global] Instance ExecutionModeV1_cmp_laws : CmpLaws ExecutionModeV1.
Proof. apply cmp_on_laws. by intros [] []. Qed.

#[global] Instance CapabilitySourceV1_to_json : ToJson CapabilitySourceV1 := λ _,
  JStr "codex_app_server".
#[global] Instance ModelRoleV1_to_json : ToJson ModelRoleV1 := λ r,
  JStr match r with Luna => "luna" | Terra => "terra" | Sol => "sol" end.
#[global] Instance ReasoningEffortV1_to_json : ToJson ReasoningEffortV1 := λ e,
  JStr match e with
       | EffortNone => "none" | EffortMinimal => "minimal" | EffortLow => "low"
       | EffortMedium => "medium" | EffortHigh => "high" | EffortXhigh => "xhigh"
       | EffortMax => "max" | EffortUltra => "ultra"
       end.
#[global] Instance ExecutionModeV1_to_json : ToJson ExecutionModeV1 := λ m,
  JStr match m with Single => "single" | ModeMax => "max" | ModeUltra => "ultra" end.
#[global] Instance ExecutionRealizationV1_to_json : ToJson ExecutionRealizationV1 := λ r,
  JStr match r with Native => "native" | Managed => "managed" end.
#[global] Instance RouteDecisionKindV1_to_json : ToJson RouteDecisionKindV1 := λ k,
  JStr match k with
       | Initial => "initial" | RetryRoute => "retry" | Escalation => "escalation"
       | UserOverride => "user_override"
       end.
#[global] Instance EstimatedUsageClassV1_to_json : ToJson EstimatedUsageClassV1 := λ u,
  JStr match u with
       | UsageSmall => "small" | UsageStandard => "standard" | UsageLarge => "large"
       | UsageUnknown => "unknown"
       end.
#[global] Instance RouteConfidenceV1_to_json : ToJson RouteConfidenceV1 := λ c,
  JStr match c with
       | ConfidenceLow => "low" | ConfidenceMedium => "medium" | ConfidenceHigh => "high"
       end.

(** ** Data *)

Record ModelCapabilityV1 := {
  mc_catalog_id : string;
  mc_model_id : string;
  mc_display_name : string;
  mc_hidden : bool;
  mc_is_default : bool;
  mc_supported_reasoning_efforts : list ReasoningEffortV1;
  mc_default_reasoning_effort : ReasoningEffortV1
}.

Record CodexPermissionCapabilitiesV1 := {
  cp_approval_policy_configurable : bool;
  cp_sandbox_mode_configurable : bool;
  cp_network_policy_observable : bool;
  cp_paid_action_observable : bool
}.

Record CapabilitySnapshotV1 := {
  cs_schema_id : string;
  cs_schema_version : N;
  cs_capability_snapshot_id : CapabilitySnapshotId;
  cs_source : CapabilitySourceV1;
  cs_captured_at : DateTime;
  cs_expires_at : DateTime;
  cs_codex_version : option string;
  cs_protocol_version : string;
  cs_protocol_schema_fingerprint : Sha256Hash;
  cs_models : list ModelCapabilityV1;
  cs_operations : gmap string bool;
  cs_native_execution_modes : list ExecutionModeV1;
  cs_managed_execution_modes : list ExecutionModeV1;
  cs_permission_capabilities : CodexPermissionCapabilitiesV1;
  cs_limits : gmap string N;
  cs_limitations : list string;
  cs_raw_artifact_ref : ArtifactRef;
  cs_snapshot_fingerprint : Sha256Hash
}.

Record RouteAlternativeV1 := {
  ra_model_role : ModelRoleV1;
  ra_model_id : option string;
  ra_reasoning_effort : ReasoningEffortV1;
  ra_execution_mode : ExecutionModeV1;
  ra_reason_not_selected : string
}.

Record RouteFallbackV1 := {
  rf_ordinal : N;
  rf_model_role : ModelRoleV1;
  rf_model_id : option string;
  rf_reasoning_effort : ReasoningEffortV1;
  rf_execution_mode : ExecutionModeV1;
  rf_condition : string
}.

Record RouteDecisionV1 := {
  rd_schema_id : string;
  rd_schema_version : N;
  rd_route_decision_id : RouteDecisionId;
  rd_revision : N;
  rd_goal_id : GoalId;
  rd_run_id : RunId;
  rd_stage_id : StageId;
  rd_stage_revision : N;
  rd_stage_fingerprint : Sha256Hash;
  rd_stage_graph_ref : DocumentRef;
  rd_decision_kind : RouteDecisionKindV1;
  rd_model_role : ModelRoleV1;
  rd_requested_model : option string;
  rd_resolved_model : string;
  rd_requested_reasoning_effort : option ReasoningEffortV1;
  rd_reasoning_effort : ReasoningEffortV1;
  rd_plan_reasoning_effort : option ReasoningEffortV1;
  rd_stage_mode : StageModeV1;
  rd_requested_execution_mode : option ExecutionModeV1;
  rd_execution_mode : ExecutionModeV1;
  rd_execution_realization : ExecutionRealizationV1;
  rd_capability_snapshot_ref : DocumentRef;
  rd_config_fingerprint : Sha256Hash;
  rd_risk_level : ValidationRiskLevel;
  rd_parallelizable : bool;
  rd_estimated_usage_class : EstimatedUsageClassV1;
  rd_confidence : RouteConfidenceV1;
  rd_rationale : list string;
  rd_alternatives : list RouteAlternativeV1;
  rd_fallback_chain : list RouteFallbackV1;
  rd_permission_plan_ref : DocumentRef;
  rd_budget_snapshot_ref : option DocumentRef;
  rd_decided_at : DateTime;
  rd_decision_fingerprint : Sha256Hash
}.

#[global] Instance ModelCapabilityV1_eq_dec : EqDecision ModelCapabilityV1.
Proof. solve_decision. Defined.
#[global] Instance CodexPermissionCapabilitiesV1_eq_dec :
  EqDecision CodexPermissionCapabilitiesV1.
Proof. solve_decision. Defined.
#[global] Instance CapabilitySnapshotV1_eq_dec : EqDecision CapabilitySnapshotV1.
Proof. solve_decision. Defined.
#[global] Instance RouteAlternativeV1_eq_dec : EqDecision RouteAlternativeV1.
Proof. solve_decision. Defined.
#[global] Instance RouteFallbackV1_eq_dec : EqDecision RouteFallbackV1.
Proof. solve_decision. Defined.
#[global] Instance RouteDecisionV1_eq_dec : EqDecision RouteDecisionV1.
Proof. solve_decision. Defined.

#[global] Instance ModelCapabilityV1_to_json : ToJson ModelCapabilityV1 := λ m,
  JObj [("catalog_id", to_json (mc_catalog_id m)); ("model_id", to_json (mc_model_id m));
        ("display_name", to_json (mc_display_name m)); ("hidden", to_json (mc_hidden m));
        ("is_default", to_json (mc_is_default m));
        ("supported_reasoning_efforts", to_json (mc_supported_reasoning_efforts m));
        ("default_reasoning_effort", to_json (mc_default_reasoning_effort m))].

#[global] Instance CodexPermissionCapabilitiesV1_to_json :
    ToJson CodexPermissionCapabilitiesV1 := λ p,
  JObj [("approval_policy_configurable", to_json (cp_approval_policy_configurable p));
        ("sandbox_mode_configurable", to_json (cp_sandbox_mode_configurable p));
        ("network_policy_observable", to_json (cp_network_policy_observable p));
        ("paid_action_observable", to_json (cp_paid_action_observable p))].

#[global] Instance RouteAlternativeV1_to_json : ToJson RouteAlternativeV1 := λ a, JObj (present
  [field "model_role" (ra_model_role a); opt_field "model_id" (ra_model_id a);
   field "reasoning_effort" (ra_reasoning_effort a);
   field "execution_mode" (ra_execution_mode a);
   field "reason_not_selected" (ra_reason_not_selected a)]).

#[global] Instance RouteFallbackV1_to_json : ToJson RouteFallbackV1 := λ f, JObj (present
  [field "ordinal" (rf_ordinal f); field "model_role" (rf_model_role f);
   opt_field "model_id" (rf_model_id f); field "reasoning_effort" (rf_reasoning_effort f);
   field "execution_mode" (rf_execution_mode f); field "condition" (rf_condition f)]).

Section contract.
Context `{Platform}.

(** ** The capability snapshot *)

Definition cs_validate_shape (s : CapabilitySnapshotV1) : result unit RoutingContractError :=
  check negb (String.eqb (cs_schema_id s) CAPABILITY_SNAPSHOT_SCHEMA_ID)
    || negb (cs_schema_version s =? ROUTING_CONTRACT_VERSION)%N
    || (cs_expires_at s <=? cs_captured_at s)%Z
    || is_none_or (cs_codex_version s) (λ version, negb (bounded_text version 128))
    || negb (bounded_token_slash (cs_protocol_version s) 96)
    || String.eqb (cs_protocol_schema_fingerprint s) (digest EmptyString)
    || (len (cs_models s) =? 0)%N
    || negb (distinct_count (map mc_model_id (cs_models s)) =? len (cs_models s))%N
    || negb (distinct_count (map mc_catalog_id (cs_models s)) =? len (cs_models s))%N
    || (1 <? len (filter (λ model, mc_is_default model = true) (cs_models s)))%N
    || existsb (λ model,
         negb (bounded_token_slash (mc_model_id model) 128)
         || negb (bounded_token_slash (mc_catalog_id model) 128)
         || negb (bounded_text (mc_display_name model) 256)
         || (len (mc_supported_reasoning_efforts model) =? 0)%N
         || negb (distinct_count (mc_supported_reasoning_efforts model)
                  =? len (mc_supported_reasoning_efforts model))%N
         || negb (mem (mc_default_reasoning_effort model)
                    (mc_supported_reasoning_efforts model))) (cs_models s)
    || existsb (λ operation, negb (bounded_token_slash operation 96))
         (map fst (btree_entries (cs_operations s)))
    || existsb (λ '(key, value), negb (bounded_token_slash key 96) || (value =? 0)%N)
         (btree_entries (cs_limits s))
    || negb (ArtifactRef_validate (cs_raw_artifact_ref s))
    || (256 <? len (cs_limitations s))%N
    || existsb (λ limitation, negb (bounded_text limitation 1024)) (cs_limitations s)
    || (mem Single (cs_native_execution_modes s)
        && (negb (bool_decide (cs_operations s !! "thread_start" = Some true))
            || negb (bool_decide (cs_operations s !! "turn_start" = Some true))
            || negb (cp_approval_policy_configurable (cs_permission_capabilities s))
            || negb (cp_sandbox_mode_configurable (cs_permission_capabilities s))))
  else RouteCapability in
  Ok tt.

Definition cs_with (s : CapabilitySnapshotV1) (native managed : list ExecutionModeV1)
    (limitations : list string) (fp : Sha256Hash) : CapabilitySnapshotV1 :=
  {| cs_schema_id := cs_schema_id s;
     cs_schema_version := cs_schema_version s;
     cs_capability_snapshot_id := cs_capability_snapshot_id s;
     cs_source := cs_source s;
     cs_captured_at := cs_captured_at s;
     cs_expires_at := cs_expires_at s;
     cs_codex_version := cs_codex_version s;
     cs_protocol_version := cs_protocol_version s;
     cs_protocol_schema_fingerprint := cs_protocol_schema_fingerprint s;
     cs_models := cs_models s;
     cs_operations := cs_operations s;
     cs_native_execution_modes := native;
     cs_managed_execution_modes := managed;
     cs_permission_capabilities := cs_permission_capabilities s;
     cs_limits := cs_limits s;
     cs_limitations := limitations;
     cs_raw_artifact_ref := cs_raw_artifact_ref s;
     cs_snapshot_fingerprint := fp |}.

Definition cs_payload (s : CapabilitySnapshotV1) : Json := JObj
  [("domain", to_json CAPABILITY_SNAPSHOT_SCHEMA_ID);
   ("version", to_json ROUTING_CONTRACT_VERSION);
   ("value", JObj
     [("capability_snapshot_id", to_json (cs_capability_snapshot_id s));
      ("source", to_json (cs_source s));
      ("captured_at", JStr (rfc3339 (cs_captured_at s)));
      ("expires_at", JStr (rfc3339 (cs_expires_at s)));
      ("codex_version", to_json (cs_codex_version s));
      ("protocol_version", to_json (cs_protocol_version s));
      ("protocol_schema_fingerprint", to_json (cs_protocol_schema_fingerprint s));
      ("models", to_json (cs_models s));
      ("operations", to_json (cs_operations s));
      ("native_execution_modes", to_json (cs_native_execution_modes s));
      ("managed_execution_modes", to_json (cs_managed_execution_modes s));
      ("permission_capabilities", to_json (cs_permission_capabilities s));
      ("limits", to_json (cs_limits s));
      ("limitations", to_json (cs_limitations s));
      ("raw_artifact_ref", to_json (cs_raw_artifact_ref s))])].

Definition cs_seal (s : CapabilitySnapshotV1) :
    result CapabilitySnapshotV1 RoutingContractError :=
  let s := cs_with s (sort_dedup (cs_native_execution_modes s))
    (sort_dedup (cs_managed_execution_modes s)) (sort_dedup (cs_limitations s))
    (cs_snapshot_fingerprint s) in
  let? _ := cs_validate_shape s in
  let? fp := map_err (λ _, RouteFingerprint) (canonical_sha256 (cs_payload s)) in
  Ok (cs_with s (cs_native_execution_modes s) (cs_managed_execution_modes s)
        (cs_limitations s) fp).

Definition cs_verify (s : CapabilitySnapshotV1) : result unit RoutingContractError :=
  let? expected := cs_seal s in
  if bool_decide (expected = s) then Ok tt else Err RouteFingerprint.

Definition is_current_at (s : CapabilitySnapshotV1) (now : DateTime) : bool :=
  (cs_captured_at s <=? now)%Z && (now <? cs_expires_at s)%Z.

Definition supports_model_effort (s : CapabilitySnapshotV1) (model_id : string)
    (effort : ReasoningEffortV1) : bool :=
  existsb (λ model, String.eqb (mc_model_id model) model_id
                    && mem effort (mc_supported_reasoning_efforts model)) (cs_models s).

Definition supports_execution_mode (s : CapabilitySnapshotV1) (mode : ExecutionModeV1)
    (realization : ExecutionRealizationV1) : bool :=
  match realization with
  | Native => mem mode (cs_native_execution_modes s)
  | Managed => mem mode (cs_managed_execution_modes s)
  end.

(** ** The route decision *)

(** [u32::try_from(index + 1).unwrap_or(0)] for each position of the chain. *)
Definition expected_ordinal (index : nat) : N :=
  let n := N.of_nat (S index) in if (n <=? u32_max)%N then n else 0%N.

Fixpoint ordinals_off (index : nat) (chain : list RouteFallbackV1) : bool :=
  match chain with
  | [] => false
  | fallback :: rest =>
      negb (rf_ordinal fallback =? expected_ordinal index)%N || ordinals_off (S index) rest
  end.

Definition rd_validate_against (d : RouteDecisionV1) (stage : StageSpecV1)
    (snapshot : CapabilitySnapshotV1) : result unit RoutingContractError :=
  check negb (String.eqb (rd_schema_id d) ROUTE_DECISION_SCHEMA_ID)
    || negb (rd_schema_version d =? ROUTING_CONTRACT_VERSION)%N
    || (rd_revision d =? 0)%N
    || negb (bool_decide (ss_executor_kind stage = Codex))
    || negb (String.eqb (rd_goal_id d) (ss_goal_id stage))
    || negb (String.eqb (rd_stage_id d) (ss_stage_id stage))
    || negb (rd_stage_revision d =? ss_revision stage)%N
    || negb (String.eqb (rd_stage_fingerprint d) (ss_stage_fingerprint stage))
    || negb (bool_decide (rd_stage_mode d = ss_stage_mode stage))
    || negb (String.eqb (dr_schema_id (rd_capability_snapshot_ref d))
               CAPABILITY_SNAPSHOT_SCHEMA_ID)
    || negb (String.eqb (dr_document_id (rd_capability_snapshot_ref d))
               (cs_capability_snapshot_id snapshot))
    || negb (dr_revision (rd_capability_snapshot_ref d) =? 1)%N
    || negb (String.eqb (dr_sha256 (rd_capability_snapshot_ref d))
               (cs_snapshot_fingerprint snapshot))
    || negb (bool_decide (ss_permission_plan_ref stage = Some (rd_permission_plan_ref d)))
  else RouteStage in
  check negb (is_current_at snapshot (rd_decided_at d))
    || negb (supports_model_effort snapshot (rd_resolved_model d) (rd_reasoning_effort d))
    || negb (supports_execution_mode snapshot (rd_execution_mode d)
               (rd_execution_realization d))
  else RouteUnsupported in
  check negb (bounded_token_slash (rd_resolved_model d) 128)
    || is_some_and (rd_requested_model d) (λ model, negb (bounded_token_slash model 128))
    || String.eqb (rd_config_fingerprint d) (digest EmptyString)
    || (len (rd_rationale d) =? 0)%N
    || (128 <? len (rd_rationale d))%N
    || existsb (λ reason, negb (bounded_text reason 1024)) (rd_rationale d)
    || (len (rd_fallback_chain d) =? 0)%N
    || (64 <? len (rd_fallback_chain d))%N
    || existsb (λ fallback,
         (rf_ordinal fallback =? 0)%N
         || negb (bounded_text (rf_condition fallback) 512)
         || is_none_or (rf_model_id fallback) (λ model,
              negb (bounded_token_slash model 128)
              || negb (supports_model_effort snapshot model (rf_reasoning_effort fallback)))
         || (negb (supports_execution_mode snapshot (rf_execution_mode fallback) Native)
             && negb (supports_execution_mode snapshot (rf_execution_mode fallback) Managed)))
         (rd_fallback_chain d)
    || negb (distinct_count (map rf_ordinal (rd_fallback_chain d))
             =? len (rd_fallback_chain d))%N
    || ordinals_off 0 (rd_fallback_chain d)
    || (128 <? len (rd_alternatives d))%N
    || existsb (λ alternative,
         negb (bounded_text (ra_reason_not_selected alternative) 512)
         || is_some_and (ra_model_id alternative) (λ model, negb (bounded_token_slash model 128)))
         (rd_alternatives d)
    || (negb (bool_decide (rd_stage_mode d = Plan)) && is_some (rd_plan_reasoning_effort d))
    || (bool_decide (rd_stage_mode d = Plan)
        && is_some_and (rd_plan_reasoning_effort d) (λ effort,
             negb (supports_model_effort snapshot (rd_resolved_model d) effort)))
    || negb (document_ref_is_bounded (rd_permission_plan_ref d) "star.permission-plan")
    || negb (document_ref_is_bounded (rd_stage_graph_ref d) "star.stage-graph")
    || is_some_and (rd_budget_snapshot_ref d) (λ reference,
         negb (document_ref_is_bounded reference "star.budget-snapshot"))
  else RouteContent in
  Ok tt.

Definition rd_with (d : RouteDecisionV1) (rationale : list string)
    (alternatives : list RouteAlternativeV1) (fallback_chain : list RouteFallbackV1)
    (fp : Sha256Hash) : RouteDecisionV1 :=
  {| rd_schema_id := rd_schema_id d;
     rd_schema_version := rd_schema_version d;
     rd_route_decision_id := rd_route_decision_id d;
     rd_revision := rd_revision d;
     rd_goal_id := rd_goal_id d;
     rd_run_id := rd_run_id d;
     rd_stage_id := rd_stage_id d;
     rd_stage_revision := rd_stage_revision d;
     rd_stage_fingerprint := rd_stage_fingerprint d;
     rd_stage_graph_ref := rd_stage_graph_ref d;
     rd_decision_kind := rd_decision_kind d;
     rd_model_role := rd_model_role d;
     rd_requested_model := rd_requested_model d;
     rd_resolved_model := rd_resolved_model d;
     rd_requested_reasoning_effort := rd_requested_reasoning_effort d;
     rd_reasoning_effort := rd_reasoning_effort d;
     rd_plan_reasoning_effort := rd_plan_reasoning_effort d;
     rd_stage_mode := rd_stage_mode d;
     rd_requested_execution_mode := rd_requested_execution_mode d;
     rd_execution_mode := rd_execution_mode d;
     rd_execution_realization := rd_execution_realization d;
     rd_capability_snapshot_ref := rd_capability_snapshot_ref d;
     rd_config_fingerprint := rd_config_fingerprint d;
     rd_risk_level := rd_risk_level d;
     rd_parallelizable := rd_parallelizable d;
     rd_estimated_usage_class := rd_estimated_usage_class d;
     rd_confidence := rd_confidence d;
     rd_rationale := rationale;
     rd_alternatives := alternatives;
     rd_fallback_chain := fallback_chain;
     rd_permission_plan_ref := rd_permission_plan_ref d;
     rd_budget_snapshot_ref := rd_budget_snapshot_ref d;
     rd_decided_at := rd_decided_at d;
     rd_decision_fingerprint := fp |}.

Definition rd_payload (d : RouteDecisionV1) : Json := JObj
  [("domain", to_json ROUTE_DECISION_SCHEMA_ID);
   ("version", to_json ROUTING_CONTRACT_VERSION);
   ("value", JObj
     [("route_decision_id", to_json (rd_route_decision_id d));
      ("revision", to_json (rd_revision d));
      ("goal_id", to_json (rd_goal_id d));
      ("run_id", to_json (rd_run_id d));
      ("stage_id", to_json (rd_stage_id d));
      ("stage_revision", to_json (rd_stage_revision d));
      ("stage_fingerprint", to_json (rd_stage_fingerprint d));
      ("stage_graph_ref", to_json (rd_stage_graph_ref d));
      ("decision_kind", to_json (rd_decision_kind d));
      ("model_role", to_json (rd_model_role d));
      ("requested_model", to_json (rd_requested_model d));
      ("resolved_model", to_json (rd_resolved_model d));
      ("requested_reasoning_effort", to_json (rd_requested_reasoning_effort d));
      ("reasoning_effort", to_json (rd_reasoning_effort d));
      ("plan_reasoning_effort", to_json (rd_plan_reasoning_effort d));
      ("stage_mode", to_json (rd_stage_mode d));
      ("requested_execution_mode", to_json (rd_requested_execution_mode d));
      ("execution_mode", to_json (rd_execution_mode d));
      ("execution_realization", to_json (rd_execution_realization d));
      ("capability_snapshot_ref", to_json (rd_capability_snapshot_ref d));
      ("config_fingerprint", to_json (rd_config_fingerprint d));
      ("risk_level", to_json (rd_risk_level d));
      ("parallelizable", to_json (rd_parallelizable d));
      ("estimated_usage_class", to_json (rd_estimated_usage_class d));
      ("confidence", to_json (rd_confidence d));
      ("rationale", to_json (rd_rationale d));
      ("alternatives", to_json (rd_alternatives d));
      ("fallback_chain", to_json (rd_fallback_chain d));
      ("permission_plan_ref", to_json (rd_permission_plan_ref d));
      ("budget_snapshot_ref", to_json (rd_budget_snapshot_ref d));
      ("decided_at", JStr (rfc3339 (rd_decided_at d)))])].

(** The key [alternatives.sort_by] compares. *)
Definition alternative_key (a : RouteAlternativeV1) :
    ModelRoleV1 * (option string * ReasoningEffortV1) :=
  (ra_model_role a, (ra_model_id a, ra_reasoning_effort a)).

Definition rd_seal_against (d : RouteDecisionV1) (stage : StageSpecV1)
    (snapshot : CapabilitySnapshotV1) : result RouteDecisionV1 RoutingContractError :=
  let? _ := map_err (λ _, RouteStage) (ss_verify stage) in
  let? _ := cs_verify snapshot in
  let d := rd_with d (sort_dedup (rd_rationale d))
    (sort_by_key alternative_key (rd_alternatives d))
    (sort_by_key rf_ordinal (rd_fallback_chain d)) (rd_decision_fingerprint d) in
  let? _ := rd_validate_against d stage snapshot in
  let? fp := map_err (λ _, RouteFingerprint) (canonical_sha256 (rd_payload d)) in
  Ok (rd_with d (rd_rationale d) (rd_alternatives d) (rd_fallback_chain d) fp).

Definition rd_verify_against (d : RouteDecisionV1) (stage : StageSpecV1)
    (snapshot : CapabilitySnapshotV1) : result unit RoutingContractError :=
  let? expected := rd_seal_against d stage snapshot in
  if bool_decide (expected = d) then Ok tt else Err RouteFingerprint.

End contract.

(** ** Route selection *)

Record RoutingPolicyV1 := {
  rp_role_models : ModelRoleV1 → option (list string);
  rp_max_parallel_codex : N;
  rp_allow_managed_ultra : bool
}.

Record RouteRequestV1 := {
  rq_run_id : RunId;
  rq_decision_kind : RouteDecisionKindV1;
  rq_stage_graph_ref : DocumentRef;
  rq_requested_model : option string;
  rq_requested_reasoning_effort : option ReasoningEffortV1;
  rq_requested_execution_mode : option ExecutionModeV1;
  rq_risk_level : ValidationRiskLevel;
  rq_parallelizable : bool;
  rq_estimated_usage_class : EstimatedUsageClassV1;
  rq_permission_plan_ref : DocumentRef;
  rq_budget_snapshot_ref : option DocumentRef;
  rq_config_fingerprint : Sha256Hash;
  rq_decided_at : DateTime
}.

Inductive RoutePlanningError :=
| DeterministicStage | CapabilityUnavailable | NoModel | ExecutionMode
| RouteContract (e : RoutingContractError).

#[global] Instance RoutePlanningError_eq_dec : EqDecision RoutePlanningError.
Proof. solve_decision. Defined.

Definition role_for (mode : StageModeV1) (risk : ValidationRiskLevel) : ModelRoleV1 :=
  match mode, risk with
  | Review, _ | _, RiskCritical => Sol
  | Plan, RiskHigh => Sol
  | _, RiskLow => Luna
  | _, _ => Terra
  end.

Definition effort_for (mode : StageModeV1) (risk : ValidationRiskLevel) : ReasoningEffortV1 :=
  match mode, risk with
  | Review, RiskCritical | Plan, RiskCritical => EffortXhigh
  | Review, _ | _, RiskHigh => EffortHigh
  | _, RiskLow => EffortLow
  | _, _ => EffortMedium
  end.

(** [Iterator::max] keeps the last and [min] the first of equal elements; the
    order is total, so equal elements are the same value. *)
Fixpoint best (better : ReasoningEffortV1 → ReasoningEffortV1 → bool)
    (l : list ReasoningEffortV1) : option ReasoningEffortV1 :=
  match l with
  | [] => None
  | x :: l' => match best better l' with
               | None => Some x
               | Some y => Some (if better x y then x else y)
               end
  end.

Definition supported_effort (desired : ReasoningEffortV1) (supported : list ReasoningEffortV1) :
    option ReasoningEffortV1 :=
  match best (λ x y, cmp_leb y x) (filter (λ effort, cmp_leb effort desired = true) supported) with
  | Some effort => Some effort
  | None => best cmp_leb supported
  end.

Definition realize_mode (requested : ExecutionModeV1) (parallelizable : bool)
    (snapshot : CapabilitySnapshotV1) (policy : RoutingPolicyV1) :
    result (ExecutionModeV1 * ExecutionRealizationV1 * bool) RoutePlanningError :=
  if mem requested (cs_native_execution_modes snapshot) then Ok (requested, Native, false)
  else if bool_decide (requested = ModeUltra)
          && parallelizable
          && rp_allow_managed_ultra policy
          && (2 <=? rp_max_parallel_codex policy)%N
          && mem ModeUltra (cs_managed_execution_modes snapshot)
  then Ok (ModeUltra, Managed, false)
  else if mem Single (cs_native_execution_modes snapshot) then Ok (Single, Native, true)
  else if mem Single (cs_managed_execution_modes snapshot) then Ok (Single, Managed, true)
  else Err ExecutionMode.

(** [Iterator::find_map]. *)
Fixpoint find_map {A B} (f : A → option B) (l : list A) : option B :=
  match l with
  | [] => None
  | x :: l' => match f x with Some y => Some y | None => find_map f l' end
  end.

Definition find_model (snapshot : CapabilitySnapshotV1) (model_id : string) :
    option ModelCapabilityV1 :=
  find_map (λ model, if String.eqb (mc_model_id model) model_id then Some model else None)
    (cs_models snapshot).

(** The model, its effort, and whether either is a fallback. *)
Definition select_model (snapshot : CapabilitySnapshotV1) (candidates : list string)
    (desired_effort : ReasoningEffortV1) : option (string * ReasoningEffortV1 * bool) :=
  match find_map (λ model_id,
          model ← find_model snapshot model_id;
          effort ← supported_effort desired_effort (mc_supported_reasoning_efforts model);
          Some (mc_model_id model, effort, negb (bool_decide (effort = desired_effort))))
        candidates with
  | Some choice => Some choice
  | None =>
      find_map (λ model,
        effort ← supported_effort desired_effort (mc_supported_reasoning_efforts model);
        Some (mc_model_id model, effort, true)) (cs_models snapshot)
  end.

(** The [Debug] names that the rationale prints. *)
Definition StageModeV1_debug (m : StageModeV1) : string :=
  match m with Plan => "Plan" | Execute => "Execute" | Review => "Review" end.
Definition ValidationRiskLevel_debug (r : ValidationRiskLevel) : string :=
  match r with
  | RiskLow => "Low" | RiskMedium => "Medium" | RiskHigh => "High" | RiskCritical => "Critical"
  end.

Section routing.
Context `{Platform}.

(** [route_decision_id] is the fresh [RouteDecisionId::new()]. *)
Definition route_codex_stage (route_decision_id : RouteDecisionId) (stage : StageSpecV1)
    (snapshot : CapabilitySnapshotV1) (policy : RoutingPolicyV1) (request : RouteRequestV1) :
    result RouteDecisionV1 RoutePlanningError :=
  check negb (bool_decide (ss_executor_kind stage = Codex)) else DeterministicStage in
  let? _ := map_err RouteContract (cs_verify snapshot) in
  check negb (is_current_at snapshot (rq_decided_at request))
    || negb (forallb (λ operation, bool_decide (cs_operations snapshot !! operation = Some true))
               ["thread_start"; "turn_start"])
  else CapabilityUnavailable in
  let role := role_for (ss_stage_mode stage) (rq_risk_level request) in
  let desired_effort := default (effort_for (ss_stage_mode stage) (rq_risk_level request))
    (rq_requested_reasoning_effort request) in
  let candidates := match rq_requested_model request with
    | Some requested => [requested]
    | None => default [] (rp_role_models policy role)
    end in
  let? (resolved_model, reasoning_effort, model_downgraded) :=
    ok_or (select_model snapshot candidates desired_effort) NoModel in
  let requested_mode := default Single (rq_requested_execution_mode request) in
  let? (execution_mode, execution_realization, mode_changed) :=
    realize_mode requested_mode (rq_parallelizable request) snapshot policy in
  let rationale :=
    [to_ascii_lowercase ("stage_mode:" +:+ StageModeV1_debug (ss_stage_mode stage));
     to_ascii_lowercase ("risk:" +:+ ValidationRiskLevel_debug (rq_risk_level request))]
    ++ (if model_downgraded : bool
        then ["requested_or_preferred_model_capability_fallback"] else [])
    ++ (if mode_changed : bool then ["requested_execution_mode_safe_fallback"] else []) in
  let alternatives := map (λ model,
      {| ra_model_role := role; ra_model_id := Some model;
         ra_reasoning_effort := desired_effort; ra_execution_mode := requested_mode;
         ra_reason_not_selected := "capability_or_policy_constraint" |})
    (filter (λ model, model ≠ resolved_model) candidates) in
  let fallback_chain :=
    [{| rf_ordinal := 1; rf_model_role := role; rf_model_id := Some resolved_model;
        rf_reasoning_effort :=
          match find_model snapshot resolved_model with
          | Some model => mc_default_reasoning_effort model
          | None => reasoning_effort
          end;
        rf_execution_mode := Single;
        rf_condition := "selected_route_rejected_before_effect" |}] in
  map_err RouteContract (rd_seal_against
    {| rd_schema_id := ROUTE_DECISION_SCHEMA_ID;
       rd_schema_version := ROUTING_CONTRACT_VERSION;
       rd_route_decision_id := route_decision_id;
       rd_revision := 1;
       rd_goal_id := ss_goal_id stage;
       rd_run_id := rq_run_id request;
       rd_stage_id := ss_stage_id stage;
       rd_stage_revision := ss_revision stage;
       rd_stage_fingerprint := ss_stage_fingerprint stage;
       rd_stage_graph_ref := rq_stage_graph_ref request;
       rd_decision_kind := rq_decision_kind request;
       rd_model_role := role;
       rd_requested_model := rq_requested_model request;
       rd_resolved_model := resolved_model;
       rd_requested_reasoning_effort := rq_requested_reasoning_effort request;
       rd_reasoning_effort := reasoning_effort;
       rd_plan_reasoning_effort :=
         if bool_decide (ss_stage_mode stage = Plan) then Some reasoning_effort else None;
       rd_stage_mode := ss_stage_mode stage;
       rd_requested_execution_mode := rq_requested_execution_mode request;
       rd_execution_mode := execution_mode;
       rd_execution_realization := execution_realization;
       rd_capability_snapshot_ref :=
         {| dr_schema_id := CAPABILITY_SNAPSHOT_SCHEMA_ID;
            dr_document_id := cs_capability_snapshot_id snapshot;
            dr_revision := 1;
            dr_sha256 := cs_snapshot_fingerprint snapshot |};
       rd_config_fingerprint := rq_config_fingerprint request;
       rd_risk_level := rq_risk_level request;
       rd_parallelizable := rq_parallelizable request;
       rd_estimated_usage_class := rq_estimated_usage_class request;
       rd_confidence := if model_downgraded || mode_changed
                        then ConfidenceMedium else ConfidenceHigh;
       rd_rationale := rationale;
       rd_alternatives := alternatives;
       rd_fallback_chain := fallback_chain;
       rd_permission_plan_ref := rq_permission_plan_ref request;
       rd_budget_snapshot_ref := rq_budget_snapshot_ref request;
       rd_decided_at := rq_decided_at request;
       rd_decision_fingerprint := digest "unsealed-route" |} stage snapshot).

End routing.
