(* ===== verification/RoutingFacts.v ===== *)
(** * Properties of stage routing

    The selected effort is the best supported one, the execution mode is
    realized only as the policy allows, and every decision that is returned
    verifies against the stage and the snapshot it was made for. *)
From S2P Require Import Prelude Canonical Toy Contracts Evidence Kahn Stage StageFacts Routing.

(** ** Efforts *)

Section best.
Context (better : ReasoningEffortV1 → ReasoningEffortV1 → bool).
Context (Htotal : ∀ x y, better x y = false → better y x = true).
Context (Hrefl : ∀ x, better x x = true).
Context (Htrans : ∀ x y z, better x y = true → better y z = true → better x z = true).

Lemma best_some l : l ≠ [] → ∃ x, best better l = Some x.
Proof. destruct l; simpl; [done|]. intros _. destruct (best better l); eauto. Qed.

Lemma best_spec l x :
  best better l = Some x → x ∈ l ∧ ∀ y, y ∈ l → better x y = true.
Proof.
  revert x. induction l as [|z l IH]; simpl; [done|]. intros x.
  destruct (best better l) as [y|] eqn:E.
  - destruct (IH y eq_refl) as [Hy Hall]. destruct (better z y) eqn:Ezy; intros [= <-].
    + split; [left|]. intros w [->|Hw]%elem_of_cons; eauto.
    + split; [by right|]. intros w [->|Hw]%elem_of_cons; eauto.
  - intros [= <-]. destruct l; [|by destruct (best_some (r :: l)) as [? ?]; congruence].
    split; [left|]. intros w [->|?]%elem_of_cons; [done|set_solver].
Qed.
End best.

(** The effort that is used: the greatest supported effort not above the
    desired one, or the least supported one. *)
Lemma supported_effort_ok desired supported effort :
  supported_effort desired supported = Some effort →
  effort ∈ supported ∧
  ((cmp_leb effort desired = true ∧
    ∀ e, e ∈ supported → cmp_leb e desired = true → cmp_leb e effort = true) ∨
   (∀ e, e ∈ supported → cmp_leb e desired = false ∧ cmp_leb effort e = true)).
Proof.
  unfold supported_effort.
  destruct (best _ (filter _ supported)) as [m|] eqn:Em.
  - intros [= <-]. destruct (best_spec (λ x y : ReasoningEffortV1, cmp_leb y x)
      (λ x y, cmp_leb_total y x) cmp_leb_refl (λ x y z Hxy Hyz, cmp_leb_trans z y x Hyz Hxy)
      _ _ Em) as [Hin Hall].
    apply list_elem_of_filter in Hin as [Hle Hin]. split; [done|]. left. split; [done|].
    intros e He Hed. apply (Hall e). by apply list_elem_of_filter.
  - intros Hb. destruct (best_spec (cmp_leb (A := ReasoningEffortV1)) cmp_leb_total cmp_leb_refl
      cmp_leb_trans _ _ Hb) as [Hin Hall].
    split; [done|]. right. intros e He. split; [|by apply Hall].
    destruct (cmp_leb e desired) eqn:Ele; [|done].
    destruct (best_some (λ x y, cmp_leb y x)
      (filter (λ effort, cmp_leb effort desired = true) supported)) as [x Hx]; [|congruence].
    intros Hnil. apply (not_elem_of_nil e). rewrite <-Hnil. by apply list_elem_of_filter.
Qed.

Lemma supported_effort_total desired supported :
  supported ≠ [] → ∃ effort, supported_effort desired supported = Some effort.
Proof.
  intros Hne. unfold supported_effort.
  destruct (best _ (filter _ supported)); [eauto|]. by apply best_some.
Qed.

(** ** Sealing *)

Section sealing.
Context `{Platform}.

Lemma cs_seal_ok s s' :
  cs_seal s = Ok s' ↔
  ∃ fp, let n := cs_with s (sort_dedup (cs_native_execution_modes s))
      (sort_dedup (cs_managed_execution_modes s)) (sort_dedup (cs_limitations s)) in
    cs_validate_shape (n (cs_snapshot_fingerprint s)) = Ok tt ∧
    canonical_sha256 (cs_payload (n fp)) = Ok fp ∧ s' = n fp.
Proof.
  unfold cs_seal, map_err. cbn zeta. split.
  - intros Hs. destruct (cs_validate_shape _) as [[]|] eqn:E1; [|done].
    destruct (canonical_sha256 _) as [fp|] eqn:E2; [|done]. injection Hs as <-. by exists fp.
  - intros (fp & Hv & Hc & ->). rewrite Hv.
    change (cs_payload (cs_with s _ _ _ (cs_snapshot_fingerprint s)))
      with (cs_payload (cs_with s (sort_dedup (cs_native_execution_modes s))
      (sort_dedup (cs_managed_execution_modes s)) (sort_dedup (cs_limitations s)) fp)).
    by rewrite Hc.
Qed.

Lemma cs_seal_idem s s' : cs_seal s = Ok s' → cs_seal s' = Ok s'.
Proof.
  intros (fp & Hv & Hc & ->)%cs_seal_ok. apply cs_seal_ok. exists fp.
  cbn [cs_native_execution_modes cs_managed_execution_modes cs_limitations cs_with].
  rewrite !sort_dedup_idemp. done.
Qed.

#[export] Instance CapabilitySnapshotV1_sealing :
    Sealing CapabilitySnapshotV1 RoutingContractError :=
  {| seal := cs_seal; seal_idem := cs_seal_idem |}.

Lemma cs_verify_sealed s : cs_verify s = Ok tt ↔ cs_seal s = Ok s.
Proof.
  unfold cs_verify. destruct (cs_seal s) as [s'|e]; [|naive_solver].
  case_bool_decide; naive_solver.
Qed.

Definition rd_normal (d : RouteDecisionV1) (fp : Sha256Hash) : RouteDecisionV1 :=
  rd_with d (sort_dedup (rd_rationale d)) (sort_by_key alternative_key (rd_alternatives d))
    (sort_by_key rf_ordinal (rd_fallback_chain d)) fp.

Lemma rd_seal_ok d stage snapshot d' :
  rd_seal_against d stage snapshot = Ok d' ↔
  ss_verify stage = Ok tt ∧ cs_verify snapshot = Ok tt ∧
  ∃ fp, rd_validate_against (rd_normal d fp) stage snapshot = Ok tt ∧
    canonical_sha256 (rd_payload (rd_normal d fp)) = Ok fp ∧ d' = rd_normal d fp.
Proof.
  unfold rd_seal_against, map_err. split.
  - intros Hs. destruct (ss_verify stage) as [[]|]; [|done].
    destruct (cs_verify snapshot) as [[]|]; [|done].
    destruct (rd_validate_against _ _ _) as [[]|] eqn:E1; [|done].
    destruct (canonical_sha256 _) as [fp|] eqn:E2; [|done]. injection Hs as <-.
    do 2 (split; [done|]). by exists fp.
  - intros (-> & -> & fp & Hv & Hc & ->).
    change (rd_validate_against _ _ _) with (rd_validate_against (rd_normal d fp) stage snapshot).
    rewrite Hv.
    change (rd_payload _) with (rd_payload (rd_normal d fp)). by rewrite Hc.
Qed.

Lemma rd_normal_idem d fp fp' : rd_normal (rd_normal d fp) fp' = rd_normal d fp'.
Proof.
  unfold rd_normal. cbn [rd_rationale rd_alternatives rd_fallback_chain rd_with].
  by rewrite sort_dedup_idemp, !sort_by_key_idem.
Qed.

Lemma rd_seal_verifies d stage snapshot d' :
  rd_seal_against d stage snapshot = Ok d' → rd_verify_against d' stage snapshot = Ok tt.
Proof.
  intros (Hs & Hc & fp & Hv & Hh & ->)%rd_seal_ok.
  unfold rd_verify_against. rewrite (proj2 (rd_seal_ok _ _ _ (rd_normal d fp))).
  - by rewrite bool_decide_eq_true_2.
  - do 2 (split; [done|]). exists fp. by rewrite rd_normal_idem.
Qed.

(** What a decision validated against a stage and a snapshot satisfies. *)
Record decision_fits (d : RouteDecisionV1) (stage : StageSpecV1)
    (snapshot : CapabilitySnapshotV1) : Prop := {
  df_stage : rd_stage_id d = ss_stage_id stage ∧ rd_stage_revision d = ss_revision stage ∧
    rd_stage_fingerprint d = ss_stage_fingerprint stage ∧ rd_goal_id d = ss_goal_id stage ∧
    ss_executor_kind stage = Codex;
  df_snapshot : dr_sha256 (rd_capability_snapshot_ref d) = cs_snapshot_fingerprint snapshot;
  df_permission : ss_permission_plan_ref stage = Some (rd_permission_plan_ref d);
  df_current : (cs_captured_at snapshot <= rd_decided_at d < cs_expires_at snapshot)%Z;
  df_model : supports_model_effort snapshot (rd_resolved_model d) (rd_reasoning_effort d) = true;
  df_mode : supports_execution_mode snapshot (rd_execution_mode d)
    (rd_execution_realization d) = true;
  df_fallback : rd_fallback_chain d ≠ [] ∧ ∀ f, f ∈ rd_fallback_chain d →
    ∃ model, rf_model_id f = Some model ∧
      supports_model_effort snapshot model (rf_reasoning_effort f) = true ∧
      (supports_execution_mode snapshot (rf_execution_mode f) Native = true ∨
       supports_execution_mode snapshot (rf_execution_mode f) Managed = true)
}.

Lemma rd_validate_fits d stage snapshot :
  rd_validate_against d stage snapshot = Ok tt → decision_fits d stage snapshot.
Proof.
  unfold rd_validate_against. intros Hv. do 3 next_check Hv. clear Hv.
  unfold is_current_at in *. bool_to_prop.
  split; try done; try (split_and!; done).
  split; [intros Hnil; rewrite Hnil in *; done|]. intros f Hf.
  match goal with H : existsb _ (rd_fallback_chain d) = false |- _ =>
    rewrite existsb_false in H; specialize (H f Hf) end. bool_to_prop.
  destruct (rf_model_id f) as [model|]; simpl in *; [|done]. bool_to_prop.
  exists model. split_and!; [done..|].
  match goal with H : negb _ && negb _ = false |- _ => apply andb_false_iff in H as [H'|H'] end;
    bool_to_prop; auto.
Qed.

End sealing.

(** ** Selection *)

Lemma find_map_some {A B} (f : A → option B) l y :
  find_map f l = Some y →
  ∃ l1 x l2, l = l1 ++ x :: l2 ∧ f x = Some y ∧ ∀ z, z ∈ l1 → f z = None.
Proof.
  induction l as [|x l IH]; simpl; [done|]. destruct (f x) eqn:E.
  - intros [= ->]. exists [], x, l. split_and!; [done..|set_solver].
  - intros (l1 & x' & l2 & -> & Hx & Hn)%IH. exists (x :: l1), x', l2.
    split_and!; [done..|]. intros z [->|?]%elem_of_cons; auto.
Qed.

Lemma find_map_first {A B} (f : A → option B) l1 x l2 y :
  (∀ z, z ∈ l1 → f z = None) → f x = Some y → find_map f (l1 ++ x :: l2) = Some y.
Proof.
  intros Hn Hx. induction l1 as [|z l1 IH]; simpl; [by rewrite Hx|].
  rewrite Hn by set_solver. apply IH. set_solver.
Qed.

Lemma find_model_ok snapshot id model :
  find_model snapshot id = Some model → model ∈ cs_models snapshot ∧ mc_model_id model = id.
Proof.
  intros (l1 & x & l2 & Heq & Hx & _)%find_map_some. rewrite Heq.
  destruct (String.eqb _ _) eqn:E; [|done]. injection Hx as <-. bool_to_prop.
  split; [set_solver|done].
Qed.

Lemma select_model_ok snapshot candidates desired m e down :
  select_model snapshot candidates desired = Some (m, e, down) →
  ∃ model, model ∈ cs_models snapshot ∧ mc_model_id model = m ∧
    supported_effort desired (mc_supported_reasoning_efforts model) = Some e ∧
    (down = false → m ∈ candidates ∧ e = desired).
Proof.
  unfold select_model. destruct (find_map _ candidates) as [[[m' e'] down']|] eqn:E.
  - intros [= -> -> ->].
    apply find_map_some in E as (l1 & c & l2 & -> & Hc & _).
    destruct (find_model snapshot c) as [model|] eqn:Em; simpl in Hc; [|done].
    destruct (supported_effort _ _) as [eff|] eqn:Ee; simpl in Hc; [|done].
    injection Hc as <- <- <-. apply find_model_ok in Em as [Hin Hid].
    exists model. split_and!; [done..|]. intros Hd. bool_to_prop. rewrite Hid.
    split; [set_solver|done].
  - intros (l1 & model & l2 & Heq & Hc & _)%find_map_some.
    destruct (supported_effort _ _) as [eff|] eqn:Ee; simpl in Hc; [|done].
    injection Hc as <- <- <-. exists model. rewrite Heq. split_and!; [set_solver|done..].
Qed.

Lemma select_model_first snapshot desired l1 c l2 model :
  (∀ z, z ∈ l1 → find_model snapshot z = None) → find_model snapshot c = Some model →
  mc_supported_reasoning_efforts model ≠ [] →
  ∃ e down, select_model snapshot (l1 ++ c :: l2) desired = Some (c, e, down).
Proof.
  intros Hn Hc Hne. destruct (supported_effort_total desired _ Hne) as [e He].
  pose proof (find_model_ok _ _ _ Hc) as [_ Hid].
  unfold select_model. erewrite find_map_first; [eauto| |].
  - intros z Hz. by rewrite (Hn z Hz).
  - rewrite Hc. simpl. rewrite He. simpl. by rewrite Hid.
Qed.

Section route.
Context `{Platform}.

Lemma cs_verified_efforts s model :
  cs_verify s = Ok tt → model ∈ cs_models s → mc_supported_reasoning_efforts model ≠ [].
Proof.
  intros Hs%cs_verify_sealed. apply cs_seal_ok in Hs as (fp & Hv & _ & _).
  unfold cs_validate_shape in Hv. next_check Hv. clear Hv. bool_to_prop. intros Hm Hnil.
  cbn [cs_models cs_with] in *.
  match goal with H : existsb _ (cs_models s) = false |- _ =>
    rewrite existsb_false in H; specialize (H model Hm) end.
  bool_to_prop. by rewrite Hnil in *.
Qed.

(** The choices behind a returned decision. *)
Lemma route_inv id stage snapshot policy request d :
  route_codex_stage id stage snapshot policy request = Ok d →
  let role := role_for (ss_stage_mode stage) (rq_risk_level request) in
  let desired := default (effort_for (ss_stage_mode stage) (rq_risk_level request))
    (rq_requested_reasoning_effort request) in
  let candidates := match rq_requested_model request with
    | Some requested => [requested] | None => default [] (rp_role_models policy role) end in
  cs_verify snapshot = Ok tt ∧
  (∃ down changed,
    select_model snapshot candidates desired
      = Some (rd_resolved_model d, rd_reasoning_effort d, down) ∧
    realize_mode (default Single (rq_requested_execution_mode request))
      (rq_parallelizable request) snapshot policy
      = Ok (rd_execution_mode d, rd_execution_realization d, changed) ∧
    rd_confidence d = if down || changed then ConfidenceMedium else ConfidenceHigh) ∧
  rd_decided_at d = rq_decided_at request ∧ rd_route_decision_id d = id ∧
  rd_validate_against d stage snapshot = Ok tt ∧
  rd_verify_against d stage snapshot = Ok tt.
Proof.
  unfold route_codex_stage, map_err. intros Hr. next_check Hr.
  destruct (cs_verify snapshot) as [[]|] eqn:Hc; [|done]. next_check Hr.
  destruct (select_model _ _ _) as [[[m e] down]|] eqn:Hsel; simpl in Hr; [|done].
  destruct (realize_mode _ _ _ _) as [[[mode realization] changed]|] eqn:Hmode; [|done].
  destruct (rd_seal_against _ _ _) as [d'|] eqn:Hseal; [|done]. injection Hr as ->.
  pose proof (rd_seal_verifies _ _ _ _ Hseal) as Hver.
  apply rd_seal_ok in Hseal as (_ & _ & fp & Hv & _ & Heq). subst d. cbn zeta.
  split; [done|]. split; [by exists down, changed|]. done.
Qed.

(** ** The properties *)

(** A returned route verifies against the stage and the snapshot, and fits
    them: it names the stage, its revision and fingerprint and its permission
    plan, was decided while the snapshot was current, uses a model, effort and
    execution mode that the snapshot offers, and has a usable fallback. *)
Theorem route_decision_fits id stage snapshot policy request d :
  route_codex_stage id stage snapshot policy request = Ok d →
  rd_verify_against d stage snapshot = Ok tt ∧ decision_fits d stage snapshot.
Proof.
  intros (_ & _ & _ & _ & Hv & Hver)%route_inv. split; [done|]. by apply rd_validate_fits.
Qed.

(** The effort of a route is the greatest effort of the resolved model not
    above the desired one, or the model's least when none is that low; high
    confidence means a candidate model at the desired effort in the requested
    mode. *)
Theorem route_effort_and_confidence id stage snapshot policy request d :
  route_codex_stage id stage snapshot policy request = Ok d →
  let desired := default (effort_for (ss_stage_mode stage) (rq_risk_level request))
    (rq_requested_reasoning_effort request) in
  (∃ model, model ∈ cs_models snapshot ∧ mc_model_id model = rd_resolved_model d ∧
    let supported := mc_supported_reasoning_efforts model in
    rd_reasoning_effort d ∈ supported ∧
    ((cmp_leb (rd_reasoning_effort d) desired = true ∧
      ∀ e, e ∈ supported → cmp_leb e desired = true → cmp_leb e (rd_reasoning_effort d) = true) ∨
     (∀ e, e ∈ supported → cmp_leb e desired = false ∧
        cmp_leb (rd_reasoning_effort d) e = true))) ∧
  (rd_confidence d = ConfidenceHigh →
    rd_reasoning_effort d = desired ∧
    rd_execution_mode d = default Single (rq_requested_execution_mode request) ∧
    ∀ m, rq_requested_model request = Some m → rd_resolved_model d = m).
Proof.
  intros (_ & (down & changed & Hsel & Hmode & Hconf) & _)%route_inv. cbn zeta in *.
  apply select_model_ok in Hsel as (model & Hin & Hid & Heff & Hdown). split.
  - exists model. split; [done|]. split; [done|]. by apply supported_effort_ok.
  - intros Hhigh. rewrite Hhigh in Hconf. destruct down, changed; try done.
    destruct (Hdown eq_refl) as [Hcand Hdes]. split; [done|]. split.
    + unfold realize_mode in Hmode. repeat case_match; simplify_eq; bool_to_prop; congruence.
    + intros m Hm. rewrite Hm in Hcand. set_solver.
Qed.

(** Candidates are taken in order: when the snapshot has a candidate model,
    the first one it has is resolved, whatever effort must be adjusted. *)
Theorem route_prefers_first_available id stage snapshot policy request d l1 c l2 model :
  route_codex_stage id stage snapshot policy request = Ok d →
  match rq_requested_model request with
  | Some requested => [requested]
  | None => default [] (rp_role_models policy
      (role_for (ss_stage_mode stage) (rq_risk_level request)))
  end = l1 ++ c :: l2 →
  (∀ z, z ∈ l1 → find_model snapshot z = None) → find_model snapshot c = Some model →
  rd_resolved_model d = c.
Proof.
  intros (Hc & (down & changed & Hsel & _) & _)%route_inv Hcand Hnone Hmodel.
  cbn zeta in Hsel. rewrite Hcand in Hsel.
  destruct (select_model_first snapshot
    (default (effort_for (ss_stage_mode stage) (rq_risk_level request))
      (rq_requested_reasoning_effort request)) l1 c l2 model) as (e & dn & Hfirst); try done.
  - apply (cs_verified_efforts snapshot); [done|]. by apply find_model_ok in Hmodel as [? _].
  - congruence.
Qed.

(** An execution mode is realized as requested when it is native; managed
    ultra needs a parallelizable stage and a policy that allows it with at
    least two workers; otherwise the route falls back to [Single], and fails
    only when not even [Single] is offered. *)
Theorem realize_mode_spec requested parallelizable snapshot policy :
  match realize_mode requested parallelizable snapshot policy with
  | Ok (mode, realization, changed) =>
      supports_execution_mode snapshot mode realization = true ∧
      (changed = false → mode = requested) ∧
      (changed = true → mode = Single ∧ requested ∉ cs_native_execution_modes snapshot) ∧
      (mode = ModeUltra → realization = Managed →
        parallelizable = true ∧ rp_allow_managed_ultra policy = true ∧
        (2 ≤ rp_max_parallel_codex policy)%N)
  | Err e =>
      e = ExecutionMode ∧ (requested ∉ cs_native_execution_modes snapshot) ∧
      (Single ∉ cs_native_execution_modes snapshot) ∧
      (Single ∉ cs_managed_execution_modes snapshot)
  end.
Proof.
  unfold realize_mode. destruct (mem requested _) eqn:E1.
  { by split_and!. }
  apply mem_false in E1. destruct (_ && _) eqn:E2.
  { bool_to_prop. subst. by split_and!. }
  destruct (mem Single (cs_native_execution_modes snapshot)) eqn:E3; [by split_and!|].
  destruct (mem Single (cs_managed_execution_modes snapshot)) eqn:E4; [by split_and!|].
  apply mem_false in E3, E4. done.
Qed.

End route.

(** ** Instances *)

Definition example_artifact : ArtifactRef := mk_ArtifactRef "art_1" Log None
  "capabilities/redacted.json" "application/json" 16 example_hash 0%Z
  {| pr_component := "star-adapter-codex"; pr_product_version := "0.1.0";
     pr_build_id := "test"; pr_platform := "windows-x64" |} Redacted RetainEvidence None.

Definition example_snapshot : CapabilitySnapshotV1 :=
  let raw :=
    {| cs_schema_id := CAPABILITY_SNAPSHOT_SCHEMA_ID; cs_schema_version := 1;
       cs_capability_snapshot_id := "cap_1"; cs_source := CodexAppServer;
       cs_captured_at := 0%Z; cs_expires_at := 900000%Z; cs_codex_version := Some "26.7.0";
       cs_protocol_version := "app-server-v1"; cs_protocol_schema_fingerprint := example_hash;
       cs_models :=
         [{| mc_catalog_id := "small"; mc_model_id := "small"; mc_display_name := "Small";
             mc_hidden := false; mc_is_default := true;
             mc_supported_reasoning_efforts := [EffortLow; EffortMedium];
             mc_default_reasoning_effort := EffortLow |};
          {| mc_catalog_id := "large"; mc_model_id := "large"; mc_display_name := "Large";
             mc_hidden := false; mc_is_default := false;
             mc_supported_reasoning_efforts := [EffortMedium; EffortHigh];
             mc_default_reasoning_effort := EffortMedium |}];
       cs_operations := {["thread_start" := true; "turn_start" := true]};
       cs_native_execution_modes := [Single]; cs_managed_execution_modes := [ModeUltra];
       cs_permission_capabilities :=
         {| cp_approval_policy_configurable := true; cp_sandbox_mode_configurable := true;
            cp_network_policy_observable := true; cp_paid_action_observable := true |};
       cs_limits := {["threads" := 4%N]}; cs_limitations := [];
       cs_raw_artifact_ref := example_artifact; cs_snapshot_fingerprint := example_hash |} in
  unwrap_or (cs_seal raw) raw.

Definition example_ref (schema id : string) : DocumentRef :=
  {| dr_schema_id := schema; dr_document_id := id; dr_revision := 1; dr_sha256 := example_hash |}.

Definition example_codex_stage : StageSpecV1 :=
  let raw :=
    {| ss_schema_id := STAGE_SPEC_SCHEMA_ID; ss_schema_version := 1; ss_stage_id := "stg_code";
       ss_revision := 1; ss_goal_id := "gol_1"; ss_task_spec_ref := None;
       ss_scope_revision_ref := None; ss_title := "title"; ss_objective := "objective";
       ss_stage_mode := Plan; ss_executor_kind := Codex;
       ss_work_profile_id := "feature"; ss_work_profile_version := "1.0.0";
       ss_work_profile_definition_hash := Some example_hash;
       ss_profile_catalog_fingerprint := Some example_hash;
       ss_profile_resolution_fingerprint := Some example_hash;
       ss_project_ids := ["prj_1"]; ss_included_work := ["work"]; ss_excluded_work := ["rest"];
       ss_expected_change_scope := []; ss_dependencies := []; ss_parallel_group := None;
       ss_completion_criteria := ["done"]; ss_failure_policy := Retry;
       ss_route_decision_ref := None;
       ss_permission_plan_ref := Some (example_ref "star.permission-plan" "pmp_1");
       ss_validation_plan_ref := Some (example_ref "star.validation-plan" "vpl_1");
       ss_impact_analysis_ref := None; ss_change_plan_refs := []; ss_result_ref := None;
       ss_state := Ready; ss_stage_fingerprint := example_hash |} in
  unwrap_or (ss_seal raw) raw.

Definition example_policy : RoutingPolicyV1 :=
  {| rp_role_models := λ role, match role with Luna => Some ["tiny"; "small"] | _ => None end;
     rp_max_parallel_codex := 2; rp_allow_managed_ultra := true |}.

Definition example_request : RouteRequestV1 :=
  {| rq_run_id := "run_1"; rq_decision_kind := Initial;
     rq_stage_graph_ref := example_ref "star.stage-graph" "sgr_1";
     rq_requested_model := None; rq_requested_reasoning_effort := None;
     rq_requested_execution_mode := Some ModeUltra; rq_risk_level := RiskLow;
     rq_parallelizable := true; rq_estimated_usage_class := UsageSmall;
     rq_permission_plan_ref := example_ref "star.permission-plan" "pmp_1";
     rq_budget_snapshot_ref := None; rq_config_fingerprint := example_hash;
     rq_decided_at := 5%Z |}.

(** A plan stage at low risk that asks for ultra: role [Luna], whose first
    candidate is unknown to the snapshot, at effort [Low], in managed ultra. *)
Definition example_route : result RouteDecisionV1 RoutePlanningError :=
  route_codex_stage "rte_1" example_codex_stage example_snapshot example_policy example_request.

Lemma route_decision_fits_witness :
  ∃ d, example_route = Ok d ∧ rd_verify_against d example_codex_stage example_snapshot = Ok tt.
Proof.
  destruct example_route as [d|e] eqn:Hr; [|exfalso; revert Hr; vm_compute; discriminate].
  exists d. split; [reflexivity|]. exact (proj1 (route_decision_fits _ _ _ _ _ _ Hr)).
Defined.

Lemma route_effort_and_confidence_witness :
  ∃ d, example_route = Ok d ∧ rd_confidence d = ConfidenceHigh ∧
    rd_reasoning_effort d = EffortLow ∧ rd_execution_mode d = ModeUltra.
Proof.
  destruct example_route as [d|e] eqn:Hr; [|exfalso; revert Hr; vm_compute; discriminate].
  exists d. split; [reflexivity|].
  assert (rd_confidence d = ConfidenceHigh) as Hh
    by (revert Hr; vm_compute; intros Hr; injection Hr as <-; reflexivity).
  split; [exact Hh|].
  destruct (proj2 (route_effort_and_confidence _ _ _ _ _ _ Hr) Hh) as (He & Hm & _).
  split; [exact He|exact Hm].
Defined.

Lemma route_prefers_first_available_witness :
  ∃ d, example_route = Ok d ∧ rd_resolved_model d = "small".
Proof.
  destruct example_route as [d|e] eqn:Hr; [|exfalso; revert Hr; vm_compute; discriminate].
  exists d. split; [reflexivity|].
  destruct (find_model example_snapshot "small") as [model|] eqn:Hm;
    [|exfalso; revert Hm; vm_compute; discriminate].
  refine (route_prefers_first_available _ _ _ _ _ _ ["tiny"] "small" [] model Hr _ _ Hm).
  - reflexivity.
  - intros z Hz. apply list_elem_of_singleton in Hz as ->. vm_compute; reflexivity.
Defined.
