(* ===== verification/Development.v ===== *)
(** * Change bundles: data and shared helpers

    The bundle and handoff contracts of
    [crates/foundation/star-contracts/src/development.rs] and the helpers of
    [crates/control/star-development/src/lib.rs]. *)
From S2P Require Import Prelude Canonical Contracts.

Inductive DevelopmentError :=
| Coded (code : string)
| DevInvalid
| DevUnverified
| DevConflict
| DevBlocked
| DevAdapter
| DevFingerprint.

#[global] Instance DevelopmentError_eq_dec : EqDecision DevelopmentError.
Proof. solve_decision. Defined.

Definition CHANGE_BUNDLE_SCHEMA_ID : string := "star.change-bundle".
Definition CHANGE_BUNDLE_HANDOFF_SCHEMA_ID : string := "star.change-bundle-handoff".

Inductive BundleParticipantState :=
| Planned | WorktreeReady | Validated | MergeQueued | MergedLocal | RemoteVerified
| ParticipantBlocked | ParticipantUnknown.

Inductive RemoteOutcome := NotRequested | RemoteOk | RemoteFailed | RemoteUnknown.

#[global] Instance BundleParticipantState_eq_dec : EqDecision BundleParticipantState.
Proof. solve_decision. Defined.
#[global] Instance RemoteOutcome_eq_dec : EqDecision RemoteOutcome.
Proof. solve_decision. Defined.

#[global] Instance BundleParticipantState_to_json : ToJson BundleParticipantState := λ s,
  JStr match s with
       | Planned => "planned" | WorktreeReady => "worktree_ready" | Validated => "validated"
       | MergeQueued => "merge_queued" | MergedLocal => "merged_local"
       | RemoteVerified => "remote_verified" | ParticipantBlocked => "blocked"
       | ParticipantUnknown => "outcome_unknown"
       end.

#[global] Instance RemoteOutcome_to_json : ToJson RemoteOutcome := λ o,
  JStr match o with
       | NotRequested => "not_requested" | RemoteOk => "verified" | RemoteFailed => "failed"
       | RemoteUnknown => "outcome_unknown"
       end.

Record ChangeBundleParticipant := {
  bp_participant_id : string;
  bp_project_id : ProjectId;
  bp_checkout_revision : string;
  bp_owned_worktree : string;
  bp_patch_fingerprint : Sha256Hash;
  bp_gate_fingerprint : Sha256Hash;
  bp_state : BundleParticipantState;
  bp_resulting_commit : option string
}.

Record BundleDependency := {
  bd_from_participant_id : string;
  bd_to_participant_id : string
}.

Record ChangeBundle := {
  cb_schema_id : string;
  cb_schema_version : N;
  cb_bundle_id : string;
  cb_goal_id : GoalId;
  cb_revision : N;
  cb_participants : list ChangeBundleParticipant;
  cb_dependencies : list BundleDependency;
  cb_merge_order : list string;
  cb_remote_outcome : RemoteOutcome;
  cb_remote_snapshot_fingerprint : option Sha256Hash;
  cb_limitations : list string;
  cb_bundle_fingerprint : Sha256Hash
}.

Record ChangeBundleHandoff := {
  ch_schema_id : string;
  ch_schema_version : N;
  ch_bundle_id : string;
  ch_bundle_revision : N;
  ch_bundle_fingerprint : Sha256Hash;
  ch_participant_commits : list string;
  ch_artifact_fingerprints : list Sha256Hash;
  ch_remote_outcome : RemoteOutcome;
  ch_ready : bool;
  ch_blockers : list string;
  ch_handoff_fingerprint : Sha256Hash
}.

#[global] Instance ChangeBundleParticipant_eq_dec : EqDecision ChangeBundleParticipant.
Proof. solve_decision. Defined.
#[global] Instance BundleDependency_eq_dec : EqDecision BundleDependency.
Proof. solve_decision. Defined.
#[global] Instance ChangeBundle_eq_dec : EqDecision ChangeBundle.
Proof. solve_decision. Defined.
#[global] Instance ChangeBundleHandoff_eq_dec : EqDecision ChangeBundleHandoff.
Proof. solve_decision. Defined.

(** The order of [create_change_bundle]: by both ends. *)
#[global] Instance BundleDependency_cmp : Cmp BundleDependency :=
  cmp_on (λ d, (bd_from_participant_id d, bd_to_participant_id d)).
#[global] Instance BundleDependency_cmp_laws : CmpLaws BundleDependency.
Proof. apply cmp_on_laws. intros [] []; simpl. by intros [= -> ->]. Qed.

(** [resulting_commit] is serialized as [null] when absent: it is not skipped. *)
#[global] Instance ChangeBundleParticipant_to_json : ToJson ChangeBundleParticipant := λ p,
  JObj [("participant_id", to_json (bp_participant_id p));
        ("project_id", to_json (bp_project_id p));
        ("checkout_revision", to_json (bp_checkout_revision p));
        ("owned_worktree", to_json (bp_owned_worktree p));
        ("patch_fingerprint", to_json (bp_patch_fingerprint p));
        ("gate_fingerprint", to_json (bp_gate_fingerprint p));
        ("state", to_json (bp_state p));
        ("resulting_commit", to_json (bp_resulting_commit p))].

#[global] Instance BundleDependency_to_json : ToJson BundleDependency := λ d,
  JObj [("from_participant_id", to_json (bd_from_participant_id d));
        ("to_participant_id", to_json (bd_to_participant_id d))].

(** ** Helpers of [lib.rs] *)

Definition safe_relative_path (value : string) : bool :=
  negb (is_empty value)
  && (slen value <=? 1024)%N
  && negb (contains_char NUL value)
  && negb (contains_char "\"%char value)
  && negb (starts_with_char (byte_in ["/"%char]) value)
  && negb (contains_char ":"%char value)
  && forallb (λ segment, negb (is_empty segment) && negb (String.eqb segment ".")
                         && negb (String.eqb segment ".."))
       (split_char "/"%char value).

Definition token (value : string) (max : N) : bool :=
  negb (is_empty value)
  && (slen value <=? max)%N
  && bytes_all (λ b, is_ascii_alphanumeric b
                     || byte_in ["."%char; "_"%char; "-"%char] b) value.

Definition valid_revision (value : string) : bool :=
  ((slen value =? 40)%N || (slen value =? 64)%N) && bytes_all is_ascii_hexdigit value.

Section fingerprint.
Context `{Platform}.

Definition fingerprint (domain : string) (value : Json) : result Sha256Hash DevelopmentError :=
  map_err (λ _, DevFingerprint) (versioned_fingerprint domain 1 value).

Definition placeholder : Sha256Hash := digest "unsealed".

End fingerprint.
