(* ===== verification/Coordination.v ===== *)
(** * Change-bundle coordination

    Models [crates/control/star-development/src/coordination.rs]: the bundle of
    participants of a change, its merge order, the merge queue that drives an
    external port, and the handoff. *)
From S2P Require Import Prelude Canonical Contracts Kahn Development.

Record ParticipantDraft := {
  pd_participant_id : string;
  pd_project_id : ProjectId;
  pd_checkout_revision : string;
  pd_patch_fingerprint : Sha256Hash;
  pd_gate_fingerprint : Sha256Hash
}.

Inductive PublishObservation :=
| ObservedVerified (snapshot : Sha256Hash)
| ObservedFailed
| ObservedTimeout.

(** The trait [CoordinationPort]; [S] is the state behind [&mut dyn]. *)
Record CoordinationPort (S : Type) := {
  prepare_owned_worktree : ChangeBundleParticipant → S → S * result unit DevelopmentError;
  merge_local : ChangeBundleParticipant → S → S * result string DevelopmentError;
  publish_remote : ChangeBundle → S → S * PublishObservation;
  reconcile_remote : ChangeBundle → S → S * PublishObservation
}.
Arguments prepare_owned_worktree {S}.
Arguments merge_local {S}.
Arguments publish_remote {S}.
Arguments reconcile_remote {S}.

(** ** The merge order *)

(** [pop_front], and insertion before the first greater element. *)
Fixpoint insert_before_greater (queued : list string) (child : string) : list string :=
  match queued with
  | [] => [child]
  | x :: rest => if cmp_ltb child x then child :: queued
                 else x :: insert_before_greater rest child
  end.

Definition ordered_queue : discipline := {|
  dequeue := λ ready, match ready with [] => None | x :: rest => Some (x, rest) end;
  enqueue := insert_before_greater
|}.

Definition dependency_edges (dependencies : list BundleDependency) : list (string * string) :=
  map (λ edge, (bd_from_participant_id edge, bd_to_participant_id edge)) dependencies.

(** An edge that [topological_order] and [create_change_bundle] refuse. *)
Definition bad_edge (ids : list string) (edge : string * string) : bool :=
  String.eqb edge.1 edge.2 || negb (mem edge.1 ids) || negb (mem edge.2 ids).

(** [ids] is a [BTreeSet]: sorted, without repetition. *)
Definition topological_order (ids : list string) (dependencies : list BundleDependency) :
    result (list string) DevelopmentError :=
  let edges := dependency_edges dependencies in
  check existsb (bad_edge ids) edges else DevConflict in
  match count_edges edges (zero_degrees ids) with
  | None => Err DevConflict
  | Some indegree =>
      match worklist ordered_queue (length ids)
              (λ id, sort_by cmp_leb (outgoing_of edges id))
              indegree (initial_ready ids indegree) [] with
      | Ok order => if negb (len order =? len ids)%N then Err DevConflict else Ok order
      | Err _ => Err DevConflict
      end
  end.

(** ** Bundles *)

Definition participant_ids (participants : list ChangeBundleParticipant) : list string :=
  sort_dedup (map bp_participant_id participants).

Definition validate_bundle (b : ChangeBundle) : result unit DevelopmentError :=
  check negb (String.eqb (cb_schema_id b) CHANGE_BUNDLE_SCHEMA_ID)
    || negb (cb_schema_version b =? 1)%N
    || (cb_revision b =? 0)%N
    || negb (token (cb_bundle_id b) 128)
    || (len (cb_participants b) =? 0)%N
    || existsb (λ participant, negb (safe_relative_path (bp_owned_worktree participant)))
         (cb_participants b)
  else DevInvalid in
  let ids := participant_ids (cb_participants b) in
  check negb (len ids =? len (cb_participants b))%N else DevConflict in
  let? order := topological_order ids (cb_dependencies b) in
  check negb (bool_decide (order = cb_merge_order b)) else DevConflict in
  Ok tt.

Definition cb_with (b : ChangeBundle) (revision : N)
    (participants : list ChangeBundleParticipant) (remote_outcome : RemoteOutcome)
    (remote_snapshot_fingerprint : option Sha256Hash) (limitations : list string)
    (fp : Sha256Hash) : ChangeBundle :=
  {| cb_schema_id := cb_schema_id b;
     cb_schema_version := cb_schema_version b;
     cb_bundle_id := cb_bundle_id b;
     cb_goal_id := cb_goal_id b;
     cb_revision := revision;
     cb_participants := participants;
     cb_dependencies := cb_dependencies b;
     cb_merge_order := cb_merge_order b;
     cb_remote_outcome := remote_outcome;
     cb_remote_snapshot_fingerprint := remote_snapshot_fingerprint;
     cb_limitations := limitations;
     cb_bundle_fingerprint := fp |}.

Definition bp_with (p : ChangeBundleParticipant) (state : BundleParticipantState)
    (resulting_commit : option string) : ChangeBundleParticipant :=
  {| bp_participant_id := bp_participant_id p;
     bp_project_id := bp_project_id p;
     bp_checkout_revision := bp_checkout_revision p;
     bp_owned_worktree := bp_owned_worktree p;
     bp_patch_fingerprint := bp_patch_fingerprint p;
     bp_gate_fingerprint := bp_gate_fingerprint p;
     bp_state := state;
     bp_resulting_commit := resulting_commit |}.

Definition set_state (state : BundleParticipantState) (p : ChangeBundleParticipant) :
    ChangeBundleParticipant := bp_with p state (bp_resulting_commit p).

Section coordination.
Context `{Platform}.

Definition cb_payload (b : ChangeBundle) : Json := JObj
  [("bundle_id", to_json (cb_bundle_id b));
   ("goal_id", to_json (cb_goal_id b));
   ("revision", to_json (cb_revision b));
   ("participants", to_json (cb_participants b));
   ("dependencies", to_json (cb_dependencies b));
   ("merge_order", to_json (cb_merge_order b));
   ("remote_outcome", to_json (cb_remote_outcome b));
   ("remote_snapshot_fingerprint", to_json (cb_remote_snapshot_fingerprint b));
   ("limitations", to_json (cb_limitations b))].

Definition seal_bundle (b : ChangeBundle) : result ChangeBundle DevelopmentError :=
  let? _ := validate_bundle b in
  let? fp := fingerprint CHANGE_BUNDLE_SCHEMA_ID (cb_payload b) in
  Ok (cb_with b (cb_revision b) (cb_participants b) (cb_remote_outcome b)
        (cb_remote_snapshot_fingerprint b) (cb_limitations b) fp).

Definition owned_worktree (bundle_id participant_id : string) : string :=
  "worktrees/" +:+ bundle_id +:+ "/" +:+ participant_id.

Definition create_change_bundle (bundle_id : string) (goal_id : GoalId)
    (drafts : list ParticipantDraft) (dependencies : list BundleDependency) :
    result ChangeBundle DevelopmentError :=
  check negb (token bundle_id 128) || (len drafts =? 0)%N else DevInvalid in
  let drafts := sort_by_key pd_participant_id drafts in
  check windows2_any (λ a b, String.eqb (pd_participant_id a) (pd_participant_id b)) drafts
    || existsb (λ draft, negb (token (pd_participant_id draft) 128)
                         || negb (valid_revision (pd_checkout_revision draft))) drafts
  else DevConflict in
  let dependencies := sort_dedup dependencies in
  let ids := sort_dedup (map pd_participant_id drafts) in
  check existsb (bad_edge ids) (dependency_edges dependencies) else DevConflict in
  let? merge_order := topological_order ids dependencies in
  let participants := map (λ draft,
    {| bp_participant_id := pd_participant_id draft;
       bp_project_id := pd_project_id draft;
       bp_checkout_revision := pd_checkout_revision draft;
       bp_owned_worktree := owned_worktree bundle_id (pd_participant_id draft);
       bp_patch_fingerprint := pd_patch_fingerprint draft;
       bp_gate_fingerprint := pd_gate_fingerprint draft;
       bp_state := Planned;
       bp_resulting_commit := None |}) drafts in
  seal_bundle
    {| cb_schema_id := CHANGE_BUNDLE_SCHEMA_ID;
       cb_schema_version := 1;
       cb_bundle_id := bundle_id;
       cb_goal_id := goal_id;
       cb_revision := 1;
       cb_participants := participants;
       cb_dependencies := dependencies;
       cb_merge_order := merge_order;
       cb_remote_outcome := NotRequested;
       cb_remote_snapshot_fingerprint := None;
       cb_limitations := [];
       cb_bundle_fingerprint := placeholder |}.

(** ** The merge queue *)

Section queue.
Context {S : Type} (port : CoordinationPort S).

(** The first loop: prepare the worktrees in participant order, up to the first
    failure, whose participant id is returned. *)
Fixpoint prepare_all (participants : list ChangeBundleParticipant) (s : S) :
    S * list ChangeBundleParticipant * option string :=
  match participants with
  | [] => (s, [], None)
  | participant :: rest =>
      let (s, prepared) := prepare_owned_worktree port participant s in
      if is_err prepared
      then (s, set_state ParticipantBlocked participant :: rest,
            Some (bp_participant_id participant))
      else
        let '(s, rest, failed) := prepare_all rest s in
        (s, set_state WorktreeReady participant :: rest, failed)
  end.

(** The part of the bundle the second loop changes. *)
Record MergeState := {
  ms_participants : list ChangeBundleParticipant;
  ms_limitations : list string
}.

Definition predecessor_ids (dependencies : list BundleDependency) (participant_id : string) :
    list string :=
  map bd_from_participant_id
    (filter (λ edge, bd_to_participant_id edge = participant_id) dependencies).

Definition prerequisites_met (dependencies : list BundleDependency)
    (participants : list ChangeBundleParticipant) (participant_id : string) : bool :=
  forallb (λ predecessor,
    existsb (λ candidate, String.eqb (bp_participant_id candidate) predecessor
                          && bool_decide (bp_state candidate = MergedLocal)) participants)
    (predecessor_ids dependencies participant_id).

(** One iteration of the second loop. *)
Definition merge_one (dependencies : list BundleDependency) (participant_id : string)
    (m : MergeState) (s : S) : S * result MergeState DevelopmentError :=
  match list_find (λ p, bp_participant_id p = participant_id) (ms_participants m) with
  | None => (s, Err DevConflict)
  | Some (index, participant) =>
      if negb (prerequisites_met dependencies (ms_participants m) participant_id)
      then (s, Ok {| ms_participants :=
                       <[index := set_state ParticipantBlocked participant]> (ms_participants m);
                     ms_limitations := ms_limitations m
                       ++ ["merge_predecessor_unsatisfied:" +:+ participant_id] |})
      else
        let queued := set_state MergeQueued participant in
        let (s, merged) := merge_local port queued s in
        let blocked :=
          {| ms_participants :=
               <[index := set_state ParticipantBlocked queued]> (ms_participants m);
             ms_limitations := ms_limitations m ++ ["local_merge_failed:" +:+ participant_id] |} in
        match merged with
        | Ok commit =>
            if valid_revision commit
            then (s, Ok {| ms_participants :=
                             <[index := bp_with queued MergedLocal (Some commit)]>
                               (ms_participants m);
                           ms_limitations := ms_limitations m |})
            else (s, Ok blocked)
        | Err _ => (s, Ok blocked)
        end
  end.

Fixpoint merge_all (dependencies : list BundleDependency) (order : list string)
    (m : MergeState) (s : S) : S * result MergeState DevelopmentError :=
  match order with
  | [] => (s, Ok m)
  | participant_id :: rest =>
      match merge_one dependencies participant_id m s with
      | (s, Err e) => (s, Err e)
      | (s, Ok m) => merge_all dependencies rest m s
      end
  end.

(** [publish_remote], and [reconcile_remote] after a timeout. *)
Definition observe_publish (b : ChangeBundle) (s : S) : S * PublishObservation :=
  match publish_remote port b s with
  | (s, ObservedTimeout) => reconcile_remote port b s
  | (s, other) => (s, other)
  end.

(** The last part: publication, when every participant is merged. *)
Definition publish_bundle (b : ChangeBundle) (publish : bool) (s : S) : S * ChangeBundle :=
  if existsb (λ p, negb (bool_decide (bp_state p = MergedLocal))) (cb_participants b)
  then (s, cb_with b (cb_revision b) (cb_participants b) NotRequested
             (cb_remote_snapshot_fingerprint b) (cb_limitations b) (cb_bundle_fingerprint b))
  else if publish then
    let (s, observation) := observe_publish b s in
    match observation with
    | ObservedVerified snapshot =>
        (s, cb_with b (cb_revision b) (map (set_state RemoteVerified) (cb_participants b))
              RemoteOk (Some snapshot) (cb_limitations b) (cb_bundle_fingerprint b))
    | ObservedFailed =>
        (s, cb_with b (cb_revision b) (cb_participants b) RemoteFailed
              (cb_remote_snapshot_fingerprint b)
              (cb_limitations b ++ ["remote_publish_failed"]) (cb_bundle_fingerprint b))
    | ObservedTimeout =>
        (s, cb_with b (cb_revision b) (map (set_state ParticipantUnknown) (cb_participants b))
              RemoteUnknown (cb_remote_snapshot_fingerprint b)
              (cb_limitations b ++ ["publish_outcome_unknown"]) (cb_bundle_fingerprint b))
    end
  else (s, b).

Definition run_merge_queue (b : ChangeBundle) (publish : bool) (s : S) :
    S * result ChangeBundle DevelopmentError :=
  match validate_bundle b with
  | Err e => (s, Err e)
  | Ok _ =>
      if existsb (λ p, negb (bool_decide (bp_state p = Planned))) (cb_participants b)
      then (s, Err DevConflict)
      else
        let '(s, participants, failed) := prepare_all (cb_participants b) s in
        match failed with
        | Some participant_id =>
            (s, seal_bundle (cb_with b (wrapping_add u64_max (cb_revision b) 1) participants
                  (cb_remote_outcome b) (cb_remote_snapshot_fingerprint b)
                  (cb_limitations b ++ ["worktree_prepare_failed:" +:+ participant_id])
                  (cb_bundle_fingerprint b)))
        | None =>
            match merge_all (cb_dependencies b) (cb_merge_order b)
                    {| ms_participants := participants; ms_limitations := cb_limitations b |} s with
            | (s, Err e) => (s, Err e)
            | (s, Ok m) =>
                let b := cb_with b (cb_revision b) (ms_participants m) (cb_remote_outcome b)
                  (cb_remote_snapshot_fingerprint b) (ms_limitations m)
                  (cb_bundle_fingerprint b) in
                let (s, b) := publish_bundle b publish s in
                (s, seal_bundle (cb_with b (wrapping_add u64_max (cb_revision b) 1)
                      (cb_participants b) (cb_remote_outcome b)
                      (cb_remote_snapshot_fingerprint b) (sort_dedup (cb_limitations b))
                      (cb_bundle_fingerprint b)))
            end
        end
  end.
End queue.

(** ** The handoff *)

Definition participant_blockers (p : ChangeBundleParticipant) : list string :=
  match bp_resulting_commit p with
  | Some _ => []
  | None => ["missing_commit:" +:+ bp_participant_id p]
  end
  ++ (if negb (bool_decide (bp_state p = RemoteVerified))
      then ["participant_not_remote_verified:" +:+ bp_participant_id p] else []).

Definition ch_payload (h : ChangeBundleHandoff) : Json := JObj
  [("bundle_id", to_json (ch_bundle_id h));
   ("bundle_revision", to_json (ch_bundle_revision h));
   ("bundle_fingerprint", to_json (ch_bundle_fingerprint h));
   ("participant_commits", to_json (ch_participant_commits h));
   ("artifact_fingerprints", to_json (ch_artifact_fingerprints h));
   ("remote_outcome", to_json (ch_remote_outcome h));
   ("ready", to_json (ch_ready h));
   ("blockers", to_json (ch_blockers h))].

Definition ch_with_fingerprint (h : ChangeBundleHandoff) (fp : Sha256Hash) :
    ChangeBundleHandoff :=
  {| ch_schema_id := ch_schema_id h;
     ch_schema_version := ch_schema_version h;
     ch_bundle_id := ch_bundle_id h;
     ch_bundle_revision := ch_bundle_revision h;
     ch_bundle_fingerprint := ch_bundle_fingerprint h;
     ch_participant_commits := ch_participant_commits h;
     ch_artifact_fingerprints := ch_artifact_fingerprints h;
     ch_remote_outcome := ch_remote_outcome h;
     ch_ready := ch_ready h;
     ch_blockers := ch_blockers h;
     ch_handoff_fingerprint := fp |}.

Definition build_handoff (b : ChangeBundle) : result ChangeBundleHandoff DevelopmentError :=
  let? _ := validate_bundle b in
  let commits := omap bp_resulting_commit (cb_participants b) in
  let blockers := sort_dedup (cb_limitations b ++ (cb_participants b ≫= participant_blockers)) in
  let handoff :=
    {| ch_schema_id := CHANGE_BUNDLE_HANDOFF_SCHEMA_ID;
       ch_schema_version := 1;
       ch_bundle_id := cb_bundle_id b;
       ch_bundle_revision := cb_revision b;
       ch_bundle_fingerprint := cb_bundle_fingerprint b;
       ch_participant_commits := sort_by cmp_leb commits;
       ch_artifact_fingerprints := sort_dedup (cb_participants b ≫= λ p,
         [bp_patch_fingerprint p; bp_gate_fingerprint p]);
       ch_remote_outcome := cb_remote_outcome b;
       ch_ready := (len blockers =? 0)%N && bool_decide (cb_remote_outcome b = RemoteOk);
       ch_blockers := blockers;
       ch_handoff_fingerprint := placeholder |} in
  let? fp := fingerprint CHANGE_BUNDLE_HANDOFF_SCHEMA_ID (ch_payload handoff) in
  Ok (ch_with_fingerprint handoff fp).

End coordination.
