(* ===== verification/CoordinationFacts.v ===== *)
(** * Properties of change-bundle coordination

    The merge order is a topological order exactly when there is one; the queue
    merges no participant before every worktree is prepared and its predecessors
    are merged, and publishes only a fully merged bundle; a handoff is ready exactly when the remote was verified. *)
From S2P Require Import Prelude Canonical Toy Contracts Kahn Development Coordination.

(** ** The merge order *)

Lemma insert_before_greater_perm queued child :
  insert_before_greater queued child ≡ₚ child :: queued.
Proof.
  induction queued as [|x l IH]; simpl; [done|]. destruct (cmp_ltb child x); [done|].
  rewrite IH. constructor.
Qed.

Lemma ordered_queue_lawful : lawful ordered_queue.
Proof.
  split; simpl.
  - by intros [].
  - intros [|y r] x r'; [done|]. by intros [= -> ->].
  - intros r x. apply insert_before_greater_perm.
Qed.

#[export] Hint Resolve ordered_queue_lawful : star.

Lemma bad_edges_closed ids edges :
  existsb (bad_edge ids) edges = false →
  ∀ u v, (u, v) ∈ edges → u ≠ v ∧ u ∈ ids ∧ v ∈ ids.
Proof.
  rewrite existsb_false. intros Hall u v Huv. specialize (Hall _ Huv).
  unfold bad_edge in Hall. simpl in Hall. bool_to_prop. by rewrite <-!mem_true.
Qed.

(** Everything about one call: with closed edges, an order of all nodes is
    returned exactly when the edges are acyclic. *)
Lemma topological_order_run ids dependencies :
  NoDup ids → existsb (bad_edge ids) (dependency_edges dependencies) = false →
  (acyclic (dependency_edges dependencies) ∧
   ∃ order, topological_order ids dependencies = Ok order ∧ order ≡ₚ ids ∧
     respects (dependency_edges dependencies) order) ∨
  (¬ acyclic (dependency_edges dependencies) ∧
   topological_order ids dependencies = Err DevConflict).
Proof.
  intros Hids Hbad. unfold topological_order. rewrite Hbad.
  set (edges := dependency_edges dependencies) in *.
  pose proof (bad_edges_closed ids edges Hbad) as Hclosed.
  destruct (count_edges_ok ids edges (zero_degrees ids) (λ _, 0%N)) as (indegree & Hc & _).
  { intros u v Huv. by apply Hclosed in Huv as (_ & _ & ?). }
  { intros v Hv. by apply zero_degrees_lookup. }
  destruct (worklist_correct ordered_queue ordered_queue_lawful ids edges
      (λ id, sort_by cmp_leb (outgoing_of edges id)))
    with (indegree := indegree) (ready := initial_ready ids indegree)
    as (order & Hrun & Hnd & Hsub & Hresp & Hlen); try done.
  { intros u. by rewrite sort_by_perm, outgoing_of_successors. }
  { intros u v Huv. by apply Hclosed in Huv as (_ & ? & ?). }
  rewrite Hc, Hrun. unfold len. destruct (_ =? _)%N eqn:E; bool_to_prop; simpl.
  - assert (length order = length ids) as Heq by lia. left. split; [by apply Hlen|].
    exists order. split; [done|]. split; [|done].
    apply submseteq_length_Permutation; [by apply NoDup_submseteq|lia].
  - right. split; [|done]. intros Hac%Hlen. lia.
Qed.

Lemma topological_order_ok ids dependencies order :
  NoDup ids → topological_order ids dependencies = Ok order →
  order ≡ₚ ids ∧ respects (dependency_edges dependencies) order ∧
  acyclic (dependency_edges dependencies) ∧
  (∀ u v, (u, v) ∈ dependency_edges dependencies → u ∈ ids ∧ v ∈ ids).
Proof.
  intros Hnd Ho. pose proof Ho as Hbad. unfold topological_order in Hbad. next_check Hbad.
  clear Hbad. destruct (topological_order_run ids dependencies Hnd)
    as [(Hac & order' & Ho' & Hp & Hr)|[_ Ho']]; [done| |congruence].
  rewrite Ho in Ho'. injection Ho' as <-. split_and!; try done.
  intros u v Huv. by destruct (bad_edges_closed _ _ Heqb u v Huv) as (_ & ? & ?).
Qed.

(** ** Validated bundles *)

Record bundle_ok (b : ChangeBundle) : Prop := {
  bo_unique : NoDup (map bp_participant_id (cb_participants b));
  bo_nonempty : cb_participants b ≠ [];
  bo_order : cb_merge_order b ≡ₚ map bp_participant_id (cb_participants b);
  bo_respects : respects (dependency_edges (cb_dependencies b)) (cb_merge_order b);
  bo_paths : ∀ p, p ∈ cb_participants b → safe_relative_path (bp_owned_worktree p) = true;
  bo_closed : ∀ u v, (u, v) ∈ dependency_edges (cb_dependencies b) →
    u ∈ map bp_participant_id (cb_participants b) ∧
    v ∈ map bp_participant_id (cb_participants b)
}.

Lemma validate_bundle_ok b : validate_bundle b = Ok tt → bundle_ok b.
Proof.
  unfold validate_bundle. intros Hv. next_check Hv. next_check Hv.
  destruct (topological_order _ _) as [order|] eqn:Ho; [|done]. next_check Hv. clear Hv.
  bool_to_prop. unfold participant_ids in *.
  set (ids := map bp_participant_id (cb_participants b)) in *.
  assert (NoDup ids) as Hnd.
  { apply sort_dedup_length_NoDup. unfold ids at 2. rewrite length_map. unfold len in *. lia. }
  apply topological_order_ok in Ho as (Hp & Hr & _ & Hc);
    [|apply strict_NoDup, sort_dedup_strict]. subst order.
  split; try done.
  - intros Hnil. unfold len in *. rewrite Hnil in *. done.
  - rewrite Hp. by apply sort_dedup_NoDup_perm.
  - intros p Hp'. match goal with H : existsb _ _ = false |- _ =>
      rewrite existsb_false in H; specialize (H p Hp') end. by bool_to_prop.
  - intros u v Huv%Hc. by rewrite !elem_of_sort_dedup in Huv.
Qed.

(** Validation reads only the identity of the participants: it is kept by every
    change of their states, of the outcome and of the limitations. *)
Definition same_identity (p q : ChangeBundleParticipant) : Prop :=
  q = bp_with p (bp_state q) (bp_resulting_commit q).

#[export] Instance same_identity_refl : Reflexive same_identity.
Proof. by intros []. Qed.

#[export] Instance same_identity_trans : Transitive same_identity.
Proof. intros p q r Hq Hr. unfold same_identity in *. by rewrite Hr, Hq. Qed.

Lemma bp_with_same p state commit : same_identity p (bp_with p state commit).
Proof. reflexivity. Qed.

Lemma set_state_same state p : same_identity p (set_state state p).
Proof. reflexivity. Qed.

#[export] Hint Resolve bp_with_same set_state_same same_identity_refl : star.

Lemma same_identity_id p q : same_identity p q → bp_participant_id q = bp_participant_id p.
Proof. by intros ->. Qed.

Lemma same_identity_map {A} (f : ChangeBundleParticipant → A) ps qs :
  (∀ p s c, f (bp_with p s c) = f p) → Forall2 same_identity ps qs → map f qs = map f ps.
Proof.
  intros Hf. induction 1 as [|p q ps qs Hpq _ IH]; simpl; [done|]. by rewrite Hpq, Hf, IH.
Qed.

Lemma validate_bundle_same b b' :
  cb_schema_id b' = cb_schema_id b → cb_schema_version b' = cb_schema_version b →
  cb_bundle_id b' = cb_bundle_id b → cb_dependencies b' = cb_dependencies b →
  cb_merge_order b' = cb_merge_order b → cb_revision b' ≠ 0%N →
  Forall2 same_identity (cb_participants b) (cb_participants b') →
  validate_bundle b = Ok tt → validate_bundle b' = Ok tt.
Proof.
  intros E1 E2 E3 E4 E5 Hrev Hsame. unfold validate_bundle, participant_ids, len.
  rewrite E1, E2, E3, E4, E5.
  rewrite (same_identity_map bp_participant_id _ _ (λ _ _ _, eq_refl) Hsame).
  pose proof (same_identity_map bp_owned_worktree _ _ (λ _ _ _, eq_refl) Hsame) as Hw.
  assert (existsb (λ p, negb (safe_relative_path (bp_owned_worktree p))) (cb_participants b')
    = existsb (λ p, negb (safe_relative_path (bp_owned_worktree p))) (cb_participants b)) as ->.
  { rewrite <-!(existsb_map bp_owned_worktree (λ w, negb (safe_relative_path w))). by rewrite Hw. }
  rewrite <-(Forall2_length _ _ _ Hsame).
  apply N.eqb_neq in Hrev as ->.
  destruct (cb_revision b =? 0)%N; [by rewrite orb_true_r|done].
Qed.

(** ** The queue on a port that records its calls *)

Inductive event :=
| EvPrepare (id : string) (outcome : result unit DevelopmentError)
| EvMerge (id : string) (outcome : result string DevelopmentError)
| EvPublish (o : PublishObservation)
| EvReconcile (o : PublishObservation).

Definition logged {S} (port : CoordinationPort S) : CoordinationPort (S * list event) := {|
  prepare_owned_worktree := λ p '(s, log),
    let (s, r) := prepare_owned_worktree port p s in
    ((s, log ++ [EvPrepare (bp_participant_id p) r]), r);
  merge_local := λ p '(s, log),
    let (s, r) := merge_local port p s in
    ((s, log ++ [EvMerge (bp_participant_id p) r]), r);
  publish_remote := λ b '(s, log),
    let (s, o) := publish_remote port b s in ((s, log ++ [EvPublish o]), o);
  reconcile_remote := λ b '(s, log),
    let (s, o) := reconcile_remote port b s in ((s, log ++ [EvReconcile o]), o)
|}.

Definition merged_in (log : list event) (id : string) : Prop :=
  ∃ commit, valid_revision commit = true ∧ EvMerge id (Ok commit) ∈ log.

(** The worktree of every participant was prepared. *)
Definition all_prepared (b : ChangeBundle) (log : list event) : Prop :=
  ∀ p, p ∈ cb_participants b → EvPrepare (bp_participant_id p) (Ok tt) ∈ log.

(** What must have happened before an event. *)
Definition allowed_after (b : ChangeBundle) (log : list event) (e : event) : Prop :=
  match e with
  | EvPrepare id _ =>
      (∀ r, EvPrepare id r ∉ log) ∧ (∀ i e, EvPrepare i (Err e) ∉ log) ∧
      (∀ i r, EvMerge i r ∉ log)
  | EvMerge id _ =>
      all_prepared b log ∧ (∀ r, EvMerge id r ∉ log) ∧
      ∀ u, (u, id) ∈ dependency_edges (cb_dependencies b) → merged_in log u
  | EvPublish _ =>
      (∀ o, EvPublish o ∉ log) ∧
      ∀ p, p ∈ cb_participants b → merged_in log (bp_participant_id p)
  | EvReconcile _ => last log = Some (EvPublish ObservedTimeout)
  end.

Definition well_ordered (b : ChangeBundle) (log : list event) : Prop :=
  ∀ l1 e l2, log = l1 ++ e :: l2 → allowed_after b l1 e.

Lemma well_ordered_nil b : well_ordered b [].
Proof. by intros [] ? ?. Qed.

Lemma well_ordered_snoc b log e :
  well_ordered b log → allowed_after b log e → well_ordered b (log ++ [e]).
Proof.
  intros Hl He l1 x l2 Heq. destruct l2 as [|y l2' _] using rev_ind.
  - apply app_inj_2 in Heq as [<- [= <-]]; done.
  - rewrite app_comm_cons, (assoc_L (++)) in Heq. apply app_inj_2 in Heq as [-> _]; [|done].
    by eapply Hl.
Qed.

#[export] Hint Resolve well_ordered_nil well_ordered_snoc : star.

Lemma merged_in_mono log e id : merged_in log id → merged_in (log ++ [e]) id.
Proof. intros (c & ? & ?). exists c. set_solver. Qed.

(** A recording port behaves as the port it records. *)
Section projection.
Context `{Platform} {S : Type} (port : CoordinationPort S).

Definition forget {A} (x : (S * list event) * A) : S * A := (x.1.1, x.2).

Lemma prepare_all_logged ps s log :
  let '(s', qs, failed) := prepare_all (logged port) ps (s, log) in
  prepare_all port ps s = (s'.1, qs, failed).
Proof.
  revert s log. induction ps as [|p ps IH]; intros s log; simpl; [done|].
  destruct (prepare_owned_worktree port p s) as [s1 r]. destruct (is_err r); [done|].
  specialize (IH s1 (log ++ [EvPrepare (bp_participant_id p) r])).
  by destruct (prepare_all (logged port) ps _) as [[[? ?] ?] ?]; rewrite IH.
Qed.

Lemma merge_all_logged deps order m s log :
  merge_all port deps order m s = forget (merge_all (logged port) deps order m (s, log)).
Proof.
  revert m s log. induction order as [|id order IH]; intros m s log; simpl; [done|].
  assert (∀ x : (S * list event) * result MergeState DevelopmentError,
    merge_one (logged port) deps id m (s, log) = x → merge_one port deps id m s = forget x) as Hone.
  { intros x <-. unfold merge_one. destruct (list_find _ _) as [[i p]|]; [|done].
    destruct (negb _); [done|]. simpl. destruct (merge_local port _ s) as [s1 [c|e]]; [|done].
    by destruct (valid_revision c). }
  destruct (merge_one (logged port) deps id m (s, log)) as [[s1 log1] r] eqn:E.
  rewrite (Hone _ eq_refl). simpl. destruct r; [apply IH|done].
Qed.

Lemma publish_bundle_logged b publish s log :
  publish_bundle port b publish s = forget (publish_bundle (logged port) b publish (s, log)).
Proof.
  unfold publish_bundle, observe_publish. destruct (existsb _ _); [done|].
  destruct publish; [|done]. simpl. destruct (publish_remote port b s) as [s1 o].
  destruct o; [done..|]. simpl. destruct (reconcile_remote port b s1) as [s2 o]. by destruct o.
Qed.

Lemma run_merge_queue_logged b publish s log :
  run_merge_queue port b publish s = forget (run_merge_queue (logged port) b publish (s, log)).
Proof.
  unfold run_merge_queue. destruct (validate_bundle b); [|done]. destruct (existsb _ _); [done|].
  pose proof (prepare_all_logged (cb_participants b) s log) as Hprep.
  destruct (prepare_all (logged port) _ _) as [[[s1 log1] ps] [id|]]; rewrite Hprep; [done|].
  cbn [fst]. rewrite (merge_all_logged _ _ _ s1 log1).
  destruct (merge_all (logged port) _ _ _ _) as [[s2 log2] [m|e]]; [|done]. simpl.
  rewrite (publish_bundle_logged _ _ s2 log2).
  by destruct (publish_bundle (logged port) _ _ _) as [[s3 log3] b3].
Qed.
End projection.

(** ** The merge loop *)

Section loop.
Context `{Platform} {S : Type} (port : CoordinationPort S).
Context (b : ChangeBundle) (Hb : bundle_ok b).

Definition status_ok (done : list string) (log : list event) (p : ChangeBundleParticipant) : Prop :=
  (bp_state p = WorktreeReady ∧ bp_participant_id p ∉ done) ∨
  (bp_state p = ParticipantBlocked ∧ bp_participant_id p ∈ done) ∨
  (bp_state p = MergedLocal ∧ bp_participant_id p ∈ done ∧
   ∃ commit, bp_resulting_commit p = Some commit ∧ valid_revision commit = true ∧
     EvMerge (bp_participant_id p) (Ok commit) ∈ log).

Definition some_blocked (ps : list ChangeBundleParticipant) : Prop :=
  ∃ p, p ∈ ps ∧ bp_state p = ParticipantBlocked.

(** What holds before the iteration after [done]. *)
Record queue_inv (done : list string) (m : MergeState) (log : list event) : Prop := {
  qi_same : Forall2 same_identity (cb_participants b) (ms_participants m);
  qi_status : Forall (status_ok done log) (ms_participants m);
  qi_limits : ms_limitations m = cb_limitations b ∨ some_blocked (ms_participants m);
  qi_order : well_ordered b log;
  qi_prepared : all_prepared b log;
  qi_done : ∀ id r, EvMerge id r ∈ log → id ∈ done;
  qi_quiet : ∀ o, EvPublish o ∉ log
}.

Lemma queue_ids done m log :
  queue_inv done m log →
  map bp_participant_id (ms_participants m) = map bp_participant_id (cb_participants b).
Proof. intros Hq. by eapply same_identity_map, qi_same. Qed.

(** Writing the participant [id] after its turn. *)
Lemma queue_update done m log log' id i p q limits :
  queue_inv done m log → ms_participants m !! i = Some p → bp_participant_id p = id →
  id ∉ done → same_identity p q → status_ok (done ++ [id]) log' q →
  (∀ x, x ∈ log → x ∈ log') → well_ordered b log' →
  (∀ id' r, EvMerge id' r ∈ log' → id' ∈ done ++ [id]) → (∀ o, EvPublish o ∉ log') →
  (limits = ms_limitations m ∨ bp_state q = ParticipantBlocked) →
  queue_inv (done ++ [id])
    {| ms_participants := <[i := q]> (ms_participants m); ms_limitations := limits |} log'.
Proof.
  intros Hq Hi Hid Hnew Hpq Hst Hmono Hord Hdone Hquiet Hlim.
  assert (i < length (ms_participants m)) as Hlt by by apply lookup_lt_is_Some; eauto.
  split; simpl; try done; [| | |intros x Hx; by apply Hmono, (qi_prepared _ _ _ Hq)].
  - apply Forall2_lookup. intros j. pose proof (qi_same _ _ _ Hq) as Hs.
    rewrite Forall2_lookup in Hs. specialize (Hs j). destruct (decide (i = j)) as [<-|Hne].
    + rewrite list_lookup_insert_eq by done. rewrite Hi in Hs. inversion Hs as [x y Hxy|]; subst.
      constructor. by etrans.
    + by rewrite list_lookup_insert_ne.
  - apply Forall_lookup. intros j r Hj. destruct (decide (i = j)) as [<-|Hne].
    + rewrite list_lookup_insert_eq in Hj by done. by injection Hj as <-.
    + rewrite list_lookup_insert_ne in Hj by done.
      pose proof (qi_status _ _ _ Hq) as Hs. rewrite Forall_lookup in Hs. specialize (Hs j r Hj).
      assert (bp_participant_id r ≠ id) as Hrid.
      { intros Heq. apply Hne. pose proof (bo_unique b Hb) as Hnd.
        rewrite <-(queue_ids _ _ _ Hq) in Hnd.
        eapply NoDup_lookup; [exact Hnd| |]; rewrite list_lookup_fmap.
        - by rewrite Hi, <-Hid.
        - rewrite Hj. simpl. by rewrite Heq, <-Hid. }
      destruct Hs as [[? ?]|[[? ?]|(? & ? & c & ? & ? & ?)]].
      * left. split; [done|]. set_solver.
      * right; left. split; [done|]. set_solver.
      * right; right. split; [done|]. split; [set_solver|]. exists c. auto.
  - destruct Hlim as [->|Hbl].
    + destruct (qi_limits _ _ _ Hq) as [?|(r & Hr & Hrb)]; [by left|]. right.
      apply list_elem_of_lookup in Hr as [j Hj]. exists r. split; [|done].
      destruct (decide (i = j)) as [<-|Hne].
      * exfalso. rewrite Hi in Hj. injection Hj as <-.
        pose proof (qi_status _ _ _ Hq) as Hs. rewrite Forall_lookup in Hs.
        destruct (Hs _ _ Hi) as [[? ?]|[[? ?]|(? & ? & _)]]; congruence.
      * apply list_elem_of_lookup. exists j. by rewrite list_lookup_insert_ne.
    + right. exists q. split; [|done]. apply list_elem_of_lookup. exists i.
      by apply list_lookup_insert_eq.
Qed.

(** A met prerequisite was merged earlier. *)
Lemma prerequisites_merged done m log id :
  queue_inv done m log → prerequisites_met (cb_dependencies b) (ms_participants m) id = true →
  ∀ u, (u, id) ∈ dependency_edges (cb_dependencies b) → merged_in log u.
Proof.
  intros Hq Hmet u Hu. unfold prerequisites_met in Hmet. rewrite forallb_true in Hmet.
  assert (u ∈ predecessor_ids (cb_dependencies b) id) as Hin.
  { unfold predecessor_ids. apply list_elem_of_fmap in Hu as (e & [= -> ->] & He).
    apply list_elem_of_fmap. exists e. split; [done|]. by apply list_elem_of_filter. }
  apply Hmet, existsb_true in Hin as (p & Hp & Hst). bool_to_prop. subst u.
  pose proof (qi_status _ _ _ Hq) as Hs. rewrite Forall_forall in Hs.
  destruct (Hs p Hp) as [[? ?]|[[? ?]|(? & ? & c & ? & ? & ?)]]; try congruence.
  by exists c.
Qed.

Lemma merge_one_inv done m s log id :
  queue_inv done m log → id ∈ map bp_participant_id (cb_participants b) → id ∉ done →
  ∃ s' log' m', merge_one (logged port) (cb_dependencies b) id m (s, log) = ((s', log'), Ok m') ∧
    queue_inv (done ++ [id]) m' log'.
Proof.
  intros Hq Hin Hnew. unfold merge_one.
  destruct (list_find (λ p, bp_participant_id p = id) (ms_participants m)) as [[i p]|] eqn:Hf.
  2: { exfalso. rewrite <-(queue_ids _ _ _ Hq) in Hin.
       apply list_elem_of_fmap in Hin as (p & -> & Hp).
       apply list_find_None in Hf. rewrite Forall_forall in Hf. by apply (Hf p). }
  apply list_find_Some in Hf as (Hi & Hid & _).
  assert (∀ lg, status_ok (done ++ [id]) lg (set_state ParticipantBlocked p)) as Hblk.
  { intros lg. right; left. split; [done|]. simpl. set_solver. }
  destruct (prerequisites_met _ _ _) eqn:Hmet; simpl.
  2: { eexists s, log, _. split; [done|]. eapply queue_update; try done; eauto with star.
       - by apply qi_order in Hq.
       - intros id' r Hr. apply (qi_done _ _ _ Hq) in Hr. set_solver.
       - intros o. apply (qi_quiet _ _ _ Hq). }
  destruct (merge_local port (set_state MergeQueued p) s) as [s1 r] eqn:Hm.
  set (log' := log ++ [EvMerge (bp_participant_id p) r]).
  assert (well_ordered b log') as Hord.
  { apply well_ordered_snoc; [by apply qi_order in Hq|]. simpl. rewrite Hid.
    split; [by apply (qi_prepared _ _ _ Hq)|]. split.
    - intros r' Hr'. by apply (qi_done _ _ _ Hq) in Hr'.
    - by apply (prerequisites_merged done m). }
  assert (∀ id' r', EvMerge id' r' ∈ log' → id' ∈ done ++ [id]) as Hdone.
  { intros id' r'. unfold log'. rewrite !elem_of_app, !list_elem_of_singleton.
    intros [Hr|[= -> _]]; [left; by eapply qi_done|by right]. }
  assert (∀ o, EvPublish o ∉ log') as Hquiet.
  { intros o. unfold log'. rewrite elem_of_app, list_elem_of_singleton.
    intros [Ho|?]; [by eapply (qi_quiet _ _ _ Hq)|done]. }
  assert (∀ x, x ∈ log → x ∈ log') as Hmono by (unfold log'; set_solver).
  assert (∀ limits, queue_inv (done ++ [id]) {| ms_participants :=
      <[i := set_state ParticipantBlocked p]> (ms_participants m); ms_limitations := limits |} log')
    as Hfail.
  { intros limits. eapply (queue_update done m log); try done; eauto with star. }
  destruct r as [c|e]; [destruct (valid_revision c) eqn:Hc|];
    eexists s1, log', _; (split; [reflexivity|]); [|apply Hfail..].
  eapply (queue_update done m log); try done; [|by left].
  right; right. split; [done|]. split; [simpl; set_solver|]. exists c.
  split; [done|]. split; [done|]. simpl. unfold log'. set_solver.
Qed.

Lemma merge_all_inv order done m s log :
  queue_inv done m log → NoDup (done ++ order) →
  (∀ id, id ∈ order → id ∈ map bp_participant_id (cb_participants b)) →
  ∃ s' log' m', merge_all (logged port) (cb_dependencies b) order m (s, log)
      = ((s', log'), Ok m') ∧ queue_inv (done ++ order) m' log'.
Proof.
  revert done m s log. induction order as [|id order IH]; intros done m s log Hq Hnd Hin; simpl.
  { exists s, log, m. by rewrite app_nil_r. }
  destruct (merge_one_inv done m s log id) as (s1 & log1 & m1 & -> & Hq1); [done|set_solver| |].
  { rewrite NoDup_app in Hnd. destruct Hnd as (_ & Hd & _). intros Hdone.
    apply (Hd id Hdone). left. }
  rewrite (cons_middle id done order), (assoc_L (++)) in *. apply IH; [done|done|set_solver].
Qed.

(** The preparation loop. *)
Lemma prepare_all_inv ps s log :
  Forall (λ p, bp_state p = Planned) ps → NoDup (map bp_participant_id ps) → well_ordered b log →
  (∀ p r, p ∈ ps → EvPrepare (bp_participant_id p) r ∉ log) →
  (∀ i e, EvPrepare i (Err e) ∉ log) →
  (∀ id r, EvMerge id r ∉ log) → (∀ o, EvPublish o ∉ log) →
  ∃ s' log' qs failed, prepare_all (logged port) ps (s, log) = ((s', log'), qs, failed) ∧
    Forall2 same_identity ps qs ∧ well_ordered b log' ∧ (∀ x, x ∈ log → x ∈ log') ∧
    (∀ id r, EvMerge id r ∉ log') ∧ (∀ o, EvPublish o ∉ log') ∧
    (failed = None → Forall (λ p, bp_state p = WorktreeReady) qs ∧
       ∀ p, p ∈ ps → EvPrepare (bp_participant_id p) (Ok tt) ∈ log') ∧
    (failed ≠ None → some_blocked qs).
Proof.
  intros Hall. revert s log.
  induction Hall as [|p ps Hp Hps IH]; intros s log Hnd Ho Hnew Herr Hm Hpub; simpl.
  { exists s, log, [], None. split_and!; try done. intros _. split; [done|]. intros p. set_solver. }
  destruct (prepare_owned_worktree port p s) as [s1 r].
  set (log1 := log ++ [EvPrepare (bp_participant_id p) r]).
  assert (well_ordered b log1) as Ho1.
  { apply well_ordered_snoc; [done|]. split; [|done]. intros r'. apply Hnew. left. }
  assert (∀ id r, EvMerge id r ∉ log1) as Hm1 by (unfold log1; set_solver).
  assert (∀ o, EvPublish o ∉ log1) as Hpub1 by (unfold log1; set_solver).
  assert (∀ x, x ∈ log → x ∈ log1) as Hsub by (unfold log1; set_solver).
  destruct r as [[]|err]; simpl.
  - simpl in Hnd. apply NoDup_cons in Hnd as [Hpnew Hnd].
    destruct (IH s1 log1) as (s2 & log2 & qs & failed & -> & Hsame & ? & Hsub2 & ? & ? & Hok & Hbl);
      try done.
    { intros q r Hq. unfold log1. rewrite elem_of_app, list_elem_of_singleton.
      intros [Hin|[= Heq _]]; [by apply (Hnew q r); [right|]|].
      apply Hpnew. rewrite <-Heq. by apply list_elem_of_fmap_2. }
    { intros i e. unfold log1. rewrite elem_of_app, list_elem_of_singleton.
      intros [Hin|?]; [by apply (Herr i e)|done]. }
    eexists s2, log2, _, failed. split; [done|]. split_and!; try done.
    + by constructor.
    + intros x Hx. by apply Hsub2, Hsub.
    + intros Hf. destruct (Hok Hf) as [Hready Hprep]. split; [by constructor|].
      intros q [->|Hq]%elem_of_cons; [|by apply Hprep].
      apply Hsub2. unfold log1. apply elem_of_app. right. by apply list_elem_of_singleton.
    + intros Hf. destruct (Hbl Hf) as (q & Hq & Hs). exists q. split; [by right|done].
  - eexists s1, log1, _, _. split; [done|]. split_and!; try done.
    + constructor; [done|]. clear. by induction ps.
    + intros _. eexists. split; [left|done].
Qed.
End loop.

(** ** The whole queue *)

Definition merged_commit (p : ChangeBundleParticipant) : Prop :=
  ∃ commit, bp_resulting_commit p = Some commit ∧ valid_revision commit = true.

Definition all_in (state : BundleParticipantState) (b : ChangeBundle) : Prop :=
  Forall (λ p, bp_state p = state ∧ merged_commit p) (cb_participants b).

(** How a run ends, by the observation that decided it. *)
Inductive queue_outcome (b : ChangeBundle) (publish : bool) (log : list event) :
    ChangeBundle → Prop :=
| outcome_blocked b1 :
    some_blocked (cb_participants b1) →
    cb_remote_outcome b1 = NotRequested ∨ cb_remote_outcome b1 = cb_remote_outcome b →
    (∀ o, EvPublish o ∉ log) → queue_outcome b publish log b1
| outcome_local b1 :
    publish = false → all_in MergedLocal b1 → (∀ o, EvPublish o ∉ log) →
    cb_remote_outcome b1 = cb_remote_outcome b → queue_outcome b publish log b1
| outcome_verified b1 snapshot :
    publish = true → all_in RemoteVerified b1 →
    cb_limitations b1 = sort_dedup (cb_limitations b) →
    cb_remote_outcome b1 = RemoteOk → cb_remote_snapshot_fingerprint b1 = Some snapshot →
    EvPublish (ObservedVerified snapshot) ∈ log ∨
      (EvPublish ObservedTimeout ∈ log ∧ EvReconcile (ObservedVerified snapshot) ∈ log) →
    queue_outcome b publish log b1
| outcome_failed b1 :
    publish = true → all_in MergedLocal b1 → cb_remote_outcome b1 = RemoteFailed →
    queue_outcome b publish log b1
| outcome_unknown b1 :
    publish = true → all_in ParticipantUnknown b1 → cb_remote_outcome b1 = RemoteUnknown →
    EvReconcile ObservedTimeout ∈ log → queue_outcome b publish log b1.

(** Everything but the states, the outcome and the limitations is kept. *)
Definition same_bundle (b b1 : ChangeBundle) : Prop :=
  cb_schema_id b1 = cb_schema_id b ∧ cb_schema_version b1 = cb_schema_version b ∧
  cb_bundle_id b1 = cb_bundle_id b ∧ cb_goal_id b1 = cb_goal_id b ∧
  cb_dependencies b1 = cb_dependencies b ∧ cb_merge_order b1 = cb_merge_order b ∧
  cb_revision b1 = wrapping_add u64_max (cb_revision b) 1 ∧
  Forall2 same_identity (cb_participants b) (cb_participants b1).

Lemma forall_states ps state :
  Forall (λ p, bp_state p = MergedLocal ∧ merged_commit p) ps →
  Forall (λ p, bp_state p = state ∧ merged_commit p) (map (set_state state) ps).
Proof.
  intros Hall. apply Forall_map. eapply Forall_impl; [exact Hall|].
  by intros p [_ (c & ? & ?)]; split; [|exists c].
Qed.

Lemma map_state_same ps qs state :
  Forall2 same_identity ps qs → Forall2 same_identity ps (map (set_state state) qs).
Proof.
  induction 1 as [|p q ps qs Hpq _ IH]; simpl; constructor; [|done].
  by etrans; [exact Hpq|].
Qed.

Section run.
Context `{Platform} {S : Type} (port : CoordinationPort S).
Context (b : ChangeBundle) (Hb : bundle_ok b).

Definition finished (m : MergeState) (log : list event) : Prop :=
  Forall (λ p, bp_state p = MergedLocal ∧ merged_commit p ∧ merged_in log (bp_participant_id p))
    (ms_participants m) ∧ ms_limitations m = cb_limitations b.

(** After the loop every participant is merged, or one is blocked. *)
Lemma queue_finished m log :
  queue_inv b (cb_merge_order b) m log →
  (existsb (λ p, negb (bool_decide (bp_state p = MergedLocal))) (ms_participants m) = true ∧
   some_blocked (ms_participants m)) ∨
  (existsb (λ p, negb (bool_decide (bp_state p = MergedLocal))) (ms_participants m) = false ∧
   finished m log).
Proof.
  intros Hq. pose proof (qi_status _ _ _ _ Hq) as Hs. rewrite Forall_forall in Hs.
  destruct (existsb _ _) eqn:Hall; [left|right]; (split; [done|]).
  - apply existsb_true in Hall as (p & Hp & Hst). bool_to_prop. exists p. split; [done|].
    destruct (Hs p Hp) as [[_ Hn]|[[? _]|[? _]]]; [|done..]. destruct Hn.
    rewrite (bo_order b Hb), <-(queue_ids b _ _ _ Hq). apply list_elem_of_fmap. eauto.
  - assert (∀ p, p ∈ ms_participants m → bp_state p = MergedLocal) as Hml.
    { intros p Hp. rewrite existsb_false in Hall. specialize (Hall p Hp). by bool_to_prop. }
    split.
    + apply Forall_forall. intros p Hp. specialize (Hml p Hp).
      destruct (Hs p Hp) as [[? _]|[[? _]|(_ & _ & c & ? & ? & ?)]]; [congruence..|].
      split; [done|]. split; by exists c.
    + destruct (qi_limits _ _ _ _ Hq) as [?|(p & Hp & ?)]; [done|]. specialize (Hml p Hp).
      congruence.
Qed.

(** [b1] as it reaches the publication, and the sealed result [b2]. *)
Definition merged_bundle (m : MergeState) : ChangeBundle :=
  cb_with b (cb_revision b) (ms_participants m) (cb_remote_outcome b)
    (cb_remote_snapshot_fingerprint b) (ms_limitations m) (cb_bundle_fingerprint b).

Definition next_revision (b1 : ChangeBundle) : ChangeBundle :=
  cb_with b1 (wrapping_add u64_max (cb_revision b1) 1) (cb_participants b1)
    (cb_remote_outcome b1) (cb_remote_snapshot_fingerprint b1)
    (sort_dedup (cb_limitations b1)) (cb_bundle_fingerprint b1).

Lemma publish_described m publish s log :
  queue_inv b (cb_merge_order b) m log →
  ∃ s' log' b1, publish_bundle (logged port) (merged_bundle m) publish (s, log)
      = ((s', log'), b1) ∧
    well_ordered b log' ∧ same_bundle b (next_revision b1) ∧
    queue_outcome b publish log' (next_revision b1).
Proof.
  intros Hq. pose proof (qi_same _ _ _ _ Hq) as Hsame. pose proof (qi_order _ _ _ _ Hq) as Ho.
  pose proof (qi_quiet _ _ _ _ Hq) as Hquiet. unfold publish_bundle.
  cbn [cb_participants cb_with merged_bundle].
  destruct (queue_finished m log Hq) as [[-> Hbl]|[-> [Hfin Hlim]]].
  { eexists s, log, _. split; [done|]. split; [done|]. split; [by split_and!|].
    apply outcome_blocked; [done|by left|done]. }
  assert (Forall (λ p, bp_state p = MergedLocal ∧ merged_commit p) (ms_participants m)) as Hml.
  { eapply Forall_impl; [exact Hfin|]. naive_solver. }
  destruct publish.
  2: { eexists s, log, _. split; [done|]. split; [done|]. split; [by split_and!|].
       by apply outcome_local. }
  unfold observe_publish. simpl.
  destruct (publish_remote port _ s) as [s3 o]. set (log3 := log ++ [EvPublish o]).
  assert (well_ordered b log3) as Ho3.
  { apply well_ordered_snoc; [done|]. split; [done|]. intros p Hp.
    apply list_elem_of_lookup in Hp as [i Hi].
    destruct (Forall2_lookup_l _ _ _ _ _ Hsame Hi) as (q & Hqi & Hid%same_identity_id).
    rewrite Forall_lookup in Hfin. destruct (Hfin i q Hqi) as (_ & _ & ?). by rewrite <-Hid. }
  assert (EvPublish o ∈ log3) as Hin3 by (unfold log3; set_solver).
  assert (cb_limitations (next_revision (merged_bundle m)) = sort_dedup (cb_limitations b))
    as Hlim' by (simpl; by rewrite Hlim).
  destruct o as [snap| |].
  - eexists s3, log3, _. split; [done|]. split; [done|].
    split; [split_and!; try done; by apply map_state_same|].
    eapply outcome_verified; try done; [by apply forall_states|by left].
  - eexists s3, log3, _. split; [done|]. split; [done|]. split; [by split_and!|].
    by apply outcome_failed.
  - destruct (reconcile_remote port _ s3) as [s4 o]. set (log4 := log3 ++ [EvReconcile o]).
    assert (well_ordered b log4) as Ho4.
    { apply well_ordered_snoc; [done|]. unfold log3. simpl. by rewrite last_snoc. }
    assert (EvReconcile o ∈ log4 ∧ EvPublish ObservedTimeout ∈ log4) as [? ?]
      by (unfold log4; set_solver).
    destruct o as [snap| |]; (eexists s4, log4, _; split; [done|]; split; [done|]).
    + split; [split_and!; try done; by apply map_state_same|].
      eapply outcome_verified; try done; [by apply forall_states|by right].
    + split; [by split_and!|]. by apply outcome_failed.
    + split; [split_and!; try done; by apply map_state_same|].
      apply outcome_unknown; try done. by apply forall_states.
Qed.

Lemma run_described publish s :
  validate_bundle b = Ok tt → Forall (λ p, bp_state p = Planned) (cb_participants b) →
  ∃ s' log b1, run_merge_queue (logged port) b publish (s, []) = ((s', log), seal_bundle b1) ∧
    well_ordered b log ∧ same_bundle b b1 ∧ queue_outcome b publish log b1.
Proof.
  intros Hval Hplan. unfold run_merge_queue. rewrite Hval.
  rewrite (proj2 (existsb_false _ _)).
  2: { intros p Hp. rewrite Forall_forall in Hplan. by rewrite bool_decide_eq_true_2 by auto. }
  destruct (prepare_all_inv port b Hb (cb_participants b) s [])
    as (s1 & log1 & qs & failed & Hprep & Hsame & Ho1 & _ & Hm1 & Hp1 & Hready & Hbl);
    [done|by apply bo_unique|apply well_ordered_nil|set_solver..|]. rewrite Hprep.
  destruct failed as [id|].
  { eexists s1, log1, _. split; [done|]. split; [done|]. split; [by split_and!|].
    apply outcome_blocked; [by apply Hbl|by right|done]. }
  destruct (merge_all_inv port b Hb (cb_merge_order b) []
    {| ms_participants := qs; ms_limitations := cb_limitations b |} s1 log1)
    as (s2 & log2 & m & Hmerge & Hq).
  { destruct (Hready eq_refl) as [Hstate Hprepared]. split; simpl; try done; [|by left|naive_solver].
    eapply Forall_impl; [exact Hstate|]. intros p Hp. left. split; [done|set_solver]. }
  { simpl. rewrite (bo_order b Hb). by apply bo_unique. }
  { intros id Hid. by rewrite (bo_order b Hb) in Hid. }
  rewrite Hmerge. simpl in Hq.
  destruct (publish_described m publish s2 log2 Hq) as (s3 & log3 & b1 & Hpub & ? & ? & ?).
  fold (merged_bundle m). rewrite Hpub. by eexists s3, log3, _.
Qed.
End run.

(** ** Sealing and handoff *)

Section handoff.
Context `{Platform}.

Lemma seal_bundle_ok b b' :
  seal_bundle b = Ok b' →
  validate_bundle b = Ok tt ∧ ∃ fp, b' = cb_with b (cb_revision b) (cb_participants b)
    (cb_remote_outcome b) (cb_remote_snapshot_fingerprint b) (cb_limitations b) fp.
Proof.
  unfold seal_bundle. intros Hs. destruct (validate_bundle b) as [[]|]; [|done].
  destruct (fingerprint _ _) as [fp|]; [|done]. injection Hs as <-. eauto.
Qed.

Lemma same_bundle_valid b b1 :
  same_bundle b b1 → (cb_revision b < u64_max)%N →
  validate_bundle b = Ok tt → validate_bundle b1 = Ok tt.
Proof.
  intros (? & ? & ? & ? & ? & ? & Hrev & ?) Hlt. apply validate_bundle_same; try done.
  rewrite Hrev. unfold wrapping_add. rewrite N.mod_small by lia. lia.
Qed.

Lemma participant_blockers_nil p :
  participant_blockers p = [] ↔
  bp_state p = RemoteVerified ∧ ∃ commit, bp_resulting_commit p = Some commit.
Proof.
  unfold participant_blockers. destruct (bp_resulting_commit p); case_bool_decide; naive_solver.
Qed.

Lemma bind_nil {A B} (f : A → list B) l :
  (l ≫= f) = [] ↔ ∀ x, x ∈ l → f x = [].
Proof.
  induction l as [|x l IH]; simpl; [set_solver|]. rewrite app_nil, IH. set_solver.
Qed.

Lemma all_in_unique s1 s2 b :
  cb_participants b ≠ [] → all_in s1 b → all_in s2 b → s1 = s2.
Proof.
  unfold all_in. destruct (cb_participants b) as [|p ps]; [done|].
  intros _ [[? _] _]%Forall_cons [[? _] _]%Forall_cons. congruence.
Qed.

(** A run that returns a bundle passed through [run_described]. *)
Lemma run_described_ok {S} (port : CoordinationPort S) b publish s s' log b' :
  run_merge_queue (logged port) b publish (s, []) = ((s', log), Ok b') →
  ∃ b1 fp, cb_participants b1 ≠ [] ∧ queue_outcome b publish log b1 ∧
    b' = cb_with b1 (cb_revision b1) (cb_participants b1)
      (cb_remote_outcome b1) (cb_remote_snapshot_fingerprint b1) (cb_limitations b1) fp.
Proof.
  intros Hrun. destruct (validate_bundle b) as [[]|] eqn:Hv.
  2: { unfold run_merge_queue in Hrun. rewrite Hv in Hrun. simplify_eq. }
  destruct (existsb (λ p, negb (bool_decide (bp_state p = Planned))) (cb_participants b)) eqn:Hp.
  { unfold run_merge_queue in Hrun. rewrite Hv, Hp in Hrun. simplify_eq. }
  destruct (run_described port b (validate_bundle_ok b Hv) publish s Hv)
    as (s1 & log1 & b1 & Hrun' & _ & _ & Hout).
  { apply Forall_forall. intros p Hin. rewrite existsb_false in Hp. specialize (Hp p Hin).
    by bool_to_prop. }
  rewrite Hrun in Hrun'. injection Hrun' as <- <- Hs. symmetry in Hs.
  apply seal_bundle_ok in Hs as [Hv1 (fp & ->)]. exists b1, fp.
  split; [by apply bo_nonempty, validate_bundle_ok|done].
Qed.

Lemma build_handoff_ok b h :
  build_handoff b = Ok h →
  (ch_ready h = true ↔
    cb_remote_outcome b = RemoteOk ∧ cb_limitations b = [] ∧
    ∀ p, p ∈ cb_participants b →
      bp_state p = RemoteVerified ∧ ∃ commit, bp_resulting_commit p = Some commit) ∧
  (ch_bundle_id h, ch_bundle_revision h, ch_bundle_fingerprint h)
    = (cb_bundle_id b, cb_revision b, cb_bundle_fingerprint b) ∧
  ch_participant_commits h ≡ₚ omap bp_resulting_commit (cb_participants b).
Proof.
  unfold build_handoff. intros Hh. destruct (validate_bundle b) as [[]|]; [|done].
  destruct (fingerprint _ _) as [fp|]; [|done]. injection Hh as <-. cbn.
  split; [|split; [done|apply sort_by_perm]].
  set (blockers := cb_limitations b ++ _).
  rewrite andb_true_iff, bool_decide_eq_true, N.eqb_eq.
  assert (len (sort_dedup blockers) = 0%N ↔ blockers = []) as ->.
  { rewrite <-sort_dedup_nil. unfold len. destruct (sort_dedup blockers); simpl; [done|].
    split; [lia|done]. }
  unfold blockers. rewrite app_nil, bind_nil. setoid_rewrite participant_blockers_nil. tauto.
Qed.

Lemma create_fresh bundle_id goal_id drafts dependencies b :
  create_change_bundle bundle_id goal_id drafts dependencies = Ok b →
  cb_limitations b = [] ∧ cb_remote_outcome b = NotRequested.
Proof.
  unfold create_change_bundle. intros Hc. do 3 next_check Hc.
  destruct (topological_order _ _) as [order|]; [|done].
  by apply seal_bundle_ok in Hc as [_ (fp & ->)].
Qed.

(** The run of the queue on planned participants. *)
Lemma merge_queue_result {S} (port : CoordinationPort S) b publish s :
  (∀ j, is_some (jcs_to_string j) = true) → (cb_revision b < u64_max)%N →
  validate_bundle b = Ok tt → Forall (λ p, bp_state p = Planned) (cb_participants b) →
  ∃ s' b', run_merge_queue port b publish s = (s', Ok b') ∧ validate_bundle b' = Ok tt ∧
    cb_revision b' = (cb_revision b + 1)%N ∧ cb_goal_id b' = cb_goal_id b ∧
    map bp_participant_id (cb_participants b') = map bp_participant_id (cb_participants b).
Proof.
  intros Hjcs Hrev Hv Hplan.
  destruct (run_described port b (validate_bundle_ok b Hv) publish s Hv Hplan)
    as (s' & log & b1 & Hrun & _ & Hsame & _).
  pose proof (same_bundle_valid _ _ Hsame Hrev Hv) as Hv1.
  destruct Hsame as (? & ? & ? & Hgoal & ? & ? & Hr & Hids).
  assert (∃ fp, seal_bundle b1 = Ok (cb_with b1 (cb_revision b1) (cb_participants b1)
    (cb_remote_outcome b1) (cb_remote_snapshot_fingerprint b1) (cb_limitations b1) fp)) as (fp & Hs).
  { unfold seal_bundle. rewrite Hv1.
    unfold fingerprint, versioned_fingerprint, canonical_sha256, jcs_bytes.
    specialize (Hjcs (versioned_payload CHANGE_BUNDLE_SCHEMA_ID 1 (cb_payload b1))).
    destruct (jcs_to_string _); [|done]. simpl. eauto. }
  exists s'. eexists. rewrite (run_merge_queue_logged port b publish s []), Hrun, Hs.
  split; [done|]. cbn [cb_revision cb_participants cb_goal_id cb_with]. split.
  { revert Hv1. apply validate_bundle_same; try done.
    cbn. rewrite Hr. unfold wrapping_add. rewrite N.mod_small by lia. lia. }
  split; [|split; [done|by eapply same_identity_map]].
  rewrite Hr. unfold wrapping_add. rewrite N.mod_small by lia. lia.
Qed.

Lemma build_handoff_total b :
  (∀ j, is_some (jcs_to_string j) = true) → validate_bundle b = Ok tt →
  ∃ h, build_handoff b = Ok h.
Proof.
  intros Hjcs Hv. unfold build_handoff. rewrite Hv.
  unfold fingerprint, versioned_fingerprint, canonical_sha256, jcs_bytes.
  match goal with |- context [jcs_to_string ?j] => specialize (Hjcs j) end.
  destruct (jcs_to_string _); [|done]. simpl. eauto.
Qed.

(** ** The properties *)

(** On closed dependencies the merge order exists exactly when they are
    acyclic; it is then an order of all participants in which every one comes
    after its predecessors, and a cycle is a [Conflict]. *)
Theorem topological_order_decides ids dependencies :
  NoDup ids → existsb (bad_edge ids) (dependency_edges dependencies) = false →
  (acyclic (dependency_edges dependencies) ↔
    ∃ order, topological_order ids dependencies = Ok order) ∧
  (∀ order, topological_order ids dependencies = Ok order →
    order ≡ₚ ids ∧ respects (dependency_edges dependencies) order) ∧
  (∀ e, topological_order ids dependencies = Err e → e = DevConflict).
Proof.
  intros Hids Hbad.
  destruct (topological_order_run ids dependencies Hids Hbad)
    as [(Hac & order & -> & Hp & Hr)|[Hac ->]]; naive_solver.
Qed.

(** A created bundle is valid and has not started: one planned participant
    per draft, each with a safe worktree of its own, in a merge order that
    follows the dependencies, at revision 1 with nothing published. *)
Theorem created_bundle_valid bundle_id goal_id drafts dependencies b :
  create_change_bundle bundle_id goal_id drafts dependencies = Ok b →
  validate_bundle b = Ok tt ∧ cb_revision b = 1%N ∧ cb_goal_id b = goal_id ∧
  Forall (λ p, bp_state p = Planned ∧ bp_resulting_commit p = None) (cb_participants b) ∧
  cb_limitations b = [] ∧ cb_remote_outcome b = NotRequested ∧
  map bp_participant_id (cb_participants b) ≡ₚ map pd_participant_id drafts ∧
  NoDup (map bp_owned_worktree (cb_participants b)) ∧
  cb_merge_order b ≡ₚ map pd_participant_id drafts ∧
  (∀ e, e ∈ cb_dependencies b ↔ e ∈ dependencies) ∧
  respects (dependency_edges (cb_dependencies b)) (cb_merge_order b).
Proof.
  unfold create_change_bundle. intros Hc. do 3 next_check Hc.
  destruct (topological_order _ _) as [order|]; [|done].
  apply seal_bundle_ok in Hc as [Hv (fp & ->)]. pose proof (validate_bundle_ok _ Hv) as Hb.
  destruct Hb as [Hnd _ Hord Hresp _ _]. cbn [cb_participants cb_merge_order cb_with
    cb_dependencies] in *.
  assert (map pd_participant_id (sort_by_key pd_participant_id drafts)
    ≡ₚ map pd_participant_id drafts) as Hids by (unfold sort_by_key; by rewrite sort_by_perm).
  rewrite map_map in Hnd, Hord. simpl in Hnd, Hord.
  split.
  { revert Hv. by apply validate_bundle_same. }
  do 2 (split; [done|]). split.
  { apply Forall_map, Forall_forall. done. }
  do 2 (split; [done|]). rewrite !map_map. simpl. split; [done|]. split.
  { rewrite <-(map_map pd_participant_id (owned_worktree bundle_id)).
    apply NoDup_fmap_2; [|done]. unfold owned_worktree. intros x y Heq. by simplify_eq. }
  split; [by rewrite Hord|]. split; [|done]. intros e. apply elem_of_sort_dedup.
Qed.

(** C2: the order of effects of a run, whatever the port does: each worktree is
    prepared at most once, none after a failed preparation and none once merging
    has begun; a participant is merged at most once, only after the worktree of
    every participant was prepared, and only after all its predecessors were
    merged with a valid commit; there is at most one publication, and only once every
    participant is merged; reconciliation only follows a publication that timed
    out. *)
Theorem merge_queue_well_ordered {S} (port : CoordinationPort S) b publish s s' log r :
  run_merge_queue (logged port) b publish (s, []) = ((s', log), r) → well_ordered b log.
Proof.
  intros Hrun. destruct (validate_bundle b) as [[]|] eqn:Hv.
  2: { unfold run_merge_queue in Hrun. rewrite Hv in Hrun. simplify_eq. apply well_ordered_nil. }
  destruct (existsb (λ p, negb (bool_decide (bp_state p = Planned))) (cb_participants b)) eqn:Hp.
  { unfold run_merge_queue in Hrun. rewrite Hv, Hp in Hrun. simplify_eq. apply well_ordered_nil. }
  destruct (run_described port b (validate_bundle_ok b Hv) publish s Hv)
    as (s1 & log1 & b1 & Hrun' & Ho & _).
  2: { rewrite Hrun in Hrun'. by injection Hrun' as -> ->. }
  apply Forall_forall. intros p Hin. rewrite existsb_false in Hp. specialize (Hp p Hin).
  by bool_to_prop.
Qed.

(** The queue always produces a bundle: on a valid bundle of planned
    participants (below the last revision, with a hash that does not fail) the
    run ends in a valid bundle of the next revision with the same participants,
    whatever the port answers. *)
Theorem merge_queue_total {S} (port : CoordinationPort S) b publish s :
  (∀ j, is_some (jcs_to_string j) = true) → (cb_revision b < u64_max)%N →
  validate_bundle b = Ok tt → Forall (λ p, bp_state p = Planned) (cb_participants b) →
  ∃ s' b', run_merge_queue port b publish s = (s', Ok b') ∧ validate_bundle b' = Ok tt ∧
    cb_revision b' = (cb_revision b + 1)%N ∧ cb_goal_id b' = cb_goal_id b ∧
    map bp_participant_id (cb_participants b') = map bp_participant_id (cb_participants b).
Proof. apply merge_queue_result. Qed.

(** What the outcome means: starting from a created bundle, a result is
    [Verified] exactly when all its participants are remote-verified with a
    valid commit; publication was then asked for and observed, directly or by
    reconciling a timeout, and the bundle carries no limitation. *)
Theorem verified_means_observed {S} (port : CoordinationPort S) b publish s s' log b' :
  cb_limitations b = [] → cb_remote_outcome b = NotRequested →
  run_merge_queue (logged port) b publish (s, []) = ((s', log), Ok b') →
  (cb_remote_outcome b' = RemoteOk ↔ all_in RemoteVerified b') ∧
  (cb_remote_outcome b' = RemoteOk →
    publish = true ∧ cb_limitations b' = [] ∧
    ∃ snapshot, cb_remote_snapshot_fingerprint b' = Some snapshot ∧
      (EvPublish (ObservedVerified snapshot) ∈ log ∨
       (EvPublish ObservedTimeout ∈ log ∧ EvReconcile (ObservedVerified snapshot) ∈ log))).
Proof.
  intros Hlim Hrem Hrun.
  destruct (run_described_ok _ _ _ _ _ _ _ Hrun) as (b1 & fp & Hne & Hout & ->).
  unfold all_in. cbn. fold (all_in RemoteVerified b1).
  destruct Hout as [b1 (q & Hq & Hqs) Ho _|b1 _ Hall _ Ho|b1 snap Hp Hall Hl Ho Hs Hev
    |b1 _ Hall Ho|b1 _ Hall Ho _].
  - split; [|intros; destruct Ho; congruence]. split; [intros; destruct Ho; congruence|].
    intros Hall. unfold all_in in Hall. rewrite Forall_forall in Hall.
    destruct (Hall q Hq). congruence.
  - split; [|congruence]. split; [congruence|]. intros Hall'.
    by pose proof (all_in_unique _ _ _ Hne Hall Hall').
  - split; [done|]. intros _. split; [done|]. split; [by rewrite Hl, Hlim|eauto].
  - split; [|congruence]. split; [congruence|]. intros Hall'.
    by pose proof (all_in_unique _ _ _ Hne Hall Hall').
  - split; [|congruence]. split; [congruence|]. intros Hall'.
    by pose proof (all_in_unique _ _ _ Hne Hall Hall').
Qed.

(** A handoff is ready exactly when the remote outcome is [Verified], the
    bundle has no limitation and every participant is remote-verified with a
    commit; it then lists all the commits. *)
Theorem handoff_ready_exactly b h :
  build_handoff b = Ok h →
  (ch_ready h = true ↔
    cb_remote_outcome b = RemoteOk ∧ cb_limitations b = [] ∧
    ∀ p, p ∈ cb_participants b →
      bp_state p = RemoteVerified ∧ ∃ commit, bp_resulting_commit p = Some commit) ∧
  (ch_bundle_id h, ch_bundle_revision h, ch_bundle_fingerprint h)
    = (cb_bundle_id b, cb_revision b, cb_bundle_fingerprint b) ∧
  ch_participant_commits h ≡ₚ omap bp_resulting_commit (cb_participants b) ∧
  (ch_ready h = true → length (ch_participant_commits h) = length (cb_participants b)).
Proof.
  intros (Hready & Hrefs & Hcommits)%build_handoff_ok. split; [done|]. split; [done|].
  split; [done|]. intros (_ & _ & Hall)%Hready. rewrite Hcommits. clear -Hall.
  induction (cb_participants b) as [|p ps IH]; simpl; [done|].
  destruct (Hall p) as (_ & c & ->); [left|]. simpl. f_equal. apply IH. set_solver.
Qed.

(** From creation to handoff: running the queue on a created bundle and
    handing off the result gives a ready handoff exactly when the remote
    outcome is [Verified]. *)
Theorem created_bundle_handoff {S} (port : CoordinationPort S) bundle_id goal_id drafts
    dependencies publish s s' b b' h :
  create_change_bundle bundle_id goal_id drafts dependencies = Ok b →
  run_merge_queue port b publish s = (s', Ok b') → build_handoff b' = Ok h →
  ch_ready h = true ↔ cb_remote_outcome b' = RemoteOk.
Proof.
  intros Hc Hrun (Hready & _)%build_handoff_ok.
  apply create_fresh in Hc as [Hlim Hrem]. rewrite Hready. split; [naive_solver|]. intros Hok.
  rewrite (run_merge_queue_logged port b publish s []) in Hrun.
  destruct (run_merge_queue (logged port) b publish (s, [])) as [[s1 log] r] eqn:Hl.
  unfold forget in Hrun. simpl in Hrun. injection Hrun as <- ->.
  destruct (run_described_ok _ _ _ _ _ _ _ Hl) as (b1 & fp & _ & Hout & ->). cbn in *.
  destruct Hout as [b1 _ Ho _|b1 _ _ _ Ho|b1 snap Hp Hall Hl' Ho Hs Hev|b1 _ Hall Ho|b1 _ Hall Ho _];
    try congruence; [destruct Ho; congruence|].
  split; [done|]. split; [by rewrite Hl', Hlim|]. unfold all_in in Hall.
  rewrite Forall_forall in Hall. intros p Hin. destruct (Hall p Hin) as [? (c & ? & _)]. eauto.
Qed.
End handoff.

(** ** Instances

    Two participants, [app] after [core]; a port whose publication times out
    and whose reconciliation then finds the remote verified. *)

Definition example_commit : string := "cccccccccccccccccccccccccccccccccccccccc".

Definition example_port : CoordinationPort nat := {|
  prepare_owned_worktree := λ _ n, (S n, Ok tt);
  merge_local := λ _ n, (S n, Ok example_commit);
  publish_remote := λ _ n, (S n, ObservedTimeout);
  reconcile_remote := λ _ n, (S n, ObservedVerified "sha256:remote")
|}.

Definition example_draft (id : string) : ParticipantDraft :=
  {| pd_participant_id := id; pd_project_id := "prj_1"; pd_checkout_revision := example_commit;
     pd_patch_fingerprint := "sha256:patch"; pd_gate_fingerprint := "sha256:gate" |}.

Definition example_deps : list BundleDependency :=
  [{| bd_from_participant_id := "core"; bd_to_participant_id := "app" |}].

Definition example_created : result ChangeBundle DevelopmentError :=
  create_change_bundle "bundle" "gol_1" [example_draft "core"; example_draft "app"] example_deps.

Example merge_order_follows_dependencies :
  topological_order ["app"; "core"] example_deps = Ok ["core"; "app"].
Proof. vm_compute. reflexivity. Qed.

Lemma topological_order_decides_witness :
  acyclic (dependency_edges example_deps).
Proof.
  apply (proj2 (proj1 (topological_order_decides ["app"; "core"] example_deps
    ltac:(apply (bool_decide_unpack _); vm_compute; exact I) eq_refl))).
  exists ["core"; "app"]. vm_compute. reflexivity.
Defined.

Lemma created_bundle_valid_witness :
  ∃ b, example_created = Ok b ∧ validate_bundle b = Ok tt.
Proof.
  destruct example_created as [b|e] eqn:Hc; [|exfalso; revert Hc; vm_compute; discriminate].
  exists b. split; [reflexivity|]. exact (proj1 (created_bundle_valid _ _ _ _ _ Hc)).
Defined.

Definition example_bundle : ChangeBundle :=
  match example_created with
  | Ok b => b
  | Err _ => cb_with {| cb_schema_id := EmptyString; cb_schema_version := 0;
      cb_bundle_id := EmptyString; cb_goal_id := EmptyString; cb_revision := 0;
      cb_participants := []; cb_dependencies := []; cb_merge_order := [];
      cb_remote_outcome := NotRequested; cb_remote_snapshot_fingerprint := None;
      cb_limitations := []; cb_bundle_fingerprint := EmptyString |} 0 [] NotRequested None []
      EmptyString
  end.

Lemma example_created_ok : example_created = Ok example_bundle.
Proof. vm_compute. reflexivity. Qed.

Lemma merge_queue_well_ordered_witness :
  ∃ s' log r, run_merge_queue (logged example_port) example_bundle true (0, []) = ((s', log), r) ∧
    length log = 6 ∧ well_ordered example_bundle log.
Proof.
  destruct (run_merge_queue (logged example_port) example_bundle true (0, []))
    as [[s' log] r] eqn:Hr.
  exists s', log, r. split; [reflexivity|]. split.
  - revert Hr. vm_compute. intros Hr. injection Hr as _ <- _. reflexivity.
  - exact (merge_queue_well_ordered example_port example_bundle true 0 s' log r Hr).
Defined.

Lemma merge_queue_total_witness :
  ∃ s' b', run_merge_queue example_port example_bundle true 0 = (s', Ok b').
Proof.
  destruct (merge_queue_total example_port example_bundle true 0) as (s' & b' & Hr & _).
  - reflexivity.
  - vm_compute. reflexivity.
  - vm_compute. reflexivity.
  - apply (bool_decide_unpack _). vm_compute. exact I.
  - exists s', b'. exact Hr.
Defined.

Lemma verified_means_observed_witness :
  ∃ s' log b', run_merge_queue (logged example_port) example_bundle true (0, [])
      = ((s', log), Ok b') ∧ cb_remote_outcome b' = RemoteOk ∧ all_in RemoteVerified b'.
Proof.
  destruct (run_merge_queue (logged example_port) example_bundle true (0, []))
    as [[s' log] [b'|e]] eqn:Hr; [|exfalso; revert Hr; vm_compute; discriminate].
  exists s', log, b'. split; [reflexivity|].
  assert (cb_remote_outcome b' = RemoteOk) as Ho
    by (revert Hr; vm_compute; intros Hr; injection Hr as _ _ <-; reflexivity).
  split; [exact Ho|].
  exact (proj1 (proj1 (verified_means_observed example_port example_bundle true 0 s' log b'
    ltac:(vm_compute; reflexivity) ltac:(vm_compute; reflexivity) Hr)) Ho).
Defined.

Lemma handoff_ready_exactly_witness :
  ∃ h, build_handoff example_bundle = Ok h ∧ ch_ready h = false ∧
    ¬ cb_remote_outcome example_bundle = RemoteOk.
Proof.
  destruct (build_handoff example_bundle) as [h|e] eqn:Hh;
    [|exfalso; revert Hh; vm_compute; discriminate].
  exists h. split; [reflexivity|].
  destruct (ch_ready h) eqn:Hr.
  - exfalso. destruct (proj1 (proj1 (handoff_ready_exactly _ _ Hh)) Hr) as [Ho _].
    revert Ho. vm_compute. discriminate.
  - split; [reflexivity|]. vm_compute. discriminate.
Defined.

Definition example_final : ChangeBundle :=
  match (run_merge_queue example_port example_bundle true 0).2 with
  | Ok b => b | Err _ => example_bundle end.

Lemma created_bundle_handoff_witness :
  run_merge_queue example_port example_bundle true 0 = (6, Ok example_final) ∧
  ∃ h, build_handoff example_final = Ok h ∧ ch_ready h = true.
Proof.
  assert (run_merge_queue example_port example_bundle true 0 = (6, Ok example_final)) as Hr
    by (vm_compute; reflexivity).
  split; [exact Hr|].
  destruct (build_handoff example_final) as [h|e] eqn:Hh;
    [|exfalso; revert Hh; vm_compute; discriminate].
  exists h. split; [reflexivity|].
  apply (proj2 (created_bundle_handoff example_port _ _ _ _ true 0 6 _ example_final h
    example_created_ok Hr Hh)).
  vm_compute. reflexivity.
Defined.
