(* ===== verification/CodexLifecycle.v ===== *)
(** * The Codex task lifecycle

    Models [apps/star-controller/src/lifecycle.rs]: what the controller has
    observed of Codex instances, tasks and gateway connections, and when it may
    shut down. *)
From S2P Require Import Prelude Contracts.

(** Thirty seconds, in nanoseconds. *)
Definition CONTROLLER_IDLE_GRACE : Z := 30 * 10 ^ 9.

Inductive InstanceState := Active | Unknown | Exited.
Inductive ConnectionState := Connected | Eof.

#[global] Instance InstanceState_eq_dec : EqDecision InstanceState.
Proof. solve_decision. Defined.

Record InstanceSnapshot := {
  in_instance_id : string;
  in_owner_pid : option N;
  in_state : InstanceState;
  in_observed_at : DateTime;
  in_exited_at : option DateTime
}.

Record TaskSnapshot := {
  ta_task_id : string;
  ta_instance_id : string;
  ta_observed_at : DateTime;
  ta_root_stop_observed : bool;
  ta_tool_activity : N;
  ta_subagent_activity : N;
  ta_operation_activity : N;
  ta_work_active : bool
}.

Record McpConnectionSnapshot := {
  mc_connection_id : string;
  mc_task_id : option string;
  mc_instance_id : string;
  mc_state : ConnectionState;
  mc_observed_at : DateTime
}.

Inductive ControllerLifecycleDecision :=
| KeepAlive
| IdleUntil (deadline : DateTime)
| ShutdownNow
| BlockedByUnknownInstance.

Record CodexLifecycle := {
  cl_instances : gmap string InstanceSnapshot;
  cl_tasks : gmap string TaskSnapshot;
  cl_connections : gmap string McpConnectionSnapshot;
  cl_idle_since : option DateTime
}.

Definition lifecycle_default : CodexLifecycle :=
  {| cl_instances := ∅; cl_tasks := ∅; cl_connections := ∅; cl_idle_since := None |}.

Definition with_instances (l : CodexLifecycle) m : CodexLifecycle :=
  {| cl_instances := m; cl_tasks := cl_tasks l; cl_connections := cl_connections l;
     cl_idle_since := cl_idle_since l |}.
Definition with_tasks (l : CodexLifecycle) m : CodexLifecycle :=
  {| cl_instances := cl_instances l; cl_tasks := m; cl_connections := cl_connections l;
     cl_idle_since := cl_idle_since l |}.
Definition with_connections (l : CodexLifecycle) m : CodexLifecycle :=
  {| cl_instances := cl_instances l; cl_tasks := cl_tasks l; cl_connections := m;
     cl_idle_since := cl_idle_since l |}.
Definition with_idle_since (l : CodexLifecycle) t : CodexLifecycle :=
  {| cl_instances := cl_instances l; cl_tasks := cl_tasks l; cl_connections := cl_connections l;
     cl_idle_since := t |}.

(** [self.instances.values()] in a condition. *)
Definition any_value {V} (p : V → bool) (m : gmap string V) : bool :=
  existsb (λ e : string * V, p e.2) (map_to_list m).

Definition observe_instance (l : CodexLifecycle) (instance_id : string)
    (owner_pid : option N) (now : DateTime) : CodexLifecycle :=
  let instance := default
    {| in_instance_id := instance_id; in_owner_pid := owner_pid; in_state := Active;
       in_observed_at := now; in_exited_at := None |} (cl_instances l !! instance_id) in
  let instance :=
    if bool_decide (in_state instance = Exited) then instance
    else {| in_instance_id := in_instance_id instance;
            in_owner_pid := if is_some owner_pid then owner_pid else in_owner_pid instance;
            in_state := Active; in_observed_at := now;
            in_exited_at := in_exited_at instance |} in
  with_instances l (<[instance_id := instance]> (cl_instances l)).

Definition session_started_with_owner (l : CodexLifecycle) (instance_id task_id : string)
    (owner_pid : option N) (now : DateTime) : CodexLifecycle :=
  let l := observe_instance l instance_id owner_pid now in
  let task := default
    {| ta_task_id := task_id; ta_instance_id := instance_id; ta_observed_at := now;
       ta_root_stop_observed := false; ta_tool_activity := 0; ta_subagent_activity := 0;
       ta_operation_activity := 0; ta_work_active := false |} (cl_tasks l !! task_id) in
  let task :=
    {| ta_task_id := ta_task_id task; ta_instance_id := instance_id; ta_observed_at := now;
       ta_root_stop_observed := ta_root_stop_observed task;
       ta_tool_activity := ta_tool_activity task;
       ta_subagent_activity := ta_subagent_activity task;
       ta_operation_activity := ta_operation_activity task;
       ta_work_active := ta_work_active task |} in
  with_tasks l (<[task_id := task]> (cl_tasks l)).

Definition session_started (l : CodexLifecycle) (instance_id task_id : string)
    (now : DateTime) : CodexLifecycle :=
  session_started_with_owner l instance_id task_id None now.

(** The [expect] of the source is the [None] branch, which cannot be reached. *)
Definition user_prompt_submitted_with_owner (l : CodexLifecycle)
    (instance_id task_id : string) (owner_pid : option N) (now : DateTime) :
    option CodexLifecycle :=
  let l := session_started_with_owner l instance_id task_id owner_pid now in
  match cl_tasks l !! task_id with
  | None => None
  | Some task =>
      let task :=
        {| ta_task_id := ta_task_id task; ta_instance_id := ta_instance_id task;
           ta_observed_at := now; ta_root_stop_observed := false;
           ta_tool_activity := ta_tool_activity task;
           ta_subagent_activity := ta_subagent_activity task;
           ta_operation_activity := ta_operation_activity task; ta_work_active := true |} in
      Some (with_idle_since (with_tasks l (<[task_id := task]> (cl_tasks l))) None)
  end.

Inductive Activity := Tool | Subagent | Operation.

#[global] Instance Activity_eq_dec : EqDecision Activity.
Proof. solve_decision. Defined.

Definition activity_of (task : TaskSnapshot) (activity : Activity) : N :=
  match activity with
  | Tool => ta_tool_activity task
  | Subagent => ta_subagent_activity task
  | Operation => ta_operation_activity task
  end.

(** The task with one counter set. *)
Definition set_activity (task : TaskSnapshot) (activity : Activity) (n : N) : TaskSnapshot :=
  {| ta_task_id := ta_task_id task; ta_instance_id := ta_instance_id task;
     ta_observed_at := ta_observed_at task;
     ta_root_stop_observed := ta_root_stop_observed task;
     ta_tool_activity := match activity with Tool => n | _ => ta_tool_activity task end;
     ta_subagent_activity := match activity with Subagent => n | _ => ta_subagent_activity task end;
     ta_operation_activity :=
       match activity with Operation => n | _ => ta_operation_activity task end;
     ta_work_active := ta_work_active task |}.

Definition set_flags (task : TaskSnapshot) (root_stop work_active : bool) (now : DateTime) :
    TaskSnapshot :=
  {| ta_task_id := ta_task_id task; ta_instance_id := ta_instance_id task;
     ta_observed_at := now; ta_root_stop_observed := root_stop;
     ta_tool_activity := ta_tool_activity task;
     ta_subagent_activity := ta_subagent_activity task;
     ta_operation_activity := ta_operation_activity task; ta_work_active := work_active |}.

Definition increment (l : CodexLifecycle) (task_id : string) (now : DateTime)
    (activity : Activity) : CodexLifecycle * bool :=
  match cl_tasks l !! task_id with
  | None => (l, false)
  | Some task =>
      let task := set_activity task activity
        (saturating_add u32_max (activity_of task activity) 1) in
      let task := set_flags task (ta_root_stop_observed task) true now in
      (with_idle_since (with_tasks l (<[task_id := task]> (cl_tasks l))) None, true)
  end.

Definition finish_if_quiet (l : CodexLifecycle) (task_id : string) (now : DateTime) :
    CodexLifecycle :=
  match cl_tasks l !! task_id with
  | None => l
  | Some task =>
      if ta_root_stop_observed task
         && (ta_tool_activity task =? 0)%N
         && (ta_subagent_activity task =? 0)%N
         && (ta_operation_activity task =? 0)%N
      then with_tasks l
             (<[task_id := set_flags task (ta_root_stop_observed task) false now]> (cl_tasks l))
      else l
  end.

Definition decrement (l : CodexLifecycle) (task_id : string) (now : DateTime)
    (activity : Activity) : CodexLifecycle * bool :=
  match cl_tasks l !! task_id with
  | None => (l, false)
  | Some task =>
      if (activity_of task activity =? 0)%N then (l, false)
      else
        let task := set_activity task activity (activity_of task activity - 1) in
        let task := set_flags task (ta_root_stop_observed task) (ta_work_active task) now in
        (finish_if_quiet (with_tasks l (<[task_id := task]> (cl_tasks l))) task_id now, true)
  end.

Definition root_stop (l : CodexLifecycle) (task_id : string) (now : DateTime) :
    CodexLifecycle * bool :=
  match cl_tasks l !! task_id with
  | None => (l, false)
  | Some task =>
      let task := set_flags task true (ta_work_active task) now in
      (finish_if_quiet (with_tasks l (<[task_id := task]> (cl_tasks l))) task_id now, true)
  end.

Definition mcp_initialized (l : CodexLifecycle) (connection_id instance_id : string)
    (task_id : option string) (owner_pid : option N) (now : DateTime) : CodexLifecycle :=
  let l := observe_instance l instance_id owner_pid now in
  with_connections l (<[connection_id :=
    {| mc_connection_id := connection_id; mc_task_id := task_id; mc_instance_id := instance_id;
       mc_state := Connected; mc_observed_at := now |}]> (cl_connections l)).

Definition mcp_eof (l : CodexLifecycle) (connection_id : string) (now : DateTime) :
    CodexLifecycle * bool :=
  match cl_connections l !! connection_id with
  | None => (l, false)
  | Some connection =>
      (with_connections l (<[connection_id :=
         {| mc_connection_id := mc_connection_id connection;
            mc_task_id := mc_task_id connection; mc_instance_id := mc_instance_id connection;
            mc_state := Eof; mc_observed_at := now |}]> (cl_connections l)), true)
  end.

(** What [instance_exited] does to a task of the instance. *)
Definition cleared (task : TaskSnapshot) (now : DateTime) : TaskSnapshot :=
  {| ta_task_id := ta_task_id task; ta_instance_id := ta_instance_id task;
     ta_observed_at := now; ta_root_stop_observed := true; ta_tool_activity := 0;
     ta_subagent_activity := 0; ta_operation_activity := 0; ta_work_active := false |}.

Definition instance_exited (l : CodexLifecycle) (instance_id : string) (now : DateTime) :
    CodexLifecycle * bool :=
  match cl_instances l !! instance_id with
  | None => (l, false)
  | Some instance =>
      let instance :=
        {| in_instance_id := in_instance_id instance; in_owner_pid := in_owner_pid instance;
           in_state := Exited; in_observed_at := now; in_exited_at := Some now |} in
      let l := with_instances l (<[instance_id := instance]> (cl_instances l)) in
      (with_tasks l ((λ task, if String.eqb (ta_instance_id task) instance_id
                              then cleared task now else task) <$> cl_tasks l), true)
  end.

Definition instance_became_unknown (l : CodexLifecycle) (instance_id : string)
    (now : DateTime) : CodexLifecycle * bool :=
  match cl_instances l !! instance_id with
  | None => (l, false)
  | Some instance =>
      if bool_decide (in_state instance = Exited) then (l, true)
      else
        let instance :=
          {| in_instance_id := in_instance_id instance; in_owner_pid := in_owner_pid instance;
             in_state := Unknown; in_observed_at := now;
             in_exited_at := in_exited_at instance |} in
        (with_instances l (<[instance_id := instance]> (cl_instances l)), true)
  end.

(** The ids of live instances whose recorded owner is gone, in key order. *)
Definition missing_owners (l : CodexLifecycle) (live_pids : gset N) : list string :=
  omap (λ e : string * InstanceSnapshot,
    if bool_decide (in_state e.2 = Exited) then None
    else match in_owner_pid e.2 with
         | Some pid => if bool_decide (pid ∈ live_pids) then None else Some (in_instance_id e.2)
         | None => None
         end) (btree_entries (cl_instances l)).

Fixpoint exit_all (l : CodexLifecycle) (ids : list string) (now : DateTime) (changed : bool) :
    CodexLifecycle * bool :=
  match ids with
  | [] => (l, changed)
  | id :: rest => let (l, exited) := instance_exited l id now in
                  exit_all l rest now (changed || exited)
  end.

Definition reconcile_owner_processes (l : CodexLifecycle) (live_pids : gset N)
    (now : DateTime) : CodexLifecycle * bool :=
  exit_all l (missing_owners l live_pids) now false.

Definition decision (l : CodexLifecycle) (now : DateTime) :
    CodexLifecycle * ControllerLifecycleDecision :=
  if any_value (λ i, bool_decide (in_state i = Unknown)) (cl_instances l)
  then (with_idle_since l None, BlockedByUnknownInstance)
  else if any_value ta_work_active (cl_tasks l) then (with_idle_since l None, KeepAlive)
  else if negb (any_value (λ i, negb (bool_decide (in_state i = Exited))) (cl_instances l))
  then (with_idle_since l None, ShutdownNow)
  else
    let idle_since := default now (cl_idle_since l) in
    let l := with_idle_since l (Some idle_since) in
    let deadline := (idle_since + CONTROLLER_IDLE_GRACE)%Z in
    if (deadline <=? now)%Z then (l, ShutdownNow) else (l, IdleUntil deadline).

(** ** Histories

    One entry per call the controller makes, with the instant it passes. *)
Inductive call :=
| SessionStarted (instance_id task_id : string) (owner_pid : option N)
| PromptSubmitted (instance_id task_id : string) (owner_pid : option N)
| ActivityStarted (task_id : string) (activity : Activity)
| ActivityFinished (task_id : string) (activity : Activity)
| RootStop (task_id : string)
| McpInitialized (connection_id instance_id : string) (task_id : option string)
    (owner_pid : option N)
| McpEof (connection_id : string)
| InstanceExited (instance_id : string)
| InstanceUnknown (instance_id : string)
| Reconcile (live_pids : gset N)
| Decide.

Definition step (l : CodexLifecycle) (now : DateTime) (c : call) : CodexLifecycle :=
  match c with
  | SessionStarted i t o => session_started_with_owner l i t o now
  | PromptSubmitted i t o => default l (user_prompt_submitted_with_owner l i t o now)
  | ActivityStarted t a => (increment l t now a).1
  | ActivityFinished t a => (decrement l t now a).1
  | RootStop t => (root_stop l t now).1
  | McpInitialized c i t o => mcp_initialized l c i t o now
  | McpEof c => (mcp_eof l c now).1
  | InstanceExited i => (instance_exited l i now).1
  | InstanceUnknown i => (instance_became_unknown l i now).1
  | Reconcile pids => (reconcile_owner_processes l pids now).1
  | Decide => (decision l now).1
  end.

Definition history := list (DateTime * call).

Definition replay (h : history) : CodexLifecycle :=
  foldl (λ l e, step l e.1 e.2) lifecycle_default h.
