(* ===== verification/CodexLifecycleFacts.v ===== *)
(** * Properties of the Codex task lifecycle

    Invariants of every reachable lifecycle, what a shutdown decision
    guarantees, and when a task becomes inactive. *)
From S2P Require Import Prelude Contracts CodexLifecycle.

Lemma any_value_true {V} (p : V → bool) (m : gmap string V) :
  any_value p m = true ↔ ∃ k v, m !! k = Some v ∧ p v = true.
Proof.
  unfold any_value. rewrite existsb_true. split.
  - intros ([k v] & Hin%elem_of_map_to_list & Hp). eauto.
  - intros (k & v & Hk & Hp). exists (k, v). by rewrite elem_of_map_to_list.
Qed.

Lemma any_value_false {V} (p : V → bool) (m : gmap string V) :
  any_value p m = false ↔ ∀ k v, m !! k = Some v → p v = false.
Proof.
  rewrite <-not_true_iff_false, any_value_true. split.
  - intros Hn k v Hk. destruct (p v) eqn:E; [|done]. destruct Hn; eauto.
  - intros Hall (k & v & Hk & Hp). by rewrite (Hall k v Hk) in Hp.
Qed.

(** ** Invariants *)

Definition quiet (task : TaskSnapshot) : Prop := ∀ a, activity_of task a = 0%N.

(** A task that is not active has no activity running; instances and tasks are
    stored under their own ids. *)
Record lifecycle_ok (l : CodexLifecycle) : Prop := {
  lo_instances : ∀ k i, cl_instances l !! k = Some i → in_instance_id i = k;
  lo_tasks : ∀ k t, cl_tasks l !! k = Some t →
    ta_task_id t = k ∧ (ta_work_active t = false → quiet t)
}.

Lemma observe_ok l i o now : lifecycle_ok l → lifecycle_ok (observe_instance l i o now).
Proof.
  intros [Hi Ht]. split; [|done]. intros k x. unfold observe_instance. simpl.
  destruct (decide (k = i)) as [->|Hne].
  - rewrite lookup_insert_eq. intros [= <-]. destruct (cl_instances l !! i) eqn:E; simpl.
    + specialize (Hi _ _ E). by case_bool_decide.
    + done.
  - rewrite lookup_insert_ne by done. apply Hi.
Qed.

(** Writing one task keeps the invariant when the task satisfies it. *)
Lemma insert_task_ok l id task :
  lifecycle_ok l → ta_task_id task = id → (ta_work_active task = false → quiet task) →
  lifecycle_ok (with_tasks l (<[id := task]> (cl_tasks l))).
Proof.
  intros [Hi Ht] Hid Hq. split; [done|]. intros k t. simpl.
  destruct (decide (k = id)) as [->|Hne].
  - rewrite lookup_insert_eq. by intros [= <-].
  - rewrite lookup_insert_ne by done. apply Ht.
Qed.

Lemma insert_instance_ok l id i :
  lifecycle_ok l → in_instance_id i = id →
  lifecycle_ok (with_instances l (<[id := i]> (cl_instances l))).
Proof.
  intros [Hi Ht] Hid. split; [|done]. intros k x. simpl.
  destruct (decide (k = id)) as [->|Hne].
  - rewrite lookup_insert_eq. by intros [= <-].
  - rewrite lookup_insert_ne by done. apply Hi.
Qed.

Lemma idle_ok l t : lifecycle_ok l → lifecycle_ok (with_idle_since l t).
Proof. by intros [Hi Ht]. Qed.

Lemma finish_ok l id now : lifecycle_ok l → lifecycle_ok (finish_if_quiet l id now).
Proof.
  intros Hl. unfold finish_if_quiet. destruct (cl_tasks l !! id) as [task|] eqn:E; [|done].
  destruct (_ && _) eqn:Hq; [|done]. bool_to_prop. apply insert_task_ok; [done| |].
  - by apply (lo_tasks l Hl) in E as [? _].
  - intros _ []; simpl; done.
Qed.

#[local] Hint Resolve observe_ok insert_task_ok insert_instance_ok idle_ok finish_ok : core.

Lemma session_ok l i t o now :
  lifecycle_ok l → lifecycle_ok (session_started_with_owner l i t o now).
Proof.
  intros Hl. unfold session_started_with_owner. apply insert_task_ok; [auto|simpl|simpl].
  - destruct (cl_tasks l !! t) eqn:E; [|done]. by apply (lo_tasks l Hl) in E as [? _].
  - destruct (cl_tasks l !! t) eqn:E; simpl; [|by intros _ []].
    apply (lo_tasks l Hl) in E as [_ Hq]. intros Hw a. specialize (Hq Hw a). by destruct a.
Qed.

Lemma exited_ok l i now : lifecycle_ok l → lifecycle_ok (instance_exited l i now).1.
Proof.
  intros Hl. unfold instance_exited. destruct (cl_instances l !! i) as [x|] eqn:E; [|done].
  split; simpl.
  - intros k y. destruct (decide (k = i)) as [->|Hne].
    + rewrite lookup_insert_eq. intros [= <-]. simpl. by apply (lo_instances l Hl).
    + rewrite lookup_insert_ne by done. by apply (lo_instances l Hl).
  - intros k t. rewrite lookup_fmap. intros (t0 & Ht0 & ->)%fmap_Some.
    apply (lo_tasks l Hl) in Ht0 as [Hid Hq]. destruct (String.eqb _ _); simpl; [|done].
    split; [done|]. by intros _ [].
Qed.

Lemma exit_all_ok ids l now changed :
  lifecycle_ok l → lifecycle_ok (exit_all l ids now changed).1.
Proof.
  revert l changed. induction ids as [|id ids IH]; intros l changed Hl; simpl; [done|].
  pose proof (exited_ok l id now Hl). destruct (instance_exited l id now) as [l' e]. by apply IH.
Qed.

Lemma increment_ok l id now a : lifecycle_ok l → lifecycle_ok (increment l id now a).1.
Proof.
  intros Hl. unfold increment. destruct (cl_tasks l !! id) as [t|] eqn:E; [|done].
  apply idle_ok, insert_task_ok; [done| |done]. by apply (lo_tasks l Hl) in E as [? _].
Qed.

Lemma decrement_ok l id now a : lifecycle_ok l → lifecycle_ok (decrement l id now a).1.
Proof.
  intros Hl. unfold decrement. destruct (cl_tasks l !! id) as [t|] eqn:E; [|done].
  destruct (activity_of t a =? 0)%N eqn:Ez; [done|]. bool_to_prop.
  apply (lo_tasks l Hl) in E as [? Hq]. apply finish_ok, insert_task_ok; [done|done|].
  simpl. intros Hw. by specialize (Hq Hw a).
Qed.

Lemma root_stop_ok l id now : lifecycle_ok l → lifecycle_ok (root_stop l id now).1.
Proof.
  intros Hl. unfold root_stop. destruct (cl_tasks l !! id) as [t|] eqn:E; [|done].
  apply (lo_tasks l Hl) in E as [? Hq]. apply finish_ok, insert_task_ok; [done|done|].
  intros Hw a. specialize (Hq Hw a). by destruct a.
Qed.

Lemma prompt_some l i t o now :
  ∃ l', user_prompt_submitted_with_owner l i t o now = Some l'.
Proof.
  unfold user_prompt_submitted_with_owner, session_started_with_owner. cbn [cl_tasks with_tasks].
  rewrite lookup_insert_eq. eauto.
Qed.

Lemma step_ok l now c : lifecycle_ok l → lifecycle_ok (step l now c).
Proof.
  intros Hl. destruct c; simpl;
    eauto using session_ok, increment_ok, decrement_ok, root_stop_ok, exited_ok.
  - unfold user_prompt_submitted_with_owner.
    set (l1 := session_started_with_owner _ _ _ _ _).
    assert (lifecycle_ok l1) as Hl1 by by apply session_ok.
    destruct (cl_tasks l1 !! task_id) as [t|] eqn:E; simpl; [|done].
    apply idle_ok, insert_task_ok; [done| |done]. by apply (lo_tasks l1 Hl1) in E as [? _].
  - destruct (observe_ok l instance_id owner_pid now Hl). by split.
  - unfold mcp_eof. destruct (cl_connections l !! connection_id); [|done]. by destruct Hl.
  - unfold instance_became_unknown. destruct (cl_instances l !! instance_id) as [x|] eqn:E; [|done].
    case_bool_decide; [done|]. apply insert_instance_ok; [done|]. simpl; by apply (lo_instances l Hl).
  - by apply exit_all_ok.
  - unfold decision. repeat case_match; by apply idle_ok.
Qed.

Lemma replay_snoc h e : replay (h ++ [e]) = step (replay h) e.1 e.2.
Proof. unfold replay. by rewrite foldl_app. Qed.

Lemma replay_ok h : lifecycle_ok (replay h).
Proof.
  induction h as [|e h IH] using rev_ind.
  - split; simpl; [intros ? ? ?|intros ? ? ?]; by rewrite lookup_empty in *.
  - rewrite replay_snoc. by apply step_ok.
Qed.

(** ** The idle lease *)

Definition no_work (l : CodexLifecycle) : Prop :=
  ∀ k t, cl_tasks l !! k = Some t → ta_work_active t = false.

(** The lease: [idle_since] was set by a decision, and from that decision on
    no state had an active task. *)
Definition leased (h : history) (t : DateTime) : Prop :=
  ∃ h1 h2, h = h1 ++ (t, Decide) :: h2 ∧
    ∀ k, k `prefix_of` h2 → no_work (replay (h1 ++ (t, Decide) :: k)).

Lemma insert_no_work l id task :
  no_work l → ta_work_active task = false →
  no_work (with_tasks l (<[id := task]> (cl_tasks l))).
Proof.
  intros Hn Hw k t. simpl. destruct (decide (k = id)) as [->|Hne].
  - rewrite lookup_insert_eq. by intros [= <-].
  - rewrite lookup_insert_ne by done. apply Hn.
Qed.

Lemma finish_no_work l id now : no_work l → no_work (finish_if_quiet l id now).
Proof.
  intros Hn. unfold finish_if_quiet. destruct (cl_tasks l !! id); [|done].
  destruct (_ && _); [|done]. by apply insert_no_work.
Qed.

Lemma exited_no_work l i now : no_work l → no_work (instance_exited l i now).1.
Proof.
  intros Hn. unfold instance_exited. destruct (cl_instances l !! i); [|done].
  intros k t. simpl. rewrite lookup_fmap. intros (t0 & Ht0 & ->)%fmap_Some.
  destruct (String.eqb _ _); [done|by eapply Hn].
Qed.

Lemma exit_all_no_work ids l now changed : no_work l → no_work (exit_all l ids now changed).1.
Proof.
  revert l changed. induction ids as [|id ids IH]; intros l changed Hn; simpl; [done|].
  pose proof (exited_no_work l id now Hn). destruct (instance_exited l id now). by apply IH.
Qed.

#[local] Hint Resolve insert_no_work finish_no_work exited_no_work exit_all_no_work : core.

(** A call other than a decision that leaves the lease running leaves every
    task inactive. *)
Lemma step_no_work l now c t :
  no_work l → cl_idle_since (step l now c) = Some t → c ≠ Decide → no_work (step l now c).
Proof.
  intros Hn Hidle Hc. destruct c; simpl in *; auto; try done.
  - apply (insert_no_work (observe_instance l instance_id owner_pid now)); [done|]. simpl.
    destruct (cl_tasks l !! task_id) eqn:E; simpl; [by eapply Hn|done].
  - destruct (prompt_some l instance_id task_id owner_pid now) as [l' Hl']. rewrite Hl' in Hidle.
    unfold user_prompt_submitted_with_owner in Hl'. by case_match; simplify_eq/=.
  - unfold increment in *. by case_match; simplify_eq/=.
  - unfold decrement. destruct (cl_tasks l !! task_id) as [x|] eqn:E; [|done].
    destruct (_ =? 0)%N; [done|]. apply finish_no_work, insert_no_work; [done|].
    exact (Hn _ _ E).
  - unfold root_stop. destruct (cl_tasks l !! task_id) as [x|] eqn:E; [|done].
    apply finish_no_work, insert_no_work; [done|].
    exact (Hn _ _ E).
  - unfold mcp_eof. by case_match.
  - unfold instance_became_unknown. repeat case_match; done.
  - by apply exit_all_no_work.
Qed.

(** Only a decision starts a lease. *)
Lemma exit_all_idle ids l now changed :
  cl_idle_since (exit_all l ids now changed).1 = cl_idle_since l.
Proof.
  revert l changed. induction ids as [|id ids IH]; intros l changed; simpl; [done|].
  destruct (instance_exited l id now) as [l' e] eqn:E. rewrite IH.
  unfold instance_exited in E. by case_match; simplify_eq/=.
Qed.

Lemma finish_idle l id now : cl_idle_since (finish_if_quiet l id now) = cl_idle_since l.
Proof. unfold finish_if_quiet. by repeat case_match. Qed.

Lemma step_idle l now c t :
  c ≠ Decide → cl_idle_since (step l now c) = Some t → cl_idle_since l = Some t.
Proof.
  intros Hc. destruct c; simpl; try done.
  - destruct (prompt_some l instance_id task_id owner_pid now) as [l' Hl']. rewrite Hl'.
    unfold user_prompt_submitted_with_owner in Hl'. by case_match; simplify_eq/=.
  - unfold increment. by case_match.
  - unfold decrement. repeat case_match; simpl; rewrite ?finish_idle; done.
  - unfold root_stop. repeat case_match; simpl; rewrite ?finish_idle; done.
  - unfold mcp_eof. by case_match.
  - unfold instance_exited. by case_match.
  - unfold instance_became_unknown. by repeat case_match.
  - unfold reconcile_owner_processes. by rewrite exit_all_idle.
Qed.

Lemma decision_idle l now t :
  cl_idle_since (decision l now).1 = Some t →
  no_work (decision l now).1 ∧ (cl_idle_since l = Some t ∨ (cl_idle_since l = None ∧ t = now)).
Proof.
  unfold decision. destruct (any_value _ (cl_instances l)); [done|].
  destruct (any_value ta_work_active (cl_tasks l)) eqn:Hw; [done|].
  destruct (negb _); [done|]. rewrite any_value_false in Hw.
  destruct (_ <=? now)%Z; simpl; intros [= <-]; (split; [done|]);
    destruct (cl_idle_since l); auto.
Qed.

Lemma replay_leased h t : cl_idle_since (replay h) = Some t → leased h t.
Proof.
  revert t. induction h as [|[now c] h IH] using rev_ind; intros t; [done|].
  rewrite replay_snoc. simpl. intros Hidle.
  assert (c = Decide ∨ c ≠ Decide) as [->|Hc] by (destruct c; auto).
  - simpl in Hidle. destruct (decision_idle _ _ _ Hidle) as [Hn [Hold|[_ ->]]].
    + destruct (IH t Hold) as (h1 & h2 & -> & Hall). exists h1, (h2 ++ [(now, Decide)]).
      split; [by rewrite <-(assoc_L (++))|]. intros k [->|Hk]%prefix_snoc_inv; [|by apply Hall].
      rewrite app_comm_cons, (assoc_L (++)), replay_snoc. done.
    + exists h, []. split; [done|]. intros k ->%prefix_nil_inv. by rewrite replay_snoc.
  - destruct (IH t (step_idle _ _ _ _ Hc Hidle)) as (h1 & h2 & -> & Hall).
    exists h1, (h2 ++ [(now, c)]). split; [by rewrite <-(assoc_L (++))|].
    intros k [->|Hk]%prefix_snoc_inv; [|by apply Hall].
    rewrite app_comm_cons, (assoc_L (++)), replay_snoc. apply (step_no_work _ _ _ t); [|done..].
    by apply (Hall h2).
Qed.

(** ** What a decision guarantees *)

Lemma decision_shutdown l now l' :
  decision l now = (l', ShutdownNow) →
  (∀ k i, cl_instances l !! k = Some i → in_state i ≠ Unknown) ∧ no_work l ∧
  ((∀ k i, cl_instances l !! k = Some i → in_state i = Exited) ∨
   ∃ t, cl_idle_since l' = Some t ∧ (t + CONTROLLER_IDLE_GRACE <= now)%Z ∧
     (cl_idle_since l = Some t ∨ t = now)).
Proof.
  unfold decision.
  destruct (any_value (λ i, bool_decide (in_state i = Unknown)) _) eqn:Hu; [done|].
  destruct (any_value ta_work_active _) eqn:Hw; [done|].
  rewrite any_value_false in Hu. rewrite any_value_false in Hw.
  assert (∀ k i, cl_instances l !! k = Some i → in_state i ≠ Unknown) as Hu'.
  { intros k i Hi. specialize (Hu k i Hi). by bool_to_prop. }
  destruct (any_value _ (cl_instances l)) eqn:He; simpl.
  - destruct (_ <=? now)%Z eqn:Hd; [|done]. intros [= <-]. bool_to_prop.
    do 2 (split; [done|]). right. eexists. split; [done|]. split; [done|].
    destruct (cl_idle_since l); auto.
  - intros [= <-]. do 2 (split; [done|]). left. intros k i Hi.
    rewrite any_value_false in He. specialize (He k i Hi). by bool_to_prop.
Qed.

Lemma decision_keep_alive l now :
  (∀ k i, cl_instances l !! k = Some i → in_state i = Exited) →
  (∃ k t, cl_tasks l !! k = Some t ∧ ta_work_active t = true) →
  (decision l now).2 = KeepAlive.
Proof.
  intros Hex Hact. unfold decision. rewrite (proj2 (any_value_false _ _)).
  2: { intros k i Hi. by rewrite (Hex k i Hi). }
  by rewrite (proj2 (any_value_true _ _) Hact).
Qed.

Lemma reconcile_exited l pids now :
  (∀ k i, cl_instances l !! k = Some i → in_state i = Exited) →
  reconcile_owner_processes l pids now = (l, false).
Proof.
  intros Hex. unfold reconcile_owner_processes.
  assert (missing_owners l pids = []) as ->; [|done].
  unfold missing_owners. apply elem_of_nil_inv. intros x Hx.
  apply list_elem_of_omap in Hx as ([k i] & Hin & Hf). apply elem_of_btree_entries in Hin.
  simpl in Hf. by rewrite (Hex k i Hin) in Hf.
Qed.

(** ** Exit is final *)

Definition exited (l : CodexLifecycle) (id : string) : Prop :=
  ∃ i, cl_instances l !! id = Some i ∧ in_state i = Exited.

Lemma insert_exited l id i id' :
  exited l id' → (id' = id → in_state i = Exited) →
  exited (with_instances l (<[id := i]> (cl_instances l))) id'.
Proof.
  intros (x & Hx & Hs) Hi. unfold exited. simpl. destruct (decide (id' = id)) as [->|Hne].
  - exists i. rewrite lookup_insert_eq. auto.
  - exists x. by rewrite lookup_insert_ne.
Qed.

Lemma observe_exited l id o now id' : exited l id' → exited (observe_instance l id o now) id'.
Proof.
  intros Hx. unfold observe_instance. apply insert_exited; [done|]. intros ->.
  destruct Hx as (x & -> & Hs). simpl. by rewrite Hs.
Qed.

Lemma instance_exited_exited l id now id' :
  exited l id' → exited (instance_exited l id now).1 id'.
Proof.
  intros Hx. unfold instance_exited. destruct (cl_instances l !! id); [|done].
  destruct (insert_exited l id {| in_instance_id := in_instance_id i;
    in_owner_pid := in_owner_pid i; in_state := Exited; in_observed_at := now;
    in_exited_at := Some now |} id' Hx (λ _, eq_refl)) as (y & Hy & ?). by exists y.
Qed.

Lemma exit_all_exited ids l now changed id' :
  exited l id' → exited (exit_all l ids now changed).1 id'.
Proof.
  revert l changed. induction ids as [|id ids IH]; intros l changed Hx; simpl; [done|].
  pose proof (instance_exited_exited l id now id' Hx). destruct (instance_exited l id now).
  by apply IH.
Qed.

Lemma finish_instances l id now : cl_instances (finish_if_quiet l id now) = cl_instances l.
Proof. unfold finish_if_quiet. by repeat case_match. Qed.

Lemma step_exited l now c id : exited l id → exited (step l now c) id.
Proof.
  intros Hx. destruct c; simpl; auto using observe_exited, instance_exited_exited, exit_all_exited.
  - by apply (observe_exited l instance_id owner_pid now) in Hx.
  - destruct (prompt_some l instance_id task_id owner_pid now) as [l' Hl']. rewrite Hl'. simpl.
    unfold user_prompt_submitted_with_owner in Hl'. case_match; simplify_eq.
    by apply (observe_exited l instance_id owner_pid now) in Hx.
  - unfold increment. by case_match.
  - unfold decrement, exited. repeat case_match; simpl; rewrite ?finish_instances; exact Hx.
  - unfold root_stop, exited. repeat case_match; simpl; rewrite ?finish_instances; exact Hx.
  - by apply (observe_exited l instance_id owner_pid now) in Hx.
  - unfold mcp_eof. by case_match.
  - unfold instance_became_unknown. destruct (cl_instances l !! instance_id) as [i|] eqn:E; [|done].
    case_bool_decide; [done|]. apply insert_exited; [done|]. intros ->.
    destruct Hx as (x & Hx & ?). congruence.
  - by apply exit_all_exited.
  - unfold decision. repeat case_match; exact Hx.
Qed.

(** ** Finishing *)

(** The activities still running in a task, as a list of completions. *)
Definition count_activity (a : Activity) (l : list Activity) : N :=
  len (filter (λ b, b = a) l).

Lemma count_activity_cons a b l :
  count_activity a (b :: l) = ((if bool_decide (b = a) then 1 else 0) + count_activity a l)%N.
Proof.
  unfold count_activity, len. rewrite filter_cons. case_bool_decide; case_decide;
    cbn [length]; first [lia | tauto].
Qed.

Definition finish_calls (id : string) (l : list Activity) (now : DateTime) : history :=
  map (λ a, (now, ActivityFinished id a)) l.

(** The task after the remaining completions of [l], once its root stopped. *)
Lemma finish_all l lc id now task :
  cl_tasks lc !! id = Some task → ta_root_stop_observed task = true →
  (∀ a, activity_of task a = count_activity a l) →
  (ta_work_active task = true → l ≠ []) →
  ∃ task', cl_tasks (foldl (λ s e, step s e.1 e.2) lc (finish_calls id l now)) !! id = Some task' ∧
    ta_work_active task' = false.
Proof.
  revert lc task. induction l as [|a l IH]; intros lc task Ht Hroot Hcount Hne; simpl.
  { exists task. split; [done|]. destruct (ta_work_active task); [by destruct Hne|done]. }
  unfold decrement. rewrite Ht.
  assert (activity_of task a = 1 + count_activity a l)%N as Ha.
  { by rewrite Hcount, count_activity_cons, bool_decide_eq_true_2. }
  destruct (activity_of task a =? 0)%N eqn:Ez; bool_to_prop; [lia|]. simpl.
  unfold finish_if_quiet. cbn [cl_tasks with_tasks]. rewrite lookup_insert_eq.
  set (t1 := set_flags _ _ _ _).
  assert (∀ b, activity_of t1 b = count_activity b l) as Hc1.
  { intros b. specialize (Hcount b). rewrite count_activity_cons in Hcount.
    destruct a, b; simpl in *; rewrite ?bool_decide_eq_true_2, ?bool_decide_eq_false_2 in * by done;
      lia. }
  destruct (_ && _) eqn:Hq.
  - eapply (IH _ (set_flags t1 (ta_root_stop_observed t1) false now)).
    + cbn. by rewrite lookup_insert_eq.
    + done.
    + intros b. rewrite <-Hc1. by destruct b.
    + done.
  - eapply (IH _ t1); [cbn; by rewrite lookup_insert_eq|done|done|].
    intros _ ->. revert Hq. simpl. rewrite Hroot.
    pose proof (Hc1 Tool) as H1. pose proof (Hc1 Subagent) as H2. pose proof (Hc1 Operation) as H3.
    simpl in H1, H2, H3. by rewrite H1, H2, H3.
Qed.

(** ** The properties *)

(** C30: the controller shuts down only when it may: after any history, a
    shutdown decision means no instance is in an unknown state, no task is
    active or has a running tool, subagent or operation, and either every
    instance has exited or a decision at least thirty seconds ago started a
    lease during which no task was ever active. *)
Theorem shutdown_is_safe h now l' :
  decision (replay h) now = (l', ShutdownNow) →
  (∀ k i, cl_instances (replay h) !! k = Some i → in_state i ≠ Unknown) ∧
  (∀ k t, cl_tasks (replay h) !! k = Some t → ta_work_active t = false ∧ quiet t) ∧
  ((∀ k i, cl_instances (replay h) !! k = Some i → in_state i = Exited) ∨
   ∃ t h1 h2, h = h1 ++ (t, Decide) :: h2 ∧ (t + CONTROLLER_IDLE_GRACE <= now)%Z ∧
     ∀ k, k `prefix_of` h2 → no_work (replay (h1 ++ (t, Decide) :: k))).
Proof.
  intros (Hu & Hn & Hex)%decision_shutdown. split; [done|]. split.
  - intros k t Ht. split; [by eapply Hn|]. apply (lo_tasks _ (replay_ok h) k t Ht). by eapply Hn.
  - destruct Hex as [?|(t & _ & Hd & [Hold| ->])]; [by left| |].
    + right. destruct (replay_leased h t Hold) as (h1 & h2 & ? & ?). by exists t, h1, h2.
    + unfold CONTROLLER_IDLE_GRACE in Hd. lia.
Qed.

(** An observed exit is final: no later call, whatever it is, brings an
    exited instance back. *)
Theorem exit_is_final h h' id :
  exited (replay h) id → exited (replay (h ++ h')) id.
Proof.
  intros Hx. induction h' as [|e h' IH] using rev_ind; [by rewrite app_nil_r|].
  rewrite (assoc_L (++)), replay_snoc. by apply step_exited.
Qed.

(** A task finishes: once its root has stopped and every running tool,
    subagent and operation has finished, in any order, it is no longer active
    and cannot hold the controller. *)
Theorem task_finishes h id task acts now :
  cl_tasks (replay h) !! id = Some task → (∀ a, activity_of task a = count_activity a acts) →
  ∃ task', cl_tasks (replay (h ++ (now, RootStop id) :: finish_calls id acts now)) !! id
      = Some task' ∧ ta_work_active task' = false.
Proof.
  intros Ht Hcount. unfold replay. rewrite foldl_app. fold (replay h). cbn [foldl fst snd step].
  unfold root_stop. rewrite Ht. cbn [fst]. unfold finish_if_quiet. cbn [cl_tasks with_tasks].
  rewrite lookup_insert_eq. set (t1 := set_flags _ _ _ _).
  assert (∀ b, activity_of t1 b = count_activity b acts) as Hc1.
  { intros b. rewrite <-Hcount. by destruct b. }
  destruct (_ && _) eqn:Hq.
  - eapply (finish_all _ _ _ _ (set_flags t1 (ta_root_stop_observed t1) false now)).
    + cbn. by rewrite lookup_insert_eq.
    + done.
    + intros b. rewrite <-Hc1. by destruct b.
    + done.
  - eapply (finish_all _ _ _ _ t1); [cbn; by rewrite lookup_insert_eq|done|done|].
    intros _ ->. revert Hq. simpl.
    pose proof (Hc1 Tool) as H1. pose proof (Hc1 Subagent) as H2. pose proof (Hc1 Operation) as H3.
    simpl in H1, H2, H3. by rewrite H1, H2, H3.
Qed.

(** A late activity report outlives its instance: when every instance has
    exited, an activity that starts in a known task makes the decision
    [KeepAlive], and no reconciliation with the live processes changes that. *)
Theorem late_activity_holds_controller l id now a checks later :
  (∀ k i, cl_instances l !! k = Some i → in_state i = Exited) →
  is_some (cl_tasks l !! id) = true →
  let l' := foldl (λ s e, (reconcile_owner_processes s e.2 e.1).1) (increment l id now a).1 checks in
  (decision l' later).2 = KeepAlive.
Proof.
  intros Hex (task & Ht)%is_some_spec. cbn zeta.
  assert (∀ s : CodexLifecycle, (∀ k i, cl_instances s !! k = Some i → in_state i = Exited) →
    foldl (λ s (e : DateTime * gset N), (reconcile_owner_processes s e.2 e.1).1) s checks = s)
    as Hfix.
  { intros s Hs. induction checks as [|e rest IH]; simpl; [done|]. by rewrite reconcile_exited. }
  unfold increment. rewrite Ht. cbn [fst]. rewrite Hfix by done.
  apply decision_keep_alive; [done|]. eexists id, _. cbn [cl_tasks with_tasks with_idle_since].
  by rewrite lookup_insert_eq.
Qed.

(** ** Instances *)

Definition example_history : history :=
  [(0%Z, PromptSubmitted "app" "task" (Some 7%N)); (1%Z, ActivityStarted "task" Tool);
   (2%Z, ActivityFinished "task" Tool); (3%Z, RootStop "task"); (4%Z, Decide)].

Lemma shutdown_is_safe_witness :
  (decision (replay example_history) 30000000004%Z).2 = ShutdownNow ∧ no_work (replay example_history).
Proof.
  destruct (decision (replay example_history) 30000000004%Z) as [l' d] eqn:Hd.
  assert (d = ShutdownNow) as -> by (revert Hd; vm_compute; intros Hd; by injection Hd as _ <-).
  split; [reflexivity|]. intros k t Ht.
  exact (proj1 (proj1 (proj2 (shutdown_is_safe _ _ _ Hd)) k t Ht)).
Defined.

Lemma exit_is_final_witness :
  exited (replay ([(0%Z, SessionStarted "app" "task" None); (1%Z, InstanceExited "app")]
    ++ [(2%Z, PromptSubmitted "app" "task" (Some 9%N))])) "app".
Proof.
  apply exit_is_final. eexists. vm_compute. split; reflexivity.
Defined.

Lemma task_finishes_witness :
  ∃ task', cl_tasks (replay ([(0%Z, PromptSubmitted "app" "task" None);
      (1%Z, ActivityStarted "task" Tool); (1%Z, ActivityStarted "task" Operation)]
      ++ (2%Z, RootStop "task") :: finish_calls "task" [Operation; Tool] 2%Z)) !! "task"
    = Some task' ∧ ta_work_active task' = false.
Proof.
  eapply task_finishes; [vm_compute; reflexivity|]. intros []; vm_compute; reflexivity.
Defined.

Lemma late_activity_holds_controller_witness :
  (decision (foldl (λ s e, (reconcile_owner_processes s e.2 e.1).1)
     (increment (replay [(0%Z, SessionStarted "app" "task" (Some 7%N)); (1%Z, InstanceExited "app")])
        "task" 2%Z Tool).1 [(3%Z, ∅); (60000000000%Z, ∅)]) 90000000000%Z).2 = KeepAlive.
Proof.
  apply late_activity_holds_controller; [|vm_compute; reflexivity].
  intros k i Hi. assert (k = "app") as ->.
  { destruct (decide (k = "app")) as [->|Hne]; [reflexivity|]. exfalso.
    revert Hi. unfold replay. cbn [foldl fst snd step instance_exited session_started_with_owner
      observe_instance cl_instances with_tasks with_instances lifecycle_default].
    intros Hi. change (<["app":=Build_InstanceSnapshot "app" (Some 7%N) Exited 1%Z (Some 1%Z)]>
      (<["app":=Build_InstanceSnapshot "app" (Some 7%N) Active 0%Z None]>
        (∅ : gmap string InstanceSnapshot)) !! k = Some i) in Hi.
    rewrite !lookup_insert_ne in Hi by done. by rewrite lookup_empty in Hi. }
  revert Hi. vm_compute. intros Hi. injection Hi as <-. reflexivity.
Defined.
