(* ===== verification/Gate.v ===== *)
(** * The operation concurrency gate

    Models [apps/star-controller/src/concurrency_gate.rs].  The mutex makes each
    admission attempt and each lease drop one atomic step; the gate is run
    under every interleaving of such steps. *)
From S2P Require Import Prelude.

Record OperationLockKey := {
  lk_scope_kind : string;
  lk_project_id : option string;
  lk_tool_id : string;
  lk_lock_hash : string
}.

#[global] Instance OperationLockKey_eq_dec : EqDecision OperationLockKey.
Proof. solve_decision. Defined.

Definition lock_key_tuple (k : OperationLockKey) : string * (option string * (string * string)) :=
  (lk_scope_kind k, (lk_project_id k, (lk_tool_id k, lk_lock_hash k))).

#[global] Instance OperationLockKey_cmp : Cmp OperationLockKey := cmp_on lock_key_tuple.
#[global] Instance OperationLockKey_cmp_laws : CmpLaws OperationLockKey.
Proof.
  apply cmp_on_laws. intros [] []. unfold lock_key_tuple; simpl. by intros [= -> -> -> ->].
Qed.

#[global] Instance OperationLockKey_countable : Countable OperationLockKey.
Proof.
  apply (inj_countable' lock_key_tuple
    (λ '(a, (b, (c, d))), Build_OperationLockKey a b c d)). by intros [].
Defined.

Record GateRequest := {
  gr_tool_id : string;
  gr_max_parallel : N;
  gr_locks : list OperationLockKey
}.

Record GateState := {
  gs_active_by_tool : gmap string N;
  gs_held_locks : gset OperationLockKey
}.

Definition gate_default : GateState := {| gs_active_by_tool := ∅; gs_held_locks := ∅ |}.

(** A live [GateLease]; the handle to the gate itself is left out. *)
Record GateLease := {
  gl_tool_id : string;
  gl_locks : list OperationLockKey
}.

Inductive QueueTimeout := TOOL_QUEUE_TIMEOUT.

Definition active (g : GateState) (tool_id : string) : N :=
  default 0%N (gs_active_by_tool g !! tool_id).

(** The critical section of [acquire], on a request whose locks are sorted and
    without repetition: the addition wraps at 16 bits. *)
Definition try_acquire (g : GateState) (request : GateRequest) :
    option (GateState * GateLease) :=
  let locks_available := forallb (λ lock, negb (bool_decide (lock ∈ gs_held_locks g)))
    (gr_locks request) in
  if (active g (gr_tool_id request) <? N.max (gr_max_parallel request) 1)%N && locks_available
  then Some
    ({| gs_active_by_tool :=
          <[gr_tool_id request := wrapping_add u16_max (active g (gr_tool_id request)) 1]>
            (gs_active_by_tool g);
        gs_held_locks := gs_held_locks g ∪ list_to_set (gr_locks request) |},
     {| gl_tool_id := gr_tool_id request; gl_locks := gr_locks request |})
  else None.

(** [request.locks.sort(); request.locks.dedup();] *)
Definition normalize_request (request : GateRequest) : GateRequest :=
  {| gr_tool_id := gr_tool_id request;
     gr_max_parallel := gr_max_parallel request;
     gr_locks := sort_dedup (gr_locks request) |}.

(** The polling loop of [acquire]: at each poll the gate as it is then and the
    clock read after a refusal; [None] while the polls go on. *)
Fixpoint poll (request : GateRequest) (deadline : Z) (polls : list (GateState * Z)) :
    option (result (GateState * GateLease) QueueTimeout) :=
  match polls with
  | [] => None
  | (g, now) :: rest =>
      match try_acquire g request with
      | Some granted => Some (Ok granted)
      | None => if (deadline <=? now)%Z then Some (Err TOOL_QUEUE_TIMEOUT)
                else poll request deadline rest
      end
  end.

Definition acquire (request : GateRequest) (start timeout : Z) (polls : list (GateState * Z)) :
    option (result (GateState * GateLease) QueueTimeout) :=
  poll (normalize_request request) (start + timeout)%Z polls.

(** [Drop for GateLease]. *)
Definition release (g : GateState) (lease : GateLease) : GateState :=
  let held := foldl (λ held lock, held ∖ {[lock]}) (gs_held_locks g) (gl_locks lease) in
  {| gs_active_by_tool :=
       match gs_active_by_tool g !! gl_tool_id lease with
       | None => gs_active_by_tool g
       | Some n =>
           let n := (n - 1)%N in
           if (n =? 0)%N then delete (gl_tool_id lease) (gs_active_by_tool g)
           else <[gl_tool_id lease := n]> (gs_active_by_tool g)
       end;
     gs_held_locks := held |}.

(** ** Interleavings

    The gate with the leases that are alive, and the steps of all tasks, whose
    requests satisfy [P]; [max_parallel] is a 16-bit number. *)
Record World := {
  w_gate : GateState;
  w_leases : list GateLease
}.

Inductive gate_step (P : GateRequest → Prop) : World → World → Prop :=
| step_admitted w request g lease :
    P request → (gr_max_parallel request ≤ u16_max)%N →
    try_acquire (w_gate w) (normalize_request request) = Some (g, lease) →
    gate_step P w {| w_gate := g; w_leases := w_leases w ++ [lease] |}
| step_refused w request :
    try_acquire (w_gate w) (normalize_request request) = None →
    gate_step P w w
| step_dropped w l1 lease l2 :
    w_leases w = l1 ++ lease :: l2 →
    gate_step P w {| w_gate := release (w_gate w) lease; w_leases := l1 ++ l2 |}.

Definition world_default : World := {| w_gate := gate_default; w_leases := [] |}.

Definition reachable (P : GateRequest → Prop) (w : World) : Prop :=
  rtc (gate_step P) world_default w.

(** ** Lemmas *)

Definition leases_of (tool_id : string) (leases : list GateLease) : N :=
  len (filter (λ lease, gl_tool_id lease = tool_id) leases).

Lemma leases_of_app t l1 l2 : leases_of t (l1 ++ l2) = (leases_of t l1 + leases_of t l2)%N.
Proof. unfold leases_of, len. rewrite filter_app, length_app. lia. Qed.

Lemma leases_of_cons t lease l :
  leases_of t (lease :: l)
  = ((if bool_decide (gl_tool_id lease = t) then 1 else 0) + leases_of t l)%N.
Proof.
  unfold leases_of, len. rewrite filter_cons. case_bool_decide; case_decide; try done;
    cbn [length]; first [lia | tauto].
Qed.

Lemma leases_of_perm t l1 l2 : l1 ≡ₚ l2 → leases_of t l1 = leases_of t l2.
Proof. intros Hp. unfold leases_of, len. by rewrite Hp. Qed.

Lemma held_fold (locks : list OperationLockKey) (held : gset OperationLockKey) :
  foldl (λ held lock, held ∖ {[lock]}) held locks = held ∖ list_to_set locks.
Proof.
  revert held. induction locks as [|k locks IH]; intros held; simpl; [set_solver|].
  rewrite IH. set_solver.
Qed.

(** What relates the gate and the live leases. *)
Record world_ok (w : World) : Prop := {
  wo_count : ∀ t, active (w_gate w) t = leases_of t (w_leases w);
  wo_present : ∀ t n, gs_active_by_tool (w_gate w) !! t = Some n → n ≠ 0%N;
  wo_width : ∀ t, (leases_of t (w_leases w) ≤ u16_max)%N;
  wo_locks : ∀ k, k ∈ gs_held_locks (w_gate w) ↔ k ∈ concat (map gl_locks (w_leases w));
  wo_exclusive : NoDup (concat (map gl_locks (w_leases w)))
}.

Lemma world_default_ok : world_ok world_default.
Proof.
  split; simpl; [done|intros t n; by rewrite lookup_empty|done| |constructor].
  intros k. by rewrite elem_of_empty, elem_of_nil.
Qed.

Lemma active_insert m held tool n t :
  active {| gs_active_by_tool := <[tool := n]> m; gs_held_locks := held |} t
  = if bool_decide (t = tool) then n else default 0%N (m !! t).
Proof.
  unfold active. simpl. case_bool_decide as Ht; [subst|].
  - by rewrite lookup_insert_eq.
  - by rewrite lookup_insert_ne.
Qed.

Lemma try_acquire_inv g request g' lease :
  try_acquire g request = Some (g', lease) →
  (active g (gr_tool_id request) < N.max (gr_max_parallel request) 1)%N ∧
  (∀ k, k ∈ gr_locks request → k ∉ gs_held_locks g) ∧
  lease = {| gl_tool_id := gr_tool_id request; gl_locks := gr_locks request |} ∧
  gs_active_by_tool g' = <[gr_tool_id request := wrapping_add u16_max
    (active g (gr_tool_id request)) 1]> (gs_active_by_tool g) ∧
  gs_held_locks g' = gs_held_locks g ∪ list_to_set (gr_locks request).
Proof.
  unfold try_acquire. destruct (_ && _) eqn:E; [|done]. intros [= <- <-]. bool_to_prop.
  split_and!; [done| |done..]. intros k Hk.
  match goal with H : forallb _ _ = true |- _ => rewrite forallb_true in H; specialize (H k Hk) end.
  by bool_to_prop.
Qed.

Lemma admitted_ok w request g lease :
  world_ok w → (gr_max_parallel request ≤ u16_max)%N →
  try_acquire (w_gate w) (normalize_request request) = Some (g, lease) →
  world_ok {| w_gate := g; w_leases := w_leases w ++ [lease] |}.
Proof.
  intros [Hcount Hpres Hwidth Hlocks Hexcl] Hmax (Hlt & Hfree & -> & Hact & Hheld)%try_acquire_inv.
  cbn [gr_tool_id normalize_request gr_max_parallel gr_locks] in *.
  set (tool := gr_tool_id request) in *.
  assert (active (w_gate w) tool < u16_max)%N as Hlt'.
  { assert (1 ≤ u16_max)%N by done. unfold u16_max in *. lia. }
  assert (wrapping_add u16_max (active (w_gate w) tool) 1 = active (w_gate w) tool + 1)%N as Hwrap.
  { unfold wrapping_add. apply N.mod_small. lia. }
  rewrite Hwrap in Hact. split; simpl.
  - intros t. rewrite leases_of_app, leases_of_cons, <-Hcount. simpl. fold tool.
    unfold active at 1. rewrite Hact. unfold leases_of at 1. simpl.
    case_bool_decide as Ht; [subst t; rewrite lookup_insert_eq; simpl; unfold len; simpl; lia|].
    rewrite lookup_insert_ne by done. unfold active, len. simpl. lia.
  - intros t n. rewrite Hact. destruct (decide (t = tool)) as [->|Hne].
    + rewrite lookup_insert_eq. intros [= <-]. lia.
    + rewrite lookup_insert_ne by done. apply Hpres.
  - intros t. rewrite leases_of_app, leases_of_cons. unfold leases_of at 2. simpl. fold tool.
    specialize (Hwidth t). case_bool_decide as Ht; [subst t; rewrite <-Hcount|]; unfold len; simpl; lia.
  - intros k. rewrite Hheld, map_app, concat_app, elem_of_app, elem_of_union, elem_of_list_to_set,
      Hlocks. simpl. by rewrite app_nil_r.
  - rewrite map_app, concat_app. simpl. rewrite app_nil_r. apply NoDup_app. split; [done|].
    split; [|apply strict_NoDup, sort_dedup_strict]. intros k Hk Hk'. apply (Hfree k Hk'). by apply Hlocks.
Qed.

Lemma dropped_ok w l1 lease l2 :
  world_ok w → w_leases w = l1 ++ lease :: l2 →
  world_ok {| w_gate := release (w_gate w) lease; w_leases := l1 ++ l2 |}.
Proof.
  intros [Hcount Hpres Hwidth Hlocks Hexcl] Heq.
  assert (w_leases w ≡ₚ lease :: (l1 ++ l2)) as Hperm by by rewrite Heq, Permutation_middle.
  assert (∀ t, leases_of t (w_leases w)
    = (if bool_decide (gl_tool_id lease = t) then 1 else 0) + leases_of t (l1 ++ l2))%N as Hsplit.
  { intros t. by rewrite (leases_of_perm t _ _ Hperm), leases_of_cons. }
  assert (concat (map gl_locks (w_leases w)) ≡ₚ gl_locks lease ++ concat (map gl_locks (l1 ++ l2)))
    as Hcat.
  { rewrite Heq, !map_app, !concat_app. simpl. rewrite !(assoc_L (++)).
    f_equiv. apply Permutation_app_comm. }
  set (tool := gl_tool_id lease) in *.
  pose proof (Hcount tool) as Htool. rewrite (Hsplit tool), bool_decide_eq_true_2 in Htool by done.
  unfold active in Htool.
  destruct (gs_active_by_tool (w_gate w) !! tool) as [n|] eqn:E; simpl in Htool; [|lia].
  assert (gs_active_by_tool (release (w_gate w) lease)
    = if (n - 1 =? 0)%N then delete tool (gs_active_by_tool (w_gate w))
      else <[tool := (n - 1)%N]> (gs_active_by_tool (w_gate w))) as Hrel.
  { unfold release. fold tool. by rewrite E. }
  split; cbn [w_gate w_leases].
  - intros t. unfold active. rewrite Hrel. specialize (Hcount t). unfold active in Hcount.
    rewrite Hsplit in Hcount. fold tool in Hcount. case_bool_decide as Ht.
    + subst t. destruct (n - 1 =? 0)%N eqn:Ez; bool_to_prop.
      * rewrite lookup_delete_eq. simpl. lia.
      * rewrite lookup_insert_eq. simpl. lia.
    + destruct (n - 1 =? 0)%N; [rewrite lookup_delete_ne|rewrite lookup_insert_ne]; done.
  - intros t n'. rewrite Hrel. destruct (n - 1 =? 0)%N eqn:Ez; bool_to_prop.
    + intros [_ Ht]%lookup_delete_Some. by eapply Hpres.
    + destruct (decide (t = tool)) as [->|Hne].
      * rewrite lookup_insert_eq. by intros [= <-].
      * rewrite lookup_insert_ne by done. apply Hpres.
  - intros t. specialize (Hwidth t). rewrite Hsplit in Hwidth. lia.
  - intros k. unfold release. cbn [gs_held_locks]. rewrite held_fold, elem_of_difference, elem_of_list_to_set, Hlocks, Hcat, elem_of_app.
    rewrite Hcat in Hexcl. apply NoDup_app in Hexcl as (_ & Hd & _). specialize (Hd k). tauto.
  - rewrite Hcat in Hexcl. by apply NoDup_app in Hexcl as (_ & _ & ?).
Qed.

(** Rule induction over the interleavings, from the empty gate. *)
Lemma reachable_ind (P : GateRequest → Prop) (I : World → Prop) w :
  I world_default → (∀ w1 w2, world_ok w1 → I w1 → gate_step P w1 w2 → I w2) →
  reachable P w → world_ok w ∧ I w.
Proof.
  intros Hbase Hstep Hr. unfold reachable in Hr.
  assert (world_ok world_default ∧ I world_default) as Hok by (split; [apply world_default_ok|done]).
  revert Hok. generalize world_default Hr. clear Hbase Hr.
  intros w0 Hr. induction Hr as [|w1 w2 w3 Hs _ IH]; [done|]. intros [Hok HI]. apply IH.
  split; [|by eapply Hstep].
  destruct Hs; [by eapply admitted_ok|done|by eapply dropped_ok].
Qed.

Lemma reachable_ok P w : reachable P w → world_ok w.
Proof. intros Hr. by destruct (reachable_ind P (λ _, True) w I (λ _ _ _ _ _, I) Hr). Qed.

Lemma concat_disjoint {A} (ls : list (list A)) i j l1 l2 x :
  NoDup (concat ls) → ls !! i = Some l1 → ls !! j = Some l2 → x ∈ l1 → x ∈ l2 → i = j.
Proof.
  revert i j. induction ls as [|l ls IH]; intros [|i] [|j] Hnd; simpl; try done.
  - intros [= <-] Hj Hx Hx'. apply NoDup_app in Hnd as (_ & Hd & _). destruct (Hd x Hx).
    apply list_elem_of_In, in_concat. exists l2. split; apply list_elem_of_In; [|done].
    by eapply list_elem_of_lookup_2.
  - intros Hi [= <-] Hx Hx'. apply NoDup_app in Hnd as (_ & Hd & _). destruct (Hd x Hx').
    apply list_elem_of_In, in_concat. exists l1. split; apply list_elem_of_In; [|done].
    by eapply list_elem_of_lookup_2.
  - intros Hi Hj Hx Hx'. f_equal. apply NoDup_app in Hnd as (_ & _ & Hnd). by eapply IH.
Qed.

(** ** The properties *)

(** C32: mutual exclusion: under every interleaving of admissions and drops, no
    operation lock is held by two live leases, and the gate records exactly the
    locks of the live leases. *)
Theorem locks_are_exclusive P w i j a b k :
  reachable P w → w_leases w !! i = Some a → w_leases w !! j = Some b →
  k ∈ gl_locks a → k ∈ gl_locks b → i = j ∧ k ∈ gs_held_locks (w_gate w).
Proof.
  intros Hr%reachable_ok Ha Hb Hka Hkb. split.
  - apply (concat_disjoint (map gl_locks (w_leases w)) i j (gl_locks a) (gl_locks b) k);
      [apply (wo_exclusive w Hr)| | |done|done]; rewrite list_lookup_fmap; [by rewrite Ha|by rewrite Hb].
  - apply (wo_locks w Hr), list_elem_of_In, in_concat. exists (gl_locks a).
    split; apply list_elem_of_In; [|done]. apply list_elem_of_fmap. exists a.
    split; [done|by eapply list_elem_of_lookup_2].
Qed.

(** C38: bounded parallelism: if every request for a tool allows at most [m] at a
    time, then under every interleaving at most [max m 1] leases of the tool are
    alive, and the gate's counter is their exact number (it never wraps). *)
Theorem parallelism_is_bounded P w tool_id m :
  (∀ request, P request → gr_tool_id request = tool_id → (gr_max_parallel request ≤ m)%N) →
  reachable P w →
  (leases_of tool_id (w_leases w) ≤ N.max m 1)%N ∧
  active (w_gate w) tool_id = leases_of tool_id (w_leases w).
Proof.
  intros HP Hr.
  destruct (reachable_ind P (λ w, (leases_of tool_id (w_leases w) ≤ N.max m 1)%N) w) as [Hok Hb];
    [unfold leases_of, len; simpl; lia| |done|].
  - intros w1 w2 Hok Hle Hs. destruct Hs as [w1 request g lease Hp Hmax Htry| |w1 l1 lease l2 Heq].
    + apply try_acquire_inv in Htry as (Hlt & _ & -> & _). simpl in *.
      rewrite leases_of_app, leases_of_cons. simpl. unfold leases_of at 2, len. simpl.
      case_bool_decide as Ht; [|lia]. specialize (HP request Hp Ht).
      rewrite (wo_count w1 Hok), Ht in Hlt. lia.
    + done.
    + simpl. rewrite Heq in Hle. rewrite leases_of_app, leases_of_cons in Hle.
      rewrite leases_of_app. lia.
  - split; [done|by apply wo_count].
Qed.

(** Nothing leaks: once every lease has been dropped the gate is empty
    again, and then it admits any request, even one that allows no parallelism. *)
Theorem gate_drains P w request :
  reachable P w → w_leases w = [] →
  w_gate w = gate_default ∧
  ∃ g lease, try_acquire (w_gate w) (normalize_request request) = Some (g, lease).
Proof.
  intros Hr%reachable_ok Hnil.
  assert (w_gate w = gate_default) as Hg.
  { destruct Hr as [Hcount Hpres _ Hlocks _]. rewrite Hnil in *.
    destruct (w_gate w) as [m held]. unfold gate_default. f_equal; simpl in *.
    - apply map_empty. intros t. destruct (m !! t) as [n|] eqn:E; [|done].
      specialize (Hcount t). unfold active, leases_of, len in Hcount. simpl in Hcount.
      rewrite E in Hcount. simpl in Hcount. by apply Hpres in E.
    - apply set_eq. intros k. rewrite Hlocks. set_solver. }
  split; [done|]. rewrite Hg. unfold try_acquire.
  rewrite (proj2 (forallb_true _ _)).
  2: { intros k _. by rewrite bool_decide_eq_false_2. }
  rewrite andb_true_r, (proj2 (N.ltb_lt _ _)); [eauto|]. unfold active. simpl.
  rewrite lookup_empty. simpl. lia.
Qed.

(** Every poll before was refused before the deadline. *)
Definition refused request (deadline : Z) (before : list (GateState * Z)) : Prop :=
  ∀ g now, (g, now) ∈ before → try_acquire g request = None ∧ (now < deadline)%Z.

(** C39: the polling loop, completely: it is granted exactly at the first poll that
    can admit the request, it times out exactly at the first refused poll at or
    past the deadline, and it goes on exactly as long as every poll is refused
    before the deadline. *)
Theorem acquire_outcome request start timeout polls :
  let r := normalize_request request in
  let deadline := (start + timeout)%Z in
  (∀ granted, acquire request start timeout polls = Some (Ok granted) ↔
     ∃ before g now after, polls = before ++ (g, now) :: after ∧ refused r deadline before ∧
       try_acquire g r = Some granted) ∧
  (∀ e, acquire request start timeout polls = Some (Err e) ↔
     ∃ before g now after, polls = before ++ (g, now) :: after ∧ refused r deadline before ∧
       try_acquire g r = None ∧ (deadline <= now)%Z) ∧
  (acquire request start timeout polls = None ↔ refused r deadline polls).
Proof.
  intros r deadline. unfold acquire. fold r deadline.
  assert (∀ g now before, refused r deadline ((g, now) :: before) ↔
    (try_acquire g r = None ∧ (now < deadline)%Z) ∧ refused r deadline before) as Hcons.
  { unfold refused. intros g now before. set_solver. }
  assert (refused r deadline []) as Hnil by (intros g now Hin; by apply elem_of_nil in Hin).
  induction polls as [|[g now] polls (IHo & IHe & IHn)]; cbn [poll].
  { split_and!; [| |done]; intros x; (split; [done|]); by intros ([] & ? & ? & ? & ? & _). }
  assert (∀ P : list (GateState * Z) → GateState → Z → Prop,
    (∃ before g' now' after, (g, now) :: polls = before ++ (g', now') :: after ∧
       refused r deadline before ∧ P polls g' now') ↔
    P polls g now ∨ (try_acquire g r = None ∧ (now < deadline)%Z ∧
      ∃ before g' now' after, polls = before ++ (g', now') :: after ∧
       refused r deadline before ∧ P polls g' now')) as Hsplit.
  { intros P. split.
    - intros ([|[g0 n0] before] & g' & now' & after & [= ? ? Heq] & Hb & HP); simplify_eq; [by left|].
      right. apply Hcons in Hb as [[? ?] ?]. split_and!; [done..|]. by exists before, g', now', after.
    - intros [HP|(Ht & Hn & before & g' & now' & after & -> & Hb & HP)].
      + by exists [], g, now, polls.
      + exists ((g, now) :: before), g', now', after. split_and!; [done| |done]. by apply Hcons. }
  rewrite Hcons. destruct (try_acquire g r) as [granted|] eqn:E; [|destruct (_ <=? now)%Z eqn:Hd].
  - split_and!; [| |naive_solver]; intros x.
    + rewrite (Hsplit (λ _ g' _, try_acquire g' r = Some x)), E. naive_solver.
    + rewrite (Hsplit (λ _ g' now', try_acquire g' r = None ∧ (deadline <= now')%Z)), E. naive_solver.
  - apply Z.leb_le in Hd. split_and!; [intros x|intros []|].
    + rewrite (Hsplit (λ _ g' _, try_acquire g' r = Some x)), E. naive_solver lia.
    + rewrite (Hsplit (λ _ g' now', try_acquire g' r = None ∧ (deadline <= now')%Z)), E. naive_solver.
    + naive_solver lia.
  - apply Z.leb_gt in Hd. split_and!; [intros x|intros x|].
    + rewrite (Hsplit (λ _ g' _, try_acquire g' r = Some x)), E, IHo. naive_solver.
    + rewrite (Hsplit (λ _ g' now', try_acquire g' r = None ∧ (deadline <= now')%Z)), E, IHe. naive_solver lia.
    + rewrite IHn. naive_solver.
Qed.

(** ** Instances *)

Definition example_lock (name : string) : OperationLockKey :=
  {| lk_scope_kind := "custom"; lk_project_id := Some "project"; lk_tool_id := "tool";
     lk_lock_hash := name |}.

Definition example_gate_request : GateRequest :=
  {| gr_tool_id := "tool"; gr_max_parallel := 2; gr_locks := [example_lock "a"; example_lock "a"] |}.

Definition example_lease : GateLease :=
  {| gl_tool_id := "tool"; gl_locks := [example_lock "a"] |}.

Definition example_world : World :=
  {| w_gate := {| gs_active_by_tool := {["tool" := 1%N]};
                  gs_held_locks := ∅ ∪ list_to_set [example_lock "a"] |};
     w_leases := [example_lease] |}.

Lemma example_admitted :
  gate_step (λ r, r = example_gate_request) world_default example_world.
Proof.
  refine (step_admitted _ world_default example_gate_request (w_gate example_world) example_lease
    eq_refl _ _); [done|]. vm_compute. reflexivity.
Qed.

Lemma locks_are_exclusive_witness :
  example_lock "a" ∈ gs_held_locks (w_gate example_world).
Proof.
  refine (proj2 (locks_are_exclusive (λ r, r = example_gate_request) example_world 0 0
    example_lease example_lease (example_lock "a") _ eq_refl eq_refl _ _)).
  - apply rtc_once, example_admitted.
  - left.
  - left.
Defined.

Lemma parallelism_is_bounded_witness :
  (leases_of "tool" (w_leases example_world) ≤ 2)%N.
Proof.
  refine (proj1 (parallelism_is_bounded (λ r, r = example_gate_request) example_world "tool" 2 _ _)).
  - intros request -> _. vm_compute. discriminate.
  - apply rtc_once, example_admitted.
Defined.

Lemma gate_drains_witness :
  w_gate {| w_gate := release (w_gate example_world) example_lease; w_leases := [] |} = gate_default.
Proof.
  refine (proj1 (gate_drains (λ r, r = example_gate_request)
    {| w_gate := release (w_gate example_world) example_lease; w_leases := [] |}
    example_gate_request _ eq_refl)).
  eapply rtc_l; [apply example_admitted|]. apply rtc_once.
  exact (step_dropped _ example_world [] example_lease [] eq_refl).
Defined.

(** Refused while the lock is held, then granted. *)
Example acquisition_waits_for_the_lock :
  acquire example_gate_request 0 10 [(w_gate example_world, 1%Z)] = None ∧
  match acquire example_gate_request 0 10 [(w_gate example_world, 1%Z); (gate_default, 7%Z)] with
  | Some (Ok _) => True
  | _ => False
  end.
Proof. by vm_compute. Qed.
