(* ===== verification/Restart.v ===== *)
(** * Restart-required updates

    Models [crates/control/star-updater-core/src/restart.rs]: the transaction of
    an integration update that must stop and relaunch Codex. *)
From S2P Require Import Prelude Contracts.

(** Ten seconds, in nanoseconds. *)
Definition RESTART_COUNTDOWN : Z := 10 * 10 ^ 9.

Inductive RestartState :=
| RsPlanned | RsStaged | RsCandidateVerified | RsRestartArmed | RsCountdown | RsDraining
| RsCodexStopped | RsApplying | RsOfflineVerified | RsRelaunching | RsOnlinePostcheck
| RsCommitted | RsExited | RsAborted | RsRollbackRequired | RsRollingBack | RsRolledBack
| RsPartiallyApplied | RsRollbackFailed | RsRelaunchFailed | RsAppliedValidationPending.

#[global] Instance RestartState_eq_dec : EqDecision RestartState.
Proof. solve_decision. Defined.

Record RestartTransaction := {
  rt_operation_id : string;
  rt_state : RestartState;
  rt_affected_instance_count : N;
  rt_affected_task_count : option N;
  rt_countdown_deadline : option DateTime
}.

Definition rt_new (operation_id : string) : RestartTransaction :=
  {| rt_operation_id := operation_id; rt_state := RsPlanned; rt_affected_instance_count := 0;
     rt_affected_task_count := None; rt_countdown_deadline := None |}.

Definition rt_with_state (t : RestartTransaction) (state : RestartState) : RestartTransaction :=
  {| rt_operation_id := rt_operation_id t; rt_state := state;
     rt_affected_instance_count := rt_affected_instance_count t;
     rt_affected_task_count := rt_affected_task_count t;
     rt_countdown_deadline := rt_countdown_deadline t |}.

Definition allowed (from to : RestartState) : bool :=
  match from, to with
  | RsPlanned, RsStaged
  | RsStaged, RsCandidateVerified
  | RsCountdown, RsDraining
  | RsDraining, RsCodexStopped
  | RsCodexStopped, RsApplying
  | RsApplying, RsOfflineVerified
  | RsApplying, RsRollbackRequired
  | RsOfflineVerified, RsRelaunching
  | RsRelaunching, RsOnlinePostcheck
  | RsRelaunching, RsRelaunchFailed
  | RsOnlinePostcheck, RsCommitted
  | RsOnlinePostcheck, RsAppliedValidationPending
  | RsRollbackRequired, RsRollingBack
  | RsRollingBack, RsRolledBack
  | RsRollingBack, RsPartiallyApplied
  | RsRollingBack, RsRollbackFailed
  | RsCommitted, RsExited
  | RsAppliedValidationPending, RsExited
  | _, RsAborted => true
  | _, _ => false
  end.

Definition transition (t : RestartTransaction) (from to : RestartState) :
    RestartTransaction * bool :=
  if negb (bool_decide (rt_state t = from)) || negb (allowed from to)
  then (t, false) else (rt_with_state t to, true).

Definition stage (t : RestartTransaction) : RestartTransaction * bool :=
  transition t RsPlanned RsStaged.

Definition verify_candidate (t : RestartTransaction) (instances : N) (tasks : option N) :
    RestartTransaction * bool :=
  match transition t RsStaged RsCandidateVerified with
  | (t, false) => (t, false)
  | (t, true) =>
      ({| rt_operation_id := rt_operation_id t; rt_state := rt_state t;
          rt_affected_instance_count := instances; rt_affected_task_count := tasks;
          rt_countdown_deadline := rt_countdown_deadline t |}, true)
  end.

Definition arm (t : RestartTransaction) (now : DateTime) :
    RestartTransaction * option DateTime :=
  match rt_state t with
  | RsCandidateVerified =>
      let deadline := (now + RESTART_COUNTDOWN)%Z in
      ({| rt_operation_id := rt_operation_id t; rt_state := RsCountdown;
          rt_affected_instance_count := rt_affected_instance_count t;
          rt_affected_task_count := rt_affected_task_count t;
          rt_countdown_deadline := Some deadline |}, Some deadline)
  | RsCountdown => (t, rt_countdown_deadline t)
  | _ => (t, None)
  end.

Definition begin_draining (t : RestartTransaction) (now : DateTime) :
    RestartTransaction * bool :=
  if bool_decide (rt_state t = RsCountdown)
     && is_some_and (rt_countdown_deadline t) (λ deadline, (deadline <=? now)%Z)
  then transition t RsCountdown RsDraining else (t, false).

(** ** Histories *)

Inductive restart_call :=
| CallStage
| CallVerify (instances : N) (tasks : option N)
| CallArm
| CallBeginDraining
| CallTransition (from to : RestartState).

#[global] Instance restart_call_eq_dec : EqDecision restart_call.
Proof. solve_decision. Defined.

Definition rt_step (t : RestartTransaction) (now : DateTime) (c : restart_call) :
    RestartTransaction :=
  match c with
  | CallStage => (stage t).1
  | CallVerify i k => (verify_candidate t i k).1
  | CallArm => (arm t now).1
  | CallBeginDraining => (begin_draining t now).1
  | CallTransition from to => (transition t from to).1
  end.

Definition restart_history := list (DateTime * restart_call).

Definition rt_replay (id : string) (h : restart_history) : RestartTransaction :=
  foldl (λ t e, rt_step t e.1 e.2) (rt_new id) h.

(** ** Lemmas *)

(** The states after the countdown, all of which touch Codex or its files. *)
Definition past_countdown (s : RestartState) : bool :=
  match s with
  | RsDraining | RsCodexStopped | RsApplying | RsOfflineVerified | RsRelaunching
  | RsOnlinePostcheck | RsCommitted | RsExited | RsRollbackRequired | RsRollingBack | RsRolledBack
  | RsPartiallyApplied | RsRollbackFailed | RsRelaunchFailed | RsAppliedValidationPending => true
  | _ => false
  end.

Definition not_armed (s : RestartState) : bool :=
  match s with RsPlanned | RsStaged | RsCandidateVerified => true | _ => false end.

Lemma rt_replay_snoc id h e : rt_replay id (h ++ [e]) = rt_step (rt_replay id h) e.1 e.2.
Proof. unfold rt_replay. by rewrite foldl_app. Qed.

Lemma transition_spec t from to :
  ((transition t from to).1 = t) ∨
  ((transition t from to).1 = rt_with_state t to ∧ rt_state t = from ∧ allowed from to = true).
Proof.
  unfold transition. destruct (_ || _) eqn:E; [by left|]. bool_to_prop. by right.
Qed.

(** The candidate was verified, then armed at [a], with the deadline that is
    kept from then on. *)
Definition armed_at (id : string) (h : restart_history) (a : DateTime) : Prop :=
  ∃ h1 h2, h = h1 ++ (a, CallArm) :: h2 ∧ rt_state (rt_replay id h1) = RsCandidateVerified ∧
    rt_countdown_deadline (rt_replay id h) = Some (a + RESTART_COUNTDOWN)%Z.

(** Draining was begun by [begin_draining] at [d], or by a bare transition. *)
Definition drained_at (h : restart_history) (d : DateTime) : Prop := (d, CallBeginDraining) ∈ h.

Definition bypassed (h : restart_history) : Prop :=
  ∃ t, (t, CallTransition RsCountdown RsDraining) ∈ h.

Record restart_ok (id : string) (h : restart_history) : Prop := {
  ro_early : not_armed (rt_state (rt_replay id h)) = true →
    rt_countdown_deadline (rt_replay id h) = None;
  ro_armed : rt_state (rt_replay id h) = RsCountdown ∨ past_countdown (rt_state (rt_replay id h)) = true
    → ∃ a, armed_at id h a;
  ro_no_arming : rt_state (rt_replay id h) ≠ RsRestartArmed;
  ro_drained : past_countdown (rt_state (rt_replay id h)) = true → ¬ bypassed h →
    ∃ a d, armed_at id h a ∧ drained_at h d ∧ (a + RESTART_COUNTDOWN <= d)%Z
}.

Lemma armed_at_snoc id h e a :
  armed_at id h a →
  rt_countdown_deadline (rt_step (rt_replay id h) e.1 e.2) = rt_countdown_deadline (rt_replay id h) →
  armed_at id (h ++ [e]) a.
Proof.
  intros (h1 & h2 & -> & Hv & Hd) Hsame. exists h1, (h2 ++ [e]).
  split; [by rewrite <-(assoc_L (++))|]. split; [done|]. by rewrite rt_replay_snoc, Hsame.
Qed.

(** A step that keeps the deadline and moves forward keeps the invariant. *)
Lemma restart_ok_keep id h e :
  restart_ok id h →
  let t := rt_replay id h in let t' := rt_step t e.1 e.2 in
  rt_countdown_deadline t' = rt_countdown_deadline t →
  (not_armed (rt_state t') = true → not_armed (rt_state t) = true) →
  (rt_state t' = RsCountdown ∨ past_countdown (rt_state t') = true →
   rt_state t = RsCountdown ∨ past_countdown (rt_state t) = true) →
  rt_state t' ≠ RsRestartArmed →
  (past_countdown (rt_state t') = true → past_countdown (rt_state t) = true ∨
   e.2 = CallTransition RsCountdown RsDraining ∨
   (e.2 = CallBeginDraining ∧ ∃ d, rt_countdown_deadline t = Some d ∧ (d <= e.1)%Z)) →
  restart_ok id (h ++ [e]).
Proof.
  intros [He Ha Hn Hd] t t' Hdead Hearly Harmed Hno Hdrain.
  split; rewrite ?rt_replay_snoc; fold t t'.
  - intros Hs. rewrite Hdead. auto.
  - intros Hs. destruct (Ha (Harmed Hs)) as [a Harm]. exists a. by apply armed_at_snoc.
  - done.
  - intros Hs Hby. assert (¬ bypassed h) as Hby'.
    { intros [x Hx]. apply Hby. exists x. set_solver. }
    destruct (Hdrain Hs) as [Hp|[Hc|(Hc & d & Hd1 & Hd2)]].
    + destruct (Hd Hp Hby') as (a & d & Harm & Hdr & Hle). exists a, d.
      split; [by apply armed_at_snoc|]. split; [|done]. unfold drained_at in *. set_solver.
    + destruct Hby. exists e.1. destruct e as [n c]. simpl in *. subst c. set_solver.
    + destruct (Ha (Harmed (or_intror Hs))) as [a Harm]. pose proof Harm as (_ & _ & _ & _ & Hdl).
      exists a, e.1. split; [by apply armed_at_snoc|]. split.
      * destruct e as [n c]. simpl in *. subst c. unfold drained_at. set_solver.
      * fold t in Hdl. rewrite Hd1 in Hdl. by injection Hdl as <-.
Qed.

Lemma restart_ok_same id h e :
  restart_ok id h → rt_step (rt_replay id h) e.1 e.2 = rt_replay id h → restart_ok id (h ++ [e]).
Proof.
  intros Hok Heq. apply restart_ok_keep; [done|..]; rewrite Heq; auto. apply (ro_no_arming _ _ Hok).
Qed.

Lemma restart_ok_step id h e : restart_ok id h → restart_ok id (h ++ [e]).
Proof.
  intros Hok. pose proof Hok as [He Ha Hn _]. destruct e as [now c].
  set (t := rt_replay id h) in *.
  assert (∀ from to, rt_step t now c = (transition t from to).1 →
    (from = RsCountdown → to = RsDraining → c = CallTransition RsCountdown RsDraining ∨
      (c = CallBeginDraining ∧ ∃ d, rt_countdown_deadline t = Some d ∧ (d <= now)%Z)) →
    restart_ok id (h ++ [(now, c)])) as Htrans.
  { intros from to Hs Hc. apply (restart_ok_keep id h (now, c) Hok); cbn [fst snd]; fold t;
      rewrite Hs; destruct (transition_spec t from to) as [->|(-> & Hf & Hal)]; try done; auto;
      simpl; subst from; destruct (rt_state t), to; try discriminate Hal; try done; naive_solver. }
  destruct c as [|i k| | |from to]; simpl in *.
  - by apply (Htrans RsPlanned RsStaged).
  - apply (restart_ok_keep id h (now, CallVerify i k) Hok); cbn [fst snd]; fold t; simpl;
      unfold verify_candidate; destruct (transition_spec t RsStaged RsCandidateVerified)
        as [Heq|(Heq & Hf & _)];
      destruct (transition t _ _) as [t' []]; simpl in *; subst t'; simpl; rewrite ?Hf; try done; auto; by intros [?|?].
  - destruct (decide (rt_state t = RsCandidateVerified)) as [Hst|Hne].
    2: { apply restart_ok_same; [done|]. fold t. simpl. unfold arm. by destruct (rt_state t). }
    assert (rt_replay id (h ++ [(now, CallArm)]) = (arm t now).1) as Hr by by rewrite rt_replay_snoc.
    assert (armed_at id (h ++ [(now, CallArm)]) now) as Harm.
    { exists h, []. split; [done|]. split; [done|]. rewrite Hr. unfold arm. by rewrite Hst. }
    split; rewrite Hr; unfold arm; rewrite Hst; simpl; try done. intros _. by exists now.
  - destruct (bool_decide (rt_state t = RsCountdown)
      && is_some_and (rt_countdown_deadline t) (λ deadline, (deadline <=? now)%Z)) eqn:Hc.
    + apply (Htrans RsCountdown RsDraining).
      * simpl. unfold begin_draining. by rewrite Hc.
      * intros _ _. right. split; [done|]. bool_to_prop.
        destruct (rt_countdown_deadline t) as [d|]; simpl in *; [|done]. exists d.
        bool_to_prop. done.
    + apply restart_ok_same; [done|]. fold t. simpl. unfold begin_draining. by rewrite Hc.
  - apply (Htrans from to); [done|]. intros -> ->. by left.
Qed.

Lemma rt_replay_ok id h : restart_ok id h.
Proof.
  induction h as [|e h IH] using rev_ind; [|by apply restart_ok_step].
  split; try done. by intros [?|?].
Qed.

(** The order in which a transaction moves; [arm] alone keeps it. *)
Definition rank (s : RestartState) : N :=
  match s with
  | RsPlanned => 0 | RsStaged => 1 | RsCandidateVerified => 2 | RsRestartArmed => 3
  | RsCountdown => 4 | RsDraining => 5 | RsCodexStopped => 6 | RsApplying => 7
  | RsOfflineVerified | RsRollbackRequired => 8 | RsRelaunching | RsRollingBack => 9
  | RsOnlinePostcheck | RsRelaunchFailed | RsRolledBack | RsPartiallyApplied
  | RsRollbackFailed => 10
  | RsCommitted | RsAppliedValidationPending => 11 | RsExited => 12 | RsAborted => 13
  end.

Definition terminal (s : RestartState) : bool :=
  match s with
  | RsExited | RsAborted | RsRolledBack | RsPartiallyApplied | RsRollbackFailed
  | RsRelaunchFailed => true
  | _ => false
  end.

Lemma rt_step_cases t now c :
  let t' := rt_step t now c in
  rt_state t' = rt_state t ∨ rt_state t' = RsAborted ∨
  ((rank (rt_state t) < rank (rt_state t'))%N ∧ terminal (rt_state t) = false).
Proof.
  assert (∀ from to, let t' := (transition t from to).1 in
    rt_state t' = rt_state t ∨ rt_state t' = RsAborted ∨
    ((rank (rt_state t) < rank (rt_state t'))%N ∧ terminal (rt_state t) = false)) as Htr.
  { intros from to. cbn zeta. destruct (transition_spec t from to) as [->|(-> & <- & Ha)]; [by left|].
    simpl. right. destruct (rt_state t), to; try discriminate Ha; try (by left); by right. }
  destruct c; cbn zeta; simpl.
  - apply Htr.
  - specialize (Htr RsStaged RsCandidateVerified). cbn zeta in Htr.
    unfold verify_candidate. by destruct (transition t _ _) as [t' []].
  - unfold arm. destruct (rt_state t) eqn:E; simpl; rewrite ?E; try (by left). by right; right.
  - unfold begin_draining. destruct (_ && _); [apply Htr|by left].
  - apply Htr.
Qed.

(** ** The properties *)

(** The countdown protects the user: a transaction past its countdown (from
    draining on) had its candidate verified and was armed exactly once at some
    instant [a], with the deadline [a + 10s] that it still carries; and unless
    a caller moved it by a bare transition, draining was begun at or after that
    deadline. *)
Theorem countdown_is_respected id h :
  past_countdown (rt_state (rt_replay id h)) = true →
  (∃ a, armed_at id h a) ∧
  (¬ bypassed h → ∃ a d, armed_at id h a ∧ drained_at h d ∧ (a + RESTART_COUNTDOWN <= d)%Z).
Proof.
  intros Hp. pose proof (rt_replay_ok id h) as Hok. split.
  - apply (ro_armed _ _ Hok). by right.
  - by apply (ro_drained _ _ Hok).
Qed.

(** Arming is idempotent: once armed, a repeated [arm] during the countdown
    returns the first deadline and changes nothing, at whatever instant. *)
Theorem arm_is_idempotent id h now later t deadline :
  arm (rt_replay id h) now = (t, Some deadline) →
  arm t later = (t, Some deadline) ∧
  (rt_state (rt_replay id h) = RsCandidateVerified → deadline = (now + RESTART_COUNTDOWN)%Z).
Proof.
  unfold arm. destruct (rt_state (rt_replay id h)) eqn:E; try done.
  - intros [= <- <-]. simpl. done.
  - intros [= <- Hd]. rewrite E. split; [by rewrite Hd|done].
Qed.

(** A transaction only moves forward: every call leaves the state, aborts
    the transaction, or raises its rank, and a terminal state never changes
    except to [Aborted]. *)
Theorem restart_moves_forward id h h' :
  let s := rt_state (rt_replay id h) in let s' := rt_state (rt_replay id (h ++ h')) in
  (s' = s ∨ s' = RsAborted ∨ (rank s < rank s')%N) ∧
  (terminal s = true → s' = s ∨ s' = RsAborted).
Proof.
  cbn zeta. induction h' as [|e h' [IH1 IH2]] using rev_ind.
  { rewrite app_nil_r. auto. }
  rewrite (assoc_L (++)), rt_replay_snoc.
  destruct (rt_step_cases (rt_replay id (h ++ h')) e.1 e.2) as [->|[->|[Hlt Ht]]]; [done|auto|].
  split.
  - destruct IH1 as [Heq|[Heq|Hlt']].
    + rewrite Heq in Hlt. auto.
    + by rewrite Heq in Ht.
    + right; right. lia.
  - intros Hterm. destruct (IH2 Hterm) as [Heq|Heq]; [|by rewrite Heq in Ht].
    rewrite Heq in Ht. congruence.
Qed.

(** No state refuses an abort: a transaction that was committed, rolled back
    or has exited is still moved to [Aborted] by an abort transition. *)
Theorem abort_is_never_refused t :
  transition t (rt_state t) RsAborted = (rt_with_state t RsAborted, true).
Proof.
  unfold transition. rewrite bool_decide_eq_true_2 by done. by destruct (rt_state t).
Qed.

(** ** Instances *)

Definition example_update : restart_history :=
  [(0%Z, CallStage); (1%Z, CallVerify 2 (Some 4%N)); (5%Z, CallArm); (9%Z, CallArm);
   (10000000004%Z, CallBeginDraining); (10000000005%Z, CallBeginDraining);
   (10000000006%Z, CallTransition RsDraining RsCodexStopped)].

Lemma countdown_is_respected_witness :
  rt_state (rt_replay "op_1" example_update) = RsCodexStopped ∧
  ∃ a d, armed_at "op_1" example_update a ∧ drained_at example_update d ∧
    (a + RESTART_COUNTDOWN <= d)%Z.
Proof.
  split; [reflexivity|]. apply countdown_is_respected; [reflexivity|].
  intros [t Ht]. revert Ht. unfold example_update. set_solver.
Defined.

Lemma arm_is_idempotent_witness :
  ∃ t, arm (rt_replay "op_1" (take 2 example_update)) 5%Z = (t, Some 10000000005%Z) ∧
    arm t 9%Z = (t, Some 10000000005%Z).
Proof.
  destruct (arm (rt_replay "op_1" (take 2 example_update)) 5%Z) as [t d] eqn:Ha.
  assert (d = Some 10000000005%Z) as -> by (revert Ha; vm_compute; intros Ha; injection Ha as _ <-; reflexivity).
  exists t. split; [reflexivity|]. exact (proj1 (arm_is_idempotent _ _ _ 9%Z _ _ Ha)).
Defined.
