(* ===== verification/Effects.v ===== *)
(** * Programs with effects

    The updater of [crates/control/star-updater-core] acts on the machine: it
    reads the clock, takes snapshots of the processes, writes files, starts and
    stops programs.  Such code is a [prog]: a tree of calls, each continued by
    whatever the machine answers.  A run follows an [oracle], which may answer
    each call as it likes, with the calls before it in view; [wp] reasons about
    all the runs at once. *)
From S2P Require Import Prelude.

Section prog.
Context {C : Type} {Ans : C → Type}.

(** A call and its answer. *)
Definition event : Type := {c : C & Ans c}.

Inductive prog (A : Type) : Type :=
| Ret (a : A)
| Panic                              (* the code panics *)
| Unfinished                         (* a loop has used up its fuel *)
| Call (c : C) (k : Ans c → prog A).
Arguments Ret {A} a.
Arguments Panic {A}.
Arguments Unfinished {A}.
Arguments Call {A} c k.

Fixpoint prog_bind {A B : Type} (p : prog A) (f : A → prog B) : prog B :=
  match p with
  | Ret a => f a
  | Panic => Panic
  | Unfinished => Unfinished
  | Call c k => Call c (λ r, prog_bind (k r) f)
  end.

Definition call (c : C) : prog (Ans c) := Call c Ret.

(** The [?] operator. *)
Definition prog_try {A B E : Type} (p : prog (result A E)) (f : A → prog (result B E)) :
    prog (result B E) :=
  prog_bind p (λ r, match r with Ok a => f a | Err e => Ret (Err e) end).

(** [map_err] on the way. *)
Definition prog_map_err {A E F : Type} (f : E → F) (p : prog (result A E)) : prog (result A F) :=
  prog_bind p (λ r, Ret (map_err f r)).

(** A [for] loop whose body may return early. *)
Fixpoint prog_fold {S A E : Type} (f : S → A → prog (result S E)) (s : S) (l : list A) :
    prog (result S E) :=
  match l with
  | [] => Ret (Ok s)
  | x :: l' => prog_try (f s x) (λ s', prog_fold f s' l')
  end.

(** A [for] loop whose body does not return. *)
Fixpoint prog_each {S A : Type} (f : S → A → prog S) (s : S) (l : list A) : prog S :=
  match l with
  | [] => Ret s
  | x :: l' => prog_bind (f s x) (λ s', prog_each f s' l')
  end.

(** ** Runs *)

Inductive outcome (A : Type) : Type :=
| Returned (a : A)
| Panicked
| OutOfFuel.
Arguments Returned {A} a.
Arguments Panicked {A}.
Arguments OutOfFuel {A}.

(** The trace is kept newest first. *)
Definition oracle : Type := list event → ∀ c, Ans c.

Fixpoint exec {A : Type} (w : oracle) (p : prog A) (tr : list event) : outcome A * list event :=
  match p with
  | Ret a => (Returned a, tr)
  | Panic => (Panicked, tr)
  | Unfinished => (OutOfFuel, tr)
  | Call c k => exec w (k (w tr c)) (existT c (w tr c) :: tr)
  end.

(** ** Reasoning

    [law tr c r]: after the calls of [tr], [r] is an answer the machine may
    give to [c]. *)

Definition law : Type := list event → ∀ c, Ans c → Prop.

Definition obeys (w : oracle) (L : law) : Prop := ∀ tr c, L tr c (w tr c).

Definition any_answer : law := λ _ _ _, True.

Fixpoint wp {A : Type} (L : law) (p : prog A) (tr : list event)
    (Q : outcome A → list event → Prop) : Prop :=
  match p with
  | Ret a => Q (Returned a) tr
  | Panic => Q Panicked tr
  | Unfinished => Q OutOfFuel tr
  | Call c k => ∀ r, L tr c r → wp L (k r) (existT c r :: tr) Q
  end.

Lemma wp_exec {A} (L : law) (p : prog A) tr Q w :
  obeys w L → wp L p tr Q → Q (exec w p tr).1 (exec w p tr).2.
Proof.
  intros Hw. revert tr. induction p as [a| | |c k IH]; intros tr H; simpl in *; [done..|].
  apply IH, H, Hw.
Qed.

Lemma obeys_any w : obeys w any_answer.
Proof. done. Qed.

Lemma wp_mono {A} (L : law) (p : prog A) tr (Q R : outcome A → list event → Prop) :
  wp L p tr Q → (∀ o tr', Q o tr' → R o tr') → wp L p tr R.
Proof.
  intros H HQR. revert tr H.
  induction p as [a| | |c k IH]; intros tr H; simpl in *; [auto..|]. auto.
Qed.

Lemma wp_and {A} (L : law) (p : prog A) tr Q R :
  wp L p tr Q → wp L p tr R → wp L p tr (λ o tr', Q o tr' ∧ R o tr').
Proof. revert tr. induction p; intros tr HQ HR; simpl in *; auto. Qed.

(** A weaker law admits more runs. *)
Lemma wp_law {A} (L L' : law) (p : prog A) tr Q :
  wp L' p tr Q → (∀ tr c r, L tr c r → L' tr c r) → wp L p tr Q.
Proof. intros Hp HL. revert tr Hp. induction p; intros tr Hp; simpl in *; auto. Qed.

Lemma wp_bind {A B} (L : law) (p : prog A) (f : A → prog B) tr Q :
  wp L (prog_bind p f) tr Q ↔
  wp L p tr (λ o tr', match o with
                      | Returned a => wp L (f a) tr' Q
                      | Panicked => Q Panicked tr'
                      | OutOfFuel => Q OutOfFuel tr'
                      end).
Proof. revert tr. induction p as [a| | |c k IH]; intros tr; simpl; [done..|]. naive_solver. Qed.

Lemma wp_bind_1 {A B} (L : law) (p : prog A) (f : A → prog B) tr Q :
  wp L p tr (λ o tr', match o with
                      | Returned a => wp L (f a) tr' Q
                      | Panicked => Q Panicked tr'
                      | OutOfFuel => Q OutOfFuel tr'
                      end) →
  wp L (prog_bind p f) tr Q.
Proof. apply wp_bind. Qed.

Lemma wp_try {A B E} (L : law) (p : prog (result A E)) (f : A → prog (result B E)) tr Q :
  wp L p tr (λ o tr', match o with
                      | Returned (Ok a) => wp L (f a) tr' Q
                      | Returned (Err e) => Q (Returned (Err e)) tr'
                      | Panicked => Q Panicked tr'
                      | OutOfFuel => Q OutOfFuel tr'
                      end) →
  wp L (prog_try p f) tr Q.
Proof.
  intros H. apply wp_bind. eapply wp_mono; [exact H|]. by intros [[]| |] tr' H'.
Qed.

Lemma wp_map_err {A E F} (L : law) (g : E → F) (p : prog (result A E)) tr Q :
  wp L p tr (λ o tr', match o with
                      | Returned r => Q (Returned (map_err g r)) tr'
                      | Panicked => Q Panicked tr'
                      | OutOfFuel => Q OutOfFuel tr'
                      end) →
  wp L (prog_map_err g p) tr Q.
Proof. intros H. apply wp_bind. eapply wp_mono; [exact H|]. by intros [|  |] tr' H'. Qed.

(** The loop keeps an invariant of the calls made so far and of what was
    gathered. *)
Lemma wp_fold {S A E} (L : law) (f : S → A → prog (result S E)) (I : S → list event → Prop)
    (X : outcome (result S E) → list event → Prop) s l tr :
  I s tr →
  (∀ s x tr, x ∈ l → I s tr → wp L (f s x) tr (λ o tr', match o with
                                            | Returned (Ok s') => I s' tr'
                                            | o => X o tr'
                                            end)) →
  (∀ s tr, I s tr → X (Returned (Ok s)) tr) →
  wp L (prog_fold f s l) tr X.
Proof.
  intros Hi Hstep Hend. revert s tr Hi Hstep.
  induction l as [|x l IH]; intros s tr Hi Hstep; simpl; [by apply Hend|].
  apply wp_try. eapply wp_mono; [apply Hstep; [left|done]|].
  intros [[s'|e]| |] tr' H; [|done..]. apply IH; [done|].
  intros s2 y tr2 Hy. apply Hstep. by right.
Qed.

(** ** Footprints

    The calls a program can make at all. *)
Fixpoint calls_only {A : Type} (K : C → Prop) (p : prog A) : Prop :=
  match p with
  | Ret _ | Panic | Unfinished => True
  | Call c k => K c ∧ ∀ r, calls_only K (k r)
  end.

Lemma calls_only_mono {A} (K K' : C → Prop) (p : prog A) :
  calls_only K p → (∀ c, K c → K' c) → calls_only K' p.
Proof.
  intros Hp HK. induction p as [a| | |c k IH]; simpl in *; [done..|]. destruct Hp as [Hc Hk].
  split; [by apply HK|]. intros r. by apply IH.
Qed.

Lemma calls_only_bind {A B} (K : C → Prop) (p : prog A) (f : A → prog B) :
  calls_only K p → (∀ a, calls_only K (f a)) → calls_only K (prog_bind p f).
Proof.
  intros Hp Hf. induction p as [a| | |c k IH]; simpl in *; [apply Hf|done..|].
  destruct Hp as [Hc Hk]. split; [done|]. intros r. by apply IH.
Qed.

Lemma calls_only_try {A B E} (K : C → Prop) (p : prog (result A E)) (f : A → prog (result B E)) :
  calls_only K p → (∀ a, calls_only K (f a)) → calls_only K (prog_try p f).
Proof. intros Hp Hf. apply calls_only_bind; [done|]. by intros []. Qed.

Lemma calls_only_map_err {A E F} (K : C → Prop) (g : E → F) (p : prog (result A E)) :
  calls_only K p → calls_only K (prog_map_err g p).
Proof. intros Hp. by apply calls_only_bind. Qed.

Lemma calls_only_fold {S A E} (K : C → Prop) (f : S → A → prog (result S E)) s l :
  (∀ s x, calls_only K (f s x)) → calls_only K (prog_fold f s l).
Proof.
  intros Hf. revert s. induction l as [|x l IH]; intros s; simpl; [done|]. by apply calls_only_try.
Qed.

Lemma calls_only_each {S A} (K : C → Prop) (f : S → A → prog S) s l :
  (∀ s x, calls_only K (f s x)) → calls_only K (prog_each f s l).
Proof.
  intros Hf. revert s. induction l as [|x l IH]; intros s; simpl; [done|]. by apply calls_only_bind.
Qed.

(** The calls of a program extend the trace, and stay in its footprint. *)
Lemma calls_only_wp {A} (K : C → Prop) (L : law) (p : prog A) tr :
  calls_only K p →
  wp L p tr (λ o tr', ∃ ext, tr' = ext ++ tr ∧ Forall (λ e, K (projT1 e)) ext).
Proof.
  revert tr. induction p as [a| | |c k IH]; intros tr Hp; simpl in *; try by exists [].
  destruct Hp as [Hc Hk]. intros r _. eapply wp_mono; [by apply IH|].
  intros o tr' (ext & -> & Hext). exists (ext ++ [existT c r]).
  rewrite <-app_assoc. split; [done|]. apply Forall_app. split; [done|]. by constructor.
Qed.

(** [P e h] holds of every event [e] of a trace and of the calls [h] before it. *)
Fixpoint justified (P : event → list event → Prop) (tr : list event) : Prop :=
  match tr with
  | [] => True
  | e :: h => P e h ∧ justified P h
  end.

Lemma justified_at P later e h : justified P (later ++ e :: h) → P e h.
Proof. induction later as [|x later IH]; simpl; [by intros [? _]|intros [_ Hj]; by apply IH]. Qed.

Lemma justified_app (K : C → Prop) P ext tr :
  Forall (λ e, K (projT1 e)) ext → (∀ e h, K (projT1 e) → P e h) →
  justified P tr → justified P (ext ++ tr).
Proof.
  intros Hext HP Hj. induction Hext as [|e ext He _ IH]; simpl; [done|]. split; [by apply HP|done].
Qed.

(** The errors a program can return. *)
Fixpoint fails_with {A E : Type} (F : E → Prop) (p : prog (result A E)) : Prop :=
  match p with
  | Ret (Err e) => F e
  | Ret (Ok _) | Panic | Unfinished => True
  | Call c k => ∀ r, fails_with F (k r)
  end.

Lemma fails_with_bind {A B E} (F : E → Prop) (p : prog A) (f : A → prog (result B E)) :
  (∀ a, fails_with F (f a)) → fails_with F (prog_bind p f).
Proof. intros Hf. induction p as [a| | |c k IH]; simpl; [apply Hf|done..|]. intros r. apply IH. Qed.

Lemma fails_with_try {A B E} (F : E → Prop) (p : prog (result A E)) (f : A → prog (result B E)) :
  fails_with F p → (∀ a, fails_with F (f a)) → fails_with F (prog_try p f).
Proof.
  intros Hp Hf. unfold prog_try. induction p as [[a|e]| | |c k IH]; simpl in *; [apply Hf|done..|].
  intros r. by apply IH.
Qed.

Lemma fails_with_map_err {A E E'} (F : E' → Prop) (g : E → E') (p : prog (result A E)) :
  (∀ e, F (g e)) → fails_with F (prog_map_err g p).
Proof. intros Hg. apply fails_with_bind. intros [a|e]; simpl; [done|apply Hg]. Qed.

Lemma fails_with_fold {S A E} (F : E → Prop) (f : S → A → prog (result S E)) s l :
  (∀ s x, fails_with F (f s x)) → fails_with F (prog_fold f s l).
Proof.
  intros Hf. revert s. induction l as [|x l IH]; intros s; simpl; [done|]. by apply fails_with_try.
Qed.

Lemma fails_with_wp {A E} (F : E → Prop) (L : law) (p : prog (result A E)) tr :
  fails_with F p →
  wp L p tr (λ o _, match o with Returned (Err e) => F e | _ => True end).
Proof.
  revert tr. induction p as [[a|e]| | |c k IH]; intros tr Hp; simpl in *; [done..|].
  intros r _. by apply IH.
Qed.

(** What a trace function forgets about a footprint is kept. *)
Lemma calls_only_keeps {A X} (K : C → Prop) (L : law) (p : prog A) (upd : event → X → X) x0 tr :
  calls_only K p → (∀ e x, K (projT1 e) → upd e x = x) →
  wp L p tr (λ o tr', foldr upd x0 tr' = foldr upd x0 tr).
Proof.
  intros Hp Hupd. eapply wp_mono; [by apply calls_only_wp|].
  intros o tr' (ext & -> & Hext). induction Hext as [|e ext He _ IH]; [done|].
  simpl. by rewrite Hupd.
Qed.

Lemma wp_each {S A} (L : law) (f : S → A → prog S) (I : S → list event → Prop)
    (X : outcome S → list event → Prop) s l tr :
  I s tr →
  (∀ s x tr, x ∈ l → I s tr → wp L (f s x) tr (λ o tr', match o with
                                            | Returned s' => I s' tr'
                                            | o => X o tr'
                                            end)) →
  (∀ s tr, I s tr → X (Returned s) tr) →
  wp L (prog_each f s l) tr X.
Proof.
  intros Hi Hstep Hend. revert s tr Hi Hstep.
  induction l as [|x l IH]; intros s tr Hi Hstep; simpl; [by apply Hend|].
  apply wp_bind. eapply wp_mono; [apply Hstep; [left|done]|].
  intros [s'| |] tr' H; [|done..]. apply IH; [done|].
  intros s2 y tr2 Hy. apply Hstep. by right.
Qed.
End prog.
Arguments Ret {C Ans A} a.
Arguments Panic {C Ans A}.
Arguments Unfinished {C Ans A}.
Arguments Call {C Ans A} c k.
Arguments Returned {A} a.
Arguments Panicked {A}.
Arguments OutOfFuel {A}.

Declare Scope prog_scope.
Delimit Scope prog_scope with prog.
Notation "'do!' x ':=' p 'in' q" := (prog_bind p (λ x, q))
  (at level 10, x pattern, p at level 200, q at level 200) : prog_scope.
Notation "'do?' x ':=' p 'in' q" := (prog_try p (λ x, q))
  (at level 10, x pattern, p at level 200, q at level 200) : prog_scope.
