(* ===== verification/ProcessCensus.v ===== *)
(** * The process census

    Models the decisions of
    [crates/control/star-updater-core/src/process_census.rs]: which processes of
    one snapshot belong to an executable, in which order they are terminated,
    and whether a process seen earlier is still the same.  The calls to Windows
    are in [Updater.v].

    The two growing loops and the two walks to the ancestors end because every
    turn takes a process that was not taken before; they run with one turn more
    than there are processes, and the lemmas show that this suffices. *)
From S2P Require Import Prelude.

(** The parts of [std::path] the updater uses, which read paths by the rules of
    Windows. *)
Class WindowsPaths := {
  path_is_absolute : string → bool;
  path_file_name : string → option string;
  path_extension : string → option string;
  path_parent : string → option string;
  path_join : string → string → string;
  path_ancestors : string → list string;
  path_compare : string → string → comparison   (* the components, as [Ord] of [Path] *)
}.

Record ProcessIdentity := {
  pi_pid : N;
  pi_parent_pid : N;
  pi_creation_time_100ns : option N;
  pi_image : option string
}.

#[global] Instance ProcessIdentity_eq_dec : EqDecision ProcessIdentity.
Proof. solve_decision. Defined.

Inductive ProcessIdentityState := ProcessLive | ProcessExited | ProcessUnknown.

#[global] Instance ProcessIdentityState_eq_dec : EqDecision ProcessIdentityState.
Proof. solve_decision. Defined.

Inductive CensusError := CensusSnapshot | CensusTerminate.

(** [eq_ignore_ascii_case]. *)
Definition eq_ignore_ascii_case (a b : string) : bool :=
  String.eqb (to_ascii_lowercase a) (to_ascii_lowercase b).

Definition backslash : ascii := ascii_of_N 92.

Fixpoint replace_slashes (s : string) : string :=
  match s with
  | EmptyString => EmptyString
  | String c s' => String (if Ascii.eqb c "/"%char then backslash else c) (replace_slashes s')
  end.

(** The prefix of a verbatim path: backslash, backslash, question mark,
    backslash. *)
Definition verbatim_prefix : string :=
  String backslash (String backslash (String "?"%char (String backslash EmptyString))).

Definition normalize_windows_path (path : string) : string :=
  let rendered := replace_slashes path in
  to_ascii_lowercase (default rendered (strip_prefix verbatim_prefix rendered)).

Definition paths_equal (a b : string) : bool :=
  String.eqb (normalize_windows_path a) (normalize_windows_path b).

(** Collecting the snapshot in a [BTreeMap] keeps the last entry of a PID. *)
Definition by_pid (snapshot : list ProcessIdentity) : gmap N ProcessIdentity :=
  foldl (λ m p, <[pi_pid p := p]> m) ∅ snapshot.

(** One pass of the [while changed] loop. *)
Definition grow_step (s : gset N * bool) (p : ProcessIdentity) : gset N * bool :=
  if bool_decide (pi_parent_pid p ∈ s.1) && negb (bool_decide (pi_pid p ∈ s.1))
  then ({[pi_pid p]} ∪ s.1, true) else s.

Definition grow_pass (snapshot : list ProcessIdentity) (selected : gset N) : gset N * bool :=
  foldl grow_step (selected, false) snapshot.

Fixpoint grow (fuel : nat) (snapshot : list ProcessIdentity) (selected : gset N) : gset N :=
  match fuel with
  | O => selected
  | S fuel' =>
      let '(selected', changed) := grow_pass snapshot selected in
      if changed then grow fuel' snapshot selected' else selected'
  end.

(** The iteration order of a [BTreeSet] of PIDs. *)
Definition pids (s : gset N) : list N := sort_by cmp_leb (elements s).

Definition owned_process_descendants (snapshot : list ProcessIdentity) (root_pid : N) : gset N :=
  if negb (existsb (λ p, (pi_pid p =? root_pid)%N) snapshot) then ∅
  else grow (S (length snapshot)) snapshot {[root_pid]}.

Fixpoint depth_loop (fuel : nat) (m : gmap N ProcessIdentity) (current : N) (visited : gset N)
    (depth : N) : N :=
  match fuel with
  | O => depth
  | S fuel' =>
      if bool_decide (current ∈ visited) then depth
      else match m !! current with
           | None => depth
           | Some p =>
               if (pi_parent_pid p =? 0)%N || (pi_parent_pid p =? current)%N then depth
               else depth_loop fuel' m (pi_parent_pid p) ({[current]} ∪ visited) (depth + 1)
           end
  end.

Definition ancestry_depth (snapshot : list ProcessIdentity) (pid : N) : N :=
  depth_loop (S (S (length snapshot))) (by_pid snapshot) pid ∅ 0.

Definition same_process_instance (actual expected : ProcessIdentity) : bool :=
  (pi_pid actual =? pi_pid expected)%N
  && (pi_parent_pid actual =? pi_parent_pid expected)%N
  && match pi_creation_time_100ns actual, pi_creation_time_100ns expected with
     | Some l, Some r => (l =? r)%N
     | _, _ => false
     end
  && match pi_image expected with
     | Some expected => is_some_and (pi_image actual) (λ actual, paths_equal actual expected)
     | None => true
     end.

(** The processes that run an executable. *)
Definition runs_image (target_image : string) (p : ProcessIdentity) : bool :=
  is_some_and (pi_image p) (λ image, paths_equal image target_image).

Section paths.
Context `{WindowsPaths}.

Definition path_eq (a b : string) : bool :=
  match path_compare a b with Eq => true | _ => false end.

(** [BTreeSet<PathBuf>::insert]. *)
Definition path_insert (path : string) (set : list string) : list string :=
  if existsb (path_eq path) set then set
  else insert_by (λ a b, match path_compare a b with Gt => false | _ => true end) path set.

Definition owned_process_tree (snapshot : list ProcessIdentity) (target_image : string) :
    list ProcessIdentity :=
  if negb (path_is_absolute target_image) then []
  else
    let roots : gset N :=
      list_to_set (map pi_pid (filter (λ p, runs_image target_image p = true) snapshot)) in
    let selected := grow (S (length snapshot)) snapshot roots in
    omap (λ pid, by_pid snapshot !! pid) (pids selected).

Definition exact_image_instances (snapshot : list ProcessIdentity) (target_image : string) :
    list ProcessIdentity :=
  if negb (path_is_absolute target_image) then []
  else filter (λ p, runs_image target_image p = true) snapshot.

Definition is_codex_desktop_image (path : string) : bool :=
  is_some_and (path_file_name path) (λ name, eq_ignore_ascii_case name "ChatGPT.exe").

Fixpoint ancestor_loop (fuel : nat) (m : gmap N ProcessIdentity) (current_pid : N)
    (visited : gset N) : option N :=
  match fuel with
  | O => None
  | S fuel' =>
      if bool_decide (current_pid ∈ visited) then None
      else match m !! current_pid with
           | None => None
           | Some p =>
               if is_some_and (pi_image p) is_codex_desktop_image then Some (pi_pid p)
               else if (pi_parent_pid p =? 0)%N || (pi_parent_pid p =? pi_pid p)%N then None
               else ancestor_loop fuel' m (pi_parent_pid p) ({[current_pid]} ∪ visited)
           end
  end.

Definition codex_desktop_ancestor_pid (snapshot : list ProcessIdentity) (child_pid : N) :
    option N :=
  ancestor_loop (S (S (length snapshot))) (by_pid snapshot) child_pid ∅.
End paths.

Definition process_identity_state (snapshot : list ProcessIdentity) (expected : ProcessIdentity) :
    ProcessIdentityState :=
  match List.find (λ actual, (pi_pid actual =? pi_pid expected)%N) snapshot with
  | None => ProcessExited
  | Some actual =>
      if negb (pi_parent_pid actual =? pi_parent_pid expected)%N then ProcessExited
      else match pi_image actual, pi_image expected with
           | Some l, Some r =>
               if negb (paths_equal l r) then ProcessExited
               else match pi_creation_time_100ns actual, pi_creation_time_100ns expected with
                    | Some l, Some r =>
                        if (l =? r)%N then ProcessLive else ProcessExited
                    | _, _ => ProcessUnknown
                    end
           | _, _ => ProcessUnknown
           end
  end.

(** The order in which the processes of a tree are terminated: the deepest
    first, and of equally deep ones the greatest PID. *)
Definition termination_key (initial : list ProcessIdentity) (p : ProcessIdentity) : N * N :=
  (ancestry_depth initial (pi_pid p), pi_pid p).

Definition termination_order (initial : list ProcessIdentity) :
    list ProcessIdentity → list ProcessIdentity :=
  sort_by (λ a b, cmp_leb (termination_key initial b) (termination_key initial a)).
