(* ===== verification/CensusFacts.v ===== *)
(** * What the process census proves

    The tree of an executable is exactly the set of processes that descend from
    a process running it, in one snapshot; a process stays the same only while
    its PID, its parent, its image and its creation time agree; and children are
    terminated before their parents. *)
From S2P Require Import Prelude ProcessCensus.

(** ** Descendants *)

(** [pid] is one of [R], or its parent in the snapshot descends from [R]. *)
Inductive descends (snapshot : list ProcessIdentity) (R : N → Prop) : N → Prop :=
| descends_root pid : R pid → descends snapshot R pid
| descends_child p :
    p ∈ snapshot → descends snapshot R (pi_parent_pid p) → descends snapshot R (pi_pid p).

Section grow.
Context (snapshot : list ProcessIdentity).

Definition closed_in (l : list ProcessIdentity) (s : gset N) : Prop :=
  ∀ p, p ∈ l → pi_parent_pid p ∈ s → pi_pid p ∈ s.

Lemma grow_step_mono s p : s.1 ⊆ (grow_step s p).1.
Proof. unfold grow_step. destruct (_ && _); set_solver. Qed.

Lemma grow_pass_acc l s :
  s.1 ⊆ (foldl grow_step s l).1 ∧
  (s.2 = true → (foldl grow_step s l).2 = true) ∧
  ((foldl grow_step s l).2 = false → foldl grow_step s l = s ∧ closed_in l s.1) ∧
  (∀ x, x ∈ (foldl grow_step s l).1 → x ∈ s.1 ∨ x ∈ map pi_pid l) ∧
  ((foldl grow_step s l).2 = true →
   s.2 = true ∨ (∃ x, x ∈ map pi_pid l ∧ (x ∉ s.1) ∧ x ∈ (foldl grow_step s l).1)).
Proof.
  revert s. induction l as [|p l IH]; intros s; simpl.
  { split_and!; try done; [|set_solver|by left]. intros _. split; [done|]. intros p Hp. set_solver. }
  destruct (IH (grow_step s p)) as (H1 & H2 & H3 & H4 & H5).
  pose proof (grow_step_mono s p) as Hm. unfold grow_step in *.
  destruct (bool_decide (pi_parent_pid p ∈ s.1) && negb (bool_decide (pi_pid p ∈ s.1))) eqn:E.
  - apply andb_true_iff in E as [Ep En]. apply bool_decide_eq_true in Ep.
    apply negb_true_iff, bool_decide_eq_false in En. simpl in *. split_and!.
    + set_solver.
    + intros _. by apply H2.
    + intros Hf. by rewrite H2 in Hf.
    + intros x Hx. destruct (H4 x Hx); set_solver.
    + intros _. right. exists (pi_pid p). set_solver.
  - split_and!; [done|done| | |].
    + intros Hf. destruct (H3 Hf) as [-> Hc]. split; [done|]. intros q Hq Hpar.
      apply elem_of_cons in Hq as [->|Hq]; [|by apply Hc].
      apply andb_false_iff in E as [E|E].
      * by apply bool_decide_eq_false in E.
      * apply negb_false_iff, bool_decide_eq_true in E. done.
    + intros x Hx. destruct (H4 x Hx); set_solver.
    + intros Ht. destruct (H5 Ht) as [?|(x & ? & ? & ?)]; [by left|right; exists x; set_solver].
Qed.

Lemma grow_step_descends R s p :
  p ∈ snapshot → (∀ x, x ∈ s.1 → descends snapshot R x) →
  ∀ x, x ∈ (grow_step s p).1 → descends snapshot R x.
Proof.
  intros Hp Hs x. unfold grow_step. destruct (_ && _) eqn:E; [|apply Hs]. simpl.
  apply andb_true_iff in E as [E _]. apply bool_decide_eq_true in E.
  intros [->%elem_of_singleton|Hx]%elem_of_union; [|by apply Hs].
  apply descends_child; [done|]. by apply Hs.
Qed.

Lemma grow_pass_descends R l s :
  (∀ p, p ∈ l → p ∈ snapshot) → (∀ x, x ∈ s.1 → descends snapshot R x) →
  ∀ x, x ∈ (foldl grow_step s l).1 → descends snapshot R x.
Proof.
  revert s. induction l as [|p l IH]; intros s Hl Hs; simpl; [done|].
  apply IH; [set_solver|]. apply grow_step_descends; [set_solver|done].
Qed.

Lemma grow_sound R fuel s :
  (∀ x, x ∈ s → descends snapshot R x) → ∀ x, x ∈ grow fuel snapshot s → descends snapshot R x.
Proof.
  revert s. induction fuel as [|fuel IH]; intros s Hs; simpl; [done|].
  pose proof (grow_pass_descends R snapshot (s, false) (λ p Hp, Hp) Hs) as Hp. unfold grow_pass.
  destruct (foldl grow_step (s, false) snapshot) as [s' []]; simpl in *; [by apply IH|done].
Qed.

(** The processes not selected yet. *)
Definition missing (s : gset N) : nat := size (list_to_set (C := gset N) (map pi_pid snapshot) ∖ s).

Lemma grow_closed fuel s : missing s < fuel →
  s ⊆ grow fuel snapshot s ∧ closed_in snapshot (grow fuel snapshot s).
Proof.
  revert s. induction fuel as [|fuel IH]; intros s Hf; [lia|]. simpl. unfold grow_pass.
  destruct (grow_pass_acc snapshot (s, false)) as (H1 & _ & H3 & _ & H5).
  destruct (foldl grow_step (s, false) snapshot) as [s' []]; simpl in *.
  - destruct H5 as [?|(x & Hx & Hn & Hi)]; [done|done|].
    assert (missing s' < missing s) as Hlt.
    { unfold missing. apply subset_size. split.
      - apply difference_mono_l. exact H1.
      - intros Hsub. apply (elem_of_list_to_set (C := gset N)) in Hx.
        assert (x ∈ (list_to_set (map pi_pid snapshot) ∖ s' : gset N)) as Hd
          by (apply Hsub, elem_of_difference; done).
        by apply elem_of_difference in Hd as [_ Hd]. }
    destruct (IH s') as [IH1 IH2]; [lia|]. split; [set_solver|done].
  - destruct H3 as [Heq Hc]; [done|]. injection Heq as ->. by split.
Qed.

Lemma missing_bound s : missing s < S (length snapshot).
Proof.
  unfold missing.
  assert (size (list_to_set (C := gset N) (map pi_pid snapshot) ∖ s)
          ≤ size (list_to_set (C := gset N) (map pi_pid snapshot))) by (apply subseteq_size; set_solver).
  assert (∀ l : list N, size (list_to_set (C := gset N) l) ≤ length l) as Hl.
  { induction l as [|y l IH]; [rewrite list_to_set_nil, size_empty; simpl; lia|simpl].
    pose proof (size_union_alt ({[y]} : gset N) (list_to_set l)) as Hu.
    rewrite size_singleton in Hu.
    assert (size (list_to_set l ∖ {[y]} : gset N) ≤ size (list_to_set (C := gset N) l))
      by (apply subseteq_size; set_solver). lia. }
  specialize (Hl (map pi_pid snapshot)). rewrite length_map in Hl. lia.
Qed.

Lemma grow_exact s x :
  x ∈ grow (S (length snapshot)) snapshot s ↔ descends snapshot (λ y, y ∈ s) x.
Proof.
  split.
  - apply grow_sound. intros y Hy. by apply (descends_root snapshot (λ y, y ∈ s)).
  - destruct (grow_closed _ s (missing_bound s)) as [Hs Hc].
    induction 1 as [y Hy|p Hp _ IH]; [by apply Hs|by apply Hc].
Qed.
End grow.

Lemma descends_mono snapshot (R R' : N → Prop) x :
  (∀ y, R y → R' y) → descends snapshot R x → descends snapshot R' x.
Proof. intros HR. induction 1; [apply descends_root; auto|by apply descends_child]. Qed.

Lemma elem_of_pids s x : x ∈ pids s ↔ x ∈ s.
Proof. unfold pids. rewrite elem_of_sort_by. apply elem_of_elements. Qed.

(** The map of a snapshot answers with the last entry of a PID. *)
Lemma by_pid_acc l (m : gmap N ProcessIdentity) pid :
  foldl (λ m p, <[pi_pid p := p]> m) m l !! pid
  = from_option Some (m !! pid) (last (filter (λ p, pi_pid p = pid) l)).
Proof.
  induction l as [|p l IH] using rev_ind; [done|].
  rewrite foldl_app, filter_app, filter_cons, filter_nil. cbn [foldl].
  destruct (decide (pi_pid p = pid)) as [<-|Hne].
  - rewrite last_snoc. simpl. by rewrite lookup_insert, decide_True.
  - rewrite app_nil_r, lookup_insert_ne by done. exact IH.
Qed.

Lemma by_pid_lookup snapshot pid :
  by_pid snapshot !! pid = last (filter (λ p, pi_pid p = pid) snapshot).
Proof. unfold by_pid. rewrite by_pid_acc, lookup_empty. by destruct (last _). Qed.

Lemma by_pid_in snapshot pid p :
  by_pid snapshot !! pid = Some p → p ∈ snapshot ∧ pi_pid p = pid.
Proof.
  rewrite by_pid_lookup. intros Hl. apply last_Some in Hl as [l' Hl].
  assert (p ∈ filter (λ p, pi_pid p = pid) snapshot) as Hp by (rewrite Hl; set_solver).
  by apply list_elem_of_filter in Hp as [? ?].
Qed.

(** ** The tree of an executable *)

Section paths.
Context `{WindowsPaths}.

(** The PIDs of the processes that run the target. *)
Definition root_of (snapshot : list ProcessIdentity) (target_image : string) (pid : N) : Prop :=
  ∃ p, p ∈ snapshot ∧ runs_image target_image p = true ∧ pi_pid p = pid.

Lemma owned_tree_spec snapshot target p :
  p ∈ owned_process_tree snapshot target ↔
  path_is_absolute target = true ∧ by_pid snapshot !! pi_pid p = Some p ∧
  descends snapshot (root_of snapshot target) (pi_pid p).
Proof.
  unfold owned_process_tree. destruct (path_is_absolute target); cbn [negb]; [|set_solver].
  rewrite list_elem_of_omap.
  assert (∀ x, x ∈ grow (S (length snapshot)) snapshot
      (list_to_set (map pi_pid (filter (λ p, runs_image target p = true) snapshot)))
    ↔ descends snapshot (root_of snapshot target) x) as Hg.
  { intros x. rewrite grow_exact. split; apply descends_mono; intros y; unfold root_of;
      rewrite elem_of_list_to_set, list_elem_of_In, in_map_iff.
    - intros (q & <- & Hq). apply list_elem_of_In, list_elem_of_filter in Hq as [Hr Hq]. eauto.
    - intros (q & Hq & Hr & <-). exists q. split; [done|]. by apply list_elem_of_In, list_elem_of_filter. }
  split.
  - intros (pid & Hpid & Hb). rewrite elem_of_pids, Hg in Hpid.
    pose proof (by_pid_in _ _ _ Hb) as [_ <-]. done.
  - intros (_ & Hb & Hd). exists (pi_pid p). rewrite elem_of_pids, Hg. done.
Qed.
End paths.

(** The protected processes are the updater and what descends from it. *)
Lemma descendants_spec snapshot root_pid x :
  x ∈ owned_process_descendants snapshot root_pid ↔
  (∃ p, p ∈ snapshot ∧ pi_pid p = root_pid) ∧ descends snapshot (λ y, y = root_pid) x.
Proof.
  unfold owned_process_descendants.
  destruct (existsb (λ p, (pi_pid p =? root_pid)%N) snapshot) eqn:E; cbn [negb].
  - rewrite grow_exact. apply existsb_true in E as (p & Hp & He%N.eqb_eq).
    split; [intros Hd; split; [by exists p|]|intros [_ Hd]]; revert Hd; apply descends_mono; set_solver.
  - rewrite existsb_false in E. split; [set_solver|]. intros [(p & Hp & He) _].
    specialize (E p Hp). by rewrite He, N.eqb_refl in E.
Qed.

(** ** Depths *)

(** The parent the walk continues with. *)
Definition parent_in (m : gmap N ProcessIdentity) (pid parent : N) : Prop :=
  ∃ p, m !! pid = Some p ∧ pi_parent_pid p = parent ∧ parent ≠ 0%N ∧ parent ≠ pid.

(** [n] steps lead from [pid] to a process whose parent is not followed. *)
Inductive walk (m : gmap N ProcessIdentity) : N → list N → Prop :=
| walk_end pid : (∀ parent, ¬ parent_in m pid parent) → walk m pid []
| walk_step pid parent l : parent_in m pid parent → walk m parent l → walk m pid (parent :: l).

Lemma walk_unique m pid l l' : walk m pid l → walk m pid l' → l = l'.
Proof.
  intros Hw. revert l'. induction Hw as [pid Hn|pid parent l Hp Hw IH]; intros l' Hw'.
  - inversion Hw' as [|? parent ? Hp]; [done|]. by destruct (Hn parent).
  - inversion Hw' as [? Hn|? parent' ? Hp' Hw2]; subst; [by destruct (Hn parent)|].
    destruct Hp as (p & H1 & H2 & _), Hp' as (p' & H3 & H4 & _).
    assert (parent = parent') as <- by congruence. f_equal. by apply IH.
Qed.

(** Every process of a walk starts the rest of it. *)
Lemma walk_from m pid l x : walk m pid l → x ∈ pid :: l → ∃ k, walk m x k ∧ length k ≤ length l.
Proof.
  induction 1 as [r Hn|r parent k Hp Hw IH]; intros Hx.
  - apply elem_of_cons in Hx as [->|Hx]; [|set_solver]. exists []. by split; [constructor|].
  - apply elem_of_cons in Hx as [->|Hx].
    + exists (parent :: k). by split; [econstructor|].
    + destruct (IH Hx) as (j & Hj & Hl). exists j. split; [done|]. simpl. lia.
Qed.

Lemma walk_fresh m pid l : walk m pid l → NoDup (pid :: l).
Proof.
  induction 1 as [r Hn|r parent k Hp Hw IH]; [by apply NoDup_singleton|].
  apply NoDup_cons. split; [|done]. intros Hin.
  destruct (walk_from _ _ _ _ Hw Hin) as (j & Hj & Hl).
  pose proof (walk_unique _ _ _ _ Hj (walk_step _ _ _ _ Hp Hw)) as ->. simpl in Hl. lia.
Qed.

Lemma depth_loop_walk m fuel pid l visited depth :
  walk m pid l → length l < fuel → (∀ x, x ∈ pid :: l → x ∉ visited) →
  depth_loop fuel m pid visited depth = (depth + len l)%N.
Proof.
  intros Hw. pose proof (walk_fresh _ _ _ Hw) as Hnd. revert fuel visited depth Hnd.
  induction Hw as [pid Hn|pid parent l Hp Hw IH]; intros fuel visited depth Hnd Hf Hv;
    (destruct fuel as [|fuel]; [simpl in Hf; lia|]); simpl;
    rewrite (bool_decide_eq_false_2 (pid ∈ visited)) by (apply Hv; left).
  - unfold len. simpl. rewrite N.add_0_r. destruct (m !! pid) as [p|] eqn:Hm; [|done].
    destruct (pi_parent_pid p =? 0)%N eqn:E0; [done|].
    destruct (pi_parent_pid p =? pid)%N eqn:E1; [done|]. simpl.
    apply N.eqb_neq in E0, E1. destruct (Hn (pi_parent_pid p)). by exists p.
  - destruct Hp as (p & Hm & <- & H0 & H1). rewrite Hm.
    rewrite (proj2 (N.eqb_neq _ _) H0), (proj2 (N.eqb_neq _ _) H1). simpl.
    apply NoDup_cons in Hnd as [Hnin Hnd]. rewrite IH; [unfold len; simpl; lia|done|simpl in Hf; lia|].
    intros x Hx. specialize (Hv x). set_solver.
Qed.

Lemma walk_length m pid l : walk m pid l → length l ≤ size m.
Proof.
  intros Hw. pose proof (walk_fresh _ _ _ Hw) as Hnd.
  assert (∀ x, x ∈ removelast (pid :: l) → x ∈ dom m) as Hdom.
  { clear Hnd. induction Hw as [|pid parent l (p & Hp & _) Hw IH]; [simpl; set_solver|].
    intros x Hx. change (removelast (pid :: parent :: l)) with (pid :: removelast (parent :: l)) in Hx.
    apply elem_of_cons in Hx as [->|Hx]; [by apply elem_of_dom_2 in Hp|by apply IH]. }
  assert (length (removelast (pid :: l)) = length l) as <-.
  { destruct (exists_last (l := pid :: l)) as (k & y & Hk); [done|]. rewrite Hk, removelast_last.
    apply (f_equal length) in Hk. rewrite length_app in Hk. simpl in Hk. lia. }
  assert (NoDup (removelast (pid :: l))) as Hnd'.
  { destruct (exists_last (l := pid :: l)) as (k & y & Hk); [done|]. rewrite Hk, removelast_last in *.
    by apply NoDup_app in Hnd as [? _]. }
  rewrite <-size_dom. rewrite <-(size_list_to_set (C := gset N)) by done.
  apply subseteq_size. intros x Hx%elem_of_list_to_set. by apply Hdom.
Qed.

Lemma size_by_pid snapshot : size (by_pid snapshot) ≤ length snapshot.
Proof.
  induction snapshot as [|p l IH] using rev_ind; [done|].
  unfold by_pid. rewrite foldl_app, length_app. simpl. fold (by_pid l).
  rewrite map_size_insert. destruct (by_pid l !! pi_pid p); simpl; lia.
Qed.

Lemma ancestry_depth_walk snapshot pid l :
  walk (by_pid snapshot) pid l → ancestry_depth snapshot pid = len l.
Proof.
  intros Hw. unfold ancestry_depth. rewrite (depth_loop_walk _ _ _ l); [lia|done| |set_solver].
  pose proof (walk_length _ _ _ Hw). pose proof (size_by_pid snapshot). lia.
Qed.

(** ** Terminating a tree *)

Lemma sort_by_lookup {A} (le : A → A → bool) l i j x y :
  (∀ a b, le a b = false → le b a = true) →
  (∀ a b c, le a b = true → le b c = true → le a c = true) →
  i < j → sort_by le l !! i = Some x → sort_by le l !! j = Some y → le x y = true.
Proof.
  intros Htot Htr Hij Hi Hj. pose proof (sort_by_sorted le Htot Htr l) as Hs.
  revert i j Hij Hi Hj. induction Hs as [|a k Hs IH Hall]; intros i j Hij Hi Hj; [done|].
  destruct j as [|j]; [lia|]. simpl in Hj. destruct i as [|i]; simpl in Hi.
  - injection Hi as ->. rewrite Forall_forall in Hall. apply Hall. by eapply list_elem_of_lookup_2.
  - apply (IH i j); [lia|done|done].
Qed.

(** Where the chain of parents of a process ends, the process is terminated
    before its parent. *)
Theorem children_are_terminated_first initial targets (p q : ProcessIdentity) chain i j :
  walk (by_pid initial) (pi_pid p) (pi_pid q :: chain) →
  termination_order initial targets !! i = Some q →
  termination_order initial targets !! j = Some p →
  (j < i)%nat.
Proof.
  intros Hw Hq Hp.
  assert (ancestry_depth initial (pi_pid p) = ancestry_depth initial (pi_pid q) + 1)%N as Hd.
  { rewrite (ancestry_depth_walk _ _ _ Hw). inversion Hw as [|? ? ? _ Hw']; subst.
    rewrite (ancestry_depth_walk _ _ _ Hw'). unfold len. simpl. lia. }
  destruct (decide (j < i)%nat) as [|Hn]; [done|exfalso].
  assert (i = j ∨ i < j)%nat as [->|Hij] by lia.
  - rewrite Hp in Hq. injection Hq as ->. lia.
  - unfold termination_order in *.
    assert (cmp_leb (termination_key initial p) (termination_key initial q) = true) as Hle.
    { apply (sort_by_lookup (λ a b, cmp_leb (termination_key initial b) (termination_key initial a))
        targets i j q p); [..|done|done|done].
      - intros a b. apply cmp_leb_total.
      - intros a b c Hab Hbc. by eapply cmp_leb_trans. }
    unfold termination_key, cmp_leb in Hle. rewrite cmp_pair in Hle. simpl in Hle.
    rewrite Hd in Hle.
    assert (cmp (ancestry_depth initial (pi_pid q) + 1)%N (ancestry_depth initial (pi_pid q)) = Gt) as Hc
      by (apply N.compare_gt_iff; lia).
    by rewrite Hc in Hle.
Qed.

(** ** The desktop above a process *)

Section desktop.
Context `{WindowsPaths}.

Definition is_desktop (m : gmap N ProcessIdentity) (pid : N) : bool :=
  is_some_and (m !! pid) (λ p, is_some_and (pi_image p) is_codex_desktop_image).

Lemma ancestor_loop_walk snapshot fuel pid l visited :
  walk (by_pid snapshot) pid l → (length l < fuel)%nat → (∀ x, x ∈ pid :: l → x ∉ visited) →
  ancestor_loop fuel (by_pid snapshot) pid visited
  = List.find (is_desktop (by_pid snapshot)) (pid :: l).
Proof.
  intros Hw. pose proof (walk_fresh _ _ _ Hw) as Hnd. revert fuel visited Hnd.
  induction Hw as [pid Hn|pid parent l Hp Hw IH]; intros fuel visited Hnd Hf Hv;
    (destruct fuel as [|fuel]; [simpl in Hf; lia|]); simpl;
    rewrite (bool_decide_eq_false_2 (pid ∈ visited)) by (apply Hv; left).
  - unfold is_desktop. destruct (by_pid snapshot !! pid) as [p|] eqn:Hm; [|done]. simpl.
    pose proof (by_pid_in _ _ _ Hm) as [_ <-].
    destruct (is_some_and (pi_image p) is_codex_desktop_image); [done|].
    destruct (pi_parent_pid p =? 0)%N eqn:E0; [done|].
    destruct (pi_parent_pid p =? pi_pid p)%N eqn:E1; [done|]. simpl.
    apply N.eqb_neq in E0, E1. destruct (Hn (pi_parent_pid p)). by exists p.
  - unfold is_desktop at 1. destruct Hp as (p & Hm & <- & H0 & H1). rewrite Hm. simpl.
    pose proof (by_pid_in _ _ _ Hm) as [_ <-].
    destruct (is_some_and (pi_image p) is_codex_desktop_image); [done|].
    rewrite (proj2 (N.eqb_neq _ _) H0), (proj2 (N.eqb_neq _ _) H1). simpl.
    apply NoDup_cons in Hnd as [Hnin Hnd]. rewrite IH; [done|done|simpl in Hf; lia|].
    intros x Hx. specialize (Hv x). set_solver.
Qed.

(** Where the chain of parents ends, the desktop found is the first one on
    it, the process itself included. *)
Theorem desktop_ancestor_exact snapshot pid chain :
  walk (by_pid snapshot) pid chain →
  codex_desktop_ancestor_pid snapshot pid
  = List.find (is_desktop (by_pid snapshot)) (pid :: chain).
Proof.
  intros Hw. apply ancestor_loop_walk; [done| |set_solver].
  pose proof (walk_length _ _ _ Hw). pose proof (size_by_pid snapshot). lia.
Qed.
End desktop.

(** ** Identities *)

(** The watchdog calls a process live exactly when the process that has its PID
    now is the same instance by the rule of the termination, and its image is
    known. *)
Theorem live_is_the_same_instance snapshot expected :
  process_identity_state snapshot expected = ProcessLive ↔
  ∃ actual, List.find (λ a, (pi_pid a =? pi_pid expected)%N) snapshot = Some actual ∧
    same_process_instance actual expected = true ∧ pi_image expected ≠ None.
Proof.
  unfold process_identity_state, same_process_instance.
  destruct (List.find _ snapshot) as [a|] eqn:Hf.
  2: { split; [done|]. by intros (? & ? & _). }
  apply List.find_some in Hf as [_ Hpid]. split.
  - intros Hl. exists a. split; [done|]. rewrite Hpid. revert Hl.
    destruct (pi_parent_pid a =? pi_parent_pid expected)%N; [|done]. simpl.
    destruct (pi_image a) as [ia|], (pi_image expected) as [ie|]; try done.
    destruct (paths_equal ia ie) eqn:Hp; [|done]. simpl.
    destruct (pi_creation_time_100ns a) as [ca|], (pi_creation_time_100ns expected) as [ce|]; try done.
    destruct (ca =? ce)%N; [|done]. intros _. by rewrite Hp.
  - intros (a' & [= <-] & Hs & Hi). rewrite Hpid in Hs.
    destruct (pi_parent_pid a =? pi_parent_pid expected)%N; [|done]. simpl in *.
    destruct (pi_creation_time_100ns a) as [ca|], (pi_creation_time_100ns expected) as [ce|];
      try discriminate Hs.
    destruct (ca =? ce)%N; [|done]. simpl in Hs.
    destruct (pi_image expected) as [ie|]; [|done].
    destruct (pi_image a) as [ia|]; [|done]. simpl in Hs. by rewrite Hs.
Qed.
