(* ===== verification/UpdaterPort.v ===== *)
(** * What the updater asks of the machine

    The calls of [crates/control/star-updater-core] to the clock, the processes,
    the file system, the installation ([star-adapter-windows]), the Codex
    integration ([star-adapter-codex]) and the controller ([star-ipc]), with
    their answers and their errors.  Those crates act on Windows; here they
    answer what they like. *)
From stdpp Require Import pretty.
From S2P Require Import Prelude Canonical Contracts Effects ProcessCensus Restart.

(** ** Documents of [star-contracts/src/installation.rs] *)

Record RuntimeGenerationRef := {
  rg_generation_id : string;
  rg_runtime_root : string;
  rg_release_manifest_sha256 : Sha256Hash
}.

#[global] Instance RuntimeGenerationRef_eq_dec : EqDecision RuntimeGenerationRef.
Proof. solve_decision. Defined.

(** The fields of a generation manifest the updater reads. *)
Record RuntimeGenerationManifest := {
  gm_generation : RuntimeGenerationRef;
  gm_controller_path : string;
  gm_controller_sha256 : Sha256Hash
}.

Record RuntimeActivationRecord := {
  ra_schema_id : string;
  ra_schema_version : N;
  ra_activation_revision : N;
  ra_active : RuntimeGenerationRef;
  ra_previous : option RuntimeGenerationRef;
  ra_state_generation_id : string;
  ra_bridge_contract_version : N;
  ra_activated_at : DateTime
}.

#[global] Instance RuntimeActivationRecord_eq_dec : EqDecision RuntimeActivationRecord.
Proof. solve_decision. Defined.

Inductive IntegrationCandidateClass :=
| CodexIntegrationUpdate | UpdaterUpdate | RuntimeUpdate | MixedUpdate | NoChange.

#[global] Instance IntegrationCandidateClass_eq_dec : EqDecision IntegrationCandidateClass.
Proof. solve_decision. Defined.

Record IntegrationCandidateReview := {
  ic_candidate_release_manifest_sha256 : Sha256Hash;
  ic_candidate_class : IntegrationCandidateClass;
  ic_changed_files : list string;
  ic_rollback_available : bool;
  ic_requires_codex_restart : bool;
  ic_approval_scope_sha256 : Sha256Hash
}.

Record RuntimeCandidateReview := {
  rc_candidate : RuntimeGenerationRef;
  rc_added_actions : list string;
  rc_removed_actions : list string;
  rc_changed_actions : list string;
  rc_breaking_schema : bool;
  rc_risk_lane_widened : bool;
  rc_permission_widened : bool;
  rc_handler_ready : bool;
  rc_bridge_compatible : bool;
  rc_rollback_available : bool;
  rc_requires_codex_restart : bool;
  rc_requires_new_task : bool;
  rc_hook_review_required : bool;
  rc_approval_scope_sha256 : Sha256Hash
}.

(** ** Errors, with the texts of their [Display] *)

Inductive WindowsAdapterError :=
| UnsafePath | InvalidReleaseManifest | ArchitectureMismatch | FileIdentityMismatch
| InstallationConflict | InvalidInstallationRecord | InvalidIntegrationRecord
| InvalidRuntimeActivation | InvalidRuntimeGeneration | RuntimeGenerationExists
| IntegrationCandidateRejected | InvalidIntegrationBackup | Environment
| Io (message : string)
| SerdeJson (message : string).

Definition windows_text (e : WindowsAdapterError) : string :=
  match e with
  | UnsafePath => "installation path is not a regular local fixed-volume path"
  | InvalidReleaseManifest => "release-file manifest is missing, malformed or unsupported"
  | ArchitectureMismatch => "release-file manifest architecture does not match this executable"
  | FileIdentityMismatch => "release-file manifest file identity does not match"
  | InstallationConflict => "another installation record owns a different install root"
  | InvalidInstallationRecord => "installation record is missing, malformed or unsupported"
  | InvalidIntegrationRecord => "Codex integration record is malformed or unsupported"
  | InvalidRuntimeActivation =>
      "Runtime activation record is malformed, unsupported, or outside the install root"
  | InvalidRuntimeGeneration =>
      "Runtime generation is malformed, unsupported, or fails identity verification"
  | RuntimeGenerationExists => "runtime generation is already staged and cannot be overwritten"
  | IntegrationCandidateRejected =>
      "integration candidate is not an approved Codex-integration-only release"
  | InvalidIntegrationBackup =>
      "integration candidate backup is malformed or does not belong to this installation"
  | Environment => "required current-user environment variable is unavailable"
  | Io message => "Windows installation I/O failed: " +:+ message
  | SerdeJson message => "JSON serialization failed: " +:+ message
  end.

Inductive CodexAdapterError :=
| CodexInstallation (e : WindowsAdapterError)
| InvalidTemplate | InvalidRenderedPlugin | Ownership | ActiveCodexDesktop | CodexDesktopCheck
| CodexIo (message : string)
| CodexJson (message : string).

Definition codex_text (e : CodexAdapterError) : string :=
  match e with
  | CodexInstallation e => "Windows installation state is not valid: " +:+ windows_text e
  | InvalidTemplate =>
      "Codex Plugin template is missing, malformed or outside the allowed file set"
  | InvalidRenderedPlugin => "rendered Codex Plugin does not satisfy the integration contract"
  | Ownership => "Codex integration ownership could not be proven"
  | ActiveCodexDesktop =>
      "Codex desktop is running; close every Codex window and retry from a separate terminal"
  | CodexDesktopCheck => "Codex desktop activity could not be verified safely"
  | CodexIo message => "Codex integration I/O failed: " +:+ message
  | CodexJson message => "Codex integration JSON failed: " +:+ message
  end.

Inductive ControllerClientError :=
| ClientUnavailable | ServerIdentityMismatch | ClientAuthentication | ClientProtocolMismatch
| MalformedResponse.

Definition client_text (e : ControllerClientError) : string :=
  match e with
  | ClientUnavailable => "IPC controller unavailable"
  | ServerIdentityMismatch => "IPC server identity does not match the installed Controller"
  | ClientAuthentication => "IPC authentication failed"
  | ClientProtocolMismatch => "IPC protocol version does not match"
  | MalformedResponse => "IPC response was malformed"
  end.

Inductive ControllerStartError :=
| IdentityMismatch | StartLease (message : string) | InstallManifest | RuntimeActivationInvalid
| OuterJobDenied | StartFailed.

Definition start_text (e : ControllerStartError) : string :=
  match e with
  | IdentityMismatch => "installed Controller image identity does not match"
  | StartLease _ => "installed Controller image cannot be leased"
  | InstallManifest => "installed Controller manifest is missing or invalid"
  | RuntimeActivationInvalid =>
      "active Runtime Generation record is missing, incompatible, or invalid"
  | OuterJobDenied => "outer Job does not allow a durable Controller breakaway"
  | StartFailed => "Controller process could not start"
  end.

Inductive UpdateLeaseError := LeaseUnavailable | LeaseBusy.

Definition lease_text (e : UpdateLeaseError) : string :=
  match e with
  | LeaseUnavailable => "the current-user updater mutex could not be created"
  | LeaseBusy => "another Star-Control update is already active"
  end.

Definition census_text (e : CensusError) : string :=
  match e with
  | CensusSnapshot => "Windows process snapshot could not be created"
  | CensusTerminate => "a verified process could not be terminated"
  end.

Inductive IntegrationReceiptError :=
| ReceiptLocalAppData | ReceiptUnsafeDirectory | ReceiptReadFailed | ReceiptMalformed.

Definition receipt_text (e : IntegrationReceiptError) : string :=
  match e with
  | ReceiptLocalAppData => "LOCALAPPDATA is unavailable"
  | ReceiptUnsafeDirectory => "update receipt directory is unsafe"
  | ReceiptReadFailed => "update receipt could not be read"
  | ReceiptMalformed => "update receipt is malformed"
  end.

Inductive IntegrationRestartError :=
| RInstallation (e : WindowsAdapterError)
| RUpdateLease (e : UpdateLeaseError)
| RDesktopExecutable | RCodexCli | RNoInstance | RCloseTimeout
| RCensus (e : CensusError)
| RIntegration (e : CodexAdapterError)
| RCandidateRejected | RRolledBack
| RRollback (e : WindowsAdapterError)
| RRollbackIntegration (e : CodexAdapterError)
| RRelaunch | RInstallerExecutable
| RInstaller (code : Z)
| RRuntimePostcheck
| RRuntimeReconcileRolledBack (reason : string)
| RRuntimeReconcileRollbackFailed (reason : string)
| RRuntimePartiallyApplied
| RController (e : ControllerClientError)
| RControllerDrainTimeout
| RControllerImage (e : ControllerStartError)
| RReceipt (e : WindowsAdapterError)
| RReceiptRead (e : IntegrationReceiptError)
| RStateTransition.

Definition restart_text (e : IntegrationRestartError) : string :=
  match e with
  | RInstallation e => "installed Star-Control state is not valid: " +:+ windows_text e
  | RUpdateLease e => "update lease could not be acquired: " +:+ lease_text e
  | RDesktopExecutable => "Codex Desktop executable must be an existing absolute file"
  | RCodexCli => "official Codex CLI beside the Desktop executable could not be verified"
  | RNoInstance => "no exact running Codex Desktop instance was found"
  | RCloseTimeout => "Codex did not close during the bounded restart window"
  | RCensus e => "exact Codex process census failed: " +:+ census_text e
  | RIntegration e => "Codex integration repair failed: " +:+ codex_text e
  | RCandidateRejected =>
      "the integration candidate no longer satisfies its approved restart-only apply gate"
  | RRolledBack => "integration repair failed and the prior verified release was restored"
  | RRollback e => "integration update failed and rollback also failed: " +:+ windows_text e
  | RRollbackIntegration e =>
      "integration update rollback restored files but could not repair the prior Codex integration: "
        +:+ codex_text e
  | RRelaunch => "Codex Desktop could not be relaunched"
  | RInstallerExecutable => "offline installer must be an existing absolute executable"
  | RInstaller code => "offline installer failed with exit code " +:+ pretty code
  | RRuntimePostcheck =>
      "installed Runtime Generation did not expose its complete ready release Registry"
  | RRuntimeReconcileRolledBack reason =>
      "installed Runtime reconciliation failed and the prior selector was restored: " +:+ reason
  | RRuntimeReconcileRollbackFailed reason =>
      "installed Runtime reconciliation failed and restoring the prior selector also failed: "
        +:+ reason
  | RRuntimePartiallyApplied =>
      "replacement files remain installed after Runtime postcheck failure; the prior Runtime selector was restored"
  | RController e => "Controller update handoff failed: " +:+ client_text e
  | RControllerDrainTimeout =>
      "active Controller did not stop within the bounded reconciliation window"
  | RControllerImage e => "Controller image could not be verified for update handoff: " +:+ start_text e
  | RReceipt e => "restart receipt could not be persisted: " +:+ windows_text e
  | RReceiptRead e => "restart receipt could not be read: " +:+ receipt_text e
  | RStateTransition => "restart transaction reached an invalid internal state"
  end.

(** ** Receipts

    [IntegrationRestartReceipt], the durable trace of a restart. *)
Record IntegrationRestartReceipt := {
  rr_schema_id : string;
  rr_schema_version : N;
  rr_operation_id : string;
  rr_state : RestartState;
  rr_install_root : string;
  rr_codex_desktop_executable : string;
  rr_affected_instance_count : N;
  rr_affected_task_count : option N;
  rr_updated_at : DateTime
}.

#[global] Instance IntegrationRestartReceipt_eq_dec : EqDecision IntegrationRestartReceipt.
Proof. solve_decision. Defined.

(** Facts of the process that do not change, and the readers of JSON text. *)
Class UpdaterHost := {
  own_pid : N;
  utf8_valid : string → bool;
  parse_no_duplicate_keys : string → option Json;
  receipt_of_json : Json → option IntegrationRestartReceipt
}.

(** ** Calls *)

(** The exit status and the output of a program that was run. *)
Record Output := { out_success : bool; out_code : option Z; out_stdout : string }.

Inductive machine :=
(* the clocks, in nanoseconds *)
| CInstantNow
| CSleep (duration : Z)
| CUtcNow
| CNonce
(* the lease *)
| CSidHash
| CCreateMutex (name : string)
| COpenMutex (name : string)
| CCloseMutex
(* processes *)
| CSnapshot
| COpenProcess (pid : N)
| CTerminateProcess (pid : N)
| CEnumWindows
| CPostClose (pid : N)
| CSpawn (program : string)
| CRun (program : string) (arguments : list string) (environment : list (string * string))
    (timeout : option Z)
(* files *)
| CEnvVar (name : string)
| CIsFile (path : string)
| CExists (path : string)
| CCanonicalize (path : string)
| CEnsureFixedDirectory (path : string)
| CCanonicalFixedDirectory (path : string)
| CWriteReceipt (path : string) (receipt : IntegrationRestartReceipt)
| CReadDir (path : string)
| CModified (path : string)
| CReadFile (path : string)
| CHashFile (path : string)
| CCopyFile (source target : string)
(* the installation *)
| CInstallationManager
| CInstallationStatus (root : string)
| CRecoverCandidates (root : string)
| CInspectIntegration (root candidate : string)
| CApplyCandidate (root candidate : string) (approval : Sha256Hash) (operation_id : string)
| CCommitCandidate (backup : string)
| CRollbackCandidate (root backup : string)
| CLoadActivation (root : string)
| CActivateBridge (root : string) (record : RuntimeActivationRecord) (bridge_contract_version : N)
| CBundledGeneration (root : string)
| CToolIds (root : string) (generation : RuntimeGenerationRef)
| CInspectRuntime (root generation_id : string)
| CLoadGeneration (root : string)
(* the Codex integration *)
| CIntegrationManager
| CIntegrationStatus (root : string)
| CRepair (root codex_executable : string)
(* the controller *)
| CControllerImage (root : string)
| COpenController (path : string) (sha256 : Sha256Hash)
| CStartBackground (image : string)
| CClientConfig (image : string)
| CControllerShutdown (image : string).

Definition answer (c : machine) : Type :=
  match c with
  | CInstantNow => Z
  | CSleep _ => unit
  | CUtcNow => DateTime
  | CNonce => string
  | CSidHash => option string
  | CCreateMutex _ => option bool                   (* whether it existed *)
  | COpenMutex _ => option bool                     (* whether it was found *)
  | CCloseMutex => unit
  | CSnapshot => result (list ProcessIdentity) CensusError
  | COpenProcess _ | CTerminateProcess _ => bool
  | CEnumWindows => list N * bool                   (* owners of the windows; success *)
  | CPostClose _ => bool
  | CSpawn _ => option N
  | CRun _ _ _ _ => option Output
  | CEnvVar _ => option string
  | CIsFile _ | CExists _ => bool
  | CCanonicalize _ => option string
  | CEnsureFixedDirectory _ | CCanonicalFixedDirectory _ => result string WindowsAdapterError
  | CWriteReceipt _ _ => result unit WindowsAdapterError
  | CReadDir _ => option (list (option string))
  | CModified _ => option Z
  | CReadFile _ => option string
  | CHashFile _ => option Sha256Hash
  | CCopyFile _ _ => bool
  | CInstallationManager | CInstallationStatus _ | CCommitCandidate _ | CRollbackCandidate _ _
  | CActivateBridge _ _ _ => result unit WindowsAdapterError
  | CRecoverCandidates _ => result N WindowsAdapterError
  | CInspectIntegration _ _ => result IntegrationCandidateReview WindowsAdapterError
  | CApplyCandidate _ _ _ _ => result string WindowsAdapterError
  | CLoadActivation _ => result RuntimeActivationRecord WindowsAdapterError
  | CBundledGeneration _ => result RuntimeGenerationRef WindowsAdapterError
  | CToolIds _ _ => result (gset string) WindowsAdapterError
  | CInspectRuntime _ _ => result RuntimeCandidateReview WindowsAdapterError
  | CLoadGeneration _ => result RuntimeGenerationManifest WindowsAdapterError
  | CIntegrationManager => result unit CodexAdapterError
  | CIntegrationStatus _ | CRepair _ _ => result string CodexAdapterError   (* local_state *)
  | CControllerImage _ => result string ControllerStartError                (* its path *)
  | COpenController _ _ => bool
  | CStartBackground _ => result N ControllerStartError
  | CClientConfig _ => result unit ControllerClientError
  | CControllerShutdown _ => result bool ControllerClientError   (* whether the status is Ok *)
  end.

Abbreviation update := (@prog machine answer).
Abbreviation deed := (@event machine answer).
Abbreviation ask := (@call machine answer).

(** ** The clock

    [Instant] does not go back, and [sleep] waits at least as long as it was
    told; instants are counted from the start of the process. *)
Definition clock_after (e : deed) (t : Z) : Z :=
  match e with
  | existT CInstantNow now => Z.max t now
  | existT (CSleep d) _ => t + Z.max 0 d
  | _ => t
  end.

Definition clock (tr : list deed) : Z := foldr clock_after 0%Z tr.

Definition clock_law : @law machine answer := λ tr c,
  match c with
  | CInstantNow => λ now, (clock tr <= now)%Z
  | _ => λ _, True
  end.
