(* ===== verification/UpdaterSteps.v ===== *)
(** * The steps of the updater

    Models the functions of [crates/control/star-updater-core/src] that the flows
    of [Updater.v] are made of: the lease and the command line of [lib.rs], the
    termination and the closing of windows of [process_census.rs], and the
    receipts and the ends of a failed transaction of [integration_restart.rs].
    The parts that wait are in [UpdaterWaits.v]. *)
From S2P Require Import Prelude Canonical Contracts Effects ProcessCensus Restart UpdaterPort.
Open Scope prog_scope.

Definition seconds (n : Z) : Z := n * 10 ^ 9.
Definition millis (n : Z) : Z := n * 10 ^ 6.

Definition GRACEFUL_CLOSE_TIMEOUT : Z := seconds 5.
Definition FORCED_CLOSE_TIMEOUT : Z := seconds 12.
Definition PROCESS_EXIT_POLL_INTERVAL : Z := millis 100.
Definition CONTROLLER_DRAIN_TIMEOUT : Z := seconds 12.
Definition INSTALLED_CLI_POSTCHECK_WINDOW : Z := seconds 45.
Definition INSTALLED_CLI_POSTCHECK_ATTEMPT_TIMEOUT : Z := seconds 15.
Definition MAX_OUTPUT_BYTES : N := 1024 * 1024.

Definition polls (timeout interval : Z) : nat := Z.to_nat (timeout / interval) + 2.

(** [saturating_duration_since]. *)
Definition duration_since (later earlier : Z) : Z := Z.max 0 (later - earlier).

(** ** JSON *)

Definition json_get (name : string) (value : Json) : option Json :=
  match value with
  | JObj fields => option_map snd (List.find (λ f, String.eqb f.1 name) fields)
  | _ => None
  end.

Definition json_str (value : option Json) : option string :=
  match value with Some (JStr s) => Some s | _ => None end.

Definition json_is (value : option Json) (text : string) : bool :=
  bool_decide (json_str value = Some text).

(** ** Arguments of a command line *)

Definition quote_char : ascii := ascii_of_N 34.
Definition quote : string := String quote_char EmptyString.

Fixpoint backslashes (n : nat) : string :=
  match n with O => EmptyString | S n' => String backslash (backslashes n') end.

Definition needs_quotes (b : N) : bool :=
  (b =? 32)%N || (b =? 9)%N || (b =? 10)%N || (b =? 13)%N || (b =? 34)%N.

(** The body of the quoted argument, with the backslashes seen since the last
    other character. *)
Fixpoint quote_loop (argument : string) (pending : nat) : string :=
  match argument with
  | EmptyString => backslashes (pending * 2)
  | String c rest =>
      if Ascii.eqb c backslash then quote_loop rest (S pending)
      else if Ascii.eqb c quote_char
      then backslashes (pending * 2 + 1) +:+ quote +:+ quote_loop rest 0
      else backslashes pending +:+ String c (quote_loop rest 0)
  end.

Definition quote_windows_argument (argument : string) : string :=
  if negb (is_empty argument) && negb (bytes_any needs_quotes argument) then argument
  else quote +:+ quote_loop argument 0 +:+ quote.

Fixpoint join_spaces (l : list string) : string :=
  match l with
  | [] => EmptyString
  | [x] => x
  | x :: l' => x +:+ " " +:+ join_spaces l'
  end.

Definition windows_command_line (arguments : list string) : string :=
  join_spaces (map quote_windows_argument arguments).

(** [str::parse::<u32>]: digits with an optional plus. *)
Fixpoint digits_value (s : string) (acc : N) : option N :=
  match s with
  | EmptyString => Some acc
  | String c rest =>
      if is_ascii_digit (byte c) then
        let acc' := (acc * 10 + (byte c - 48))%N in
        if (u32_max <? acc')%N then None else digits_value rest acc'
      else None
  end.

Definition parse_u32 (s : string) : option N :=
  let digits := default s (strip_prefix "+" s) in
  if is_empty digits then None else digits_value digits 0.

Section steps.
Context `{WindowsPaths} `{UpdaterHost}.

(** ** The lease *)

Definition lease_name (sid_hash : string) : string :=
  "Local\Star-Control.Updater." +:+ sid_hash +:+ ".v1".

Definition acquire_update_lease : update (result unit UpdateLeaseError) :=
  do! sid_hash := ask CSidHash in
  match sid_hash with
  | None => Ret (Err LeaseUnavailable)
  | Some sid_hash =>
      do! created := ask (CCreateMutex (lease_name sid_hash)) in
      match created with
      | None => Ret (Err LeaseUnavailable)
      | Some true => do! _ := ask CCloseMutex in Ret (Err LeaseBusy)
      | Some false => Ret (Ok tt)
      end
  end.

(** The lease is dropped when the function that holds it returns. *)
Definition with_update_lease {A E} (lift : UpdateLeaseError → E) (body : update (result A E)) :
    update (result A E) :=
  do? _ := prog_map_err lift acquire_update_lease in
  do! r := body in
  do! _ := ask CCloseMutex in
  Ret r.

Definition update_lease_active : update (result bool UpdateLeaseError) :=
  do! sid_hash := ask CSidHash in
  match sid_hash with
  | None => Ret (Err LeaseUnavailable)
  | Some sid_hash =>
      do! opened := ask (COpenMutex (lease_name sid_hash)) in
      match opened with
      | Some true => do! _ := ask CCloseMutex in Ret (Ok true)
      | Some false => Ret (Ok false)
      | None => Ret (Err LeaseUnavailable)
      end
  end.

(** ** Terminating a tree *)

Definition protected_in (snapshot : list ProcessIdentity) (protected_root_pid : option N) :
    gset N :=
  match protected_root_pid with
  | Some pid => owned_process_descendants snapshot pid
  | None => ∅
  end.

(** The body of the loop of [terminate_verified_tree_impl]. *)
Definition terminate_one (target_image : string) (protected_root_pid : option N)
    (best_effort : bool) (protected : gset N) (terminated : list N) (target : ProcessIdentity) :
    update (result (list N) CensusError) :=
  if (pi_pid target =? own_pid)%N || bool_decide (pi_pid target ∈ protected)
  then Ret (Err CensusTerminate)
  else
    do? current := ask CSnapshot in
    if bool_decide (pi_pid target ∈ protected_in current protected_root_pid)
       || negb (existsb (λ p, same_process_instance p target)
                        (owned_process_tree current target_image))
    then Ret (Ok terminated)
    else
      do! opened := ask (COpenProcess (pi_pid target)) in
      if negb opened
      then if best_effort then Ret (Ok terminated) else Ret (Err CensusTerminate)
      else
        do! done := ask (CTerminateProcess (pi_pid target)) in
        if negb done
        then if best_effort then Ret (Ok terminated) else Ret (Err CensusTerminate)
        else Ret (Ok (terminated ++ [pi_pid target])).

Definition terminate_verified_tree_impl (target_image : string) (protected_root_pid : option N)
    (best_effort : bool) : update (result (list N) CensusError) :=
  do? initial := ask CSnapshot in
  let protected := protected_in initial protected_root_pid in
  let targets := filter (λ t, pi_pid t ∉ protected) (owned_process_tree initial target_image) in
  prog_fold (terminate_one target_image protected_root_pid best_effort protected) []
    (termination_order initial targets).

Definition terminate_verified_tree (target_image : string) :=
  terminate_verified_tree_impl target_image None false.

Definition terminate_verified_tree_excluding (target_image : string)
    (protected_root_pid : option N) :=
  terminate_verified_tree_impl target_image protected_root_pid false.

Definition terminate_verified_tree_best_effort_excluding (target_image : string)
    (protected_root_pid : option N) :=
  terminate_verified_tree_impl target_image protected_root_pid true.

(** ** Closing windows *)

Definition request_window_close (pids : gset N) (signalled : gset N) (owner : N) :
    update (gset N) :=
  if bool_decide (owner ∈ pids) then
    do! posted := ask (CPostClose owner) in
    Ret (if posted : bool then {[owner]} ∪ signalled else signalled)
  else Ret signalled.

Definition request_graceful_close (target_image : string) :
    update (result (list N) CensusError) :=
  do? snapshot := ask CSnapshot in
  let roots := exact_image_instances snapshot target_image in
  let targets : gset N := list_to_set (map pi_pid roots) in
  if bool_decide (targets = ∅) then Ret (Ok [])
  else
    do! windows := ask CEnumWindows in
    do! signalled := prog_each (request_window_close targets) ∅ windows.1 in
    if negb windows.2 then Ret (Err CensusSnapshot) else Ret (Ok (pids signalled)).

Definition current_codex_desktop_owner : update (option ProcessIdentity) :=
  do! processes := ask CSnapshot in
  Ret (match processes with
       | Ok processes =>
           match codex_desktop_ancestor_pid processes own_pid with
           | Some pid => List.find (λ p, (pi_pid p =? pid)%N) processes
           | None => None
           end
       | Err _ => None
       end).

Definition current_codex_desktop_owner_pid : update (option N) :=
  do! owner := current_codex_desktop_owner in
  Ret (option_map pi_pid owner).

(** ** Receipts *)

Record IntegrationRepairRestartRequest := {
  rq_install_root : string;
  rq_codex_desktop_executable : string
}.

Definition receipt_of (transaction : RestartTransaction)
    (request : IntegrationRepairRestartRequest) (now : DateTime) : IntegrationRestartReceipt :=
  {| rr_schema_id := "star.integration-restart-receipt"; rr_schema_version := 1;
     rr_operation_id := rt_operation_id transaction; rr_state := rt_state transaction;
     rr_install_root := rq_install_root request;
     rr_codex_desktop_executable := rq_codex_desktop_executable request;
     rr_affected_instance_count := rt_affected_instance_count transaction;
     rr_affected_task_count := rt_affected_task_count transaction;
     rr_updated_at := now |}.

Definition persist_receipt (transaction : RestartTransaction)
    (request : IntegrationRepairRestartRequest) : update (result unit IntegrationRestartError) :=
  do! local_appdata := ask (CEnvVar "LOCALAPPDATA") in
  match local_appdata with
  | None => Ret (Err (RInstallation UnsafePath))
  | Some local_appdata =>
      do? root := prog_map_err RReceipt
                    (ask (CEnsureFixedDirectory (path_join local_appdata "Star-Control/updates"))) in
      do! now := ask CUtcNow in
      do? _ := prog_map_err RReceipt
                 (ask (CWriteReceipt (path_join root (rt_operation_id transaction +:+ ".json"))
                                      (receipt_of transaction request now))) in
      Ret (Ok tt)
  end.

(** The newest file of the loop over the directory. *)
Definition newer_receipt (newest : option (Z * string)) (entry : option string) :
    update (result (option (Z * string)) IntegrationReceiptError) :=
  match entry with
  | None => Ret (Err ReceiptReadFailed)
  | Some path =>
      if negb (bool_decide (path_extension path = Some "json")) then Ret (Ok newest)
      else
        do! modified := ask (CModified path) in
        match modified with
        | None => Ret (Err ReceiptReadFailed)
        | Some modified =>
            if is_none_or newest (λ current, (current.1 <? modified)%Z)
            then Ret (Ok (Some (modified, path))) else Ret (Ok newest)
        end
  end.

Definition read_receipt (bytes : string) :
    result IntegrationRestartReceipt IntegrationReceiptError :=
  check (128 * 1024 <? slen bytes)%N else ReceiptMalformed in
  check negb (utf8_valid bytes) else ReceiptMalformed in
  let? value := ok_or (parse_no_duplicate_keys bytes) ReceiptMalformed in
  let? receipt := ok_or (receipt_of_json value) ReceiptMalformed in
  check negb (String.eqb (rr_schema_id receipt) "star.integration-restart-receipt")
        || negb (rr_schema_version receipt =? 1)%N else ReceiptMalformed in
  Ok receipt.

Definition latest_integration_restart_receipt :
    update (result (option IntegrationRestartReceipt) IntegrationReceiptError) :=
  do! local_appdata := ask (CEnvVar "LOCALAPPDATA") in
  match local_appdata with
  | None => Ret (Err ReceiptLocalAppData)
  | Some local_appdata =>
      let root := path_join local_appdata "Star-Control/updates" in
      do! exists_ := ask (CExists root) in
      if negb exists_ then Ret (Ok None)
      else
        do? root := prog_map_err (λ _, ReceiptUnsafeDirectory)
                      (ask (CCanonicalFixedDirectory root)) in
        do! entries := ask (CReadDir root) in
        match entries with
        | None => Ret (Err ReceiptReadFailed)
        | Some entries =>
            do? newest := prog_fold newer_receipt None entries in
            match newest with
            | None => Ret (Ok None)
            | Some (_, path) =>
                do! bytes := ask (CReadFile path) in
                match bytes with
                | None => Ret (Err ReceiptReadFailed)
                | Some bytes =>
                    match read_receipt bytes with
                    | Ok receipt => Ret (Ok (Some receipt))
                    | Err e => Ret (Err e)
                    end
                end
            end
        end
  end.

Definition transition_or_error (transitioned : bool) : result unit IntegrationRestartError :=
  if transitioned then Ok tt else Err RStateTransition.

(** [transition_or_error(transaction.step())?]. *)
Definition moving {A} (step : RestartTransaction * bool)
    (f : RestartTransaction → update (result A IntegrationRestartError)) :
    update (result A IntegrationRestartError) :=
  do? _ := Ret (transition_or_error step.2) in f step.1.

Definition persist_aborted (transaction : RestartTransaction)
    (request : IntegrationRepairRestartRequest) : update RestartTransaction :=
  let transaction := (transition transaction (rt_state transaction) RsAborted).1 in
  do! _ := persist_receipt transaction request in
  Ret transaction.

Definition persist_rollback_required (transaction : RestartTransaction)
    (request : IntegrationRepairRestartRequest) : update RestartTransaction :=
  let transaction := (transition transaction RsApplying RsRollbackRequired).1 in
  do! _ := persist_receipt transaction request in
  Ret transaction.

Definition persist_relaunch_failed (transaction : RestartTransaction)
    (request : IntegrationRepairRestartRequest) : update RestartTransaction :=
  let transaction := (transition transaction RsRelaunching RsRelaunchFailed).1 in
  do! _ := persist_receipt transaction request in
  Ret transaction.

Definition relaunch_after_failure (desktop : string) : update unit :=
  do! _ := ask (CSpawn desktop) in Ret tt.

Definition abort_and_relaunch (transaction : RestartTransaction)
    (request : IntegrationRepairRestartRequest) (desktop : string) : update RestartTransaction :=
  do! transaction := persist_aborted transaction request in
  do! _ := relaunch_after_failure desktop in
  Ret transaction.
End steps.
Notation "'move!' x ':=' p 'in' q" := (moving p (λ x, q))
  (at level 10, x pattern, p at level 200, q at level 200) : prog_scope.
