(* ===== verification/UpdaterWaits.v ===== *)
(** * Waiting for the machine

    Models the parts of [crates/control/star-updater-core/src] that wait:
    closing Codex, stopping the processes of an installation and its
    controllers, and reading the registry through the installed command line
    ([integration_restart.rs], [lib.rs]).

    A waiting loop polls until a deadline and sleeps in between; its fuel is the
    number of sleeps that fit in the window, and two, which [UpdaterProgress.v]
    shows to be enough on a clock that does not go back. *)
From S2P Require Import Prelude Canonical Contracts Effects ProcessCensus Restart UpdaterPort.
From S2P Require Import UpdaterSteps.
Open Scope prog_scope.

Section waits.
Context `{WindowsPaths} `{UpdaterHost}.

(** ** Loops with a deadline *)

Fixpoint exit_loop (fuel : nat) (deadline poll_interval : Z)
    (is_exited : update (result bool IntegrationRestartError)) :
    update (result bool IntegrationRestartError) :=
  match fuel with
  | O => Unfinished
  | S fuel' =>
      do? exited := is_exited in
      if exited then Ret (Ok true)
      else
        do! now := ask CInstantNow in
        if (deadline <=? now)%Z then Ret (Ok false)
        else
          do! _ := ask (CSleep (Z.min poll_interval (deadline - now))) in
          exit_loop fuel' deadline poll_interval is_exited
  end.

Definition wait_for_process_exit (timeout poll_interval : Z)
    (is_exited : update (result bool IntegrationRestartError)) :
    update (result bool IntegrationRestartError) :=
  do! now := ask CInstantNow in
  exit_loop (polls timeout poll_interval) (now + timeout)%Z poll_interval is_exited.

Fixpoint terminate_loop (fuel : nat) (deadline poll_interval : Z)
    (terminate : update (result (list N) IntegrationRestartError))
    (is_exited : update (result bool IntegrationRestartError)) (terminated : gset N) :
    update (result (list N * bool) IntegrationRestartError) :=
  match fuel with
  | O => Unfinished
  | S fuel' =>
      do? exited := is_exited in
      if exited then Ret (Ok (pids terminated, true))
      else
        do? more := terminate in
        let terminated := terminated ∪ list_to_set more in
        do? exited := is_exited in
        if exited then Ret (Ok (pids terminated, true))
        else
          do! now := ask CInstantNow in
          if (deadline <=? now)%Z then Ret (Ok (pids terminated, false))
          else
            do! _ := ask (CSleep poll_interval) in
            terminate_loop fuel' deadline poll_interval terminate is_exited terminated
  end.

Definition terminate_until_process_exit (timeout poll_interval : Z)
    (terminate : update (result (list N) IntegrationRestartError))
    (is_exited : update (result bool IntegrationRestartError)) :
    update (result (list N * bool) IntegrationRestartError) :=
  do! now := ask CInstantNow in
  terminate_loop (polls timeout poll_interval) (now + timeout)%Z poll_interval terminate is_exited ∅.

Definition snapshot : update (result (list ProcessIdentity) IntegrationRestartError) :=
  prog_map_err RCensus (ask CSnapshot).

(** ** Closing Codex *)

Definition codex_images_exited (snapshot : list ProcessIdentity) (desktop codex_cli : string) :
    bool :=
  no_items (exact_image_instances snapshot desktop)
  && no_items (exact_image_instances snapshot codex_cli).

Definition codex_exited (desktop codex_cli : string) :
    update (result bool IntegrationRestartError) :=
  do? observed := snapshot in
  Ret (Ok (codex_images_exited observed desktop codex_cli)).

Definition wait_for_codex_exit (desktop codex_cli : string) (timeout : Z) :
    update (result bool IntegrationRestartError) :=
  wait_for_process_exit timeout PROCESS_EXIT_POLL_INTERVAL (codex_exited desktop codex_cli).

Record CodexCloseOutcome := {
  co_graceful_close_pids : list N;
  co_fallback_terminated_pids : list N
}.

Definition terminate_codex (desktop codex_cli : string) :
    update (result (list N) IntegrationRestartError) :=
  do? of_desktop := prog_map_err RCensus
    (terminate_verified_tree_best_effort_excluding desktop (Some own_pid)) in
  do? of_cli := prog_map_err RCensus
    (terminate_verified_tree_best_effort_excluding codex_cli (Some own_pid)) in
  Ret (Ok (of_desktop ++ of_cli)).

Definition close_codex_desktop (desktop codex_cli : string) :
    update (result CodexCloseOutcome IntegrationRestartError) :=
  do? graceful := prog_map_err RCensus (request_graceful_close desktop) in
  do? exited := wait_for_codex_exit desktop codex_cli GRACEFUL_CLOSE_TIMEOUT in
  if exited
  then Ret (Ok {| co_graceful_close_pids := graceful; co_fallback_terminated_pids := [] |})
  else
    do? fallback := terminate_until_process_exit FORCED_CLOSE_TIMEOUT PROCESS_EXIT_POLL_INTERVAL
                      (terminate_codex desktop codex_cli) (codex_exited desktop codex_cli) in
    if negb fallback.2 then Ret (Err RCloseTimeout)
    else Ret (Ok {| co_graceful_close_pids := graceful;
                    co_fallback_terminated_pids := fallback.1 |}).

(** ** The processes of an installation *)

Definition star_executable (name : string) : bool :=
  mem (to_ascii_lowercase name)
    ["star.exe"; "star-controller.exe"; "star-mcp.exe"; "star-updater.exe"].

Definition add_star_image (install_root : string) (images : list string) (p : ProcessIdentity) :
    update (list string) :=
  match pi_image p with
  | Some image =>
      if negb (is_some_and (path_file_name image) star_executable) then Ret images
      else
        do! canonical := ask (CCanonicalize image) in
        Ret (match canonical with
             | Some image =>
                 if existsb (λ ancestor, eq_ignore_ascii_case ancestor install_root)
                            (path_ancestors image)
                 then path_insert image images else images
             | None => images
             end)
  | None => Ret images
  end.

Definition installed_star_images (observed : list ProcessIdentity) (install_root : string) :
    update (list string) :=
  do! canonical := ask (CCanonicalize install_root) in
  match canonical with
  | None => Ret []
  | Some root => prog_each (add_star_image root) [] observed
  end.

Fixpoint drain_loop (fuel : nat) (deadline : Z) (install_root : string) :
    update (result bool IntegrationRestartError) :=
  match fuel with
  | O => Unfinished
  | S fuel' =>
      do! now := ask CInstantNow in
      if (now <? deadline)%Z then
        do? observed := snapshot in
        do! images := installed_star_images observed install_root in
        if no_items images then Ret (Ok true)
        else
          do! _ := ask (CSleep (millis 100)) in
          drain_loop fuel' deadline install_root
      else
        do? observed := snapshot in
        do! images := installed_star_images observed install_root in
        Ret (Ok (no_items images))
  end.

Definition wait_for_installed_star_processes_to_exit (install_root : string) :
    update (result bool IntegrationRestartError) :=
  do! now := ask CInstantNow in
  drain_loop (polls CONTROLLER_DRAIN_TIMEOUT (millis 100)) (now + CONTROLLER_DRAIN_TIMEOUT)%Z
    install_root.

Definition terminate_target (terminated : list N) (target : string) :
    update (result (list N) IntegrationRestartError) :=
  do? more := prog_map_err RCensus (terminate_verified_tree target) in
  Ret (Ok (terminated ++ more)).

Definition terminate_installed_star_processes (install_root : string) :
    update (result (list N) IntegrationRestartError) :=
  do? observed := snapshot in
  do! targets := installed_star_images observed install_root in
  prog_fold terminate_target [] targets.

(** ** Controllers *)

Definition shutdown_controller_for_update (install_root : string) :
    update (result unit IntegrationRestartError) :=
  do? image := prog_map_err RControllerImage (ask (CControllerImage install_root)) in
  do? _ := prog_map_err RController (ask (CClientConfig image)) in
  do! response := ask (CControllerShutdown image) in
  Ret (match response with
       | Ok true => Ok tt
       | Ok false => Err (RController ClientUnavailable)
       | Err ClientUnavailable => Ok tt
       | Err e => Err (RController e)
       end).

(** Whether no process runs the image. *)
Definition image_exited (controller : string) : update (result bool IntegrationRestartError) :=
  do? observed := snapshot in
  Ret (Ok (no_items (exact_image_instances observed controller))).

(** The [while] loop of [shutdown_controller_image_and_wait]: whether the image
    was seen to exit before the deadline. *)
Fixpoint image_drain_loop (fuel : nat) (deadline : Z) (controller : string) :
    update (result bool IntegrationRestartError) :=
  match fuel with
  | O => Unfinished
  | S fuel' =>
      do! now := ask CInstantNow in
      if (now <? deadline)%Z then
        do? exited := image_exited controller in
        if exited then Ret (Ok true)
        else
          do! _ := ask (CSleep (millis 100)) in
          image_drain_loop fuel' deadline controller
      else Ret (Ok false)
  end.

Definition shutdown_controller_image_and_wait (controller : string) :
    update (result (list N) IntegrationRestartError) :=
  do? gone := image_exited controller in
  if gone then Ret (Ok [])
  else
    do? _ := prog_map_err RController (ask (CClientConfig controller)) in
    do! handoff := prog_map_err RController (ask (CControllerShutdown controller)) in
    do! now := ask CInstantNow in
    do? drained := image_drain_loop (polls CONTROLLER_DRAIN_TIMEOUT (millis 100))
                     (now + CONTROLLER_DRAIN_TIMEOUT)%Z controller in
    if drained then Ret (Ok [])
    else
      do? exited := image_exited controller in
      if exited then Ret (Ok [])
      else
        do? terminated := prog_map_err RCensus (terminate_verified_tree controller) in
        do? exited := image_exited controller in
        if exited then Ret (Ok terminated)
        else
          match handoff with
          | Ok _ => Ret (Err RControllerDrainTimeout)
          | Err e => Ret (Err e)
          end.

Definition add_controller_image (generations_root : string) (controllers : list string)
    (p : ProcessIdentity) : update (list string) :=
  match pi_image p with
  | None => Ret controllers
  | Some image =>
      if is_none_or (path_file_name image) (λ name,
           negb (eq_ignore_ascii_case name "star-controller.exe"))
      then Ret controllers
      else
        do! canonical := ask (CCanonicalize image) in
        match canonical with
        | None => Ret controllers
        | Some image =>
            match path_parent image with
            | None => Ret controllers
            | Some generation_root =>
                if is_none_or (path_parent generation_root) (λ parent,
                     negb (eq_ignore_ascii_case parent generations_root))
                then Ret controllers
                else
                  do! manifest := ask (CLoadGeneration generation_root) in
                  match manifest with
                  | Err _ => Ret controllers
                  | Ok manifest =>
                      if negb (bool_decide (path_file_name generation_root
                                            = Some (rg_generation_id (gm_generation manifest))))
                      then Ret controllers
                      else
                        let supplied := gm_controller_path manifest in
                        let expected :=
                          if path_is_absolute supplied then supplied
                          else path_join generation_root supplied in
                        do! canonical := ask (CCanonicalize expected) in
                        if negb (is_some_and canonical (λ expected, path_eq expected image))
                        then Ret controllers
                        else
                          do! opened := ask (COpenController image (gm_controller_sha256 manifest)) in
                          Ret (if opened : bool then path_insert image controllers else controllers)
                  end
            end
        end
  end.

Definition verified_runtime_controller_images (observed : list ProcessIdentity)
    (install_root : string) : update (list string) :=
  do! canonical := ask (CCanonicalize
                           (path_join (path_join install_root "runtime") "generations")) in
  match canonical with
  | None => Ret []
  | Some generations_root => prog_each (add_controller_image generations_root) [] observed
  end.

Definition shutdown_one_controller (terminated : list N) (controller : string) :
    update (result (list N) IntegrationRestartError) :=
  do? more := shutdown_controller_image_and_wait controller in
  Ret (Ok (terminated ++ more)).

Definition shutdown_installed_runtime_controllers (install_root : string) :
    update (result (list N) IntegrationRestartError) :=
  do? observed := snapshot in
  do! controllers := verified_runtime_controller_images observed install_root in
  prog_fold shutdown_one_controller [] controllers.

(** ** The installed command line *)

Definition bounded_registry_attempt_timeout (remaining : Z) : option Z :=
  if (remaining =? 0)%Z then None
  else Some (Z.min remaining INSTALLED_CLI_POSTCHECK_ATTEMPT_TIMEOUT).

Definition readiness_of (item : Json) : option string :=
  match json_str (json_get "readiness" item) with
  | Some readiness =>
      if mem readiness ["ready"; "unavailable"; "untrusted"; "incompatible"; "degraded"]
      then Some readiness else None
  | None => None
  end.

Definition add_tool_id (ready_only : bool) (tool_ids : gset string) (item : Json) :
    result (gset string) IntegrationRestartError :=
  check negb (json_is (json_get "source" item) "release") else RRuntimePostcheck in
  let? readiness := ok_or (readiness_of item) RRuntimePostcheck in
  check ready_only && negb (String.eqb readiness "ready") else RRuntimePostcheck in
  let? tool_id := ok_or (json_str (json_get "tool_id" item)) RRuntimePostcheck in
  check is_empty tool_id else RRuntimePostcheck in
  check bool_decide (tool_id ∈ tool_ids) else RRuntimePostcheck in
  Ok ({[tool_id]} ∪ tool_ids).

Definition tool_ids_from_cli_output (stdout : string) (ready_only : bool) :
    result (gset string) IntegrationRestartError :=
  check negb (utf8_valid stdout) else RRuntimePostcheck in
  let? value := ok_or (parse_no_duplicate_keys stdout) RRuntimePostcheck in
  check negb (json_is (json_get "status" value) "ok") else RRuntimePostcheck in
  match json_get "data" value with
  | Some (JObj fields) =>
      let data := JObj fields in
      match json_get "next_cursor" data with
      | None | Some JNull =>
          match json_get "items" data with
          | Some (JArr items) => fold_result (add_tool_id ready_only) ∅ items
          | _ => Err RRuntimePostcheck
          end
      | Some _ => Err RRuntimePostcheck
      end
  | _ => Err RRuntimePostcheck
  end.

Definition collect_release_tool_ids_via_installed_cli (install_root : string) (ready_only : bool)
    (attempt_timeout : Z) : update (result (gset string) IntegrationRestartError) :=
  let star := path_join install_root "star.exe" in
  do! is_file := ask (CIsFile star) in
  if negb is_file then Ret (Err RRuntimePostcheck)
  else
    let arguments :=
      ["tools"; "list"; "--source"; "release"]
        ++ (if ready_only then ["--readiness"; "ready"] else []) ++ ["--json"] in
    do! output := ask (CRun star arguments [] (Some attempt_timeout)) in
    Ret (match output with
         | None => Err RRuntimePostcheck
         | Some output =>
             if negb (out_success output) || (MAX_OUTPUT_BYTES <? slen (out_stdout output))%N
             then Err RRuntimePostcheck
             else tool_ids_from_cli_output (out_stdout output) ready_only
         end).

Definition complete_release_registry (expected declared ready : gset string) : bool :=
  negb (bool_decide (expected = ∅)) && bool_decide (declared = expected)
  && bool_decide (ready = expected).

(** One turn sleeps at most a quarter of a second, and not past the deadline. *)
Definition registry_pause (deadline : Z) (again : update (result unit IntegrationRestartError)) :
    update (result unit IntegrationRestartError) :=
  do! now := ask CInstantNow in
  let remaining := duration_since deadline now in
  if (remaining =? 0)%Z then Ret (Err RRuntimePostcheck)
  else
    do! _ := ask (CSleep (Z.min remaining (millis 250))) in again.

Fixpoint registry_loop (fuel : nat) (deadline : Z) (install_root : string)
    (expected_tool_ids : gset string) : update (result unit IntegrationRestartError) :=
  match fuel with
  | O => Unfinished
  | S fuel' =>
      do! now := ask CInstantNow in
      match bounded_registry_attempt_timeout (duration_since deadline now) with
      | None => Ret (Err RRuntimePostcheck)
      | Some attempt_timeout =>
          do! declared := collect_release_tool_ids_via_installed_cli install_root false
                            attempt_timeout in
          do! now := ask CInstantNow in
          match bounded_registry_attempt_timeout (duration_since deadline now) with
          | None => Ret (Err RRuntimePostcheck)
          | Some attempt_timeout =>
              do! ready := collect_release_tool_ids_via_installed_cli install_root true
                             attempt_timeout in
              let again :=
                registry_pause deadline
                  (registry_loop fuel' deadline install_root expected_tool_ids) in
              match declared, ready with
              | Ok declared, Ok ready =>
                  if complete_release_registry expected_tool_ids declared ready
                  then Ret (Ok tt) else again
              | _, _ => again
              end
          end
      end
  end.

Definition verify_active_release_registry (install_root : string)
    (expected_tool_ids : gset string) : update (result unit IntegrationRestartError) :=
  do? image := prog_map_err RControllerImage (ask (CControllerImage install_root)) in
  do? _ := prog_map_err RControllerImage (ask (CStartBackground image)) in
  do! now := ask CInstantNow in
  registry_loop (polls INSTALLED_CLI_POSTCHECK_WINDOW (millis 250))
    (now + INSTALLED_CLI_POSTCHECK_WINDOW)%Z install_root expected_tool_ids.

Fixpoint probe_loop (fuel : nat) (deadline : Z) (install_root : string) :
    update (result unit IntegrationRestartError) :=
  match fuel with
  | O => Unfinished
  | S fuel' =>
      do! now := ask CInstantNow in
      match bounded_registry_attempt_timeout (duration_since deadline now) with
      | None => Ret (Err RRuntimePostcheck)
      | Some attempt_timeout =>
          do! declared := collect_release_tool_ids_via_installed_cli install_root false
                            attempt_timeout in
          match declared with
          | Ok _ => Ret (Ok tt)
          | Err _ => registry_pause deadline (probe_loop fuel' deadline install_root)
          end
      end
  end.

Definition probe_active_controller_via_installed_cli (install_root : string) :
    update (result unit IntegrationRestartError) :=
  do? image := prog_map_err RControllerImage (ask (CControllerImage install_root)) in
  do? _ := prog_map_err RControllerImage (ask (CStartBackground image)) in
  do! now := ask CInstantNow in
  probe_loop (polls INSTALLED_CLI_POSTCHECK_WINDOW (millis 250))
    (now + INSTALLED_CLI_POSTCHECK_WINDOW)%Z install_root.

(** [serde_json::Value::pointer] on the one path the postcheck reads. *)
Definition installed_cli_postcheck_json (stdout : string) : bool :=
  utf8_valid stdout
  && is_some_and (parse_no_duplicate_keys (trim stdout)) (λ value,
       json_is (json_get "schema_id" value) "star.ipc.response"
       && json_is (json_get "status" value) "ok"
       && json_is
            (match json_get "data" value with
             | Some data =>
                 match json_get "result" data with
                 | Some result => json_get "status" result
                 | None => None
                 end
             | None => None
             end) "pass").

Fixpoint postcheck_loop (fuel : nat) (deadline : Z) (cli : string) : update bool :=
  match fuel with
  | O => Unfinished
  | S fuel' =>
      do! now := ask CInstantNow in
      let remaining := duration_since deadline now in
      if (remaining =? 0)%Z then Ret false
      else
        do! output := ask (CRun cli ["doctor"; "--json"] []
                              (Some (Z.min remaining INSTALLED_CLI_POSTCHECK_ATTEMPT_TIMEOUT))) in
        if is_some_and output (λ output,
             out_success output && (slen (out_stdout output) <=? MAX_OUTPUT_BYTES)%N
             && installed_cli_postcheck_json (out_stdout output))
        then Ret true
        else
          do! _ := ask (CSleep (millis 250)) in
          postcheck_loop fuel' deadline cli
  end.

Definition installed_cli_controller_postcheck (install_root : string) : update bool :=
  do! now := ask CInstantNow in
  postcheck_loop (polls INSTALLED_CLI_POSTCHECK_WINDOW (millis 250))
    (now + INSTALLED_CLI_POSTCHECK_WINDOW)%Z (path_join install_root "star.exe").
End waits.
