(* ===== verification/Updater.v ===== *)
(** * The flows of the updater

    Models the operations of [crates/control/star-updater-core/src]: the restart
    of Codex with an integration candidate or an offline installer and the
    reconciliation of the installed runtime ([integration_restart.rs]), the
    activation of a runtime generation and the detached start of the updater
    ([lib.rs]).  Each is a program of calls to the machine; [UpdaterFacts.v] and
    the files after it say what every run of it does. *)
From S2P Require Import Prelude Canonical Contracts Effects ProcessCensus Restart UpdaterPort.
From S2P Require Import UpdaterSteps UpdaterWaits.
Open Scope prog_scope.

Record IntegrationRepairRestartOutcome := {
  io_operation_id : string;
  io_final_state : RestartState;
  io_affected_instance_count : N;
  io_graceful_close_pids : list N;
  io_fallback_terminated_pids : list N;
  io_relaunched_pid : N;
  io_integration_state : string
}.

Record IntegrationCandidateRestartRequest := {
  cr_install_root : string;
  cr_candidate_root : string;
  cr_approval_scope_sha256 : Sha256Hash;
  cr_codex_desktop_executable : string
}.

Record OfflineInstallerRestartRequest := {
  or_install_root : string;
  or_installer_executable : string;
  or_codex_desktop_executable : string
}.

Record InstalledRuntimeReconcileOutcome := {
  ro_operation_id : string;
  ro_recovered_restart_operation_id : option string;
  ro_activation_changed : bool;
  ro_prior_generation_id : string;
  ro_active_generation_id : string;
  ro_activation_revision : N;
  ro_expected_tool_ids : gset string;
  ro_fallback_terminated_pids : list N;
  ro_integration_state : string
}.

Record RuntimeApplyRequest := {
  ru_install_root : string;
  ru_generation_id : string;
  ru_state_generation_id : string;
  ru_approval_scope_sha256 : Sha256Hash
}.

Inductive RuntimeApplyOutcome :=
| RuntimeCommitted (activation_revision : N) (active : RuntimeGenerationRef)
    (candidate_review : RuntimeCandidateReview) (requires_codex_restart : bool)
| RuntimeRolledBack (failure : string).

Inductive RuntimeApplyError :=
| ACandidateRejected
| AUpdateLease (e : UpdateLeaseError)
| AWindows (e : WindowsAdapterError)
| AControllerStart (e : ControllerStartError)
| ACandidateManifest (reason : string)
| AControllerQuiesce (reason : string)
| AControllerPostcheck
| ARollbackFailed (apply_failure rollback_failure : string).

Definition postcheck_text : string :=
  "active Runtime Controller did not pass the installed CLI postcheck".

Section flows.
Context `{WindowsPaths} `{UpdaterHost}.

(** ** Executables *)

Definition verified_desktop (path : string) : update (result string IntegrationRestartError) :=
  if negb (path_is_absolute path) then Ret (Err RDesktopExecutable)
  else
    do! is_file := ask (CIsFile path) in
    Ret (if is_file then Ok path else Err RDesktopExecutable).

Definition verified_installer (path : string) : update (result string IntegrationRestartError) :=
  if negb (path_is_absolute path) then Ret (Err RInstallerExecutable)
  else
    do! is_file := ask (CIsFile path) in
    Ret (if negb is_file
            || is_none_or (path_extension path) (λ value, negb (eq_ignore_ascii_case value "exe"))
         then Err RInstallerExecutable else Ok path).

Definition verified_codex_cli (desktop : string) : update (result string IntegrationRestartError) :=
  match path_parent desktop with
  | None => Ret (Err RCodexCli)
  | Some app =>
      let cli := path_join (path_join app "resources") "codex.exe" in
      do! is_file := ask (CIsFile cli) in
      Ret (if is_file then Ok cli else Err RCodexCli)
  end.

Definition safe_installer_temp_directory : update (result string IntegrationRestartError) :=
  do! local_appdata := ask (CEnvVar "LOCALAPPDATA") in
  match local_appdata with
  | None => Ret (Err (RInstallation UnsafePath))
  | Some local_appdata =>
      prog_map_err RInstallation
        (ask (CEnsureFixedDirectory
                 (path_join (path_join local_appdata "Star-Control") "installer-temp")))
  end.

(** ** From the plan to closed windows

    What [run_offline_installer_and_restart] and [restart_codex_integration]
    share: the transaction is armed, its countdown passes and Codex is closed.
    [f] is what follows. *)

Definition new_operation_id : update string :=
  do! nonce := ask CNonce in Ret ("upd_" +:+ nonce).

Definition codex_closed {A} (request : IntegrationRepairRestartRequest) (desktop codex_cli : string)
    (instances : list ProcessIdentity)
    (f : RestartTransaction → CodexCloseOutcome → update (result A IntegrationRestartError)) :
    update (result A IntegrationRestartError) :=
  do! operation_id := new_operation_id in
  move! transaction := stage (rt_new operation_id) in
  move! transaction := verify_candidate transaction (as_u32 (len instances)) None in
  do? _ := persist_receipt transaction request in
  do! now := ask CUtcNow in
  match arm transaction now with
  | (_, None) => Panic
  | (transaction, Some deadline) =>
      do? _ := persist_receipt transaction request in
      do! now := ask CUtcNow in
      do! _ := ask (CSleep (duration_since deadline now)) in
      do! now := ask CUtcNow in
      move! transaction := begin_draining transaction now in
      do? _ := persist_receipt transaction request in
      do! closed := close_codex_desktop desktop codex_cli in
      match closed with
      | Err error =>
          do! _ := abort_and_relaunch transaction request desktop in
          Ret (Err error)
      | Ok closed =>
          move! transaction := transition transaction RsDraining RsCodexStopped in
          do? _ := persist_receipt transaction request in
          f transaction closed
      end
  end.

(** The states after a relaunch, which both flows go through at their end. *)
Definition relaunched (transaction : RestartTransaction) (request : IntegrationRepairRestartRequest)
    (instances : list ProcessIdentity) (closed : CodexCloseOutcome) (installed_pids : list N)
    (relaunched_pid : N) (integration_state : string) :
    update (result IntegrationRepairRestartOutcome IntegrationRestartError) :=
  move! transaction := transition transaction RsRelaunching RsOnlinePostcheck in
  move! transaction := transition transaction RsOnlinePostcheck RsAppliedValidationPending in
  move! transaction := transition transaction RsAppliedValidationPending RsExited in
  do? _ := persist_receipt transaction request in
  Ret (Ok {| io_operation_id := rt_operation_id transaction;
             io_final_state := rt_state transaction;
             io_affected_instance_count := as_u32 (len instances);
             io_graceful_close_pids := co_graceful_close_pids closed;
             io_fallback_terminated_pids :=
               co_fallback_terminated_pids closed ++ installed_pids;
             io_relaunched_pid := relaunched_pid;
             io_integration_state := integration_state |}).

(** ** The runtime selector *)

Definition next_runtime_activation (prior : RuntimeActivationRecord)
    (bundled : RuntimeGenerationRef) (state_generation_id : string) (now : DateTime) :
    option RuntimeActivationRecord :=
  if bool_decide (ra_active prior = bundled) then None
  else Some {| ra_schema_id := "star.runtime-activation-record"; ra_schema_version := 1;
               ra_activation_revision := saturating_add u64_max (ra_activation_revision prior) 1;
               ra_active := bundled; ra_previous := Some (ra_active prior);
               ra_state_generation_id := state_generation_id;
               ra_bridge_contract_version := ra_bridge_contract_version prior;
               ra_activated_at := now |}.

(** The clock is read only when a record is made. *)
Definition next_activation (prior : RuntimeActivationRecord) (bundled : RuntimeGenerationRef)
    (state_generation_id : string) : update (option RuntimeActivationRecord) :=
  if bool_decide (ra_active prior = bundled) then Ret None
  else
    do! now := ask CUtcNow in
    Ret (next_runtime_activation prior bundled state_generation_id now).

Definition next_offline_runtime_activation (prior : RuntimeActivationRecord)
    (bundled : RuntimeGenerationRef) (operation_id : string) :=
  next_activation prior bundled ("offline_installer_" +:+ operation_id).

Definition next_installed_runtime_reconcile_activation (prior : RuntimeActivationRecord)
    (bundled : RuntimeGenerationRef) (operation_id : string) :=
  next_activation prior bundled ("installed_runtime_reconcile_" +:+ operation_id).

Definition activate (root : string) (record : RuntimeActivationRecord) (version : N) :
    update (result unit IntegrationRestartError) :=
  prog_map_err RInstallation (ask (CActivateBridge root record version)).

Definition restore_prior_runtime (install_root : string) (prior : RuntimeActivationRecord) :
    update (result unit IntegrationRestartError) :=
  do! _ := shutdown_controller_for_update install_root in
  do? _ := wait_for_installed_star_processes_to_exit install_root in
  do? _ := terminate_installed_star_processes install_root in
  do? _ := activate install_root prior (ra_bridge_contract_version prior) in
  do? _ := probe_active_controller_via_installed_cli install_root in
  Ret (Ok tt).

Definition recover_runtime_selector_and_relaunch (request : IntegrationRepairRestartRequest)
    (transaction : RestartTransaction) (prior : RuntimeActivationRecord) (desktop : string) :
    update (result unit IntegrationRestartError) :=
  move! transaction := transition transaction RsApplying RsRollbackRequired in
  do? _ := persist_receipt transaction request in
  move! transaction := transition transaction RsRollbackRequired RsRollingBack in
  do! rollback := restore_prior_runtime (rq_install_root request) prior in
  match rollback with
  | Err error =>
      move! transaction := transition transaction RsRollingBack RsRollbackFailed in
      do? _ := persist_receipt transaction request in
      do! _ := relaunch_after_failure desktop in
      Ret (Err error)
  | Ok _ =>
      move! transaction := transition transaction RsRollingBack RsPartiallyApplied in
      do? _ := persist_receipt transaction request in
      do! spawned := ask (CSpawn desktop) in
      Ret (if is_some spawned then Ok tt else Err RRelaunch)
  end.

(** ** The offline installer *)

(** The relaunch after a failure of the installer. *)
Definition rollback_required {A} (transaction : RestartTransaction)
    (request : IntegrationRepairRestartRequest) (desktop : string) (error : IntegrationRestartError) :
    update (result A IntegrationRestartError) :=
  do! _ := persist_rollback_required transaction request in
  do! _ := relaunch_after_failure desktop in
  Ret (Err error).

(** [Err(error) => { persist_rollback_required; relaunch; return Err }]. *)
Definition or_rollback_required {A B} (transaction : RestartTransaction)
    (request : IntegrationRepairRestartRequest) (desktop : string)
    (step : update (result A IntegrationRestartError))
    (f : A → update (result B IntegrationRestartError)) :
    update (result B IntegrationRestartError) :=
  do! r := step in
  match r with
  | Ok a => f a
  | Err error => rollback_required transaction request desktop error
  end.

(** The end of the transaction once the integration is known to be good. *)
Definition offline_relaunch (transaction : RestartTransaction)
    (request : IntegrationRepairRestartRequest) (instances : list ProcessIdentity)
    (closed : CodexCloseOutcome) (installed_pids : list N) (desktop integration_state : string) :
    update (result IntegrationRepairRestartOutcome IntegrationRestartError) :=
  move! transaction := transition transaction RsApplying RsOfflineVerified in
  do? _ := persist_receipt transaction request in
  move! transaction := transition transaction RsOfflineVerified RsRelaunching in
  do! spawned := ask (CSpawn desktop) in
  match spawned with
  | None => Ret (Err RRelaunch)
  | Some pid =>
      relaunched transaction request instances closed installed_pids pid integration_state
  end.

(** After the selector may have been changed. *)
Definition offline_postcheck (transaction : RestartTransaction)
    (request : IntegrationRepairRestartRequest) (instances : list ProcessIdentity)
    (closed : CodexCloseOutcome) (installed_pids : list N) (desktop : string)
    (prior : RuntimeActivationRecord) (expected_tool_ids : gset string)
    (activation_changed : bool) :
    update (result IntegrationRepairRestartOutcome IntegrationRestartError) :=
  let root := rq_install_root request in
  let partially_applied :=
    do? _ := recover_runtime_selector_and_relaunch request transaction prior desktop in
    Ret (Err RRuntimePartiallyApplied) in
  do! verified := verify_active_release_registry root expected_tool_ids in
  match verified with
  | Err _ =>
      if activation_changed then partially_applied
      else rollback_required transaction request desktop RRuntimePostcheck
  | Ok _ =>
      do! integration :=
        prog_map_err RIntegration
          (do? _ := ask CIntegrationManager in ask (CIntegrationStatus root)) in
      match integration with
      | Err error =>
          if activation_changed then partially_applied
          else rollback_required transaction request desktop error
      | Ok state =>
          offline_relaunch transaction request instances closed installed_pids desktop state
      end
  end.

(** From the successful installer on. *)
Definition offline_installed (transaction : RestartTransaction)
    (request : IntegrationRepairRestartRequest) (instances : list ProcessIdentity)
    (closed : CodexCloseOutcome) (installed_pids : list N) (desktop : string) :
    update (result IntegrationRepairRestartOutcome IntegrationRestartError) :=
  let root := rq_install_root request in
  let guarded {A B} := @or_rollback_required A B transaction request desktop in
  do? _ := prog_map_err RInstallation (ask CInstallationManager) in
  guarded (prog_map_err RInstallation (ask (CInstallationStatus root))) (λ _,
  guarded (prog_map_err RInstallation (ask (CLoadActivation root))) (λ prior,
  guarded (prog_map_err RInstallation (ask (CBundledGeneration root))) (λ bundled,
  guarded (prog_map_err RInstallation (ask (CToolIds root bundled))) (λ expected_tool_ids,
  do! next := next_offline_runtime_activation prior bundled (rt_operation_id transaction) in
  let postcheck := offline_postcheck transaction request instances closed installed_pids desktop
                     prior expected_tool_ids in
  match next with
  | None => postcheck false
  | Some next =>
      do! activated := activate root next (ra_bridge_contract_version prior) in
      match activated with
      | Err _ =>
          do? _ := recover_runtime_selector_and_relaunch request transaction prior desktop in
          Ret (Err RRuntimePartiallyApplied)
      | Ok _ => postcheck true
      end
  end)))).

Definition installer_arguments (install_root : string) : list string :=
  ["/VERYSILENT"; "/SUPPRESSMSGBOXES"; "/NORESTART"; "/DIR=" +:+ install_root].

Definition offline_apply (installer desktop : string) (request : IntegrationRepairRestartRequest)
    (instances : list ProcessIdentity) (transaction : RestartTransaction)
    (closed : CodexCloseOutcome) :
    update (result IntegrationRepairRestartOutcome IntegrationRestartError) :=
  let root := rq_install_root request in
  do! _ := shutdown_controller_for_update root in
  do? _ := wait_for_installed_star_processes_to_exit root in
  do? installed_pids := terminate_installed_star_processes root in
  move! transaction := transition transaction RsCodexStopped RsApplying in
  do? installer_temp := safe_installer_temp_directory in
  do! status := ask (CRun installer (installer_arguments root)
                        [("TEMP", installer_temp); ("TMP", installer_temp)] None) in
  match status with
  | None => Ret (Err RInstallerExecutable)
  | Some status =>
      if negb (out_success status)
      then rollback_required transaction request desktop
             (RInstaller (default (-1)%Z (out_code status)))
      else offline_installed transaction request instances closed installed_pids desktop
  end.

Definition run_offline_installer_and_restart (request : OfflineInstallerRestartRequest) :
    update (result IntegrationRepairRestartOutcome IntegrationRestartError) :=
  with_update_lease RUpdateLease
    (do? installer := verified_installer (or_installer_executable request) in
     do? desktop := verified_desktop (or_codex_desktop_executable request) in
     do? codex_cli := verified_codex_cli desktop in
     do? observed := snapshot in
     let instances := exact_image_instances observed desktop in
     if no_items instances then Ret (Err RNoInstance)
     else
       let receipt_request :=
         {| rq_install_root := or_install_root request; rq_codex_desktop_executable := desktop |} in
       codex_closed receipt_request desktop codex_cli instances
         (offline_apply installer desktop receipt_request instances)).

(** ** The restart with an integration candidate *)

Definition rollback_failed {A} (transaction : RestartTransaction)
    (request : IntegrationRepairRestartRequest) (desktop : string) (error : IntegrationRestartError) :
    update (result A IntegrationRestartError) :=
  move! transaction := transition transaction RsRollingBack RsRollbackFailed in
  do? _ := persist_receipt transaction request in
  do! _ := relaunch_after_failure desktop in
  Ret (Err error).

Definition rollback_and_relaunch (request : IntegrationRepairRestartRequest)
    (transaction : RestartTransaction) (backup desktop codex_cli : string) :
    update (result unit IntegrationRestartError) :=
  move! transaction := transition transaction RsApplying RsRollbackRequired in
  do? _ := persist_receipt transaction request in
  move! transaction := transition transaction RsRollbackRequired RsRollingBack in
  do! restored := ask (CRollbackCandidate (rq_install_root request) backup) in
  match restored with
  | Err error => rollback_failed transaction request desktop (RRollback error)
  | Ok _ =>
      do! codex := ask CIntegrationManager in
      match codex with
      | Err error => rollback_failed transaction request desktop (RRollbackIntegration error)
      | Ok _ =>
          do! repaired := ask (CRepair (rq_install_root request) codex_cli) in
          match repaired with
          | Err error => rollback_failed transaction request desktop (RRollbackIntegration error)
          | Ok _ =>
              move! transaction := transition transaction RsRollingBack RsRolledBack in
              do? _ := persist_receipt transaction request in
              do! spawned := ask (CSpawn desktop) in
              Ret (if is_some spawned then Ok tt else Err RRelaunch)
          end
      end
  end.

(** [Err(error) => { abort_and_relaunch; return Err(error) }]. *)
Definition or_abort {A B} (transaction : RestartTransaction)
    (request : IntegrationRepairRestartRequest) (desktop : string)
    (step : update (result A IntegrationRestartError))
    (f : A → update (result B IntegrationRestartError)) :
    update (result B IntegrationRestartError) :=
  do! r := step in
  match r with
  | Ok a => f a
  | Err error =>
      do! _ := abort_and_relaunch transaction request desktop in
      Ret (Err error)
  end.

(** From the repaired integration on. *)
Definition restart_relaunch (transaction : RestartTransaction)
    (request : IntegrationRepairRestartRequest) (instances : list ProcessIdentity)
    (closed : CodexCloseOutcome) (installed_pids : list N) (desktop integration_state : string) :
    update (result IntegrationRepairRestartOutcome IntegrationRestartError) :=
  move! transaction := transition transaction RsApplying RsOfflineVerified in
  do? _ := persist_receipt transaction request in
  move! transaction := transition transaction RsOfflineVerified RsRelaunching in
  do! spawned := ask (CSpawn desktop) in
  match spawned with
  | None =>
      do! _ := persist_relaunch_failed transaction request in
      Ret (Err RRelaunch)
  | Some pid =>
      relaunched transaction request instances closed installed_pids pid integration_state
  end.

(** The candidate is applied, when there is one. *)
Definition apply_candidate (request : IntegrationRepairRestartRequest)
    (candidate : option (string * Sha256Hash)) (operation_id : string) :
    update (result (option string) IntegrationRestartError) :=
  match candidate with
  | Some (candidate_root, approval_scope_sha256) =>
      do? backup := prog_map_err RInstallation
        (ask (CApplyCandidate (rq_install_root request) candidate_root approval_scope_sha256
                               operation_id)) in
      Ret (Ok (Some backup))
  | None => Ret (Ok None)
  end.

Definition commit_candidate (backup : option string) :
    update (result unit IntegrationRestartError) :=
  match backup with
  | Some backup => prog_map_err RInstallation (ask (CCommitCandidate backup))
  | None => Ret (Ok tt)
  end.

Definition restart_apply (desktop codex_cli : string) (request : IntegrationRepairRestartRequest)
    (candidate : option (string * Sha256Hash)) (instances : list ProcessIdentity)
    (transaction : RestartTransaction) (closed : CodexCloseOutcome) :
    update (result IntegrationRepairRestartOutcome IntegrationRestartError) :=
  let root := rq_install_root request in
  do! _ := shutdown_controller_for_update root in
  or_abort transaction request desktop (wait_for_installed_star_processes_to_exit root) (λ _,
  or_abort transaction request desktop (terminate_installed_star_processes root) (λ installed_pids,
  move! transaction := transition transaction RsCodexStopped RsApplying in
  or_abort transaction request desktop
    (apply_candidate request candidate (rt_operation_id transaction)) (λ backup,
  or_abort transaction request desktop (prog_map_err RIntegration (ask CIntegrationManager)) (λ _,
  do! repaired := ask (CRepair root codex_cli) in
  match repaired with
  | Err error =>
      match backup with
      | Some backup =>
          do? _ := rollback_and_relaunch request transaction backup desktop codex_cli in
          Ret (Err RRolledBack)
      | None => rollback_required transaction request desktop (RIntegration error)
      end
  | Ok state =>
      or_abort transaction request desktop (commit_candidate backup) (λ _,
      restart_relaunch transaction request instances closed installed_pids desktop state)
  end)))).

(** The gate of an approved candidate. *)
Definition candidate_accepted (review : IntegrationCandidateReview) (approval : Sha256Hash) : bool :=
  bool_decide (ic_candidate_class review = CodexIntegrationUpdate)
  && String.eqb (ic_approval_scope_sha256 review) approval
  && ic_requires_codex_restart review && ic_rollback_available review.

Definition review_candidate (install_root : string) (candidate : option (string * Sha256Hash)) :
    update (result unit IntegrationRestartError) :=
  match candidate with
  | None => Ret (Ok tt)
  | Some (candidate_root, approval) =>
      do? review := prog_map_err RInstallation
        (ask (CInspectIntegration install_root candidate_root)) in
      Ret (if candidate_accepted review approval then Ok tt else Err RCandidateRejected)
  end.

Definition restart_codex_integration (request : IntegrationRepairRestartRequest)
    (candidate : option (string * Sha256Hash)) :
    update (result IntegrationRepairRestartOutcome IntegrationRestartError) :=
  let root := rq_install_root request in
  with_update_lease RUpdateLease
    (do? _ := prog_map_err RInstallation (ask CInstallationManager) in
     do? _ := prog_map_err RInstallation (ask (CRecoverCandidates root)) in
     do? _ := prog_map_err RInstallation (ask (CInstallationStatus root)) in
     do? _ := review_candidate root candidate in
     do? desktop := verified_desktop (rq_codex_desktop_executable request) in
     do? codex_cli := verified_codex_cli desktop in
     do? observed := snapshot in
     let instances := exact_image_instances observed desktop in
     if no_items instances then Ret (Err RNoInstance)
     else codex_closed request desktop codex_cli instances
            (restart_apply desktop codex_cli request candidate instances)).

Definition repair_codex_integration_and_restart (request : IntegrationRepairRestartRequest) :=
  restart_codex_integration request None.

Definition apply_codex_integration_candidate_and_restart
    (request : IntegrationCandidateRestartRequest) :=
  restart_codex_integration
    {| rq_install_root := cr_install_root request;
       rq_codex_desktop_executable := cr_codex_desktop_executable request |}
    (Some (cr_candidate_root request, cr_approval_scope_sha256 request)).

(** ** Reconciling the installed runtime *)

Definition is_preapply_restart_state (state : RestartState) : bool :=
  match state with
  | RsPlanned | RsStaged | RsCandidateVerified | RsRestartArmed | RsCountdown | RsDraining
  | RsCodexStopped => true
  | _ => false
  end.

Definition same_existing_path (left_path right_path : string) : update bool :=
  do! a := ask (CCanonicalize left_path) in
  do! b := ask (CCanonicalize right_path) in
  Ret (match a, b with
       | Some a, Some b => eq_ignore_ascii_case a b
       | _, _ => eq_ignore_ascii_case left_path right_path
       end).

Definition abort_interrupted_preapply_restart (install_root : string) :
    update (result (option string) IntegrationRestartError) :=
  do? receipt := prog_map_err RReceiptRead latest_integration_restart_receipt in
  match receipt with
  | None => Ret (Ok None)
  | Some receipt =>
      do! same := same_existing_path (rr_install_root receipt) install_root in
      if negb same || negb (is_preapply_restart_state (rr_state receipt)) then Ret (Ok None)
      else
        let transaction :=
          {| rt_operation_id := rr_operation_id receipt; rt_state := rr_state receipt;
             rt_affected_instance_count := rr_affected_instance_count receipt;
             rt_affected_task_count := rr_affected_task_count receipt;
             rt_countdown_deadline := None |} in
        move! transaction := transition transaction (rt_state transaction) RsAborted in
        do? _ := persist_receipt transaction
          {| rq_install_root := rr_install_root receipt;
             rq_codex_desktop_executable := rr_codex_desktop_executable receipt |} in
        Ret (Ok (Some (rt_operation_id transaction)))
  end.

Definition restore_runtime_selector (install_root : string) (prior : RuntimeActivationRecord) :
    update (result unit IntegrationRestartError) :=
  do? candidate_controller := prog_map_err RControllerImage (ask (CControllerImage install_root)) in
  do? _ := activate install_root prior (ra_bridge_contract_version prior) in
  do? _ := shutdown_controller_image_and_wait candidate_controller in
  do? image := prog_map_err RControllerImage (ask (CControllerImage install_root)) in
  do? _ := prog_map_err RControllerImage (ask (CStartBackground image)) in
  Ret (Ok tt).

Definition reconcile_rollback {A} (install_root : string) (prior : RuntimeActivationRecord)
    (error : IntegrationRestartError) : update (result A IntegrationRestartError) :=
  let reason := restart_text error in
  do! restored := restore_runtime_selector install_root prior in
  Ret (Err (match restored with
            | Err rollback =>
                RRuntimeReconcileRollbackFailed
                  (reason +:+ "; rollback: " +:+ restart_text rollback)
            | Ok _ => RRuntimeReconcileRolledBack reason
            end)).

(** The selector is moved, and the controller of the prior one is stopped. *)
Definition reconcile_activate (install_root : string) (prior : RuntimeActivationRecord)
    (next : option RuntimeActivationRecord) : update (result (list N) IntegrationRestartError) :=
  match next with
  | None => Ret (Ok [])
  | Some next =>
      do? prior_controller := prog_map_err RControllerImage (ask (CControllerImage install_root)) in
      do? _ := activate install_root next (ra_bridge_contract_version prior) in
      do! stopped := shutdown_controller_image_and_wait prior_controller in
      match stopped with
      | Ok terminated => Ret (Ok terminated)
      | Err error => reconcile_rollback install_root prior error
      end
  end.

Definition reconcile_installed_runtime (install_root : string) :
    update (result InstalledRuntimeReconcileOutcome IntegrationRestartError) :=
  with_update_lease RUpdateLease
    (do? recovered := abort_interrupted_preapply_restart install_root in
     do? _ := prog_map_err RInstallation (ask CInstallationManager) in
     do? _ := prog_map_err RInstallation (ask (CInstallationStatus install_root)) in
     do? prior := prog_map_err RInstallation (ask (CLoadActivation install_root)) in
     do? bundled := prog_map_err RInstallation (ask (CBundledGeneration install_root)) in
     do? expected_tool_ids := prog_map_err RInstallation (ask (CToolIds install_root bundled)) in
     do! operation_id := new_operation_id in
     do! next := next_installed_runtime_reconcile_activation prior bundled operation_id in
     do? fallback := reconcile_activate install_root prior next in
     do! postcheck :=
       (do? _ := verify_active_release_registry install_root expected_tool_ids in
        prog_map_err RIntegration
          (do? _ := ask CIntegrationManager in ask (CIntegrationStatus install_root))) in
     match postcheck with
     | Err error =>
         if is_some next then reconcile_rollback install_root prior error else Ret (Err error)
     | Ok integration_state =>
         do? active := prog_map_err RInstallation (ask (CLoadActivation install_root)) in
         if negb (bool_decide (ra_active active = bundled)) then Ret (Err RRuntimePostcheck)
         else
           Ret (Ok {| ro_operation_id := operation_id;
                      ro_recovered_restart_operation_id := recovered;
                      ro_activation_changed := is_some next;
                      ro_prior_generation_id := rg_generation_id (ra_active prior);
                      ro_active_generation_id := rg_generation_id (ra_active active);
                      ro_activation_revision := ra_activation_revision active;
                      ro_expected_tool_ids := expected_tool_ids;
                      ro_fallback_terminated_pids := fallback;
                      ro_integration_state := integration_state |})
     end).

(** ** Activating a runtime generation *)

Definition runtime_candidate_accepted (review : RuntimeCandidateReview) (approval : Sha256Hash) :
    bool :=
  String.eqb (rc_approval_scope_sha256 review) approval
  && rc_handler_ready review && rc_bridge_compatible review && rc_rollback_available review
  && negb (rc_breaking_schema review) && negb (rc_risk_lane_widened review)
  && negb (rc_permission_widened review) && negb (rc_requires_codex_restart review)
  && negb (rc_requires_new_task review) && negb (rc_hook_review_required review).

Definition rollback_runtime_generation (install_root : string) (prior : RuntimeActivationRecord)
    (candidate : RuntimeGenerationRef) (candidate_controller : option string) (failure : string) :
    update (result RuntimeApplyOutcome RuntimeApplyError) :=
  let rollback_failed {A} (text : string) : update (result A RuntimeApplyError) :=
    Ret (Err (ARollbackFailed failure text)) in
  do! quiesced :=
    (if is_some candidate_controller
     then do? _ := shutdown_installed_runtime_controllers install_root in Ret (Ok tt)
     else Ret (Ok tt)) in
  match quiesced with
  | Err error => rollback_failed (restart_text error)
  | Ok _ =>
      do! now := ask CUtcNow in
      let rollback :=
        {| ra_schema_id := "star.runtime-activation-record"; ra_schema_version := 1;
           ra_activation_revision := saturating_add u64_max (ra_activation_revision prior) 2;
           ra_active := ra_active prior; ra_previous := Some candidate;
           ra_state_generation_id := ra_state_generation_id prior;
           ra_bridge_contract_version := ra_bridge_contract_version prior;
           ra_activated_at := now |} in
      do! activated := ask (CActivateBridge install_root rollback
                               (ra_bridge_contract_version prior)) in
      match activated with
      | Err error => rollback_failed (windows_text error)
      | Ok _ =>
          do! started :=
            (do? image := ask (CControllerImage install_root) in ask (CStartBackground image)) in
          match started with
          | Err error => rollback_failed (start_text error)
          | Ok _ =>
              do! passed := installed_cli_controller_postcheck install_root in
              if negb passed then rollback_failed postcheck_text
              else Ret (Ok (RuntimeRolledBack failure))
          end
      end
  end.

Definition apply_next_generation (install_root : string) (prior : RuntimeActivationRecord)
    (review : RuntimeCandidateReview) (candidate : RuntimeGenerationRef) (old_bootstrap : string)
    (next : RuntimeActivationRecord) : update (result RuntimeApplyOutcome RuntimeApplyError) :=
  do! activated := ask (CActivateBridge install_root next (ra_bridge_contract_version prior)) in
  match activated with
  | Err error =>
      do! _ := ask (CStartBackground old_bootstrap) in
      Ret (Err (AWindows error))
  | Ok _ =>
      do! new_bootstrap := ask (CControllerImage install_root) in
      match new_bootstrap with
      | Err error =>
          rollback_runtime_generation install_root prior candidate None (start_text error)
      | Ok candidate_controller =>
          do! started := ask (CStartBackground candidate_controller) in
          match started with
          | Err error =>
              rollback_runtime_generation install_root prior candidate
                (Some candidate_controller) (start_text error)
          | Ok _ =>
              do! passed := installed_cli_controller_postcheck install_root in
              if negb passed
              then rollback_runtime_generation install_root prior candidate
                     (Some candidate_controller) "new controller postcheck failed"
              else Ret (Ok (RuntimeCommitted (ra_activation_revision next) (ra_active next) review
                              false))
          end
      end
  end.

Definition apply_runtime_generation (request : RuntimeApplyRequest) :
    update (result RuntimeApplyOutcome RuntimeApplyError) :=
  let root := ru_install_root request in
  with_update_lease AUpdateLease
    (do? _ := prog_map_err AWindows (ask CInstallationManager) in
     do? _ := prog_map_err AWindows (ask (CInstallationStatus root)) in
     do? review := prog_map_err AWindows (ask (CInspectRuntime root (ru_generation_id request))) in
     if negb (runtime_candidate_accepted review (ru_approval_scope_sha256 request))
     then Ret (Err ACandidateRejected)
     else
       do? prior := prog_map_err AWindows (ask (CLoadActivation root)) in
       let candidate_root :=
         path_join (path_join (path_join root "runtime") "generations") (ru_generation_id request) in
       do? manifest := prog_map_err AWindows (ask (CLoadGeneration candidate_root)) in
       do! canonical := ask (CCanonicalize candidate_root) in
       let candidate :=
         {| rg_generation_id := rg_generation_id (gm_generation manifest);
            rg_runtime_root := default candidate_root canonical;
            rg_release_manifest_sha256 :=
              rg_release_manifest_sha256 (gm_generation manifest) |} in
       do? old_bootstrap := prog_map_err AControllerStart (ask (CControllerImage root)) in
       do? _ := prog_map_err (λ e, AControllerQuiesce (restart_text e))
                  (shutdown_installed_runtime_controllers root) in
       do! now := ask CUtcNow in
       apply_next_generation root prior review candidate old_bootstrap
         {| ra_schema_id := "star.runtime-activation-record"; ra_schema_version := 1;
            ra_activation_revision := saturating_add u64_max (ra_activation_revision prior) 1;
            ra_active := candidate; ra_previous := Some (ra_active prior);
            ra_state_generation_id := ru_state_generation_id request;
            ra_bridge_contract_version := ra_bridge_contract_version prior;
            ra_activated_at := now |}).

(** ** Starting the updater outside of Codex *)

Definition stage_updater_for_detached_launch (updater : string) :
    update (result string ControllerStartError) :=
  if negb (path_is_absolute updater) then Ret (Err StartFailed)
  else
    do! is_file := ask (CIsFile updater) in
    if negb is_file then Ret (Err StartFailed)
    else
      do! local_appdata := ask (CEnvVar "LOCALAPPDATA") in
      match local_appdata with
      | None => Ret (Err StartFailed)
      | Some local_appdata =>
          do? staging_root := prog_map_err (λ _, StartFailed)
            (ask (CEnsureFixedDirectory
                     (path_join (path_join local_appdata "Star-Control") "updater-staging"))) in
          do! source_hash := ask (CHashFile updater) in
          match source_hash with
          | None => Ret (Err StartFailed)
          | Some source_hash =>
              do! nonce := ask CNonce in
              let staged := path_join staging_root ("star-updater-" +:+ nonce +:+ ".exe") in
              do! copied := ask (CCopyFile updater staged) in
              if negb copied then Ret (Err StartFailed)
              else
                do! staged_hash := ask (CHashFile staged) in
                Ret (if bool_decide (staged_hash = Some source_hash) then Ok staged
                     else Err StartFailed)
          end
      end.

(** The body of the loop that looks for the process just started. *)
Definition staged_process (staged_updater : string) (pid : N) (found : bool) (p : ProcessIdentity) :
    update bool :=
  if found || negb (pi_pid p =? pid)%N then Ret found
  else match pi_image p with
       | None => Ret false
       | Some image =>
           do! canonical := ask (CCanonicalize image) in
           Ret (is_some_and canonical (λ path, path_eq path staged_updater))
       end.

Fixpoint staged_loop (turns : nat) (staged_updater : string) (pid : N) :
    update (result N ControllerStartError) :=
  match turns with
  | O => Ret (Err StartFailed)
  | S turns' =>
      do? observed := prog_map_err (λ _, StartFailed) (ask CSnapshot) in
      do! staged_matches := prog_each (staged_process staged_updater pid) false observed in
      if staged_matches then Ret (Ok pid)
      else
        do! _ := ask (CSleep (millis 100)) in
        staged_loop turns' staged_updater pid
  end.

Definition broker_script : string :=
  "$commandLine=[Environment]::GetEnvironmentVariable('STAR_CONTROL_UPDATER_COMMAND','Process');"
  +:+ "$result=Invoke-CimMethod -ClassName Win32_Process -MethodName Create -Arguments @{CommandLine=$commandLine};"
  +:+ "if($result.ReturnValue -ne 0){exit [int]$result.ReturnValue};"
  +:+ "[Console]::Write($result.ProcessId)".

Definition broker_pid (output : Output) : option N :=
  if negb (utf8_valid (out_stdout output)) then None
  else match parse_u32 (trim (out_stdout output)) with
       | Some pid => if (pid =? 0)%N then None else Some pid
       | None => None
       end.

Definition spawn_updater_via_local_wmi (staged_updater : string) (arguments : list string) :
    update (result N ControllerStartError) :=
  do! canonical := ask (CCanonicalize staged_updater) in
  match canonical with
  | None => Ret (Err StartFailed)
  | Some staged_updater =>
      let command_line :=
        quote_windows_argument staged_updater +:+ " " +:+ windows_command_line arguments in
      do! system_root := ask (CEnvVar "SystemRoot") in
      match system_root with
      | None => Ret (Err StartFailed)
      | Some system_root =>
          let powershell :=
            path_join (path_join (path_join (path_join system_root "System32")
              "WindowsPowerShell") "v1.0") "powershell.exe" in
          do! is_file := ask (CIsFile powershell) in
          if negb is_file then Ret (Err StartFailed)
          else
            do! output := ask (CRun powershell
              ["-NoProfile"; "-NonInteractive"; "-Command"; broker_script]
              [("STAR_CONTROL_UPDATER_COMMAND", command_line)] None) in
            match output with
            | None => Ret (Err StartFailed)
            | Some output =>
                if negb (out_success output) then Ret (Err StartFailed)
                else match broker_pid output with
                     | None => Ret (Err StartFailed)
                     | Some pid => staged_loop 20 staged_updater pid
                     end
            end
      end
  end.

Definition spawn_background_updater (updater : string) (arguments : list string) :
    update (result N ControllerStartError) :=
  do? staged := stage_updater_for_detached_launch updater in
  spawn_updater_via_local_wmi staged arguments.
End flows.
