(* ===== verification/UpdaterFacts.v ===== *)
(** * Footprints of the updater

    Which kinds of calls each step of the updater can make, whatever the machine
    answers.  The theorems on the flows look at a few kinds at a time; the
    footprints say which steps they may skip. *)
From S2P Require Import Prelude Canonical Contracts Effects ProcessCensus Restart UpdaterPort.
From S2P Require Import UpdaterSteps UpdaterWaits Updater.

Inductive kind :=
| KObserve | KReceipt | KWindow | KKill | KHandoff | KProgram | KSpawn | KFiles | KSelector | KLease.

#[global] Instance kind_eq_dec : EqDecision kind.
Proof. solve_decision. Defined.

Definition kind_of (c : machine) : kind :=
  match c with
  | CCreateMutex _ | COpenMutex _ | CCloseMutex => KLease
  | COpenProcess _ | CTerminateProcess _ => KKill
  | CPostClose _ => KWindow
  | CSpawn _ => KSpawn
  | CRun _ _ _ _ => KProgram
  | CWriteReceipt _ _ => KReceipt
  | CRecoverCandidates _ | CApplyCandidate _ _ _ _ | CCommitCandidate _ | CRollbackCandidate _ _
  | CRepair _ _ | CCopyFile _ _ => KFiles
  | CActivateBridge _ _ _ => KSelector
  | CStartBackground _ | CControllerShutdown _ => KHandoff
  | _ => KObserve
  end.

Definition within (l : list kind) (c : machine) : Prop := mem (kind_of c) l = true.

Definition subkinds (l l' : list kind) : bool := forallb (λ k, mem k l') l.

Lemma within_mono l l' c : subkinds l l' = true → within l c → within l' c.
Proof.
  unfold subkinds, within. intros Hs Hl. rewrite mem_true in Hl.
  rewrite forallb_true in Hs. by apply Hs.
Qed.

Lemma within_sub {A} l l' (p : update A) :
  subkinds l l' = true → calls_only (within l) p → calls_only (within l') p.
Proof. intros Hs Hp. eapply calls_only_mono; [done|]. intros c. by apply within_mono. Qed.

Create HintDb footprints.

Lemma calls_only_moving {A} K step (f : RestartTransaction → update (result A IntegrationRestartError)) :
  (∀ t, calls_only K (f t)) → calls_only K (moving step f).
Proof. intros Hf. apply calls_only_try; [by destruct step as [? []]|done]. Qed.

(** The footprint of a program is that of its steps. *)
Ltac footprint :=
  repeat first
    [ progress intros
    | progress cbv zeta
    | solve [eapply within_sub; [|solve [eauto 1 with footprints nocore]]; reflexivity]
    | match goal with
      | |- calls_only _ (Ret _) => exact I
      | |- calls_only _ Panic => exact I
      | |- calls_only _ (prog_try _ _) => apply calls_only_try
      | |- calls_only _ (moving _ _) => apply calls_only_moving
      | |- calls_only _ (prog_map_err _ _) => apply calls_only_map_err
      | |- calls_only _ (prog_fold _ _ _) => apply calls_only_fold
      | |- calls_only _ (prog_each _ _ _) => apply calls_only_each
      | |- calls_only _ (prog_bind _ _) => apply calls_only_bind
      | |- calls_only _ (match ?x with _ => _ end) => destruct x
      | |- calls_only _ (call _) => split; [reflexivity|intros; exact I]
      | |- calls_only _ (Call _ _) => split; [reflexivity|]
      | |- _ ∧ _ => split; [reflexivity|]
      end ].

Section footprints.
Context `{WindowsPaths} `{UpdaterHost}.

Lemma acquire_footprint : calls_only (within [KObserve; KLease]) acquire_update_lease.
Proof. unfold acquire_update_lease. footprint. Qed.

Lemma terminate_one_footprint image root best prot acc target :
  calls_only (within [KObserve; KKill]) (terminate_one image root best prot acc target).
Proof. unfold terminate_one. footprint. Qed.

Lemma terminate_tree_footprint image root best :
  calls_only (within [KObserve; KKill]) (terminate_verified_tree_impl image root best).
Proof. unfold terminate_verified_tree_impl. footprint. apply terminate_one_footprint. Qed.

Lemma graceful_footprint image :
  calls_only (within [KObserve; KWindow]) (request_graceful_close image).
Proof. unfold request_graceful_close, request_window_close. footprint. Qed.

Lemma persist_footprint t request :
  calls_only (within [KObserve; KReceipt]) (persist_receipt t request).
Proof. unfold persist_receipt. footprint. Qed.
#[local] Hint Resolve acquire_footprint terminate_tree_footprint graceful_footprint
  persist_footprint : footprints.

Lemma latest_footprint : calls_only (within [KObserve]) latest_integration_restart_receipt.
Proof. unfold latest_integration_restart_receipt, newer_receipt. footprint. Qed.

Lemma abort_footprint t request desktop :
  calls_only (within [KObserve; KReceipt; KSpawn]) (abort_and_relaunch t request desktop).
Proof. unfold abort_and_relaunch, persist_aborted, relaunch_after_failure. footprint. Qed.

Lemma snapshot_footprint : calls_only (within [KObserve]) snapshot.
Proof. unfold snapshot. footprint. Qed.
#[local] Hint Resolve latest_footprint abort_footprint snapshot_footprint : footprints.

Lemma codex_exited_footprint desktop cli : calls_only (within [KObserve]) (codex_exited desktop cli).
Proof. unfold codex_exited. footprint. Qed.

Lemma exit_loop_footprint fuel deadline poll is_exited :
  calls_only (within [KObserve]) is_exited →
  calls_only (within [KObserve]) (exit_loop fuel deadline poll is_exited).
Proof.
  intros He. induction fuel as [|fuel IH]; cbn [exit_loop]; [exact I|]. footprint.
Qed.

Lemma terminate_loop_footprint fuel deadline poll terminate is_exited acc l :
  calls_only (within (KObserve :: l)) terminate →
  calls_only (within (KObserve :: l)) is_exited →
  calls_only (within (KObserve :: l)) (terminate_loop fuel deadline poll terminate is_exited acc).
Proof.
  intros Ht He. revert acc. induction fuel as [|fuel IH]; intros acc; cbn [terminate_loop]; [exact I|].
  footprint; try assumption; try apply IH.
Qed.

Lemma terminate_codex_footprint desktop cli :
  calls_only (within [KObserve; KKill]) (terminate_codex desktop cli).
Proof.
  unfold terminate_codex, terminate_verified_tree_best_effort_excluding. footprint.
Qed.
#[local] Hint Resolve codex_exited_footprint terminate_codex_footprint : footprints.

Lemma close_footprint desktop cli :
  calls_only (within [KObserve; KWindow; KKill]) (close_codex_desktop desktop cli).
Proof.
  unfold close_codex_desktop, wait_for_codex_exit, wait_for_process_exit,
    terminate_until_process_exit. footprint.
  - eapply within_sub; [|apply exit_loop_footprint, codex_exited_footprint]. reflexivity.
  - eapply within_sub; [|apply (terminate_loop_footprint _ _ _ _ _ _ [KKill])]; [reflexivity| |].
    + apply terminate_codex_footprint.
    + eapply within_sub; [|apply codex_exited_footprint]. reflexivity.
Qed.

Lemma images_footprint observed root :
  calls_only (within [KObserve]) (installed_star_images observed root).
Proof. unfold installed_star_images, add_star_image. footprint. Qed.
#[local] Hint Resolve close_footprint images_footprint : footprints.

Lemma drain_loop_footprint fuel deadline root :
  calls_only (within [KObserve]) (drain_loop fuel deadline root).
Proof. induction fuel as [|fuel IH]; cbn [drain_loop]; [exact I|]. footprint. Qed.

Lemma wait_installed_footprint root :
  calls_only (within [KObserve]) (wait_for_installed_star_processes_to_exit root).
Proof.
  unfold wait_for_installed_star_processes_to_exit. footprint. apply drain_loop_footprint.
Qed.

Lemma terminate_installed_footprint root :
  calls_only (within [KObserve; KKill]) (terminate_installed_star_processes root).
Proof.
  unfold terminate_installed_star_processes, terminate_target, terminate_verified_tree. footprint.
Qed.

Lemma handoff_footprint root :
  calls_only (within [KObserve; KHandoff]) (shutdown_controller_for_update root).
Proof. unfold shutdown_controller_for_update. footprint. Qed.

Lemma image_exited_footprint controller : calls_only (within [KObserve]) (image_exited controller).
Proof. unfold image_exited. footprint. Qed.
#[local] Hint Resolve wait_installed_footprint terminate_installed_footprint handoff_footprint
  image_exited_footprint : footprints.

Lemma image_drain_footprint fuel deadline controller :
  calls_only (within [KObserve]) (image_drain_loop fuel deadline controller).
Proof. induction fuel as [|fuel IH]; cbn [image_drain_loop]; [exact I|]. footprint. Qed.
#[local] Hint Resolve image_drain_footprint : footprints.

Lemma shutdown_image_footprint controller :
  calls_only (within [KObserve; KKill; KHandoff]) (shutdown_controller_image_and_wait controller).
Proof. unfold shutdown_controller_image_and_wait, terminate_verified_tree. footprint. Qed.
#[local] Hint Resolve shutdown_image_footprint : footprints.

Lemma shutdown_runtime_footprint root :
  calls_only (within [KObserve; KKill; KHandoff]) (shutdown_installed_runtime_controllers root).
Proof.
  unfold shutdown_installed_runtime_controllers, verified_runtime_controller_images,
    add_controller_image, shutdown_one_controller. footprint.
Qed.

Lemma collect_footprint root ready timeout :
  calls_only (within [KObserve; KProgram])
    (collect_release_tool_ids_via_installed_cli root ready timeout).
Proof. unfold collect_release_tool_ids_via_installed_cli. footprint. Qed.
#[local] Hint Resolve shutdown_runtime_footprint collect_footprint : footprints.

Lemma registry_loop_footprint fuel deadline root expected :
  calls_only (within [KObserve; KProgram]) (registry_loop fuel deadline root expected).
Proof.
  induction fuel as [|fuel IH]; cbn [registry_loop]; [exact I|]. unfold registry_pause. footprint.
Qed.

Lemma verify_registry_footprint root expected :
  calls_only (within [KObserve; KHandoff; KProgram]) (verify_active_release_registry root expected).
Proof.
  unfold verify_active_release_registry. footprint.
  eapply within_sub; [|apply registry_loop_footprint]. reflexivity.
Qed.

Lemma probe_loop_footprint fuel deadline root :
  calls_only (within [KObserve; KProgram]) (probe_loop fuel deadline root).
Proof.
  induction fuel as [|fuel IH]; cbn [probe_loop]; [exact I|]. unfold registry_pause. footprint.
Qed.

Lemma probe_footprint root :
  calls_only (within [KObserve; KHandoff; KProgram]) (probe_active_controller_via_installed_cli root).
Proof.
  unfold probe_active_controller_via_installed_cli. footprint.
  eapply within_sub; [|apply probe_loop_footprint]. reflexivity.
Qed.

Lemma postcheck_footprint root :
  calls_only (within [KObserve; KProgram]) (installed_cli_controller_postcheck root).
Proof.
  unfold installed_cli_controller_postcheck. footprint.
  assert (∀ fuel deadline cli,
    calls_only (within [KObserve; KProgram]) (postcheck_loop fuel deadline cli)) as Hl; [|apply Hl].
  induction fuel as [|fuel IH]; intros deadline cli; cbn [postcheck_loop]; [exact I|]. footprint; try apply IH.
Qed.

Lemma relaunched_footprint t request instances closed pids pid state :
  calls_only (within [KObserve; KReceipt])
    (relaunched t request instances closed pids pid state).
Proof. unfold relaunched. footprint. Qed.
End footprints.
#[export] Hint Resolve acquire_footprint terminate_tree_footprint graceful_footprint
  persist_footprint latest_footprint abort_footprint snapshot_footprint close_footprint
  images_footprint wait_installed_footprint terminate_installed_footprint handoff_footprint
  image_exited_footprint shutdown_image_footprint shutdown_runtime_footprint collect_footprint
  verify_registry_footprint probe_footprint postcheck_footprint : footprints.
