(* ===== verification/UpdaterToy.v ===== *)
(** * A machine to run the updater on

    A concrete machine for the witnesses: Codex runs as one process until its
    window is closed, the clocks advance by what is slept, the selector holds
    what was last activated, and every call succeeds unless [faulty] says
    otherwise. *)
From S2P Require Import Prelude Canonical Contracts Effects ProcessCensus Restart UpdaterPort.
From S2P Require Import UpdaterSteps UpdaterWaits Updater.

#[export] Instance toy_paths : WindowsPaths := {|
  path_is_absolute := λ _, true;
  path_file_name := λ s, Some s;
  path_extension := λ s, if String.eqb s "setup.exe" then Some "exe" else Some "json";
  path_parent := λ s, Some s;
  path_join := λ a b, a +:+ "/" +:+ b;
  path_ancestors := λ s, [s];
  path_compare := String.compare
|}.

Definition toy_registry : Json :=
  JObj [("status", JStr "ok");
        ("data", JObj [("items", JArr [JObj [("source", JStr "release"); ("readiness", JStr "ready");
                                             ("tool_id", JStr "tool")]])])].

Definition toy_doctor : Json :=
  JObj [("schema_id", JStr "star.ipc.response"); ("status", JStr "ok");
        ("data", JObj [("result", JObj [("status", JStr "pass")])])].

Definition toy_receipt : IntegrationRestartReceipt :=
  {| rr_schema_id := "star.integration-restart-receipt"; rr_schema_version := 1;
     rr_operation_id := "upd_old"; rr_state := RsDraining; rr_install_root := "root";
     rr_codex_desktop_executable := "desktop.exe"; rr_affected_instance_count := 1;
     rr_affected_task_count := None; rr_updated_at := 0 |}.

#[export] Instance toy_host : UpdaterHost := {|
  own_pid := 7;
  utf8_valid := λ _, true;
  parse_no_duplicate_keys := λ s,
    if String.eqb s "registry" then Some toy_registry
    else if String.eqb s "doctor" then Some toy_doctor
    else if String.eqb s "receipt" then Some JNull else None;
  receipt_of_json := λ _, Some toy_receipt
|}.

Definition toy_generation (id : string) : RuntimeGenerationRef :=
  {| rg_generation_id := id; rg_runtime_root := id; rg_release_manifest_sha256 := "hash" |}.

Definition toy_prior : RuntimeActivationRecord :=
  {| ra_schema_id := "star.runtime-activation-record"; ra_schema_version := 1;
     ra_activation_revision := 4; ra_active := toy_generation "old"; ra_previous := None;
     ra_state_generation_id := "state"; ra_bridge_contract_version := 2; ra_activated_at := 0 |}.

Definition toy_codex : ProcessIdentity :=
  {| pi_pid := 1; pi_parent_pid := 0; pi_creation_time_100ns := Some 5%N;
     pi_image := Some "desktop.exe" |}.

Definition toy_closed (tr : list deed) : bool :=
  existsb (λ e : deed, match projT1 e with CPostClose _ => true | _ => false end) tr.

Definition toy_selector (tr : list deed) : RuntimeActivationRecord :=
  foldr (λ (e : deed) r, match projT1 e with CActivateBridge _ next _ => next | _ => r end)
    toy_prior tr.

Definition toy_review : IntegrationCandidateReview :=
  {| ic_candidate_release_manifest_sha256 := "hash"; ic_candidate_class := CodexIntegrationUpdate;
     ic_changed_files := []; ic_rollback_available := true; ic_requires_codex_restart := true;
     ic_approval_scope_sha256 := "scope" |}.

Definition toy_runtime_review : RuntimeCandidateReview :=
  {| rc_candidate := toy_generation "new"; rc_added_actions := []; rc_removed_actions := [];
     rc_changed_actions := []; rc_breaking_schema := false; rc_risk_lane_widened := false;
     rc_permission_widened := false; rc_handler_ready := true; rc_bridge_compatible := true;
     rc_rollback_available := true; rc_requires_codex_restart := false;
     rc_requires_new_task := false; rc_hook_review_required := false;
     rc_approval_scope_sha256 := "scope" |}.

Definition toy_machine (faulty : list deed → machine → bool) (tr : list deed) (c : machine) :
    answer c :=
  let bad := faulty tr c in
  match c with
  | CInstantNow => clock tr
  | CSleep _ => tt
  | CUtcNow => clock tr
  | CNonce => "nonce"
  | CSidHash => Some "sid"
  | CCreateMutex _ => Some bad
  | COpenMutex _ => Some bad
  | CCloseMutex => tt
  | CSnapshot =>
      if bad then Err CensusSnapshot else Ok (if toy_closed tr then [] else [toy_codex])
  | COpenProcess _ | CTerminateProcess _ => negb bad
  | CEnumWindows => ([1%N], negb bad)
  | CPostClose _ => negb bad
  | CSpawn _ => if bad then None else Some 99%N
  | CRun _ arguments _ _ =>
      if bad then None
      else Some {| out_success := true; out_code := Some 0%Z;
                   out_stdout := if mem "doctor" arguments then "doctor" else "registry" |}
  | CEnvVar _ => if bad then None else Some "local"
  | CIsFile _ | CExists _ => negb bad
  | CCanonicalize path => Some path
  | CEnsureFixedDirectory path | CCanonicalFixedDirectory path =>
      if bad then Err UnsafePath else Ok path
  | CWriteReceipt _ _ => if bad then Err (Io "disk full") else Ok tt
  | CReadDir _ => Some [Some "old.json"]
  | CModified _ => Some 0%Z
  | CReadFile _ => if bad then None else Some "receipt"
  | CHashFile _ => Some "hash"
  | CCopyFile _ _ => negb bad
  | CInstallationManager | CInstallationStatus _ | CCommitCandidate _ | CRollbackCandidate _ _
  | CActivateBridge _ _ _ => if bad then Err InvalidRuntimeActivation else Ok tt
  | CRecoverCandidates _ => Ok 0%N
  | CInspectIntegration _ _ => if bad then Err UnsafePath else Ok toy_review
  | CApplyCandidate _ _ _ _ => if bad then Err UnsafePath else Ok "backup"
  | CLoadActivation _ => if bad then Err InvalidRuntimeActivation else Ok (toy_selector tr)
  | CBundledGeneration _ => Ok (toy_generation "new")
  | CToolIds _ _ => Ok {["tool"]}
  | CInspectRuntime _ _ => if bad then Err UnsafePath else Ok toy_runtime_review
  | CLoadGeneration _ =>
      Ok {| gm_generation := toy_generation "new"; gm_controller_path := "star-controller.exe";
            gm_controller_sha256 := "hash" |}
  | CIntegrationManager => if bad then Err Ownership else Ok tt
  | CIntegrationStatus _ | CRepair _ _ => if bad then Err Ownership else Ok "registered"
  | CControllerImage _ => if bad then Err InstallManifest else Ok "star-controller.exe"
  | COpenController _ _ => negb bad
  | CStartBackground _ => if bad then Err StartFailed else Ok 12%N
  | CClientConfig _ => if bad then Err ClientUnavailable else Ok tt
  | CControllerShutdown _ => if bad then Err ClientUnavailable else Ok true
  end.

Definition no_fault : list deed → machine → bool := λ _ _, false.

Definition toy_request : IntegrationRepairRestartRequest :=
  {| rq_install_root := "root"; rq_codex_desktop_executable := "desktop.exe" |}.

Definition toy_offline : OfflineInstallerRestartRequest :=
  {| or_install_root := "root"; or_installer_executable := "setup.exe";
     or_codex_desktop_executable := "desktop.exe" |}.

Definition toy_runtime : RuntimeApplyRequest :=
  {| ru_install_root := "root"; ru_generation_id := "new"; ru_state_generation_id := "state2";
     ru_approval_scope_sha256 := "scope" |}.
