(* ===== verification/UpdaterSafety.v ===== *)
(** * What the updater may touch

    Every run of the updater acts under its lease and gives it back, and it
    terminates only processes that the snapshot taken just before shows to belong
    to the executable.  When it changes installed files is in InstallSafety.v. *)
From S2P Require Import Prelude Canonical Contracts Effects ProcessCensus Restart UpdaterPort.
From S2P Require Import UpdaterSteps UpdaterWaits Updater UpdaterFacts UpdaterToy.
Open Scope prog_scope.

(** ** Terminations *)

Section terminations.
Context `{WindowsPaths} `{UpdaterHost}.
Context (image : string) (root : option N).

(** Just before, the process was opened, and before that a snapshot showed it
    in the tree of the executable, outside of the protected tree, and the same
    instance as in an earlier snapshot. *)
Definition termination_justified (e : deed) (h : list deed) : Prop :=
  match projT1 e with
  | CTerminateProcess pid =>
      pid ≠ own_pid ∧
      ∃ initial current rest p target,
        h = existT (COpenProcess pid) true :: existT CSnapshot (Ok current) :: rest ∧
        existT (P := answer) CSnapshot (Ok initial) ∈ rest ∧
        target ∈ owned_process_tree initial image ∧ p ∈ owned_process_tree current image ∧
        pi_pid p = pid ∧ same_process_instance p target = true ∧
        (pid ∉ protected_in initial root) ∧ (pid ∉ protected_in current root)
  | _ => True
  end.

Lemma terminate_one_justified best initial acc target tr :
  justified termination_justified tr →
  existT (P := answer) CSnapshot (Ok initial) ∈ tr →
  target ∈ owned_process_tree initial image →
  wp any_answer (terminate_one image root best (protected_in initial root) acc target) tr
    (λ _ tr', justified termination_justified tr' ∧
              existT (P := answer) CSnapshot (Ok initial) ∈ tr').
Proof.
  intros Hj Hin Ht. unfold terminate_one.
  destruct (pi_pid target =? own_pid)%N eqn:Eo; simpl; [done|].
  destruct (bool_decide (pi_pid target ∈ protected_in initial root)) eqn:Ep; simpl; [done|].
  intros [current|e] _; simpl.
  2: { split; [done|]. by right. }
  destruct (bool_decide (pi_pid target ∈ protected_in current root)) eqn:Ec; simpl.
  { split; [done|]. by right. }
  destruct (existsb (λ p, same_process_instance p target) (owned_process_tree current image)) eqn:Es;
    simpl.
  2: { split; [done|]. by right. }
  apply existsb_true in Es as (p & Hp & Hs).
  apply N.eqb_neq in Eo. apply bool_decide_eq_false in Ep, Ec.
  assert (pi_pid p = pi_pid target) as Hpid.
  { pose proof Hs as Hq. unfold same_process_instance in Hq.
    do 3 (apply andb_true_iff in Hq as [Hq _]). by apply N.eqb_eq in Hq. }
  intros [] _; simpl.
  2: { destruct best; simpl; (split; [done|]; by do 2 right). }
  intros b _.
  assert (justified termination_justified
    (existT (CTerminateProcess (pi_pid target)) b
       :: existT (COpenProcess (pi_pid target)) true :: existT CSnapshot (Ok current) :: tr)) as Hj'.
  { simpl. split_and!; [|done..]. unfold termination_justified. simpl. split; [done|].
    exists initial, current, tr, p, target. by split_and!. }
  assert (existT (P := answer) CSnapshot (Ok initial)
    ∈ (existT (CTerminateProcess (pi_pid target)) b
       :: existT (COpenProcess (pi_pid target)) true :: existT CSnapshot (Ok current) :: tr)) as Hin'
    by (by do 3 right).
  destruct b; simpl; [done|]. by destruct best.
Qed.

Lemma terminate_tree_justified best tr :
  justified termination_justified tr →
  wp any_answer (terminate_verified_tree_impl image root best) tr
    (λ _ tr', justified termination_justified tr').
Proof.
  intros Hj. unfold terminate_verified_tree_impl. apply wp_try. simpl. intros [initial|e] _; [|done].
  eapply (wp_fold _ _ (λ _ tr', justified termination_justified tr' ∧
    existT (P := answer) CSnapshot (Ok initial) ∈ tr')).
  - split; [done|]. left.
  - intros acc target tr' Ht [Hj' Hin]. eapply wp_mono.
    + apply terminate_one_justified; [done|exact Hin|].
      unfold termination_order in Ht. rewrite elem_of_sort_by in Ht.
      by apply list_elem_of_filter in Ht as [_ Ht].
    + intros [[acc'|e]| |] tr2 [Hj2 Hin2]; done.
  - by intros acc tr' [Hj' _].
Qed.
End terminations.

(** C16: however the machine answers, a process is terminated only right after it
    was opened and a snapshot showed it in the tree of the executable, as the
    same instance (PID, parent, creation time, image) as when the targets were
    chosen; it is not the updater and not in its protected tree. *)
Theorem terminations_are_owned `{WindowsPaths} `{UpdaterHost} w image root best later pid b h :
  (exec w (terminate_verified_tree_impl image root best) []).2
    = later ++ existT (CTerminateProcess pid) b :: h →
  pid ≠ own_pid ∧
  ∃ initial current rest p target,
    h = existT (COpenProcess pid) true :: existT CSnapshot (Ok current) :: rest ∧
    existT (P := answer) CSnapshot (Ok initial) ∈ rest ∧
    target ∈ owned_process_tree initial image ∧ p ∈ owned_process_tree current image ∧
    pi_pid p = pid ∧ same_process_instance p target = true ∧
    (pid ∉ protected_in initial root) ∧ (pid ∉ protected_in current root).
Proof.
  intros He. pose proof (wp_exec _ _ _ _ w (obeys_any w)
    (terminate_tree_justified image root best [] I)) as Hj. rewrite He in Hj.
  exact (justified_at _ _ _ _ Hj).
Qed.

Lemma terminations_are_owned_witness :
  ∃ h, (exec (toy_machine no_fault) (terminate_verified_tree_impl "desktop.exe" None true) []).2
         = [] ++ existT (CTerminateProcess 1) true :: h ∧
  (1%N ≠ own_pid ∧
   ∃ initial current rest p target,
     h = existT (COpenProcess 1) true :: existT CSnapshot (Ok current) :: rest ∧
     existT (P := answer) CSnapshot (Ok initial) ∈ rest ∧
     target ∈ owned_process_tree initial "desktop.exe" ∧
     p ∈ owned_process_tree current "desktop.exe" ∧
     pi_pid p = 1%N ∧ same_process_instance p target = true ∧
     (1%N ∉ protected_in initial None) ∧ (1%N ∉ protected_in current None)).
Proof.
  eexists. split; [vm_compute; reflexivity|].
  apply (terminations_are_owned (toy_machine no_fault) "desktop.exe" None true [] 1 true).
  vm_compute. reflexivity.
Defined.

(** ** The lease *)

Definition lease_after (e : deed) (held : bool) : bool :=
  match e with
  | existT (CCreateMutex _) existed => bool_decide (existed = Some false) || held
  | existT CCloseMutex _ => false
  | _ => held
  end.

Definition lease_held (tr : list deed) : bool := foldr lease_after false tr.

(** The kinds of calls that change something outside of the updater. *)
Definition acting : list kind :=
  [KReceipt; KWindow; KKill; KHandoff; KProgram; KSpawn; KFiles; KSelector].

Definition under_lease (e : deed) (h : list deed) : Prop :=
  mem (kind_of (projT1 e)) acting = true → lease_held h = true.

Abbreviation unleased := (within (KObserve :: acting)).

Section lease.
Context `{WindowsPaths} `{UpdaterHost}.

Lemma lease_lasts ext tr :
  Forall (λ e : deed, unleased (projT1 e)) ext → lease_held (ext ++ tr) = lease_held tr.
Proof.
  induction 1 as [|[c r] ext He _ IH]; [done|]. simpl. rewrite IH.
  unfold within in He. destruct c; try done; discriminate He.
Qed.

Lemma with_lease_ok {A E} (lift : UpdateLeaseError → E) (body : update (result A E)) :
  calls_only unleased body →
  wp any_answer (with_update_lease lift body) [] (λ o tr,
    justified under_lease tr ∧
    match o with Returned _ => lease_held tr = false | _ => True end).
Proof.
  intros Hb. apply wp_try, wp_map_err. unfold acquire_update_lease. simpl.
  intros [sid|] _; simpl; [|by split_and!].
  intros [[]|] _; simpl; [by intros [] _; split_and!| |by split_and!].
  match goal with |- wp _ _ ?t _ => set (tr0 := t) end.
  assert (justified under_lease tr0) as Hj by by split_and!.
  assert (lease_held tr0 = true) as Hh by done. clearbody tr0.
  apply wp_bind. eapply wp_mono; [by apply (calls_only_wp unleased)|].
  intros o tr1 (ext & -> & Hext).
  assert (justified under_lease (ext ++ tr0)) as Hj1.
  { induction Hext as [|e ext He Hext IH]; simpl; [done|]. split; [|done].
    intros _. by rewrite lease_lasts. }
  destruct o as [r| |]; simpl; [|done..]. intros [] _. simpl. by split_and!.
Qed.

Lemma moves_footprint request t prior desktop :
  calls_only unleased (recover_runtime_selector_and_relaunch request t prior desktop).
Proof.
  unfold recover_runtime_selector_and_relaunch, restore_prior_runtime, activate,
    relaunch_after_failure. footprint.
Qed.

Lemma rollback_required_footprint {A} t request desktop e :
  calls_only unleased (rollback_required (A := A) t request desktop e).
Proof. unfold rollback_required, persist_rollback_required, relaunch_after_failure. footprint. Qed.

Lemma rollback_failed_footprint {A} t request desktop e :
  calls_only unleased (rollback_failed (A := A) t request desktop e).
Proof. unfold rollback_failed, relaunch_after_failure. footprint. Qed.
#[local] Hint Resolve moves_footprint rollback_required_footprint rollback_failed_footprint
  relaunched_footprint : footprints.

Lemma rollback_footprint request t backup desktop cli :
  calls_only unleased (rollback_and_relaunch request t backup desktop cli).
Proof. unfold rollback_and_relaunch. footprint. Qed.

Lemma restart_relaunch_footprint t request instances closed pids desktop state :
  calls_only unleased (restart_relaunch t request instances closed pids desktop state).
Proof. unfold restart_relaunch, persist_relaunch_failed. footprint. Qed.
#[local] Hint Resolve rollback_footprint restart_relaunch_footprint : footprints.

Lemma restart_apply_footprint desktop cli request candidate instances t closed :
  calls_only unleased (restart_apply desktop cli request candidate instances t closed).
Proof. unfold restart_apply, or_abort, apply_candidate, commit_candidate. footprint. Qed.

Lemma offline_postcheck_footprint t request instances closed pids desktop prior expected changed :
  calls_only unleased
    (offline_postcheck t request instances closed pids desktop prior expected changed).
Proof. unfold offline_postcheck, offline_relaunch. footprint. Qed.
#[local] Hint Resolve offline_postcheck_footprint : footprints.

Lemma offline_installed_footprint t request instances closed pids desktop :
  calls_only unleased (offline_installed t request instances closed pids desktop).
Proof.
  unfold offline_installed, or_rollback_required, next_offline_runtime_activation,
    next_activation, activate. footprint.
Qed.
#[local] Hint Resolve offline_installed_footprint restart_apply_footprint : footprints.

Lemma offline_apply_footprint installer desktop request instances t closed :
  calls_only unleased (offline_apply installer desktop request instances t closed).
Proof. unfold offline_apply, safe_installer_temp_directory. footprint. Qed.
#[local] Hint Resolve offline_apply_footprint : footprints.

Lemma codex_closed_footprint {A} request desktop cli instances
    (f : RestartTransaction → CodexCloseOutcome → update (result A IntegrationRestartError)) :
  (∀ t closed, calls_only unleased (f t closed)) →
  calls_only unleased (codex_closed request desktop cli instances f).
Proof. intros Hf. unfold codex_closed, new_operation_id. footprint. Qed.

Lemma executables_footprint path :
  calls_only (within [KObserve]) (verified_desktop path) ∧
  calls_only (within [KObserve]) (verified_installer path) ∧
  calls_only (within [KObserve]) (verified_codex_cli path).
Proof.
  unfold verified_desktop, verified_installer, verified_codex_cli. split_and!; footprint.
Qed.
#[local] Hint Extern 2 (calls_only _ (verified_desktop _)) =>
  exact (proj1 (executables_footprint _)) : footprints.

Lemma reconcile_rollback_footprint {A} root prior error :
  calls_only unleased (reconcile_rollback (A := A) root prior error).
Proof. unfold reconcile_rollback, restore_runtime_selector, activate. footprint. Qed.
#[local] Hint Resolve reconcile_rollback_footprint : footprints.

Lemma abort_interrupted_footprint root :
  calls_only unleased (abort_interrupted_preapply_restart root).
Proof. unfold abort_interrupted_preapply_restart, same_existing_path. footprint. Qed.

Lemma reconcile_activate_footprint root prior next :
  calls_only unleased (reconcile_activate root prior next).
Proof. unfold reconcile_activate, activate. footprint. Qed.
#[local] Hint Resolve abort_interrupted_footprint reconcile_activate_footprint : footprints.

Lemma runtime_rollback_footprint root prior candidate controller failure :
  calls_only unleased (rollback_runtime_generation root prior candidate controller failure).
Proof. unfold rollback_runtime_generation. footprint. Qed.
#[local] Hint Resolve runtime_rollback_footprint : footprints.

Lemma apply_next_footprint root prior review candidate old next :
  calls_only unleased (apply_next_generation root prior review candidate old next).
Proof. unfold apply_next_generation. footprint. Qed.
#[local] Hint Resolve apply_next_footprint : footprints.
End lease.

(** ** The four flows *)

Inductive flow :=
| RestartFlow (request : IntegrationRepairRestartRequest) (candidate : option (string * Sha256Hash))
| OfflineFlow (request : OfflineInstallerRestartRequest)
| ReconcileFlow (install_root : string)
| RuntimeFlow (request : RuntimeApplyRequest).

Definition outcome_unit {A} (o : outcome A) : outcome unit :=
  match o with
  | Returned _ => Returned tt
  | Panicked => Panicked
  | OutOfFuel => OutOfFuel
  end.

Section flow_runs.
Context `{WindowsPaths} `{UpdaterHost}.

(** How a flow ended, and its trace. *)
Definition flow_run (w : oracle) (f : flow) : outcome unit * list deed :=
  match f with
  | RestartFlow request candidate =>
      let run := exec w (restart_codex_integration request candidate) [] in
      (outcome_unit run.1, run.2)
  | OfflineFlow request =>
      let run := exec w (run_offline_installer_and_restart request) [] in
      (outcome_unit run.1, run.2)
  | ReconcileFlow root =>
      let run := exec w (reconcile_installed_runtime root) [] in (outcome_unit run.1, run.2)
  | RuntimeFlow request =>
      let run := exec w (apply_runtime_generation request) [] in (outcome_unit run.1, run.2)
  end.

Lemma leased_exec {A E} w (lift : UpdateLeaseError → E) (body : update (result A E)) :
  calls_only unleased body →
  let run := exec w (with_update_lease lift body) [] in
  justified under_lease run.2 ∧ (outcome_unit run.1 = Returned tt → lease_held run.2 = false).
Proof.
  intros Hb run. pose proof (wp_exec _ _ _ _ w (obeys_any w) (with_lease_ok lift body Hb)) as Hw.
  fold run in Hw. clearbody run. destruct Hw as [Hj Hr]. split; [done|].
  by destruct run.1.
Qed.

(** C17: in every flow, whatever the machine answers, each call that changes
    something happens while the lease is held, and a flow that returns has given
    it back. *)
Theorem flows_hold_the_lease w f :
  (∀ later e h, (flow_run w f).2 = later ++ e :: h →
     mem (kind_of (projT1 e)) acting = true → lease_held h = true) ∧
  ((flow_run w f).1 = Returned tt → lease_held (flow_run w f).2 = false).
Proof.
  assert (justified under_lease (flow_run w f).2 ∧
    ((flow_run w f).1 = Returned tt → lease_held (flow_run w f).2 = false)) as [Hj Hr].
  2: { split; [|done]. intros later e h He. rewrite He in Hj. exact (justified_at _ _ _ _ Hj). }
  assert (∀ path, calls_only unleased (verified_desktop path) ∧
      calls_only unleased (verified_installer path) ∧ calls_only unleased (verified_codex_cli path))
    as Hx.
  { intros path. destruct (executables_footprint path) as (H1 & H2 & H3).
    split_and!; (eapply within_sub; [|eassumption]); reflexivity. }
  destruct f as [request candidate|request|root|request]; cbn [flow_run fst snd]; apply leased_exec.
  - unfold review_candidate. footprint; try apply Hx.
    apply codex_closed_footprint. intros t closed. apply restart_apply_footprint.
  - footprint; try apply Hx. apply codex_closed_footprint. intros t closed.
    apply offline_apply_footprint.
  - pose proof (abort_interrupted_footprint root).
    unfold new_operation_id, next_installed_runtime_reconcile_activation, next_activation.
    footprint; [apply reconcile_activate_footprint|apply reconcile_rollback_footprint].
  - footprint. apply apply_next_footprint.
Qed.
End flow_runs.
