(* ===== verification/UpdaterProgress.v ===== *)
(** * The updater returns

    On a clock that does not go back, with sleeps that last as long as they were
    told, the fuel of every waiting loop is enough: each flow returns, with a
    result or an error, whatever else the machine answers, and the [expect] of
    [restart_codex_integration] never panics. *)
From S2P Require Import Prelude Canonical Contracts Effects ProcessCensus Restart UpdaterPort.
From S2P Require Import UpdaterSteps UpdaterWaits Updater UpdaterToy UpdaterSafety.
Open Scope prog_scope.

Lemma clock_after_le e t : (t <= clock_after e t)%Z.
Proof. destruct e as [[] r]; simpl; lia. Qed.

(** ** Programs that return *)

Definition returns {A} (tr : list deed) (o : outcome A) (tr' : list deed) : Prop :=
  (clock tr <= clock tr')%Z ∧ ∃ a, o = Returned a.

Definition total {A} (p : update A) : Prop := ∀ tr, wp clock_law p tr (returns tr).

Lemma total_ret {A} (a : A) : total (Ret a).
Proof. intros tr. split; [lia|]. by exists a. Qed.

Lemma total_bind {A B} (p : update A) (f : A → update B) :
  total p → (∀ a, total (f a)) → total (prog_bind p f).
Proof.
  intros Hp Hf tr. apply wp_bind. eapply wp_mono; [apply Hp|]. intros o tr1 [Hc [a ->]].
  eapply wp_mono; [apply Hf|]. intros o2 tr2 [Hc2 Ho]. split; [lia|done].
Qed.

Lemma total_try {A B E} (p : update (result A E)) (f : A → update (result B E)) :
  total p → (∀ a, total (f a)) → total (prog_try p f).
Proof. intros Hp Hf. apply total_bind; [done|]. intros [a|e]; [apply Hf|apply total_ret]. Qed.

Lemma total_map_err {A E F} (g : E → F) (p : update (result A E)) :
  total p → total (prog_map_err g p).
Proof. intros Hp. apply total_bind; [done|]. intros r. apply total_ret. Qed.

Lemma total_fold {S A E} (f : S → A → update (result S E)) s l :
  (∀ s x, total (f s x)) → total (prog_fold f s l).
Proof.
  intros Hf. revert s. induction l as [|x l IH]; intros s; simpl; [apply total_ret|].
  by apply total_try.
Qed.

Lemma total_each {S A} (f : S → A → update S) s l :
  (∀ s x, total (f s x)) → total (prog_each f s l).
Proof.
  intros Hf. revert s. induction l as [|x l IH]; intros s; simpl; [apply total_ret|].
  by apply total_bind.
Qed.

Lemma total_call c : total (ask c).
Proof. intros tr r _. split; [apply clock_after_le|]. by exists r. Qed.

Lemma total_moving {A} step (f : RestartTransaction → update (result A IntegrationRestartError)) :
  (∀ t, total (f t)) → total (moving step f).
Proof. intros Hf. apply total_try; [apply total_ret|done]. Qed.

Create HintDb totals.

(** A program returns when its steps do. *)
Ltac total :=
  repeat first
    [ progress intros
    | progress cbv zeta
    | solve [eauto 1 with totals nocore]
    | match goal with
      | |- total (Ret _) => apply total_ret
      | |- total (prog_try _ _) => apply total_try
      | |- total (moving _ _) => apply total_moving
      | |- total (prog_map_err _ _) => apply total_map_err
      | |- total (prog_fold _ _ _) => apply total_fold
      | |- total (prog_each _ _ _) => apply total_each
      | |- total (prog_bind _ _) => apply total_bind
      | |- total (match ?x with _ => _ end) => destruct x
      | |- total (call _) => apply total_call
      end ].

(** ** Loops with a deadline

    [in_time fuel tr]: the sleeps that are left reach the deadline. *)

Definition in_time (fuel : nat) (deadline poll : Z) (tr : list deed) : Prop :=
  (deadline - clock tr <= (Z.of_nat fuel - 1) * poll)%Z ∧ (1 <= fuel)%nat.

(** From [tr] on the program returns. *)
Abbreviation returns_from p tr := (wp clock_law p tr (returns tr)).

Lemma in_time_start timeout poll now tr :
  (0 < poll)%Z → (0 <= timeout)%Z → (now <= clock tr)%Z →
  in_time (polls timeout poll) (now + timeout) poll tr.
Proof.
  intros Hp Ht Hc. unfold in_time, polls. split; [|lia].
  pose proof (Z.div_mod timeout poll ltac:(lia)). pose proof (Z.mod_pos_bound timeout poll Hp).
  assert (0 <= timeout / poll)%Z by (apply Z.div_pos; lia). nia.
Qed.

(** After a sleep of a whole turn, or up to the deadline. *)
Lemma in_time_next fuel deadline poll now tr tr' :
  (0 < poll)%Z → in_time (S fuel) deadline poll tr → (clock tr <= now < deadline)%Z →
  (now + Z.min poll (deadline - now) <= clock tr')%Z → in_time fuel deadline poll tr'.
Proof.
  unfold in_time. intros Hp [Ht _] Hn Hs.
  assert (1 <= fuel)%nat as Hf by (destruct fuel; [exfalso; nia|lia]).
  split; [|done]. destruct (Z.min_spec poll (deadline - now)) as [[_ Hm]|[_ Hm]]; nia.
Qed.

Lemma wp_total_bind {A B} (p : update A) (f : A → update B) tr :
  total p →
  (∀ a tr', (clock tr <= clock tr')%Z → returns_from (f a) tr') →
  returns_from (prog_bind p f) tr.
Proof.
  intros Hp Hf. apply wp_bind. eapply wp_mono; [apply Hp|]. intros o tr1 [Hc [a ->]].
  eapply wp_mono; [by apply Hf|]. intros o2 tr2 [Hc2 Ho]. split; [lia|done].
Qed.

Lemma wp_total_try {A B E} (p : update (result A E)) (f : A → update (result B E)) tr :
  total p →
  (∀ a tr', (clock tr <= clock tr')%Z → returns_from (f a) tr') →
  returns_from (prog_try p f) tr.
Proof.
  intros Hp Hf. apply wp_total_bind; [done|]. intros [a|e] tr' Hc; [by apply Hf|apply total_ret].
Qed.

Lemma wp_now {A} (f : Z → update A) tr :
  (∀ now tr', (clock tr <= now)%Z → (now <= clock tr')%Z → returns_from (f now) tr') →
  returns_from (prog_bind (ask CInstantNow) f) tr.
Proof.
  intros Hf now Hn. simpl in Hn. eapply wp_mono; [apply Hf; [exact Hn|]|].
  - simpl. lia.
  - intros o tr2 [Hc Ho]. split; [|done]. simpl in Hc. lia.
Qed.

Lemma wp_sleep {A} d (f : unit → update A) tr :
  (∀ tr', (clock tr + Z.max 0 d <= clock tr')%Z → returns_from (f tt) tr') →
  returns_from (prog_bind (ask (CSleep d)) f) tr.
Proof.
  intros Hf [] _. eapply wp_mono; [apply Hf|]; [simpl; lia|].
  intros o tr2 [Hc Ho]. split; [|done]. simpl in Hc. lia.
Qed.

Lemma returns_from_ret {A} (a : A) tr : returns_from (Ret a) tr.
Proof. apply total_ret. Qed.

(** *** The loops *)

Section loops.
Context `{WindowsPaths} `{UpdaterHost}.

Lemma exit_loop_returns fuel deadline poll is_exited tr :
  total is_exited → (0 < poll)%Z → in_time fuel deadline poll tr →
  returns_from (exit_loop fuel deadline poll is_exited) tr.
Proof.
  intros He Hp. revert tr. induction fuel as [|fuel IH]; intros tr Ht; [by destruct Ht; lia|].
  cbn [exit_loop]. apply wp_total_try; [done|]. intros exited tr1 H1.
  destruct exited; [apply returns_from_ret|]. apply wp_now. intros now tr2 H2 H3.
  destruct (deadline <=? now)%Z eqn:Hd; [apply returns_from_ret|]. apply Z.leb_gt in Hd.
  apply wp_sleep. intros tr3 H4. apply IH. eapply (in_time_next _ _ _ now); [done|exact Ht|lia|lia].
Qed.

Lemma terminate_loop_returns fuel deadline poll terminate is_exited acc tr :
  total terminate → total is_exited → (0 < poll)%Z → in_time fuel deadline poll tr →
  returns_from (terminate_loop fuel deadline poll terminate is_exited acc) tr.
Proof.
  intros Hk He Hp. revert acc tr. induction fuel as [|fuel IH]; intros acc tr Ht; [by destruct Ht; lia|].
  cbn [terminate_loop]. apply wp_total_try; [done|]. intros exited tr1 H1.
  destruct exited; [apply returns_from_ret|]. apply wp_total_try; [done|]. intros more tr2 H2.
  cbv zeta. apply wp_total_try; [done|]. intros exited tr3 H3.
  destruct exited; [apply returns_from_ret|]. apply wp_now. intros now tr4 H4 H5.
  destruct (deadline <=? now)%Z eqn:Hd; [apply returns_from_ret|]. apply Z.leb_gt in Hd.
  apply wp_sleep. intros tr5 H6. apply IH. eapply (in_time_next _ _ _ now); [done|exact Ht|lia|lia].
Qed.

Lemma images_total observed root : total (installed_star_images observed root).
Proof. unfold installed_star_images, add_star_image. total. Qed.
#[local] Hint Resolve images_total total_call : totals.

Lemma snapshot_total : total snapshot.
Proof. unfold snapshot. total. Qed.
#[local] Hint Resolve snapshot_total : totals.

Lemma drain_loop_returns fuel deadline root tr :
  in_time fuel deadline (millis 100) tr → returns_from (drain_loop fuel deadline root) tr.
Proof.
  revert tr. induction fuel as [|fuel IH]; intros tr Ht; [by destruct Ht; lia|].
  cbn [drain_loop]. apply wp_now. intros now tr1 H1 H2.
  destruct (now <? deadline)%Z eqn:Hd.
  - apply Z.ltb_lt in Hd. apply wp_total_try; [total|]. intros observed tr2 H3.
    apply wp_total_bind; [total|]. intros images tr3 H4.
    destruct (no_items images); [apply returns_from_ret|]. apply wp_sleep. intros tr4 H5. apply IH.
    eapply (in_time_next _ _ _ now); [done|exact Ht|lia|]. unfold millis in *. lia.
  - apply wp_total_try; [total|]. intros observed tr2 H3. apply wp_total_bind; [total|].
    intros images tr3 H4. apply returns_from_ret.
Qed.

Lemma image_exited_total controller : total (image_exited controller).
Proof. unfold image_exited. total. Qed.
#[local] Hint Resolve image_exited_total : totals.

Lemma image_drain_loop_returns fuel deadline controller tr :
  in_time fuel deadline (millis 100) tr →
  returns_from (image_drain_loop fuel deadline controller) tr.
Proof.
  revert tr. induction fuel as [|fuel IH]; intros tr Ht; [by destruct Ht; lia|].
  cbn [image_drain_loop]. apply wp_now. intros now tr1 H1 H2.
  destruct (now <? deadline)%Z eqn:Hd; [|apply returns_from_ret]. apply Z.ltb_lt in Hd.
  apply wp_total_try; [total|]. intros exited tr2 H3.
  destruct exited; [apply returns_from_ret|]. apply wp_sleep. intros tr3 H4. apply IH.
  eapply (in_time_next _ _ _ now); [done|exact Ht|lia|]. unfold millis in *. lia.
Qed.

(** A pause of a quarter of a second, or up to the deadline. *)
Lemma registry_pause_returns fuel deadline again tr0 tr :
  in_time (S fuel) deadline (millis 250) tr0 → (clock tr0 <= clock tr)%Z →
  (∀ tr', in_time fuel deadline (millis 250) tr' → returns_from again tr') →
  returns_from (registry_pause deadline again) tr.
Proof.
  intros Ht Hc Ha. apply wp_now. intros now tr1 H1 H2. cbv zeta.
  destruct (duration_since deadline now =? 0)%Z eqn:Hd; [apply returns_from_ret|].
  apply Z.eqb_neq in Hd. unfold duration_since in *. apply wp_sleep. intros tr2 H3. apply Ha.
  eapply (in_time_next _ _ _ now); [done|exact Ht|lia|]. unfold millis in *. lia.
Qed.

Lemma collect_total root ready timeout :
  total (collect_release_tool_ids_via_installed_cli root ready timeout).
Proof. unfold collect_release_tool_ids_via_installed_cli. total. Qed.
#[local] Hint Resolve collect_total : totals.

Lemma registry_loop_returns fuel deadline root expected tr :
  in_time fuel deadline (millis 250) tr →
  returns_from (registry_loop fuel deadline root expected) tr.
Proof.
  revert tr. induction fuel as [|fuel IH]; intros tr Ht; [by destruct Ht; lia|].
  cbn [registry_loop]. apply wp_now. intros now tr1 H1 H2.
  destruct (bounded_registry_attempt_timeout _); [|apply returns_from_ret].
  apply wp_total_bind; [total|]. intros declared tr2 H3. apply wp_now. intros now2 tr3 H4 H5.
  destruct (bounded_registry_attempt_timeout _); [|apply returns_from_ret].
  apply wp_total_bind; [total|]. intros ready tr4 H6. cbv zeta.
  assert (returns_from (registry_pause deadline (registry_loop fuel deadline root expected)) tr4)
    as Hagain by (eapply registry_pause_returns; [exact Ht|lia|done]).
  destruct declared, ready; try exact Hagain.
  destruct (complete_release_registry _ _ _); [apply returns_from_ret|exact Hagain].
Qed.

Lemma probe_loop_returns fuel deadline root tr :
  in_time fuel deadline (millis 250) tr → returns_from (probe_loop fuel deadline root) tr.
Proof.
  revert tr. induction fuel as [|fuel IH]; intros tr Ht; [by destruct Ht; lia|].
  cbn [probe_loop]. apply wp_now. intros now tr1 H1 H2.
  destruct (bounded_registry_attempt_timeout _); [|apply returns_from_ret].
  apply wp_total_bind; [total|]. intros declared tr2 H3.
  destruct declared; [apply returns_from_ret|].
  eapply registry_pause_returns; [exact Ht|lia|done].
Qed.

Lemma postcheck_loop_returns fuel deadline cli tr :
  in_time fuel deadline (millis 250) tr → returns_from (postcheck_loop fuel deadline cli) tr.
Proof.
  revert tr. induction fuel as [|fuel IH]; intros tr Ht; [by destruct Ht; lia|].
  cbn [postcheck_loop]. apply wp_now. intros now tr1 H1 H2. cbv zeta.
  destruct (duration_since deadline now =? 0)%Z eqn:Hd; [apply returns_from_ret|].
  apply Z.eqb_neq in Hd. unfold duration_since in *.
  apply wp_total_bind; [total|]. intros output tr2 H3.
  destruct (is_some_and output _); [apply returns_from_ret|]. apply wp_sleep. intros tr3 H4.
  apply IH. eapply (in_time_next _ _ _ now); [done|exact Ht|lia|]. unfold millis in *. lia.
Qed.
End loops.

(** *** The steps *)

Lemma total_window {A} timeout poll (f : Z → update A) :
  (0 < poll)%Z → (0 <= timeout)%Z →
  (∀ now tr, in_time (polls timeout poll) (now + timeout) poll tr → returns_from (f now) tr) →
  total (prog_bind (ask CInstantNow) f).
Proof.
  intros Hp Ht Hf tr. apply wp_now. intros now tr' H1 H2. apply Hf. by apply in_time_start.
Qed.

Section steps.
Context `{WindowsPaths} `{UpdaterHost}.

Lemma persist_total t request : total (persist_receipt t request).
Proof. unfold persist_receipt. total. Qed.
#[local] Hint Resolve images_total total_call snapshot_total image_exited_total collect_total
  persist_total : totals.

Lemma latest_total : total latest_integration_restart_receipt.
Proof. unfold latest_integration_restart_receipt, newer_receipt. total. Qed.

Lemma acquire_total : total acquire_update_lease.
Proof. unfold acquire_update_lease. total. Qed.

Lemma with_lease_total {A E} (lift : UpdateLeaseError → E) (body : update (result A E)) :
  total body → total (with_update_lease lift body).
Proof. pose proof acquire_total. intros Hb. unfold with_update_lease. total. Qed.

Lemma terminate_tree_total image root best : total (terminate_verified_tree_impl image root best).
Proof. unfold terminate_verified_tree_impl, terminate_one. total. Qed.

Lemma graceful_total image : total (request_graceful_close image).
Proof. unfold request_graceful_close, request_window_close. total. Qed.
#[local] Hint Resolve latest_total terminate_tree_total graceful_total : totals.

Lemma codex_exited_total desktop cli : total (codex_exited desktop cli).
Proof. unfold codex_exited. total. Qed.

Lemma terminate_codex_total desktop cli : total (terminate_codex desktop cli).
Proof. unfold terminate_codex, terminate_verified_tree_best_effort_excluding. total. Qed.

Lemma wait_for_exit_total timeout poll is_exited :
  (0 < poll)%Z → (0 <= timeout)%Z → total is_exited →
  total (wait_for_process_exit timeout poll is_exited).
Proof. intros Hp Ht He. apply (total_window timeout poll); [done..|]. intros now tr. by apply exit_loop_returns. Qed.

Lemma terminate_until_total timeout poll terminate is_exited :
  (0 < poll)%Z → (0 <= timeout)%Z → total terminate → total is_exited →
  total (terminate_until_process_exit timeout poll terminate is_exited).
Proof.
  intros Hp Ht Hk He. apply (total_window timeout poll); [done..|]. intros now tr.
  by apply terminate_loop_returns.
Qed.

Lemma close_total desktop cli : total (close_codex_desktop desktop cli).
Proof.
  unfold close_codex_desktop, wait_for_codex_exit. total.
  - by apply wait_for_exit_total, codex_exited_total.
  - apply terminate_until_total; [done..|apply terminate_codex_total|apply codex_exited_total].
Qed.

Lemma wait_installed_total root : total (wait_for_installed_star_processes_to_exit root).
Proof.
  apply (total_window CONTROLLER_DRAIN_TIMEOUT (millis 100)); [done..|]. intros now tr.
  apply drain_loop_returns.
Qed.

Lemma terminate_installed_total root : total (terminate_installed_star_processes root).
Proof.
  unfold terminate_installed_star_processes, terminate_target, terminate_verified_tree. total.
Qed.

Lemma handoff_total root : total (shutdown_controller_for_update root).
Proof. unfold shutdown_controller_for_update. total. Qed.
#[local] Hint Resolve close_total wait_installed_total terminate_installed_total handoff_total : totals.

Lemma shutdown_image_total controller : total (shutdown_controller_image_and_wait controller).
Proof.
  unfold shutdown_controller_image_and_wait, terminate_verified_tree.
  apply total_try; [total|]. intros gone. destruct gone; [total|]. apply total_try; [total|].
  intros _. apply total_bind; [total|]. intros handoff.
  intros tr. apply wp_now. intros now tr1 H1 H2. apply wp_try. eapply wp_mono.
  { apply image_drain_loop_returns. by apply in_time_start. }
  intros o tr2 [Hc [drained ->]].
  assert (∀ b, returns_from
    (if b : bool then Ret (Ok [])
     else do? exited := image_exited controller in
          if exited then Ret (Ok [])
          else
            do? terminated :=
              prog_map_err RCensus (terminate_verified_tree_impl controller None false) in
            do? exited := image_exited controller in
            if exited then Ret (Ok terminated)
            else match handoff with
                 | Ok _ => Ret (Err RControllerDrainTimeout)
                 | Err e => Ret (Err e)
                 end) tr2) as Hrest.
  { intros b. match goal with |- wp _ ?p _ _ => assert (total p) as Hp by total end. apply Hp. }
  destruct drained as [b|e].
  - eapply wp_mono; [apply Hrest|]. intros o tr3 [Hc3 Ho]. split; [lia|done].
  - split; [done|by eexists].
Qed.
#[local] Hint Resolve shutdown_image_total : totals.

Lemma shutdown_runtime_total root : total (shutdown_installed_runtime_controllers root).
Proof.
  unfold shutdown_installed_runtime_controllers, verified_runtime_controller_images,
    add_controller_image, shutdown_one_controller. total.
Qed.

Lemma verify_registry_total root expected : total (verify_active_release_registry root expected).
Proof.
  unfold verify_active_release_registry. apply total_try; [total|]. intros image.
  apply total_try; [total|]. intros _.
  apply (total_window INSTALLED_CLI_POSTCHECK_WINDOW (millis 250)); [done..|]. intros now tr.
  apply registry_loop_returns.
Qed.

Lemma probe_total root : total (probe_active_controller_via_installed_cli root).
Proof.
  unfold probe_active_controller_via_installed_cli. apply total_try; [total|]. intros image.
  apply total_try; [total|]. intros _.
  apply (total_window INSTALLED_CLI_POSTCHECK_WINDOW (millis 250)); [done..|]. intros now tr.
  apply probe_loop_returns.
Qed.

Lemma postcheck_total root : total (installed_cli_controller_postcheck root).
Proof.
  apply (total_window INSTALLED_CLI_POSTCHECK_WINDOW (millis 250)); [done..|]. intros now tr.
  apply postcheck_loop_returns.
Qed.
#[local] Hint Resolve shutdown_runtime_total verify_registry_total probe_total postcheck_total : totals.

(** ** The flows *)

Lemma codex_closed_total {A} request desktop cli instances
    (f : RestartTransaction → CodexCloseOutcome → update (result A IntegrationRestartError)) :
  (∀ t closed, total (f t closed)) → total (codex_closed request desktop cli instances f).
Proof.
  intros Hf. unfold codex_closed, new_operation_id, abort_and_relaunch, persist_aborted,
    relaunch_after_failure. apply total_bind; [total|]. intros id.
  (* the transaction has just been verified, so it can be armed *)
  apply total_try; [total|]. intros _. apply total_try; [total|]. intros _.
  apply total_try; [total|]. intros _. apply total_bind; [total|]. intros now.
  match goal with |- total (match ?a with _ => _ end) => destruct a as [t [deadline|]] eqn:Ha end;
    [|discriminate Ha]. total.
Qed.

Lemma recover_selector_total request t prior desktop :
  total (recover_runtime_selector_and_relaunch request t prior desktop).
Proof.
  unfold recover_runtime_selector_and_relaunch, restore_prior_runtime, activate,
    relaunch_after_failure. total.
Qed.
#[local] Hint Resolve recover_selector_total : totals.

Lemma relaunched_total t request instances closed pids pid state :
  total (relaunched t request instances closed pids pid state).
Proof. unfold relaunched. total. Qed.
#[local] Hint Resolve relaunched_total : totals.

Lemma offline_postcheck_total t request instances closed pids desktop prior expected changed :
  total (offline_postcheck t request instances closed pids desktop prior expected changed).
Proof.
  unfold offline_postcheck, rollback_required, persist_rollback_required, relaunch_after_failure,
    offline_relaunch. total.
Qed.
#[local] Hint Resolve offline_postcheck_total : totals.

Lemma offline_apply_total installer desktop request instances t closed :
  total (offline_apply installer desktop request instances t closed).
Proof.
  unfold offline_apply, offline_installed, or_rollback_required, rollback_required,
    persist_rollback_required, relaunch_after_failure, next_offline_runtime_activation,
    next_activation, activate, safe_installer_temp_directory. total.
Qed.

Lemma rollback_total request t backup desktop cli :
  total (rollback_and_relaunch request t backup desktop cli).
Proof. unfold rollback_and_relaunch, rollback_failed, relaunch_after_failure. total. Qed.
#[local] Hint Resolve rollback_total : totals.

Lemma restart_apply_total desktop cli request candidate instances t closed :
  total (restart_apply desktop cli request candidate instances t closed).
Proof.
  unfold restart_apply, or_abort, apply_candidate, commit_candidate, restart_relaunch,
    persist_relaunch_failed, rollback_required, persist_rollback_required, abort_and_relaunch,
    persist_aborted, relaunch_after_failure. total.
Qed.

Lemma restart_total request candidate : total (restart_codex_integration request candidate).
Proof.
  apply with_lease_total. unfold review_candidate, verified_desktop, verified_codex_cli. total.
  apply codex_closed_total. intros t closed. apply restart_apply_total.
Qed.

Lemma offline_total request : total (run_offline_installer_and_restart request).
Proof.
  apply with_lease_total. unfold verified_installer, verified_desktop, verified_codex_cli. total.
  apply codex_closed_total. intros t closed. apply offline_apply_total.
Qed.

Lemma reconcile_rollback_total {A} root prior error :
  total (reconcile_rollback (A := A) root prior error).
Proof. unfold reconcile_rollback, restore_runtime_selector, activate. total. Qed.
#[local] Hint Resolve reconcile_rollback_total : totals.

Lemma reconcile_total root : total (reconcile_installed_runtime root).
Proof.
  apply with_lease_total.
  unfold abort_interrupted_preapply_restart, same_existing_path, new_operation_id,
    next_installed_runtime_reconcile_activation, next_activation, reconcile_activate, activate.
  total.
Qed.

Lemma runtime_rollback_total root prior candidate controller failure :
  total (rollback_runtime_generation root prior candidate controller failure).
Proof. unfold rollback_runtime_generation. total. Qed.
#[local] Hint Resolve runtime_rollback_total : totals.

Lemma runtime_total request : total (apply_runtime_generation request).
Proof. apply with_lease_total. unfold apply_next_generation. total. Qed.

Lemma total_returned {A} w (p : update A) :
  obeys w clock_law → total p → outcome_unit (exec w p []).1 = Returned tt.
Proof.
  intros Hw Hp. destruct (wp_exec _ _ _ _ w Hw (Hp [])) as [_ [a ->]]. done.
Qed.

(** C15: when the clock does not go back and a sleep lasts as long as it was told,
    each of the four flows returns, whatever else the machine answers: no waiting
    loop uses up its fuel, and arming the transaction does not panic. *)
Theorem every_flow_returns w f :
  obeys w clock_law → (flow_run w f).1 = Returned tt.
Proof.
  intros Hw. destruct f as [request candidate|request|root|request]; apply total_returned;
    [done|apply restart_total|done|apply offline_total|done|apply reconcile_total|done|apply runtime_total].
Qed.
End steps.

(** ** An instance *)

Lemma toy_obeys faulty : obeys (toy_machine faulty) clock_law.
Proof. intros tr c. destruct c; try exact I. apply Z.le_refl. Qed.

Lemma every_flow_returns_witness :
  (flow_run (toy_machine no_fault) (ReconcileFlow "root")).1 = Returned tt.
Proof.
  apply (every_flow_returns (toy_machine no_fault) (ReconcileFlow "root")), toy_obeys.
Defined.
