(* ===== verification/RelaunchFacts.v ===== *)
(** * Codex comes back

    What the two flows that close Codex promise to its user: once they have
    asked a window to close or terminated a process, they start the Desktop again
    before they return.  The restart with a candidate keeps the promise whenever
    its receipts can be written; the offline installer breaks it on some more
    errors. *)
From S2P Require Import Prelude Canonical Contracts Effects ProcessCensus Restart UpdaterPort.
From S2P Require Import UpdaterSteps UpdaterWaits Updater UpdaterFacts UpdaterToy UpdaterSafety UpdaterProgress.
Open Scope prog_scope.

(** ** What a trace shows *)

(** Whether Codex was told to close or terminated and the Desktop has not been
    started since. *)
Definition pending_after (desktop : string) (e : deed) (pending : bool) : bool :=
  match projT1 e with
  | CPostClose _ | CTerminateProcess _ => true
  | CSpawn program => if String.eqb program desktop then false else pending
  | _ => pending
  end.

Definition codex_pending (desktop : string) (tr : list deed) : bool :=
  foldr (pending_after desktop) false tr.

(** Whether a receipt could not be written: the directory of the user is
    unknown or unsafe, or the write failed. *)
Definition receipt_failure (e : deed) : bool :=
  match e with
  | existT (CEnvVar name) None => String.eqb name "LOCALAPPDATA"
  | existT (CEnsureFixedDirectory _) (Err _) => true
  | existT (CWriteReceipt _ _) (Err _) => true
  | _ => false
  end.

Definition receipts_written (tr : list deed) : bool := negb (existsb receipt_failure tr).

Lemma receipts_written_app ext tr :
  receipts_written tr = false → receipts_written (ext ++ tr) = false.
Proof.
  unfold receipts_written. rewrite existsb_app. intros ->%negb_false_iff. by rewrite orb_true_r.
Qed.

(** ** The promise

    [excuse e tr]: the error [e] tells why there was no relaunch. *)
Section promise.
Context `{WindowsPaths} `{UpdaterHost}.
Context (desktop : string).
Context (excuse : IntegrationRestartError → list deed → Prop).

Definition promised {A} (o : outcome (result A IntegrationRestartError)) (tr : list deed) : Prop :=
  match o with
  | Returned (Ok _) => codex_pending desktop tr = false
  | Returned (Err e) => codex_pending desktop tr = true → excuse e tr
  | _ => True
  end.

Abbreviation keeps p tr := (wp any_answer p tr promised).

Lemma pending_kept {B} l (p : update B) tr :
  calls_only (within l) p → mem KWindow l = false → mem KKill l = false → mem KSpawn l = false →
  wp any_answer p tr (λ o tr', codex_pending desktop tr' = codex_pending desktop tr).
Proof.
  intros Hp Hw Hk Hs. eapply calls_only_keeps; [exact Hp|]. intros e x He.
  unfold within in He. unfold pending_after. destruct (projT1 e); simpl in He; congruence.
Qed.

Context (excuse_receipt : ∀ e tr, receipts_written tr = false →
  (∃ w, e = RReceipt w) ∨ e = RInstallation UnsafePath → excuse e tr).

(** A receipt is written, or its failure is an excuse. *)
Lemma persist_spec t request tr :
  wp any_answer (persist_receipt t request) tr (λ o tr',
    codex_pending desktop tr' = codex_pending desktop tr ∧
    match o with
    | Returned (Err e) => receipts_written tr' = false ∧ ((∃ w, e = RReceipt w) ∨ e = RInstallation UnsafePath)
    | _ => True
    end).
Proof.
  unfold persist_receipt. simpl. intros [local|] _; simpl; [|by auto].
  intros [root|e] _; simpl; [|by eauto]. intros now _ [[]|e] _; simpl; by eauto.
Qed.

Lemma persist_keeps {A} t request (f : unit → update (result A IntegrationRestartError)) tr :
  (∀ tr', codex_pending desktop tr' = codex_pending desktop tr → keeps (f tt) tr') →
  keeps (prog_try (persist_receipt t request) f) tr.
Proof.
  intros Hf. apply wp_try. eapply wp_mono; [apply persist_spec|].
  intros [[[]|e]| |] tr' [Hp He]; simpl; [by apply Hf| |done|done].
  destruct He as [Hr He]. intros _. by apply excuse_receipt.
Qed.

(** A step that touches no window and no process. *)
Lemma step_keeps {A B} l (p : update B) (f : B → update (result A IntegrationRestartError)) tr :
  calls_only (within l) p → mem KWindow l = false → mem KKill l = false → mem KSpawn l = false →
  (∀ b tr', codex_pending desktop tr' = codex_pending desktop tr → keeps (f b) tr') →
  keeps (prog_bind p f) tr.
Proof.
  intros Hp Hw Hk Hs Hf. apply wp_bind. eapply wp_mono; [by eapply pending_kept|].
  intros [b| |] tr' Hpd; simpl; [by apply Hf|done|done].
Qed.

(** A step after which everything is kept. *)
Lemma any_step_keeps {A B} (p : update B) (f : B → update (result A IntegrationRestartError)) tr :
  (∀ b tr', keeps (f b) tr') → keeps (prog_bind p f) tr.
Proof.
  intros Hf. apply wp_bind. eapply wp_mono with (Q := λ _ _, True); [|by intros [b| |] tr' _; simpl].
  clear. revert tr. by induction p; simpl; auto.
Qed.

(** Starting the Desktop keeps the promise, whatever follows it quietly. *)
Lemma relaunch_keeps {A} (f : option N → update (result A IntegrationRestartError)) tr :
  (∀ r tr', codex_pending desktop tr' = false → keeps (f r) tr') →
  keeps (prog_bind (ask (CSpawn desktop)) f) tr.
Proof. intros Hf. simpl. intros r _. apply Hf. simpl. unfold pending_after. simpl. by rewrite String.eqb_refl. Qed.

Lemma closed_ret {A} (r : result A IntegrationRestartError) tr : codex_pending desktop tr = false → keeps (Ret r) tr.
Proof. destruct r; simpl; congruence. Qed.

Lemma relaunch_after_failure_keeps {A} (f : unit → update (result A IntegrationRestartError)) tr :
  (∀ tr', codex_pending desktop tr' = false → keeps (f tt) tr') →
  keeps (prog_bind (relaunch_after_failure desktop) f) tr.
Proof.
  intros Hf. simpl. intros r _. apply Hf. simpl. unfold pending_after. simpl. by rewrite String.eqb_refl.
Qed.

Lemma abort_keeps {A} t request e tr :
  keeps (do! _ := abort_and_relaunch t request desktop in Ret (Err (A := A) e)) tr.
Proof.
  apply wp_bind. unfold abort_and_relaunch. apply wp_bind.
  eapply wp_mono with (Q := λ _ _, True).
  { generalize (persist_aborted t request). intros p. clear. revert tr. by induction p; simpl; auto. }
  intros [b| |] tr' _; simpl; [|done|done]. intros r _. unfold pending_after. simpl.
  by rewrite String.eqb_refl.
Qed.

Lemma or_abort_keeps {A B} t request (step : update (result B IntegrationRestartError))
    (f : B → update (result A IntegrationRestartError)) tr :
  (∀ b tr', keeps (f b) tr') → keeps (or_abort t request desktop step f) tr.
Proof. intros Hf. apply any_step_keeps. intros [b|e] tr'; [apply Hf|apply abort_keeps]. Qed.

Lemma rollback_required_keeps {A} t request e tr :
  keeps (rollback_required (A := A) t request desktop e) tr.
Proof.
  apply any_step_keeps. intros b tr'. apply relaunch_after_failure_keeps. intros tr2. apply closed_ret.
Qed.

Lemma moving_keeps {A} step (f : RestartTransaction → update (result A IntegrationRestartError)) tr :
  step.2 = true → keeps (f step.1) tr → keeps (moving step f) tr.
Proof. intros Hs Hf. unfold moving. rewrite Hs. exact Hf. Qed.

Lemma rollback_failed_keeps {A} t request e tr :
  rt_state t = RsRollingBack → keeps (rollback_failed (A := A) t request desktop e) tr.
Proof.
  intros Ht. apply moving_keeps; [unfold transition; by rewrite Ht|]. apply persist_keeps.
  intros tr' _. apply relaunch_after_failure_keeps. intros tr2. apply closed_ret.
Qed.

Lemma relaunched_keeps {A} t request instances closed pids pid state tr
    (f : IntegrationRepairRestartOutcome → update (result A IntegrationRestartError)) :
  codex_pending desktop tr = false →
  (∀ o tr', codex_pending desktop tr' = false → keeps (f o) tr') →
  keeps (prog_try (relaunched t request instances closed pids pid state) f) tr.
Proof.
  intros Hp Hf. apply wp_try.
  eapply wp_mono; [eapply pending_kept; [apply relaunched_footprint|done..]|].
  rewrite Hp. intros [[o|e]| |] tr' Hpd; simpl; [by apply Hf|congruence|done|done].
Qed.

(** ** The rollback and the restart with a candidate *)

Lemma moving_state t from to :
  rt_state t = from → allowed from to = true → (transition t from to).2 = true.
Proof. intros Ht Ha. unfold transition. by rewrite bool_decide_eq_true_2, Ha. Qed.

Lemma moved_state t from to :
  rt_state t = from → allowed from to = true → rt_state (transition t from to).1 = to.
Proof. intros Ht Ha. unfold transition. by rewrite bool_decide_eq_true_2, Ha. Qed.

Lemma rollback_and_relaunch_keeps request t backup cli tr :
  rt_state t = RsApplying →
  keeps (rollback_and_relaunch request t backup desktop cli) tr.
Proof.
  intros Ht. apply moving_keeps; [by apply moving_state|]. apply persist_keeps. intros tr1 _.
  assert (rt_state (transition t RsApplying RsRollbackRequired).1 = RsRollbackRequired) as Ht1
    by by apply moved_state.
  apply moving_keeps; [by apply moving_state|].
  assert (rt_state (transition (transition t RsApplying RsRollbackRequired).1
            RsRollbackRequired RsRollingBack).1 = RsRollingBack) as Ht2 by by apply moved_state.
  apply any_step_keeps. intros [[]|e] tr2; [|by apply rollback_failed_keeps].
  apply any_step_keeps. intros [[]|e] tr3; [|by apply rollback_failed_keeps].
  apply any_step_keeps. intros [state|e] tr4; [|by apply rollback_failed_keeps].
  apply moving_keeps; [by apply moving_state|]. apply persist_keeps. intros tr5 _.
  apply relaunch_keeps. intros r tr6. apply closed_ret.
Qed.

Lemma try_keeps {A B} (p : update (result B IntegrationRestartError))
    (f : B → update (result A IntegrationRestartError)) tr :
  keeps p tr → (∀ b tr', codex_pending desktop tr' = false → keeps (f b) tr') →
  keeps (prog_try p f) tr.
Proof.
  intros Hp Hf. apply wp_try. eapply wp_mono; [exact Hp|].
  intros [[b|e]| |] tr'; simpl; auto.
Qed.

Lemma restart_relaunch_keeps t request instances closed pids state tr :
  rt_state t = RsApplying →
  keeps (restart_relaunch t request instances closed pids desktop state) tr.
Proof.
  intros Ht. apply moving_keeps; [by apply moving_state|]. apply persist_keeps. intros tr1 _.
  assert (rt_state (transition t RsApplying RsOfflineVerified).1 = RsOfflineVerified) as Ht1
    by by apply moved_state.
  apply moving_keeps; [by apply moving_state|]. apply relaunch_keeps. intros [pid|] tr2 Hp.
  - eapply wp_mono; [eapply pending_kept; [apply relaunched_footprint|done..]|].
    rewrite Hp. intros [[o|e]| |] tr3 Hp3; simpl; [done|congruence|done..].
  - unfold persist_relaunch_failed. apply wp_bind, wp_bind.
    eapply wp_mono; [apply persist_spec|]. intros [r| |] tr3 [Hp3 _]; simpl; [|done..].
    congruence.
Qed.

Lemma restart_apply_keeps cli request candidate instances t closed tr :
  rt_state t = RsCodexStopped →
  keeps (restart_apply desktop cli request candidate instances t closed) tr.
Proof.
  intros Ht. apply any_step_keeps. intros _ tr1.
  apply or_abort_keeps. intros _ tr2. apply or_abort_keeps. intros pids tr3.
  apply moving_keeps; [by apply moving_state|].
  assert (rt_state (transition t RsCodexStopped RsApplying).1 = RsApplying) as Ht1
    by by apply moved_state.
  apply or_abort_keeps. intros backup tr4. apply or_abort_keeps. intros _ tr5.
  apply any_step_keeps. intros [state|e] tr6.
  - apply or_abort_keeps. intros _ tr7. by apply restart_relaunch_keeps.
  - destruct backup as [backup|]; [|apply rollback_required_keeps].
    apply try_keeps; [by apply rollback_and_relaunch_keeps|]. intros _ tr7. apply closed_ret.
Qed.

(** Up to the closed windows, which the continuation starts from. *)
Lemma codex_closed_keeps {A} request cli instances tr
    (f : RestartTransaction → CodexCloseOutcome → update (result A IntegrationRestartError)) :
  codex_pending desktop tr = false →
  (∀ t closed tr', rt_state t = RsCodexStopped → keeps (f t closed) tr') →
  keeps (codex_closed request desktop cli instances f) tr.
Proof.
  intros Hp Hf. unfold codex_closed, new_operation_id. cbn [prog_bind call].
  intros nonce _. cbn [prog_bind]. apply moving_keeps; [done|]. apply moving_keeps; [done|].
  apply persist_keeps. intros tr1 Hp1. cbn [prog_bind call]. intros now _.
  apply persist_keeps. intros tr2 Hp2. intros now2 _ [] _ now3 _.
  match goal with |- context [begin_draining ?t now3] => set (t0 := t) end.
  destruct (begin_draining t0 now3) as [t3 []] eqn:Hd.
  2: { apply (closed_ret (A := A) (Err RStateTransition)).
       change (codex_pending desktop tr1 = codex_pending desktop tr) in Hp1.
       change (codex_pending desktop tr2 = codex_pending desktop tr1) in Hp2.
       change (codex_pending desktop tr2 = false). congruence. }
  assert (rt_state t3 = RsDraining) as Ht3.
  { unfold begin_draining in Hd. destruct (_ && _); [|done]. unfold transition in Hd.
    destruct (_ || _); [done|]. by injection Hd as <-. }
  apply moving_keeps; [done|]. apply persist_keeps. intros tr3 _.
  apply any_step_keeps. intros [closed|e] tr4; [|apply abort_keeps].
  apply moving_keeps; [by apply moving_state|]. apply persist_keeps. intros tr5 _.
  apply Hf. by apply moved_state.
Qed.

(** The lease is dropped at the end. *)
Lemma lease_keeps {A} (body : update (result A IntegrationRestartError)) tr :
  codex_pending desktop tr = false →
  (∀ e e' tr', excuse e tr' → excuse e (e' :: tr')) →
  (∀ tr', codex_pending desktop tr' = false → keeps body tr') →
  keeps (with_update_lease RUpdateLease body) tr.
Proof.
  intros Hp Hex Hb. apply wp_try, wp_map_err.
  eapply wp_mono; [eapply pending_kept; [apply acquire_footprint|done..]|].
  intros [[[]|e]| |] tr1 Hp1; simpl; [|congruence|done..].
  apply wp_bind. eapply wp_mono; [apply Hb; congruence|].
  intros [[a|e]| |] tr2 H2; simpl; [|by auto|done..]. by intros [] _.
Qed.

Lemma quiet_keeps {A B} (p : update (result B IntegrationRestartError))
    (f : B → update (result A IntegrationRestartError)) tr l :
  codex_pending desktop tr = false →
  calls_only (within l) p → mem KWindow l = false → mem KKill l = false → mem KSpawn l = false →
  (∀ b tr', codex_pending desktop tr' = false → keeps (f b) tr') →
  keeps (prog_try p f) tr.
Proof.
  intros Hp Hc Hw Hk Hs Hf. apply wp_try. eapply wp_mono; [by eapply pending_kept|].
  rewrite Hp. intros [[b|e]| |] tr1 Hp1; simpl; [by apply Hf|congruence|done..].
Qed.

(** ** The offline installer *)

(** An error of the step is an excuse by itself. *)
Lemma excused_keeps {A B} (p : update (result B IntegrationRestartError))
    (f : B → update (result A IntegrationRestartError)) tr (F : IntegrationRestartError → Prop) :
  fails_with F p → (∀ e tr', F e → excuse e tr') →
  (∀ b tr', keeps (f b) tr') →
  keeps (prog_try p f) tr.
Proof.
  intros Hp Hx Hf. apply wp_try. eapply wp_mono; [by apply fails_with_wp|].
  intros [[b|e]| |] tr' He; simpl; [by apply Hf|by auto|done..].
Qed.

Lemma recover_selector_keeps request t prior tr :
  rt_state t = RsApplying →
  keeps (recover_runtime_selector_and_relaunch request t prior desktop) tr.
Proof.
  intros Ht. apply moving_keeps; [by apply moving_state|]. apply persist_keeps. intros tr1 _.
  assert (rt_state (transition t RsApplying RsRollbackRequired).1 = RsRollbackRequired) as Ht1
    by by apply moved_state.
  apply moving_keeps; [by apply moving_state|].
  assert (rt_state (transition (transition t RsApplying RsRollbackRequired).1
            RsRollbackRequired RsRollingBack).1 = RsRollingBack) as Ht2 by by apply moved_state.
  apply any_step_keeps. intros [[]|e] tr2.
  - apply moving_keeps; [by apply moving_state|]. apply persist_keeps. intros tr3 _.
    apply relaunch_keeps. intros r tr4. apply closed_ret.
  - apply moving_keeps; [by apply moving_state|]. apply persist_keeps. intros tr3 _.
    apply relaunch_after_failure_keeps. intros tr4. apply closed_ret.
Qed.

Lemma or_rollback_keeps {A B} t request (step : update (result B IntegrationRestartError))
    (f : B → update (result A IntegrationRestartError)) tr :
  (∀ b tr', keeps (f b) tr') → keeps (or_rollback_required t request desktop step f) tr.
Proof. intros Hf. apply any_step_keeps. intros [b|e] tr'; [apply Hf|apply rollback_required_keeps]. Qed.

Lemma partially_applied_keeps {A} request t prior tr :
  rt_state t = RsApplying →
  keeps (do? _ := recover_runtime_selector_and_relaunch request t prior desktop in
         Ret (Err (A := A) RRuntimePartiallyApplied)) tr.
Proof.
  intros Ht. apply try_keeps; [by apply recover_selector_keeps|]. intros _ tr'. apply closed_ret.
Qed.

Lemma offline_relaunch_keeps t request instances closed pids state tr :
  rt_state t = RsApplying →
  keeps (offline_relaunch t request instances closed pids desktop state) tr.
Proof.
  intros Ht. apply moving_keeps; [by apply moving_state|]. apply persist_keeps. intros tr1 _.
  assert (rt_state (transition t RsApplying RsOfflineVerified).1 = RsOfflineVerified) as Ht1
    by by apply moved_state.
  apply moving_keeps; [by apply moving_state|]. apply relaunch_keeps. intros [pid|] tr2 Hp.
  - eapply wp_mono; [eapply pending_kept; [apply relaunched_footprint|done..]|].
    rewrite Hp. intros [[o|e]| |] tr3 Hp3; simpl; [done|congruence|done..].
  - by apply closed_ret.
Qed.

Lemma offline_postcheck_keeps t request instances closed pids prior expected changed tr :
  rt_state t = RsApplying →
  keeps (offline_postcheck t request instances closed pids desktop prior expected changed) tr.
Proof.
  intros Ht. apply any_step_keeps. intros [[]|e] tr1.
  - apply any_step_keeps. intros [state|e] tr2; [by apply offline_relaunch_keeps|].
    destruct changed; [by apply partially_applied_keeps|apply rollback_required_keeps].
  - destruct changed; [by apply partially_applied_keeps|apply rollback_required_keeps].
Qed.

Lemma offline_installed_keeps t request instances closed pids tr :
  rt_state t = RsApplying → (∀ e tr', excuse (RInstallation e) tr') →
  keeps (offline_installed t request instances closed pids desktop) tr.
Proof.
  intros Ht Hx. apply (excused_keeps _ _ _ (λ e, ∃ w, e = RInstallation w)).
  { apply fails_with_map_err. eauto. }
  { intros e tr' [w ->]. apply Hx. }
  intros _ tr1. apply or_rollback_keeps. intros _ tr2. apply or_rollback_keeps. intros prior tr3.
  apply or_rollback_keeps. intros bundled tr4. apply or_rollback_keeps. intros expected tr5.
  apply any_step_keeps. intros [next|] tr6; [|by apply offline_postcheck_keeps].
  apply any_step_keeps. intros [[]|e] tr7; [by apply offline_postcheck_keeps|].
  by apply partially_applied_keeps.
Qed.

Definition census_error (e : IntegrationRestartError) : Prop := ∃ c, e = RCensus c.

Lemma drain_fails fuel deadline root : fails_with census_error (drain_loop fuel deadline root).
Proof.
  induction fuel as [|fuel IH]; cbn [drain_loop]; [done|].
  apply fails_with_bind. intros now. destruct (now <? deadline)%Z;
    (apply fails_with_try; [apply fails_with_map_err; by eexists|]); intros observed;
    apply fails_with_bind; intros images; [|done].
  destruct (no_items images); [done|]. by apply fails_with_bind.
Qed.

Lemma wait_installed_fails root :
  fails_with census_error (wait_for_installed_star_processes_to_exit root).
Proof. apply fails_with_bind. intros now. apply drain_fails. Qed.

Lemma terminate_installed_fails root :
  fails_with census_error (terminate_installed_star_processes root).
Proof.
  apply fails_with_try; [apply fails_with_map_err; by eexists|]. intros observed.
  apply fails_with_bind. intros targets. apply fails_with_fold. intros acc target.
  apply fails_with_try; [apply fails_with_map_err; by eexists|done].
Qed.

Lemma offline_apply_keeps installer request instances t closed tr :
  rt_state t = RsCodexStopped →
  (∀ e tr', (∃ w, e = RInstallation w) ∨ census_error e ∨ e = RInstallerExecutable → excuse e tr') →
  keeps (offline_apply installer desktop request instances t closed) tr.
Proof.
  intros Ht Hx. apply any_step_keeps. intros _ tr1.
  apply (excused_keeps _ _ _ census_error); [apply wait_installed_fails|by auto|]. intros _ tr2.
  apply (excused_keeps _ _ _ census_error); [apply terminate_installed_fails|by auto|].
  intros pids tr3. apply moving_keeps; [by apply moving_state|].
  assert (rt_state (transition t RsCodexStopped RsApplying).1 = RsApplying) as Ht1
    by by apply moved_state.
  apply (excused_keeps _ _ _ (λ e, ∃ w, e = RInstallation w)).
  { apply fails_with_bind. intros [local|]; [apply fails_with_map_err|]; by eexists. }
  { auto. }
  intros temp tr4. apply any_step_keeps. intros [status|] tr5.
  2: { simpl. intros _. auto. }
  destruct (out_success status); cbn [negb]; [|apply rollback_required_keeps].
  apply offline_installed_keeps; [done|]. eauto.
Qed.
End promise.

(** ** The flows *)

Section flows.
Context `{WindowsPaths} `{UpdaterHost}.

(** The executable that was checked is the one that was asked for. *)
Lemma verified_desktop_try {A} desktop tr (f : string → update (result A IntegrationRestartError)) Q :
  (∀ tr' e, codex_pending desktop tr' = codex_pending desktop tr → Q (Returned (Err e)) tr') →
  (∀ tr', codex_pending desktop tr' = codex_pending desktop tr → wp any_answer (f desktop) tr' Q) →
  wp any_answer (prog_try (verified_desktop desktop) f) tr Q.
Proof.
  intros He Hf. unfold verified_desktop. destruct (path_is_absolute desktop); simpl; [|by apply He].
  intros [] _; simpl; [by apply Hf|by apply He].
Qed.

Lemma restart_promise request candidate tr :
  let desktop := rq_codex_desktop_executable request in
  codex_pending desktop tr = false →
  wp any_answer (restart_codex_integration request candidate) tr
    (promised desktop (λ _ tr', receipts_written tr' = false)).
Proof.
  cbv zeta. intros Hp. apply lease_keeps; [done| |].
  { intros e e' tr'. apply (receipts_written_app [e']). }
  intros tr1 Hp1.
  do 3 (eapply (quiet_keeps _ _ _ _ _ [KObserve; KFiles]);
    [done|split; [reflexivity|done]|reflexivity..|]; clear Hp1; intros _ tr2 Hp1; clear tr1;
    rename tr2 into tr1).
  eapply (quiet_keeps _ _ _ _ _ [KObserve]); [done| |reflexivity..|].
  { unfold review_candidate. footprint. }
  intros _ tr2 Hp2. apply verified_desktop_try; [intros tr3 e Hk Hx; rewrite Hk, Hp2 in Hx; done|]. intros tr3 Hp3.
  eapply (quiet_keeps _ _ _ _ _ [KObserve]); [congruence| |reflexivity..|].
  { unfold verified_codex_cli. footprint. }
  intros cli tr4 Hp4.
  eapply (quiet_keeps _ _ _ _ _ [KObserve]); [done|apply snapshot_footprint|reflexivity..|].
  intros observed tr5 Hp5. cbv zeta.
  match goal with |- wp _ (if ?b then _ else _) _ _ => destruct b end; [by apply closed_ret|].
  apply (codex_closed_keeps _ (λ _ tr', receipts_written tr' = false)); [done|done|].
  intros t closed tr6 Ht. by apply restart_apply_keeps.
Qed.

(** The errors after which the offline installer may leave Codex closed. *)
Definition strands_codex (e : IntegrationRestartError) : bool :=
  match e with
  | RReceipt _ | RInstallation _ | RCensus _ | RInstallerExecutable => true
  | _ => false
  end.

Lemma offline_promise request tr :
  let desktop := or_codex_desktop_executable request in
  codex_pending desktop tr = false →
  wp any_answer (run_offline_installer_and_restart request) tr
    (promised desktop (λ e _, strands_codex e = true)).
Proof.
  cbv zeta. intros Hp. apply lease_keeps; [done|done|]. intros tr1 Hp1.
  eapply (quiet_keeps _ _ _ _ _ [KObserve]); [done| |reflexivity..|].
  { unfold verified_installer. footprint. }
  intros installer tr2 Hp2. apply verified_desktop_try; [intros tr3 e Hk Hx; rewrite Hk, Hp2 in Hx; done|]. intros tr3 Hp3.
  eapply (quiet_keeps _ _ _ _ _ [KObserve]); [congruence| |reflexivity..|].
  { unfold verified_codex_cli. footprint. }
  intros cli tr4 Hp4.
  eapply (quiet_keeps _ _ _ _ _ [KObserve]); [done|apply snapshot_footprint|reflexivity..|].
  intros observed tr5 Hp5. cbv zeta.
  match goal with |- wp _ (if ?b then _ else _) _ _ => destruct b end; [by apply closed_ret|].
  apply (codex_closed_keeps _ (λ e _, strands_codex e = true));
    [by intros e tr' _ [[w ->]| ->]|done|]. intros t closed tr6 Ht.
  apply offline_apply_keeps; [by intros e tr' _ [[w ->]| ->]|done|].
  by intros e tr' [[w ->]|[[c ->]| ->]].
Qed.

(** C7: a restart with or without a candidate returns, on a clock that does not go
    back, and if it has told Codex to close, or terminated a process, it has asked
    for the Desktop to be started again by then, provided that every receipt it
    tried to write was written. *)
Theorem codex_comes_back w request candidate :
  obeys w clock_law →
  let run := exec w (restart_codex_integration request candidate) [] in
  (∃ r, run.1 = Returned r) ∧
  (receipts_written run.2 = true →
   codex_pending (rq_codex_desktop_executable request) run.2 = false).
Proof.
  intros Hw run. pose proof (wp_exec _ _ _ _ w Hw (restart_total request candidate [])) as [_ [r He]].
  pose proof (wp_exec _ _ _ _ w (obeys_any w) (restart_promise request candidate [] eq_refl)) as Hwp.
  fold run in Hwp, He. clearbody run. rewrite He in Hwp. split; [by exists r|]. intros Hr.
  destruct r as [o|e]; simpl in Hwp; [done|]. rewrite Hr in Hwp.
  destruct (codex_pending _ _); [by specialize (Hwp eq_refl)|done].
Qed.

(** The offline installer leaves Codex closed only with an error of the
    receipts, of the installation, of the process census or of the start of the
    installer. *)
Theorem offline_installer_strands_only_so w request r :
  let run := exec w (run_offline_installer_and_restart request) [] in
  run.1 = Returned r →
  codex_pending (or_codex_desktop_executable request) run.2 = true →
  ∃ e, r = Err e ∧ strands_codex e = true.
Proof.
  intros run He Hp. pose proof (wp_exec _ _ _ _ w (obeys_any w)
    (offline_promise request [] eq_refl)) as Hwp. fold run in Hwp. clearbody run.
  rewrite He in Hwp. destruct r as [o|e]; simpl in Hwp; [congruence|]. exists e. by split; [|apply Hwp].
Qed.
End flows.

(** ** Instances *)

Definition toy_candidate : option (string * Sha256Hash) := Some ("candidate", "scope").

Lemma codex_comes_back_witness :
  let run := exec (toy_machine no_fault) (restart_codex_integration toy_request toy_candidate) [] in
  toy_closed run.2 = true ∧ codex_pending "desktop.exe" run.2 = false.
Proof.
  split; [vm_compute; reflexivity|].
  apply (codex_comes_back (toy_machine no_fault) toy_request toy_candidate);
    [apply toy_obeys|vm_compute; reflexivity].
Defined.

(** The receipts can no longer be written once Codex is closed. *)
Definition full_disk (tr : list deed) (c : machine) : bool :=
  match c with CWriteReceipt _ _ => toy_closed tr | _ => false end.

(** A receipt that cannot be written leaves Codex closed: the restart returns
    the error of the receipt and does not start the Desktop. *)
Lemma receipt_failure_strands_codex :
  let '(o, tr) :=
    exec (toy_machine full_disk) (restart_codex_integration toy_request toy_candidate) [] in
  o = Returned (Err (RReceipt (Io "disk full"))) ∧ codex_pending "desktop.exe" tr = true.
Proof. by vm_compute. Qed.

(** The snapshots fail once the controller was asked to stop. *)
Definition blind_after_handoff (tr : list deed) (c : machine) : bool :=
  match c with
  | CSnapshot =>
      existsb (λ e : deed, match projT1 e with CControllerShutdown _ => true | _ => false end) tr
  | _ => false
  end.

Lemma offline_installer_strands_only_so_witness :
  let run := exec (toy_machine blind_after_handoff)
               (run_offline_installer_and_restart toy_offline) [] in
  codex_pending "desktop.exe" run.2 = true ∧
  ∃ e, Err (A := IntegrationRepairRestartOutcome) (RCensus CensusSnapshot) = Err e ∧
    strands_codex e = true.
Proof.
  split; [vm_compute; reflexivity|].
  apply (offline_installer_strands_only_so (toy_machine blind_after_handoff) toy_offline);
    vm_compute; reflexivity.
Defined.
