(* ===== verification/InstallSafety.v ===== *)
(** * When the updater changes installed files

    The restart with a candidate and the offline installer change files of the
    installation and of the Codex integration only while Codex is closed: its
    processes were seen to be gone, the countdown had passed, and the Desktop was
    not started since; a candidate is applied only after its review satisfied
    the gate. *)
From S2P Require Import Prelude Canonical Contracts Effects ProcessCensus Restart UpdaterPort.
From S2P Require Import UpdaterSteps UpdaterWaits Updater UpdaterFacts UpdaterToy UpdaterSafety RelaunchFacts.
Open Scope prog_scope.

Section install.
Context `{WindowsPaths} `{UpdaterHost}.

(** ** The rule *)

Definition codex_cli_path (desktop : string) : option string :=
  option_map (λ app, path_join (path_join app "resources") "codex.exe") (path_parent desktop).

(** A snapshot shows that Codex is gone. *)
Definition exit_shown (desktop : string) (e : deed) : Prop :=
  ∃ cli observed, codex_cli_path desktop = Some cli ∧
    e = existT (P := answer) CSnapshot (Ok observed) ∧ codex_images_exited observed desktop cli = true.

Definition countdown_passed (h : list deed) : Prop :=
  ∃ armed drained : DateTime,
    existT (P := answer) CUtcNow armed ∈ h ∧ existT (P := answer) CUtcNow drained ∈ h ∧
    (armed + RESTART_COUNTDOWN <= drained)%Z.

Definition unspawned (h : list deed) : Prop :=
  Forall (λ e : deed, kind_of (projT1 e) ≠ KSpawn) h.

(** Codex is closed: after the countdown a snapshot showed that it was gone, and
    no Desktop was started. *)
Definition quiescent (desktop : string) (h : list deed) : Prop :=
  (∃ later e earlier, h = later ++ e :: earlier ∧ exit_shown desktop e ∧ countdown_passed earlier) ∧
  unspawned h.

Definition approved (root candidate : string) (approval : Sha256Hash) (h : list deed) : Prop :=
  ∃ review, existT (P := answer) (CInspectIntegration root candidate) (Ok review) ∈ h ∧
    candidate_accepted review approval = true.

Definition files_rule (desktop : string) (e : deed) (h : list deed) : Prop :=
  match projT1 e with
  | CApplyCandidate root candidate approval _ =>
      quiescent desktop h ∧ approved root candidate approval h
  | CCommitCandidate _ | CRollbackCandidate _ _ | CRepair _ _ | CActivateBridge _ _ _ =>
      quiescent desktop h
  | CRun _ arguments _ _ => (∃ root, arguments = installer_arguments root) → quiescent desktop h
  | _ => True
  end.

(** ** Traces that obey it *)

Context (desktop : string).

Abbreviation obeyed := (justified (files_rule desktop)).
Abbreviation fine p tr := (wp any_answer p tr (λ _ tr', obeyed tr')).

(** While Codex is closed. *)
Definition closed_trace (tr : list deed) : Prop := obeyed tr ∧ quiescent desktop tr.

(** Before it is. *)
Definition early_trace (tr : list deed) : Prop := obeyed tr ∧ unspawned tr.

Abbreviation calm :=
  (within [KObserve; KReceipt; KWindow; KKill; KHandoff; KProgram; KSelector]).
Abbreviation early := (within [KObserve; KReceipt; KWindow; KKill; KLease]).
Abbreviation late := (within [KObserve; KReceipt; KSpawn; KLease]).

Lemma quiescent_cons e h :
  kind_of (projT1 e) ≠ KSpawn → quiescent desktop h → quiescent desktop (e :: h).
Proof.
  intros He [(later & e' & earlier & -> & Hx) Hu]. split; [|by constructor].
  by exists (e :: later), e', earlier.
Qed.

Lemma closed_extend ext tr :
  Forall (λ e : deed, calm (projT1 e)) ext → closed_trace tr → closed_trace (ext ++ tr).
Proof.
  intros Hext Ht. induction Hext as [|e ext He _ [Hj Hq]]; [done|]. simpl. split.
  - split; [|done]. unfold files_rule. unfold within in He.
    destruct (projT1 e); try done; discriminate He.
  - apply quiescent_cons; [|done]. unfold within in He.
    destruct (projT1 e); try done; discriminate He.
Qed.

Lemma early_extend ext tr :
  Forall (λ e : deed, early (projT1 e)) ext → early_trace tr → early_trace (ext ++ tr).
Proof.
  intros Hext Ht. induction Hext as [|e ext He _ [Hj Hu]]; [done|]. simpl. split.
  - split; [|done]. unfold files_rule. unfold within in He.
    destruct (projT1 e); try done; discriminate He.
  - constructor; [|done]. unfold within in He. destruct (projT1 e); try done; discriminate He.
Qed.

Lemma late_fine {A} (p : update A) tr : calls_only late p → obeyed tr → fine p tr.
Proof.
  intros Hp Hj. eapply wp_mono; [by apply (calls_only_wp late)|]. intros o tr' (ext & -> & Hext).
  eapply justified_app; [exact Hext| |done]. intros e h He. unfold files_rule.
  unfold within in He. destruct (projT1 e); try done; discriminate He.
Qed.

Lemma calm_bind {A B} (p : update B) (f : B → update A) tr :
  calls_only calm p → closed_trace tr → (∀ b tr', closed_trace tr' → fine (f b) tr') →
  fine (prog_bind p f) tr.
Proof.
  intros Hp Ht Hf. apply wp_bind. eapply wp_mono; [by apply (calls_only_wp calm)|].
  intros o tr' (ext & -> & Hext). pose proof (closed_extend _ _ Hext Ht) as Ht'.
  destruct o as [b| |]; [by apply Hf|apply Ht'|apply Ht'].
Qed.

Lemma calm_try {A B E} (p : update (result B E)) (f : B → update (result A E)) tr :
  calls_only calm p → closed_trace tr → (∀ b tr', closed_trace tr' → fine (f b) tr') →
  fine (prog_try p f) tr.
Proof.
  intros Hp Ht Hf. apply calm_bind; [done|done|]. intros [b|e] tr' Ht'; [by apply Hf|apply Ht'].
Qed.

Lemma early_bind {A B} (p : update B) (f : B → update A) tr :
  calls_only early p → early_trace tr → (∀ b tr', early_trace tr' → fine (f b) tr') →
  fine (prog_bind p f) tr.
Proof.
  intros Hp Ht Hf. apply wp_bind. eapply wp_mono; [by apply (calls_only_wp early)|].
  intros o tr' (ext & -> & Hext). pose proof (early_extend _ _ Hext Ht) as Ht'.
  destruct o as [b| |]; [by apply Hf|apply Ht'|apply Ht'].
Qed.

Lemma early_try {A B E} (p : update (result B E)) (f : B → update (result A E)) tr :
  calls_only early p → early_trace tr → (∀ b tr', early_trace tr' → fine (f b) tr') →
  fine (prog_try p f) tr.
Proof.
  intros Hp Ht Hf. apply early_bind; [done|done|]. intros [b|e] tr' Ht'; [by apply Hf|apply Ht'].
Qed.

Lemma moving_fine {A} step (f : RestartTransaction → update (result A IntegrationRestartError)) tr :
  obeyed tr → fine (f step.1) tr → fine (moving step f) tr.
Proof. intros Hj Hf. unfold moving. by destruct step.2. Qed.

(** A call that the rule allows while Codex is closed. *)
Lemma closed_call {A} c (f : answer c → update A) tr :
  closed_trace tr → kind_of c ≠ KSpawn → (∀ r, files_rule desktop (existT c r) tr) →
  (∀ r tr', closed_trace tr' → fine (f r) tr') →
  fine (prog_bind (ask c) f) tr.
Proof.
  intros Ht Hk Hr Hf. simpl. intros r _. apply Hf. split; [split; [apply Hr|apply Ht]|].
  apply quiescent_cons; [done|apply Ht].
Qed.

(** Every failure of the flows ends with receipts and the Desktop. *)
Lemma abort_late {A} t request e :
  calls_only late (do! _ := abort_and_relaunch t request desktop in
                   Ret (Err (A := A) (e : IntegrationRestartError))).
Proof. footprint. Qed.

Lemma rollback_required_late {A} t request e :
  calls_only late (rollback_required (A := A) t request desktop e).
Proof. unfold rollback_required, persist_rollback_required, relaunch_after_failure. footprint. Qed.

Lemma rollback_failed_late {A} t request e :
  calls_only late (rollback_failed (A := A) t request desktop e).
Proof. unfold rollback_failed, relaunch_after_failure. footprint. Qed.

Lemma or_abort_fine {A B} t request (step : update (result B IntegrationRestartError))
    (f : B → update (result A IntegrationRestartError)) tr :
  wp any_answer step tr (λ o tr', closed_trace tr') →
  (∀ b tr', closed_trace tr' → fine (f b) tr') →
  fine (or_abort t request desktop step f) tr.
Proof.
  intros Hs Hf. apply wp_bind. eapply wp_mono; [exact Hs|].
  intros [[b|e]| |] tr' Ht'; [by apply Hf| |apply Ht'|apply Ht'].
  apply late_fine; [apply abort_late|apply Ht'].
Qed.

Lemma calm_closed {B} (p : update B) tr :
  calls_only calm p → closed_trace tr → wp any_answer p tr (λ _ tr', closed_trace tr').
Proof.
  intros Hp Ht. eapply wp_mono; [by apply (calls_only_wp calm)|].
  intros o tr' (ext & -> & Hext). by apply closed_extend.
Qed.

(** ** The restart with a candidate *)

Lemma rollback_and_relaunch_fine request t backup cli tr :
  closed_trace tr → fine (rollback_and_relaunch request t backup desktop cli) tr.
Proof.
  intros Ht. apply moving_fine; [apply Ht|]. apply calm_try; [footprint|done|]. intros _ tr1 Ht1.
  apply moving_fine; [apply Ht1|]. apply closed_call; [done|done| |].
  { intros r. apply Ht1. }
  intros [[]|e] tr2 Ht2; [|apply late_fine; [apply rollback_failed_late|apply Ht2]].
  apply calm_bind; [footprint|done|].
  intros [[]|e] tr3 Ht3; [|apply late_fine; [apply rollback_failed_late|apply Ht3]].
  apply closed_call; [done|done| |].
  { intros r. apply Ht3. }
  intros [state|e] tr4 Ht4; [|apply late_fine; [apply rollback_failed_late|apply Ht4]].
  apply late_fine; [footprint|apply Ht4].
Qed.

Lemma restart_relaunch_late t request instances closed pids state :
  calls_only late (restart_relaunch t request instances closed pids desktop state).
Proof.
  pose proof (relaunched_footprint). unfold restart_relaunch, persist_relaunch_failed. footprint.
Qed.

(** The candidate has passed its review, when there is one. *)
Definition reviewed (root : string) (candidate : option (string * Sha256Hash)) (h : list deed) :
    Prop :=
  match candidate with
  | None => True
  | Some (candidate_root, approval) => approved root candidate_root approval h
  end.

Lemma reviewed_app root candidate ext h : reviewed root candidate h → reviewed root candidate (ext ++ h).
Proof.
  destruct candidate as [[c a]|]; [|done]. intros (review & Hin & Ha). exists review.
  split; [|done]. apply elem_of_app. by right.
Qed.

Lemma calm_reviewed {B} (p : update B) root candidate tr :
  calls_only calm p → closed_trace tr → reviewed root candidate tr →
  wp any_answer p tr (λ _ tr', closed_trace tr' ∧ reviewed root candidate tr').
Proof.
  intros Hp Ht Hr. eapply wp_mono; [by apply (calls_only_wp calm)|].
  intros o tr' (ext & -> & Hext). split; [by apply closed_extend|by apply reviewed_app].
Qed.

Lemma apply_candidate_closed request candidate operation_id tr :
  closed_trace tr → reviewed (rq_install_root request) candidate tr →
  wp any_answer (apply_candidate request candidate operation_id) tr (λ _ tr', closed_trace tr').
Proof.
  intros Ht Hr. destruct candidate as [[c a]|]; [|done]. simpl.
  assert (∀ r, closed_trace (existT (CApplyCandidate (rq_install_root request) c a operation_id) r :: tr))
    as Hc.
  { intros r. split; [split; [split; [apply Ht|apply Hr]|apply Ht]|].
    apply quiescent_cons; [done|apply Ht]. }
  intros [backup|e] _; simpl; apply Hc.
Qed.

Lemma commit_candidate_closed backup tr :
  closed_trace tr → wp any_answer (commit_candidate backup) tr (λ _ tr', closed_trace tr').
Proof.
  intros Ht. destruct backup as [backup|]; [|done]. simpl.
  assert (∀ r, closed_trace (existT (CCommitCandidate backup) r :: tr)) as Hc.
  { intros r. split; [split; [apply Ht|apply Ht]|]. apply quiescent_cons; [done|apply Ht]. }
  intros [[]|e] _; simpl; apply Hc.
Qed.

Lemma restart_apply_fine cli request candidate instances t closed tr :
  closed_trace tr → reviewed (rq_install_root request) candidate tr →
  fine (restart_apply desktop cli request candidate instances t closed) tr.
Proof.
  intros Ht Hr. apply wp_bind.
  eapply wp_mono; [apply calm_reviewed; [footprint|exact Ht|exact Hr]|].
  intros [_h| |] tr1 [Ht1 Hr1]; [|apply Ht1|apply Ht1].
  apply wp_bind. eapply wp_mono; [apply calm_reviewed; [footprint|exact Ht1|exact Hr1]|].
  intros [[w|e]| |] tr2 [Ht2 Hr2]; [|apply late_fine; [apply abort_late|apply Ht2]|apply Ht2|apply Ht2].
  apply wp_bind. eapply wp_mono; [apply calm_reviewed; [footprint|exact Ht2|exact Hr2]|].
  intros [[pids|e]| |] tr3 [Ht3 Hr3];
    [|apply late_fine; [apply abort_late|apply Ht3]|apply Ht3|apply Ht3].
  apply moving_fine; [apply Ht3|].
  apply or_abort_fine; [by apply apply_candidate_closed|]. intros backup tr4 Ht4.
  apply or_abort_fine; [apply calm_closed; [footprint|done]|]. intros _ tr5 Ht5.
  apply closed_call; [done|done| |].
  { intros r. apply Ht5. }
  intros [state|e] tr6 Ht6.
  - apply or_abort_fine; [by apply commit_candidate_closed|]. intros _ tr7 Ht7.
    apply late_fine; [apply restart_relaunch_late|apply Ht7].
  - destruct backup as [backup|].
    + apply wp_try. eapply wp_mono; [by apply rollback_and_relaunch_fine|].
      by intros [[[]|e']| |] tr7 Ht7.
    + apply late_fine; [apply rollback_required_late|apply Ht6].
Qed.

(** ** Closing Codex *)

Lemma wp_suffix {A} (p : update A) tr : wp any_answer p tr (λ _ tr', tr `suffix_of` tr').
Proof.
  revert tr. induction p as [a| | |c k IH]; intros tr; simpl; [done..|]. intros r _.
  eapply wp_mono; [apply IH|]. intros o tr' Hs. etrans; [|exact Hs]. by exists [existT c r].
Qed.

(** The last call shows that Codex is gone. *)
Definition just_exited (tr tr' : list deed) : Prop :=
  ∃ e h, tr' = e :: h ∧ exit_shown desktop e ∧ tr `suffix_of` h.

Lemma just_exited_later tr tr1 tr2 : tr `suffix_of` tr1 → just_exited tr1 tr2 → just_exited tr tr2.
Proof. intros Hs (e & h & -> & Hx & Hs'). exists e, h. split_and!; [done..|]. by etrans. Qed.

Lemma exited_now cli observed tr :
  codex_cli_path desktop = Some cli → codex_images_exited observed desktop cli = true →
  just_exited tr (existT (P := answer) CSnapshot (Ok observed) :: tr).
Proof. intros Hc Hx. eexists _, tr. split_and!; [done|by exists cli, observed|done]. Qed.

Lemma exit_loop_seen cli fuel deadline poll tr :
  codex_cli_path desktop = Some cli →
  wp any_answer (exit_loop fuel deadline poll (codex_exited desktop cli)) tr
    (λ o tr', o = Returned (Ok true) → just_exited tr tr').
Proof.
  intros Hc. revert tr. induction fuel as [|fuel IH]; intros tr; cbn [exit_loop]; [done|].
  apply wp_try. simpl. intros [observed|e] _; simpl; [|done].
  destruct (codex_images_exited observed desktop cli) eqn:He.
  - intros _. by eapply exited_now.
  - simpl. intros now _. destruct (deadline <=? now)%Z; simpl; [done|]. intros [] _.
    eapply wp_mono; [apply IH|]. intros o tr' Hs Ho. eapply just_exited_later; [|by apply Hs].
    by eexists [_; _; _].
Qed.

Lemma terminate_loop_seen cli fuel deadline poll terminate acc tr :
  codex_cli_path desktop = Some cli →
  wp any_answer (terminate_loop fuel deadline poll terminate (codex_exited desktop cli) acc) tr
    (λ o tr', ∀ l, o = Returned (Ok (l, true)) → just_exited tr tr').
Proof.
  intros Hc. revert acc tr. induction fuel as [|fuel IH]; intros acc tr; cbn [terminate_loop]; [done|].
  apply wp_try. simpl. intros [observed|e] _; simpl; [|done].
  destruct (codex_images_exited observed desktop cli) eqn:He.
  { simpl. intros l _. by eapply exited_now. }
  apply wp_try. eapply wp_mono; [apply wp_suffix|].
  intros [[more|e]| |] tr1 Hs1; [|done..]. assert (tr `suffix_of` tr1) as Hs.
  { etrans; [|exact Hs1]. by eexists [_]. }
  apply wp_try. simpl. intros [observed'|e] _; simpl; [|done].
  destruct (codex_images_exited observed' desktop cli) eqn:He'.
  { simpl. intros l _. eapply just_exited_later; [exact Hs|]. by eapply exited_now. }
  simpl. intros now _. destruct (deadline <=? now)%Z; simpl; [by intros l [= _]|]. intros [] _.
  eapply wp_mono; [apply IH|]. intros o tr' Hl l Ho. eapply just_exited_later; [|by eapply Hl].
  etrans; [exact Hs|]. by eexists [_; _; _].
Qed.

Lemma wait_exit_seen cli timeout tr :
  codex_cli_path desktop = Some cli →
  wp any_answer (wait_for_codex_exit desktop cli timeout) tr
    (λ o tr', o = Returned (Ok true) → just_exited tr tr').
Proof.
  intros Hc now _. eapply wp_mono; [by apply exit_loop_seen|]. intros o tr' Hs Ho.
  eapply just_exited_later; [|by apply Hs]. by eexists [_].
Qed.

Lemma terminate_until_seen cli timeout poll terminate tr :
  codex_cli_path desktop = Some cli →
  wp any_answer (terminate_until_process_exit timeout poll terminate (codex_exited desktop cli)) tr
    (λ o tr', ∀ l, o = Returned (Ok (l, true)) → just_exited tr tr').
Proof.
  intros Hc now _. eapply wp_mono; [by apply terminate_loop_seen|]. intros o tr' Hs l Ho.
  eapply just_exited_later; [|by eapply Hs]. by eexists [_].
Qed.

Lemma close_seen cli tr :
  codex_cli_path desktop = Some cli →
  wp any_answer (close_codex_desktop desktop cli) tr
    (λ o tr', ∀ closed, o = Returned (Ok closed) → just_exited tr tr').
Proof.
  intros Hc. apply wp_try, wp_map_err. eapply wp_mono; [apply wp_suffix|].
  intros [[graceful|e]| |] tr1 Hs1; [|done..]; cbn beta iota delta [map_err]. apply wp_try.
  eapply wp_mono; [apply wp_and; [by apply wait_exit_seen|apply wp_suffix]|]. intros o tr2 [Hs Hs2].
  destruct o as [[b|e]| |]; [|done..]. destruct b.
  - intros closed _. eapply just_exited_later; [exact Hs1|]. by apply Hs.
  - apply wp_try. eapply wp_mono; [by apply terminate_until_seen|]. intros o3 tr3 Hs3.
    destruct o3 as [[[l b]|e]| |]; [|done..]. destruct b; [|done].
    intros closed _. eapply just_exited_later; [by etrans|]. by eapply Hs3.
Qed.

Lemma close_quiescent cli tr :
  codex_cli_path desktop = Some cli → early_trace tr → countdown_passed tr →
  wp any_answer (close_codex_desktop desktop cli) tr
    (λ o tr', obeyed tr' ∧ ∀ closed, o = Returned (Ok closed) → closed_trace tr').
Proof.
  intros Hc Ht Hd.
  pose proof (wp_and _ _ _ _ _ (close_seen cli tr Hc)
    (calls_only_wp _ any_answer _ tr (close_footprint desktop cli))) as Hw.
  eapply wp_mono; [exact Hw|]. intros o tr' [Hs (ext & Heq & Hext)].
  assert (early_trace (ext ++ tr)) as [Hj Hu].
  { apply early_extend; [|done]. eapply Forall_impl; [exact Hext|].
    intros e. by apply within_mono. }
  rewrite <-Heq in Hj, Hu. split; [done|]. intros closed Ho. split; [done|]. split; [|done].
  destruct (Hs closed Ho) as (e & h & -> & Hx & [k ->]). exists [], e, (k ++ tr).
  split_and!; [done|done|]. destruct Hd as (a & d & Ha & Hd & Hle). exists a, d.
  split_and!; [apply elem_of_app; by right..|done].
Qed.

(** ** From the plan to closed windows *)

Context (root : string) (candidate : option (string * Sha256Hash)).

(** Before Codex is closed, with the review done. *)
Definition held_trace (tr : list deed) : Prop := early_trace tr ∧ reviewed root candidate tr.

Lemma held_extend ext tr :
  Forall (λ e : deed, early (projT1 e)) ext → held_trace tr → held_trace (ext ++ tr).
Proof. intros Hext [Ht Hr]. split; [by apply early_extend|by apply reviewed_app]. Qed.

Lemma held_step e tr : early (projT1 e) → held_trace tr → held_trace (e :: tr).
Proof. intros He. apply (held_extend [e]). by constructor. Qed.

(** A step before the windows are closed; what was seen stays seen. *)
Lemma held_try {A B E} (p : update (result B E)) (f : B → update (result A E)) tr :
  calls_only early p → held_trace tr →
  (∀ b ext, held_trace (ext ++ tr) → fine (f b) (ext ++ tr)) →
  fine (prog_try p f) tr.
Proof.
  intros Hp Ht Hf. apply wp_try. eapply wp_mono; [by apply (calls_only_wp early)|].
  intros o tr' (ext & -> & Hext). pose proof (held_extend _ _ Hext Ht) as Ht'.
  destruct o as [[b|e]| |]; [by apply Hf|apply Ht'..].
Qed.

(** The countdown of an armed transaction has passed when it begins draining. *)
Lemma begin_draining_passed t armed t' deadline now :
  rt_state t = RsCandidateVerified → arm t armed = (t', Some deadline) →
  (begin_draining t' now).2 = true → (armed + RESTART_COUNTDOWN <= now)%Z.
Proof.
  intros Hs. unfold arm. rewrite Hs. intros [= <- <-]. unfold begin_draining. simpl.
  destruct (_ <=? now)%Z eqn:Hle; [|done]. intros _. by apply Z.leb_le.
Qed.

Lemma codex_closed_fine {A} request cli instances tr
    (f : RestartTransaction → CodexCloseOutcome → update (result A IntegrationRestartError)) :
  codex_cli_path desktop = Some cli → held_trace tr →
  (∀ t closed tr', closed_trace tr' → reviewed root candidate tr' → fine (f t closed) tr') →
  fine (codex_closed request desktop cli instances f) tr.
Proof.
  intros Hc Ht Hf. unfold codex_closed, new_operation_id. cbn [prog_bind call]. intros nonce _.
  cbn [prog_bind]. apply held_step with (e := existT CNonce nonce) in Ht; [|done].
  apply moving_fine; [apply Ht|]. apply moving_fine; [apply Ht|].
  match goal with |- context [arm ?t _] => set (t0 := t); assert (rt_state t0 = RsCandidateVerified) as Hs by done end.
  clearbody t0. apply held_try; [footprint|done|]. intros _ ext1 Ht1.
  cbn [prog_bind call]. intros armed _.
  apply held_step with (e := existT CUtcNow armed) in Ht1; [|done].
  destruct (arm t0 armed) as [t1 [deadline|]] eqn:Ha; [|apply Ht1].
  apply held_try; [footprint|done|]. intros _ ext2 Ht2. cbn [prog_bind call].
  intros now2 _ [] _ now3 _. set (tr3 := existT CUtcNow now3 :: _).
  assert (held_trace tr3) as Ht3.
  { do 3 (apply held_step; [done|]). exact Ht2. }
  assert (existT (P := answer) CUtcNow armed ∈ tr3 ∧ existT (P := answer) CUtcNow now3 ∈ tr3) as [Hin1 Hin3].
  { split; [|by left]. do 3 right. apply elem_of_app. right. by left. }
  clearbody tr3. destruct (begin_draining t1 now3) as [t3 []] eqn:Hd; [|apply Ht3].
  apply moving_fine; [apply Ht3|]. apply held_try; [footprint|done|]. intros _ ext4 Ht4.
  apply wp_bind. eapply wp_mono.
  { apply wp_and; [apply (close_quiescent cli); [done|apply Ht4|]|
      apply (calls_only_wp _ _ _ _ (close_footprint desktop cli))].
    exists armed, now3. split_and!; [by (apply elem_of_app; right)..|].
    eapply begin_draining_passed; [exact Hs|exact Ha|by rewrite Hd]. }
  intros o tr5 [[Hj Hq] (ext5 & -> & _)]. destruct o as [[closed|e]| |]; [|by apply late_fine; [apply abort_late|]|done..].
  specialize (Hq closed eq_refl). apply moving_fine; [done|].
  apply wp_try. eapply wp_mono; [apply calm_reviewed; [footprint|exact Hq|apply reviewed_app, Ht4]|].
  intros [[_u|e]| |] tr6 [Ht6 Hr6]; [by apply Hf|apply Ht6..].
Qed.

(** ** The offline installer *)

Lemma recover_selector_fine request t prior tr :
  closed_trace tr → fine (recover_runtime_selector_and_relaunch request t prior desktop) tr.
Proof.
  intros Ht. apply moving_fine; [apply Ht|]. apply calm_try; [footprint|done|]. intros _ tr1 Ht1.
  apply moving_fine; [apply Ht1|]. apply calm_bind; [unfold restore_prior_runtime, activate; footprint|done|].
  intros [[]|e] tr2 Ht2; (apply late_fine; [unfold relaunch_after_failure; footprint|apply Ht2]).
Qed.

Lemma partially_applied_fine {A} request t prior tr :
  closed_trace tr →
  fine (do? _ := recover_runtime_selector_and_relaunch request t prior desktop in
        Ret (Err (A := A) RRuntimePartiallyApplied)) tr.
Proof.
  intros Ht. apply wp_try. eapply wp_mono; [by apply recover_selector_fine|].
  by intros [[[]|e]| |] tr1 Ht1.
Qed.

Lemma offline_relaunch_late t request instances closed pids state :
  calls_only late (offline_relaunch t request instances closed pids desktop state).
Proof. pose proof (relaunched_footprint). unfold offline_relaunch. footprint. Qed.

Lemma offline_postcheck_fine t request instances closed pids prior expected changed tr :
  closed_trace tr →
  fine (offline_postcheck t request instances closed pids desktop prior expected changed) tr.
Proof.
  intros Ht. apply calm_bind; [footprint|done|]. intros [[]|e] tr1 Ht1.
  - apply calm_bind; [footprint|done|]. intros [state|e] tr2 Ht2.
    + apply late_fine; [apply offline_relaunch_late|apply Ht2].
    + destruct changed; [by apply partially_applied_fine|].
      apply late_fine; [apply rollback_required_late|apply Ht2].
  - destruct changed; [by apply partially_applied_fine|].
    apply late_fine; [apply rollback_required_late|apply Ht1].
Qed.

Lemma or_rollback_fine {A B} t request (step : update (result B IntegrationRestartError))
    (f : B → update (result A IntegrationRestartError)) tr :
  calls_only calm step → closed_trace tr → (∀ b tr', closed_trace tr' → fine (f b) tr') →
  fine (or_rollback_required t request desktop step f) tr.
Proof.
  intros Hs Ht Hf. apply calm_bind; [done|done|]. intros [b|e] tr1 Ht1; [by apply Hf|].
  apply late_fine; [apply rollback_required_late|apply Ht1].
Qed.

Lemma offline_installed_fine t request instances closed pids tr :
  closed_trace tr → fine (offline_installed t request instances closed pids desktop) tr.
Proof.
  intros Ht. apply calm_try; [footprint|done|]. intros _ tr1 Ht1.
  apply or_rollback_fine; [footprint|done|]. intros _ tr2 Ht2.
  apply or_rollback_fine; [footprint|done|]. intros prior tr3 Ht3.
  apply or_rollback_fine; [footprint|done|]. intros bundled tr4 Ht4.
  apply or_rollback_fine; [footprint|done|]. intros expected tr5 Ht5.
  apply calm_bind; [unfold next_offline_runtime_activation, next_activation; footprint|done|].
  intros [next|] tr6 Ht6; [|by apply offline_postcheck_fine].
  apply calm_bind; [unfold activate; footprint|done|].
  intros [[]|e] tr7 Ht7; [by apply offline_postcheck_fine|by apply partially_applied_fine].
Qed.

Lemma offline_apply_fine installer request instances t closed tr :
  closed_trace tr → fine (offline_apply installer desktop request instances t closed) tr.
Proof.
  intros Ht. apply calm_bind; [footprint|done|]. intros _ tr1 Ht1.
  apply calm_try; [footprint|done|]. intros _ tr2 Ht2.
  apply calm_try; [footprint|done|]. intros pids tr3 Ht3.
  apply moving_fine; [apply Ht3|].
  apply calm_try; [unfold safe_installer_temp_directory; footprint|done|]. intros temp tr4 Ht4.
  apply calm_bind; [footprint|done|]. intros [status|] tr5 Ht5; [|apply Ht5].
  destruct (out_success status); cbn [negb]; [by apply offline_installed_fine|].
  apply late_fine; [apply rollback_required_late|apply Ht5].
Qed.

(** ** Under the lease *)

Lemma lease_fine {A} (body : update (result A IntegrationRestartError)) tr :
  early_trace tr → (∀ tr', early_trace tr' → fine body tr') →
  fine (with_update_lease RUpdateLease body) tr.
Proof.
  intros Ht Hb. apply early_try; [footprint|done|]. intros _ tr1 Ht1.
  apply wp_bind. eapply wp_mono; [by apply Hb|]. intros [r| |] tr2 Ht2; [|done..].
  intros [] _. by split.
Qed.

Lemma desktop_try {A} (f : string → update (result A IntegrationRestartError)) tr :
  obeyed tr → (∀ b, fine (f desktop) (existT (CIsFile desktop) b :: tr)) →
  fine (prog_try (verified_desktop desktop) f) tr.
Proof.
  intros Hj Hf. unfold verified_desktop. destruct (path_is_absolute desktop); simpl; [|done].
  intros b _. specialize (Hf b). by destruct b.
Qed.

Lemma codex_cli_try {A} (f : string → update (result A IntegrationRestartError)) tr :
  obeyed tr →
  (∀ cli e, codex_cli_path desktop = Some cli → early (projT1 e) → fine (f cli) (e :: tr)) →
  fine (prog_try (verified_codex_cli desktop) f) tr.
Proof.
  intros Hj Hf. unfold verified_codex_cli, codex_cli_path in *.
  destruct (path_parent desktop) as [app|]; simpl; [|done]. intros b _.
  specialize (Hf (path_join (path_join app "resources") "codex.exe")
    (existT (CIsFile (path_join (path_join app "resources") "codex.exe")) b) eq_refl eq_refl).
  by destruct b.
Qed.

(** Both flows, from the checked desktop on. *)
Lemma closing_fine {A} request (f : string → string → list ProcessIdentity →
      RestartTransaction → CodexCloseOutcome → update (result A IntegrationRestartError)) tr :
  held_trace tr →
  (∀ cli instances t closed tr', closed_trace tr' → reviewed root candidate tr' →
     fine (f desktop cli instances t closed) tr') →
  fine (do? desktop := verified_desktop desktop in
        do? cli := verified_codex_cli desktop in
        do? observed := snapshot in
        let instances := exact_image_instances observed desktop in
        if no_items instances then Ret (Err RNoInstance)
        else codex_closed (request desktop) desktop cli instances (f desktop cli instances)) tr.
Proof.
  intros Ht Hf. apply desktop_try; [apply Ht|]. intros b.
  apply held_step with (e := existT (CIsFile desktop) b) in Ht; [|done].
  apply codex_cli_try; [apply Ht|]. intros cli e Hc He. apply held_step with (e := e) in Ht; [|done].
  apply held_try; [footprint|done|]. intros observed ext Ht1. cbv zeta.
  destruct (no_items _); [apply Ht1|]. apply codex_closed_fine; [done|done|]. intros t closed tr'.
  apply Hf.
Qed.
End install.

(** ** The flows *)

Definition flow_desktop (f : flow) : option string :=
  match f with
  | RestartFlow request _ => Some (rq_codex_desktop_executable request)
  | OfflineFlow request => Some (or_codex_desktop_executable request)
  | ReconcileFlow _ | RuntimeFlow _ => None
  end.

Section flows.
Context `{WindowsPaths} `{UpdaterHost}.

Lemma early_nil : early_trace "" [].
Proof. by split; [|constructor]. Qed.

Lemma recover_early {A} desktop root (f : N → update (result A IntegrationRestartError)) tr :
  early_trace desktop tr →
  (∀ n tr', early_trace desktop tr' →
     wp any_answer (f n) tr' (λ _ tr'', justified (files_rule desktop) tr'')) →
  wp any_answer (prog_try (prog_map_err RInstallation (ask (CRecoverCandidates root))) f) tr
    (λ _ tr', justified (files_rule desktop) tr').
Proof.
  intros [Hj Hu] Hf. apply wp_try, wp_map_err. intros r _.
  assert (early_trace desktop (existT (CRecoverCandidates root) r :: tr)) as Ht
    by (split; [done|by constructor]).
  destruct r as [n|e]; [by apply Hf|apply Ht].
Qed.

(** What passes the review is what the gate of the candidate wants. *)
Lemma review_held {A} desktop root candidate (f : unit → update (result A IntegrationRestartError)) tr :
  early_trace desktop tr →
  (∀ tr', held_trace desktop root candidate tr' →
     wp any_answer (f tt) tr' (λ _ tr'', justified (files_rule desktop) tr'')) →
  wp any_answer (prog_try (review_candidate root candidate) f) tr
    (λ _ tr', justified (files_rule desktop) tr').
Proof.
  intros Ht Hf. destruct candidate as [[c approval]|]; [|by apply Hf].
  unfold review_candidate. apply wp_try, wp_try, wp_map_err. intros r _.
  assert (early_trace desktop (existT (CInspectIntegration root c) r :: tr)) as Ht1.
  { apply (early_extend _ [_]); [by constructor|done]. }
  destruct r as [review|e]; cbn; [|apply Ht1].
  destruct (candidate_accepted review approval) eqn:Ha; [|apply Ht1]. apply Hf. split; [done|].
  exists review. split; [by left|done].
Qed.

Lemma restart_fine request candidate :
  wp any_answer (restart_codex_integration request candidate) []
    (λ _ tr, justified (files_rule (rq_codex_desktop_executable request)) tr).
Proof.
  unfold restart_codex_integration. generalize (rq_codex_desktop_executable request) as desktop.
  intros desktop. apply lease_fine; [by split; [|constructor]|]. intros tr1 Ht1.
  apply early_try; [footprint|done|]. intros _ tr2 Ht2.
  apply recover_early; [done|]. intros _ tr3 Ht3.
  apply early_try; [footprint|done|]. intros _ tr4 Ht4.
  apply review_held; [done|]. intros tr5 Ht5.
  pose proof (closing_fine desktop _ _ (λ _, request)
    (λ desktop cli instances, restart_apply desktop cli request candidate instances) _ Ht5) as Hc.
  cbv beta in Hc. apply Hc. clear Hc. intros cli instances t closed tr6. apply restart_apply_fine.
Qed.

Lemma offline_fine request :
  wp any_answer (run_offline_installer_and_restart request) []
    (λ _ tr, justified (files_rule (or_codex_desktop_executable request)) tr).
Proof.
  unfold run_offline_installer_and_restart.
  generalize (or_codex_desktop_executable request) as desktop. intros desktop. apply lease_fine; [by split; [|constructor]|]. intros tr1 Ht1.
  apply early_try; [unfold verified_installer; footprint|done|]. intros installer tr2 Ht2.
  pose proof (closing_fine desktop "" None
    (λ desktop, {| rq_install_root := or_install_root request;
                   rq_codex_desktop_executable := desktop |})
    (λ desktop _, offline_apply installer desktop
      {| rq_install_root := or_install_root request; rq_codex_desktop_executable := desktop |}) tr2)
    as Hc. cbv beta in Hc. apply Hc; [done|]. clear Hc.
  intros cli instances t closed tr3 Ht3 _. by apply offline_apply_fine.
Qed.

End flows.

(** ** An instance *)

(** The calls from the apply of the candidate on, in a run without a fault. *)
Fixpoint from_apply (tr : list deed) : option (deed * list deed) :=
  match tr with
  | [] => None
  | e :: h => match projT1 e with CApplyCandidate _ _ _ _ => Some (e, h) | _ => from_apply h end
  end.

Definition is_apply (c : machine) : bool :=
  match c with CApplyCandidate _ _ _ _ => true | _ => false end.

Lemma from_apply_app tr e h :
  from_apply tr = Some (e, h) → ∃ later, tr = later ++ e :: h.
Proof.
  induction tr as [|x tr IH]; simpl; [done|].
  destruct (projT1 x); try (intros H; apply IH in H as [l ->]; by exists (x :: l)).
  intros [= -> ->]. by exists [].
Qed.


(** ** An aborted restart that has applied its candidate

    The integration manager is not there once the candidate is applied. *)

Definition no_manager (tr : list deed) (c : machine) : bool :=
  match c with CIntegrationManager => true | _ => false end.

Definition applied (tr : list deed) : bool := existsb (λ e : deed, is_apply (projT1 e)) tr.

Definition undone (tr : list deed) : bool :=
  existsb (λ e : deed, match projT1 e with CRollbackCandidate _ _ => true | _ => false end) tr.

Fixpoint last_receipt (tr : list deed) : option RestartState :=
  match tr with
  | [] => None
  | e :: h => match projT1 e with
              | CWriteReceipt _ receipt => Some (rr_state receipt)
              | _ => last_receipt h
              end
  end.

(** The receipt says aborted, and the files of the candidate stay in place:
    nothing rolls them back before the Desktop is started again. *)
Lemma applied_candidate_is_aborted :
  let run := exec (toy_machine no_manager) (restart_codex_integration toy_request toy_candidate) [] in
  run.1 = Returned (Err (RIntegration Ownership)) ∧
  applied run.2 = true ∧ undone run.2 = false ∧ last_receipt run.2 = Some RsAborted.
Proof. vm_compute. by split_and!. Qed.
