(* ===== verification/SelectorFacts.v ===== *)
(** * The runtime selector

    What [apply_runtime_generation] and [reconcile_installed_runtime] leave of the
    selector of the installation: the approved candidate, the prior generation,
    or nothing new. *)
From S2P Require Import Prelude Canonical Contracts Effects ProcessCensus Restart UpdaterPort.
From S2P Require Import UpdaterSteps UpdaterWaits Updater UpdaterFacts UpdaterToy UpdaterSafety UpdaterProgress.
Open Scope prog_scope.

(** ** What was selected *)

Definition selected_after (e : deed) (l : list RuntimeActivationRecord) :
    list RuntimeActivationRecord :=
  match e with
  | existT (CActivateBridge _ next _) (Ok _) => next :: l
  | _ => l
  end.

(** The records that were activated, the newest first. *)
Definition selections (tr : list deed) : list RuntimeActivationRecord :=
  foldr selected_after [] tr.

Definition answered (c : machine) (r : answer c) (tr : list deed) : Prop :=
  existT (P := answer) c r ∈ tr.

(** From [tr] on nothing was selected. *)
Definition unselected (tr tr' : list deed) : Prop :=
  selections tr' = selections tr ∧ ∃ ext, tr' = ext ++ tr.

Lemma answered_later c r tr tr' : unselected tr tr' → answered c r tr → answered c r tr'.
Proof. intros [_ [ext ->]] Hr. apply elem_of_app. by right. Qed.

Lemma answered_cons c r e tr : answered c r tr → answered c r (e :: tr).
Proof. by right. Qed.

Section selector.
Context `{WindowsPaths} `{UpdaterHost}.

Lemma unselected_wp {A} l (p : update A) tr :
  calls_only (within l) p → mem KSelector l = false →
  wp any_answer p tr (λ _ tr', unselected tr tr').
Proof.
  intros Hp Hl. eapply wp_mono.
  { apply wp_and; [|exact (calls_only_wp (within l) any_answer p tr Hp)].
    eapply (calls_only_keeps _ _ _ selected_after []); [exact Hp|]. intros [c r] x He.
    unfold within in He. destruct c; try done. simpl in He. congruence. }
  intros o tr' [Hs (ext & -> & _)]. split; [done|]. by exists ext.
Qed.

Lemma unselected_bind {A B} l (p : update B) (f : B → update A) tr Q :
  calls_only (within l) p → mem KSelector l = false →
  (∀ b tr', unselected tr tr' → wp any_answer (f b) tr' Q) →
  (∀ tr', Q Panicked tr') → (∀ tr', Q OutOfFuel tr') →
  wp any_answer (prog_bind p f) tr Q.
Proof.
  intros Hp Hl Hf HP HO. apply wp_bind. eapply wp_mono; [by eapply unselected_wp|].
  intros [b| |] tr' Hu; [by apply Hf|done|done].
Qed.

(** ** Applying a generation *)

Definition generation_root (request : RuntimeApplyRequest) : string :=
  path_join (path_join (path_join (ru_install_root request) "runtime") "generations")
    (ru_generation_id request).

(** The prior record was read, and [next] goes on from it: it selects the
    generation that the manifest of the candidate names. *)
Definition moves_on (request : RuntimeApplyRequest) (prior next : RuntimeActivationRecord)
    (tr : list deed) : Prop :=
  answered (CLoadActivation (ru_install_root request)) (Ok prior) tr ∧
  (∃ manifest, answered (CLoadGeneration (generation_root request)) (Ok manifest) tr ∧
     rg_generation_id (ra_active next) = rg_generation_id (gm_generation manifest) ∧
     rg_release_manifest_sha256 (ra_active next)
       = rg_release_manifest_sha256 (gm_generation manifest)) ∧
  ra_previous next = Some (ra_active prior) ∧
  ra_activation_revision next = saturating_add u64_max (ra_activation_revision prior) 1 ∧
  ra_state_generation_id next = ru_state_generation_id request.

(** [back] selects the prior generation again. *)
Definition moves_back (prior next back : RuntimeActivationRecord) : Prop :=
  ra_active back = ra_active prior ∧ ra_previous back = Some (ra_active next) ∧
  ra_state_generation_id back = ra_state_generation_id prior ∧
  ra_activation_revision back = saturating_add u64_max (ra_activation_revision prior) 2.

(** The installed command line reported a passing controller. *)
Definition doctor_passed (root : string) (e : deed) : Prop :=
  ∃ limit out,
    e = existT (P := answer) (CRun (path_join root "star.exe") ["doctor"; "--json"] [] limit) (Some out) ∧
    out_success out = true ∧ (slen (out_stdout out) <= MAX_OUTPUT_BYTES)%N ∧
    installed_cli_postcheck_json (out_stdout out) = true.

(** It did so with the record that is selected at the end. *)
Definition checked (root : string) (tr : list deed) : Prop :=
  ∃ later e earlier, tr = later ++ e :: earlier ∧ doctor_passed root e ∧
    selections earlier = selections tr.

(** What the flow has done when it ends with [o]. *)
Definition apply_outcome (request : RuntimeApplyRequest)
    (o : outcome (result RuntimeApplyOutcome RuntimeApplyError)) (tr : list deed) : Prop :=
  let root := ru_install_root request in
  match o with
  | Returned (Ok (RuntimeCommitted revision active review _)) =>
      ∃ prior next,
        answered (CInspectRuntime root (ru_generation_id request)) (Ok review) tr ∧
        runtime_candidate_accepted review (ru_approval_scope_sha256 request) = true ∧
        selections tr = [next] ∧ moves_on request prior next tr ∧
        ra_active next = active ∧ ra_activation_revision next = revision ∧ checked root tr
  | Returned (Ok (RuntimeRolledBack _)) =>
      ∃ prior next back,
        selections tr = [back; next] ∧ moves_on request prior next tr ∧
        moves_back prior next back ∧ checked root tr
  | Returned (Err (ARollbackFailed _ _)) =>
      ∃ prior next, moves_on request prior next tr ∧
        (selections tr = [next] ∨
         ∃ back, selections tr = [back; next] ∧ moves_back prior next back)
  | Returned (Err _) => selections tr = []
  | Panicked | OutOfFuel => True
  end.

Lemma moves_on_later request prior next tr tr' :
  unselected tr tr' → moves_on request prior next tr → moves_on request prior next tr'.
Proof.
  intros Hu (Hl & (manifest & Hm & Hi) & Hn). split; [by eapply answered_later|]. split; [|done].
  exists manifest. split; [by eapply answered_later|done].
Qed.

Lemma unselected_cons (e : deed) tr : kind_of (projT1 e) ≠ KSelector → unselected tr (e :: tr).
Proof.
  intros He. split; [|by exists [e]]. destruct e as [c r]. destruct c; try reflexivity. by destruct He.
Qed.

Lemma unselected_trans tr1 tr2 tr3 : unselected tr1 tr2 → unselected tr2 tr3 → unselected tr1 tr3.
Proof.
  intros [Hs1 [ext1 ->]] [Hs2 [ext2 ->]]. split; [congruence|]. exists (ext2 ++ ext1).
  by rewrite app_assoc.
Qed.

Lemma postcheck_loop_checked fuel deadline root tr :
  wp any_answer (postcheck_loop fuel deadline (path_join root "star.exe")) tr
    (λ o tr', unselected tr tr' ∧ (o = Returned true → checked root tr')).
Proof.
  revert tr. induction fuel as [|fuel IH]; intros tr; simpl.
  { split; [|done]. by split; [|exists []]. }
  intros now _. destruct (duration_since deadline now =? 0)%Z; simpl.
  { split; [by apply unselected_cons|done]. }
  intros output _. destruct (is_some_and output _) eqn:Ho; simpl.
  - split.
    { eapply unselected_trans; [|by apply unselected_cons]. by apply unselected_cons. }
    intros _. destruct output as [out|]; [|done]. simpl in Ho. bool_to_prop.
    eexists [], _, _. split; [reflexivity|]. split; [|done]. by eexists _, out.
  - intros [] _. eapply wp_mono; [apply IH|]. intros o tr' [Hu Hc]. split; [|done].
    eapply unselected_trans; [|exact Hu].
    do 2 (eapply unselected_trans; [|by apply unselected_cons]). by apply unselected_cons.
Qed.

Lemma postcheck_checked root tr :
  wp any_answer (installed_cli_controller_postcheck root) tr
    (λ o tr', unselected tr tr' ∧ (o = Returned true → checked root tr')).
Proof.
  intros now _. eapply wp_mono; [apply postcheck_loop_checked|]. intros o tr' [Hu Hc].
  split; [|done]. eapply unselected_trans; [|exact Hu]. by apply unselected_cons.
Qed.

Lemma checked_later root tr tr' : unselected tr tr' → checked root tr → checked root tr'.
Proof.
  intros [Hs [ext ->]] (later & e & earlier & -> & Hd & He). exists (ext ++ later), e, earlier.
  rewrite <-app_assoc. split_and!; [done|done|congruence].
Qed.

(** The end of a step that checks the controller. *)
Lemma postcheck_bind {A} root (f : bool → update A) tr Q :
  (∀ passed tr', unselected tr tr' → (passed = true → checked root tr') →
     wp any_answer (f passed) tr' Q) →
  (∀ tr', Q Panicked tr') → (∀ tr', Q OutOfFuel tr') →
  wp any_answer (prog_bind (installed_cli_controller_postcheck root) f) tr Q.
Proof.
  intros Hf HP HO. apply wp_bind. eapply wp_mono; [apply postcheck_checked|].
  intros [b| |] tr' [Hu Hc]; [|done..]. apply Hf; [done|]. intros ->. by apply Hc.
Qed.

(** A rollback, after [next] was selected. *)
Lemma rollback_outcome request prior next controller failure tr :
  moves_on request prior next tr → selections tr = [next] →
  wp any_answer (rollback_runtime_generation (ru_install_root request) prior (ra_active next)
                   controller failure) tr (apply_outcome request).
Proof.
  intros Hl Hs. unfold rollback_runtime_generation. cbv zeta.
  eapply (unselected_bind [KObserve; KKill; KHandoff]); [|reflexivity| |done|done].
  { destruct controller; cbn [is_some]; footprint. }
  intros quiesced tr1 Hu. pose proof (moves_on_later _ _ _ _ _ Hu Hl) as Hl1.
  assert (selections tr1 = [next]) as Hs1 by (destruct Hu as [Hu _]; congruence).
  destruct quiesced as [[]|e]; [|exists prior, next; by split; [|left]].
  cbn [prog_bind call]. intros now _ activated _.
  match goal with |- context [existT (CActivateBridge _ ?b ?v) activated :: ?t] =>
    set (back := b); set (tr2 := existT (CActivateBridge (ru_install_root request) back v) activated :: t) end.
  assert (moves_on request prior next tr2) as Hl2.
  { destruct Hl1 as (H1 & (manifest & H2 & Hi) & Hn). split; [by do 2 apply answered_cons|].
    split; [|done]. exists manifest. split; [by do 2 apply answered_cons|done]. }
  assert (moves_back prior next back) as Hback by done.
  destruct activated as [[]|e]; cbn [prog_bind]; [|exists prior, next; by split; [|left]].
  assert (selections tr2 = [back; next]) as Hs2 by (simpl; by rewrite Hs1).
  assert (∀ tr', unselected tr2 tr' → ∀ text,
    apply_outcome request (Returned (Err (ARollbackFailed failure text))) tr') as Hfailed.
  { intros tr' Hu' text. exists prior, next. split; [by eapply moves_on_later|]. right. exists back.
    destruct Hu' as [Hu' _]. by rewrite Hu'. }
  clearbody tr2. eapply (unselected_bind [KObserve; KHandoff]); [footprint|reflexivity| |done|done].
  intros [pid|e] tr3 Hu3; [|by apply Hfailed]. apply postcheck_bind; [|done|done].
  intros passed tr4 Hu4 Hc. pose proof (unselected_trans _ _ _ Hu3 Hu4) as Hu24.
  destruct passed; cbn [negb]; [|by apply Hfailed]. exists prior, next, back.
  split_and!; [|by eapply moves_on_later|done|by apply Hc]. destruct Hu24 as [Hu24 _]. by rewrite Hu24.
Qed.

Lemma apply_next_outcome request prior review old next tr :
  answered (CInspectRuntime (ru_install_root request) (ru_generation_id request)) (Ok review) tr →
  runtime_candidate_accepted review (ru_approval_scope_sha256 request) = true →
  moves_on request prior next tr → selections tr = [] →
  wp any_answer (apply_next_generation (ru_install_root request) prior review (ra_active next) old
                   next) tr (apply_outcome request).
Proof.
  intros Hi Ha Hl Hs activated _. destruct activated as [[]|e].
  2: { cbn [prog_bind call]. intros started _. done. }
  match goal with |- wp _ _ (?e :: _) _ => set (tr1 := e :: tr) end.
  assert (selections tr1 = [next]) as Hs1 by (simpl; by rewrite Hs).
  assert (answered (CInspectRuntime (ru_install_root request) (ru_generation_id request))
    (Ok review) tr1) as Hi1 by by apply answered_cons.
  assert (moves_on request prior next tr1) as Hl1.
  { destruct Hl as (H1 & (manifest & H2 & Hn) & Hr). split; [by apply answered_cons|].
    split; [|done]. exists manifest. split; [by apply answered_cons|done]. }
  assert (∀ tr' controller failure, unselected tr1 tr' →
    wp any_answer (rollback_runtime_generation (ru_install_root request) prior (ra_active next)
                     controller failure) tr' (apply_outcome request)) as Hback.
  { intros tr' controller failure Hu. apply rollback_outcome; [by eapply moves_on_later|].
    destruct Hu as [Hu _]. by rewrite Hu. }
  clearbody tr1. cbn [prog_bind]. eapply (unselected_bind [KObserve]); [footprint|reflexivity| |done|done].
  intros [controller|e] tr2 Hu2; [|by apply Hback].
  eapply (unselected_bind [KHandoff]); [footprint|reflexivity| |done|done].
  intros [pid|e] tr3 Hu3; [|by apply Hback, (unselected_trans _ _ _ Hu2)].
  apply postcheck_bind; [|done|done]. intros passed tr4 Hu4 Hc.
  pose proof (unselected_trans _ _ _ Hu2 (unselected_trans _ _ _ Hu3 Hu4)) as Hu.
  destruct passed; cbn [negb]; [|by apply Hback].
  exists prior, next. split_and!; try done.
  - by eapply answered_later.
  - destruct Hu as [Hu _]. by rewrite Hu.
  - by eapply moves_on_later.
  - by apply Hc.
Qed.

(** A step before anything is selected; its failure selects nothing. *)
Lemma apply_step {B E} l request (p : update (result B E)) (g : E → RuntimeApplyError)
    (f : B → update (result RuntimeApplyOutcome RuntimeApplyError)) tr :
  calls_only (within l) p → mem KSelector l = false → (∀ e a b, g e ≠ ARollbackFailed a b) →
  selections tr = [] →
  (∀ b tr', unselected tr tr' → selections tr' = [] →
     wp any_answer (f b) tr' (apply_outcome request)) →
  wp any_answer (prog_try (prog_map_err g p) f) tr (apply_outcome request).
Proof.
  intros Hp Hl Hg Hs Hf. apply wp_try, wp_map_err. eapply wp_mono; [by eapply unselected_wp|].
  intros o tr' Hu. assert (selections tr' = []) as Hs' by (destruct Hu as [Hu _]; congruence).
  destruct o as [[b|e]| |]; [by apply Hf| |done..]. specialize (Hg e). simpl. destruct (g e); [done..|].
  by edestruct Hg.
Qed.

(** Giving the lease back changes nothing. *)
Lemma apply_outcome_later request o tr tr' :
  unselected tr tr' → apply_outcome request o tr → apply_outcome request o tr'.
Proof.
  intros Hu. pose proof Hu as [Hs [ext Hext]]. destruct o as [[[revision active review st|text]|e]| |];
    simpl; [| |destruct e|done..]; rewrite Hs; try done.
  - intros (prior & next & Hi & Ha & Hn & Hm & H1 & H2 & Hc). exists prior, next.
    split_and!; try done; [by eapply answered_later|by eapply moves_on_later|by eapply checked_later].
  - intros (prior & next & back & Hn & Hm & Hb & Hc). exists prior, next, back.
    split_and!; [done|by eapply moves_on_later|done|by eapply checked_later].
  - intros (prior & next & Hm & Hn). exists prior, next. split; [by eapply moves_on_later|done].
Qed.

Lemma runtime_outcome request :
  wp any_answer (apply_runtime_generation request) [] (apply_outcome request).
Proof.
  unfold apply_runtime_generation. apply (apply_step [KObserve; KLease]);
    [footprint|reflexivity|done|reflexivity|]. intros _ tr1 _ Hs1.
  apply wp_bind. eapply wp_mono with (Q := apply_outcome request).
  2: { intros [r| |] tr' Ho; [|done..]. intros [] _. cbn [prog_bind wp].
       eapply apply_outcome_later; [|exact Ho]. by apply unselected_cons. }
  apply (apply_step [KObserve]); [footprint|reflexivity|done|done|]. intros _ tr2 _ Hs2.
  apply (apply_step [KObserve]); [footprint|reflexivity|done|done|]. intros _ tr3 _ Hs3.
  apply wp_try, wp_map_err. intros [review|e] _; [|exact Hs3]. cbn [wp map_err].
  match goal with |- wp _ _ (?e :: _) _ => set (tr4 := e :: tr3) end. assert (selections tr4 = []) as Hs4 by done.
  assert (answered (CInspectRuntime (ru_install_root request) (ru_generation_id request))
    (Ok review) tr4) as Hi by by left.
  clearbody tr4.
  destruct (runtime_candidate_accepted review (ru_approval_scope_sha256 request)) eqn:Ha;
    cbn [negb]; [|exact Hs4].
  apply wp_try, wp_map_err. intros [prior|e] _; [|exact Hs4]. cbn [wp map_err]. cbv zeta.
  apply wp_try, wp_map_err. intros [manifest|e] _; [|exact Hs4]. cbn [wp map_err].
  match goal with |- wp _ _ (?e1 :: ?e2 :: _) _ => set (tr6 := e1 :: e2 :: tr4) end.
  assert (unselected tr4 tr6) as Hu6.
  { eapply unselected_trans; [|by apply unselected_cons]. by apply unselected_cons. }
  assert (answered (CLoadActivation (ru_install_root request)) (Ok prior) tr6) as Hl by (right; by left).
  assert (answered (CLoadGeneration (generation_root request)) (Ok manifest) tr6) as Hm by by left.
  clearbody tr6. eapply (unselected_bind [KObserve]); [footprint|reflexivity| |done|done].
  intros canonical tr7 Hu7. pose proof (unselected_trans _ _ _ Hu6 Hu7) as [Hs7 _]. rewrite Hs4 in Hs7.
  apply (apply_step [KObserve]); [footprint|reflexivity|done|done|]. intros old tr8 Hu8 Hs8.
  apply (apply_step [KObserve; KKill; KHandoff]); [footprint|reflexivity|done|done|].
  intros stopped tr9 Hu9 Hs9. cbn [prog_bind call]. intros now _.
  match goal with |- wp _ _ (?e :: _) _ => assert (unselected tr6 (e :: tr9)) as Hu end.
  { eapply unselected_trans; [exact Hu7|]. eapply unselected_trans; [exact Hu8|].
    eapply unselected_trans; [exact Hu9|]. by apply unselected_cons. }
  match goal with |- context [apply_next_generation _ _ _ _ _ ?n] =>
    apply (apply_next_outcome request prior review old n) end; [|done| |done].
  - eapply answered_later, answered_later; eauto.
  - split; [by eapply answered_later|]. split; [|done]. exists manifest.
    split; [by eapply answered_later|done].
Qed.


(** ** Reconciling the installed runtime *)

(** The errors that do not report a rollback. *)
Definition plain (e : IntegrationRestartError) : Prop :=
  match e with
  | RRuntimeReconcileRolledBack _ | RRuntimeReconcileRollbackFailed _ => False
  | _ => True
  end.

Definition reconcile_outcome (root : string)
    (o : outcome (result InstalledRuntimeReconcileOutcome IntegrationRestartError))
    (tr : list deed) : Prop :=
  match o with
  | Returned (Ok done) =>
      ∃ prior bundled,
        answered (CLoadActivation root) (Ok prior) tr ∧
        answered (CBundledGeneration root) (Ok bundled) tr ∧
        ro_active_generation_id done = rg_generation_id bundled ∧
        ro_activation_changed done = negb (bool_decide (ra_active prior = bundled)) ∧
        if ro_activation_changed done
        then ∃ next, selections tr = [next] ∧ ra_active next = bundled ∧
               ra_previous next = Some (ra_active prior) ∧
               ra_activation_revision next = saturating_add u64_max (ra_activation_revision prior) 1
        else selections tr = []
  | Returned (Err (RRuntimeReconcileRolledBack _)) =>
      ∃ prior next, answered (CLoadActivation root) (Ok prior) tr ∧ selections tr = [prior; next]
  | Returned (Err (RRuntimeReconcileRollbackFailed _)) => True
  | Returned (Err e) =>
      selections tr = [] ∨
      ∃ next, selections tr = [next] ∧ (e = RRuntimePostcheck ∨ ∃ w, e = RInstallation w)
  | Panicked | OutOfFuel => True
  end.

Lemma plain_outcome root e tr :
  plain e → selections tr = [] → reconcile_outcome root (Returned (Err e)) tr.
Proof. intros He Hs. destruct e; try done; by left. Qed.

Lemma reconcile_step {B} l root (p : update (result B IntegrationRestartError))
    (f : B → update (result InstalledRuntimeReconcileOutcome IntegrationRestartError)) tr :
  calls_only (within l) p → mem KSelector l = false → fails_with plain p → selections tr = [] →
  (∀ b tr', unselected tr tr' → selections tr' = [] →
     wp any_answer (f b) tr' (reconcile_outcome root)) →
  wp any_answer (prog_try p f) tr (reconcile_outcome root).
Proof.
  intros Hp Hl Hf Hs Hk. apply wp_try. eapply wp_mono.
  { apply wp_and; [by eapply unselected_wp|by apply fails_with_wp]. }
  intros o tr' [Hu He]. assert (selections tr' = []) as Hs' by (destruct Hu as [Hu _]; congruence).
  destruct o as [[b|e]| |]; [by apply Hk|by apply plain_outcome|done..].
Qed.

(** The prior record is selected again, or the failure is reported. *)
Lemma reconcile_rollback_outcome {A} root prior next error tr :
  answered (CLoadActivation root) (Ok prior) tr → selections tr = [next] →
  wp any_answer (reconcile_rollback (A := A) root prior error) tr (λ o tr',
    match o with
    | Returned (Ok _) => False
    | Returned (Err e) => reconcile_outcome root (Returned (Err e)) tr'
    | Panicked | OutOfFuel => True
    end).
Proof.
  intros Hl Hs. unfold reconcile_rollback. cbv zeta. apply wp_bind.
  eapply wp_mono with (Q := λ o tr', match o with
    | Returned (Ok _) => answered (CLoadActivation root) (Ok prior) tr' ∧ selections tr' = [prior; next]
    | _ => True end); [|by intros [[[] |e]| |] tr' Ho; [exists prior, next|..]].
  unfold restore_runtime_selector. apply wp_try. eapply wp_mono.
  { apply (unselected_wp [KObserve]); [footprint|done]. }
  intros [[controller|e]| |] tr1 Hu1; [|done..]. apply wp_try, wp_map_err. intros [[]|e] _; [|done].
  cbn [wp map_err]. match goal with |- wp _ _ (?e :: _) _ => set (tr2 := e :: tr1) end.
  assert (selections tr2 = [prior; next]) as Hs2.
  { simpl. destruct Hu1 as [Hu1 _]. by rewrite Hu1, Hs. }
  assert (answered (CLoadActivation root) (Ok prior) tr2) as Hl2.
  { apply answered_cons. by eapply answered_later. }
  clearbody tr2. eapply wp_mono.
  { apply (unselected_wp [KObserve; KKill; KHandoff]); [footprint|done]. }
  intros [[[]|e]| |] tr3 Hu3; [|done..]. split; [by eapply answered_later|].
  destruct Hu3 as [Hu3 _]. congruence.
Qed.

(** What was selected before the postcheck: [next], when there is one. *)
Definition chosen (prior : RuntimeActivationRecord) (bundled : RuntimeGenerationRef)
    (next : option RuntimeActivationRecord) : Prop :=
  match next with
  | Some next =>
      ra_active prior ≠ bundled ∧ ra_active next = bundled ∧
      ra_previous next = Some (ra_active prior) ∧
      ra_activation_revision next = saturating_add u64_max (ra_activation_revision prior) 1
  | None => ra_active prior = bundled
  end.

Lemma next_activation_chosen {A} prior bundled id
    (f : option RuntimeActivationRecord → update A) tr Q :
  (∀ next tr', chosen prior bundled next → unselected tr tr' → wp any_answer (f next) tr' Q) →
  wp any_answer (prog_bind (next_activation prior bundled id) f) tr Q.
Proof.
  intros Hf. unfold next_activation. destruct (bool_decide (ra_active prior = bundled)) eqn:Hb.
  - apply bool_decide_eq_true in Hb. apply Hf; [done|]. split; [done|]. by exists [].
  - intros now _. cbn [prog_bind]. pose proof Hb as Hn. apply bool_decide_eq_false in Hn.
    unfold next_runtime_activation. rewrite Hb. apply Hf; [by split_and!|].
    split; [done|]. by exists [existT CUtcNow now].
Qed.

Lemma answered_suffix c r tr tr' : tr `suffix_of` tr' → answered c r tr → answered c r tr'.
Proof. intros [ext ->] Hr. apply elem_of_app. by right. Qed.

Lemma unselected_suffix tr tr' : unselected tr tr' → tr `suffix_of` tr'.
Proof. by intros [_ Hs]. Qed.

Lemma reconcile_activate_outcome root prior bundled next
    (f : list N → update (result InstalledRuntimeReconcileOutcome IntegrationRestartError)) tr :
  chosen prior bundled next → answered (CLoadActivation root) (Ok prior) tr → selections tr = [] →
  (∀ pids tr', tr `suffix_of` tr' → selections tr' = option_list next →
     wp any_answer (f pids) tr' (reconcile_outcome root)) →
  wp any_answer (prog_try (reconcile_activate root prior next) f) tr (reconcile_outcome root).
Proof.
  intros Hc Hl Hs Hf. destruct next as [next|]; [|by apply Hf].
  unfold reconcile_activate. apply wp_try, wp_try, wp_map_err. intros [controller|e] _; [|by left].
  cbn [wp map_err]. apply wp_try, wp_map_err. intros [[]|e] _; [|by left]. cbn [wp map_err].
  match goal with |- wp _ _ (?e :: ?e' :: _) _ => set (tr2 := e :: e' :: tr) end.
  assert (selections tr2 = [next]) as Hs2 by (simpl; by rewrite Hs).
  assert (tr `suffix_of` tr2) as Hx by (by eexists [_; _]).
  clearbody tr2. apply wp_bind. eapply wp_mono.
  { apply (unselected_wp [KObserve; KKill; KHandoff]); [footprint|done]. }
  intros [[pids|e]| |] tr3 Hu; cbn [wp]; [| |done..].
  - apply Hf; [|destruct Hu as [Hu _]; simpl; congruence].
    transitivity tr2; [done|by apply unselected_suffix].
  - eapply wp_mono; [eapply (reconcile_rollback_outcome root prior next)|].
    + by eapply answered_later, answered_suffix.
    + destruct Hu as [Hu _]. congruence.
    + by intros [[pids|e']| |] tr4 Ho.
Qed.

Lemma abort_interrupted_plain root : fails_with plain (abort_interrupted_preapply_restart root).
Proof.
  assert (∀ t request, fails_with plain (persist_receipt t request)) as Hp.
  { intros t request. apply fails_with_bind. intros [local|]; [|done].
    apply fails_with_try; [by apply fails_with_map_err|]. intros dir. apply fails_with_bind.
    intros now. apply fails_with_try; [by apply fails_with_map_err|done]. }
  apply fails_with_try; [by apply fails_with_map_err|]. intros [receipt|]; [|done].
  apply fails_with_bind. intros same. destruct (_ || _); [done|]. cbv zeta.
  apply fails_with_try; [by destruct (transition _ _ _).2|]. intros _.
  by apply fails_with_try.
Qed.

Lemma registry_loop_plain fuel deadline root expected :
  fails_with plain (registry_loop fuel deadline root expected).
Proof.
  induction fuel as [|fuel IH]; cbn [registry_loop]; [done|]. apply fails_with_bind. intros now.
  destruct (bounded_registry_attempt_timeout _); [|done]. apply fails_with_bind. intros declared.
  apply fails_with_bind. intros now2. destruct (bounded_registry_attempt_timeout _); [|done].
  apply fails_with_bind. intros ready. cbv zeta.
  assert (fails_with plain (registry_pause deadline (registry_loop fuel deadline root expected)))
    as Hagain.
  { apply fails_with_bind. intros now3. cbv zeta. destruct (_ =? 0)%Z; [done|].
    by apply fails_with_bind. }
  destruct declared, ready; try exact Hagain. by destruct (complete_release_registry _ _ _).
Qed.

Lemma verify_registry_plain root expected :
  fails_with plain (verify_active_release_registry root expected).
Proof.
  apply fails_with_try; [by apply fails_with_map_err|]. intros image.
  apply fails_with_try; [by apply fails_with_map_err|]. intros _. apply fails_with_bind. intros now.
  apply registry_loop_plain.
Qed.

(** The selector is read again, after the postcheck. *)
Definition read_back (root : string) (bundled : RuntimeGenerationRef)
    (f : RuntimeActivationRecord → InstalledRuntimeReconcileOutcome) :
    update (result InstalledRuntimeReconcileOutcome IntegrationRestartError) :=
  do? active := prog_map_err RInstallation (ask (CLoadActivation root)) in
  if negb (bool_decide (ra_active active = bundled)) then Ret (Err RRuntimePostcheck)
  else Ret (Ok (f active)).

Lemma read_back_outcome root prior bundled next f tr :
  (∀ active, ra_active active = bundled →
     ro_active_generation_id (f active) = rg_generation_id bundled ∧
     ro_activation_changed (f active) = is_some next) →
  chosen prior bundled next → selections tr = option_list next →
  answered (CLoadActivation root) (Ok prior) tr →
  answered (CBundledGeneration root) (Ok bundled) tr →
  wp any_answer (read_back root bundled f) tr (reconcile_outcome root).
Proof.
  intros Hf Hc Hs Hl Hb. apply wp_try, wp_map_err. intros r _.
  assert (selections (existT (CLoadActivation root) r :: tr) = [] ∨
    ∃ n, selections (existT (CLoadActivation root) r :: tr) = [n]) as Hn.
  { simpl. rewrite Hs. destruct next as [n|]; [right; by exists n|by left]. }
  destruct r as [active|e]; cbn [wp map_err].
  2: { destruct Hn as [Hn|[n Hn]]; [by left|]. right. exists n. split; [done|]. right. by eexists. }
  destruct (bool_decide (ra_active active = bundled)) eqn:Ha; cbn [negb].
  2: { destruct Hn as [Hn|[n Hn]]; [by left|]. right. exists n. split; [done|]. by left. }
  apply bool_decide_eq_true in Ha. destruct (Hf active Ha) as [Hg Hch].
  exists prior, bundled. rewrite Hch. split_and!; [by apply answered_cons|by apply answered_cons|done| |].
  - destruct next as [n|]; simpl in *; symmetry.
    + rewrite bool_decide_false; [done|]. apply Hc.
    + by rewrite bool_decide_true.
  - destruct next as [n|]; simpl in *; [|done]. exists n. by split; [|apply Hc].
Qed.

Lemma reconcile_flow_outcome root :
  wp any_answer (reconcile_installed_runtime root) [] (reconcile_outcome root).
Proof.
  unfold reconcile_installed_runtime. apply (reconcile_step [KObserve; KLease]);
    [footprint|reflexivity|by apply fails_with_map_err|reflexivity|]. intros _ tr1 _ Hs1.
  apply wp_bind. eapply wp_mono with (Q := reconcile_outcome root).
  2: { intros [[res|e]| |] tr' Ho; [| |done..]; intros [] _; cbn [prog_bind].
       - destruct Ho as (prior & bundled & Hl & Hb & Ho). exists prior, bundled.
         split_and!; try apply Ho; by apply answered_cons.
       - destruct e; try exact Ho. destruct Ho as (prior & next & Hl & Ho). exists prior, next.
         split; [by apply answered_cons|exact Ho]. }
  apply (reconcile_step [KObserve; KReceipt]);
    [unfold abort_interrupted_preapply_restart, same_existing_path; footprint|reflexivity
    |apply abort_interrupted_plain|done|]. intros recovered tr2 _ Hs2.
  apply (reconcile_step [KObserve]); [footprint|reflexivity|by apply fails_with_map_err|done|].
  intros _ tr3 _ Hs3.
  apply (reconcile_step [KObserve]); [footprint|reflexivity|by apply fails_with_map_err|done|].
  intros _ tr4 _ Hs4. apply wp_try, wp_map_err. intros [prior|e] _; [|by left]. cbn [wp map_err].
  apply wp_try, wp_map_err. intros [bundled|e] _; [|by left]. cbn [wp map_err].
  match goal with |- wp _ _ (?e :: ?e' :: _) _ => set (tr5 := e :: e' :: tr4) end.
  assert (selections tr5 = []) as Hs5 by done.
  assert (answered (CLoadActivation root) (Ok prior) tr5) as Hl5 by (right; by left).
  assert (answered (CBundledGeneration root) (Ok bundled) tr5) as Hb5 by by left.
  clearbody tr5. apply (reconcile_step [KObserve]);
    [footprint|reflexivity|by apply fails_with_map_err|done|].
  intros expected tr6 Hu6 Hs6. unfold new_operation_id.
  eapply (unselected_bind [KObserve]); [footprint|reflexivity| |done|done].
  intros id tr7 Hu7. apply next_activation_chosen. intros next tr8 Hc Hu8.
  assert (selections tr8 = []) as Hs8.
  { destruct Hu7 as [Hu7 _], Hu8 as [Hu8 _]. congruence. }
  assert (tr5 `suffix_of` tr8) as Hx8.
  { etransitivity; [eapply unselected_suffix, Hu6|].
    etransitivity; [eapply unselected_suffix, Hu7|by apply unselected_suffix]. }
  apply (reconcile_activate_outcome _ _ _ _ _ _ Hc); [by eapply answered_suffix|done|].
  intros pids tr9 Hx9 Hs9.
  apply wp_bind. eapply wp_mono.
  { apply wp_and; [apply (unselected_wp [KObserve; KHandoff; KProgram]); [footprint|reflexivity]|].
    apply (fails_with_wp plain). apply fails_with_try; [apply verify_registry_plain|].
    intros _. by apply fails_with_map_err. }
  intros o tr10 [Hu10 Hplain]. destruct o as [postcheck| |]; [|done..].
  assert (tr5 `suffix_of` tr10) as Hx10.
  { etransitivity; [exact Hx8|]. etransitivity; [exact Hx9|by apply unselected_suffix]. }
  assert (selections tr10 = option_list next) as Hs10 by (destruct Hu10 as [Hu10 _]; congruence).
  destruct postcheck as [state|e].
  - eapply (read_back_outcome root prior bundled next (λ active, _));
      [|done|done|by eapply answered_suffix|by eapply answered_suffix].
    intros active Ha. simpl. by rewrite Ha.
  - destruct next as [next|]; cbn [is_some].
    + eapply wp_mono; [apply (reconcile_rollback_outcome root prior next)|].
      * by eapply answered_suffix.
      * done.
      * by intros [[pids'|e']| |] tr11 Ho.
    + by apply plain_outcome.
Qed.

(** However the machine answers, [reconcile_installed_runtime] succeeds with the
    bundled generation selected: by one new record, one revision after the prior
    one, when another generation was active, and with no record activated when it
    was active already; or it fails with nothing activated, or with the prior
    record activated again after the new one, or with a failed rollback reported
    as such.  Only when the selector cannot be read back, or shows another
    generation, after a good postcheck does a failure leave the new record. *)
Theorem reconcile_keeps_or_restores w root :
  let run := exec w (reconcile_installed_runtime root) [] in
  match run.1 with
  | Returned (Ok res) =>
      ∃ prior bundled,
        answered (CLoadActivation root) (Ok prior) run.2 ∧
        answered (CBundledGeneration root) (Ok bundled) run.2 ∧
        ro_active_generation_id res = rg_generation_id bundled ∧
        ro_activation_changed res = negb (bool_decide (ra_active prior = bundled)) ∧
        if ro_activation_changed res
        then ∃ next, selections run.2 = [next] ∧ ra_active next = bundled ∧
               ra_previous next = Some (ra_active prior) ∧
               ra_activation_revision next = saturating_add u64_max (ra_activation_revision prior) 1
        else selections run.2 = []
  | Returned (Err (RRuntimeReconcileRolledBack _)) =>
      ∃ prior next,
        answered (CLoadActivation root) (Ok prior) run.2 ∧ selections run.2 = [prior; next]
  | Returned (Err (RRuntimeReconcileRollbackFailed _)) => True
  | Returned (Err e) =>
      selections run.2 = [] ∨
      ∃ next, selections run.2 = [next] ∧ (e = RRuntimePostcheck ∨ ∃ w, e = RInstallation w)
  | Panicked | OutOfFuel => ¬ obeys w clock_law
  end.
Proof.
  pose proof (wp_exec _ _ _ _ w (obeys_any w) (reconcile_flow_outcome root)) as Ho.
  assert (obeys w clock_law → ∃ r, (exec w (reconcile_installed_runtime root) []).1 = Returned r) as Hr.
  { intros Hw. destruct (wp_exec _ _ _ _ w Hw (reconcile_total root [])) as [_ Hr]. done. }
  cbv zeta. destruct (exec w (reconcile_installed_runtime root) []) as [[r| |] tr]; [done|..];
    intros Hw; by destruct (Hr Hw).
Qed.
End selector.

(** ** Instances *)

(** The programs fail until the prior generation is selected again. *)
Definition broken_candidate (tr : list deed) (c : machine) : bool :=
  match c with
  | CRun _ _ _ _ => String.eqb (rg_generation_id (ra_active (toy_selector tr))) "new"
  | _ => false
  end.

Definition generations (tr : list deed) : list string :=
  map (λ r, rg_generation_id (ra_active r)) (selections tr).

Lemma toy_generation_is_committed :
  let run := exec (toy_machine no_fault) (apply_runtime_generation toy_runtime) [] in
  match run.1 with
  | Returned (Ok (RuntimeCommitted revision _ _ _)) => revision = 5%N ∧ generations run.2 = ["new"]
  | _ => False
  end.
Proof. vm_compute. by split_and!. Qed.

Lemma toy_generation_is_rolled_back :
  let run := exec (toy_machine broken_candidate) (apply_runtime_generation toy_runtime) [] in
  match run.1 with
  | Returned (Ok (RuntimeRolledBack _)) => generations run.2 = ["old"; "new"]
  | _ => False
  end.
Proof. by vm_compute. Qed.

Lemma toy_runtime_is_reconciled :
  let run := exec (toy_machine no_fault) (reconcile_installed_runtime "root") [] in
  match run.1 with
  | Returned (Ok res) => ro_activation_changed res = true ∧ generations run.2 = ["new"]
  | _ => False
  end.
Proof. vm_compute. by split_and!. Qed.
