(* ===== verification/CommandLine.v ===== *)
(** * The command line of the detached updater

    [quote_windows_argument] and [windows_command_line] of
    [crates/control/star-updater-core/src/lib.rs] against a reader of command
    lines: the documented rules by which a Windows program splits its command
    line into arguments. *)
From S2P Require Import Prelude Canonical Contracts Effects ProcessCensus Restart UpdaterPort.
From S2P Require Import UpdaterSteps.

(** ** The reader

    Outside of quotes a space or a tab ends an argument.  [2n] backslashes and a
    quote stand for [n] backslashes and start or end a quoted part; [2n + 1]
    backslashes and a quote stand for [n] backslashes and a quote; other
    backslashes stand for themselves.  [seen] counts the backslashes just read
    and [current] holds the argument, when one has begun. *)

Definition is_blank_char (c : ascii) : bool := (byte c =? 32)%N || (byte c =? 9)%N.

Definition finished (seen : nat) (current : option string) : list string :=
  match current, seen with
  | None, O => []
  | _, _ => [default "" current +:+ backslashes seen]
  end.

Fixpoint read_arguments (s : string) (quoted : bool) (seen : nat) (current : option string) :
    list string :=
  match s with
  | EmptyString => finished seen current
  | String c rest =>
      if Ascii.eqb c backslash then read_arguments rest quoted (S seen) current
      else if Ascii.eqb c quote_char then
        let current := default "" current +:+ backslashes (Nat.div2 seen) in
        if Nat.even seen then read_arguments rest (negb quoted) 0 (Some current)
        else read_arguments rest quoted 0 (Some (current +:+ quote))
      else if is_blank_char c && negb quoted
      then finished seen current ++ read_arguments rest false 0 None
      else read_arguments rest quoted 0
             (Some (default "" current +:+ backslashes seen +:+ String c EmptyString))
  end.

Definition arguments_of (command_line : string) : list string :=
  read_arguments command_line false 0 None.

(** ** Backslashes *)

Lemma sapp_assoc (a b c : string) : (a +:+ b) +:+ c = a +:+ b +:+ c.
Proof. induction a as [|x a IH]; [done|]. change (String x ((a +:+ b) +:+ c) = String x (a +:+ b +:+ c)). by rewrite IH. Qed.

Lemma sapp_nil (a : string) : a +:+ "" = a.
Proof. induction a as [|x a IH]; [done|]. change (String x (a +:+ "") = String x a). by rewrite IH. Qed.

Lemma backslashes_snoc n s : backslashes n +:+ String backslash s = backslashes (S n) +:+ s.
Proof.
  induction n as [|n IH]; [done|].
  change (String backslash (backslashes n +:+ String backslash s) = String backslash (backslashes (S n) +:+ s)).
  by rewrite IH.
Qed.

Lemma read_backslashes n s quoted seen current :
  read_arguments (backslashes n +:+ s) quoted seen current
  = read_arguments s quoted (seen + n) current.
Proof.
  revert seen. induction n as [|n IH]; intros seen; [by rewrite Nat.add_0_r|].
  change (read_arguments (backslashes n +:+ s) quoted (S seen) current = read_arguments s quoted (seen + S n) current).
  rewrite IH. f_equal. lia.
Qed.

Lemma half_even n : Nat.div2 (n * 2) = n ∧ Nat.even (n * 2) = true.
Proof.
  rewrite Nat.mul_comm. split; [apply Nat.div2_double|]. by rewrite Nat.even_mul.
Qed.

Lemma half_odd n : Nat.div2 (n * 2 + 1) = n ∧ Nat.even (n * 2 + 1) = false.
Proof.
  rewrite Nat.mul_comm, Nat.add_1_r. split; [apply Nat.div2_succ_double|].
  by rewrite Nat.even_succ, Nat.odd_mul.
Qed.

(** ** Quoted arguments *)

(** A quote after an even number of backslashes. *)
Lemma read_quote n s quoted current :
  read_arguments (backslashes (n * 2) +:+ quote +:+ s) quoted 0 (Some current)
  = read_arguments s (negb quoted) 0 (Some (current +:+ backslashes n)).
Proof.
  rewrite read_backslashes. destruct (half_even n) as [Hd He].
  change (read_arguments (String quote_char s) quoted (n * 2) (Some current) = 
    read_arguments s (negb quoted) 0 (Some (current +:+ backslashes n))).
  cbn [read_arguments]. change (Ascii.eqb quote_char backslash) with false.
  change (Ascii.eqb quote_char quote_char) with true. cbn iota zeta. by rewrite He, Hd.
Qed.

Lemma read_escaped_quote n s quoted current :
  read_arguments (backslashes (n * 2 + 1) +:+ quote +:+ s) quoted 0 (Some current)
  = read_arguments s quoted 0 (Some (current +:+ backslashes n +:+ quote)).
Proof.
  rewrite read_backslashes. destruct (half_odd n) as [Hd He].
  change (read_arguments (String quote_char s) quoted (n * 2 + 1) (Some current) = 
    read_arguments s quoted 0 (Some (current +:+ backslashes n +:+ quote))).
  cbn [read_arguments]. change (Ascii.eqb quote_char backslash) with false.
  change (Ascii.eqb quote_char quote_char) with true. cbn iota zeta. rewrite He, Hd. simpl default.
  by rewrite sapp_assoc.
Qed.

(** The body of a quoted argument and the quote that ends it. *)
Lemma read_quoted argument pending s current :
  read_arguments (quote_loop argument pending +:+ quote +:+ s) true 0 (Some current)
  = read_arguments s false 0 (Some (current +:+ backslashes pending +:+ argument)).
Proof.
  revert pending current. induction argument as [|c a IH]; intros pending current; cbn [quote_loop].
  - rewrite read_quote. simpl negb. by rewrite sapp_nil.
  - destruct (Ascii.eqb c backslash) eqn:Hb.
    { apply Ascii.eqb_eq in Hb as ->. by rewrite IH, backslashes_snoc. }
    destruct (Ascii.eqb c quote_char) eqn:Hq.
    { apply Ascii.eqb_eq in Hq as ->. rewrite !sapp_assoc, read_escaped_quote, IH.
      by rewrite !sapp_assoc. }
    rewrite sapp_assoc, read_backslashes.
    change (read_arguments (String c (quote_loop a 0 +:+ quote +:+ s)) true pending (Some current)
      = read_arguments s false 0 (Some (current +:+ backslashes pending +:+ String c a))).
    cbn [read_arguments]. rewrite Hb, Hq, andb_false_r, IH. simpl default.
    by rewrite !sapp_assoc.
Qed.

(** ** Whole arguments *)

(** After an argument: the end, or a space and the other arguments. *)
Inductive separated : string → list string → Prop :=
| AtEnd : separated "" []
| AtSpace s : separated (String " " s) (arguments_of s).

Lemma finished_some seen current : finished seen (Some current) = [current +:+ backslashes seen].
Proof. by destruct seen. Qed.

Lemma read_separated s more seen current :
  separated s more → read_arguments s false seen (Some current) = (current +:+ backslashes seen) :: more.
Proof.
  intros []; cbn [read_arguments]; rewrite finished_some; [done|].
  change (Ascii.eqb " " backslash) with false. change (Ascii.eqb " " quote_char) with false.
  done.
Qed.

Lemma plain_char c :
  needs_quotes (byte c) = false → Ascii.eqb c quote_char = false ∧ is_blank_char c = false.
Proof.
  unfold needs_quotes, is_blank_char. rewrite !orb_false_iff. intros [[[[H1 H2] _] _] Hq].
  rewrite H1, H2. split; [|done]. destruct (Ascii.eqb_spec c quote_char) as [->|]; [|done].
  by vm_compute in Hq.
Qed.

(** An argument that needs no quotes, from its second character on. *)
Lemma read_plain argument s more seen current :
  separated s more → bytes_all (λ b, negb (needs_quotes b)) argument = true →
  read_arguments (argument +:+ s) false seen (Some current)
  = (current +:+ backslashes seen +:+ argument) :: more.
Proof.
  intros Hs. revert seen current. induction argument as [|c a IH]; intros seen current Ha.
  - rewrite sapp_nil. by apply read_separated.
  - cbn [bytes_all] in Ha. apply andb_true_iff in Ha as [Hc Ha]. apply negb_true_iff in Hc.
    apply plain_char in Hc as [Hq Hb].
    change (read_arguments (String c (a +:+ s)) false seen (Some current)
      = (current +:+ backslashes seen +:+ String c a) :: more).
    cbn [read_arguments]. rewrite Hq, Hb. cbn [andb].
    destruct (Ascii.eqb c backslash) eqn:Hc.
    + apply Ascii.eqb_eq in Hc as ->. rewrite IH by done. by rewrite backslashes_snoc.
    + rewrite IH by done. simpl default. by rewrite !sapp_assoc.
Qed.

(** Nothing has been read of the first argument: the first character begins it. *)
Lemma read_begins c s seen :
  Ascii.eqb c quote_char = false → is_blank_char c = false →
  read_arguments (String c s) false seen None
  = read_arguments (String c s) false seen (Some "").
Proof.
  intros Hq Hb. cbn [read_arguments]. rewrite Hq, Hb. cbn [andb].
  destruct (Ascii.eqb c backslash); [|done]. revert seen. induction s as [|d s IH]; intros seen.
  - done.
  - cbn [read_arguments]. destruct (Ascii.eqb d backslash); [apply IH|].
    destruct (Ascii.eqb d quote_char); [done|]. destruct (_ && _); [|done]. done.
Qed.

Lemma read_argument argument s more :
  separated s more →
  read_arguments (quote_windows_argument argument +:+ s) false 0 None = argument :: more.
Proof.
  intros Hs. unfold quote_windows_argument.
  destruct (negb (is_empty argument) && negb (bytes_any needs_quotes argument)) eqn:Hp.
  - apply andb_true_iff in Hp as [He Ha]. unfold bytes_any in Ha. rewrite negb_involutive in Ha.
    destruct argument as [|c a]; [done|]. pose proof Ha as Hall.
    cbn [bytes_all] in Ha. apply andb_true_iff in Ha as [Hc _]. apply negb_true_iff in Hc.
    apply plain_char in Hc as [Hq Hb].
    change (String c a +:+ s) with (String c (a +:+ s)). rewrite read_begins by done.
    change (String c (a +:+ s)) with (String c a +:+ s). by rewrite (read_plain _ s more).
  - rewrite !sapp_assoc.
    change (read_arguments (String quote_char (quote_loop argument 0 +:+ quote +:+ s)) false 0 None
      = argument :: more).
    cbn [read_arguments]. change (Ascii.eqb quote_char backslash) with false.
    change (Ascii.eqb quote_char quote_char) with true. cbn iota zeta.
    change (read_arguments (quote_loop argument 0 +:+ quote +:+ s) true 0 (Some "") = argument :: more).
    rewrite read_quoted. rewrite (read_separated s more) by done. simpl. by rewrite sapp_nil.
Qed.

(** C40: whatever the arguments hold (blanks, quotes, backslashes, nothing at all), the
    command line made of them is split into the same arguments. *)
Theorem command_line_round_trip arguments :
  arguments_of (windows_command_line arguments) = arguments.
Proof.
  unfold windows_command_line. induction arguments as [|a [|b l] IH]; [done| |].
  - change (arguments_of (quote_windows_argument a) = [a]).
    rewrite <-(sapp_nil (quote_windows_argument a)). apply read_argument. constructor.
  - change (arguments_of (quote_windows_argument a +:+ String " "
      (join_spaces (map quote_windows_argument (b :: l)))) = a :: b :: l).
    rewrite <-IH at 2. apply read_argument. constructor.
Qed.

(** The command line of the test of [lib.rs], with a path that has a space and an
    argument with a quote. *)
Lemma command_line_of_the_test :
  windows_command_line
    ["offline-installer-restart"; "C:\\Program Files\\Codex\\ChatGPT.exe";
     "quote" +:+ quote +:+ "value"]
  = "offline-installer-restart " +:+ quote +:+ "C:\\Program Files\\Codex\\ChatGPT.exe" +:+ quote
    +:+ " " +:+ quote +:+ "quote\" +:+ quote +:+ "value" +:+ quote.
Proof. reflexivity. Qed.
