(* ===== verification/Permit.v ===== *)
(** * Patch-apply permits

    Models [crates/control/star-validation/src/permit.rs]: the permit that a
    verified pre-apply gate issues for one source write, its single use, and the
    disposition after the write.  [from_persisted_gate], which projects a stored
    gate decision, is not modelled: a [VerifiedPatchGateV2] is given. *)
From S2P Require Import Prelude Canonical Toy Contracts Evidence Validation.

Inductive GatePhaseV2 := DuringStage | GoalExit | PatchPreApply | PatchPostApply.
Inductive PatchPermitKindV2 := Automatic | ManualApproved.
Inductive PatchApplicationStateV2 := AppliedExact | PartiallyApplied | ApplicationUnknown.
Inductive PatchPostApplyDispositionV2 := DispositionComplete | AwaitingHumanReview | RecoveryRequired.
Inductive PatchPermitError :=
| PermitGate | PermitApproval | PermitBinding | PermitConsumed | PermitFingerprint.

#[global] Instance GatePhaseV2_eq_dec : EqDecision GatePhaseV2.
Proof. solve_decision. Defined.
#[global] Instance PatchApplicationStateV2_eq_dec : EqDecision PatchApplicationStateV2.
Proof. solve_decision. Defined.

Record ManualPatchApprovalV2 := {
  ma_approval_id : string;
  ma_approved_by : ActorRef;
  ma_gate_decision_ref : GateDecisionRef;
  ma_patch_fingerprint : Sha256Hash;
  ma_before_binding_set_fingerprint : Sha256Hash;
  ma_permission_fingerprint : Sha256Hash;
  ma_approved_at : DateTime;
  ma_approval_fingerprint : Sha256Hash
}.

Record VerifiedPatchGateV2 := {
  vg_gate_decision_ref : GateDecisionRef;
  vg_decision : GateDecisionKind;
  vg_phase : GatePhaseV2;
  vg_subject_binding_set_fingerprint : Sha256Hash;
  vg_valid_until : option DateTime
}.

Record PatchApplyPermitV2 := {
  pp_kind : PatchPermitKindV2;
  pp_gate_decision_ref : GateDecisionRef;
  pp_patch_fingerprint : Sha256Hash;
  pp_before_binding_set_fingerprint : Sha256Hash;
  pp_permission_fingerprint : Sha256Hash;
  pp_approval_fingerprint : option Sha256Hash;
  pp_nonce : Sha256Hash;
  pp_consumed : bool
}.

Record PatchPermitUseV2 := {
  pu_kind : PatchPermitKindV2;
  pu_gate_decision_ref : GateDecisionRef;
  pu_patch_fingerprint : Sha256Hash;
  pu_before_binding_set_fingerprint : Sha256Hash;
  pu_permission_fingerprint : Sha256Hash;
  pu_approval_fingerprint : option Sha256Hash;
  pu_nonce : Sha256Hash
}.

Section permit.
Context `{Platform}.

Definition approval_payload (approval_id : string) (approved_by : ActorRef)
    (gate : GateDecisionRef) (patch before permission : Sha256Hash) (approved_at : DateTime) : Json :=
  JObj
  [("domain", JStr "star.patch-manual-approval");
   ("version", JNum 2);
   ("approval_id", to_json approval_id);
   ("approved_by", to_json approved_by);
   ("gate_decision_ref", to_json gate);
   ("patch_fingerprint", to_json patch);
   ("before_binding_set_fingerprint", to_json before);
   ("permission_fingerprint", to_json permission);
   ("approved_at", JStr (rfc3339 approved_at))].

Definition seal_manual_approval (approval_id : string) (approved_by : ActorRef)
    (gate : GateDecisionRef) (patch before permission : Sha256Hash) (approved_at : DateTime) :
    result ManualPatchApprovalV2 PatchPermitError :=
  check blank approval_id || contains_char NUL approval_id else PermitApproval in
  let? approval_fingerprint := map_err (λ _, PermitFingerprint) (canonical_sha256
    (approval_payload approval_id approved_by gate patch before permission approved_at)) in
  Ok {| ma_approval_id := approval_id;
        ma_approved_by := approved_by;
        ma_gate_decision_ref := gate;
        ma_patch_fingerprint := patch;
        ma_before_binding_set_fingerprint := before;
        ma_permission_fingerprint := permission;
        ma_approved_at := approved_at;
        ma_approval_fingerprint := approval_fingerprint |}.

Definition expired (valid_until : option DateTime) (evaluation_time : DateTime) : bool :=
  is_some_and valid_until (λ valid_until, (valid_until <=? evaluation_time)%Z).

Definition nonce_payload (gate : GateDecisionRef) (patch before permission : Sha256Hash)
    (approval : option Sha256Hash) (issued_at : DateTime) (entropy : string) : Json := JObj
  [("domain", JStr "star.patch-apply-permit-nonce");
   ("version", JNum 2);
   ("gate", to_json gate);
   ("patch", to_json patch);
   ("before", to_json before);
   ("permission", to_json permission);
   ("approval", to_json approval);
   ("issued_at", JStr (rfc3339 issued_at));
   ("entropy", to_json entropy)].

(** The kind of permit and the approval it rests on. *)
Definition authorize (gate : VerifiedPatchGateV2) (patch before permission : Sha256Hash)
    (manual_approval : option ManualPatchApprovalV2) :
    result (PatchPermitKindV2 * option Sha256Hash) PatchPermitError :=
  match vg_decision gate, manual_approval with
  | AutoPass, None => Ok (Automatic, None)
  | HumanReview, None => Err PermitApproval
  | HumanReview, Some approval =>
      check negb (bool_decide (ma_gate_decision_ref approval = vg_gate_decision_ref gate))
        || negb (String.eqb (ma_patch_fingerprint approval) patch)
        || negb (String.eqb (ma_before_binding_set_fingerprint approval) before)
        || negb (String.eqb (ma_permission_fingerprint approval) permission)
      else PermitApproval in
      Ok (ManualApproved, Some (ma_approval_fingerprint approval))
  | AutoPass, Some _ | BlockDecision, _ => Err PermitGate
  end.

(** [entropy] is the fresh [RequestId::new()]. *)
Definition issue_patch_apply_permit (entropy : string) (gate : VerifiedPatchGateV2)
    (patch before permission : Sha256Hash) (manual_approval : option ManualPatchApprovalV2)
    (evaluation_time : DateTime) : result PatchApplyPermitV2 PatchPermitError :=
  check negb (bool_decide (vg_phase gate = PatchPreApply))
    || negb (String.eqb (vg_subject_binding_set_fingerprint gate) before)
    || expired (vg_valid_until gate) evaluation_time
  else PermitGate in
  let? (kind, approval_fingerprint) := authorize gate patch before permission manual_approval in
  let? nonce := map_err (λ _, PermitFingerprint) (canonical_sha256
    (nonce_payload (vg_gate_decision_ref gate) patch before permission approval_fingerprint
      evaluation_time entropy)) in
  Ok {| pp_kind := kind;
        pp_gate_decision_ref := vg_gate_decision_ref gate;
        pp_patch_fingerprint := patch;
        pp_before_binding_set_fingerprint := before;
        pp_permission_fingerprint := permission;
        pp_approval_fingerprint := approval_fingerprint;
        pp_nonce := nonce;
        pp_consumed := false |}.

End permit.

Definition mark_consumed (p : PatchApplyPermitV2) : PatchApplyPermitV2 :=
  {| pp_kind := pp_kind p;
     pp_gate_decision_ref := pp_gate_decision_ref p;
     pp_patch_fingerprint := pp_patch_fingerprint p;
     pp_before_binding_set_fingerprint := pp_before_binding_set_fingerprint p;
     pp_permission_fingerprint := pp_permission_fingerprint p;
     pp_approval_fingerprint := pp_approval_fingerprint p;
     pp_nonce := pp_nonce p;
     pp_consumed := true |}.

Definition permit_use (p : PatchApplyPermitV2) : PatchPermitUseV2 :=
  {| pu_kind := pp_kind p;
     pu_gate_decision_ref := pp_gate_decision_ref p;
     pu_patch_fingerprint := pp_patch_fingerprint p;
     pu_before_binding_set_fingerprint := pp_before_binding_set_fingerprint p;
     pu_permission_fingerprint := pp_permission_fingerprint p;
     pu_approval_fingerprint := pp_approval_fingerprint p;
     pu_nonce := pp_nonce p |}.

Definition consume (p : PatchApplyPermitV2) (patch before permission : Sha256Hash) :
    PatchApplyPermitV2 * result PatchPermitUseV2 PatchPermitError :=
  if pp_consumed p then (p, Err PermitConsumed)
  else if negb (String.eqb patch (pp_patch_fingerprint p))
          || negb (String.eqb before (pp_before_binding_set_fingerprint p))
          || negb (String.eqb permission (pp_permission_fingerprint p))
  then (p, Err PermitBinding)
  else (mark_consumed p, Ok (permit_use p)).

Definition evaluate_patch_post_apply (state : PatchApplicationStateV2)
    (expected_operation actual_operation before after : Sha256Hash)
    (post_gate : VerifiedPatchGateV2) (evaluation_time : DateTime) :
    PatchPostApplyDispositionV2 :=
  if negb (bool_decide (state = AppliedExact))
     || negb (String.eqb expected_operation actual_operation)
     || String.eqb before after
     || negb (bool_decide (vg_phase post_gate = PatchPostApply))
     || negb (String.eqb (vg_subject_binding_set_fingerprint post_gate) after)
     || expired (vg_valid_until post_gate) evaluation_time
  then RecoveryRequired
  else match vg_decision post_gate with
       | AutoPass => DispositionComplete
       | HumanReview => AwaitingHumanReview
       | BlockDecision => RecoveryRequired
       end.

(** ** Sequences of uses *)

Definition attempt : Type := Sha256Hash * (Sha256Hash * Sha256Hash).

Fixpoint consume_all (p : PatchApplyPermitV2) (attempts : list attempt) :
    list (result PatchPermitUseV2 PatchPermitError) :=
  match attempts with
  | [] => []
  | (patch, (before, permission)) :: rest =>
      let (p, r) := consume p patch before permission in r :: consume_all p rest
  end.

Definition uses (rs : list (result PatchPermitUseV2 PatchPermitError)) : list PatchPermitUseV2 :=
  omap (λ r : result PatchPermitUseV2 PatchPermitError,
    match r with Ok u => Some u | Err _ => None end) rs.

Lemma consume_all_consumed p attempts : pp_consumed p = true → uses (consume_all p attempts) = [].
Proof.
  intros Hc. induction attempts as [|[a [b c]] l IH]; simpl; [done|].
  unfold consume. by rewrite Hc.
Qed.

#[export] Instance GateDecisionRef_inj_json : InjJson GateDecisionRef.
Proof.
  intros [] [] Heq. unfold to_json, GateDecisionRef_to_json in Heq. peel Heq. simpl in *. by subst.
Qed.

#[export] Instance ActorType_inj_json : InjJson ActorType.
Proof. by intros [] []. Qed.

#[export] Instance ActorRef_inj_json : InjJson ActorRef.
Proof. intros [] [] Heq. unfold to_json, ActorRef_to_json in Heq. peel Heq. simpl in *. by subst. Qed.

Section facts.
Context `{Platform}.

Lemma authorize_ok gate patch before permission approval kind fp :
  authorize gate patch before permission approval = Ok (kind, fp) →
  (vg_decision gate = AutoPass ∧ approval = None ∧ kind = Automatic ∧ fp = None) ∨
  (vg_decision gate = HumanReview ∧ kind = ManualApproved ∧
   ∃ a, approval = Some a ∧ fp = Some (ma_approval_fingerprint a) ∧
     ma_gate_decision_ref a = vg_gate_decision_ref gate ∧ ma_patch_fingerprint a = patch ∧
     ma_before_binding_set_fingerprint a = before ∧ ma_permission_fingerprint a = permission).
Proof.
  unfold authorize. destruct (vg_decision gate), approval as [a|]; try done.
  - intros [= <- <-]. auto.
  - intros Ha. next_check Ha. injection Ha as <- <-. bool_to_prop. right. split_and!; [done..|].
    by exists a.
Qed.

Lemma issue_ok entropy gate patch before permission approval time p :
  issue_patch_apply_permit entropy gate patch before permission approval time = Ok p →
  vg_phase gate = PatchPreApply ∧ vg_subject_binding_set_fingerprint gate = before ∧
  (∀ t, vg_valid_until gate = Some t → (time < t)%Z) ∧
  authorize gate patch before permission approval = Ok (pp_kind p, pp_approval_fingerprint p) ∧
  canonical_sha256 (nonce_payload (vg_gate_decision_ref gate) patch before permission
    (pp_approval_fingerprint p) time entropy) = Ok (pp_nonce p) ∧
  (pp_gate_decision_ref p, pp_patch_fingerprint p, pp_before_binding_set_fingerprint p,
   pp_permission_fingerprint p, pp_consumed p)
  = (vg_gate_decision_ref gate, patch, before, permission, false).
Proof.
  unfold issue_patch_apply_permit, map_err. intros Hi. next_check Hi.
  destruct (authorize _ _ _ _ _) as [[kind fp]|] eqn:Ha; [|done].
  destruct (canonical_sha256 _) as [nonce|] eqn:Hn; [|done]. injection Hi as <-.
  bool_to_prop. split_and!; try done.
  intros t Ht. unfold expired in *. rewrite Ht in *. simpl in *. by bool_to_prop.
Qed.

(** ** The properties *)

(** C35: a permit is used at most once, and only for what it was issued for: in
    any sequence of attempts on an issued permit, at most one succeeds, and it
    hands out exactly the gate, patch, binding set, permission and approval of
    the issue, for an attempt that named the same patch, binding set and
    permission. *)
Theorem permit_is_single_use entropy gate patch before permission approval time p attempts :
  issue_patch_apply_permit entropy gate patch before permission approval time = Ok p →
  length (uses (consume_all p attempts)) ≤ 1 ∧
  (∀ u, u ∈ uses (consume_all p attempts) →
    u = permit_use p ∧ pu_gate_decision_ref u = vg_gate_decision_ref gate ∧
    (pu_patch_fingerprint u, (pu_before_binding_set_fingerprint u, pu_permission_fingerprint u))
      = (patch, (before, permission)) ∧ (patch, (before, permission)) ∈ attempts) ∧
  ((patch, (before, permission)) ∈ attempts → length (uses (consume_all p attempts)) = 1).
Proof.
  intros (_ & _ & _ & _ & _ & Hp)%issue_ok. injection Hp as Hg Hpa Hb Hpe Hc.
  induction attempts as [|[x [y z]] l IH]; simpl; [split; [lia|set_solver]|].
  unfold consume. rewrite Hc. destruct (_ || _) eqn:E; simpl.
  - destruct IH as (IH1 & IH2 & IH3). split; [done|]. split.
    + intros u Hu. destruct (IH2 u Hu) as (? & ? & ? & ?). split_and!; [done..|by right].
    + intros [Heq|Hin]%elem_of_cons; [|auto]. injection Heq as <- <- <-.
      rewrite Hpa, Hb, Hpe, !String.eqb_refl in E. done.
  - bool_to_prop. rewrite consume_all_consumed by done. simpl. split; [lia|]. split; [|done].
    intros u ->%list_elem_of_singleton. simpl. rewrite Hg, Hpa, Hb, Hpe.
    split_and!; [done..|]. rewrite <-Hpa, <-Hb, <-Hpe. subst. left.
Qed.

(** A permit is only issued by a gate that allows it: a pre-apply gate on
    the same binding set, not expired, that either passed automatically with no
    approval in play, or asked for human review and comes with an approval of
    exactly this gate, patch, binding set and permission, whose fingerprint the
    permit carries. *)
Theorem permit_needs_its_gate entropy gate patch before permission approval time p :
  issue_patch_apply_permit entropy gate patch before permission approval time = Ok p →
  vg_phase gate = PatchPreApply ∧ vg_subject_binding_set_fingerprint gate = before ∧
  (∀ t, vg_valid_until gate = Some t → (time < t)%Z) ∧
  ((pp_kind p = Automatic ∧ vg_decision gate = AutoPass ∧ approval = None ∧
    pp_approval_fingerprint p = None) ∨
   (pp_kind p = ManualApproved ∧ vg_decision gate = HumanReview ∧
    ∃ a, approval = Some a ∧ pp_approval_fingerprint p = Some (ma_approval_fingerprint a) ∧
      ma_gate_decision_ref a = vg_gate_decision_ref gate ∧ ma_patch_fingerprint a = patch ∧
      ma_before_binding_set_fingerprint a = before ∧ ma_permission_fingerprint a = permission)).
Proof.
  intros (? & ? & ? & Ha & _ & _)%issue_ok. do 3 (split; [done|]).
  apply authorize_ok in Ha as [(? & ? & ? & ?)|(? & ? & a & ?)]; [left|right; split_and!]; eauto.
Qed.

(** The nonce identifies the issue: two permits with one nonce were issued
    with the same entropy for the same gate, patch, binding set, permission and
    approval, or the hash collides; so fresh entropy gives distinct permits. *)
Theorem permit_nonce_binds e1 g1 pa1 b1 pe1 a1 t1 p1 e2 g2 pa2 b2 pe2 a2 t2 p2 :
  issue_patch_apply_permit e1 g1 pa1 b1 pe1 a1 t1 = Ok p1 →
  issue_patch_apply_permit e2 g2 pa2 b2 pe2 a2 t2 = Ok p2 →
  pp_nonce p1 = pp_nonce p2 →
  (e1 = e2 ∧ vg_gate_decision_ref g1 = vg_gate_decision_ref g2 ∧ pa1 = pa2 ∧ b1 = b2 ∧ pe1 = pe2 ∧
   pp_approval_fingerprint p1 = pp_approval_fingerprint p2) ∨
  collision
    (nonce_payload (vg_gate_decision_ref g1) pa1 b1 pe1 (pp_approval_fingerprint p1) t1 e1)
    (nonce_payload (vg_gate_decision_ref g2) pa2 b2 pe2 (pp_approval_fingerprint p2) t2 e2).
Proof.
  intros (_ & _ & _ & _ & H1 & _)%issue_ok (_ & _ & _ & _ & H2 & _)%issue_ok Hn.
  rewrite Hn in H1. destruct (hash_binds _ _ _ H1 H2) as [Heq|?]; [left|by right].
  unfold nonce_payload in Heq. peel Heq. split_and!; done.
Qed.

(** The work is complete only after an exact application: the disposition is
    [Complete] exactly when the patch was applied exactly as expected, changed
    the binding set, and a current post-apply gate on the new set passed
    automatically; every other case waits for review or demands recovery. *)
Theorem post_apply_complete_exactly state expected actual before after gate time :
  evaluate_patch_post_apply state expected actual before after gate time = DispositionComplete ↔
  state = AppliedExact ∧ expected = actual ∧ before ≠ after ∧ vg_phase gate = PatchPostApply ∧
  vg_subject_binding_set_fingerprint gate = after ∧ vg_decision gate = AutoPass ∧
  ∀ t, vg_valid_until gate = Some t → (time < t)%Z.
Proof.
  unfold evaluate_patch_post_apply, expired. split.
  - destruct (_ || _) eqn:E; [done|]. bool_to_prop. intros Hd.
    split_and!; try done; [by destruct (vg_decision gate)|].
    intros t Ht. rewrite Ht in *. simpl in *. by bool_to_prop.
  - intros (-> & -> & Hne & Hph & Hs & Hd & Hv).
    rewrite Hph, Hs, Hd, !bool_decide_eq_true_2, !String.eqb_refl by done.
    apply String.eqb_neq in Hne as ->. simpl.
    destruct (vg_valid_until gate) as [t|]; simpl; [|done].
    specialize (Hv t eq_refl). apply Z.leb_gt in Hv. by rewrite Hv.
Qed.
End facts.

(** ** Instances *)

Definition example_gate (decision : GateDecisionKind) : VerifiedPatchGateV2 :=
  {| vg_gate_decision_ref := {| gd_gate_id := "gat_1"; gd_revision := 1; gd_sha256 := "gate" |};
     vg_decision := decision; vg_phase := PatchPreApply;
     vg_subject_binding_set_fingerprint := "before"; vg_valid_until := Some 10%Z |}.

Definition example_approval : result ManualPatchApprovalV2 PatchPermitError :=
  seal_manual_approval "apr_1" {| ac_actor_type := ActorUser; ac_actor_id := "user";
      ac_display_name := "User"; ac_auth_source := "os" |}
    (vg_gate_decision_ref (example_gate HumanReview)) "patch" "before" "permission" 1%Z.

Definition example_manual : option ManualPatchApprovalV2 :=
  match example_approval with Ok a => Some a | Err _ => None end.

Definition example_issue : result PatchApplyPermitV2 PatchPermitError :=
  issue_patch_apply_permit "req_1" (example_gate HumanReview) "patch" "before" "permission"
    example_manual 5%Z.

Lemma permit_is_single_use_witness :
  ∃ p, example_issue = Ok p ∧
    length (uses (consume_all p [("patch", ("other", "permission")); ("patch", ("before", "permission"));
      ("patch", ("before", "permission"))])) = 1.
Proof.
  destruct example_issue as [p|e] eqn:Hi; [|exfalso; revert Hi; vm_compute; discriminate].
  exists p. split; [reflexivity|].
  apply (permit_is_single_use _ _ _ _ _ _ _ _ _ Hi). right. left.
Defined.

Lemma permit_needs_its_gate_witness :
  ∃ p, example_issue = Ok p ∧ vg_phase (example_gate HumanReview) = PatchPreApply.
Proof.
  destruct example_issue as [p|e] eqn:Hi; [|exfalso; revert Hi; vm_compute; discriminate].
  exists p. split; [reflexivity|]. exact (proj1 (permit_needs_its_gate _ _ _ _ _ _ _ _ Hi)).
Defined.

Lemma permit_nonce_binds_witness :
  ∃ p, example_issue = Ok p ∧
    ("req_1" = "req_1" ∨ collision (nonce_payload (vg_gate_decision_ref (example_gate HumanReview))
        "patch" "before" "permission" (pp_approval_fingerprint p) 5%Z "req_1")
      (nonce_payload (vg_gate_decision_ref (example_gate HumanReview))
        "patch" "before" "permission" (pp_approval_fingerprint p) 5%Z "req_1")).
Proof.
  destruct example_issue as [p|e] eqn:Hi; [|exfalso; revert Hi; vm_compute; discriminate].
  exists p. split; [reflexivity|].
  destruct (permit_nonce_binds _ _ _ _ _ _ _ _ _ _ _ _ _ _ _ _ Hi Hi eq_refl) as [[He _]|Hc];
    [left; exact He|right; exact Hc].
Defined.
