(* ===== verification/ReleaseLifecycle.v ===== *)
(** * Release lifecycle evidence

    Models [crates/control/star-release/src/lifecycle.rs] over the evidence
    contract of [crates/foundation/star-contracts/src/release_v2.rs]: the
    install, update, rollback, repair and uninstall rehearsal of a release
    candidate and the check that it is complete. *)
From S2P Require Import Prelude Contracts.

Definition RELEASE_LIFECYCLE_EVIDENCE_SCHEMA_ID : string := "star.release-lifecycle-evidence".

Inductive ReleaseError :=
| ReleaseInvalid | ReleaseConflict | ReleaseBlocked | ReleaseAdapter | ReleaseFingerprint.

Inductive ReleaseArchitecture := X64 | Arm64.
Inductive RuntimeVerificationState := NativeVerified | NativeUnverified | VerificationFailed.
Inductive LifecycleExecutionMode := NativeIsolated | FakeModel.

Inductive LifecyclePhase :=
| NotInstalled | Installed | FirstRunVerified | UpdateStaged | RollbackRequired | RolledBack
| Repaired | Uninstalled.

#[global] Instance ReleaseError_eq_dec : EqDecision ReleaseError.
Proof. solve_decision. Defined.
#[global] Instance ReleaseArchitecture_eq_dec : EqDecision ReleaseArchitecture.
Proof. solve_decision. Defined.
#[global] Instance RuntimeVerificationState_eq_dec : EqDecision RuntimeVerificationState.
Proof. solve_decision. Defined.
#[global] Instance LifecycleExecutionMode_eq_dec : EqDecision LifecycleExecutionMode.
Proof. solve_decision. Defined.
#[global] Instance LifecyclePhase_eq_dec : EqDecision LifecyclePhase.
Proof. solve_decision. Defined.

Record LifecycleEvent := {
  le_sequence : N;
  le_phase : LifecyclePhase;
  le_active_artifact_set_digest : option string;
  le_evidence_ref : string
}.

Record ReleaseLifecycleEvidence := {
  rl_schema_id : string;
  rl_schema_version : N;
  rl_architecture : ReleaseArchitecture;
  rl_execution_mode : LifecycleExecutionMode;
  rl_runtime_verification : RuntimeVerificationState;
  rl_phase : LifecyclePhase;
  rl_candidate_artifact_set_digest : string;
  rl_active_artifact_set_digest : option string;
  rl_previous_artifact_set_digest : option string;
  rl_user_data_digest_before : string;
  rl_user_data_digest_after : string;
  rl_events : list LifecycleEvent;
  rl_limitations : list string
}.

Definition checked_evidence_ref (value : string) : result string ReleaseError :=
  let value := trim value in
  if is_empty value || (512 <? slen value)%N then Err ReleaseInvalid else Ok value.

(** The evidence with its mutable part replaced. *)
Definition rl_with (e : ReleaseLifecycleEvidence) (phase : LifecyclePhase) (candidate : string)
    (active previous : option string) (after : string) (events : list LifecycleEvent) :
    ReleaseLifecycleEvidence :=
  {| rl_schema_id := rl_schema_id e;
     rl_schema_version := rl_schema_version e;
     rl_architecture := rl_architecture e;
     rl_execution_mode := rl_execution_mode e;
     rl_runtime_verification := rl_runtime_verification e;
     rl_phase := phase;
     rl_candidate_artifact_set_digest := candidate;
     rl_active_artifact_set_digest := active;
     rl_previous_artifact_set_digest := previous;
     rl_user_data_digest_before := rl_user_data_digest_before e;
     rl_user_data_digest_after := after;
     rl_events := events;
     rl_limitations := rl_limitations e |}.

(** [events.len() as u32 + 1], with the truncation and the wrap-around. *)
Definition push_event (e : ReleaseLifecycleEvidence) (evidence_ref : string) :
    ReleaseLifecycleEvidence :=
  rl_with e (rl_phase e) (rl_candidate_artifact_set_digest e) (rl_active_artifact_set_digest e)
    (rl_previous_artifact_set_digest e) (rl_user_data_digest_after e)
    (rl_events e ++
      [{| le_sequence := wrapping_add u32_max (len (rl_events e) mod (u32_max + 1)) 1;
          le_phase := rl_phase e;
          le_active_artifact_set_digest := rl_active_artifact_set_digest e;
          le_evidence_ref := evidence_ref |}]).

Definition rl_new (architecture : ReleaseArchitecture) (execution_mode : LifecycleExecutionMode)
    (candidate user_data evidence_ref : string) : result ReleaseLifecycleEvidence ReleaseError :=
  let? evidence_ref := checked_evidence_ref evidence_ref in
  Ok {| rl_schema_id := RELEASE_LIFECYCLE_EVIDENCE_SCHEMA_ID;
        rl_schema_version := 1;
        rl_architecture := architecture;
        rl_execution_mode := execution_mode;
        rl_runtime_verification :=
          match execution_mode with
          | NativeIsolated => NativeVerified | FakeModel => NativeUnverified
          end;
        rl_phase := NotInstalled;
        rl_candidate_artifact_set_digest := candidate;
        rl_active_artifact_set_digest := None;
        rl_previous_artifact_set_digest := None;
        rl_user_data_digest_before := user_data;
        rl_user_data_digest_after := user_data;
        rl_events := [{| le_sequence := 1; le_phase := NotInstalled;
                         le_active_artifact_set_digest := None;
                         le_evidence_ref := evidence_ref |}];
        rl_limitations :=
          match execution_mode with
          | NativeIsolated => [] | FakeModel => ["native_unverified"]
          end |}.

(** [transition], with the active digest that its [change] leaves. *)
Definition rl_transition (e : ReleaseLifecycleEvidence) (expected next : LifecyclePhase)
    (evidence_ref : string) (active : option string) :
    result ReleaseLifecycleEvidence ReleaseError :=
  check negb (bool_decide (rl_phase e = expected)) else ReleaseConflict in
  let? evidence_ref := checked_evidence_ref evidence_ref in
  Ok (push_event (rl_with e next (rl_candidate_artifact_set_digest e) active
        (rl_previous_artifact_set_digest e) (rl_user_data_digest_after e) (rl_events e))
      evidence_ref).

Definition install (e : ReleaseLifecycleEvidence) (evidence_ref : string) :=
  rl_transition e NotInstalled Installed evidence_ref
    (Some (rl_candidate_artifact_set_digest e)).

Definition verify_first_run (e : ReleaseLifecycleEvidence) (evidence_ref : string) :=
  rl_transition e Installed FirstRunVerified evidence_ref (rl_active_artifact_set_digest e).

Definition stage_update (e : ReleaseLifecycleEvidence) (update evidence_ref : string) :
    result ReleaseLifecycleEvidence ReleaseError :=
  check negb (bool_decide (rl_phase e = FirstRunVerified))
    || bool_decide (rl_active_artifact_set_digest e = Some update)
  else ReleaseConflict in
  let? evidence_ref := checked_evidence_ref evidence_ref in
  Ok (push_event (rl_with e UpdateStaged update (rl_active_artifact_set_digest e)
        (rl_active_artifact_set_digest e) (rl_user_data_digest_after e) (rl_events e))
      evidence_ref).

Definition record_update_failure (e : ReleaseLifecycleEvidence) (evidence_ref : string) :=
  rl_transition e UpdateStaged RollbackRequired evidence_ref
    (Some (rl_candidate_artifact_set_digest e)).

Definition rollback (e : ReleaseLifecycleEvidence) (evidence_ref : string) :
    result ReleaseLifecycleEvidence ReleaseError :=
  check negb (bool_decide (rl_phase e = RollbackRequired)) else ReleaseConflict in
  let? previous := ok_or (rl_previous_artifact_set_digest e) ReleaseConflict in
  let? evidence_ref := checked_evidence_ref evidence_ref in
  Ok (push_event (rl_with e RolledBack (rl_candidate_artifact_set_digest e) (Some previous)
        (rl_previous_artifact_set_digest e) (rl_user_data_digest_after e) (rl_events e))
      evidence_ref).

Definition repair (e : ReleaseLifecycleEvidence) (evidence_ref : string) :=
  rl_transition e RolledBack Repaired evidence_ref (rl_active_artifact_set_digest e).

Definition uninstall_preserving_user_data (e : ReleaseLifecycleEvidence)
    (observed evidence_ref : string) : result ReleaseLifecycleEvidence ReleaseError :=
  check negb (bool_decide (rl_phase e = Repaired))
    || negb (String.eqb observed (rl_user_data_digest_before e))
  else ReleaseBlocked in
  let? evidence_ref := checked_evidence_ref evidence_ref in
  Ok (push_event (rl_with e Uninstalled (rl_candidate_artifact_set_digest e) None
        (rl_previous_artifact_set_digest e) observed (rl_events e)) evidence_ref).

Definition expected_phases : list LifecyclePhase :=
  [NotInstalled; Installed; FirstRunVerified; UpdateStaged; RollbackRequired; RolledBack;
   Repaired; Uninstalled].

Definition expected_active (previous candidate : string) : list (option string) :=
  [None; Some previous; Some previous; Some previous; Some candidate; Some previous;
   Some previous; None].

(** [events.iter().enumerate().any(..)], with [index as u32 + 1]. *)
Fixpoint events_off (index : N) (phases : list LifecyclePhase) (active : list (option string))
    (events : list LifecycleEvent) {struct events} : bool :=
  match events, phases, active with
  | event :: events, phase :: phases, digest :: active =>
      negb (le_sequence event =? wrapping_add u32_max (index mod (u32_max + 1)) 1)%N
      || negb (bool_decide (le_phase event = phase))
      || negb (bool_decide (le_active_artifact_set_digest event = digest))
      || is_err (checked_evidence_ref (le_evidence_ref event))
      || events_off (index + 1) phases active events
  | _, _, _ => false
  end.

Definition validate_complete (e : ReleaseLifecycleEvidence) : result unit ReleaseError :=
  match rl_previous_artifact_set_digest e with
  | None => Err ReleaseBlocked
  | Some previous =>
      let execution_binding_valid :=
        match rl_execution_mode e with
        | NativeIsolated =>
            bool_decide (rl_runtime_verification e = NativeVerified)
            && negb (mem "native_unverified" (rl_limitations e))
        | FakeModel =>
            bool_decide (rl_runtime_verification e = NativeUnverified)
            && mem "native_unverified" (rl_limitations e)
        end in
      check negb (String.eqb (rl_schema_id e) RELEASE_LIFECYCLE_EVIDENCE_SCHEMA_ID)
        || negb (rl_schema_version e =? 1)%N
        || negb (bool_decide (rl_phase e = Uninstalled))
        || is_some (rl_active_artifact_set_digest e)
        || negb (String.eqb (rl_user_data_digest_before e) (rl_user_data_digest_after e))
        || negb (len (rl_events e) =? len expected_phases)%N
        || events_off 0 expected_phases
             (expected_active previous (rl_candidate_artifact_set_digest e)) (rl_events e)
        || negb execution_binding_valid
      else ReleaseBlocked in
      Ok tt
  end.

(** ** Runs *)

Inductive lifecycle_op :=
| OpInstall (evidence_ref : string)
| OpFirstRun (evidence_ref : string)
| OpStageUpdate (update evidence_ref : string)
| OpUpdateFailure (evidence_ref : string)
| OpRollback (evidence_ref : string)
| OpRepair (evidence_ref : string)
| OpUninstall (observed evidence_ref : string).

Definition apply_op (e : ReleaseLifecycleEvidence) (op : lifecycle_op) :
    result ReleaseLifecycleEvidence ReleaseError :=
  match op with
  | OpInstall r => install e r
  | OpFirstRun r => verify_first_run e r
  | OpStageUpdate u r => stage_update e u r
  | OpUpdateFailure r => record_update_failure e r
  | OpRollback r => rollback e r
  | OpRepair r => repair e r
  | OpUninstall o r => uninstall_preserving_user_data e o r
  end.

(** A refused operation leaves the evidence as it was. *)
Definition run_ops (e : ReleaseLifecycleEvidence) (ops : list lifecycle_op) :
    ReleaseLifecycleEvidence :=
  foldl (λ e op, match apply_op e op with Ok e' => e' | Err _ => e end) e ops.

(** ** The shape of the evidence at each phase *)

Definition phase_rank (p : LifecyclePhase) : nat :=
  match p with
  | NotInstalled => 0 | Installed => 1 | FirstRunVerified => 2 | UpdateStaged => 3
  | RollbackRequired => 4 | RolledBack => 5 | Repaired => 6 | Uninstalled => 7
  end.

Definition event_at (d0 d1 : string) (i : nat) (evidence_ref : string) : LifecycleEvent :=
  {| le_sequence := N.of_nat (S i);
     le_phase := nth i expected_phases Uninstalled;
     le_active_artifact_set_digest := nth i (expected_active d0 d1) None;
     le_evidence_ref := evidence_ref |}.

Definition updated (p : LifecyclePhase) : bool := 3 <=? phase_rank p.

(** The evidence with first digest [d0], update digest [d1] and user data
    [user], one checked reference per phase passed. *)
Record lifecycle_shape (d0 d1 user : string) (refs : list string) (e : ReleaseLifecycleEvidence) :
    Prop := {
  ls_refs : Forall (λ r, checked_evidence_ref r = Ok r) refs;
  ls_length : length refs = S (phase_rank (rl_phase e));
  ls_events : rl_events e = imap (event_at d0 d1) refs;
  ls_active : rl_active_artifact_set_digest e
    = nth (phase_rank (rl_phase e)) (expected_active d0 d1) None;
  ls_digests : (rl_candidate_artifact_set_digest e, rl_previous_artifact_set_digest e)
    = if updated (rl_phase e) then (d1, Some d0) else (d0, None);
  ls_distinct : updated (rl_phase e) = true → d0 ≠ d1;
  ls_user : rl_user_data_digest_before e = user ∧ rl_user_data_digest_after e = user;
  ls_header : rl_schema_id e = RELEASE_LIFECYCLE_EVIDENCE_SCHEMA_ID ∧ rl_schema_version e = 1%N;
  ls_mode : match rl_execution_mode e with
    | NativeIsolated => rl_runtime_verification e = NativeVerified ∧ rl_limitations e = []
    | FakeModel => rl_runtime_verification e = NativeUnverified ∧
        rl_limitations e = ["native_unverified"]
    end
}.

Lemma checked_idem r r' : checked_evidence_ref r = Ok r' → checked_evidence_ref r' = Ok r'.
Proof.
  unfold checked_evidence_ref. destruct (_ || _) eqn:E; [done|]. intros [= <-].
  by rewrite trim_idem, E.
Qed.

(** Sequence numbers of short runs do not wrap. *)
Lemma sequence_small n :
  n ≤ 7 → wrapping_add u32_max (N.of_nat n mod (u32_max + 1)) 1 = N.of_nat (S n).
Proof. intros Hn. by do 8 (destruct n as [|n]; [vm_compute; reflexivity|]); lia. Qed.

(** One more phase: the refs grow by one, the rest follows. *)
Lemma shape_push d0 d1 user refs e e' r p cand active prev after :
  lifecycle_shape d0 d1 user refs e → checked_evidence_ref r = Ok r →
  e' = push_event (rl_with e p cand active prev after (rl_events e)) r →
  phase_rank p = S (phase_rank (rl_phase e)) →
  active = nth (phase_rank p) (expected_active d0 d1) None →
  (cand, prev) = (if updated p then (d1, Some d0) else (d0, None)) → after = user →
  (updated p = true → d0 ≠ d1) →
  lifecycle_shape d0 d1 user (refs ++ [r]) e'.
Proof.
  intros [Hr Hl He Ha Hd _ Hu Hh Hm] Hc -> Hp Hact Hdig Haft Hne.
  assert (length refs ≤ 7) as Hle by (rewrite Hl, <-Hp; destruct p; simpl; lia).
  split; simpl; try done.
  - apply Forall_app. by split; [|repeat constructor].
  - rewrite length_app. simpl. lia.
  - rewrite imap_app, <-He. simpl. unfold event_at at 1. rewrite Nat.add_0_r. do 3 f_equal.
    + unfold len. by rewrite He, length_imap, sequence_small.
    + rewrite Hl, <-Hp. by destruct p.
    + by rewrite Hl, <-Hp, Hact.
  - by destruct Hu.
Qed.

(** Before an update the shape says nothing of the update's digest. *)
Lemma shape_any_update d0 d1 d1' user refs e :
  lifecycle_shape d0 d1 user refs e → updated (rl_phase e) = false →
  lifecycle_shape d0 d1' user refs e.
Proof.
  intros [Hr Hl He Ha Hd Hn Hu Hh Hm] Hup.
  split; try done; [|by destruct (rl_phase e)|by rewrite Hup in Hd |- *|by rewrite Hup].
  rewrite He. apply imap_ext. intros i r Hi%lookup_lt_Some.
  assert (i < 3) as Hi3 by (rewrite Hl in Hi; destruct (rl_phase e); simpl in *; lia || done).
  unfold event_at. by do 3 (destruct i as [|i]; [done|]); lia.
Qed.

(** The last two steps of every operation: the reference is checked, the phase
    recorded. *)
Lemma shape_step d0 d1 user refs e r p cand active prev after e' :
  lifecycle_shape d0 d1 user refs e →
  (let? r' := checked_evidence_ref r in
   Ok (push_event (rl_with e p cand active prev after (rl_events e)) r')) = Ok e' →
  phase_rank p = S (phase_rank (rl_phase e)) →
  active = nth (phase_rank p) (expected_active d0 d1) None →
  (cand, prev) = (if updated p then (d1, Some d0) else (d0, None)) → after = user →
  (updated p = true → d0 ≠ d1) →
  ∃ d1' refs', lifecycle_shape d0 d1' user refs' e'.
Proof.
  intros Hs Hop ?????. destruct (checked_evidence_ref r) as [r'|] eqn:Hr; [|done].
  injection Hop as <-. exists d1, (refs ++ [r']).
  eapply shape_push; eauto. by eapply checked_idem.
Qed.

Lemma apply_op_shape d0 d1 user refs e op e' :
  lifecycle_shape d0 d1 user refs e → apply_op e op = Ok e' →
  ∃ d1' refs', lifecycle_shape d0 d1' user refs' e'.
Proof.
  intros Hs Hop. pose proof Hs as [_ _ _ Hact Hdig Hne [Hub Hua] _ _].
  destruct op as [r|r|u r|r|r|r|o r]; simpl in Hop;
    unfold install, verify_first_run, record_update_failure, repair, rl_transition, stage_update,
      rollback, uninstall_preserving_user_data in Hop;
    next_check Hop; bool_to_prop;
    match goal with H : rl_phase e = _ |- _ => rewrite H in Hact, Hdig, Hne; rename H into Hphase end;
    simpl in Hact, Hdig, Hne; injection Hdig as Hc Hp.
  3: { eapply (shape_step d0 u); [by eapply shape_any_update; [|rewrite Hphase]|exact Hop|..];
    simpl; try congruence. by rewrite Hphase. }
  4: rewrite Hp in Hop; simpl in Hop.
  all: eapply shape_step; [exact Hs|exact Hop|..]; simpl; first [congruence|by rewrite Hphase|done].
Qed.

Lemma run_ops_shape d0 d1 user refs e ops :
  lifecycle_shape d0 d1 user refs e →
  ∃ d1' refs', lifecycle_shape d0 d1' user refs' (run_ops e ops).
Proof.
  revert d1 refs e. induction ops as [|op ops IH]; intros d1 refs e Hs; simpl; [by eauto|].
  destruct (apply_op e op) as [e'|] eqn:Hop; [|by eapply IH].
  destruct (apply_op_shape _ _ _ _ _ _ _ Hs Hop) as (d1' & refs' & Hs'). by eapply IH.
Qed.

Lemma rl_new_shape a m d0 user r e :
  rl_new a m d0 user r = Ok e → ∃ r', lifecycle_shape d0 d0 user [r'] e.
Proof.
  unfold rl_new. destruct (checked_evidence_ref r) as [r'|] eqn:Hr; [|done]. intros [= <-].
  exists r'. split; simpl; try done; [|by destruct m].
  constructor; [|done]. by eapply checked_idem.
Qed.

(** ** Complete evidence *)

Lemma events_off_false i phases active events :
  i + length events ≤ 8 →
  events_off (N.of_nat i) phases active events = false ↔
  ∀ k event phase digest,
    events !! k = Some event → phases !! k = Some phase → active !! k = Some digest →
    event = {| le_sequence := N.of_nat (S (i + k)); le_phase := phase;
               le_active_artifact_set_digest := digest;
               le_evidence_ref := le_evidence_ref event |} ∧
    is_err (checked_evidence_ref (le_evidence_ref event)) = false.
Proof.
  revert i phases active. induction events as [|ev events IH]; intros i phases active Hlen.
  { split; [|done]. by intros _ [|k] ??? Hk. }
  destruct phases as [|ph phases]; [split; [|done]; by intros _ [|k] ???? Hk|].
  destruct active as [|ac active]; [split; [|done]; by intros _ [|k] ????? Hk|].
  cbn [events_off]. simpl in Hlen. rewrite sequence_small by lia.
  replace (N.of_nat i + 1)%N with (N.of_nat (S i)) by lia.
  rewrite orb_false_iff, IH by lia. split.
  - intros [Hev Hrest] [|k] event phase digest; simpl; [|intros ???;
      rewrite <-Nat.add_succ_comm; by eapply Hrest].
    intros [= <-] [= <-] [= <-]. bool_to_prop. rewrite Nat.add_0_r.
    split; [|done]. destruct ev; simpl in *. by subst.
  - intros Hall. split.
    + destruct (Hall 0 ev ph ac) as [Hev Herr]; [done..|].
      rewrite Herr. rewrite Hev.
      cbn [le_sequence le_phase le_active_artifact_set_digest]. rewrite Nat.add_0_r, N.eqb_refl.
      by rewrite !bool_decide_eq_true_2.
    + intros k event phase digest H1 H2 H3. rewrite Nat.add_succ_comm.
      by apply (Hall (S k)).
Qed.

Lemma complete_events d0 d1 events :
  length events = 8 →
  events_off 0 expected_phases (expected_active d0 d1) events = false ↔
  events = imap (event_at d0 d1) (map le_evidence_ref events) ∧
  Forall (λ r, is_err (checked_evidence_ref r) = false) (map le_evidence_ref events).
Proof.
  intros Hlen. rewrite (events_off_false 0) by lia.
  assert (∀ k event, events !! k = Some event →
    expected_phases !! k = Some (nth k expected_phases Uninstalled) ∧
    expected_active d0 d1 !! k = Some (nth k (expected_active d0 d1) None)) as Hat.
  { intros k event Hk%lookup_lt_Some. rewrite Hlen in Hk.
    by do 8 (destruct k as [|k]; [done|]); lia. }
  split.
  - intros Hall. split.
    + apply list_eq. intros k. rewrite list_lookup_imap, list_lookup_fmap.
      destruct (events !! k) as [event|] eqn:Hk; simpl; [|done].
      destruct (Hat k event Hk). f_equal. by eapply Hall.
    + apply Forall_map, Forall_lookup. intros k event Hk. destruct (Hat k event Hk).
      by eapply Hall.
  - intros [Heq Hok] k event phase digest Hk Hp Hd. destruct (Hat k event Hk) as [Hp' Hd'].
    rewrite Hp' in Hp. rewrite Hd' in Hd. injection Hp as <-. injection Hd as <-.
    apply Forall_map in Hok. rewrite Forall_lookup in Hok. split; [|by eapply Hok].
    pose proof Hk as Hk2. rewrite Heq, list_lookup_imap, list_lookup_fmap, Hk in Hk2.
    by injection Hk2.
Qed.

Lemma checked_refs_ok refs :
  Forall (λ r, checked_evidence_ref r = Ok r) refs →
  Forall (λ r, is_err (checked_evidence_ref r) = false) refs.
Proof. intros Hr. eapply Forall_impl; [exact Hr|]. by intros r ->. Qed.

Lemma le_refs_of_shape d0 d1 refs :
  map le_evidence_ref (imap (event_at d0 d1) refs) = refs.
Proof.
  apply list_eq. intros k. rewrite list_lookup_fmap, list_lookup_imap. by destruct (refs !! k).
Qed.

Lemma shape_complete d0 d1 user refs e :
  lifecycle_shape d0 d1 user refs e → rl_phase e = Uninstalled → validate_complete e = Ok tt.
Proof.
  intros [Hr Hl He Ha Hd _ [Hub Hua] [Hid Hv] Hm] Hp. unfold validate_complete.
  rewrite Hp in Hl, Ha, Hd. simpl in Hl, Ha, Hd. injection Hd as Hc Hprev.
  rewrite Hprev, Hid, Hv, Hp, Ha, Hub, Hua, Hc, !String.eqb_refl.
  assert (length (rl_events e) = 8) as Hlen by by rewrite He, length_imap.
  assert (events_off 0 expected_phases (expected_active d0 d1) (rl_events e) = false) as ->.
  { apply complete_events; [done|]. rewrite He, le_refs_of_shape. split; [done|].
    by apply checked_refs_ok. }
  unfold len. rewrite Hlen. rewrite bool_decide_eq_true_2 by done.
  destruct (rl_execution_mode e), Hm as [-> ->]; reflexivity.
Qed.

(** In every sequence of lifecycle operations on new evidence, refused
    operations included, the evidence passes [validate_complete] exactly when
    its phase is [Uninstalled], and the user data digest is then, and at every
    phase, the one the lifecycle started with. *)
Theorem lifecycle_runs_complete architecture mode candidate user evidence_ref e0 ops
    (Hnew : rl_new architecture mode candidate user evidence_ref = Ok e0) :
  let e := run_ops e0 ops in
  (validate_complete e = Ok tt ↔ rl_phase e = Uninstalled) ∧
  rl_user_data_digest_before e = user ∧ rl_user_data_digest_after e = user.
Proof.
  intros e. destruct (rl_new_shape _ _ _ _ _ _ Hnew) as [r' Hs0].
  destruct (run_ops_shape _ _ _ _ _ ops Hs0) as (d1 & refs & Hs). fold e in Hs.
  split; [|by destruct Hs]. split; [|by eapply shape_complete].
  unfold validate_complete. destruct (rl_previous_artifact_set_digest e); [|done].
  intros Hv. next_check Hv. by bool_to_prop.
Qed.

(** The operations that leave the given evidence. *)
Definition replay (d1 user : string) (refs : list string) : list lifecycle_op :=
  match refs with
  | [r1; r2; r3; r4; r5; r6; r7] =>
      [OpInstall r1; OpFirstRun r2; OpStageUpdate d1 r3; OpUpdateFailure r4; OpRollback r5;
       OpRepair r6; OpUninstall user r7]
  | _ => []
  end.

(** The fields [validate_complete] does not determine. *)
Definition canonical_evidence (e : ReleaseLifecycleEvidence) : Prop :=
  rl_limitations e = match rl_execution_mode e with
    | NativeIsolated => [] | FakeModel => ["native_unverified"]
    end ∧
  Forall (λ event, trim (le_evidence_ref event) = le_evidence_ref event) (rl_events e) ∧
  rl_previous_artifact_set_digest e ≠ Some (rl_candidate_artifact_set_digest e).

Lemma checked_trimmed r :
  is_err (checked_evidence_ref r) = false → trim r = r → checked_evidence_ref r = Ok r.
Proof.
  unfold checked_evidence_ref. cbv zeta. intros He Ht. rewrite Ht in He |- *.
  by destruct (_ || _).
Qed.

Lemma run_ops_step e op ops e' :
  apply_op e op = Ok e' → run_ops e (op :: ops) = run_ops e' ops.
Proof. intros Hop. unfold run_ops. simpl. by rewrite Hop. Qed.

(** One operation that its phase allows, with the reference that the context
    says is accepted. *)
Ltac replay_step d0 d1 :=
  cbv [apply_op install verify_first_run stage_update record_update_failure rollback repair
    uninstall_preserving_user_data rl_transition];
  lazymatch goal with H : Some d0 ≠ Some d1 |- _ =>
    cbn [rl_phase rl_active_artifact_set_digest rl_previous_artifact_set_digest
         rl_user_data_digest_before]; rewrite ?(bool_decide_eq_false_2 _ H), ?String.eqb_refl end;
  rewrite ?bool_decide_eq_true_2 by done; cbn [negb orb ok_or];
  match goal with H : checked_evidence_ref ?r = Ok ?r |- context [checked_evidence_ref ?r] =>
    rewrite H end;
  lazy; reflexivity.

Lemma replay_spec arch mode verif d0 d1 user refs
    (Hlen : length refs = 8) (Hrefs : Forall (λ r, checked_evidence_ref r = Ok r) refs)
    (Hne : Some d0 ≠ Some d1)
    (Hmode : match mode with
      | NativeIsolated => verif = NativeVerified | FakeModel => verif = NativeUnverified
      end) :
  ∃ r0 refs' e0, rl_new arch mode d0 user r0 = Ok e0 ∧
    run_ops e0 (replay d1 user refs')
    = {| rl_schema_id := RELEASE_LIFECYCLE_EVIDENCE_SCHEMA_ID; rl_schema_version := 1;
         rl_architecture := arch; rl_execution_mode := mode; rl_runtime_verification := verif;
         rl_phase := Uninstalled; rl_candidate_artifact_set_digest := d1;
         rl_active_artifact_set_digest := None; rl_previous_artifact_set_digest := Some d0;
         rl_user_data_digest_before := user; rl_user_data_digest_after := user;
         rl_events := imap (event_at d0 d1) refs;
         rl_limitations := match mode with
           | NativeIsolated => [] | FakeModel => ["native_unverified"]
           end |}.
Proof.
  destruct refs as [|r0 refs]; [done|]. exists r0, refs.
  do 7 (destruct refs as [|? refs]; [done|]). destruct refs; [|done].
  repeat match goal with H : Forall _ (_ :: _) |- _ => apply Forall_cons in H as [? H] end.
  unfold rl_new. match goal with H : checked_evidence_ref r0 = _ |- _ => rewrite H; clear H end.
  eexists. split; [reflexivity|]. cbn [replay].
  repeat (erewrite run_ops_step; [|by replay_step d0 d1]).
  destruct mode; rewrite Hmode; reflexivity.
Qed.

(** C36: the completeness check is sound for the lifecycle itself: evidence it
    accepts, with the canonical limitations, trimmed references and an update
    digest that is not the previous one, is the result of installing, running,
    updating, failing, rolling back, repairing and uninstalling from new
    evidence, in that order. *)
Theorem complete_evidence_is_a_run e previous
    (Hcomplete : validate_complete e = Ok tt)
    (Hprevious : rl_previous_artifact_set_digest e = Some previous)
    (Hcanonical : canonical_evidence e) :
  ∃ r0 refs e0,
    rl_new (rl_architecture e) (rl_execution_mode e) previous (rl_user_data_digest_before e) r0
      = Ok e0 ∧
    run_ops e0 (replay (rl_candidate_artifact_set_digest e) (rl_user_data_digest_before e) refs)
      = e.
Proof.
  destruct Hcanonical as (Hlim & Htrim & Hne). unfold validate_complete in Hcomplete.
  rewrite Hprevious in Hcomplete, Hne. next_check Hcomplete. bool_to_prop.
  destruct e as [id ver arch mode verif phase cand active prev before after events lims].
  simpl in *. subst. destruct active; [done|].
  assert (length events = 8) as Hlen.
  { match goal with H : len events = _ |- _ => unfold len in H; simpl in H; lia end. }
  match goal with H : events_off _ _ _ _ = false |- _ =>
    apply complete_events in H as [Hev Hok]; [|done] end.
  remember (map le_evidence_ref events) as refs eqn:Hrefs.
  assert (Forall (λ r, checked_evidence_ref r = Ok r) refs) as Hchecked.
  { subst refs. rewrite Forall_map in Hok |- *. rewrite Forall_forall in Htrim, Hok |- *.
    intros ev Hin. apply checked_trimmed; auto. }
  assert (length refs = 8) as Hlen' by (subst refs; by rewrite length_map).
  clear Hrefs Htrim Hok Hlen.
  subst events. apply replay_spec; [done..|]. by destruct mode; bool_to_prop.
Qed.

(** ** Witnesses *)

Definition sample_refs : list string := ["e1"; "e2"; "e3"; "e4"; "e5"; "e6"; "e7"].
Definition sample_new : result ReleaseLifecycleEvidence ReleaseError :=
  rl_new X64 FakeModel "d0" "user" " e0 ".
Definition sample_start : ReleaseLifecycleEvidence :=
  match sample_new with
  | Ok e => e
  | Err _ => {| rl_schema_id := EmptyString; rl_schema_version := 0; rl_architecture := X64;
      rl_execution_mode := FakeModel; rl_runtime_verification := VerificationFailed;
      rl_phase := NotInstalled; rl_candidate_artifact_set_digest := EmptyString;
      rl_active_artifact_set_digest := None; rl_previous_artifact_set_digest := None;
      rl_user_data_digest_before := EmptyString; rl_user_data_digest_after := EmptyString;
      rl_events := []; rl_limitations := [] |}
  end.
Definition sample_ops : list lifecycle_op :=
  OpRollback "early" :: replay "d1" "user" sample_refs.
Definition sample_done : ReleaseLifecycleEvidence := run_ops sample_start sample_ops.

Lemma lifecycle_runs_complete_witness :
  sample_new = Ok sample_start ∧ validate_complete sample_done = Ok tt.
Proof.
  assert (sample_new = Ok sample_start) as Hnew by (vm_compute; reflexivity).
  split; [exact Hnew|].
  apply (proj1 (lifecycle_runs_complete X64 FakeModel "d0" "user" " e0 " sample_start sample_ops
    Hnew)). vm_compute. reflexivity.
Defined.

Lemma complete_evidence_is_a_run_witness :
  validate_complete sample_done = Ok tt ∧
  ∃ r0 refs e0,
    rl_new (rl_architecture sample_done) (rl_execution_mode sample_done) "d0"
      (rl_user_data_digest_before sample_done) r0 = Ok e0 ∧
    run_ops e0 (replay (rl_candidate_artifact_set_digest sample_done)
      (rl_user_data_digest_before sample_done) refs) = sample_done.
Proof.
  assert (validate_complete sample_done = Ok tt) as Hc by (vm_compute; reflexivity).
  split; [exact Hc|]. apply (complete_evidence_is_a_run sample_done "d0" Hc).
  - vm_compute. reflexivity.
  - split; [vm_compute; reflexivity|].
    split; apply (bool_decide_unpack _); vm_compute; exact I.
Defined.
