(* ===== verification/ExternalAnalysis.v ===== *)
(** * External analysis evidence

    Models [crates/foundation/star-contracts/src/external_analysis.rs]: the
    sealed evidence of a run of an external analyser and the observations made
    on it (coverage, flaky tests, compatibility, architecture rules, supply
    chain, reproducibility, runtime safety, near clones), with the validation
    of each.  [CompatibilityClass] is of [development_v2.rs] and
    [ExternalFreshness] of [maintenance_v2.rs]. *)
From S2P Require Import Prelude Canonical Contracts Evidence.

Definition EXTERNAL_ANALYSIS_EVIDENCE_V1_SCHEMA_ID : string := "star.external-analysis-evidence".
Definition COVERAGE_OBSERVATION_V1_SCHEMA_ID : string := "star.coverage-observation".
Definition FLAKY_TEST_OBSERVATION_V1_SCHEMA_ID : string := "star.flaky-test-observation".
Definition REPRODUCIBILITY_VERIFICATION_REPORT_V1_SCHEMA_ID : string :=
  "star.reproducibility-verification-report".
Definition RUNTIME_SAFETY_OBSERVATION_V1_SCHEMA_ID : string := "star.runtime-safety-observation".
Definition NEAR_CLONE_OBSERVATION_V1_SCHEMA_ID : string := "star.near-clone-observation".

Inductive ExternalAnalysisContractError :=
| InvalidEvidence | InvalidArtifact | UnavailableClaim | MissingExecutionIdentity
| UnstableNormalization | Fingerprint | InvalidCoverage | UnstableBranchGate
| InvalidCoverageGate | InvalidFlakyObservation | InvalidFlakyClassification
| InvalidQuarantine | InventedProviderDetail | InvalidArchitectureRule
| InvalidSupplyChainObservation | UnreviewedNotAffected | CrossSubjectEvidence
| InvalidReproducibility | InvalidRuntimeSafety | InvalidNearClone.

(** ** Evidence *)

Inductive ExternalAnalysisCompleteness :=
| Complete | Partial | Unavailable | Unverified | TimedOut | Cancelled | Flaky | Failed.

Inductive ProtocolStability := Stable | Unstable | HumanText.
Inductive ProtocolDetailLevel := Structured | ExitClassification | RawOnly.

#[global] Instance ExternalAnalysisContractError_eq_dec : EqDecision ExternalAnalysisContractError.
Proof. solve_decision. Defined.
#[global] Instance ExternalAnalysisCompleteness_eq_dec : EqDecision ExternalAnalysisCompleteness.
Proof. solve_decision. Defined.
#[global] Instance ProtocolStability_eq_dec : EqDecision ProtocolStability.
Proof. solve_decision. Defined.
#[global] Instance ProtocolDetailLevel_eq_dec : EqDecision ProtocolDetailLevel.
Proof. solve_decision. Defined.

#[global] Instance ExternalAnalysisCompleteness_to_json : ToJson ExternalAnalysisCompleteness := λ c,
  JStr match c with
       | Complete => "complete" | Partial => "partial" | Unavailable => "unavailable"
       | Unverified => "unverified" | TimedOut => "timed_out" | Cancelled => "cancelled"
       | Flaky => "flaky" | Failed => "failed"
       end.
#[global] Instance ProtocolStability_to_json : ToJson ProtocolStability := λ s,
  JStr match s with Stable => "stable" | Unstable => "unstable" | HumanText => "human_text" end.
#[global] Instance ProtocolDetailLevel_to_json : ToJson ProtocolDetailLevel := λ d,
  JStr match d with
       | Structured => "structured" | ExitClassification => "exit_classification"
       | RawOnly => "raw_only"
       end.

Definition is_terminal_success_evidence (c : ExternalAnalysisCompleteness) : bool :=
  bool_decide (c = Complete).

Record ExternalAnalysisProtocolV1 := {
  ep_protocol_id : string;
  ep_protocol_version : string;
  ep_media_type : string;
  ep_stability : ProtocolStability;
  ep_detail_level : ProtocolDetailLevel;
  ep_machine_readable : bool;
  ep_schema_uri : option string
}.

#[global] Instance ExternalAnalysisProtocolV1_to_json : ToJson ExternalAnalysisProtocolV1 := λ p,
  JObj (present
    [field "protocol_id" (ep_protocol_id p); field "protocol_version" (ep_protocol_version p);
     field "media_type" (ep_media_type p); field "stability" (ep_stability p);
     field "detail_level" (ep_detail_level p);
     field "machine_readable" (ep_machine_readable p);
     opt_field "schema_uri" (ep_schema_uri p)]).

Definition application_normalization_eligible (p : ExternalAnalysisProtocolV1) : bool :=
  bool_decide (ep_stability p = Stable) && ep_machine_readable p
  && bool_decide (ep_detail_level p = Structured).

(** [exit_code] is an [i32]. *)
Record ExternalAnalysisEvidenceV1 := {
  ee_schema_id : string;
  ee_schema_version : N;
  ee_evidence_id : string;
  ee_project_id : ProjectId;
  ee_provider_id : string;
  ee_provider_version : option string;
  ee_executable_sha256 : option Sha256Hash;
  ee_protocol : ExternalAnalysisProtocolV1;
  ee_config_fingerprint : Sha256Hash;
  ee_input_fingerprint : Sha256Hash;
  ee_source_fingerprint : Sha256Hash;
  ee_environment_fingerprint : Sha256Hash;
  ee_raw_artifact_ref : option ArtifactRef;
  ee_normalized_artifact_ref : option ArtifactRef;
  ee_exit_code : option Z;
  ee_started_at : DateTime;
  ee_completed_at : DateTime;
  ee_completeness : ExternalAnalysisCompleteness;
  ee_limitations : list string;
  ee_content_fingerprint : Sha256Hash
}.

(** ** Bounded texts *)

Definition ea_bounded_text (value : string) (max : N) : bool :=
  negb (blank value) && (slen value <=? max)%N && negb (contains_char NUL value).

Definition ea_bounded_token (value : string) (max : N) : bool :=
  negb (is_empty value) && (slen value <=? max)%N && negb (contains_char NUL value)
  && negb (has_whitespace value).

Definition bounded_limitations (values : list string) : bool :=
  (len values <=? 64)%N && forallb (λ value, ea_bounded_text value 2000) values.

Definition bounded_protocol (p : ExternalAnalysisProtocolV1) : bool :=
  ea_bounded_token (ep_protocol_id p) 128
  && ea_bounded_token (ep_protocol_version p) 128
  && ea_bounded_token (ep_media_type p) 256
  && is_none_or (ep_schema_uri p) (λ value, ea_bounded_text value 2048)
  && (ep_machine_readable p || bool_decide (ep_detail_level p = RawOnly))
  && (negb (bool_decide (ep_stability p = HumanText)) || negb (ep_machine_readable p)).

Section evidence.
Context `{Platform}.

Definition ee_payload (e : ExternalAnalysisEvidenceV1) : Json := JObj
  [("schema_id", to_json (ee_schema_id e));
   ("schema_version", to_json (ee_schema_version e));
   ("evidence_id", to_json (ee_evidence_id e));
   ("project_id", to_json (ee_project_id e));
   ("provider_id", to_json (ee_provider_id e));
   ("provider_version", to_json (ee_provider_version e));
   ("executable_sha256", to_json (ee_executable_sha256 e));
   ("protocol", to_json (ee_protocol e));
   ("config_fingerprint", to_json (ee_config_fingerprint e));
   ("input_fingerprint", to_json (ee_input_fingerprint e));
   ("source_fingerprint", to_json (ee_source_fingerprint e));
   ("environment_fingerprint", to_json (ee_environment_fingerprint e));
   ("raw_artifact_ref", to_json (ee_raw_artifact_ref e));
   ("normalized_artifact_ref", to_json (ee_normalized_artifact_ref e));
   ("exit_code", to_json (ee_exit_code e));
   ("started_at", JStr (rfc3339 (ee_started_at e)));
   ("completed_at", JStr (rfc3339 (ee_completed_at e)));
   ("completeness", to_json (ee_completeness e));
   ("limitations", to_json (ee_limitations e))].

Definition expected_fingerprint (e : ExternalAnalysisEvidenceV1) :
    result Sha256Hash ExternalAnalysisContractError :=
  map_err (λ _, Fingerprint) (canonical_sha256 (ee_payload e)).

(** The artifact is valid and of the project. *)
Definition check_artifact (artifact : option ArtifactRef) (project_id : ProjectId) :
    result unit ExternalAnalysisContractError :=
  match artifact with
  | None => Ok tt
  | Some a =>
      check negb (ArtifactRef_validate a) else InvalidArtifact in
      check negb (bool_decide (ar_project_id a = Some project_id)) else CrossSubjectEvidence in
      Ok tt
  end.

(** The rest of the [normalized_artifact_ref] block. *)
Definition check_normalized (e : ExternalAnalysisEvidenceV1) :
    result unit ExternalAnalysisContractError :=
  match ee_normalized_artifact_ref e with
  | None => Ok tt
  | Some normalized =>
      check negb (application_normalization_eligible (ee_protocol e))
      else UnstableNormalization in
      match ee_raw_artifact_ref e with
      | None => Err InvalidArtifact
      | Some raw =>
          check is_none_or (ar_source_artifact_ref normalized) (λ source,
              negb (String.eqb (ar_artifact_id source) (ar_artifact_id raw))
              || negb (String.eqb (ar_sha256 source) (ar_sha256 raw)))
          else InvalidArtifact in
          Ok tt
      end
  end.

Definition check_execution (e : ExternalAnalysisEvidenceV1) :
    result unit ExternalAnalysisContractError :=
  if bool_decide (ee_completeness e = Unavailable) then
    check is_some (ee_provider_version e) || is_some (ee_executable_sha256 e)
      || is_some (ee_raw_artifact_ref e) || is_some (ee_normalized_artifact_ref e)
      || is_some (ee_exit_code e)
    else UnavailableClaim in
    Ok tt
  else
    check is_none_or (ee_provider_version e) is_empty || is_none (ee_executable_sha256 e)
      || is_none (ee_raw_artifact_ref e)
    else MissingExecutionIdentity in
    Ok tt.

Definition ee_validate (e : ExternalAnalysisEvidenceV1) :
    result unit ExternalAnalysisContractError :=
  check negb (String.eqb (ee_schema_id e) EXTERNAL_ANALYSIS_EVIDENCE_V1_SCHEMA_ID)
    || negb (ee_schema_version e =? 1)%N
    || negb (ea_bounded_token (ee_evidence_id e) 256)
    || negb (ea_bounded_token (ee_provider_id e) 128)
    || is_some_and (ee_provider_version e) (λ version, negb (ea_bounded_token version 256))
    || (ee_completed_at e <? ee_started_at e)%Z
    || negb (bounded_protocol (ee_protocol e))
    || negb (bounded_limitations (ee_limitations e))
    || (negb (is_terminal_success_evidence (ee_completeness e))
        && (len (ee_limitations e) =? 0)%N)
  else InvalidEvidence in
  let? _ := check_artifact (ee_raw_artifact_ref e) (ee_project_id e) in
  let? _ := check_artifact (ee_normalized_artifact_ref e) (ee_project_id e) in
  let? _ := check_normalized e in
  let? _ := check_execution e in
  let? expected := expected_fingerprint e in
  check negb (String.eqb expected (ee_content_fingerprint e)) else Fingerprint in
  Ok tt.

Definition ee_with_fingerprint (e : ExternalAnalysisEvidenceV1) (fp : Sha256Hash) :
    ExternalAnalysisEvidenceV1 :=
  {| ee_schema_id := ee_schema_id e; ee_schema_version := ee_schema_version e;
     ee_evidence_id := ee_evidence_id e; ee_project_id := ee_project_id e;
     ee_provider_id := ee_provider_id e; ee_provider_version := ee_provider_version e;
     ee_executable_sha256 := ee_executable_sha256 e; ee_protocol := ee_protocol e;
     ee_config_fingerprint := ee_config_fingerprint e;
     ee_input_fingerprint := ee_input_fingerprint e;
     ee_source_fingerprint := ee_source_fingerprint e;
     ee_environment_fingerprint := ee_environment_fingerprint e;
     ee_raw_artifact_ref := ee_raw_artifact_ref e;
     ee_normalized_artifact_ref := ee_normalized_artifact_ref e;
     ee_exit_code := ee_exit_code e; ee_started_at := ee_started_at e;
     ee_completed_at := ee_completed_at e; ee_completeness := ee_completeness e;
     ee_limitations := ee_limitations e; ee_content_fingerprint := fp |}.

Definition ee_seal (e : ExternalAnalysisEvidenceV1) :
    result ExternalAnalysisEvidenceV1 ExternalAnalysisContractError :=
  let? fp := expected_fingerprint e in
  let e := ee_with_fingerprint e fp in
  let? _ := ee_validate e in
  Ok e.

End evidence.

(** ** Sealing *)

Section sealing.
Context `{Platform}.

Lemma ee_payload_with e fp : ee_payload (ee_with_fingerprint e fp) = ee_payload e.
Proof. reflexivity. Qed.

Lemma ee_validate_fingerprint e :
  ee_validate e = Ok tt → expected_fingerprint e = Ok (ee_content_fingerprint e).
Proof.
  intros Hv. unfold ee_validate in Hv. err_cases Hv. bool_to_prop. by subst.
Qed.

(** Sealing is the interface of [Canonical.Sealing]: a sealed evidence seals to
    itself. *)
#[export] Program Instance evidence_sealing :
    Sealing ExternalAnalysisEvidenceV1 ExternalAnalysisContractError := {| seal := ee_seal |}.
Next Obligation.
  intros e e' Hs. unfold ee_seal in *. destruct (expected_fingerprint e) as [fp|] eqn:Hf; [|done].
  destruct (ee_validate _) as [[]|] eqn:Hv in Hs; [|done]. injection Hs as <-.
  unfold expected_fingerprint in *. rewrite ee_payload_with, Hf.
  change (ee_with_fingerprint (ee_with_fingerprint e fp) fp) with (ee_with_fingerprint e fp).
  by rewrite Hv.
Qed.

Lemma ee_validate_sealed e : ee_validate e = Ok tt ↔ sealed e.
Proof.
  unfold sealed, seal. simpl. unfold ee_seal. split.
  - intros Hv. rewrite (ee_validate_fingerprint e Hv).
    replace (ee_with_fingerprint e (ee_content_fingerprint e)) with e by by destruct e.
    by rewrite Hv.
  - destruct (expected_fingerprint e) as [fp|] eqn:Hf; [|done].
    destruct (ee_validate _) as [[]|] eqn:Hv; [|done]. intros Heq. injection Heq as Heq.
    by rewrite <-Heq.
Qed.

(** Sealing and validation of an evidence agree: a sealed evidence
    validates and differs from the draft in the fingerprint alone; an evidence
    validates exactly when sealing it again changes nothing; and two valid
    evidences with one fingerprint have the same content, or two contents with
    one hash are exhibited. *)
Theorem evidence_seals_what_validates :
  (∀ e e', ee_seal e = Ok e' →
     ee_validate e' = Ok tt ∧ e' = ee_with_fingerprint e (ee_content_fingerprint e')) ∧
  (∀ e, ee_validate e = Ok tt ↔ ee_seal e = Ok e) ∧
  (∀ e1 e2, ee_validate e1 = Ok tt → ee_validate e2 = Ok tt →
     ee_content_fingerprint e1 = ee_content_fingerprint e2 →
     ee_payload e1 = ee_payload e2 ∨ collision (ee_payload e1) (ee_payload e2)).
Proof.
  split; [|split; [apply ee_validate_sealed|]].
  - intros e e' Hs. split; [apply ee_validate_sealed; by eapply seal_sealed|].
    unfold ee_seal in Hs. err_cases Hs. by injection Hs as <-.
  - intros e1 e2 H1%ee_validate_fingerprint H2%ee_validate_fingerprint Heq.
    unfold expected_fingerprint, map_err in *.
    destruct (canonical_sha256 (ee_payload e1)) eqn:E1; simplify_eq.
    destruct (canonical_sha256 (ee_payload e2)) eqn:E2; simplify_eq.
    apply (hash_binds _ _ (ee_content_fingerprint e1)); congruence.
Qed.

End sealing.
