(* ===== verification/ExternalObservations.v ===== *)
(** * Observations on external analysis evidence

    The observations of
    [crates/foundation/star-contracts/src/external_analysis.rs] that rest on an
    evidence of [ExternalAnalysis.v]: each derives its verdict again from the
    recorded data and refuses any other. *)
From S2P Require Import Prelude Canonical Toy Contracts Evidence ExternalAnalysis.

Abbreviation Checked := (result unit ExternalAnalysisContractError).

(** ** Data *)

Record BranchCoverageShadowV1 := {
  bs_measured_branches : N;
  bs_covered_branches : N;
  bs_gate_eligible : bool
}.

Inductive CoverageGateStateV1 := GatePass | GateBlock | GateNotApplicable | GateUnverified.

Record CoverageObservationV1 := {
  cv_schema_id : string;
  cv_schema_version : N;
  cv_observation_id : string;
  cv_project_id : ProjectId;
  cv_evidence : ExternalAnalysisEvidenceV1;
  cv_changed_scope_fingerprint : Sha256Hash;
  cv_changed_line_count : N;
  cv_executable_line_count : N;
  cv_covered_executable_line_count : N;
  cv_uncovered_executable_line_count : N;
  cv_excluded_line_count : N;
  cv_line_coverage_basis_points : N;
  cv_required_line_coverage_basis_points : N;
  cv_branch_shadow : option BranchCoverageShadowV1;
  cv_gate_state : CoverageGateStateV1;
  cv_limitations : list string
}.

Inductive TestAttemptOutcomeV1 := AttemptPass | AttemptFail | AttemptTimedOut | AttemptCancelled.

Record TestAttemptObservationV1 := {
  ta_attempt_id : string;
  ta_input_fingerprint : Sha256Hash;
  ta_environment_fingerprint : Sha256Hash;
  ta_outcome : TestAttemptOutcomeV1
}.

Record FlakyQuarantineV1 := {
  fq_owner : string;
  fq_approval_ref : string;
  fq_expires_at : DateTime
}.

Inductive FlakyTestClassificationV1 :=
| StablePass | StableFail | ClassFlaky | Inconclusive | ClassUnavailable.

Record FlakyTestObservationV1 := {
  ft_schema_id : string;
  ft_schema_version : N;
  ft_observation_id : string;
  ft_project_id : ProjectId;
  ft_evidence : ExternalAnalysisEvidenceV1;
  ft_test_id : string;
  ft_input_fingerprint : Sha256Hash;
  ft_environment_fingerprint : Sha256Hash;
  ft_attempts : list TestAttemptObservationV1;
  ft_classification : FlakyTestClassificationV1;
  ft_retry_success_promoted : bool;
  ft_quarantine : option FlakyQuarantineV1;
  ft_limitations : list string
}.

Inductive CompatibilityProviderKindV1 := Buf | Oasdiff | CargoSemverChecks | Libabigail.
Inductive CompatibilityClass := Unchanged | Compatible | Additive | Breaking | UnknownClass.

Record CompatibilityProviderObservationV1 := {
  co_provider_kind : CompatibilityProviderKindV1;
  co_evidence : ExternalAnalysisEvidenceV1;
  co_classification : CompatibilityClass;
  co_machine_detail_count : N;
  co_raw_exit_classification : option string;
  co_limitations : list string
}.

Inductive ArchitectureRuleKindV1 := Layer | AllowedEdge | ForbiddenEdge | DependencyCycle.

Record ArchitectureRuleExceptionV1 := {
  ax_subject : string;
  ax_owner : string;
  ax_approval_ref : string;
  ax_expires_at : DateTime
}.

Record ArchitectureRuleV1 := {
  al_kind : ArchitectureRuleKindV1;
  al_source_layer : string;
  al_target_layer : option string;
  al_exceptions : list ArchitectureRuleExceptionV1
}.

Inductive SupplyChainProviderKindV1 := Sbom | Advisory | License | Vex | Provenance.
Inductive ReachabilityStateV1 := Reachable | NotReachable | ReachabilityUnknown | NotAnalyzed.
Inductive VexStateV1 := Affected | NotAffected | Fixed | UnderInvestigation | VexNone.
Inductive ExternalFreshness := Current | Stale | Expired | FreshnessUnknown | FreshnessUnavailable.

Record AdvisoryFreshnessObservationV1 := {
  af_database_fingerprint : option Sha256Hash;
  af_database_updated_at : option DateTime;
  af_observed_at : DateTime;
  af_maximum_age_seconds : N;
  af_freshness : ExternalFreshness
}.

Record SupplyChainProviderObservationV1 := {
  so_provider_kind : SupplyChainProviderKindV1;
  so_evidence : ExternalAnalysisEvidenceV1;
  so_standards : list string;
  so_license_expressions : list string;
  so_reachability : ReachabilityStateV1;
  so_vex_state : VexStateV1;
  so_advisory_freshness : option AdvisoryFreshnessObservationV1;
  so_reviewed_vex_evidence_ref : option ArtifactRef;
  so_limitations : list string
}.

Record BuildArtifactDigestV1 := {
  bd_logical_name : string;
  bd_sha256 : Sha256Hash
}.

Record IsolatedBuildObservationV1 := {
  ib_root_id : string;
  ib_root_fingerprint : Sha256Hash;
  ib_artifacts : list BuildArtifactDigestV1
}.

Inductive ReproducibilityOutcomeV1 := ReproPass | Mismatch | ReproUnavailable | ReproUnverified.

Record ReproducibilityVerificationReportV1 := {
  rr_schema_id : string;
  rr_schema_version : N;
  rr_report_id : string;
  rr_project_id : ProjectId;
  rr_source_fingerprint : Sha256Hash;
  rr_config_fingerprint : Sha256Hash;
  rr_toolchain_fingerprint : Sha256Hash;
  rr_builds : list IsolatedBuildObservationV1;
  rr_provider_evidence : list ExternalAnalysisEvidenceV1;
  rr_slsa_provenance_ref : option ArtifactRef;
  rr_slsa_subject_bound : bool;
  rr_slsa_materials_bound : bool;
  rr_slsa_builder_bound : bool;
  rr_diffoscope_diagnostic_ref : option ArtifactRef;
  rr_outcome : ReproducibilityOutcomeV1;
  rr_limitations : list string
}.

Inductive RuntimeSafetyProviderKindV1 := Sanitizer | Generator | Doctest | Loom.
Inductive RuntimeSafetyStateV1 :=
| SafetyPass | SafetyFail | SafetyTimedOut | SafetyCancelled | SafetyUnavailable | SafetyUnverified.

Record RuntimeSafetyObservationV1 := {
  rs_schema_id : string;
  rs_schema_version : N;
  rs_observation_id : string;
  rs_project_id : ProjectId;
  rs_provider_kind : RuntimeSafetyProviderKindV1;
  rs_evidence : ExternalAnalysisEvidenceV1;
  rs_target : string;
  rs_project_declares_toolchain_or_test : bool;
  rs_timeout_ms : N;
  rs_cancelled : bool;
  rs_finding_refs : list string;
  rs_state : RuntimeSafetyStateV1;
  rs_limitations : list string
}.

Record NearClonePairV1 := {
  nc_left_subject : string;
  nc_right_subject : string;
  nc_left_fingerprint : Sha256Hash;
  nc_right_fingerprint : Sha256Hash;
  nc_similarity_basis_points : N
}.

Record NearCloneObservationV1 := {
  no_schema_id : string;
  no_schema_version : N;
  no_observation_id : string;
  no_project_id : ProjectId;
  no_source_fingerprint : Sha256Hash;
  no_algorithm : string;
  no_minimum_similarity_basis_points : N;
  no_max_candidates : N;
  no_max_source_bytes : N;
  no_pairs : list NearClonePairV1;
  no_advisory_only : bool;
  no_automatic_patch_set_generated : bool;
  no_limitations : list string
}.

#[global] Instance CoverageGateStateV1_eq_dec : EqDecision CoverageGateStateV1.
Proof. solve_decision. Defined.
#[global] Instance TestAttemptOutcomeV1_eq_dec : EqDecision TestAttemptOutcomeV1.
Proof. solve_decision. Defined.
#[global] Instance FlakyTestClassificationV1_eq_dec : EqDecision FlakyTestClassificationV1.
Proof. solve_decision. Defined.
#[global] Instance CompatibilityClass_eq_dec : EqDecision CompatibilityClass.
Proof. solve_decision. Defined.
#[global] Instance SupplyChainProviderKindV1_eq_dec : EqDecision SupplyChainProviderKindV1.
Proof. solve_decision. Defined.
#[global] Instance ReachabilityStateV1_eq_dec : EqDecision ReachabilityStateV1.
Proof. solve_decision. Defined.
#[global] Instance VexStateV1_eq_dec : EqDecision VexStateV1.
Proof. solve_decision. Defined.
#[global] Instance ExternalFreshness_eq_dec : EqDecision ExternalFreshness.
Proof. solve_decision. Defined.
#[global] Instance BuildArtifactDigestV1_eq_dec : EqDecision BuildArtifactDigestV1.
Proof. solve_decision. Defined.
#[global] Instance ReproducibilityOutcomeV1_eq_dec : EqDecision ReproducibilityOutcomeV1.
Proof. solve_decision. Defined.
#[global] Instance RuntimeSafetyStateV1_eq_dec : EqDecision RuntimeSafetyStateV1.
Proof. solve_decision. Defined.

(** The derived order: by name, then digest. *)
#[global] Instance BuildArtifactDigestV1_cmp : Cmp BuildArtifactDigestV1 :=
  cmp_on (λ a, (bd_logical_name a, bd_sha256 a)).
#[global] Instance BuildArtifactDigestV1_cmp_laws : CmpLaws BuildArtifactDigestV1.
Proof. apply cmp_on_laws. intros [] []; simpl. by intros [= -> ->]. Qed.

Section observations.
Context `{Platform}.

(** ** Coverage *)

(** [u32::try_from]. *)
Definition to_u32 (n : N) : option N := if (n <=? u32_max)%N then Some n else None.

Definition expected_gate (o : CoverageObservationV1) : CoverageGateStateV1 :=
  if negb (is_terminal_success_evidence (ee_completeness (cv_evidence o)))
     || negb (application_normalization_eligible (ee_protocol (cv_evidence o)))
  then GateUnverified
  else if (cv_executable_line_count o =? 0)%N then GateNotApplicable
  else if (cv_required_line_coverage_basis_points o <=? cv_line_coverage_basis_points o)%N
  then GatePass else GateBlock.

Definition expected_basis_points (o : CoverageObservationV1) :
    result N ExternalAnalysisContractError :=
  if (cv_executable_line_count o =? 0)%N then Ok 0%N
  else ok_or (to_u32 (cv_covered_executable_line_count o * 10000 / cv_executable_line_count o))
         InvalidCoverage.

Definition cv_validate (o : CoverageObservationV1) : Checked :=
  let? _ := ee_validate (cv_evidence o) in
  let? classified_line_count :=
    ok_or (checked_add64 (cv_executable_line_count o) (cv_excluded_line_count o))
      InvalidCoverage in
  check negb (String.eqb (cv_schema_id o) COVERAGE_OBSERVATION_V1_SCHEMA_ID)
    || negb (cv_schema_version o =? 1)%N
    || negb (ea_bounded_token (cv_observation_id o) 256)
    || negb (String.eqb (cv_project_id o) (ee_project_id (cv_evidence o)))
    || negb (String.eqb (cv_changed_scope_fingerprint o) (ee_input_fingerprint (cv_evidence o)))
    || (cv_changed_line_count o <? classified_line_count)%N
    || negb (cv_executable_line_count o =? saturating_add u64_max
               (cv_covered_executable_line_count o) (cv_uncovered_executable_line_count o))%N
    || (10000 <? cv_required_line_coverage_basis_points o)%N
    || negb (bounded_limitations (cv_limitations o))
  else InvalidCoverage in
  let? basis_points := expected_basis_points o in
  check negb (basis_points =? cv_line_coverage_basis_points o)%N else InvalidCoverage in
  check is_some_and (cv_branch_shadow o) (λ branch,
      bs_gate_eligible branch || (bs_measured_branches branch <? bs_covered_branches branch)%N)
  else UnstableBranchGate in
  check negb (bool_decide (cv_gate_state o = expected_gate o)) else InvalidCoverageGate in
  Ok tt.

(** ** Flaky tests *)

Definition any_outcome (o : FlakyTestObservationV1) (outcome : TestAttemptOutcomeV1) : bool :=
  existsb (λ attempt, bool_decide (ta_outcome attempt = outcome)) (ft_attempts o).

Definition interrupted (o : FlakyTestObservationV1) : bool :=
  existsb (λ attempt,
    match ta_outcome attempt with AttemptTimedOut | AttemptCancelled => true | _ => false end)
    (ft_attempts o).

Definition expected_classification (o : FlakyTestObservationV1) : FlakyTestClassificationV1 :=
  let pass := any_outcome o AttemptPass in
  let fail := any_outcome o AttemptFail in
  let terminal := is_terminal_success_evidence (ee_completeness (ft_evidence o)) in
  if bool_decide (ee_completeness (ft_evidence o) = Unavailable) then ClassUnavailable
  else if interrupted o || (len (ft_attempts o) =? 0)%N then Inconclusive
  else if pass && fail && (2 <=? len (ft_attempts o))%N then ClassFlaky
  else if negb terminal then Inconclusive
  else if pass && negb fail then StablePass
  else if fail && negb pass then StableFail
  else Inconclusive.

Definition ft_validate (o : FlakyTestObservationV1) : Checked :=
  let? _ := ee_validate (ft_evidence o) in
  check negb (String.eqb (ft_schema_id o) FLAKY_TEST_OBSERVATION_V1_SCHEMA_ID)
    || negb (ft_schema_version o =? 1)%N
    || negb (String.eqb (ft_project_id o) (ee_project_id (ft_evidence o)))
    || negb (String.eqb (ft_input_fingerprint o) (ee_input_fingerprint (ft_evidence o)))
    || negb (String.eqb (ft_environment_fingerprint o)
               (ee_environment_fingerprint (ft_evidence o)))
    || negb (ea_bounded_token (ft_observation_id o) 256)
    || negb (ea_bounded_text (ft_test_id o) 1024)
    || ft_retry_success_promoted o
    || (256 <? len (ft_attempts o))%N
    || any_or_repeated (λ attempt,
           negb (ea_bounded_token (ta_attempt_id attempt) 256)
           || negb (String.eqb (ta_input_fingerprint attempt) (ft_input_fingerprint o))
           || negb (String.eqb (ta_environment_fingerprint attempt)
                      (ft_environment_fingerprint o)))
         ta_attempt_id [] (ft_attempts o)
    || negb (bounded_limitations (ft_limitations o))
    || (bool_decide (ee_completeness (ft_evidence o) = Unavailable)
        && negb (len (ft_attempts o) =? 0)%N)
  else InvalidFlakyObservation in
  check is_some_and (ft_quarantine o) (λ quarantine,
      negb (ea_bounded_text (fq_owner quarantine) 256)
      || negb (ea_bounded_text (fq_approval_ref quarantine) 256)
      || (fq_expires_at quarantine <=? ee_completed_at (ft_evidence o))%Z)
  else InvalidQuarantine in
  check negb (bool_decide (ft_classification o = expected_classification o))
  else InvalidFlakyClassification in
  check is_some (ft_quarantine o) && negb (bool_decide (ft_classification o = ClassFlaky))
  else InvalidQuarantine in
  Ok tt.

(** ** Compatibility *)

Definition compatibility_provider_matches (kind : CompatibilityProviderKindV1)
    (provider_id : string) : bool :=
  String.eqb provider_id
    match kind with
    | Buf => "buf" | Oasdiff => "oasdiff" | CargoSemverChecks => "cargo-semver-checks"
    | Libabigail => "libabigail"
    end.

(** The [match] on the detail level. *)
Definition check_detail_level (o : CompatibilityProviderObservationV1) : Checked :=
  let protocol := ee_protocol (co_evidence o) in
  match ep_detail_level protocol with
  | Structured =>
      check negb (application_normalization_eligible protocol) else UnstableNormalization in
      Ok tt
  | ExitClassification =>
      check negb (bool_decide (ep_stability protocol = Stable))
        || negb (ep_machine_readable protocol)
        || is_none (co_raw_exit_classification o)
        || is_none (ee_exit_code (co_evidence o))
      else InventedProviderDetail in
      Ok tt
  | RawOnly =>
      check negb (bool_decide (co_classification o = UnknownClass))
        || negb (co_machine_detail_count o =? 0)%N
        || is_some (co_raw_exit_classification o)
      else InventedProviderDetail in
      Ok tt
  end.

Definition co_validate (o : CompatibilityProviderObservationV1) : Checked :=
  let? _ := ee_validate (co_evidence o) in
  check negb (compatibility_provider_matches (co_provider_kind o) (ee_provider_id (co_evidence o)))
    || (1000000 <? co_machine_detail_count o)%N
    || is_some_and (co_raw_exit_classification o) (λ value, negb (ea_bounded_token value 256))
    || negb (bounded_limitations (co_limitations o))
    || (negb (bool_decide (ep_detail_level (ee_protocol (co_evidence o)) = Structured))
        && negb (co_machine_detail_count o =? 0)%N)
  else InventedProviderDetail in
  let? _ := check_detail_level o in
  check negb (is_terminal_success_evidence (ee_completeness (co_evidence o)))
    && negb (bool_decide (co_classification o = UnknownClass))
  else CrossSubjectEvidence in
  Ok tt.

(** ** Architecture rules *)

Definition al_validate (r : ArchitectureRuleV1) (observed_at : DateTime) : Checked :=
  let target_shape_valid :=
    match al_kind r with
    | Layer => is_none (al_target_layer r)
    | AllowedEdge | ForbiddenEdge | DependencyCycle => is_some (al_target_layer r)
    end in
  check negb (ea_bounded_token (al_source_layer r) 256)
    || negb target_shape_valid
    || is_some_and (al_target_layer r) (λ target, negb (ea_bounded_token target 256))
    || (1024 <? len (al_exceptions r))%N
    || any_or_repeated (λ exception,
           negb (ea_bounded_text (ax_subject exception) 1024)
           || negb (ea_bounded_text (ax_owner exception) 256)
           || negb (ea_bounded_text (ax_approval_ref exception) 256)
           || (ax_expires_at exception <=? observed_at)%Z)
         ax_subject [] (al_exceptions r)
  else InvalidArchitectureRule in
  Ok tt.

(** ** Supply chain *)

(** [signed_duration_since(..).num_seconds()] of a later instant, whole
    seconds; it is not negative, so [u64::try_from] keeps it. *)
Definition age_seconds (updated_at observed_at : DateTime) : N :=
  Z.to_N ((observed_at - updated_at) / 10 ^ 9).

Definition expected_freshness (f : AdvisoryFreshnessObservationV1)
    (evidence : ExternalAnalysisEvidenceV1) :
    result ExternalFreshness ExternalAnalysisContractError :=
  if bool_decide (ee_completeness evidence = Unavailable) then
    check is_some (af_database_fingerprint f) || is_some (af_database_updated_at f)
    else UnavailableClaim in
    Ok FreshnessUnavailable
  else
    check is_none (af_database_fingerprint f) else InvalidSupplyChainObservation in
    match af_database_updated_at f with
    | Some updated_at =>
        if (updated_at <=? af_observed_at f)%Z
        then Ok (if (age_seconds updated_at (af_observed_at f) <=? af_maximum_age_seconds f)%N
                 then Current else Stale)
        else Err InvalidSupplyChainObservation
    | None => Ok FreshnessUnknown
    end.

Definition af_validate (f : AdvisoryFreshnessObservationV1)
    (evidence : ExternalAnalysisEvidenceV1) : Checked :=
  check (af_maximum_age_seconds f =? 0)%N
    || (365 * 24 * 60 * 60 <? af_maximum_age_seconds f)%N
    || (af_observed_at f <? ee_started_at evidence)%Z
    || (ee_completed_at evidence <? af_observed_at f)%Z
  else InvalidSupplyChainObservation in
  let? expected := expected_freshness f evidence in
  check negb (bool_decide (af_freshness f = expected)) else InvalidSupplyChainObservation in
  Ok tt.

(** The [match] on the provider kind and the freshness. *)
Definition check_freshness (o : SupplyChainProviderObservationV1) : Checked :=
  match so_provider_kind o, so_advisory_freshness o with
  | Advisory, Some freshness => af_validate freshness (so_evidence o)
  | Advisory, None | _, Some _ => Err InvalidSupplyChainObservation
  | _, None => Ok tt
  end.

Definition so_validate (o : SupplyChainProviderObservationV1) : Checked :=
  let? _ := ee_validate (so_evidence o) in
  check negb (application_normalization_eligible (ee_protocol (so_evidence o)))
  else UnstableNormalization in
  check (64 <? len (so_standards o))%N
    || negb (distinct_count (so_standards o) =? len (so_standards o))%N
    || existsb (λ value, negb (ea_bounded_text value 256)) (so_standards o)
    || (4096 <? len (so_license_expressions o))%N
    || negb (distinct_count (so_license_expressions o) =? len (so_license_expressions o))%N
    || existsb (λ value, negb (ea_bounded_text value 1024)) (so_license_expressions o)
    || negb (bounded_limitations (so_limitations o))
  else InvalidSupplyChainObservation in
  let? _ := check_artifact (so_reviewed_vex_evidence_ref o) (ee_project_id (so_evidence o)) in
  let? _ := check_freshness o in
  check bool_decide (so_vex_state o = NotAffected)
    && (negb (is_terminal_success_evidence (ee_completeness (so_evidence o)))
        || is_none (so_reviewed_vex_evidence_ref o)
        || match so_reachability o with
           | ReachabilityUnknown | NotAnalyzed => true
           | _ => false
           end)
  else UnreviewedNotAffected in
  Ok tt.

(** ** Reproducibility *)

(** The loop over the provider evidence, with the set of the identities seen. *)
Fixpoint check_provider_evidence (r : ReproducibilityVerificationReportV1)
    (seen : list (string * string)) (l : list ExternalAnalysisEvidenceV1) : Checked :=
  match l with
  | [] => Ok tt
  | evidence :: l =>
      let? _ := ee_validate evidence in
      check negb (application_normalization_eligible (ee_protocol evidence))
      else UnstableNormalization in
      check negb (String.eqb (ee_project_id evidence) (rr_project_id r))
        || negb (String.eqb (ee_source_fingerprint evidence) (rr_source_fingerprint r))
        || negb (String.eqb (ee_config_fingerprint evidence) (rr_config_fingerprint r))
        || mem (ee_provider_id evidence, ee_evidence_id evidence) seen
      else CrossSubjectEvidence in
      check_provider_evidence r ((ee_provider_id evidence, ee_evidence_id evidence) :: seen) l
  end.

Definition carries (provenance : ArtifactRef) (evidence : ExternalAnalysisEvidenceV1) : bool :=
  bool_decide (ee_raw_artifact_ref evidence = Some provenance)
  || bool_decide (ee_normalized_artifact_ref evidence = Some provenance).

Definition check_provenance (r : ReproducibilityVerificationReportV1) : Checked :=
  match rr_slsa_provenance_ref r with
  | Some provenance =>
      check negb (ArtifactRef_validate provenance) else InvalidArtifact in
      check negb (bool_decide (ar_project_id provenance = Some (rr_project_id r)))
        || negb (existsb (carries provenance) (rr_provider_evidence r))
      else CrossSubjectEvidence in
      Ok tt
  | None =>
      check rr_slsa_subject_bound r || rr_slsa_materials_bound r || rr_slsa_builder_bound r
      else InvalidReproducibility in
      Ok tt
  end.

Definition bad_build (build : IsolatedBuildObservationV1) : bool :=
  let names := map bd_logical_name (ib_artifacts build) in
  negb (ea_bounded_token (ib_root_id build) 256)
  || (4096 <? len (ib_artifacts build))%N
  || existsb (λ artifact, negb (ea_bounded_text (bd_logical_name artifact) 1024))
       (ib_artifacts build)
  || negb (distinct_count names =? len (ib_artifacts build))%N.

(** The builds when there are two from different roots. *)
Definition distinct_roots (r : ReproducibilityVerificationReportV1) :
    option (IsolatedBuildObservationV1 * IsolatedBuildObservationV1) :=
  match rr_builds r with
  | [first; second] =>
      if negb (String.eqb (ib_root_id first) (ib_root_id second))
         && negb (String.eqb (ib_root_fingerprint first) (ib_root_fingerprint second))
      then Some (first, second) else None
  | _ => None
  end.

Definition artifacts_equal (r : ReproducibilityVerificationReportV1) : bool :=
  match distinct_roots r with
  | Some (first, second) =>
      negb (len (ib_artifacts first) =? 0)%N
      && bool_decide (sort_by cmp_leb (ib_artifacts first) = sort_by cmp_leb (ib_artifacts second))
  | None => false
  end.

Definition provider_evidence_complete (r : ReproducibilityVerificationReportV1) : bool :=
  negb (len (rr_provider_evidence r) =? 0)%N
  && forallb (λ evidence, is_terminal_success_evidence (ee_completeness evidence))
       (rr_provider_evidence r).

Definition slsa_binding_complete (r : ReproducibilityVerificationReportV1) : bool :=
  is_some_and (rr_slsa_provenance_ref r) (λ provenance,
    rr_slsa_subject_bound r && rr_slsa_materials_bound r && rr_slsa_builder_bound r
    && existsb (λ evidence, is_terminal_success_evidence (ee_completeness evidence)
                            && carries provenance evidence) (rr_provider_evidence r)).

Definition expected_outcome (r : ReproducibilityVerificationReportV1) : ReproducibilityOutcomeV1 :=
  if existsb (λ evidence, bool_decide (ee_completeness evidence = Unavailable))
       (rr_provider_evidence r)
  then ReproUnavailable
  else if is_none (distinct_roots r) || negb (provider_evidence_complete r) then ReproUnverified
  else if negb (artifacts_equal r) then Mismatch
  else if slsa_binding_complete r then ReproPass
  else ReproUnverified.

Definition rr_validate (r : ReproducibilityVerificationReportV1) : Checked :=
  check (16 <? len (rr_provider_evidence r))%N || (2 <? len (rr_builds r))%N
  else InvalidReproducibility in
  let? _ := check_provider_evidence r [] (rr_provider_evidence r) in
  let? _ := check_provenance r in
  let? _ := check_artifact (rr_diffoscope_diagnostic_ref r) (rr_project_id r) in
  check negb (bounded_limitations (rr_limitations r)) || existsb bad_build (rr_builds r)
  else InvalidReproducibility in
  check negb (String.eqb (rr_schema_id r) REPRODUCIBILITY_VERIFICATION_REPORT_V1_SCHEMA_ID)
    || negb (rr_schema_version r =? 1)%N
    || negb (ea_bounded_token (rr_report_id r) 256)
    || negb (bool_decide (rr_outcome r = expected_outcome r))
  else InvalidReproducibility in
  Ok tt.

(** ** Runtime safety *)

Definition runtime_safety_provider_matches (kind : RuntimeSafetyProviderKindV1)
    (provider_id : string) : bool :=
  String.eqb provider_id
    match kind with
    | Sanitizer => "sanitizer" | Generator | Doctest => "generator-doctest" | Loom => "loom"
    end.

Definition expected_state (o : RuntimeSafetyObservationV1) : RuntimeSafetyStateV1 :=
  let completeness := ee_completeness (rs_evidence o) in
  if negb (rs_project_declares_toolchain_or_test o) || bool_decide (completeness = Unavailable)
  then SafetyUnavailable
  else if rs_cancelled o || bool_decide (completeness = Cancelled) then SafetyCancelled
  else if bool_decide (completeness = TimedOut) then SafetyTimedOut
  else if negb (is_terminal_success_evidence completeness) then SafetyUnverified
  else if (len (rs_finding_refs o) =? 0)%N then SafetyPass
  else SafetyFail.

Definition rs_validate (o : RuntimeSafetyObservationV1) : Checked :=
  let completeness := ee_completeness (rs_evidence o) in
  let? _ := ee_validate (rs_evidence o) in
  check negb (String.eqb (rs_schema_id o) RUNTIME_SAFETY_OBSERVATION_V1_SCHEMA_ID)
    || negb (rs_schema_version o =? 1)%N
    || negb (String.eqb (rs_project_id o) (ee_project_id (rs_evidence o)))
    || negb (runtime_safety_provider_matches (rs_provider_kind o)
               (ee_provider_id (rs_evidence o)))
    || negb (ea_bounded_token (rs_observation_id o) 256)
    || negb (ea_bounded_text (rs_target o) 1024)
    || (rs_timeout_ms o =? 0)%N
    || (86400000 <? rs_timeout_ms o)%N
    || (negb (rs_project_declares_toolchain_or_test o)
        && negb (bool_decide (completeness = Unavailable)))
    || (bool_decide (completeness = Unavailable) && negb (len (rs_finding_refs o) =? 0)%N)
    || negb (Bool.eqb (rs_cancelled o) (bool_decide (completeness = Cancelled)))
    || existsb (λ finding, negb (ea_bounded_text finding 1024)) (rs_finding_refs o)
    || (10000 <? len (rs_finding_refs o))%N
    || negb (distinct_count (rs_finding_refs o) =? len (rs_finding_refs o))%N
    || negb (bounded_limitations (rs_limitations o))
    || negb (bool_decide (rs_state o = expected_state o))
  else InvalidRuntimeSafety in
  Ok tt.

(** ** Near clones *)

Definition pair_key (pair : NearClonePairV1) : string * string :=
  if cmp_ltb (nc_left_subject pair) (nc_right_subject pair)
  then (nc_left_subject pair, nc_right_subject pair)
  else (nc_right_subject pair, nc_left_subject pair).

Definition no_validate (o : NearCloneObservationV1) : Checked :=
  check negb (String.eqb (no_schema_id o) NEAR_CLONE_OBSERVATION_V1_SCHEMA_ID)
    || negb (no_schema_version o =? 1)%N
    || negb (ea_bounded_token (no_observation_id o) 256)
    || negb (String.eqb (no_algorithm o) "identifier_literal_normalized_simhash_v1")
    || negb (in_range 5000 10000 (no_minimum_similarity_basis_points o))
    || (no_max_candidates o =? 0)%N
    || (10000 <? no_max_candidates o)%N
    || (no_max_source_bytes o =? 0)%N
    || (64 * 1024 * 1024 <? no_max_source_bytes o)%N
    || negb (no_advisory_only o)
    || no_automatic_patch_set_generated o
    || (no_max_candidates o <? len (no_pairs o))%N
    || any_or_repeated (λ pair,
           String.eqb (nc_left_subject pair) (nc_right_subject pair)
           || (nc_similarity_basis_points pair <? no_minimum_similarity_basis_points o)%N
           || (10000 <? nc_similarity_basis_points pair)%N
           || negb (ea_bounded_text (nc_left_subject pair) 1024)
           || negb (ea_bounded_text (nc_right_subject pair) 1024))
         pair_key [] (no_pairs o)
    || negb (bounded_limitations (no_limitations o))
  else InvalidNearClone in
  Ok tt.

End observations.

(** ** What a valid observation says *)

Section facts.
Context `{Platform}.

Lemma terminal_spec c : is_terminal_success_evidence c = true ↔ c = Complete.
Proof. unfold is_terminal_success_evidence. apply bool_decide_eq_true. Qed.

Lemma terminal_false c : c ≠ Complete → is_terminal_success_evidence c = false.
Proof. intros Hc. unfold is_terminal_success_evidence. by apply bool_decide_eq_false_2. Qed.

Lemma cv_validate_inv o :
  cv_validate o = Ok tt →
  cv_executable_line_count o = saturating_add u64_max
    (cv_covered_executable_line_count o) (cv_uncovered_executable_line_count o) ∧
  (cv_executable_line_count o ≠ 0%N → cv_line_coverage_basis_points o =
    (cv_covered_executable_line_count o * 10000 / cv_executable_line_count o)%N) ∧
  (cv_executable_line_count o = 0%N → cv_line_coverage_basis_points o = 0%N) ∧
  cv_gate_state o = expected_gate o.
Proof.
  intros Hv. unfold cv_validate in Hv. err_cases Hv. bool_to_prop. split; [done|].
  unfold expected_basis_points in *. destruct (cv_executable_line_count o =? 0)%N eqn:E0;
    bool_to_prop.
  - simplify_eq. rewrite E0. split_and!; [done|congruence|done].
  - match goal with H : ok_or _ _ = Ok _ |- _ => apply ok_or_Ok in H; unfold to_u32 in H;
      destruct (_ <=? _)%N in H; [|done]; injection H as <- end.
    split_and!; try done.
Qed.

(** The coverage gate is exact: in a valid observation of lines counted in
    64 bits no more lines are covered than there are, the rate is at most
    10,000 basis points, and the gate passes exactly when the evidence is
    complete, its protocol is eligible, there are lines and the covered ones
    reach the required share, compared without rounding; it blocks exactly when
    they do not. *)
Theorem coverage_gate_exact o
    (Hwidth : (cv_covered_executable_line_count o <= u64_max)%N) (Hvalid : cv_validate o = Ok tt) :
  let covered := cv_covered_executable_line_count o in
  let lines := cv_executable_line_count o in
  let required := cv_required_line_coverage_basis_points o in
  let gated := ee_completeness (cv_evidence o) = Complete ∧
    application_normalization_eligible (ee_protocol (cv_evidence o)) = true ∧ (0 < lines)%N in
  (covered <= lines)%N ∧ (cv_line_coverage_basis_points o <= 10000)%N ∧
  (cv_gate_state o = GatePass ↔ gated ∧ (required * lines <= covered * 10000)%N) ∧
  (cv_gate_state o = GateBlock ↔ gated ∧ (covered * 10000 < required * lines)%N).
Proof.
  intros covered lines required gated. destruct (cv_validate_inv o Hvalid) as (Hsum & Hbp & H0 & Hg).
  fold covered lines required in Hsum, Hbp, H0.
  assert (covered <= lines)%N as Hle.
  { rewrite Hsum. unfold saturating_add. fold covered. lia. }
  split; [done|]. split.
  { destruct (decide (lines = 0%N)) as [Hz|Hnz]; [rewrite (H0 Hz); lia|]. rewrite (Hbp Hnz).
    apply N.Div0.div_le_upper_bound. nia. }
  rewrite Hg. unfold expected_gate, gated. fold lines required.
  rewrite <-terminal_spec.
  destruct (is_terminal_success_evidence _); simpl; [|split; naive_solver].
  destruct (application_normalization_eligible _); simpl; [|split; naive_solver].
  destruct (lines =? 0)%N eqn:Ez; bool_to_prop.
  { split; (split; [done|]); intros [(_ & _ & ?) _]; lia. }
  rewrite (Hbp Ez).
  assert (required * lines <= covered * 10000 ↔ required <= covered * 10000 / lines)%N as Hround.
  { rewrite N.mul_comm. split; [by apply N.div_le_lower_bound|].
    intros Hr. etrans; [|apply (N.Div0.mul_div_le _ lines)]. by apply N.mul_le_mono_l. }
  destruct (required <=? covered * 10000 / lines)%N eqn:Er; bool_to_prop.
  - apply Hround in Er. split; (split; [intros|]); try done.
    + split_and!; try done; lia.
    + intros [_ ?]. lia.
  - assert (¬ required * lines <= covered * 10000)%N as Hn by (rewrite Hround; lia).
    split; (split; [intros|]); try done.
    + intros [_ ?]. lia.
    + split_and!; try done; lia.
Qed.

Lemma ft_validate_inv o :
  ft_validate o = Ok tt →
  NoDup (map ta_attempt_id (ft_attempts o)) ∧
  ft_classification o = expected_classification o ∧
  (∀ q, ft_quarantine o = Some q →
    (ee_completed_at (ft_evidence o) < fq_expires_at q)%Z ∧ ft_classification o = ClassFlaky).
Proof.
  intros Hv. unfold ft_validate in Hv. err_cases Hv. bool_to_prop.
  match goal with H : any_or_repeated _ _ _ _ = false |- _ =>
    apply any_or_repeated_false in H as (_ & Hnd & _) end.
  split; [done|]. split; [done|]. intros q Hq. rewrite Hq in *. simpl in *. bool_to_prop. done.
Qed.

Lemma any_outcome_true o outcome :
  any_outcome o outcome = true ↔ ∃ a, a ∈ ft_attempts o ∧ ta_outcome a = outcome.
Proof. unfold any_outcome. rewrite existsb_true. by setoid_rewrite bool_decide_eq_true. Qed.

Lemma len_zero {A} (l : list A) : l ≠ [] ↔ (len l =? 0)%N = false.
Proof. split; [intros Hl; apply N.eqb_neq; unfold len; by destruct l|by intros Hl ->]. Qed.

Lemma interrupted_false o :
  interrupted o = false ↔
  Forall (λ a, ta_outcome a = AttemptPass ∨ ta_outcome a = AttemptFail) (ft_attempts o).
Proof.
  unfold interrupted. rewrite existsb_false, Forall_forall.
  split; intros Hall a Ha; specialize (Hall a Ha); destruct (ta_outcome a); naive_solver.
Qed.

Lemma any_outcome_false o outcome :
  any_outcome o outcome = false ↔ ∀ a, a ∈ ft_attempts o → ta_outcome a ≠ outcome.
Proof. unfold any_outcome. rewrite existsb_false. by setoid_rewrite bool_decide_eq_false. Qed.

Lemma all_pass_spec o :
  ft_attempts o ≠ [] →
  Forall (λ a, ta_outcome a = AttemptPass) (ft_attempts o) ↔
  any_outcome o AttemptPass = true ∧ any_outcome o AttemptFail = false ∧ interrupted o = false.
Proof.
  intros Hne. rewrite any_outcome_true, any_outcome_false, interrupted_false, !Forall_forall.
  split.
  - intros Hall. split; [|split; intros a Ha; rewrite (Hall a Ha); [done|by left]].
    destruct (ft_attempts o) as [|a l]; [done|]. exists a. split; [left|apply Hall; left].
  - intros (_ & Hf & Hi) a Ha. destruct (Hi a Ha) as [?|?]; [done|]. by destruct (Hf a Ha).
Qed.

Lemma both_outcomes o :
  any_outcome o AttemptPass = true → any_outcome o AttemptFail = true →
  (2 <=? len (ft_attempts o))%N = true.
Proof.
  rewrite !any_outcome_true. intros (a & Ha & Hpa) (b & Hb & Hfb). apply N.leb_le. unfold len.
  destruct (ft_attempts o) as [|c [|d l]]; [by apply not_elem_of_nil in Ha| |simpl; lia].
  apply list_elem_of_singleton in Ha as ->. apply list_elem_of_singleton in Hb as ->. congruence.
Qed.

(** A retry is never a clean pass: in a valid observation the test is a
    stable pass exactly when the evidence is complete and there are attempts,
    all of which passed; it is flaky exactly when the evidence is not
    unavailable, no attempt was interrupted and both outcomes occur; only a
    flaky test is quarantined, beyond the end of the evidence; and no attempt
    is counted twice. *)
Theorem flaky_classification_exact o (Hvalid : ft_validate o = Ok tt) :
  (ft_classification o = StablePass ↔
    ee_completeness (ft_evidence o) = Complete ∧ ft_attempts o ≠ [] ∧
    Forall (λ a, ta_outcome a = AttemptPass) (ft_attempts o)) ∧
  (ft_classification o = ClassFlaky ↔
    ee_completeness (ft_evidence o) ≠ Unavailable ∧
    Forall (λ a, ta_outcome a = AttemptPass ∨ ta_outcome a = AttemptFail) (ft_attempts o) ∧
    (∃ a, a ∈ ft_attempts o ∧ ta_outcome a = AttemptPass) ∧
    ∃ a, a ∈ ft_attempts o ∧ ta_outcome a = AttemptFail) ∧
  (∀ q, ft_quarantine o = Some q →
    ft_classification o = ClassFlaky ∧ (ee_completed_at (ft_evidence o) < fq_expires_at q)%Z) ∧
  NoDup (map ta_attempt_id (ft_attempts o)).
Proof.
  destruct (ft_validate_inv o Hvalid) as (Hnd & -> & Hq).
  assert (ee_completeness (ft_evidence o) = Complete →
    bool_decide (ee_completeness (ft_evidence o) = Unavailable) = false) as Hc.
  { intros Hc. apply bool_decide_eq_false. congruence. }
  split; [|split; [|split; [naive_solver|done]]].
  - split.
    + intros Hs. unfold expected_classification in Hs. destruct (bool_decide _); [done|].
      destruct (interrupted o) eqn:Ei; [done|]. simpl in Hs.
      destruct (len (ft_attempts o) =? 0)%N eqn:E0; [done|]. apply len_zero in E0.
      rewrite all_pass_spec, <-terminal_spec by done.
      destruct (is_terminal_success_evidence _), (any_outcome o AttemptPass) eqn:Ep,
        (any_outcome o AttemptFail) eqn:Ef; simpl in Hs; try done;
        destruct (2 <=? len (ft_attempts o))%N; done.
    + intros (Ht & Hne & Hall). apply all_pass_spec in Hall as (Hp & Hf & Hi); [|done].
      unfold expected_classification. rewrite (Hc Ht), Hi, Hp, Hf.
      apply terminal_spec in Ht as ->. by apply len_zero in Hne as ->.
  - rewrite <-!any_outcome_true, <-interrupted_false. unfold expected_classification.
    case_bool_decide as Hu; [naive_solver|]. destruct (interrupted o); [naive_solver|]. simpl.
    destruct (any_outcome o AttemptPass) eqn:Ep, (any_outcome o AttemptFail) eqn:Ef; simpl.
    + pose proof (both_outcomes o Ep Ef) as H2. rewrite H2.
      replace (len (ft_attempts o) =? 0)%N with false by (bool_to_prop; symmetry; apply N.eqb_neq; lia).
      naive_solver.
    + split; [|naive_solver]. destruct (_ =? _)%N; [done|]. by destruct (negb _).
    + split; [|naive_solver]. destruct (_ =? _)%N; [done|]. by destruct (negb _).
    + split; [|naive_solver]. destruct (_ =? _)%N; [done|]. by destruct (negb _).
Qed.

Lemma check_provider_evidence_ok r seen l :
  check_provider_evidence r seen l = Ok tt →
  ∀ e, e ∈ l → ee_validate e = Ok tt ∧
    application_normalization_eligible (ee_protocol e) = true ∧
    ee_project_id e = rr_project_id r ∧ ee_source_fingerprint e = rr_source_fingerprint r ∧
    ee_config_fingerprint e = rr_config_fingerprint r.
Proof.
  revert seen. induction l as [|x l IH]; intros seen Hc e He; [by apply not_elem_of_nil in He|].
  cbn [check_provider_evidence] in Hc. destruct (ee_validate x) as [[]|] eqn:Hv; [|done].
  next_check Hc. next_check Hc. bool_to_prop.
  apply elem_of_cons in He as [->|He]; [by split_and!|]. by eapply IH.
Qed.

Lemma distinct_roots_spec r a b :
  distinct_roots r = Some (a, b) ↔
  rr_builds r = [a; b] ∧ ib_root_id a ≠ ib_root_id b ∧ ib_root_fingerprint a ≠ ib_root_fingerprint b.
Proof.
  unfold distinct_roots. destruct (rr_builds r) as [|x [|y [|z l]]]; try naive_solver.
  destruct (String.eqb (ib_root_id x) _) eqn:E1, (String.eqb (ib_root_fingerprint x) _) eqn:E2;
    bool_to_prop; simpl; naive_solver.
Qed.

Lemma sort_by_eq_perm {A} `{CmpLaws A} (l1 l2 : list A) :
  sort_by cmp_leb l1 = sort_by cmp_leb l2 ↔ l1 ≡ₚ l2.
Proof.
  split; [|apply sort_by_perm_eq]. intros Heq.
  by rewrite <-(sort_by_perm cmp_leb l1), Heq, sort_by_perm.
Qed.

Lemma carries_spec provenance e :
  carries provenance e = true ↔
  ee_raw_artifact_ref e = Some provenance ∨ ee_normalized_artifact_ref e = Some provenance.
Proof. unfold carries. by rewrite orb_true_iff, !bool_decide_eq_true. Qed.

(** Two builds of one source from different roots made the same artifacts. *)
Definition same_builds (r : ReproducibilityVerificationReportV1) : Prop :=
  ∃ a b, rr_builds r = [a; b] ∧ ib_root_id a ≠ ib_root_id b ∧
    ib_root_fingerprint a ≠ ib_root_fingerprint b ∧ ib_artifacts a ≠ [] ∧
    ib_artifacts a ≡ₚ ib_artifacts b.

(** The provenance is carried by a complete evidence and bound in full. *)
Definition provenance_bound (r : ReproducibilityVerificationReportV1) : Prop :=
  ∃ provenance e, rr_slsa_provenance_ref r = Some provenance ∧ e ∈ rr_provider_evidence r ∧
    (ee_raw_artifact_ref e = Some provenance ∨ ee_normalized_artifact_ref e = Some provenance) ∧
    rr_slsa_subject_bound r = true ∧ rr_slsa_materials_bound r = true ∧
    rr_slsa_builder_bound r = true.

Lemma artifacts_equal_spec r :
  is_some (distinct_roots r) = true ∧ artifacts_equal r = true ↔ same_builds r.
Proof.
  unfold artifacts_equal, same_builds. split.
  - intros [Hs He]. destruct (distinct_roots r) as [[a b]|] eqn:Hd; [|done].
    apply distinct_roots_spec in Hd as (? & ? & ?). exists a, b.
    apply andb_true_iff in He as [Hn%negb_true_iff He%bool_decide_eq_true].
    apply len_zero in Hn. apply sort_by_eq_perm in He. by split_and!.
  - intros (a & b & Hb & Hr & Hf & Hn & Hp).
    assert (distinct_roots r = Some (a, b)) as -> by by apply distinct_roots_spec.
    split; [done|]. apply len_zero in Hn as ->. by apply bool_decide_eq_true, sort_by_eq_perm.
Qed.

Lemma evidence_complete_spec r :
  provider_evidence_complete r = true ↔
  rr_provider_evidence r ≠ [] ∧
  Forall (λ e, ee_completeness e = Complete) (rr_provider_evidence r).
Proof.
  unfold provider_evidence_complete. rewrite andb_true_iff, negb_true_iff, <-len_zero, forallb_true,
    Forall_forall. by setoid_rewrite terminal_spec.
Qed.

Lemma slsa_spec r :
  Forall (λ e, ee_completeness e = Complete) (rr_provider_evidence r) →
  slsa_binding_complete r = true ↔ provenance_bound r.
Proof.
  intros Hc. rewrite Forall_forall in Hc. unfold slsa_binding_complete, provenance_bound.
  destruct (rr_slsa_provenance_ref r) as [p|]; simpl; [|naive_solver].
  rewrite !andb_true_iff, existsb_true. split.
  - intros ([[? ?] ?] & e & He & [_ Hp%carries_spec]%andb_true_iff). by exists p, e.
  - intros (q & e & [= <-] & He & Hp & ? & ? & ?). split; [done|]. exists e. split; [done|].
    apply andb_true_iff. split; [by apply terminal_spec, Hc|by apply carries_spec].
Qed.

Lemma rr_validate_inv r :
  rr_validate r = Ok tt →
  rr_outcome r = expected_outcome r ∧
  check_provider_evidence r [] (rr_provider_evidence r) = Ok tt.
Proof.
  intros Hv. unfold rr_validate in Hv. next_check Hv.
  destruct (check_provider_evidence _ _ _) as [[]|]; [|done]. split; [|done].
  destruct (check_provenance r) as [[]|]; [|done].
  destruct (check_artifact _ _) as [[]|]; [|done]. next_check Hv. next_check Hv. by bool_to_prop.
Qed.

(** What reproducible means: a valid report passes exactly when two builds
    from different roots made the same nonempty set of artifacts, all the
    provider evidence is complete and there is some, and the provenance is
    carried by it with subject, materials and builder bound.  All the evidence
    of a valid report is of the report's project, source and configuration. *)
Theorem reproducible_exactly r (Hvalid : rr_validate r = Ok tt) :
  (rr_outcome r = ReproPass ↔
    same_builds r ∧ provenance_bound r ∧ rr_provider_evidence r ≠ [] ∧
    Forall (λ e, ee_completeness e = Complete) (rr_provider_evidence r)) ∧
  (∀ e, e ∈ rr_provider_evidence r → ee_validate e = Ok tt ∧
    ee_project_id e = rr_project_id r ∧ ee_source_fingerprint e = rr_source_fingerprint r ∧
    ee_config_fingerprint e = rr_config_fingerprint r).
Proof.
  destruct (rr_validate_inv r Hvalid) as [-> Hev]. split.
  2: { intros e He. destruct (check_provider_evidence_ok r [] _ Hev e He) as (? & _ & ?). done. }
  rewrite <-artifacts_equal_spec, <-(evidence_complete_spec r). unfold expected_outcome.
  destruct (existsb _ _) eqn:Eu.
  { split; [done|]. intros (_ & _ & [_ Hall]%evidence_complete_spec).
    apply existsb_true in Eu as (e & He & Hu). bool_to_prop. rewrite Forall_forall in Hall.
    specialize (Hall e He). congruence. }
  destruct (distinct_roots r) as [ab|]; simpl; [|naive_solver].
  destruct (provider_evidence_complete r) eqn:Ec; simpl; [|naive_solver].
  apply evidence_complete_spec in Ec as [_ Hall]. rewrite <-(slsa_spec r Hall).
  destruct (artifacts_equal r); simpl; [|naive_solver].
  destruct (slsa_binding_complete r); naive_solver.
Qed.

Lemma co_validate_incomplete o :
  co_validate o = Ok tt → ee_completeness (co_evidence o) ≠ Complete →
  co_classification o = UnknownClass.
Proof.
  intros Hv Hc. unfold co_validate in Hv. err_cases Hv. rewrite terminal_false in * by done.
  simpl in *. by bool_to_prop.
Qed.

Lemma so_validate_incomplete o :
  so_validate o = Ok tt → ee_completeness (so_evidence o) ≠ Complete →
  so_vex_state o ≠ NotAffected.
Proof.
  intros Hv Hc Hn. unfold so_validate in Hv. err_cases Hv. rewrite terminal_false in * by done.
  rewrite Hn in *. simpl in *. congruence.
Qed.

Lemma rs_validate_state o : rs_validate o = Ok tt → rs_state o = expected_state o.
Proof. intros Hv. unfold rs_validate in Hv. err_cases Hv. by bool_to_prop. Qed.

(** Incomplete evidence supports no verdict: whatever a valid observation
    records, when its evidence is not complete the coverage gate is unverified,
    a test is not stable, a compatibility class is unknown, no vulnerability is
    dismissed, no target is safe or unsafe, and no build is reproducible or
    mismatched. *)
Theorem incomplete_evidence_supports_nothing :
  (∀ o, cv_validate o = Ok tt → ee_completeness (cv_evidence o) ≠ Complete →
    cv_gate_state o = GateUnverified) ∧
  (∀ o, ft_validate o = Ok tt → ee_completeness (ft_evidence o) ≠ Complete →
    ft_classification o ≠ StablePass ∧ ft_classification o ≠ StableFail) ∧
  (∀ o, co_validate o = Ok tt → ee_completeness (co_evidence o) ≠ Complete →
    co_classification o = UnknownClass) ∧
  (∀ o, so_validate o = Ok tt → ee_completeness (so_evidence o) ≠ Complete →
    so_vex_state o ≠ NotAffected) ∧
  (∀ o, rs_validate o = Ok tt → ee_completeness (rs_evidence o) ≠ Complete →
    rs_state o ≠ SafetyPass ∧ rs_state o ≠ SafetyFail) ∧
  (∀ r e, rr_validate r = Ok tt → e ∈ rr_provider_evidence r → ee_completeness e ≠ Complete →
    rr_outcome r ≠ ReproPass ∧ rr_outcome r ≠ Mismatch).
Proof.
  split_and!.
  - intros o (_ & _ & _ & ->)%cv_validate_inv Hc. unfold expected_gate.
    by rewrite terminal_false.
  - intros o (_ & -> & _)%ft_validate_inv Hc. unfold expected_classification.
    rewrite terminal_false by done. simpl.
    repeat match goal with |- context [if ?b then _ else _] => destruct b end; done.
  - apply co_validate_incomplete.
  - apply so_validate_incomplete.
  - intros o ->%rs_validate_state Hc. unfold expected_state. rewrite terminal_false by done. simpl.
    repeat match goal with |- context [if ?b then _ else _] => destruct b end; done.
  - intros r e [-> _]%rr_validate_inv He Hc. unfold expected_outcome.
    assert (provider_evidence_complete r = false) as ->.
    { apply not_true_iff_false. intros [_ Hall]%evidence_complete_spec.
      rewrite Forall_forall in Hall. by apply Hc, Hall. }
    rewrite orb_true_r. by destruct (existsb _ _).
Qed.

Lemma age_bound u t m :
  (u <= t)%Z → (age_seconds u t <= m)%N ↔ (t - u < (Z.of_N m + 1) * 10 ^ 9)%Z.
Proof.
  intros Hu. unfold age_seconds. pose proof (Z.div_mod (t - u) (10 ^ 9)) as Hd.
  pose proof (Z.mod_pos_bound (t - u) (10 ^ 9)) as Hm.
  pose proof (Z.div_pos (t - u) (10 ^ 9)) as Hp.
  set (q := ((t - u) / 10 ^ 9)%Z) in *. lia.
Qed.

(** Freshness is exact to the second: on evidence that is available the
    advisory database is current exactly when its update is known, not later
    than the observation, and less than one second beyond the maximum age. *)
Theorem freshness_exact f e (Hvalid : af_validate f e = Ok tt)
    (Havailable : ee_completeness e ≠ Unavailable) :
  af_freshness f = Current ↔
  ∃ updated_at, af_database_updated_at f = Some updated_at ∧ (updated_at <= af_observed_at f)%Z ∧
    (af_observed_at f - updated_at < (Z.of_N (af_maximum_age_seconds f) + 1) * 10 ^ 9)%Z.
Proof.
  unfold af_validate in Hvalid. next_check Hvalid.
  destruct (expected_freshness f e) as [x|] eqn:Hx; [|done]. next_check Hvalid. bool_to_prop.
  subst x. unfold expected_freshness in Hx. rewrite bool_decide_eq_false_2 in Hx by done.
  destruct (is_none _); [done|].
  destruct (af_database_updated_at f) as [u|];
    [|injection Hx as <-; split; [done|by intros (? & ? & _)]].
  destruct (u <=? af_observed_at f)%Z eqn:Eu; [|done]. bool_to_prop. injection Hx as <-.
  assert ((age_seconds u (af_observed_at f) <=? af_maximum_age_seconds f)%N = true ↔
    (af_observed_at f - u < (Z.of_N (af_maximum_age_seconds f) + 1) * 10 ^ 9)%Z) as Hage.
  { rewrite N.leb_le. apply age_bound. lia. }
  destruct (_ <=? _)%N.
  - split; [|done]. intros _. exists u. split_and!; [done|done|by apply Hage].
  - split; [done|]. intros (u' & [= <-] & _ & Hlt). by apply Hage in Hlt.
Qed.

(** No pair is reported twice: the pairs of a valid near-clone observation
    are between different subjects, are distinct as unordered pairs, are at
    most the candidates asked for, and reach the minimum similarity. *)
Theorem clone_pairs_distinct o (Hvalid : no_validate o = Ok tt) :
  (∀ i j p q, no_pairs o !! i = Some p → no_pairs o !! j = Some q → i ≠ j →
    ¬ ((nc_left_subject p = nc_left_subject q ∧ nc_right_subject p = nc_right_subject q) ∨
       (nc_left_subject p = nc_right_subject q ∧ nc_right_subject p = nc_left_subject q))) ∧
  (∀ p, p ∈ no_pairs o → nc_left_subject p ≠ nc_right_subject p ∧
    (no_minimum_similarity_basis_points o <= nc_similarity_basis_points p <= 10000)%N) ∧
  (len (no_pairs o) <= no_max_candidates o)%N.
Proof.
  unfold no_validate in Hvalid. err_cases Hvalid. bool_to_prop.
  match goal with H : any_or_repeated _ _ _ _ = false |- _ =>
    apply any_or_repeated_false in H as (Hall & Hnd & _) end.
  assert (∀ p, p ∈ no_pairs o → nc_left_subject p ≠ nc_right_subject p ∧
    (no_minimum_similarity_basis_points o <= nc_similarity_basis_points p <= 10000)%N) as Hp.
  { intros p Hp. rewrite Forall_forall in Hall. specialize (Hall p Hp). simpl in Hall.
    by bool_to_prop. }
  split; [|by split].
  intros i j p q Hi Hj Hij Hsame. apply Hij.
  assert (pair_key p = pair_key q) as Hk.
  { destruct (Hp p (list_elem_of_lookup_2 _ _ _ Hi)) as [Hne _]. unfold pair_key.
    destruct Hsame as [[-> ->]|[Hl Hr]]; [done|]. rewrite <-Hl, <-Hr.
    unfold cmp_ltb. rewrite (cmp_antisym (nc_left_subject p)).
    destruct (cmp (nc_left_subject p) (nc_right_subject p)) eqn:E; simpl; try done.
    by apply cmp_eq_iff in E. }
  eapply NoDup_lookup; [exact Hnd| |]; rewrite list_lookup_fmap; [by rewrite Hi|].
  by rewrite Hj, Hk.
Qed.

End facts.

(** ** Instances

    Evidence of an analyser that ran for two seconds, sealed. *)

Definition sample_artifact (id : string) : ArtifactRef :=
  mk_ArtifactRef id Report (Some "prj_1") "analysis/report.json" "application/json" 32
    (digest id) 0
    {| pr_component := "analysis"; pr_product_version := "1"; pr_build_id := "b";
       pr_platform := "p" |} NotNeeded RetainEvidence None.

Definition sample_protocol : ExternalAnalysisProtocolV1 :=
  {| ep_protocol_id := "provider-json"; ep_protocol_version := "1";
     ep_media_type := "application/json"; ep_stability := Stable;
     ep_detail_level := Structured; ep_machine_readable := true; ep_schema_uri := None |}.

Definition sample_draft (provider : string) : ExternalAnalysisEvidenceV1 :=
  {| ee_schema_id := EXTERNAL_ANALYSIS_EVIDENCE_V1_SCHEMA_ID; ee_schema_version := 1;
     ee_evidence_id := "evidence"; ee_project_id := "prj_1"; ee_provider_id := provider;
     ee_provider_version := Some "1.2.3"; ee_executable_sha256 := Some (digest "exe");
     ee_protocol := sample_protocol; ee_config_fingerprint := digest "config";
     ee_input_fingerprint := digest "input"; ee_source_fingerprint := digest "source";
     ee_environment_fingerprint := digest "environment";
     ee_raw_artifact_ref := Some (sample_artifact "raw");
     ee_normalized_artifact_ref := None; ee_exit_code := Some (-1)%Z;
     ee_started_at := 0; ee_completed_at := 2 * 10 ^ 9; ee_completeness := Complete;
     ee_limitations := []; ee_content_fingerprint := EmptyString |}.

Definition sample_evidence (provider : string) : ExternalAnalysisEvidenceV1 :=
  match ee_seal (sample_draft provider) with Ok e => e | Err _ => sample_draft provider end.

(** Nine of ten lines against a requirement of 90 percent. *)
Definition sample_coverage : CoverageObservationV1 :=
  {| cv_schema_id := COVERAGE_OBSERVATION_V1_SCHEMA_ID; cv_schema_version := 1;
     cv_observation_id := "cov"; cv_project_id := "prj_1";
     cv_evidence := sample_evidence "coverage"; cv_changed_scope_fingerprint := digest "input";
     cv_changed_line_count := 12; cv_executable_line_count := 10;
     cv_covered_executable_line_count := 9; cv_uncovered_executable_line_count := 1;
     cv_excluded_line_count := 2; cv_line_coverage_basis_points := 9000;
     cv_required_line_coverage_basis_points := 9000; cv_branch_shadow := None;
     cv_gate_state := GatePass; cv_limitations := [] |}.

Lemma coverage_gate_exact_witness :
  cv_gate_state sample_coverage = GatePass ∧ (9000 * 10 <= 9 * 10000)%N.
Proof.
  split; [reflexivity|].
  exact (proj2 (proj1 (proj1 (proj2 (proj2 (coverage_gate_exact sample_coverage
    ltac:(vm_compute; discriminate) ltac:(vm_compute; reflexivity))))) eq_refl)).
Defined.

Definition sample_attempt (id : string) (outcome : TestAttemptOutcomeV1) :
    TestAttemptObservationV1 :=
  {| ta_attempt_id := id; ta_input_fingerprint := digest "input";
     ta_environment_fingerprint := digest "environment"; ta_outcome := outcome |}.

(** A failure and a retry that passed. *)
Definition sample_flaky : FlakyTestObservationV1 :=
  {| ft_schema_id := FLAKY_TEST_OBSERVATION_V1_SCHEMA_ID; ft_schema_version := 1;
     ft_observation_id := "flaky"; ft_project_id := "prj_1";
     ft_evidence := sample_evidence "tests"; ft_test_id := "suite::test";
     ft_input_fingerprint := digest "input"; ft_environment_fingerprint := digest "environment";
     ft_attempts := [sample_attempt "a1" AttemptFail; sample_attempt "a2" AttemptPass];
     ft_classification := ClassFlaky; ft_retry_success_promoted := false;
     ft_quarantine := Some {| fq_owner := "owner"; fq_approval_ref := "apr";
                              fq_expires_at := 10 ^ 10 |};
     ft_limitations := [] |}.

Lemma flaky_classification_exact_witness :
  ft_validate sample_flaky = Ok tt ∧
  ∃ a, a ∈ ft_attempts sample_flaky ∧ ta_outcome a = AttemptFail.
Proof.
  assert (ft_validate sample_flaky = Ok tt) as Hv by (vm_compute; reflexivity).
  split; [exact Hv|].
  exact (proj2 (proj2 (proj2 (proj1 (proj1 (proj2 (flaky_classification_exact sample_flaky Hv)))
    eq_refl)))).
Defined.

Definition sample_build (id : string) (artifacts : list BuildArtifactDigestV1) :
    IsolatedBuildObservationV1 :=
  {| ib_root_id := id; ib_root_fingerprint := digest id; ib_artifacts := artifacts |}.

Definition sample_binary (name : string) : BuildArtifactDigestV1 :=
  {| bd_logical_name := name; bd_sha256 := digest name |}.

Definition sample_report : ReproducibilityVerificationReportV1 :=
  {| rr_schema_id := REPRODUCIBILITY_VERIFICATION_REPORT_V1_SCHEMA_ID; rr_schema_version := 1;
     rr_report_id := "report"; rr_project_id := "prj_1"; rr_source_fingerprint := digest "source";
     rr_config_fingerprint := digest "config"; rr_toolchain_fingerprint := digest "toolchain";
     rr_builds := [sample_build "root-a" [sample_binary "cli"; sample_binary "app"];
                   sample_build "root-b" [sample_binary "app"; sample_binary "cli"]];
     rr_provider_evidence := [sample_evidence "slsa"];
     rr_slsa_provenance_ref := Some (sample_artifact "raw"); rr_slsa_subject_bound := true;
     rr_slsa_materials_bound := true; rr_slsa_builder_bound := true;
     rr_diffoscope_diagnostic_ref := None; rr_outcome := ReproPass; rr_limitations := [] |}.

Lemma reproducible_exactly_witness :
  rr_validate sample_report = Ok tt ∧ same_builds sample_report.
Proof.
  assert (rr_validate sample_report = Ok tt) as Hv by (vm_compute; reflexivity).
  split; [exact Hv|].
  exact (proj1 (proj1 (proj1 (reproducible_exactly sample_report Hv)) eq_refl)).
Defined.

(** Two and a half seconds old, at most two allowed: still current. *)
Definition sample_freshness : AdvisoryFreshnessObservationV1 :=
  {| af_database_fingerprint := Some (digest "db"); af_database_updated_at := Some (- 10 ^ 9)%Z;
     af_observed_at := 15 * 10 ^ 8; af_maximum_age_seconds := 2; af_freshness := Current |}.

Lemma freshness_exact_witness :
  af_validate sample_freshness (sample_evidence "osv") = Ok tt ∧
  ∃ updated_at, af_database_updated_at sample_freshness = Some updated_at ∧
    (updated_at <= af_observed_at sample_freshness)%Z ∧
    (af_observed_at sample_freshness - updated_at < (2 + 1) * 10 ^ 9)%Z.
Proof.
  assert (af_validate sample_freshness (sample_evidence "osv") = Ok tt) as Hv
    by (vm_compute; reflexivity).
  split; [exact Hv|].
  exact (proj1 (freshness_exact sample_freshness (sample_evidence "osv") Hv
    ltac:(vm_compute; discriminate)) eq_refl).
Defined.

Definition sample_pair (left right : string) : NearClonePairV1 :=
  {| nc_left_subject := left; nc_right_subject := right; nc_left_fingerprint := digest left;
     nc_right_fingerprint := digest right; nc_similarity_basis_points := 9000 |}.

Definition sample_clones : NearCloneObservationV1 :=
  {| no_schema_id := NEAR_CLONE_OBSERVATION_V1_SCHEMA_ID; no_schema_version := 1;
     no_observation_id := "clones"; no_project_id := "prj_1";
     no_source_fingerprint := digest "source";
     no_algorithm := "identifier_literal_normalized_simhash_v1";
     no_minimum_similarity_basis_points := 8000; no_max_candidates := 10;
     no_max_source_bytes := 1000; no_pairs := [sample_pair "a" "b"; sample_pair "c" "a"];
     no_advisory_only := true; no_automatic_patch_set_generated := false;
     no_limitations := [] |}.

Lemma clone_pairs_distinct_witness :
  no_validate sample_clones = Ok tt ∧ (len (no_pairs sample_clones) <= 10)%N.
Proof.
  assert (no_validate sample_clones = Ok tt) as Hv by (vm_compute; reflexivity).
  split; [exact Hv|]. exact (proj2 (proj2 (clone_pairs_distinct sample_clones Hv))).
Defined.
