(* ===== verification/ReleaseManifest.v ===== *)
(** * The release manifest

    The manifest and asset contracts of
    [crates/foundation/star-contracts/src/release_v2.rs] and their
    serialization. *)
From S2P Require Import Prelude Canonical Contracts ReleaseLifecycle.

Definition RELEASE_MANIFEST_V2_SCHEMA_ID : string := "star.release-manifest".
Definition RELEASE_ASSET_BINDING_V1_SCHEMA_ID : string := "star.release-asset-binding".

Inductive ReleaseStatus :=
| StDraft | StCandidate | StBlocked | StBlockedExternal | StReady | StApproved | StPublishing
| StPublishOutcomeUnknown | StPublished | StRollbackRequired | StWithdrawn.

Inductive ReleaseSupportTier := TierStable | TierPreview.
Inductive VerificationLayerKind := LocalQuick | Target | Full | Release.
Inductive EvidenceCompleteness := EvComplete | EvPartial | EvUnverified | EvNotRun | EvFlaky.
Inductive SupplyChainKind := KindSbom | KindProvenance | KindSigning.
Inductive SupplyChainState := NotRequired | RequiredUnavailable | RequiredIncomplete | ScComplete.
Inductive RemoteActionKind := ActPublish | ActDeploy | ActWithdraw | ActRollback.
Inductive RemoteActionState :=
| RaPlanned | RaApproved | RaRunning | RaVerified | RaOutcomeUnknown | RaRollbackRequired
| RaRolledBack | RaWithdrawn | RaFailed.

Record ReleaseSourceRevision := {
  sr_project_id : ProjectId;
  sr_revision : string
}.

Record ReleaseIdentityBinding := {
  ib_config_fingerprint : Sha256Hash;
  ib_catalog_fingerprint : Sha256Hash;
  ib_tool_descriptor_fingerprints : list Sha256Hash;
  ib_profile_fingerprint : Sha256Hash;
  ib_environment_fingerprints : list Sha256Hash
}.

Record ReleaseVerificationLayer := {
  vl_layer : VerificationLayerKind;
  vl_validation_plan_ref : string;
  vl_validation_run_ref : option string;
  vl_gate_ref : option string;
  vl_completeness : EvidenceCompleteness;
  vl_artifact_set_digest : option Sha256Hash;
  vl_limitations : list string
}.

Record ReleaseArtifactV2 := {
  ra_logical_name : string;
  ra_role : string;
  ra_architecture : ReleaseArchitecture;
  ra_size : N;
  ra_media_type : string;
  ra_sha256 : Sha256Hash
}.

Record ReleaseAssetSourceV1 := {
  as_logical_name : string;
  as_remote_name : string;
  as_role : string;
  as_architecture : ReleaseArchitecture;
  as_media_type : string;
  as_relative_path : string;
  as_size : N;
  as_sha256 : Sha256Hash
}.

Record ReleaseAssetBindingV1 := {
  rb_schema_id : string;
  rb_schema_version : N;
  rb_release_manifest_id : string;
  rb_project_id : ProjectId;
  rb_artifact_set_digest : Sha256Hash;
  rb_assets : list ReleaseAssetSourceV1;
  rb_repository : string;
  rb_tag : string;
  rb_target_commitish : string;
  rb_title : string;
  rb_notes_relative_path : string;
  rb_prerelease : bool;
  rb_binding_fingerprint : Sha256Hash
}.

Record SupplyChainDecision := {
  sd_kind : SupplyChainKind;
  sd_state : SupplyChainState;
  sd_policy_ref : string;
  sd_evidence_ref : option string;
  sd_reason : string
}.

Record ReleaseCompatibilityTarget := {
  ct_architecture : ReleaseArchitecture;
  ct_support_tier : ReleaseSupportTier;
  ct_runtime_verification : RuntimeVerificationState;
  ct_minimum_windows_build : N;
  ct_evidence_refs : list string;
  ct_limitations : list string
}.

Record ReleaseRemoteAction := {
  ac_action_id : string;
  ac_kind : RemoteActionKind;
  ac_provider : string;
  ac_destination : string;
  ac_immutable_subject_digest : Sha256Hash;
  ac_state : RemoteActionState;
  ac_approval_request_ref : option ApprovalId;
  ac_before_snapshot_ref : option string;
  ac_after_snapshot_ref : option string;
  ac_receipt_ref : option string
}.

Record ReleaseManifestV2 := {
  rm_schema_id : string;
  rm_schema_version : N;
  rm_release_manifest_id : string;
  rm_revision : N;
  rm_supersedes : option string;
  rm_product_id : string;
  rm_version : string;
  rm_channel : string;
  rm_task_spec_ref : string;
  rm_scope_revision_ref : string;
  rm_source_revisions : list ReleaseSourceRevision;
  rm_identity_binding : ReleaseIdentityBinding;
  rm_verification_layers : list ReleaseVerificationLayer;
  rm_build_invocation_refs : list string;
  rm_artifacts : list ReleaseArtifactV2;
  rm_artifact_set_digest : option Sha256Hash;
  rm_included_files_manifest_ref : option string;
  rm_metadata_refs : list string;
  rm_supply_chain_applicability : list SupplyChainDecision;
  rm_sbom_ref : option string;
  rm_provenance_ref : option string;
  rm_signature_refs : list string;
  rm_compatibility : list ReleaseCompatibilityTarget;
  rm_validation_refs : list string;
  rm_release_gate_refs : list string;
  rm_remote_actions : list ReleaseRemoteAction;
  rm_approval_request_refs : list ApprovalId;
  rm_remote_operation_refs : list string;
  rm_before_remote_snapshot_refs : list string;
  rm_after_remote_snapshot_refs : list string;
  rm_rollback_plan_ref : string;
  rm_rollback_artifact_ref : option string;
  rm_user_data_policy : string;
  rm_remaining_risks : list string;
  rm_external_gates : list string;
  rm_status : ReleaseStatus;
  rm_manifest_fingerprint : Sha256Hash
}.

#[global] Instance ReleaseStatus_eq_dec : EqDecision ReleaseStatus.
Proof. solve_decision. Defined.
#[global] Instance ReleaseSupportTier_eq_dec : EqDecision ReleaseSupportTier.
Proof. solve_decision. Defined.
#[global] Instance VerificationLayerKind_eq_dec : EqDecision VerificationLayerKind.
Proof. solve_decision. Defined.
#[global] Instance EvidenceCompleteness_eq_dec : EqDecision EvidenceCompleteness.
Proof. solve_decision. Defined.
#[global] Instance SupplyChainKind_eq_dec : EqDecision SupplyChainKind.
Proof. solve_decision. Defined.
#[global] Instance SupplyChainState_eq_dec : EqDecision SupplyChainState.
Proof. solve_decision. Defined.
#[global] Instance RemoteActionKind_eq_dec : EqDecision RemoteActionKind.
Proof. solve_decision. Defined.
#[global] Instance RemoteActionState_eq_dec : EqDecision RemoteActionState.
Proof. solve_decision. Defined.
#[global] Instance ReleaseArtifactV2_eq_dec : EqDecision ReleaseArtifactV2.
Proof. solve_decision. Defined.
#[global] Instance ReleaseAssetSourceV1_eq_dec : EqDecision ReleaseAssetSourceV1.
Proof. solve_decision. Defined.
#[global] Instance ReleaseAssetBindingV1_eq_dec : EqDecision ReleaseAssetBindingV1.
Proof. solve_decision. Defined.

(** The derived orders: by the fields, in declaration order. *)
Definition ReleaseArchitecture_index (a : ReleaseArchitecture) : N :=
  match a with X64 => 0 | Arm64 => 1 end.

#[global] Instance ReleaseArchitecture_cmp : Cmp ReleaseArchitecture :=
  cmp_on ReleaseArchitecture_index.
#[global] Instance ReleaseArchitecture_cmp_laws : CmpLaws ReleaseArchitecture.
Proof. apply cmp_on_laws. by intros [] []. Qed.

Definition artifact_fields (a : ReleaseArtifactV2) :=
  (ra_logical_name a, (ra_role a, (ra_architecture a, (ra_size a,
    (ra_media_type a, ra_sha256 a))))).

#[global] Instance ReleaseArtifactV2_cmp : Cmp ReleaseArtifactV2 := cmp_on artifact_fields.
#[global] Instance ReleaseArtifactV2_cmp_laws : CmpLaws ReleaseArtifactV2.
Proof.
  apply cmp_on_laws. intros [] []. unfold artifact_fields; simpl. by intros [= -> -> -> -> -> ->].
Qed.

Definition asset_fields (a : ReleaseAssetSourceV1) :=
  (as_logical_name a, (as_remote_name a, (as_role a, (as_architecture a,
    (as_media_type a, (as_relative_path a, (as_size a, as_sha256 a))))))).

#[global] Instance ReleaseAssetSourceV1_cmp : Cmp ReleaseAssetSourceV1 := cmp_on asset_fields.
#[global] Instance ReleaseAssetSourceV1_cmp_laws : CmpLaws ReleaseAssetSourceV1.
Proof.
  apply cmp_on_laws. intros [] []. unfold asset_fields; simpl.
  by intros [= -> -> -> -> -> -> -> ->].
Qed.

Definition VerificationLayerKind_index (l : VerificationLayerKind) : N :=
  match l with LocalQuick => 0 | Target => 1 | Full => 2 | Release => 3 end.

#[global] Instance VerificationLayerKind_cmp : Cmp VerificationLayerKind :=
  cmp_on VerificationLayerKind_index.
#[global] Instance VerificationLayerKind_cmp_laws : CmpLaws VerificationLayerKind.
Proof. apply cmp_on_laws. by intros [] []. Qed.

Definition SupplyChainKind_index (k : SupplyChainKind) : N :=
  match k with KindSbom => 0 | KindProvenance => 1 | KindSigning => 2 end.

#[global] Instance SupplyChainKind_cmp : Cmp SupplyChainKind := cmp_on SupplyChainKind_index.
#[global] Instance SupplyChainKind_cmp_laws : CmpLaws SupplyChainKind.
Proof. apply cmp_on_laws. by intros [] []. Qed.

(** ** Serialization *)

#[global] Instance ReleaseArchitecture_to_json : ToJson ReleaseArchitecture := λ a,
  JStr match a with X64 => "x64" | Arm64 => "arm64" end.

#[global] Instance ReleaseArtifactV2_to_json : ToJson ReleaseArtifactV2 := λ a,
  JObj [("logical_name", to_json (ra_logical_name a)); ("role", to_json (ra_role a));
        ("architecture", to_json (ra_architecture a)); ("size", to_json (ra_size a));
        ("media_type", to_json (ra_media_type a)); ("sha256", to_json (ra_sha256 a))].

#[global] Instance ReleaseAssetSourceV1_to_json : ToJson ReleaseAssetSourceV1 := λ a,
  JObj [("logical_name", to_json (as_logical_name a));
        ("remote_name", to_json (as_remote_name a)); ("role", to_json (as_role a));
        ("architecture", to_json (as_architecture a));
        ("media_type", to_json (as_media_type a));
        ("relative_path", to_json (as_relative_path a)); ("size", to_json (as_size a));
        ("sha256", to_json (as_sha256 a))].

#[global] Instance ReleaseStatus_to_json : ToJson ReleaseStatus := λ s,
  JStr match s with
       | StDraft => "draft" | StCandidate => "candidate" | StBlocked => "blocked"
       | StBlockedExternal => "blocked_external" | StReady => "ready" | StApproved => "approved"
       | StPublishing => "publishing" | StPublishOutcomeUnknown => "publish_outcome_unknown"
       | StPublished => "published" | StRollbackRequired => "rollback_required"
       | StWithdrawn => "withdrawn"
       end.
#[global] Instance ReleaseSupportTier_to_json : ToJson ReleaseSupportTier := λ t,
  JStr match t with TierStable => "stable" | TierPreview => "preview" end.
#[global] Instance RuntimeVerificationState_to_json : ToJson RuntimeVerificationState := λ s,
  JStr match s with
       | NativeVerified => "native_verified" | NativeUnverified => "native_unverified"
       | VerificationFailed => "failed"
       end.
#[global] Instance VerificationLayerKind_to_json : ToJson VerificationLayerKind := λ l,
  JStr match l with
       | LocalQuick => "local_quick" | Target => "target" | Full => "full" | Release => "release"
       end.
#[global] Instance EvidenceCompleteness_to_json : ToJson EvidenceCompleteness := λ c,
  JStr match c with
       | EvComplete => "complete" | EvPartial => "partial" | EvUnverified => "unverified"
       | EvNotRun => "not_run" | EvFlaky => "flaky"
       end.
#[global] Instance SupplyChainKind_to_json : ToJson SupplyChainKind := λ k,
  JStr match k with
       | KindSbom => "sbom" | KindProvenance => "provenance" | KindSigning => "signing"
       end.
#[global] Instance SupplyChainState_to_json : ToJson SupplyChainState := λ s,
  JStr match s with
       | NotRequired => "not_required" | RequiredUnavailable => "required_unavailable"
       | RequiredIncomplete => "required_incomplete" | ScComplete => "complete"
       end.
#[global] Instance RemoteActionKind_to_json : ToJson RemoteActionKind := λ k,
  JStr match k with
       | ActPublish => "publish" | ActDeploy => "deploy" | ActWithdraw => "withdraw"
       | ActRollback => "rollback"
       end.
#[global] Instance RemoteActionState_to_json : ToJson RemoteActionState := λ s,
  JStr match s with
       | RaPlanned => "planned" | RaApproved => "approved" | RaRunning => "running"
       | RaVerified => "verified" | RaOutcomeUnknown => "outcome_unknown"
       | RaRollbackRequired => "rollback_required" | RaRolledBack => "rolled_back"
       | RaWithdrawn => "withdrawn" | RaFailed => "failed"
       end.

#[global] Instance ReleaseSourceRevision_to_json : ToJson ReleaseSourceRevision := λ s,
  JObj [("project_id", to_json (sr_project_id s));
        ("revision", to_json (sr_revision s))].
#[global] Instance ReleaseIdentityBinding_to_json : ToJson ReleaseIdentityBinding := λ b,
  JObj [("config_fingerprint", to_json (ib_config_fingerprint b));
        ("catalog_fingerprint", to_json (ib_catalog_fingerprint b));
        ("tool_descriptor_fingerprints", to_json (ib_tool_descriptor_fingerprints b));
        ("profile_fingerprint", to_json (ib_profile_fingerprint b));
        ("environment_fingerprints", to_json (ib_environment_fingerprints b))].
#[global] Instance ReleaseVerificationLayer_to_json : ToJson ReleaseVerificationLayer := λ l,
  JObj [("layer", to_json (vl_layer l));
        ("validation_plan_ref", to_json (vl_validation_plan_ref l));
        ("validation_run_ref", to_json (vl_validation_run_ref l));
        ("gate_ref", to_json (vl_gate_ref l));
        ("completeness", to_json (vl_completeness l));
        ("artifact_set_digest", to_json (vl_artifact_set_digest l));
        ("limitations", to_json (vl_limitations l))].
#[global] Instance SupplyChainDecision_to_json : ToJson SupplyChainDecision := λ d,
  JObj [("kind", to_json (sd_kind d));
        ("state", to_json (sd_state d));
        ("policy_ref", to_json (sd_policy_ref d));
        ("evidence_ref", to_json (sd_evidence_ref d));
        ("reason", to_json (sd_reason d))].
#[global] Instance ReleaseCompatibilityTarget_to_json : ToJson ReleaseCompatibilityTarget := λ t,
  JObj [("architecture", to_json (ct_architecture t));
        ("support_tier", to_json (ct_support_tier t));
        ("runtime_verification", to_json (ct_runtime_verification t));
        ("minimum_windows_build", to_json (ct_minimum_windows_build t));
        ("evidence_refs", to_json (ct_evidence_refs t));
        ("limitations", to_json (ct_limitations t))].
#[global] Instance ReleaseRemoteAction_to_json : ToJson ReleaseRemoteAction := λ a,
  JObj [("action_id", to_json (ac_action_id a));
        ("kind", to_json (ac_kind a));
        ("provider", to_json (ac_provider a));
        ("destination", to_json (ac_destination a));
        ("immutable_subject_digest", to_json (ac_immutable_subject_digest a));
        ("state", to_json (ac_state a));
        ("approval_request_ref", to_json (ac_approval_request_ref a));
        ("before_snapshot_ref", to_json (ac_before_snapshot_ref a));
        ("after_snapshot_ref", to_json (ac_after_snapshot_ref a));
        ("receipt_ref", to_json (ac_receipt_ref a))].

(** ** Assignments to fields *)

(** The manifest with the fields the operations assign to passed through
    functions. *)
Definition rm_update
    (st : ReleaseStatus → ReleaseStatus)
    (rev : N → N)
    (layers : list ReleaseVerificationLayer → list ReleaseVerificationLayer)
    (gates : list string → list string)
    (actions : list ReleaseRemoteAction → list ReleaseRemoteAction)
    (approvals : list ApprovalId → list ApprovalId)
    (after : list string → list string)
    (risks : list string → list string)
    (supply : list SupplyChainDecision → list SupplyChainDecision)
    (sbom : option string → option string)
    (prov : option string → option string)
    (fp : Sha256Hash → Sha256Hash)
    (m : ReleaseManifestV2) : ReleaseManifestV2 :=
  {| rm_schema_id := rm_schema_id m; rm_schema_version := rm_schema_version m;
     rm_release_manifest_id := rm_release_manifest_id m; rm_revision := rev (rm_revision m);
     rm_supersedes := rm_supersedes m; rm_product_id := rm_product_id m;
     rm_version := rm_version m; rm_channel := rm_channel m;
     rm_task_spec_ref := rm_task_spec_ref m; rm_scope_revision_ref := rm_scope_revision_ref m;
     rm_source_revisions := rm_source_revisions m; rm_identity_binding := rm_identity_binding m;
     rm_verification_layers := layers (rm_verification_layers m);
     rm_build_invocation_refs := rm_build_invocation_refs m; rm_artifacts := rm_artifacts m;
     rm_artifact_set_digest := rm_artifact_set_digest m;
     rm_included_files_manifest_ref := rm_included_files_manifest_ref m;
     rm_metadata_refs := rm_metadata_refs m;
     rm_supply_chain_applicability := supply (rm_supply_chain_applicability m);
     rm_sbom_ref := sbom (rm_sbom_ref m); rm_provenance_ref := prov (rm_provenance_ref m);
     rm_signature_refs := rm_signature_refs m; rm_compatibility := rm_compatibility m;
     rm_validation_refs := rm_validation_refs m;
     rm_release_gate_refs := gates (rm_release_gate_refs m);
     rm_remote_actions := actions (rm_remote_actions m);
     rm_approval_request_refs := approvals (rm_approval_request_refs m);
     rm_remote_operation_refs := rm_remote_operation_refs m;
     rm_before_remote_snapshot_refs := rm_before_remote_snapshot_refs m;
     rm_after_remote_snapshot_refs := after (rm_after_remote_snapshot_refs m);
     rm_rollback_plan_ref := rm_rollback_plan_ref m;
     rm_rollback_artifact_ref := rm_rollback_artifact_ref m;
     rm_user_data_policy := rm_user_data_policy m;
     rm_remaining_risks := risks (rm_remaining_risks m);
     rm_external_gates := rm_external_gates m; rm_status := st (rm_status m);
     rm_manifest_fingerprint := fp (rm_manifest_fingerprint m) |}.

Definition set_status (v : ReleaseStatus) : ReleaseManifestV2 → ReleaseManifestV2 :=
  rm_update (λ _, v) id id id id id id id id id id id.
Definition set_revision (v : N) : ReleaseManifestV2 → ReleaseManifestV2 :=
  rm_update id (λ _, v) id id id id id id id id id id.
Definition set_verification_layers (v : list ReleaseVerificationLayer) :
    ReleaseManifestV2 → ReleaseManifestV2 :=
  rm_update id id (λ _, v) id id id id id id id id id.
Definition set_release_gate_refs (v : list string) : ReleaseManifestV2 → ReleaseManifestV2 :=
  rm_update id id id (λ _, v) id id id id id id id id.
Definition set_remote_actions (v : list ReleaseRemoteAction) :
    ReleaseManifestV2 → ReleaseManifestV2 :=
  rm_update id id id id (λ _, v) id id id id id id id.
Definition set_approval_request_refs (v : list ApprovalId) :
    ReleaseManifestV2 → ReleaseManifestV2 :=
  rm_update id id id id id (λ _, v) id id id id id id.
Definition set_after_remote_snapshot_refs (v : list string) :
    ReleaseManifestV2 → ReleaseManifestV2 :=
  rm_update id id id id id id (λ _, v) id id id id id.
Definition set_remaining_risks (v : list string) : ReleaseManifestV2 → ReleaseManifestV2 :=
  rm_update id id id id id id id (λ _, v) id id id id.
Definition set_supply_chain_applicability (v : list SupplyChainDecision) :
    ReleaseManifestV2 → ReleaseManifestV2 :=
  rm_update id id id id id id id id (λ _, v) id id id.
Definition set_sbom_ref (v : option string) : ReleaseManifestV2 → ReleaseManifestV2 :=
  rm_update id id id id id id id id id (λ _, v) id id.
Definition set_provenance_ref (v : option string) : ReleaseManifestV2 → ReleaseManifestV2 :=
  rm_update id id id id id id id id id id (λ _, v) id.
Definition set_manifest_fingerprint (v : Sha256Hash) : ReleaseManifestV2 → ReleaseManifestV2 :=
  rm_update id id id id id id id id id id id (λ _, v).
