(* ===== verification/Candidate.v ===== *)
(** * Release candidates

    Models [crates/control/star-release/src/candidate.rs]: a candidate is sealed
    from its input and artifacts, verified by the layers of continuous
    integration, signed, promoted, approved and published; its manifest is
    verified.  Adapters are records of functions over a state of their own; a
    new manifest identifier is an argument. *)
From stdpp Require Import pretty.
From S2P Require Import Prelude Canonical Contracts Development ReleaseLifecycle ReleaseManifest ExternalAnalysis.
From S2P Require Import ExternalObservations.

Record ArtifactBytes := {
  ab_logical_name : string;
  ab_role : string;
  ab_architecture : ReleaseArchitecture;
  ab_media_type : string;
  ab_bytes : string
}.

Record ReleaseCandidateInput := {
  ci_product_id : string;
  ci_version : string;
  ci_channel : string;
  ci_task_spec_ref : string;
  ci_scope_revision_ref : string;
  ci_source_revisions : list ReleaseSourceRevision;
  ci_identity_binding : ReleaseIdentityBinding;
  ci_build_invocation_refs : list string;
  ci_included_files_manifest_ref : string;
  ci_metadata_refs : list string;
  ci_supply_chain_applicability : list SupplyChainDecision;
  ci_compatibility : list ReleaseCompatibilityTarget;
  ci_validation_refs : list string;
  ci_rollback_plan_ref : string;
  ci_rollback_artifact_ref : option string;
  ci_user_data_policy : string;
  ci_remaining_risks : list string;
  ci_external_gates : list string
}.

Record VerificationObservation := {
  vo_completeness : EvidenceCompleteness;
  vo_artifact_set_digest : option Sha256Hash;
  vo_validation_plan_ref : string;
  vo_validation_run_ref : option string;
  vo_gate_ref : option string;
  vo_limitations : list string
}.

Record SignedBytes := {
  sb_bytes : string;
  sb_signature_ref : string
}.

Inductive PublishObservation :=
| PubVerified (artifact_set_digest : Sha256Hash) (snapshot_ref : string)
| PubPartial (receipt_ref : string)
| PubTimeout
| PubFailed.

(** The traits [CiAdapter], [SignerAdapter] and [ReleasePublisherPort]; [S] is
    the state behind [&mut impl]. *)
Definition CiAdapter (S : Type) : Type :=
  VerificationLayerKind → Sha256Hash → S → S * VerificationObservation.

Definition SignerAdapter (S : Type) : Type :=
  ReleaseArtifactV2 → string → S → S * result SignedBytes ReleaseError.

Record ReleasePublisherPort (S : Type) := {
  publish : ReleaseManifestV2 → S → S * PublishObservation;
  reconcile : ReleaseManifestV2 → S → S * PublishObservation
}.
Arguments publish {S}.
Arguments reconcile {S}.

Definition SIGNED_BYTES_RISK : string := "signed_bytes_require_fresh_release_verification".
Definition PUBLISH_DESTINATION : string := "github:jaeminsongdev/star-control:releases".

Definition required_layers : list VerificationLayerKind := [LocalQuick; Target; Full; Release].
Definition required_kinds : list SupplyChainKind := [KindSbom; KindProvenance; KindSigning].

(** ** Candidates *)

Definition has_state (state : SupplyChainState) (decisions : list SupplyChainDecision) : bool :=
  existsb (λ item, bool_decide (sd_state item = state)) decisions.

Definition candidate_status (input : ReleaseCandidateInput) : ReleaseStatus :=
  if has_state RequiredUnavailable (ci_supply_chain_applicability input)
     || negb (len (ci_external_gates input) =? 0)%N
  then StBlockedExternal
  else if has_state RequiredIncomplete (ci_supply_chain_applicability input)
  then StBlocked else StCandidate.

Definition validate_candidate_input (input : ReleaseCandidateInput) : result unit ReleaseError :=
  check negb (token (ci_product_id input) 128)
    || negb (String.eqb (ci_version input) "0.1.0")
    || negb (String.eqb (ci_channel input) "github_releases")
    || (len (ci_source_revisions input) =? 0)%N
    || (len (ci_build_invocation_refs input) =? 0)%N
    || blank (ci_included_files_manifest_ref input)
    || blank (ci_rollback_plan_ref input)
    || blank (ci_user_data_policy input)
  else ReleaseInvalid in
  check negb (distinct_count (map sr_project_id (ci_source_revisions input))
              =? len (ci_source_revisions input))%N
    || existsb (λ source, (negb (slen (sr_revision source) =? 40)%N
                           && negb (slen (sr_revision source) =? 64)%N)
                          || bytes_any (λ b, negb (is_ascii_hexdigit b)) (sr_revision source))
         (ci_source_revisions input)
  else ReleaseConflict in
  check negb (bool_decide
    (sort_dedup (map sd_kind (ci_supply_chain_applicability input)) = required_kinds))
  else ReleaseInvalid in
  Ok tt.

Section candidate.
Context `{Platform}.

Definition artifact_entry (a : ArtifactBytes) : result ReleaseArtifactV2 ReleaseError :=
  check negb (token (ab_logical_name a) 128) || negb (token (ab_role a) 128)
    || blank (ab_media_type a) || is_empty (ab_bytes a)
  else ReleaseInvalid in
  Ok {| ra_logical_name := ab_logical_name a; ra_role := ab_role a;
        ra_architecture := ab_architecture a; ra_size := slen (ab_bytes a);
        ra_media_type := ab_media_type a; ra_sha256 := digest (ab_bytes a) |}.

Definition artifact_entries (artifacts : list ArtifactBytes) :
    result (list ReleaseArtifactV2) ReleaseError :=
  check (len artifacts =? 0)%N else ReleaseInvalid in
  let? entries := map_result artifact_entry artifacts in
  let entries := sort_by cmp_leb entries in
  check windows2_any (λ a b, String.eqb (ra_logical_name a) (ra_logical_name b)
          && bool_decide (ra_architecture a = ra_architecture b)) entries
  else ReleaseConflict in
  Ok entries.

Definition artifact_set_digest (entries : list ReleaseArtifactV2) :
    result Sha256Hash ReleaseError :=
  map_err (λ _, ReleaseFingerprint)
    (versioned_fingerprint "star.release-artifact-set" 2 (to_json entries)).

Definition rm_placeholder : Sha256Hash := digest "unsealed-release-manifest".

Definition rm_payload (m : ReleaseManifestV2) : Json := JObj
  [("release_manifest_id", to_json (rm_release_manifest_id m));
   ("revision", to_json (rm_revision m));
   ("supersedes", to_json (rm_supersedes m));
   ("product_id", to_json (rm_product_id m));
   ("version", to_json (rm_version m));
   ("channel", to_json (rm_channel m));
   ("task_spec_ref", to_json (rm_task_spec_ref m));
   ("scope_revision_ref", to_json (rm_scope_revision_ref m));
   ("source_revisions", to_json (rm_source_revisions m));
   ("identity_binding", to_json (rm_identity_binding m));
   ("verification_layers", to_json (rm_verification_layers m));
   ("build_invocation_refs", to_json (rm_build_invocation_refs m));
   ("artifacts", to_json (rm_artifacts m));
   ("artifact_set_digest", to_json (rm_artifact_set_digest m));
   ("included_files_manifest_ref", to_json (rm_included_files_manifest_ref m));
   ("metadata_refs", to_json (rm_metadata_refs m));
   ("supply_chain_applicability", to_json (rm_supply_chain_applicability m));
   ("sbom_ref", to_json (rm_sbom_ref m));
   ("provenance_ref", to_json (rm_provenance_ref m));
   ("signature_refs", to_json (rm_signature_refs m));
   ("compatibility", to_json (rm_compatibility m));
   ("validation_refs", to_json (rm_validation_refs m));
   ("release_gate_refs", to_json (rm_release_gate_refs m));
   ("remote_actions", to_json (rm_remote_actions m));
   ("approval_request_refs", to_json (rm_approval_request_refs m));
   ("remote_operation_refs", to_json (rm_remote_operation_refs m));
   ("before_remote_snapshot_refs", to_json (rm_before_remote_snapshot_refs m));
   ("after_remote_snapshot_refs", to_json (rm_after_remote_snapshot_refs m));
   ("rollback_plan_ref", to_json (rm_rollback_plan_ref m));
   ("rollback_artifact_ref", to_json (rm_rollback_artifact_ref m));
   ("user_data_policy", to_json (rm_user_data_policy m));
   ("remaining_risks", to_json (rm_remaining_risks m));
   ("external_gates", to_json (rm_external_gates m));
   ("status", to_json (rm_status m))].

Definition seal_manifest (m : ReleaseManifestV2) : result ReleaseManifestV2 ReleaseError :=
  let? fp := map_err (λ _, ReleaseFingerprint)
    (versioned_fingerprint RELEASE_MANIFEST_V2_SCHEMA_ID 2 (rm_payload m)) in
  Ok (set_manifest_fingerprint fp m).

Definition new_manifest (new_id : string) (input : ReleaseCandidateInput)
    (entries : list ReleaseArtifactV2) (set_digest : Sha256Hash) : ReleaseManifestV2 :=
  {| rm_schema_id := RELEASE_MANIFEST_V2_SCHEMA_ID; rm_schema_version := 2;
     rm_release_manifest_id := new_id; rm_revision := 1; rm_supersedes := None;
     rm_product_id := ci_product_id input; rm_version := ci_version input;
     rm_channel := ci_channel input; rm_task_spec_ref := ci_task_spec_ref input;
     rm_scope_revision_ref := ci_scope_revision_ref input;
     rm_source_revisions := ci_source_revisions input;
     rm_identity_binding := ci_identity_binding input; rm_verification_layers := [];
     rm_build_invocation_refs := ci_build_invocation_refs input; rm_artifacts := entries;
     rm_artifact_set_digest := Some set_digest;
     rm_included_files_manifest_ref := Some (ci_included_files_manifest_ref input);
     rm_metadata_refs := ci_metadata_refs input;
     rm_supply_chain_applicability := ci_supply_chain_applicability input; rm_sbom_ref := None;
     rm_provenance_ref := None; rm_signature_refs := [];
     rm_compatibility := ci_compatibility input;
     rm_validation_refs := ci_validation_refs input; rm_release_gate_refs := [];
     rm_remote_actions := []; rm_approval_request_refs := []; rm_remote_operation_refs := [];
     rm_before_remote_snapshot_refs := []; rm_after_remote_snapshot_refs := [];
     rm_rollback_plan_ref := ci_rollback_plan_ref input;
     rm_rollback_artifact_ref := ci_rollback_artifact_ref input;
     rm_user_data_policy := ci_user_data_policy input;
     rm_remaining_risks := ci_remaining_risks input;
     rm_external_gates := ci_external_gates input; rm_status := candidate_status input;
     rm_manifest_fingerprint := rm_placeholder |}.

Definition seal_candidate (new_id : string) (input : ReleaseCandidateInput)
    (artifacts : list ArtifactBytes) : result ReleaseManifestV2 ReleaseError :=
  let? _ := validate_candidate_input input in
  let? entries := artifact_entries artifacts in
  let? set_digest := artifact_set_digest entries in
  seal_manifest (new_manifest new_id input entries set_digest).

Definition verify_artifact_bytes (m : ReleaseManifestV2) (artifacts : list ArtifactBytes) :
    result unit ReleaseError :=
  let? entries := artifact_entries artifacts in
  check negb (bool_decide (entries = rm_artifacts m)) else ReleaseConflict in
  let? set_digest := artifact_set_digest entries in
  check negb (bool_decide (Some set_digest = rm_artifact_set_digest m)) else ReleaseConflict in
  Ok tt.

(** ** Verification layers *)

Definition bump (m : ReleaseManifestV2) : ReleaseManifestV2 :=
  set_revision (saturating_add u64_max (rm_revision m) 1) m.

Definition observed_layer (layer : VerificationLayerKind) (o : VerificationObservation) :
    ReleaseVerificationLayer :=
  {| vl_layer := layer;
     vl_validation_plan_ref := vo_validation_plan_ref o;
     vl_validation_run_ref := vo_validation_run_ref o;
     vl_gate_ref := vo_gate_ref o;
     vl_completeness := vo_completeness o;
     vl_artifact_set_digest := vo_artifact_set_digest o;
     vl_limitations := vo_limitations o |}.

(** Evidence of a layer that does not count for the digest. *)
Definition layer_blocks (set_digest : Sha256Hash) (l : ReleaseVerificationLayer) : bool :=
  negb (bool_decide (vl_completeness l = EvComplete))
  || negb (bool_decide (vl_artifact_set_digest l = Some set_digest))
  || is_none (vl_validation_run_ref l)
  || is_none (vl_gate_ref l).

(** The loop over the layers. *)
Fixpoint observe_layers {S} (adapter : CiAdapter S) (set_digest : Sha256Hash)
    (kinds : list VerificationLayerKind) (s : S) : S * list ReleaseVerificationLayer :=
  match kinds with
  | [] => (s, [])
  | layer :: kinds =>
      let (s, observation) := adapter layer set_digest s in
      let (s, layers) := observe_layers adapter set_digest kinds s in
      (s, observed_layer layer observation :: layers)
  end.

Definition run_ci_layers {S} (m : ReleaseManifestV2) (adapter : CiAdapter S) (s : S) :
    S * result ReleaseManifestV2 ReleaseError :=
  if negb (bool_decide (rm_status m = StCandidate) || bool_decide (rm_status m = StBlocked))
  then (s, Err ReleaseBlocked)
  else
    match rm_artifact_set_digest m with
    | None => (s, Err ReleaseInvalid)
    | Some set_digest =>
        let (s, layers) := observe_layers adapter set_digest required_layers s in
        let blocked := existsb (layer_blocks set_digest) layers in
        let m := set_release_gate_refs (omap vl_gate_ref layers) (set_verification_layers layers m) in
        let m := set_status (if blocked then StBlocked else StCandidate) m in
        (s, seal_manifest (bump m))
    end.

(** ** Signing *)

(** [by_key.get(..)]: of the artifacts of one key the last one collected. *)
Definition unsigned_for (entry : ReleaseArtifactV2) (unsigned : list ArtifactBytes) :
    option ArtifactBytes :=
  find (λ a, String.eqb (ab_logical_name a) (ra_logical_name entry)
             && bool_decide (ab_architecture a = ra_architecture entry)) (rev unsigned).

Fixpoint sign_all {S} (signer : SignerAdapter S) (unsigned : list ArtifactBytes)
    (entries : list ReleaseArtifactV2) (s : S) :
    S * result (list (ArtifactBytes * string)) ReleaseError :=
  match entries with
  | [] => (s, Ok [])
  | entry :: entries =>
      match unsigned_for entry unsigned with
      | None => (s, Err ReleaseConflict)
      | Some artifact =>
          match signer entry (ab_bytes artifact) s with
          | (s, Err e) => (s, Err e)
          | (s, Ok signed) =>
              if String.eqb (sb_bytes signed) (ab_bytes artifact)
                 || blank (sb_signature_ref signed)
              then (s, Err ReleaseAdapter)
              else
                let (s, rest) := sign_all signer unsigned entries s in
                (s, let? rest := rest in
                    Ok (({| ab_logical_name := ab_logical_name artifact;
                            ab_role := ab_role artifact;
                            ab_architecture := ab_architecture artifact;
                            ab_media_type := ab_media_type artifact;
                            ab_bytes := sb_bytes signed |}, sb_signature_ref signed) :: rest))
          end
      end
  end.

Definition signing_complete (d : SupplyChainDecision) : SupplyChainDecision :=
  if bool_decide (sd_kind d = KindSigning)
  then {| sd_kind := sd_kind d; sd_state := ScComplete; sd_policy_ref := sd_policy_ref d;
          sd_evidence_ref := Some "signer-receipt-set";
          sd_reason := "final artifact bytes were signed" |}
  else d.

Definition signed_manifest (new_id : string) (m : ReleaseManifestV2)
    (entries : list ReleaseArtifactV2) (set_digest : Sha256Hash) (refs : list string) :
    ReleaseManifestV2 :=
  {| rm_schema_id := rm_schema_id m; rm_schema_version := rm_schema_version m;
     rm_release_manifest_id := new_id; rm_revision := 1;
     rm_supersedes := Some (rm_release_manifest_id m +:+ "@" +:+ pretty (rm_revision m));
     rm_product_id := rm_product_id m; rm_version := rm_version m; rm_channel := rm_channel m;
     rm_task_spec_ref := rm_task_spec_ref m; rm_scope_revision_ref := rm_scope_revision_ref m;
     rm_source_revisions := rm_source_revisions m;
     rm_identity_binding := rm_identity_binding m; rm_verification_layers := [];
     rm_build_invocation_refs := rm_build_invocation_refs m; rm_artifacts := entries;
     rm_artifact_set_digest := Some set_digest;
     rm_included_files_manifest_ref := rm_included_files_manifest_ref m;
     rm_metadata_refs := rm_metadata_refs m;
     rm_supply_chain_applicability := map signing_complete (rm_supply_chain_applicability m);
     rm_sbom_ref := rm_sbom_ref m; rm_provenance_ref := rm_provenance_ref m;
     rm_signature_refs := refs; rm_compatibility := rm_compatibility m;
     rm_validation_refs := rm_validation_refs m; rm_release_gate_refs := [];
     rm_remote_actions := []; rm_approval_request_refs := []; rm_remote_operation_refs := [];
     rm_before_remote_snapshot_refs := []; rm_after_remote_snapshot_refs := [];
     rm_rollback_plan_ref := rm_rollback_plan_ref m;
     rm_rollback_artifact_ref := rm_rollback_artifact_ref m;
     rm_user_data_policy := rm_user_data_policy m;
     rm_remaining_risks := sort_dedup (rm_remaining_risks m ++ [SIGNED_BYTES_RISK]);
     rm_external_gates := rm_external_gates m; rm_status := StCandidate;
     rm_manifest_fingerprint := rm_manifest_fingerprint m |}.

Definition sign_candidate {S} (new_id : string) (m : ReleaseManifestV2)
    (unsigned : list ArtifactBytes) (signer : SignerAdapter S) (s : S) :
    S * result (ReleaseManifestV2 * list ArtifactBytes) ReleaseError :=
  match verify_artifact_bytes m unsigned with
  | Err e => (s, Err e)
  | Ok _ =>
      let (s, signed) := sign_all signer unsigned (rm_artifacts m) s in
      (s, let? signed := signed in
          let signed_artifacts := map fst signed in
          let refs := sort_dedup (map snd signed) in
          let? entries := artifact_entries signed_artifacts in
          let? set_digest := artifact_set_digest entries in
          check bool_decide (Some set_digest = rm_artifact_set_digest m) else ReleaseConflict in
          let? sealed := seal_manifest (signed_manifest new_id m entries set_digest refs) in
          Ok (sealed, signed_artifacts))
  end.

(** ** Promotion *)

Definition evidence_ready (set_digest : Sha256Hash) (m : ReleaseManifestV2) : bool :=
  bool_decide (sort_dedup (map vl_layer (rm_verification_layers m)) = required_layers)
  && forallb (λ layer, negb (layer_blocks set_digest layer)) (rm_verification_layers m).

Definition supply_chain_ready (m : ReleaseManifestV2) : bool :=
  forallb (λ decision, bool_decide (sd_state decision = NotRequired)
                       || bool_decide (sd_state decision = ScComplete))
    (rm_supply_chain_applicability m).

Definition x64_ready (m : ReleaseManifestV2) : bool :=
  existsb (λ target, bool_decide (ct_architecture target = X64)
                     && bool_decide (ct_support_tier target = TierStable)
                     && bool_decide (ct_runtime_verification target = NativeVerified)
                     && negb (len (ct_evidence_refs target) =? 0)%N)
    (rm_compatibility m).

Definition arm64_ready (m : ReleaseManifestV2) : bool :=
  existsb (λ target, bool_decide (ct_architecture target = Arm64)
                     && bool_decide (ct_support_tier target = TierPreview)
                     && bool_decide (ct_runtime_verification target = NativeUnverified)
                     && negb (len (ct_evidence_refs target) =? 0)%N
                     && existsb (String.eqb "native_unverified") (ct_limitations target))
    (rm_compatibility m).

Definition promote_ready (m : ReleaseManifestV2) : result ReleaseManifestV2 ReleaseError :=
  let? set_digest := ok_or (rm_artifact_set_digest m) ReleaseInvalid in
  let promoted :=
    if negb (len (rm_external_gates m) =? 0)%N then set_status StBlockedExternal m
    else if evidence_ready set_digest m && supply_chain_ready m && x64_ready m && arm64_ready m
    then set_remaining_risks
           (filter (λ risk, risk ≠ SIGNED_BYTES_RISK) (rm_remaining_risks m))
           (set_status StReady m)
    else set_status StBlocked m in
  seal_manifest (bump promoted).

(** ** Publication *)

Definition publish_action (approval : ApprovalId) (set_digest : Sha256Hash)
    (destination before_snapshot_ref : string) : ReleaseRemoteAction :=
  {| ac_action_id := "github-release-publish";
     ac_kind := ActPublish;
     ac_provider := "github";
     ac_destination := destination;
     ac_immutable_subject_digest := set_digest;
     ac_state := RaApproved;
     ac_approval_request_ref := Some approval;
     ac_before_snapshot_ref := Some before_snapshot_ref;
     ac_after_snapshot_ref := None;
     ac_receipt_ref := None |}.

Definition approve_publish (m : ReleaseManifestV2) (approval : ApprovalId)
    (expected_digest : Sha256Hash) (destination before_snapshot_ref : string) :
    result ReleaseManifestV2 ReleaseError :=
  check negb (bool_decide (rm_status m = StReady))
    || negb (bool_decide (rm_artifact_set_digest m = Some expected_digest))
    || negb (String.eqb destination PUBLISH_DESTINATION)
    || blank before_snapshot_ref
  else ReleaseBlocked in
  let m := set_approval_request_refs (rm_approval_request_refs m ++ [approval]) m in
  let m := set_remote_actions (rm_remote_actions m ++
    [publish_action approval expected_digest destination before_snapshot_ref]) m in
  seal_manifest (bump (set_status StApproved m)).

Definition ac_with (a : ReleaseRemoteAction) (state : RemoteActionState)
    (after_snapshot_ref receipt_ref : option string) : ReleaseRemoteAction :=
  {| ac_action_id := ac_action_id a;
     ac_kind := ac_kind a;
     ac_provider := ac_provider a;
     ac_destination := ac_destination a;
     ac_immutable_subject_digest := ac_immutable_subject_digest a;
     ac_state := state;
     ac_approval_request_ref := ac_approval_request_ref a;
     ac_before_snapshot_ref := ac_before_snapshot_ref a;
     ac_after_snapshot_ref := after_snapshot_ref;
     ac_receipt_ref := receipt_ref |}.

Definition ac_set_state (state : RemoteActionState) (a : ReleaseRemoteAction) :
    ReleaseRemoteAction :=
  ac_with a state (ac_after_snapshot_ref a) (ac_receipt_ref a).

(** The observation applied to [remote_actions[0]] and the manifest; [action]
    is that element and [rest] the others. *)
Definition apply_publish_observation (m : ReleaseManifestV2) (action : ReleaseRemoteAction)
    (rest : list ReleaseRemoteAction) (observation : PublishObservation) : ReleaseManifestV2 :=
  match observation with
  | PubVerified set_digest snapshot_ref =>
      let published := bool_decide (Some set_digest = rm_artifact_set_digest m) in
      set_status (if published then StPublished else StRollbackRequired)
        (set_after_remote_snapshot_refs (rm_after_remote_snapshot_refs m ++ [snapshot_ref])
          (set_remote_actions
            (ac_with action (if published then RaVerified else RaRollbackRequired)
               (Some snapshot_ref) (ac_receipt_ref action) :: rest) m))
  | PubPartial receipt_ref =>
      set_status StRollbackRequired
        (set_remote_actions
          (ac_with action RaRollbackRequired (ac_after_snapshot_ref action) (Some receipt_ref)
             :: rest) m)
  | PubTimeout =>
      set_status StPublishOutcomeUnknown
        (set_remote_actions (ac_set_state RaOutcomeUnknown action :: rest) m)
  | PubFailed =>
      set_status StReady (set_remote_actions (ac_set_state RaFailed action :: rest) m)
  end.

(** [publish], and [reconcile] after a timeout. *)
Definition observe_publication {S} (port : ReleasePublisherPort S) (m : ReleaseManifestV2) (s : S) :
    S * PublishObservation :=
  match publish port m s with
  | (s, PubTimeout) => reconcile port m s
  | (s, observation) => (s, observation)
  end.

Definition publish_with_reconcile {S} (m : ReleaseManifestV2) (port : ReleasePublisherPort S)
    (s : S) : S * result ReleaseManifestV2 ReleaseError :=
  match rm_remote_actions m with
  | [action] =>
      if negb (bool_decide (rm_status m = StApproved)) then (s, Err ReleaseBlocked)
      else
        let action := ac_set_state RaRunning action in
        let m := set_remote_actions [action] (set_status StPublishing m) in
        let (s, observation) := observe_publication port m s in
        (s, seal_manifest (bump (apply_publish_observation m action [] observation)))
  | _ => (s, Err ReleaseBlocked)
  end.

(** ** Supply-chain evidence *)

Definition wrong_evidence (m : ReleaseManifestV2) (source_fingerprint : Sha256Hash)
    (o : SupplyChainProviderObservationV1) (expected_kind : SupplyChainProviderKindV1) : bool :=
  let evidence := so_evidence o in
  negb (bool_decide (so_provider_kind o = expected_kind))
  || negb (bool_decide (ee_completeness evidence = Complete))
  || negb (String.eqb (ee_config_fingerprint evidence)
             (ib_config_fingerprint (rm_identity_binding m)))
  || negb (String.eqb (ee_source_fingerprint evidence) source_fingerprint)
  || negb (mem (ee_environment_fingerprint evidence)
             (ib_environment_fingerprints (rm_identity_binding m)))
  || negb (existsb (λ source, String.eqb (sr_project_id source) (ee_project_id evidence))
             (rm_source_revisions m)).

(** One iteration of the loop over the two observations. *)
Definition check_evidence (m : ReleaseManifestV2) (source_fingerprint : Sha256Hash)
    (o : SupplyChainProviderObservationV1) (expected_kind : SupplyChainProviderKindV1) :
    result unit ReleaseError :=
  let? _ := map_err (λ _, ReleaseInvalid) (so_validate o) in
  check wrong_evidence m source_fingerprint o expected_kind else ReleaseBlocked in
  Ok tt.

Definition evidence_artifact (o : SupplyChainProviderObservationV1) : result string ReleaseError :=
  match ee_normalized_artifact_ref (so_evidence o), ee_raw_artifact_ref (so_evidence o) with
  | Some artifact, _ | None, Some artifact => Ok (Evidence.ar_artifact_id artifact)
  | None, None => Err ReleaseInvalid
  end.

Definition bind_evidence (sbom_ref provenance_ref : string) (d : SupplyChainDecision) :
    SupplyChainDecision :=
  let bound evidence_ref :=
    {| sd_kind := sd_kind d; sd_state := ScComplete; sd_policy_ref := sd_policy_ref d;
       sd_evidence_ref := Some evidence_ref; sd_reason := sd_reason d |} in
  match sd_kind d with
  | KindSbom => bound sbom_ref
  | KindProvenance => bound provenance_ref
  | KindSigning => d
  end.

Definition bind_release_supply_chain_provider_evidence (m : ReleaseManifestV2)
    (sbom provenance : SupplyChainProviderObservationV1) :
    result ReleaseManifestV2 ReleaseError :=
  let? source_fingerprint := map_err (λ _, ReleaseInvalid)
    (versioned_fingerprint "star.release-source-revisions" 1
       (to_json (rm_source_revisions m))) in
  let? _ := check_evidence m source_fingerprint sbom Sbom in
  let? _ := check_evidence m source_fingerprint provenance Provenance in
  let? sbom_ref := evidence_artifact sbom in
  let? provenance_ref := evidence_artifact provenance in
  let m := set_provenance_ref (Some provenance_ref) (set_sbom_ref (Some sbom_ref) m) in
  seal_manifest (set_supply_chain_applicability
    (map (bind_evidence sbom_ref provenance_ref) (rm_supply_chain_applicability m)) m).

(** ** Verification of a manifest *)

Definition verify_release_manifest (m : ReleaseManifestV2) : result unit ReleaseError :=
  check negb (String.eqb (rm_schema_id m) RELEASE_MANIFEST_V2_SCHEMA_ID)
    || negb (rm_schema_version m =? 2)%N
    || (rm_revision m =? 0)%N
    || (len (rm_artifacts m) =? 0)%N
    || negb (token (rm_product_id m) 96)
    || negb (token (rm_version m) 96)
    || negb (token (rm_channel m) 64)
  else ReleaseInvalid in
  let artifacts := sort_dedup (rm_artifacts m) in
  let? set_digest := artifact_set_digest artifacts in
  check negb (bool_decide (artifacts = rm_artifacts m))
    || negb (bool_decide (rm_artifact_set_digest m = Some set_digest))
  else ReleaseConflict in
  check negb (distinct_count (map vl_layer (rm_verification_layers m))
              =? len (rm_verification_layers m))%N
    || negb (distinct_count (map sd_kind (rm_supply_chain_applicability m))
             =? len (rm_supply_chain_applicability m))%N
    || negb (distinct_count (map ct_architecture (rm_compatibility m))
             =? len (rm_compatibility m))%N
    || existsb (λ action, negb (String.eqb (ac_immutable_subject_digest action) set_digest))
         (rm_remote_actions m)
  else ReleaseConflict in
  let? sealed := seal_manifest m in
  check negb (String.eqb (rm_manifest_fingerprint sealed) (rm_manifest_fingerprint m))
  else ReleaseConflict in
  Ok tt.

End candidate.

(** ** Build-once store *)

Definition BuildOnceStore : Type := gmap string Sha256Hash.

Definition build_once_insert (store : BuildOnceStore) (m : ReleaseManifestV2) :
    BuildOnceStore * result bool ReleaseError :=
  match rm_artifact_set_digest m with
  | None => (store, Err ReleaseInvalid)
  | Some set_digest =>
      match store !! rm_release_manifest_id m with
      | Some existing =>
          if String.eqb existing set_digest then (store, Ok false) else (store, Err ReleaseConflict)
      | None => (<[rm_release_manifest_id m := set_digest]> store, Ok true)
      end
  end.
