(* ===== verification/CandidateFacts.v ===== *)
(** * Properties of release candidates *)
From stdpp Require Import pretty.
From S2P Require Import Prelude Canonical Toy Contracts Development ReleaseLifecycle ReleaseManifest.
From S2P Require Import ExternalAnalysis ExternalObservations Candidate.

Definition artifact_key (a : ReleaseArtifactV2) : string * ReleaseArchitecture :=
  (ra_logical_name a, ra_architecture a).

Lemma artifact_cmp_fields a b : cmp a b = cmp (artifact_fields a) (artifact_fields b).
Proof. reflexivity. Qed.

Section artifacts.
Context `{Platform}.

(** ** Artifact entries *)

Lemma artifact_entry_source a e :
  artifact_entry a = Ok e →
  e = {| ra_logical_name := ab_logical_name a; ra_role := ab_role a;
         ra_architecture := ab_architecture a; ra_size := slen (ab_bytes a);
         ra_media_type := ab_media_type a; ra_sha256 := digest (ab_bytes a) |} ∧
  (0 < ra_size e)%N.
Proof.
  unfold artifact_entry. intros He. next_check He. injection He as <-. split; [done|].
  bool_to_prop. simpl. unfold slen. destruct (ab_bytes a); [done|simpl; lia].
Qed.

(** The artifact entries of a candidate are the given artifacts, one entry
    each with the size and the digest of its bytes; and if artifacts of one
    name have one role, no two entries share name and architecture. *)
Theorem artifact_entries_sound artifacts entries
    (Hentries : artifact_entries artifacts = Ok entries) :
  (∃ l, entries ≡ₚ l ∧ Forall2 (λ a e, artifact_entry a = Ok e) artifacts l) ∧
  ((∀ a b, a ∈ entries → b ∈ entries → ra_logical_name a = ra_logical_name b →
     ra_role a = ra_role b) →
   NoDup (map artifact_key entries)).
Proof.
  unfold artifact_entries in Hentries. next_check Hentries.
  destruct (map_result artifact_entry artifacts) as [l|] eqn:Hl; [|done].
  next_check Hentries. injection Hentries as <-. split.
  { exists l. split; [apply sort_by_perm|]. by apply map_result_Forall2. }
  intros Hrole. pose proof (sort_by_sorted cmp_leb cmp_leb_total cmp_leb_trans l) as Hsort.
  revert Hrole Hsort Heqb0. generalize (sort_by cmp_leb l). clear. intros l Hrole Hsort Hwin.
  assert (windows2_any (λ a b, cmp_leb (artifact_key b) (artifact_key a)) l = false) as Hstrict.
  { induction Hsort as [|a [|b l] Hsort IH Hall]; try done.
    cbn [windows2_any] in Hwin |- *. apply orb_false_iff in Hwin as [Hab Hwin].
    apply orb_false_iff. split; [|apply IH; [|done]; set_solver].
    apply Forall_cons in Hall as [Hle _].
    specialize (Hrole a b ltac:(set_solver) ltac:(set_solver)).
    unfold artifact_key, cmp_leb in *. rewrite artifact_cmp_fields in Hle.
    unfold artifact_fields in Hle. do 2 cmp_pair_in Hle. cmp_pair_in Hle. cmp_pair_goal.
    rewrite (cmp_antisym (ra_logical_name a)).
    destruct (cmp (ra_logical_name a) (ra_logical_name b)) eqn:En; try done; simpl.
    apply cmp_eq_iff in En. rewrite Hrole, cmp_refl in Hle by done.
    rewrite En, String.eqb_refl in Hab. simpl in Hab. bool_to_prop.
    rewrite (cmp_antisym (ra_architecture a)).
    destruct (cmp (ra_architecture a) (ra_architecture b)) eqn:Ea; try done.
    by apply cmp_eq_iff in Ea. }
  clear -Hstrict. apply strict_NoDup.
  apply windows2_strict. revert Hstrict. clear.
  induction l as [|a [|b l] IH]; try done. cbn [windows2_any map]. intros Hw.
  apply orb_false_iff in Hw as [-> Hw]. simpl. by apply IH.
Qed.

End artifacts.

(** ** Sample artifacts *)

Definition commit40 : string := "0123456789012345678901234567890123456789".

Definition sample_decision (kind : SupplyChainKind) : SupplyChainDecision :=
  {| sd_kind := kind; sd_state := NotRequired; sd_policy_ref := "policy"; sd_evidence_ref := None;
     sd_reason := "sample" |}.

Definition sample_target (architecture : ReleaseArchitecture) : ReleaseCompatibilityTarget :=
  {| ct_architecture := architecture;
     ct_support_tier := match architecture with X64 => TierStable | Arm64 => TierPreview end;
     ct_runtime_verification :=
       match architecture with X64 => NativeVerified | Arm64 => NativeUnverified end;
     ct_minimum_windows_build := 22000; ct_evidence_refs := ["evidence"];
     ct_limitations := match architecture with X64 => [] | Arm64 => ["native_unverified"] end |}.

Definition sample_input : ReleaseCandidateInput :=
  {| ci_product_id := "star-control"; ci_version := "0.1.0"; ci_channel := "github_releases";
     ci_task_spec_ref := "tsk_1"; ci_scope_revision_ref := "scp_1";
     ci_source_revisions := [{| sr_project_id := "prj_1"; sr_revision := commit40 |}];
     ci_identity_binding :=
       {| ib_config_fingerprint := "config"; ib_catalog_fingerprint := "catalog";
          ib_tool_descriptor_fingerprints := []; ib_profile_fingerprint := "profile";
          ib_environment_fingerprints := ["environment"] |};
     ci_build_invocation_refs := ["inv_1"]; ci_included_files_manifest_ref := "files";
     ci_metadata_refs := []; ci_supply_chain_applicability := map sample_decision required_kinds;
     ci_compatibility := [sample_target X64; sample_target Arm64]; ci_validation_refs := [];
     ci_rollback_plan_ref := "plan"; ci_rollback_artifact_ref := None;
     ci_user_data_policy := "preserve"; ci_remaining_risks := []; ci_external_gates := [] |}.

Section samples.
Context `{Platform}.

Definition setup_bytes (architecture : ReleaseArchitecture) (role bytes : string) : ArtifactBytes :=
  {| ab_logical_name := "setup"; ab_role := role; ab_architecture := architecture;
     ab_media_type := "application/octet-stream"; ab_bytes := bytes |}.

Definition setup_entry (architecture : ReleaseArchitecture) (role bytes : string) :
    ReleaseArtifactV2 :=
  {| ra_logical_name := "setup"; ra_role := role; ra_architecture := architecture;
     ra_size := slen bytes; ra_media_type := "application/octet-stream";
     ra_sha256 := digest bytes |}.

Definition two_setups : list ArtifactBytes :=
  [setup_bytes X64 "installer" "MZ-x64"; setup_bytes Arm64 "installer" "MZ-arm64"].

Definition three_setups : list ArtifactBytes :=
  [setup_bytes X64 "a" "MZ-1"; setup_bytes Arm64 "a" "MZ-2"; setup_bytes X64 "b" "MZ-3"].

(** The duplicate check of a candidate compares neighbours in the order of
    name, role and architecture: two artifacts of one name and architecture
    are accepted when an entry of the other architecture stands between. *)
Theorem duplicate_artifacts_accepted :
  ∃ entries a b,
    artifact_entries three_setups = Ok entries ∧ a ∈ entries ∧ b ∈ entries ∧ a ≠ b ∧
    artifact_key a = artifact_key b.
Proof.
  exists [setup_entry X64 "a" "MZ-1"; setup_entry Arm64 "a" "MZ-2"; setup_entry X64 "b" "MZ-3"],
    (setup_entry X64 "a" "MZ-1"), (setup_entry X64 "b" "MZ-3").
  split; [reflexivity|]. split; [left|]. split; [do 2 right; left|]. split; [discriminate|].
  reflexivity.
Qed.

End samples.

Definition one_setup : list ArtifactBytes := [setup_bytes X64 "installer" "MZ"].
Definition one_entry : list ReleaseArtifactV2 := [setup_entry X64 "installer" "MZ"].

Lemma artifact_entries_sound_witness :
  artifact_entries one_setup = Ok one_entry ∧
  ∃ l, one_entry ≡ₚ l ∧ Forall2 (λ a e, artifact_entry a = Ok e) one_setup l.
Proof.
  assert (artifact_entries one_setup = Ok one_entry) as He by reflexivity.
  split; [exact He|]. exact (proj1 (artifact_entries_sound one_setup one_entry He)).
Defined.
