(* ===== verification/ReleaseMachine.v ===== *)
(** * The life of a release manifest

    The operations of [Candidate.v] as a step relation between manifests, what
    every manifest derived from a sealed candidate satisfies, and what the
    states promise: a published release was approved, verified and observed.
    Each adapter may answer anything. *)
From stdpp Require Import pretty.
From S2P Require Import Prelude Canonical Toy Contracts Development ReleaseLifecycle ReleaseManifest.
From S2P Require Import ExternalAnalysis ExternalObservations Candidate CandidateFacts.

Inductive release_op := OpCi | OpSign | OpPromote | OpApprove | OpPublish | OpBind.

Section machine.
Context `{Platform}.

(** One accepted operation. *)
Inductive release_step : release_op → ReleaseManifestV2 → ReleaseManifestV2 → Prop :=
| step_ci {S} (adapter : CiAdapter S) s s' m m' :
    run_ci_layers m adapter s = (s', Ok m') → release_step OpCi m m'
| step_sign {S} (signer : SignerAdapter S) id unsigned signed s s' m m' :
    sign_candidate id m unsigned signer s = (s', Ok (m', signed)) → release_step OpSign m m'
| step_promote m m' : promote_ready m = Ok m' → release_step OpPromote m m'
| step_approve approval expected destination before m m' :
    approve_publish m approval expected destination before = Ok m' → release_step OpApprove m m'
| step_publish {S} (port : ReleasePublisherPort S) s s' m m' :
    publish_with_reconcile m port s = (s', Ok m') → release_step OpPublish m m'
| step_bind sbom provenance m m' :
    bind_release_supply_chain_provider_evidence m sbom provenance = Ok m' →
    release_step OpBind m m'.

Definition any_step (m m' : ReleaseManifestV2) : Prop := ∃ op, release_step op m m'.

(** Derived from the candidate of [input]. *)
Definition derived (input : ReleaseCandidateInput) (m : ReleaseManifestV2) : Prop :=
  ∃ id artifacts m0, seal_candidate id input artifacts = Ok m0 ∧ rtc any_step m0 m.

(** ** The invariant *)

Definition release_ready (set_digest : Sha256Hash) (m : ReleaseManifestV2) : Prop :=
  rm_external_gates m = [] ∧ evidence_ready set_digest m = true ∧ supply_chain_ready m = true ∧
  x64_ready m = true ∧ arm64_ready m = true.

(** The states after promotion. *)
Definition promoted (s : ReleaseStatus) : bool :=
  match s with
  | StReady | StApproved | StPublishOutcomeUnknown | StPublished | StRollbackRequired => true
  | _ => false
  end.

Definition action_approved (set_digest : Sha256Hash) (m : ReleaseManifestV2)
    (a : ReleaseRemoteAction) : Prop :=
  ac_kind a = ActPublish ∧ ac_destination a = PUBLISH_DESTINATION ∧
  ac_immutable_subject_digest a = set_digest ∧
  (∃ approval, ac_approval_request_ref a = Some approval ∧ approval ∈ rm_approval_request_refs m) ∧
  (∃ before, ac_before_snapshot_ref a = Some before ∧ blank before = false).

Definition published_by (m : ReleaseManifestV2) (a : ReleaseRemoteAction) : Prop :=
  rm_remote_actions m = [a] ∧ ac_state a = RaVerified ∧
  ∃ snapshot, ac_after_snapshot_ref a = Some snapshot ∧ snapshot ∈ rm_after_remote_snapshot_refs m.

Record manifest_ok (set_digest : Sha256Hash) (m : ReleaseManifestV2) : Prop := {
  mo_schema : rm_schema_id m = RELEASE_MANIFEST_V2_SCHEMA_ID ∧ rm_schema_version m = 2%N;
  mo_revision : rm_revision m ≠ 0%N;
  mo_digest : artifact_set_digest (rm_artifacts m) = Ok set_digest ∧
    rm_artifact_set_digest m = Some set_digest;
  mo_artifacts : strictly_sorted (rm_artifacts m) ∧ rm_artifacts m ≠ [];
  mo_layers : NoDup (map vl_layer (rm_verification_layers m));
  mo_actions : Forall (action_approved set_digest m) (rm_remote_actions m);
  mo_ready : promoted (rm_status m) = true → release_ready set_digest m;
  mo_published : rm_status m = StPublished → ∃ a, published_by m a;
  mo_sealed : seal_manifest m = Ok m
}.

(** What no operation changes. *)
Definition same_statics (m m' : ReleaseManifestV2) : Prop :=
  rm_product_id m' = rm_product_id m ∧ rm_version m' = rm_version m ∧
  rm_channel m' = rm_channel m ∧ rm_compatibility m' = rm_compatibility m ∧
  rm_external_gates m' = rm_external_gates m ∧
  map sd_kind (rm_supply_chain_applicability m') = map sd_kind (rm_supply_chain_applicability m).

#[export] Instance same_statics_refl : Reflexive same_statics.
Proof. by intros m. Qed.

#[export] Instance same_statics_trans : Transitive same_statics.
Proof. intros m1 m2 m3 (?&?&?&?&?&?) (?&?&?&?&?&?). unfold same_statics. split_and!; congruence. Qed.

(** ** Sealing *)

Lemma seal_manifest_ok m m' :
  seal_manifest m = Ok m' → ∃ fp, m' = set_manifest_fingerprint fp m ∧ seal_manifest m' = Ok m'.
Proof.
  unfold seal_manifest at 1. intros Hs. destruct (map_err _ _) as [fp|] eqn:Hf; [|done].
  injection Hs as <-. exists fp. split; [done|]. unfold seal_manifest.
  assert (rm_payload (set_manifest_fingerprint fp m) = rm_payload m) as -> by reflexivity.
  by rewrite Hf.
Qed.

(** The invariant does not read the fingerprint. *)
Lemma manifest_ok_seal d m m' :
  seal_manifest m = Ok m' → (seal_manifest m' = Ok m' → manifest_ok d (set_manifest_fingerprint
    (rm_manifest_fingerprint m') m)) → manifest_ok d m'.
Proof.
  intros Hs Hok. destruct (seal_manifest_ok m m' Hs) as (fp & -> & Hs'). by apply Hok in Hs'.
Qed.

(** ** Entries *)

Lemma sorted_entries (l : list ReleaseArtifactV2) :
  StronglySorted (λ a b, cmp_leb a b = true) l →
  windows2_any (λ a b, String.eqb (ra_logical_name a) (ra_logical_name b)
    && bool_decide (ra_architecture a = ra_architecture b)) l = false → strictly_sorted l.
Proof.
  intros Hs Hw. apply windows2_strict.
  induction Hs as [|a [|b l] Hs IH Hall]; try done.
  cbn [windows2_any] in Hw |- *. apply orb_false_iff in Hw as [Hab Hw].
  apply orb_false_iff. split; [|by apply IH].
  apply not_true_iff_false. intros Hba. apply Forall_cons in Hall as [Hle _].
  assert (a = b) as -> by by apply cmp_leb_antisym.
  by rewrite String.eqb_refl, bool_decide_eq_true_2 in Hab.
Qed.

Lemma artifact_entries_strict artifacts entries :
  artifact_entries artifacts = Ok entries → strictly_sorted entries ∧ entries ≠ [].
Proof.
  unfold artifact_entries. intros He. next_check He.
  destruct (map_result artifact_entry artifacts) as [l|] eqn:Hl; [|done].
  next_check He. injection He as <-. split.
  - apply sorted_entries; [|done]. apply sort_by_sorted; [apply cmp_leb_total|apply cmp_leb_trans].
  - intros Hnil. apply map_result_Forall2, Forall2_length in Hl.
    assert (length (sort_by cmp_leb l) = 0) as H0 by by rewrite Hnil.
    rewrite sort_by_length in H0. bool_to_prop. unfold len in *. lia.
Qed.

(** ** Each operation *)

Lemma seal_candidate_ok id input artifacts m :
  seal_candidate id input artifacts = Ok m →
  (∃ d, manifest_ok d m) ∧ validate_candidate_input input = Ok tt ∧
  rm_product_id m = ci_product_id input ∧ rm_version m = "0.1.0" ∧
  rm_channel m = "github_releases" ∧ rm_compatibility m = ci_compatibility input ∧
  rm_external_gates m = ci_external_gates input ∧
  rm_supply_chain_applicability m = ci_supply_chain_applicability input.
Proof.
  unfold seal_candidate. intros Hs.
  destruct (validate_candidate_input input) as [[]|] eqn:Hi; [|done].
  destruct (artifact_entries artifacts) as [entries|] eqn:He; [|done].
  destruct (artifact_set_digest entries) as [d|] eqn:Hd; [|done].
  assert (ci_version input = "0.1.0" ∧ ci_channel input = "github_releases") as [Hv Hc].
  { unfold validate_candidate_input in Hi. next_check Hi. by bool_to_prop. }
  split; [|destruct (seal_manifest_ok _ _ Hs) as (fp & -> & _); by split_and!].
  exists d. eapply manifest_ok_seal; [exact Hs|].
  destruct (artifact_entries_strict _ _ He) as [Hst Hne].
  destruct (seal_manifest_ok _ _ Hs) as (fp & -> & _). intros Hs'.
  split; cbn; try done; try (by constructor); unfold candidate_status; repeat case_match; done.
Qed.

(** An operation that keeps the artifacts, written as a change of the other
    fields. *)
Lemma manifest_ok_keep d m m1 m' :
  manifest_ok d m → seal_manifest m1 = Ok m' →
  rm_schema_id m1 = rm_schema_id m → rm_schema_version m1 = rm_schema_version m →
  rm_revision m1 ≠ 0%N →
  rm_artifacts m1 = rm_artifacts m → rm_artifact_set_digest m1 = rm_artifact_set_digest m →
  NoDup (map vl_layer (rm_verification_layers m1)) →
  Forall (action_approved d m1) (rm_remote_actions m1) →
  (promoted (rm_status m1) = true → release_ready d m1) →
  (rm_status m1 = StPublished → ∃ a, published_by m1 a) → manifest_ok d m'.
Proof.
  intros [Hs Hr Hd Ha Hl Hact Hrd Hp Hse] Hseal E1 E2 E3 E4 E5 Hl' Hact' Hrd' Hp'.
  destruct (seal_manifest_ok _ _ Hseal) as (fp & -> & Hs').
  split; cbn; rewrite ?E1, ?E2, ?E4, ?E5; try done.
Qed.

Lemma bump_nonzero m : rm_revision (bump m) ≠ 0%N.
Proof. change (N.min u64_max (rm_revision m + 1) ≠ 0)%N. assert (0 < u64_max)%N by done. lia. Qed.

Lemma observe_layers_kinds {S} (adapter : CiAdapter S) d kinds s :
  map vl_layer (observe_layers adapter d kinds s).2 = kinds.
Proof.
  revert s. induction kinds as [|k kinds IH]; intros s; simpl; [done|].
  destruct (adapter k d s) as [s1 o]. specialize (IH s1).
  destruct (observe_layers adapter d kinds s1) as [s2 layers]. simpl in *. by rewrite IH.
Qed.

Lemma required_layers_NoDup : NoDup required_layers.
Proof. apply (bool_decide_unpack _). vm_compute. exact I. Qed.

Lemma run_ci_ok {S} (adapter : CiAdapter S) s s' m m' :
  run_ci_layers m adapter s = (s', Ok m') →
  same_statics m m' ∧ rm_remote_actions m' = rm_remote_actions m ∧
  promoted (rm_status m) = false ∧ promoted (rm_status m') = false ∧
  (∀ d, manifest_ok d m → manifest_ok d m').
Proof.
  unfold run_ci_layers. intros Hr. destruct (negb _) eqn:Est; [done|].
  destruct (rm_artifact_set_digest m) as [d0|] eqn:Ed; [|done].
  pose proof (observe_layers_kinds adapter d0 required_layers s) as Hk.
  destruct (observe_layers _ _ _ _) as [s1 layers]. simpl in Hk. injection Hr as _ Hs.
  destruct (seal_manifest_ok _ _ Hs) as (fp & Heq & _). split; [by subst|]. split; [by subst|].
  split; [by bool_to_prop; destruct (rm_status m)|].
  split; [subst m'; cbn; by destruct (existsb _ _)|].
  intros d Hok. eapply manifest_ok_keep; [exact Hok|exact Hs|done|done| |done|done|..]; cbn.
  - apply (bump_nonzero m).
  - rewrite Hk. apply required_layers_NoDup.
  - apply (mo_actions _ _ Hok).
  - by destruct (existsb _ _).
  - by destruct (existsb _ _).
Qed.

Lemma signing_kinds l : map sd_kind (map signing_complete l) = map sd_kind l.
Proof.
  induction l as [|d l IH]; simpl; [done|]. rewrite IH. f_equal. unfold signing_complete.
  by case_bool_decide.
Qed.

(** What [sign_candidate] returns. *)
Lemma sign_ok {S} (signer : SignerAdapter S) id unsigned signed s s' m m' :
  sign_candidate id m unsigned signer s = (s', Ok (m', signed)) →
  ∃ entries d refs fp,
    verify_artifact_bytes m unsigned = Ok tt ∧ artifact_entries signed = Ok entries ∧
    artifact_set_digest entries = Ok d ∧ rm_artifact_set_digest m ≠ Some d ∧
    m' = set_manifest_fingerprint fp (signed_manifest id m entries d refs) ∧
    seal_manifest m' = Ok m'.
Proof.
  unfold sign_candidate. intros Hs.
  destruct (verify_artifact_bytes m unsigned) as [[]|] eqn:Hv; [|done].
  destruct (sign_all signer unsigned (rm_artifacts m) s) as [s1 [l|]]; [|done].
  apply (f_equal snd) in Hs. simpl in Hs.
  destruct (artifact_entries (map fst l)) as [entries|] eqn:He; [|done].
  destruct (artifact_set_digest entries) as [d|] eqn:Hd; [|done].
  next_check Hs. bool_to_prop.
  destruct (seal_manifest _) as [m1|] eqn:Hm; [|done].
  assert (m1 = m' ∧ map fst l = signed) as [-> <-] by (split; congruence).
  destruct (seal_manifest_ok _ _ Hm) as (fp & -> & Hs').
  exists entries, d, (sort_dedup (map snd l)), fp. by split_and!.
Qed.

Lemma sign_step {S} (signer : SignerAdapter S) id unsigned signed s s' m m' :
  sign_candidate id m unsigned signer s = (s', Ok (m', signed)) →
  same_statics m m' ∧ (∀ d, manifest_ok d m → ∃ d', manifest_ok d' m').
Proof.
  intros Hs. destruct (sign_ok _ _ _ _ _ _ _ _ Hs) as (entries & d & refs & fp & _ & He & Hd & _ & -> & Hs').
  split; [unfold same_statics; cbn; by rewrite signing_kinds|].
  intros d0 Hok. exists d. destruct (artifact_entries_strict _ _ He) as [Hst Hne].
  destruct (mo_schema _ _ Hok) as [Hsc1 Hsc2].
  split; cbn; try done; by constructor.
Qed.

Lemma promote_ok m m' :
  promote_ready m = Ok m' →
  ∃ d m1, rm_artifact_set_digest m = Some d ∧ seal_manifest (bump m1) = Ok m' ∧
    ((rm_external_gates m ≠ [] ∧ m1 = set_status StBlockedExternal m) ∨
     (rm_external_gates m = [] ∧ ¬ release_ready d m ∧ m1 = set_status StBlocked m) ∨
     (release_ready d m ∧ m1 = set_remaining_risks
        (filter (λ risk, risk ≠ SIGNED_BYTES_RISK) (rm_remaining_risks m)) (set_status StReady m))).
Proof.
  unfold promote_ready. intros Hp.
  destruct (rm_artifact_set_digest m) as [d|] eqn:Hd; simpl in Hp; [|done].
  exists d. eexists. split; [done|]. split; [exact Hp|]. unfold release_ready.
  destruct (rm_external_gates m) as [|g gs] eqn:Hg; simpl; [right|by left].
  destruct (evidence_ready d m && supply_chain_ready m && x64_ready m && arm64_ready m) eqn:E.
  - right. rewrite !andb_true_iff in E. destruct E as [[[? ?] ?] ?]. done.
  - left. split; [done|]. split; [|done]. intros (_ & E1 & E2 & E3 & E4).
    by rewrite E1, E2, E3, E4 in E.
Qed.

Lemma action_approved_same d m m' a :
  rm_approval_request_refs m' = rm_approval_request_refs m →
  action_approved d m a → action_approved d m' a.
Proof. unfold action_approved. by intros ->. Qed.

Lemma promote_step m m' :
  promote_ready m = Ok m' →
  same_statics m m' ∧ rm_remote_actions m' = rm_remote_actions m ∧ rm_status m' ≠ StApproved ∧
  (∀ d, manifest_ok d m → manifest_ok d m').
Proof.
  intros Hp. destruct (promote_ok m m' Hp) as (d & m1 & Hd & Hs & Hcases).
  destruct (seal_manifest_ok _ _ Hs) as (fp & -> & _).
  split; [by destruct Hcases as [[_ ->]|[(_ & _ & ->)|(_ & ->)]]|].
  split; [by destruct Hcases as [[_ ->]|[(_ & _ & ->)|(_ & ->)]]|].
  split; [by destruct Hcases as [[_ ->]|[(_ & _ & ->)|(_ & ->)]]|].
  intros d' Hok.
  assert (d' = d) as -> by (destruct (mo_digest _ _ Hok) as [_ ?]; congruence).
  eapply manifest_ok_keep; [exact Hok|exact Hs|..]; try apply bump_nonzero;
    destruct Hcases as [[_ ->]|[(_ & _ & ->)|(Hready & ->)]]; cbn; try done;
    try apply (mo_layers _ _ Hok); try apply (mo_actions _ _ Hok).
Qed.

Lemma approve_step m approval expected destination before m' :
  approve_publish m approval expected destination before = Ok m' →
  same_statics m m' ∧ rm_status m = StReady ∧ rm_status m' = StApproved ∧
  length (rm_remote_actions m') = S (length (rm_remote_actions m)) ∧
  (∀ d, manifest_ok d m → manifest_ok d m').
Proof.
  unfold approve_publish. intros Ha. next_check Ha. bool_to_prop.
  destruct (seal_manifest_ok _ _ Ha) as (fp & Heq & _).
  split; [by rewrite Heq|]. split; [done|]. split; [by rewrite Heq|].
  split; [rewrite Heq; cbn; rewrite length_app; simpl; lia|].
  intros d Hok. assert (expected = d) as -> by (destruct (mo_digest _ _ Hok) as [_ ?]; congruence).
  eapply manifest_ok_keep; [exact Hok|exact Ha|..]; try done.
  - apply bump_nonzero.
  - apply (mo_layers _ _ Hok).
  - cbn. apply Forall_app. split.
    + eapply Forall_impl; [apply (mo_actions _ _ Hok)|]. unfold action_approved. cbn.
      intros a (? & ? & ? & (ap & ? & ?) & ?). split_and!; try done. exists ap. set_solver.
    + apply Forall_singleton. unfold action_approved. cbn. split_and!; try done.
      * exists approval. set_solver.
      * by exists before.
  - intros _. apply (mo_ready _ _ Hok). by replace (rm_status m) with StReady.
Qed.

(** The manifest the publisher is given. *)
Definition in_flight (m : ReleaseManifestV2) (action : ReleaseRemoteAction) : ReleaseManifestV2 :=
  set_remote_actions [ac_set_state RaRunning action] (set_status StPublishing m).

Lemma publish_ok {S} (port : ReleasePublisherPort S) s s' m m' :
  publish_with_reconcile m port s = (s', Ok m') →
  ∃ action, rm_remote_actions m = [action] ∧ rm_status m = StApproved ∧
    let o := observe_publication port (in_flight m action) s in
    s' = o.1 ∧
    seal_manifest (bump (apply_publish_observation (in_flight m action)
      (ac_set_state RaRunning action) [] o.2)) = Ok m'.
Proof.
  unfold publish_with_reconcile. intros Hp.
  destruct (rm_remote_actions m) as [|action [|? ?]] eqn:Ha; try done.
  destruct (bool_decide (rm_status m = StApproved)) eqn:Es; [|done]. simpl in Hp. bool_to_prop.
  exists action. split; [done|]. split; [done|]. unfold in_flight.
  destruct (observe_publication port _ s) as [s1 o]. by injection Hp as <- Hp.
Qed.

Lemma publish_step {S} (port : ReleasePublisherPort S) s s' m m' :
  publish_with_reconcile m port s = (s', Ok m') →
  same_statics m m' ∧ rm_status m = StApproved ∧ length (rm_remote_actions m) = 1 ∧
  length (rm_remote_actions m') = 1 ∧ (∀ d, manifest_ok d m → manifest_ok d m').
Proof.
  intros Hp. destruct (publish_ok _ _ _ _ _ Hp) as (action & Ha & Hst & _ & Hs).
  set (o := (observe_publication port (in_flight m action) s).2) in *. clearbody o.
  destruct (seal_manifest_ok _ _ Hs) as (fp & Heq & _).
  split; [rewrite Heq; by destruct o|]. split; [done|]. split; [by rewrite Ha|].
  split; [rewrite Heq; by destruct o|].
  intros d Hok.
  assert (release_ready d m) as Hready by (apply (mo_ready _ _ Hok); by rewrite Hst).
  pose proof (mo_actions _ _ Hok) as Hact. rewrite Ha, Forall_singleton in Hact.
  eapply manifest_ok_keep; [exact Hok|exact Hs|..]; try apply bump_nonzero; try by destruct o.
  - destruct o; apply (mo_layers _ _ Hok).
  - destruct o; apply Forall_singleton; exact Hact.
  - destruct o; cbn; try done. case_bool_decide; [|done]. intros _.
    eexists. split; [done|]. cbn. split; [done|]. eexists. split; [done|]. set_solver.
Qed.

Lemma bind_kinds sbom prov l : map sd_kind (map (bind_evidence sbom prov) l) = map sd_kind l.
Proof.
  induction l as [|d l IH]; simpl; [done|]. rewrite IH. f_equal. unfold bind_evidence.
  by destruct (sd_kind d) eqn:E.
Qed.

Lemma bind_step m sbom provenance m' :
  bind_release_supply_chain_provider_evidence m sbom provenance = Ok m' →
  same_statics m m' ∧ rm_remote_actions m' = rm_remote_actions m ∧ rm_status m' = rm_status m ∧
  (∀ d, manifest_ok d m → manifest_ok d m').
Proof.
  unfold bind_release_supply_chain_provider_evidence. intros Hb.
  destruct (map_err _ _) as [sf|] in Hb; [|done].
  destruct (check_evidence _ _ sbom _) as [[]|]; [|done].
  destruct (check_evidence _ _ provenance _) as [[]|]; [|done].
  destruct (evidence_artifact sbom) as [r1|]; [|done].
  destruct (evidence_artifact provenance) as [r2|]; [|done].
  destruct (seal_manifest_ok _ _ Hb) as (fp & Heq & _).
  split; [rewrite Heq; unfold same_statics; cbn; by rewrite bind_kinds|].
  split; [by rewrite Heq|]. split; [by rewrite Heq|]. intros d Hok.
  eapply manifest_ok_keep; [exact Hok|exact Hb|..]; try done; cbn; try by apply Hok.
  intros (Hg & He & Hsc & Hx & Ha)%(mo_ready _ _ Hok). split_and!; try done.
  unfold supply_chain_ready in *. cbn. rewrite forallb_true in *.
  intros x (y & -> & Hy)%list_elem_of_fmap. specialize (Hsc y Hy). simpl in Hsc.
  unfold bind_evidence. by destruct (sd_kind y).
Qed.

(** ** Every derived manifest *)

Lemma any_step_ok m m' :
  any_step m m' → same_statics m m' ∧ ((∃ d, manifest_ok d m) → ∃ d, manifest_ok d m').
Proof.
  intros [op Hstep]. destruct Hstep as [S ad s s' m m' Hr|S sg id un si s s' m m' Hr|m m' Hr
    |ap ex de be m m' Hr|S po s s' m m' Hr|sb pr m m' Hr].
  - apply run_ci_ok in Hr as (? & _ & _ & _ & Hok). split; [done|]. intros [d ?]. exists d. auto.
  - apply sign_step in Hr as [? Hok]. split; [done|]. intros [d ?]. eauto.
  - apply promote_step in Hr as (? & _ & _ & Hok). split; [done|]. intros [d ?]. exists d. auto.
  - apply approve_step in Hr as (? & _ & _ & _ & Hok). split; [done|]. intros [d ?]. exists d. auto.
  - apply publish_step in Hr as (? & _ & _ & _ & Hok). split; [done|]. intros [d ?]. exists d. auto.
  - apply bind_step in Hr as (? & _ & _ & Hok). split; [done|]. intros [d ?]. exists d. auto.
Qed.

Lemma derived_ok input m :
  derived input m →
  (∃ d, manifest_ok d m) ∧ validate_candidate_input input = Ok tt ∧
  rm_product_id m = ci_product_id input ∧ rm_version m = "0.1.0" ∧
  rm_channel m = "github_releases" ∧ rm_compatibility m = ci_compatibility input ∧
  rm_external_gates m = ci_external_gates input ∧
  map sd_kind (rm_supply_chain_applicability m)
    = map sd_kind (ci_supply_chain_applicability input).
Proof.
  intros (id & artifacts & m0 & Hs & Hsteps).
  apply seal_candidate_ok in Hs as (Hok & Hi & H1 & H2 & H3 & H4 & H5 & H6).
  assert (same_statics m0 m ∧ ∃ d, manifest_ok d m) as [(?&?&?&?&?&?) ?].
  { clear -Hsteps Hok. induction Hsteps as [m|m m1 m2 Hstep _ IH]; [done|].
    apply any_step_ok in Hstep as [Hst Hok']. destruct (IH (Hok' Hok)) as [Hst' ?].
    split; [by etrans|done]. }
  split; [done|]. rewrite <-H6. split_and!; congruence.
Qed.

Lemma layer_blocks_false d l :
  layer_blocks d l = false ↔
  vl_completeness l = EvComplete ∧ vl_artifact_set_digest l = Some d ∧
  is_some (vl_validation_run_ref l) = true ∧ is_some (vl_gate_ref l) = true.
Proof.
  unfold layer_blocks. rewrite !orb_false_iff, !negb_false_iff, !bool_decide_eq_true.
  destruct (vl_validation_run_ref l), (vl_gate_ref l); simpl; naive_solver.
Qed.

Lemma evidence_ready_spec d m :
  evidence_ready d m = true ↔
  sort_dedup (map vl_layer (rm_verification_layers m)) = required_layers ∧
  ∀ l, l ∈ rm_verification_layers m →
    vl_completeness l = EvComplete ∧ vl_artifact_set_digest l = Some d ∧
    is_some (vl_validation_run_ref l) = true ∧ is_some (vl_gate_ref l) = true.
Proof.
  unfold evidence_ready. rewrite andb_true_iff, bool_decide_eq_true, forallb_true.
  setoid_rewrite negb_true_iff. by setoid_rewrite layer_blocks_false.
Qed.

Lemma supply_chain_ready_spec m :
  supply_chain_ready m = true ↔
  ∀ x, x ∈ rm_supply_chain_applicability m → sd_state x = NotRequired ∨ sd_state x = ScComplete.
Proof.
  unfold supply_chain_ready. rewrite forallb_true. setoid_rewrite orb_true_iff.
  by setoid_rewrite bool_decide_eq_true.
Qed.

Lemma x64_ready_spec m :
  x64_ready m = true ↔
  ∃ t, t ∈ rm_compatibility m ∧ ct_architecture t = X64 ∧ ct_support_tier t = TierStable ∧
    ct_runtime_verification t = NativeVerified ∧ ct_evidence_refs t ≠ [].
Proof.
  unfold x64_ready. rewrite existsb_true. setoid_rewrite andb_true_iff.
  do 2 setoid_rewrite andb_true_iff. setoid_rewrite bool_decide_eq_true.
  setoid_rewrite negb_true_iff. setoid_rewrite <-len_zero. naive_solver.
Qed.

Lemma arm64_ready_spec m :
  arm64_ready m = true ↔
  ∃ t, t ∈ rm_compatibility m ∧ ct_architecture t = Arm64 ∧ ct_support_tier t = TierPreview ∧
    ct_runtime_verification t = NativeUnverified ∧ ct_evidence_refs t ≠ [] ∧
    "native_unverified" ∈ ct_limitations t.
Proof.
  unfold arm64_ready. rewrite existsb_true. setoid_rewrite andb_true_iff.
  do 3 setoid_rewrite andb_true_iff. setoid_rewrite bool_decide_eq_true.
  setoid_rewrite negb_true_iff. setoid_rewrite <-len_zero. setoid_rewrite existsb_true.
  setoid_rewrite String.eqb_eq. naive_solver.
Qed.

(** ** The properties *)

(** C3: a published release was approved, verified and observed: in every
    manifest derived from a candidate, whatever the adapters answered, the
    status is [Published] only with one remote action, verified, on the digest
    of the very artifacts, to the fixed destination, under a recorded approval
    and before snapshot and with a recorded after snapshot; and all four layers
    are complete on that digest, the supply chain is settled, both architectures
    are supported by evidence and no external gate is open. *)
Theorem published_is_verified input m
    (Hderived : derived input m) (Hpublished : rm_status m = StPublished) :
  ∃ set_digest action snapshot,
    artifact_set_digest (rm_artifacts m) = Ok set_digest ∧
    rm_artifact_set_digest m = Some set_digest ∧
    rm_remote_actions m = [action] ∧ ac_state action = RaVerified ∧
    action_approved set_digest m action ∧
    ac_after_snapshot_ref action = Some snapshot ∧ snapshot ∈ rm_after_remote_snapshot_refs m ∧
    release_ready set_digest m.
Proof.
  destruct (derived_ok input m Hderived) as [[d Hok] _].
  destruct (mo_published _ _ Hok Hpublished) as (a & Ha & Hst & snapshot & Hsn & Hin).
  destruct (mo_digest _ _ Hok) as [Hd1 Hd2]. exists d, a, snapshot. split_and!; try done.
  - pose proof (mo_actions _ _ Hok) as Hact. by rewrite Ha, Forall_singleton in Hact.
  - apply (mo_ready _ _ Hok). by rewrite Hpublished.
Qed.

(** The outcome of a publication is the observation: the publisher is asked
    once, and asked to reconcile exactly when the answer was a timeout; the
    release is published exactly when the observed digest is the manifest's,
    ready again exactly on a failure, of unknown outcome exactly on a timeout
    of the reconciliation, and to be rolled back otherwise. *)
Theorem publication_follows_observation {S} (port : ReleasePublisherPort S) m m' s s'
    (Hrun : publish_with_reconcile m port s = (s', Ok m')) :
  ∃ action, rm_remote_actions m = [action] ∧
    let sent := in_flight m action in
    let o := observe_publication port sent s in
    s' = o.1 ∧
    o = match (publish port sent s).2 with
        | PubTimeout => reconcile port sent (publish port sent s).1
        | _ => publish port sent s
        end ∧
    (rm_status m' = StPublished ↔
      ∃ d snapshot, o.2 = PubVerified d snapshot ∧ rm_artifact_set_digest m = Some d) ∧
    (rm_status m' = StReady ↔ o.2 = PubFailed) ∧
    (rm_status m' = StPublishOutcomeUnknown ↔ o.2 = PubTimeout) ∧
    (rm_status m' = StRollbackRequired ↔
      (∃ receipt, o.2 = PubPartial receipt) ∨
      ∃ d snapshot, o.2 = PubVerified d snapshot ∧ rm_artifact_set_digest m ≠ Some d).
Proof.
  destruct (publish_ok port s s' m m' Hrun) as (action & Ha & _ & Hs' & Hseal).
  exists action. split; [done|]. split; [done|]. split.
  { unfold observe_publication. destruct (publish port _ s) as [s1 o1]. simpl. by destruct o1. }
  destruct (seal_manifest_ok _ _ Hseal) as (fp & -> & _). clear Hseal.
  set (o := (observe_publication port (in_flight m action) s).2). clearbody o.
  destruct o as [d snapshot|receipt| |]; cbn; [|naive_solver..].
  case_bool_decide as Hd; naive_solver.
Qed.

(** Readiness is earned: promotion makes a derived manifest ready exactly
    when no external gate is open, the four layers are complete on the digest
    with a run and a gate, every supply-chain decision is settled, x64 is
    natively verified and ARM64 declared as unverified preview, each with
    evidence; it is blocked externally exactly when a gate is open. *)
Theorem promotion_is_earned m m' (Hrun : promote_ready m = Ok m') :
  ∃ d, rm_artifact_set_digest m = Some d ∧
    (rm_status m' = StReady ↔
      rm_external_gates m = [] ∧
      (sort_dedup (map vl_layer (rm_verification_layers m)) = required_layers ∧
       ∀ l, l ∈ rm_verification_layers m →
         vl_completeness l = EvComplete ∧ vl_artifact_set_digest l = Some d ∧
         is_some (vl_validation_run_ref l) = true ∧ is_some (vl_gate_ref l) = true) ∧
      (∀ x, x ∈ rm_supply_chain_applicability m →
         sd_state x = NotRequired ∨ sd_state x = ScComplete) ∧
      (∃ t, t ∈ rm_compatibility m ∧ ct_architecture t = X64 ∧ ct_support_tier t = TierStable ∧
         ct_runtime_verification t = NativeVerified ∧ ct_evidence_refs t ≠ []) ∧
      (∃ t, t ∈ rm_compatibility m ∧ ct_architecture t = Arm64 ∧
         ct_support_tier t = TierPreview ∧ ct_runtime_verification t = NativeUnverified ∧
         ct_evidence_refs t ≠ [] ∧ "native_unverified" ∈ ct_limitations t)) ∧
    (rm_status m' = StBlockedExternal ↔ rm_external_gates m ≠ []).
Proof.
  destruct (promote_ok m m' Hrun) as (d & m1 & Hd & Hs & Hcases). exists d. split; [done|].
  destruct (seal_manifest_ok _ _ Hs) as (fp & -> & _).
  rewrite <-evidence_ready_spec, <-supply_chain_ready_spec, <-x64_ready_spec, <-arm64_ready_spec.
  fold (release_ready d m).
  destruct Hcases as [[Hg ->]|[(Hg & Hn & ->)|(Hr & ->)]]; cbn.
  - split; [|done]. split; [done|]. by intros (? & _).
  - split; [|done]. done.
  - split; [done|]. split; [done|]. intros Hg. by destruct Hr as (? & _).
Qed.

(** A derived manifest verifies exactly when its input named no supply-chain
    kind and no architecture twice and its product identifier is at most 96
    bytes: every other check of the verification holds by construction, and
    those three are fixed by the input, which [seal_candidate] accepts either
    way. *)
Theorem derived_manifest_verifies input m (Hderived : derived input m) :
  verify_release_manifest m = Ok tt ↔
  NoDup (map sd_kind (ci_supply_chain_applicability input)) ∧
  NoDup (map ct_architecture (ci_compatibility input)) ∧ (slen (ci_product_id input) <= 96)%N.
Proof.
  destruct (derived_ok input m Hderived)
    as ([d [[Hs1 Hs2] Hr [Hd1 Hd2] [Hst Hne] Hl Hact _ _ Hse]] & Hi & Hp & Hv & Hc & Hcomp & _ & Hk).
  assert (token (ci_product_id input) 128 = true) as Ht.
  { unfold validate_candidate_input in Hi. next_check Hi. by bool_to_prop. }
  assert (existsb (λ action, negb (String.eqb (ac_immutable_subject_digest action) d))
    (rm_remote_actions m) = false) as Hactions.
  { apply existsb_false. intros a Ha. rewrite Forall_forall in Hact.
    destruct (Hact a Ha) as (_ & _ & -> & _). by rewrite String.eqb_refl. }
  assert (token (ci_product_id input) 96 = true ↔ (slen (ci_product_id input) <= 96)%N) as Hp96.
  { unfold token in *. apply andb_true_iff in Ht as [[-> _]%andb_true_iff ->].
    by rewrite andb_true_l, andb_true_r, N.leb_le. }
  apply distinct_keys_spec in Hl. apply N.eqb_neq in Hr. apply len_zero in Hne as Hne0.
  rewrite <-Hp96, <-Hk, <-Hcomp, <-!distinct_keys_spec. unfold verify_release_manifest.
  rewrite Hs1, Hs2, Hp, Hv, Hc, Hr, Hne0, (sort_dedup_id _ Hst), Hd1.
  destruct (token (ci_product_id input) 96); [|by simpl; naive_solver]. simpl.
  rewrite Hd2, !bool_decide_eq_true_2, Hl, Hactions, Hse by done. simpl.
  rewrite String.eqb_refl.
  destruct (distinct_count (map sd_kind _) =? _)%N, (distinct_count (map ct_architecture _) =? _)%N;
    simpl; naive_solver.
Qed.

(** Signed bytes are verified afresh: signing gives the candidate of other
    bytes, under a new identity that names the manifest it supersedes; the
    signed artifacts are exactly those of the new manifest, every layer, action
    and approval of the old one is gone, the risk is recorded, and no promotion
    makes the result ready. *)
Theorem signing_needs_fresh_evidence {S} (signer : SignerAdapter S) id unsigned signed s s' m m'
    (Hrun : sign_candidate id m unsigned signer s = (s', Ok (m', signed))) :
  verify_artifact_bytes m unsigned = Ok tt ∧ verify_artifact_bytes m' signed = Ok tt ∧
  rm_artifact_set_digest m' ≠ rm_artifact_set_digest m ∧
  rm_status m' = StCandidate ∧ rm_revision m' = 1%N ∧
  rm_supersedes m' = Some (rm_release_manifest_id m +:+ "@" +:+ pretty (rm_revision m)) ∧
  rm_remote_actions m' = [] ∧ rm_approval_request_refs m' = [] ∧
  SIGNED_BYTES_RISK ∈ rm_remaining_risks m' ∧
  ∀ m'', promote_ready m' = Ok m'' →
    rm_status m'' ≠ StReady ∧ SIGNED_BYTES_RISK ∈ rm_remaining_risks m''.
Proof.
  destruct (sign_ok _ _ _ _ _ _ _ _ Hrun) as (entries & d & refs & fp & Hv & He & Hd & Hne & -> & _).
  assert (SIGNED_BYTES_RISK ∈ rm_remaining_risks
    (set_manifest_fingerprint fp (signed_manifest id m entries d refs))) as Hrisk.
  { apply elem_of_sort_dedup, elem_of_app. right. left. }
  split; [done|]. split.
  { unfold verify_artifact_bytes. rewrite He. cbn. rewrite bool_decide_eq_true_2 by done. cbn.
    rewrite Hd. by rewrite bool_decide_eq_true_2. }
  split; [intros Heq; by apply Hne|]. do 5 (split; [done|]). split; [exact Hrisk|].
  intros m'' Hp. destruct (promote_ok _ _ Hp) as (d' & m1 & _ & Hs & Hcases).
  destruct (seal_manifest_ok _ _ Hs) as (fp' & -> & _).
  destruct Hcases as [[_ ->]|[(_ & _ & ->)|((_ & He' & _) & _)]]; [done..|].
  by apply evidence_ready_spec in He' as [He' _].
Qed.

(** Derived by operations other than signing, which starts another manifest. *)
Definition same_release (m m' : ReleaseManifestV2) : Prop :=
  ∃ op, op ≠ OpSign ∧ release_step op m m'.

(** An action is recorded, and an approval has one more. *)
Definition spent (m : ReleaseManifestV2) : Prop :=
  (1 <= length (rm_remote_actions m)) ∧
  (rm_status m = StApproved → 2 <= length (rm_remote_actions m)).

Lemma spent_step m m' : same_release m m' → spent m → spent m'.
Proof.
  intros (op & Hop & Hstep) [H1 H2].
  destruct Hstep as [S ad s s' m m' Hr|S sg id un si s s' m m' Hr|m m' Hr
    |ap ex de be m m' Hr|S po s s' m m' Hr|sb pr m m' Hr]; unfold spent.
  - apply run_ci_ok in Hr as (_ & -> & _ & Hst & _). split; [done|]. intros Ha.
    by rewrite Ha in Hst.
  - done.
  - apply promote_step in Hr as (_ & -> & Hst & _). by split.
  - apply approve_step in Hr as (_ & _ & _ & -> & _). split; lia.
  - apply publish_step in Hr as (_ & Hst & Hone & _ & _). specialize (H2 Hst). lia.
  - apply bind_step in Hr as (_ & -> & -> & _). by split.
Qed.

(** A failed publication cannot be retried: when the publisher fails the
    manifest is ready again, but no manifest obtained from it by verifying,
    promoting, approving or binding evidence, in any order, can be published,
    because each approval appends an action and publication wants exactly
    one. *)
Theorem failed_publication_is_final {S} (port : ReleasePublisherPort S) s s' m m1 m2
    (Hrun : publish_with_reconcile m port s = (s', Ok m1)) (Hfailed : rm_status m1 = StReady)
    (Hlater : rtc same_release m1 m2) :
  ∀ T (port' : ReleasePublisherPort T) t, publish_with_reconcile m2 port' t = (t, Err ReleaseBlocked).
Proof.
  apply publish_step in Hrun as (_ & _ & _ & Hone & _).
  assert (spent m2) as [H1 H2].
  { assert (spent m1) as Hm1 by (split; [lia|congruence]). clear -Hm1 Hlater.
    induction Hlater as [|m1 m3 m2 Hstep _ IH]; [done|]. by apply IH, (spent_step m1). }
  intros T port' t. unfold publish_with_reconcile.
  destruct (rm_remote_actions m2) as [|a [|b l]]; try done.
  rewrite bool_decide_eq_false_2; [done|]. intros Ha. specialize (H2 Ha). simpl in H2. lia.
Qed.

(** Promotion rewinds a publication: it asks nothing of the status, so a
    derived manifest that is approved, published, of unknown outcome or to be
    rolled back becomes ready again, keeping its remote action. *)
Theorem promotion_rewinds_publication input m m'
    (Hderived : derived input m) (Hstatus : promoted (rm_status m) = true)
    (Hrun : promote_ready m = Ok m') :
  rm_status m' = StReady ∧ rm_remote_actions m' = rm_remote_actions m.
Proof.
  destruct (derived_ok input m Hderived) as [[d Hok] _].
  destruct (promote_ok m m' Hrun) as (d' & m1 & Hd' & Hs & Hcases).
  assert (d' = d) as -> by (destruct (mo_digest _ _ Hok) as [_ ?]; congruence).
  pose proof (mo_ready _ _ Hok Hstatus) as Hready.
  destruct (seal_manifest_ok _ _ Hs) as (fp & -> & _).
  destruct Hcases as [[Hg ->]|[(_ & Hn & ->)|(_ & ->)]]; [by destruct Hready|done|done].
Qed.

End machine.

(** ** Instances

    A release of one installer: sealed, verified, promoted, approved, and then
    published, or refused by the provider. *)

Definition ci_passes : CiAdapter unit := λ _ set_digest s,
  (s, {| vo_completeness := EvComplete; vo_artifact_set_digest := Some set_digest;
         vo_validation_plan_ref := "vpl"; vo_validation_run_ref := Some "vrn";
         vo_gate_ref := Some "gat"; vo_limitations := [] |}).

(** A provider that times out and is then found in the state [o]. *)
Definition slow_publisher (o : PublishObservation) : ReleasePublisherPort nat :=
  {| publish := λ _ n, (S n, PubTimeout); reconcile := λ _ n, (S n, o) |}.

Definition ok_or_default (m0 : ReleaseManifestV2) (r : result ReleaseManifestV2 ReleaseError) :
    ReleaseManifestV2 := match r with Ok m => m | Err _ => m0 end.

Definition blank_manifest : ReleaseManifestV2 := new_manifest "none" sample_input [] EmptyString.

Definition sample_sealed : ReleaseManifestV2 :=
  ok_or_default blank_manifest (seal_candidate "rel_1" sample_input one_setup).
Definition sample_tested : ReleaseManifestV2 :=
  ok_or_default blank_manifest (run_ci_layers sample_sealed ci_passes tt).2.
Definition sample_ready : ReleaseManifestV2 :=
  ok_or_default blank_manifest (promote_ready sample_tested).
Definition sample_digest : Sha256Hash := default EmptyString (rm_artifact_set_digest sample_ready).
Definition sample_approved : ReleaseManifestV2 :=
  ok_or_default blank_manifest
    (approve_publish sample_ready "apr_1" sample_digest PUBLISH_DESTINATION "snapshot-1").
Definition sample_publication (o : PublishObservation) : nat * result ReleaseManifestV2 ReleaseError :=
  publish_with_reconcile sample_approved (slow_publisher o) 0.
Definition sample_published : ReleaseManifestV2 :=
  ok_or_default blank_manifest (sample_publication (PubVerified sample_digest "snapshot-2")).2.
Definition sample_failed : ReleaseManifestV2 :=
  ok_or_default blank_manifest (sample_publication PubFailed).2.

Lemma sample_sealed_ok : seal_candidate "rel_1" sample_input one_setup = Ok sample_sealed.
Proof. vm_compute. reflexivity. Qed.

Lemma sample_published_derived : derived sample_input sample_published.
Proof.
  exists "rel_1", one_setup, sample_sealed. split; [exact sample_sealed_ok|].
  apply (rtc_l _ _ sample_tested).
  { exists OpCi. apply (step_ci ci_passes tt tt). vm_compute. reflexivity. }
  apply (rtc_l _ _ sample_ready).
  { exists OpPromote. apply step_promote. vm_compute. reflexivity. }
  apply (rtc_l _ _ sample_approved).
  { exists OpApprove. apply (step_approve "apr_1" sample_digest PUBLISH_DESTINATION "snapshot-1").
    vm_compute. reflexivity. }
  apply rtc_once. exists OpPublish.
  apply (step_publish (slow_publisher (PubVerified sample_digest "snapshot-2")) 0 2).
  vm_compute. reflexivity.
Qed.

Lemma published_is_verified_witness :
  ∃ action, rm_remote_actions sample_published = [action] ∧ ac_state action = RaVerified.
Proof.
  destruct (published_is_verified sample_input sample_published sample_published_derived)
    as (d & action & snapshot & _ & _ & Ha & Hs & _).
  - vm_compute. reflexivity.
  - exists action. split; [exact Ha|exact Hs].
Defined.

Lemma publication_follows_observation_witness :
  rm_status sample_published = StPublished.
Proof.
  destruct (publication_follows_observation
    (slow_publisher (PubVerified sample_digest "snapshot-2")) sample_approved sample_published 0 2)
    as (action & Ha & _ & Ho & Hp & _).
  - vm_compute. reflexivity.
  - apply (proj2 Hp). exists sample_digest, "snapshot-2". split; [reflexivity|].
    vm_compute. reflexivity.
Defined.

Lemma promotion_is_earned_witness : rm_external_gates sample_tested = [].
Proof.
  destruct (promotion_is_earned sample_tested sample_ready) as (d & _ & Hr & _).
  - vm_compute. reflexivity.
  - apply (proj1 Hr). vm_compute. reflexivity.
Defined.

Lemma derived_manifest_verifies_witness : verify_release_manifest sample_published = Ok tt.
Proof.
  apply (derived_manifest_verifies sample_input sample_published sample_published_derived).
  split; [|split].
  - apply (bool_decide_unpack _). vm_compute. exact I.
  - apply (bool_decide_unpack _). vm_compute. exact I.
  - vm_compute. discriminate.
Defined.

Definition sample_signer : SignerAdapter unit := λ _ bytes s,
  (s, Ok {| sb_bytes := bytes +:+ "-signed"; sb_signature_ref := "signature" |}).

Lemma signing_needs_fresh_evidence_witness :
  ∃ m' signed, sign_candidate "rel_2" sample_sealed one_setup sample_signer tt = (tt, Ok (m', signed))
    ∧ verify_artifact_bytes m' signed = Ok tt.
Proof.
  destruct (sign_candidate "rel_2" sample_sealed one_setup sample_signer tt) as [[] [[m' signed]|e]]
    eqn:Hs; [|exfalso; revert Hs; vm_compute; discriminate].
  exists m', signed. split; [reflexivity|].
  exact (proj1 (proj2 (signing_needs_fresh_evidence _ _ _ _ _ _ _ _ Hs))).
Defined.

(** The provider refused; promoted and approved once more. *)
Definition sample_again : ReleaseManifestV2 :=
  ok_or_default blank_manifest
    (approve_publish sample_failed "apr_2" sample_digest PUBLISH_DESTINATION "snapshot-3").

Lemma failed_publication_is_final_witness :
  rm_status sample_again = StApproved ∧
  publish_with_reconcile sample_again (slow_publisher PubFailed) 0 = (0, Err ReleaseBlocked).
Proof.
  split; [vm_compute; reflexivity|].
  apply (failed_publication_is_final (slow_publisher PubFailed) 0 2 sample_approved sample_failed).
  - vm_compute. reflexivity.
  - vm_compute. reflexivity.
  - apply rtc_once. exists OpApprove. split; [discriminate|].
    apply (step_approve "apr_2" sample_digest PUBLISH_DESTINATION "snapshot-3").
    vm_compute. reflexivity.
Defined.

Lemma promotion_rewinds_publication_witness :
  rm_status sample_published = StPublished ∧
  ∃ m', promote_ready sample_published = Ok m' ∧ rm_status m' = StReady.
Proof.
  split; [vm_compute; reflexivity|].
  destruct (promote_ready sample_published) as [m'|e] eqn:Hp;
    [|exfalso; revert Hp; vm_compute; discriminate].
  exists m'. split; [reflexivity|].
  exact (proj1 (promotion_rewinds_publication sample_input sample_published m'
    sample_published_derived ltac:(vm_compute; reflexivity) Hp)).
Defined.
