(* ===== verification/Publisher.v ===== *)
(** * Publication of release artifacts

    Models [crates/control/star-release/src/publisher.rs]: the binding of the
    artifacts of a release manifest to local files and remote names. *)
From S2P Require Import Prelude Canonical Toy Ids Contracts Development ReleaseLifecycle.
From S2P Require Import ReleaseManifest Candidate CandidateFacts.

(** ** Paths and names *)

Definition is_ascii_alphabetic (b : N) : bool := is_ascii_lower b || is_ascii_upper b.

(** [Path::is_absolute] on the target platform, for a text without ['\']: a
    drive with a root, or a network share. *)
Definition is_absolute (value : string) : bool :=
  match value with
  | String a (String b (String c _)) =>
      (is_ascii_alphabetic (byte a) && Ascii.eqb b ":"%char && Ascii.eqb c "/"%char)
      || (Ascii.eqb a "/"%char && Ascii.eqb b "/"%char)
  | _ => false
  end.

Definition safe_name (value : string) : bool :=
  negb (is_empty value) && (slen value <=? 255)%N
  && negb (String.eqb value "." || String.eqb value "..")
  && bytes_all (λ b, is_ascii_graphic b
       && negb (byte_in ["/"%char; "\"%char; ":"%char; NUL] b)) value.

Definition safe_asset_path (value : string) : bool :=
  if is_empty value || (1024 <? slen value)%N || contains_char "\"%char value
     || contains_char NUL value || is_absolute value
  then false
  else forallb (λ component, negb (is_empty component || String.eqb component "."
                                   || String.eqb component "..")) (split_char "/"%char value).

Section publisher.
Context `{Platform}.

(** ** The binding *)

(** The loop over the sorted assets, with its two sets. *)
Fixpoint check_assets (assets : list ReleaseAssetSourceV1)
    (remote_names relative_paths : gset string) : result unit ReleaseError :=
  match assets with
  | [] => Ok tt
  | asset :: rest =>
      check negb (safe_name (as_logical_name asset))
        || negb (safe_name (as_remote_name asset))
        || negb (safe_asset_path (as_relative_path asset))
        || (as_size asset =? 0)%N
        || bool_decide (as_remote_name asset ∈ remote_names)
        || bool_decide (as_relative_path asset ∈ relative_paths)
      else ReleaseInvalid in
      check_assets rest ({[as_remote_name asset]} ∪ remote_names)
        ({[as_relative_path asset]} ∪ relative_paths)
  end.

Definition observed_artifact (asset : ReleaseAssetSourceV1) : ReleaseArtifactV2 :=
  {| ra_logical_name := as_logical_name asset; ra_role := as_role asset;
     ra_architecture := as_architecture asset; ra_size := as_size asset;
     ra_media_type := as_media_type asset; ra_sha256 := as_sha256 asset |}.

Definition rb_payload (b : ReleaseAssetBindingV1) : Json := JObj
  [("release_manifest_id", to_json (rb_release_manifest_id b));
   ("project_id", to_json (rb_project_id b));
   ("artifact_set_digest", to_json (rb_artifact_set_digest b));
   ("assets", to_json (rb_assets b));
   ("repository", to_json (rb_repository b));
   ("tag", to_json (rb_tag b));
   ("target_commitish", to_json (rb_target_commitish b));
   ("title", to_json (rb_title b));
   ("notes_relative_path", to_json (rb_notes_relative_path b));
   ("prerelease", to_json (rb_prerelease b))].

(** The binding before its fingerprint is set. *)
Definition pending_binding (m : ReleaseManifestV2) (project_id : ProjectId)
    (set_digest : Sha256Hash) (assets : list ReleaseAssetSourceV1)
    (target notes : string) (fp : Sha256Hash) : ReleaseAssetBindingV1 :=
  {| rb_schema_id := RELEASE_ASSET_BINDING_V1_SCHEMA_ID;
     rb_schema_version := 1;
     rb_release_manifest_id := rm_release_manifest_id m;
     rb_project_id := project_id;
     rb_artifact_set_digest := set_digest;
     rb_assets := assets;
     rb_repository := "jaeminsongdev/star-control";
     rb_tag := "v" +:+ rm_version m;
     rb_target_commitish := target;
     rb_title := "Star-Control v" +:+ rm_version m;
     rb_notes_relative_path := notes;
     rb_prerelease := false;
     rb_binding_fingerprint := fp |}.

Definition seal_release_asset_binding (m : ReleaseManifestV2) (project_id : ProjectId)
    (assets : list ReleaseAssetSourceV1) (target_commitish notes_relative_path : string) :
    result ReleaseAssetBindingV1 ReleaseError :=
  let? set_digest := ok_or (rm_artifact_set_digest m) ReleaseInvalid in
  check (len assets =? 0)%N
    || negb (len assets =? len (rm_artifacts m))%N
    || (1024 <? len assets)%N
    || (negb (slen target_commitish =? 40)%N && negb (slen target_commitish =? 64)%N)
    || negb (bytes_all is_ascii_hexdigit target_commitish)
    || negb (safe_asset_path notes_relative_path)
  else ReleaseInvalid in
  let assets := sort_by cmp_leb assets in
  let? _ := check_assets assets ∅ ∅ in
  let expected := sort_by cmp_leb (rm_artifacts m) in
  let observed := map observed_artifact assets in
  check negb (bool_decide (expected = observed)) else ReleaseConflict in
  let binding := pending_binding m project_id set_digest assets target_commitish
    notes_relative_path in
  let? fp := map_err (λ _, ReleaseFingerprint)
    (versioned_fingerprint RELEASE_ASSET_BINDING_V1_SCHEMA_ID 1
      (rb_payload (binding (digest "pending")))) in
  Ok (binding fp).

Definition verify_release_asset_binding (m : ReleaseManifestV2) (b : ReleaseAssetBindingV1) :
    result unit ReleaseError :=
  let? sealed := seal_release_asset_binding m (rb_project_id b) (rb_assets b)
    (rb_target_commitish b) (rb_notes_relative_path b) in
  if bool_decide (sealed = b) then Ok tt else Err ReleaseConflict.

End publisher.

(** ** Facts *)

Definition asset_safe (a : ReleaseAssetSourceV1) : Prop :=
  safe_name (as_logical_name a) = true ∧ safe_name (as_remote_name a) = true ∧
  safe_asset_path (as_relative_path a) = true ∧ (0 < as_size a)%N.

Lemma check_assets_ok assets names paths :
  check_assets assets names paths = Ok tt ↔
  Forall asset_safe assets ∧
  NoDup (map as_remote_name assets) ∧ NoDup (map as_relative_path assets) ∧
  (∀ a, a ∈ assets → (as_remote_name a ∉ names) ∧ (as_relative_path a ∉ paths)).
Proof.
  revert names paths. induction assets as [|a assets IH]; intros names paths; simpl.
  { split; [|done]. intros _. split_and!; try constructor; set_solver. }
  rewrite Forall_cons, !NoDup_cons. destruct (_ || _) eqn:E.
  - split; [done|]. intros (((H1 & H2 & H3 & H4) & _) & _ & _ & Hout).
    destruct (Hout a) as [Hn Hp]; [left|].
    apply N.neq_0_lt_0 in H4. apply N.eqb_neq in H4.
    by rewrite H1, H2, H3, H4, !bool_decide_eq_false_2 in E.
  - bool_to_prop. rewrite IH. unfold asset_safe at 2. split.
    + intros (Hs & Hn & Hp & Hout). split_and!; try done; [lia|..].
      * intros Hin%list_elem_of_fmap. destruct Hin as (b & Hb & Hin).
        destruct (Hout b Hin). set_solver.
      * intros Hin%list_elem_of_fmap. destruct Hin as (b & Hb & Hin).
        destruct (Hout b Hin). set_solver.
      * intros b [->|Hin]%elem_of_cons; [done|]. destruct (Hout b Hin). set_solver.
    + intros ((_ & Hs) & (Hn1 & Hn2) & (Hp1 & Hp2) & Hout). split_and!; try done.
      intros b Hin. destruct (Hout b) as [Hbn Hbp]; [by right|].
      rewrite list_elem_of_fmap in Hn1, Hp1. split.
      * rewrite not_elem_of_union, elem_of_singleton. naive_solver.
      * rewrite not_elem_of_union, elem_of_singleton. naive_solver.
Qed.

Section facts.
Context `{Platform}.

(** What an accepted binding promises. *)
Record binding_sound (m : ReleaseManifestV2) (assets : list ReleaseAssetSourceV1)
    (b : ReleaseAssetBindingV1) : Prop := {
  bs_assets : rb_assets b ≡ₚ assets;
  bs_artifacts : map observed_artifact (rb_assets b) ≡ₚ rm_artifacts m;
  bs_remote : NoDup (map as_remote_name (rb_assets b));
  bs_paths : NoDup (map as_relative_path (rb_assets b));
  bs_safe : Forall asset_safe (rb_assets b);
  bs_digest : rm_artifact_set_digest m = Some (rb_artifact_set_digest b);
  bs_verifies : verify_release_asset_binding m b = Ok tt
}.


Lemma asset_cmp_fields a b : cmp a b = cmp (asset_fields a) (asset_fields b).
Proof. reflexivity. Qed.

Lemma seal_binding_inv m project assets target notes b :
  seal_release_asset_binding m project assets target notes = Ok b →
  check_assets (sort_by cmp_leb assets) ∅ ∅ = Ok tt ∧
  sort_by cmp_leb (rm_artifacts m) = map observed_artifact (sort_by cmp_leb assets) ∧
  ∃ set_digest fp, rm_artifact_set_digest m = Some set_digest ∧
    b = pending_binding m project set_digest (sort_by cmp_leb assets) target notes fp.
Proof.
  unfold seal_release_asset_binding. intros Hs.
  destruct (rm_artifact_set_digest m) as [d|]; simpl in Hs; [|done].
  next_check Hs. destruct (check_assets _ _ _) as [[]|] eqn:Hc in Hs; [|done].
  next_check Hs. destruct (map_err _ _) as [fp|] in Hs; [|done]. injection Hs as <-.
  bool_to_prop. split; [done|]. split; [done|]. by exists d, fp.
Qed.

(** Sealing what was sealed gives the same binding. *)
Lemma seal_binding_again m project assets target notes b :
  seal_release_asset_binding m project assets target notes = Ok b →
  seal_release_asset_binding m project (rb_assets b) target notes = Ok b.
Proof.
  intros Hs. destruct (seal_binding_inv _ _ _ _ _ _ Hs) as (_ & _ & d & fp & _ & Hb).
  assert (rb_assets b = sort_by cmp_leb assets) as -> by by rewrite Hb. rewrite <-Hs.
  unfold seal_release_asset_binding, len. by rewrite sort_by_length, sort_by_cmp_idemp.
Qed.

(** An accepted binding publishes the manifest and nothing else: its
    assets are the given ones and correspond one to one to the manifest's
    artifacts, no two share a remote name or a local path, every name and path
    is safe, and the binding verifies against the manifest. *)
Theorem sealed_binding_sound m project assets target notes b :
  seal_release_asset_binding m project assets target notes = Ok b → binding_sound m assets b.
Proof.
  intros Hs. pose proof (seal_binding_again _ _ _ _ _ _ Hs) as Hagain.
  destruct (seal_binding_inv _ _ _ _ _ _ Hs) as (Hc & Heq & d & fp & Hd & ->).
  apply check_assets_ok in Hc as (Hsafe & Hn & Hp & _). split; simpl; try done.
  - apply sort_by_perm.
  - by rewrite <-Heq, sort_by_perm.
  - unfold verify_release_asset_binding. simpl in *. rewrite Hagain. by rewrite bool_decide_eq_true_2.
Qed.

Lemma observed_sorted assets :
  NoDup (map as_logical_name assets) →
  sort_by cmp_leb (map observed_artifact assets)
  = map observed_artifact (sort_by cmp_leb assets).
Proof.
  intros Hnd.
  rewrite (sort_by_perm_eq _ (map observed_artifact (sort_by cmp_leb assets)))
    by by rewrite sort_by_perm.
  apply sort_by_id.
  assert (NoDup (map as_logical_name (sort_by cmp_leb assets))) as Hnd' by by rewrite sort_by_perm.
  pose proof (sort_by_sorted cmp_leb cmp_leb_total cmp_leb_trans assets) as Hsort.
  revert Hnd' Hsort. generalize (sort_by cmp_leb assets). clear. intros l Hnd Hsort.
  induction Hsort as [|a l _ IH Hall]; simpl; constructor.
  { apply IH. by apply NoDup_cons in Hnd as [_ ?]. }
  simpl in Hnd. apply NoDup_cons in Hnd as [Hnew _].
  apply Forall_map. rewrite Forall_forall in Hall |- *. intros b Hb.
  specialize (Hall b Hb). assert (as_logical_name a ≠ as_logical_name b) as Hne.
  { intros Heq. apply Hnew, list_elem_of_fmap. by exists b. }
  unfold cmp_leb in *. rewrite artifact_cmp_fields. rewrite asset_cmp_fields in Hall.
  unfold artifact_fields, asset_fields in *. cmp_pair_in Hall. cmp_pair_goal. simpl.
  destruct (cmp (as_logical_name a) (as_logical_name b)) eqn:E; try done.
  by apply cmp_eq_iff in E.
Qed.

(** When the logical names are distinct nothing proper is refused: safe
    assets that correspond one to one to the artifacts of a manifest with a
    digest, with a commit and notes of the right form, are accepted. *)
Theorem distinct_names_accepted m project assets target notes set_digest
    (Hdigest : rm_artifact_set_digest m = Some set_digest)
    (Hlen : (0 < len assets <= 1024)%N)
    (Hperm : map observed_artifact assets ≡ₚ rm_artifacts m)
    (Hnames : NoDup (map as_logical_name assets))
    (Hremote : NoDup (map as_remote_name assets))
    (Hpaths : NoDup (map as_relative_path assets))
    (Hsafe : Forall asset_safe assets)
    (Htarget : valid_revision target = true) (Hnotes : safe_asset_path notes = true)
    (Hhash : ∀ j, ∃ text, jcs_to_string j = Some text) :
  ∃ b, seal_release_asset_binding m project assets target notes = Ok b.
Proof.
  unfold seal_release_asset_binding. rewrite Hdigest. simpl.
  assert (len (rm_artifacts m) = len assets) as ->.
  { unfold len. by rewrite <-Hperm, length_map. }
  unfold valid_revision in Htarget. apply andb_true_iff in Htarget as [Ht1 Ht2].
  match goal with |- context [if ?c then _ else _] => assert (c = false) as -> end.
  { rewrite Ht2, Hnotes, N.eqb_refl.
    replace (len assets =? 0)%N with false by (symmetry; apply N.eqb_neq; lia).
    replace (1024 <? len assets)%N with false by (symmetry; apply N.ltb_ge; lia).
    apply orb_true_iff in Ht1 as [Ht1|Ht1]; rewrite Ht1; simpl; by rewrite ?andb_false_r. }
  assert (check_assets (sort_by cmp_leb assets) ∅ ∅ = Ok tt) as ->.
  { apply check_assets_ok. pose proof (sort_by_perm cmp_leb assets) as Hp.
    revert Hp. generalize (sort_by cmp_leb assets). intros l Hp.
    split; [by rewrite Hp|]. split; [by rewrite Hp|]. split; [by rewrite Hp|].
    intros a _. split; apply not_elem_of_empty. }
  rewrite (sort_by_perm_eq (rm_artifacts m) (map observed_artifact assets)) by by symmetry.
  rewrite observed_sorted, bool_decide_eq_true_2 by done. simpl.
  destruct (versioned_fingerprint _ _ _) as [fp|] eqn:Hv; [by eexists|]. exfalso.
  unfold versioned_fingerprint, canonical_sha256, jcs_bytes in Hv.
  match type of Hv with context [jcs_to_string ?j] => destruct (Hhash j) as [text Htext] end.
  by rewrite Htext in Hv.
Qed.

End facts.

(** ** Two releases of one name

    The candidate admits one logical name for the two architectures; the order
    of the assets and the order of the artifacts then disagree. *)

Section defects.
Context `{Platform}.

Definition setup_asset (architecture : ReleaseArchitecture) (remote path bytes : string) :
    ReleaseAssetSourceV1 :=
  {| as_logical_name := "setup"; as_remote_name := remote; as_role := "installer";
     as_architecture := architecture; as_media_type := "application/octet-stream";
     as_relative_path := path; as_size := slen bytes; as_sha256 := digest bytes |}.

Definition two_assets : list ReleaseAssetSourceV1 :=
  [setup_asset X64 "setup-x64.exe" "x64/setup.exe" "MZ-x64";
   setup_asset Arm64 "setup-arm64.exe" "arm64/setup.exe" "MZ-arm64"].

Definition two_manifest (entries : list ReleaseArtifactV2) (set_digest : Sha256Hash) :
    ReleaseManifestV2 := new_manifest "rel_1" sample_input entries set_digest.

(** A proper binding can be refused: a candidate accepts one logical name
    for the two architectures, and assets that correspond one to one to its
    artifacts, with distinct safe remote names and paths, are a [Conflict],
    because assets are ordered by remote name before architecture. *)
Theorem same_name_binding_refused project set_digest :
  ∃ entries,
    artifact_entries two_setups = Ok entries ∧
    map observed_artifact two_assets ≡ₚ entries ∧
    check_assets (sort_by cmp_leb two_assets) ∅ ∅ = Ok tt ∧
    seal_release_asset_binding (two_manifest entries set_digest) project two_assets commit40
      "notes.md" = Err ReleaseConflict.
Proof.
  exists [setup_entry X64 "installer" "MZ-x64"; setup_entry Arm64 "installer" "MZ-arm64"].
  split; [reflexivity|]. split; [reflexivity|]. split; [reflexivity|].
  unfold seal_release_asset_binding. cbn [ok_or rm_artifact_set_digest two_manifest rm_artifacts].
  match goal with |- context [if ?c then Err ReleaseInvalid else _] =>
    assert (c = false) as -> by reflexivity end.
  assert (check_assets (sort_by cmp_leb two_assets) ∅ ∅ = Ok tt) as -> by reflexivity.
  rewrite bool_decide_eq_false_2; [reflexivity|]. intros Heq. discriminate Heq.
Qed.

End defects.

(** ** Witnesses *)

Definition sample_asset : ReleaseAssetSourceV1 :=
  setup_asset X64 "setup-x64.exe" "x64/setup.exe" "MZ".
Definition sample_manifest : ReleaseManifestV2 :=
  two_manifest [observed_artifact sample_asset] (digest "set").
Definition sample_binding : result ReleaseAssetBindingV1 ReleaseError :=
  seal_release_asset_binding sample_manifest "prj_1" [sample_asset] commit40 "notes.md".

Lemma sealed_binding_sound_witness :
  ∃ b, sample_binding = Ok b ∧ binding_sound sample_manifest [sample_asset] b.
Proof.
  destruct sample_binding as [b|e] eqn:E; [|vm_compute in E; discriminate E].
  exists b. split; [reflexivity|].
  exact (sealed_binding_sound sample_manifest "prj_1" [sample_asset] commit40 "notes.md" b E).
Defined.

Lemma distinct_names_accepted_witness : ∃ b, sample_binding = Ok b.
Proof.
  apply (distinct_names_accepted sample_manifest "prj_1" [sample_asset] commit40 "notes.md"
    (digest "set")).
  - reflexivity.
  - vm_compute. split; [reflexivity|discriminate].
  - reflexivity.
  - apply NoDup_singleton.
  - apply NoDup_singleton.
  - apply NoDup_singleton.
  - repeat constructor.
  - reflexivity.
  - reflexivity.
  - intros j. by eexists.
Defined.
