(* ===== verification/ApprovalStore.v ===== *)
(** * The approval store

    Models [apps/star-controller/src/approval_store.rs]: the approval requests
    the controller keeps in memory and in a file, their creation, lookup and
    resolution, and the checks on loading the file.

    The file system and the clock are the environment of [Persist.v]. *)
From S2P Require Import Prelude Canonical Toy Contracts Persist.

Definition FORMAT_VERSION : N := 1.

(** [i64::MAX]. *)
Definition i64_max : N := 2 ^ 63 - 1.

Inductive ApprovalDecision := Approve | Deny.

Inductive ApprovalStoreError := LocalAppDataUnavailable | Io | Corrupt | Dacl | Stale.

#[global] Instance ApprovalDecision_eq_dec : EqDecision ApprovalDecision.
Proof. solve_decision. Defined.
#[global] Instance ApprovalStoreError_eq_dec : EqDecision ApprovalStoreError.
Proof. solve_decision. Defined.

Record ApprovalRecord := {
  ar_approval_id : ApprovalId;
  ar_scope_hash : Sha256Hash;
  ar_operation_id : OperationId;
  ar_tool_id : string;
  ar_descriptor_hash : Sha256Hash;
  ar_arguments_hash : Sha256Hash;
  ar_permission_actions : list string;
  ar_paid_limit : Json;
  ar_target_refs : list Json;
  ar_expected_revision : option N;
  ar_arguments : Json;
  ar_actor : Json;
  ar_runtime_scope : Json;
  ar_created_at : option string;
  ar_expires_at : option string;
  ar_decision : option ApprovalDecision;
  ar_resolved_at : option string;
  ar_decision_reason : option string;
  ar_decision_conditions : option Json;
  ar_resolved_by : option Json
}.

Record ApprovalScope := {
  sc_operation_id : OperationId;
  sc_tool_id : string;
  sc_descriptor_hash : Sha256Hash;
  sc_arguments_hash : Sha256Hash;
  sc_permission_actions : list string;
  sc_paid_limit : Json;
  sc_target_refs : list Json;
  sc_expected_revision : option N;
  sc_arguments : Json;
  sc_actor : Json;
  sc_runtime_scope : Json
}.

Record ApprovalFile := {
  af_format_version : N;
  af_records : gmap string ApprovalRecord
}.

Record ApprovalStore := {
  st_file : ApprovalFile;
  st_approval_ttl_ms : N
}.

#[global] Instance Json_to_json : ToJson Json := λ j, j.

Section store.
Context `{Platform, Instants}.

(** ** Operations *)

Definition approval_scope_hash (approval_id : ApprovalId) (scope : ApprovalScope) :
    result Sha256Hash ApprovalStoreError :=
  map_err (λ _, Corrupt) (canonical_sha256 (JObj
    [("approval_id", to_json approval_id);
     ("tool_id", to_json (sc_tool_id scope));
     ("descriptor_hash", to_json (sc_descriptor_hash scope));
     ("arguments_hash", to_json (sc_arguments_hash scope));
     ("permission_actions", to_json (sc_permission_actions scope));
     ("paid_limit", to_json (sc_paid_limit scope));
     ("target_refs", to_json (sc_target_refs scope));
     ("expected_revision", to_json (sc_expected_revision scope))])).

Definition approval_request_is_current (record : ApprovalRecord) (now : Z) : bool :=
  match ar_expires_at record with
  | Some value => is_some_and (instant_parse value) (λ expires_at, (now <? expires_at)%Z)
  | None => false
  end.

(** The scope a loaded record claims. *)
Definition record_scope (record : ApprovalRecord) : ApprovalScope :=
  {| sc_operation_id := ar_operation_id record;
     sc_tool_id := ar_tool_id record;
     sc_descriptor_hash := ar_descriptor_hash record;
     sc_arguments_hash := ar_arguments_hash record;
     sc_permission_actions := ar_permission_actions record;
     sc_paid_limit := ar_paid_limit record;
     sc_target_refs := ar_target_refs record;
     sc_expected_revision := ar_expected_revision record;
     sc_arguments := ar_arguments record;
     sc_actor := ar_actor record;
     sc_runtime_scope := ar_runtime_scope record |}.

Definition timestamps_valid (record : ApprovalRecord) : bool :=
  match ar_created_at record, ar_expires_at record with
  | Some created_at, Some expires_at =>
      match instant_parse created_at, instant_parse expires_at with
      | Some created_at, Some expires_at => (created_at <? expires_at)%Z
      | _, _ => false
      end
  | None, None => true
  | _, _ => false
  end.

(** The checks of [load] on one entry; every failure is [Corrupt]. *)
Definition record_valid (key : string) (record : ApprovalRecord) : bool :=
  match approval_scope_hash (ar_approval_id record) (record_scope record) with
  | Err _ => false
  | Ok hash =>
      negb (negb (String.eqb key (ar_approval_id record))
        || negb (bool_decide (sort_dedup (ar_permission_actions record)
                              = ar_permission_actions record))
        || negb (String.eqb hash (ar_scope_hash record))
        || negb (Bool.eqb (is_some (ar_decision record)) (is_some (ar_resolved_at record)))
        || negb (timestamps_valid record))
  end.

Definition load (read : read_outcome ApprovalFile) : result ApprovalStore ApprovalStoreError :=
  let? file :=
    match read with
    | ReadParsed parsed => ok_or parsed Corrupt
    | ReadMissing => Ok {| af_format_version := FORMAT_VERSION; af_records := ∅ |}
    | ReadFailed => Err Io
    end in
  check negb (af_format_version file =? FORMAT_VERSION)%N else Corrupt in
  check negb (forallb (λ e : string * ApprovalRecord, record_valid e.1 e.2)
                (btree_entries (af_records file)))
  else Corrupt in
  Ok {| st_file := file; st_approval_ttl_ms := 1800000 |}.

Definition set_approval_ttl_ms (s : ApprovalStore) (ttl : N) :
    result ApprovalStore ApprovalStoreError :=
  check (ttl =? 0)%N || (1800000 <? ttl)%N else Corrupt in
  Ok {| st_file := st_file s; st_approval_ttl_ms := ttl |}.

(** The store with one record put in. *)
Definition put (s : ApprovalStore) (key : string) (record : ApprovalRecord) : ApprovalStore :=
  {| st_file := {| af_format_version := af_format_version (st_file s);
                   af_records := <[key := record]> (af_records (st_file s)) |};
     st_approval_ttl_ms := st_approval_ttl_ms s |}.

Definition new_record (approval_id : ApprovalId) (hash : Sha256Hash) (scope : ApprovalScope)
    (permissions : list string) (created expires : string) : ApprovalRecord :=
  {| ar_approval_id := approval_id;
     ar_scope_hash := hash;
     ar_operation_id := sc_operation_id scope;
     ar_tool_id := sc_tool_id scope;
     ar_descriptor_hash := sc_descriptor_hash scope;
     ar_arguments_hash := sc_arguments_hash scope;
     ar_permission_actions := permissions;
     ar_paid_limit := sc_paid_limit scope;
     ar_target_refs := sc_target_refs scope;
     ar_expected_revision := sc_expected_revision scope;
     ar_arguments := sc_arguments scope;
     ar_actor := sc_actor scope;
     ar_runtime_scope := sc_runtime_scope scope;
     ar_created_at := Some created;
     ar_expires_at := Some expires;
     ar_decision := None;
     ar_resolved_at := None;
     ar_decision_reason := None;
     ar_decision_conditions := None;
     ar_resolved_by := None |}.

(** The scope with its permission actions sorted and deduplicated. *)
Definition normalize_scope (scope : ApprovalScope) : ApprovalScope :=
  {| sc_operation_id := sc_operation_id scope;
     sc_tool_id := sc_tool_id scope;
     sc_descriptor_hash := sc_descriptor_hash scope;
     sc_arguments_hash := sc_arguments_hash scope;
     sc_permission_actions := sort_dedup (sc_permission_actions scope);
     sc_paid_limit := sc_paid_limit scope;
     sc_target_refs := sc_target_refs scope;
     sc_expected_revision := sc_expected_revision scope;
     sc_arguments := sc_arguments scope;
     sc_actor := sc_actor scope;
     sc_runtime_scope := sc_runtime_scope scope |}.

(** The part of [create] before the store changes: the new record. *)
Definition make_record (s : ApprovalStore) (approval_id : ApprovalId) (created_at : Z)
    (scope : ApprovalScope) : result ApprovalRecord ApprovalStoreError :=
  let scope := normalize_scope scope in
  let? hash := approval_scope_hash approval_id scope in
  check (i64_max <? st_approval_ttl_ms s)%N else Corrupt in
  let? expires_at := ok_or (instant_add_ms created_at (st_approval_ttl_ms s)) Corrupt in
  Ok (new_record approval_id hash scope (sc_permission_actions scope) (instant_text created_at)
        (instant_text expires_at)).

(** A store in memory and the file it last wrote. *)
Definition world : Type := ApprovalStore * option ApprovalFile.

Definition create (approval_id : ApprovalId) (created_at : Z) (scope : ApprovalScope)
    (outcome : persist_outcome ApprovalStoreError) (w : world) :
    world * result ApprovalRecord ApprovalStoreError :=
  match make_record w.1 approval_id created_at scope with
  | Err e => (w, Err e)
  | Ok record =>
      let s := put w.1 approval_id record in
      let p := persist Dacl outcome (st_file s) w.2 in
      ((s, p.1), let? _ := p.2 in Ok record)
  end.

Definition get (s : ApprovalStore) (approval_id : ApprovalId) : option ApprovalRecord :=
  af_records (st_file s) !! approval_id.

Definition find_unresolved_exact (s : ApprovalStore) (tool_id : string)
    (arguments_hash : Sha256Hash) (expected_revision : option N) (now : Z) :
    option ApprovalRecord :=
  snd <$> find (λ e : string * ApprovalRecord,
      String.eqb (ar_tool_id e.2) tool_id
      && String.eqb (ar_arguments_hash e.2) arguments_hash
      && bool_decide (ar_expected_revision e.2 = expected_revision)
      && is_none (ar_decision e.2)
      && approval_request_is_current e.2 now)
    (btree_entries (af_records (st_file s))).

Definition decide_record (record : ApprovalRecord) (decision : ApprovalDecision)
    (resolved_at : string) (reason : option string) (conditions : option Json)
    (resolved_by : Json) : ApprovalRecord :=
  {| ar_approval_id := ar_approval_id record;
     ar_scope_hash := ar_scope_hash record;
     ar_operation_id := ar_operation_id record;
     ar_tool_id := ar_tool_id record;
     ar_descriptor_hash := ar_descriptor_hash record;
     ar_arguments_hash := ar_arguments_hash record;
     ar_permission_actions := ar_permission_actions record;
     ar_paid_limit := ar_paid_limit record;
     ar_target_refs := ar_target_refs record;
     ar_expected_revision := ar_expected_revision record;
     ar_arguments := ar_arguments record;
     ar_actor := ar_actor record;
     ar_runtime_scope := ar_runtime_scope record;
     ar_created_at := ar_created_at record;
     ar_expires_at := ar_expires_at record;
     ar_decision := Some decision;
     ar_resolved_at := Some resolved_at;
     ar_decision_reason := reason;
     ar_decision_conditions := conditions;
     ar_resolved_by := Some resolved_by |}.

(** The clock is read twice: for the expiry and for the resolution instant. *)
Definition resolve (approval_id : ApprovalId) (scope_hash : Sha256Hash)
    (decision : ApprovalDecision) (reason : option string) (conditions : option Json)
    (resolved_by : Json) (now later : Z) (outcome : persist_outcome ApprovalStoreError) (w : world) :
    world * result ApprovalRecord ApprovalStoreError :=
  match get w.1 approval_id with
  | None => (w, Err Stale)
  | Some record =>
      if is_none (ar_decision record) && negb (approval_request_is_current record now)
      then (w, Err Stale)
      else if negb (String.eqb (ar_scope_hash record) scope_hash)
        || is_some_and (ar_decision record) (λ existing, negb (bool_decide (existing = decision)))
      then (w, Err Stale)
      else if is_none (ar_decision record)
      then
        let record := decide_record record decision (instant_text later) reason conditions
          resolved_by in
        let s := put w.1 approval_id record in
        let p := persist Dacl outcome (st_file s) w.2 in
        ((s, p.1), let? _ := p.2 in Ok record)
      else (w, Ok record)
  end.

(** ** Runs *)

Inductive approval_call :=
| CallCreate (approval_id : ApprovalId) (created_at : Z) (scope : ApprovalScope)
    (outcome : persist_outcome ApprovalStoreError)
| CallResolve (approval_id : ApprovalId) (scope_hash : Sha256Hash) (decision : ApprovalDecision)
    (reason : option string) (conditions : option Json) (resolved_by : Json) (now later : Z)
    (outcome : persist_outcome ApprovalStoreError)
| CallSetTtl (ttl : N).

Definition approval_step (w : world) (c : approval_call) : world :=
  match c with
  | CallCreate id t scope o => (create id t scope o w).1
  | CallResolve id h d r cs by_ n l o => (resolve id h d r cs by_ n l o w).1
  | CallSetTtl ttl =>
      match set_approval_ttl_ms w.1 ttl with Ok s => (s, w.2) | Err _ => w end
  end.

Definition approval_run (w : world) (calls : list approval_call) : world :=
  foldl approval_step w calls.

End store.

(** ** The file it writes, it can load *)

Section facts.
Context `{Platform, InstantLaws}.

Definition good_file (f : ApprovalFile) : Prop :=
  af_format_version f = FORMAT_VERSION ∧
  map_Forall (λ key record, record_valid key record = true) (af_records f).

Definition good_world (w : world) : Prop :=
  good_file (st_file w.1) ∧ (0 < st_approval_ttl_ms w.1 <= 1800000)%N ∧
  from_option good_file True w.2.

(** The clock of a call stays in the calendar, up to the longest expiry. *)
Definition call_ok (c : approval_call) : Prop :=
  match c with
  | CallCreate _ t _ _ => calendar t ∧ calendar (t + 1800000 * 10 ^ 6)%Z
  | _ => True
  end.

Lemma approvals_load_good f :
  good_file f ↔ load (ReadParsed (Some f)) = Ok {| st_file := f; st_approval_ttl_ms := 1800000 |}.
Proof.
  unfold good_file, load. simpl. rewrite map_Forall_lookup.
  destruct (af_format_version f =? FORMAT_VERSION)%N eqn:Ev; bool_to_prop; simpl;
    [|split; [by intros [? _]|done]].
  destruct (forallb _ _) eqn:Ea; simpl.
  - split; [done|]. intros _. split; [done|]. intros k r Hk.
    rewrite forallb_true in Ea. specialize (Ea (k, r)). simpl in Ea. apply Ea.
    by apply elem_of_btree_entries.
  - split; [|done]. intros [_ Hall]. exfalso. apply not_true_iff_false in Ea. apply Ea.
    apply forallb_true. intros [k r] Hin%elem_of_btree_entries. by apply Hall.
Qed.

Lemma approvals_load_result r s :
  load r = Ok s →
  good_file (st_file s) ∧ st_approval_ttl_ms s = 1800000%N ∧
  match r with
  | ReadParsed parsed => parsed = Some (st_file s)
  | ReadMissing => af_records (st_file s) = ∅
  | ReadFailed => False
  end.
Proof.
  intros Hl. destruct r as [[f|]| |]; try done.
  - assert (good_file f) as Hg.
    { apply approvals_load_good. unfold load in *. simpl in *. next_check Hl. next_check Hl. done. }
    apply approvals_load_good in Hg as Hg'. rewrite Hg' in Hl. by injection Hl as <-.
  - injection Hl as <-. simpl. repeat split; apply map_Forall_empty.
Qed.

Lemma record_valid_spec key r :
  record_valid key r = true ↔
  approval_scope_hash (ar_approval_id r) (record_scope r) = Ok (ar_scope_hash r) ∧
  key = ar_approval_id r ∧
  sort_dedup (ar_permission_actions r) = ar_permission_actions r ∧
  is_some (ar_decision r) = is_some (ar_resolved_at r) ∧ timestamps_valid r = true.
Proof.
  unfold record_valid. destruct (approval_scope_hash _ _) as [hash|]; [|naive_solver].
  rewrite negb_true_iff, !orb_false_iff, !negb_false_iff, !String.eqb_eq, eqb_true_iff,
    bool_decide_eq_true. split; [naive_solver|]. intros ([= ->] & ? & ? & ? & ?). done.
Qed.

Lemma make_record_valid s id t scope record :
  (0 < st_approval_ttl_ms s <= 1800000)%N → calendar t → calendar (t + 1800000 * 10 ^ 6)%Z →
  make_record s id t scope = Ok record → record_valid id record = true ∧ ar_decision record = None.
Proof.
  intros Httl Ht Ht' Hm. unfold make_record in Hm.
  destruct (approval_scope_hash id (normalize_scope scope)) as [hash|] eqn:Hh; [|done].
  next_check Hm.
  assert (calendar (t + Z.of_N (st_approval_ttl_ms s) * 10 ^ 6)%Z) as Hc
    by (unfold calendar in *; lia).
  rewrite instant_add_calendar in Hm by done. injection Hm as <-. split; [|done].
  apply record_valid_spec. split_and!; try done; [apply sort_dedup_idemp|].
  unfold timestamps_valid. simpl. rewrite !instant_text_parse by done.
  rewrite Z.mod_add by done. simpl. apply Z.ltb_lt. lia.
Qed.

Lemma decide_record_valid key record d at_ reason conditions by_ :
  record_valid key record = true →
  record_valid key (decide_record record d at_ reason conditions by_) = true.
Proof. rewrite !record_valid_spec. by intros (? & ? & ? & _ & ?). Qed.

Lemma put_good s key record :
  good_file (st_file s) → record_valid key record = true → good_file (st_file (put s key record)).
Proof. intros [Hv Hall] Hr. split; [done|]. by apply map_Forall_insert_2. Qed.

Lemma approval_step_good w c : good_world w → call_ok c → good_world (approval_step w c).
Proof.
  intros (Hf & Httl & Hd) Hc. destruct c as [id t scope o|id h d r cs by_ now later o|ttl]; simpl.
  - unfold create. destruct (make_record _ _ _ _) as [record|] eqn:Hm; [|done].
    destruct Hc as [Hc1 Hc2]. destruct (make_record_valid _ _ _ _ _ Httl Hc1 Hc2 Hm) as [Hr _].
    split_and!; simpl; try apply Httl; [by apply put_good|].
    apply (persist_good good_file); [by apply put_good|done].
  - unfold resolve. destruct (get w.1 id) as [record|] eqn:Hg; [|done].
    destruct (_ && _); [done|]. destruct (_ || _); [done|].
    destruct (is_none _); [|done]. simpl.
    assert (record_valid id (decide_record record d (instant_text later) r cs by_) = true) as Hr.
    { apply decide_record_valid. destruct Hf as [_ Hall]. by apply (Hall id). }
    split_and!; simpl; try apply Httl; [by apply put_good|].
    apply (persist_good good_file); [by apply put_good|done].
  - unfold set_approval_ttl_ms. destruct (_ || _) eqn:E; [done|]. bool_to_prop.
    split_and!; simpl; try done; lia.
Qed.

Lemma approval_run_good w calls :
  good_world w → Forall call_ok calls → good_world (approval_run w calls).
Proof.
  revert w. induction calls as [|c calls IH]; intros w Hw Hc; simpl; [done|].
  apply Forall_cons in Hc as [Hc Hcs]. apply IH; [by apply approval_step_good|done].
Qed.

(** What the store writes it can load: after any sequence of calls on a
    loaded store, whatever becomes of each write, the file on disk passes every
    check of [load] and gives back exactly its records. *)
Theorem approval_store_reloads r s0 calls
    (Hload : load r = Ok s0) (Hcalls : Forall call_ok calls) :
  let w := approval_run (s0, read_disk r) calls in
  (∀ f, w.2 = Some f →
    ∃ s, load (ReadParsed (Some f)) = Ok s ∧ st_file s = f) ∧
  ∃ s, load (ReadParsed (Some (st_file w.1))) = Ok s ∧ st_file s = st_file w.1.
Proof.
  intros w. destruct (approvals_load_result r s0 Hload) as (Hf & Httl & Hr).
  assert (good_world w) as (Hg & _ & Hd).
  { apply approval_run_good; [|done]. split; [done|]. split; [simpl; by rewrite Httl|].
    destruct r as [[f|]| |]; simpl in *; by simplify_eq. }
  split.
  - intros f Hw. rewrite Hw in Hd. simpl in Hd. apply approvals_load_good in Hd. by eexists.
  - apply approvals_load_good in Hg. by eexists.
Qed.

(** ** Decisions *)

(** Who gets a decision: a resolution succeeds exactly for a known request
    whose scope hash it names, when that decision was already taken or when the
    request is undecided, not expired and the decision reached the disk. *)
Theorem resolve_grants_exactly id hash d reason conditions by_ now later outcome w :
  let r := resolve id hash d reason conditions by_ now later outcome w in
  (∃ record, r.2 = Ok record) ↔
  ∃ record, get w.1 id = Some record ∧ ar_scope_hash record = hash ∧
    (ar_decision record = Some d ∨
     (ar_decision record = None ∧ approval_request_is_current record now = true ∧
      outcome = Persisted)).
Proof.
  intros r. subst r. unfold resolve. destruct (get w.1 id) as [record|] eqn:Hg;
    [|split; [by intros [? ?]|by intros (? & ? & _)]].
  assert (∀ P : Prop, ¬ P →
    ((∃ r : ApprovalRecord, (w, Err Stale : result ApprovalRecord ApprovalStoreError).2 = Ok r)
       ↔ P)) as Hno by (intros P HP; split; [by intros [? ?]|done]).
  destruct (ar_decision record) as [d'|] eqn:Hd; simpl.
  - destruct (String.eqb (ar_scope_hash record) hash) eqn:Eh; bool_to_prop; simpl;
      [|apply Hno; intros (r & [= <-] & ? & _); congruence].
    case_bool_decide as Hdd; simpl; [subst d'; split; eauto 10|].
    apply Hno. intros (r & [= <-] & _ & [?|(? & _)]); congruence.
  - destruct (approval_request_is_current record now) eqn:Ec; simpl;
      [|apply Hno; intros (r & [= <-] & _ & [?|(_ & ? & _)]); congruence].
    destruct (String.eqb (ar_scope_hash record) hash) eqn:Eh; bool_to_prop; simpl;
      [|apply Hno; intros (r & [= <-] & ? & _); congruence].
    destruct outcome; simpl; [split; eauto 10|..];
      (split; [by intros [? ?]|intros (r & [= <-] & _ & [?|(_ & _ & ?)]); congruence]).
Qed.

(** No call creates a request under an identifier in use. *)
Fixpoint fresh_ids (w : world) (calls : list approval_call) : Prop :=
  match calls with
  | [] => True
  | c :: calls =>
      match c with CallCreate id _ _ _ => get w.1 id = None | _ => True end ∧
      fresh_ids (approval_step w c) calls
  end.

(** What a request may become. *)
Definition evolves (r r' : ApprovalRecord) : Prop :=
  record_scope r' = record_scope r ∧ ar_approval_id r' = ar_approval_id r ∧
  ar_scope_hash r' = ar_scope_hash r ∧ ar_expires_at r' = ar_expires_at r ∧
  (is_some (ar_decision r) = true → r' = r).

Lemma approval_step_evolves w c id r :
  match c with CallCreate id _ _ _ => get w.1 id = None | _ => True end →
  get w.1 id = Some r → ∃ r', get (approval_step w c).1 id = Some r' ∧ evolves r r'.
Proof.
  intros Hfresh Hg. assert (∃ r', get w.1 id = Some r' ∧ evolves r r') as Hsame
    by by exists r.
  destruct c as [id' t scope o|id' h d rs cs by_ now later o|ttl]; simpl.
  - unfold create. destruct (make_record _ _ _ _) as [record|]; [|done]. simpl.
    unfold get. simpl. destruct (decide (id' = id)) as [->|Hne]; [congruence|].
    rewrite lookup_insert_ne by done. exact Hsame.
  - unfold resolve. destruct (get w.1 id') as [record|] eqn:Hg'; [|done].
    destruct (_ && _); [done|]. destruct (_ || _); [done|].
    destruct (is_none (ar_decision record)) eqn:En; [|done]. simpl. unfold get. simpl.
    destruct (decide (id' = id)) as [->|Hne]; [|by rewrite lookup_insert_ne].
    rewrite lookup_insert_eq. eexists. split; [done|]. rewrite Hg in Hg'. injection Hg' as <-.
    unfold evolves. split_and!; try done. by destruct (ar_decision r).
  - unfold set_approval_ttl_ms. by destruct (_ || _).
Qed.

(** A decision is final and a scope immutable: once requested, an approval
    is never removed and its scope, hash and expiry never change; once decided,
    the whole record stays as it is, reason and resolver included. *)
Theorem decisions_are_final w calls id r
    (Hfresh : fresh_ids w calls) (Hget : get w.1 id = Some r) :
  ∃ r', get (approval_run w calls).1 id = Some r' ∧ evolves r r'.
Proof.
  revert w r Hfresh Hget. induction calls as [|c calls IH]; intros w r Hfresh Hget; simpl.
  { by exists r. }
  destruct Hfresh as [Hc Hfresh].
  destruct (approval_step_evolves w c id r Hc Hget) as (r1 & Hg1 & Hs1 & Hi1 & Hh1 & He1 & Hd1).
  destruct (IH _ r1 Hfresh Hg1) as (r2 & Hg2 & Hs2 & Hi2 & Hh2 & He2 & Hd2).
  exists r2. split; [done|]. unfold evolves. split_and!; try congruence.
  intros Hd. specialize (Hd1 Hd). subst r1. by apply Hd2.
Qed.

(** A decision that never reached the disk is served as taken: when the
    write of a first decision is lost the caller gets an error and the file is
    unchanged, but the same resolution then succeeds without any write, whatever
    the clock says, and [get] returns the decision. *)
Theorem lost_decision_is_served id d reason conditions by_ now later e w record
    (Hget : get w.1 id = Some record) (Hopen : ar_decision record = None)
    (Hcurrent : approval_request_is_current record now = true) :
  let first := resolve id (ar_scope_hash record) d reason conditions by_ now later
    (PersistLost e) w in
  first.2 = Err e ∧ first.1.2 = w.2 ∧
  ∀ reason' conditions' by_' now' later' outcome,
    let second := resolve id (ar_scope_hash record) d reason' conditions' by_' now' later' outcome
      first.1 in
    (∃ r, second.2 = Ok r ∧ ar_decision r = Some d ∧ get second.1.1 id = Some r) ∧
    second.1.2 = w.2.
Proof.
  intros first. assert (first =
    ((put w.1 id (decide_record record d (instant_text later) reason conditions by_), w.2), Err e))
    as ->.
  { unfold first, resolve. by rewrite Hget, Hopen, Hcurrent, String.eqb_refl. }
  split; [done|]. split; [done|]. intros reason' conditions' by_' now' later' outcome second.
  assert (get (put w.1 id (decide_record record d (instant_text later) reason conditions by_)) id
    = Some (decide_record record d (instant_text later) reason conditions by_)) as Hg.
  { unfold get. simpl. by rewrite lookup_insert_eq. }
  unfold second, resolve. cbn [fst snd]. rewrite Hg. simpl. rewrite String.eqb_refl.
  rewrite bool_decide_eq_true_2 by done. simpl. split; [|done]. by eexists.
Qed.

End facts.

(** ** Witnesses *)

Definition sample_scope : ApprovalScope :=
  {| sc_operation_id := "opn_1"; sc_tool_id := "tool"; sc_descriptor_hash := digest "descriptor";
     sc_arguments_hash := digest "arguments"; sc_permission_actions := ["write"; "read"; "write"];
     sc_paid_limit := JNull; sc_target_refs := []; sc_expected_revision := Some 7%N;
     sc_arguments := JObj []; sc_actor := JNull; sc_runtime_scope := JObj [] |}.

Definition sample_store : ApprovalStore :=
  {| st_file := {| af_format_version := FORMAT_VERSION; af_records := ∅ |};
     st_approval_ttl_ms := 1800000 |}.

Definition sample_calls : list approval_call :=
  [CallSetTtl 1000; CallCreate "apr_1" (10 ^ 18) sample_scope Persisted].

Definition sample_world : world := approval_run (sample_store, None) sample_calls.
Definition sample_hash : Sha256Hash :=
  match get sample_world.1 "apr_1" with Some r => ar_scope_hash r | None => EmptyString end.
Definition sample_record : ApprovalRecord :=
  new_record "apr_1" sample_hash (normalize_scope sample_scope) ["read"; "write"]
    (instant_text (10 ^ 18)) (instant_text (10 ^ 18 + 1000 * 10 ^ 6)).

Lemma sample_get : get sample_world.1 "apr_1" = Some sample_record.
Proof. vm_compute. reflexivity. Qed.

Lemma sample_calls_ok : Forall call_ok sample_calls.
Proof. repeat constructor; vm_compute; done. Qed.

Lemma approval_store_reloads_witness :
  load ReadMissing = Ok sample_store ∧
  ∃ s, load (ReadParsed (Some (st_file sample_world.1))) = Ok s ∧
    st_file s = st_file sample_world.1.
Proof.
  split; [reflexivity|].
  exact (proj2 (approval_store_reloads ReadMissing sample_store sample_calls eq_refl
    sample_calls_ok)).
Defined.

Definition sample_resolution : list approval_call :=
  [CallResolve "apr_1" sample_hash Deny None None JNull (10 ^ 18) (10 ^ 18) Persisted;
   CallResolve "apr_1" sample_hash Approve None None JNull (10 ^ 18) (10 ^ 18) Persisted].

Lemma decisions_are_final_witness :
  ∃ r', get (approval_run sample_world sample_resolution).1 "apr_1" = Some r' ∧
    evolves sample_record r'.
Proof.
  apply (decisions_are_final sample_world sample_resolution "apr_1" sample_record).
  - split; [exact I|]. split; [exact I|exact I].
  - exact sample_get.
Defined.

Lemma lost_decision_is_served_witness :
  (resolve "apr_1" (ar_scope_hash sample_record) Approve None None JNull (10 ^ 18) (10 ^ 18)
    (PersistLost Io) sample_world).2 = Err Io.
Proof.
  refine (proj1 (lost_decision_is_served "apr_1" Approve None None JNull (10 ^ 18) (10 ^ 18) Io
    sample_world sample_record sample_get _ _)); [reflexivity|]. vm_compute. reflexivity.
Defined.
