(* ===== verification/CoordinationStore.v ===== *)
(** * The coordination store

    Models [apps/star-controller/src/coordination_store.rs]: the change bundle
    and the handoff the controller keeps per goal, in memory and in a file; the
    checks on loading the file and on saving a pair; the lookups; and the
    process-wide store that is loaded at its first use.

    The file system is the environment of [Persist.v].  [load] gets the outcome
    of reading and parsing the file, [save] how far its write gets. *)
From S2P Require Import Prelude Canonical Toy Contracts Development Coordination CoordinationFacts.
From S2P Require Import Persist.

Definition STORE_SCHEMA_ID : string := "star.coordination-store".
Definition STORE_FORMAT_VERSION : N := 1.

Record CoordinationFile := {
  cf_schema_id : string;
  cf_format_version : N;
  cf_generation : N;
  cf_bundles_by_goal : gmap string ChangeBundle;
  cf_handoffs_by_goal : gmap string ChangeBundleHandoff
}.

Definition CoordinationFile_default : CoordinationFile :=
  {| cf_schema_id := STORE_SCHEMA_ID;
     cf_format_version := STORE_FORMAT_VERSION;
     cf_generation := 0;
     cf_bundles_by_goal := ∅;
     cf_handoffs_by_goal := ∅ |}.

Inductive CoordinationStoreError :=
| LocalAppDataUnavailable | NotFound | Conflict | Corrupt | Io | Dacl.

#[global] Instance CoordinationStoreError_eq_dec : EqDecision CoordinationStoreError.
Proof. solve_decision. Defined.

(** The store is its file in memory; the path is fixed. *)
Definition CoordinationStore : Type := CoordinationFile.

(** ** Operations *)

(** The three comparisons of a handoff with its bundle. *)
Definition handoff_differs (handoff : ChangeBundleHandoff) (bundle : ChangeBundle) : bool :=
  negb (String.eqb (ch_bundle_id handoff) (cb_bundle_id bundle))
  || negb (ch_bundle_revision handoff =? cb_revision bundle)%N
  || negb (String.eqb (ch_bundle_fingerprint handoff) (cb_bundle_fingerprint bundle)).

(** The two loops of [load]. *)
Definition bad_bundle_entry (e : string * ChangeBundle) : bool :=
  negb (String.eqb (cb_goal_id e.2) e.1) || is_err (validate_bundle e.2).

Definition bad_handoff_entry (bundles : gmap string ChangeBundle)
    (e : string * ChangeBundleHandoff) : bool :=
  match bundles !! e.1 with
  | None => true
  | Some bundle => handoff_differs e.2 bundle
  end.

Definition load (read : read_outcome CoordinationFile) :
    result CoordinationStore CoordinationStoreError :=
  let? file :=
    match read with
    | ReadParsed parsed => ok_or parsed Corrupt
    | ReadMissing => Ok CoordinationFile_default
    | ReadFailed => Err Io
    end in
  check negb (String.eqb (cf_schema_id file) STORE_SCHEMA_ID)
    || negb (cf_format_version file =? STORE_FORMAT_VERSION)%N
  else Corrupt in
  check existsb bad_bundle_entry (btree_entries (cf_bundles_by_goal file)) else Corrupt in
  check existsb (bad_handoff_entry (cf_bundles_by_goal file))
          (btree_entries (cf_handoffs_by_goal file))
  else Corrupt in
  Ok file.

(** The guard of [save] on the bundle the goal already has. *)
Definition superseded (bundle : ChangeBundle) (existing : option ChangeBundle) : bool :=
  match existing with
  | Some existing =>
      (cb_revision bundle <? cb_revision existing)%N
      || (cb_revision bundle =? cb_revision existing)%N
         && negb (bool_decide (bundle = existing))
  | None => false
  end.

(** The store after [save] passed its checks. *)
Definition enter (file : CoordinationStore) (bundle : ChangeBundle)
    (handoff : ChangeBundleHandoff) : CoordinationStore :=
  {| cf_schema_id := cf_schema_id file;
     cf_format_version := cf_format_version file;
     cf_generation := saturating_add u64_max (cf_generation file) 1;
     cf_bundles_by_goal := <[cb_goal_id bundle := bundle]> (cf_bundles_by_goal file);
     cf_handoffs_by_goal := <[cb_goal_id bundle := handoff]> (cf_handoffs_by_goal file) |}.

(** A store in memory and the file on disk. *)
Definition world : Type := CoordinationStore * option CoordinationFile.

Definition save (bundle : ChangeBundle) (handoff : ChangeBundleHandoff)
    (outcome : persist_outcome CoordinationStoreError) (w : world) :
    world * result unit CoordinationStoreError :=
  if is_err (validate_bundle bundle) then (w, Err Conflict)
  else if handoff_differs handoff bundle then (w, Err Conflict)
  else if superseded bundle (cf_bundles_by_goal w.1 !! cb_goal_id bundle)
  then (w, Err Conflict)
  else
    let file := enter w.1 bundle handoff in
    let p := persist Dacl outcome file w.2 in
    ((file, p.1), p.2).

Definition merge_status (file : CoordinationStore) (goal_id : string) :
    result ChangeBundle CoordinationStoreError :=
  ok_or (cf_bundles_by_goal file !! goal_id) NotFound.

Definition handoff (file : CoordinationStore) (goal_id : string) :
    result ChangeBundleHandoff CoordinationStoreError :=
  ok_or (cf_handoffs_by_goal file !! goal_id) NotFound.

(** [with_default_coordination_store]: the slot of the process, the presence of
    [LOCALAPPDATA] and the outcome of reading the file there.  The mutex is not
    poisoned, no operation panicking. *)
Definition with_default_coordination_store {T : Type} (local_app_data : bool)
    (read : read_outcome CoordinationFile)
    (operation : world → world * result T CoordinationStoreError)
    (slot : option CoordinationStore) (disk : option CoordinationFile) :
    option CoordinationStore * option CoordinationFile * result T CoordinationStoreError :=
  let loaded :=
    match slot with
    | Some file => Ok file
    | None => if local_app_data then load read else Err LocalAppDataUnavailable
    end in
  match loaded with
  | Err e => (slot, disk, Err e)
  | Ok file => let r := operation (file, disk) in (Some r.1.1, r.1.2, r.2)
  end.

Definition save_call : Type :=
  ChangeBundle * ChangeBundleHandoff * persist_outcome CoordinationStoreError.

Definition save_step (w : world) (c : save_call) : world := (save c.1.1 c.1.2 c.2 w).1.

Definition save_run (w : world) (calls : list save_call) : world := foldl save_step w calls.

(** ** Good files *)

Definition bundle_entry_ok (goal_id : string) (bundle : ChangeBundle) : Prop :=
  cb_goal_id bundle = goal_id ∧ validate_bundle bundle = Ok tt.

(** The handoff is of this very bundle. *)
Definition handoff_of (h : ChangeBundleHandoff) (b : ChangeBundle) : Prop :=
  (ch_bundle_id h, ch_bundle_revision h, ch_bundle_fingerprint h)
    = (cb_bundle_id b, cb_revision b, cb_bundle_fingerprint b).

Definition good_file (file : CoordinationFile) : Prop :=
  cf_schema_id file = STORE_SCHEMA_ID ∧
  cf_format_version file = STORE_FORMAT_VERSION ∧
  map_Forall bundle_entry_ok (cf_bundles_by_goal file) ∧
  map_Forall (λ goal_id h, ∃ b, cf_bundles_by_goal file !! goal_id = Some b ∧ handoff_of h b)
    (cf_handoffs_by_goal file).

Definition good_world (w : world) : Prop := good_file w.1 ∧ from_option good_file True w.2.

Lemma handoff_differs_spec h b : handoff_differs h b = false ↔ handoff_of h b.
Proof.
  unfold handoff_differs, handoff_of.
  rewrite !orb_false_iff, !negb_false_iff, !String.eqb_eq, N.eqb_eq. split.
  - by intros [[-> ->] ->].
  - by intros [= -> -> ->].
Qed.

Lemma valid_spec b : is_err (validate_bundle b) = false ↔ validate_bundle b = Ok tt.
Proof. by destruct (validate_bundle b) as [[]|]. Qed.

Lemma map_Forall_iff {V} (P Q : string → V → Prop) (m : gmap string V) :
  (∀ k v, P k v ↔ Q k v) → map_Forall P m ↔ map_Forall Q m.
Proof. intros Hiff. rewrite !map_Forall_lookup. by setoid_rewrite Hiff. Qed.

Lemma bundles_load_good file : load (ReadParsed (Some file)) = Ok file ↔ good_file file.
Proof.
  unfold good_file.
  rewrite <-(map_Forall_iff (λ k b, bad_bundle_entry (k, b) = false)).
  2: { intros k b. unfold bad_bundle_entry, bundle_entry_ok. simpl.
       by rewrite orb_false_iff, negb_false_iff, String.eqb_eq, valid_spec. }
  rewrite <-(map_Forall_iff (λ k h, bad_handoff_entry (cf_bundles_by_goal file) (k, h) = false)).
  2: { intros k h. unfold bad_handoff_entry. simpl. destruct (_ !! k) as [b|].
       - rewrite handoff_differs_spec. split; [eauto|]. by intros (? & [= <-] & ?).
       - split; [done|]. by intros (? & ? & _). }
  rewrite <-!entries_false, <-String.eqb_eq, <-N.eqb_eq. unfold load. simpl.
  destruct (String.eqb _ _), (_ =? _)%N; simpl;
    try (split; [done|intros (? & ? & _); congruence]).
  destruct (existsb bad_bundle_entry _); [split; [done|intros (_ & _ & ? & _); congruence]|].
  destruct (existsb _ _); [split; [done|intros (_ & _ & _ & ?); congruence]|]. tauto.
Qed.

Lemma bundles_load_result r file :
  load r = Ok file → good_file file ∧
  match r with
  | ReadParsed parsed => parsed = Some file
  | ReadMissing => file = CoordinationFile_default
  | ReadFailed => False
  end.
Proof.
  intros Hl. assert (∀ f, load (ReadParsed (Some f)) = Ok file → f = file) as Hid.
  { intros f Hf. unfold load in Hf. simpl in Hf. do 3 next_check Hf. by injection Hf. }
  destruct r as [[f|]| |]; try done.
  - apply Hid in Hl as Hf. subst f. split; [|done]. by apply bundles_load_good.
  - injection Hl as <-. split; [|done]. split_and!; try done; apply map_Forall_empty.
Qed.

(** ** Saving *)

(** What [save] asks of a pair. *)
Definition admissible (file : CoordinationStore) (b : ChangeBundle) (h : ChangeBundleHandoff) :
    Prop :=
  validate_bundle b = Ok tt ∧ handoff_of h b ∧
  ∀ b0, cf_bundles_by_goal file !! cb_goal_id b = Some b0 →
    (cb_revision b0 < cb_revision b)%N ∨ b0 = b.

Lemma superseded_spec b existing :
  superseded b existing = false ↔
  ∀ b0, existing = Some b0 → (cb_revision b0 < cb_revision b)%N ∨ b0 = b.
Proof.
  unfold superseded. destruct existing as [b1|]; [|naive_solver].
  rewrite orb_false_iff, andb_false_iff, negb_false_iff, N.ltb_ge, N.eqb_neq, bool_decide_eq_true.
  split.
  - intros [? [?|?]] b0 [= <-]; [left; lia|by right].
  - intros Hall. destruct (Hall b1 eq_refl) as [?| ->]; (split; [lia|]); [left; lia|by right].
Qed.

(** A call either refuses the pair and changes nothing, or enters it. *)
Lemma save_cases b h outcome w :
  (¬ admissible w.1 b h ∧ save b h outcome w = (w, Err Conflict)) ∨
  (admissible w.1 b h ∧ save b h outcome w =
    ((enter w.1 b h, (persist Dacl outcome (enter w.1 b h) w.2).1),
     (persist Dacl outcome (enter w.1 b h) w.2).2)).
Proof.
  unfold admissible, save. rewrite <-valid_spec, <-handoff_differs_spec, <-superseded_spec.
  destruct (is_err _); [left; naive_solver|].
  destruct (handoff_differs h b); [left; naive_solver|].
  destruct (superseded _ _); [left; naive_solver|]. by right.
Qed.

Lemma enter_good file b h : good_file file → admissible file b h → good_file (enter file b h).
Proof.
  intros (Hs & Hv & Hb & Hh) (Hvalid & Hof & _). split_and!; try done; simpl.
  - by apply map_Forall_insert_2.
  - intros k h' [[<- <-]|[Hne Hk]]%lookup_insert_Some.
    + exists b. by rewrite lookup_insert_eq.
    + destruct (Hh k h' Hk) as (b' & Hb' & Hof'). exists b'. by rewrite lookup_insert_ne.
Qed.

Lemma save_run_good w calls : good_world w → good_world (save_run w calls).
Proof.
  revert w. induction calls as [|[[b h] o] calls IH]; intros w Hw; simpl; [done|].
  apply IH. unfold save_step. simpl. destruct Hw as [Hg Hd].
  destruct (save_cases b h o w) as [[_ ->]|[Ha ->]]; [done|].
  assert (good_file (enter w.1 b h)) as Hg' by by apply enter_good.
  split; [done|]. by apply (persist_good good_file).
Qed.

(** Who may save: a pair is stored and acknowledged exactly when the bundle
    is valid, the handoff is the handoff of this bundle, the bundle is a later
    revision than the stored one of its goal or identical to it, and the write
    completes.  Any other pair is a [Conflict] that changes nothing; when only
    the write fails its error is returned, and the pair is served from memory. *)
Theorem save_accepts_exactly b h outcome w :
  let r := save b h outcome w in
  (r.2 = Ok tt ↔ admissible w.1 b h ∧ outcome = Persisted) ∧
  (¬ admissible w.1 b h → r = (w, Err Conflict)) ∧
  (admissible w.1 b h →
    merge_status r.1.1 (cb_goal_id b) = Ok b ∧ handoff r.1.1 (cb_goal_id b) = Ok h ∧
    (∀ goal, goal ≠ cb_goal_id b →
      merge_status r.1.1 goal = merge_status w.1 goal ∧ handoff r.1.1 goal = handoff w.1 goal)) ∧
  (∀ e, outcome = PersistLost e → r.1.2 = w.2).
Proof.
  intros r. subst r. destruct (save_cases b h outcome w) as [[Hno ->]|[Ha ->]]; simpl.
  - split_and!; naive_solver.
  - rewrite (persist_ok Dacl outcome (enter w.1 b h) w.2). split_and!; [tauto|tauto| |].
    + intros _. unfold merge_status, handoff. simpl. rewrite !lookup_insert_eq.
      split_and!; try done. intros goal Hne. by rewrite !lookup_insert_ne by done.
    + by intros e ->.
Qed.

(** What the store writes it can load: after any sequence of saves on a
    loaded store, whatever becomes of each write, the file in memory and the
    file on disk pass every check of [load] and load as they are. *)
Theorem coordination_store_reloads r file calls (Hload : load r = Ok file) :
  let w := save_run (file, read_disk r) calls in
  load (ReadParsed (Some w.1)) = Ok w.1 ∧
  ∀ f, w.2 = Some f → load (ReadParsed (Some f)) = Ok f.
Proof.
  intros w. destruct (bundles_load_result r file Hload) as [Hg Hr].
  assert (good_world w) as [Hw Hd].
  { apply save_run_good. split; [done|]. destruct r as [[f|]| |]; simpl in *; by simplify_eq. }
  split; [by apply bundles_load_good|]. intros f Hf. rewrite Hf in Hd. by apply bundles_load_good.
Qed.

Lemma save_run_app w c1 c2 : save_run w (c1 ++ c2) = save_run (save_run w c1) c2.
Proof. apply foldl_app. Qed.

(** The stored revision of a goal never goes back: after any sequence of
    saves a goal that had a bundle still has one, the same or one of a later
    revision; two bundles stored under one goal at one revision are equal. *)
Theorem revisions_move_forward w calls goal b
    (Hb : cf_bundles_by_goal w.1 !! goal = Some b) :
  ∃ b', cf_bundles_by_goal (save_run w calls).1 !! goal = Some b' ∧
    ((cb_revision b < cb_revision b')%N ∨ b' = b).
Proof.
  revert w b Hb. induction calls as [|[[b1 h] o] calls IH]; intros w b Hb; simpl; [eauto|].
  assert (∃ b2, cf_bundles_by_goal (save_step w (b1, h, o)).1 !! goal = Some b2 ∧
    ((cb_revision b < cb_revision b2)%N ∨ b2 = b)) as (b2 & Hb2 & Hle).
  { unfold save_step. simpl. destruct (save_cases b1 h o w) as [[_ ->]|[(_ & _ & Hnew) ->]];
      simpl; [eauto|].
    destruct (decide (cb_goal_id b1 = goal)) as [<-|Hne];
      [|rewrite lookup_insert_ne by done; eauto].
    rewrite lookup_insert_eq. exists b1. split; [done|].
    destruct (Hnew b Hb) as [?| ->]; [by left|by right]. }
  destruct (IH _ b2 Hb2) as (b3 & Hb3 & Hle3). exists b3. split; [done|].
  destruct Hle as [?| ->], Hle3 as [?| ->]; [left; lia|by left|by left|by right].
Qed.

(** ** From the queue to the store *)

Section queue.
Context `{Platform}.

(** What the merge queue produces the store accepts: for a stored bundle of
    planned participants below the last revision, with a hash that does not
    fail, the run of the queue ends in a bundle whose handoff can be built, the
    pair is saved, the goal's status is the new bundle at the next revision, and
    the file on disk loads to a store that serves both. *)
Theorem queue_result_is_stored {S} (port : CoordinationPort S) b publish s w
    (Hjcs : ∀ j, is_some (jcs_to_string j) = true)
    (Hgood : good_file w.1) (Hstored : merge_status w.1 (cb_goal_id b) = Ok b)
    (Hplanned : Forall (λ p, bp_state p = Planned) (cb_participants b))
    (Hrev : (cb_revision b < u64_max)%N) :
  ∃ s' b' h, run_merge_queue port b publish s = (s', Ok b') ∧ build_handoff b' = Ok h ∧
    let r := save b' h Persisted w in
    r.2 = Ok tt ∧ cb_revision b' = (cb_revision b + 1)%N ∧
    ∃ file, r.1.2 = Some file ∧ load (ReadParsed (Some file)) = Ok file ∧
      merge_status file (cb_goal_id b) = Ok b' ∧ handoff file (cb_goal_id b) = Ok h.
Proof.
  assert (cf_bundles_by_goal w.1 !! cb_goal_id b = Some b) as Hb.
  { unfold merge_status in Hstored. destruct (_ !! _); [|done]. by injection Hstored as ->. }
  pose proof (proj1 (proj2 (proj2 Hgood)) _ _ Hb) as [_ Hv].
  destruct (merge_queue_result port b publish s Hjcs Hrev Hv Hplanned)
    as (s' & b' & Hrun & Hv' & Hrev' & Hgoal & _).
  destruct (build_handoff_total b' Hjcs Hv') as [h Hh].
  exists s', b', h. split; [done|]. split; [done|].
  assert (admissible w.1 b' h) as Ha.
  { split; [done|]. split; [by apply build_handoff_ok in Hh as (_ & ? & _)|].
    rewrite Hgoal, Hb. intros b0 [= <-]. left. lia. }
  destruct (save_cases b' h Persisted w) as [[Hno _]|[_ ->]]; [done|]. simpl.
  split; [done|]. split; [done|]. exists (enter w.1 b' h). split; [done|].
  split; [by apply bundles_load_good, enter_good|].
  unfold merge_status, handoff. simpl. by rewrite Hgoal, !lookup_insert_eq.
Qed.

End queue.

(** ** The process-wide store *)

(** Saves through the process-wide store.  Each call finds [LOCALAPPDATA] or
    not, and reads the file on disk or fails to. *)
Definition default_call : Type := bool * bool * save_call.

Definition read_of (readable : bool) (disk : option CoordinationFile) :
    read_outcome CoordinationFile :=
  if readable then match disk with Some f => ReadParsed (Some f) | None => ReadMissing end
  else ReadFailed.

Definition default_step (x : option CoordinationStore * option CoordinationFile)
    (c : default_call) : option CoordinationStore * option CoordinationFile :=
  (with_default_coordination_store c.1.1 (read_of c.1.2 x.2)
     (save c.2.1.1 c.2.1.2 c.2.2) x.1 x.2).1.

Definition default_run (disk : option CoordinationFile) (calls : list default_call) :
    option CoordinationStore * option CoordinationFile :=
  foldl default_step (None, disk) calls.

Definition default_inv (disk0 : option CoordinationFile)
    (x : option CoordinationStore * option CoordinationFile) : Prop :=
  match x.1 with
  | None => x.2 = disk0
  | Some file => good_world (file, x.2) ∧ from_option good_file True disk0
  end.

Lemma save_good b h outcome w : good_world w → good_world (save b h outcome w).1.
Proof. apply (save_run_good w [(b, h, outcome)]). Qed.

Lemma default_step_inv disk0 x c : default_inv disk0 x → default_inv disk0 (default_step x c).
Proof.
  destruct x as [slot disk], c as [[env readable] [[b h] o]]. unfold default_inv. simpl.
  unfold default_step, with_default_coordination_store. simpl. intros Hx.
  destruct slot as [file|].
  { simpl. destruct Hx as [Hw Hd]. split; [|done].
    pose proof (save_good b h o _ Hw) as Hs. by destruct (save b h o (file, disk)).1. }
  subst disk0. destruct env; simpl; [|done].
  destruct (load (read_of readable disk)) as [file|e] eqn:Hl; simpl; [|done].
  apply bundles_load_result in Hl as [Hg Hr].
  assert (from_option good_file True disk) as Hd.
  { destruct readable, disk as [f|]; simpl in *; try done. by injection Hr as ->. }
  split; [|done]. pose proof (save_good b h o (file, disk) (conj Hg Hd)) as Hs.
  by destruct (save b h o (file, disk)).1.
Qed.

(** A file that does not load is never overwritten: after any sequence of
    saves through the process-wide store, whichever of the reads and writes
    fail, either the file on disk is the one the process found and nothing is
    in memory, or the process found a file that loads (or none), and both the
    store in memory and the file now on disk load. *)
Theorem unloadable_file_is_kept disk0 calls :
  let x := default_run disk0 calls in
  (x.1 = None ∧ x.2 = disk0) ∨
  ∃ file, x.1 = Some file ∧ load (ReadParsed (Some file)) = Ok file ∧
    (∀ f, disk0 = Some f → load (ReadParsed (Some f)) = Ok f) ∧
    (∀ f, x.2 = Some f → load (ReadParsed (Some f)) = Ok f).
Proof.
  intros x. assert (default_inv disk0 x) as Hx.
  { unfold x, default_run. generalize (eq_refl : default_inv disk0 (None, disk0)).
    generalize (None : option CoordinationStore, disk0). clear x.
    induction calls as [|c calls IH]; intros y Hy; simpl; [done|].
    by apply IH, default_step_inv. }
  clearbody x. destruct x as [[file|] disk]; [right|by left]. unfold default_inv in Hx. simpl in *.
  destruct Hx as [[Hg Hd] H0]. exists file. split; [done|]. split; [by apply bundles_load_good|].
  split; [intros f ->|intros f Hf; subst disk]; by apply bundles_load_good.
Qed.

(** ** Instances

    The pair of the created example bundle, stored; the queue of the example
    port then runs on it. *)

Definition example_handoff : ChangeBundleHandoff :=
  match build_handoff example_bundle with
  | Ok h => h
  | Err _ => {| ch_schema_id := EmptyString; ch_schema_version := 0; ch_bundle_id := EmptyString;
      ch_bundle_revision := 0; ch_bundle_fingerprint := EmptyString;
      ch_participant_commits := []; ch_artifact_fingerprints := [];
      ch_remote_outcome := NotRequested; ch_ready := false; ch_blockers := [];
      ch_handoff_fingerprint := EmptyString |}
  end.

Definition example_saves : list save_call := [(example_bundle, example_handoff, Persisted)].

Definition example_world : world := save_run (CoordinationFile_default, None) example_saves.

Lemma example_stored : merge_status example_world.1 (cb_goal_id example_bundle) = Ok example_bundle.
Proof. vm_compute. reflexivity. Qed.

Lemma coordination_store_reloads_witness :
  load (ReadParsed (Some example_world.1)) = Ok example_world.1.
Proof.
  exact (proj1 (coordination_store_reloads ReadMissing CoordinationFile_default example_saves
    eq_refl)).
Defined.

Lemma revisions_move_forward_witness :
  ∃ b', cf_bundles_by_goal (save_run example_world [(example_bundle, example_handoff, PersistLost Io)]).1
      !! cb_goal_id example_bundle = Some b' ∧
    ((cb_revision example_bundle < cb_revision b')%N ∨ b' = example_bundle).
Proof.
  apply (revisions_move_forward example_world _ (cb_goal_id example_bundle) example_bundle).
  vm_compute. reflexivity.
Defined.

Lemma example_world_good : good_file example_world.1.
Proof. apply bundles_load_good. vm_compute. reflexivity. Qed.

Lemma queue_result_is_stored_witness :
  ∃ s' b' h, run_merge_queue example_port example_bundle true 0 = (s', Ok b') ∧
    build_handoff b' = Ok h ∧ (save b' h Persisted example_world).2 = Ok tt.
Proof.
  destruct (queue_result_is_stored example_port example_bundle true 0 example_world)
    as (s' & b' & h & Hr & Hh & Hs & _).
  - reflexivity.
  - exact example_world_good.
  - exact example_stored.
  - apply (bool_decide_unpack _). vm_compute. exact I.
  - vm_compute. reflexivity.
  - exists s', b', h. split; [exact Hr|]. split; [exact Hh|exact Hs].
Defined.
