(* ===== verification/Evaluation.v ===== *)
(** * Evaluation runs

    Models the comparison of a candidate with its baseline in
    [crates/control/star-release/src/evaluation.rs], over the evaluation
    contracts of [crates/foundation/star-contracts/src/release_v2.rs]: the checks
    of the input, the summaries of the cases, the recommendation, the run as a
    document and the entries of the catalog.  The documents on cost and budget
    are in [EvaluationDocuments.v].  Vectors are shorter than [2 ^ 64]; sums are
    those of a release build. *)
From stdpp Require Import pretty.
From S2P Require Import Prelude Canonical Contracts ReleaseLifecycle.

Abbreviation EvaluationRunId := string.
Abbreviation ValidationRunId := string.

Definition EVALUATION_RUN_V2_SCHEMA_ID : string := "star.evaluation-run".
Definition EVALUATION_CATALOG_ITEM_SCHEMA_ID : string := "star.evaluation-catalog-item".
Definition CODE_HEALTH_MAINTENANCE_PROFILE_ID : string := "code_health_maintenance".
Definition CODE_HEALTH_MAINTENANCE_PROFILE_VERSION : string := "1.0.0".

(** ** Enumerations *)

Inductive EvaluationSubjectKind :=
| RoutePolicySubject | RuleSubject | CheckSubject | ProfileSubject | RecipeSubject.
Inductive EvaluationContext := CliOnly | CodexIntegrated.
Inductive EvaluationMode := Offline | Replay | Shadow.
Inductive CaseAdjudication := ConfirmedDefect | FalsePositive | Unresolved | NotApplicable.
Inductive EvaluationOutcome :=
| OutcomeSuccess | OutcomeFailure | OutcomeRollback | OutcomeAccepted | OutcomeRejected
| OutcomeReverted | OutcomeUnknown.
Inductive ComparabilityState := CompatibleState | NotComparable.
Inductive EvaluationRecommendation := Keep | Trial | Accept | Reject | NeedsReview.
Inductive EvaluationCatalogLifecycle :=
| CatalogActive | CatalogDeprecated | CatalogRetired | CatalogRejected.

#[global] Instance EvaluationSubjectKind_eq_dec : EqDecision EvaluationSubjectKind.
Proof. solve_decision. Defined.
#[global] Instance EvaluationContext_eq_dec : EqDecision EvaluationContext.
Proof. solve_decision. Defined.
#[global] Instance EvaluationMode_eq_dec : EqDecision EvaluationMode.
Proof. solve_decision. Defined.
#[global] Instance CaseAdjudication_eq_dec : EqDecision CaseAdjudication.
Proof. solve_decision. Defined.
#[global] Instance EvaluationOutcome_eq_dec : EqDecision EvaluationOutcome.
Proof. solve_decision. Defined.
#[global] Instance ComparabilityState_eq_dec : EqDecision ComparabilityState.
Proof. solve_decision. Defined.
#[global] Instance EvaluationRecommendation_eq_dec : EqDecision EvaluationRecommendation.
Proof. solve_decision. Defined.
#[global] Instance EvaluationCatalogLifecycle_eq_dec : EqDecision EvaluationCatalogLifecycle.
Proof. solve_decision. Defined.

#[global] Instance EvaluationSubjectKind_to_json : ToJson EvaluationSubjectKind := λ k,
  JStr match k with
       | RoutePolicySubject => "route_policy" | RuleSubject => "rule" | CheckSubject => "check"
       | ProfileSubject => "profile" | RecipeSubject => "recipe"
       end.
#[global] Instance EvaluationContext_to_json : ToJson EvaluationContext := λ c,
  JStr match c with CliOnly => "cli_only" | CodexIntegrated => "codex_integrated" end.
#[global] Instance EvaluationMode_to_json : ToJson EvaluationMode := λ m,
  JStr match m with Offline => "offline" | Replay => "replay" | Shadow => "shadow" end.
#[global] Instance CaseAdjudication_to_json : ToJson CaseAdjudication := λ a,
  JStr match a with
       | ConfirmedDefect => "confirmed_defect" | FalsePositive => "false_positive"
       | Unresolved => "unresolved" | NotApplicable => "not_applicable"
       end.
#[global] Instance EvaluationOutcome_to_json : ToJson EvaluationOutcome := λ o,
  JStr match o with
       | OutcomeSuccess => "success" | OutcomeFailure => "failure" | OutcomeRollback => "rollback"
       | OutcomeAccepted => "accepted" | OutcomeRejected => "rejected"
       | OutcomeReverted => "reverted" | OutcomeUnknown => "unknown"
       end.
#[global] Instance ComparabilityState_to_json : ToJson ComparabilityState := λ s,
  JStr match s with CompatibleState => "compatible" | NotComparable => "not_comparable" end.
#[global] Instance EvaluationRecommendation_to_json : ToJson EvaluationRecommendation := λ r,
  JStr match r with
       | Keep => "keep" | Trial => "trial" | Accept => "accept" | Reject => "reject"
       | NeedsReview => "needs_review"
       end.
#[global] Instance EvaluationCatalogLifecycle_to_json : ToJson EvaluationCatalogLifecycle := λ l,
  JStr match l with
       | CatalogActive => "active" | CatalogDeprecated => "deprecated"
       | CatalogRetired => "retired" | CatalogRejected => "rejected"
       end.

(** ** The subject of an evaluation and the references of its cases *)

Record EvaluationSubject := {
  es_kind : EvaluationSubjectKind;
  es_item_id : string;
  es_version : string;
  es_definition_fingerprint : Sha256Hash
}.

Record EvaluationDefinition := {
  edf_subject : EvaluationSubject;
  edf_resolved_closure_fingerprint : Sha256Hash;
  edf_policy_fingerprint : Sha256Hash
}.

Record EvaluationCaseDefinitionRefV1 := {
  ecr_case_id : string;
  ecr_case_version : string;
  ecr_content_fingerprint : Sha256Hash
}.

Record EvaluationPolicyRefV1 := {
  epr_policy_id : string;
  epr_policy_version : string;
  epr_revision : N;
  epr_content_fingerprint : Sha256Hash
}.

Record CostRecordRefV1 := {
  crr_cost_record_id : string;
  crr_revision : N;
  crr_content_fingerprint : Sha256Hash
}.

Record EvaluationQuantityV1 := { eq_unit : string; eq_quantity : N }.

Record EvaluationQuantityComparisonV1 := {
  eqc_unit : string;
  eqc_baseline_quantity : N;
  eqc_candidate_quantity : N
}.

Record EvaluationSuppressionSummary := {
  esu_active : N;
  esu_expired : N;
  esu_stale : N;
  esu_revoked : N;
  esu_invalid : N
}.

#[global] Instance EvaluationSubject_eq_dec : EqDecision EvaluationSubject.
Proof. solve_decision. Defined.
#[global] Instance EvaluationDefinition_eq_dec : EqDecision EvaluationDefinition.
Proof. solve_decision. Defined.
#[global] Instance EvaluationCaseDefinitionRefV1_eq_dec : EqDecision EvaluationCaseDefinitionRefV1.
Proof. solve_decision. Defined.
#[global] Instance EvaluationPolicyRefV1_eq_dec : EqDecision EvaluationPolicyRefV1.
Proof. solve_decision. Defined.
#[global] Instance CostRecordRefV1_eq_dec : EqDecision CostRecordRefV1.
Proof. solve_decision. Defined.
#[global] Instance EvaluationQuantityV1_eq_dec : EqDecision EvaluationQuantityV1.
Proof. solve_decision. Defined.
#[global] Instance EvaluationQuantityComparisonV1_eq_dec :
  EqDecision EvaluationQuantityComparisonV1.
Proof. solve_decision. Defined.
#[global] Instance EvaluationSuppressionSummary_eq_dec : EqDecision EvaluationSuppressionSummary.
Proof. solve_decision. Defined.

#[global] Instance EvaluationSubject_to_json : ToJson EvaluationSubject := λ s,
  JObj [("kind", to_json (es_kind s)); ("item_id", to_json (es_item_id s));
        ("version", to_json (es_version s));
        ("definition_fingerprint", to_json (es_definition_fingerprint s))].
#[global] Instance EvaluationDefinition_to_json : ToJson EvaluationDefinition := λ d,
  JObj [("subject", to_json (edf_subject d));
        ("resolved_closure_fingerprint", to_json (edf_resolved_closure_fingerprint d));
        ("policy_fingerprint", to_json (edf_policy_fingerprint d))].
#[global] Instance EvaluationCaseDefinitionRefV1_to_json :
  ToJson EvaluationCaseDefinitionRefV1 := λ r,
  JObj [("case_id", to_json (ecr_case_id r)); ("case_version", to_json (ecr_case_version r));
        ("content_fingerprint", to_json (ecr_content_fingerprint r))].
#[global] Instance EvaluationPolicyRefV1_to_json : ToJson EvaluationPolicyRefV1 := λ r,
  JObj [("policy_id", to_json (epr_policy_id r));
        ("policy_version", to_json (epr_policy_version r)); ("revision", to_json (epr_revision r));
        ("content_fingerprint", to_json (epr_content_fingerprint r))].
#[global] Instance CostRecordRefV1_to_json : ToJson CostRecordRefV1 := λ r,
  JObj [("cost_record_id", to_json (crr_cost_record_id r)); ("revision", to_json (crr_revision r));
        ("content_fingerprint", to_json (crr_content_fingerprint r))].
#[global] Instance EvaluationQuantityV1_to_json : ToJson EvaluationQuantityV1 := λ q,
  JObj [("unit", to_json (eq_unit q)); ("quantity", to_json (eq_quantity q))].
#[global] Instance EvaluationQuantityComparisonV1_to_json :
  ToJson EvaluationQuantityComparisonV1 := λ q,
  JObj [("unit", to_json (eqc_unit q));
        ("baseline_quantity", to_json (eqc_baseline_quantity q));
        ("candidate_quantity", to_json (eqc_candidate_quantity q))].
#[global] Instance EvaluationSuppressionSummary_to_json : ToJson EvaluationSuppressionSummary := λ s,
  JObj [("active", to_json (esu_active s)); ("expired", to_json (esu_expired s));
        ("stale", to_json (esu_stale s)); ("revoked", to_json (esu_revoked s));
        ("invalid", to_json (esu_invalid s))].

(** The derived orders compare the fields in turn. *)
#[global] Instance EvaluationCaseDefinitionRefV1_cmp : Cmp EvaluationCaseDefinitionRefV1 :=
  cmp_on (λ r, (ecr_case_id r, (ecr_case_version r, ecr_content_fingerprint r))).
#[global] Instance EvaluationCaseDefinitionRefV1_cmp_laws : CmpLaws EvaluationCaseDefinitionRefV1.
Proof. apply cmp_on_laws. intros [] []; simpl. by intros [= -> -> ->]. Qed.
#[global] Instance CostRecordRefV1_cmp : Cmp CostRecordRefV1 :=
  cmp_on (λ r, (crr_cost_record_id r, (crr_revision r, crr_content_fingerprint r))).
#[global] Instance CostRecordRefV1_cmp_laws : CmpLaws CostRecordRefV1.
Proof. apply cmp_on_laws. intros [] []; simpl. by intros [= -> -> ->]. Qed.

(** ** Cases, comparability and protected metrics *)

Record EvaluationCaseResult := {
  ec_case_id : string;
  ec_case_version : string;
  ec_corpus_ref : string;
  ec_evaluation_context : EvaluationContext;
  ec_case_definition_ref : EvaluationCaseDefinitionRefV1;
  ec_task_source_binding : Sha256Hash;
  ec_baseline_run_refs : list ValidationRunId;
  ec_candidate_run_refs : list ValidationRunId;
  ec_adjudication : CaseAdjudication;
  ec_adjudication_evidence_refs : list string;
  ec_baseline_detected : bool;
  ec_candidate_detected : bool;
  ec_baseline_duration_ms : N;
  ec_candidate_duration_ms : N;
  ec_baseline_rework_count : N;
  ec_candidate_rework_count : N;
  ec_baseline_outcome : EvaluationOutcome;
  ec_candidate_outcome : EvaluationOutcome;
  ec_candidate_flaky : bool;
  ec_baseline_finding_count : N;
  ec_candidate_finding_count : N;
  ec_baseline_new_or_worsened_count : N;
  ec_candidate_new_or_worsened_count : N;
  ec_baseline_existing_debt_count : N;
  ec_candidate_existing_debt_count : N;
  ec_baseline_suppressions : EvaluationSuppressionSummary;
  ec_candidate_suppressions : EvaluationSuppressionSummary;
  ec_suppression_newly_added_count : N;
  ec_suppression_broadened_count : N;
  ec_suppression_removed_count : N;
  ec_baseline_cost_refs : list CostRecordRefV1;
  ec_candidate_cost_refs : list CostRecordRefV1;
  ec_baseline_usage_and_cost : list EvaluationQuantityV1;
  ec_candidate_usage_and_cost : list EvaluationQuantityV1;
  ec_limitations : list string
}.

Record EvaluationComparability := {
  cpb_dimension : string;
  cpb_state : ComparabilityState;
  cpb_evidence_ref : string
}.

Record ProtectedMetricResult := {
  pm_metric_id : string;
  pm_weakened : bool;
  pm_evidence_ref : string
}.

#[global] Instance EvaluationCaseResult_to_json : ToJson EvaluationCaseResult := λ c,
  JObj [("case_id", to_json (ec_case_id c)); ("case_version", to_json (ec_case_version c));
        ("corpus_ref", to_json (ec_corpus_ref c));
        ("evaluation_context", to_json (ec_evaluation_context c));
        ("case_definition_ref", to_json (ec_case_definition_ref c));
        ("task_source_binding", to_json (ec_task_source_binding c));
        ("baseline_run_refs", to_json (ec_baseline_run_refs c));
        ("candidate_run_refs", to_json (ec_candidate_run_refs c));
        ("adjudication", to_json (ec_adjudication c));
        ("adjudication_evidence_refs", to_json (ec_adjudication_evidence_refs c));
        ("baseline_detected", to_json (ec_baseline_detected c));
        ("candidate_detected", to_json (ec_candidate_detected c));
        ("baseline_duration_ms", to_json (ec_baseline_duration_ms c));
        ("candidate_duration_ms", to_json (ec_candidate_duration_ms c));
        ("baseline_rework_count", to_json (ec_baseline_rework_count c));
        ("candidate_rework_count", to_json (ec_candidate_rework_count c));
        ("baseline_outcome", to_json (ec_baseline_outcome c));
        ("candidate_outcome", to_json (ec_candidate_outcome c));
        ("candidate_flaky", to_json (ec_candidate_flaky c));
        ("baseline_finding_count", to_json (ec_baseline_finding_count c));
        ("candidate_finding_count", to_json (ec_candidate_finding_count c));
        ("baseline_new_or_worsened_count", to_json (ec_baseline_new_or_worsened_count c));
        ("candidate_new_or_worsened_count", to_json (ec_candidate_new_or_worsened_count c));
        ("baseline_existing_debt_count", to_json (ec_baseline_existing_debt_count c));
        ("candidate_existing_debt_count", to_json (ec_candidate_existing_debt_count c));
        ("baseline_suppressions", to_json (ec_baseline_suppressions c));
        ("candidate_suppressions", to_json (ec_candidate_suppressions c));
        ("suppression_newly_added_count", to_json (ec_suppression_newly_added_count c));
        ("suppression_broadened_count", to_json (ec_suppression_broadened_count c));
        ("suppression_removed_count", to_json (ec_suppression_removed_count c));
        ("baseline_cost_refs", to_json (ec_baseline_cost_refs c));
        ("candidate_cost_refs", to_json (ec_candidate_cost_refs c));
        ("baseline_usage_and_cost", to_json (ec_baseline_usage_and_cost c));
        ("candidate_usage_and_cost", to_json (ec_candidate_usage_and_cost c));
        ("limitations", to_json (ec_limitations c))].
#[global] Instance EvaluationComparability_to_json : ToJson EvaluationComparability := λ c,
  JObj [("dimension", to_json (cpb_dimension c)); ("state", to_json (cpb_state c));
        ("evidence_ref", to_json (cpb_evidence_ref c))].
#[global] Instance ProtectedMetricResult_to_json : ToJson ProtectedMetricResult := λ m,
  JObj [("metric_id", to_json (pm_metric_id m)); ("weakened", to_json (pm_weakened m));
        ("evidence_ref", to_json (pm_evidence_ref m))].

Record EvaluationMetricSummary := {
  ms_sample_count : N;
  ms_confirmed_defects : N;
  ms_candidate_false_negatives : N;
  ms_candidate_false_positives : N;
  ms_unresolved : N;
  ms_candidate_flaky : N;
  ms_baseline_total_duration_ms : N;
  ms_candidate_total_duration_ms : N;
  ms_baseline_rework_count : N;
  ms_candidate_rework_count : N;
  ms_candidate_rollbacks : N;
  ms_baseline_finding_count : N;
  ms_candidate_finding_count : N;
  ms_baseline_new_or_worsened_count : N;
  ms_candidate_new_or_worsened_count : N;
  ms_baseline_existing_debt_count : N;
  ms_candidate_existing_debt_count : N;
  ms_baseline_suppressions : EvaluationSuppressionSummary;
  ms_candidate_suppressions : EvaluationSuppressionSummary;
  ms_suppression_newly_added_count : N;
  ms_suppression_broadened_count : N;
  ms_suppression_removed_count : N
}.

#[global] Instance EvaluationMetricSummary_eq_dec : EqDecision EvaluationMetricSummary.
Proof. solve_decision. Defined.
#[global] Instance EvaluationMetricSummary_to_json : ToJson EvaluationMetricSummary := λ m,
  JObj [("sample_count", to_json (ms_sample_count m));
        ("confirmed_defects", to_json (ms_confirmed_defects m));
        ("candidate_false_negatives", to_json (ms_candidate_false_negatives m));
        ("candidate_false_positives", to_json (ms_candidate_false_positives m));
        ("unresolved", to_json (ms_unresolved m));
        ("candidate_flaky", to_json (ms_candidate_flaky m));
        ("baseline_total_duration_ms", to_json (ms_baseline_total_duration_ms m));
        ("candidate_total_duration_ms", to_json (ms_candidate_total_duration_ms m));
        ("baseline_rework_count", to_json (ms_baseline_rework_count m));
        ("candidate_rework_count", to_json (ms_candidate_rework_count m));
        ("candidate_rollbacks", to_json (ms_candidate_rollbacks m));
        ("baseline_finding_count", to_json (ms_baseline_finding_count m));
        ("candidate_finding_count", to_json (ms_candidate_finding_count m));
        ("baseline_new_or_worsened_count", to_json (ms_baseline_new_or_worsened_count m));
        ("candidate_new_or_worsened_count", to_json (ms_candidate_new_or_worsened_count m));
        ("baseline_existing_debt_count", to_json (ms_baseline_existing_debt_count m));
        ("candidate_existing_debt_count", to_json (ms_candidate_existing_debt_count m));
        ("baseline_suppressions", to_json (ms_baseline_suppressions m));
        ("candidate_suppressions", to_json (ms_candidate_suppressions m));
        ("suppression_newly_added_count", to_json (ms_suppression_newly_added_count m));
        ("suppression_broadened_count", to_json (ms_suppression_broadened_count m));
        ("suppression_removed_count", to_json (ms_suppression_removed_count m))].

(** ** Runs and their input *)

Record EvaluationRunV2 := {
  er_schema_id : string;
  er_schema_version : N;
  er_evaluation_run_id : EvaluationRunId;
  er_subject_kind : EvaluationSubjectKind;
  er_subject : EvaluationSubject;
  er_evaluation_context : EvaluationContext;
  er_evaluation_policy_ref : EvaluationPolicyRefV1;
  er_baseline : EvaluationDefinition;
  er_candidate : EvaluationDefinition;
  er_mode : EvaluationMode;
  er_corpus_ref : string;
  er_case_selection_fingerprint : Sha256Hash;
  er_measurement_protocol_fingerprint : Sha256Hash;
  er_minimum_sample_count : N;
  er_case_results : list EvaluationCaseResult;
  er_ground_truth_summary : EvaluationMetricSummary;
  er_finding_metrics : EvaluationMetricSummary;
  er_efficiency_metrics : EvaluationMetricSummary;
  er_usage_and_cost_refs : list CostRecordRefV1;
  er_usage_and_cost_metrics : list EvaluationQuantityComparisonV1;
  er_comparability : list EvaluationComparability;
  er_protected_metric_results : list ProtectedMetricResult;
  er_limitations : list string;
  er_comparison : list string;
  er_recommendation : EvaluationRecommendation;
  er_decision_ref : option string;
  er_radar_item_refs : list string;
  er_run_fingerprint : Sha256Hash
}.

Record EvaluationInput := {
  ei_evaluation_policy_ref : EvaluationPolicyRefV1;
  ei_evaluation_context : EvaluationContext;
  ei_baseline : EvaluationDefinition;
  ei_candidate : EvaluationDefinition;
  ei_mode : EvaluationMode;
  ei_corpus_ref : string;
  ei_case_selection_fingerprint : Sha256Hash;
  ei_measurement_protocol_fingerprint : Sha256Hash;
  ei_case_results : list EvaluationCaseResult;
  ei_comparability : list EvaluationComparability;
  ei_protected_metric_results : list ProtectedMetricResult;
  ei_minimum_sample_count : N;
  ei_radar_item_refs : list string
}.

Record ComparativeSafety := {
  sf_baseline_false_negatives : N;
  sf_candidate_false_negatives : N;
  sf_baseline_false_positives : N;
  sf_candidate_false_positives : N;
  sf_baseline_adverse_outcomes : N;
  sf_candidate_adverse_outcomes : N;
  sf_baseline_unknown_outcomes : N;
  sf_candidate_unknown_outcomes : N;
  sf_baseline_rollbacks : N;
  sf_candidate_rollbacks : N
}.

(** ** Checks of the input *)

Definition catalog_token (value : string) (max : N) : bool :=
  negb (is_empty value) && (slen value <=? max)%N
  && bytes_all (λ b, is_ascii_alphanumeric b || byte_in ["."; "_"; "-"]%char b) value.

Definition valid_evaluation_quantities (quantities : list EvaluationQuantityV1) : bool :=
  bool_decide (quantities = [])
  || forallb (λ q, catalog_token (eq_unit q) 64 && (0 <? eq_quantity q)%N) quantities
     && (distinct_count (map eq_unit quantities) =? len quantities)%N.

(** All cost references of a case, the baseline's first. *)
Definition case_cost_refs (c : EvaluationCaseResult) : list CostRecordRefV1 :=
  ec_baseline_cost_refs c ++ ec_candidate_cost_refs c.

Definition bad_case (input : EvaluationInput) (c : EvaluationCaseResult) : bool :=
  negb (bool_decide (ec_evaluation_context c = ei_evaluation_context input))
  || negb (String.eqb (ec_corpus_ref c) (ei_corpus_ref input))
  || blank (ec_case_id c)
  || blank (ec_case_version c)
  || negb (String.eqb (ecr_case_id (ec_case_definition_ref c)) (ec_case_id c))
  || negb (String.eqb (ecr_case_version (ec_case_definition_ref c)) (ec_case_version c))
  || no_items (ec_baseline_run_refs c)
  || no_items (ec_candidate_run_refs c)
  || no_items (ec_adjudication_evidence_refs c)
  || existsb blank (ec_adjudication_evidence_refs c)
  || (ec_baseline_finding_count c <? ec_baseline_new_or_worsened_count c)%N
  || (ec_candidate_finding_count c <? ec_candidate_new_or_worsened_count c)%N
  || (ec_baseline_finding_count c <? ec_baseline_existing_debt_count c)%N
  || (ec_candidate_finding_count c <? ec_candidate_existing_debt_count c)%N
  || existsb (λ r, negb (catalog_token (crr_cost_record_id r) 192) || (crr_revision r =? 0)%N)
       (case_cost_refs c)
  || xorb (no_items (ec_baseline_cost_refs c)) (no_items (ec_baseline_usage_and_cost c))
  || xorb (no_items (ec_candidate_cost_refs c)) (no_items (ec_candidate_usage_and_cost c))
  || negb (valid_evaluation_quantities (ec_baseline_usage_and_cost c))
  || negb (valid_evaluation_quantities (ec_candidate_usage_and_cost c)).

Definition bad_header (input : EvaluationInput) : bool :=
  let baseline := edf_subject (ei_baseline input) in
  let candidate := edf_subject (ei_candidate input) in
  blank (ei_corpus_ref input)
  || no_items (ei_case_results input)
  || (ei_minimum_sample_count input =? 0)%N
  || negb (catalog_token (epr_policy_id (ei_evaluation_policy_ref input)) 192)
  || negb (catalog_token (epr_policy_version (ei_evaluation_policy_ref input)) 128)
  || (epr_revision (ei_evaluation_policy_ref input) =? 0)%N
  || negb (bool_decide (es_kind baseline = es_kind candidate))
  || negb (String.eqb (es_item_id baseline) (es_item_id candidate))
  || blank (es_item_id baseline)
  || blank (es_version baseline)
  || blank (es_version candidate).

(** Runs, evidence and costs of a case are counted once. *)
Definition case_refs_conflict (c : EvaluationCaseResult) : bool :=
  has_repetition (ec_baseline_run_refs c)
  || has_repetition (ec_candidate_run_refs c)
  || meets (ec_baseline_run_refs c) (ec_candidate_run_refs c)
  || has_repetition (ec_adjudication_evidence_refs c)
  || has_repetition (ec_baseline_cost_refs c)
  || has_repetition (ec_candidate_cost_refs c)
  || meets (ec_baseline_cost_refs c) (ec_candidate_cost_refs c).

Definition required_dimensions : list string :=
  ["case"; "source"; "config"; "catalog"; "tool"; "environment"; "protocol"].

Definition required_metrics : list string := ["validator_guard"; "corpus"; "profile"].

Definition bad_dimensions (items : list EvaluationComparability) : bool :=
  negb (bool_decide (sort_dedup (map cpb_dimension items) = sort_dedup required_dimensions))
  || negb (len items =? len required_dimensions)%N
  || existsb (λ i, blank (cpb_evidence_ref i)) items.

Definition bad_protected (items : list ProtectedMetricResult) : bool :=
  negb (len items =? distinct_count (map pm_metric_id items))%N
  || existsb (λ i, blank (pm_evidence_ref i)) items
  || negb (forallb (λ required, mem required (map pm_metric_id items)) required_metrics).

Definition validate_input (input : EvaluationInput) : result unit ReleaseError :=
  let cases := ei_case_results input in
  check bad_header input || existsb (bad_case input) cases else ReleaseInvalid in
  check has_repetition (map (λ c, (ec_case_id c, ec_case_version c)) cases)
  else ReleaseConflict in
  check existsb case_refs_conflict cases else ReleaseConflict in
  check has_repetition (flat_map case_cost_refs cases)
        || existsb blank (ei_radar_item_refs input)
        || has_repetition (ei_radar_item_refs input)
  else ReleaseConflict in
  check bad_dimensions (ei_comparability input) else ReleaseInvalid in
  check bad_protected (ei_protected_metric_results input) else ReleaseInvalid in
  Ok tt.

(** ** Summaries *)

(** [iter().filter(p).count() as u32] *)
Definition count_cases (p : EvaluationCaseResult → bool) (cases : list EvaluationCaseResult) : N :=
  as_u32 (len (List.filter p cases)).

(** [iter().map(f).sum()] and [iter().map(f).fold(0, u32::saturating_add)]. *)
Definition wrapping_sum (max : N) (f : EvaluationCaseResult → N)
    (cases : list EvaluationCaseResult) : N :=
  fold_left (wrapping_add max) (map f cases) 0%N.
Definition saturating_sum (f : EvaluationCaseResult → N) (cases : list EvaluationCaseResult) : N :=
  fold_left (saturating_add u32_max) (map f cases) 0%N.

Definition add_suppressions (total item : EvaluationSuppressionSummary) :
    EvaluationSuppressionSummary :=
  {| esu_active := saturating_add u32_max (esu_active total) (esu_active item);
     esu_expired := saturating_add u32_max (esu_expired total) (esu_expired item);
     esu_stale := saturating_add u32_max (esu_stale total) (esu_stale item);
     esu_revoked := saturating_add u32_max (esu_revoked total) (esu_revoked item);
     esu_invalid := saturating_add u32_max (esu_invalid total) (esu_invalid item) |}.

Definition no_suppressions : EvaluationSuppressionSummary :=
  {| esu_active := 0; esu_expired := 0; esu_stale := 0; esu_revoked := 0; esu_invalid := 0 |}.

Definition summarize_suppressions (summaries : list EvaluationSuppressionSummary) :
    EvaluationSuppressionSummary :=
  fold_left add_suppressions summaries no_suppressions.

Definition has_outcome (o : EvaluationOutcome) (f : EvaluationCaseResult → EvaluationOutcome)
    (c : EvaluationCaseResult) : bool := bool_decide (f c = o).

Definition adjudicated (a : CaseAdjudication) (c : EvaluationCaseResult) : bool :=
  bool_decide (ec_adjudication c = a).

(** A defect the side missed, and a false alarm it raised. *)
Definition missed (detected : EvaluationCaseResult → bool) (c : EvaluationCaseResult) : bool :=
  adjudicated ConfirmedDefect c && negb (detected c).
Definition false_alarm (detected : EvaluationCaseResult → bool) (c : EvaluationCaseResult) : bool :=
  adjudicated FalsePositive c && detected c.

Definition summarize (cases : list EvaluationCaseResult) : EvaluationMetricSummary :=
  {| ms_sample_count := as_u32 (len cases);
     ms_confirmed_defects := count_cases (adjudicated ConfirmedDefect) cases;
     ms_candidate_false_negatives := count_cases (missed ec_candidate_detected) cases;
     ms_candidate_false_positives := count_cases (false_alarm ec_candidate_detected) cases;
     ms_unresolved := count_cases (adjudicated Unresolved) cases;
     ms_candidate_flaky := count_cases ec_candidate_flaky cases;
     ms_baseline_total_duration_ms := wrapping_sum u64_max ec_baseline_duration_ms cases;
     ms_candidate_total_duration_ms := wrapping_sum u64_max ec_candidate_duration_ms cases;
     ms_baseline_rework_count := wrapping_sum u32_max ec_baseline_rework_count cases;
     ms_candidate_rework_count := wrapping_sum u32_max ec_candidate_rework_count cases;
     ms_candidate_rollbacks := count_cases (has_outcome OutcomeRollback ec_candidate_outcome) cases;
     ms_baseline_finding_count := saturating_sum ec_baseline_finding_count cases;
     ms_candidate_finding_count := saturating_sum ec_candidate_finding_count cases;
     ms_baseline_new_or_worsened_count := saturating_sum ec_baseline_new_or_worsened_count cases;
     ms_candidate_new_or_worsened_count := saturating_sum ec_candidate_new_or_worsened_count cases;
     ms_baseline_existing_debt_count := saturating_sum ec_baseline_existing_debt_count cases;
     ms_candidate_existing_debt_count := saturating_sum ec_candidate_existing_debt_count cases;
     ms_baseline_suppressions := summarize_suppressions (map ec_baseline_suppressions cases);
     ms_candidate_suppressions := summarize_suppressions (map ec_candidate_suppressions cases);
     ms_suppression_newly_added_count := saturating_sum ec_suppression_newly_added_count cases;
     ms_suppression_broadened_count := saturating_sum ec_suppression_broadened_count cases;
     ms_suppression_removed_count := saturating_sum ec_suppression_removed_count cases |}.

Definition adverse_outcome (o : EvaluationOutcome) : bool :=
  match o with OutcomeFailure | OutcomeRejected | OutcomeReverted => true | _ => false end.

Definition comparative_safety (cases : list EvaluationCaseResult) : ComparativeSafety :=
  {| sf_baseline_false_negatives := count_cases (missed ec_baseline_detected) cases;
     sf_candidate_false_negatives := count_cases (missed ec_candidate_detected) cases;
     sf_baseline_false_positives := count_cases (false_alarm ec_baseline_detected) cases;
     sf_candidate_false_positives := count_cases (false_alarm ec_candidate_detected) cases;
     sf_baseline_adverse_outcomes := count_cases (adverse_outcome ∘ ec_baseline_outcome) cases;
     sf_candidate_adverse_outcomes := count_cases (adverse_outcome ∘ ec_candidate_outcome) cases;
     sf_baseline_unknown_outcomes :=
       count_cases (has_outcome OutcomeUnknown ec_baseline_outcome) cases;
     sf_candidate_unknown_outcomes :=
       count_cases (has_outcome OutcomeUnknown ec_candidate_outcome) cases;
     sf_baseline_rollbacks := count_cases (has_outcome OutcomeRollback ec_baseline_outcome) cases;
     sf_candidate_rollbacks :=
       count_cases (has_outcome OutcomeRollback ec_candidate_outcome) cases |}.

(** ** Usage and cost *)

Abbreviation usage_totals := (gmap string (N * N)).

Definition add_baseline_usage (totals : usage_totals) (q : EvaluationQuantityV1) :
    result usage_totals ReleaseError :=
  let entry := default (0, 0)%N (totals !! eq_unit q) in
  let? sum := ok_or (checked_add64 entry.1 (eq_quantity q)) ReleaseInvalid in
  Ok (<[eq_unit q := (sum, entry.2)]> totals).

Definition add_candidate_usage (totals : usage_totals) (q : EvaluationQuantityV1) :
    result usage_totals ReleaseError :=
  let entry := default (0, 0)%N (totals !! eq_unit q) in
  let? sum := ok_or (checked_add64 entry.2 (eq_quantity q)) ReleaseInvalid in
  Ok (<[eq_unit q := (entry.1, sum)]> totals).

Definition add_case_usage (totals : usage_totals) (c : EvaluationCaseResult) :
    result usage_totals ReleaseError :=
  let? totals := fold_result add_baseline_usage totals (ec_baseline_usage_and_cost c) in
  fold_result add_candidate_usage totals (ec_candidate_usage_and_cost c).

Definition summarize_usage_and_cost (cases : list EvaluationCaseResult) :
    result (list EvaluationQuantityComparisonV1) ReleaseError :=
  let? totals := fold_result add_case_usage ∅ cases in
  Ok (map (λ e : string * (N * N),
         {| eqc_unit := e.1; eqc_baseline_quantity := e.2.1; eqc_candidate_quantity := e.2.2 |})
       (btree_entries totals)).

(** ** The recommendation *)

Definition safety_worse (s : ComparativeSafety) : bool :=
  (sf_baseline_false_negatives s <? sf_candidate_false_negatives s)%N
  || (sf_baseline_false_positives s <? sf_candidate_false_positives s)%N
  || (sf_baseline_adverse_outcomes s <? sf_candidate_adverse_outcomes s)%N
  || (sf_baseline_rollbacks s <? sf_candidate_rollbacks s)%N.

Definition candidate_improves (m : EvaluationMetricSummary) (s : ComparativeSafety) : bool :=
  let safety_improved :=
    (sf_candidate_false_negatives s <? sf_baseline_false_negatives s)%N
    || (sf_candidate_false_positives s <? sf_baseline_false_positives s)%N
    || (sf_candidate_adverse_outcomes s <? sf_baseline_adverse_outcomes s)%N
    || (sf_candidate_unknown_outcomes s <? sf_baseline_unknown_outcomes s)%N
    || (sf_candidate_rollbacks s <? sf_baseline_rollbacks s)%N in
  let safety_equal :=
    (sf_candidate_false_negatives s =? sf_baseline_false_negatives s)%N
    && (sf_candidate_false_positives s =? sf_baseline_false_positives s)%N
    && (sf_candidate_adverse_outcomes s =? sf_baseline_adverse_outcomes s)%N
    && (sf_candidate_unknown_outcomes s =? sf_baseline_unknown_outcomes s)%N
    && (sf_candidate_rollbacks s =? sf_baseline_rollbacks s)%N in
  safety_improved
  || (ms_candidate_new_or_worsened_count m <? ms_baseline_new_or_worsened_count m)%N
  || (0 <? ms_suppression_removed_count m)%N
  || safety_equal
     && ((ms_candidate_total_duration_ms m <? ms_baseline_total_duration_ms m)%N
         && (ms_candidate_rework_count m <=? ms_baseline_rework_count m)%N
         || (ms_candidate_rework_count m <? ms_baseline_rework_count m)%N
            && (ms_candidate_total_duration_ms m <=? ms_baseline_total_duration_ms m)%N).

Definition candidate_equal (cases : list EvaluationCaseResult) (m : EvaluationMetricSummary) : bool :=
  forallb (λ c, Bool.eqb (ec_baseline_detected c) (ec_candidate_detected c)
                && bool_decide (ec_baseline_outcome c = ec_candidate_outcome c)
                && negb (ec_candidate_flaky c)) cases
  && (ms_candidate_total_duration_ms m =? ms_baseline_total_duration_ms m)%N
  && (ms_candidate_rework_count m =? ms_baseline_rework_count m)%N
  && (ms_candidate_finding_count m =? ms_baseline_finding_count m)%N
  && (ms_candidate_new_or_worsened_count m =? ms_baseline_new_or_worsened_count m)%N
  && (ms_candidate_existing_debt_count m =? ms_baseline_existing_debt_count m)%N
  && bool_decide (ms_candidate_suppressions m = ms_baseline_suppressions m)
  && (ms_suppression_newly_added_count m =? 0)%N
  && (ms_suppression_broadened_count m =? 0)%N
  && (ms_suppression_removed_count m =? 0)%N.

Definition protected_weakened (input : EvaluationInput) : bool :=
  existsb pm_weakened (ei_protected_metric_results input).
Definition not_comparable (input : EvaluationInput) : bool :=
  existsb (λ c, bool_decide (cpb_state c = NotComparable)) (ei_comparability input).
Definition cost_limited (input : EvaluationInput) : bool :=
  existsb (λ c, no_items (ec_baseline_cost_refs c) || no_items (ec_candidate_cost_refs c))
    (ei_case_results input).
Definition evidence_limited (input : EvaluationInput) : bool :=
  existsb (λ c, negb (no_items (ec_limitations c))) (ei_case_results input) || cost_limited input.

Definition recommendation_of (input : EvaluationInput) : EvaluationRecommendation :=
  let metrics := summarize (ei_case_results input) in
  let safety := comparative_safety (ei_case_results input) in
  if protected_weakened input then Reject
  else if not_comparable input
          || evidence_limited input
          || (ms_sample_count metrics <? ei_minimum_sample_count input)%N
          || (0 <? ms_unresolved metrics)%N
          || (0 <? sf_candidate_unknown_outcomes safety)%N
  then NeedsReview
  else if safety_worse safety
          || (ms_baseline_new_or_worsened_count metrics
                <? ms_candidate_new_or_worsened_count metrics)%N
          || (0 <? ms_suppression_newly_added_count metrics)%N
          || (0 <? ms_suppression_broadened_count metrics)%N
          || (0 <? ms_candidate_flaky metrics)%N
  then Reject
  else if candidate_improves metrics safety then Accept
  else if candidate_equal (ei_case_results input) metrics then Keep
  else Trial.

Definition limitations_of (input : EvaluationInput) : list string :=
  let add (b : bool) (s : string) := if b then [s] else [] in
  sort_dedup
    (flat_map ec_limitations (ei_case_results input)
     ++ add (protected_weakened input) "protected_validator_corpus_or_profile_weakened"
     ++ add (not_comparable input) "baseline_candidate_not_comparable"
     ++ add (cost_limited input) "provider_usage_or_cost_measurement_unavailable").

(** [format!("{}:{}->{}")] *)
Definition change_line (name : string) (baseline candidate : N) : string :=
  name +:+ ":" +:+ pretty baseline +:+ "->" +:+ pretty candidate.

Definition comparison_lines (m : EvaluationMetricSummary) (s : ComparativeSafety) : list string :=
  [change_line "confirmed_false_negative" (sf_baseline_false_negatives s)
     (sf_candidate_false_negatives s);
   change_line "false_positive" (sf_baseline_false_positives s) (sf_candidate_false_positives s);
   change_line "adverse_outcome" (sf_baseline_adverse_outcomes s) (sf_candidate_adverse_outcomes s);
   change_line "unknown_outcome" (sf_baseline_unknown_outcomes s) (sf_candidate_unknown_outcomes s);
   change_line "rollback" (sf_baseline_rollbacks s) (sf_candidate_rollbacks s);
   change_line "duration_ms" (ms_baseline_total_duration_ms m) (ms_candidate_total_duration_ms m);
   change_line "rework" (ms_baseline_rework_count m) (ms_candidate_rework_count m);
   change_line "finding" (ms_baseline_finding_count m) (ms_candidate_finding_count m);
   change_line "new_or_worsened" (ms_baseline_new_or_worsened_count m)
     (ms_candidate_new_or_worsened_count m);
   change_line "active_suppression" (esu_active (ms_baseline_suppressions m))
     (esu_active (ms_candidate_suppressions m));
   "suppression_delta:new=" +:+ pretty (ms_suppression_newly_added_count m)
     +:+ ",broadened=" +:+ pretty (ms_suppression_broadened_count m)
     +:+ ",removed=" +:+ pretty (ms_suppression_removed_count m)].

Definition usage_line (q : EvaluationQuantityComparisonV1) : string :=
  change_line ("usage_or_cost." +:+ eqc_unit q) (eqc_baseline_quantity q) (eqc_candidate_quantity q).

(** ** Evaluating and verifying *)

Section evaluation.
Context `{Platform}.

Definition evaluation_run_fingerprint (r : EvaluationRunV2) : result Sha256Hash ReleaseError :=
  map_err (λ _, ReleaseFingerprint)
    (versioned_fingerprint EVALUATION_RUN_V2_SCHEMA_ID 2 (JObj
      [("evaluation_run_id", to_json (er_evaluation_run_id r));
       ("subject_kind", to_json (er_subject_kind r));
       ("subject", to_json (er_subject r));
       ("evaluation_context", to_json (er_evaluation_context r));
       ("evaluation_policy_ref", to_json (er_evaluation_policy_ref r));
       ("baseline", to_json (er_baseline r));
       ("candidate", to_json (er_candidate r));
       ("mode", to_json (er_mode r));
       ("corpus_ref", to_json (er_corpus_ref r));
       ("case_selection_fingerprint", to_json (er_case_selection_fingerprint r));
       ("measurement_protocol_fingerprint", to_json (er_measurement_protocol_fingerprint r));
       ("minimum_sample_count", to_json (er_minimum_sample_count r));
       ("case_results", to_json (er_case_results r));
       ("ground_truth_summary", to_json (er_ground_truth_summary r));
       ("finding_metrics", to_json (er_finding_metrics r));
       ("efficiency_metrics", to_json (er_efficiency_metrics r));
       ("usage_and_cost_refs", to_json (er_usage_and_cost_refs r));
       ("usage_and_cost_metrics", to_json (er_usage_and_cost_metrics r));
       ("comparability", to_json (er_comparability r));
       ("protected_metric_results", to_json (er_protected_metric_results r));
       ("limitations", to_json (er_limitations r));
       ("comparison", to_json (er_comparison r));
       ("recommendation", to_json (er_recommendation r));
       ("decision_ref", to_json (er_decision_ref r));
       ("radar_item_refs", to_json (er_radar_item_refs r))])).

Definition with_run_fingerprint (r : EvaluationRunV2) (h : Sha256Hash) : EvaluationRunV2 :=
  {| er_schema_id := er_schema_id r;
     er_schema_version := er_schema_version r;
     er_evaluation_run_id := er_evaluation_run_id r;
     er_subject_kind := er_subject_kind r;
     er_subject := er_subject r;
     er_evaluation_context := er_evaluation_context r;
     er_evaluation_policy_ref := er_evaluation_policy_ref r;
     er_baseline := er_baseline r;
     er_candidate := er_candidate r;
     er_mode := er_mode r;
     er_corpus_ref := er_corpus_ref r;
     er_case_selection_fingerprint := er_case_selection_fingerprint r;
     er_measurement_protocol_fingerprint := er_measurement_protocol_fingerprint r;
     er_minimum_sample_count := er_minimum_sample_count r;
     er_case_results := er_case_results r;
     er_ground_truth_summary := er_ground_truth_summary r;
     er_finding_metrics := er_finding_metrics r;
     er_efficiency_metrics := er_efficiency_metrics r;
     er_usage_and_cost_refs := er_usage_and_cost_refs r;
     er_usage_and_cost_metrics := er_usage_and_cost_metrics r;
     er_comparability := er_comparability r;
     er_protected_metric_results := er_protected_metric_results r;
     er_limitations := er_limitations r;
     er_comparison := er_comparison r;
     er_recommendation := er_recommendation r;
     er_decision_ref := er_decision_ref r;
     er_radar_item_refs := er_radar_item_refs r;
     er_run_fingerprint := h |}.

(** The run before it is hashed; [run_id] is the fresh identifier of
    [EvaluationRunId::new]. *)
Definition unsealed_run (run_id : EvaluationRunId) (input : EvaluationInput)
    (usage : list EvaluationQuantityComparisonV1) : EvaluationRunV2 :=
  let cases := ei_case_results input in
  let metrics := summarize cases in
  {| er_schema_id := EVALUATION_RUN_V2_SCHEMA_ID;
     er_schema_version := 2;
     er_evaluation_run_id := run_id;
     er_subject_kind := es_kind (edf_subject (ei_candidate input));
     er_subject := edf_subject (ei_candidate input);
     er_evaluation_context := ei_evaluation_context input;
     er_evaluation_policy_ref := ei_evaluation_policy_ref input;
     er_baseline := ei_baseline input;
     er_candidate := ei_candidate input;
     er_mode := ei_mode input;
     er_corpus_ref := ei_corpus_ref input;
     er_case_selection_fingerprint := ei_case_selection_fingerprint input;
     er_measurement_protocol_fingerprint := ei_measurement_protocol_fingerprint input;
     er_minimum_sample_count := ei_minimum_sample_count input;
     er_case_results := cases;
     er_ground_truth_summary := metrics;
     er_finding_metrics := metrics;
     er_efficiency_metrics := metrics;
     er_usage_and_cost_refs := sort_dedup (flat_map case_cost_refs cases);
     er_usage_and_cost_metrics := usage;
     er_comparability := ei_comparability input;
     er_protected_metric_results := ei_protected_metric_results input;
     er_limitations := limitations_of input;
     er_comparison := comparison_lines metrics (comparative_safety cases) ++ map usage_line usage;
     er_recommendation := recommendation_of input;
     er_decision_ref := None;
     er_radar_item_refs := sort_dedup (ei_radar_item_refs input);
     er_run_fingerprint := digest "unsealed-evaluation-run" |}.

Definition evaluate (run_id : EvaluationRunId) (input : EvaluationInput) :
    result EvaluationRunV2 ReleaseError :=
  let? _ := validate_input input in
  let? usage := summarize_usage_and_cost (ei_case_results input) in
  let run := unsealed_run run_id input usage in
  let? h := evaluation_run_fingerprint run in
  Ok (with_run_fingerprint run h).

Definition input_of_run (r : EvaluationRunV2) : EvaluationInput :=
  {| ei_evaluation_policy_ref := er_evaluation_policy_ref r;
     ei_evaluation_context := er_evaluation_context r;
     ei_baseline := er_baseline r;
     ei_candidate := er_candidate r;
     ei_mode := er_mode r;
     ei_corpus_ref := er_corpus_ref r;
     ei_case_selection_fingerprint := er_case_selection_fingerprint r;
     ei_measurement_protocol_fingerprint := er_measurement_protocol_fingerprint r;
     ei_case_results := er_case_results r;
     ei_comparability := er_comparability r;
     ei_protected_metric_results := er_protected_metric_results r;
     ei_minimum_sample_count := er_minimum_sample_count r;
     ei_radar_item_refs := er_radar_item_refs r |}.

(** What [verify_evaluation_run] derives again; [fresh] is the identifier of the
    second evaluation, which is not compared. *)
Definition verify_evaluation_run (fresh : EvaluationRunId) (r : EvaluationRunV2) :
    result unit ReleaseError :=
  check negb (String.eqb (er_schema_id r) EVALUATION_RUN_V2_SCHEMA_ID)
        || negb (er_schema_version r =? 2)%N
        || negb (bool_decide (er_subject_kind r = es_kind (edf_subject (er_candidate r))))
        || negb (bool_decide (er_subject r = edf_subject (er_candidate r)))
  else ReleaseInvalid in
  let? h := evaluation_run_fingerprint r in
  check negb (String.eqb (er_run_fingerprint r) h) else ReleaseInvalid in
  let? expected := evaluate fresh (input_of_run r) in
  check negb (bool_decide (er_ground_truth_summary r = er_ground_truth_summary expected))
        || negb (bool_decide (er_finding_metrics r = er_finding_metrics expected))
        || negb (bool_decide (er_efficiency_metrics r = er_efficiency_metrics expected))
        || negb (bool_decide (er_usage_and_cost_refs r = er_usage_and_cost_refs expected))
        || negb (bool_decide (er_usage_and_cost_metrics r = er_usage_and_cost_metrics expected))
        || negb (bool_decide (er_radar_item_refs r = er_radar_item_refs expected))
        || negb (bool_decide (er_limitations r = er_limitations expected))
        || negb (bool_decide (er_comparison r = er_comparison expected))
        || negb (bool_decide (er_recommendation r = er_recommendation expected))
  else ReleaseInvalid in
  Ok tt.

(** ** The catalog *)

Record EvaluationCatalogItem := {
  ct_schema_id : string;
  ct_schema_version : N;
  ct_item_id : string;
  ct_item_version : string;
  ct_definition_fingerprint : Sha256Hash;
  ct_trial_candidate : bool;
  ct_lifecycle : EvaluationCatalogLifecycle;
  ct_owner : string;
  ct_corpus_ref : string;
  ct_replacement_ref : option string;
  ct_migration_guide_ref : option string;
  ct_compatibility_deadline : option string;
  ct_last_evaluation_run_ref : option EvaluationRunId;
  ct_tombstone_ref : option string;
  ct_item_fingerprint : Sha256Hash
}.

(** The item with its mutable fields replaced. *)
Definition with_catalog (i : EvaluationCatalogItem) (lifecycle : EvaluationCatalogLifecycle)
    (h : Sha256Hash) : EvaluationCatalogItem :=
  {| ct_schema_id := ct_schema_id i;
     ct_schema_version := ct_schema_version i;
     ct_item_id := ct_item_id i;
     ct_item_version := ct_item_version i;
     ct_definition_fingerprint := ct_definition_fingerprint i;
     ct_trial_candidate := ct_trial_candidate i;
     ct_lifecycle := lifecycle;
     ct_owner := ct_owner i;
     ct_corpus_ref := ct_corpus_ref i;
     ct_replacement_ref := ct_replacement_ref i;
     ct_migration_guide_ref := ct_migration_guide_ref i;
     ct_compatibility_deadline := ct_compatibility_deadline i;
     ct_last_evaluation_run_ref := ct_last_evaluation_run_ref i;
     ct_tombstone_ref := ct_tombstone_ref i;
     ct_item_fingerprint := h |}.

Definition missing_evidence (i : EvaluationCatalogItem) : bool :=
  match ct_lifecycle i with
  | CatalogActive => false
  | CatalogDeprecated =>
      is_none (ct_replacement_ref i) || is_none (ct_migration_guide_ref i)
      || is_none (ct_compatibility_deadline i) || is_none (ct_last_evaluation_run_ref i)
  | CatalogRetired =>
      is_none (ct_tombstone_ref i) || is_none (ct_migration_guide_ref i)
      || is_none (ct_last_evaluation_run_ref i)
  | CatalogRejected => is_none (ct_tombstone_ref i) || is_none (ct_last_evaluation_run_ref i)
  end.

Definition catalog_item_fingerprint (i : EvaluationCatalogItem) : result Sha256Hash ReleaseError :=
  map_err (λ _, ReleaseFingerprint)
    (versioned_fingerprint EVALUATION_CATALOG_ITEM_SCHEMA_ID 1 (JObj
      [("item_id", to_json (ct_item_id i));
       ("item_version", to_json (ct_item_version i));
       ("definition_fingerprint", to_json (ct_definition_fingerprint i));
       ("trial_candidate", to_json (ct_trial_candidate i));
       ("lifecycle", to_json (ct_lifecycle i));
       ("owner", to_json (ct_owner i));
       ("corpus_ref", to_json (ct_corpus_ref i));
       ("replacement_ref", to_json (ct_replacement_ref i));
       ("migration_guide_ref", to_json (ct_migration_guide_ref i));
       ("compatibility_deadline", to_json (ct_compatibility_deadline i));
       ("last_evaluation_run_ref", to_json (ct_last_evaluation_run_ref i));
       ("tombstone_ref", to_json (ct_tombstone_ref i))])).

Definition seal_catalog_item (i : EvaluationCatalogItem) : result EvaluationCatalogItem ReleaseError :=
  check negb (String.eqb (ct_schema_id i) EVALUATION_CATALOG_ITEM_SCHEMA_ID)
        || negb (ct_schema_version i =? 1)%N
        || negb (catalog_token (ct_item_id i) 192)
        || negb (catalog_token (ct_item_version i) 128)
        || blank (ct_owner i)
        || blank (ct_corpus_ref i)
        || missing_evidence i
  else ReleaseInvalid in
  let? h := catalog_item_fingerprint i in
  Ok (with_catalog i (ct_lifecycle i) h).

Definition transition_valid (i : EvaluationCatalogItem) (next : EvaluationCatalogLifecycle)
    (trial_candidate : bool) : bool :=
  match ct_lifecycle i, next with
  | CatalogActive, CatalogDeprecated =>
      negb (ct_trial_candidate i) && negb trial_candidate
      && is_some (ct_replacement_ref i) && is_some (ct_migration_guide_ref i)
      && is_some (ct_compatibility_deadline i) && is_some (ct_last_evaluation_run_ref i)
  | CatalogDeprecated, CatalogRetired =>
      negb (ct_trial_candidate i) && negb trial_candidate
      && is_some (ct_tombstone_ref i) && is_some (ct_migration_guide_ref i)
      && is_some (ct_last_evaluation_run_ref i)
  | CatalogActive, CatalogRejected =>
      ct_trial_candidate i && trial_candidate
      && is_some (ct_tombstone_ref i) && is_some (ct_last_evaluation_run_ref i)
  | _, _ => false
  end.

Definition transition_catalog_item (i : EvaluationCatalogItem) (next : EvaluationCatalogLifecycle)
    (trial_candidate : bool) : result EvaluationCatalogItem ReleaseError :=
  check negb (transition_valid i next trial_candidate) else ReleaseBlocked in
  seal_catalog_item (with_catalog i next (ct_item_fingerprint i)).

(** What a recommendation makes of the code health profile: its place in the
    catalog and whether it is buried under its run. *)
Definition code_health_place (r : EvaluationRunV2) :
    result (EvaluationCatalogLifecycle * option string) ReleaseError :=
  match er_recommendation r with
  | Trial | NeedsReview => Ok (CatalogActive, None)
  | Keep | Reject =>
      Ok (CatalogRejected, Some ("evaluation-run:" +:+ er_evaluation_run_id r))
  | Accept => Err ReleaseBlocked
  end.

(** The mode is one of the three there are, so its test always passes. *)
Definition code_health_profile_catalog_item (fresh : EvaluationRunId) (r : EvaluationRunV2) :
    result EvaluationCatalogItem ReleaseError :=
  let? _ := verify_evaluation_run fresh r in
  let subject := edf_subject (er_candidate r) in
  check negb (bool_decide (er_subject_kind r = ProfileSubject))
        || negb (String.eqb (es_item_id subject) CODE_HEALTH_MAINTENANCE_PROFILE_ID)
        || negb (String.eqb (es_version subject) CODE_HEALTH_MAINTENANCE_PROFILE_VERSION)
        || negb match er_mode r with Offline | Replay | Shadow => true end
  else ReleaseInvalid in
  let? place := code_health_place r in
  seal_catalog_item
    {| ct_schema_id := EVALUATION_CATALOG_ITEM_SCHEMA_ID;
       ct_schema_version := 1;
       ct_item_id := CODE_HEALTH_MAINTENANCE_PROFILE_ID;
       ct_item_version := CODE_HEALTH_MAINTENANCE_PROFILE_VERSION;
       ct_definition_fingerprint := es_definition_fingerprint subject;
       ct_trial_candidate := true;
       ct_lifecycle := place.1;
       ct_owner := "docs/contracts/code-health-and-maintainability.md";
       ct_corpus_ref := er_corpus_ref r;
       ct_replacement_ref := None;
       ct_migration_guide_ref := None;
       ct_compatibility_deadline := None;
       ct_last_evaluation_run_ref := Some (er_evaluation_run_id r);
       ct_tombstone_ref := place.2;
       ct_item_fingerprint := digest "unsealed-code-health-profile-catalog-item" |}.

End evaluation.
