(* ===== verification/EvaluationDocuments.v ===== *)
(** * Documents of an evaluation

    Models the case definitions, evaluation policies, cost records and budget
    snapshots of [crates/control/star-release/src/evaluation.rs], over the
    contracts of [crates/foundation/star-contracts/src/release_v2.rs]. *)
From S2P Require Import Prelude Canonical Contracts ReleaseLifecycle Evaluation.

Definition EVALUATION_CASE_DEFINITION_V1_SCHEMA_ID : string := "star.evaluation-case-definition".
Definition EVALUATION_POLICY_V1_SCHEMA_ID : string := "star.evaluation-policy".
Definition COST_RECORD_V1_SCHEMA_ID : string := "star.cost-record".
Definition BUDGET_SNAPSHOT_V1_SCHEMA_ID : string := "star.budget-snapshot".

(** ** Data *)

Record EvaluationCaseDefinitionV1 := {
  cd_schema_id : string;
  cd_schema_version : N;
  cd_revision : N;
  cd_project_id : ProjectId;
  cd_case_id : string;
  cd_case_version : string;
  cd_corpus_ref : string;
  cd_evaluation_context : EvaluationContext;
  cd_adjudication : CaseAdjudication;
  cd_ground_truth_evidence_refs : list string;
  cd_source_ref : string;
  cd_content_fingerprint : Sha256Hash
}.

Record EvaluationPolicyV1 := {
  ep_schema_id : string;
  ep_schema_version : N;
  ep_revision : N;
  ep_project_id : ProjectId;
  ep_policy_id : string;
  ep_policy_version : string;
  ep_subject_kind : EvaluationSubjectKind;
  ep_evaluation_context : EvaluationContext;
  ep_mode : EvaluationMode;
  ep_corpus_ref : string;
  ep_case_refs : list EvaluationCaseDefinitionRefV1;
  ep_minimum_sample_count : N;
  ep_max_attempts_per_case : N;
  ep_comparability_dimensions : list string;
  ep_protected_metric_ids : list string;
  ep_require_provider_cost : bool;
  ep_source_ref : string;
  ep_content_fingerprint : Sha256Hash
}.

Inductive CostScopeKindV1 :=
| GoalScope | StageScope | AttemptScope | ValidationRunScope | ExternalActionScope | EvaluationScope.

Record CostUsageV1 := {
  cu_unit : string;
  cu_quantity : N;
  cu_provider_evidence_ref : string
}.

Record VerifiedMonetaryCostV1 := {
  mc_amount_microunits : N;
  mc_currency : string;
  mc_price_source_ref : string;
  mc_provider_statement_ref : string
}.

Record CostRecordV1 := {
  co_schema_id : string;
  co_schema_version : N;
  co_cost_record_id : string;
  co_revision : N;
  co_project_id : ProjectId;
  co_scope_kind : CostScopeKindV1;
  co_scope_ref : string;
  co_validation_run_refs : list ValidationRunId;
  co_source : string;
  co_usage : list CostUsageV1;
  co_monetary_cost : option VerifiedMonetaryCostV1;
  co_estimated : bool;
  co_paid_action : bool;
  co_measured_at : DateTime;
  co_measurement_unavailable : list string;
  co_provider_evidence_refs : list string;
  co_content_fingerprint : Sha256Hash
}.

Record BudgetQuantityV1 := { bq_unit : string; bq_quantity : N }.

Inductive BudgetDecisionV1 := WithinBudget | ApprovalRequired | Exhausted | UnknownBudget.

Record BudgetSnapshotV1 := {
  bg_schema_id : string;
  bg_schema_version : N;
  bg_snapshot_id : string;
  bg_revision : N;
  bg_project_id : ProjectId;
  bg_scope_ref : string;
  bg_limits : list BudgetQuantityV1;
  bg_observed : list BudgetQuantityV1;
  bg_reserved : list BudgetQuantityV1;
  bg_remaining : list BudgetQuantityV1;
  bg_unknown_measurements : list string;
  bg_decision : BudgetDecisionV1;
  bg_cost_record_refs : list CostRecordRefV1;
  bg_permission_approval_refs : list string;
  bg_paid_action_pending : bool;
  bg_config_fingerprint : Sha256Hash;
  bg_evaluated_at : DateTime;
  bg_content_fingerprint : Sha256Hash
}.

Record BudgetSnapshotInput := {
  bi_snapshot_id : string;
  bi_revision : N;
  bi_project_id : ProjectId;
  bi_scope_ref : string;
  bi_cost_record_refs : list CostRecordRefV1;
  bi_limits : list BudgetQuantityV1;
  bi_reserved : list BudgetQuantityV1;
  bi_unknown_measurements : list string;
  bi_permission_approval_refs : list string;
  bi_paid_action_pending : bool;
  bi_evaluated_at : DateTime
}.

#[global] Instance CostScopeKindV1_eq_dec : EqDecision CostScopeKindV1.
Proof. solve_decision. Defined.
#[global] Instance CostUsageV1_eq_dec : EqDecision CostUsageV1.
Proof. solve_decision. Defined.
#[global] Instance VerifiedMonetaryCostV1_eq_dec : EqDecision VerifiedMonetaryCostV1.
Proof. solve_decision. Defined.
#[global] Instance BudgetQuantityV1_eq_dec : EqDecision BudgetQuantityV1.
Proof. solve_decision. Defined.
#[global] Instance BudgetDecisionV1_eq_dec : EqDecision BudgetDecisionV1.
Proof. solve_decision. Defined.
#[global] Instance EvaluationCaseDefinitionV1_eq_dec : EqDecision EvaluationCaseDefinitionV1.
Proof. solve_decision. Defined.
#[global] Instance EvaluationPolicyV1_eq_dec : EqDecision EvaluationPolicyV1.
Proof. solve_decision. Defined.
#[global] Instance CostRecordV1_eq_dec : EqDecision CostRecordV1.
Proof. solve_decision. Defined.
#[global] Instance BudgetSnapshotV1_eq_dec : EqDecision BudgetSnapshotV1.
Proof. solve_decision. Defined.

#[global] Instance CostScopeKindV1_to_json : ToJson CostScopeKindV1 := λ k,
  JStr match k with
       | GoalScope => "goal" | StageScope => "stage" | AttemptScope => "attempt"
       | ValidationRunScope => "validation_run" | ExternalActionScope => "external_action"
       | EvaluationScope => "evaluation"
       end.
#[global] Instance CostUsageV1_to_json : ToJson CostUsageV1 := λ u,
  JObj [("unit", to_json (cu_unit u)); ("quantity", to_json (cu_quantity u));
        ("provider_evidence_ref", to_json (cu_provider_evidence_ref u))].
#[global] Instance VerifiedMonetaryCostV1_to_json : ToJson VerifiedMonetaryCostV1 := λ c,
  JObj [("amount_microunits", to_json (mc_amount_microunits c));
        ("currency", to_json (mc_currency c));
        ("price_source_ref", to_json (mc_price_source_ref c));
        ("provider_statement_ref", to_json (mc_provider_statement_ref c))].
#[global] Instance BudgetQuantityV1_to_json : ToJson BudgetQuantityV1 := λ q,
  JObj [("unit", to_json (bq_unit q)); ("quantity", to_json (bq_quantity q))].
#[global] Instance BudgetDecisionV1_to_json : ToJson BudgetDecisionV1 := λ d,
  JStr match d with
       | WithinBudget => "within_budget" | ApprovalRequired => "approval_required"
       | Exhausted => "exhausted" | UnknownBudget => "unknown"
       end.

(** ** Text of references *)

Definition bounded_ref (value : string) : bool :=
  negb (blank value) && (slen value <=? 2048)%N && negb (contains_char NUL value).

Definition canonical_source_ref (value : string) : bool :=
  negb (is_empty value) && (slen value <=? 1024)%N
  && negb (contains_char NUL value)
  && negb (contains_char (ascii_of_N 92) value)
  && negb (starts_with "/" value)
  && negb (existsb (λ segment, is_empty segment || String.eqb segment "..")
             (split_char "/" value)).

Abbreviation quantities := (gmap string N).

Section documents.
Context `{Platform}.

(** ** Case definitions *)

Definition with_case_fields (d : EvaluationCaseDefinitionV1) (refs : list string)
    (h : Sha256Hash) : EvaluationCaseDefinitionV1 :=
  {| cd_schema_id := cd_schema_id d;
     cd_schema_version := cd_schema_version d;
     cd_revision := cd_revision d;
     cd_project_id := cd_project_id d;
     cd_case_id := cd_case_id d;
     cd_case_version := cd_case_version d;
     cd_corpus_ref := cd_corpus_ref d;
     cd_evaluation_context := cd_evaluation_context d;
     cd_adjudication := cd_adjudication d;
     cd_ground_truth_evidence_refs := refs;
     cd_source_ref := cd_source_ref d;
     cd_content_fingerprint := h |}.

Definition case_definition_payload (d : EvaluationCaseDefinitionV1) : Json :=
  JObj [("revision", to_json (cd_revision d));
        ("project_id", to_json (cd_project_id d));
        ("case_id", to_json (cd_case_id d));
        ("case_version", to_json (cd_case_version d));
        ("corpus_ref", to_json (cd_corpus_ref d));
        ("evaluation_context", to_json (cd_evaluation_context d));
        ("adjudication", to_json (cd_adjudication d));
        ("ground_truth_evidence_refs", to_json (cd_ground_truth_evidence_refs d));
        ("source_ref", to_json (cd_source_ref d))].

Definition bad_case_definition (d : EvaluationCaseDefinitionV1) : bool :=
  negb (String.eqb (cd_schema_id d) EVALUATION_CASE_DEFINITION_V1_SCHEMA_ID)
  || negb (cd_schema_version d =? 1)%N
  || (cd_revision d =? 0)%N
  || negb (catalog_token (cd_case_id d) 192)
  || negb (catalog_token (cd_case_version d) 128)
  || blank (cd_corpus_ref d)
  || (1024 <? slen (cd_corpus_ref d))%N
  || no_items (cd_ground_truth_evidence_refs d)
  || existsb (λ r, negb (bounded_ref r)) (cd_ground_truth_evidence_refs d)
  || negb (canonical_source_ref (cd_source_ref d)).

Definition seal_evaluation_case_definition (d : EvaluationCaseDefinitionV1) :
    result EvaluationCaseDefinitionV1 ReleaseError :=
  let d := with_case_fields d (sort_dedup (cd_ground_truth_evidence_refs d))
             (cd_content_fingerprint d) in
  check bad_case_definition d else ReleaseInvalid in
  let? h := map_err (λ _, ReleaseFingerprint)
    (versioned_fingerprint EVALUATION_CASE_DEFINITION_V1_SCHEMA_ID 1 (case_definition_payload d)) in
  Ok (with_case_fields d (cd_ground_truth_evidence_refs d) h).

Definition verify_evaluation_case_definition (d : EvaluationCaseDefinitionV1) :
    result unit ReleaseError :=
  let? sealed := seal_evaluation_case_definition d in
  check negb (bool_decide (sealed = d))
        || negb (String.eqb (cd_content_fingerprint sealed) (cd_content_fingerprint d))
  else ReleaseInvalid in
  Ok tt.

(** ** Policies *)

Definition with_policy_fields (p : EvaluationPolicyV1) (cases : list EvaluationCaseDefinitionRefV1)
    (dimensions metrics : list string) (h : Sha256Hash) : EvaluationPolicyV1 :=
  {| ep_schema_id := ep_schema_id p;
     ep_schema_version := ep_schema_version p;
     ep_revision := ep_revision p;
     ep_project_id := ep_project_id p;
     ep_policy_id := ep_policy_id p;
     ep_policy_version := ep_policy_version p;
     ep_subject_kind := ep_subject_kind p;
     ep_evaluation_context := ep_evaluation_context p;
     ep_mode := ep_mode p;
     ep_corpus_ref := ep_corpus_ref p;
     ep_case_refs := cases;
     ep_minimum_sample_count := ep_minimum_sample_count p;
     ep_max_attempts_per_case := ep_max_attempts_per_case p;
     ep_comparability_dimensions := dimensions;
     ep_protected_metric_ids := metrics;
     ep_require_provider_cost := ep_require_provider_cost p;
     ep_source_ref := ep_source_ref p;
     ep_content_fingerprint := h |}.

Definition evaluation_policy_payload (p : EvaluationPolicyV1) : Json :=
  JObj [("revision", to_json (ep_revision p));
        ("project_id", to_json (ep_project_id p));
        ("policy_id", to_json (ep_policy_id p));
        ("policy_version", to_json (ep_policy_version p));
        ("subject_kind", to_json (ep_subject_kind p));
        ("evaluation_context", to_json (ep_evaluation_context p));
        ("mode", to_json (ep_mode p));
        ("corpus_ref", to_json (ep_corpus_ref p));
        ("case_refs", to_json (ep_case_refs p));
        ("minimum_sample_count", to_json (ep_minimum_sample_count p));
        ("max_attempts_per_case", to_json (ep_max_attempts_per_case p));
        ("comparability_dimensions", to_json (ep_comparability_dimensions p));
        ("protected_metric_ids", to_json (ep_protected_metric_ids p));
        ("require_provider_cost", to_json (ep_require_provider_cost p));
        ("source_ref", to_json (ep_source_ref p))].

Definition bad_policy (p : EvaluationPolicyV1) : bool :=
  negb (String.eqb (ep_schema_id p) EVALUATION_POLICY_V1_SCHEMA_ID)
  || negb (ep_schema_version p =? 1)%N
  || (ep_revision p =? 0)%N
  || negb (catalog_token (ep_policy_id p) 192)
  || negb (catalog_token (ep_policy_version p) 128)
  || blank (ep_corpus_ref p)
  || (1024 <? slen (ep_corpus_ref p))%N
  || no_items (ep_case_refs p)
  || has_repetition (map (λ r, (ecr_case_id r, ecr_case_version r)) (ep_case_refs p))
  || existsb (λ r, negb (catalog_token (ecr_case_id r) 192)
                   || negb (catalog_token (ecr_case_version r) 128)) (ep_case_refs p)
  || (ep_minimum_sample_count p =? 0)%N
  || (len (ep_case_refs p) <? ep_minimum_sample_count p)%N
  || negb (in_range 1 100 (ep_max_attempts_per_case p))
  || negb (bool_decide
             (sort_dedup (ep_comparability_dimensions p) = sort_dedup required_dimensions))
  || negb (forallb (λ required, mem required (ep_protected_metric_ids p)) required_metrics)
  || negb (ep_require_provider_cost p)
  || negb (canonical_source_ref (ep_source_ref p)).

Definition seal_evaluation_policy (p : EvaluationPolicyV1) :
    result EvaluationPolicyV1 ReleaseError :=
  let p := with_policy_fields p (sort_by cmp_leb (ep_case_refs p))
             (sort_dedup (ep_comparability_dimensions p)) (sort_dedup (ep_protected_metric_ids p))
             (ep_content_fingerprint p) in
  check bad_policy p else ReleaseInvalid in
  let? h := map_err (λ _, ReleaseFingerprint)
    (versioned_fingerprint EVALUATION_POLICY_V1_SCHEMA_ID 1 (evaluation_policy_payload p)) in
  Ok (with_policy_fields p (ep_case_refs p) (ep_comparability_dimensions p)
        (ep_protected_metric_ids p) h).

Definition verify_evaluation_policy (p : EvaluationPolicyV1) : result unit ReleaseError :=
  let? sealed := seal_evaluation_policy p in
  check negb (bool_decide (sealed = p))
        || negb (String.eqb (ep_content_fingerprint sealed) (ep_content_fingerprint p))
  else ReleaseInvalid in
  Ok tt.

(** ** Cost records *)

Definition with_cost_fields (r : CostRecordV1) (runs : list ValidationRunId)
    (usage : list CostUsageV1) (unavailable evidence : list string) (h : Sha256Hash) :
    CostRecordV1 :=
  {| co_schema_id := co_schema_id r;
     co_schema_version := co_schema_version r;
     co_cost_record_id := co_cost_record_id r;
     co_revision := co_revision r;
     co_project_id := co_project_id r;
     co_scope_kind := co_scope_kind r;
     co_scope_ref := co_scope_ref r;
     co_validation_run_refs := runs;
     co_source := co_source r;
     co_usage := usage;
     co_monetary_cost := co_monetary_cost r;
     co_estimated := co_estimated r;
     co_paid_action := co_paid_action r;
     co_measured_at := co_measured_at r;
     co_measurement_unavailable := unavailable;
     co_provider_evidence_refs := evidence;
     co_content_fingerprint := h |}.

Definition cost_record_payload (r : CostRecordV1) : Json :=
  JObj [("cost_record_id", to_json (co_cost_record_id r));
        ("revision", to_json (co_revision r));
        ("project_id", to_json (co_project_id r));
        ("scope_kind", to_json (co_scope_kind r));
        ("scope_ref", to_json (co_scope_ref r));
        ("validation_run_refs", to_json (co_validation_run_refs r));
        ("source", to_json (co_source r));
        ("usage", to_json (co_usage r));
        ("monetary_cost", to_json (co_monetary_cost r));
        ("estimated", to_json (co_estimated r));
        ("paid_action", to_json (co_paid_action r));
        ("measured_at", to_json (rfc3339 (co_measured_at r)));
        ("measurement_unavailable", to_json (co_measurement_unavailable r));
        ("provider_evidence_refs", to_json (co_provider_evidence_refs r))].

Definition monetary_valid (c : VerifiedMonetaryCostV1) : bool :=
  (0 <? mc_amount_microunits c)%N
  && (slen (mc_currency c) =? 3)%N
  && bytes_all is_ascii_upper (mc_currency c)
  && bounded_ref (mc_price_source_ref c)
  && bounded_ref (mc_provider_statement_ref c).

Definition bad_reason (reason : string) : bool := blank reason || (512 <? slen reason)%N.

Definition bad_cost_record (r : CostRecordV1) : bool :=
  negb (String.eqb (co_schema_id r) COST_RECORD_V1_SCHEMA_ID)
  || negb (co_schema_version r =? 1)%N
  || negb (catalog_token (co_cost_record_id r) 192)
  || (co_revision r =? 0)%N
  || blank (co_scope_ref r)
  || (1024 <? slen (co_scope_ref r))%N
  || negb (catalog_token (co_source r) 128)
  || co_estimated r
  || no_items (co_usage r) && is_none (co_monetary_cost r)
  || has_repetition (map cu_unit (co_usage r))
  || existsb (λ u, negb (catalog_token (cu_unit u) 64) || (cu_quantity u =? 0)%N
                   || negb (bounded_ref (cu_provider_evidence_ref u))) (co_usage r)
  || negb (is_none_or (co_monetary_cost r) monetary_valid)
  || no_items (co_provider_evidence_refs r)
  || existsb (λ e, negb (bounded_ref e)) (co_provider_evidence_refs r)
  || existsb bad_reason (co_measurement_unavailable r)
  || match co_scope_kind r with ValidationRunScope | EvaluationScope => true | _ => false end
     && no_items (co_validation_run_refs r).

Definition seal_cost_record (r : CostRecordV1) : result CostRecordV1 ReleaseError :=
  let r := with_cost_fields r (sort_dedup (co_validation_run_refs r))
             (sort_by_key cu_unit (co_usage r)) (sort_dedup (co_measurement_unavailable r))
             (sort_dedup (co_provider_evidence_refs r)) (co_content_fingerprint r) in
  check bad_cost_record r else ReleaseInvalid in
  let? h := map_err (λ _, ReleaseFingerprint)
    (versioned_fingerprint COST_RECORD_V1_SCHEMA_ID 1 (cost_record_payload r)) in
  Ok (with_cost_fields r (co_validation_run_refs r) (co_usage r) (co_measurement_unavailable r)
        (co_provider_evidence_refs r) h).

Definition verify_cost_record (r : CostRecordV1) : result unit ReleaseError :=
  let? sealed := seal_cost_record r in
  check negb (bool_decide (sealed = r))
        || negb (String.eqb (co_content_fingerprint sealed) (co_content_fingerprint r))
  else ReleaseInvalid in
  Ok tt.

Definition cost_record_ref (r : CostRecordV1) : CostRecordRefV1 :=
  {| crr_cost_record_id := co_cost_record_id r;
     crr_revision := co_revision r;
     crr_content_fingerprint := co_content_fingerprint r |}.

(** ** Budgets *)

Definition normalize_quantities (quantities : list BudgetQuantityV1) (allow_zero : bool) :
    result (list BudgetQuantityV1) ReleaseError :=
  let quantities := sort_by_key bq_unit quantities in
  check existsb (λ q, negb (catalog_token (bq_unit q) 64)
                      || negb allow_zero && (bq_quantity q =? 0)%N) quantities
        || windows2_any (λ a b, String.eqb (bq_unit a) (bq_unit b)) quantities
  else ReleaseInvalid in
  Ok quantities.

Definition add_quantity (totals : quantities) (unit : string) (quantity : N) :
    result quantities ReleaseError :=
  let current := default 0%N (totals !! unit) in
  let? sum := ok_or (checked_add64 current quantity) ReleaseInvalid in
  Ok (<[unit := sum]> totals).

Definition money_unit (c : VerifiedMonetaryCostV1) : string :=
  "money_" +:+ to_ascii_lowercase (mc_currency c) +:+ "_microunits".

(** What the loop over the records carries: the totals, the references, the
    records seen and the measurements that are unavailable. *)
Record BudgetFold := {
  bf_observed : quantities;
  bf_refs : list CostRecordRefV1;
  bf_seen : list (string * N);
  bf_unknown : list string
}.

Definition add_cost_record (project : ProjectId) (s : BudgetFold) (r : CostRecordV1) :
    result BudgetFold ReleaseError :=
  let? _ := verify_cost_record r in
  check negb (String.eqb (co_project_id r) project)
        || mem (co_cost_record_id r, co_revision r) (bf_seen s)
  else ReleaseConflict in
  let? observed := fold_result (λ t u, add_quantity t (cu_unit u) (cu_quantity u))
                     (bf_observed s) (co_usage r) in
  let? observed := match co_monetary_cost r with
                   | Some c => add_quantity observed (money_unit c) (mc_amount_microunits c)
                   | None => Ok observed
                   end in
  Ok {| bf_observed := observed;
        bf_refs := bf_refs s ++ [cost_record_ref r];
        bf_seen := (co_cost_record_id r, co_revision r) :: bf_seen s;
        bf_unknown := bf_unknown s ++ co_measurement_unavailable r |}.

Definition quantity_map (l : list BudgetQuantityV1) : quantities :=
  foldl (λ m q, <[bq_unit q := bq_quantity q]> m) ∅ l.

Definition quantity_list (m : quantities) : list BudgetQuantityV1 :=
  map (λ e : string * N, {| bq_unit := e.1; bq_quantity := e.2 |}) (btree_entries m).

(** The reasons of the units without a limit, used ones first. *)
Definition missing_limits (limits observed reserved : quantities) : list string :=
  map (λ unit, "limit_missing:" +:+ unit)
    (List.filter (λ unit, is_none (limits !! unit))
       (map fst (btree_entries observed) ++ map fst (btree_entries reserved))).

(** What a unit is committed to: used and held. *)
Definition committed (observed reserved : quantities) (unit : string) : result N ReleaseError :=
  ok_or (checked_add64 (default 0%N (observed !! unit)) (default 0%N (reserved !! unit)))
    ReleaseInvalid.

Definition remaining_quantities (limits observed reserved : quantities) :
    result (list (BudgetQuantityV1 * bool)) ReleaseError :=
  map_result (λ e : string * N,
    let? c := committed observed reserved e.1 in
    Ok ({| bq_unit := e.1; bq_quantity := e.2 - c |}, (e.2 <? c)%N)) (btree_entries limits).

Definition budget_decision (exhausted : bool) (unknown : list string) (paid_pending : bool)
    (approvals : list string) : BudgetDecisionV1 :=
  if exhausted then Exhausted
  else if negb (no_items unknown) then UnknownBudget
  else if paid_pending && no_items approvals then ApprovalRequired
  else WithinBudget.

Definition budget_snapshot_fingerprint (s : BudgetSnapshotV1) : result Sha256Hash ReleaseError :=
  map_err (λ _, ReleaseFingerprint)
    (versioned_fingerprint BUDGET_SNAPSHOT_V1_SCHEMA_ID 1 (JObj
      [("snapshot_id", to_json (bg_snapshot_id s));
       ("revision", to_json (bg_revision s));
       ("project_id", to_json (bg_project_id s));
       ("scope_ref", to_json (bg_scope_ref s));
       ("limits", to_json (bg_limits s));
       ("observed", to_json (bg_observed s));
       ("reserved", to_json (bg_reserved s));
       ("remaining", to_json (bg_remaining s));
       ("unknown_measurements", to_json (bg_unknown_measurements s));
       ("decision", to_json (bg_decision s));
       ("cost_record_refs", to_json (bg_cost_record_refs s));
       ("permission_approval_refs", to_json (bg_permission_approval_refs s));
       ("paid_action_pending", to_json (bg_paid_action_pending s));
       ("config_fingerprint", to_json (bg_config_fingerprint s));
       ("evaluated_at", to_json (rfc3339 (bg_evaluated_at s)))])).

Definition with_budget_fingerprint (s : BudgetSnapshotV1) (h : Sha256Hash) : BudgetSnapshotV1 :=
  {| bg_schema_id := bg_schema_id s;
     bg_schema_version := bg_schema_version s;
     bg_snapshot_id := bg_snapshot_id s;
     bg_revision := bg_revision s;
     bg_project_id := bg_project_id s;
     bg_scope_ref := bg_scope_ref s;
     bg_limits := bg_limits s;
     bg_observed := bg_observed s;
     bg_reserved := bg_reserved s;
     bg_remaining := bg_remaining s;
     bg_unknown_measurements := bg_unknown_measurements s;
     bg_decision := bg_decision s;
     bg_cost_record_refs := bg_cost_record_refs s;
     bg_permission_approval_refs := bg_permission_approval_refs s;
     bg_paid_action_pending := bg_paid_action_pending s;
     bg_config_fingerprint := bg_config_fingerprint s;
     bg_evaluated_at := bg_evaluated_at s;
     bg_content_fingerprint := h |}.

(** The input with its lists in order; unavailable measurements only grow. *)
Definition normalize_budget_input (input : BudgetSnapshotInput) :
    result BudgetSnapshotInput ReleaseError :=
  check negb (catalog_token (bi_snapshot_id input) 192)
        || (bi_revision input =? 0)%N
        || blank (bi_scope_ref input)
        || (1024 <? slen (bi_scope_ref input))%N
        || no_items (bi_limits input)
  else ReleaseInvalid in
  let? limits := normalize_quantities (bi_limits input) false in
  let? reserved := normalize_quantities (bi_reserved input) true in
  let unknown := sort_dedup (bi_unknown_measurements input) in
  let approvals := sort_dedup (bi_permission_approval_refs input) in
  let refs := sort_by cmp_leb (bi_cost_record_refs input) in
  check windows2_any (λ a b, bool_decide (a = b)) refs
        || existsb (λ r, negb (catalog_token (crr_cost_record_id r) 192) || (crr_revision r =? 0)%N)
             refs
  else ReleaseConflict in
  check existsb bad_reason unknown || existsb (λ a, negb (bounded_ref a)) approvals
  else ReleaseInvalid in
  Ok {| bi_snapshot_id := bi_snapshot_id input;
        bi_revision := bi_revision input;
        bi_project_id := bi_project_id input;
        bi_scope_ref := bi_scope_ref input;
        bi_cost_record_refs := refs;
        bi_limits := limits;
        bi_reserved := reserved;
        bi_unknown_measurements := unknown;
        bi_permission_approval_refs := approvals;
        bi_paid_action_pending := bi_paid_action_pending input;
        bi_evaluated_at := bi_evaluated_at input |}.

(** The measurements a snapshot lists as unknown. *)
Definition unknown_of (input : BudgetSnapshotInput) (s : BudgetFold) : list string :=
  sort_dedup (sort_dedup (bf_unknown s)
              ++ missing_limits (quantity_map (bi_limits input)) (bf_observed s)
                   (quantity_map (bi_reserved input))).

(** The snapshot before it is hashed. *)
Definition unsealed_snapshot (input : BudgetSnapshotInput) (s : BudgetFold)
    (remaining : list (BudgetQuantityV1 * bool)) (config_fingerprint : Sha256Hash) :
    BudgetSnapshotV1 :=
  {| bg_schema_id := BUDGET_SNAPSHOT_V1_SCHEMA_ID;
     bg_schema_version := 1;
     bg_snapshot_id := bi_snapshot_id input;
     bg_revision := bi_revision input;
     bg_project_id := bi_project_id input;
     bg_scope_ref := bi_scope_ref input;
     bg_limits := bi_limits input;
     bg_observed := quantity_list (bf_observed s);
     bg_reserved := bi_reserved input;
     bg_remaining := map fst remaining;
     bg_unknown_measurements := unknown_of input s;
     bg_decision := budget_decision (existsb snd remaining) (unknown_of input s)
                      (bi_paid_action_pending input) (bi_permission_approval_refs input);
     bg_cost_record_refs := sort_by cmp_leb (bf_refs s);
     bg_permission_approval_refs := bi_permission_approval_refs input;
     bg_paid_action_pending := bi_paid_action_pending input;
     bg_config_fingerprint := config_fingerprint;
     bg_evaluated_at := bi_evaluated_at input;
     bg_content_fingerprint := digest "unsealed-budget-snapshot" |}.

Definition budget_start (unknown : list string) : BudgetFold :=
  {| bf_observed := ∅; bf_refs := []; bf_seen := []; bf_unknown := unknown |}.

Definition build_budget_snapshot (input : BudgetSnapshotInput) (cost_records : list CostRecordV1)
    (config_fingerprint : Sha256Hash) : result BudgetSnapshotV1 ReleaseError :=
  let? input := normalize_budget_input input in
  let? s := fold_result (add_cost_record (bi_project_id input))
              (budget_start (bi_unknown_measurements input)) cost_records in
  check negb (bool_decide (sort_by cmp_leb (bf_refs s) = bi_cost_record_refs input))
  else ReleaseInvalid in
  let? remaining := remaining_quantities (quantity_map (bi_limits input)) (bf_observed s)
                      (quantity_map (bi_reserved input)) in
  let snapshot := unsealed_snapshot input s remaining config_fingerprint in
  let? h := budget_snapshot_fingerprint snapshot in
  Ok (with_budget_fingerprint snapshot h).

(** The input [verify_budget_snapshot] builds the snapshot from again. *)
Definition input_of_snapshot (s : BudgetSnapshotV1) : BudgetSnapshotInput :=
  {| bi_snapshot_id := bg_snapshot_id s;
     bi_revision := bg_revision s;
     bi_project_id := bg_project_id s;
     bi_scope_ref := bg_scope_ref s;
     bi_cost_record_refs := bg_cost_record_refs s;
     bi_limits := bg_limits s;
     bi_reserved := bg_reserved s;
     bi_unknown_measurements :=
       List.filter (λ reason, negb (starts_with "limit_missing:" reason))
         (bg_unknown_measurements s);
     bi_permission_approval_refs := bg_permission_approval_refs s;
     bi_paid_action_pending := bg_paid_action_pending s;
     bi_evaluated_at := bg_evaluated_at s |}.

Definition verify_budget_snapshot (s : BudgetSnapshotV1) (cost_records : list CostRecordV1) :
    result unit ReleaseError :=
  check negb (String.eqb (bg_schema_id s) BUDGET_SNAPSHOT_V1_SCHEMA_ID)
        || negb (bg_schema_version s =? 1)%N
  else ReleaseInvalid in
  let? h := budget_snapshot_fingerprint s in
  check negb (String.eqb (bg_content_fingerprint s) h) else ReleaseInvalid in
  let? expected := build_budget_snapshot (input_of_snapshot s) cost_records
                     (bg_config_fingerprint s) in
  check negb (bool_decide (expected = s)) else ReleaseInvalid in
  Ok tt.

End documents.
