(* ===== verification/EvaluationFacts.v ===== *)
(** * What an evaluation recommends

    A run that verifies recommends exactly what its cases support, an evaluated
    run verifies, and the catalog moves an entry in one direction only. *)
From S2P Require Import Prelude Canonical Contracts ReleaseLifecycle Evaluation Toy.

(** ** Totals

    The summaries of the source against the plain sums, where these fit. *)

Definition total (f : EvaluationCaseResult → N) (cases : list EvaluationCaseResult) : N :=
  foldr (λ c s, (f c + s)%N) 0%N cases.

Definition occurrences (p : EvaluationCaseResult → bool) (cases : list EvaluationCaseResult) : N :=
  total (λ c, if p c then 1 else 0)%N cases.

Lemma occurrences_len p cases : len (List.filter p cases) = occurrences p cases.
Proof.
  unfold occurrences, len. induction cases as [|c cases IH]; [done|]. simpl.
  destruct (p c); simpl; rewrite <-IH; lia.
Qed.

Lemma occurrences_le p cases : (occurrences p cases <= len cases)%N.
Proof.
  unfold occurrences, len. induction cases as [|c cases IH]; simpl; [lia|]. destruct (p c); lia.
Qed.

Lemma total_zero f cases : total f cases = 0%N ↔ ∀ c, c ∈ cases → f c = 0%N.
Proof.
  induction cases as [|c cases IH]; simpl; [set_solver|].
  rewrite N.eq_add_0, IH. set_solver.
Qed.

Lemma occurrences_zero p cases : occurrences p cases = 0%N ↔ ∀ c, c ∈ cases → p c = false.
Proof.
  unfold occurrences. rewrite total_zero.
  split; intros Hz c Hc; specialize (Hz c Hc); by destruct (p c).
Qed.

Lemma total_positive f cases : (0 < total f cases)%N ↔ ∃ c, c ∈ cases ∧ (0 < f c)%N.
Proof.
  induction cases as [|c cases IH]; simpl.
  { split; [lia|]. intros (c & Hc & _). by apply elem_of_nil in Hc. }
  split.
  - intros Hp. destruct (decide (0 < f c)%N); [exists c; split; [left|done]|].
    destruct (proj1 IH) as (d & Hd & ?); [lia|]. exists d. split; [by right|done].
  - intros (d & [->|Hd]%elem_of_cons & Hf); [lia|].
    enough (0 < total f cases)%N by lia. apply IH. by exists d.
Qed.

Lemma occurrences_positive p cases : (0 < occurrences p cases)%N ↔ ∃ c, c ∈ cases ∧ p c = true.
Proof.
  unfold occurrences. rewrite total_positive. split; intros (c & Hc & Hp); exists c;
    (split; [done|]); by destruct (p c).
Qed.

Lemma fold_add_total (add : N → N → N) (max : N) f cases acc :
  (∀ a b, (a + b <= max)%N → add a b = (a + b)%N) → (acc + total f cases <= max)%N →
  fold_left add (map f cases) acc = (acc + total f cases)%N.
Proof.
  intros Hadd. revert acc. induction cases as [|c cases IH]; intros acc Hm; simpl in *; [lia|].
  rewrite Hadd by lia. rewrite IH by lia. lia.
Qed.

Lemma wrapping_sum_total max f cases :
  (total f cases <= max)%N → wrapping_sum max f cases = total f cases.
Proof.
  intros Hm. unfold wrapping_sum. rewrite (fold_add_total _ max); [done| |lia].
  intros a b Hab. unfold wrapping_add. apply N.mod_small. lia.
Qed.

Lemma saturating_fold f cases acc :
  fold_left (saturating_add u32_max) (map f cases) acc
  = if no_items cases then acc else N.min u32_max (acc + total f cases).
Proof.
  revert acc. induction cases as [|c cases IH]; intros acc; [done|]. cbn [map fold_left no_items].
  rewrite IH. unfold saturating_add. destruct cases as [|d cases]; simpl; lia.
Qed.

Lemma saturating_sum_total f cases : saturating_sum f cases = N.min u32_max (total f cases).
Proof.
  unfold saturating_sum. rewrite saturating_fold. destruct cases; [done|]. cbn [no_items]. lia.
Qed.

Lemma saturating_sum_positive f cases :
  (0 < saturating_sum f cases)%N ↔ ∃ c, c ∈ cases ∧ (0 < f c)%N.
Proof. rewrite saturating_sum_total, <-total_positive. unfold u32_max. lia. Qed.

Lemma count_cases_exact p cases :
  (len cases <= u32_max)%N → count_cases p cases = occurrences p cases.
Proof.
  intros Hl. unfold count_cases, as_u32. rewrite occurrences_len.
  pose proof (occurrences_le p cases). apply N.mod_small. unfold u32_max in Hl. lia.
Qed.

(** ** What the recommendations mean *)

(** The ways in which a side can do harm on a case, counted. *)
Inductive harm := MissedDefects | FalseAlarms | AdverseOutcomes | Rollbacks | NewFindings.
Inductive side := BaselineSide | CandidateSide.

Definition detected (s : side) (c : EvaluationCaseResult) : bool :=
  match s with BaselineSide => ec_baseline_detected c | CandidateSide => ec_candidate_detected c end.
Definition outcome (s : side) (c : EvaluationCaseResult) : EvaluationOutcome :=
  match s with BaselineSide => ec_baseline_outcome c | CandidateSide => ec_candidate_outcome c end.
Definition duration (s : side) (c : EvaluationCaseResult) : N :=
  match s with
  | BaselineSide => ec_baseline_duration_ms c | CandidateSide => ec_candidate_duration_ms c
  end.
Definition rework (s : side) (c : EvaluationCaseResult) : N :=
  match s with
  | BaselineSide => ec_baseline_rework_count c | CandidateSide => ec_candidate_rework_count c
  end.
Definition new_findings (s : side) (c : EvaluationCaseResult) : N :=
  match s with
  | BaselineSide => ec_baseline_new_or_worsened_count c
  | CandidateSide => ec_candidate_new_or_worsened_count c
  end.

Definition harm_count (h : harm) (s : side) (cases : list EvaluationCaseResult) : N :=
  match h with
  | MissedDefects => occurrences (missed (detected s)) cases
  | FalseAlarms => occurrences (false_alarm (detected s)) cases
  | AdverseOutcomes => occurrences (adverse_outcome ∘ outcome s) cases
  | Rollbacks => occurrences (has_outcome OutcomeRollback (outcome s)) cases
  | NewFindings => total (new_findings s) cases
  end.

Definition worse (cases : list EvaluationCaseResult) : Prop :=
  ∃ h, (harm_count h BaselineSide cases < harm_count h CandidateSide cases)%N.

(** Findings hidden by suppressions, or an outcome that depends on the attempt. *)
Definition masked (cases : list EvaluationCaseResult) : Prop :=
  ∃ c, c ∈ cases ∧ (ec_candidate_flaky c = true ∨ (0 < ec_suppression_newly_added_count c)%N
                    ∨ (0 < ec_suppression_broadened_count c)%N).

(** The totals of time and rework of the candidate are at most those of the
    baseline, and not both equal. *)
Definition cheaper (cases : list EvaluationCaseResult) : Prop :=
  (total (duration CandidateSide) cases <= total (duration BaselineSide) cases)%N ∧
  (total (rework CandidateSide) cases <= total (rework BaselineSide) cases)%N ∧
  ((total (duration CandidateSide) cases < total (duration BaselineSide) cases)%N ∨
   (total (rework CandidateSide) cases < total (rework BaselineSide) cases)%N).

Definition better (cases : list EvaluationCaseResult) : Prop :=
  (∃ h, (harm_count h CandidateSide cases < harm_count h BaselineSide cases)%N) ∨
  (∃ c, c ∈ cases ∧ ec_baseline_outcome c = OutcomeUnknown) ∨
  (∃ c, c ∈ cases ∧ (0 < ec_suppression_removed_count c)%N) ∨
  cheaper cases.

Definition weakened (r : EvaluationRunV2) : Prop :=
  ∃ m, m ∈ er_protected_metric_results r ∧ pm_weakened m = true.

(** Nothing is missing that a decision needs. *)
Definition decidable_run (r : EvaluationRunV2) : Prop :=
  (∀ c, c ∈ er_comparability r → cpb_state c = CompatibleState) ∧
  (∀ c, c ∈ er_case_results r →
    ec_limitations c = [] ∧ ec_baseline_cost_refs c ≠ [] ∧ ec_candidate_cost_refs c ≠ [] ∧
    ec_adjudication c ≠ Unresolved ∧ ec_candidate_outcome c ≠ OutcomeUnknown) ∧
  (er_minimum_sample_count r <= len (er_case_results r))%N.

(** The totals a run compares fit the integers that hold them. *)
Definition within_widths (cases : list EvaluationCaseResult) : Prop :=
  (len cases <= u32_max)%N ∧
  ∀ s, (total (duration s) cases <= u64_max)%N ∧ (total (rework s) cases <= u32_max)%N ∧
       (total (new_findings s) cases <= u32_max)%N.

Section recommendation.
Context `{Platform}.

(** *** The conditions of the source in these terms *)

Lemma protected_weakened_spec r : protected_weakened (input_of_run r) = true ↔ weakened r.
Proof. apply existsb_true. Qed.

Lemma decidable_run_spec r :
  (len (er_case_results r) <= u32_max)%N →
  (not_comparable (input_of_run r) || evidence_limited (input_of_run r)
   || (ms_sample_count (summarize (er_case_results r)) <? er_minimum_sample_count r)%N
   || (0 <? ms_unresolved (summarize (er_case_results r)))%N
   || (0 <? sf_candidate_unknown_outcomes (comparative_safety (er_case_results r)))%N) = false
  ↔ decidable_run r.
Proof.
  intros Hl. unfold not_comparable, evidence_limited, cost_limited, decidable_run. simpl.
  rewrite !orb_false_iff, !N.ltb_ge, !N.le_0_r, !existsb_false, !count_cases_exact by done.
  rewrite !occurrences_zero. unfold as_u32. rewrite N.mod_small by (unfold u32_max in Hl; lia).
  split.
  - intros ((((Hc & Hlim & Hcost) & Hs) & Hu) & Ho). split_and!; [| |done].
    + intros c Hin. specialize (Hc c Hin). apply bool_decide_eq_false in Hc. by destruct (cpb_state c).
    + intros c Hin. specialize (Hlim c Hin). specialize (Hcost c Hin). specialize (Hu c Hin).
      specialize (Ho c Hin). unfold adjudicated, has_outcome in *. bool_to_prop.
      split_and!; [by apply no_items_spec| | |done|done];
        by destruct (ec_baseline_cost_refs c), (ec_candidate_cost_refs c).
  - intros (Hc & Hcase & Hs). split_and!; [| | |done| |].
    + intros c Hin. apply bool_decide_eq_false. by rewrite (Hc c Hin).
    + intros c Hin. by destruct (Hcase c Hin) as (-> & _).
    + intros c Hin. destruct (Hcase c Hin) as (_ & Hb & Hcd & _).
      by destruct (ec_baseline_cost_refs c), (ec_candidate_cost_refs c).
    + intros c Hin. apply bool_decide_eq_false. apply (Hcase c Hin).
    + intros c Hin. apply bool_decide_eq_false. apply (Hcase c Hin).
Qed.

Lemma worse_spec cases :
  within_widths cases →
  safety_worse (comparative_safety cases)
  || (ms_baseline_new_or_worsened_count (summarize cases)
        <? ms_candidate_new_or_worsened_count (summarize cases))%N = true
  ↔ worse cases.
Proof.
  intros [Hl Hw]. destruct (Hw BaselineSide) as (_ & _ & Hb). destruct (Hw CandidateSide) as (_ & _ & Hc).
  unfold safety_worse. simpl. rewrite !orb_true_iff, !N.ltb_lt.
  rewrite !count_cases_exact, !saturating_sum_total by done.
  change ec_baseline_new_or_worsened_count with (new_findings BaselineSide).
  change ec_candidate_new_or_worsened_count with (new_findings CandidateSide).
  rewrite !N.min_r by done. split.
  - intros [[[[Hx|Hx]|Hx]|Hx]|Hx];
      [exists MissedDefects|exists FalseAlarms|exists AdverseOutcomes|exists Rollbacks
      |exists NewFindings]; exact Hx.
  - intros [[] Hx]; simpl in Hx; tauto.
Qed.

Lemma masked_spec cases :
  (len cases <= u32_max)%N →
  (0 <? ms_suppression_newly_added_count (summarize cases))%N
  || (0 <? ms_suppression_broadened_count (summarize cases))%N
  || (0 <? ms_candidate_flaky (summarize cases))%N = true
  ↔ masked cases.
Proof.
  intros Hl. simpl. rewrite !orb_true_iff, !N.ltb_lt, !saturating_sum_positive, count_cases_exact by done.
  rewrite occurrences_positive. unfold masked. naive_solver.
Qed.

(** Equal counts of harm are no worse and no better. *)
Lemma not_worse_le cases h :
  ¬ worse cases → (harm_count h CandidateSide cases <= harm_count h BaselineSide cases)%N.
Proof. intros Hw. destruct (decide (harm_count h BaselineSide cases < harm_count h CandidateSide cases)%N); [|lia]. destruct Hw. by exists h. Qed.

Lemma better_spec cases :
  within_widths cases → ¬ worse cases →
  (∀ c, c ∈ cases → ec_candidate_outcome c ≠ OutcomeUnknown) →
  candidate_improves (summarize cases) (comparative_safety cases) = true ↔ better cases.
Proof.
  intros [Hl Hw] Hnw Hu. pose proof (not_worse_le cases MissedDefects Hnw) as H1.
  pose proof (not_worse_le cases FalseAlarms Hnw) as H2.
  pose proof (not_worse_le cases AdverseOutcomes Hnw) as H3.
  pose proof (not_worse_le cases Rollbacks Hnw) as H4.
  destruct (Hw BaselineSide) as (Hdb & Hrb & Hnb). destruct (Hw CandidateSide) as (Hdc & Hrc & Hnc).
  unfold candidate_improves, better, cheaper. simpl.
  rewrite !orb_true_iff, !andb_true_iff, !orb_true_iff, !andb_true_iff, !N.ltb_lt, !N.leb_le, !N.eqb_eq.
  rewrite !count_cases_exact, !saturating_sum_total by done.
  change ec_baseline_new_or_worsened_count with (new_findings BaselineSide).
  change ec_candidate_new_or_worsened_count with (new_findings CandidateSide).
  change ec_baseline_duration_ms with (duration BaselineSide).
  change ec_candidate_duration_ms with (duration CandidateSide).
  change ec_baseline_rework_count with (rework BaselineSide).
  change ec_candidate_rework_count with (rework CandidateSide).
  rewrite !wrapping_sum_total, !(N.min_r _ (total (new_findings _) _)) by done.
  rewrite <-saturating_sum_positive, saturating_sum_total.
  assert (occurrences (has_outcome OutcomeUnknown ec_candidate_outcome) cases = 0%N) as Hz.
  { apply occurrences_zero. intros c Hc. apply bool_decide_eq_false. by apply Hu. }
  assert ((∃ c, c ∈ cases ∧ ec_baseline_outcome c = OutcomeUnknown)
    ↔ (0 < occurrences (has_outcome OutcomeUnknown ec_baseline_outcome) cases)%N) as ->.
  { rewrite occurrences_positive. unfold has_outcome. by setoid_rewrite bool_decide_eq_true. }
  assert ((∃ h, (harm_count h CandidateSide cases < harm_count h BaselineSide cases)%N) ↔
    (harm_count MissedDefects CandidateSide cases < harm_count MissedDefects BaselineSide cases ∨
     harm_count FalseAlarms CandidateSide cases < harm_count FalseAlarms BaselineSide cases ∨
     harm_count AdverseOutcomes CandidateSide cases < harm_count AdverseOutcomes BaselineSide cases ∨
     harm_count Rollbacks CandidateSide cases < harm_count Rollbacks BaselineSide cases ∨
     harm_count NewFindings CandidateSide cases < harm_count NewFindings BaselineSide cases)%N) as ->.
  { split; [intros [[] ?]; tauto|]. intros [?|[?|[?|[?|?]]]]; eauto. }
  rewrite Hz. simpl in *.
  change ec_baseline_detected with (detected BaselineSide).
  change ec_candidate_detected with (detected CandidateSide).
  change ec_baseline_outcome with (outcome BaselineSide).
  change ec_candidate_outcome with (outcome CandidateSide).
  unfold u32_max. lia.
Qed.

Lemma refused_spec cases :
  within_widths cases →
  safety_worse (comparative_safety cases)
  || (ms_baseline_new_or_worsened_count (summarize cases)
        <? ms_candidate_new_or_worsened_count (summarize cases))%N
  || (0 <? ms_suppression_newly_added_count (summarize cases))%N
  || (0 <? ms_suppression_broadened_count (summarize cases))%N
  || (0 <? ms_candidate_flaky (summarize cases))%N = true
  ↔ worse cases ∨ masked cases.
Proof.
  intros Hw. rewrite <-worse_spec, <-masked_spec by (done || apply Hw).
  rewrite !orb_true_iff. tauto.
Qed.

(** What [keep] means: no case came out differently, in the same time. *)
Definition unchanged (cases : list EvaluationCaseResult) : Prop :=
  total (duration CandidateSide) cases = total (duration BaselineSide) cases ∧
  total (rework CandidateSide) cases = total (rework BaselineSide) cases ∧
  ∀ c, c ∈ cases → detected CandidateSide c = detected BaselineSide c ∧
                   outcome CandidateSide c = outcome BaselineSide c.

Lemma candidate_equal_unchanged cases :
  within_widths cases → candidate_equal cases (summarize cases) = true → unchanged cases.
Proof.
  intros [_ Hw] Hk. destruct (Hw BaselineSide) as (Hdb & Hrb & _).
  destruct (Hw CandidateSide) as (Hdc & Hrc & _).
  unfold candidate_equal in Hk. rewrite !andb_true_iff, !N.eqb_eq in Hk.
  destruct Hk as [[[[[[[[[Hall Hd] Hr] _] _] _] _] _] _] _]. cbn in Hd, Hr.
  rewrite !wrapping_sum_total in Hd by done. rewrite !wrapping_sum_total in Hr by done.
  split_and!; [done|done|]. intros c Hc. rewrite forallb_true in Hall. specialize (Hall c Hc).
  bool_to_prop.
  split; [symmetry; by apply Bool.eqb_prop|done].
Qed.

(** *** Verified runs *)

Lemma verified_run_facts fresh r :
  verify_evaluation_run fresh r = Ok tt →
  validate_input (input_of_run r) = Ok tt ∧ er_recommendation r = recommendation_of (input_of_run r).
Proof.
  unfold verify_evaluation_run, evaluate. intros Hv. err_cases Hv. bool_to_prop.
  match goal with He : context [validate_input (input_of_run r)] |- _ => err_cases He; simplify_eq end.
  done.
Qed.

(** C5: The recommendation of a run that verifies is the one its cases earn, when
    the totals it compares fit their integers.  It rejects exactly when a
    protected metric is weakened, or when the run can be decided and the candidate
    does more of some harm, hides findings behind suppressions or is flaky.  It
    asks for review exactly when nothing is weakened and the run cannot be decided.
    It accepts exactly when the run can be decided, nothing is weakened, masked or
    worse, and something is better: less of a harm, outcomes known that were not,
    a suppression removed, or less time or rework for no more of the other.  In
    particular a candidate that is only faster is accepted. *)
Theorem verified_recommendation_exact fresh r
    (Hv : verify_evaluation_run fresh r = Ok tt) (Hw : within_widths (er_case_results r)) :
  let cases := er_case_results r in
  (er_recommendation r = Reject
   ↔ weakened r ∨ (decidable_run r ∧ (worse cases ∨ masked cases))) ∧
  (er_recommendation r = NeedsReview ↔ ¬ weakened r ∧ ¬ decidable_run r) ∧
  (er_recommendation r = Accept
   ↔ ¬ weakened r ∧ decidable_run r ∧ ¬ worse cases ∧ ¬ masked cases ∧ better cases) ∧
  (er_recommendation r = Keep → unchanged cases).
Proof.
  cbv zeta. rewrite (proj2 (verified_run_facts fresh r Hv)). clear Hv. pose proof Hw as [Hl _].
  pose proof (protected_weakened_spec r) as Hp. pose proof (decidable_run_spec r Hl) as Hd.
  pose proof (refused_spec _ Hw) as Hr.
  assert (decidable_run r → ¬ worse (er_case_results r) →
    candidate_improves (summarize (er_case_results r)) (comparative_safety (er_case_results r)) = true
    ↔ better (er_case_results r)) as Hb.
  { intros (_ & Hc & _) Hn. apply better_spec; [done..|]. intros c Hin. by apply Hc. }
  pose proof (candidate_equal_unchanged _ Hw) as Hk.
  unfold recommendation_of.
  change (ei_case_results (input_of_run r)) with (er_case_results r).
  change (ei_minimum_sample_count (input_of_run r)) with (er_minimum_sample_count r).
  destruct (protected_weakened _); [clear -Hp; naive_solver|].
  destruct (not_comparable _ || _ || _ || _ || _); [clear -Hp Hd; naive_solver|].
  destruct (_ || _ || _ || _ || _); [clear -Hp Hd Hr; naive_solver|].
  destruct (candidate_improves _ _); [clear -Hp Hd Hr Hb; naive_solver|].
  destruct (candidate_equal _ _); clear -Hp Hd Hr Hb Hk; naive_solver.
Qed.

(** *** What is evaluated verifies *)

Lemma sorted_radar_same (l : list string) :
  NoDup l →
  existsb blank (sort_dedup l) = existsb blank l ∧
  has_repetition (sort_dedup l) = false.
Proof.
  intros Hnd. split.
  - apply eq_iff_eq_true. rewrite !existsb_true. by setoid_rewrite elem_of_sort_dedup.
  - apply negb_false_iff, distinct_count_spec, strict_NoDup, sort_dedup_strict.
Qed.

Lemma validate_input_radar input run_id usage :
  validate_input input = Ok tt →
  validate_input (input_of_run (unsealed_run run_id input usage)) = Ok tt.
Proof.
  unfold validate_input. simpl. intros Hv. err_cases Hv.
  match goal with Hx : _ || existsb blank _ || _ = false |- _ => rename Hx into Hr end.
  apply orb_false_iff in Hr as [[Hc Hb]%orb_false_iff Hr].
  destruct (sorted_radar_same (ei_radar_item_refs input)) as [Hb' Hr'];
    [by apply has_repetition_false|].
  match goal with Hx : bad_header _ || _ = false |- _ => rename Hx into Hh end.
  change (bad_header (input_of_run (unsealed_run run_id input usage)) || existsb
    (bad_case (input_of_run (unsealed_run run_id input usage))) (ei_case_results input))
    with (bad_header input || existsb (bad_case input) (ei_case_results input)).
  rewrite Hh, Hb', Hr', Hb, Hc. simpl.
  repeat match goal with Hx : _ = false |- _ => rewrite Hx end. done.
Qed.

Lemma run_fingerprint_total run :
  (∀ j, is_some (jcs_to_string j) = true) → ∃ h, evaluation_run_fingerprint run = Ok h.
Proof.
  intros Hjcs. unfold evaluation_run_fingerprint, versioned_fingerprint, canonical_sha256, jcs_bytes.
  match goal with |- context [jcs_to_string ?j] => specialize (Hjcs j) end.
  destruct (jcs_to_string _); [simpl; eauto|done].
Qed.

(** A run verifies when it agrees with what is evaluated from it. *)
Lemma verify_evaluation_run_intro fresh r h expected :
  er_schema_id r = EVALUATION_RUN_V2_SCHEMA_ID → er_schema_version r = 2%N →
  er_subject_kind r = es_kind (edf_subject (er_candidate r)) →
  er_subject r = edf_subject (er_candidate r) →
  evaluation_run_fingerprint r = Ok h → er_run_fingerprint r = h →
  evaluate fresh (input_of_run r) = Ok expected →
  er_ground_truth_summary r = er_ground_truth_summary expected →
  er_finding_metrics r = er_finding_metrics expected →
  er_efficiency_metrics r = er_efficiency_metrics expected →
  er_usage_and_cost_refs r = er_usage_and_cost_refs expected →
  er_usage_and_cost_metrics r = er_usage_and_cost_metrics expected →
  er_radar_item_refs r = er_radar_item_refs expected →
  er_limitations r = er_limitations expected →
  er_comparison r = er_comparison expected →
  er_recommendation r = er_recommendation expected →
  verify_evaluation_run fresh r = Ok tt.
Proof.
  intros H1 H2 H3 H4 H5 H6 H7 H8 H9 H10 H11 H12 H13 H14 H15 H16.
  unfold verify_evaluation_run. rewrite (bool_decide_true _ H3), (bool_decide_true _ H4), H1, H2, H5, H6, H7.
  rewrite !String.eqb_refl. simpl.
  rewrite (bool_decide_true _ H8), (bool_decide_true _ H9), (bool_decide_true _ H10),
    (bool_decide_true _ H11), (bool_decide_true _ H12), (bool_decide_true _ H13),
    (bool_decide_true _ H14), (bool_decide_true _ H15), (bool_decide_true _ H16). done.
Qed.

(** A run that was evaluated verifies: every metric, line of comparison,
    limitation, cost reference and the recommendation come out the same when they
    are derived again from the recorded cases, provided that the text the second
    run is hashed from exists. *)
Theorem evaluated_run_verifies fresh run_id input r
    (Hjcs : ∀ j, is_some (jcs_to_string j) = true) (He : evaluate run_id input = Ok r) :
  verify_evaluation_run fresh r = Ok tt.
Proof.
  unfold evaluate in He. err_cases He. injection He as <-.
  match goal with Hx : summarize_usage_and_cost _ = Ok ?u, Hy : evaluation_run_fingerprint _ = Ok ?h |- _ =>
    rename Hx into Hu, Hy into Hh, u into usage, h into fp end.
  set (run := unsealed_run run_id input usage) in *.
  destruct (run_fingerprint_total (unsealed_run fresh (input_of_run run) usage) Hjcs) as [h2 Hh2].
  assert (evaluate fresh (input_of_run (with_run_fingerprint run fp))
          = Ok (with_run_fingerprint (unsealed_run fresh (input_of_run run) usage) h2)) as Hagain.
  { unfold evaluate. change (input_of_run (with_run_fingerprint run fp)) with (input_of_run run).
    unfold run at 1. rewrite validate_input_radar by done.
    change (ei_case_results (input_of_run run)) with (ei_case_results input). by rewrite Hu, Hh2. }
  apply verify_evaluation_run_intro with (h := fp) (expected := with_run_fingerprint
    (unsealed_run fresh (input_of_run run) usage) h2); try done.
  symmetry. exact (sort_dedup_idemp (ei_radar_item_refs input)).
Qed.

(** ** The catalog *)

Lemma seal_catalog_item_ok i j :
  seal_catalog_item i = Ok j →
  j = with_catalog i (ct_lifecycle i) (ct_item_fingerprint j) ∧ missing_evidence i = false ∧
  seal_catalog_item j = Ok j.
Proof.
  intros Hs. pose proof Hs as Hs'. unfold seal_catalog_item in Hs. err_cases Hs. injection Hs as <-.
  bool_to_prop. split_and!; [done|done|].
  unfold seal_catalog_item in Hs' |- *.
  change (catalog_item_fingerprint (with_catalog i (ct_lifecycle i) a)) with (catalog_item_fingerprint i).
  cbn [ct_schema_id ct_schema_version ct_item_id ct_item_version ct_owner ct_corpus_ref with_catalog
       ct_lifecycle].
  change (missing_evidence (with_catalog i (ct_lifecycle i) a)) with (missing_evidence i).
  destruct (_ || _ || _ || _ || _ || _ || _); [done|].
  destruct (catalog_item_fingerprint i); [|done]. by injection Hs' as ->.
Qed.

#[export] Instance EvaluationCatalogItem_sealing : Sealing EvaluationCatalogItem ReleaseError :=
  {| seal := seal_catalog_item; seal_idem := λ i j Hs, proj2 (proj2 (seal_catalog_item_ok i j Hs)) |}.

(** A history of accepted transitions, with the places they lead to. *)
Inductive catalog_history : EvaluationCatalogItem → list EvaluationCatalogLifecycle →
    EvaluationCatalogItem → Prop :=
| history_start i : catalog_history i [] i
| history_step i next trial j places k :
    transition_catalog_item i next trial = Ok j → catalog_history j places k →
    catalog_history i (next :: places) k.

(** The only way onward from a place: a trial candidate is rejected, any other
    entry deprecated and then retired. *)
Definition catalog_next (trial : bool) (place : EvaluationCatalogLifecycle) :
    option EvaluationCatalogLifecycle :=
  match trial, place with
  | true, CatalogActive => Some CatalogRejected
  | false, CatalogActive => Some CatalogDeprecated
  | false, CatalogDeprecated => Some CatalogRetired
  | _, _ => None
  end.

Fixpoint follows (trial : bool) (place : EvaluationCatalogLifecycle)
    (places : list EvaluationCatalogLifecycle) : Prop :=
  match places with
  | [] => True
  | next :: places => catalog_next trial place = Some next ∧ follows trial next places
  end.

Lemma follows_short trial place places : follows trial place places → length places ≤ 2.
Proof.
  destruct places as [|p [|q [|u places]]]; simpl; [lia..|].
  intros (Hp & Hq & Hu & _). by destruct trial, place; simplify_eq/=.
Qed.

Lemma transition_facts i next trial j :
  transition_catalog_item i next trial = Ok j →
  transition_valid i next trial = true ∧ sealed j ∧ missing_evidence j = false ∧
  j = with_catalog i next (ct_item_fingerprint j).
Proof.
  unfold transition_catalog_item. intros Ht. next_check Ht.
  destruct (seal_catalog_item_ok _ _ Ht) as (Hj & Hm & Hs). bool_to_prop.
  split_and!; [done|exact Hs|by rewrite Hj|]. rewrite Hj at 1. reflexivity.
Qed.

Lemma transition_next i next trial j :
  transition_catalog_item i next trial = Ok j →
  catalog_next (ct_trial_candidate i) (ct_lifecycle i) = Some next ∧ trial = ct_trial_candidate i.
Proof.
  intros (Hv & _)%transition_facts. unfold transition_valid in Hv.
  destruct (ct_lifecycle i), next; try done; by destruct (ct_trial_candidate i), trial.
Qed.

(** C27: Whatever transitions are accepted, an entry of the catalog goes one way: a
    trial candidate can only be rejected, any other entry is deprecated and then
    retired.  So at most two transitions are ever accepted, and none from a rejected
    or retired entry.  Only the place and the fingerprint change; every entry
    reached is sealed and carries the references its place demands. *)
Theorem catalog_goes_one_way i places j (Hh : catalog_history i places j) :
  follows (ct_trial_candidate i) (ct_lifecycle i) places ∧ length places ≤ 2 ∧
  ct_lifecycle j = default (ct_lifecycle i) (last places) ∧
  j = with_catalog i (ct_lifecycle j) (ct_item_fingerprint j) ∧
  (places ≠ [] → sealed j ∧ missing_evidence j = false).
Proof.
  enough (follows (ct_trial_candidate i) (ct_lifecycle i) places ∧
    ct_lifecycle j = default (ct_lifecycle i) (last places) ∧
    j = with_catalog i (ct_lifecycle j) (ct_item_fingerprint j) ∧
    (places ≠ [] → sealed j ∧ missing_evidence j = false)) as (Hf & Hrest).
  { split_and!; [done|by eapply follows_short|apply Hrest..]. }
  induction Hh as [i|i next trial j places k Ht Hh (Hf & Hl & Hk & Hs)].
  { split_and!; [done|done|by destruct i|done]. }
  destruct (transition_facts _ _ _ _ Ht) as (_ & Hsj & Hmj & Hj).
  destruct (transition_next _ _ _ _ Ht) as [Hn _].
  assert (ct_trial_candidate j = ct_trial_candidate i ∧ ct_lifecycle j = next) as [Htr Hjn]
    by (by rewrite Hj).
  rewrite Htr, Hjn in Hf. split_and!; [done| | |].
  - rewrite Hl, Hjn. destruct places as [|p places]; [done|].
    change (last (next :: p :: places)) with (last (p :: places)).
    by destruct (last_is_Some (p :: places)) as [_ [? ->]].
  - rewrite Hk, Hj. reflexivity.
  - intros _. destruct places as [|p places]; [by inversion Hh; subst|by apply Hs].
Qed.

(** The entry a verified evaluation of the code health profile earns: an
    accepted candidate gets none, a rejected or kept one an entry that is already
    rejected and buried under its run, the others an active trial entry; and no
    transition of that entry is ever accepted, so only another evaluation can
    replace it. *)
Theorem code_health_entry_is_final fresh r i
    (Hi : code_health_profile_catalog_item fresh r = Ok i) :
  verify_evaluation_run fresh r = Ok tt ∧ sealed i ∧ er_recommendation r ≠ Accept ∧
  ct_last_evaluation_run_ref i = Some (er_evaluation_run_id r) ∧
  (ct_lifecycle i = CatalogRejected ∧ (er_recommendation r = Keep ∨ er_recommendation r = Reject)
   ∨ ct_lifecycle i = CatalogActive ∧ ct_trial_candidate i = true ∧
     (er_recommendation r = Trial ∨ er_recommendation r = NeedsReview)) ∧
  ∀ next trial, transition_catalog_item i next trial = Err ReleaseBlocked.
Proof.
  unfold code_health_profile_catalog_item in Hi.
  destruct (verify_evaluation_run fresh r) as [[]|] eqn:Hv; [|done]. next_check Hi.
  destruct (code_health_place r) as [[l t]|] eqn:Hp; [|done].
  destruct (seal_catalog_item_ok _ _ Hi) as (Heq & _ & Hs).
  unfold code_health_place in Hp. rewrite Heq.
  destruct (er_recommendation r); simplify_eq/=; (split_and!; [done|by rewrite <-Heq|done|done| |]);
    try tauto; unfold transition_catalog_item, transition_valid; simpl; by intros [] [].
Qed.

End recommendation.

(** ** Concrete runs *)

Definition demo_subject (version : string) : EvaluationDefinition :=
  {| edf_subject := {| es_kind := ProfileSubject; es_item_id := CODE_HEALTH_MAINTENANCE_PROFILE_ID;
                       es_version := version; es_definition_fingerprint := "sha256:d" |};
     edf_resolved_closure_fingerprint := "sha256:c";
     edf_policy_fingerprint := "sha256:p" |}.

Definition demo_cost (id : string) : CostRecordRefV1 :=
  {| crr_cost_record_id := id; crr_revision := 1; crr_content_fingerprint := "sha256:f" |}.

(** A defect that both sides find; the candidate takes [ms] milliseconds. *)
Definition demo_case (ms : N) : EvaluationCaseResult :=
  {| ec_case_id := "case-1"; ec_case_version := "1"; ec_corpus_ref := "corpus";
     ec_evaluation_context := CliOnly;
     ec_case_definition_ref :=
       {| ecr_case_id := "case-1"; ecr_case_version := "1"; ecr_content_fingerprint := "sha256:k" |};
     ec_task_source_binding := "sha256:t";
     ec_baseline_run_refs := ["val_1"]; ec_candidate_run_refs := ["val_2"];
     ec_adjudication := ConfirmedDefect; ec_adjudication_evidence_refs := ["evidence"];
     ec_baseline_detected := true; ec_candidate_detected := true;
     ec_baseline_duration_ms := 100; ec_candidate_duration_ms := ms;
     ec_baseline_rework_count := 1; ec_candidate_rework_count := 1;
     ec_baseline_outcome := OutcomeSuccess; ec_candidate_outcome := OutcomeSuccess;
     ec_candidate_flaky := false;
     ec_baseline_finding_count := 1; ec_candidate_finding_count := 1;
     ec_baseline_new_or_worsened_count := 0; ec_candidate_new_or_worsened_count := 0;
     ec_baseline_existing_debt_count := 0; ec_candidate_existing_debt_count := 0;
     ec_baseline_suppressions := no_suppressions; ec_candidate_suppressions := no_suppressions;
     ec_suppression_newly_added_count := 0; ec_suppression_broadened_count := 0;
     ec_suppression_removed_count := 0;
     ec_baseline_cost_refs := [demo_cost "cost-1"]; ec_candidate_cost_refs := [demo_cost "cost-2"];
     ec_baseline_usage_and_cost := [{| eq_unit := "tokens"; eq_quantity := 10 |}];
     ec_candidate_usage_and_cost := [{| eq_unit := "tokens"; eq_quantity := 12 |}];
     ec_limitations := [] |}.

Definition demo_input (ms : N) : EvaluationInput :=
  {| ei_evaluation_policy_ref := {| epr_policy_id := "policy"; epr_policy_version := "1";
       epr_revision := 1; epr_content_fingerprint := "sha256:p" |};
     ei_evaluation_context := CliOnly;
     ei_baseline := demo_subject "0.9.0";
     ei_candidate := demo_subject CODE_HEALTH_MAINTENANCE_PROFILE_VERSION;
     ei_mode := Shadow; ei_corpus_ref := "corpus";
     ei_case_selection_fingerprint := "sha256:s"; ei_measurement_protocol_fingerprint := "sha256:m";
     ei_case_results := [demo_case ms];
     ei_comparability := map (λ d, {| cpb_dimension := d; cpb_state := CompatibleState;
       cpb_evidence_ref := "evidence" |}) required_dimensions;
     ei_protected_metric_results := map (λ m, {| pm_metric_id := m; pm_weakened := false;
       pm_evidence_ref := "evidence" |}) required_metrics;
     ei_minimum_sample_count := 1;
     ei_radar_item_refs := ["radar-2"; "radar-1"] |}.

(** The run of an input that evaluates. *)
Definition run_of (input : EvaluationInput) : EvaluationRunV2 :=
  match evaluate "evr_1" input with
  | Ok r => r
  | Err _ => unsealed_run "evr_1" input []
  end.

Example demo_recommendations :
  map (λ ms, er_recommendation (run_of (demo_input ms))) [99; 100; 101]%N = [Accept; Keep; Trial].
Proof. vm_compute. reflexivity. Qed.

Lemma demo_evaluates : evaluate "evr_1" (demo_input 99) = Ok (run_of (demo_input 99)).
Proof. vm_compute. reflexivity. Qed.

Lemma demo_verifies ms :
  ms ∈ [99; 101]%N → verify_evaluation_run "evr_2" (run_of (demo_input ms)) = Ok tt.
Proof.
  rewrite !elem_of_cons, elem_of_nil. intros [->|[->|[]]]; vm_compute; reflexivity.
Qed.

Lemma demo_within : within_widths (er_case_results (run_of (demo_input 99))).
Proof. split; [|intros []; split_and!]; vm_compute; discriminate. Qed.

Lemma evaluated_run_verifies_witness :
  evaluate "evr_1" (demo_input 99) = Ok (run_of (demo_input 99)) ∧
  verify_evaluation_run "evr_2" (run_of (demo_input 99)) = Ok tt.
Proof.
  split; [exact demo_evaluates|].
  exact (evaluated_run_verifies "evr_2" "evr_1" (demo_input 99) _ (λ j, eq_refl) demo_evaluates).
Defined.

(** The candidate that is one millisecond faster is accepted, and earns it. *)
Lemma verified_recommendation_exact_witness :
  er_recommendation (run_of (demo_input 99)) = Accept ∧
  better (er_case_results (run_of (demo_input 99))).
Proof.
  assert (er_recommendation (run_of (demo_input 99)) = Accept) as Ha by (vm_compute; reflexivity).
  split; [exact Ha|].
  destruct (verified_recommendation_exact "evr_2" (run_of (demo_input 99))
    (demo_verifies 99 ltac:(left)) demo_within) as (_ & _ & Hacc & _).
  exact (proj2 (proj2 (proj2 (proj2 (proj1 Hacc Ha))))).
Defined.

Definition demo_item (lifecycle : EvaluationCatalogLifecycle) (h : Sha256Hash) :
    EvaluationCatalogItem :=
  {| ct_schema_id := EVALUATION_CATALOG_ITEM_SCHEMA_ID; ct_schema_version := 1;
     ct_item_id := "rule-1"; ct_item_version := "1"; ct_definition_fingerprint := "sha256:d";
     ct_trial_candidate := false; ct_lifecycle := lifecycle; ct_owner := "owner";
     ct_corpus_ref := "corpus"; ct_replacement_ref := Some "rule-2";
     ct_migration_guide_ref := Some "guide"; ct_compatibility_deadline := Some "2027-01-01";
     ct_last_evaluation_run_ref := Some "evr_1"; ct_tombstone_ref := Some "tombstone";
     ct_item_fingerprint := h |}.

Definition item_at (lifecycle : EvaluationCatalogLifecycle) : EvaluationCatalogItem :=
  match catalog_item_fingerprint (demo_item lifecycle "") with
  | Ok h => demo_item lifecycle h
  | Err _ => demo_item lifecycle ""
  end.

Lemma catalog_goes_one_way_witness :
  catalog_history (item_at CatalogActive) [CatalogDeprecated; CatalogRetired] (item_at CatalogRetired)
  ∧ sealed (item_at CatalogRetired).
Proof.
  assert (catalog_history (item_at CatalogActive) [CatalogDeprecated; CatalogRetired]
            (item_at CatalogRetired)) as Hh.
  { apply history_step with (trial := false) (j := item_at CatalogDeprecated);
      [vm_compute; reflexivity|].
    apply history_step with (trial := false) (j := item_at CatalogRetired);
      [vm_compute; reflexivity|apply history_start]. }
  split; [exact Hh|].
  destruct (catalog_goes_one_way _ _ _ Hh) as (_ & _ & _ & _ & Hs).
  exact (proj1 (Hs ltac:(discriminate))).
Defined.

Lemma code_health_entry_is_final_witness :
  ∃ i, code_health_profile_catalog_item "evr_2" (run_of (demo_input 101)) = Ok i ∧
       transition_catalog_item i CatalogRejected true = Err ReleaseBlocked.
Proof.
  assert (is_ok (code_health_profile_catalog_item "evr_2" (run_of (demo_input 101))) = true) as Hok
    by (vm_compute; reflexivity).
  destruct (code_health_profile_catalog_item "evr_2" (run_of (demo_input 101))) as [i|] eqn:Hi;
    [|discriminate Hok].
  exists i. split; [reflexivity|].
  exact (proj2 (proj2 (proj2 (proj2 (proj2
    (code_health_entry_is_final "evr_2" (run_of (demo_input 101)) i Hi))))) CatalogRejected true).
Defined.
