(* ===== verification/BudgetFacts.v ===== *)
(** * What a budget snapshot says

    Sealed documents of an evaluation seal to themselves; a snapshot states the
    exact sums of its cost records, what is left of each limit and the decision
    these earn; and which snapshots verify. *)
From S2P Require Import Prelude Canonical Contracts ReleaseLifecycle Evaluation EvaluationDocuments Toy.

(** ** Sealed documents *)

(** Sealing puts a document in its normal form, checks it, hashes it and writes
    the hash into a field that neither the form, the check nor the hash looks at. *)
Section seal_pattern.
Context {A E : Type} (normal : A → A) (bad : A → bool) (fp : A → result Sha256Hash E)
  (put : A → Sha256Hash → A) (e : E).
Hypothesis bad_put : ∀ a h, bad (put a h) = bad a.
Hypothesis fp_put : ∀ a h, fp (put a h) = fp a.
Hypothesis put_put : ∀ a h h', put (put a h) h' = put a h'.
Hypothesis normal_put : ∀ a h, normal (put (normal a) h) = put (normal a) h.

Definition seal_with (a : A) : result A E :=
  let n := normal a in
  check bad n else e in
  let? h := fp n in Ok (put n h).

Lemma seal_with_idem a b : seal_with a = Ok b → seal_with b = Ok b.
Proof.
  unfold seal_with. cbv zeta. intros Hs. destruct (bad (normal a)) eqn:Hb; [done|].
  destruct (fp (normal a)) as [h|] eqn:Hh; [|done]. injection Hs as <-.
  by rewrite normal_put, bad_put, Hb, fp_put, Hh, put_put.
Qed.
End seal_pattern.

Section seals.
Context `{Platform}.

Lemma seal_case_definition_idem d d' :
  seal_evaluation_case_definition d = Ok d' → seal_evaluation_case_definition d' = Ok d'.
Proof.
  apply (seal_with_idem
    (λ d, with_case_fields d (sort_dedup (cd_ground_truth_evidence_refs d)) (cd_content_fingerprint d))
    bad_case_definition
    (λ d, map_err (λ _, ReleaseFingerprint) (versioned_fingerprint
       EVALUATION_CASE_DEFINITION_V1_SCHEMA_ID 1 (case_definition_payload d)))
    (λ d h, with_case_fields d (cd_ground_truth_evidence_refs d) h) ReleaseInvalid);
    try reflexivity.
  intros q h. unfold with_case_fields. cbn [cd_ground_truth_evidence_refs]. by rewrite sort_dedup_idemp.
Qed.

Lemma seal_policy_idem p p' :
  seal_evaluation_policy p = Ok p' → seal_evaluation_policy p' = Ok p'.
Proof.
  apply (seal_with_idem
    (λ p, with_policy_fields p (sort_by cmp_leb (ep_case_refs p))
       (sort_dedup (ep_comparability_dimensions p)) (sort_dedup (ep_protected_metric_ids p))
       (ep_content_fingerprint p))
    bad_policy
    (λ p, map_err (λ _, ReleaseFingerprint)
       (versioned_fingerprint EVALUATION_POLICY_V1_SCHEMA_ID 1 (evaluation_policy_payload p)))
    (λ p h, with_policy_fields p (ep_case_refs p) (ep_comparability_dimensions p)
       (ep_protected_metric_ids p) h) ReleaseInvalid); try reflexivity.
  intros q h. unfold with_policy_fields. cbn [ep_case_refs ep_comparability_dimensions
    ep_protected_metric_ids]. by rewrite sort_by_cmp_idemp, !sort_dedup_idemp.
Qed.

Lemma seal_cost_record_idem r r' : seal_cost_record r = Ok r' → seal_cost_record r' = Ok r'.
Proof.
  apply (seal_with_idem
    (λ r, with_cost_fields r (sort_dedup (co_validation_run_refs r)) (sort_by_key cu_unit (co_usage r))
       (sort_dedup (co_measurement_unavailable r)) (sort_dedup (co_provider_evidence_refs r))
       (co_content_fingerprint r))
    bad_cost_record
    (λ r, map_err (λ _, ReleaseFingerprint)
       (versioned_fingerprint COST_RECORD_V1_SCHEMA_ID 1 (cost_record_payload r)))
    (λ r h, with_cost_fields r (co_validation_run_refs r) (co_usage r)
       (co_measurement_unavailable r) (co_provider_evidence_refs r) h) ReleaseInvalid);
    try reflexivity.
  intros q h. unfold with_cost_fields. cbn [co_validation_run_refs co_usage
    co_measurement_unavailable co_provider_evidence_refs]. by rewrite sort_by_key_idem, !sort_dedup_idemp.
Qed.

#[export] Instance EvaluationCaseDefinitionV1_sealing :
  Sealing EvaluationCaseDefinitionV1 ReleaseError :=
  {| seal := seal_evaluation_case_definition; seal_idem := seal_case_definition_idem |}.
#[export] Instance EvaluationPolicyV1_sealing : Sealing EvaluationPolicyV1 ReleaseError :=
  {| seal := seal_evaluation_policy; seal_idem := seal_policy_idem |}.
#[export] Instance CostRecordV1_sealing : Sealing CostRecordV1 ReleaseError :=
  {| seal := seal_cost_record; seal_idem := seal_cost_record_idem |}.

(** A record that verifies is one that seals to itself. *)
Lemma verify_cost_record_sealed r : verify_cost_record r = Ok tt ↔ seal_cost_record r = Ok r.
Proof.
  unfold verify_cost_record. destruct (seal_cost_record r) as [r'|]; [|naive_solver].
  case_bool_decide as Heq; simpl; [|naive_solver]. subst. by rewrite String.eqb_refl.
Qed.

(** What a verified record can be relied on for. *)
Lemma sealed_cost_record_facts r :
  seal_cost_record r = Ok r →
  NoDup (map cu_unit (co_usage r)) ∧ (∀ u, u ∈ co_usage r → (0 < cu_quantity u)%N) ∧
  (∀ c, co_monetary_cost r = Some c → (0 < mc_amount_microunits c)%N) ∧ co_estimated r = false ∧
  existsb bad_reason (co_measurement_unavailable r) = false.
Proof.
  intros Hs. assert (bad_cost_record r = false) as Hb.
  { unfold seal_cost_record in Hs. cbv zeta in Hs. next_check Hs. err_cases Hs.
    injection Hs as <-. done. }
  unfold bad_cost_record in Hb. rewrite !orb_false_iff in Hb.
  destruct Hb as [[[[[[[[[[[[[[[_ _] _] _] _] _] _] He] _] Hd] Hu] Hm] _] _] Hr] _].
  split_and!; [|intros u Hin|intros c Hc|done|done].
  - apply negb_false_iff in Hd. by apply distinct_count_spec.
  - rewrite existsb_false in Hu. specialize (Hu u Hin). bool_to_prop. lia.
  - rewrite Hc in Hm. simpl in Hm. unfold monetary_valid in Hm. bool_to_prop. done.
Qed.
End seals.

(** ** Sums of charges *)

(** What a record charges: its usage, then its money. *)
Definition charges (r : CostRecordV1) : list (string * N) :=
  map (λ u, (cu_unit u, cu_quantity u)) (co_usage r)
  ++ match co_monetary_cost r with
     | Some c => [(money_unit c, mc_amount_microunits c)]
     | None => []
     end.

Definition charged (unit : string) (l : list (string * N)) : N :=
  foldr (λ c s, ((if bool_decide (c.1 = unit) then c.2 else 0) + s)%N) 0%N l.

Lemma charged_app unit l l' : charged unit (l ++ l') = (charged unit l + charged unit l')%N.
Proof. unfold charged. induction l as [|c l IH]; simpl; [done|]. rewrite IH. lia. Qed.

Definition amount (t : quantities) (unit : string) : N := default 0%N (t !! unit).

Definition positive (t : quantities) : Prop := ∀ u q, t !! u = Some q → (0 < q)%N.

Lemma positive_amount t u q : positive t → t !! u = Some q ↔ q = amount t u ∧ (0 < q)%N.
Proof.
  unfold amount. intros Hp. destruct (t !! u) as [n|] eqn:Hu; simpl.
  - apply Hp in Hu. naive_solver.
  - split; [done|]. intros [-> ?]. lia.
Qed.

Lemma checked_add64_ok a b c e :
  ok_or (checked_add64 a b) e = @Ok _ ReleaseError c → c = (a + b)%N ∧ (a + b <= u64_max)%N.
Proof. unfold checked_add64. destruct (_ <=? _)%N eqn:Hle; [|done]. bool_to_prop. intros [= <-]. done. Qed.

Lemma add_quantity_ok t unit q t' :
  add_quantity t unit q = Ok t' →
  (0 < q)%N → positive t → (∀ u, (amount t u <= u64_max)%N) →
  positive t' ∧ (∀ u, (amount t' u <= u64_max)%N) ∧
  ∀ u, amount t' u = (amount t u + charged u [(unit, q)])%N.
Proof.
  unfold add_quantity. intros Ha Hq Hp Hm. err_cases Ha. injection Ha as <-.
  match goal with Hx : ok_or _ _ = Ok _ |- _ => apply checked_add64_ok in Hx as [-> Hle] end.
  fold (amount t unit) in *.
  assert (∀ u, amount (<[unit := (amount t unit + q)%N]> t) u
               = (amount t u + charged u [(unit, q)])%N) as Heq.
  { intros u. unfold amount, charged. simpl. destruct (decide (unit = u)) as [->|Hne].
    - rewrite lookup_insert_eq, bool_decide_true by done. simpl. lia.
    - rewrite lookup_insert_ne, bool_decide_false by done. lia. }
  split_and!; [| |exact Heq].
  - intros u n. destruct (decide (unit = u)) as [->|Hne].
    + rewrite lookup_insert_eq. intros [= <-]. lia.
    + rewrite lookup_insert_ne by done. apply Hp.
  - intros u. destruct (decide (unit = u)) as [->|Hne].
    + unfold amount at 1. rewrite lookup_insert_eq. done.
    + unfold amount. rewrite lookup_insert_ne by done. apply Hm.
Qed.

(** What holds of totals after charges were added to nothing. *)
Definition totals_of (l : list (string * N)) (t : quantities) : Prop :=
  positive t ∧ (∀ u, (amount t u <= u64_max)%N) ∧ ∀ u, amount t u = charged u l.

Lemma totals_of_nil : totals_of [] ∅.
Proof. split_and!; [intros u q; by rewrite lookup_empty|unfold u64_max; done|done]. Qed.

Lemma totals_of_snoc l t unit q t' :
  totals_of l t → (0 < q)%N → add_quantity t unit q = Ok t' → totals_of (l ++ [(unit, q)]) t'.
Proof.
  intros (Hp & Hm & Heq) Hq Ha. destruct (add_quantity_ok _ _ _ _ Ha Hq Hp Hm) as (Hp' & Hm' & Heq').
  split_and!; [done|done|]. intros u. by rewrite Heq', Heq, charged_app.
Qed.

Lemma totals_of_usage (usage : list CostUsageV1) l t t' :
  totals_of l t → (∀ u, u ∈ usage → (0 < cu_quantity u)%N) →
  fold_result (λ t u, add_quantity t (cu_unit u) (cu_quantity u)) t usage = Ok t' →
  totals_of (l ++ map (λ u, (cu_unit u, cu_quantity u)) usage) t'.
Proof.
  revert l t. induction usage as [|u usage IH]; intros l t Ht Hq Hf; cbn [fold_result map] in Hf |- *.
  { injection Hf as <-. by rewrite app_nil_r. }
  destruct (add_quantity t (cu_unit u) (cu_quantity u)) as [t1|] eqn:Ha; [|done].
  rewrite cons_middle, app_assoc.
  apply (IH _ t1); [|intros v Hv; apply Hq; by right|done].
  eapply totals_of_snoc; [done|apply Hq; left|done].
Qed.

Section records.
Context `{Platform}.

Definition record_key (r : CostRecordV1) : string * N := (co_cost_record_id r, co_revision r).

(** One turn of the loop over the records. *)
Lemma add_cost_record_ok project s r s' l :
  add_cost_record project s r = Ok s' → totals_of l (bf_observed s) →
  seal_cost_record r = Ok r ∧ co_project_id r = project ∧
  (record_key r ∉ bf_seen s) ∧
  totals_of (l ++ charges r) (bf_observed s') ∧
  bf_refs s' = bf_refs s ++ [cost_record_ref r] ∧
  bf_seen s' = record_key r :: bf_seen s ∧
  bf_unknown s' = bf_unknown s ++ co_measurement_unavailable r.
Proof.
  unfold add_cost_record. intros Ha Ht. destruct (verify_cost_record r) as [[]|] eqn:Hv; [|done].
  next_check Ha. bool_to_prop.
  destruct (fold_result _ _ _) as [t1|] eqn:Hf; [|done].
  apply verify_cost_record_sealed in Hv.
  destruct (sealed_cost_record_facts r Hv) as (_ & Hu & Hm & _).
  pose proof (totals_of_usage _ _ _ _ Ht Hu Hf) as Ht1.
  match goal with Hx : mem _ _ = false |- _ => apply mem_false in Hx end.
  unfold charges. destruct (co_monetary_cost r) as [c|].
  - destruct (add_quantity t1 _ _) as [t2|] eqn:Hm2; [|done]. injection Ha as <-. simpl.
    split_and!; try done. rewrite app_assoc. eapply totals_of_snoc; [done|by apply Hm|done].
  - injection Ha as <-. simpl. rewrite app_nil_r. by split_and!.
Qed.

Lemma add_cost_records_ok project records s s' l :
  fold_result (add_cost_record project) s records = Ok s' → totals_of l (bf_observed s) →
  (∀ r, r ∈ records → seal_cost_record r = Ok r ∧ co_project_id r = project ∧
                      record_key r ∉ bf_seen s) ∧
  NoDup (map record_key records) ∧
  totals_of (l ++ flat_map charges records) (bf_observed s') ∧
  bf_refs s' = bf_refs s ++ map cost_record_ref records ∧
  bf_unknown s' = bf_unknown s ++ flat_map co_measurement_unavailable records.
Proof.
  revert s l. induction records as [|r records IH]; intros s l Hf Ht; cbn [fold_result map flat_map] in Hf |- *.
  { injection Hf as <-. rewrite !app_nil_r. split; [|split; [constructor|by split]].
    intros r Hr. by apply elem_of_nil in Hr. }
  destruct (add_cost_record project s r) as [s1|] eqn:Ha; [|done].
  destruct (add_cost_record_ok _ _ _ _ _ Ha Ht) as (Hs & Hp & Hn & Ht1 & Hr1 & Hn1 & Hu1).
  destruct (IH s1 _ Hf Ht1) as (Hall & Hnd & Ht2 & Hr2 & Hu2).
  rewrite Hr2, Hr1, Hu2, Hu1, <-!app_assoc. rewrite <-app_assoc in Ht2.
  split; [|split; [|by split]].
  - intros x [->|Hx]%elem_of_cons; [by split_and!|]. destruct (Hall x Hx) as (? & ? & Hx3). split_and!; try done.
    rewrite Hn1 in Hx3. set_solver.
  - apply NoDup_cons. split; [|done]. rewrite list_elem_of_fmap. intros (x & Heq & Hx).
    destruct (Hall x Hx) as (_ & _ & Hx3). rewrite Hn1, Heq in Hx3. apply Hx3. left.
Qed.

(** What is already unavailable is carried along and decides nothing. *)
Definition with_unknown (s : BudgetFold) (unknown : list string) : BudgetFold :=
  {| bf_observed := bf_observed s; bf_refs := bf_refs s; bf_seen := bf_seen s;
     bf_unknown := unknown |}.

Lemma add_cost_records_unknown project records s s' unknown :
  fold_result (add_cost_record project) s records = Ok s' →
  fold_result (add_cost_record project) (with_unknown s unknown) records
  = Ok (with_unknown s' (unknown ++ flat_map co_measurement_unavailable records)).
Proof.
  revert s unknown. induction records as [|r records IH]; intros s unknown Hf;
    cbn [fold_result flat_map] in Hf |- *.
  { injection Hf as <-. by rewrite app_nil_r. }
  destruct (add_cost_record project s r) as [s1|] eqn:Ha; [|done].
  assert (add_cost_record project (with_unknown s unknown) r
          = Ok (with_unknown s1 (unknown ++ co_measurement_unavailable r))) as ->.
  { unfold add_cost_record in Ha |- *. cbn [bf_seen bf_observed bf_refs bf_unknown with_unknown].
    destruct (verify_cost_record r); [|done]. destruct (_ || _); [done|].
    destruct (fold_result _ _ _); [|done].
    destruct (co_monetary_cost r); [destruct (add_quantity _ _ _); [|done]|];
      by injection Ha as <-. }
  rewrite (IH s1 _ Hf), <-app_assoc. done.
Qed.

(** ** Quantities *)

Definition pair_of (q : BudgetQuantityV1) : string * N := (bq_unit q, bq_quantity q).

Lemma pair_of_inj q q' : pair_of q = pair_of q' → q = q'.
Proof. destruct q, q'. by intros [= -> ->]. Qed.

Lemma charged_perm u l l' : l ≡ₚ l' → charged u l = charged u l'.
Proof. unfold charged. induction 1; simpl; lia. Qed.

Lemma charged_outside u l : u ∉ map fst l → charged u l = 0%N.
Proof.
  unfold charged. induction l as [|c l IH]; simpl; [done|]. rewrite not_elem_of_cons. intros [Hne Hn].
  rewrite bool_decide_false by congruence. by rewrite IH.
Qed.

Lemma charged_in u q l : NoDup (map fst l) → (u, q) ∈ l → charged u l = q.
Proof.
  induction l as [|[v n] l IH]; intros Hnd Hin; [by apply elem_of_nil in Hin|].
  apply NoDup_cons in Hnd as [Hn Hnd]. simpl in Hn.
  change (charged u ((v, n) :: l)) with ((if bool_decide (v = u) then n else 0) + charged u l)%N.
  apply elem_of_cons in Hin as [[= -> ->]|Hin].
  - rewrite bool_decide_true, charged_outside by done. lia.
  - rewrite bool_decide_false, (IH Hnd Hin); [lia|]. intros ->. apply Hn, list_elem_of_fmap. by exists (u, q).
Qed.

Lemma quantity_map_fold l m u :
  NoDup (map bq_unit l) →
  foldl (λ m q, <[bq_unit q := bq_quantity q]> m) m l !! u
  = if decide (u ∈ map bq_unit l) then Some (charged u (map pair_of l)) else (m : quantities) !! u.
Proof.
  revert m. induction l as [|q l IH]; intros m Hnd; [done|]. apply NoDup_cons in Hnd as [Hn Hnd].
  cbn [foldl]. rewrite IH by done. cbn [map].
  change (charged u (pair_of q :: map pair_of l))
    with ((if bool_decide (bq_unit q = u) then bq_quantity q else 0) + charged u (map pair_of l))%N.
  destruct (decide (bq_unit q = u)) as [<-|Hne].
  - rewrite decide_False, decide_True by (done || left). rewrite bool_decide_true by done.
    rewrite charged_outside by (by rewrite map_map). rewrite lookup_insert_eq. f_equal. lia.
  - rewrite bool_decide_false by done. rewrite lookup_insert_ne by done.
    destruct (decide (u ∈ map bq_unit l)) as [Hu|Hu].
    + rewrite decide_True by (by right). done.
    + rewrite decide_False; [done|]. by intros [->|?]%elem_of_cons.
Qed.

Lemma quantity_map_amount l u :
  NoDup (map bq_unit l) → amount (quantity_map l) u = charged u (map pair_of l).
Proof.
  intros Hnd. unfold amount, quantity_map. rewrite quantity_map_fold by done.
  destruct (decide _) as [|Hn]; [done|]. rewrite charged_outside by (by rewrite map_map). done.
Qed.

Lemma quantity_map_lookup l u q :
  NoDup (map bq_unit l) →
  quantity_map l !! u = Some q ↔ {| bq_unit := u; bq_quantity := q |} ∈ l.
Proof.
  intros Hnd. unfold quantity_map. rewrite quantity_map_fold by done.
  assert (NoDup (map fst (map pair_of l))) as Hnd' by (by rewrite map_map).
  destruct (decide _) as [Hu|Hu].
  - apply list_elem_of_fmap in Hu as ([v n] & -> & Hin). simpl.
    assert ((v, n) ∈ map pair_of l) as Hin' by (apply list_elem_of_fmap; by exists {| bq_unit := v; bq_quantity := n |}).
    rewrite (charged_in _ _ _ Hnd' Hin'). split; [by intros [= ->]|]. intros Hq.
    f_equal. rewrite <-(charged_in _ _ _ Hnd' Hin'). apply charged_in; [done|].
    apply list_elem_of_fmap. by exists {| bq_unit := v; bq_quantity := q |}.
  - split; [by rewrite lookup_empty|]. intros Hq. destruct Hu. apply list_elem_of_fmap. by exists {| bq_unit := u; bq_quantity := q |}.
Qed.

Lemma elem_of_quantity_list t u q :
  {| bq_unit := u; bq_quantity := q |} ∈ quantity_list t ↔ t !! u = Some q.
Proof.
  unfold quantity_list. rewrite list_elem_of_fmap. split.
  - intros ([v n] & [= -> ->] & Hin). by rewrite elem_of_btree_entries in Hin.
  - intros Hu. exists (u, q). by rewrite elem_of_btree_entries.
Qed.

Lemma normalize_quantities_ok l zero l' :
  normalize_quantities l zero = Ok l' →
  l' ≡ₚ l ∧ NoDup (map bq_unit l') ∧ normalize_quantities l' zero = Ok l'.
Proof.
  unfold normalize_quantities. cbv zeta. intros Hn. next_check Hn. injection Hn as <-.
  split_and!; [apply sort_by_key_perm| |].
  - bool_to_prop. apply strict_NoDup.
    apply (sorted_distinct_strict (λ a b, String.eqb (bq_unit a) (bq_unit b)) bq_unit); [|done].
    intros a b. apply String.eqb_eq.
  - by rewrite sort_by_key_idem, Heqb.
Qed.

(** ** Snapshots *)

Lemma windows2_any_ext {A} (p q : A → A → bool) l :
  (∀ a b, p a b = q a b) → windows2_any p l = windows2_any q l.
Proof.
  intros Heq. induction l as [|x [|y l] IH]; [done..|].
  change (p x y || windows2_any p (y :: l) = q x y || windows2_any q (y :: l)). by rewrite Heq, IH.
Qed.

(** What normalization keeps and what it establishes. *)
Lemma normalize_budget_input_ok input n :
  normalize_budget_input input = Ok n →
  bi_limits n ≡ₚ bi_limits input ∧ NoDup (map bq_unit (bi_limits n)) ∧
  bi_reserved n ≡ₚ bi_reserved input ∧ NoDup (map bq_unit (bi_reserved n)) ∧
  bi_unknown_measurements n = sort_dedup (bi_unknown_measurements input) ∧
  bi_permission_approval_refs n = sort_dedup (bi_permission_approval_refs input) ∧
  bi_cost_record_refs n = sort_by cmp_leb (bi_cost_record_refs input) ∧
  bi_project_id n = bi_project_id input ∧ bi_paid_action_pending n = bi_paid_action_pending input ∧
  existsb bad_reason (bi_unknown_measurements n) = false.
Proof.
  unfold normalize_budget_input. cbv zeta. intros Hn. next_check Hn.
  destruct (normalize_quantities (bi_limits input) false) as [ls|] eqn:Hl; [|done].
  destruct (normalize_quantities (bi_reserved input) true) as [rs|] eqn:Hr; [|done].
  next_check Hn. next_check Hn. injection Hn as <-. simpl.
  destruct (normalize_quantities_ok _ _ _ Hl) as (? & ? & _).
  destruct (normalize_quantities_ok _ _ _ Hr) as (? & ? & _).
  bool_to_prop. by split_and!.
Qed.

Definition with_reasons (n : BudgetSnapshotInput) (unknown : list string) : BudgetSnapshotInput :=
  {| bi_snapshot_id := bi_snapshot_id n;
     bi_revision := bi_revision n;
     bi_project_id := bi_project_id n;
     bi_scope_ref := bi_scope_ref n;
     bi_cost_record_refs := bi_cost_record_refs n;
     bi_limits := bi_limits n;
     bi_reserved := bi_reserved n;
     bi_unknown_measurements := unknown;
     bi_permission_approval_refs := bi_permission_approval_refs n;
     bi_paid_action_pending := bi_paid_action_pending n;
     bi_evaluated_at := bi_evaluated_at n |}.

(** A normalized input with other sound reasons normalizes to itself. *)
Lemma normalize_budget_input_again input n unknown :
  normalize_budget_input input = Ok n → existsb bad_reason (sort_dedup unknown) = false →
  normalize_budget_input (with_reasons n unknown) = Ok (with_reasons n (sort_dedup unknown)).
Proof.
  unfold normalize_budget_input. cbv zeta. intros Hn Hb. next_check Hn.
  destruct (normalize_quantities (bi_limits input) false) as [ls|] eqn:Hl; [|done].
  destruct (normalize_quantities (bi_reserved input) true) as [rs|] eqn:Hr; [|done].
  next_check Hn. next_check Hn. injection Hn as <-.
  unfold with_reasons. cbn [bi_snapshot_id bi_revision bi_project_id bi_scope_ref bi_cost_record_refs
    bi_limits bi_reserved bi_unknown_measurements bi_permission_approval_refs bi_paid_action_pending
    bi_evaluated_at].
  destruct (normalize_quantities_ok _ _ _ Hl) as (Hpl & _ & ->).
  destruct (normalize_quantities_ok _ _ _ Hr) as (_ & _ & ->).
  rewrite sort_dedup_idemp, sort_by_cmp_idemp.
  assert (no_items ls = no_items (bi_limits input)) as ->.
  { apply Permutation_length in Hpl. by destruct ls, (bi_limits input). }
  repeat match goal with Hx : ?b = false |- context [if ?b then _ else _] => rewrite Hx end.
  match goal with Hx : existsb bad_reason _ || _ = false |- _ => apply orb_false_iff in Hx as [_ ->] end.
  by rewrite Hb.
Qed.

Lemma remaining_ok limits observed reserved rem :
  remaining_quantities limits observed reserved = Ok rem →
  (∀ u l, limits !! u = Some l → (amount observed u + amount reserved u <= u64_max)%N) ∧
  ∀ x, x ∈ rem ↔ ∃ u l, limits !! u = Some l ∧
    x = ({| bq_unit := u; bq_quantity := l - (amount observed u + amount reserved u) |},
         (l <? amount observed u + amount reserved u)%N).
Proof.
  unfold remaining_quantities. rewrite map_result_Forall2. intros Hf.
  assert (∀ e : string * N, ∀ x,
    (let? c := committed observed reserved e.1 in
     Ok ({| bq_unit := e.1; bq_quantity := e.2 - c |}, (e.2 <? c)%N)) = @Ok _ ReleaseError x →
    (amount observed e.1 + amount reserved e.1 <= u64_max)%N ∧
    x = ({| bq_unit := e.1; bq_quantity := e.2 - (amount observed e.1 + amount reserved e.1) |},
         (e.2 <? amount observed e.1 + amount reserved e.1)%N)) as Hx.
  { intros e x Heq. unfold committed in Heq. err_cases Heq. injection Heq as <-.
    match goal with Hc : ok_or _ _ = Ok _ |- _ => apply checked_add64_ok in Hc as [-> Hle] end. done. }
  split.
  - intros u l Hu. apply elem_of_btree_entries in Hu. apply list_elem_of_lookup in Hu as [i Hi].
    destruct (Forall2_lookup_l _ _ _ _ _ Hf Hi) as (x & _ & Heq). by apply Hx in Heq as [? _].
  - intros x. split.
    + intros [i Hi]%list_elem_of_lookup. destruct (Forall2_lookup_r _ _ _ _ _ Hf Hi) as ([u l] & Hu & Heq).
      apply Hx in Heq as [_ ->]. exists u, l. split; [|done].
      apply elem_of_btree_entries, list_elem_of_lookup. by exists i.
    + intros (u & l & Hu & ->). apply elem_of_btree_entries in Hu.
      apply list_elem_of_lookup in Hu as [i Hi].
      destruct (Forall2_lookup_l _ _ _ _ _ Hf Hi) as (x & Hi' & Heq).
      apply Hx in Heq as [_ ->]. apply list_elem_of_lookup. by exists i.
Qed.

(** The parts of a snapshot that was built. *)
Lemma build_budget_snapshot_ok input records cfg s :
  build_budget_snapshot input records cfg = Ok s →
  ∃ n f rem h,
    normalize_budget_input input = Ok n ∧
    fold_result (add_cost_record (bi_project_id n)) (budget_start (bi_unknown_measurements n)) records
    = Ok f ∧
    sort_by cmp_leb (bf_refs f) = bi_cost_record_refs n ∧
    remaining_quantities (quantity_map (bi_limits n)) (bf_observed f) (quantity_map (bi_reserved n))
    = Ok rem ∧
    budget_snapshot_fingerprint (unsealed_snapshot n f rem cfg) = Ok h ∧
    s = with_budget_fingerprint (unsealed_snapshot n f rem cfg) h.
Proof.
  unfold build_budget_snapshot. intros Hb.
  destruct (normalize_budget_input input) as [n|] eqn:Hn; [|done].
  destruct (fold_result _ _ _) as [f|] eqn:Hf; [|done]. next_check Hb. bool_to_prop.
  destruct (remaining_quantities _ _ _) as [rem|] eqn:Hr; [|done].
  destruct (budget_snapshot_fingerprint _) as [h|] eqn:Hh; [|done]. injection Hb as <-.
  by exists n, f, rem, h.
Qed.

(** What the records spend of a unit, and what is held of it. *)
Definition spent (records : list CostRecordV1) (u : string) : N :=
  charged u (flat_map charges records).
Definition held (input : BudgetSnapshotInput) (u : string) : N :=
  charged u (map pair_of (bi_reserved input)).
Definition limit_on (input : BudgetSnapshotInput) (u : string) (l : N) : Prop :=
  {| bq_unit := u; bq_quantity := l |} ∈ bi_limits input.

(** A unit that is spent or reserved and has no limit. *)
Definition unlimited (input : BudgetSnapshotInput) (records : list CostRecordV1) (u : string) : Prop :=
  ((0 < spent records u)%N ∨ u ∈ map bq_unit (bi_reserved input)) ∧ ∀ l, ¬ limit_on input u l.

Lemma observed_of n f project records :
  fold_result (add_cost_record project) (budget_start (bi_unknown_measurements n)) records = Ok f →
  positive (bf_observed f) ∧ (∀ u, (amount (bf_observed f) u <= u64_max)%N) ∧
  ∀ u, amount (bf_observed f) u = spent records u.
Proof.
  intros Hf. destruct (add_cost_records_ok _ _ _ _ [] Hf totals_of_nil) as (_ & _ & Ht & _). exact Ht.
Qed.

Lemma limit_lookup input n u l :
  normalize_budget_input input = Ok n →
  quantity_map (bi_limits n) !! u = Some l ↔ limit_on input u l.
Proof.
  intros (Hl & Hnd & _)%normalize_budget_input_ok. rewrite quantity_map_lookup by done.
  unfold limit_on. by rewrite Hl.
Qed.

Lemma held_amount input n u :
  normalize_budget_input input = Ok n → amount (quantity_map (bi_reserved n)) u = held input u.
Proof.
  intros (_ & _ & Hr & Hnd & _)%normalize_budget_input_ok. rewrite quantity_map_amount by done.
  unfold held. apply charged_perm. by rewrite Hr.
Qed.

Lemma elem_of_missing_limits limits observed reserved reason :
  reason ∈ missing_limits limits observed reserved ↔
  ∃ u, reason = "limit_missing:" +:+ u ∧ limits !! u = None ∧
       (is_Some (observed !! u) ∨ is_Some (reserved !! u)).
Proof.
  unfold missing_limits. rewrite list_elem_of_fmap. setoid_rewrite list_elem_of_In.
  setoid_rewrite filter_In. setoid_rewrite <-list_elem_of_In. setoid_rewrite elem_of_app.
  assert (∀ (m : quantities) u, u ∈ map fst (btree_entries m) ↔ is_Some (m !! u)) as Hkeys.
  { intros m u. rewrite list_elem_of_fmap. split.
    - intros ([v q] & -> & Hin). rewrite elem_of_btree_entries in Hin. by eexists.
    - intros [q Hq]. exists (u, q). by rewrite elem_of_btree_entries. }
  setoid_rewrite Hkeys. split.
  - intros (u & -> & Hin & Hn). exists u. destruct (limits !! u); naive_solver.
  - intros (u & -> & Hn & Hin). exists u. by rewrite Hn.
Qed.

Lemma missing_limits_spec input n f records reason :
  normalize_budget_input input = Ok n →
  fold_result (add_cost_record (bi_project_id n)) (budget_start (bi_unknown_measurements n)) records
  = Ok f →
  reason ∈ missing_limits (quantity_map (bi_limits n)) (bf_observed f) (quantity_map (bi_reserved n))
  ↔ ∃ u, reason = "limit_missing:" +:+ u ∧ unlimited input records u.
Proof.
  intros Hn Hf. rewrite elem_of_missing_limits. destruct (observed_of _ _ _ _ Hf) as (Hpos & _ & Hsp).
  destruct (normalize_budget_input_ok _ _ Hn) as (_ & _ & Hr & Hnd & _).
  assert (∀ u, quantity_map (bi_limits n) !! u = None ↔ ∀ l, ¬ limit_on input u l) as Hlim.
  { intros u. setoid_rewrite <-(limit_lookup input n u _ Hn).
    destruct (quantity_map (bi_limits n) !! u); naive_solver. }
  assert (∀ u, is_Some (bf_observed f !! u) ↔ (0 < spent records u)%N) as Hobs.
  { intros u. rewrite <-Hsp. split; [intros [q Hq]; by apply positive_amount in Hq as [-> ?]|].
    intros Hp. exists (amount (bf_observed f) u). by apply positive_amount. }
  assert (∀ u, is_Some (quantity_map (bi_reserved n) !! u) ↔ u ∈ map bq_unit (bi_reserved input)) as Hres.
  { intros u. rewrite <-(fmap_Permutation bq_unit _ _ Hr), list_elem_of_fmap. split.
    - intros [q Hq]. apply quantity_map_lookup in Hq; [|done].
      by exists {| bq_unit := u; bq_quantity := q |}.
    - intros ([v q] & -> & Hin). exists q. by apply quantity_map_lookup. }
  unfold unlimited. setoid_rewrite Hlim. setoid_rewrite Hobs. setoid_rewrite Hres. naive_solver.
Qed.

(** What is unknown in the end: what the input and the records report, and the
    units without a limit. *)
Lemma elem_of_unknown_of input n f records reason :
  normalize_budget_input input = Ok n →
  fold_result (add_cost_record (bi_project_id n)) (budget_start (bi_unknown_measurements n)) records
  = Ok f →
  reason ∈ unknown_of n f ↔
  reason ∈ bi_unknown_measurements input ∨
  (∃ r, r ∈ records ∧ reason ∈ co_measurement_unavailable r) ∨
  (∃ u, reason = "limit_missing:" +:+ u ∧ unlimited input records u).
Proof.
  intros Hn Hf. unfold unknown_of. rewrite elem_of_sort_dedup, elem_of_app, elem_of_sort_dedup.
  rewrite (missing_limits_spec _ _ _ _ _ Hn Hf).
  destruct (add_cost_records_ok _ _ _ _ [] Hf totals_of_nil) as (_ & _ & _ & _ & ->).
  destruct (normalize_budget_input_ok _ _ Hn) as (_ & _ & _ & _ & Hu & _).
  cbn [bf_unknown budget_start]. rewrite Hu, elem_of_app, elem_of_sort_dedup.
  rewrite (list_elem_of_In (flat_map _ _) reason), in_flat_map. setoid_rewrite <-list_elem_of_In. tauto.
Qed.

Lemma unknown_of_nil input n f records :
  normalize_budget_input input = Ok n →
  fold_result (add_cost_record (bi_project_id n)) (budget_start (bi_unknown_measurements n)) records
  = Ok f →
  no_items (unknown_of n f) = true ↔
  bi_unknown_measurements input = [] ∧ (∀ r, r ∈ records → co_measurement_unavailable r = []) ∧
  ∀ u, ¬ unlimited input records u.
Proof.
  intros Hn Hf. rewrite no_items_spec. setoid_rewrite nil_spec.
  setoid_rewrite (elem_of_unknown_of _ _ _ _ _ Hn Hf). naive_solver.
Qed.

Lemma budget_decision_exhausted ex un paid ap : budget_decision ex un paid ap = Exhausted ↔ ex = true.
Proof. unfold budget_decision. by destruct ex, (no_items un), paid, (no_items ap). Qed.

Lemma budget_decision_within ex un paid ap :
  budget_decision ex un paid ap = WithinBudget
  ↔ ex = false ∧ no_items un = true ∧ (paid = true → no_items ap = false).
Proof. unfold budget_decision. destruct ex, (no_items un), paid, (no_items ap); simpl; naive_solver. Qed.

(** C9: A budget snapshot states exactly what its cost records add up to, or is
    refused.  The records are those it names, each sealed, of the project and
    counted once; what it lists as observed are the positive sums of their usage and
    money, below 2^64; what remains of a limit is the limit less what is spent and
    reserved.  The budget is exhausted exactly when some limit is exceeded by that
    sum, and the work is within budget exactly when no limit is exceeded, no
    measurement is unknown, every unit spent or reserved has a limit, and a pending
    paid action has an approval. *)
Theorem budget_snapshot_exact input records cfg s
    (Hb : build_budget_snapshot input records cfg = Ok s) :
  (∀ r, r ∈ records → seal_cost_record r = Ok r ∧ co_project_id r = bi_project_id input) ∧
  NoDup (map record_key records) ∧
  map cost_record_ref records ≡ₚ bi_cost_record_refs input ∧
  (∀ u q, {| bq_unit := u; bq_quantity := q |} ∈ bg_observed s ↔ q = spent records u ∧ (0 < q)%N) ∧
  (∀ u q, {| bq_unit := u; bq_quantity := q |} ∈ bg_remaining s ↔
     ∃ l, limit_on input u l ∧ q = (l - (spent records u + held input u))%N) ∧
  (∀ u, (spent records u <= u64_max)%N) ∧
  (bg_decision s = Exhausted ↔
     ∃ u l, limit_on input u l ∧ (l < spent records u + held input u)%N) ∧
  (bg_decision s = WithinBudget ↔
     (∀ u l, limit_on input u l → (spent records u + held input u <= l)%N) ∧
     (bi_unknown_measurements input = [] ∧ (∀ r, r ∈ records → co_measurement_unavailable r = []) ∧
      ∀ u, ¬ unlimited input records u) ∧
     (bi_paid_action_pending input = true → bi_permission_approval_refs input ≠ [])).
Proof.
  destruct (build_budget_snapshot_ok _ _ _ _ Hb) as (n & f & rem & h & Hn & Hf & Hrefs & Hrem & _ & ->).
  destruct (normalize_budget_input_ok _ _ Hn) as (_ & _ & _ & _ & _ & Ha & Hc & Hp & Hpaid & _).
  destruct (add_cost_records_ok _ _ _ _ [] Hf totals_of_nil) as (Hall & Hnd & _ & Hr & _).
  destruct (observed_of _ _ _ _ Hf) as (Hpos & Hmax & Hsp).
  destruct (remaining_ok _ _ _ _ Hrem) as [_ Hin].
  assert (∀ u, amount (quantity_map (bi_reserved n)) u = held input u) as Hheld
    by (intros u; by apply held_amount).
  setoid_rewrite Hheld in Hin. setoid_rewrite Hsp in Hin.
  setoid_rewrite (λ u l, limit_lookup input n u l Hn) in Hin.
  assert (existsb snd rem = true ↔
    ∃ u l, limit_on input u l ∧ (l < spent records u + held input u)%N) as Hex.
  { rewrite existsb_true. setoid_rewrite Hin. split.
    - intros (x & (u & l & Hl & ->) & Hlt). exists u, l. simpl in Hlt. by bool_to_prop.
    - intros (u & l & Hl & Hlt). eexists. split; [exists u, l; by split|]. simpl. by apply N.ltb_lt. }
  split; [|split; [|split; [|split; [|split; [|split; [|split]]]]]].
  - intros r Hir. destruct (Hall r Hir) as (? & ? & _). split; [done|congruence].
  - done.
  - simpl in Hr. rewrite <-Hr, <-(sort_by_perm cmp_leb), Hrefs, Hc. apply sort_by_perm.
  - intros u q. cbn. rewrite elem_of_quantity_list, positive_amount, Hsp by done. done.
  - intros u q. cbn. rewrite list_elem_of_fmap. setoid_rewrite Hin. split.
    + intros ([? e] & Heq & u' & l & Hl & [= -> ->]). simplify_eq/=. by exists l.
    + intros (l & Hl & ->). eexists (_, _). split; [|exists u, l; split; [done|reflexivity]]. done.
  - intros u. rewrite <-Hsp. apply Hmax.
  - cbn [bg_decision with_budget_fingerprint unsealed_snapshot].
    by rewrite budget_decision_exhausted.
  - cbn [bg_decision with_budget_fingerprint unsealed_snapshot].
    rewrite budget_decision_within, (unknown_of_nil _ _ _ _ Hn Hf), <-not_true_iff_false, Hex, Hpaid.
    rewrite <-not_true_iff_false, no_items_spec, Ha, sort_dedup_nil. apply and_iff_compat_r.
    split.
    + intros Hno u l Hl. destruct (decide (l < spent records u + held input u)%N) as [Hlt|]; [|lia].
      destruct Hno. by exists u, l.
    + intros Hle (u & l & Hl & Hlt). specialize (Hle u l Hl). lia.
Qed.

(** ** Which snapshots verify *)

Definition limit_reason (reason : string) : bool := starts_with "limit_missing:" reason.

Lemma limit_reason_missing n f reason :
  reason ∈ missing_limits (quantity_map (bi_limits n)) (bf_observed f) (quantity_map (bi_reserved n)) →
  limit_reason reason = true.
Proof.
  intros (u & -> & _)%elem_of_missing_limits. unfold limit_reason, starts_with. apply is_some_spec.
  exists u. by apply strip_prefix_spec.
Qed.

(** The reasons a snapshot is built from again. *)
Definition kept_reasons (unknown : list string) : list string :=
  List.filter (λ reason, negb (limit_reason reason)) unknown.

Lemma elem_of_kept_reasons unknown reason :
  reason ∈ kept_reasons unknown ↔ reason ∈ unknown ∧ limit_reason reason = false.
Proof.
  unfold kept_reasons. rewrite list_elem_of_In, filter_In, <-list_elem_of_In, negb_true_iff. done.
Qed.

Section again.
Context (input n : BudgetSnapshotInput) (records : list CostRecordV1) (f : BudgetFold).
Hypothesis (Hn : normalize_budget_input input = Ok n).
Hypothesis (Hf : fold_result (add_cost_record (bi_project_id n))
  (budget_start (bi_unknown_measurements n)) records = Ok f).

Let kept := kept_reasons (unknown_of n f).
Let unavailable := flat_map co_measurement_unavailable records.
Let n' := with_reasons n (sort_dedup kept).
Let f' := with_unknown f (sort_dedup kept ++ unavailable).
Let missing := missing_limits (quantity_map (bi_limits n)) (bf_observed f) (quantity_map (bi_reserved n)).

Lemma unknown_parts reason :
  reason ∈ unknown_of n f ↔
  reason ∈ bi_unknown_measurements n ∨ reason ∈ unavailable ∨ reason ∈ missing.
Proof.
  unfold unknown_of. rewrite elem_of_sort_dedup, elem_of_app, elem_of_sort_dedup.
  destruct (add_cost_records_ok _ _ _ _ [] Hf totals_of_nil) as (_ & _ & _ & _ & ->).
  rewrite elem_of_app. cbn [bf_unknown budget_start]. unfold unavailable, missing. tauto.
Qed.

Lemma kept_reasons_sound : existsb bad_reason (sort_dedup kept) = false.
Proof.
  apply existsb_false. intros reason Hin. rewrite elem_of_sort_dedup in Hin.
  apply elem_of_kept_reasons in Hin as [Hin Hl].
  apply unknown_parts in Hin as [Hin|[Hin|Hin]].
  - destruct (normalize_budget_input_ok _ _ Hn) as (_ & _ & _ & _ & _ & _ & _ & _ & _ & Hb).
    rewrite existsb_false in Hb. by apply Hb.
  - unfold unavailable in Hin. apply list_elem_of_In, in_flat_map in Hin as (r & Hr & Hin).
    rewrite <-list_elem_of_In in Hr. rewrite <-list_elem_of_In in Hin.
    destruct (add_cost_records_ok _ _ _ _ [] Hf totals_of_nil) as (Hall & _).
    destruct (Hall r Hr) as (Hs & _).
    destruct (sealed_cost_record_facts r Hs) as (_ & _ & _ & _ & Hb). rewrite existsb_false in Hb. by apply Hb.
  - apply limit_reason_missing in Hin. congruence.
Qed.

Lemma unknown_again reason :
  reason ∈ unknown_of n' f' ↔ reason ∈ kept ∨ reason ∈ unavailable ∨ reason ∈ missing.
Proof.
  unfold unknown_of. rewrite elem_of_sort_dedup, elem_of_app, elem_of_sort_dedup.
  cbn [bf_unknown f' with_unknown]. rewrite elem_of_app, elem_of_sort_dedup. unfold missing. simpl. tauto.
Qed.

(** Building again from the kept reasons gives the snapshot with what is unknown
    then. *)
Lemma build_again cfg rem :
  sort_by cmp_leb (bf_refs f) = bi_cost_record_refs n →
  remaining_quantities (quantity_map (bi_limits n)) (bf_observed f) (quantity_map (bi_reserved n))
  = Ok rem →
  build_budget_snapshot (with_reasons n kept) records cfg
  = let? h := budget_snapshot_fingerprint (unsealed_snapshot n' f' rem cfg) in
    Ok (with_budget_fingerprint (unsealed_snapshot n' f' rem cfg) h).
Proof.
  intros Hrefs Hrem. unfold build_budget_snapshot.
  rewrite (normalize_budget_input_again input n kept Hn kept_reasons_sound).
  fold n'. cbn [bi_project_id bi_unknown_measurements n' with_reasons].
  pose proof (add_cost_records_unknown _ _ _ _ (sort_dedup kept) Hf) as Hf2.
  change (with_unknown (budget_start (bi_unknown_measurements n)) (sort_dedup kept))
    with (budget_start (sort_dedup kept)) in Hf2.
  rewrite Hf2. fold unavailable f'. cbn [bf_refs bf_observed f' with_unknown].
  cbn [bi_cost_record_refs bi_limits bi_reserved n' with_reasons].
  rewrite Hrefs, bool_decide_true, Hrem by done. reflexivity.
Qed.

(** Nothing is lost exactly when the limit reasons of the input are found again. *)
Lemma unknown_again_same :
  unknown_of n' f' = unknown_of n f ↔
  ∀ reason, reason ∈ bi_unknown_measurements n → limit_reason reason = true →
    reason ∈ unavailable ∨ reason ∈ missing.
Proof.
  split.
  - intros Heq reason Hin Hl.
    assert (reason ∈ unknown_of n' f') as Ha by (rewrite Heq, unknown_parts; by left).
    apply unknown_again in Ha as [Hk|Ha]; [|done]. apply elem_of_kept_reasons in Hk as [_ Hk]. congruence.
  - intros Hall.
    assert (∀ reason, reason ∈ unknown_of n' f' ↔ reason ∈ unknown_of n f) as Heq.
    { intros reason. rewrite unknown_again, unknown_parts. unfold kept. rewrite elem_of_kept_reasons.
      rewrite unknown_parts. split; [tauto|]. intros Hin.
      destruct (limit_reason reason) eqn:Hl; [|tauto]. destruct Hin as [Hin|Hin]; [|tauto].
      right. by apply Hall. }
    unfold unknown_of in Heq |- *. apply sort_dedup_eq. intros x. specialize (Heq x).
    by rewrite !elem_of_sort_dedup in Heq.
Qed.
End again.

Lemma verify_budget_snapshot_spec s records :
  verify_budget_snapshot s records = Ok tt ↔
  bg_schema_id s = BUDGET_SNAPSHOT_V1_SCHEMA_ID ∧ bg_schema_version s = 1%N ∧
  budget_snapshot_fingerprint s = Ok (bg_content_fingerprint s) ∧
  build_budget_snapshot (input_of_snapshot s) records (bg_config_fingerprint s) = Ok s.
Proof.
  unfold verify_budget_snapshot. split.
  - intros Hv. next_check Hv. destruct (budget_snapshot_fingerprint s) as [h|]; [|done].
    next_check Hv. destruct (build_budget_snapshot _ _ _) as [e|]; [|done]. next_check Hv.
    bool_to_prop. by split_and!; f_equal.
  - intros (-> & -> & -> & ->). by rewrite !String.eqb_refl, bool_decide_true.
Qed.

(** A snapshot depends on the reasons only through those it lists. *)
Lemma unsealed_snapshot_unknown n f rem cfg reasons unknown :
  unknown_of (with_reasons n reasons) (with_unknown f unknown) = unknown_of n f →
  unsealed_snapshot (with_reasons n reasons) (with_unknown f unknown) rem cfg
  = unsealed_snapshot n f rem cfg.
Proof. intros Heq. unfold unsealed_snapshot. rewrite Heq. reflexivity. Qed.

(** C28: A snapshot that was built verifies against the same records exactly when
    each reason of its input that starts like the generated ones is found again,
    that is when a record reports it or it names a unit without a limit; any other
    such reason is dropped by the verification, which then refuses the snapshot it
    would build. *)
Theorem built_snapshot_verifies_iff input records cfg s
    (Hb : build_budget_snapshot input records cfg = Ok s) :
  verify_budget_snapshot s records = Ok tt ↔
  ∀ reason, reason ∈ bi_unknown_measurements input → limit_reason reason = true →
    (∃ r, r ∈ records ∧ reason ∈ co_measurement_unavailable r) ∨
    (∃ u, reason = "limit_missing:" +:+ u ∧ unlimited input records u).
Proof.
  destruct (build_budget_snapshot_ok _ _ _ _ Hb) as (n & f & rem & h & Hn & Hf & Hrefs & Hrem & Hh & ->).
  pose proof (unknown_again_same n records f Hf) as Hsame.
  setoid_rewrite (missing_limits_spec _ _ _ _ _ Hn Hf) in Hsame.
  destruct (normalize_budget_input_ok _ _ Hn) as (_ & _ & _ & _ & Hu & _). rewrite Hu in Hsame.
  setoid_rewrite elem_of_sort_dedup in Hsame.
  assert (∀ reason, reason ∈ flat_map co_measurement_unavailable records
    ↔ ∃ r, r ∈ records ∧ reason ∈ co_measurement_unavailable r) as Hfm.
  { intros reason. rewrite (list_elem_of_In (flat_map _ _) reason), in_flat_map.
    by setoid_rewrite <-list_elem_of_In. }
  setoid_rewrite Hfm in Hsame. rewrite <-Hsame. clear Hsame Hfm Hu.
  rewrite verify_budget_snapshot_spec.
  change (budget_snapshot_fingerprint (with_budget_fingerprint (unsealed_snapshot n f rem cfg) h))
    with (budget_snapshot_fingerprint (unsealed_snapshot n f rem cfg)).
  assert (input_of_snapshot (with_budget_fingerprint (unsealed_snapshot n f rem cfg) h)
          = with_reasons n (kept_reasons (unknown_of n f))) as ->.
  { unfold input_of_snapshot, with_reasons. simpl. by rewrite Hrefs. }
  cbn [bg_schema_id bg_schema_version bg_content_fingerprint bg_config_fingerprint
       with_budget_fingerprint].
  change (bg_config_fingerprint (unsealed_snapshot n f rem cfg)) with cfg.
  rewrite (build_again input n records f Hn Hf cfg rem Hrefs Hrem). cbv zeta. split.
  - clear Hh. intros (_ & _ & _ & Heq). destruct (budget_snapshot_fingerprint _) as [h2|]; [|done].
    exact (f_equal (λ r, match r with Ok s => bg_unknown_measurements s | Err _ => [] end) Heq).
  - intros Heq. split_and!; [done..|]. rewrite (unsealed_snapshot_unknown n f rem cfg _ _ Heq), Hh. done.
Qed.

End records.

(** ** A concrete budget *)

Definition demo_record (h : Sha256Hash) : CostRecordV1 :=
  {| co_schema_id := COST_RECORD_V1_SCHEMA_ID; co_schema_version := 1;
     co_cost_record_id := "cost-1"; co_revision := 1; co_project_id := "prj_1";
     co_scope_kind := GoalScope; co_scope_ref := "goal"; co_validation_run_refs := [];
     co_source := "provider";
     co_usage := [{| cu_unit := "tokens"; cu_quantity := 40; cu_provider_evidence_ref := "bill" |}];
     co_monetary_cost := Some {| mc_amount_microunits := 7; mc_currency := "USD";
       mc_price_source_ref := "prices"; mc_provider_statement_ref := "statement" |};
     co_estimated := false; co_paid_action := true; co_measured_at := 5;
     co_measurement_unavailable := []; co_provider_evidence_refs := ["bill"];
     co_content_fingerprint := h |}.

Definition demo_records : list CostRecordV1 :=
  match seal_cost_record (demo_record "") with Ok r => [r] | Err _ => [] end.

Definition demo_budget (limits : list (string * N)) (unknown : list string) : BudgetSnapshotInput :=
  {| bi_snapshot_id := "snapshot"; bi_revision := 1; bi_project_id := "prj_1"; bi_scope_ref := "goal";
     bi_cost_record_refs := map cost_record_ref demo_records;
     bi_limits := map (λ l : string * N, {| bq_unit := l.1; bq_quantity := l.2 |}) limits;
     bi_reserved := [{| bq_unit := "tokens"; bq_quantity := 10 |}];
     bi_unknown_measurements := unknown; bi_permission_approval_refs := ["approval"];
     bi_paid_action_pending := true; bi_evaluated_at := 6 |}.

Definition tight : list (string * N) := [("tokens", 50%N); ("money_usd_microunits", 7%N)].

Abbreviation snapshot_of input := (build_budget_snapshot input demo_records "sha256:c").

Example demo_decisions :
  map (λ input, match snapshot_of input with Ok s => Some (bg_decision s) | Err _ => None end)
    [demo_budget tight []; demo_budget [("tokens", 49%N)] []; demo_budget [("tokens", 50%N)] []]
  = [Some WithinBudget; Some Exhausted; Some UnknownBudget].
Proof. vm_compute. reflexivity. Qed.

Lemma demo_budget_ok :
  match snapshot_of (demo_budget tight []) with
  | Ok s => bg_decision s = WithinBudget
  | Err _ => False
  end.
Proof. vm_compute. reflexivity. Qed.

(** The limits are used up to the last token and the last microunit. *)
Lemma budget_snapshot_exact_witness :
  ∃ s, snapshot_of (demo_budget tight []) = Ok s ∧ bg_decision s = WithinBudget ∧
       ∀ u l, limit_on (demo_budget tight []) u l →
         (spent demo_records u + held (demo_budget tight []) u <= l)%N.
Proof.
  pose proof demo_budget_ok as Hok.
  destruct (snapshot_of (demo_budget tight [])) as [s|] eqn:Hs; [|destruct Hok].
  exists s. split; [reflexivity|]. split; [exact Hok|].
  destruct (budget_snapshot_exact _ _ _ s Hs) as (_ & _ & _ & _ & _ & _ & _ & Hd).
  exact (proj1 (proj1 Hd Hok)).
Defined.

Lemma demo_reason_ok : is_ok (snapshot_of (demo_budget tight ["limit_missing:disk"])) = true.
Proof. vm_compute. reflexivity. Qed.

Lemma demo_reason_lost :
  ¬ ((∃ r, r ∈ demo_records ∧ "limit_missing:disk" ∈ co_measurement_unavailable r) ∨
     (∃ u, "limit_missing:disk" = "limit_missing:" +:+ u ∧
           unlimited (demo_budget tight ["limit_missing:disk"]) demo_records u)).
Proof.
  intros [(r & Hr & Hin)|(u & Heq & [Hs|Hr] & _)].
  - vm_compute in Hr. apply list_elem_of_singleton in Hr as ->. by apply elem_of_nil in Hin.
  - injection Heq as Heq. change ("disk" = u) in Heq. subst u. vm_compute in Hs. discriminate.
  - injection Heq as Heq. change ("disk" = u) in Heq. subst u. by apply list_elem_of_singleton in Hr.
Qed.

(** A snapshot that is built and then refused. *)
Lemma built_snapshot_verifies_iff_witness :
  ∃ s, snapshot_of (demo_budget tight ["limit_missing:disk"]) = Ok s ∧
       verify_budget_snapshot s demo_records ≠ Ok tt.
Proof.
  pose proof demo_reason_ok as Hok.
  destruct (snapshot_of (demo_budget tight ["limit_missing:disk"])) as [s|] eqn:Hs; [|discriminate Hok].
  exists s. split; [reflexivity|]. intros Hv.
  apply demo_reason_lost.
  exact (proj1 (built_snapshot_verifies_iff _ _ _ s Hs) Hv "limit_missing:disk" ltac:(left) eq_refl).
Defined.
