(* ===== verification/MigrationContracts.v ===== *)
(** * Migrations: documents

    The migration, language and equivalence contracts of
    [crates/foundation/star-contracts/src/migration_v2.rs] and [CoverageState] of
    [development_v2.rs].  The performance documents of the file are not here: they
    are made of floating-point measurements. *)
From S2P Require Import Prelude Canonical Contracts.

Definition PROJECT_MIGRATION_MANIFEST_SCHEMA_ID : string := "star.project-migration-manifest".
Definition MIGRATION_PLAN_V2_SCHEMA_ID : string := "star.migration-plan".
Definition MIGRATION_CHECKPOINT_V2_SCHEMA_ID : string := "star.migration-checkpoint".
Definition MIGRATION_ATTEMPT_SCHEMA_ID : string := "star.migration-attempt".
Definition MIGRATION_VALIDATION_REPORT_SCHEMA_ID : string := "star.migration-validation-report".
Definition RESTORE_VERIFICATION_RECORD_SCHEMA_ID : string := "star.restore-verification-record".
Definition LANGUAGE_MIGRATION_PLAN_SCHEMA_ID : string := "star.language-migration-plan".
Definition EQUIVALENCE_REPORT_SCHEMA_ID : string := "star.equivalence-report".
Definition CROSS_PROJECT_MIGRATION_HANDOFF_SCHEMA_ID : string :=
  "star.cross-project-migration-handoff".

Inductive CoverageState :=
| CoverageComplete | CoveragePartial | CoverageUnverified.

Definition CoverageState_index (x : CoverageState) : N :=
  match x with
  | CoverageComplete => 0 | CoveragePartial => 1 | CoverageUnverified => 2
  end.

#[global] Instance CoverageState_eq_dec : EqDecision CoverageState.
Proof. solve_decision. Defined.
#[global] Instance CoverageState_cmp : Cmp CoverageState := cmp_on CoverageState_index.
#[global] Instance CoverageState_cmp_laws : CmpLaws CoverageState.
Proof. apply cmp_on_laws. by intros [] []. Qed.
#[global] Instance CoverageState_to_json : ToJson CoverageState := λ x,
  JStr match x with
       | CoverageComplete => "complete" | CoveragePartial => "partial"
       | CoverageUnverified => "unverified"
       end.

Inductive MigrationTargetKind :=
| TargetData | TargetConfig | TargetDatabase | TargetState | TargetFileFormat.

#[global] Instance MigrationTargetKind_eq_dec : EqDecision MigrationTargetKind.
Proof. solve_decision. Defined.
#[global] Instance MigrationTargetKind_to_json : ToJson MigrationTargetKind := λ x,
  JStr match x with
       | TargetData => "data" | TargetConfig => "config" | TargetDatabase => "database"
       | TargetState => "state" | TargetFileFormat => "file_format"
       end.

Inductive MigrationEffectClass :=
| EffectReadOnly | EffectCopyWrite | EffectLiveNondestructive | EffectLiveDestructive.

#[global] Instance MigrationEffectClass_eq_dec : EqDecision MigrationEffectClass.
Proof. solve_decision. Defined.
#[global] Instance MigrationEffectClass_to_json : ToJson MigrationEffectClass := λ x,
  JStr match x with
       | EffectReadOnly => "read_only" | EffectCopyWrite => "copy_write"
       | EffectLiveNondestructive => "live_nondestructive"
       | EffectLiveDestructive => "live_destructive"
       end.

Inductive IdempotencyContract :=
| ReplaySafe | DetectAlreadyApplied | NotReplaySafe.

#[global] Instance IdempotencyContract_eq_dec : EqDecision IdempotencyContract.
Proof. solve_decision. Defined.
#[global] Instance IdempotencyContract_to_json : ToJson IdempotencyContract := λ x,
  JStr match x with
       | ReplaySafe => "replay_safe" | DetectAlreadyApplied => "detect_already_applied"
       | NotReplaySafe => "not_replay_safe"
       end.

Inductive UnknownFieldPolicy :=
| UnknownFieldPreserve | UnknownFieldOpaque | UnknownFieldBlock.

#[global] Instance UnknownFieldPolicy_eq_dec : EqDecision UnknownFieldPolicy.
Proof. solve_decision. Defined.
#[global] Instance UnknownFieldPolicy_to_json : ToJson UnknownFieldPolicy := λ x,
  JStr match x with
       | UnknownFieldPreserve => "preserve" | UnknownFieldOpaque => "opaque"
       | UnknownFieldBlock => "block"
       end.

Inductive VersionObservationState :=
| VersionObserved | VersionUnknown | VersionCorrupt.

#[global] Instance VersionObservationState_eq_dec : EqDecision VersionObservationState.
Proof. solve_decision. Defined.
#[global] Instance VersionObservationState_to_json : ToJson VersionObservationState := λ x,
  JStr match x with
       | VersionObserved => "observed" | VersionUnknown => "unknown"
       | VersionCorrupt => "corrupt"
       end.

Inductive MigrationSupportDecision :=
| CurrentSupported | Migratable | ReadOnlySupported | FutureVersion | ChainGap | AmbiguousChain
| UnknownVersion | CorruptVersion.

#[global] Instance MigrationSupportDecision_eq_dec : EqDecision MigrationSupportDecision.
Proof. solve_decision. Defined.
#[global] Instance MigrationSupportDecision_to_json : ToJson MigrationSupportDecision := λ x,
  JStr match x with
       | CurrentSupported => "current_supported" | Migratable => "migratable"
       | ReadOnlySupported => "read_only_supported" | FutureVersion => "future_version"
       | ChainGap => "chain_gap" | AmbiguousChain => "ambiguous_chain"
       | UnknownVersion => "unknown_version" | CorruptVersion => "corrupt"
       end.

Inductive MigrationStrategy :=
| SideBySide | AtomicReplace | TransactionalInPlace.

#[global] Instance MigrationStrategy_eq_dec : EqDecision MigrationStrategy.
Proof. solve_decision. Defined.
#[global] Instance MigrationStrategy_to_json : ToJson MigrationStrategy := λ x,
  JStr match x with
       | SideBySide => "side_by_side" | AtomicReplace => "atomic_replace"
       | TransactionalInPlace => "transactional_in_place"
       end.

Inductive MigrationPhase :=
| MigDryRun | MigBackup | MigBackupVerify | MigRestoreRehearsal | MigMigrationRehearsal
| MigPreExecuteGate | MigExecute | MigResume | MigValidate | MigActivate | MigConsumerValidate
| MigRollback | MigPostRollbackValidate | MigReconcile.

#[global] Instance MigrationPhase_eq_dec : EqDecision MigrationPhase.
Proof. solve_decision. Defined.
#[global] Instance MigrationPhase_to_json : ToJson MigrationPhase := λ x,
  JStr match x with
       | MigDryRun => "dry_run" | MigBackup => "backup" | MigBackupVerify => "backup_verify"
       | MigRestoreRehearsal => "restore_rehearsal"
       | MigMigrationRehearsal => "migration_rehearsal" | MigPreExecuteGate => "pre_execute_gate"
       | MigExecute => "execute" | MigResume => "resume" | MigValidate => "validate"
       | MigActivate => "activate" | MigConsumerValidate => "consumer_validate"
       | MigRollback => "rollback" | MigPostRollbackValidate => "post_rollback_validate"
       | MigReconcile => "reconcile"
       end.

Inductive MigrationAttemptState :=
| AttemptPlanned | AttemptRunning | AttemptSucceeded | AttemptFailed | AttemptBlocked
| AttemptOutcomeUnknown | AttemptPartiallyApplied | AttemptRolledBack.

#[global] Instance MigrationAttemptState_eq_dec : EqDecision MigrationAttemptState.
Proof. solve_decision. Defined.
#[global] Instance MigrationAttemptState_to_json : ToJson MigrationAttemptState := λ x,
  JStr match x with
       | AttemptPlanned => "planned" | AttemptRunning => "running"
       | AttemptSucceeded => "succeeded" | AttemptFailed => "failed"
       | AttemptBlocked => "blocked" | AttemptOutcomeUnknown => "outcome_unknown"
       | AttemptPartiallyApplied => "partially_applied" | AttemptRolledBack => "rolled_back"
       end.

Inductive EquivalenceDimensionState :=
| DimEquivalent | DimNotEquivalent | DimPartial | DimNotRun | DimUnverified | DimHumanReview
| DimNotRequired.

#[global] Instance EquivalenceDimensionState_eq_dec : EqDecision EquivalenceDimensionState.
Proof. solve_decision. Defined.
#[global] Instance EquivalenceDimensionState_to_json : ToJson EquivalenceDimensionState := λ x,
  JStr match x with
       | DimEquivalent => "equivalent" | DimNotEquivalent => "not_equivalent"
       | DimPartial => "partial" | DimNotRun => "not_run" | DimUnverified => "unverified"
       | DimHumanReview => "human_review" | DimNotRequired => "not_required"
       end.

Inductive EquivalenceState :=
| EqNotEvaluated | EqPartial | EqEquivalent | EqNotEquivalent | EqHumanReview | EqUnverified.

#[global] Instance EquivalenceState_eq_dec : EqDecision EquivalenceState.
Proof. solve_decision. Defined.
#[global] Instance EquivalenceState_to_json : ToJson EquivalenceState := λ x,
  JStr match x with
       | EqNotEvaluated => "not_evaluated" | EqPartial => "partial"
       | EqEquivalent => "equivalent" | EqNotEquivalent => "not_equivalent"
       | EqHumanReview => "human_review" | EqUnverified => "unverified"
       end.

Record MigrationTargetSpec := {
  mt_target_id : string;
  mt_target_kind : MigrationTargetKind;
  mt_owner : string;
  mt_locator_class : string;
  mt_sensitivity : string;
  mt_version_source_ref : string;
  mt_current_version : option string;
  mt_target_version : string
}.

#[global] Instance MigrationTargetSpec_eq_dec : EqDecision MigrationTargetSpec.
Proof. solve_decision. Defined.

Record MigrationInvariantSpec := {
  mi_invariant_id : string;
  mi_invariant_kind : string;
  mi_required : bool;
  mi_before_check_ref : string;
  mi_after_check_ref : string;
  mi_loss_budget : option string
}.

#[global] Instance MigrationInvariantSpec_eq_dec : EqDecision MigrationInvariantSpec.
Proof. solve_decision. Defined.

Record MigrationStepDefinition := {
  sd_step_id : string;
  sd_step_version : string;
  sd_from_version : string;
  sd_to_version : string;
  sd_preconditions : list string;
  sd_invocation_template_ref : string;
  sd_effect_class : MigrationEffectClass;
  sd_write_scope : list string;
  sd_idempotency_contract : IdempotencyContract;
  sd_checkpoint_policy : string;
  sd_unknown_field_policy : UnknownFieldPolicy;
  sd_invariant_refs : list string;
  sd_expected_output : string;
  sd_rollback_ref : string;
  sd_tool_ref : string;
  sd_normalizer_ref : string;
  sd_definition_fingerprint : Sha256Hash
}.

#[global] Instance MigrationStepDefinition_eq_dec : EqDecision MigrationStepDefinition.
Proof. solve_decision. Defined.

Record MigrationChain := {
  mc_chain_id : string;
  mc_target_id : string;
  mc_steps : list MigrationStepDefinition
}.

#[global] Instance MigrationChain_eq_dec : EqDecision MigrationChain.
Proof. solve_decision. Defined.

Record ProjectMigrationManifest := {
  pm_schema_id : string;
  pm_schema_version : N;
  pm_manifest_id : string;
  pm_manifest_version : string;
  pm_project_id : ProjectId;
  pm_target_specs : list MigrationTargetSpec;
  pm_migration_chains : list MigrationChain;
  pm_invariant_specs : list MigrationInvariantSpec;
  pm_backup_specs : list string;
  pm_rehearsal_specs : list string;
  pm_activation_specs : list string;
  pm_rollback_specs : list string;
  pm_consumer_refs : list string;
  pm_tool_refs : list string;
  pm_check_refs : list string;
  pm_cross_project_relations : list string;
  pm_content_fingerprint : Sha256Hash
}.

#[global] Instance ProjectMigrationManifest_eq_dec : EqDecision ProjectMigrationManifest.
Proof. solve_decision. Defined.

Record MigrationVersionEntry := {
  ve_axis_id : string;
  ve_owner : string;
  ve_observed_version : option string;
  ve_version_scheme : string;
  ve_source_ref : string;
  ve_source_fingerprint : Sha256Hash;
  ve_coverage : CoverageState;
  ve_observation_state : VersionObservationState
}.

#[global] Instance MigrationVersionEntry_eq_dec : EqDecision MigrationVersionEntry.
Proof. solve_decision. Defined.

#[global] Instance MigrationVersionEntry_to_json : ToJson MigrationVersionEntry := λ x,
  JObj [("axis_id", to_json (ve_axis_id x));
        ("owner", to_json (ve_owner x));
        ("observed_version", to_json (ve_observed_version x));
        ("version_scheme", to_json (ve_version_scheme x));
        ("source_ref", to_json (ve_source_ref x));
        ("source_fingerprint", to_json (ve_source_fingerprint x));
        ("coverage", to_json (ve_coverage x));
        ("observation_state", to_json (ve_observation_state x))].

Record MigrationVersionVector := {
  vv_entries : list MigrationVersionEntry;
  vv_vector_fingerprint : Sha256Hash
}.

#[global] Instance MigrationVersionVector_eq_dec : EqDecision MigrationVersionVector.
Proof. solve_decision. Defined.

#[global] Instance MigrationVersionVector_to_json : ToJson MigrationVersionVector := λ x,
  JObj [("entries", to_json (vv_entries x));
        ("vector_fingerprint", to_json (vv_vector_fingerprint x))].

Record ResolvedMigrationStep := {
  rs_order : N;
  rs_step_id : string;
  rs_step_version : string;
  rs_definition_fingerprint : Sha256Hash;
  rs_from_version : string;
  rs_to_version : string;
  rs_effect_class : MigrationEffectClass;
  rs_idempotency_contract : IdempotencyContract;
  rs_invocation_template_ref : string;
  rs_rollback_ref : string
}.

#[global] Instance ResolvedMigrationStep_eq_dec : EqDecision ResolvedMigrationStep.
Proof. solve_decision. Defined.

#[global] Instance ResolvedMigrationStep_to_json : ToJson ResolvedMigrationStep := λ x,
  JObj [("order", to_json (rs_order x));
        ("step_id", to_json (rs_step_id x));
        ("step_version", to_json (rs_step_version x));
        ("definition_fingerprint", to_json (rs_definition_fingerprint x));
        ("from_version", to_json (rs_from_version x));
        ("to_version", to_json (rs_to_version x));
        ("effect_class", to_json (rs_effect_class x));
        ("idempotency_contract", to_json (rs_idempotency_contract x));
        ("invocation_template_ref", to_json (rs_invocation_template_ref x));
        ("rollback_ref", to_json (rs_rollback_ref x))].

Record MigrationPhasePlan := {
  pp_phase : string;
  pp_required : bool;
  pp_input_refs : list string;
  pp_expected_output : string;
  pp_stop_condition : string
}.

#[global] Instance MigrationPhasePlan_eq_dec : EqDecision MigrationPhasePlan.
Proof. solve_decision. Defined.

#[global] Instance MigrationPhasePlan_to_json : ToJson MigrationPhasePlan := λ x,
  JObj [("phase", to_json (pp_phase x));
        ("required", to_json (pp_required x));
        ("input_refs", to_json (pp_input_refs x));
        ("expected_output", to_json (pp_expected_output x));
        ("stop_condition", to_json (pp_stop_condition x))].

Record MigrationPlanV2 := {
  mp_schema_id : string;
  mp_schema_version : N;
  mp_migration_plan_id : string;
  mp_revision : N;
  mp_task_spec_ref : string;
  mp_scope_revision_ref : string;
  mp_impact_analysis_ref : string;
  mp_project_id : ProjectId;
  mp_checkout_id : string;
  mp_source_subject_fingerprint : Sha256Hash;
  mp_manifest_ref : string;
  mp_manifest_fingerprint : Sha256Hash;
  mp_target_id : string;
  mp_observed_version_vector : MigrationVersionVector;
  mp_target_version_vector : MigrationVersionVector;
  mp_support_decision : MigrationSupportDecision;
  mp_ordered_steps : list ResolvedMigrationStep;
  mp_invariant_refs : list string;
  mp_strategy : MigrationStrategy;
  mp_resource_estimate : string;
  mp_dry_run_plan : MigrationPhasePlan;
  mp_backup_plan : MigrationPhasePlan;
  mp_rehearsal_plan : MigrationPhasePlan;
  mp_activation_plan : MigrationPhasePlan;
  mp_resume_plan : MigrationPhasePlan;
  mp_rollback_plan_ref : string;
  mp_validation_plan_refs : list string;
  mp_permission_checkpoints : list string;
  mp_source_patch_refs : list string;
  mp_consumer_compatibility_refs : list string;
  mp_cross_project_handoff_ref : option string;
  mp_blockers : list string;
  mp_plan_fingerprint : Sha256Hash
}.

#[global] Instance MigrationPlanV2_eq_dec : EqDecision MigrationPlanV2.
Proof. solve_decision. Defined.

Record MigrationCheckpointV2 := {
  mk_schema_id : string;
  mk_schema_version : N;
  mk_checkpoint_id : string;
  mk_plan_ref : string;
  mk_plan_fingerprint : Sha256Hash;
  mk_completed_step_refs : list string;
  mk_in_progress_step_ref : option string;
  mk_target_version : string;
  mk_target_state_fingerprint : Sha256Hash;
  mk_last_receipt_ref : option string;
  mk_replay_safe : bool;
  mk_reconciliation_required : bool;
  mk_checkpoint_fingerprint : Sha256Hash
}.

#[global] Instance MigrationCheckpointV2_eq_dec : EqDecision MigrationCheckpointV2.
Proof. solve_decision. Defined.

Record MigrationAttempt := {
  ma_schema_id : string;
  ma_schema_version : N;
  ma_attempt_id : string;
  ma_attempt_no : N;
  ma_plan_ref : string;
  ma_plan_fingerprint : Sha256Hash;
  ma_phase : MigrationPhase;
  ma_step_ref : option string;
  ma_subject_binding_before : Sha256Hash;
  ma_checkpoint_before_ref : option string;
  ma_permission_decision_ref : option string;
  ma_gate_decision_ref : option string;
  ma_invocation_ref : option string;
  ma_tool_observation_ref : option string;
  ma_receipt_refs : list string;
  ma_subject_binding_after : option Sha256Hash;
  ma_checkpoint_after_ref : option string;
  ma_diagnostic_refs : list string;
  ma_state : MigrationAttemptState;
  ma_effect_committed : option bool;
  ma_loss_observed : option bool;
  ma_attempt_fingerprint : Sha256Hash
}.

#[global] Instance MigrationAttempt_eq_dec : EqDecision MigrationAttempt.
Proof. solve_decision. Defined.

Record InvariantResult := {
  ir_invariant_ref : string;
  ir_before_fingerprint : Sha256Hash;
  ir_after_fingerprint : Sha256Hash;
  ir_state : string;
  ir_loss_observed : bool;
  ir_evidence_refs : list string
}.

#[global] Instance InvariantResult_eq_dec : EqDecision InvariantResult.
Proof. solve_decision. Defined.

#[global] Instance InvariantResult_to_json : ToJson InvariantResult := λ x,
  JObj [("invariant_ref", to_json (ir_invariant_ref x));
        ("before_fingerprint", to_json (ir_before_fingerprint x));
        ("after_fingerprint", to_json (ir_after_fingerprint x));
        ("state", to_json (ir_state x));
        ("loss_observed", to_json (ir_loss_observed x));
        ("evidence_refs", to_json (ir_evidence_refs x))].

Record MigrationValidationReport := {
  mr_schema_id : string;
  mr_schema_version : N;
  mr_report_id : string;
  mr_plan_ref : string;
  mr_attempt_ref : string;
  mr_invariant_results : list InvariantResult;
  mr_reference_validation_refs : list string;
  mr_gate_refs : list string;
  mr_target_version_observed : option string;
  mr_state : string;
  mr_completeness : CoverageState;
  mr_report_fingerprint : Sha256Hash
}.

#[global] Instance MigrationValidationReport_eq_dec : EqDecision MigrationValidationReport.
Proof. solve_decision. Defined.

Record RestoreVerificationRecord := {
  rv_schema_id : string;
  rv_schema_version : N;
  rv_record_id : string;
  rv_plan_ref : string;
  rv_backup_artifact_ref : string;
  rv_backup_fingerprint : Sha256Hash;
  rv_restored_subject_fingerprint : Sha256Hash;
  rv_integrity_verified : bool;
  rv_behavior_check_refs : list string;
  rv_state : string;
  rv_record_fingerprint : Sha256Hash
}.

#[global] Instance RestoreVerificationRecord_eq_dec : EqDecision RestoreVerificationRecord.
Proof. solve_decision. Defined.

Record StackBinding := {
  sb_language : string;
  sb_runtime : string;
  sb_sdk : string;
  sb_architecture : string;
  sb_os : string;
  sb_toolchain_fingerprint : Sha256Hash
}.

#[global] Instance StackBinding_eq_dec : EqDecision StackBinding.
Proof. solve_decision. Defined.

#[global] Instance StackBinding_to_json : ToJson StackBinding := λ x,
  JObj [("language", to_json (sb_language x));
        ("runtime", to_json (sb_runtime x));
        ("sdk", to_json (sb_sdk x));
        ("architecture", to_json (sb_architecture x));
        ("os", to_json (sb_os x));
        ("toolchain_fingerprint", to_json (sb_toolchain_fingerprint x))].

Record CoexistencePhase := {
  cp_phase_id : string;
  cp_order : N;
  cp_source_state : string;
  cp_consumer_state : string;
  cp_writer_state : string;
  cp_reader_state : string;
  cp_fallback_available : bool
}.

#[global] Instance CoexistencePhase_eq_dec : EqDecision CoexistencePhase.
Proof. solve_decision. Defined.

#[global] Instance CoexistencePhase_to_json : ToJson CoexistencePhase := λ x,
  JObj [("phase_id", to_json (cp_phase_id x));
        ("order", to_json (cp_order x));
        ("source_state", to_json (cp_source_state x));
        ("consumer_state", to_json (cp_consumer_state x));
        ("writer_state", to_json (cp_writer_state x));
        ("reader_state", to_json (cp_reader_state x));
        ("fallback_available", to_json (cp_fallback_available x))].

Record LanguageMigrationPlan := {
  lp_schema_id : string;
  lp_schema_version : N;
  lp_plan_id : string;
  lp_revision : N;
  lp_task_spec_ref : string;
  lp_impact_analysis_ref : string;
  lp_project_id : ProjectId;
  lp_checkout_id : string;
  lp_source_stack : StackBinding;
  lp_target_stack : StackBinding;
  lp_behavior_contract_refs : list string;
  lp_boundary_adapter_specs : list string;
  lp_coexistence_phases : list CoexistencePhase;
  lp_consumer_transition_order : list string;
  lp_recipe_refs : list string;
  lp_codegen_refs : list string;
  lp_comparison_plan_refs : list string;
  lp_compatibility_window : string;
  lp_cutover_plan : string;
  lp_rollback_plan_ref : string;
  lp_platform_evidence_matrix : list string;
  lp_unknown_semantics : list string;
  lp_state : string;
  lp_plan_fingerprint : Sha256Hash
}.

#[global] Instance LanguageMigrationPlan_eq_dec : EqDecision LanguageMigrationPlan.
Proof. solve_decision. Defined.

Record EquivalenceDimensionResult := {
  ed_dimension_id : string;
  ed_required : bool;
  ed_state : EquivalenceDimensionState;
  ed_evidence_refs : list string;
  ed_summary : string
}.

#[global] Instance EquivalenceDimensionResult_eq_dec : EqDecision EquivalenceDimensionResult.
Proof. solve_decision. Defined.

#[global] Instance EquivalenceDimensionResult_to_json : ToJson EquivalenceDimensionResult := λ x,
  JObj [("dimension_id", to_json (ed_dimension_id x));
        ("required", to_json (ed_required x));
        ("state", to_json (ed_state x));
        ("evidence_refs", to_json (ed_evidence_refs x));
        ("summary", to_json (ed_summary x))].

Record EquivalenceReport := {
  er_schema_id : string;
  er_schema_version : N;
  er_equivalence_report_id : string;
  er_plan_ref : string;
  er_baseline_subject : Sha256Hash;
  er_candidate_subject : Sha256Hash;
  er_dimension_results : list EquivalenceDimensionResult;
  er_build_compile_result : string;
  er_test_contract_results : list string;
  er_performance_comparison_refs : list string;
  er_platform_matrix_results : list string;
  er_consumer_results : list string;
  er_unknown_semantics : list string;
  er_equivalence_state : EquivalenceState;
  er_gate_refs : list string;
  er_report_fingerprint : Sha256Hash
}.

#[global] Instance EquivalenceReport_eq_dec : EqDecision EquivalenceReport.
Proof. solve_decision. Defined.

Record MigrationParticipant := {
  mx_project_id : ProjectId;
  mx_plan_ref : string;
  mx_plan_fingerprint : Sha256Hash;
  mx_state : string;
  mx_ordering_hint : N
}.

#[global] Instance MigrationParticipant_eq_dec : EqDecision MigrationParticipant.
Proof. solve_decision. Defined.

#[global] Instance MigrationParticipant_to_json : ToJson MigrationParticipant := λ x,
  JObj [("project_id", to_json (mx_project_id x));
        ("plan_ref", to_json (mx_plan_ref x));
        ("plan_fingerprint", to_json (mx_plan_fingerprint x));
        ("state", to_json (mx_state x));
        ("ordering_hint", to_json (mx_ordering_hint x))].

Record CrossProjectMigrationHandoff := {
  mh_schema_id : string;
  mh_schema_version : N;
  mh_handoff_id : string;
  mh_participants : list MigrationParticipant;
  mh_dependency_edges : list string;
  mh_blockers : list string;
  mh_ready_for_change_bundle : bool;
  mh_content_fingerprint : Sha256Hash
}.

#[global] Instance CrossProjectMigrationHandoff_eq_dec : EqDecision CrossProjectMigrationHandoff.
Proof. solve_decision. Defined.
