(* ===== verification/Migration.v ===== *)
(** * Migrations: plans, checkpoints and attempts

    Models [crates/control/star-development/src/migration_v2.rs] without the
    performance workloads, runs and comparisons, which compute with floating-point
    numbers: the manifest of a project, the plan made from it and an observed
    version, the checkpoints and attempts that are sealed against the plan, and
    the reports that follow.  The TOML text of a manifest is a parameter. *)
From S2P Require Import Prelude Canonical Contracts Development MigrationContracts.

Definition migration_plan_payload (x : MigrationPlanV2) : Json :=
  JObj [("migration_plan_id", to_json (mp_migration_plan_id x));
        ("revision", to_json (mp_revision x));
        ("task_spec_ref", to_json (mp_task_spec_ref x));
        ("scope_revision_ref", to_json (mp_scope_revision_ref x));
        ("impact_analysis_ref", to_json (mp_impact_analysis_ref x));
        ("project_id", to_json (mp_project_id x));
        ("checkout_id", to_json (mp_checkout_id x));
        ("source_subject_fingerprint", to_json (mp_source_subject_fingerprint x));
        ("manifest_ref", to_json (mp_manifest_ref x));
        ("manifest_fingerprint", to_json (mp_manifest_fingerprint x));
        ("target_id", to_json (mp_target_id x));
        ("observed_version_vector", to_json (mp_observed_version_vector x));
        ("target_version_vector", to_json (mp_target_version_vector x));
        ("support_decision", to_json (mp_support_decision x));
        ("ordered_steps", to_json (mp_ordered_steps x));
        ("invariant_refs", to_json (mp_invariant_refs x));
        ("strategy", to_json (mp_strategy x));
        ("resource_estimate", to_json (mp_resource_estimate x));
        ("dry_run_plan", to_json (mp_dry_run_plan x));
        ("backup_plan", to_json (mp_backup_plan x));
        ("rehearsal_plan", to_json (mp_rehearsal_plan x));
        ("activation_plan", to_json (mp_activation_plan x));
        ("resume_plan", to_json (mp_resume_plan x));
        ("rollback_plan_ref", to_json (mp_rollback_plan_ref x));
        ("validation_plan_refs", to_json (mp_validation_plan_refs x));
        ("permission_checkpoints", to_json (mp_permission_checkpoints x));
        ("source_patch_refs", to_json (mp_source_patch_refs x));
        ("consumer_compatibility_refs", to_json (mp_consumer_compatibility_refs x));
        ("cross_project_handoff_ref", to_json (mp_cross_project_handoff_ref x));
        ("blockers", to_json (mp_blockers x))].

Definition checkpoint_payload (x : MigrationCheckpointV2) : Json :=
  JObj [("checkpoint_id", to_json (mk_checkpoint_id x));
        ("plan_ref", to_json (mk_plan_ref x));
        ("plan_fingerprint", to_json (mk_plan_fingerprint x));
        ("completed_step_refs", to_json (mk_completed_step_refs x));
        ("in_progress_step_ref", to_json (mk_in_progress_step_ref x));
        ("target_version", to_json (mk_target_version x));
        ("target_state_fingerprint", to_json (mk_target_state_fingerprint x));
        ("last_receipt_ref", to_json (mk_last_receipt_ref x));
        ("replay_safe", to_json (mk_replay_safe x));
        ("reconciliation_required", to_json (mk_reconciliation_required x))].

Definition attempt_payload (x : MigrationAttempt) : Json :=
  JObj [("attempt_id", to_json (ma_attempt_id x));
        ("attempt_no", to_json (ma_attempt_no x));
        ("plan_ref", to_json (ma_plan_ref x));
        ("plan_fingerprint", to_json (ma_plan_fingerprint x));
        ("phase", to_json (ma_phase x));
        ("step_ref", to_json (ma_step_ref x));
        ("subject_binding_before", to_json (ma_subject_binding_before x));
        ("checkpoint_before_ref", to_json (ma_checkpoint_before_ref x));
        ("permission_decision_ref", to_json (ma_permission_decision_ref x));
        ("gate_decision_ref", to_json (ma_gate_decision_ref x));
        ("invocation_ref", to_json (ma_invocation_ref x));
        ("tool_observation_ref", to_json (ma_tool_observation_ref x));
        ("receipt_refs", to_json (ma_receipt_refs x));
        ("subject_binding_after", to_json (ma_subject_binding_after x));
        ("checkpoint_after_ref", to_json (ma_checkpoint_after_ref x));
        ("diagnostic_refs", to_json (ma_diagnostic_refs x));
        ("state", to_json (ma_state x));
        ("effect_committed", to_json (ma_effect_committed x));
        ("loss_observed", to_json (ma_loss_observed x))].

Definition validation_report_payload (x : MigrationValidationReport) : Json :=
  JObj [("report_id", to_json (mr_report_id x));
        ("plan_ref", to_json (mr_plan_ref x));
        ("attempt_ref", to_json (mr_attempt_ref x));
        ("invariant_results", to_json (mr_invariant_results x));
        ("reference_validation_refs", to_json (mr_reference_validation_refs x));
        ("gate_refs", to_json (mr_gate_refs x));
        ("target_version_observed", to_json (mr_target_version_observed x));
        ("state", to_json (mr_state x));
        ("completeness", to_json (mr_completeness x))].

Definition restore_payload (x : RestoreVerificationRecord) : Json :=
  JObj [("record_id", to_json (rv_record_id x));
        ("plan_ref", to_json (rv_plan_ref x));
        ("backup_artifact_ref", to_json (rv_backup_artifact_ref x));
        ("backup_fingerprint", to_json (rv_backup_fingerprint x));
        ("restored_subject_fingerprint", to_json (rv_restored_subject_fingerprint x));
        ("integrity_verified", to_json (rv_integrity_verified x));
        ("behavior_check_refs", to_json (rv_behavior_check_refs x));
        ("state", to_json (rv_state x))].

Definition language_plan_payload (x : LanguageMigrationPlan) : Json :=
  JObj [("plan_id", to_json (lp_plan_id x));
        ("revision", to_json (lp_revision x));
        ("task_spec_ref", to_json (lp_task_spec_ref x));
        ("impact_analysis_ref", to_json (lp_impact_analysis_ref x));
        ("project_id", to_json (lp_project_id x));
        ("checkout_id", to_json (lp_checkout_id x));
        ("source_stack", to_json (lp_source_stack x));
        ("target_stack", to_json (lp_target_stack x));
        ("behavior_contract_refs", to_json (lp_behavior_contract_refs x));
        ("boundary_adapter_specs", to_json (lp_boundary_adapter_specs x));
        ("coexistence_phases", to_json (lp_coexistence_phases x));
        ("consumer_transition_order", to_json (lp_consumer_transition_order x));
        ("recipe_refs", to_json (lp_recipe_refs x));
        ("codegen_refs", to_json (lp_codegen_refs x));
        ("comparison_plan_refs", to_json (lp_comparison_plan_refs x));
        ("compatibility_window", to_json (lp_compatibility_window x));
        ("cutover_plan", to_json (lp_cutover_plan x));
        ("rollback_plan_ref", to_json (lp_rollback_plan_ref x));
        ("platform_evidence_matrix", to_json (lp_platform_evidence_matrix x));
        ("unknown_semantics", to_json (lp_unknown_semantics x));
        ("state", to_json (lp_state x))].

Definition equivalence_payload (x : EquivalenceReport) : Json :=
  JObj [("equivalence_report_id", to_json (er_equivalence_report_id x));
        ("plan_ref", to_json (er_plan_ref x));
        ("baseline_subject", to_json (er_baseline_subject x));
        ("candidate_subject", to_json (er_candidate_subject x));
        ("dimension_results", to_json (er_dimension_results x));
        ("build_compile_result", to_json (er_build_compile_result x));
        ("test_contract_results", to_json (er_test_contract_results x));
        ("performance_comparison_refs", to_json (er_performance_comparison_refs x));
        ("platform_matrix_results", to_json (er_platform_matrix_results x));
        ("consumer_results", to_json (er_consumer_results x));
        ("unknown_semantics", to_json (er_unknown_semantics x));
        ("equivalence_state", to_json (er_equivalence_state x));
        ("gate_refs", to_json (er_gate_refs x))].

Definition migration_handoff_payload (x : CrossProjectMigrationHandoff) : Json :=
  JObj [("handoff_id", to_json (mh_handoff_id x));
        ("participants", to_json (mh_participants x));
        ("dependency_edges", to_json (mh_dependency_edges x));
        ("blockers", to_json (mh_blockers x));
        ("ready_for_change_bundle", to_json (mh_ready_for_change_bundle x))].

Definition with_plan_fingerprint (x : MigrationPlanV2) (h : Sha256Hash) : MigrationPlanV2 :=
  {| mp_schema_id := mp_schema_id x;
     mp_schema_version := mp_schema_version x;
     mp_migration_plan_id := mp_migration_plan_id x;
     mp_revision := mp_revision x;
     mp_task_spec_ref := mp_task_spec_ref x;
     mp_scope_revision_ref := mp_scope_revision_ref x;
     mp_impact_analysis_ref := mp_impact_analysis_ref x;
     mp_project_id := mp_project_id x;
     mp_checkout_id := mp_checkout_id x;
     mp_source_subject_fingerprint := mp_source_subject_fingerprint x;
     mp_manifest_ref := mp_manifest_ref x;
     mp_manifest_fingerprint := mp_manifest_fingerprint x;
     mp_target_id := mp_target_id x;
     mp_observed_version_vector := mp_observed_version_vector x;
     mp_target_version_vector := mp_target_version_vector x;
     mp_support_decision := mp_support_decision x;
     mp_ordered_steps := mp_ordered_steps x;
     mp_invariant_refs := mp_invariant_refs x;
     mp_strategy := mp_strategy x;
     mp_resource_estimate := mp_resource_estimate x;
     mp_dry_run_plan := mp_dry_run_plan x;
     mp_backup_plan := mp_backup_plan x;
     mp_rehearsal_plan := mp_rehearsal_plan x;
     mp_activation_plan := mp_activation_plan x;
     mp_resume_plan := mp_resume_plan x;
     mp_rollback_plan_ref := mp_rollback_plan_ref x;
     mp_validation_plan_refs := mp_validation_plan_refs x;
     mp_permission_checkpoints := mp_permission_checkpoints x;
     mp_source_patch_refs := mp_source_patch_refs x;
     mp_consumer_compatibility_refs := mp_consumer_compatibility_refs x;
     mp_cross_project_handoff_ref := mp_cross_project_handoff_ref x;
     mp_blockers := mp_blockers x;
     mp_plan_fingerprint := h |}.

Definition with_checkpoint_fingerprint (x : MigrationCheckpointV2) (h : Sha256Hash) : MigrationCheckpointV2 :=
  {| mk_schema_id := mk_schema_id x;
     mk_schema_version := mk_schema_version x;
     mk_checkpoint_id := mk_checkpoint_id x;
     mk_plan_ref := mk_plan_ref x;
     mk_plan_fingerprint := mk_plan_fingerprint x;
     mk_completed_step_refs := mk_completed_step_refs x;
     mk_in_progress_step_ref := mk_in_progress_step_ref x;
     mk_target_version := mk_target_version x;
     mk_target_state_fingerprint := mk_target_state_fingerprint x;
     mk_last_receipt_ref := mk_last_receipt_ref x;
     mk_replay_safe := mk_replay_safe x;
     mk_reconciliation_required := mk_reconciliation_required x;
     mk_checkpoint_fingerprint := h |}.

Definition with_attempt_fields (x : MigrationAttempt) (receipts : list string) (diagnostics : list string) (committed : option bool) (h : Sha256Hash) : MigrationAttempt :=
  {| ma_schema_id := ma_schema_id x;
     ma_schema_version := ma_schema_version x;
     ma_attempt_id := ma_attempt_id x;
     ma_attempt_no := ma_attempt_no x;
     ma_plan_ref := ma_plan_ref x;
     ma_plan_fingerprint := ma_plan_fingerprint x;
     ma_phase := ma_phase x;
     ma_step_ref := ma_step_ref x;
     ma_subject_binding_before := ma_subject_binding_before x;
     ma_checkpoint_before_ref := ma_checkpoint_before_ref x;
     ma_permission_decision_ref := ma_permission_decision_ref x;
     ma_gate_decision_ref := ma_gate_decision_ref x;
     ma_invocation_ref := ma_invocation_ref x;
     ma_tool_observation_ref := ma_tool_observation_ref x;
     ma_receipt_refs := receipts;
     ma_subject_binding_after := ma_subject_binding_after x;
     ma_checkpoint_after_ref := ma_checkpoint_after_ref x;
     ma_diagnostic_refs := diagnostics;
     ma_state := ma_state x;
     ma_effect_committed := committed;
     ma_loss_observed := ma_loss_observed x;
     ma_attempt_fingerprint := h |}.

Definition with_report_fields (x : MigrationValidationReport) (results : list InvariantResult) (state : string) (h : Sha256Hash) : MigrationValidationReport :=
  {| mr_schema_id := mr_schema_id x;
     mr_schema_version := mr_schema_version x;
     mr_report_id := mr_report_id x;
     mr_plan_ref := mr_plan_ref x;
     mr_attempt_ref := mr_attempt_ref x;
     mr_invariant_results := results;
     mr_reference_validation_refs := mr_reference_validation_refs x;
     mr_gate_refs := mr_gate_refs x;
     mr_target_version_observed := mr_target_version_observed x;
     mr_state := state;
     mr_completeness := mr_completeness x;
     mr_report_fingerprint := h |}.

Definition with_restore_fields (x : RestoreVerificationRecord) (state : string) (h : Sha256Hash) : RestoreVerificationRecord :=
  {| rv_schema_id := rv_schema_id x;
     rv_schema_version := rv_schema_version x;
     rv_record_id := rv_record_id x;
     rv_plan_ref := rv_plan_ref x;
     rv_backup_artifact_ref := rv_backup_artifact_ref x;
     rv_backup_fingerprint := rv_backup_fingerprint x;
     rv_restored_subject_fingerprint := rv_restored_subject_fingerprint x;
     rv_integrity_verified := rv_integrity_verified x;
     rv_behavior_check_refs := rv_behavior_check_refs x;
     rv_state := state;
     rv_record_fingerprint := h |}.

Definition with_language_fields (x : LanguageMigrationPlan) (phases : list CoexistencePhase) (state : string) (h : Sha256Hash) : LanguageMigrationPlan :=
  {| lp_schema_id := lp_schema_id x;
     lp_schema_version := lp_schema_version x;
     lp_plan_id := lp_plan_id x;
     lp_revision := lp_revision x;
     lp_task_spec_ref := lp_task_spec_ref x;
     lp_impact_analysis_ref := lp_impact_analysis_ref x;
     lp_project_id := lp_project_id x;
     lp_checkout_id := lp_checkout_id x;
     lp_source_stack := lp_source_stack x;
     lp_target_stack := lp_target_stack x;
     lp_behavior_contract_refs := lp_behavior_contract_refs x;
     lp_boundary_adapter_specs := lp_boundary_adapter_specs x;
     lp_coexistence_phases := phases;
     lp_consumer_transition_order := lp_consumer_transition_order x;
     lp_recipe_refs := lp_recipe_refs x;
     lp_codegen_refs := lp_codegen_refs x;
     lp_comparison_plan_refs := lp_comparison_plan_refs x;
     lp_compatibility_window := lp_compatibility_window x;
     lp_cutover_plan := lp_cutover_plan x;
     lp_rollback_plan_ref := lp_rollback_plan_ref x;
     lp_platform_evidence_matrix := lp_platform_evidence_matrix x;
     lp_unknown_semantics := lp_unknown_semantics x;
     lp_state := state;
     lp_plan_fingerprint := h |}.

Definition with_equivalence_fields (x : EquivalenceReport) (results : list EquivalenceDimensionResult) (state : EquivalenceState) (h : Sha256Hash) : EquivalenceReport :=
  {| er_schema_id := er_schema_id x;
     er_schema_version := er_schema_version x;
     er_equivalence_report_id := er_equivalence_report_id x;
     er_plan_ref := er_plan_ref x;
     er_baseline_subject := er_baseline_subject x;
     er_candidate_subject := er_candidate_subject x;
     er_dimension_results := results;
     er_build_compile_result := er_build_compile_result x;
     er_test_contract_results := er_test_contract_results x;
     er_performance_comparison_refs := er_performance_comparison_refs x;
     er_platform_matrix_results := er_platform_matrix_results x;
     er_consumer_results := er_consumer_results x;
     er_unknown_semantics := er_unknown_semantics x;
     er_equivalence_state := state;
     er_gate_refs := er_gate_refs x;
     er_report_fingerprint := h |}.

Definition with_migration_handoff_fields (x : CrossProjectMigrationHandoff) (participants : list MigrationParticipant) (blockers : list string) (ready : bool) (h : Sha256Hash) : CrossProjectMigrationHandoff :=
  {| mh_schema_id := mh_schema_id x;
     mh_schema_version := mh_schema_version x;
     mh_handoff_id := mh_handoff_id x;
     mh_participants := participants;
     mh_dependency_edges := mh_dependency_edges x;
     mh_blockers := blockers;
     mh_ready_for_change_bundle := ready;
     mh_content_fingerprint := h |}.

Definition with_manifest_fingerprint (x : ProjectMigrationManifest) (h : Sha256Hash) : ProjectMigrationManifest :=
  {| pm_schema_id := pm_schema_id x;
     pm_schema_version := pm_schema_version x;
     pm_manifest_id := pm_manifest_id x;
     pm_manifest_version := pm_manifest_version x;
     pm_project_id := pm_project_id x;
     pm_target_specs := pm_target_specs x;
     pm_migration_chains := pm_migration_chains x;
     pm_invariant_specs := pm_invariant_specs x;
     pm_backup_specs := pm_backup_specs x;
     pm_rehearsal_specs := pm_rehearsal_specs x;
     pm_activation_specs := pm_activation_specs x;
     pm_rollback_specs := pm_rollback_specs x;
     pm_consumer_refs := pm_consumer_refs x;
     pm_tool_refs := pm_tool_refs x;
     pm_check_refs := pm_check_refs x;
     pm_cross_project_relations := pm_cross_project_relations x;
     pm_content_fingerprint := h |}.

(** ** The manifest *)

Definition bad_target (t : MigrationTargetSpec) : bool :=
  negb (token (mt_target_id t) 128) || blank (mt_owner t) || blank (mt_locator_class t)
  || blank (mt_version_source_ref t) || blank (mt_target_version t).

Definition bad_invariant (i : MigrationInvariantSpec) : bool :=
  negb (token (mi_invariant_id i) 128) || blank (mi_before_check_ref i)
  || blank (mi_after_check_ref i).

(** What [validate_chain] has seen: step identifiers, edges, the previous end. *)
Definition chain_state : Type := list string * list (string * string) * option string.

Definition bad_step (invariants : list string) (s : chain_state) (step : MigrationStepDefinition) :
    bool :=
  negb (token (sd_step_id step) 128)
  || blank (sd_step_version step)
  || blank (sd_from_version step)
  || blank (sd_to_version step)
  || String.eqb (sd_from_version step) (sd_to_version step)
  || mem (sd_step_id step) s.1.1
  || mem (sd_from_version step, sd_to_version step) s.1.2
  || blank (sd_invocation_template_ref step)
  || blank (sd_expected_output step)
  || blank (sd_rollback_ref step)
  || blank (sd_tool_ref step)
  || blank (sd_normalizer_ref step)
  || existsb (λ path, negb (safe_relative_path path)) (sd_write_scope step)
  || existsb (λ i, negb (mem i invariants)) (sd_invariant_refs step)
  || is_some_and s.2 (λ previous, negb (String.eqb previous (sd_from_version step))).

Definition check_step (invariants : list string) (s : chain_state) (step : MigrationStepDefinition) :
    result chain_state DevelopmentError :=
  check bad_step invariants s step else DevInvalid in
  Ok (sd_step_id step :: s.1.1, (sd_from_version step, sd_to_version step) :: s.1.2,
      Some (sd_to_version step)).

Definition validate_chain (chain : MigrationChain) (invariants : list string) :
    result unit DevelopmentError :=
  let? _ := fold_result (check_step invariants) ([], [], None) (mc_steps chain) in Ok tt.

Definition check_chain (targets invariants : list string) (seen : list string)
    (chain : MigrationChain) : result (list string) DevelopmentError :=
  check negb (token (mc_chain_id chain) 128)
        || negb (mem (mc_target_id chain) targets)
        || mem (mc_chain_id chain) seen
        || no_items (mc_steps chain)
  else DevInvalid in
  let? _ := validate_chain chain invariants in
  Ok (mc_chain_id chain :: seen).

Definition validate_project_migration_manifest (m : ProjectMigrationManifest) :
    result unit DevelopmentError :=
  check negb (String.eqb (pm_schema_id m) PROJECT_MIGRATION_MANIFEST_SCHEMA_ID)
        || negb (pm_schema_version m =? 1)%N
        || negb (token (pm_manifest_id m) 192)
        || blank (pm_manifest_version m)
        || no_items (pm_target_specs m)
  else DevInvalid in
  let targets := map mt_target_id (pm_target_specs m) in
  check has_repetition targets || existsb bad_target (pm_target_specs m) else DevInvalid in
  let invariants := map mi_invariant_id (pm_invariant_specs m) in
  check has_repetition invariants || existsb bad_invariant (pm_invariant_specs m) else DevInvalid in
  let? _ := fold_result (check_chain targets invariants) [] (pm_migration_chains m) in
  Ok tt.

(** [toml::from_str] on valid UTF-8 text. *)
Definition parse_project_migration_manifest `{Platform}
    (from_toml : string → option ProjectMigrationManifest) (bytes : string) :
    result ProjectMigrationManifest DevelopmentError :=
  let? m := ok_or (from_toml bytes) DevInvalid in
  let? _ := validate_project_migration_manifest m in
  Ok (with_manifest_fingerprint m (digest bytes)).

(** ** The observed versions *)

Definition bad_entry (e : MigrationVersionEntry) : bool :=
  negb (token (ve_axis_id e) 128)
  || blank (ve_owner e)
  || blank (ve_version_scheme e)
  || blank (ve_source_ref e)
  || bool_decide (ve_observation_state e = VersionObserved)
     && is_none_or (ve_observed_version e) blank
  || negb (bool_decide (ve_observation_state e = VersionObserved))
     && is_some (ve_observed_version e).

Section vector.
Context `{Platform}.

Definition vector_fingerprint (entries : list MigrationVersionEntry) :
    result Sha256Hash DevelopmentError :=
  fingerprint "star.migration-version-vector" (to_json entries).

Definition seal_migration_version_vector (entries : list MigrationVersionEntry) :
    result MigrationVersionVector DevelopmentError :=
  let entries := sort_by_key ve_axis_id entries in
  check no_items entries
        || windows2_any (λ a b, String.eqb (ve_axis_id a) (ve_axis_id b)) entries
        || existsb bad_entry entries
  else DevInvalid in
  let? h := vector_fingerprint entries in
  Ok {| vv_entries := entries; vv_vector_fingerprint := h |}.

Definition validate_vector (v : MigrationVersionVector) : result unit DevelopmentError :=
  let? expected := vector_fingerprint (vv_entries v) in
  check negb (String.eqb (vv_vector_fingerprint v) expected) else DevConflict in
  Ok tt.
End vector.

(** ** The plan *)

Record MigrationPlanInput := {
  mn_migration_plan_id : string;
  mn_revision : N;
  mn_task_spec_ref : string;
  mn_scope_revision_ref : string;
  mn_impact_analysis_ref : string;
  mn_checkout_id : string;
  mn_source_subject_fingerprint : Sha256Hash;
  mn_target_id : string;
  mn_observed_version_vector : MigrationVersionVector;
  mn_strategy : MigrationStrategy;
  mn_resource_estimate : string;
  mn_rollback_plan_ref : string;
  mn_validation_plan_refs : list string;
  mn_permission_checkpoints : list string;
  mn_source_patch_refs : list string;
  mn_consumer_compatibility_refs : list string;
  mn_cross_project_handoff_ref : option string
}.

(** [Iterator::position]. *)
Fixpoint position {A} (p : A → bool) (l : list A) : option nat :=
  match l with
  | [] => None
  | x :: l => if p x then Some O else S <$> position p l
  end.

(** The steps of a chain between two versions. *)
Definition chain_slice (from to : string) (steps : list MigrationStepDefinition) :
    option (list MigrationStepDefinition) :=
  start ← position (λ s, String.eqb (sd_from_version s) from) steps;
  stop ← position (λ s, String.eqb (sd_to_version s) to) steps;
  if (start <=? stop)%nat then Some (take (S stop - start) (drop start steps)) else None.

Definition resolved_step (index : nat) (step : MigrationStepDefinition) : ResolvedMigrationStep :=
  {| rs_order := N.min u32_max (N.of_nat (S index));
     rs_step_id := sd_step_id step;
     rs_step_version := sd_step_version step;
     rs_definition_fingerprint := sd_definition_fingerprint step;
     rs_from_version := sd_from_version step;
     rs_to_version := sd_to_version step;
     rs_effect_class := sd_effect_class step;
     rs_idempotency_contract := sd_idempotency_contract step;
     rs_invocation_template_ref := sd_invocation_template_ref step;
     rs_rollback_ref := sd_rollback_ref step |}.

Definition resolution : Type :=
  MigrationSupportDecision * list ResolvedMigrationStep * list string.

Definition chain_matches (m : ProjectMigrationManifest) (target_id from to : string) :
    list (list MigrationStepDefinition) :=
  omap (λ chain, chain_slice from to (mc_steps chain))
    (List.filter (λ chain, String.eqb (mc_target_id chain) target_id) (pm_migration_chains m)).

Definition resolve_chain (m : ProjectMigrationManifest) (target_id from to : string) : resolution :=
  match chain_matches m target_id from to with
  | [] => (ChainGap, [], ["MIGRATION_CHAIN_GAP"])
  | [steps] => (Migratable, imap resolved_step steps, [])
  | _ => (AmbiguousChain, [], ["MIGRATION_CHAIN_AMBIGUOUS"])
  end.

(** What the observed version allows; [None] is the panic of [unwrap] on an
    entry that is observed without a version. *)
Definition support_of (m : ProjectMigrationManifest) (target : MigrationTargetSpec)
    (observed : option MigrationVersionEntry) : option resolution :=
  match observed with
  | None => Some (UnknownVersion, [], ["MIGRATION_VERSION_UNKNOWN"])
  | Some e =>
      match ve_observation_state e, ve_observed_version e with
      | VersionUnknown, _ => Some (UnknownVersion, [], ["MIGRATION_VERSION_UNKNOWN"])
      | VersionCorrupt, _ => Some (CorruptVersion, [], ["MIGRATION_VERSION_CORRUPT"])
      | VersionObserved, Some version =>
          if String.eqb version (mt_target_version target) then Some (CurrentSupported, [], [])
          else Some (resolve_chain m (mt_target_id target) version (mt_target_version target))
      | VersionObserved, None => None
      end
  end.

Definition phase_plan (phase : string) (required : bool) (expected_output : string) :
    MigrationPhasePlan :=
  {| pp_phase := phase; pp_required := required; pp_input_refs := [];
     pp_expected_output := expected_output;
     pp_stop_condition := "diagnostic block, stale subject, or unknown outcome" |}.

Definition bad_input (input : MigrationPlanInput) : bool :=
  negb (token (mn_migration_plan_id input) 192)
  || (mn_revision input =? 0)%N
  || blank (mn_task_spec_ref input)
  || blank (mn_scope_revision_ref input)
  || blank (mn_impact_analysis_ref input)
  || blank (mn_checkout_id input)
  || blank (mn_resource_estimate input)
  || blank (mn_rollback_plan_ref input).

Definition strategy_blockers (strategy : MigrationStrategy) (steps : list ResolvedMigrationStep) :
    list string :=
  if bool_decide (strategy = TransactionalInPlace)
     && existsb (λ s, negb (bool_decide (rs_effect_class s = EffectLiveNondestructive))) steps
  then ["transactional_in_place capability is not proven for the full chain"] else [].

Definition target_entry (m : ProjectMigrationManifest) (target : MigrationTargetSpec)
    (observed : option MigrationVersionEntry) : MigrationVersionEntry :=
  {| ve_axis_id := mt_target_id target;
     ve_owner := mt_owner target;
     ve_observed_version := Some (mt_target_version target);
     ve_version_scheme := default "declared" (ve_version_scheme <$> observed);
     ve_source_ref := mt_version_source_ref target;
     ve_source_fingerprint := pm_content_fingerprint m;
     ve_coverage := CoverageComplete;
     ve_observation_state := VersionObserved |}.

(** The plan before it is hashed. *)
Definition unsealed_plan `{Platform} (m : ProjectMigrationManifest) (input : MigrationPlanInput)
    (support : resolution) (target_vector : MigrationVersionVector) : MigrationPlanV2 :=
  let steps := support.1.2 in
  let destructive := existsb (λ s, bool_decide (rs_effect_class s = EffectLiveDestructive)) steps in
  {| mp_schema_id := MIGRATION_PLAN_V2_SCHEMA_ID;
     mp_schema_version := 2;
     mp_migration_plan_id := mn_migration_plan_id input;
     mp_revision := mn_revision input;
     mp_task_spec_ref := mn_task_spec_ref input;
     mp_scope_revision_ref := mn_scope_revision_ref input;
     mp_impact_analysis_ref := mn_impact_analysis_ref input;
     mp_project_id := pm_project_id m;
     mp_checkout_id := mn_checkout_id input;
     mp_source_subject_fingerprint := mn_source_subject_fingerprint input;
     mp_manifest_ref := pm_manifest_id m;
     mp_manifest_fingerprint := pm_content_fingerprint m;
     mp_target_id := mn_target_id input;
     mp_observed_version_vector := mn_observed_version_vector input;
     mp_target_version_vector := target_vector;
     mp_support_decision := support.1.1;
     mp_ordered_steps := steps;
     mp_invariant_refs := map mi_invariant_id (List.filter mi_required (pm_invariant_specs m));
     mp_strategy := mn_strategy input;
     mp_resource_estimate := mn_resource_estimate input;
     mp_dry_run_plan := phase_plan "dry_run" (negb (no_items steps)) "no live target write";
     mp_backup_plan := phase_plan "backup" (negb (no_items steps)) "immutable backup artifact";
     mp_rehearsal_plan := phase_plan "migration_rehearsal" (negb (no_items steps))
                            "disposable subject reaches target version";
     mp_activation_plan := phase_plan "activate" (negb (no_items steps))
                             "candidate becomes visible after post-execute validation";
     mp_resume_plan := phase_plan "resume" (1 <? len steps)%N
                         "checkpoint reconciles exact durable prefix";
     mp_rollback_plan_ref := mn_rollback_plan_ref input;
     mp_validation_plan_refs := mn_validation_plan_refs input;
     mp_permission_checkpoints :=
       sort_dedup (mn_permission_checkpoints input
                   ++ if destructive then ["live_destructive"] else []);
     mp_source_patch_refs := mn_source_patch_refs input;
     mp_consumer_compatibility_refs := mn_consumer_compatibility_refs input;
     mp_cross_project_handoff_ref := mn_cross_project_handoff_ref input;
     mp_blockers := sort_dedup (support.2 ++ strategy_blockers (mn_strategy input) steps);
     mp_plan_fingerprint := placeholder |}.

Section plan.
Context `{Platform}.

Definition migration_plan_fingerprint (p : MigrationPlanV2) : result Sha256Hash DevelopmentError :=
  fingerprint MIGRATION_PLAN_V2_SCHEMA_ID (migration_plan_payload p).

(** [None] is a panic. *)
Definition build_migration_plan (m : ProjectMigrationManifest) (input : MigrationPlanInput) :
    option (result MigrationPlanV2 DevelopmentError) :=
  match validate_project_migration_manifest m with Err e => Some (Err e) | Ok _ =>
  match validate_vector (mn_observed_version_vector input) with Err e => Some (Err e) | Ok _ =>
  if bad_input input then Some (Err DevInvalid) else
  match find (λ t, String.eqb (mt_target_id t) (mn_target_id input)) (pm_target_specs m) with
  | None => Some (Err DevInvalid)
  | Some target =>
      let observed := find (λ e, String.eqb (ve_axis_id e) (mn_target_id input))
                        (vv_entries (mn_observed_version_vector input)) in
      support ← support_of m target observed;
      Some (let? target_vector := seal_migration_version_vector [target_entry m target observed] in
            let plan := unsealed_plan m input support target_vector in
            let? h := migration_plan_fingerprint plan in
            Ok (with_plan_fingerprint plan h))
  end end end.

(** ** Checkpoints *)

Definition seal_migration_checkpoint (plan : MigrationPlanV2) (c : MigrationCheckpointV2) :
    result MigrationCheckpointV2 DevelopmentError :=
  check negb (String.eqb (mk_schema_id c) MIGRATION_CHECKPOINT_V2_SCHEMA_ID)
        || negb (mk_schema_version c =? 2)%N
        || negb (token (mk_checkpoint_id c) 192)
        || negb (String.eqb (mk_plan_ref c) (mp_migration_plan_id plan))
        || negb (String.eqb (mk_plan_fingerprint c) (mp_plan_fingerprint plan))
  else DevInvalid in
  let completed := length (mk_completed_step_refs c) in
  check negb (bool_decide (mk_completed_step_refs c
                           = map rs_step_id (take completed (mp_ordered_steps plan))))
        || is_some_and (mk_in_progress_step_ref c) (λ step,
             is_none_or (mp_ordered_steps plan !! completed) (λ expected,
               negb (String.eqb (rs_step_id expected) step)))
        || is_some (mk_in_progress_step_ref c) && negb (mk_replay_safe c)
           && negb (mk_reconciliation_required c)
  else DevConflict in
  let? h := fingerprint MIGRATION_CHECKPOINT_V2_SCHEMA_ID (checkpoint_payload c) in
  Ok (with_checkpoint_fingerprint c h).

(** ** Attempts *)

Definition live_effect (phase : MigrationPhase) : bool :=
  match phase with
  | MigBackup | MigExecute | MigResume | MigActivate | MigRollback => true
  | _ => false
  end.

Definition succeeded (previous : list MigrationAttempt) (phase : MigrationPhase) : bool :=
  existsb (λ a, bool_decide (ma_phase a = phase) && bool_decide (ma_state a = AttemptSucceeded))
    previous.

Definition unsettled (a : MigrationAttempt) : bool :=
  bool_decide (ma_state a = AttemptPartiallyApplied ∨ ma_state a = AttemptOutcomeUnknown).

Definition writes_target (a : MigrationAttempt) : bool :=
  bool_decide (ma_phase a = MigExecute ∨ ma_phase a = MigResume ∨ ma_phase a = MigActivate).

Definition migration_phase_prerequisites_met (plan : MigrationPlanV2)
    (previous : list MigrationAttempt) (phase : MigrationPhase) : bool :=
  match phase with
  | MigDryRun => true
  | MigBackup => succeeded previous MigDryRun
  | MigBackupVerify => succeeded previous MigBackup
  | MigRestoreRehearsal => succeeded previous MigBackupVerify
  | MigMigrationRehearsal => succeeded previous MigRestoreRehearsal
  | MigPreExecuteGate => succeeded previous MigMigrationRehearsal
  | MigExecute => no_items (mp_blockers plan) && succeeded previous MigPreExecuteGate
  | MigResume | MigReconcile => existsb unsettled previous
  | MigValidate => succeeded previous MigExecute || succeeded previous MigResume
  | MigActivate => succeeded previous MigValidate
  | MigConsumerValidate => succeeded previous MigActivate
  | MigRollback => existsb writes_target previous
  | MigPostRollbackValidate => succeeded previous MigRollback
  end.

Definition seal_migration_attempt (plan : MigrationPlanV2) (previous : list MigrationAttempt)
    (a : MigrationAttempt) : result MigrationAttempt DevelopmentError :=
  check negb (String.eqb (ma_schema_id a) MIGRATION_ATTEMPT_SCHEMA_ID)
        || negb (ma_schema_version a =? 1)%N
        || negb (token (ma_attempt_id a) 192)
        || (ma_attempt_no a =? 0)%N
        || negb (String.eqb (ma_plan_ref a) (mp_migration_plan_id plan))
        || negb (String.eqb (ma_plan_fingerprint a) (mp_plan_fingerprint plan))
        || existsb (λ item, String.eqb (ma_attempt_id item) (ma_attempt_id a)) previous
        || existsb (λ item, (ma_attempt_no item =? ma_attempt_no a)%N) previous
  else DevInvalid in
  check live_effect (ma_phase a)
        && (is_none (ma_permission_decision_ref a) || is_none (ma_gate_decision_ref a))
  else DevBlocked in
  check bool_decide (ma_state a = AttemptSucceeded)
        && (is_none (ma_subject_binding_after a) || is_none (ma_effect_committed a)
            || no_items (ma_receipt_refs a))
  else DevInvalid in
  let committed := if bool_decide (ma_state a = AttemptOutcomeUnknown) then None
                   else ma_effect_committed a in
  check bool_decide (ma_state a = AttemptPartiallyApplied)
        && is_none (ma_checkpoint_after_ref a)
  else DevInvalid in
  check negb (migration_phase_prerequisites_met plan previous (ma_phase a)) else DevBlocked in
  let a := with_attempt_fields a (sort_dedup (ma_receipt_refs a)) (sort_dedup (ma_diagnostic_refs a))
             committed (ma_attempt_fingerprint a) in
  let? h := fingerprint MIGRATION_ATTEMPT_SCHEMA_ID (attempt_payload a) in
  Ok (with_attempt_fields a (ma_receipt_refs a) (ma_diagnostic_refs a) (ma_effect_committed a) h).

(** ** Reports *)

Definition report_state (results : list InvariantResult) (completeness : CoverageState) : string :=
  if existsb (λ r, ir_loss_observed r || String.eqb (ir_state r) "failed") results then "failed"
  else if negb (bool_decide (completeness = CoverageComplete))
          || existsb (λ r, negb (String.eqb (ir_state r) "pass")) results then "unverified"
  else "pass".

Definition seal_migration_validation_report (r : MigrationValidationReport) :
    result MigrationValidationReport DevelopmentError :=
  check negb (String.eqb (mr_schema_id r) MIGRATION_VALIDATION_REPORT_SCHEMA_ID)
        || negb (mr_schema_version r =? 1)%N
        || negb (token (mr_report_id r) 192)
        || blank (mr_plan_ref r) || blank (mr_attempt_ref r)
        || no_items (mr_invariant_results r)
  else DevInvalid in
  let results := sort_by_key ir_invariant_ref (mr_invariant_results r) in
  let r := with_report_fields r results (report_state results (mr_completeness r))
             (mr_report_fingerprint r) in
  let? h := fingerprint MIGRATION_VALIDATION_REPORT_SCHEMA_ID (validation_report_payload r) in
  Ok (with_report_fields r (mr_invariant_results r) (mr_state r) h).

Definition seal_restore_verification (r : RestoreVerificationRecord) :
    result RestoreVerificationRecord DevelopmentError :=
  check negb (String.eqb (rv_schema_id r) RESTORE_VERIFICATION_RECORD_SCHEMA_ID)
        || negb (rv_schema_version r =? 1)%N
        || negb (token (rv_record_id r) 192)
        || blank (rv_plan_ref r) || blank (rv_backup_artifact_ref r)
  else DevInvalid in
  let state := if rv_integrity_verified r && negb (no_items (rv_behavior_check_refs r))
               then "verified" else "unverified" in
  let r := with_restore_fields r state (rv_record_fingerprint r) in
  let? h := fingerprint RESTORE_VERIFICATION_RECORD_SCHEMA_ID (restore_payload r) in
  Ok (with_restore_fields r (rv_state r) h).

Definition seal_language_migration_plan (p : LanguageMigrationPlan) :
    result LanguageMigrationPlan DevelopmentError :=
  check negb (String.eqb (lp_schema_id p) LANGUAGE_MIGRATION_PLAN_SCHEMA_ID)
        || negb (lp_schema_version p =? 1)%N
        || negb (token (lp_plan_id p) 192)
        || (lp_revision p =? 0)%N
        || blank (lp_task_spec_ref p) || blank (lp_impact_analysis_ref p)
        || blank (lp_checkout_id p)
        || no_items (lp_behavior_contract_refs p)
        || no_items (lp_boundary_adapter_specs p)
        || no_items (lp_coexistence_phases p)
        || blank (lp_rollback_plan_ref p)
  else DevInvalid in
  let phases := sort_by_key cp_order (lp_coexistence_phases p) in
  check windows2_any (λ a b, (cp_order a =? cp_order b)%N) phases
        || existsb (λ phase, negb (token (cp_phase_id phase) 128) || (cp_order phase =? 0)%N) phases
  else DevInvalid in
  let state := if no_items (lp_unknown_semantics p) then "planned" else "human_review" in
  let p := with_language_fields p phases state (lp_plan_fingerprint p) in
  let? h := fingerprint LANGUAGE_MIGRATION_PLAN_SCHEMA_ID (language_plan_payload p) in
  Ok (with_language_fields p (lp_coexistence_phases p) (lp_state p) h).

Definition aggregate_equivalence (r : EquivalenceReport) : EquivalenceState :=
  let required := List.filter ed_required (er_dimension_results r) in
  let any s := existsb (λ d, bool_decide (ed_state d = s)) required in
  if no_items required then EqNotEvaluated
  else if any DimNotEquivalent then EqNotEquivalent
  else if any DimUnverified then EqUnverified
  else if negb (no_items (er_unknown_semantics r)) || any DimHumanReview then EqHumanReview
  else if forallb (λ d, bool_decide (ed_state d = DimEquivalent ∨ ed_state d = DimNotRequired)) required
          && String.eqb (er_build_compile_result r) "pass" then EqEquivalent
  else EqPartial.

Definition seal_equivalence_report (plan : LanguageMigrationPlan) (r : EquivalenceReport) :
    result EquivalenceReport DevelopmentError :=
  check negb (String.eqb (er_schema_id r) EQUIVALENCE_REPORT_SCHEMA_ID)
        || negb (er_schema_version r =? 1)%N
        || negb (token (er_equivalence_report_id r) 192)
        || negb (String.eqb (er_plan_ref r) (lp_plan_id plan))
        || no_items (er_dimension_results r)
  else DevInvalid in
  let r := with_equivalence_fields r (sort_by_key ed_dimension_id (er_dimension_results r))
             (er_equivalence_state r) (er_report_fingerprint r) in
  let r := with_equivalence_fields r (er_dimension_results r) (aggregate_equivalence r)
             (er_report_fingerprint r) in
  let? h := fingerprint EQUIVALENCE_REPORT_SCHEMA_ID (equivalence_payload r) in
  Ok (with_equivalence_fields r (er_dimension_results r) (er_equivalence_state r) h).

Definition seal_cross_project_migration_handoff (h : CrossProjectMigrationHandoff) :
    result CrossProjectMigrationHandoff DevelopmentError :=
  check negb (String.eqb (mh_schema_id h) CROSS_PROJECT_MIGRATION_HANDOFF_SCHEMA_ID)
        || negb (mh_schema_version h =? 1)%N
        || negb (token (mh_handoff_id h) 192)
        || no_items (mh_participants h)
  else DevInvalid in
  let participants := sort_by_key (λ p, (mx_ordering_hint p, mx_project_id p)) (mh_participants h) in
  let blockers := sort_dedup (mh_blockers h) in
  let ready := no_items blockers
               && forallb (λ p, String.eqb (mx_state p) "ready") participants in
  let h := with_migration_handoff_fields h participants blockers ready (mh_content_fingerprint h) in
  let? fp := fingerprint CROSS_PROJECT_MIGRATION_HANDOFF_SCHEMA_ID (migration_handoff_payload h) in
  Ok (with_migration_handoff_fields h (mh_participants h) (mh_blockers h)
        (mh_ready_for_change_bundle h) fp).
End plan.
