(* ===== verification/MigrationFacts.v ===== *)
(** * What migration plans and attempts promise

    A plan is migratable exactly when one declared chain leads from the observed
    version to the target, and its steps are that way.  Attempts climb a ladder of
    phases, of which an interrupted attempt opens a side door.  A checkpoint cuts
    the steps where they can be continued. *)
From S2P Require Import Prelude Canonical Persist Toy Contracts Development MigrationContracts.
From S2P Require Import Migration.

(** ** Ways between versions *)

Fixpoint leads (from : string) (steps : list ResolvedMigrationStep) (to : string) : Prop :=
  match steps with
  | [] => from = to
  | s :: steps => rs_from_version s = from ∧ leads (rs_to_version s) steps to
  end.

Lemma leads_app from steps1 steps2 to :
  leads from (steps1 ++ steps2) to ↔ ∃ mid, leads from steps1 mid ∧ leads mid steps2 to.
Proof.
  revert from. induction steps1 as [|s steps1 IH]; intros from; simpl; [naive_solver|].
  rewrite IH. naive_solver.
Qed.

(** A chain the manifest accepts is linked. *)
Fixpoint linked (previous : option string) (steps : list MigrationStepDefinition) : Prop :=
  match steps with
  | [] => True
  | s :: steps => (∀ p, previous = Some p → p = sd_from_version s) ∧
                  linked (Some (sd_to_version s)) steps
  end.

Lemma check_steps_ok invariants steps s s' :
  fold_result (check_step invariants) s steps = Ok s' →
  linked s.2 steps ∧ NoDup (map sd_step_id steps) ∧
  ∀ step, step ∈ steps → sd_step_id step ∉ s.1.1.
Proof.
  revert s. induction steps as [|step steps IH]; intros s Hf; cbn [fold_result] in Hf.
  { split_and!; [done|constructor|by intros ? ?%elem_of_nil]. }
  destruct (check_step invariants s step) as [s1|] eqn:Hs; [|discriminate Hf].
  unfold check_step in Hs. destruct (bad_step invariants s step) eqn:Hb; [discriminate Hs|].
  injection Hs as <-. unfold bad_step in Hb. bool_to_prop.
  destruct (IH _ Hf) as (Hl & Hnd & Hall). simpl in *. split_and!.
  - intros p Hp. rewrite Hp in *. simpl in *. by bool_to_prop.
  - done.
  - constructor; [|done]. intros (step' & Heq & Hin)%list_elem_of_fmap. apply (Hall step' Hin). rewrite <-Heq. by left.
  - intros step' [->|Hin]%elem_of_cons; [by apply mem_false|].
    intros Hi. apply (Hall step' Hin). by right.
Qed.

Lemma position_Some {A} (p : A → bool) l i :
  position p l = Some i → ∃ x, l !! i = Some x ∧ p x = true.
Proof.
  revert i. induction l as [|x l IH]; intros i Hp; simpl in Hp; [done|].
  destruct (p x) eqn:Hx; [injection Hp as <-; by exists x|].
  destruct (position p l) as [j|]; [|done]. injection Hp as <-. by apply IH.
Qed.

Lemma resolved_cons k s steps :
  imap (λ j s, resolved_step (k + j) s) (s :: steps)
  = resolved_step k s :: imap (λ j s, resolved_step (S k + j) s) steps.
Proof.
  rewrite imap_cons, Nat.add_0_r. f_equal. apply imap_ext. intros j s' _. simpl.
  by rewrite Nat.add_succ_r.
Qed.

(** The resolved steps of a linked chain lead on. *)
Lemma linked_leads previous steps from k :
  linked previous steps → (∀ s, head steps = Some s → sd_from_version s = from) → steps ≠ [] →
  ∃ to, leads from (imap (λ j s, resolved_step (k + j) s) steps) to ∧
        (∃ s, last steps = Some s ∧ sd_to_version s = to).
Proof.
  revert previous from k. induction steps as [|s steps IH]; intros previous from k Hl Hf Hne; [done|].
  destruct Hl as [_ Hl]. destruct steps as [|s2 steps].
  { exists (sd_to_version s). simpl. split; [split; [by apply Hf|done]|by exists s]. }
  destruct (IH (Some (sd_to_version s)) (sd_to_version s) (S k)) as (to & Hlead & Hlast); [done| |done|].
  { intros s' [= <-]. destruct Hl as [Hl _]. symmetry. by apply Hl. }
  exists to. split; [|done]. rewrite resolved_cons. split; [by apply Hf|exact Hlead].
Qed.

Lemma linked_suffix previous l1 l2 : linked previous (l1 ++ l2) → ∃ previous', linked previous' l2.
Proof.
  revert previous. induction l1 as [|s l1 IH]; intros previous Hl; [by exists previous|].
  destruct Hl as [_ Hl]. by eapply IH.
Qed.

Lemma linked_prefix previous l1 l2 : linked previous (l1 ++ l2) → linked previous l1.
Proof.
  revert previous. induction l1 as [|s l1 IH]; intros previous Hl; [done|].
  destruct Hl as [? Hl]. by split; [|eapply IH].
Qed.

(** What a slice between two versions is. *)
Lemma chain_slice_spec from to steps sl :
  linked None steps → NoDup (map sd_step_id steps) → chain_slice from to steps = Some sl →
  sl ≠ [] ∧ NoDup (map sd_step_id sl) ∧ leads from (imap resolved_step sl) to.
Proof.
  unfold chain_slice. intros Hl Hnd Hs.
  destruct (position (λ s, String.eqb (sd_from_version s) from) steps) as [i|] eqn:Hi; simpl in Hs; [|discriminate Hs].
  destruct (position (λ s, String.eqb (sd_to_version s) to) steps) as [j|] eqn:Hj; simpl in Hs; [|discriminate Hs].
  destruct (Nat.leb_spec i j) as [Hle|]; [|discriminate Hs]. injection Hs as <-.
  apply position_Some in Hi as (si & Hi & Hfi). apply position_Some in Hj as (sj & Hj & Htj). bool_to_prop.
  set (sl := take (S j - i) (drop i steps)).
  assert (sl ≠ []) as Hne.
  { unfold sl. rewrite (Nat.sub_succ_l i j) by lia. rewrite (drop_S _ _ _ Hi). simpl. discriminate. }
  assert (linked None steps → ∃ p, linked p sl) as Hlinked.
  { intros _. rewrite <-(take_drop i steps) in Hl. apply linked_suffix in Hl as [p Hl]. exists p.
    rewrite <-(take_drop (S j - i) (drop i steps)) in Hl. by apply linked_prefix in Hl. }
  destruct (Hlinked Hl) as [p Hp].
  split; [done|]. split.
  { unfold sl. rewrite <-(take_drop i steps), map_app in Hnd. apply NoDup_app in Hnd as (_ & _ & Hnd).
    rewrite <-(take_drop (S j - i) (drop i steps)), map_app in Hnd. by apply NoDup_app in Hnd as (? & _). }
  destruct (linked_leads p sl from 0 Hp) as (to' & Hlead & s & Hlast & Hto).
  - intros s Hs. unfold sl in Hs. rewrite (Nat.sub_succ_l i j), (drop_S _ _ _ Hi) in Hs by lia.
    simpl in Hs. by injection Hs as <-.
  - done.
  - assert (to' = to) as ->; [|exact Hlead]. rewrite <-Hto.
    assert (last sl = Some sj) as Hsj; [|rewrite Hsj in Hlast; by injection Hlast as <-].
    unfold sl. rewrite last_lookup, length_take, length_drop.
    assert (j < length steps) as Hlt by (by eapply lookup_lt_Some).
    rewrite Nat.min_l by lia. rewrite lookup_take_lt by lia. rewrite lookup_drop.
    by replace (i + Init.Nat.pred (S j - i)) with j by lia.
Qed.

(** ** Declared chains

    [connects steps from to seg]: [seg] leaves [from] at the first step of the
    chain that does, and ends with the first step that reaches [to]. *)
Definition connects (steps : list MigrationStepDefinition) (from to : string)
    (seg : list MigrationStepDefinition) : Prop :=
  ∃ before front final after first,
    steps = before ++ seg ++ after ∧ seg = front ++ [final] ∧ head seg = Some first ∧
    sd_from_version first = from ∧ sd_to_version final = to ∧
    (∀ s, s ∈ before → sd_from_version s ≠ from) ∧
    (∀ s, s ∈ before ++ front → sd_to_version s ≠ to).

Lemma position_app {A} (p : A → bool) l1 l2 :
  (∀ x, x ∈ l1 → p x = false) → position p (l1 ++ l2) = Nat.add (length l1) <$> position p l2.
Proof.
  induction l1 as [|x l1 IH]; intros Hl; simpl; [by destruct (position p l2)|].
  rewrite (Hl x) by left. rewrite IH by (intros y Hy; apply Hl; by right).
  by destruct (position p l2).
Qed.

Lemma position_split {A} (p : A → bool) l i :
  position p l = Some i →
  ∃ l1 x l2, l = l1 ++ x :: l2 ∧ length l1 = i ∧ p x = true ∧ ∀ y, y ∈ l1 → p y = false.
Proof.
  revert i. induction l as [|x l IH]; intros i Hp; simpl in Hp; [done|].
  destruct (p x) eqn:Hx.
  - injection Hp as <-. exists [], x, l. split_and!; [done..|]. intros y. by rewrite elem_of_nil.
  - destruct (position p l) as [j|]; [|done]. injection Hp as <-.
    destruct (IH j eq_refl) as (l1 & y & l2 & -> & <- & Hy & Hl). exists (x :: l1), y, l2.
    split_and!; [done..|]. by intros z [->|Hz]%elem_of_cons; [|apply Hl].
Qed.

Lemma connects_slice steps from to seg :
  connects steps from to seg → chain_slice from to steps = Some seg.
Proof.
  intros (before & front & final & after & first & -> & -> & Hh & Hf & Ht & Hb & Hr).
  assert (position (λ s, String.eqb (sd_from_version s) from)
            (before ++ (front ++ [final]) ++ after) = Some (length before)) as Hi.
  { rewrite position_app by (intros x Hx; apply String.eqb_neq; by apply Hb).
    destruct (front ++ [final]) as [|x l]; [done|]. simpl in *. injection Hh as ->.
    rewrite Hf, String.eqb_refl. simpl. by rewrite Nat.add_0_r. }
  assert (position (λ s, String.eqb (sd_to_version s) to)
            (before ++ (front ++ [final]) ++ after) = Some (length (before ++ front))) as Hj.
  { rewrite <-(assoc_L (++) front), (assoc_L (++) before front).
    rewrite position_app by (intros x Hx; apply String.eqb_neq; by apply Hr).
    simpl. rewrite Ht, String.eqb_refl. simpl. by rewrite Nat.add_0_r. }
  unfold chain_slice. rewrite Hi, Hj. cbn [mbind option_bind].
  rewrite (proj2 (Nat.leb_le _ _)) by (rewrite length_app; lia). f_equal.
  rewrite drop_app_length.
  replace (S (length (before ++ front)) - length before) with (length (front ++ [final]))
    by (rewrite !length_app; simpl; lia).
  apply take_app_length.
Qed.

Lemma slice_connects steps from to seg :
  chain_slice from to steps = Some seg → connects steps from to seg.
Proof.
  unfold chain_slice. intros Hs.
  destruct (position (λ s, String.eqb (sd_from_version s) from) steps) as [i|] eqn:Hi; cbn [mbind option_bind] in Hs; [|done].
  destruct (position (λ s, String.eqb (sd_to_version s) to) steps) as [j|] eqn:Hj; cbn [mbind option_bind] in Hs; [|done].
  destruct (Nat.leb_spec i j) as [Hle|]; [|done]. injection Hs as <-.
  apply position_split in Hi as (before & first & rest & -> & <- & Hf & Hb).
  apply position_split in Hj as (l1 & final & after & Heq & <- & Ht & Hr). bool_to_prop.
  destruct (app_eq_inv before (first :: rest) l1 (final :: after) Heq) as [(k & -> & Hk)|(k & -> & Hk)].
  { rewrite length_app in Hle. assert (k = []) as -> by (apply length_zero_iff_nil; lia).
    simpl in Hk. injection Hk as -> ->. rewrite app_nil_r in *.
    exists l1, [], first, rest, first. rewrite drop_app_length, Nat.sub_succ_l, Nat.sub_diag by lia.
    split_and!; try done; [|rewrite app_nil_r]; intros s Hs; apply String.eqb_neq; auto. }
  exists before, k, final, after, first. rewrite drop_app_length, Hk.
  assert (take (S (length (before ++ k)) - length before) (k ++ final :: after) = k ++ [final]) as ->.
  { replace (S (length (before ++ k)) - length before) with (length (k ++ [final]))
      by (rewrite !length_app; simpl; lia).
    change (final :: after) with ([final] ++ after). rewrite (assoc_L (++)). apply take_app_length. }
  split_and!; try done.
  - by rewrite <-(assoc_L (++) k).
  - destruct k as [|x k]; simpl in Hk |- *; by injection Hk as <-.
  - intros s Hs. apply String.eqb_neq. by apply Hb.
  - intros s Hs. apply String.eqb_neq. by apply Hr.
Qed.

(** Exactly one chain of the target connects the versions, by [seg]. *)
Definition one_chain (m : ProjectMigrationManifest) (target_id from to : string)
    (seg : list MigrationStepDefinition) : Prop :=
  ∃ pre c post, pm_migration_chains m = pre ++ c :: post ∧ mc_target_id c = target_id ∧
    connects (mc_steps c) from to seg ∧
    ∀ c' seg', c' ∈ pre ++ post → mc_target_id c' = target_id → ¬ connects (mc_steps c') from to seg'.

Definition no_chain (m : ProjectMigrationManifest) (target_id from to : string) : Prop :=
  ∀ c seg, c ∈ pm_migration_chains m → mc_target_id c = target_id →
    ¬ connects (mc_steps c) from to seg.

Lemma slice_None steps from to :
  chain_slice from to steps = None ↔ ∀ seg, ¬ connects steps from to seg.
Proof.
  split.
  - intros Hn seg Hc. apply connects_slice in Hc. congruence.
  - intros Hn. destruct (chain_slice from to steps) as [seg|] eqn:Hs; [|done].
    by destruct (Hn seg (slice_connects _ _ _ _ Hs)).
Qed.

Lemma omap_filter_nil {A B} (f : A → option B) (p : A → bool) l :
  omap f (List.filter p l) = [] ↔ ∀ x, x ∈ l → p x = true → f x = None.
Proof.
  induction l as [|x l IH]; simpl; [set_solver|]. destruct (p x) eqn:Hp; simpl.
  - destruct (f x) as [y|] eqn:Hf.
    + split; [done|]. intros Hn. specialize (Hn x). rewrite Hf in Hn. by discriminate Hn; [left|].
    + rewrite IH. split; intros Hn; [|set_solver]. by intros z [->|Hz]%elem_of_cons; [|apply Hn].
  - rewrite IH. split; intros Hn; [|set_solver].
    intros z [->|Hz]%elem_of_cons Hz'; [congruence|by apply Hn].
Qed.

Lemma omap_filter_one {A B} (f : A → option B) (p : A → bool) l y :
  omap f (List.filter p l) = [y] ↔
  ∃ pre x post, l = pre ++ x :: post ∧ p x = true ∧ f x = Some y ∧
    ∀ x', x' ∈ pre ++ post → p x' = true → f x' = None.
Proof.
  split.
  - induction l as [|x l IH]; simpl; [done|]. intros Ho.
    assert ((p x = true ∧ f x = Some y ∧ omap f (List.filter p l) = []) ∨
      ((p x = true → f x = None) ∧ omap f (List.filter p l) = [y])) as [(Hp & Hf & Hn)|[Hx Hl]].
    { destruct (p x); simpl in Ho; [|by right]. destruct (f x) as [z|]; [|by right].
      injection Ho as -> Hn. by left. }
    + exists [], x, l. split_and!; [done..|]. by apply omap_filter_nil.
    + destruct (IH Hl) as (pre & z & post & -> & Hpz & Hfz & Hn). exists (x :: pre), z, post.
      split_and!; try done. by intros x' [->|Hin]%elem_of_cons; [|apply Hn].
  - intros (pre & x & post & -> & Hp & Hf & Hn).
    rewrite List.filter_app, omap_app. cbn [List.filter]. rewrite Hp.
    change (x :: List.filter p post) with ([x] ++ List.filter p post). rewrite omap_app.
    rewrite (proj2 (omap_filter_nil f p pre)), (proj2 (omap_filter_nil f p post));
      [simpl; by rewrite Hf|..]; intros x' Hx'; apply Hn, elem_of_app; auto.
Qed.

Lemma matches_none m target from to :
  chain_matches m target from to = [] ↔ no_chain m target from to.
Proof.
  unfold chain_matches, no_chain. rewrite omap_filter_nil. split.
  - intros Hn c seg Hc Ht. apply slice_None, Hn; [done|]. by apply String.eqb_eq.
  - intros Hn c Hc Ht. apply slice_None. intros seg. apply Hn; [done|]. by apply String.eqb_eq.
Qed.

Lemma matches_one m target from to seg :
  chain_matches m target from to = [seg] ↔ one_chain m target from to seg.
Proof.
  unfold chain_matches, one_chain. rewrite omap_filter_one.
  split; intros (pre & c & post & Hl & Ht & Hs & Hn); exists pre, c, post; split_and!; try done.
  - by apply String.eqb_eq.
  - by apply slice_connects.
  - intros c' seg' Hc Ht'. apply slice_None, Hn; [done|]. by apply String.eqb_eq.
  - by apply String.eqb_eq.
  - by apply connects_slice.
  - intros c' Hc Ht'. apply slice_None. intros seg'. apply Hn; [done|]. by apply String.eqb_eq.
Qed.

Lemma imap_ids sl : map rs_step_id (imap resolved_step sl) = map sd_step_id sl.
Proof.
  change (map ?f ?l) with (f <$> l). rewrite fmap_imap. generalize 0.
  assert (∀ (g : nat → MigrationStepDefinition → string), (∀ i s, g i s = sd_step_id s) →
    imap g sl = sd_step_id <$> sl) as Hg; [|intros _; by apply Hg].
  induction sl as [|s sl IH]; intros g Hgs; [done|]. rewrite imap_cons, fmap_cons. f_equal; [apply Hgs|].
  apply IH. intros i s'. apply Hgs.
Qed.

Lemma manifest_chains m chain :
  validate_project_migration_manifest m = Ok tt → chain ∈ pm_migration_chains m →
  linked None (mc_steps chain) ∧ NoDup (map sd_step_id (mc_steps chain)).
Proof.
  unfold validate_project_migration_manifest. intros Hv. err_cases Hv. clear -Heqr. revert Heqr.
  generalize ([] : list string) as seen. revert a.
  induction (pm_migration_chains m) as [|c chains IH]; intros a seen Hf Hin;
    [by apply elem_of_nil in Hin|]. cbn [fold_result] in Hf.
  destruct (check_chain _ _ seen c) as [seen'|] eqn:Hc; [|discriminate Hf].
  apply elem_of_cons in Hin as [->|Hin]; [|by eapply IH].
  unfold check_chain, validate_chain in Hc. err_cases Hc.
  destruct (fold_result (check_step _) _ _) as [s|] eqn:Hs; [|done].
  apply check_steps_ok in Hs. split; apply Hs.
Qed.

Lemma chain_matches_spec m target from to sl :
  validate_project_migration_manifest m = Ok tt → sl ∈ chain_matches m target from to →
  sl ≠ [] ∧ NoDup (map sd_step_id sl) ∧ leads from (imap resolved_step sl) to ∧
  ∃ chain, chain ∈ pm_migration_chains m ∧ mc_target_id chain = target ∧ sl ⊆ mc_steps chain.
Proof.
  intros Hv (chain & Hin & Hs)%list_elem_of_omap.
  apply list_elem_of_In, filter_In in Hin as [Hin Ht]. apply list_elem_of_In in Hin. bool_to_prop.
  destruct (manifest_chains m chain Hv Hin) as [Hl Hnd].
  destruct (chain_slice_spec _ _ _ _ Hl Hnd Hs) as (Hne & Hnd' & Hlead).
  split_and!; [done..|]. exists chain. split_and!; [done..|].
  unfold chain_slice in Hs. destruct (position (λ s, String.eqb (sd_from_version s) from) _) as [i|];
    simpl in Hs; [|discriminate Hs].
  destruct (position _ _) as [j|]; simpl in Hs; [|discriminate Hs].
  destruct (i <=? j)%nat; [|discriminate Hs]. injection Hs as <-.
  intros s (k & Hk & _)%elem_of_take. rewrite lookup_drop in Hk. by eapply list_elem_of_lookup_2.
Qed.

(** ** The plan *)

Section plan_facts.
Context `{Platform}.

Definition observed_entry (input : MigrationPlanInput) : option MigrationVersionEntry :=
  find (λ e, String.eqb (ve_axis_id e) (mn_target_id input))
    (vv_entries (mn_observed_version_vector input)).

(** The version of the target that was observed. *)
Definition observed_at (input : MigrationPlanInput) (version : string) : Prop :=
  ∃ e, observed_entry input = Some e ∧ ve_observation_state e = VersionObserved ∧
       ve_observed_version e = Some version.

Lemma build_plan_parts m input p :
  build_migration_plan m input = Some (Ok p) →
  validate_project_migration_manifest m = Ok tt ∧
  ∃ target support vector h,
    target ∈ pm_target_specs m ∧ mt_target_id target = mn_target_id input ∧
    support_of m target (observed_entry input) = Some support ∧
    p = with_plan_fingerprint (unsealed_plan m input support vector) h.
Proof.
  unfold build_migration_plan. fold (observed_entry input). intros Hb.
  destruct (validate_project_migration_manifest m) as [[]|]; [|done]. split; [done|].
  destruct (validate_vector _); [|done]. destruct (bad_input input); [done|].
  destruct (find (λ t, _) _) as [target|] eqn:Ht; [|done].
  apply find_some in Ht as [Hin Ht]. apply list_elem_of_In in Hin. bool_to_prop.
  destruct (support_of m target _) as [support|] eqn:Hs; [|done]. cbn in Hb.
  destruct (seal_migration_version_vector _) as [vector|]; [|done].
  destruct (migration_plan_fingerprint _) as [h|]; [|done].
  injection Hb as <-. by exists target, support, vector, h.
Qed.

Lemma support_cases m target input support :
  support_of m target (observed_entry input) = Some support →
  (support.1.1 = CurrentSupported ∧ support.1.2 = [] ∧ observed_at input (mt_target_version target)) ∨
  (∃ v, observed_at input v ∧ v ≠ mt_target_version target ∧
     support = resolve_chain m (mt_target_id target) v (mt_target_version target)) ∨
  (support.1.2 = [] ∧ support.2 ≠ [] ∧ (support.1.1 = UnknownVersion ∨ support.1.1 = CorruptVersion) ∧
   ∀ v, ¬ observed_at input v).
Proof.
  unfold support_of, observed_at. intros Hs.
  destruct (observed_entry input) as [e|].
  - destruct (ve_observation_state e) eqn:Hst.
    + destruct (ve_observed_version e) as [v|] eqn:Hv; [|done].
      destruct (String.eqb_spec v (mt_target_version target)) as [->|Hne]; injection Hs as <-.
      * left. split_and!; [done|done|by exists e].
      * right; left. exists v. split_and!; [by exists e|done|done].
    + injection Hs as <-. right; right. split_and!; [done|done|by left|].
      intros v (e' & [= <-] & Ho & _). congruence.
    + injection Hs as <-. right; right. split_and!; [done|done|by right|].
      intros v (e' & [= <-] & Ho & _). congruence.
  - injection Hs as <-. right; right. split_and!; [done|done|by left|].
    by intros v (e' & ? & _).
Qed.

Lemma plan_leads m input p :
  build_migration_plan m input = Some (Ok p) → mp_support_decision p = Migratable →
  ∃ target v, target ∈ pm_target_specs m ∧ observed_at input v ∧
    NoDup (map rs_step_id (mp_ordered_steps p)) ∧
    leads v (mp_ordered_steps p) (mt_target_version target).
Proof.
  intros (Hv & target & support & vector & h & Hin & Hid & Hs & ->)%build_plan_parts. simpl.
  intros Hd. exists target.
  apply support_cases in Hs as [(Hd' & _)|[(v & Ho & Hne & ->)|(_ & _ & Hd' & _)]];
    [congruence| |destruct Hd'; congruence].
  unfold resolve_chain in *.
  pose proof (chain_matches_spec m (mt_target_id target) v (mt_target_version target)) as Hcm.
  destruct (chain_matches m _ v _) as [|sl [|sl' rest]]; try discriminate Hd.
  destruct (Hcm sl Hv) as (_ & Hnd & Hlead & _); [by left|].
  exists v. simpl. split_and!; [done|done|by rewrite imap_ids|done].
Qed.

Lemma observed_unique input v w : observed_at input v → observed_at input w → v = w.
Proof. intros (e & He & _ & Hve) (e' & He' & _ & Hwe). congruence. Qed.

(** What the support of a target says of its chains. *)
Definition supports (m : ProjectMigrationManifest) (input : MigrationPlanInput)
    (target : MigrationTargetSpec) (support : resolution) : Prop :=
  (support.1.1 = CurrentSupported ↔ observed_at input (mt_target_version target)) ∧
  (support.1.1 = Migratable ↔
     ∃ v seg, observed_at input v ∧ v ≠ mt_target_version target ∧
              one_chain m (mt_target_id target) v (mt_target_version target) seg) ∧
  (support.1.1 = ChainGap ↔
     ∃ v, observed_at input v ∧ v ≠ mt_target_version target ∧
          no_chain m (mt_target_id target) v (mt_target_version target)) ∧
  (support.1.1 = Migratable → support.1.2 ≠ [] ∧ NoDup (map rs_step_id support.1.2) ∧
     ∃ v seg, observed_at input v ∧
       one_chain m (mt_target_id target) v (mt_target_version target) seg ∧
       support.1.2 = imap resolved_step seg ∧ leads v support.1.2 (mt_target_version target)) ∧
  (support.1.1 ≠ Migratable → support.1.2 = []) ∧
  (support.1.1 ≠ Migratable → support.1.1 ≠ CurrentSupported → support.2 ≠ []).

(** Another version than the target was observed. *)
Lemma chain_supports m input target v :
  validate_project_migration_manifest m = Ok tt → observed_at input v →
  v ≠ mt_target_version target →
  supports m input target (resolve_chain m (mt_target_id target) v (mt_target_version target)).
Proof.
  intros Hv Ho Hne.
  pose proof (chain_matches_spec m (mt_target_id target) v (mt_target_version target)) as Hcm.
  pose proof (matches_none m (mt_target_id target) v (mt_target_version target)) as Hnone.
  pose proof (matches_one m (mt_target_id target) v (mt_target_version target)) as Hone.
  assert (∀ P : string → Prop, (∃ w, observed_at input w ∧ w ≠ mt_target_version target ∧ P w) ↔ P v)
    as Hat.
  { intros P. split; [|by exists v]. intros (w & Hw & _ & HP). by rewrite (observed_unique input v w). }
  assert (observed_at input (mt_target_version target) → False) as Hcur.
  { intros Ho'. by destruct Hne; apply (observed_unique input). }
  assert ((∃ w, observed_at input w ∧ w ≠ mt_target_version target ∧
      ∃ seg, one_chain m (mt_target_id target) w (mt_target_version target) seg) ↔
    ∃ seg, chain_matches m (mt_target_id target) v (mt_target_version target) = [seg]) as Hat1.
  { rewrite (Hat (λ w, ∃ seg, one_chain m _ w _ seg)). by setoid_rewrite Hone. }
  assert ((∃ w seg, observed_at input w ∧ w ≠ mt_target_version target ∧
      one_chain m (mt_target_id target) w (mt_target_version target) seg) ↔
    ∃ seg, chain_matches m (mt_target_id target) v (mt_target_version target) = [seg]) as Hmig.
  { rewrite <-Hat1. naive_solver. }
  specialize (Hat (λ w, no_chain m (mt_target_id target) w (mt_target_version target))).
  cbv beta in Hat. rewrite <-Hnone in Hat. unfold supports. rewrite Hmig, Hat. clear Hmig Hat Hat1.
  unfold resolve_chain.
  destruct (chain_matches m _ v _) as [|sl [|sl' rest]] eqn:Hm; simpl; [naive_solver| |naive_solver].
  destruct (Hcm sl Hv) as (_ & Hnd & Hlead & _); [by left|].
  split_and!; [naive_solver|naive_solver|naive_solver| |done|done].
  intros _. split_and!; [by destruct sl|by rewrite imap_ids|].
  exists v, sl. split_and!; [done|by apply Hone|done|done].
Qed.

Lemma support_supports m input target support :
  validate_project_migration_manifest m = Ok tt →
  support_of m target (observed_entry input) = Some support → supports m input target support.
Proof.
  intros Hv Hs.
  apply support_cases in Hs as [(Hd & Hst & Ho)|[(v & Ho & Hne & ->)|(Hst & Hb & Hd & Hno)]].
  - unfold supports. rewrite Hd. split_and!; try done; (split; [done|]).
    + intros (v & seg & Hov & Hne & _). by destruct Hne; apply (observed_unique input).
    + intros (v & Hov & Hne & _). by destruct Hne; apply (observed_unique input).
  - by apply chain_supports.
  - unfold supports. split_and!; try done; [| | |by destruct Hd as [-> | ->]].
    all: (split; [by destruct Hd as [-> | ->]|]); clear -Hno; naive_solver.
Qed.

(** A destructive step asks for its permission and does not go with a change in place. *)
Lemma destructive_asks (checkpoints blockers : list string) strategy steps s :
  s ∈ steps → rs_effect_class s = EffectLiveDestructive →
  "live_destructive" ∈ sort_dedup (checkpoints ++
    if existsb (λ s, bool_decide (rs_effect_class s = EffectLiveDestructive)) steps
    then ["live_destructive"] else []) ∧
  (strategy = TransactionalInPlace →
   sort_dedup (blockers ++ strategy_blockers strategy steps) ≠ []).
Proof.
  intros Hs He. split.
  - apply elem_of_sort_dedup, elem_of_app. right.
    assert (existsb (λ s, bool_decide (rs_effect_class s = EffectLiveDestructive)) steps = true)
      as -> by (apply existsb_true; exists s; split; [done|by apply bool_decide_true]).
    by left.
  - intros ->. rewrite sort_dedup_nil. intros [_ Hb]%app_nil. unfold strategy_blockers in Hb.
    rewrite bool_decide_true in Hb by done. simpl in Hb.
    assert (existsb (λ s, negb (bool_decide (rs_effect_class s = EffectLiveNondestructive))) steps
            = true) as Hex; [|by rewrite Hex in Hb].
    apply existsb_true. exists s. split; [done|]. rewrite bool_decide_false; [done|by rewrite He].
Qed.

(** C19: the plan made from a manifest and an observed version is current exactly when
    the version is the target, migratable exactly when it is another one that
    one chain declared for the target connects to it, and a gap exactly when no
    chain does. The steps of a migratable plan are those of the chain between
    the first that leaves the observed version and the first that reaches the
    target; they lead from one to the other, without a step twice. Any plan that is
    neither current nor migratable is blocked, no step is planned unless it is
    migratable, and destructive steps always ask for their permission. *)
Theorem migration_plan_exact m input p :
  build_migration_plan m input = Some (Ok p) →
  ∃ target, target ∈ pm_target_specs m ∧ mt_target_id target = mn_target_id input ∧
    (mp_support_decision p = CurrentSupported ↔ observed_at input (mt_target_version target)) ∧
    (mp_support_decision p = Migratable ↔
       ∃ v seg, observed_at input v ∧ v ≠ mt_target_version target ∧
                one_chain m (mt_target_id target) v (mt_target_version target) seg) ∧
    (mp_support_decision p = ChainGap ↔
       ∃ v, observed_at input v ∧ v ≠ mt_target_version target ∧
            no_chain m (mt_target_id target) v (mt_target_version target)) ∧
    (mp_support_decision p = Migratable → mp_ordered_steps p ≠ [] ∧
       NoDup (map rs_step_id (mp_ordered_steps p)) ∧
       ∃ v seg, observed_at input v ∧
         one_chain m (mt_target_id target) v (mt_target_version target) seg ∧
         mp_ordered_steps p = imap resolved_step seg ∧
         leads v (mp_ordered_steps p) (mt_target_version target)) ∧
    (mp_support_decision p ≠ Migratable → mp_ordered_steps p = []) ∧
    (mp_support_decision p ≠ Migratable → mp_support_decision p ≠ CurrentSupported →
       mp_blockers p ≠ []) ∧
    (∀ s, s ∈ mp_ordered_steps p → rs_effect_class s = EffectLiveDestructive →
       "live_destructive" ∈ mp_permission_checkpoints p ∧
       (mp_strategy p = TransactionalInPlace → mp_blockers p ≠ [])).
Proof.
  intros (Hv & target & support & vector & h & Hin & Hid & Hs & ->)%build_plan_parts.
  exists target. split; [done|]. split; [done|]. simpl.
  destruct (support_supports m input target support Hv Hs) as (H1 & H2 & H3 & H4 & H5 & H6).
  split_and!; [done..| |intros s; apply destructive_asks].
  intros Hd Hc. rewrite sort_dedup_nil. intros [Hb _]%app_nil. by apply H6.
Qed.

(** Planning panics on exactly one kind of input that passes all its
    checks: an entry for the target that is observed without a version. Such an
    entry carries a correct fingerprint when its sender computes one; a vector
    that was sealed never has it. *)
Theorem planning_panics_exactly m input :
  (build_migration_plan m input = None ↔
   validate_project_migration_manifest m = Ok tt ∧
   validate_vector (mn_observed_version_vector input) = Ok tt ∧
   bad_input input = false ∧
   mn_target_id input ∈ map mt_target_id (pm_target_specs m) ∧
   ∃ e, observed_entry input = Some e ∧ ve_observation_state e = VersionObserved ∧
        ve_observed_version e = None) ∧
  (∀ entries, seal_migration_version_vector entries = Ok (mn_observed_version_vector input) →
     build_migration_plan m input ≠ None).
Proof.
  assert (build_migration_plan m input = None ↔
   validate_project_migration_manifest m = Ok tt ∧
   validate_vector (mn_observed_version_vector input) = Ok tt ∧
   bad_input input = false ∧
   mn_target_id input ∈ map mt_target_id (pm_target_specs m) ∧
   ∃ e, observed_entry input = Some e ∧ ve_observation_state e = VersionObserved ∧
        ve_observed_version e = None) as Hiff.
  { unfold build_migration_plan. fold (observed_entry input).
    destruct (validate_project_migration_manifest m) as [[]|]; [|naive_solver].
    destruct (validate_vector _) as [[]|]; [|naive_solver]. destruct (bad_input input); [naive_solver|].
    destruct (find (λ t, _) _) as [target|] eqn:Ht.
    - apply find_some in Ht as [Hin Ht]. bool_to_prop.
      assert (mn_target_id input ∈ map mt_target_id (pm_target_specs m)) as Htin.
      { rewrite <-Ht. by apply list_elem_of_fmap_2, list_elem_of_In. }
      unfold support_of. destruct (observed_entry input) as [e|]; [|naive_solver].
      assert (∀ (P1 P2 P3 : Prop) (r : option (result MigrationPlanV2 DevelopmentError)), r ≠ None →
        ¬ (ve_observation_state e = VersionObserved ∧ ve_observed_version e = None) →
        r = None ↔ P1 ∧ P2 ∧ P3 ∧
          mn_target_id input ∈ map mt_target_id (pm_target_specs m) ∧
          ∃ e', Some e = Some e' ∧ ve_observation_state e' = VersionObserved ∧
                ve_observed_version e' = None) as Hno.
      { intros P1 P2 P3 r Hr He. split; [done|]. by intros (_ & _ & _ & _ & e' & [= <-] & ?). }
      destruct (ve_observation_state e) eqn:Hst.
      + destruct (ve_observed_version e) as [v|] eqn:Hve.
        * destruct (String.eqb v _); apply Hno; naive_solver.
        * split; [|done]. intros _. split_and!; [done..|]. by exists e.
      + apply Hno; naive_solver.
      + apply Hno; naive_solver.
    - split; [done|]. intros (_ & _ & _ & Hin & _). exfalso.
      apply list_elem_of_fmap in Hin as (t & Heq & Hin).
      pose proof (find_none _ _ Ht t) as Hn. simpl in Hn. rewrite <-Heq, String.eqb_refl in Hn.
      by discriminate Hn; apply list_elem_of_In. }
  split; [done|]. intros entries Hs (_ & _ & _ & _ & e & He & Hst & Hve)%Hiff.
  unfold seal_migration_version_vector in Hs. err_cases Hs. injection Hs as Hs.
  unfold observed_entry in He. rewrite <-Hs in He. simpl in He. apply find_some in He as [Hin _].
  apply orb_false_iff in Heqb as [_ Hbad]. rewrite existsb_false in Hbad.
  specialize (Hbad e ltac:(by apply list_elem_of_In)). unfold bad_entry in Hbad.
  rewrite Hst, Hve in Hbad. simpl in Hbad. by rewrite orb_true_r in Hbad.
Qed.
End plan_facts.

(** ** Checkpoints *)

Section checkpoint_facts.
Context `{Platform}.

Lemma sealed_checkpoint plan c c' :
  seal_migration_checkpoint plan c = Ok c' →
  ∃ h, c' = with_checkpoint_fingerprint c h ∧
  mk_plan_fingerprint c = mp_plan_fingerprint plan ∧
  mk_completed_step_refs c
  = map rs_step_id (take (length (mk_completed_step_refs c)) (mp_ordered_steps plan)) ∧
  (∀ step, mk_in_progress_step_ref c = Some step →
     ∃ s, mp_ordered_steps plan !! length (mk_completed_step_refs c) = Some s ∧ rs_step_id s = step ∧
          (mk_replay_safe c = true ∨ mk_reconciliation_required c = true)).
Proof.
  unfold seal_migration_checkpoint. intros Hs. err_cases Hs. bool_to_prop. injection Hs as <-.
  exists a. split_and!; try done. intros step Hp.
  destruct (mp_ordered_steps plan !! length (mk_completed_step_refs c)) as [s|]; rewrite Hp in *;
    simpl in *; [|done]. bool_to_prop. exists s. split_and!; [done|done|].
  destruct (mk_replay_safe c); [by left|]. destruct (mk_reconciliation_required c); [by right|done].
Qed.

(** Composition of plans and checkpoints: a checkpoint sealed against a migratable plan cuts
    its steps at a version: the completed ones lead there from the observed version, the
    remaining ones lead on to the target, no step is in both, and the step
    in progress is the first of the remaining ones. *)
Theorem checkpoint_can_be_continued m input p c c' :
  build_migration_plan m input = Some (Ok p) → mp_support_decision p = Migratable →
  seal_migration_checkpoint p c = Ok c' →
  ∃ target v mid finished rest,
    target ∈ pm_target_specs m ∧ observed_at input v ∧
    mp_ordered_steps p = finished ++ rest ∧
    mk_completed_step_refs c' = map rs_step_id finished ∧
    leads v finished mid ∧ leads mid rest (mt_target_version target) ∧
    (∀ s, s ∈ rest → rs_step_id s ∉ mk_completed_step_refs c') ∧
    (∀ step, mk_in_progress_step_ref c' = Some step → rs_step_id <$> head rest = Some step).
Proof.
  intros Hb Hd (h & -> & _ & Hc & Hp)%sealed_checkpoint.
  pose proof (plan_leads m input p Hb Hd) as (target & v & Hin & Ho & Hnd & Hlead).
  set (n := length (mk_completed_step_refs c)) in *.
  rewrite <-(take_drop n (mp_ordered_steps p)) in Hlead. apply leads_app in Hlead as (mid & H1 & H2).
  exists target, v, mid, (take n (mp_ordered_steps p)), (drop n (mp_ordered_steps p)).
  split_and!; try done.
  - by rewrite take_drop.
  - intros s Hs. simpl. rewrite Hc. intros Hbad.
    rewrite <-(take_drop n (mp_ordered_steps p)), map_app in Hnd.
    apply NoDup_app in Hnd as (_ & Hdis & _). apply (Hdis _ Hbad). by apply list_elem_of_fmap_2.
  - intros step Hs. simpl in Hs. destruct (Hp step Hs) as (s & Hl & <- & _).
    by rewrite (drop_S _ _ _ Hl).
Qed.
End checkpoint_facts.

(** ** Attempts *)

Section attempt_facts.
Context `{Platform}.
Variable plan : MigrationPlanV2.

(** The attempts of a plan, each sealed against those before it. *)
Inductive attempts : list MigrationAttempt → Prop :=
| attempts_nil : attempts []
| attempts_snoc previous a a' :
    attempts previous → seal_migration_attempt plan previous a = Ok a' →
    attempts (previous ++ [a']).

(** A succeeded attempt of each phase, every one before the next. *)
Fixpoint climbed (history : list MigrationAttempt) (i : nat) (phases : list MigrationPhase) : Prop :=
  match phases with
  | [] => True
  | phase :: phases =>
      ∃ j a, j < i ∧ history !! j = Some a ∧ ma_phase a = phase ∧ ma_state a = AttemptSucceeded ∧
             climbed history j phases
  end.

(** What has to succeed before the target is written, from the last to the first. *)
Definition rehearsed : list MigrationPhase :=
  [MigPreExecuteGate; MigMigrationRehearsal; MigRestoreRehearsal; MigBackupVerify; MigBackup; MigDryRun].

Lemma sealed_attempt previous a a' :
  seal_migration_attempt plan previous a = Ok a' →
  migration_phase_prerequisites_met plan previous (ma_phase a') = true ∧
  (live_effect (ma_phase a') = true →
     is_Some (ma_permission_decision_ref a') ∧ is_Some (ma_gate_decision_ref a')) ∧
  (ma_state a' = AttemptSucceeded → ma_receipt_refs a' ≠ [] ∧ is_Some (ma_subject_binding_after a')) ∧
  (ma_state a' = AttemptOutcomeUnknown → ma_effect_committed a' = None) ∧
  (ma_state a' = AttemptPartiallyApplied → is_Some (ma_checkpoint_after_ref a')) ∧
  (∀ b, b ∈ previous → ma_attempt_id b ≠ ma_attempt_id a' ∧ ma_attempt_no b ≠ ma_attempt_no a').
Proof.
  unfold seal_migration_attempt. intros Hs. err_cases Hs. bool_to_prop. injection Hs as <-. simpl.
  split_and!.
  - done.
  - intros Hl. rewrite Hl in *. simpl in *. bool_to_prop.
    destruct (ma_permission_decision_ref a), (ma_gate_decision_ref a); done.
  - intros Hst. rewrite bool_decide_true in * by done. simpl in *. bool_to_prop.
    split; [rewrite sort_dedup_nil; by intros Hn; rewrite Hn in *|].
    by destruct (ma_subject_binding_after a).
  - intros Hst. by rewrite bool_decide_true.
  - intros Hst. rewrite (bool_decide_true (ma_state a = AttemptPartiallyApplied)) in * by done.
    simpl in *. by destruct (ma_checkpoint_after_ref a).
  - intros b Hb.
    repeat match goal with Hx : existsb _ previous = false |- _ =>
      rewrite existsb_false in Hx; specialize (Hx b Hb) end.
    bool_to_prop. done.
Qed.

Lemma attempts_at history i a' :
  attempts history → history !! i = Some a' →
  ∃ a, seal_migration_attempt plan (take i history) a = Ok a'.
Proof.
  induction 1 as [|previous a b Hh IH Hs]; [done|]. intros [Hi|[Hle Hi]]%lookup_app_Some.
  - rewrite take_app_le; [by apply IH|]. apply lookup_lt_Some in Hi. lia.
  - destruct (i - length previous) as [|k] eqn:Hk; [|done]. injection Hi as <-.
    exists a. rewrite take_app_length'; [done|]. lia.
Qed.

Lemma succeeded_before history i phase :
  succeeded (take i history) phase = true →
  ∃ j a, j < i ∧ history !! j = Some a ∧ ma_phase a = phase ∧ ma_state a = AttemptSucceeded.
Proof.
  unfold succeeded. intros (a & Ha & Hp)%existsb_true. bool_to_prop.
  apply elem_of_take in Ha as (j & Hj & Hlt). by exists j, a.
Qed.

Lemma prerequisites_at history i a :
  attempts history → history !! i = Some a →
  migration_phase_prerequisites_met plan (take i history) (ma_phase a) = true.
Proof. intros Hh (b & Hb)%(attempts_at _ _ _ Hh). apply sealed_attempt in Hb. apply Hb. Qed.

Lemma climbed_rehearsal history i a :
  attempts history → history !! i = Some a → ma_phase a = MigExecute → climbed history i rehearsed.
Proof.
  intros Hh Ha Hp. pose proof (prerequisites_at history i a Hh Ha) as Hpre. rewrite Hp in Hpre.
  simpl in Hpre. apply andb_true_iff in Hpre as [_ Hpre]. clear a Ha Hp.
  assert (∀ phase phases, (∀ j b, history !! j = Some b → ma_phase b = phase →
      migration_phase_prerequisites_met plan (take j history) (ma_phase b) = true →
      climbed history j phases) →
    ∀ j b, history !! j = Some b → ma_phase b = phase → climbed history j phases) as Hlift.
  { intros phase phases Hall j b Hb Hpb. eapply Hall; [done..|]. by apply prerequisites_at. }
  assert (∀ phase phases k, succeeded (take k history) phase = true →
    (∀ j b, history !! j = Some b → ma_phase b = phase →
      migration_phase_prerequisites_met plan (take j history) (ma_phase b) = true →
      climbed history j phases) → climbed history k (phase :: phases)) as Hstep.
  { intros phase phases k (j & b & Hj & Hb & Hpb & Hst)%succeeded_before Hall.
    exists j, b. split_and!; try done. by eapply Hlift. }
  unfold rehearsed.
  apply Hstep; [done|]. intros j1 b1 _ -> H1. apply Hstep; [done|]. intros j2 b2 _ -> H2.
  apply Hstep; [done|]. intros j3 b3 _ -> H3. apply Hstep; [done|]. intros j4 b4 _ -> H4.
  apply Hstep; [done|]. intros j5 b5 _ -> H5. apply Hstep; [done|]. by intros j6 b6 _ ->.
Qed.

(** C18: in the history of a plan an execution comes after the whole
    rehearsal, each phase succeeded and in its order, with no blocker left, a permission
    and a gate decision; an activation comes after a succeeded validation and that
    after a succeeded execution or resumption. Attempts never repeat an identifier
    or number, and an unknown outcome claims no effect. *)
Theorem attempts_climb_in_order history :
  attempts history →
  (∀ i a, history !! i = Some a → ma_phase a = MigExecute →
     mp_blockers plan = [] ∧ climbed history i rehearsed ∧
     is_Some (ma_permission_decision_ref a) ∧ is_Some (ma_gate_decision_ref a)) ∧
  (∀ i a, history !! i = Some a → ma_phase a = MigActivate →
     climbed history i [MigValidate; MigExecute] ∨ climbed history i [MigValidate; MigResume]) ∧
  (∀ i a, history !! i = Some a → ma_state a = AttemptOutcomeUnknown → ma_effect_committed a = None) ∧
  NoDup (map ma_attempt_id history) ∧ NoDup (map ma_attempt_no history).
Proof.
  intros Hh. split; [|split; [|split]].
  - intros i a Ha Hp. pose proof (prerequisites_at history i a Hh Ha) as Hpre. rewrite Hp in Hpre.
    simpl in Hpre. apply andb_true_iff in Hpre as [Hb%no_items_spec _].
    destruct (attempts_at history i a Hh Ha) as (b & Hs). apply sealed_attempt in Hs as (_ & Hl & _).
    split_and!; [done|by eapply climbed_rehearsal|apply Hl; by rewrite Hp..].
  - intros i a Ha Hp. pose proof (prerequisites_at history i a Hh Ha) as Hpre. rewrite Hp in Hpre.
    apply succeeded_before in Hpre as (j & b & Hj & Hb & Hpb & Hst).
    pose proof (prerequisites_at history j b Hh Hb) as Hpre. rewrite Hpb in Hpre.
    simpl in Hpre. apply orb_true_iff in Hpre as [Hpre|Hpre]; [left|right];
      apply succeeded_before in Hpre as (k & d & Hk); exists j, b; (split_and!; try done); exists k, d; by destruct_and!.
  - intros i a Ha. destruct (attempts_at history i a Hh Ha) as (b & Hs).
    apply sealed_attempt in Hs. apply Hs.
  - induction Hh as [|previous a a' Hh IH Hs]; [split; constructor|].
    destruct IH as [IH1 IH2]. apply sealed_attempt in Hs as (_ & _ & _ & _ & _ & Hd).
    rewrite !map_app. simpl.
    split; apply NoDup_app; (split_and!; [done| |apply NoDup_singleton]);
      intros x (b & -> & Hb)%list_elem_of_fmap ?%list_elem_of_singleton;
      destruct (Hd b Hb); congruence.
Qed.
End attempt_facts.

(** ** Reports *)

Section report_facts.
Context `{Platform}.

(** A rewrite is equivalent exactly when some dimension is required, every
    required one was found equivalent or not needed, nothing about its semantics is
    unknown and it builds. *)
Theorem equivalence_is_earned plan r r' :
  seal_equivalence_report plan r = Ok r' →
  er_equivalence_state r' = EqEquivalent ↔
    (∃ d, d ∈ er_dimension_results r ∧ ed_required d = true) ∧
    (∀ d, d ∈ er_dimension_results r → ed_required d = true →
       ed_state d = DimEquivalent ∨ ed_state d = DimNotRequired) ∧
    er_unknown_semantics r = [] ∧ er_build_compile_result r = "pass".
Proof.
  unfold seal_equivalence_report. intros Hs. err_cases Hs. injection Hs as <-. simpl. clear Heqr0 Heqb.
  unfold aggregate_equivalence. simpl.
  set (required := List.filter ed_required _).
  assert (∀ d, d ∈ required ↔ d ∈ er_dimension_results r ∧ ed_required d = true) as Hreq.
  { intros d. unfold required. rewrite list_elem_of_In, filter_In, <-list_elem_of_In.
    unfold sort_by_key. by rewrite elem_of_sort_by. }
  assert (∀ s, existsb (λ d, bool_decide (ed_state d = s)) required = true ↔
    ∃ d, d ∈ required ∧ ed_state d = s) as Hany.
  { intros s. rewrite existsb_true. by setoid_rewrite bool_decide_eq_true. }
  clearbody required. split.
  - intros Hst. repeat match type of Hst with
    | (if ?b then _ else _) = _ => destruct b eqn:?; try discriminate Hst end.
    bool_to_prop. destruct required as [|d0 required]; [discriminate|].
    split; [exists d0; apply Hreq; by left|]. split; [|split; [by apply no_items_spec|done]].
    intros d Hd Hr. assert (d ∈ d0 :: required) as Hin by exact (proj2 (Hreq d) (conj Hd Hr)).
    match goal with Hf : forallb _ _ = true |- _ => rewrite forallb_true in Hf; specialize (Hf d Hin) end.
    by bool_to_prop.
  - intros ((d0 & Hd0) & Hall & Hu & Hb).
    assert (no_items required = false) as ->.
    { apply not_true_iff_false. rewrite no_items_spec. intros Hn. apply Hreq in Hd0. rewrite Hn in Hd0.
      by apply elem_of_nil in Hd0. }
    assert (∀ s, s ≠ DimEquivalent → s ≠ DimNotRequired →
      existsb (λ d, bool_decide (ed_state d = s)) required = false) as Hno.
    { intros s H1 H2. apply not_true_iff_false. rewrite Hany. intros (d & Hd & <-).
      apply Hreq in Hd as [Hd Hr]. by destruct (Hall d Hd Hr). }
    rewrite !Hno by done. rewrite Hu, Hb. simpl.
    assert (forallb (λ d, bool_decide (ed_state d = DimEquivalent ∨ ed_state d = DimNotRequired)) required
            = true) as ->; [|done].
    apply forallb_true. intros d Hd. apply Hreq in Hd as [Hd Hr]. apply bool_decide_true. exact (Hall d Hd Hr).
Qed.

(** A validation passes exactly when its coverage is complete and every invariant
    passed without loss. *)
Theorem validation_passes_exactly r r' :
  seal_migration_validation_report r = Ok r' →
  mr_state r' = "pass" ↔
    mr_completeness r = CoverageComplete ∧
    ∀ i, i ∈ mr_invariant_results r → ir_state i = "pass" ∧ ir_loss_observed i = false.
Proof.
  unfold seal_migration_validation_report. intros Hs. err_cases Hs. injection Hs as <-. simpl. clear Heqr0 Heqb.
  unfold report_state.
  assert (∀ p, existsb p (sort_by_key ir_invariant_ref (mr_invariant_results r)) = false ↔
    ∀ i, i ∈ mr_invariant_results r → p i = false) as Hex.
  { intros p. rewrite existsb_false. unfold sort_by_key. by setoid_rewrite elem_of_sort_by. }
  destruct (existsb (λ r, _ || _) _) eqn:H1; [|destruct (_ || existsb _ _) eqn:H2].
  - split; [done|]. intros [_ Hall]. apply not_false_iff_true in H1. destruct H1. apply Hex.
    intros i Hi. destruct (Hall i Hi) as [-> ->]. done.
  - split; [done|]. intros [Hc Hall]. apply not_false_iff_true in H2. destruct H2.
    rewrite Hc. simpl. apply Hex. intros i Hi. by destruct (Hall i Hi) as [-> _].
  - apply orb_false_iff in H2 as [Hc H2]. bool_to_prop. rewrite Hex in H1, H2.
    split; [|done]. intros _. split; [done|]. intros i Hi. specialize (H1 i Hi). specialize (H2 i Hi).
    simpl in *. by bool_to_prop.
Qed.
End report_facts.

(** ** Examples *)

Fixpoint seal_all `{Platform} (plan : MigrationPlanV2) (previous drafts : list MigrationAttempt) :
    result (list MigrationAttempt) DevelopmentError :=
  match drafts with
  | [] => Ok previous
  | a :: drafts => let? a := seal_migration_attempt plan previous a in
                   seal_all plan (previous ++ [a]) drafts
  end.

Lemma seal_all_attempts `{Platform} plan previous drafts history :
  attempts plan previous → seal_all plan previous drafts = Ok history → attempts plan history.
Proof.
  revert previous. induction drafts as [|a drafts IH]; intros previous Hp Hs; simpl in Hs.
  - by injection Hs as <-.
  - destruct (seal_migration_attempt plan previous a) as [a'|] eqn:Ha; [|done].
    eapply IH; [|exact Hs]. by econstructor.
Qed.

Definition demo_step (id from to : string) (effect : MigrationEffectClass) : MigrationStepDefinition := {|
  sd_step_id := id; sd_step_version := "1"; sd_from_version := from; sd_to_version := to;
  sd_preconditions := []; sd_invocation_template_ref := "tool"; sd_effect_class := effect;
  sd_write_scope := ["db/data"]; sd_idempotency_contract := NotReplaySafe; sd_checkpoint_policy := "each";
  sd_unknown_field_policy := UnknownFieldBlock; sd_invariant_refs := ["rows"];
  sd_expected_output := "out"; sd_rollback_ref := "back"; sd_tool_ref := "tool";
  sd_normalizer_ref := "norm"; sd_definition_fingerprint := "d" |}.

Definition demo_manifest : ProjectMigrationManifest := {|
  pm_schema_id := PROJECT_MIGRATION_MANIFEST_SCHEMA_ID; pm_schema_version := 1; pm_manifest_id := "m";
  pm_manifest_version := "1"; pm_project_id := "prj_1";
  pm_target_specs := [ {| mt_target_id := "db"; mt_target_kind := TargetDatabase; mt_owner := "o";
                          mt_locator_class := "l"; mt_sensitivity := "s"; mt_version_source_ref := "v";
                          mt_current_version := None; mt_target_version := "3" |} ];
  pm_migration_chains := [ {| mc_chain_id := "main"; mc_target_id := "db";
                              mc_steps := [demo_step "one" "1" "2" EffectLiveDestructive;
                                           demo_step "two" "2" "3" EffectLiveNondestructive] |} ];
  pm_invariant_specs := [ {| mi_invariant_id := "rows"; mi_invariant_kind := "count"; mi_required := true;
                             mi_before_check_ref := "b"; mi_after_check_ref := "a";
                             mi_loss_budget := None |} ];
  pm_backup_specs := []; pm_rehearsal_specs := []; pm_activation_specs := []; pm_rollback_specs := [];
  pm_consumer_refs := []; pm_tool_refs := []; pm_check_refs := []; pm_cross_project_relations := [];
  pm_content_fingerprint := "f" |}.

Definition demo_observed (version : option string) : MigrationVersionEntry := {|
  ve_axis_id := "db"; ve_owner := "o"; ve_observed_version := version; ve_version_scheme := "int";
  ve_source_ref := "probe"; ve_source_fingerprint := "p"; ve_coverage := CoverageComplete;
  ve_observation_state := VersionObserved |}.

Definition demo_vector (version : option string) : MigrationVersionVector :=
  let entries := [demo_observed version] in
  {| vv_entries := entries;
     vv_vector_fingerprint := match vector_fingerprint entries with Ok h => h | Err _ => "" end |}.

Definition demo_input (version : option string) (strategy : MigrationStrategy) : MigrationPlanInput := {|
  mn_migration_plan_id := "plan"; mn_revision := 1; mn_task_spec_ref := "t"; mn_scope_revision_ref := "s";
  mn_impact_analysis_ref := "i"; mn_checkout_id := "c"; mn_source_subject_fingerprint := "x";
  mn_target_id := "db"; mn_observed_version_vector := demo_vector version; mn_strategy := strategy;
  mn_resource_estimate := "r"; mn_rollback_plan_ref := "rb"; mn_validation_plan_refs := [];
  mn_permission_checkpoints := []; mn_source_patch_refs := []; mn_consumer_compatibility_refs := [];
  mn_cross_project_handoff_ref := None |}.

Definition demo_attempt (plan : MigrationPlanV2) (n : N) (id : string) (phase : MigrationPhase)
    (state : MigrationAttemptState) : MigrationAttempt := {|
  ma_schema_id := MIGRATION_ATTEMPT_SCHEMA_ID; ma_schema_version := 1; ma_attempt_id := id;
  ma_attempt_no := n; ma_plan_ref := "plan"; ma_plan_fingerprint := mp_plan_fingerprint plan;
  ma_phase := phase; ma_step_ref := None; ma_subject_binding_before := "b";
  ma_checkpoint_before_ref := None; ma_permission_decision_ref := Some "p"; ma_gate_decision_ref := Some "g";
  ma_invocation_ref := None; ma_tool_observation_ref := None; ma_receipt_refs := ["r"];
  ma_subject_binding_after := Some "a"; ma_checkpoint_after_ref := None; ma_diagnostic_refs := [];
  ma_state := state; ma_effect_committed := Some true; ma_loss_observed := None;
  ma_attempt_fingerprint := "u" |}.

Definition shortcut (plan : MigrationPlanV2) : list MigrationAttempt :=
  [demo_attempt plan 1 "a1" MigDryRun AttemptOutcomeUnknown;
   demo_attempt plan 2 "a2" MigResume AttemptSucceeded;
   demo_attempt plan 3 "a3" MigValidate AttemptSucceeded;
   demo_attempt plan 4 "a4" MigActivate AttemptSucceeded].

Definition proper (plan : MigrationPlanV2) : list MigrationAttempt :=
  [demo_attempt plan 1 "a1" MigDryRun AttemptSucceeded;
   demo_attempt plan 2 "a2" MigBackup AttemptSucceeded;
   demo_attempt plan 3 "a3" MigBackupVerify AttemptSucceeded;
   demo_attempt plan 4 "a4" MigRestoreRehearsal AttemptSucceeded;
   demo_attempt plan 5 "a5" MigMigrationRehearsal AttemptSucceeded;
   demo_attempt plan 6 "a6" MigPreExecuteGate AttemptSucceeded;
   demo_attempt plan 7 "a7" MigExecute AttemptSucceeded].

Definition demo_checkpoint (plan : MigrationPlanV2) : MigrationCheckpointV2 := {|
  mk_schema_id := MIGRATION_CHECKPOINT_V2_SCHEMA_ID; mk_schema_version := 2; mk_checkpoint_id := "k";
  mk_plan_ref := "plan"; mk_plan_fingerprint := mp_plan_fingerprint plan;
  mk_completed_step_refs := ["one"]; mk_in_progress_step_ref := Some "two"; mk_target_version := "3";
  mk_target_state_fingerprint := "s"; mk_last_receipt_ref := None; mk_replay_safe := false;
  mk_reconciliation_required := true; mk_checkpoint_fingerprint := "u" |}.

Lemma demo_plans :
  match build_migration_plan demo_manifest (demo_input (Some "1") TransactionalInPlace),
        build_migration_plan demo_manifest (demo_input (Some "1") SideBySide) with
  | Some (Ok blocked), Some (Ok plan) =>
      mp_support_decision blocked = Migratable ∧ mp_blockers blocked ≠ [] ∧
      is_ok (seal_all blocked [] (shortcut blocked)) = true ∧
      mp_support_decision plan = Migratable ∧
      is_ok (seal_all plan [] (proper plan)) = true ∧
      is_ok (seal_migration_checkpoint plan (demo_checkpoint plan)) = true
  | _, _ => False
  end.
Proof. vm_compute. split_and!; discriminate || reflexivity. Qed.

Lemma seal_all_phases `{Platform} plan previous drafts history :
  seal_all plan previous drafts = Ok history →
  map (λ a, (ma_phase a, ma_state a)) history
  = map (λ a, (ma_phase a, ma_state a)) (previous ++ drafts).
Proof.
  revert previous. induction drafts as [|a drafts IH]; intros previous Hs; simpl in Hs.
  - injection Hs as <-. by rewrite app_nil_r.
  - destruct (seal_migration_attempt plan previous a) as [a'|] eqn:Ha; [|done].
    rewrite (IH _ Hs), !map_app. simpl. rewrite <-app_assoc. simpl. do 2 f_equal.
    unfold seal_migration_attempt in Ha. err_cases Ha. by injection Ha as <-.
Qed.

(** A history that skips the rehearsal: after a dry run of unknown outcome a
    blocked plan with a destructive step is resumed, validated and activated,
    although nothing was backed up, rehearsed or executed. *)
Example resumption_skips_the_rehearsal :
  ∃ m input plan history,
    build_migration_plan m input = Some (Ok plan) ∧
    mp_support_decision plan = Migratable ∧ mp_blockers plan ≠ [] ∧
    attempts plan history ∧
    map (λ a, (ma_phase a, ma_state a)) history
    = [(MigDryRun, AttemptOutcomeUnknown); (MigResume, AttemptSucceeded);
       (MigValidate, AttemptSucceeded); (MigActivate, AttemptSucceeded)].
Proof.
  pose proof demo_plans as Hd.
  exists demo_manifest, (demo_input (Some "1") TransactionalInPlace).
  destruct (build_migration_plan demo_manifest (demo_input (Some "1") TransactionalInPlace))
    as [[plan|]|]; [|destruct Hd..].
  destruct (build_migration_plan demo_manifest (demo_input (Some "1") SideBySide)) as [[plan'|]|];
    [|destruct Hd..].
  destruct Hd as (Hm & Hb & Hs & _).
  destruct (seal_all plan [] (shortcut plan)) as [history|] eqn:Hh; [|discriminate Hs].
  exists plan, history. split; [reflexivity|]. split; [exact Hm|]. split; [exact Hb|]. split.
  - eapply seal_all_attempts; [|exact Hh]. constructor.
  - exact (seal_all_phases _ _ _ _ Hh).
Qed.

Lemma migration_plan_exact_witness :
  ∃ plan, build_migration_plan demo_manifest (demo_input (Some "1") SideBySide) = Some (Ok plan) ∧
    mp_support_decision plan = Migratable ∧ mp_ordered_steps plan ≠ [].
Proof.
  pose proof demo_plans as Hd.
  destruct (build_migration_plan demo_manifest (demo_input (Some "1") TransactionalInPlace))
    as [[blocked|]|]; [|destruct Hd..].
  destruct (build_migration_plan demo_manifest (demo_input (Some "1") SideBySide)) as [[plan|]|] eqn:Hp;
    [|destruct Hd..].
  destruct Hd as (_ & _ & _ & Hm & _).
  exists plan. split; [reflexivity|]. split; [exact Hm|].
  destruct (migration_plan_exact demo_manifest (demo_input (Some "1") SideBySide) plan Hp)
    as (target & _ & _ & _ & _ & _ & Hs & _).
  exact (proj1 (Hs Hm)).
Defined.

Lemma checkpoint_can_be_continued_witness :
  ∃ plan c finished rest,
    build_migration_plan demo_manifest (demo_input (Some "1") SideBySide) = Some (Ok plan) ∧
    seal_migration_checkpoint plan (demo_checkpoint plan) = Ok c ∧
    mp_ordered_steps plan = finished ++ rest ∧
    mk_completed_step_refs c = map rs_step_id finished.
Proof.
  pose proof demo_plans as Hd.
  destruct (build_migration_plan demo_manifest (demo_input (Some "1") TransactionalInPlace))
    as [[blocked|]|]; [|destruct Hd..].
  destruct (build_migration_plan demo_manifest (demo_input (Some "1") SideBySide)) as [[plan|]|] eqn:Hp;
    [|destruct Hd..].
  destruct Hd as (_ & _ & _ & Hm & _ & Hc).
  destruct (seal_migration_checkpoint plan (demo_checkpoint plan)) as [c|] eqn:Hk; [|discriminate Hc].
  destruct (checkpoint_can_be_continued demo_manifest (demo_input (Some "1") SideBySide) plan
              (demo_checkpoint plan) c Hp Hm Hk)
    as (target & v & mid & finished & rest & _ & _ & Hsplit & Hdone & _).
  exists plan, c, finished, rest. split; [reflexivity|]. split; [exact Hk|].
  split; [exact Hsplit|exact Hdone].
Defined.

Lemma attempts_climb_in_order_witness :
  ∃ plan history, attempts plan history ∧ history ≠ [] ∧ NoDup (map ma_attempt_id history).
Proof.
  pose proof demo_plans as Hd.
  destruct (build_migration_plan demo_manifest (demo_input (Some "1") TransactionalInPlace))
    as [[blocked|]|]; [|destruct Hd..].
  destruct (build_migration_plan demo_manifest (demo_input (Some "1") SideBySide)) as [[plan|]|] eqn:Hp;
    [|destruct Hd..].
  destruct Hd as (_ & _ & _ & _ & Hs & _).
  destruct (seal_all plan [] (proper plan)) as [history|] eqn:Hh; [|discriminate Hs].
  exists plan, history.
  assert (attempts plan history) as Ha by (eapply seal_all_attempts; [constructor|exact Hh]).
  split; [exact Ha|]. split.
  - intros Hn. pose proof (seal_all_phases _ _ _ _ Hh) as Hl. rewrite Hn in Hl. discriminate Hl.
  - apply (attempts_climb_in_order plan history Ha).
Defined.
